(* ===== verification/_CoqProject ===== *)
-Q . S2P
Prelude.v
Text.v
Nslookup.v
Serialize.v
Ordered.v
External.v
MiniJson.v
Address.v
BlockInfo.v
BlockInfoCodec.v
NodeTestsBlockInfo.v
BlockChainInterface.v
BlockChain.v
BlockChainFacts.v
LevelDb.v
Cache.v
Heap.v
LocalCache.v
AddressGroups.v
AddressGroupsFacts.v
Modules.v
Workers.v
WorkersFacts.v
BlockchainUtils.v
Dumps.v
CryptoUtils.v
PrivateKey.v
Keys.v
BlockchainRead.v
BlockchainReadFacts.v
Sync.v
SyncFacts.v
Instances.v
ChainProps.v
CodecProps.v
CacheProps.v
WorkerProps.v
WireProps.v
P2P.v
P2PFacts.v
P2PSeq.v
JsonApi.v
SystemUtils.v
Server.v
Shutdown.v
Graph.v
P2PLayers.v
P2PLayersFacts.v
GetNewBlocks.v
ServerFacts.v
ClientServer.v
GetNewBlocksFacts.v
NetworkSource.v
NetworkSourceFacts.v
HonestNet.v
SampleNet.v
Responsive.v
HonestLive.v
FileSource.v
FileSourceFacts.v
SyncRun.v
SyncRunFacts.v
RetryFacts.v
WorkerThread.v
FullBlock.v
NodeFacts.v
NodeToNode.v
NodeLive.v
Replicas.v
Config.v
NetProps.v
LayerProps.v
TestNodes.v
TestNodesFacts.v
TestProps.v
ServerProps.v
NodeProps.v
FullBlockProps.v
ConfigProps.v
ReplicaProps.v
