(* ===== verification/Prelude.v ===== *)
(** * MetaHash InfrastructureTorrent node: a verification development

    The program under src/src is a node that follows a blockchain: it downloads
    blocks from other nodes (or reads them from files), keeps them in block
    files, the headers in LevelDB and in memory, and serves headers and dumps of
    blocks to other nodes over HTTP.  This library models its own code, and not
    the third-party code under src/3rdParty, nor libmhsupport ([common_utils],
    an empty submodule), which are arguments of the definitions.

    ** The parts of the program and how they interact

    main.cpp reads the options and makes a [Sync] and a [Server].  [SyncImpl]
    holds the chain of headers ([BlockChain]), the database ([LevelDb]), the
    caches and the key; its thread asks a source of blocks
    ([NetworkBlockSource] or [FileBlockSource]) for what follows the chain and,
    for each block, numbers it, saves it to its file, stores its header and
    hands it to the workers ([WorkerCache], [WorkerMain], [WorkerNodeTest]).
    The network source asks other nodes through a layer of [P2P], which cuts
    large answers into segments; the other end is [Server], which reads the
    chain through [BlockChainReadInterface] and the dumps from [SyncImpl].

    ** How code is modelled

    A definition has the name of the C++ function, or that name with its class,
    and the comment before it gives the file and the lines it translates.  A
    fallible function returns [res]: a value, an exception of one of the four
    kinds that handlers tell apart, undefined behaviour, or [OutOfFuel].  A
    method that changes its object is a [meth], a function from the state to the
    state it leaves, also by an exception, and its outcome.  [size_t] is a [Z]
    with [u64] written where it wraps; strings and vectors of bytes are lists of
    bytes.  A mutex held for a whole body makes the body one step; what threads
    do concurrently (segments, broadcasts, nodes) is a relation of steps.

    ** The files

    - Prelude, Text, Ordered: bytes, integers, outcomes, [std::string],
      [std::set] and [std::map] with the tactics and hints of the library;
      External: the interfaces to linked code with their documented laws;
      MiniJson, Instances, SampleNet: concrete instances for the witnesses.
    - Serialize, Address, BlockInfo, NodeTestsBlockInfo, BlockInfoCodec:
      utils/serialize.h, Address.cpp, BlockInfo.cpp,
      Workers/NodeTestsBlockInfo.cpp; the class [Codec] of Serialize is the
      interface between a record and the code that stores it.  Theorems in
      CodecProps.
    - BlockChainInterface, BlockChain, BlockChainFacts: BlockChain.cpp, its
      abstract specification (a list of hashes that a header extends or not) and
      the refinement.  LevelDb, Cache, Heap, LocalCache, AddressGroups, Modules:
      the files of those names.  Theorems in ChainProps, CacheProps.
    - Workers: the bodies of the workers' loops as steps; both database workers
      implement the class [Follower] of WorkersFacts.  WorkerThread: the main
      worker's thread with its queue of one place next to the synchronisation
      thread, as a relation of steps over one database.  FullBlock:
      [WorkerMain::getFullBlock].  Theorems in WorkerProps, NodeProps,
      FullBlockProps.
    - BlockchainUtils, CryptoUtils, PrivateKey, Keys, Dumps, BlockchainRead:
      BlockchainUtils.cpp, utils/crypto.cpp, PrivateKey.cpp, utils/compress.cpp
      with the dumps of generate_json.cpp, BlockchainRead.cpp.  Theorems in
      WireProps.
    - Sync: the loop of SyncImpl.cpp over one block ([handle_block]), the
      restart ([load_chain]) and the dumps it serves; SyncRun: its construction,
      start and rounds over the interface [BlockSource]; NetworkSource and
      FileSource implement it.  Theorems in ChainProps and NodeProps.
    - P2P, P2PSeq, P2PLayers, Graph: P2P/ and utils/Graph.cpp; GetNewBlocks:
      BlockSource/GetNewBlocksFromServers.cpp over the interface [P2PNet].
      Theorems in NetProps, LayerProps.
    - JsonApi, Server, ClientServer: generate_json.cpp, Server.cpp, and a
      request of one node answered by another.  Theorems in ServerProps.
    - TestNodes: TestP2PNodes.cpp.  Theorems in TestProps.
    - Nslookup, Config: nslookup.cpp, main.cpp, ConfigOptions.h, checkVirtual.cpp;
      Shutdown: how the threads of main.cpp and Server.cpp end, as a relation of
      steps.  Theorems in ConfigProps.
    - SystemUtils: utils/SystemInfo.cpp, libeventWrapper.cpp.
    - HonestNet, NodeFacts, NodeToNode, Replicas: what a node makes of nodes
      that answer with their chain, asked for one block at a time or for all that
      is loaded ahead at once ([batch_fits]); that a node running this program is
      such a node; many nodes that copy each other.  Responsive, HonestLive,
      NodeLive: the same for nodes that answer every request they can - no download
      fails, no load fails, the round ends well.  Theorems in NodeProps and
      ReplicaProps.

    A file named ...Facts holds the lemmas of its component, a file named
    ...Props its theorems with the inputs they are evaluated at.

    ** What the theorems show

    - Nodes together, without validation, with one block in a request or a whole load
      in one ([batch_fits]; other sizes can mix up headers, [short_part_wrong_number]): a node
      that asks nodes running this program gets the same hashes and the same bytes
      ([chain_copied]), and all of them when they answer ([chain_copied_whole]);
      after any such rounds and restarts, two nodes do not disagree about a block
      ([nodes_agree]).
    - One node: its rounds follow an honest network ([node_follows_network]);
      its chain, database and files stay consistent and survive a restart
      ([reachable_states_consistent], [restart_restores_chain]); its workers are
      given what they missed ([start_resumes_workers]), and what the main worker
      lacks is in its queue or about to be pushed, wherever the program is stopped
      ([worker_catches_up]).  With validation a round holds its last block back
      ([validated_blocks_confirmed]); [node_follows_network] is about rounds
      without.
    - The chain of headers refines a list that is extended or left alone; its
      walks end.
    - Downloads: whatever the interleaving of the threads and the failures of
      the servers, a download that succeeds is made of answers to exactly the
      ranges asked for; of at most 1000 segments, the room of its queue, it ends,
      and of any number it ends well when every request is answered; a larger one
      whose servers fail can wait for ever ([large_download_jams]).
    - The protocol: what the server answers, the client's readers read back;
      every request is answered, with a status that tells whose error it was
      ([server_answers]); signed dumps are accepted or refused as stated.
    - Encodings are read back; the parser of blocks stays within its buffer
      where it checks, and a validated transaction is signed by its sender.
    - The options arrive with their values, at the width where they are used.
      After the stop signal the program ends, and not before the last request
      that uses its objects, if the HTTP library returns from its start only with
      idle threads ([stopped_program_ends]).

    The defects that came up are theorems or examples of their own, on concrete
    inputs, next to the definitions they concern.

    ** Fuel and bounds

    Fuel is a bound on the rounds of a loop.  The walk of [calcBlockchain] needs
    one more round than the chain has headers; the loop over the transactions of
    a block one more than the block has bytes, since each round moves forward;
    the reading of a batch as many as the batch has blocks; a round of the
    synchronisation one more than the blocks it takes.  Each of these is proved
    enough.  A crafted batch can make its reader run for ever: it then runs out
    of any fuel, which is what is proved of it.  Hypotheses such as
    [blen file < 2 ^ 62] keep positions in the range of file offsets.

    ** Not modelled

    The class of synchronize_blockchain.h forwards to [SyncImpl];
    utils/benchmarks.cpp times other code and is not called; the load average of
    utils/SystemInfo.cpp is a floating-point number.  The HTTP client inside
    libeventWrapper.cpp is not in the repository.
    Sleeping, logging, timers and statistics of time, and the atomic
    [knownLastBlock] that only the forwarding getter reads are left out.  Threads
    are modelled where they meet - downloads, tests, the main worker, the end of
    the program -; making them is not, nor are the queues of the two other
    workers, nor the tests of the stop signal inside the synchronisation.  The commented-out code of
    BlockchainUtils.cpp and [crypto_check_sign_data2], which nothing calls, are
    left out too.  The order in which hash containers are gone through is an
    argument. *)
From Stdlib Require Export ZArith Lia Bool String.
From Stdlib Require Import DecimalString DecimalZ DecimalFacts.
From Stdlib Require Export Init.Byte Strings.Byte.
From stdpp Require Export base tactics countable gmap list sorting strings.

#[local] Open Scope Z_scope.

(** ** Bytes and byte strings

    [std::string], [std::vector<char>] and [std::vector<unsigned char>] are all
    sequences of 8-bit values in the source; they are lists of bytes here. *)

Abbreviation bytes := (list byte).

#[global] Instance byte_eq_dec_inst : EqDecision byte := Byte.byte_eq_dec.

#[global] Program Instance byte_countable : Countable byte :=
  inj_countable Byte.to_N Byte.of_N _.
Next Obligation. intros b. apply Byte.of_to_N. Qed.

(** The unsigned value of a byte, and the byte a value is truncated to. *)
Definition b2z (b : byte) : Z := Z.of_N (Byte.to_N b).

Definition z2b (z : Z) : byte :=
  match Byte.of_N (Z.to_N (z mod 256)) with Some b => b | None => Byte.x00 end.

(** A string literal of the source. *)
Definition str (s : string) : bytes := String.list_byte_of_string s.

(** [size()] of a string or a vector. *)
Definition blen {A} (l : list A) : Z := Z.of_nat (length l).

Lemma b2z_range b : 0 <= b2z b < 256.
Proof.
  unfold b2z. pose proof (Byte.to_N_bounded b). lia.
Qed.

Lemma z2b_b2z b : z2b (b2z b) = b.
Proof.
  unfold z2b. rewrite Z.mod_small by apply b2z_range.
  unfold b2z. rewrite N2Z.id, Byte.of_to_N. done.
Qed.

Lemma b2z_z2b z : b2z (z2b z) = z mod 256.
Proof.
  unfold z2b. pose proof (Z.mod_pos_bound z 256 ltac:(lia)) as Hb.
  destruct (Byte.of_N (Z.to_N (z mod 256))) as [b|] eqn:E.
  - apply Byte.to_of_N in E. unfold b2z. rewrite E. lia.
  - apply Byte.of_N_None_iff in E. lia.
Qed.

Lemma b2z_inj a b : b2z a = b2z b -> a = b.
Proof. intros H. rewrite <- (z2b_b2z a), H. apply z2b_b2z. Qed.

(** ** Machine integers: [size_t] and [uint64_t] are values in [0, 2^64). *)

Definition u64 (z : Z) : Z := z mod 2 ^ 64.

Definition is_u64 (z : Z) : Prop := 0 <= z < 2 ^ 64.

(** [std::numeric_limits<size_t>::max()], also [std::string::npos]. *)
Definition u64_max : Z := 2 ^ 64 - 1.

(** Conversion of an unsigned 64-bit value to [int64_t]. *)
Definition to_i64 (z : Z) : Z :=
  let r := u64 z in if r <? 2 ^ 63 then r else r - 2 ^ 64.

Definition is_i64 (z : Z) : Prop := - 2 ^ 63 <= z < 2 ^ 63.

(** Conversion of a [size_t] to [int]. *)
Definition to_i32 (z : Z) : Z :=
  let r := z mod 2 ^ 32 in if r <? 2 ^ 31 then r else r - 2 ^ 32.

(** A load of an integer on a little-endian machine: the value of its bytes. *)
Fixpoint le_value (cs : bytes) : Z :=
  match cs with [] => 0 | c :: cs' => b2z c + 256 * le_value cs' end.

(** The object representation of a [w]-byte integer. *)
Fixpoint le_bytes (w : nat) (v : Z) : bytes :=
  match w with O => [] | S w' => z2b v :: le_bytes w' (v / 256) end.

Lemma u64_small z : is_u64 z -> u64 z = z.
Proof. unfold is_u64, u64. intros. by rewrite Z.mod_small. Qed.

Lemma length_le_bytes w v : length (le_bytes w v) = w.
Proof. revert v. induction w as [|w IH]; intros v; simpl; [done|]. by rewrite IH. Qed.

Lemma le_value_bytes w v : 0 <= v < 256 ^ Z.of_nat w -> le_value (le_bytes w v) = v.
Proof.
  revert v. induction w as [|w IH]; intros v Hv; cbn [le_bytes le_value].
  { simpl in Hv. lia. }
  rewrite b2z_z2b. rewrite Nat2Z.inj_succ, Z.pow_succ_r in Hv by lia. rewrite IH.
  - rewrite (Z.div_mod v 256) at 3 by lia. lia.
  - split; [apply Z.div_pos; lia|apply Z.div_lt_upper_bound; lia].
Qed.

Lemma u64_range z : is_u64 (u64 z).
Proof. unfold is_u64, u64. apply Z.mod_pos_bound. lia. Qed.

Lemma to_i64_u64 z : is_i64 z -> to_i64 (u64 z) = z.
Proof.
  unfold is_i64, to_i64. intros Hz. rewrite (u64_small (u64 z)) by apply u64_range.
  unfold u64. destruct (decide (0 <= z)).
  - rewrite Z.mod_small by lia. destruct (z <? 2 ^ 63) eqn:E; lia.
  - rewrite <- (Z_mod_plus_full z 1). rewrite Z.mod_small by lia.
    destruct (z + 1 * 2 ^ 64 <? 2 ^ 63) eqn:E; lia.
Qed.

Lemma to_i32_id z : - 2 ^ 31 <= z < 2 ^ 31 -> to_i32 z = z.
Proof.
  unfold to_i32. intros Hz. destruct (decide (0 <= z)).
  - rewrite Z.mod_small by lia. destruct (z <? 2 ^ 31) eqn:E; lia.
  - rewrite <- (Z_mod_plus_full z 1), Z.mod_small by lia. destruct (z + 1 * 2 ^ 32 <? 2 ^ 31) eqn:E; lia.
Qed.

Lemma blen_nonneg {A} (l : list A) : 0 <= blen l.
Proof. unfold blen. lia. Qed.

Lemma blen_app {A} (l k : list A) : blen (l ++ k) = blen l + blen k.
Proof. unfold blen. rewrite length_app. lia. Qed.

Lemma blen_cons {A} (x : A) l : blen (x :: l) = 1 + blen l.
Proof. unfold blen. simpl. lia. Qed.

Lemma blen_nil {A} : blen (@nil A) = 0.
Proof. done. Qed.

(** [std::to_string] of an integer. *)
Definition to_string (z : Z) : bytes := str (NilZero.string_of_int (Z.to_int z)).

Lemma str_inj s t : str s = str t -> s = t.
Proof.
  unfold str. intros H. apply (f_equal String.string_of_list_byte) in H.
  by rewrite !String.string_of_list_byte_of_string in H.
Qed.

Lemma to_string_inj a b : to_string a = to_string b -> a = b.
Proof.
  unfold to_string. intros H%str_inj.
  assert (forall z, NilZero.int_of_string (NilZero.string_of_int (Z.to_int z)) = Some (Z.to_int z)) as Hr.
  { intros z. apply NilZero.isi; intros E; pose proof (f_equal Z.of_int E) as E';
      rewrite DecimalZ.of_to in E'; subst z; discriminate. }
  apply (f_equal NilZero.int_of_string) in H. rewrite !Hr in H.
  injection H as H. by apply DecimalZ.to_int_inj.
Qed.

(** ** Outcomes of C++ code

    A call returns, throws, or has undefined behaviour; a model of a loop that
    was given too little fuel says so with [OutOfFuel].  The exceptions are the
    four the handlers of the source tell apart: [common::exception] (thrown by
    [CHECK] and [throwErr]), [UserException] ([CHECK_USER], [throwUserErr]),
    the standard library's exceptions, and [StopException]. *)
Inductive exc :=
  | ExcCommon (msg : bytes)
  | ExcUser (msg : bytes)
  | ExcStd (what : bytes)
  | ExcStop.

#[global] Instance exc_eq_dec : EqDecision exc.
Proof. solve_decision. Defined.

Inductive res (A : Type) :=
  | Ok (a : A)
  | Throw (e : exc)
  | UB
  | OutOfFuel.
Arguments Ok {A} a.
Arguments Throw {A} e.
Arguments UB {A}.
Arguments OutOfFuel {A}.

#[global] Instance res_ret : MRet res := fun A a => Ok a.
#[global] Instance res_bind : MBind res := fun A B f m =>
  match m with Ok a => f a | Throw e => Throw e | UB => UB | OutOfFuel => OutOfFuel end.
#[global] Instance res_fmap : FMap res := fun A B f m =>
  match m with Ok a => Ok (f a) | Throw e => Throw e | UB => UB | OutOfFuel => OutOfFuel end.
#[global] Instance res_eq_dec `{EqDecision A} : EqDecision (res A).
Proof. solve_decision. Defined.

(** [throwErr(msg)] and [CHECK(c, msg)] of check.h. *)
Definition throwErr {A} (msg : bytes) : res A := Throw (ExcCommon msg).
Definition CHECK (c : bool) (msg : bytes) : res unit :=
  if c then Ok tt else throwErr msg.
Definition CHECK_USER (c : bool) (msg : bytes) : res unit :=
  if c then Ok tt else Throw (ExcUser msg).

(** [optional::value()]. *)
Definition opt_value {A} (o : option A) : res A :=
  match o with Some a => Ok a | None => Throw (ExcStd (str "bad optional access")) end.

(** [vector::front], [vector::back] and [v[i]] have undefined behaviour out of range. *)
Definition opt_ub {A} (o : option A) : res A :=
  match o with Some a => Ok a | None => UB end.

(** [try { m } catch (const common::exception &e) { h }]. *)
Definition try_catch {A} (m : res A) (h : bytes -> res A) : res A :=
  match m with Throw (ExcCommon e) => h e | _ => m end.

Definition is_ok {A} (m : res A) : bool := match m with Ok _ => true | _ => false end.

Lemma bind_Ok {A B} (a : A) (f : A -> res B) : (Ok a ≫= f) = f a.
Proof. done. Qed.
Lemma bind_Throw {A B} e (f : A -> res B) : (Throw e ≫= f) = Throw e.
Proof. done. Qed.

Lemma bind_Ok_inv {A B} (m : res A) (f : A -> res B) b :
  (m ≫= f) = Ok b -> exists a, m = Ok a /\ f a = Ok b.
Proof. destruct m; [eauto|discriminate..]. Qed.

Lemma CHECK_Ok_inv c msg u : CHECK c msg = Ok u -> c = true.
Proof. destruct c; done. Qed.

Lemma CHECK_true msg : CHECK true msg = Ok tt.
Proof. done. Qed.

(** A computation whose model needs no more fuel. *)
Definition total {A} (m : res A) : Prop := m <> OutOfFuel.

Lemma total_bind {A B} (m : res A) (f : A -> res B) :
  total m -> (forall a, m = Ok a -> total (f a)) -> total (m ≫= f).
Proof. unfold total. destruct m; cbn; auto; discriminate. Qed.

Lemma total_fmap {A B} (m : res A) (f : A -> B) : total m -> total (f <$> m).
Proof. unfold total. destruct m; cbn; auto; discriminate. Qed.

(** A computation with an outcome of the program: a result or an exception. *)
Definition answers {A} (m : res A) : Prop := m <> UB /\ m <> OutOfFuel.

Lemma answers_bind {A B} (m : res A) (f : A -> res B) :
  answers m -> (forall a, m = Ok a -> answers (f a)) -> answers (m ≫= f).
Proof. unfold answers. destruct m; cbn; naive_solver. Qed.

Lemma answers_Ok {A} (a : A) : answers (Ok a).
Proof. done. Qed.

Lemma answers_Throw {A} e : answers (@Throw A e).
Proof. done. Qed.

Lemma answers_CHECK c msg : answers (CHECK c msg).
Proof. by destruct c. Qed.

Lemma answers_CHECK_USER c msg : answers (CHECK_USER c msg).
Proof. by destruct c. Qed.

Lemma total_CHECK c msg : total (CHECK c msg).
Proof. by destruct c. Qed.

Lemma total_Ok {A} (a : A) : total (Ok a).
Proof. done. Qed.

Lemma total_throwErr {A} msg : total (@throwErr A msg).
Proof. done. Qed.

(** [m2] returns whatever [m1] returns: it may be defined where [m1] fails. *)
Definition ok_le {A} (m1 m2 : res A) : Prop := forall a, m1 = Ok a -> m2 = Ok a.

#[global] Instance ok_le_preorder {A} : PreOrder (@ok_le A).
Proof. split; [by intros m a|]. intros m1 m2 m3 H12 H23 a Ha. by apply H23, H12. Qed.

Lemma ok_le_refl {A} (m : res A) : ok_le m m.
Proof. done. Qed.

Lemma ok_le_Throw {A} e (m : res A) : ok_le (Throw e) m.
Proof. done. Qed.

Lemma ok_le_bind {A B} (m1 m2 : res A) (f1 f2 : A -> res B) :
  ok_le m1 m2 -> (forall a, m1 = Ok a -> ok_le (f1 a) (f2 a)) -> ok_le (m1 ≫= f1) (m2 ≫= f2).
Proof. intros Hm Hf b (a & Ha & Hb)%bind_Ok_inv. rewrite (Hm a Ha). by apply (Hf a Ha). Qed.

(** Left folds of fallible steps: a range-for loop whose body may throw. *)
Fixpoint foldM {A B} (f : B -> A -> res B) (b : B) (l : list A) : res B :=
  match l with
  | [] => Ok b
  | x :: l' => b' ← f b x; foldM f b' l'
  end.

Lemma foldM_app {A B} (f : B -> A -> res B) b l k :
  foldM f b (l ++ k) = (b' ← foldM f b l; foldM f b' k).
Proof.
  revert b. induction l as [|x l IH]; intros b; [done|]. simpl.
  destruct (f b x); simpl; [apply IH|done..].
Qed.

(** ** Methods that change an object

    A non-const method takes the object's state and returns the state it leaves
    behind together with its outcome: an exception leaves the changes made
    before it in place. *)
Definition meth (S A : Type) : Type := S -> S * res A.

Definition mret' {S A} (a : A) : meth S A := fun s => (s, Ok a).
Definition mbind' {S A B} (m : meth S A) (f : A -> meth S B) : meth S B := fun s =>
  match m s with
  | (s', Ok a) => f a s'
  | (s', Throw e) => (s', Throw e)
  | (s', UB) => (s', UB)
  | (s', OutOfFuel) => (s', OutOfFuel)
  end.
Definition mlift {S A} (r : res A) : meth S A := fun s => (s, r).
Definition mget {S} : meth S S := fun s => (s, Ok s).
Definition mput {S} (s : S) : meth S unit := fun _ => (s, Ok tt).

Declare Scope meth_scope.
Delimit Scope meth_scope with meth.
Notation "'let*' x := m 'in' k" := (mbind' m (fun x => k))
  (at level 10, x pattern, m at level 100, k at level 200) : meth_scope.
Notation "'do*' m 'in' k" := (mbind' m (fun _ => k))
  (at level 10, m at level 100, k at level 200) : meth_scope.

(** The successful steps of a method, and its first failure. *)
Lemma mbind_Ok_inv {S A B} (m : meth S A) (f : A -> meth S B) s s' b :
  mbind' m f s = (s', Ok b) -> exists s1 a, m s = (s1, Ok a) /\ f a s1 = (s', Ok b).
Proof. unfold mbind'. destruct (m s) as [s1 [a| | |]]; [eauto|done..]. Qed.

Lemma mlift_Ok_inv {S A} (r : res A) (s s' : S) a : mlift r s = (s', Ok a) -> s' = s /\ r = Ok a.
Proof. unfold mlift. by intros [= <- ->]. Qed.

(** A property of the state that a method keeps, whatever its outcome. *)
Definition preserves {S A} (I : S -> Prop) (m : meth S A) : Prop :=
  forall s, I s -> I (fst (m s)).

Section preserves.
Context {S : Type} (I : S -> Prop).

Lemma preserves_ret {A} (a : A) : preserves I (mret' a).
Proof. by intros s. Qed.
Lemma preserves_lift {A} (r : res A) : preserves I (mlift r).
Proof. by intros s. Qed.
Lemma preserves_get : preserves I mget.
Proof. by intros s. Qed.
Lemma preserves_put s : I s -> preserves I (mput s).
Proof. by intros Hs s'. Qed.
Lemma preserves_bind {A B} (m : meth S A) (f : A -> meth S B) :
  preserves I m -> (forall a, preserves I (f a)) -> preserves I (mbind' m f).
Proof.
  intros Hm Hf s Hs. unfold mbind'. specialize (Hm s Hs). destruct (m s) as [s1 [a| | |]]; try done.
  by apply Hf.
Qed.

End preserves.

(** ** [std::string] operations *)

(** [substr(from, n)]: throws [out_of_range] when [from > size()], else the at
    most [n] characters from [from]. *)
Definition substr (s : bytes) (from n : Z) : res bytes :=
  if blen s <? from then Throw (ExcStd (str "out_of_range"))
  else Ok (take (Z.to_nat (Z.min n (blen s - from))) (drop (Z.to_nat from) s)).

(** [s[i]] of a [std::string]: the terminator at [size()], undefined beyond. *)
Definition char_at (s : bytes) (i : Z) : res byte :=
  if i <? 0 then UB
  else if i =? blen s then Ok Byte.x00
  else opt_ub (s !! Z.to_nat i).

Definition is_empty {A} (s : list A) : bool := match s with [] => true | _ => false end.

Lemma is_empty_false {A} (s : list A) : s <> [] -> is_empty s = false.
Proof. by destruct s. Qed.

(** [operator<] of [std::string]: lexicographic on unsigned characters. *)
Fixpoint bytes_lt (a b : bytes) : bool :=
  match a, b with
  | _, [] => false
  | [], _ :: _ => true
  | x :: a', y :: b' =>
      if b2z x <? b2z y then true
      else if b2z y <? b2z x then false
      else bytes_lt a' b'
  end.

Lemma bytes_lt_irrefl a : bytes_lt a a = false.
Proof. induction a; simpl; [done|]. by rewrite Z.ltb_irrefl. Qed.

Lemma bytes_lt_trans a b c :
  bytes_lt a b = true -> bytes_lt b c = true -> bytes_lt a c = true.
Proof.
  revert b c. induction a as [|x a IH]; intros [|y b] [|z c]; simpl; try done.
  destruct (Z.ltb_spec (b2z x) (b2z y)), (Z.ltb_spec (b2z y) (b2z x)),
    (Z.ltb_spec (b2z y) (b2z z)), (Z.ltb_spec (b2z z) (b2z y)),
    (Z.ltb_spec (b2z x) (b2z z)), (Z.ltb_spec (b2z z) (b2z x)); try done; try lia.
  apply IH.
Qed.

Lemma bytes_lt_total a b : bytes_lt a b = false -> bytes_lt b a = false -> a = b.
Proof.
  revert b. induction a as [|x a IH]; intros [|y b]; simpl; try done.
  destruct (Z.ltb_spec (b2z x) (b2z y)), (Z.ltb_spec (b2z y) (b2z x)); try done; try lia.
  intros. f_equal; [apply b2z_inj; lia|auto].
Qed.

(** ** Automation shared by the components *)

Create HintDb cpp.
Create Rewrite HintDb cpp.
Create Rewrite HintDb blen.
#[export] Hint Resolve blen_nonneg u64_range b2z_range : cpp.
Create HintDb total.
Create HintDb answers.
#[export] Hint Resolve answers_Ok answers_Throw answers_CHECK answers_CHECK_USER : answers.
#[export] Hint Resolve total_CHECK total_Ok total_throwErr total_fmap : total.
#[export] Hint Rewrite @bind_Ok @bind_Throw CHECK_true : cpp.
#[export] Hint Rewrite @blen_app @blen_cons @blen_nil : blen.

(** Sums over a list, of numbers of steps and of counted threads. *)
Lemma sum_insert {A} (f : A -> nat) l i x y :
  l !! i = Some x -> (sum_list_with f (<[i := y]> l) + f x = sum_list_with f l + f y)%nat.
Proof.
  revert i. induction l as [|z l IH]; intros [|i] Hi; [done|done| |].
  - injection Hi as <-. cbn. lia.
  - specialize (IH i Hi). change (<[S i := y]> (z :: l)) with (z :: <[i := y]> l). cbn [sum_list_with]. lia.
Qed.

Lemma sum_zero {A} (f : A -> nat) l : sum_list_with f l = 0%nat <-> Forall (fun x => f x = 0%nat) l.
Proof.
  induction l as [|x l IH]; cbn; [by split; [constructor|]|]. rewrite Forall_cons, <- IH. lia.
Qed.

Lemma sum_le {A} (f : A -> nat) n l : (forall x, f x <= n)%nat -> (sum_list_with f l <= n * length l)%nat.
Proof. intros Hf. induction l as [|x l IH]; cbn; [lia|]. specialize (Hf x). rewrite Nat.mul_succ_r. lia. Qed.

Create HintDb okle.
#[export] Hint Resolve ok_le_refl ok_le_Throw : okle.

Create HintDb preserves.
#[export] Hint Resolve preserves_ret preserves_lift preserves_get preserves_put : preserves.
#[export] Hint Extern 1 (preserves _ (mbind' _ _)) => apply preserves_bind; [|intros] : preserves.

(** Break a hypothesis [m ≫= f = Ok b] into its successful steps. *)
Ltac res_inv :=
  repeat match goal with
  | H : (_ ≫= _) = Ok _ |- _ =>
      let x := fresh "x" in let Hx := fresh "Hx" in
      apply bind_Ok_inv in H; destruct H as (x & Hx & H)
  | H : mbind' _ _ _ = (_, Ok _) |- _ =>
      let s := fresh "s" in let x := fresh "x" in let Hx := fresh "Hx" in
      apply mbind_Ok_inv in H; destruct H as (s & x & Hx & H)
  | H : mlift _ _ = (_, Ok _) |- _ =>
      let E := fresh "E" in apply mlift_Ok_inv in H; destruct H as [E H]; subst
  | H : CHECK _ _ = Ok _ |- _ => apply CHECK_Ok_inv in H
  | H : Ok _ = Ok _ |- _ => injection H as H
  | H : mret _ = Ok _ |- _ => injection H as H
  | H : Throw _ = Ok _ |- _ => discriminate H
  | H : UB = Ok _ |- _ => discriminate H
  | H : OutOfFuel = Ok _ |- _ => discriminate H
  | p : (_ * _)%type |- _ => destruct p
  end.

(** Walk through a computation, proving each step total from the hints. *)
Ltac solve_total :=
  repeat first
    [ solve [auto with total]
    | discriminate
    | apply total_bind; [|intros]
    | case_match ].

(** The same, for a program's outcome. *)
Ltac solve_answers :=
  repeat first
    [ solve [auto with answers]
    | apply answers_bind; [|intros]
    | case_match ].

(** The same, for the results one computation shares with another: case analysis
    on what both depend on. *)
Ltac solve_ok_le :=
  repeat first
    [ solve [auto with okle]
    | apply ok_le_bind; [|intros]
    | case_match ].

#[global] Arguments blen : simpl never.
#[global] Arguments u64 : simpl never.
#[global] Arguments to_i64 : simpl never.
#[global] Arguments b2z : simpl never.
#[global] Arguments z2b : simpl never.
#[global] Arguments to_string : simpl never.
#[global] Arguments str : simpl never.

Ltac blen_lia := autorewrite with blen in *; unfold is_u64 in *; lia.
