(* ===== verification/Text.v ===== *)
(** * utils/utils.cpp and the standard library's text operations

    [std::string::find], [std::getline], [std::stoi] and [std::quoted], as the
    readers of configuration files and addresses use them, and the default port
    of an address. *)
From Stdlib Require Import DecimalString DecimalZ DecimalFacts.
From S2P Require Import Prelude.
#[local] Open Scope Z_scope.

Fixpoint is_prefix (p s : bytes) : bool :=
  match p, s with
  | [], _ => true
  | x :: p, y :: s => bool_decide (x = y) && is_prefix p s
  | _ :: _, [] => false
  end.

(** [s.find(p) != npos]. *)
Fixpoint contains (p s : bytes) : bool :=
  is_prefix p s || match s with [] => false | _ :: s => contains p s end.

(** The first place of [p] in [s]. *)
Fixpoint find_place (p s : bytes) : option nat :=
  if is_prefix p s then Some O
  else match s with [] => None | _ :: s => S <$> find_place p s end.

(** [s.find(p)]. *)
Definition string_find (p s : bytes) : Z :=
  match find_place p s with Some i => Z.of_nat i | None => u64_max end.

(** The lines [std::getline] reads: a last line needs no end, an empty rest is none. *)
Fixpoint lines_from (line : bytes) (s : bytes) : list bytes :=
  match s with
  | [] => if is_empty line then [] else [line]
  | c :: s => if bool_decide (c = Byte.x0a) then line :: lines_from [] s else lines_from (line ++ [c]) s
  end.

Definition file_lines (s : bytes) : list bytes := lines_from [] s.

(** [std::quoted(s, delim)], written to a stream; the escape character is the default. *)
Definition quoted (delim : byte) (s : bytes) : bytes :=
  let escape := Byte.x5c in
  delim :: concat ((fun c => if bool_decide (c = delim \/ c = escape) then [escape; c] else [c]) <$> s) ++ [delim].

(** [std::stoi]: white space, a sign, decimal digits; what follows is ignored. *)
Definition is_space (c : byte) : bool :=
  (b2z c =? 32) || ((9 <=? b2z c) && (b2z c <=? 13)).

Definition digit (c : byte) : option Z :=
  if (48 <=? b2z c) && (b2z c <=? 57) then Some (b2z c - 48) else None.

Fixpoint skip_space (s : bytes) : bytes :=
  match s with c :: rest => if is_space c then skip_space rest else s | [] => [] end.

Fixpoint digits (acc : option Z) (s : bytes) : option Z :=
  match s with
  | [] => acc
  | c :: s => match digit c with Some d => digits (Some (10 * default 0 acc + d)) s | None => acc end
  end.

Definition stoi (s : bytes) : res Z :=
  let s := skip_space s in
  let '(sign, s) := match s with
    | Byte.x2d :: rest => (-1, rest)
    | Byte.x2b :: rest => (1, rest)
    | _ => (1, s)
    end in
  match digits None s with
  | None => Throw (ExcStd (str "stoi: invalid_argument"))
  | Some n =>
      let n := sign * n in
      if (- 2 ^ 31 <=? n) && (n <? 2 ^ 31) then Ok n else Throw (ExcStd (str "stoi: out_of_range"))
  end.

(* src: utils/utils.cpp:5-11 addDefaultPort *)
Definition addDefaultPort (host : bytes) (port : Z) : bytes :=
  if string_find (str ":") host =? u64_max then host ++ str ":" ++ to_string port else host.

(** ** Lemmas *)

Lemma is_prefix_spec p s : is_prefix p s = true <-> p `prefix_of` s.
Proof.
  revert s. induction p as [|x p IH]; intros s; cbn.
  { split; [intros _; apply prefix_nil|done]. }
  destruct s as [|y s]; [split; [done|]; by intros ?%prefix_nil_inv|].
  rewrite andb_true_iff, bool_decide_eq_true, IH. split.
  - intros [-> Hp]. by apply prefix_cons.
  - intros Hp. split; [by apply prefix_cons_inv_1 in Hp|by apply prefix_cons_inv_2 in Hp].
Qed.

Lemma find_place_Some p s i :
  find_place p s = Some i <->
  p `prefix_of` drop i s /\ (i <= length s)%nat /\ forall j, (j < i)%nat -> ~ p `prefix_of` drop j s.
Proof.
  revert i. induction s as [|c s IH]; intros i; cbn [find_place];
    destruct (is_prefix p _) eqn:E.
  - apply is_prefix_spec in E. split; [|intros (_ & Hi & _); cbn in Hi; by destruct i; [|lia]].
    intros [= <-]. split; [done|]. split; [done|lia].
  - split; [done|]. intros (Hp & _). rewrite drop_nil in Hp. apply is_prefix_spec in Hp. congruence.
  - apply is_prefix_spec in E. split.
    + intros [= <-]. split; [done|]. split; [lia|lia].
    + intros (_ & _ & Hn). destruct i as [|i]; [done|]. by destruct (Hn 0%nat ltac:(lia)).
  - assert (~ p `prefix_of` c :: s) as Hc by (intros Hp%is_prefix_spec; congruence). destruct i as [|i].
    { split; [by destruct (find_place p s)|]. intros (Hp & _). by destruct Hc. }
    rewrite fmap_Some. split.
    + intros (k & Hk & [= <-]). apply IH in Hk as (Hp & Hl & Hn). split; [done|]. split; [cbn; lia|].
      intros [|j] Hj; [done|]. apply Hn. lia.
    + intros (Hp & Hl & Hn). exists i. split; [|done]. apply IH. split; [done|]. split; [cbn in Hl; lia|].
      intros j Hj. apply (Hn (S j)). lia.
Qed.

Lemma find_place_None p s : find_place p s = None <-> contains p s = false.
Proof.
  induction s as [|c s IH]; cbn [find_place contains]; destruct (is_prefix p _); cbn; [done..|].
  destruct (find_place p s); cbn; naive_solver.
Qed.

(** A string that has [p] is cut at the first place of it. *)
Lemma find_place_split p a b :
  p <> [] -> (forall j, (j < length a)%nat -> ~ p `prefix_of` drop j (a ++ p ++ b)) ->
  find_place p (a ++ p ++ b) = Some (length a).
Proof.
  intros Hp Hn. apply find_place_Some. rewrite drop_app_length. split; [by eexists|].
  split; [|done]. rewrite length_app. lia.
Qed.

Lemma find_char c a b : c ∉ a -> find_place [c] (a ++ c :: b) = Some (length a).
Proof.
  intros Hc. apply (find_place_split [c] a b ltac:(done)). intros j Hj Hp.
  apply Hc. destruct Hp as [k Hk]. apply list_elem_of_lookup_2 with j.
  rewrite <- (lookup_app_l a ([c] ++ b)) by done. rewrite <- (Nat.add_0_r j), <- lookup_drop, Hk. done.
Qed.

Lemma find_char_None c s : c ∉ s -> find_place [c] s = None.
Proof.
  intros Hc. apply find_place_None. induction s as [|x s IH]; [done|].
  apply not_elem_of_cons in Hc as [Hx Hc]. cbn. rewrite bool_decide_false by done. by apply IH.
Qed.

Lemma find_char_contains c s : find_place [c] s = None <-> c ∉ s.
Proof.
  split; [|apply find_char_None]. intros Hn Hc. apply list_elem_of_split in Hc as (a & b & ->).
  destruct (decide (c ∈ a)) as [Ha|Ha]; [|by rewrite find_char in Hn].
  apply find_place_None in Hn. revert Hn. clear -Ha. induction a as [|x a IH]; [by apply elem_of_nil in Ha|].
  cbn. destruct (decide (c = x)) as [->|Hx]; [by rewrite bool_decide_true|].
  rewrite bool_decide_false by done. cbn. apply IH. apply elem_of_cons in Ha as [->|Ha]; done.
Qed.

Lemma string_find_char c s : blen s < u64_max -> (string_find [c] s =? u64_max) = bool_decide (c ∉ s).
Proof.
  intros Hl. unfold string_find. destruct (find_place [c] s) as [i|] eqn:E.
  - rewrite bool_decide_false by (intros Hc; apply find_char_contains in Hc; congruence).
    apply find_place_Some in E as (_ & Hi & _). unfold blen in Hl. apply Z.eqb_neq. lia.
  - rewrite bool_decide_true by (by apply find_char_contains). apply Z.eqb_refl.
Qed.

(** The lines of a file are what was written with ends of lines. *)
Lemma lines_from_app line l s :
  Byte.x0a ∉ l -> lines_from line (l ++ Byte.x0a :: s) = (line ++ l) :: lines_from [] s.
Proof.
  revert line. induction l as [|c l IH]; intros line Hl; cbn [app lines_from].
  { rewrite bool_decide_true by done. by rewrite app_nil_r. }
  apply not_elem_of_cons in Hl as [Hc Hl]. rewrite bool_decide_false by done.
  rewrite IH by done. by rewrite <- app_assoc.
Qed.

Lemma file_lines_join ls :
  Forall (fun l => Byte.x0a ∉ l) ls -> file_lines (concat ((fun l => l ++ [Byte.x0a]) <$> ls)) = ls.
Proof.
  unfold file_lines. induction 1 as [|l ls Hl _ IH]; [done|]. csimpl.
  rewrite <- app_assoc. cbn [app]. rewrite lines_from_app by done. by rewrite IH.
Qed.

(** A port that is there stays, and one that was added is there. *)
Lemma addDefaultPort_twice host p q :
  blen (addDefaultPort host p) < u64_max ->
  addDefaultPort (addDefaultPort host p) q = addDefaultPort host p.
Proof.
  intros Hl. unfold addDefaultPort at 1. change (str ":") with [Byte.x3a].
  rewrite string_find_char by done. rewrite bool_decide_false; [done|]. intros Hc. revert Hc.
  unfold addDefaultPort in *. change (str ":") with [Byte.x3a] in *.
  destruct (decide (blen host < u64_max)) as [Hh|Hh].
  - rewrite string_find_char by done. case_bool_decide as Hin; [|tauto].
    intros Hn. apply Hn. apply elem_of_app. right. apply elem_of_cons. by left.
  - exfalso. destruct (string_find [Byte.x3a] host =? u64_max); [|lia].
    rewrite blen_app in Hl. pose proof (blen_nonneg ([Byte.x3a] ++ to_string p)). lia.
Qed.

(** ** [std::stoi] reads what [std::to_string] wrote *)

Definition uint_bytes (d : Decimal.uint) : bytes := str (NilEmpty.string_of_uint d).

(** No digit follows. *)
Definition digits_end (rest : bytes) : Prop :=
  match rest with c :: _ => digit c = None | [] => True end.

Lemma digits_stop acc rest : digits_end rest -> digits acc rest = acc.
Proof. destruct rest as [|c rest]; [done|]. cbn [digits_end digits]. by intros ->. Qed.

Ltac byte_values :=
  repeat match goal with
  | |- context [b2z ?c] => let v := eval vm_compute in (b2z c) in change (b2z c) with v
  end.

Lemma digits_step c d a s : digit c = Some d -> digits (Some a) (c :: s) = digits (Some (10 * a + d)) s.
Proof. intros Hd. cbn [digits]. by rewrite Hd. Qed.

Lemma digits_pos d p rest :
  digits_end rest -> digits (Some (Zpos p)) (uint_bytes d ++ rest) = Some (Zpos (Pos.of_uint_acc d p)).
Proof.
  intros Hr. revert p. induction d as [|d IH|d IH|d IH|d IH|d IH|d IH|d IH|d IH|d IH|d IH]; intros p;
    [exact (digits_stop _ _ Hr)|..];
    cbn [Pos.of_uint_acc]; rewrite <- IH;
    unfold uint_bytes, str; cbn -[digits Z.mul Pos.mul Z.add Pos.add];
    erewrite digits_step by reflexivity; f_equal; f_equal; byte_values; lia.
Qed.

Lemma digits_uint d rest :
  digits_end rest -> digits (Some 0) (uint_bytes d ++ rest) = Some (Z.of_N (Pos.of_uint d)).
Proof.
  intros Hr. induction d as [|d IH|d IH|d IH|d IH|d IH|d IH|d IH|d IH|d IH|d IH];
    [exact (digits_stop _ _ Hr)|exact IH|..];
    cbn [Pos.of_uint]; cbn [Z.of_N]; rewrite <- (digits_pos d _ rest Hr);
    unfold uint_bytes, str; cbn -[digits Z.mul Pos.mul Z.add Pos.add]; by erewrite digits_step by reflexivity.
Qed.

Lemma to_string_digits n rest :
  0 <= n -> digits_end rest -> digits None (to_string n ++ rest) = Some n.
Proof.
  intros Hn Hr. unfold to_string. pose proof (DecimalZ.of_to n) as Ho.
  destruct n as [|p|p]; [..|lia]; cbn [Z.to_int] in *.
  { cbn. exact (digits_stop _ _ Hr). }
  cbn [Z.of_int] in Ho. unfold Z.of_uint in Ho. rewrite <- Ho. rewrite <- (digits_uint _ rest Hr).
  destruct (Pos.to_uint p) eqn:E; [|reflexivity..]. cbn in Ho. discriminate Ho.
Qed.

(** A number is written with digits only, in front of which nothing is skipped. *)
Lemma to_string_head n : 0 <= n -> exists c s, to_string n = c :: s /\ is_Some (digit c).
Proof.
  intros Hn. pose proof (to_string_digits n [] Hn I) as Hd. rewrite app_nil_r in Hd.
  destruct (to_string n) as [|c s]; [done|]. exists c, s. split; [done|]. cbn [digits] in Hd.
  destruct (digit c); [done|done].
Qed.

Lemma uint_bytes_digits d : Forall (fun c => is_Some (digit c)) (uint_bytes d).
Proof. induction d as [|d IH|d IH|d IH|d IH|d IH|d IH|d IH|d IH|d IH|d IH]; unfold uint_bytes, str in *; cbn; constructor; try done; by vm_compute. Qed.

Lemma to_string_all_digits n : 0 <= n -> Forall (fun c => is_Some (digit c)) (to_string n).
Proof.
  intros Hn. assert (Forall (fun c => is_Some (digit c)) (str "0")) as H0.
  { apply (Forall_singleton (fun c => is_Some (digit c))). vm_compute. by eexists. }
  unfold to_string. destruct n as [|p|p]; [exact H0| |lia].
  cbn [Z.to_int NilZero.string_of_int]. pose proof (uint_bytes_digits (Pos.to_uint p)) as Hd.
  unfold NilZero.string_of_uint. destruct (Pos.to_uint p); [exact H0|exact Hd..].
Qed.

Lemma stoi_to_string n rest :
  0 <= n < 2 ^ 31 -> digits_end rest -> stoi (to_string n ++ rest) = Ok n.
Proof.
  intros Hn Hr. pose proof (to_string_digits n rest ltac:(lia) Hr) as Hd.
  destruct (to_string_head n ltac:(lia)) as (c & s & E & [d Hc]). rewrite E in *. unfold stoi.
  assert (is_space c = false /\ c <> Byte.x2d /\ c <> Byte.x2b) as (Hsp & Hm & Hp).
  { unfold digit in Hc. destruct ((48 <=? b2z c) && (b2z c <=? 57)) eqn:Er; [|done].
    apply andb_true_iff in Er as [E1%Z.leb_le E2%Z.leb_le]. split; [|split].
    - unfold is_space. destruct (Z.eqb_spec (b2z c) 32); [lia|]. destruct (Z.leb_spec 9 (b2z c)); [|done].
      by destruct (Z.leb_spec (b2z c) 13); [lia|].
    - intros ->. vm_compute in E1. by apply E1.
    - intros ->. vm_compute in E1. by apply E1. }
  cbn [app skip_space]. rewrite Hsp. cbn [app] in Hd.
  destruct c; try (by destruct Hm); try (by destruct Hp); cbn zeta; rewrite Hd, Z.mul_1_l;
    rewrite (proj2 (Z.leb_le _ _)), (proj2 (Z.ltb_lt _ _)) by lia; reflexivity.
Qed.
