(* ===== verification/Nslookup.v ===== *)
(** * nslookup.cpp: the address with the best answer time

    [getBestIp] turns the name of a server into the address that answers first.
    The resolver, [inet_pton], the HTTP request with its timer and [std::sort]
    are arguments; the order of equal times is whatever the sort makes of it. *)
From S2P Require Import Prelude Text.
#[local] Open Scope Z_scope.

(* src: nslookup.h:6-18 NsResult *)
Record NsResult := mkNsResult {
  ns_server : bytes;
  ns_timeout : Z;
}.

#[global] Instance NsResult_eq_dec : EqDecision NsResult.
Proof. solve_decision. Defined.

(** What [ns_parserr] and the readers of its data give for a record. *)
Inductive DnsRecord :=
  | RR_MX (pref : Z) (name : bytes)
  | RR_A (addr : Z)
  | RR_NS (name : bytes)
  | RR_other.

(** A reply of [res_query]: its size, the response code of its header, whether
    [ns_initparse] accepts it, and its answers, [None] where [ns_parserr]
    fails; [dr_error] is the text of [errno]. *)
Record DnsReply := mkDnsReply {
  dr_size : Z;
  dr_rcode : Z;
  dr_initparse : bool;
  dr_answers : list (option DnsRecord);
  dr_error : bytes;
}.

(** [inet_ntoa] of a 32-bit address. *)
Definition dotted (addr : Z) : bytes :=
  let byte_ n := to_string (Z.land (Z.shiftr addr n) 255) in
  byte_ 24 ++ str "." ++ byte_ 16 ++ str "." ++ byte_ 8 ++ str "." ++ byte_ 0.

(* src: nslookup.cpp:25-57 parse_record *)
Definition parse_record (errno : bytes) (rr : option DnsRecord) : res bytes :=
  match rr with
  | None => throwErr (str "ns_parserr error " ++ errno)
  | Some (RR_MX pref name) => Ok (to_string pref ++ str " " ++ name)
  | Some (RR_A addr) => Ok (dotted addr)
  | Some (RR_NS name) => Ok name
  | Some RR_other => Ok (str "unhandled record")
  end.

(** [inr] is a failure, with the text of [h_errno]. *)
(* src: nslookup.cpp:59-84 nsLookup *)
Definition nsLookup (res_query : bytes -> DnsReply + bytes) (server : bytes) : res (list bytes) :=
  match res_query server with
  | inr h_errno => throwErr h_errno
  | inl reply =>
      _ ← CHECK (dr_size reply <=? 8192) (str "Buffer too small reply truncated");
      _ ← CHECK (dr_rcode reply =? 0) (str "ns error " ++ to_string (dr_rcode reply));
      _ ← CHECK (dr_initparse reply) (str "ns_initparse error " ++ dr_error reply);
      foldM (fun result rr => r ← parse_record (dr_error reply) rr; Ok (result ++ [r])) [] (dr_answers reply)
  end.

(** The scheme with its slashes, the host, and the port, 0 for none. *)
(* src: nslookup.cpp:148-163 getBestIp, scheme, port *)
Definition url_parts (address : bytes) : res (bytes * bytes * Z) :=
  let server := address in
  let foundScheme := string_find (str "://") server in
  '(scheme, server) ←
    (if negb (foundScheme =? u64_max) then
       scheme ← substr server 0 (u64 (foundScheme + 3));
       server ← substr server (u64 (foundScheme + 3)) u64_max;
       Ok (scheme, server)
     else Ok ([], server));
  let foundPort := string_find (str ":") server in
  if foundPort =? u64_max then Ok (scheme, server, 0)
  else
    text ← substr server (u64 (foundPort + 1)) u64_max;
    port ← stoi text;
    server ← substr server 0 foundPort;
    Ok (scheme, server, port).

(* src: nslookup.cpp:166-166 getBestIp, port *)
Definition port_text (port : Z) : bytes := if negb (port =? 0) then str ":" ++ to_string port else [].

(** [milliseconds(999s)]. *)
Definition UNREACHABLE : Z := 999000.

Section best.
Variable inet_pton : bytes -> bool.
Variable res_query : bytes -> DnsReply + bytes.
(** The request to the [i]-th candidate: the milliseconds the timer counted. *)
Variable probe : nat -> bytes -> res Z.
Variable sort_results : list NsResult -> list NsResult.

(* src: nslookup.cpp:174-182 getBestIp, try *)
Definition probe_one (i : nat) (serv : bytes) : res NsResult :=
  match probe i serv with
  | Ok countMs => Ok (mkNsResult serv countMs)
  | Throw (ExcCommon _) => Ok (mkNsResult serv UNREACHABLE)
  | Throw e => Throw e
  | UB => UB
  | OutOfFuel => OutOfFuel
  end.

(* src: nslookup.cpp:171-183 getBestIp, for *)
Fixpoint probe_all (scheme : bytes) (port : Z) (i : nat) (result : list bytes) : res (list NsResult) :=
  match result with
  | [] => Ok []
  | r :: result =>
      pr ← probe_one i (scheme ++ r ++ port_text port);
      prs ← probe_all scheme port (S i) result;
      Ok (pr :: prs)
  end.

(** Without the printing of the candidates, which the caller does not ask for. *)
(* src: nslookup.cpp:147-201 getBestIp *)
Definition getBestIp (address : bytes) : res NsResult :=
  '(scheme, server, port) ← url_parts address;
  if inet_pton server then Ok (mkNsResult (scheme ++ server ++ port_text port) 0)
  else
    result ← nsLookup res_query server;
    pr ← probe_all scheme port 0 result;
    match sort_results pr with
    | [] => throwErr (str "Servers empty")
    | found :: _ => Ok found
    end.

End best.

(** ** Lemmas *)

Lemma foldM_records errno l acc r :
  foldM (fun result rr => t ← parse_record errno rr; Ok (result ++ [t])) acc l = Ok r ->
  exists ts, r = acc ++ ts /\ Forall2 (fun rr t => parse_record errno rr = Ok t) l ts.
Proof.
  revert acc. induction l as [|x l IH]; intros acc Hr; cbn [foldM] in Hr.
  { injection Hr as <-. exists []. by rewrite app_nil_r. }
  apply bind_Ok_inv in Hr as (acc1 & Hx & Hr). apply bind_Ok_inv in Hx as (t & Ht & [= <-]).
  destruct (IH _ Hr) as (ts & -> & Hts). exists (t :: ts). rewrite <- app_assoc. split; [done|by constructor].
Qed.

(** A prefix and what follows it, as [substr] cuts them. *)
Lemma substr_take a b : blen a + blen b < 2 ^ 62 -> substr (a ++ b) 0 (blen a) = Ok a.
Proof.
  intros Hl. pose proof (blen_nonneg a). pose proof (blen_nonneg b). unfold substr. rewrite blen_app.
  rewrite (proj2 (Z.ltb_ge _ _)) by lia. rewrite Z.min_l by lia. rewrite drop_0. unfold blen.
  by rewrite Nat2Z.id, take_app_length.
Qed.

Lemma substr_drop a b : blen a + blen b < 2 ^ 62 -> substr (a ++ b) (blen a) u64_max = Ok b.
Proof.
  intros Hl. pose proof (blen_nonneg a). pose proof (blen_nonneg b). unfold substr, u64_max. rewrite blen_app.
  rewrite (proj2 (Z.ltb_ge _ _)) by lia. rewrite Z.min_r by lia. unfold blen. rewrite Nat2Z.id, drop_app_length.
  by rewrite take_ge by lia.
Qed.

(** The address of a server: the scheme if there is one, the host and, unless it
    is 0, the port. *)
Definition scheme_text (scheme : option bytes) : bytes :=
  match scheme with Some s => s ++ str "://" | None => [] end.
Definition url (scheme : option bytes) (host : bytes) (port : Z) : bytes :=
  scheme_text scheme ++ host ++ port_text port.

Lemma not_elem_of_app_find a b :
  Byte.x3a ∉ a -> find_place (str "://") b = None -> find_place (str "://") (a ++ b) = None.
Proof.
  intros Ha Hb. induction a as [|c a IH]; [done|]. apply not_elem_of_cons in Ha as [Hne Ha].
  cbn [app find_place]. rewrite IH by done.
  destruct (is_prefix (str "://") (c :: a ++ b)) eqn:E; [|done].
  exfalso. cbn in E. apply andb_true_iff in E as [E%bool_decide_eq_true _]. by apply Hne.
Qed.

Lemma find_scheme scheme rest :
  Byte.x3a ∉ scheme -> find_place (str "://") (scheme ++ str "://" ++ rest) = Some (length scheme).
Proof.
  induction scheme as [|c scheme IH]; intros Hc; [reflexivity|].
  apply not_elem_of_cons in Hc as [Hne Hc]. cbn [app find_place length]. rewrite IH by done.
  destruct (is_prefix (str "://") (c :: scheme ++ str "://" ++ rest)) eqn:E; [|done].
  exfalso. cbn in E. apply andb_true_iff in E as [E%bool_decide_eq_true _]. by apply Hne.
Qed.

(** No scheme is found where there is none: the only colon precedes a digit. *)
Lemma find_no_scheme host port :
  Byte.x3a ∉ host -> 0 <= port -> find_place (str "://") (host ++ port_text port) = None.
Proof.
  intros Hh Hp. apply not_elem_of_app_find; [done|]. unfold port_text. destruct (port =? 0); cbn [negb]; [done|].
  destruct (to_string_head port Hp) as (c & t & E & Hc). pose proof (to_string_all_digits port Hp) as Hall.
  rewrite E in *. cbn [app find_place].
  assert (find_place (str "://") (c :: t) = None) as Hrest.
  { rewrite <- (app_nil_r (c :: t)). apply not_elem_of_app_find; [|done].
    intros Hin. rewrite Forall_forall in Hall. by destruct (Hall _ Hin) as [d Hd]. }
  change (str ":" ++ c :: t) with (Byte.x3a :: c :: t). cbn [find_place]. cbn [find_place] in Hrest. rewrite Hrest.
  destruct (is_prefix (str "://") (Byte.x3a :: c :: t)) eqn:Hpre; [|done]. exfalso. cbn in Hpre.
  apply andb_true_iff in Hpre as [_ [Hs%bool_decide_eq_true _]%andb_true_iff]. subst c. by destruct Hc as [d Hd].
Qed.

Lemma port_text_colon host port :
  Byte.x3a ∉ host -> 0 <= port ->
  find_place (str ":") (host ++ port_text port) = if port =? 0 then None else Some (length host).
Proof.
  intros Hc Hp. unfold port_text. destruct (port =? 0); cbn [negb].
  - rewrite app_nil_r. by apply find_char_None.
  - by apply find_char.
Qed.

(** The host and the port of what follows the scheme. *)
Lemma host_port host port :
  Byte.x3a ∉ host -> 0 < port < 2 ^ 31 -> blen host + blen (port_text port) < 2 ^ 62 ->
  let server := host ++ port_text port in
  (text ← substr server (u64 (blen host + 1)) u64_max; stoi text) = Ok port /\
  substr server 0 (blen host) = Ok host.
Proof.
  intros Hh Hp Hl server. split; [|by apply substr_take].
  pose proof (blen_nonneg host). pose proof (blen_nonneg (port_text port)).
  assert (server = (host ++ str ":") ++ to_string port) as ->.
  { unfold server, port_text. rewrite (proj2 (Z.eqb_neq port 0)) by lia. cbn [negb]. by rewrite <- app_assoc. }
  unfold port_text in Hl. rewrite (proj2 (Z.eqb_neq port 0)) in Hl by lia. cbn [negb] in Hl.
  rewrite blen_app in Hl.
  change (blen (str ":")) with 1 in Hl. pose proof (blen_nonneg (to_string port)).
  assert (blen (host ++ str ":") = blen host + 1) as E by (by rewrite blen_app).
  rewrite u64_small by (unfold is_u64; lia). rewrite <- E, substr_drop by lia. cbn [mbind res_bind].
  rewrite <- (app_nil_r (to_string port)). by apply stoi_to_string; [lia|].
Qed.

(** The parts of an address that is written this way. *)
Definition colon_free (scheme : option bytes) : Prop := match scheme with Some s => Byte.x3a ∉ s | None => True end.

Lemma url_scheme scheme host port :
  colon_free scheme -> Byte.x3a ∉ host -> 0 <= port -> blen (url scheme host port) < 2 ^ 62 ->
  let server := url scheme host port in let foundScheme := string_find (str "://") server in
  (if negb (foundScheme =? u64_max) then
     scheme ← substr server 0 (u64 (foundScheme + 3));
     server ← substr server (u64 (foundScheme + 3)) u64_max;
     Ok (scheme, server)
   else Ok ([], server)) = Ok (scheme_text scheme, host ++ port_text port).
Proof.
  intros Hs Hh Hp Hl. cbv zeta. unfold string_find. destruct scheme as [scheme|]; cbn [url scheme_text] in *; unfold url in *.
  2: { cbn [scheme_text app] in *. by rewrite find_no_scheme. }
  cbn [scheme_text colon_free] in *.
  assert (find_place (str "://") ((scheme ++ str "://") ++ host ++ port_text port) = Some (length scheme)) as ->.
  { rewrite <- app_assoc. by apply find_scheme. }
  rewrite blen_app in Hl.
  assert (blen (scheme ++ str "://") = blen scheme + 3) as Hl3 by (by rewrite blen_app).
  pose proof (blen_nonneg scheme). pose proof (blen_nonneg (host ++ port_text port)).
  change (Z.of_nat (length scheme)) with (blen scheme).
  rewrite (proj2 (Z.eqb_neq (blen scheme) u64_max)) by (unfold u64_max; lia). cbn [negb].
  rewrite u64_small by (unfold is_u64; lia). by rewrite <- Hl3, substr_take, substr_drop by lia.
Qed.

Lemma url_parts_url scheme host port :
  colon_free scheme -> Byte.x3a ∉ host -> 0 <= port < 2 ^ 31 -> blen (url scheme host port) < 2 ^ 62 ->
  url_parts (url scheme host port) = Ok (scheme_text scheme, host, port).
Proof.
  intros Hs Hh Hp Hl. unfold url_parts. pose proof (url_scheme scheme host port Hs Hh ltac:(lia) Hl) as Hu.
  cbv zeta in Hu. rewrite Hu. cbn [mbind res_bind]. unfold url in Hl. rewrite blen_app in Hl.
  assert (blen (host ++ port_text port) = blen host + blen (port_text port)) as Hl2 by apply blen_app.
  pose proof (blen_nonneg (scheme_text scheme)). pose proof (blen_nonneg host). pose proof (blen_nonneg (port_text port)).
  unfold string_find. rewrite port_text_colon by (done || lia).
  destruct (Z.eqb_spec port 0) as [->|Hne]; [by rewrite Z.eqb_refl, app_nil_r|].
  change (Z.of_nat (length host)) with (blen host).
  rewrite (proj2 (Z.eqb_neq (blen host) u64_max)) by (unfold u64_max; lia).
  destruct (host_port host port Hh ltac:(lia) ltac:(lia)) as [Ht Hsrv]. cbv zeta in Ht.
  apply bind_Ok_inv in Ht as (text & -> & Ht). cbn [mbind res_bind]. rewrite Ht. cbn [mbind res_bind].
  by rewrite Hsrv.
Qed.

Section facts.
Variables (inet_pton : bytes -> bool) (res_query : bytes -> DnsReply + bytes) (probe : nat -> bytes -> res Z).

(** The time of a candidate: what its request took, or the greatest. *)
Definition time_of (i : nat) (serv : bytes) (ms : Z) : Prop :=
  probe i serv = Ok ms \/ ms = UNREACHABLE /\ exists e, probe i serv = Throw (ExcCommon e).

Lemma probe_one_spec i serv r : probe_one probe i serv = Ok r -> ns_server r = serv /\ time_of i serv (ns_timeout r).
Proof.
  unfold probe_one, time_of. destruct (probe i serv) as [ms|[]| |]; try done; intros [= <-]; split; try done; [by left|].
  right. eauto.
Qed.

Lemma probe_all_spec scheme port i result prs :
  probe_all probe scheme port i result = Ok prs ->
  length prs = length result /\
  forall k a, result !! k = Some a -> exists r, prs !! k = Some r /\
    ns_server r = scheme ++ a ++ port_text port /\ time_of (i + k) (scheme ++ a ++ port_text port) (ns_timeout r).
Proof.
  revert i prs. induction result as [|a result IH]; intros i prs Hp; cbn [probe_all] in Hp.
  { injection Hp as <-. split; [done|]. intros k a Hk. by rewrite lookup_nil in Hk. }
  apply bind_Ok_inv in Hp as (pr & Hone & Hp). apply bind_Ok_inv in Hp as (rest & Hall & [= <-]).
  destruct (IH _ _ Hall) as [Hl Hk]. split; [cbn; by rewrite Hl|]. intros [|k] b Hb.
  - injection Hb as <-. exists pr. rewrite Nat.add_0_r. split; [done|]. by apply probe_one_spec.
  - destruct (Hk k b Hb) as (r & Hr & Hs). exists r. replace (i + S k)%nat with (S i + k)%nat by lia. done.
Qed.

(** A sort puts a result with the least time in front. *)
Definition sorts (sort_results : list NsResult -> list NsResult) : Prop :=
  forall l, sort_results l ≡ₚ l /\ StronglySorted (fun a b => ns_timeout a <= ns_timeout b) (sort_results l).

Lemma sorts_head sort_results l r rest :
  sorts sort_results -> sort_results l = r :: rest -> r ∈ l /\ forall r', r' ∈ l -> ns_timeout r <= ns_timeout r'.
Proof.
  intros Hs E. destruct (Hs l) as [Hp Hsort]. rewrite E in Hp, Hsort. split.
  - rewrite <- Hp. apply list_elem_of_here.
  - intros r' Hr'. rewrite <- Hp in Hr'. apply StronglySorted_inv in Hsort as [_ Hf].
    apply elem_of_cons in Hr' as [->|Hr']; [lia|]. by apply (proj1 (Forall_forall _ _) Hf).
Qed.

(** What is chosen of a name: an answer of the resolver with the least time. *)
Lemma getBestIp_chosen sort_results address scheme server port r :
  sorts sort_results -> url_parts address = Ok (scheme, server, port) -> inet_pton server = false ->
  getBestIp inet_pton res_query probe sort_results address = Ok r ->
  exists answers i a, nsLookup res_query server = Ok answers /\ answers !! i = Some a /\
    ns_server r = scheme ++ a ++ port_text port /\ time_of i (ns_server r) (ns_timeout r) /\
    forall j b, answers !! j = Some b -> exists ms, time_of j (scheme ++ b ++ port_text port) ms /\ ns_timeout r <= ms.
Proof.
  intros Hs Hu Hip Hr. unfold getBestIp in Hr. rewrite Hu in Hr. cbn [mbind res_bind] in Hr. rewrite Hip in Hr.
  apply bind_Ok_inv in Hr as (answers & Hns & Hr). apply bind_Ok_inv in Hr as (pr & Hpr & Hr).
  destruct (sort_results pr) as [|found rest] eqn:E; [done|]. injection Hr as <-.
  destruct (sorts_head _ _ _ _ Hs E) as [Hin Hmin]. destruct (probe_all_spec _ _ _ _ _ Hpr) as [Hl Hk].
  apply list_elem_of_lookup in Hin as [i Hi].
  destruct (lookup_lt_is_Some_2 answers i) as [a Ha]; [rewrite <- Hl; by eapply lookup_lt_Some|].
  destruct (Hk i a Ha) as (r & Hr & Hsrv & Ht). rewrite Hi in Hr. injection Hr as <-.
  exists answers, i, a. rewrite Hsrv. do 4 (split; [done|]). intros j b Hb.
  destruct (Hk j b Hb) as (r & Hr & Hsr & Htm). exists (ns_timeout r). split; [done|].
  apply Hmin. by eapply list_elem_of_lookup_2.
Qed.

End facts.
