(* ===== verification/Serialize.v ===== *)
(** * utils/serialize.h: big-endian integers and length-prefixed strings

    The wire and database encoding of every record of the node.  An integer of
    type [T] is [sizeof(T)] bytes, most significant first; a string is its
    length as a [size_t] and then its bytes.  The readers work at a position of
    a buffer; the overloads with [size_t &fromPos] are functions that return
    the value and the new position. *)
From S2P Require Import Prelude.
#[local] Open Scope Z_scope.

(** ** Writers *)

(** The loop [while (val != 0 && i >= 0)]; [n] is [i + 1]. *)
(* src: utils/serialize.h:18-22 toBinaryStringBigEndian, while *)
Fixpoint toBinary_loop (base : nat) (n : nat) (val : Z) (result : bytes) : bytes :=
  match n with
  | O => result
  | S i =>
      if val =? 0 then result
      else toBinary_loop base i (val / 256) (<[(base + i)%nat := z2b (val mod 256)]> result)
  end.

(** [toBinaryStringBigEndian<T>(val)], [w = sizeof(T)]. *)
(* src: utils/serialize.h:13-24 toBinaryStringBigEndian(val) *)
Definition toBinaryStringBigEndian (w : nat) (val : Z) : bytes :=
  toBinary_loop 0 w val (replicate w Byte.x00).

(** [toBinaryStringBigEndian<T>(val, buffer)]. *)
(* src: utils/serialize.h:26-37 toBinaryStringBigEndian(val, buffer) *)
Definition toBinaryStringBigEndian_buf (w : nat) (val : Z) (buffer : bytes) : bytes :=
  let oldSize := length buffer in
  toBinary_loop oldSize w val (buffer ++ replicate w Byte.x00).

(* src: utils/serialize.h:56-59 serializeIntBigEndian(intValue) *)
Definition serializeIntBigEndian (w : nat) (intValue : Z) : bytes :=
  toBinaryStringBigEndian w intValue.

(* src: utils/serialize.h:61-64 serializeIntBigEndian(intValue, buffer) *)
Definition serializeIntBigEndian_buf (w : nat) (intValue : Z) (buffer : bytes) : bytes :=
  toBinaryStringBigEndian_buf w intValue buffer.

(* src: utils/serialize.h:66-72 serializeStringBigEndian(str) *)
Definition serializeStringBigEndian (s : bytes) : bytes :=
  serializeIntBigEndian 8 (blen s) ++ s.

(* src: utils/serialize.h:74-77 serializeStringBigEndian(str, buffer) *)
Definition serializeStringBigEndian_buf (s : bytes) (buffer : bytes) : bytes :=
  serializeIntBigEndian_buf 8 (blen s) buffer ++ s.

(** ** Readers *)

(* src: utils/serialize.h:47-51 fromBinaryStringBigEndian, for *)
Fixpoint fromBinary_loop (w : nat) (cs : bytes) (val : Z) : Z :=
  match cs with
  | [] => val
  | c :: cs' =>
      fromBinary_loop w cs' (((val * 256) mod 256 ^ Z.of_nat w + b2z c) mod 256 ^ Z.of_nat w)
  end.

(** [fromBinaryStringBigEndian<T>(raw, fromPos, endPos)]: the value and
    [endPos].  The size test wraps around: it passes for a [fromPos] within
    [sizeof(T)] of [2^64], and [raw[fromPos]] is then out of range. *)
(* src: utils/serialize.h:39-54 fromBinaryStringBigEndian *)
Definition fromBinaryStringBigEndian (w : nat) (raw : bytes) (fromPos : Z) : res (Z * Z) :=
  if blen raw <? u64 (Z.of_nat w + fromPos) then Ok (0, fromPos)
  else if 2 ^ 64 <=? Z.of_nat w + fromPos then UB
  else Ok (fromBinary_loop w (take w (drop (Z.to_nat fromPos) raw)) 0,
           u64 (fromPos + Z.of_nat w)).

(* src: utils/serialize.h:79-83 deserializeIntBigEndian(raw, fromPos, endPos) *)
Definition deserializeIntBigEndian_at (w : nat) (raw : bytes) (fromPos : Z) : res (Z * Z) :=
  fromBinaryStringBigEndian w raw fromPos.

(* src: utils/serialize.h:85-92 deserializeIntBigEndian(raw, fromPos) *)
Definition deserializeIntBigEndian (w : nat) (raw : bytes) (fromPos : Z) : res (Z * Z) :=
  '(val, endPos) ← deserializeIntBigEndian_at w raw fromPos;
  _ ← CHECK (negb (endPos =? fromPos)) (str "Incorrect raw");
  Ok (val, endPos).

(** [deserializeStringBigEndian(raw, fromPos, endPos)]: the string and [endPos];
    [endPos += sizeString] wraps around. *)
(* src: utils/serialize.h:94-105 deserializeStringBigEndian(raw, fromPos, endPos) *)
Definition deserializeStringBigEndian_at (raw : bytes) (fromPos : Z) : res (bytes * Z) :=
  '(sizeString, endPos) ← deserializeIntBigEndian_at 8 raw fromPos;
  if fromPos =? endPos then Ok ([], endPos)
  else
    s ← substr raw endPos sizeString;
    Ok (s, u64 (endPos + sizeString)).

(* src: utils/serialize.h:107-114 deserializeStringBigEndian(raw, fromPos) *)
Definition deserializeStringBigEndian (raw : bytes) (fromPos : Z) : res (bytes * Z) :=
  '(s, endPos) ← deserializeStringBigEndian_at raw fromPos;
  _ ← CHECK (negb (endPos =? fromPos)) (str "Incorrect raw");
  Ok (s, endPos).

(** The names the records use. *)
(* src: utils/serialize.h:117-120 serializeInt(intValue) *)
Definition serializeInt (w : nat) (intValue : Z) : bytes := serializeIntBigEndian w intValue.
(* src: utils/serialize.h:122-125 serializeInt(intValue, buffer) *)
Definition serializeInt_buf (w : nat) (intValue : Z) (buffer : bytes) : bytes :=
  serializeIntBigEndian_buf w intValue buffer.
(* src: utils/serialize.h:127-129 serializeString(str) *)
Definition serializeString (s : bytes) : bytes := serializeStringBigEndian s.
(* src: utils/serialize.h:131-133 serializeString(str, buffer) *)
Definition serializeString_buf (s : bytes) (buffer : bytes) : bytes :=
  serializeStringBigEndian_buf s buffer.
(* src: utils/serialize.h:135-138 deserializeInt(raw, fromPos, endPos) *)
Definition deserializeInt_at (w : nat) (raw : bytes) (fromPos : Z) : res (Z * Z) :=
  deserializeIntBigEndian_at w raw fromPos.
(* src: utils/serialize.h:140-143 deserializeInt(raw, fromPos) *)
Definition deserializeInt (w : nat) (raw : bytes) (fromPos : Z) : res (Z * Z) :=
  deserializeIntBigEndian w raw fromPos.
(* src: utils/serialize.h:145-147 deserializeString(raw, fromPos, endPos) *)
Definition deserializeString_at (raw : bytes) (fromPos : Z) : res (bytes * Z) :=
  deserializeStringBigEndian_at raw fromPos.
(* src: utils/serialize.h:149-151 deserializeString(raw, fromPos) *)
Definition deserializeString (raw : bytes) (fromPos : Z) : res (bytes * Z) :=
  deserializeStringBigEndian raw fromPos.

(** ** Specification of the integer encoding *)

(** The value a big-endian byte string denotes. *)
Definition be_value (cs : bytes) : Z := foldl (fun v c => v * 256 + b2z c) 0 cs.

(** The reference encoder: digit [w - 1 - k] is [val / 256^k mod 256]. *)
Fixpoint be_encode (w : nat) (val : Z) : bytes :=
  match w with
  | O => []
  | S w' => be_encode w' (val / 256) ++ [z2b (val mod 256)]
  end.

Definition fits (w : nat) (val : Z) : Prop := 0 <= val < 256 ^ Z.of_nat w.

Lemma be_encode_length w val : length (be_encode w val) = w.
Proof.
  revert val. induction w as [|w IH]; intros val; simpl; [done|].
  rewrite length_app, IH. simpl. lia.
Qed.

Lemma be_encode_zero w : be_encode w 0 = replicate w Byte.x00.
Proof.
  induction w as [|w IH]; simpl; [done|].
  change (0 / 256) with 0. change (z2b (0 mod 256)) with Byte.x00.
  rewrite IH. rewrite <- replicate_S_end. done.
Qed.

Lemma toBinary_loop_spec pre n val post :
  0 <= val ->
  toBinary_loop (length pre) n val (pre ++ replicate n Byte.x00 ++ post)
  = pre ++ be_encode n val ++ post.
Proof.
  revert val post. induction n as [|n IH]; intros val post Hv; [done|].
  cbn [toBinary_loop]. destruct (Z.eqb_spec val 0) as [->|Hne].
  { by rewrite be_encode_zero. }
  cbn [be_encode]. rewrite (replicate_S_end n).
  rewrite insert_app_r_alt by lia. replace (length pre + n - length pre)%nat with n by lia.
  rewrite <- (app_assoc (replicate n _)). rewrite insert_app_r_alt by (rewrite length_replicate; lia).
  rewrite length_replicate, Nat.sub_diag. cbn [app insert list_insert].
  rewrite IH by (apply Z.div_pos; lia). by rewrite <- (app_assoc (be_encode _ _)).
Qed.

Lemma toBinaryStringBigEndian_eq w val :
  0 <= val -> toBinaryStringBigEndian w val = be_encode w val.
Proof.
  intros Hv. pose proof (toBinary_loop_spec [] w val [] Hv) as H.
  simpl in H. rewrite !app_nil_r in H. exact H.
Qed.

Lemma toBinaryStringBigEndian_buf_eq w val buffer :
  0 <= val ->
  toBinaryStringBigEndian_buf w val buffer = buffer ++ toBinaryStringBigEndian w val.
Proof.
  intros Hv. rewrite toBinaryStringBigEndian_eq by done.
  pose proof (toBinary_loop_spec buffer w val [] Hv) as H. rewrite !app_nil_r in H. exact H.
Qed.

Lemma be_value_app cs ds : be_value (cs ++ ds) = foldl (fun v c => v * 256 + b2z c) (be_value cs) ds.
Proof. unfold be_value. by rewrite foldl_app. Qed.

Lemma be_value_encode w val : fits w val -> be_value (be_encode w val) = val.
Proof.
  unfold fits. revert val. induction w as [|w IH]; intros val Hv.
  - simpl in *. unfold be_value. simpl. lia.
  - cbn [be_encode]. rewrite be_value_app, IH; cycle 1.
    { rewrite Nat2Z.inj_succ, Z.pow_succ_r in Hv by lia. split.
      - apply Z.div_pos; lia.
      - apply Z.div_lt_upper_bound; lia. }
    cbn [foldl]. rewrite b2z_z2b, Z.mod_mod by lia.
    rewrite (Z.div_mod val 256) at 3 by lia. lia.
Qed.

Lemma foldl_be_lower (cs : bytes) v : 0 <= v -> v <= foldl (fun v c => v * 256 + b2z c) v cs.
Proof.
  revert v. induction cs as [|c cs IH]; intros v Hv; simpl; [lia|].
  pose proof (b2z_range c). etransitivity; [|apply IH; lia]. lia.
Qed.

Lemma fromBinary_loop_spec w (cs : bytes) v :
  0 <= v -> foldl (fun v c => v * 256 + b2z c) v cs < 256 ^ Z.of_nat w ->
  fromBinary_loop w cs v = foldl (fun v c => v * 256 + b2z c) v cs.
Proof.
  revert v. induction cs as [|c cs IH]; intros v Hv Hlt; simpl in *; [done|].
  pose proof (b2z_range c). pose proof (foldl_be_lower cs (v * 256 + b2z c) ltac:(lia)).
  rewrite (Z.mod_small (v * 256)) by lia. rewrite Z.mod_small by lia.
  apply IH; [lia|done].
Qed.

Lemma length_toBinary w val : 0 <= val -> length (toBinaryStringBigEndian w val) = w.
Proof. intros. rewrite toBinaryStringBigEndian_eq by done. apply be_encode_length. Qed.

Lemma blen_serializeInt w val : 0 <= val -> blen (serializeInt w val) = Z.of_nat w.
Proof. intros. unfold blen, serializeInt, serializeIntBigEndian. by rewrite length_toBinary. Qed.

Lemma blen_serializeString s : blen (serializeString s) = 8 + blen s.
Proof.
  unfold serializeString, serializeStringBigEndian. rewrite blen_app.
  fold (serializeInt 8 (blen s)). rewrite blen_serializeInt by apply blen_nonneg. lia.
Qed.

(** ** Reading back what was written

    [suffix_at raw from rest]: the reader stands at position [from] of [raw]
    and [rest] is what remains. *)
Definition suffix_at (raw : bytes) (from : Z) (rest : bytes) : Prop :=
  0 <= from <= blen raw /\ blen raw < 2 ^ 64 - 16 /\ drop (Z.to_nat from) raw = rest.

Lemma suffix_at_start raw : blen raw < 2 ^ 64 - 16 -> suffix_at raw 0 raw.
Proof. intros. pose proof (blen_nonneg raw). repeat split; [lia|done..]. Qed.

Lemma suffix_at_app raw from s rest :
  suffix_at raw from (s ++ rest) -> suffix_at raw (from + blen s) rest.
Proof.
  intros (Hf & Hl & Hd).
  assert (blen s + blen rest = blen raw - from) as Hlen.
  { rewrite <- blen_app, <- Hd. unfold blen in *. rewrite length_drop. lia. }
  pose proof (blen_nonneg s). pose proof (blen_nonneg rest).
  split; [lia|split; [done|]].
  rewrite Z2Nat.inj_add by lia. rewrite <- drop_drop, Hd.
  unfold blen. rewrite Nat2Z.id. by rewrite drop_app_length.
Qed.

Lemma suffix_at_blen raw from rest :
  suffix_at raw from rest -> blen raw = from + blen rest.
Proof. intros (Hf & Hl & <-). unfold blen in *. rewrite length_drop. lia. Qed.

Lemma deserializeInt_suffix w raw from val rest :
  fits w val -> (0 < w <= 8)%nat -> suffix_at raw from (serializeInt w val ++ rest) ->
  deserializeInt w raw from = Ok (val, from + Z.of_nat w).
Proof.
  intros Hfit Hw Hs. pose proof (suffix_at_blen _ _ _ Hs) as Hlen.
  destruct Hfit as [Hv0 Hv]. rewrite blen_app, blen_serializeInt in Hlen by done.
  destruct Hs as (Hf & Hl & Hd). pose proof (blen_nonneg rest).
  unfold deserializeInt, deserializeIntBigEndian, deserializeIntBigEndian_at, fromBinaryStringBigEndian.
  rewrite !u64_small by (unfold is_u64; lia).
  destruct (Z.ltb_spec (blen raw) (Z.of_nat w + from)); [lia|].
  destruct (Z.leb_spec (2 ^ 64) (Z.of_nat w + from)); [lia|]. cbn [mbind res_bind].
  rewrite Hd, take_app_le, take_ge by (rewrite length_toBinary; [lia|done]).
  destruct (Z.eqb_spec (from + Z.of_nat w) from); [lia|]. cbn [negb CHECK mbind res_bind].
  unfold serializeInt, serializeIntBigEndian. rewrite toBinaryStringBigEndian_eq by done.
  rewrite fromBinary_loop_spec; fold (be_value (be_encode w val)); [|done|];
    rewrite be_value_encode by done; done.
Qed.

Lemma deserializeString_suffix raw from s rest :
  suffix_at raw from (serializeString s ++ rest) ->
  deserializeString raw from = Ok (s, from + blen (serializeString s)).
Proof.
  intros Hs. pose proof (suffix_at_blen _ _ _ Hs) as Hlen. rewrite blen_serializeString.
  rewrite blen_app, blen_serializeString in Hlen.
  pose proof (blen_nonneg s). pose proof (blen_nonneg rest).
  unfold serializeString, serializeStringBigEndian in Hs. rewrite <- app_assoc in Hs.
  assert (blen raw < 2 ^ 64 - 16 /\ 0 <= from) as [Hl Hf] by (destruct Hs as (?&?&?); lia).
  pose proof (deserializeInt_suffix 8 raw from (blen s) (s ++ rest)
    ltac:(unfold fits; lia) ltac:(lia) Hs) as Hint.
  pose proof (suffix_at_app _ _ _ _ Hs) as Hs'.
  fold (serializeInt 8 (blen s)) in Hs'. rewrite blen_serializeInt in Hs' by done.
  unfold deserializeInt, deserializeIntBigEndian in Hint.
  unfold deserializeString, deserializeStringBigEndian, deserializeStringBigEndian_at.
  destruct (deserializeIntBigEndian_at 8 raw from) as [[sz e]| | |]; cbn [mbind res_bind] in *;
    [|done..]. res_inv. simplify_eq.
  change (Z.of_nat 8) with 8 in *.
  destruct (Z.eqb_spec from (from + 8)); [lia|].
  destruct Hs' as (Hf' & _ & Hd). unfold substr.
  destruct (Z.ltb_spec (blen raw) (from + 8)); [lia|]. rewrite bind_Ok.
  rewrite Hd.
  rewrite Z.min_l by lia. unfold blen at 1. rewrite Nat2Z.id, take_app_length.
  rewrite u64_small by (unfold is_u64; lia). cbn [mbind res_bind].
  destruct (Z.eqb_spec (from + 8 + blen s) from); [lia|]. cbn. do 2 f_equal. lia.
Qed.

(** The buffer overloads append what the string overloads return. *)
Lemma serializeInt_buf_eq w val buffer :
  0 <= val -> serializeInt_buf w val buffer = buffer ++ serializeInt w val.
Proof. apply toBinaryStringBigEndian_buf_eq. Qed.

Lemma serializeString_buf_eq s buffer :
  serializeString_buf s buffer = buffer ++ serializeString s.
Proof.
  unfold serializeString_buf, serializeStringBigEndian_buf.
  unfold serializeIntBigEndian_buf. rewrite toBinaryStringBigEndian_buf_eq by apply blen_nonneg.
  by rewrite <- app_assoc.
Qed.

Lemma fits8 v : fits 8 v <-> is_u64 v.
Proof. done. Qed.
Lemma fits1_bool (b : bool) : fits 1 (if b then 1 else 0).
Proof. unfold fits. destruct b; lia. Qed.

#[export] Hint Resolve fits1_bool : cpp.

(** The overloads that report the end position agree with the checking ones. *)
Lemma deserializeInt_Ok_at w raw from v p :
  deserializeInt w raw from = Ok (v, p) -> deserializeInt_at w raw from = Ok (v, p) /\ p <> from.
Proof.
  unfold deserializeInt, deserializeIntBigEndian, deserializeInt_at.
  destruct (deserializeIntBigEndian_at w raw from) as [[v' p']| | |]; cbn; [|done..].
  destruct (Z.eqb_spec p' from); cbn; [done|]. by intros [= -> ->].
Qed.

Lemma deserializeString_Ok_at raw from s p :
  deserializeString raw from = Ok (s, p) ->
  deserializeString_at raw from = Ok (s, p) /\ p <> from.
Proof.
  unfold deserializeString, deserializeStringBigEndian, deserializeString_at.
  destruct (deserializeStringBigEndian_at raw from) as [[v' p']| | |]; cbn; [|done..].
  destruct (Z.eqb_spec p' from); cbn; [done|]. by intros [= -> ->].
Qed.

(** One read of a record's [deserialize] against what its [serialize] wrote:
    [H] is the [suffix_at] hypothesis, which moves past what was read. *)
Ltac start_read H raw Hl :=
  pose proof (suffix_at_start raw Hl) as H;
  rewrite <- (app_nil_r raw) in H at 2;
  unfold raw in H at 2; rewrite <- ?app_assoc in H.
Ltac solve_fits := first [ assumption | apply fits1_bool | apply blen_nonneg
  | unfold fits, is_u64, is_i64, u64 in *; lia ].
Ltac read_int H :=
  lazymatch type of H with
  | suffix_at ?raw ?from (serializeInt ?w ?v ++ ?rest) =>
      let Hf := fresh "Hfits" in
      assert (Hf : fits w v) by solve_fits;
      rewrite (deserializeInt_suffix w raw from v rest Hf ltac:(lia) H);
      cbn [mbind res_bind]; apply suffix_at_app in H;
      rewrite (blen_serializeInt w v (proj1 Hf)) in H; clear Hf
  end.
Ltac read_string H :=
  rewrite (deserializeString_suffix _ _ _ _ H); cbn [mbind res_bind];
  apply suffix_at_app in H.

(** ** The contract between a record and the code that stores it

    Every record the node keeps in LevelDB or sends over the network has a
    [serialize] and a [deserialize].  [Codec] is that pair as an interface,
    [CodecLaws] is what its users rely on; the workers' theorems are proved
    against it and the records' files discharge it. *)

Class Codec (A : Type) := {
  c_ser : A -> res bytes;
  c_des : bytes -> res A;
  (** the values the representation is meant for *)
  c_wf : A -> Prop;
}.

Class CodecLaws (A : Type) `{Codec A} :=
  codec_roundtrip : forall a, c_wf a ->
    exists raw, c_ser a = Ok raw /\ raw <> [] /\
      (blen raw < 2 ^ 64 - 16 -> c_des raw = Ok a).

Section Laws.
Context `{CodecLaws A}.

Lemma codec_read_back a raw :
  c_wf a -> c_ser a = Ok raw -> blen raw < 2 ^ 64 - 16 -> c_des raw = Ok a.
Proof.
  intros Hwf Hs Hl. destruct (codec_roundtrip a Hwf) as (raw' & Hs' & _ & Hd).
  rewrite Hs in Hs'. injection Hs' as ->. auto.
Qed.

Lemma codec_nonempty a raw : c_wf a -> c_ser a = Ok raw -> raw <> [].
Proof.
  intros Hwf Hs. destruct (codec_roundtrip a Hwf) as (raw' & Hs' & Hne & _). congruence.
Qed.

(** Distinct values have distinct encodings. *)
Lemma codec_inj a b raw :
  c_wf a -> c_wf b -> c_ser a = Ok raw -> c_ser b = Ok raw -> blen raw < 2 ^ 64 - 16 -> a = b.
Proof.
  intros Ha Hb Hsa Hsb Hl. pose proof (codec_read_back a raw Ha Hsa Hl) as H1.
  pose proof (codec_read_back b raw Hb Hsb Hl). congruence.
Qed.
End Laws.
