(* ===== verification/Ordered.v ===== *)
(** * [std::set<std::string>] and [std::map<std::string, V>]

    Ordered containers as strictly sorted lists, so that iteration order (which
    the encodings depend on) is part of the value. *)
From S2P Require Import Prelude.
#[local] Open Scope Z_scope.

(** [set.insert(x)]: no change when an equivalent key is present. *)
Fixpoint oset_insert (x : bytes) (l : list bytes) : list bytes :=
  match l with
  | [] => [x]
  | y :: l' =>
      if bytes_lt x y then x :: l
      else if bytes_lt y x then y :: oset_insert x l' else l
  end.

(** [map[k] = v]. *)
Fixpoint omap_set {V} (k : bytes) (v : V) (l : list (bytes * V)) : list (bytes * V) :=
  match l with
  | [] => [(k, v)]
  | (k', v') :: l' =>
      if bytes_lt k k' then (k, v) :: l
      else if bytes_lt k' k then (k', v') :: omap_set k v l' else (k', v) :: l'
  end.

(** [map.emplace(k, v)]: the first value of a key stays. *)
Fixpoint omap_emplace {V} (k : bytes) (v : V) (l : list (bytes * V)) : list (bytes * V) :=
  match l with
  | [] => [(k, v)]
  | (k', v') :: l' =>
      if bytes_lt k k' then (k, v) :: l
      else if bytes_lt k' k then (k', v') :: omap_emplace k v l' else l
  end.

Fixpoint omap_find {V} (k : bytes) (l : list (bytes * V)) : option V :=
  match l with
  | [] => None
  | (k', v') :: l' => if decide (k' = k) then Some v' else omap_find k l'
  end.

(** [map.erase(k)]. *)
Fixpoint omap_delete {V} (k : bytes) (l : list (bytes * V)) : list (bytes * V) :=
  match l with
  | [] => []
  | (k', v') :: l' => if decide (k' = k) then l' else (k', v') :: omap_delete k l'
  end.

(** [set<string>(begin, end)]. *)
Definition oset_of_list (l : list bytes) : list bytes :=
  foldl (fun s x => oset_insert x s) [] l.

(** Every key is below the ones after it. *)
Fixpoint osorted (l : list bytes) : Prop :=
  match l with
  | [] => True
  | x :: l' => Forall (fun y => bytes_lt x y = true) l' /\ osorted l'
  end.

Lemma bytes_lt_asym a b : bytes_lt a b = true -> bytes_lt b a = false.
Proof.
  intros H. destruct (bytes_lt b a) eqn:E; [|done].
  pose proof (bytes_lt_trans _ _ _ H E) as C. by rewrite bytes_lt_irrefl in C.
Qed.

Lemma oset_insert_last x l :
  Forall (fun y => bytes_lt y x = true) l -> oset_insert x l = l ++ [x].
Proof.
  induction 1 as [|y l Hy Hl IH]; [done|]. simpl.
  by rewrite (bytes_lt_asym _ _ Hy), Hy, IH.
Qed.

Lemma omap_set_last {V} k (v : V) l :
  Forall (fun y => bytes_lt y k = true) l.*1 -> omap_set k v l = l ++ [(k, v)].
Proof.
  induction l as [|[k' v'] l IH]; simpl; intros H; [done|].
  apply Forall_cons in H as [Hy Hl]. by rewrite (bytes_lt_asym _ _ Hy), Hy, IH.
Qed.

Lemma osorted_app_inv l x k :
  osorted (l ++ x :: k) -> Forall (fun y => bytes_lt y x = true) l.
Proof.
  induction l as [|y l IH]; simpl; [done|]. intros [Hy Hs].
  apply Forall_app in Hy as [_ Hy]. apply Forall_cons in Hy as [Hy _]. auto.
Qed.

Lemma oset_insert_elem x y l : y ∈ oset_insert x l <-> y = x \/ y ∈ l.
Proof.
  induction l as [|z l IH]; simpl; [by rewrite elem_of_cons|].
  destruct (bytes_lt x z) eqn:E1; [by rewrite elem_of_cons|].
  destruct (bytes_lt z x) eqn:E2; rewrite !elem_of_cons; [rewrite IH; tauto|].
  pose proof (bytes_lt_total _ _ E1 E2) as ->. tauto.
Qed.

Lemma oset_insert_sorted x l : osorted l -> osorted (oset_insert x l).
Proof.
  induction l as [|z l IH]; simpl; [done|]. intros [Hz Hs].
  destruct (bytes_lt x z) eqn:E1; simpl.
  { repeat split; [|done..]. constructor; [done|]. eapply Forall_impl; [exact Hz|].
    intros y Hy. by eapply bytes_lt_trans. }
  destruct (bytes_lt z x) eqn:E2; simpl; [|done]. split; [|auto].
  apply Forall_forall. intros y [->|Hy]%oset_insert_elem; [done|].
  by eapply Forall_forall in Hz.
Qed.

Lemma omap_find_set {V} k k' (v : V) l :
  omap_find k' (omap_set k v l) = if decide (k = k') then Some v else omap_find k' l.
Proof.
  induction l as [|[k1 v1] l IH]; simpl; [done|].
  destruct (bytes_lt k k1) eqn:E1; [done|].
  destruct (bytes_lt k1 k) eqn:E2; simpl.
  - rewrite IH. repeat case_decide; subst; try done. by rewrite bytes_lt_irrefl in E2.
  - pose proof (bytes_lt_total _ _ E1 E2) as ->. by repeat case_decide.
Qed.

Lemma omap_set_keys {V} k (v : V) l : (omap_set k v l).*1 = oset_insert k l.*1.
Proof.
  induction l as [|[k1 v1] l IH]; csimpl; [done|].
  destruct (bytes_lt k k1) eqn:E1; [done|].
  destruct (bytes_lt k1 k) eqn:E2; csimpl; [by rewrite IH|done].
Qed.

Lemma omap_set_sorted {V} k (v : V) l : osorted l.*1 -> osorted (omap_set k v l).*1.
Proof. intros. rewrite omap_set_keys. by apply oset_insert_sorted. Qed.

Lemma omap_delete_keys {V} k (l : list (bytes * V)) y :
  y ∈ (omap_delete k l).*1 -> y ∈ l.*1.
Proof.
  induction l as [|[k1 v1] l IH]; csimpl; [done|]. case_decide; csimpl;
    rewrite !elem_of_cons; tauto.
Qed.

Lemma omap_delete_sorted {V} k (l : list (bytes * V)) :
  osorted l.*1 -> osorted (omap_delete k l).*1.
Proof.
  induction l as [|[k1 v1] l IH]; csimpl; [done|]. intros [Hf Hs]. case_decide; [done|].
  csimpl. split; [|auto]. apply Forall_forall. intros y Hy%omap_delete_keys.
  by eapply Forall_forall in Hf.
Qed.

Lemma omap_find_None {V} k (l : list (bytes * V)) : omap_find k l = None <-> k ∉ l.*1.
Proof.
  induction l as [|[k1 v1] l IH]; csimpl; [split; [inversion 2|done]|].
  rewrite not_elem_of_cons. case_decide; [naive_solver|]. rewrite IH. naive_solver.
Qed.

Lemma omap_find_delete {V} k k' (l : list (bytes * V)) :
  osorted l.*1 ->
  omap_find k' (omap_delete k l) = if decide (k = k') then None else omap_find k' l.
Proof.
  induction l as [|[k1 v1] l IH]; csimpl; [by case_decide|]. intros [Hf Hs].
  destruct (decide (k1 = k)) as [->|Hne].
  - destruct (decide (k = k')) as [<-|Hk]; [|done].
    apply omap_find_None. intros Hin. eapply Forall_forall in Hf; [|done].
    by rewrite bytes_lt_irrefl in Hf.
  - csimpl. rewrite IH by done. repeat case_decide; congruence.
Qed.

Lemma omap_find_elem {V} k (v : V) l :
  osorted l.*1 -> omap_find k l = Some v <-> (k, v) ∈ l.
Proof.
  induction l as [|[k1 v1] l IH]; csimpl; [split; [done|inversion 1]|]. intros [Hf Hs].
  rewrite elem_of_cons. case_decide as Hk; subst.
  - split; [intros [= ->]; auto|]. intros [[= ->]|Hin]; [done|].
    apply (list_elem_of_fmap_2 fst) in Hin. eapply Forall_forall in Hf; [|done].
    cbn in Hf. by rewrite bytes_lt_irrefl in Hf.
  - rewrite IH by done. split; [auto|]. intros [[= -> ->]|?]; done.
Qed.

Lemma osorted_NoDup l : osorted l -> NoDup l.
Proof.
  induction l as [|x l IH]; simpl; [constructor|]. intros [Hf Hs]. constructor; [|auto].
  intros Hin. eapply Forall_forall in Hf; [|done]. by rewrite bytes_lt_irrefl in Hf.
Qed.

Lemma oset_of_list_spec l :
  osorted (oset_of_list l) /\ forall x, x ∈ oset_of_list l <-> x ∈ l.
Proof.
  unfold oset_of_list. induction l as [|x l IH] using rev_ind.
  { split; [done|]. done. }
  rewrite foldl_app. simpl. destruct IH as [Hs Hin]. split; [by apply oset_insert_sorted|].
  intros y. rewrite oset_insert_elem, Hin, elem_of_app, list_elem_of_singleton. tauto.
Qed.

Lemma oset_of_list_perm l : NoDup l -> oset_of_list l ≡ₚ l.
Proof.
  intros Hd. destruct (oset_of_list_spec l) as [Hs Hin].
  apply NoDup_Permutation; [by apply osorted_NoDup|done|done].
Qed.

Lemma omap_set_fresh {V} k (v : V) l : omap_find k l = None -> omap_set k v l ≡ₚ (k, v) :: l.
Proof.
  induction l as [|[k1 v1] l IH]; csimpl; [done|]. case_decide as Hk; [done|]. intros Hf.
  destruct (bytes_lt k k1) eqn:E1; [done|].
  destruct (bytes_lt k1 k) eqn:E2.
  - rewrite (IH Hf). apply Permutation_swap.
  - destruct Hk. symmetry. by apply bytes_lt_total.
Qed.

Lemma omap_set_filter {V} (P : bytes -> bool) k (v : V) l :
  P k = false ->
  List.filter (fun e => P e.1) (omap_set k v l) = List.filter (fun e => P e.1) l.
Proof.
  intros Hk. induction l as [|[k1 v1] l IH]; csimpl; [by rewrite Hk|].
  destruct (bytes_lt k k1) eqn:E1; csimpl; [by rewrite Hk|].
  destruct (bytes_lt k1 k) eqn:E2; csimpl; [by rewrite IH|].
  assert (k1 = k) as -> by (symmetry; by apply bytes_lt_total). by rewrite Hk.
Qed.

Lemma list_filter_perm {A} (P : A -> bool) l k : l ≡ₚ k -> List.filter P l ≡ₚ List.filter P k.
Proof.
  induction 1 as [|x l k Hp IH|x y l|l k m _ IH1 _ IH2]; simpl.
  - done.
  - destruct (P x); [by f_equiv|done].
  - destruct (P x), (P y); try done. apply Permutation_swap.
  - by rewrite IH1.
Qed.
