(* ===== verification/External.v ===== *)
(** * What the node takes from code it does not contain

    libmhsupport ([common_utils], a git submodule), OpenSSL, secp256k1, LZ4,
    rapidjson and LevelDB are linked, not written here.  Each is a class of
    operations the definitions take as an argument, and a class of the laws the
    theorems rely on. *)
From S2P Require Import Prelude Ordered.
#[local] Open Scope Z_scope.

(** ** convertStrings.h and stringUtils.h of libmhsupport *)
Class Support := {
  toHex : bytes -> bytes;
  fromHex : bytes -> res bytes;
  trim : bytes -> bytes;
  toLower : bytes -> bytes;
}.

Class SupportLaws `{Support} := {
  fromHex_toHex : forall b, fromHex (toHex b) = Ok b;
  toHex_nonempty : forall b, b <> [] -> toHex b <> [];
}.

(** ** OpenSSL and secp256k1

    The digests; whether a DER public key and a DER signature parse; ECDSA
    verification of a digest, [ECDSA_do_verify digest sign pubkey]; and
    [secp256k1_ec_pubkey_parse] followed by the uncompressed
    [secp256k1_ec_pubkey_serialize]. *)
Class Crypto := {
  SHA256 : bytes -> bytes;
  RIPEMD160 : bytes -> bytes;
  d2i_PUBKEY_ok : bytes -> bool;
  d2i_ECDSA_SIG_ok : bytes -> bool;
  ECDSA_do_verify : bytes -> bytes -> bytes -> bool;
  secp256k1_uncompress : bytes -> option bytes;
}.

Class CryptoLaws `{Crypto} := {
  SHA256_length : forall b, length (SHA256 b) = 32%nat;
  RIPEMD160_length : forall b, length (RIPEMD160 b) = 20%nat;
  secp256k1_uncompress_length : forall k p, secp256k1_uncompress k = Some p -> length p = 65%nat;
}.

(** ** rapidjson: the values a parsed document holds *)
Inductive json :=
  | JNull
  | JBool (b : bool)
  | JInt (z : Z)
  | JDouble
  | JString (s : bytes)
  | JArray (l : list json)
  | JObject (m : list (bytes * json)).

Class Rapidjson := {
  (** [Document::Parse]: [None] when the parse result is an error *)
  json_parse : bytes -> option json;
  (** [jsonToString(doc, isFormat)] of jsonUtils.h *)
  json_print : bool -> json -> bytes;
}.

(** A text that begins with a brace parses to an object, if at all. *)
Class RapidjsonLaws `{Rapidjson} := {
  json_parse_object : forall s v, json_parse (Byte.x7b :: s) = Some v -> exists m, v = JObject m;
}.

(** [GetString()] is a C string: a [std::string] built from it stops at the
    first NUL. *)
Fixpoint c_str (s : bytes) : bytes :=
  match s with
  | [] => []
  | c :: s' => if decide (c = Byte.x00) then [] else c :: c_str s'
  end.

(** [v.HasMember(name) ? v[name]]: the first member of that name. *)
Fixpoint find_member (m : list (bytes * json)) (name : bytes) : option json :=
  match m with
  | [] => None
  | (k, v) :: m' => if decide (k = name) then Some v else find_member m' name
  end.

(** [FindMember] asserts that the value is an object. *)
Definition json_member (v : json) (name : bytes) : res (option json) :=
  match v with JObject m => Ok (find_member m name) | _ => UB end.

(** [v.HasMember(name) && v[name].IsString()], then [GetString()]. *)
Definition json_string (v : json) (name : bytes) : res (option bytes) :=
  m ← json_member v name;
  Ok (match m with Some (JString s) => Some (c_str s) | _ => None end).

(** [IsInt()] and [IsInt64()]. *)
Definition is_int32 (z : Z) : bool := (- 2 ^ 31 <=? z) && (z <? 2 ^ 31).
Definition is_int64 (z : Z) : bool := (- 2 ^ 63 <=? z) && (z <? 2 ^ 63).

(** ** LZ4

    [LZ4_compress_default] with a destination of [LZ4_compressBound] bytes, and
    [LZ4_decompress_safe] into a buffer of the given size: [None] is the
    error return. *)
Class Lz4 := {
  LZ4_compressBound : Z -> Z;
  LZ4_compress_default : bytes -> Z -> option bytes;
  LZ4_decompress_safe : bytes -> Z -> option bytes;
}.

(** The documented behaviour: a destination of [LZ4_compressBound(n)] bytes is
    always enough, the result is not empty, and decompression into a buffer of
    the original size restores the source. *)
Class Lz4Laws `{Lz4} := {
  LZ4_compressBound_pos :
    forall n, 0 < n <= 2113929216 -> n < LZ4_compressBound n;
  LZ4_compress_ok : forall src, 0 < blen src <= 2113929216 ->
    exists dst, LZ4_compress_default src (LZ4_compressBound (blen src)) = Some dst /\
      0 < blen dst <= LZ4_compressBound (blen src) /\
      LZ4_decompress_safe dst (blen src) = Some src;
}.

(** ** LevelDB: a sorted key-value store

    [kv_get] is [DB::Get], [kv_write] is [DB::Write] of a batch ([Put] and
    [Delete] write a batch of one), [kv_iter] is what an iterator from the first
    key visits. *)
Inductive kv_result :=
  | KvValue (v : bytes)
  | KvNotFound
  | KvError (status : bytes).

Inductive kv_op :=
  | KvPut (k v : bytes)
  | KvDelete (k : bytes).

Class Kv (D : Type) := {
  kv_get : D -> bytes -> kv_result;
  kv_write : D -> list kv_op -> D * option bytes;
  kv_iter : D -> list (bytes * bytes);
}.

Definition kv_apply (m : list (bytes * bytes)) (op : kv_op) : list (bytes * bytes) :=
  match op with KvPut k v => omap_set k v m | KvDelete k => omap_delete k m end.

(** A store without I/O errors: its iterator visits the keys in bytewise order,
    a lookup finds what the iterator would, and a batch is applied as a whole,
    in the order of its operations. *)
Class KvLaws (D : Type) `{Kv D} := {
  kv_ok : D -> Prop;
  kv_iter_sorted d : kv_ok d -> osorted (kv_iter d).*1;
  kv_get_iter d k : kv_ok d ->
    kv_get d k = match omap_find k (kv_iter d) with Some v => KvValue v | None => KvNotFound end;
  kv_write_ok d ops : kv_ok d -> exists d', kv_write d ops = (d', None) /\ kv_ok d' /\
    kv_iter d' = foldl kv_apply (kv_iter d) ops;
}.

(** The store as its own contents: an instance of the laws. *)
#[export] Instance list_kv : Kv (list (bytes * bytes)) := {|
  kv_get d k := match omap_find k d with Some v => KvValue v | None => KvNotFound end;
  kv_write d ops := (foldl kv_apply d ops, None);
  kv_iter d := d;
|}.

Lemma kv_apply_sorted ops m : osorted m.*1 -> osorted (foldl kv_apply m ops).*1.
Proof.
  revert m. induction ops as [|[k v|k] ops IH]; intros m Hm; simpl; [done|..]; apply IH.
  - by apply omap_set_sorted.
  - by apply omap_delete_sorted.
Qed.

#[export] Instance list_kv_laws : KvLaws (list (bytes * bytes)).
Proof.
  refine {| kv_ok (d : list (bytes * bytes)) := osorted d.*1 |}; [done|done|].
  intros d ops Hd. eexists. split; [done|]. split; [by apply kv_apply_sorted|done].
Defined.

(** ** std::experimental::filesystem

    [fs_filename] is [path.filename()], [fs_join] is [operator/] of paths. *)
Class Fs := {
  fs_filename : bytes -> bytes;
  fs_join : bytes -> bytes -> bytes;
}.
