(* ===== verification/MiniJson.v ===== *)
(** * A concrete JSON reader and writer

    An instance of the interface to rapidjson on which the theorems about
    requests and answers can be evaluated: objects, arrays, strings with
    backslash escapes, integers, [true], [false] and [null].  It is used by the
    witnesses only. *)
From S2P Require Import Prelude External.
#[local] Open Scope Z_scope.

Definition is_space (c : byte) : bool := bool_decide (c ∈ [Byte.x20; Byte.x09; Byte.x0a; Byte.x0d]).
Definition is_digit (c : byte) : bool := (48 <=? b2z c) && (b2z c <=? 57).

Fixpoint skip_space (s : bytes) : bytes :=
  match s with c :: s' => if is_space c then skip_space s' else s | [] => [] end.

(** The rest of a string after its opening quote. *)
Fixpoint read_chars (s : bytes) : option (bytes * bytes) :=
  match s with
  | [] => None
  | c :: s' =>
      if decide (c = Byte.x22) then Some ([], s')
      else if decide (c = Byte.x5c) then
        match s' with
        | d :: s'' => '(t, rest) ← read_chars s''; Some (d :: t, rest)
        | [] => None
        end
      else '(t, rest) ← read_chars s'; Some (c :: t, rest)
  end.

Fixpoint read_digits (acc : Z) (s : bytes) : Z * bytes :=
  match s with
  | c :: s' => if is_digit c then read_digits (acc * 10 + (b2z c - 48)) s' else (acc, s)
  | [] => (acc, [])
  end.

Definition read_word (w : string) (v : json) (s : bytes) : option (json * bytes) :=
  if decide (take (length (str w)) s = str w) then Some (v, drop (length (str w)) s) else None.

Fixpoint read_value (fuel : nat) (s : bytes) : option (json * bytes) :=
  match fuel with
  | O => None
  | S fuel =>
      match skip_space s with
      | [] => None
      | c :: s' =>
          if decide (c = Byte.x22) then '(t, rest) ← read_chars s'; Some (JString t, rest)
          else if decide (c = Byte.x7b) then
            match skip_space s' with
            | Byte.x7d :: rest => Some (JObject [], rest)
            | _ => '(m, rest) ← read_members fuel s'; Some (JObject m, rest)
            end
          else if decide (c = Byte.x5b) then
            match skip_space s' with
            | Byte.x5d :: rest => Some (JArray [], rest)
            | _ => '(l, rest) ← read_elements fuel s'; Some (JArray l, rest)
            end
          else if decide (c = Byte.x2d) then
            match s' with
            | d :: _ => if is_digit d then let '(z, rest) := read_digits 0 s' in Some (JInt (- z), rest) else None
            | [] => None
            end
          else if is_digit c then let '(z, rest) := read_digits 0 (c :: s') in Some (JInt z, rest)
          else if decide (c = Byte.x74) then read_word "true" (JBool true) (c :: s')
          else if decide (c = Byte.x66) then read_word "false" (JBool false) (c :: s')
          else read_word "null" JNull (c :: s')
      end
  end
with read_members (fuel : nat) (s : bytes) : option (list (bytes * json) * bytes) :=
  match fuel with
  | O => None
  | S fuel =>
      match skip_space s with
      | Byte.x22 :: s' =>
          '(name, rest) ← read_chars s';
          match skip_space rest with
          | Byte.x3a :: rest =>
              '(v, rest) ← read_value fuel rest;
              match skip_space rest with
              | Byte.x2c :: rest => '(m, rest) ← read_members fuel rest; Some ((name, v) :: m, rest)
              | Byte.x7d :: rest => Some ([(name, v)], rest)
              | _ => None
              end
          | _ => None
          end
      | _ => None
      end
  end
with read_elements (fuel : nat) (s : bytes) : option (list json * bytes) :=
  match fuel with
  | O => None
  | S fuel =>
      '(v, rest) ← read_value fuel s;
      match skip_space rest with
      | Byte.x2c :: rest => '(l, rest) ← read_elements fuel rest; Some (v :: l, rest)
      | Byte.x5d :: rest => Some ([v], rest)
      | _ => None
      end
  end.

Definition mini_parse (s : bytes) : option json :=
  '(v, rest) ← read_value (S (length s)) s;
  if is_empty (skip_space rest) then Some v else None.

Definition escape (s : bytes) : bytes :=
  mjoin ((fun c => if decide (c = Byte.x22 \/ c = Byte.x5c) then [Byte.x5c; c] else [c]) <$> s).

Definition quoted (s : bytes) : bytes := Byte.x22 :: escape s ++ [Byte.x22].

Fixpoint mini_print (v : json) : bytes :=
  match v with
  | JNull => str "null"
  | JBool b => if b then str "true" else str "false"
  | JInt z => to_string z
  | JDouble => str "0"
  | JString s => quoted s
  | JArray l =>
      str "[" ++ (fix elements l := match l with
        | [] => []
        | [v] => mini_print v
        | v :: l => mini_print v ++ str "," ++ elements l
        end) l ++ str "]"
  | JObject m =>
      str "{" ++ (fix members m := match m with
        | [] => []
        | [(k, v)] => quoted k ++ str ":" ++ mini_print v
        | (k, v) :: m => quoted k ++ str ":" ++ mini_print v ++ str "," ++ members m
        end) m ++ str "}"
  end.

Definition mini_json : Rapidjson := {| json_parse := mini_parse; json_print _ v := mini_print v |}.

(** A text that begins with a brace parses to an object, if at all. *)
Lemma mini_json_laws : @RapidjsonLaws mini_json.
Proof.
  split. intros s v. cbn [json_parse mini_json]. unfold mini_parse.
  cbn [read_value length]. change (skip_space (Byte.x7b :: s)) with (Byte.x7b :: s). cbv iota.
  rewrite decide_False, decide_True by done.
  destruct (skip_space s) as [|c t]; [|destruct c];
    try (intros Hp; destruct (read_members _ s) as [[m rest]|]; [|done]; cbn in Hp;
         destruct (is_empty _); [|done]; injection Hp as <-; by eexists).
  cbn. destruct (is_empty _); [|done]. intros [= <-]. by eexists.
Qed.
