(* ===== verification/Address.v ===== *)
(** * Address.h, Address.cpp: wallet and contract addresses

    A binary address, with a flag telling whether it was set and a flag for the
    initial wallet (the empty address). *)
From S2P Require Import Prelude External.
#[local] Open Scope Z_scope.

(* src: Address.h:9-62 Address *)
Record Address := mkAddress {
  address : bytes;
  isInitialW : bool;
  isSet : bool;
}.

#[global] Instance Address_eq_dec : EqDecision Address.
Proof. solve_decision. Defined.

Definition INITIAL_WALLET_TRANSACTION : bytes := str "InitialWalletTransaction".

(** [Address() = default]. *)
(* src: Address.h:16-16 Address() *)
Definition Address_default : Address := mkAddress [] false false.

(** [Address(const std::vector<unsigned char> &address, bool isBlockedAddress)];
    writing [address[0]] of an empty string is undefined. *)
(* src: Address.cpp:10-17 Address(vector, isBlockedAddress) *)
Definition Address_of_vector (addr : bytes) (isBlockedAddress : bool) : res Address :=
  if isBlockedAddress then
    match addr with
    | [] => UB
    | _ :: tl => Ok (mkAddress (Byte.x01 :: tl) false true)
    end
  else Ok (mkAddress addr false true).

(** [Address(Iterator begin, Iterator end)]. *)
(* src: Address.h:20-24 Address(begin, end) *)
Definition Address_of_range (addr : bytes) : Address := mkAddress addr false true.

(** [Address(const std::string &hexAddress)]. *)
(* src: Address.cpp:19-25 Address(hexAddress) *)
Definition Address_of_hex `{Support} (hexAddress : bytes) : res Address :=
  _ ← CHECK (negb (is_empty hexAddress)) (str "Empty address");
  _ ← CHECK (bool_decide (take 2 hexAddress = str "0x")) (str "Incorrect address " ++ hexAddress);
  tmp ← fromHex hexAddress;
  Ok (mkAddress tmp false true).

(* src: Address.cpp:27-31 operator== *)
Definition Address_eq (a second : Address) : res bool :=
  _ ← CHECK (isSet a) (str "Address not set");
  _ ← CHECK (isSet second) (str "Address not set");
  Ok (bool_decide (address a = address second)).

(* src: Address.h:28-30 operator!= *)
Definition Address_neq (a second : Address) : res bool :=
  negb <$> Address_eq a second.

(* src: Address.cpp:33-37 operator< *)
Definition Address_lt (a second : Address) : res bool :=
  _ ← CHECK (isSet a) (str "Address not set");
  _ ← CHECK (isSet second) (str "Address not set");
  Ok (bytes_lt (address a) (address second)).

(* src: Address.cpp:39-45 getBinaryString *)
Definition getBinaryString (a : Address) : res bytes :=
  _ ← CHECK (isSet a) (str "Address not set");
  Ok (if is_empty (address a) then INITIAL_WALLET_TRANSACTION else address a).

(* src: Address.cpp:47-49 toBdString *)
Definition toBdString (a : Address) : res bytes := getBinaryString a.

(* src: Address.cpp:51-57 calcHexString *)
Definition calcHexString `{Support} (a : Address) : res bytes :=
  _ ← CHECK (isSet a) (str "Address not set");
  Ok (if is_empty (address a) then INITIAL_WALLET_TRANSACTION
      else str "0x" ++ toHex (address a)).

(* src: Address.cpp:59-63 setEmpty *)
Definition setEmpty (a : Address) : Address := mkAddress [] true true.

(* src: Address.cpp:65-68 isEmpty *)
Definition isEmpty (a : Address) : res bool :=
  _ ← CHECK (isSet a) (str "Address not set");
  Ok (is_empty (address a)).

(* src: Address.cpp:70-73 isInitialWallet *)
Definition isInitialWallet (a : Address) : res bool :=
  _ ← CHECK (isSet a) (str "Address not set");
  Ok (isInitialW a).

(* src: Address.cpp:75-78 isScriptAddress *)
Definition isScriptAddress (a : Address) : res bool :=
  _ ← CHECK (isSet a) (str "Address not set");
  c ← char_at (address a) 0;
  Ok (b2z c =? 8).

(** ** Lemmas *)

Lemma Address_eq_Ok a b :
  isSet a = true -> isSet b = true ->
  Address_eq a b = Ok (bool_decide (address a = address b)).
Proof. unfold Address_eq. intros -> ->. done. Qed.

Lemma isScriptAddress_total a : isSet a = true -> exists b, isScriptAddress a = Ok b.
Proof.
  unfold isScriptAddress, char_at. intros ->. simpl.
  destruct (address a) as [|c l]; simpl; [eauto|].
  eauto.
Qed.

Lemma toBdString_nonempty a :
  isSet a = true -> address a <> [] -> toBdString a = Ok (address a).
Proof.
  unfold toBdString, getBinaryString. intros -> Hne. simpl. by rewrite is_empty_false.
Qed.
