(* ===== verification/BlockInfo.v ===== *)
(** * BlockInfo.h, BlockInfo.cpp: the records of the node and their encodings

    Positions in block files, transactions, transaction statuses, block
    headers and the metadata records kept in LevelDB, with their
    [serialize]/[deserialize] pairs, block and transaction classification, and
    the block-number queries the local cache uses. *)
From S2P Require Import Prelude External Serialize Address.
#[local] Open Scope Z_scope.

(** ** Data *)

(* src: BlockInfo.h:17-38 FilePosition *)
Record FilePosition := mkFilePosition {
  fp_pos : Z;
  fp_fileName : bytes;
}.

(* src: BlockInfo.h:40-58 AddressInfo *)
Record AddressInfo := mkAddressInfo {
  ai_filePos : FilePosition;
  ai_blockNumber : Z;
  ai_undelegateValue : option Z;
}.

(* src: BlockInfo.h:73-86 TransactionStatus::UnDelegate *)
Record UnDelegate := mkUnDelegate {
  ud_value : Z;
  ud_delegateHash : bytes;
}.

(* src: BlockInfo.h:88-96 TransactionStatus::V8Status *)
Record V8Status := mkV8Status {
  v8_isServerError : bool;
  v8_isScriptError : bool;
  v8_compiledContractAddress : Address;
}.

(** The alternatives of [std::variant<monostate, Delegate, UnDelegate, V8Status>];
    their order is the stored index. *)
(* src: BlockInfo.h:104-104 TransactionStatus::status *)
Inductive StatusVariant :=
  | SMonostate
  | SDelegate
  | SUnDelegate (u : UnDelegate)
  | SV8Status (v : V8Status).

(* src: BlockInfo.h:60-119 TransactionStatus *)
Record TransactionStatus := mkTransactionStatus {
  ts_isSuccess : bool;
  ts_transaction : bytes;
  ts_blockNumber : Z;
  ts_status : StatusVariant;
}.

(* src: BlockInfo.h:122-125 TransactionInfo::DelegateInfo *)
Record DelegateInfo := mkDelegateInfo {
  di_value : Z;
  di_isDelegate : bool;
}.

(* src: BlockInfo.h:127-130 TransactionInfo::ScriptInfo *)
Record ScriptInfo := mkScriptInfo {
  si_txRaw : bytes;
  si_isInitializeScript : bool;
}.

(* src: BlockInfo.h:121-188 TransactionInfo *)
Record TransactionInfo := mkTransactionInfo {
  ti_hash : bytes;
  ti_fromAddress : Address;
  ti_toAddress : Address;
  ti_value : Z;
  ti_fees : Z;
  ti_nonce : Z;
  ti_blockNumber : Z;
  ti_sizeRawTx : Z;
  ti_isSaveToBd : bool;
  ti_isSignBlockTx : bool;
  ti_intStatus : option Z;
  ti_sign : bytes;
  ti_pubKey : bytes;
  ti_data : bytes;
  ti_allRawTx : bytes;
  ti_realFees : option Z;
  ti_delegate : option DelegateInfo;
  ti_scriptInfo : option ScriptInfo;
  ti_filePos : FilePosition;
  ti_status : option TransactionStatus;
  ti_isModuleNotSet : bool;
  ti_isInitialized : bool;
}.

(* src: BlockInfo.h:190-196 MinimumBlockHeader *)
Record MinimumBlockHeader := mkMinimumBlockHeader {
  mh_number : Z;
  mh_blockSize : Z;
  mh_hash : bytes;
  mh_parentHash : bytes;
  mh_fileName : bytes;
}.

(* src: BlockInfo.h:198-232 BlockHeader *)
Record BlockHeader := mkBlockHeader {
  bh_timestamp : Z;
  bh_blockSize : Z;
  bh_blockType : Z;
  bh_hash : bytes;
  bh_prevHash : bytes;
  bh_signature : bytes;
  bh_txsHash : bytes;
  bh_countTxs : option Z;
  bh_filePos : FilePosition;
  bh_endBlockPos : Z;
  bh_blockNumber : option Z;
  bh_senderSign : bytes;
  bh_senderPubkey : bytes;
  bh_senderAddress : bytes;
}.

(** The timestamps of [BlockTimes] are only logged and are left out. *)
(* src: BlockInfo.h:245-253 BlockInfo *)
Record BlockInfo := mkBlockInfo {
  bi_header : BlockHeader;
  bi_txs : list TransactionInfo;
}.

(* src: BlockInfo.h:255-272 BlocksMetadata *)
Record BlocksMetadata := mkBlocksMetadata {
  bm_blockHash : bytes;
  bm_prevBlockHash : bytes;
  bm_blockNumber : Z;
}.

(* src: BlockInfo.h:274-291 MainBlockInfo *)
Record MainBlockInfo := mkMainBlockInfo {
  mb_blockNumber : Z;
  mb_blockHash : bytes;
  mb_countVal : Z;
}.

(* src: BlockInfo.h:293-305 FileInfo *)
Record FileInfo := mkFileInfo {
  fi_filePos : FilePosition;
}.

(* src: BlockInfo.h:307-313 BatchResults *)
Record BatchResults (V : Type) := mkBatchResults {
  br_elements : list (bytes * V);
  br_lastBlockNum : Z;
}.
Arguments mkBatchResults {V}.
Arguments br_elements {V}.
Arguments br_lastBlockNum {V}.

(** Value-initialised objects: members without an initialiser are zero. *)
Definition FilePosition_default : FilePosition := mkFilePosition 0 [].
Definition TransactionInfo_default : TransactionInfo :=
  mkTransactionInfo [] Address_default Address_default 0 0 0 0 0 true false None
    [] [] [] [] None None None FilePosition_default None false false.
Definition BlockHeader_default : BlockHeader :=
  mkBlockHeader 0 0 0 [] [] [] [] None FilePosition_default 0 None [] [] [].
Definition BlockInfo_default : BlockInfo := mkBlockInfo BlockHeader_default [].
Definition BlocksMetadata_default : BlocksMetadata := mkBlocksMetadata [] [] 0.
Definition MainBlockInfo_default : MainBlockInfo := mkMainBlockInfo 0 [] 0.
Definition FileInfo_default : FileInfo := mkFileInfo (mkFilePosition 0 []).

#[global] Instance FilePosition_eq_dec : EqDecision FilePosition.
Proof. solve_decision. Defined.
#[global] Instance UnDelegate_eq_dec : EqDecision UnDelegate.
Proof. solve_decision. Defined.
#[global] Instance V8Status_eq_dec : EqDecision V8Status.
Proof. solve_decision. Defined.
#[global] Instance StatusVariant_eq_dec : EqDecision StatusVariant.
Proof. solve_decision. Defined.
#[global] Instance TransactionStatus_eq_dec : EqDecision TransactionStatus.
Proof. solve_decision. Defined.
#[global] Instance DelegateInfo_eq_dec : EqDecision DelegateInfo.
Proof. solve_decision. Defined.
#[global] Instance ScriptInfo_eq_dec : EqDecision ScriptInfo.
Proof. solve_decision. Defined.
#[global] Instance TransactionInfo_eq_dec : EqDecision TransactionInfo.
Proof. solve_decision. Defined.
#[global] Instance BlockHeader_eq_dec : EqDecision BlockHeader.
Proof. solve_decision. Defined.

(** Member assignments used in several components. *)
Definition set_bh_blockNumber (n : option Z) (b : BlockHeader) : BlockHeader :=
  mkBlockHeader (bh_timestamp b) (bh_blockSize b) (bh_blockType b) (bh_hash b)
    (bh_prevHash b) (bh_signature b) (bh_txsHash b) (bh_countTxs b) (bh_filePos b)
    (bh_endBlockPos b) n (bh_senderSign b) (bh_senderPubkey b) (bh_senderAddress b).
Definition set_bh_filePos (p : FilePosition) (b : BlockHeader) : BlockHeader :=
  mkBlockHeader (bh_timestamp b) (bh_blockSize b) (bh_blockType b) (bh_hash b)
    (bh_prevHash b) (bh_signature b) (bh_txsHash b) (bh_countTxs b) p
    (bh_endBlockPos b) (bh_blockNumber b) (bh_senderSign b) (bh_senderPubkey b)
    (bh_senderAddress b).
Definition set_ti_blockNumber (n : Z) (t : TransactionInfo) : TransactionInfo :=
  mkTransactionInfo (ti_hash t) (ti_fromAddress t) (ti_toAddress t) (ti_value t)
    (ti_fees t) (ti_nonce t) n (ti_sizeRawTx t) (ti_isSaveToBd t) (ti_isSignBlockTx t)
    (ti_intStatus t) (ti_sign t) (ti_pubKey t) (ti_data t) (ti_allRawTx t) (ti_realFees t)
    (ti_delegate t) (ti_scriptInfo t) (ti_filePos t) (ti_status t) (ti_isModuleNotSet t)
    (ti_isInitialized t).
Definition set_ti_filePos (p : FilePosition) (t : TransactionInfo) : TransactionInfo :=
  mkTransactionInfo (ti_hash t) (ti_fromAddress t) (ti_toAddress t) (ti_value t)
    (ti_fees t) (ti_nonce t) (ti_blockNumber t) (ti_sizeRawTx t) (ti_isSaveToBd t)
    (ti_isSignBlockTx t) (ti_intStatus t) (ti_sign t) (ti_pubKey t) (ti_data t)
    (ti_allRawTx t) (ti_realFees t) (ti_delegate t) (ti_scriptInfo t) p (ti_status t)
    (ti_isModuleNotSet t) (ti_isInitialized t).
Definition set_ti_isSaveToBd (v : bool) (t : TransactionInfo) : TransactionInfo :=
  mkTransactionInfo (ti_hash t) (ti_fromAddress t) (ti_toAddress t) (ti_value t)
    (ti_fees t) (ti_nonce t) (ti_blockNumber t) (ti_sizeRawTx t) v (ti_isSignBlockTx t)
    (ti_intStatus t) (ti_sign t) (ti_pubKey t) (ti_data t) (ti_allRawTx t) (ti_realFees t)
    (ti_delegate t) (ti_scriptInfo t) (ti_filePos t) (ti_status t) (ti_isModuleNotSet t)
    (ti_isInitialized t).
Definition set_ti_allRawTx (raw : bytes) (t : TransactionInfo) : TransactionInfo :=
  mkTransactionInfo (ti_hash t) (ti_fromAddress t) (ti_toAddress t) (ti_value t)
    (ti_fees t) (ti_nonce t) (ti_blockNumber t) (ti_sizeRawTx t) (ti_isSaveToBd t)
    (ti_isSignBlockTx t) (ti_intStatus t) (ti_sign t) (ti_pubKey t) (ti_data t) raw
    (ti_realFees t) (ti_delegate t) (ti_scriptInfo t) (ti_filePos t) (ti_status t)
    (ti_isModuleNotSet t) (ti_isInitialized t).

(** ** Constants *)
(* src: BlockInfo.cpp:15-22 BLOCK_TYPE *)
Definition BLOCK_TYPE : Z := 0xEFCDAB8967452301.
Definition BLOCK_TYPE_COMMON : Z := 0x0000000067452301.
Definition BLOCK_TYPE_STATE : Z := 0x1100000067452301.
Definition BLOCK_TYPE_FORGING : Z := 0x2200000067452301.
Definition BLOCK_TYPE_COMMON_2 : Z := 0x0001000067452301.
Definition BLOCK_TYPE_STATE_2 : Z := 0x1101000067452301.
Definition BLOCK_TYPE_FORGING_2 : Z := 0x2201000067452301.

(* src: BlockInfo.cpp:24-34 TX_STATE_WRONG_MONEY *)
Definition TX_STATE_WRONG_MONEY : Z := 30.
Definition TX_STATE_WRONG_DATA : Z := 40.
Definition TX_STATE_FORGING : Z := 100.
Definition TX_STATE_FORGING_W : Z := 101.
Definition TX_STATE_FORGING_N : Z := 102.
Definition TX_STATE_FORGING_C : Z := 103.
Definition TX_STATE_FORGING_A : Z := 104.
Definition TX_STATE_TECH_NODE_STAT : Z := 0x1101.

(** ** FilePosition *)

(* src: BlockInfo.cpp:36-44 FilePosition::serialize() *)
Definition FilePosition_serialize (p : FilePosition) : bytes :=
  let res := [] in
  let res := res ++ serializeString (fp_fileName p) in
  let res := res ++ serializeInt 8 (fp_pos p) in
  res.

(* src: BlockInfo.cpp:46-49 FilePosition::serialize(buffer) *)
Definition FilePosition_serialize_buf (p : FilePosition) (buffer : bytes) : bytes :=
  let buffer := serializeString_buf (fp_fileName p) buffer in
  serializeInt_buf 8 (fp_pos p) buffer.

(** The overload with [nextFrom]: each field is read by the overload that
    signals a short buffer with an unchanged position. *)
(* src: BlockInfo.cpp:51-63 FilePosition::deserialize(raw, from, nextFrom) *)
Definition FilePosition_deserialize_at (raw : bytes) (from : Z) : res (FilePosition * Z) :=
  '(fileName, nextFrom) ← deserializeString_at raw from;
  _ ← CHECK (negb (nextFrom =? from)) (str "Incorrect raw ");
  let from := nextFrom in
  '(pos, nextFrom) ← deserializeInt_at 8 raw from;
  _ ← CHECK (negb (nextFrom =? from)) (str "Incorrect raw ");
  Ok (mkFilePosition pos fileName, nextFrom).

(* src: BlockInfo.cpp:65-71 FilePosition::deserialize(raw, from) *)
Definition FilePosition_deserialize_from (raw : bytes) (from : Z) : res (FilePosition * Z) :=
  '(r, endPos) ← FilePosition_deserialize_at raw from;
  _ ← CHECK (negb (endPos =? from)) (str "Incorrect raw");
  Ok (r, endPos).

(* src: BlockInfo.cpp:73-76 FilePosition::deserialize(raw) *)
Definition FilePosition_deserialize (raw : bytes) : res FilePosition :=
  '(r, _) ← FilePosition_deserialize_at raw 0;
  Ok r.

(** ** TransactionInfo *)

(* src: BlockInfo.cpp:78-82 TransactionInfo::serialize *)
Definition TransactionInfo_serialize (t : TransactionInfo) : bytes :=
  let buffer := FilePosition_serialize_buf (ti_filePos t) [] in
  serializeInt_buf 8 (ti_blockNumber t) buffer.

(** The new value of [realFees]; the conversion to [int64_t] is the
    assignment's. *)
(* src: BlockInfo.cpp:84-87 TransactionInfo::calcRealFee *)
Definition calcRealFee (sizeRawTx : Z) : res Z :=
  _ ← CHECK (0 <? sizeRawTx) (str "Size raw tx not set");
  Ok (to_i64 (if 255 <? sizeRawTx then sizeRawTx - 255 else 0)).

(* src: BlockInfo.h:175-177 TransactionInfo::isStatusNeed *)
Definition isStatusNeed (t : TransactionInfo) : bool :=
  bool_decide (is_Some (ti_delegate t)) || bool_decide (is_Some (ti_scriptInfo t)).

(* src: BlockInfo.cpp:89-91 TransactionInfo::isIntStatusNoBalance *)
Definition isIntStatusNoBalance (t : TransactionInfo) : bool :=
  match ti_intStatus t with Some s => s =? TX_STATE_WRONG_MONEY | None => false end.

(* src: BlockInfo.cpp:93-95 TransactionInfo::isIntStatusNotSuccess *)
Definition isIntStatusNotSuccess (t : TransactionInfo) : bool :=
  match ti_intStatus t with
  | Some s => (s =? TX_STATE_WRONG_MONEY) || (s =? TX_STATE_WRONG_DATA)
  | None => false
  end.

(* src: BlockInfo.cpp:97-99 TransactionInfo::getForgingIntStatuses *)
Definition getForgingIntStatuses : gset Z :=
  {[ TX_STATE_FORGING; TX_STATE_FORGING_C; TX_STATE_FORGING_N; TX_STATE_FORGING_W;
     TX_STATE_FORGING_A ]}.

(* src: BlockInfo.cpp:101-104 TransactionInfo::isIntStatusForging *)
Definition isIntStatusForging (t : TransactionInfo) : bool :=
  match ti_intStatus t with
  | Some s => bool_decide (s ∈ getForgingIntStatuses)
  | None => false
  end.

(* src: BlockInfo.cpp:106-108 TransactionInfo::isIntStatusNodeTest *)
Definition isIntStatusNodeTest (t : TransactionInfo) : bool :=
  match ti_intStatus t with Some s => s =? TX_STATE_TECH_NODE_STAT | None => false end.

(* src: BlockInfo.cpp:110-117 TransactionInfo::deserialize(raw, from) *)
Definition TransactionInfo_deserialize_from (raw : bytes) (from : Z) : res (TransactionInfo * Z) :=
  '(filePos, from) ← FilePosition_deserialize_from raw from;
  '(blockNumber, from) ← deserializeInt 8 raw from;
  Ok (set_ti_blockNumber blockNumber (set_ti_filePos filePos TransactionInfo_default), from).

(* src: BlockInfo.cpp:119-122 TransactionInfo::deserialize(raw) *)
Definition TransactionInfo_deserialize (raw : bytes) : res TransactionInfo :=
  '(r, _) ← TransactionInfo_deserialize_from raw 0;
  Ok r.

(** ** TransactionStatus *)

(* src: BlockInfo.cpp:124-127 UnDelegate::serialize *)
Definition UnDelegate_serialize (u : UnDelegate) (buffer : bytes) : bytes :=
  let buffer := serializeInt_buf 8 (u64 (ud_value u)) buffer in
  serializeString_buf (ud_delegateHash u) buffer.

(* src: BlockInfo.cpp:129-134 UnDelegate::deserialize *)
Definition UnDelegate_deserialize (raw : bytes) (fromPos : Z) : res (UnDelegate * Z) :=
  '(value, fromPos) ← deserializeInt 8 raw fromPos;
  '(delegateHash, fromPos) ← deserializeString raw fromPos;
  Ok (mkUnDelegate (to_i64 value) delegateHash, fromPos).

(* src: BlockInfo.cpp:136-144 V8Status::serialize *)
Definition V8Status_serialize (v : V8Status) (buffer : bytes) : res bytes :=
  let buffer := serializeInt_buf 1 (if v8_isServerError v then 1 else 0) buffer in
  let buffer := serializeInt_buf 1 (if v8_isScriptError v then 1 else 0) buffer in
  e ← isEmpty (v8_compiledContractAddress v);
  if negb e then
    s ← getBinaryString (v8_compiledContractAddress v);
    Ok (serializeString_buf s buffer)
  else Ok (serializeString_buf [] buffer).

(* src: BlockInfo.cpp:146-157 V8Status::deserialize *)
Definition V8Status_deserialize (raw : bytes) (fromPos : Z) : res (V8Status * Z) :=
  '(serverError, fromPos) ← deserializeInt 1 raw fromPos;
  '(scriptError, fromPos) ← deserializeInt 1 raw fromPos;
  '(addressString, fromPos) ← deserializeString raw fromPos;
  let addr := if negb (is_empty addressString) then Address_of_range addressString
              else setEmpty Address_default in
  Ok (mkV8Status (negb (serverError =? 0)) (negb (scriptError =? 0)) addr, fromPos).

(* src: BlockInfo.cpp:179-180 status.index() *)
Definition status_index (s : StatusVariant) : Z :=
  match s with SMonostate => 0 | SDelegate => 1 | SUnDelegate _ => 2 | SV8Status _ => 3 end.

(* src: BlockInfo.cpp:159-172 TransactionStatus::tryParse, parseVarint *)
Definition parseVarint (raw : bytes) (fromPos number : Z) : res (StatusVariant * Z) :=
  if number =? 1 then Ok (SDelegate, fromPos)
  else if number =? 2 then
    '(u, fromPos) ← UnDelegate_deserialize raw fromPos; Ok (SUnDelegate u, fromPos)
  else if number =? 3 then
    '(v, fromPos) ← V8Status_deserialize raw fromPos; Ok (SV8Status v, fromPos)
  else Ok (SMonostate, fromPos).

(* src: BlockInfo.cpp:174-186 TransactionStatus::serialize *)
Definition TransactionStatus_serialize (t : TransactionStatus) : res bytes :=
  let buffer := serializeInt_buf 1 (if ts_isSuccess t then 1 else 0) [] in
  let buffer := serializeInt_buf 8 (ts_blockNumber t) buffer in
  let buffer := serializeString_buf (ts_transaction t) buffer in
  _ ← CHECK (negb (status_index (ts_status t) =? 0)) (str "Status not set");
  let buffer := serializeInt_buf 8 (status_index (ts_status t)) buffer in
  match ts_status t with
  | SMonostate => Ok buffer
  | SDelegate => Ok buffer
  | SUnDelegate u => Ok (UnDelegate_serialize u buffer)
  | SV8Status v => V8Status_serialize v buffer
  end.

(* src: BlockInfo.cpp:188-201 TransactionStatus::deserialize *)
Definition TransactionStatus_deserialize (raw : bytes) : res TransactionStatus :=
  let from := 0 in
  '(isSuccess, from) ← deserializeInt 1 raw from;
  '(blockNumber, from) ← deserializeInt 8 raw from;
  '(transaction, from) ← deserializeString raw from;
  '(number, from) ← deserializeInt 8 raw from;
  _ ← CHECK (negb (number =? 0) && (number <? 4)) (str "Incorrect type in transaction status");
  '(status, from) ← parseVarint raw from number;
  Ok (mkTransactionStatus (negb (isSuccess =? 0)) transaction blockNumber status).

(** ** AddressInfo *)

(* src: BlockInfo.cpp:203-210 AddressInfo::serialize *)
Definition AddressInfo_serialize (a : AddressInfo) : bytes :=
  let buffer := FilePosition_serialize_buf (ai_filePos a) [] in
  let buffer := serializeInt_buf 8 (ai_blockNumber a) buffer in
  match ai_undelegateValue a with
  | Some v => serializeInt_buf 8 (u64 v) buffer
  | None => buffer
  end.

(* src: BlockInfo.cpp:212-223 AddressInfo::deserialize *)
Definition AddressInfo_deserialize (raw : bytes) : res AddressInfo :=
  let from := 0 in
  '(filePos, from) ← FilePosition_deserialize_from raw from;
  '(blockNumber, from) ← deserializeInt 8 raw from;
  if from <? blen raw then
    '(v, from) ← deserializeInt 8 raw from;
    Ok (mkAddressInfo filePos blockNumber (Some (to_i64 v)))
  else Ok (mkAddressInfo filePos blockNumber None).

(** ** BlockHeader *)

(* src: BlockInfo.cpp:225-227 BlockHeader::isStateBlock *)
Definition isStateBlock (b : BlockHeader) : bool :=
  (bh_blockType b =? BLOCK_TYPE_STATE) || (bh_blockType b =? BLOCK_TYPE_STATE_2).

(* src: BlockInfo.cpp:229-231 BlockHeader::isSimpleBlock *)
Definition isSimpleBlock (b : BlockHeader) : bool :=
  (bh_blockType b =? BLOCK_TYPE) || (bh_blockType b =? BLOCK_TYPE_COMMON)
  || (bh_blockType b =? BLOCK_TYPE_COMMON_2).

(* src: BlockInfo.cpp:233-235 BlockHeader::isForgingBlock *)
Definition isForgingBlock (b : BlockHeader) : bool :=
  (bh_blockType b =? BLOCK_TYPE_FORGING) || (bh_blockType b =? BLOCK_TYPE_FORGING_2).

(* src: BlockInfo.cpp:237-247 BlockHeader::getBlockType *)
Definition getBlockType (b : BlockHeader) : res bytes :=
  if isStateBlock b then Ok (str "state")
  else if isSimpleBlock b then Ok (str "block")
  else if isForgingBlock b then Ok (str "forging")
  else throwErr (str "Unknown block type " ++ to_string (bh_blockType b)).

(* src: BlockInfo.cpp:249-270 BlockHeader::serialize *)
Definition BlockHeader_serialize (b : BlockHeader) : res bytes :=
  _ ← CHECK (negb (is_empty (bh_hash b))) (str "empty hash");
  _ ← CHECK (negb (is_empty (bh_prevHash b))) (str "empty prevHash");
  let r := FilePosition_serialize (bh_filePos b) in
  let r := r ++ serializeString (bh_prevHash b) in
  let r := r ++ serializeString (bh_hash b) in
  let r := r ++ serializeString (bh_txsHash b) in
  let r := r ++ serializeString (bh_signature b) in
  let r := r ++ serializeInt 8 (bh_blockSize b) in
  let r := r ++ serializeInt 8 (bh_blockType b) in
  let r := r ++ serializeInt 8 (bh_timestamp b) in
  _ ← CHECK (bool_decide (is_Some (bh_countTxs b))) (str "Count txs not set");
  countTxs ← opt_value (bh_countTxs b);
  let r := r ++ serializeInt 8 countTxs in
  let r := r ++ serializeString (bh_senderSign b) in
  let r := r ++ serializeString (bh_senderPubkey b) in
  let r := r ++ serializeString (bh_senderAddress b) in
  Ok r.

(* src: BlockInfo.cpp:272-295 BlockHeader::deserialize *)
Definition BlockHeader_deserialize (raw : bytes) : res BlockHeader :=
  let from := 0 in
  '(filePos, from) ← FilePosition_deserialize_from raw from;
  '(prevHash, from) ← deserializeString raw from;
  '(hash, from) ← deserializeString raw from;
  '(txsHash, from) ← deserializeString raw from;
  '(sign, from) ← deserializeString raw from;
  '(blockSize, from) ← deserializeInt 8 raw from;
  '(blockType, from) ← deserializeInt 8 raw from;
  '(timestamp, from) ← deserializeInt 8 raw from;
  '(countTxs, from) ← deserializeInt 8 raw from;
  '(senderSign, from) ← deserializeString raw from;
  '(senderPubkey, from) ← deserializeString raw from;
  '(senderAddress, from) ← deserializeString raw from;
  Ok (mkBlockHeader timestamp blockSize blockType hash prevHash sign txsHash (Some countTxs)
        filePos 0 None senderSign senderPubkey senderAddress).

(* src: BlockInfo.cpp:297-303 BlockInfo::getBlockSignatures *)
Definition getBlockSignatures (bi : BlockInfo) : list TransactionInfo :=
  List.filter ti_isSignBlockTx (bi_txs bi).

(** ** Metadata records *)

(* src: BlockInfo.cpp:305-314 BlocksMetadata::serialize *)
Definition BlocksMetadata_serialize (m : BlocksMetadata) : res bytes :=
  _ ← CHECK (negb (is_empty (bm_blockHash m))) (str "Incorrect metadata");
  _ ← CHECK (negb (is_empty (bm_prevBlockHash m))) (str "Incorrect metadata");
  let r := serializeString (bm_blockHash m) in
  let r := r ++ serializeString (bm_prevBlockHash m) in
  let r := r ++ serializeInt 8 (bm_blockNumber m) in
  Ok r.

(* src: BlockInfo.cpp:316-328 BlocksMetadata::deserialize *)
Definition BlocksMetadata_deserialize (raw : bytes) : res BlocksMetadata :=
  if is_empty raw then Ok BlocksMetadata_default else
  let from := 0 in
  '(blockHash, from) ← deserializeString raw from;
  '(prevBlockHash, from) ← deserializeString raw from;
  '(blockNumber, from) ← deserializeInt 8 raw from;
  Ok (mkBlocksMetadata blockHash prevBlockHash blockNumber).

(* src: BlockInfo.cpp:330-338 MainBlockInfo::serialize *)
Definition MainBlockInfo_serialize (m : MainBlockInfo) : res bytes :=
  _ ← CHECK (negb (is_empty (mb_blockHash m))) (str "Incorrect metadata");
  let r := serializeString (mb_blockHash m) in
  let r := r ++ serializeInt 8 (mb_blockNumber m) in
  let r := r ++ serializeInt 8 (mb_countVal m) in
  Ok r.

(* src: BlockInfo.cpp:340-352 MainBlockInfo::deserialize *)
Definition MainBlockInfo_deserialize (raw : bytes) : res MainBlockInfo :=
  if is_empty raw then Ok MainBlockInfo_default else
  let from := 0 in
  '(blockHash, from) ← deserializeString raw from;
  '(blockNumber, from) ← deserializeInt 8 raw from;
  '(countVal, from) ← deserializeInt 8 raw from;
  Ok (mkMainBlockInfo blockNumber blockHash countVal).

(* src: BlockInfo.cpp:354-356 FileInfo::serialize *)
Definition FileInfo_serialize (f : FileInfo) : bytes := FilePosition_serialize (fi_filePos f).

(* src: BlockInfo.cpp:358-364 FileInfo::deserialize *)
Definition FileInfo_deserialize (raw : bytes) : res FileInfo :=
  filePos ← FilePosition_deserialize raw;
  Ok (mkFileInfo filePos).

(** ** Block numbers of a transaction list *)

(* src: BlockInfo.cpp:366-375 getMaxBlockNumber(TransactionInfo) *)
Definition getMaxBlockNumber_txs (infos : list TransactionInfo) : Z :=
  match head infos, last infos with
  | Some first, Some lst => Z.max (ti_blockNumber first) (ti_blockNumber lst)
  | _, _ => 0
  end.

(* src: BlockInfo.cpp:377-386 getMaxBlockNumber(TransactionStatus) *)
Definition getMaxBlockNumber_statuses (infos : list TransactionStatus) : Z :=
  match head infos, last infos with
  | Some first, Some lst => Z.max (ts_blockNumber first) (ts_blockNumber lst)
  | _, _ => 0
  end.

(* src: BlockInfo.cpp:388-394 isGreater(TransactionInfo) *)
Definition isGreater_txs (infos : list TransactionInfo) (blockNumber : Z) : bool :=
  if is_empty infos then false else blockNumber <? getMaxBlockNumber_txs infos.

(* src: BlockInfo.cpp:396-402 isGreater(TransactionStatus) *)
Definition isGreater_statuses (infos : list TransactionStatus) (blockNumber : Z) : bool :=
  if is_empty infos then false else blockNumber <? getMaxBlockNumber_statuses infos.
