(* ===== verification/BlockInfoCodec.v ===== *)
(** * Round trips of the records of BlockInfo.cpp

    Each record's well-formedness (its integers fit their C++ types, its
    mandatory fields are set), the [Codec] instances, and the proofs that
    [deserialize] returns what [serialize] was given. *)
From S2P Require Import Prelude External Serialize Address BlockInfo.
#[local] Open Scope Z_scope.

(** ** Well-formed values *)
Definition fp_wf (p : FilePosition) : Prop := is_u64 (fp_pos p).

Definition status_wf (s : StatusVariant) : Prop :=
  match s with
  | SMonostate => False
  | SDelegate => True
  | SUnDelegate u => is_i64 (ud_value u)
  | SV8Status v =>
      v8_compiledContractAddress v = setEmpty Address_default \/
      exists a, a <> [] /\ v8_compiledContractAddress v = Address_of_range a
  end.

Definition ts_wf (t : TransactionStatus) : Prop :=
  is_u64 (ts_blockNumber t) /\ status_wf (ts_status t).

Definition ai_wf (a : AddressInfo) : Prop :=
  fp_wf (ai_filePos a) /\ is_u64 (ai_blockNumber a) /\
  match ai_undelegateValue a with Some v => is_i64 v | None => True end.

Definition bh_wf (b : BlockHeader) : Prop :=
  bh_hash b <> [] /\ bh_prevHash b <> [] /\ fp_wf (bh_filePos b) /\
  is_u64 (bh_blockSize b) /\ is_u64 (bh_blockType b) /\ is_u64 (bh_timestamp b) /\
  (exists n, bh_countTxs b = Some n /\ is_u64 n).

Definition bm_wf (m : BlocksMetadata) : Prop :=
  bm_blockHash m <> [] /\ bm_prevBlockHash m <> [] /\ is_u64 (bm_blockNumber m).

Definition mb_wf (m : MainBlockInfo) : Prop :=
  mb_blockHash m <> [] /\ is_u64 (mb_blockNumber m) /\ is_u64 (mb_countVal m).

(** What [BlockHeader::serialize] stores: all but the two members that are
    recomputed after loading. *)
Definition bh_stored (b : BlockHeader) : BlockHeader :=
  mkBlockHeader (bh_timestamp b) (bh_blockSize b) (bh_blockType b) (bh_hash b)
    (bh_prevHash b) (bh_signature b) (bh_txsHash b) (bh_countTxs b) (bh_filePos b)
    0 None (bh_senderSign b) (bh_senderPubkey b) (bh_senderAddress b).

(** What [TransactionInfo::serialize] stores: where the transaction is. *)
Definition ti_stored (t : TransactionInfo) : TransactionInfo :=
  set_ti_blockNumber (ti_blockNumber t) (set_ti_filePos (ti_filePos t) TransactionInfo_default).

(** ** Reading lemmas *)

Lemma fits_i64 v : fits 8 (u64 v).
Proof. apply u64_range. Qed.
#[local] Hint Resolve fits_i64 : cpp.

Lemma serializeString_nonempty s : serializeString s <> [].
Proof.
  intros H. apply (f_equal blen) in H. rewrite blen_serializeString in H.
  pose proof (blen_nonneg s). rewrite blen_nil in H. lia.
Qed.

Lemma app_nonempty_l {A} (l k : list A) : l <> [] -> l ++ k <> [].
Proof. by destruct l. Qed.

Lemma app_nonempty_r {A} (l k : list A) : k <> [] -> l ++ k <> [].
Proof. by destruct l, k. Qed.

Lemma FilePosition_buf_eq p buffer :
  fp_wf p -> FilePosition_serialize_buf p buffer = buffer ++ FilePosition_serialize p.
Proof.
  unfold fp_wf, is_u64. intros Hp. unfold FilePosition_serialize_buf, FilePosition_serialize.
  rewrite serializeInt_buf_eq by lia. rewrite serializeString_buf_eq. simpl.
  by rewrite <- app_assoc.
Qed.

Lemma FilePosition_suffix raw from p rest :
  fp_wf p -> suffix_at raw from (FilePosition_serialize p ++ rest) ->
  FilePosition_deserialize_at raw from = Ok (p, from + blen (FilePosition_serialize p)) /\
  FilePosition_deserialize_from raw from = Ok (p, from + blen (FilePosition_serialize p)).
Proof.
  intros Hp H. unfold fp_wf in Hp.
  assert (FilePosition_deserialize_at raw from = Ok (p, from + blen (FilePosition_serialize p))) as Hat.
  { unfold FilePosition_serialize in H. simpl in H. rewrite <- app_assoc in H.
    unfold FilePosition_deserialize_at.
    destruct (deserializeString_Ok_at _ _ _ _ (deserializeString_suffix _ _ _ _ H)) as [-> Hne].
    apply suffix_at_app in H. cbn [mbind res_bind].
    destruct (Z.eqb_spec (from + blen (serializeString (fp_fileName p))) from); [done|].
    cbn [negb CHECK mbind res_bind].
    destruct (deserializeInt_Ok_at _ _ _ _ _
      (deserializeInt_suffix 8 _ _ _ _ Hp ltac:(lia) H)) as [-> Hne']. cbn [mbind res_bind].
    destruct (Z.eqb_spec (from + blen (serializeString (fp_fileName p)) + Z.of_nat 8)
      (from + blen (serializeString (fp_fileName p)))); [done|].
    cbn [negb CHECK mbind res_bind]. unfold FilePosition_serialize. simpl.
    rewrite blen_app, blen_serializeInt by (unfold is_u64 in Hp; lia).
    destruct p; simpl. do 2 f_equal. lia. }
  split; [done|]. unfold FilePosition_deserialize_from. rewrite Hat. cbn [mbind res_bind].
  destruct (Z.eqb_spec (from + blen (FilePosition_serialize p)) from) as [E|]; [|done].
  unfold FilePosition_serialize in E. simpl in E.
  rewrite blen_app, blen_serializeString, blen_serializeInt in E by (unfold is_u64 in Hp; lia).
  pose proof (blen_nonneg (fp_fileName p)). lia.
Qed.

Ltac read_filePos H :=
  lazymatch type of H with
  | suffix_at ?raw ?from (FilePosition_serialize ?p ++ ?rest) =>
      rewrite (proj2 (FilePosition_suffix raw from p rest ltac:(assumption) H));
      cbn [mbind res_bind]; apply suffix_at_app in H
  end.

(** ** The instances *)

#[export] Instance FilePosition_codec : Codec FilePosition :=
  {| c_ser p := Ok (FilePosition_serialize p); c_des := FilePosition_deserialize; c_wf := fp_wf |}.

Lemma FilePosition_nonempty p : FilePosition_serialize p <> [].
Proof. apply app_nonempty_l, serializeString_nonempty. Qed.

Ltac solve_nonempty :=
  repeat first [assumption | apply FilePosition_nonempty | apply serializeString_nonempty
    | apply app_nonempty_l].

#[export] Instance FilePosition_laws : CodecLaws FilePosition.
Proof.
  intros p Hp. eexists. split; [done|]. split; [apply FilePosition_nonempty|].
  intros Hl. set (raw := FilePosition_serialize p) in *.
  start_read H raw Hl. simpl. unfold FilePosition_deserialize.
  by rewrite (proj1 (FilePosition_suffix _ _ _ _ Hp H)).
Qed.

#[export] Instance FileInfo_codec : Codec FileInfo :=
  {| c_ser f := Ok (FileInfo_serialize f); c_des := FileInfo_deserialize;
     c_wf f := fp_wf (fi_filePos f) |}.

#[export] Instance FileInfo_laws : CodecLaws FileInfo.
Proof.
  intros [p] Hp. destruct (FilePosition_laws p Hp) as (raw & Hs & Hne & Hd).
  exists raw. split; [done|]. split; [done|]. intros Hl. simpl in *.
  unfold FileInfo_deserialize. by rewrite (Hd Hl).
Qed.

#[export] Instance BlocksMetadata_codec : Codec BlocksMetadata :=
  {| c_ser := BlocksMetadata_serialize; c_des := BlocksMetadata_deserialize; c_wf := bm_wf |}.

#[export] Instance BlocksMetadata_laws : CodecLaws BlocksMetadata.
Proof.
  intros m (Hh & Hp & Hn). simpl. unfold BlocksMetadata_serialize.
  rewrite !is_empty_false by done. cbn [negb CHECK mbind res_bind].
  set (raw := _ ++ _). exists raw. split; [done|].
  assert (raw <> []) as Hne by (subst raw; solve_nonempty).
  split; [done|]. intros Hl. start_read H raw Hl.
  unfold BlocksMetadata_deserialize. rewrite is_empty_false by done.
  read_string H. read_string H. read_int H. by destruct m.
Qed.

#[export] Instance MainBlockInfo_codec : Codec MainBlockInfo :=
  {| c_ser := MainBlockInfo_serialize; c_des := MainBlockInfo_deserialize; c_wf := mb_wf |}.

#[export] Instance MainBlockInfo_laws : CodecLaws MainBlockInfo.
Proof.
  intros m (Hh & Hn & Hc). simpl. unfold MainBlockInfo_serialize.
  rewrite !is_empty_false by done. cbn [negb CHECK mbind res_bind].
  set (raw := _ ++ _). exists raw. split; [done|].
  assert (raw <> []) as Hne by (subst raw; solve_nonempty).
  split; [done|]. intros Hl. start_read H raw Hl.
  unfold MainBlockInfo_deserialize. rewrite is_empty_false by done.
  read_string H. read_int H. read_int H. by destruct m.
Qed.

(** A header comes back as it was stored; [endBlockPos] and [blockNumber] are
    not part of the encoding. *)
Lemma BlockHeader_roundtrip_stored b :
  bh_wf b -> exists raw, BlockHeader_serialize b = Ok raw /\ raw <> [] /\
    (blen raw < 2 ^ 64 - 16 -> BlockHeader_deserialize raw = Ok (bh_stored b)).
Proof.
  intros (Hh & Hp & Hf & Hs & Ht & Hts & n & Hn & Hnr).
  unfold BlockHeader_serialize. rewrite !is_empty_false by done. rewrite Hn.
  cbn [negb CHECK mbind res_bind opt_value bool_decide decide_rel is_Some].
  rewrite bool_decide_true by eauto. cbn [CHECK mbind res_bind].
  set (raw := _ ++ _). exists raw. split; [done|].
  assert (raw <> []) as Hne by (subst raw; solve_nonempty).
  split; [done|]. intros Hl. start_read H raw Hl. unfold BlockHeader_deserialize.
  read_filePos H. do 4 read_string H. do 4 read_int H. do 3 read_string H.
  unfold bh_stored. by rewrite Hn.
Qed.

#[export] Instance AddressInfo_codec : Codec AddressInfo :=
  {| c_ser a := Ok (AddressInfo_serialize a); c_des := AddressInfo_deserialize; c_wf := ai_wf |}.

#[export] Instance AddressInfo_laws : CodecLaws AddressInfo.
Proof.
  intros a (Hf & Hn & Hu). eexists. split; [done|].
  pose proof (FilePosition_nonempty (ai_filePos a)) as Hne.
  assert (0 <= ai_blockNumber a) by (unfold is_u64 in Hn; lia).
  unfold AddressInfo_serialize. rewrite FilePosition_buf_eq, serializeInt_buf_eq by done. simpl.
  destruct a as [p bn [v|]]; simpl in *.
  - rewrite serializeInt_buf_eq by apply u64_range. set (raw := _ ++ _).
    split; [subst raw; solve_nonempty|]. intros Hl. start_read H0 raw Hl.
    unfold AddressInfo_deserialize. read_filePos H0. read_int H0.
    pose proof (suffix_at_blen _ _ _ H0) as Hb. pose proof (fits_i64 v) as Hv.
    rewrite app_nil_r, blen_serializeInt in Hb by apply Hv.
    destruct (Z.ltb_spec (0 + blen (FilePosition_serialize p) + Z.of_nat 8) (blen raw)); [|lia].
    read_int H0. by rewrite to_i64_u64.
  - set (raw := _ ++ _). split; [subst raw; solve_nonempty|]. intros Hl.
    start_read H0 raw Hl. unfold AddressInfo_deserialize. read_filePos H0. read_int H0.
    pose proof (suffix_at_blen _ _ _ H0) as Hb. change (blen []) with 0 in Hb.
    destruct (Z.ltb_spec (0 + blen (FilePosition_serialize p) + Z.of_nat 8) (blen raw)); [lia|done].
Qed.

(** ** Transactions and their statuses *)

Lemma TransactionInfo_roundtrip_stored t :
  fp_wf (ti_filePos t) -> is_u64 (ti_blockNumber t) ->
  blen (TransactionInfo_serialize t) < 2 ^ 64 - 16 ->
  TransactionInfo_deserialize (TransactionInfo_serialize t) = Ok (ti_stored t).
Proof.
  intros Hf Hn Hl. unfold TransactionInfo_serialize in *.
  rewrite FilePosition_buf_eq, serializeInt_buf_eq in * by (unfold is_u64 in Hn; done || lia).
  simpl in *. set (raw := _ ++ _) in *. start_read H raw Hl.
  unfold TransactionInfo_deserialize, TransactionInfo_deserialize_from.
  read_filePos H. read_int H. done.
Qed.

(** The bytes a status alternative adds, and that reading them gives it back. *)
Lemma status_roundtrip s :
  status_wf s -> exists body,
    (forall buffer, match s with
      | SMonostate | SDelegate => Ok buffer
      | SUnDelegate u => Ok (UnDelegate_serialize u buffer)
      | SV8Status v => V8Status_serialize v buffer end = Ok (buffer ++ body)) /\
    (forall raw from, suffix_at raw from (body ++ []) ->
      exists e, parseVarint raw from (status_index s) = Ok (s, e)).
Proof.
  destruct s as [| |[v h]|[se sc a]]; simpl; [done|..].
  - intros _. exists []. split; [by intros; rewrite app_nil_r|]. intros. by eexists.
  - intros Hv. pose proof (fits_i64 v) as Hf.
    exists (serializeInt 8 (u64 v) ++ serializeString h). split.
    + intros. unfold UnDelegate_serialize. simpl.
      by rewrite serializeInt_buf_eq, serializeString_buf_eq, app_assoc by apply Hf.
    + intros raw from H. rewrite <- app_assoc in H. unfold parseVarint. simpl.
      unfold UnDelegate_deserialize. read_int H. read_string H.
      rewrite to_i64_u64 by done. by eexists.
  - intros Ha. set (s := if is_empty (address a) then [] else address a).
    exists (serializeInt 1 (if se then 1 else 0) ++ serializeInt 1 (if sc then 1 else 0)
      ++ serializeString s). split.
    + intros. unfold V8Status_serialize. simpl.
      rewrite !serializeInt_buf_eq by (destruct se, sc; lia).
      unfold isEmpty, getBinaryString. subst s.
      destruct Ha as [->|(l & Hl & ->)];
        cbn [mbind res_bind CHECK isSet address Address_of_range setEmpty is_empty negb];
        rewrite ?(is_empty_false l) by done;
        cbn [mbind res_bind CHECK isSet address Address_of_range negb];
        by rewrite serializeString_buf_eq, <- !app_assoc.
    + intros raw from H. rewrite <- !app_assoc in H. unfold parseVarint. simpl.
      unfold V8Status_deserialize. read_int H. read_int H. read_string H. eexists. do 4 f_equal.
      * by destruct se.
      * by destruct sc.
      * subst s. destruct Ha as [->|(l & Hl & ->)]; cbn; [done|].
        by rewrite !(is_empty_false l) by done.
Qed.

#[export] Instance TransactionStatus_codec : Codec TransactionStatus :=
  {| c_ser := TransactionStatus_serialize; c_des := TransactionStatus_deserialize; c_wf := ts_wf |}.

Lemma status_index_range s :
  status_wf s -> 0 < status_index s < 4.
Proof. destruct s; simpl; [done|lia..]. Qed.

#[export] Instance TransactionStatus_laws : CodecLaws TransactionStatus.
Proof.
  intros [ok tx bn s] (Hn & Hs). simpl in *.
  pose proof (status_index_range s Hs) as Hi. destruct (status_roundtrip s Hs) as (body & Hw & Hr).
  unfold TransactionStatus_serialize. simpl.
  rewrite !serializeInt_buf_eq by (destruct ok; unfold is_u64 in *; lia).
  rewrite serializeString_buf_eq.
  destruct (Z.eqb_spec (status_index s) 0); [lia|]. cbn [negb CHECK mbind res_bind].
  rewrite Hw. set (raw := _ ++ _). exists raw. split; [done|].
  assert (raw <> []) as Hne.
  { subst raw. apply app_nonempty_l, app_nonempty_l, app_nonempty_r, serializeString_nonempty. }
  split; [done|]. intros Hl. start_read H raw Hl. simpl in H.
  unfold TransactionStatus_deserialize. read_int H. read_int H. read_string H. read_int H.
  destruct (Z.eqb_spec (status_index s) 0); [lia|].
  destruct (Z.ltb_spec (status_index s) 4); [|lia]. cbn [negb andb CHECK mbind res_bind].
  destruct (Hr _ _ H) as (e & ->). cbn [mbind res_bind]. by destruct ok.
Qed.
