(* ===== verification/NodeTestsBlockInfo.v ===== *)
(** * Workers/NodeTestsBlockInfo.h, NodeTestsBlockInfo.cpp: records of the node tests

    The results, trust and counters of node tests, the registry of nodes and
    their encodings. *)
From S2P Require Import Prelude External Serialize Address BlockInfo BlockInfoCodec Ordered.
#[local] Open Scope Z_scope.

(** ** Data *)

(* src: Workers/NodeTestsBlockInfo.h:13-30 NodeTestType *)
Inductive NodeTestType := NT_unknown | NT_torrent | NT_proxy.

(* src: Workers/NodeTestsBlockInfo.h:32-55 NodeTestResult *)
Record NodeTestResult := mkNodeTestResult {
  ntr_result : bytes;
  ntr_timestamp : Z;
  ntr_type : NodeTestType;
  ntr_ip : bytes;
  ntr_day : Z;
  ntr_avgRps : Z;
}.

(** [trust] is an [int]. *)
(* src: Workers/NodeTestsBlockInfo.h:57-76 NodeTestTrust *)
Record NodeTestTrust := mkNodeTestTrust {
  ntt_trustJson : bytes;
  ntt_timestamp : Z;
  ntt_trust : Z;
}.

(* src: Workers/NodeTestsBlockInfo.h:78-102 NodeTestCount *)
Record NodeTestCount := mkNodeTestCount {
  ntc_countAll : Z;
  ntc_countFailure : Z;
  ntc_day : Z;
  ntc_testers : list Address;
}.

(* src: Workers/NodeTestsBlockInfo.h:106-123 NodeStatBlockInfo *)
Record NodeStatBlockInfo := mkNodeStatBlockInfo {
  ns_blockNumber : Z;
  ns_blockHash : bytes;
  ns_countVal : Z;
}.

(* src: Workers/NodeTestsBlockInfo.h:143-150 NodeTestDayNumber *)
Record NodeTestDayNumber := mkNodeTestDayNumber { ntd_dayNumber : Z }.

(* src: Workers/NodeTestsBlockInfo.h:152-168 AllTestedNodes *)
Record AllTestedNodes := mkAllTestedNodes {
  atn_nodes : list bytes;
  atn_day : Z;
}.

(* src: Workers/NodeTestsBlockInfo.h:170-180 AllNodes *)
Record AllNodes := mkAllNodes { an_nodes : list (bytes * bytes) }.

(* src: Workers/NodeTestsBlockInfo.h:182-190 NodeRps *)
Record NodeRps := mkNodeRps { nr_rps : list Z }.

Definition NodeTestResult_default : NodeTestResult := mkNodeTestResult [] 0 NT_unknown [] 0 0.
Definition NodeTestTrust_default : NodeTestTrust := mkNodeTestTrust [] 0 1.
Definition NodeStatBlockInfo_default : NodeStatBlockInfo := mkNodeStatBlockInfo 0 [] 0.

(** ** Operations *)

(* src: Workers/NodeTestsBlockInfo.cpp:8-20 NodeTestType::serialize *)
Definition NodeTestType_serialize (t : NodeTestType) : res bytes :=
  typeInt ← (match t with
    | NT_torrent => Ok 1
    | NT_proxy => Ok 2
    | NT_unknown => throwErr (str "Incorrect nodeTestType")
    end);
  Ok (serializeInt 1 typeInt).

(* src: Workers/NodeTestsBlockInfo.cpp:22-39 NodeTestType::deserialize *)
Definition NodeTestType_deserialize (raw : bytes) (from : Z) : res (NodeTestType * Z) :=
  if blen raw <=? from then Ok (NT_unknown, from) else
  '(typeInt, from) ← deserializeInt 1 raw from;
  if typeInt =? 1 then Ok (NT_torrent, from)
  else if typeInt =? 2 then Ok (NT_proxy, from)
  else throwErr (str "Incorrect type " ++ to_string typeInt).

(* src: Workers/NodeTestsBlockInfo.cpp:41-49 NodeTestResult::serialize *)
Definition NodeTestResult_serialize (r : NodeTestResult) : res bytes :=
  let o := serializeString (ntr_result r) in
  let o := o ++ serializeInt 8 (ntr_timestamp r) in
  t ← NodeTestType_serialize (ntr_type r);
  let o := o ++ t in
  let o := o ++ serializeString (ntr_ip r) in
  let o := o ++ serializeInt 8 (ntr_day r) in
  Ok o.

(* src: Workers/NodeTestsBlockInfo.cpp:51-66 NodeTestResult::deserialize *)
Definition NodeTestResult_deserialize (raw : bytes) : res NodeTestResult :=
  if is_empty raw then Ok NodeTestResult_default else
  let from := 0 in
  '(result, from) ← deserializeString raw from;
  '(timestamp, from) ← deserializeInt 8 raw from;
  '(type, from) ← NodeTestType_deserialize raw from;
  '(ip, from) ← deserializeString raw from;
  '(day, from) ← deserializeInt 8 raw from;
  Ok (mkNodeTestResult result timestamp type ip day 0).

(* src: Workers/NodeTestsBlockInfo.cpp:68-74 NodeTestTrust::serialize *)
Definition NodeTestTrust_serialize (t : NodeTestTrust) : bytes :=
  let r := serializeString (ntt_trustJson t) in
  let r := r ++ serializeInt 8 (ntt_timestamp t) in
  let r := r ++ serializeInt 8 (u64 (ntt_trust t)) in
  r.

(* src: Workers/NodeTestsBlockInfo.cpp:76-89 NodeTestTrust::deserialize *)
Definition NodeTestTrust_deserialize (raw : bytes) : res NodeTestTrust :=
  if is_empty raw then Ok NodeTestTrust_default else
  let from := 0 in
  '(trustJson, from) ← deserializeString raw from;
  '(timestamp, from) ← deserializeInt 8 raw from;
  '(trust, from) ← deserializeInt 8 raw from;
  Ok (mkNodeTestTrust trustJson timestamp (to_i32 trust)).

(* src: Workers/NodeTestsBlockInfo.cpp:91-93 NodeTestCount::countSuccess *)
Definition countSuccess (c : NodeTestCount) : Z := u64 (ntc_countAll c - ntc_countFailure c).

(** [std::set<Address>::insert], through [Address::operator<]. *)
Fixpoint testers_insert (x : Address) (l : list Address) : res (list Address) :=
  match l with
  | [] => Ok [x]
  | y :: l' =>
      b ← Address_lt x y;
      if (b : bool) then Ok (x :: l) else
      b' ← Address_lt y x;
      if (b' : bool) then r ← testers_insert x l'; Ok (y :: r) else Ok l
  end.

(* src: Workers/NodeTestsBlockInfo.cpp:95-106 NodeTestCount::serialize *)
Definition NodeTestCount_serialize (c : NodeTestCount) : res bytes :=
  let r := serializeInt 8 (ntc_countAll c) in
  let r := r ++ serializeInt 8 (ntc_countFailure c) in
  let r := r ++ serializeInt 8 (ntc_day c) in
  let r := r ++ serializeInt 8 (blen (ntc_testers c)) in
  foldM (fun r tester => s ← toBdString tester; Ok (r ++ serializeString s)) r (ntc_testers c).

(** The loop [for (size_t i = 0; i < countTesters; i++)]. *)
Fixpoint read_testers (n : nat) (raw : bytes) (pos : Z) (testers : list Address)
    : res (list Address) :=
  match n with
  | O => Ok testers
  | S n' =>
      '(addr, pos) ← deserializeString raw pos;
      a ← Address_of_vector addr false;
      testers ← testers_insert a testers;
      read_testers n' raw pos testers
  end.

(* src: Workers/NodeTestsBlockInfo.cpp:108-127 NodeTestCount::deserialize *)
Definition NodeTestCount_deserialize (raw : bytes) : res NodeTestCount :=
  if is_empty raw then Ok (mkNodeTestCount 0 0 0 []) else
  let pos := 0 in
  '(countAll, pos) ← deserializeInt 8 raw pos;
  '(countFailure, pos) ← deserializeInt 8 raw pos;
  '(day, pos) ← deserializeInt 8 raw pos;
  '(countTesters, pos) ← deserializeInt 8 raw pos;
  testers ← read_testers (Z.to_nat countTesters) raw pos [];
  Ok (mkNodeTestCount countAll countFailure day testers).

(* src: Workers/NodeTestsBlockInfo.cpp:129-135 NodeTestCount::operator+= *)
Definition NodeTestCount_add_assign (c second : NodeTestCount) : res NodeTestCount :=
  testers ← foldM (fun l a => testers_insert a l) (ntc_testers c) (ntc_testers second);
  Ok (mkNodeTestCount (u64 (ntc_countAll c + ntc_countAll second))
        (u64 (ntc_countFailure c + ntc_countFailure second))
        (Z.max (ntc_day c) (ntc_day second)) testers).

(* src: Workers/NodeTestsBlockInfo.cpp:137-141 operator+ *)
Definition NodeTestCount_add (first second : NodeTestCount) : res NodeTestCount :=
  let result := first in
  NodeTestCount_add_assign result second.

(* src: Workers/NodeTestsBlockInfo.cpp:143-151 NodeStatBlockInfo::serialize *)
Definition NodeStatBlockInfo_serialize (s : NodeStatBlockInfo) : res bytes :=
  _ ← CHECK (negb (is_empty (ns_blockHash s))) (str "Incorrect metadata");
  let r := serializeString (ns_blockHash s) in
  let r := r ++ serializeInt 8 (ns_blockNumber s) in
  let r := r ++ serializeInt 8 (ns_countVal s) in
  Ok r.

(* src: Workers/NodeTestsBlockInfo.cpp:153-165 NodeStatBlockInfo::deserialize *)
Definition NodeStatBlockInfo_deserialize (raw : bytes) : res NodeStatBlockInfo :=
  if is_empty raw then Ok NodeStatBlockInfo_default else
  let from := 0 in
  '(blockHash, from) ← deserializeString raw from;
  '(blockNumber, from) ← deserializeInt 8 raw from;
  '(countVal, from) ← deserializeInt 8 raw from;
  Ok (mkNodeStatBlockInfo blockNumber blockHash countVal).

(* src: Workers/NodeTestsBlockInfo.cpp:167-171 NodeTestDayNumber::serialize *)
Definition NodeTestDayNumber_serialize (d : NodeTestDayNumber) : bytes :=
  serializeInt 8 (ntd_dayNumber d).

(* src: Workers/NodeTestsBlockInfo.cpp:173-183 NodeTestDayNumber::deserialize *)
Definition NodeTestDayNumber_deserialize (raw : bytes) : res NodeTestDayNumber :=
  if is_empty raw then Ok (mkNodeTestDayNumber 0) else
  '(dayNumber, pos) ← deserializeInt 8 raw 0;
  Ok (mkNodeTestDayNumber dayNumber).

(* src: Workers/NodeTestsBlockInfo.cpp:185-193 AllTestedNodes::serialize *)
Definition AllTestedNodes_serialize (a : AllTestedNodes) : bytes :=
  let r := serializeInt 8 (atn_day a) in
  let r := r ++ serializeInt 8 (blen (atn_nodes a)) in
  foldl (fun r node => r ++ serializeString node) r (atn_nodes a).

Fixpoint read_tested (n : nat) (raw : bytes) (pos : Z) (nodes : list bytes) : res (list bytes) :=
  match n with
  | O => Ok nodes
  | S n' =>
      '(node, pos) ← deserializeString raw pos;
      read_tested n' raw pos (oset_insert node nodes)
  end.

(* src: Workers/NodeTestsBlockInfo.cpp:195-209 AllTestedNodes::deserialize *)
Definition AllTestedNodes_deserialize (raw : bytes) : res AllTestedNodes :=
  if is_empty raw then Ok (mkAllTestedNodes [] 0) else
  let pos := 0 in
  '(day, pos) ← deserializeInt 8 raw pos;
  '(count, pos) ← deserializeInt 8 raw pos;
  nodes ← read_tested (Z.to_nat count) raw pos [];
  Ok (mkAllTestedNodes nodes day).

(* src: Workers/NodeTestsBlockInfo.cpp:211-219 AllNodes::serialize *)
Definition AllNodes_serialize (a : AllNodes) : bytes :=
  let r := serializeInt 8 (blen (an_nodes a)) in
  foldl (fun r '(node, name) => r ++ serializeString node ++ serializeString name) r (an_nodes a).

Fixpoint read_nodes (n : nat) (raw : bytes) (pos : Z) (nodes : list (bytes * bytes))
    : res (list (bytes * bytes)) :=
  match n with
  | O => Ok nodes
  | S n' =>
      '(node, pos) ← deserializeString raw pos;
      '(name, pos) ← deserializeString raw pos;
      read_nodes n' raw pos (omap_set node name nodes)
  end.

(* src: Workers/NodeTestsBlockInfo.cpp:221-236 AllNodes::deserialize *)
Definition AllNodes_deserialize (raw : bytes) : res AllNodes :=
  if is_empty raw then Ok (mkAllNodes []) else
  let pos := 0 in
  '(count, pos) ← deserializeInt 8 raw pos;
  nodes ← read_nodes (Z.to_nat count) raw pos [];
  Ok (mkAllNodes nodes).

(* src: Workers/NodeTestsBlockInfo.cpp:238-245 NodeRps::serialize *)
Definition NodeRps_serialize (a : NodeRps) : bytes :=
  let r := serializeInt 8 (blen (nr_rps a)) in
  foldl (fun r rp => r ++ serializeInt 8 rp) r (nr_rps a).

Fixpoint read_rps (n : nat) (raw : bytes) (pos : Z) (rps : list Z) : res (list Z) :=
  match n with
  | O => Ok rps
  | S n' =>
      '(rp, pos) ← deserializeInt 8 raw pos;
      read_rps n' raw pos (rps ++ [rp])
  end.

(* src: Workers/NodeTestsBlockInfo.cpp:247-260 NodeRps::deserialize *)
Definition NodeRps_deserialize (raw : bytes) : res NodeRps :=
  if is_empty raw then Ok (mkNodeRps []) else
  let pos := 0 in
  '(count, pos) ← deserializeInt 8 raw pos;
  rps ← read_rps (Z.to_nat count) raw pos [];
  Ok (mkNodeRps rps).

(** ** Well-formed values *)

Definition an_wf (a : AllNodes) : Prop := osorted (an_nodes a).*1 /\ is_u64 (blen (an_nodes a)).
Definition atn_wf (a : AllTestedNodes) : Prop :=
  osorted (atn_nodes a) /\ is_u64 (blen (atn_nodes a)) /\ is_u64 (atn_day a).
Definition nr_wf (a : NodeRps) : Prop := Forall is_u64 (nr_rps a) /\ is_u64 (blen (nr_rps a)).
Definition ns_wf (s : NodeStatBlockInfo) : Prop :=
  ns_blockHash s <> [] /\ is_u64 (ns_blockNumber s) /\ is_u64 (ns_countVal s).
Definition ntr_wf (r : NodeTestResult) : Prop :=
  is_u64 (ntr_timestamp r) /\ is_u64 (ntr_day r) /\ ntr_type r <> NT_unknown /\ ntr_avgRps r = 0.
Definition ntt_wf (t : NodeTestTrust) : Prop :=
  is_u64 (ntt_timestamp t) /\ - 2 ^ 31 <= ntt_trust t < 2 ^ 31.
Definition ntc_wf (c : NodeTestCount) : Prop :=
  is_u64 (ntc_countAll c) /\ is_u64 (ntc_countFailure c) /\ is_u64 (ntc_day c) /\
  is_u64 (blen (ntc_testers c)) /\ osorted (address <$> ntc_testers c) /\
  Forall (fun a => exists l, l <> [] /\ a = Address_of_range l) (ntc_testers c).

(** ** Serialised sequences *)

Definition ser_list {A} (f : A -> bytes) (l : list A) : bytes := concat (f <$> l).

Lemma foldl_ser {A} (f : A -> bytes) r l :
  foldl (fun r x => r ++ f x) r l = r ++ ser_list f l.
Proof.
  revert r. induction l as [|x l IH]; intros r; simpl; [by rewrite app_nil_r|].
  rewrite IH. unfold ser_list. simpl. by rewrite app_assoc.
Qed.

Lemma read_rps_suffix l raw from rest acc :
  Forall is_u64 l -> suffix_at raw from (ser_list (serializeInt 8) l ++ rest) ->
  read_rps (length l) raw from acc = Ok (acc ++ l).
Proof.
  intros Hl. revert from acc. induction Hl as [|x l Hx Hl IH]; intros from acc H; simpl.
  { by rewrite app_nil_r. }
  unfold ser_list in H. simpl in H. rewrite <- app_assoc in H. read_int H.
  rewrite (IH _ _ H). by rewrite <- app_assoc.
Qed.

Lemma read_tested_suffix l raw from rest acc :
  osorted (acc ++ l) -> suffix_at raw from (ser_list serializeString l ++ rest) ->
  read_tested (length l) raw from acc = Ok (acc ++ l).
Proof.
  revert from acc. induction l as [|x l IH]; intros from acc Hs H; simpl.
  { by rewrite app_nil_r. }
  unfold ser_list in H. simpl in H. rewrite <- app_assoc in H. read_string H.
  rewrite oset_insert_last by (by eapply osorted_app_inv).
  rewrite (IH _ (acc ++ [x])); [by rewrite <- app_assoc| |exact H]. by rewrite <- app_assoc.
Qed.

Definition ser_node (p : bytes * bytes) : bytes := serializeString p.1 ++ serializeString p.2.

Lemma foldl_ser_nodes r l :
  foldl (fun r '(node, name) => r ++ serializeString node ++ serializeString name) r l
  = r ++ ser_list ser_node l.
Proof.
  revert r. induction l as [|[k v] l IH]; intros r; simpl; [by rewrite app_nil_r|].
  rewrite IH. unfold ser_list, ser_node. simpl. by rewrite <- !app_assoc.
Qed.

Lemma read_nodes_suffix l raw from rest acc :
  osorted (acc ++ l).*1 -> suffix_at raw from (ser_list ser_node l ++ rest) ->
  read_nodes (length l) raw from acc = Ok (acc ++ l).
Proof.
  revert from acc. induction l as [|[k v] l IH]; intros from acc Hs H; simpl.
  { by rewrite app_nil_r. }
  unfold ser_list, ser_node in H. simpl in H. rewrite <- !app_assoc in H.
  read_string H. read_string H.
  rewrite omap_set_last by (rewrite fmap_app in Hs; by eapply osorted_app_inv).
  rewrite (IH _ (acc ++ [(k, v)])); [by rewrite <- app_assoc| |exact H]. by rewrite <- app_assoc.
Qed.

Lemma testers_insert_last x l :
  isSet x = true -> Forall (fun a => isSet a = true) l ->
  Forall (fun y => bytes_lt y (address x) = true) (address <$> l) ->
  testers_insert x l = Ok (l ++ [x]).
Proof.
  intros Hx Hl. induction Hl as [|y l Hy Hl IH]; intros Hs; [done|].
  apply Forall_cons in Hs as [Hlt Hs]. simpl. unfold Address_lt. rewrite Hx, Hy. simpl.
  by rewrite (bytes_lt_asym _ _ Hlt), Hlt, IH.
Qed.

Lemma read_testers_suffix l raw from rest acc :
  osorted (address <$> (acc ++ l)) -> Forall (fun a => isSet a = true) acc ->
  Forall (fun a => exists l, l <> [] /\ a = Address_of_range l) l ->
  suffix_at raw from (ser_list (fun a => serializeString (address a)) l ++ rest) ->
  read_testers (length l) raw from acc = Ok (acc ++ l).
Proof.
  revert from acc. induction l as [|x l IH]; intros from acc Hs Ha Hl H; simpl.
  { by rewrite app_nil_r. }
  apply Forall_cons in Hl as [(lx & Hne & ->) Hl].
  unfold ser_list in H. simpl in H. rewrite <- app_assoc in H. read_string H.
  change (mkAddress lx false true) with (Address_of_range lx).
  rewrite testers_insert_last; [|done|done|]; cycle 1.
  { rewrite fmap_app in Hs. by eapply osorted_app_inv. }
  cbn [mbind res_bind]. rewrite (IH _ (acc ++ [Address_of_range lx])).
  - by rewrite <- app_assoc.
  - by rewrite <- app_assoc.
  - apply Forall_app. split; [done|]. by constructor.
  - done.
  - exact H.
Qed.

Lemma foldM_ser_testers r l :
  Forall (fun a => exists k, k <> [] /\ a = Address_of_range k) l ->
  foldM (fun r tester => s ← toBdString tester; Ok (r ++ serializeString s)) r l
  = Ok (r ++ ser_list (fun a => serializeString (address a)) l).
Proof.
  intros Hl. revert r. induction Hl as [|x l (k & Hne & ->) Hl IH]; intros r; cbn [foldM].
  { unfold ser_list. simpl. by rewrite app_nil_r. }
  rewrite toBdString_nonempty by done. cbn [mbind res_bind]. rewrite IH.
  unfold ser_list. simpl. by rewrite app_assoc.
Qed.

Lemma to_i32_u64 z : - 2 ^ 31 <= z < 2 ^ 31 -> to_i32 (u64 z) = z.
Proof.
  intros Hz. unfold to_i32, u64.
  assert ((z mod 2 ^ 64) mod 2 ^ 32 = z mod 2 ^ 32) as ->.
  { apply Z.mod_mod_divide. by exists (2 ^ 32). }
  destruct (decide (0 <= z)).
  - rewrite Z.mod_small by lia. destruct (Z.ltb_spec z (2 ^ 31)); lia.
  - rewrite <- (Z_mod_plus_full z 1), Z.mod_small by lia.
    destruct (Z.ltb_spec (z + 1 * 2 ^ 32) (2 ^ 31)); lia.
Qed.

(** ** The instances *)

#[export] Instance NodeStatBlockInfo_codec : Codec NodeStatBlockInfo :=
  {| c_ser := NodeStatBlockInfo_serialize; c_des := NodeStatBlockInfo_deserialize; c_wf := ns_wf |}.

#[export] Instance NodeStatBlockInfo_laws : CodecLaws NodeStatBlockInfo.
Proof.
  intros m (Hh & Hn & Hc). simpl. unfold NodeStatBlockInfo_serialize.
  rewrite !is_empty_false by done. cbn [negb CHECK mbind res_bind].
  set (raw := _ ++ _). exists raw. split; [done|].
  assert (raw <> []) as Hne by (subst raw; solve_nonempty).
  split; [done|]. intros Hl. start_read H raw Hl.
  unfold NodeStatBlockInfo_deserialize. rewrite is_empty_false by done.
  read_string H. read_int H. read_int H. by destruct m.
Qed.

#[export] Instance NodeTestResult_codec : Codec NodeTestResult :=
  {| c_ser := NodeTestResult_serialize; c_des := NodeTestResult_deserialize; c_wf := ntr_wf |}.

#[export] Instance NodeTestResult_laws : CodecLaws NodeTestResult.
Proof.
  intros [r ts ty ip d rps] (Hts & Hd & Hty & Hr). simpl in *. subst rps.
  unfold NodeTestResult_serialize. simpl.
  assert (exists v, (v = 1 /\ ty = NT_torrent \/ v = 2 /\ ty = NT_proxy) /\
    NodeTestType_serialize ty = Ok (serializeInt 1 v)) as (v & Hv & ->).
  { destruct ty; [done|exists 1; auto|exists 2; auto]. }
  assert (fits 1 v) as Hfit by (unfold fits; lia).
  cbn [mbind res_bind]. set (raw := _ ++ _). exists raw. split; [done|].
  assert (raw <> []) as Hne by (subst raw; solve_nonempty).
  split; [done|]. intros Hl. start_read H raw Hl.
  unfold NodeTestResult_deserialize. rewrite is_empty_false by done.
  read_string H. read_int H. unfold NodeTestType_deserialize.
  pose proof (suffix_at_blen _ _ _ H) as Hb.
  rewrite blen_app, (blen_serializeInt 1 v) in Hb by apply Hfit.
  pose proof (blen_nonneg (serializeString ip ++ serializeInt 8 d ++ [])).
  destruct (Z.leb_spec (blen raw) (0 + blen (serializeString r) + Z.of_nat 8)); [lia|].
  read_int H. destruct Hv as [[-> ->]|[-> ->]]; simpl; read_string H; by read_int H.
Qed.

#[export] Instance NodeTestTrust_codec : Codec NodeTestTrust :=
  {| c_ser t := Ok (NodeTestTrust_serialize t); c_des := NodeTestTrust_deserialize; c_wf := ntt_wf |}.

#[export] Instance NodeTestTrust_laws : CodecLaws NodeTestTrust.
Proof.
  intros t (Hts & Ht). eexists. split; [done|]. unfold NodeTestTrust_serialize.
  pose proof (fits_i64 (ntt_trust t)) as Hf. set (raw := _ ++ _).
  assert (raw <> []) as Hne by (subst raw; solve_nonempty).
  split; [done|]. intros Hl. start_read H raw Hl. simpl.
  unfold NodeTestTrust_deserialize. rewrite is_empty_false by done.
  read_string H. read_int H. read_int H. rewrite to_i32_u64 by done. by destruct t.
Qed.

Lemma serializeInt8_nonempty v : 0 <= v -> serializeInt 8 v <> [].
Proof.
  intros Hv E. apply (f_equal blen) in E. rewrite blen_serializeInt in E by done.
  discriminate E.
Qed.

#[export] Instance NodeRps_codec : Codec NodeRps :=
  {| c_ser a := Ok (NodeRps_serialize a); c_des := NodeRps_deserialize; c_wf := nr_wf |}.

#[export] Instance NodeRps_laws : CodecLaws NodeRps.
Proof.
  intros [l] (Hf & Hn). simpl in *. eexists. split; [done|].
  unfold NodeRps_serialize. simpl. rewrite foldl_ser. set (raw := _ ++ _).
  assert (raw <> []) as Hne by apply app_nonempty_l, serializeInt8_nonempty, blen_nonneg.
  split; [done|]. intros Hl. start_read H raw Hl. unfold NodeRps_deserialize.
  rewrite is_empty_false by done. read_int H. unfold blen at 1. rewrite Nat2Z.id.
  by rewrite (read_rps_suffix _ _ _ _ _ Hf H).
Qed.

#[export] Instance AllTestedNodes_codec : Codec AllTestedNodes :=
  {| c_ser a := Ok (AllTestedNodes_serialize a); c_des := AllTestedNodes_deserialize; c_wf := atn_wf |}.

#[export] Instance AllTestedNodes_laws : CodecLaws AllTestedNodes.
Proof.
  intros [l d] (Hs & Hn & Hd). simpl in *. eexists. split; [done|].
  unfold AllTestedNodes_serialize. simpl. rewrite foldl_ser. set (raw := _ ++ _).
  assert (raw <> []) as Hne
    by (subst raw; apply app_nonempty_l, app_nonempty_l, serializeInt8_nonempty; apply Hd).
  split; [done|]. intros Hl. start_read H raw Hl. unfold AllTestedNodes_deserialize.
  rewrite is_empty_false by done. read_int H. read_int H. unfold blen at 1. rewrite Nat2Z.id.
  by rewrite (read_tested_suffix l raw _ [] [] Hs H).
Qed.

#[export] Instance AllNodes_codec : Codec AllNodes :=
  {| c_ser a := Ok (AllNodes_serialize a); c_des := AllNodes_deserialize; c_wf := an_wf |}.

#[export] Instance AllNodes_laws : CodecLaws AllNodes.
Proof.
  intros [l] (Hs & Hn). simpl in *. eexists. split; [done|].
  unfold AllNodes_serialize. simpl. rewrite foldl_ser_nodes.
  set (raw := _ ++ _).
  assert (raw <> []) as Hne by apply app_nonempty_l, serializeInt8_nonempty, blen_nonneg.
  split; [done|]. intros Hl. start_read H raw Hl. unfold AllNodes_deserialize.
  rewrite is_empty_false by done. read_int H. unfold blen at 1. rewrite Nat2Z.id.
  by rewrite (read_nodes_suffix l raw _ [] [] Hs H).
Qed.

#[export] Instance NodeTestCount_codec : Codec NodeTestCount :=
  {| c_ser := NodeTestCount_serialize; c_des := NodeTestCount_deserialize; c_wf := ntc_wf |}.

#[export] Instance NodeTestCount_laws : CodecLaws NodeTestCount.
Proof.
  intros [ca cf d l] (Hca & Hcf & Hd & Hn & Hs & Hl). simpl in *.
  unfold NodeTestCount_serialize. simpl. rewrite foldM_ser_testers by done.
  set (raw := _ ++ _). exists raw. split; [done|].
  assert (raw <> []) as Hne
    by (subst raw; do 4 apply app_nonempty_l; apply serializeInt8_nonempty; apply Hca).
  split; [done|]. intros Hlen. start_read H raw Hlen. unfold NodeTestCount_deserialize.
  rewrite is_empty_false by done. do 4 read_int H. unfold blen at 1. rewrite Nat2Z.id.
  by rewrite (read_testers_suffix l raw _ [] [] Hs ltac:(constructor) Hl H).
Qed.

(** Adding counters keeps the testers sorted and set. *)
Lemma testers_insert_ok x l :
  isSet x = true -> Forall (fun a => isSet a = true) l -> osorted (address <$> l) ->
  exists l', testers_insert x l = Ok l' /\ Forall (fun a => isSet a = true) l' /\
    (address <$> l') = oset_insert (address x) (address <$> l).
Proof.
  intros Hx Hl. induction Hl as [|y l Hy Hl IH]; intros Hs; simpl.
  { exists [x]. auto. }
  destruct Hs as [_ Hs]. unfold Address_lt. rewrite Hx, Hy. simpl.
  destruct (bytes_lt (address x) (address y)); [eexists; split; [done|]; auto|].
  destruct (bytes_lt (address y) (address x)); [|eexists; split; [done|]; auto].
  destruct (IH Hs) as (l' & -> & Hset & Heq). eexists. split; [done|]. csimpl. rewrite Heq. auto.
Qed.

Lemma testers_fold_ok k l :
  Forall (fun a => isSet a = true) k -> Forall (fun a => isSet a = true) l ->
  osorted (address <$> l) ->
  exists l', foldM (fun l a => testers_insert a l) l k = Ok l' /\
    osorted (address <$> l') /\
    (forall a, a ∈ (address <$> l') <-> a ∈ (address <$> l) \/ a ∈ (address <$> k)).
Proof.
  intros Hk. revert l. induction Hk as [|x k Hx Hk IH]; intros l Hl Hs; simpl.
  { exists l. split; [done|]. split; [done|]. intros a. rewrite elem_of_nil. tauto. }
  destruct (testers_insert_ok x l Hx Hl Hs) as (l1 & -> & Hl1 & Heq). simpl.
  destruct (IH l1 Hl1) as (l' & -> & Hs' & Hin).
  { rewrite Heq. by apply oset_insert_sorted. }
  exists l'. split; [done|]. split; [done|]. intros a.
  rewrite Hin, Heq, oset_insert_elem, elem_of_cons. tauto.
Qed.
