(* ===== verification/BlockChainInterface.v ===== *)
(** * BlockChainReadInterface.h: what readers of the chain rely on

    The HTTP server and the workers see the chain through this interface; their
    theorems are proved against its laws. *)
From S2P Require Import Prelude BlockInfo.
#[local] Open Scope Z_scope.

(* src: BlockChainReadInterface.h:10-23 BlockChainReadInterface *)
Class BlockChainRead (S : Type) := {
  getBlock_by_hash : bytes -> S -> res BlockHeader;
  getBlock_by_number : Z -> S -> res BlockHeader;
  getLastBlock_ : S -> res BlockHeader;
  countBlocks_ : S -> Z;
}.

(** On the states [chain_ok] describes, block numbers run from 0 (genesis) to
    [countBlocks]; a number in range finds the block of that number, any other
    finds the empty header, a hash is looked up or refused, and a block found by hash is the one found by its
    number. *)
Class BlockChainReadLaws (S : Type) `{BlockChainRead S} := {
  chain_ok : S -> Prop;
  countBlocks_range s : chain_ok s -> is_u64 (countBlocks_ s);
  getBlock_in_range s n : chain_ok s -> 0 <= n <= countBlocks_ s ->
    exists h, getBlock_by_number n s = Ok h /\ bh_blockNumber h = Some n;
  getBlock_out_of_range s n : chain_ok s -> countBlocks_ s < n ->
    getBlock_by_number n s = Ok BlockHeader_default;
  getBlock_hash_answers s k : chain_ok s ->
    (exists h, getBlock_by_hash k s = Ok h) \/ (exists e, getBlock_by_hash k s = throwErr e);
  getBlock_hash_number s k h n : chain_ok s -> getBlock_by_hash k s = Ok h ->
    bh_blockNumber h = Some n ->
    0 <= n <= countBlocks_ s /\ getBlock_by_number n s = Ok h;
  getLastBlock_number s : chain_ok s ->
    getLastBlock_ s = getBlock_by_number (countBlocks_ s) s;
}.
