(* ===== verification/BlockChain.v ===== *)
(** * BlockChain.h, BlockChain.cpp: the in-memory chain of block headers

    A map from hash to header and the vector of hashes in chain order.  A header
    enters the map unnumbered; [calcBlockchain] walks back from a hash to the
    first numbered header, marking the headers on the way, and then numbers
    them forwards and appends them to the vector.

    Each method holds the mutex for its whole body, except [addBlock], which
    calls two that do; a method is one step of the state. *)
From S2P Require Import Prelude BlockInfo BlockChainInterface.
#[local] Open Scope Z_scope.

(** ** State and operations *)

(* src: BlockChain.h:15-54 BlockChain *)
Record BlockChain := mkBlockChain {
  bc_blocks : gmap bytes BlockHeader;
  bc_hashes : list bytes;
}.

Definition GENESIS_BLOCK_HASH : bytes := replicate 64 Byte.x30.
#[global] Arguments GENESIS_BLOCK_HASH : simpl never.

(** The members [initialize] does not set are indeterminate in the source;
    nothing reads them. *)
Definition genesisBlock : BlockHeader :=
  mkBlockHeader 0 0 0 GENESIS_BLOCK_HASH [] [] [] None FilePosition_default 0 (Some 0) [] [] [].

(* src: BlockChain.cpp:13-21 BlockChain::initialize *)
Definition initialize (st : BlockChain) : BlockChain :=
  mkBlockChain (<[GENESIS_BLOCK_HASH := genesisBlock]> (bc_blocks st))
    (bc_hashes st ++ [GENESIS_BLOCK_HASH]).

(* src: BlockChain.cpp:9-11 BlockChain::BlockChain *)
Definition BlockChain_new : BlockChain := initialize (mkBlockChain ∅ []).

(* src: BlockChain.cpp:23-31 BlockChain::addWithoutCalc *)
Definition addWithoutCalc (block : BlockHeader) : meth BlockChain bool := fun st =>
  if is_empty (bh_hash block) then (st, throwErr (str "Empty block hash")) else
  let exist := bool_decide (is_Some (bc_blocks st !! bh_hash block)) in
  if negb exist
  then (mkBlockChain (<[bh_hash block := block]> (bc_blocks st)) (bc_hashes st), Ok exist)
  else (st, Ok exist).

(* src: BlockChain.cpp:33-37 BlockChain::removeBlock *)
Definition removeBlock (block : BlockHeader) : meth BlockChain unit := fun st =>
  if is_empty (bh_hash block) then (st, throwErr (str "Empty block hash")) else
  (mkBlockChain (delete (bh_hash block) (bc_blocks st)) (bc_hashes st), Ok tt).

(** The [while] loop: [cur] is the key of the header [bh] refers to, and the
    headers it passes are changed in place in the map.  The result holds
    [processedBlocks], the final [bh] and [currNum]. *)
(* src: BlockChain.cpp:46-57 BlockChain::calcBlockchain, while *)
Fixpoint calc_loop (fuel : nat) (blocks : gmap bytes BlockHeader) (processed : list bytes)
    (cur : bytes) (currNum : Z) : gmap bytes BlockHeader * res (list bytes * bytes * Z) :=
  match fuel with
  | O => (blocks, OutOfFuel)
  | S fuel' =>
      match blocks !! cur with
      | None => (blocks, UB)
      | Some bh =>
          match bh_blockNumber bh with
          | Some _ => (blocks, Ok (processed, cur, currNum))
          | None =>
              let blocks := <[cur := set_bh_blockNumber (Some currNum) bh]> blocks in
              let processed := processed ++ [cur] in
              let currNum := u64 (currNum + 1) in
              let prevHash := bh_prevHash bh in
              if is_empty prevHash then (blocks, throwErr (str "Empty block hash")) else
              match blocks !! prevHash with
              | None => (blocks, Ok (processed, cur, currNum))
              | Some _ => calc_loop fuel' blocks processed prevHash currNum
              end
          end
      end
  end.

(* src: BlockChain.cpp:61-66 BlockChain::calcBlockchain, for *)
Fixpoint number_loop (allNum : Z) (rprocessed : list bytes) : meth BlockChain unit := fun st =>
  match rprocessed with
  | [] => (st, Ok tt)
  | k :: rest =>
      match bc_blocks st !! k with
      | None => (st, UB)
      | Some bh =>
          match bh_blockNumber bh with
          | None => (st, opt_value None)
          | Some n =>
              let num := u64 (allNum - n) in
              let blocks := <[k := set_bh_blockNumber (Some num) bh]> (bc_blocks st) in
              if num =? blen (bc_hashes st)
              then number_loop allNum rest (mkBlockChain blocks (bc_hashes st ++ [bh_hash bh]))
              else (mkBlockChain blocks (bc_hashes st), throwErr (str "Ups"))
          end
      end
  end.

Definition reset_numbers (ks : list bytes) (blocks : gmap bytes BlockHeader)
    : gmap bytes BlockHeader :=
  foldl (fun m k => alter (set_bh_blockNumber None) k m) blocks ks.

(** The walk visits each unnumbered header once: one more step than there are
    headers is enough ([calcBlockchain_terminates]). *)
(* src: BlockChain.cpp:39-74 BlockChain::calcBlockchain *)
Definition calcBlockchain (lastHash : bytes) : meth BlockChain Z := fun st =>
  if is_empty lastHash then (st, throwErr (str "Empty block hash")) else
  match bc_blocks st !! lastHash with
  | None => (st, throwErr (str "Hash " ++ lastHash ++ str " dont append to blockchain"))
  | Some _ =>
      let '(blocks, r) := calc_loop (S (size (bc_blocks st))) (bc_blocks st) [] lastHash 0 in
      let st := mkBlockChain blocks (bc_hashes st) in
      match r with
      | Ok (processedBlocks, bh, currNum) =>
          match bc_blocks st !! bh ≫= bh_blockNumber with
          | Some n =>
              let allNum := u64 (currNum + n) in
              let '(st, r) := number_loop allNum (reverse processedBlocks) st in
              (st, _ ← r; Ok allNum)
          | None => (mkBlockChain (reset_numbers processedBlocks (bc_blocks st)) (bc_hashes st), Ok 0)
          end
      | Throw e => (st, Throw e)
      | UB => (st, UB)
      | OutOfFuel => (st, OutOfFuel)
      end
  end.

(* src: BlockChain.cpp:76-86 BlockChain::addBlock *)
Definition addBlock (block : BlockHeader) : meth BlockChain Z := fun st =>
  let '(st, found) := addWithoutCalc block st in
  match found with
  | Ok found =>
      if (found : bool) then (st, throwErr (str "Block " ++ bh_hash block ++ str " already exist"))
      else
        let '(st, r) := calcBlockchain (bh_hash block) st in
        match r with
        | Throw (ExcCommon e) =>
            let '(st, r') := removeBlock block st in
            (st, _ ← r'; throwErr e)
        | _ => (st, r)
        end
  | Throw e => (st, Throw e)
  | UB => (st, UB)
  | OutOfFuel => (st, OutOfFuel)
  end.

(* src: BlockChain.cpp:88-95 BlockChain::getBlockImpl(hash) *)
Definition getBlockImpl_hash (hash : bytes) (st : BlockChain) : BlockHeader :=
  match bc_blocks st !! hash with None => BlockHeader_default | Some h => h end.

(* src: BlockChain.cpp:97-101 BlockChain::getBlock(hash) *)
Definition getBlock_hash (hash : bytes) (st : BlockChain) : res BlockHeader :=
  _ ← CHECK (negb (is_empty hash)) (str "Empty block hash");
  Ok (getBlockImpl_hash hash st).

(* src: BlockChain.cpp:103-109 BlockChain::getBlockImpl(blockNumber) *)
Definition getBlockImpl_number (blockNumber : Z) (st : BlockChain) : res BlockHeader :=
  if blen (bc_hashes st) <=? blockNumber then Ok BlockHeader_default
  else
    h ← opt_ub (bc_hashes st !! Z.to_nat blockNumber);
    Ok (getBlockImpl_hash h st).

(* src: BlockChain.cpp:111-114 BlockChain::getBlock(blockNumber) *)
Definition getBlock_number (blockNumber : Z) (st : BlockChain) : res BlockHeader :=
  getBlockImpl_number blockNumber st.

(* src: BlockChain.cpp:116-119 BlockChain::getLastBlock *)
Definition getLastBlock (st : BlockChain) : res BlockHeader :=
  getBlockImpl_number (u64 (blen (bc_hashes st) - 1)) st.

(* src: BlockChain.cpp:121-123 BlockChain::countBlocks *)
Definition countBlocks (st : BlockChain) : Z := u64 (blen (bc_hashes st) - 1).

(* src: BlockChain.cpp:125-130 BlockChain::clear *)
Definition clear (st : BlockChain) : BlockChain := initialize (mkBlockChain ∅ []).

#[export] Instance BlockChain_read : BlockChainRead BlockChain :=
  {| getBlock_by_hash := getBlock_hash; getBlock_by_number := getBlock_number;
     getLastBlock_ := getLastBlock; countBlocks_ := countBlocks |}.

(** ** Invariant

    [settled]: every header of the map is numbered, and its number is its place
    in the vector, which begins with the genesis hash. *)
Record settled (st : BlockChain) : Prop := {
  set_genesis : bc_hashes st !! 0%nat = Some GENESIS_BLOCK_HASH;
  set_hash i k : bc_hashes st !! i = Some k ->
    exists h, bc_blocks st !! k = Some h /\ bh_hash h = k /\ bh_blockNumber h = Some (Z.of_nat i);
  set_num k h : bc_blocks st !! k = Some h ->
    exists i, bh_blockNumber h = Some (Z.of_nat i) /\ bc_hashes st !! i = Some k;
  set_size : blen (bc_hashes st) < 2 ^ 64;
}.

(** [linked]: from the third hash on, a block's parent is the one before it. *)
Definition linked (st : BlockChain) : Prop :=
  forall i k h, bc_hashes st !! S (S i) = Some k -> bc_blocks st !! k = Some h ->
    bc_hashes st !! S i = Some (bh_prevHash h).

Definition tip (st : BlockChain) : option bytes := last (bc_hashes st).

(** What [addBlock] does on a settled chain, as a specification: a block is
    accepted on top of the tip, and, when the chain holds only the genesis, also
    with a parent nobody has seen; any rejection leaves the state unchanged. *)
Definition accepts (st : BlockChain) (block : BlockHeader) : bool :=
  bool_decide (tip st = Some (bh_prevHash block))
  || ((blen (bc_hashes st) =? 1) && bool_decide (bc_blocks st !! bh_prevHash block = None)).

Definition append_block (st : BlockChain) (block : BlockHeader) : BlockChain :=
  mkBlockChain
    (<[bh_hash block := set_bh_blockNumber (Some (blen (bc_hashes st))) block]> (bc_blocks st))
    (bc_hashes st ++ [bh_hash block]).

Definition addBlock_spec (block : BlockHeader) : meth BlockChain Z := fun st =>
  if is_empty (bh_hash block) then (st, throwErr (str "Empty block hash"))
  else if bool_decide (is_Some (bc_blocks st !! bh_hash block))
  then (st, throwErr (str "Block " ++ bh_hash block ++ str " already exist"))
  else if is_empty (bh_prevHash block) then (st, throwErr (str "Empty block hash"))
  else if accepts st block then (append_block st block, Ok (blen (bc_hashes st)))
  else (st, throwErr (str "Ups")).

(** ** Paths of unnumbered headers *)

(** [path bl k p g]: following parents from [k] passes the unnumbered headers
    [p] and then reaches [g]. *)
Fixpoint path (bl : gmap bytes BlockHeader) (k : bytes) (p : list bytes) (g : bytes) : Prop :=
  match p with
  | [] => k = g
  | x :: p' => k = x /\ exists h, bl !! x = Some h /\ bh_hash h = x /\
      bh_blockNumber h = None /\ bh_prevHash h <> [] /\ path bl (bh_prevHash h) p' g
  end.

(** The marks the walk leaves: consecutive numbers from [num]. *)
Fixpoint mark (bl : gmap bytes BlockHeader) (num : Z) (p : list bytes) : gmap bytes BlockHeader :=
  match p with
  | [] => bl
  | x :: p' => mark (alter (set_bh_blockNumber (Some num)) x bl) (num + 1) p'
  end.
