(* ===== verification/BlockChainFacts.v ===== *)
(** * Correctness of BlockChain.cpp

    Termination of the walk, the functional behaviour of [calcBlockchain] on a
    path of unnumbered headers, the refinement of [addBlock] to its
    specification, the chain invariant, and the laws of the read interface. *)
From S2P Require Import Prelude BlockInfo BlockChainInterface BlockChain.
#[local] Open Scope Z_scope.

(** ** The walk *)

Lemma set_blockNumber_twice m n h :
  set_bh_blockNumber m (set_bh_blockNumber n h) = set_bh_blockNumber m h.
Proof. done. Qed.

Lemma mark_notin bl num p k : k ∉ p -> mark bl num p !! k = bl !! k.
Proof.
  revert bl num. induction p as [|x p IH]; intros bl num Hk; [done|].
  apply not_elem_of_cons in Hk as [Hx Hk]. simpl. rewrite IH by done.
  by rewrite lookup_alter_ne.
Qed.

Lemma mark_lookup bl num p i x :
  NoDup p -> p !! i = Some x ->
  mark bl num p !! x = set_bh_blockNumber (Some (num + Z.of_nat i)) <$> bl !! x.
Proof.
  intros Hd. revert bl num i. induction Hd as [|y p Hy Hd IH]; intros bl num i Hi; [done|].
  destruct i as [|i]; simpl in *.
  - injection Hi as ->. rewrite mark_notin by done. rewrite lookup_alter_eq.
    by rewrite Z.add_0_r.
  - assert (x <> y) by (intros ->; apply Hy; by eapply list_elem_of_lookup_2).
    rewrite (IH _ _ i Hi), lookup_alter_ne by done. do 2 f_equal. f_equal. lia.
Qed.

Lemma path_insert bl k p g x h :
  path bl k p g -> x ∉ p -> path (<[x := h]> bl) k p g.
Proof.
  revert k. induction p as [|y p IH]; intros k; simpl; [done|].
  intros (-> & hy & Hy & Hh & Hn & Hp & Hpath) Hx. apply not_elem_of_cons in Hx as [Hne Hx].
  split; [done|]. exists hy. rewrite lookup_insert_ne by done. eauto 10.
Qed.

Lemma path_lookup bl k p g i x :
  path bl k p g -> p !! i = Some x ->
  exists h, bl !! x = Some h /\ bh_hash h = x /\ bh_blockNumber h = None.
Proof.
  revert k i. induction p as [|y p IH]; intros k i; simpl; [done|].
  intros (-> & hy & Hy & Hh & Hn & Hp & Hpath) Hi. destruct i; simpl in Hi; [|eauto].
  injection Hi as ->. eauto.
Qed.

Lemma path_start bl k p g hg : path bl k p g -> bl !! g = Some hg -> is_Some (bl !! k).
Proof.
  destruct p as [|x p]; simpl; [intros ->; eauto|]. intros (-> & h & -> & _). eauto.
Qed.

Lemma calc_loop_path p bl pr k g num hg fuel :
  path bl k p g -> NoDup p -> bl !! g = Some hg -> is_Some (bh_blockNumber hg) ->
  (length p < fuel)%nat -> 0 <= num -> num + blen p < 2 ^ 64 ->
  calc_loop fuel bl pr k num = (mark bl num p, Ok (pr ++ p, g, num + blen p)).
Proof.
  revert bl pr k num fuel. induction p as [|x p IH];
    intros bl pr k num [|fuel] Hpath Hd Hg [m Hm] Hf Hn Hb; simpl in *; try lia.
  - subst k. rewrite Hg, Hm, app_nil_r. unfold blen. simpl. by rewrite Z.add_0_r.
  - destruct Hpath as (-> & h & Hx & Hh & Hnone & Hp & Hpath). rewrite Hx, Hnone.
    rewrite is_empty_false by done. apply NoDup_cons in Hd as [Hxp Hd].
    assert (x <> g) as Hxg by congruence. rewrite blen_cons in *. pose proof (blen_nonneg p).
    assert (<[x := set_bh_blockNumber (Some num) h]> bl !! g = Some hg) as Hg'
      by by rewrite lookup_insert_ne.
    pose proof (path_insert _ _ _ _ x (set_bh_blockNumber (Some num) h) Hpath Hxp) as Hpath'.
    destruct (path_start _ _ _ _ _ Hpath' Hg') as [h' ->].
    rewrite u64_small by (unfold is_u64; lia).
    rewrite (IH _ _ _ _ fuel Hpath' Hd Hg') by (eauto || lia).
    rewrite <- app_assoc. simpl. rewrite Z.add_assoc. f_equal. f_equal.
    apply map_eq. intros i. destruct (decide (i = x)) as [->|].
    + by rewrite lookup_insert_eq, lookup_alter_eq, Hx.
    + by rewrite lookup_insert_ne, lookup_alter_ne by done.
Qed.

Lemma number_loop_ok l st allNum :
  NoDup l -> blen (bc_hashes st) + blen l < 2 ^ 64 ->
  (forall j x, l !! j = Some x -> exists h, bc_blocks st !! x = Some h /\ bh_hash h = x /\
    bh_blockNumber h = Some (allNum - blen (bc_hashes st) - Z.of_nat j)) ->
  number_loop allNum l st
  = (mkBlockChain (mark (bc_blocks st) (blen (bc_hashes st)) l) (bc_hashes st ++ l), Ok tt).
Proof.
  intros Hd. revert st. induction Hd as [|x l Hx Hd IH]; intros [bl hs] Hb Hl; simpl in *.
  { by rewrite app_nil_r. }
  rewrite blen_cons in Hb. pose proof (blen_nonneg l). pose proof (blen_nonneg hs).
  destruct (Hl 0%nat x eq_refl) as (h & Hh & Hhash & Hnum). rewrite Hh, Hnum.
  replace (allNum - (allNum - blen hs - Z.of_nat 0)) with (blen hs) by lia.
  rewrite u64_small by (unfold is_u64; lia). rewrite Z.eqb_refl, IH; simpl.
  - rewrite <- app_assoc, Hhash. simpl. rewrite blen_app. do 2 f_equal.
    change (blen [x]) with 1. f_equal. apply map_eq. intros i. destruct (decide (i = x)) as [->|].
    + by rewrite lookup_insert_eq, lookup_alter_eq, Hh.
    + by rewrite lookup_insert_ne, lookup_alter_ne by done.
  - rewrite blen_app, Hhash. change (blen [x]) with 1. lia.
  - intros j y Hy. destruct (Hl (S j) y Hy) as (h' & Hh' & Hhash' & Hnum'). exists h'.
    assert (y <> x) by (intros ->; apply Hx; by eapply list_elem_of_lookup_2).
    rewrite lookup_insert_ne by done. rewrite blen_app. change (blen [bh_hash h]) with 1.
    split; [done|]. split; [done|]. rewrite Hnum'. f_equal. lia.
Qed.

Lemma path_length bl k p g : path bl k p g -> NoDup p -> (length p <= size bl)%nat.
Proof.
  intros Hpath Hd. rewrite <- size_dom, <- (size_list_to_set (C := gset bytes) p) by done.
  apply subseteq_size. intros x Hx. apply elem_of_list_to_set in Hx.
  apply list_elem_of_lookup in Hx as [i Hi].
  destruct (path_lookup _ _ _ _ _ _ Hpath Hi) as (h & Hh & _). apply elem_of_dom. eauto.
Qed.

Lemma lookup_reverse_path {A} (p : list A) j x :
  reverse p !! j = Some x -> p !! (length p - S j)%nat = Some x /\ (j < length p)%nat.
Proof.
  intros H. pose proof (lookup_lt_Some _ _ _ H) as Hlt. rewrite length_reverse in Hlt.
  by rewrite reverse_lookup in H.
Qed.

(** [calcBlockchain] on a path that ends at the last numbered header: the path
    is numbered from there and appended to the chain. *)
Lemma calcBlockchain_path_eq st k p g hg m :
  k <> [] -> path (bc_blocks st) k p g -> NoDup p ->
  bc_blocks st !! g = Some hg -> bh_blockNumber hg = Some m ->
  blen (bc_hashes st) = m + 1 -> 0 <= m -> m + 1 + blen p < 2 ^ 64 ->
  calcBlockchain k st
  = (mkBlockChain (mark (mark (bc_blocks st) 0 p) (m + 1) (reverse p))
      (bc_hashes st ++ reverse p), Ok (blen p + m)).
Proof.
  intros Hk Hpath Hd Hg Hm Hlen Hm0 Hb. destruct st as [bl hs]. simpl in *.
  unfold calcBlockchain. rewrite is_empty_false by done. cbn [bc_blocks bc_hashes].
  destruct (path_start _ _ _ _ _ Hpath Hg) as [hk ->].
  pose proof (path_length _ _ _ _ Hpath Hd). pose proof (blen_nonneg p).
  assert (g ∉ p) as Hgp.
  { intros Hin. apply list_elem_of_lookup in Hin as [i Hi].
    destruct (path_lookup _ _ _ _ _ _ Hpath Hi) as (h & Hh & _ & Hn). congruence. }
  rewrite (calc_loop_path p _ _ _ g _ hg); [|done|done|done|by rewrite Hm|lia|lia|lia]. simpl.
  rewrite mark_notin, Hg by done. simpl. rewrite Hm, u64_small by (unfold is_u64; lia).
  rewrite number_loop_ok; simpl; [by rewrite Hlen| |rewrite Hlen; unfold blen in *; rewrite length_reverse; lia|].
  { by rewrite reverse_Permutation. }
  intros j x Hj. apply lookup_reverse_path in Hj as [Hj Hlt].
  destruct (path_lookup _ _ _ _ _ _ Hpath Hj) as (h & Hh & Hhash & Hn).
  rewrite (mark_lookup _ _ _ _ _ Hd Hj), Hh. simpl. eexists. split; [done|]. split; [done|].
  simpl. f_equal. rewrite Hlen. unfold blen. lia.
Qed.

(** ** Termination *)

Definition unnumbered (bl : gmap bytes BlockHeader) : gmap bytes BlockHeader :=
  filter (fun kv => bh_blockNumber kv.2 = None) bl.

Lemma unnumbered_mark bl k h n :
  bl !! k = Some h -> bh_blockNumber h = None ->
  size (unnumbered bl) = S (size (unnumbered (<[k := set_bh_blockNumber (Some n) h]> bl))).
Proof.
  intros Hk Hn. unfold unnumbered. rewrite map_filter_insert_False by done.
  rewrite map_filter_delete. rewrite map_size_delete.
  assert (filter (fun kv : bytes * BlockHeader => bh_blockNumber kv.2 = None) bl !! k = Some h) as Hf.
  { by apply map_lookup_filter_Some. }
  rewrite Hf. simpl.
  assert (size (filter (fun kv : bytes * BlockHeader => bh_blockNumber kv.2 = None) bl) <> 0%nat).
  { intros E. apply map_size_empty_inv in E. by rewrite E, lookup_empty in Hf. }
  lia.
Qed.

Lemma calc_loop_terminates fuel bl pr k num :
  (size (unnumbered bl) < fuel)%nat -> (calc_loop fuel bl pr k num).2 <> OutOfFuel.
Proof.
  revert bl pr k num. induction fuel as [|fuel IH]; intros bl pr k num Hf; [lia|]. simpl.
  destruct (bl !! k) as [h|] eqn:Hk; [|done]. destruct (bh_blockNumber h) eqn:Hn; [done|].
  destruct (is_empty (bh_prevHash h)); [done|]. case_match; [|done].
  apply IH. rewrite (unnumbered_mark bl k h num Hk Hn) in Hf. lia.
Qed.

Lemma size_unnumbered bl : (size (unnumbered bl) <= size bl)%nat.
Proof.
  unfold unnumbered. rewrite <- !size_dom. apply subseteq_size, dom_filter_subseteq.
Qed.

Lemma number_loop_not_fuel allNum l st : (number_loop allNum l st).2 <> OutOfFuel.
Proof.
  revert st. induction l as [|k l IH]; intros st; simpl; [done|].
  destruct (bc_blocks st !! k) as [h|]; [|done]. destruct (bh_blockNumber h); [|done].
  case_match; [apply IH|done].
Qed.

Lemma calcBlockchain_not_fuel k st : (calcBlockchain k st).2 <> OutOfFuel.
Proof.
  unfold calcBlockchain. destruct (is_empty k); [done|].
  destruct (bc_blocks st !! k) as [hk|]; [|done].
  pose proof (calc_loop_terminates (S (size (bc_blocks st))) (bc_blocks st) [] k 0) as Ht.
  pose proof (size_unnumbered (bc_blocks st)).
  destruct (calc_loop _ _ _ _ _) as [bl [[[pr last] cn]|e| |]];
    cbn [fst snd bc_blocks bc_hashes] in *; [|done|done|intros _; apply Ht; [lia|done]].
  destruct (bl !! last ≫= bh_blockNumber) as [z|]; [|done].
  pose proof (number_loop_not_fuel (u64 (cn + z)) (reverse pr) (mkBlockChain bl (bc_hashes st))) as Hn.
  destruct (number_loop _ _ _) as [st' [u|e| |]]; simpl in *; congruence.
Qed.

(** ** [addBlock] on a settled chain *)

Lemma settled_hashes_inj st i j k :
  settled st -> bc_hashes st !! i = Some k -> bc_hashes st !! j = Some k -> i = j.
Proof.
  intros Hs Hi Hj. destruct (set_hash st Hs i k Hi) as (h & Hh & _ & Hn).
  destruct (set_hash st Hs j k Hj) as (h' & Hh' & _ & Hn').
  rewrite Hh in Hh'. injection Hh' as <-. rewrite Hn in Hn'. injection Hn'. lia.
Qed.

Lemma tip_spec st k :
  settled st -> tip st = Some k <->
  exists i, bc_hashes st !! i = Some k /\ Z.of_nat i + 1 = blen (bc_hashes st).
Proof.
  intros Hs. unfold tip. rewrite last_lookup. unfold blen. split.
  - intros H. pose proof (lookup_lt_Some _ _ _ H). eexists. split; [done|]. lia.
  - intros (i & Hi & Hl). by replace (pred (length (bc_hashes st))) with i by lia.
Qed.

Lemma number_one st k h allNum n :
  bc_blocks st !! k = Some h -> bh_blockNumber h = Some n ->
  number_loop allNum [k] st =
  if u64 (allNum - n) =? blen (bc_hashes st)
  then (mkBlockChain (<[k := set_bh_blockNumber (Some (u64 (allNum - n))) h]> (bc_blocks st))
          (bc_hashes st ++ [bh_hash h]), Ok tt)
  else (mkBlockChain (<[k := set_bh_blockNumber (Some (u64 (allNum - n))) h]> (bc_blocks st))
          (bc_hashes st), throwErr (str "Ups")).
Proof. intros Hk Hn. simpl. rewrite Hk, Hn. by case_match. Qed.

Section add_fresh.
Variable st : BlockChain.
Variable block : BlockHeader.
Hypothesis Hst : settled st.
Hypothesis Hnum : bh_blockNumber block = None.
Hypothesis Hhash : bh_hash block <> [].
Hypothesis Hfresh : bc_blocks st !! bh_hash block = None.

Let st1 := mkBlockChain (<[bh_hash block := block]> (bc_blocks st)) (bc_hashes st).

(** The walk stops after the new header, at a header numbered [m]. *)
Lemma calc_fresh_at g m :
  bh_prevHash block <> [] ->
  calc_loop (S (size (bc_blocks st1))) (bc_blocks st1) [] (bh_hash block) 0
    = (<[bh_hash block := set_bh_blockNumber (Some 0) block]> (bc_blocks st),
       Ok ([bh_hash block], g, 1)) ->
  <[bh_hash block := set_bh_blockNumber (Some 0) block]> (bc_blocks st) !! g ≫= bh_blockNumber
    = Some m ->
  0 <= m -> m + 1 < 2 ^ 64 ->
  addBlock block st =
  if m + 1 =? blen (bc_hashes st) then (append_block st block, Ok (blen (bc_hashes st)))
  else (st, throwErr (str "Ups")).
Proof.
  intros Hp Hloop Hm Hm0 Hm1. unfold addBlock, addWithoutCalc.
  rewrite is_empty_false, Hfresh by done.
  rewrite bool_decide_false by (intros [? [=]]). cbn [negb]. fold st1.
  unfold calcBlockchain. rewrite is_empty_false by done. rewrite Hloop.
  unfold st1 at 1. cbn [bc_blocks bc_hashes]. rewrite lookup_insert_eq, Hm.
  rewrite (u64_small (1 + m)) by (unfold is_u64; lia).
  change (reverse [bh_hash block]) with [bh_hash block].
  erewrite number_one; [|apply lookup_insert_eq|done].
  cbn [bc_blocks bc_hashes st1]. rewrite u64_small by (unfold is_u64; lia).
  replace (1 + m - 0) with (m + 1) by lia.
  destruct (Z.eqb_spec (m + 1) (blen (bc_hashes st))) as [E|E].
  - cbn [mbind res_bind]. unfold append_block. rewrite set_blockNumber_twice, insert_insert_eq.
    rewrite <- E. cbn. do 2 f_equal. lia.
  - cbn [mbind res_bind throwErr]. unfold removeBlock. rewrite is_empty_false by done. cbn.
    rewrite insert_insert_eq, delete_insert_id by done. by destruct st.
Qed.

Lemma calc_fresh_first :
  calc_loop (S (size (bc_blocks st1))) (bc_blocks st1) [] (bh_hash block) 0 =
  let bl := <[bh_hash block := set_bh_blockNumber (Some 0) block]> (bc_blocks st) in
  if is_empty (bh_prevHash block) then (bl, throwErr (str "Empty block hash")) else
  match bl !! bh_prevHash block with
  | None => (bl, Ok ([bh_hash block], bh_hash block, 1))
  | Some _ => calc_loop (S (size (bc_blocks st))) bl [bh_hash block] (bh_prevHash block) 1
  end.
Proof.
  unfold st1. cbn [bc_blocks]. rewrite map_size_insert_None by done.
  cbn [calc_loop]. rewrite lookup_insert_eq, Hnum, insert_insert_eq. done.
Qed.

Lemma addBlock_fresh :
  addBlock block st =
  if is_empty (bh_prevHash block) then (st, throwErr (str "Empty block hash"))
  else if accepts st block then (append_block st block, Ok (blen (bc_hashes st)))
  else (st, throwErr (str "Ups")).
Proof.
  destruct (is_empty (bh_prevHash block)) eqn:Hpe.
  { unfold addBlock, addWithoutCalc. rewrite is_empty_false, Hfresh by done.
    rewrite bool_decide_false by (intros [? [=]]). cbn [negb]. fold st1.
    unfold calcBlockchain. rewrite is_empty_false, calc_fresh_first by done.
    unfold st1 at 1. cbn [bc_blocks]. rewrite lookup_insert_eq, Hpe. cbn [fst snd throwErr].
    unfold removeBlock. rewrite is_empty_false by done. cbn. rewrite delete_insert_id by done. by destruct st. }
  assert (bh_prevHash block <> []) as Hp by (by intros E; rewrite E in Hpe).
  pose proof (set_size st Hst) as Hsz. pose proof calc_fresh_first as Hcalc.
  rewrite Hpe in Hcalc. cbn zeta in Hcalc. unfold accepts.
  destruct (bc_blocks st !! bh_prevHash block) as [hp|] eqn:Hprev.
  - assert (bh_prevHash block <> bh_hash block) as Hne by congruence.
    rewrite lookup_insert_ne, Hprev in Hcalc by done. cbn [calc_loop] in Hcalc.
    rewrite lookup_insert_ne, Hprev in Hcalc by done.
    destruct (set_num st Hst _ _ Hprev) as (i & Hi & Hat). rewrite Hi in Hcalc.
    pose proof (lookup_lt_Some _ _ _ Hat).
    rewrite (calc_fresh_at (bh_prevHash block) (Z.of_nat i)); [|done|done| |lia|unfold blen in *; lia].
    2: { rewrite lookup_insert_ne, Hprev by done. done. }
    rewrite (bool_decide_false (Some hp = None)), andb_false_r, orb_false_r by done.
    destruct (Z.eqb_spec (Z.of_nat i + 1) (blen (bc_hashes st))) as [E|E].
    + rewrite bool_decide_true; [done|]. apply tip_spec; eauto.
    + rewrite bool_decide_false; [done|]. intros Ht. apply tip_spec in Ht as (j & Hj & Hjl); [|done].
      rewrite (settled_hashes_inj st i j _ Hst Hat Hj) in E. lia.
  - assert (calc_loop (S (size (bc_blocks st1))) (bc_blocks st1) [] (bh_hash block) 0
      = (<[bh_hash block := set_bh_blockNumber (Some 0) block]> (bc_blocks st),
         Ok ([bh_hash block], bh_hash block, 1))) as Hcalc'.
    { destruct (decide (bh_prevHash block = bh_hash block)) as [E|E].
      - rewrite Hcalc, E, lookup_insert_eq. cbn [calc_loop]. by rewrite lookup_insert_eq.
      - by rewrite Hcalc, lookup_insert_ne, Hprev by done. }
    rewrite (calc_fresh_at (bh_hash block) 0); [|done|done| |lia|lia].
    2: { rewrite lookup_insert_eq. done. }
    rewrite (bool_decide_false (tip st = _)); cycle 1.
    { intros Ht. apply tip_spec in Ht as (j & Hj & _); [|done].
      destruct (set_hash st Hst j _ Hj) as (h & Hh & _). congruence. }
    rewrite (bool_decide_true (None = None)), andb_true_r by done.
    by rewrite (Z.eqb_sym (0 + 1)).
Qed.
End add_fresh.

Lemma addBlock_eq_spec st block :
  settled st -> bh_blockNumber block = None -> addBlock block st = addBlock_spec block st.
Proof.
  intros Hst Hnum. unfold addBlock_spec.
  destruct (is_empty (bh_hash block)) eqn:Hhe.
  { unfold addBlock, addWithoutCalc. by rewrite Hhe. }
  destruct (bc_blocks st !! bh_hash block) as [h|] eqn:Hf.
  { rewrite bool_decide_true by eauto. unfold addBlock, addWithoutCalc. rewrite Hhe, Hf.
    rewrite bool_decide_true by eauto. done. }
  rewrite bool_decide_false by (intros [? [=]]).
  apply addBlock_fresh; [done..| |done]. by intros E; rewrite E in Hhe.
Qed.

(** ** The invariant *)

Lemma settled_new : settled BlockChain_new.
Proof.
  split; cbn.
  - done.
  - intros [|i] k [= <-]. eexists. split; [apply lookup_insert_eq|]. done.
  - intros k h H. apply lookup_insert_Some in H as [[<- <-]|[_ H]]; [by exists 0%nat|].
    by rewrite lookup_empty in H.
  - unfold blen. simpl. lia.
Qed.

Lemma linked_new : linked BlockChain_new.
Proof. intros i k h H. cbn in H. done. Qed.

Lemma settled_append st block :
  settled st -> bc_blocks st !! bh_hash block = None -> blen (bc_hashes st) + 1 < 2 ^ 64 ->
  settled (append_block st block).
Proof.
  intros Hst Hf Hsz. split; cbn.
  - apply lookup_app_l_Some, Hst.
  - intros i k Hi. apply lookup_app_Some in Hi as [Hi|[Hge Hi]].
    + destruct (set_hash st Hst i k Hi) as (h & Hh & Hk & Hn). exists h.
      rewrite lookup_insert_ne by congruence. done.
    + apply list_lookup_singleton_Some in Hi as [Hi <-]. eexists. split; [apply lookup_insert_eq|].
      split; [done|]. cbn. unfold blen. do 2 f_equal. lia.
  - intros k h H. apply lookup_insert_Some in H as [[<- <-]|[Hne H]].
    + exists (length (bc_hashes st)). split; [done|].
      rewrite lookup_app_r by lia. by rewrite Nat.sub_diag.
    + destruct (set_num st Hst k h H) as (i & Hn & Hi). exists i. split; [done|].
      by apply lookup_app_l_Some.
  - rewrite blen_app. change (blen [bh_hash block]) with 1. lia.
Qed.

Lemma linked_append st block :
  settled st -> linked st -> bc_blocks st !! bh_hash block = None ->
  accepts st block = true -> linked (append_block st block).
Proof.
  intros Hst Hl Hf Ha i k h Hi Hk. cbn in *.
  apply lookup_app_Some in Hi as [Hi|[Hge Hi]].
  - destruct (set_hash st Hst _ _ Hi) as (h' & Hh' & _). rewrite lookup_insert_ne in Hk by congruence.
    apply lookup_app_l_Some. eauto.
  - apply list_lookup_singleton_Some in Hi as [Hi <-]. rewrite lookup_insert_eq in Hk.
    injection Hk as <-. cbn. unfold accepts in Ha.
    assert ((blen (bc_hashes st) =? 1) = false) as E by (apply Z.eqb_neq; unfold blen; lia).
    rewrite E, orb_false_r in Ha. apply bool_decide_eq_true in Ha.
    apply tip_spec in Ha as (j & Hj & Hjl); [|done]. apply lookup_app_l_Some.
    replace (S i) with j by (unfold blen in Hjl; lia). done.
Qed.

(** ** The read interface *)

Lemma countBlocks_eq st : settled st -> countBlocks st = blen (bc_hashes st) - 1.
Proof.
  intros Hst. unfold countBlocks. pose proof (lookup_lt_Some _ _ _ (set_genesis st Hst)).
  pose proof (set_size st Hst). rewrite u64_small; [done|]. unfold is_u64, blen in *. lia.
Qed.

#[export] Instance BlockChain_read_laws : BlockChainReadLaws BlockChain.
Proof.
  refine {| chain_ok := settled |}; cbn [countBlocks_ getBlock_by_number getBlock_by_hash getLastBlock_ BlockChain_read].
  - intros s _. apply u64_range.
  - intros s n Hs Hn. rewrite countBlocks_eq in Hn by done.
    destruct (lookup_lt_is_Some_2 (bc_hashes s) (Z.to_nat n)) as [k Hk]; [unfold blen in Hn; lia|].
    destruct (set_hash s Hs _ _ Hk) as (h & Hh & _ & Hnum). exists h.
    unfold getBlock_number, getBlockImpl_number, getBlockImpl_hash.
    destruct (Z.leb_spec (blen (bc_hashes s)) n); [lia|]. rewrite Hk. cbn. rewrite Hh.
    split; [done|]. rewrite Hnum. f_equal. lia.
  - intros s n Hs Hn. rewrite countBlocks_eq in Hn by done.
    unfold getBlock_number, getBlockImpl_number.
    destruct (Z.leb_spec (blen (bc_hashes s)) n); [done|lia].
  - intros s k _. unfold getBlock_hash. destruct (negb _); [left|right]; by eexists.
  - intros s k h n Hs Hk Hn. unfold getBlock_hash in Hk. res_inv. subst h.
    unfold getBlockImpl_hash in *. destruct (bc_blocks s !! k) as [h|] eqn:Hh; [|done].
    destruct (set_num s Hs k h Hh) as (i & Hi & Hat). rewrite Hi in Hn. injection Hn as <-.
    pose proof (lookup_lt_Some _ _ _ Hat). rewrite countBlocks_eq by done.
    split; [unfold blen; lia|]. unfold getBlock_number, getBlockImpl_number.
    destruct (Z.leb_spec (blen (bc_hashes s)) (Z.of_nat i)); [unfold blen in *; lia|].
    rewrite Nat2Z.id, Hat. cbn. unfold getBlockImpl_hash. by rewrite Hh.
  - done.
Defined.
