(* ===== verification/LevelDb.v ===== *)
(** * LevelDb.h, LevelDb.cpp: the node's tables

    The key layout over the key-value store, batches, range reads and the
    lookups the workers use. *)
From S2P Require Import Prelude Ordered External BlockInfo.
#[local] Open Scope Z_scope.

(** ** Keys *)

(* src: LevelDb.cpp:22-23 KEY_BLOCK_METADATA *)
Definition KEY_BLOCK_METADATA : bytes := str "?block_meta".
Definition VERSION_DB_KEY : bytes := str "?version_db".
(* src: LevelDb.cpp:25-30 BLOCK_PREFIX *)
Definition BLOCK_PREFIX : bytes := str "b_".
Definition MAIN_BLOCK_NUMBER_PREFIX : bytes := str "ms_".
Definition NODE_STAT_BLOCK_NUMBER_PREFIX : bytes := str "ns_".
Definition FILE_PREFIX : bytes := str "f_".
Definition MODULES_KEY : bytes := str "modules".
Definition NODES_STATS_ALL : bytes := str "nsaa_".

(* src: LevelDb.cpp:143-147 makeKeyPrefix *)
Definition makeKeyPrefix (key prefix : bytes) : bytes := prefix ++ key.

(* src: LevelDb.cpp:149-153 makeBlockKey *)
Definition makeBlockKey (blockHash : bytes) : res bytes :=
  _ ← CHECK (negb (is_empty blockHash)) (str "Incorrect blockHash: empty");
  Ok (makeKeyPrefix blockHash BLOCK_PREFIX).

(* src: LevelDb.cpp:155-159 makeFileKey *)
Definition makeFileKey (fileName : bytes) : res bytes :=
  _ ← CHECK (negb (is_empty fileName)) (str "Incorrect blockHash: empty");
  Ok (makeKeyPrefix fileName FILE_PREFIX).

(** The end of a prefix range: the last byte of the prefix plus one. *)
(* src: LevelDb.cpp:213-215 getAllBlocks, to *)
Definition prefix_end (from : bytes) : bytes :=
  match last from with
  | Some c => take (length from - 1) from ++ [z2b (b2z c + 1)]
  | None => []
  end.

(** ** Batches *)

(* src: LevelDb.h:34-78 Batch *)
Record Batch := mkBatch {
  b_isSave : bool;
  b_batch : list kv_op;
  b_save : gmap bytes bytes;
  b_deleted : gset bytes;
}.

(* src: LevelDb.h:39-43 Batch() *)
Definition Batch_new (isSave : bool) : Batch := mkBatch isSave [] ∅ ∅.

(** [save.emplace] keeps the first value of a key. *)
(* src: LevelDb.cpp:221-228 Batch::addKey *)
Definition addKey (key value : bytes) (b : Batch) : Batch :=
  mkBatch (b_isSave b) (b_batch b ++ [KvPut key value])
    (if b_isSave b
     then match b_save b !! key with Some _ => b_save b | None => <[key := value]> (b_save b) end
     else b_save b)
    (b_deleted b).

(* src: LevelDb.cpp:230-238 Batch::findValueInBatch *)
Definition findValueInBatch (key : bytes) (b : Batch) : res (option bytes) :=
  _ ← CHECK (b_isSave b) (str "is save not set");
  Ok (b_save b !! key).

(* src: LevelDb.cpp:240-247 Batch::removeValue *)
Definition removeValue (key : bytes) (b : Batch) : Batch :=
  mkBatch (b_isSave b) (b_batch b ++ [KvDelete key])
    (if b_isSave b then delete key (b_save b) else b_save b)
    (if b_isSave b then {[ key ]} ∪ b_deleted b else b_deleted b).

(* src: LevelDb.cpp:165-168 Batch::addBlockHeader *)
Definition addBlockHeader (blockHash value : bytes) (b : Batch) : res Batch :=
  buffer ← makeBlockKey blockHash;
  Ok (addKey buffer value b).

(* src: LevelDb.cpp:170-172 Batch::addBlockMetadata *)
Definition addBlockMetadata (value : bytes) (b : Batch) : Batch := addKey KEY_BLOCK_METADATA value b.

(* src: LevelDb.cpp:174-177 Batch::addFileMetadata *)
Definition addFileMetadata (croppedFileName value : bytes) (b : Batch) : res Batch :=
  buffer ← makeFileKey croppedFileName;
  Ok (addKey buffer value b).

(* src: LevelDb.cpp:183-185 Batch::addMainBlock *)
Definition addMainBlock (value : bytes) (b : Batch) : Batch := addKey MAIN_BLOCK_NUMBER_PREFIX value b.

(* src: LevelDb.cpp:187-189 Batch::addAllNodes *)
Definition addAllNodes (value : bytes) (b : Batch) : Batch := addKey NODES_STATS_ALL value b.

(* src: LevelDb.cpp:275-277 Batch::addNodeStatBlock *)
Definition addNodeStatBlock (value : bytes) (b : Batch) : Batch :=
  addKey NODE_STAT_BLOCK_NUMBER_PREFIX value b.

(** ** The store's operations *)

Section store.
Context {D : Type} `{Kv D}.

(* src: LevelDb.cpp:57-65 LevelDb::saveValue *)
Definition saveValue (key value : bytes) : meth D unit := fun db =>
  let '(db, s) := kv_write db [KvPut key value] in
  match s with
  | None => (db, Ok tt)
  | Some s => (db, throwErr (str "dont add key to bd " ++ key ++ str ". " ++ s))
  end.

(** The loop from [Seek(keyFrom)], on the entries the iterator still visits. *)
(* src: LevelDb.cpp:72-80 LevelDb::findKeyInternal, for *)
Fixpoint findKey_loop (it : list (bytes * bytes)) (keyTo : bytes) (from count index : Z)
    : list (bytes * bytes) :=
  match it with
  | [] => []
  | e :: it' =>
      if bytes_lt e.1 keyTo then
        if negb (count =? 0) && (u64 (from + count) <=? index) then []
        else
          (if from <=? index then [e] else [])
            ++ findKey_loop it' keyTo from count (u64 (index + 1))
      else []
  end.

(* src: LevelDb.cpp:72-72 LevelDb::findKeyInternal, Seek *)
Fixpoint seek (it : list (bytes * bytes)) (keyFrom : bytes) : list (bytes * bytes) :=
  match it with
  | [] => []
  | e :: it' => if bytes_lt e.1 keyFrom then seek it' keyFrom else it
  end.

(* src: LevelDb.cpp:67-82 LevelDb::findKeyInternal *)
Definition findKeyInternal (keyFrom keyTo : bytes) (from count : Z) (db : D)
    : list (bytes * bytes) :=
  findKey_loop (seek (kv_iter db) keyFrom) keyTo from count 0.

(* src: LevelDb.cpp:84-89 LevelDb::findKey *)
Definition findKey (keyFrom keyTo : bytes) (from count : Z) (db : D) : list bytes :=
  (findKeyInternal keyFrom keyTo from count db).*2.

(* src: LevelDb.cpp:91-95 LevelDb::findKey2 *)
Definition findKey2 (keyFrom keyTo : bytes) (from count : Z) (db : D) : list (bytes * bytes) :=
  findKeyInternal keyFrom keyTo from count db.

(* src: LevelDb.cpp:107-116 LevelDb::findOneValueInternal *)
Definition findOneValueInternal (key : bytes) (isCheck : bool) (db : D) : res bytes :=
  match kv_get db key with
  | KvValue value => Ok value
  | KvNotFound =>
      if negb isCheck then Ok [] else throwErr (str "dont add key to bd count val NotFound: ")
  | KvError s => throwErr (str "dont add key to bd count val " ++ s)
  end.

(* src: LevelDb.cpp:97-100 LevelDb::findOneValue *)
Definition findOneValue (key : bytes) (db : D) : res bytes := findOneValueInternal key true db.

(* src: LevelDb.cpp:102-105 LevelDb::findOneValueWithoutCheck *)
Definition findOneValueWithoutCheck (key : bytes) (db : D) : res bytes :=
  findOneValueInternal key false db.

(* src: LevelDb.cpp:120-129 LevelDb::findFirstOf, for *)
Fixpoint findFirst_loop (it : list (bytes * bytes)) (key : bytes) (excluded : gset bytes)
    : bytes * bytes :=
  match it with
  | [] => ([], [])
  | (keyResult, value) :: it' =>
      if bool_decide (take (length key) keyResult = key) then
        if bool_decide (keyResult ∈ excluded) then findFirst_loop it' key excluded
        else (keyResult, value)
      else ([], [])
  end.

(* src: LevelDb.cpp:118-131 LevelDb::findFirstOf *)
Definition findFirstOf (key : bytes) (excluded : gset bytes) (db : D) : bytes * bytes :=
  findFirst_loop (seek (kv_iter db) key) key excluded.

(* src: LevelDb.cpp:133-136 LevelDb::addBatch *)
Definition LevelDb_addBatch (ops : list kv_op) : meth D unit := fun db =>
  let '(db, s) := kv_write db ops in
  match s with
  | None => (db, Ok tt)
  | Some s => (db, throwErr (str "dont add key to bd. " ++ s))
  end.

(* src: LevelDb.cpp:161-163 addBatch *)
Definition addBatch (batch : Batch) : meth D unit := LevelDb_addBatch (b_batch batch).

(* src: LevelDb.cpp:138-141 LevelDb::removeKey *)
Definition removeKey (key : bytes) : meth D unit := fun db =>
  let '(db, s) := kv_write db [KvDelete key] in
  match s with
  | None => (db, Ok tt)
  | Some s => (db, throwErr (str "dont delete key to bd. " ++ s))
  end.

(* src: LevelDb.cpp:179-181 saveModules *)
Definition saveModules (modules : bytes) : meth D unit := saveValue MODULES_KEY modules.

(* src: LevelDb.cpp:253-255 saveVersionDb *)
Definition saveVersionDb (value : bytes) : meth D unit := saveValue VERSION_DB_KEY value.

(* src: LevelDb.cpp:249-251 saveAddressStatus *)
Definition saveAddressStatus (addressAndHash value : bytes) : meth D unit :=
  saveValue addressAndHash value.

(* src: LevelDb.cpp:191-193 findBlockMetadata *)
Definition findBlockMetadata (db : D) : res bytes := findOneValueWithoutCheck KEY_BLOCK_METADATA db.

(* src: LevelDb.cpp:257-259 findModules *)
Definition findModules (db : D) : res bytes := findOneValueWithoutCheck MODULES_KEY db.

(* src: LevelDb.cpp:261-264 findMainBlock *)
Definition findMainBlock (db : D) : res bytes := findOneValueWithoutCheck MAIN_BLOCK_NUMBER_PREFIX db.

(* src: LevelDb.cpp:266-268 findVersionDb *)
Definition findVersionDb (db : D) : res bytes := findOneValueWithoutCheck VERSION_DB_KEY db.

(* src: LevelDb.cpp:270-273 findNodeStatBlock *)
Definition findNodeStatBlock (db : D) : res bytes :=
  findOneValueWithoutCheck NODE_STAT_BLOCK_NUMBER_PREFIX db.

(* src: LevelDb.cpp:279-281 findAllNodes *)
Definition findAllNodes (db : D) : res bytes := findOneValueWithoutCheck NODES_STATS_ALL db.

(** The map from cropped file name to record; a later record of the same name
    replaces an earlier one. *)
(* src: LevelDb.cpp:195-210 getAllFiles *)
Definition getAllFiles `{Fs} (db : D) : res (gmap bytes FileInfo) :=
  let from := FILE_PREFIX in
  let to := prefix_end from in
  let found := findKey from to 0 0 db in
  foldM (fun result f =>
    fi ← FileInfo_deserialize f;
    Ok (<[fs_filename (fp_fileName (fi_filePos fi)) := fi]> result)) ∅ found.

(* src: LevelDb.cpp:212-219 getAllBlocks *)
Definition getAllBlocks (db : D) : list bytes :=
  let from := BLOCK_PREFIX in
  let to := prefix_end from in
  oset_of_list (findKey from to 0 0 db).

End store.

(** ** Lemmas *)

Definition has_prefix (p k : bytes) : bool := bool_decide (take (length p) k = p).

(** The entries of a key range. *)
Definition in_range (keyFrom keyTo : bytes) (e : bytes * bytes) : bool :=
  negb (bytes_lt e.1 keyFrom) && bytes_lt e.1 keyTo.

Lemma seek_filter it keyFrom :
  osorted it.*1 -> seek it keyFrom = List.filter (fun e => negb (bytes_lt e.1 keyFrom)) it.
Proof.
  induction it as [|e it IH]; csimpl; [done|]. intros [Hf Hs].
  destruct (bytes_lt e.1 keyFrom) eqn:E; csimpl; [auto|]. f_equal.
  clear IH. symmetry. apply forallb_filter_id, forallb_forall.
  intros x Hx. apply list_elem_of_In in Hx. apply negb_true_iff.
  destruct (bytes_lt x.1 keyFrom) eqn:E2; [|done].
  assert (bytes_lt e.1 x.1 = true) as Hlt.
  { eapply Forall_forall in Hf; [exact Hf|]. by apply list_elem_of_fmap_2. }
  by rewrite (bytes_lt_trans _ _ _ Hlt E2) in E.
Qed.

Lemma osorted_filter {V} (P : bytes * V -> bool) (l : list (bytes * V)) :
  osorted l.*1 -> osorted (List.filter P l).*1.
Proof.
  induction l as [|e l IH]; csimpl; [done|]. intros [Hf Hs].
  destruct (P e); csimpl; [|auto]. split; [|auto].
  apply Forall_forall. intros y Hy. apply list_elem_of_fmap in Hy as (x & -> & Hx).
  apply list_elem_of_In, filter_In in Hx as [Hx _]. eapply Forall_forall in Hf; [exact Hf|].
  by apply list_elem_of_fmap_2, list_elem_of_In.
Qed.

Lemma filter_nil_above it k keyTo :
  Forall (fun y => bytes_lt k y = true) it.*1 -> bytes_lt k keyTo = false ->
  List.filter (fun e : bytes * bytes => bytes_lt e.1 keyTo) it = [].
Proof.
  intros Hf Hk. induction it as [|e it IH]; csimpl in *; [done|].
  apply Forall_cons in Hf as [He Hf]. destruct (bytes_lt e.1 keyTo) eqn:E; [|auto].
  by rewrite (bytes_lt_trans _ _ _ He E) in Hk.
Qed.

Lemma findKey_loop_all it keyTo index :
  osorted it.*1 -> 0 <= index ->
  findKey_loop it keyTo 0 0 index = List.filter (fun e => bytes_lt e.1 keyTo) it.
Proof.
  revert index. induction it as [|e it IH]; intros index Hs Hi; [done|].
  csimpl in *. destruct Hs as [Hf Hs]. destruct (bytes_lt e.1 keyTo) eqn:E.
  - simpl. destruct (Z.leb_spec 0 index); [|lia]. simpl. rewrite IH; [done|done|].
    apply u64_range.
  - simpl. symmetry. by eapply filter_nil_above.
Qed.

(** The page [from, from + count) of a list; a [count] of 0 means no limit. *)
Definition page {A} (from count : Z) (l : list A) : list A :=
  if count =? 0 then drop (Z.to_nat from) l
  else take (Z.to_nat count) (drop (Z.to_nat from) l).

Lemma findKey_loop_page it keyTo from count index :
  osorted it.*1 -> 0 <= from -> 0 <= count -> from + count < 2 ^ 64 ->
  0 <= index -> index + blen it < 2 ^ 64 ->
  findKey_loop it keyTo from count index =
  let l := List.filter (fun e => bytes_lt e.1 keyTo) it in
  if count =? 0 then drop (Z.to_nat (from - index)) l
  else take (Z.to_nat (from + count - Z.max from index)) (drop (Z.to_nat (from - index)) l).
Proof.
  revert index. induction it as [|e it IH]; intros index Hs Hfr Hc Hb Hi Hl.
  { cbn. rewrite drop_nil, take_nil. by case_match. }
  cbn [findKey_loop List.filter]. csimpl in Hs. destruct Hs as [Hf Hs].
  rewrite blen_cons in Hl. pose proof (blen_nonneg it).
  destruct (bytes_lt e.1 keyTo) eqn:E; cbn zeta.
  - rewrite (u64_small (from + count)), (u64_small (index + 1)) by (unfold is_u64; lia).
    destruct (Z.eqb_spec count 0) as [Hc0|Hc0]; cbn [negb andb].
    + rewrite IH by (done || lia). cbn zeta.
      destruct (Z.leb_spec from index).
      * by replace (Z.to_nat (from - index)) with 0%nat by lia;
          replace (Z.to_nat (from - (index + 1))) with 0%nat by lia.
      * by replace (Z.to_nat (from - index)) with (S (Z.to_nat (from - (index + 1)))) by lia.
    + destruct (Z.leb_spec (from + count) index).
      { by replace (Z.to_nat (from + count - Z.max from index)) with 0%nat by lia. }
      rewrite IH by (done || lia). cbn zeta.
      destruct (Z.leb_spec from index).
      * replace (Z.to_nat (from - index)) with 0%nat by lia.
        replace (Z.to_nat (from - (index + 1))) with 0%nat by lia.
        by replace (Z.to_nat (from + count - Z.max from index))
          with (S (Z.to_nat (from + count - Z.max from (index + 1)))) by lia.
      * replace (Z.to_nat (from - index)) with (S (Z.to_nat (from - (index + 1)))) by lia.
        by replace (Z.max from index) with (Z.max from (index + 1)) by lia.
  - rewrite (filter_nil_above _ _ _ Hf E), drop_nil, take_nil. by case_match.
Qed.

Lemma filter_filter {A} (P Q : A -> bool) l :
  List.filter P (List.filter Q l) = List.filter (fun x => Q x && P x) l.
Proof.
  induction l as [|x l IH]; simpl; [done|]. destruct (Q x); simpl; [|done].
  by destruct (P x); rewrite IH.
Qed.

Section store_laws.
Context {D : Type} `{KvLaws D}.

Lemma findKeyInternal_eq keyFrom keyTo from count db :
  kv_ok db -> 0 <= from -> 0 <= count -> from + count < 2 ^ 64 -> blen (kv_iter db) < 2 ^ 64 ->
  findKeyInternal keyFrom keyTo from count db
  = page from count (List.filter (in_range keyFrom keyTo) (kv_iter db)).
Proof.
  intros Hok Hf Hc Hb Hl. pose proof (kv_iter_sorted db Hok) as Hs. unfold findKeyInternal.
  rewrite seek_filter by done. rewrite findKey_loop_page; try lia.
  - rewrite filter_filter, Z.sub_0_r. unfold page. cbn zeta.
    replace (from + count - Z.max from 0) with count by lia. done.
  - by apply osorted_filter.
  - pose proof (filter_length_le (fun e => negb (bytes_lt e.1 keyFrom)) (kv_iter db)).
    unfold blen in *. lia.
Qed.

Lemma findKey_all keyFrom keyTo db :
  kv_ok db -> findKey keyFrom keyTo 0 0 db
  = (List.filter (in_range keyFrom keyTo) (kv_iter db)).*2.
Proof.
  intros Hok. pose proof (kv_iter_sorted db Hok) as Hs. unfold findKey, findKeyInternal.
  rewrite seek_filter, findKey_loop_all, filter_filter by (done || by apply osorted_filter).
  done.
Qed.

Lemma findOneValueWithoutCheck_eq key db :
  kv_ok db -> findOneValueWithoutCheck key db
  = Ok (match omap_find key (kv_iter db) with Some v => v | None => [] end).
Proof.
  intros Hok. unfold findOneValueWithoutCheck, findOneValueInternal. rewrite kv_get_iter by done.
  by destruct (omap_find key (kv_iter db)).
Qed.

Lemma addBatch_eq batch db :
  kv_ok db -> exists db', addBatch batch db = (db', Ok tt) /\ kv_ok db' /\
    kv_iter db' = foldl kv_apply (kv_iter db) (b_batch batch).
Proof.
  intros Hok. destruct (kv_write_ok db (b_batch batch) Hok) as (db' & Hw & Hok' & Hit).
  exists db'. unfold addBatch, LevelDb_addBatch. by rewrite Hw.
Qed.

End store_laws.

(** A key lies between a prefix and its end exactly when it has that prefix. *)
Lemma prefix_range a c k :
  b2z c < 255 ->
  negb (bytes_lt k [a; c]) && bytes_lt k (prefix_end [a; c]) = has_prefix [a; c] k.
Proof.
  intros Hc. unfold prefix_end, has_prefix. cbn [last length Nat.sub take app].
  pose proof (b2z_range c) as Hcr. destruct k as [|x [|y k]]; cbn [bytes_lt take].
  - done.
  - destruct (Z.ltb_spec (b2z x) (b2z a)), (Z.ltb_spec (b2z a) (b2z x)); cbn;
      rewrite bool_decide_false; done.
  - rewrite b2z_z2b, Z.mod_small by lia.
    destruct (Z.ltb_spec (b2z x) (b2z a)) as [H1|H1]; cbn.
    { rewrite bool_decide_false; [done|]. intros [= ->]. lia. }
    destruct (Z.ltb_spec (b2z a) (b2z x)) as [H2|H2]; cbn.
    { rewrite bool_decide_false; [done|]. intros [= ->]. lia. }
    assert (x = a) as -> by (apply b2z_inj; lia).
    destruct (Z.ltb_spec (b2z y) (b2z c)) as [H3|H3]; cbn.
    { rewrite bool_decide_false; [done|]. intros [= ->]. lia. }
    destruct (Z.ltb_spec (b2z c) (b2z y)) as [H4|H4]; cbn.
    + rewrite bool_decide_false; [|intros [= ->]; lia].
      destruct (Z.ltb_spec (b2z y) (b2z c + 1)); [lia|].
      destruct (Z.ltb_spec (b2z c + 1) (b2z y)); [done|]. by destruct k.
    + assert (y = c) as -> by (apply b2z_inj; lia).
      destruct (Z.ltb_spec (b2z c) (b2z c + 1)); [|lia].
      rewrite bool_decide_true; [|by destruct k]. by destruct k.
Qed.

Lemma has_prefix_iff p k : has_prefix p k = true <-> exists k', k = p ++ k'.
Proof.
  unfold has_prefix. rewrite bool_decide_eq_true. split.
  - intros H. exists (drop (length p) k). by rewrite <- H at 1; rewrite take_drop.
  - intros (k' & ->). by rewrite take_app_length.
Qed.

(** The block table: the entries whose key has the block prefix. *)
Definition block_entries (it : list (bytes * bytes)) : list (bytes * bytes) :=
  List.filter (fun e => has_prefix BLOCK_PREFIX e.1) it.

Lemma getAllBlocks_eq {D} `{KvLaws D} (db : D) :
  kv_ok db -> getAllBlocks db = oset_of_list (block_entries (kv_iter db)).*2.
Proof.
  intros Hok. unfold getAllBlocks. rewrite findKey_all by done. do 2 f_equal.
  apply filter_ext. intros e. apply (prefix_range Byte.x62 Byte.x5f). vm_compute. done.
Qed.
