(* ===== verification/Cache.v ===== *)
(** * Cache/Cache.h, Cache/Cache.cpp: values grouped by attribute

    A map from key to value, and for each attribute the keys that were added
    under it; an attribute is dropped as a whole.  Each method holds the mutex
    for its whole body. *)
From S2P Require Import Prelude BlockInfo.
#[local] Open Scope Z_scope.

(* src: Cache/Cache.h:18-42 Cache *)
Record Cache (V : Type) := mkCache {
  c_map : gmap bytes V;
  c_attributes : gmap bytes (list bytes);
}.
Arguments mkCache {V}.
Arguments c_map {V}.
Arguments c_attributes {V}.

Definition Cache_empty {V} : Cache V := mkCache ∅ ∅.

(** [map.insert] keeps the value of a key that is present. *)
(* src: Cache/Cache.cpp:7-12 Cache::addValue *)
Definition addValue {V} (key attribute : bytes) (value : V) (c : Cache V) : Cache V :=
  let keys := default [] (c_attributes c !! attribute) in
  mkCache
    (match c_map c !! key with Some _ => c_map c | None => <[key := value]> (c_map c) end)
    (<[attribute := keys ++ [key]]> (c_attributes c)).

(* src: Cache/Cache.cpp:14-23 Cache::getValue *)
Definition getValue {V} (key : bytes) (c : Cache V) : option V := c_map c !! key.

(* src: Cache/Cache.cpp:25-36 Cache::remove *)
Definition cache_remove {V} (attribute : bytes) (c : Cache V) : Cache V :=
  match c_attributes c !! attribute with
  | None => c
  | Some keys =>
      mkCache (foldl (fun m key => delete key m) (c_map c) keys)
        (delete attribute (c_attributes c))
  end.

(** ** Lemmas *)

(** Every value is listed under an attribute, so removing the attributes
    empties the cache. *)
Definition cache_owned {V} (c : Cache V) : Prop :=
  forall key v, c_map c !! key = Some v ->
    exists attribute keys, c_attributes c !! attribute = Some keys /\ key ∈ keys.

Lemma foldl_delete_lookup {V} (keys : list bytes) (m : gmap bytes V) key :
  foldl (fun m key => delete key m) m keys !! key
  = if decide (key ∈ keys) then None else m !! key.
Proof.
  revert m. induction keys as [|k keys IH]; intros m; cbn [foldl].
  { case_decide as Hd; [by apply not_elem_of_nil in Hd|done]. }
  rewrite IH. destruct (decide (key = k)) as [->|Hne].
  - rewrite lookup_delete_eq. destruct (decide (k ∈ k :: keys)) as [_|Hn];
      [by case_decide|by destruct Hn; apply list_elem_of_here].
  - rewrite lookup_delete_ne by done. apply decide_ext. rewrite elem_of_cons. tauto.
Qed.

Lemma cache_owned_empty {V} : cache_owned (@Cache_empty V).
Proof. intros key v H. cbn in H. by rewrite lookup_empty in H. Qed.

Lemma cache_owned_add {V} key attribute (value : V) c :
  cache_owned c -> cache_owned (addValue key attribute value c).
Proof.
  intros Ho k v Hk. unfold addValue in *. cbn in *.
  destruct (decide (k = key)) as [->|Hne].
  { eexists attribute, _. split; [apply lookup_insert_eq|].
    apply elem_of_app. right. apply list_elem_of_here. }
  assert (exists v', c_map c !! k = Some v') as [v' Hk'].
  { destruct (c_map c !! key); [by eexists|]. rewrite lookup_insert_ne in Hk by done. by eexists. }
  destruct (Ho k v' Hk') as (a & keys & Ha & Hin). destruct (decide (a = attribute)) as [->|].
  - eexists attribute, _. split; [apply lookup_insert_eq|]. rewrite Ha. cbn.
    apply elem_of_app. by left.
  - exists a, keys. by rewrite lookup_insert_ne by done.
Qed.

Lemma cache_owned_remove {V} attribute (c : Cache V) :
  cache_owned c -> cache_owned (cache_remove attribute c).
Proof.
  intros Ho. unfold cache_remove. destruct (c_attributes c !! attribute) as [keys|] eqn:Ha; [|done].
  intros k v Hk. cbn in *. rewrite foldl_delete_lookup in Hk. case_decide as Hin; [done|].
  destruct (Ho k v Hk) as (a & ks & Hks & Hin'). exists a, ks.
  destruct (decide (a = attribute)) as [->|]; [congruence|]. by rewrite lookup_delete_ne by done.
Qed.

Lemma getValue_removed {V} attribute keys key (c : Cache V) :
  c_attributes c !! attribute = Some keys -> key ∈ keys ->
  getValue key (cache_remove attribute c) = None.
Proof.
  intros Ha Hin. unfold getValue, cache_remove. rewrite Ha. cbn.
  rewrite foldl_delete_lookup. by rewrite decide_True.
Qed.

Lemma getValue_kept {V} attribute keys key (c : Cache V) :
  c_attributes c !! attribute = Some keys -> key ∉ keys ->
  getValue key (cache_remove attribute c) = getValue key c.
Proof.
  intros Ha Hin. unfold getValue, cache_remove. rewrite Ha. cbn.
  rewrite foldl_delete_lookup. by rewrite decide_False.
Qed.
