(* ===== verification/Heap.v ===== *)
(** * utils/Heap.h, utils/Heap.cpp: the most recently used keys

    A key's value is the time of its last use; [reduceToMax] drops the keys
    with the smallest values.  The multimap is the list of its entries in
    iteration order. *)
From S2P Require Import Prelude.
#[local] Open Scope Z_scope.

(* src: utils/Heap.h:11-25 Heap *)
Record Heap := mkHeap {
  h_keys : gmap bytes Z;
  h_heap : list (Z * bytes);
}.

Definition Heap_empty : Heap := mkHeap ∅ [].

(** [multimap::insert]: after the entries with an equal value. *)
Fixpoint mm_insert (v : Z) (k : bytes) (l : list (Z * bytes)) : list (Z * bytes) :=
  match l with
  | [] => [(v, k)]
  | e :: l' => if v <? e.1 then (v, k) :: l else e :: mm_insert v k l'
  end.

(** [find_if] in [equal_range(v)], then [erase]: [None] when not found. *)
Fixpoint mm_erase (v : Z) (k : bytes) (l : list (Z * bytes)) : option (list (Z * bytes)) :=
  match l with
  | [] => None
  | e :: l' =>
      if bool_decide (e = (v, k)) then Some l'
      else cons e <$> mm_erase v k l'
  end.

(** [lower_bound(v)] and the entries before it. *)
Fixpoint mm_lower_bound (v : Z) (l : list (Z * bytes)) : list (Z * bytes) * option (Z * bytes * list (Z * bytes)) :=
  match l with
  | [] => ([], None)
  | e :: l' =>
      if e.1 <? v then let '(pre, r) := mm_lower_bound v l' in (e :: pre, r)
      else ([], Some (e, l'))
  end.

(* src: utils/Heap.cpp:14-27 Heap::addElement *)
Definition Heap_addElement (key : bytes) (value : Z) : meth Heap unit := fun h =>
  match h_keys h !! key with
  | Some lastValue =>
      match mm_erase lastValue key (h_heap h) with
      | None => (h, throwErr (str "Not found element"))
      | Some heap => (mkHeap (<[key := value]> (h_keys h)) (mm_insert value key heap), Ok tt)
      end
  | None => (mkHeap (<[key := value]> (h_keys h)) (mm_insert value key (h_heap h)), Ok tt)
  end.

(** The [while] loop; dereferencing [end()] is undefined.  Each round drops a
    key, so there are no more rounds than keys ([reduce_loop_spec]). *)
(* src: utils/Heap.cpp:35-40 Heap::reduceToMax, while *)
Fixpoint reduce_loop (fuel : nat) (minValue newSize : Z) (result : list bytes)
    : meth Heap (list bytes) := fun h =>
  if Z.of_nat (size (h_keys h)) <=? newSize then (h, Ok result)
  else
    match fuel with
    | O => (h, OutOfFuel)
    | S fuel' =>
        match mm_lower_bound minValue (h_heap h) with
        | (_, None) => (h, UB)
        | (pre, Some (e, post)) =>
            reduce_loop fuel' minValue newSize (result ++ [e.2])
              (mkHeap (delete e.2 (h_keys h)) (pre ++ post))
        end
    end.

(** [time_point::min()]. *)
Definition time_point_min : Z := - 2 ^ 63.

(* src: utils/Heap.cpp:29-42 Heap::reduceToMax *)
Definition reduceToMax (newSize : Z) : meth Heap (list bytes) := fun h =>
  if newSize =? 0 then (h, throwErr (str "Incorrect new size"))
  else reduce_loop (size (h_keys h)) time_point_min newSize [] h.

(** ** Invariant *)

Fixpoint mm_sorted (l : list (Z * bytes)) : Prop :=
  match l with
  | [] => True
  | e :: l' => Forall (fun e' => e.1 <= e'.1) l' /\ mm_sorted l'
  end.

(** The multimap lists each key of the map once, with its value, by value. *)
Record heap_ok (h : Heap) : Prop := {
  heap_entries : h_heap h ≡ₚ (fun kv => (kv.2, kv.1)) <$> map_to_list (h_keys h);
  heap_sorted : mm_sorted (h_heap h);
  heap_times : Forall (fun e => time_point_min <= e.1) (h_heap h);
}.

(** ** Lemmas *)

Lemma heap_ok_empty : heap_ok Heap_empty.
Proof. split; [|done|constructor]. cbn. by rewrite map_to_list_empty. Qed.

Lemma mm_insert_perm v k l : mm_insert v k l ≡ₚ (v, k) :: l.
Proof.
  induction l as [|e l IH]; simpl; [done|]. destruct (v <? e.1); [done|].
  rewrite IH. apply Permutation_swap.
Qed.

Lemma mm_insert_sorted v k l : mm_sorted l -> mm_sorted (mm_insert v k l).
Proof.
  induction l as [|e l IH]; simpl; [done|]. intros [Hf Hs].
  destruct (Z.ltb_spec v e.1); simpl.
  - split; [|done]. constructor; [simpl; lia|]. eapply Forall_impl; [exact Hf|].
    simpl. intros x Hx. lia.
  - split; [|auto]. rewrite mm_insert_perm. constructor; [simpl; lia|done].
Qed.

Lemma mm_erase_perm v k l l' : mm_erase v k l = Some l' -> l ≡ₚ (v, k) :: l'.
Proof.
  revert l'. induction l as [|e l IH]; intros l'; simpl; [done|].
  case_bool_decide as E; [intros [= ->]; by subst|].
  destruct (mm_erase v k l) as [l1|]; simpl; [|done]. intros [= <-].
  rewrite (IH l1) by done. apply Permutation_swap.
Qed.

Lemma mm_erase_sorted v k l l' : mm_erase v k l = Some l' -> mm_sorted l -> mm_sorted l'.
Proof.
  revert l'. induction l as [|e l IH]; intros l'; simpl; [done|].
  case_bool_decide as E; [by intros [= ->] [_ ?]|].
  destruct (mm_erase v k l) as [l1|] eqn:He; simpl; [|done]. intros [= <-] [Hf Hs]. simpl.
  split; [|auto]. apply mm_erase_perm in He. rewrite He in Hf. by apply Forall_cons in Hf as [_ ?].
Qed.

Lemma mm_erase_some v k l : (v, k) ∈ l -> is_Some (mm_erase v k l).
Proof.
  induction l as [|e l IH]; simpl; [by intros ?%not_elem_of_nil|].
  intros Hin. case_bool_decide as E; [done|].
  apply elem_of_cons in Hin as [<-|Hin]; [done|]. destruct (IH Hin) as [l' ->]. done.
Qed.

Lemma mm_lower_bound_min m l :
  Forall (fun e => m <= e.1) l ->
  mm_lower_bound m l = ([], match l with [] => None | e :: l' => Some (e, l') end).
Proof.
  destruct l as [|e l]; simpl; [done|]. intros [He _]%Forall_cons.
  destruct (Z.ltb_spec e.1 m); [lia|done].
Qed.

Definition swap_kv (kv : bytes * Z) : Z * bytes := (kv.2, kv.1).

Lemma heap_entry h e : heap_ok h -> e ∈ h_heap h <-> h_keys h !! e.2 = Some e.1.
Proof.
  intros [Hp _ _]. rewrite Hp. rewrite list_elem_of_fmap. split.
  - intros ([k v] & -> & Hin). by apply elem_of_map_to_list in Hin.
  - intros H. exists (e.2, e.1). split; [by destruct e|]. by apply elem_of_map_to_list.
Qed.

Lemma heap_length h : heap_ok h -> length (h_heap h) = size (h_keys h).
Proof. intros [Hp _ _]. by rewrite Hp, length_fmap, length_map_to_list. Qed.

Lemma heap_add_ok key value h :
  heap_ok h -> time_point_min <= value ->
  exists h', Heap_addElement key value h = (h', Ok tt) /\ heap_ok h' /\
    h_keys h' = <[key := value]> (h_keys h).
Proof.
  intros Hok Hv. unfold Heap_addElement. destruct (h_keys h !! key) as [v0|] eqn:Hk.
  - pose proof (proj2 (heap_entry h (v0, key) Hok) Hk) as Hin.
    destruct (mm_erase_some _ _ _ Hin) as [l' Hl']. rewrite Hl'. eexists.
    split; [done|]. split; [|done]. destruct Hok as [Hp Hs Ht].
    pose proof (mm_erase_perm _ _ _ _ Hl') as Hp'. split; cbn.
    + rewrite mm_insert_perm. rewrite <- insert_delete_eq.
      rewrite map_to_list_insert by apply lookup_delete_eq. cbn. f_equiv.
      apply (Permutation_cons_inv (a := (v0, key))). rewrite <- Hp', Hp.
      rewrite <- (insert_delete_id (h_keys h) key v0) at 1 by done.
      by rewrite map_to_list_insert by apply lookup_delete_eq.
    + by eapply mm_insert_sorted, mm_erase_sorted.
    + rewrite mm_insert_perm. constructor; [done|]. rewrite Hp' in Ht.
      by apply Forall_cons in Ht as [_ ?].
  - eexists. split; [done|]. split; [|done]. destruct Hok as [Hp Hs Ht]. split; cbn.
    + rewrite mm_insert_perm, map_to_list_insert by done. cbn. by f_equiv.
    + by apply mm_insert_sorted.
    + rewrite mm_insert_perm. by constructor.
Qed.

(** The entries a reduction to [n] drops, and those it keeps. *)
Lemma reduce_loop_spec fuel n res h :
  heap_ok h -> 0 <= n -> (length (h_heap h) <= fuel)%nat ->
  let d := (length (h_heap h) - Z.to_nat n)%nat in
  exists h', reduce_loop fuel time_point_min n res h
      = (h', Ok (res ++ (take d (h_heap h)).*2)) /\
    heap_ok h' /\ h_heap h' = drop d (h_heap h).
Proof.
  revert res h. induction fuel as [|fuel IH]; intros res h Hok Hn Hf; cbn zeta; simpl.
  - rewrite <- heap_length by done.
    destruct (Z.leb_spec (Z.of_nat (length (h_heap h))) n) as [Hle|]; [|lia].
    exists h. replace (length (h_heap h) - Z.to_nat n)%nat with 0%nat by lia.
    by rewrite take_0, app_nil_r.
  - rewrite <- heap_length by done.
    destruct (Z.leb_spec (Z.of_nat (length (h_heap h))) n) as [Hle|Hgt].
    { exists h. replace (length (h_heap h) - Z.to_nat n)%nat with 0%nat by lia.
      by rewrite take_0, app_nil_r. }
    rewrite mm_lower_bound_min by apply Hok.
    destruct (h_heap h) as [|[v k] l] eqn:Hh; [simpl in Hgt; lia|]. cbn [snd app].
    assert (heap_ok (mkHeap (delete k (h_keys h)) l)) as Hok'.
    { pose proof (proj1 (heap_entry h (v, k) Hok)) as Hk. rewrite Hh in Hk.
      specialize (Hk (list_elem_of_here _ _)). cbn in Hk.
      destruct Hok as [Hp Hs Ht]. rewrite Hh in Hp, Hs, Ht. split; cbn.
      - apply (Permutation_cons_inv (a := (v, k))). rewrite Hp.
        rewrite <- (insert_delete_id (h_keys h) k v) at 1 by done.
        by rewrite map_to_list_insert by apply lookup_delete_eq.
      - apply Hs.
      - by apply Forall_cons in Ht as [_ ?]. }
    destruct (IH (res ++ [k]) _ Hok' Hn ltac:(simpl in *; lia)) as (h' & Hr & Hok'' & Hh').
    cbn [h_heap] in Hr, Hh'. exists h'. simpl length in *.
    replace (S (length l) - Z.to_nat n)%nat with (S (length l - Z.to_nat n)) by lia.
    rewrite Hr, <- app_assoc. done.
Qed.

Lemma reduceToMax_spec n h :
  heap_ok h -> 0 < n ->
  let d := (length (h_heap h) - Z.to_nat n)%nat in
  exists h', reduceToMax n h = (h', Ok (take d (h_heap h)).*2) /\
    heap_ok h' /\ h_heap h' = drop d (h_heap h).
Proof.
  intros Hok Hn. unfold reduceToMax. rewrite (proj2 (Z.eqb_neq n 0)) by lia.
  apply (reduce_loop_spec _ n [] h Hok); [lia|]. by rewrite heap_length.
Qed.

(** Every dropped value is at most every kept one. *)
Lemma mm_sorted_split l d e e' :
  mm_sorted l -> e ∈ take d l -> e' ∈ drop d l -> e.1 <= e'.1.
Proof.
  revert d. induction l as [|x l IH]; intros [|d]; simpl; intros Hs He He';
    try by apply not_elem_of_nil in He.
  destruct Hs as [Hf Hs]. apply elem_of_cons in He as [->|He]; [|eauto].
  eapply Forall_forall in Hf; [exact Hf|]. rewrite <- (take_drop d l), elem_of_app. by right.
Qed.
