(* ===== verification/LocalCache.v ===== *)
(** * Cache/LocalCache.h, Cache/LocalCache.cpp: histories of chosen addresses

    A bounded map from address to its transactions (or statuses), newest first,
    with the block number from which a batch request must report it.  The
    groups of addresses a file on disk keeps are in AddressGroups.v. *)
From S2P Require Import Prelude External BlockInfo Heap.
#[local] Open Scope Z_scope.

(** What the cache needs of a vector element: the overloads of
    [getMaxBlockNumber] and [isGreater], and the block number. *)
Class Blocked (T : Type) := {
  elt_block : T -> Z;
  getMaxBlockNumber : list T -> Z;
  isGreater : list T -> Z -> bool;
}.
#[export] Instance TransactionInfo_blocked : Blocked TransactionInfo :=
  {| elt_block := ti_blockNumber; getMaxBlockNumber := getMaxBlockNumber_txs;
     isGreater := isGreater_txs |}.
#[export] Instance TransactionStatus_blocked : Blocked TransactionStatus :=
  {| elt_block := ts_blockNumber; getMaxBlockNumber := getMaxBlockNumber_statuses;
     isGreater := isGreater_statuses |}.

(** [std::variant<size_t, std::vector<T>>]. *)
Inductive LValue (T : Type) :=
  | LNumber (n : Z)
  | LVector (v : list T).
Arguments LNumber {T}.
Arguments LVector {T}.

(* src: Cache/LocalCache.h:21-37 LocalCacheElement *)
Record LocalCacheElement (T : Type) := mkLocalCacheElement {
  lce_value : LValue T;
  lce_blockUnklesOrNewNum : Z;
  lce_isSyncBlockchainThreadUpdated : bool;
}.
Arguments mkLocalCacheElement {T}.
Arguments lce_value {T}.
Arguments lce_blockUnklesOrNewNum {T}.
Arguments lce_isSyncBlockchainThreadUpdated {T}.

(* src: Cache/LocalCache.h:42-97 LocalCacheInternal *)
Record LocalCacheInternal (T : Type) := mkLocalCacheInternal {
  lc_cache : gmap bytes (LocalCacheElement T);
  lc_noSyncBlockchainThreadElements : gset bytes;
  lc_lastBlockNum : Z;
  lc_maxCountElements : Z;
  lc_heap : Heap;
  lc_isSaveFull : bool;
}.
Arguments mkLocalCacheInternal {T}.
Arguments lc_cache {T}.
Arguments lc_noSyncBlockchainThreadElements {T}.
Arguments lc_lastBlockNum {T}.
Arguments lc_maxCountElements {T}.
Arguments lc_heap {T}.
Arguments lc_isSaveFull {T}.

Definition DISABLED_CACHE : Z := 0.
Definition WITHOUT_LIMITATION : Z := u64_max.

Definition LocalCacheInternal_new {T} (maxCountElements : Z) : LocalCacheInternal T :=
  mkLocalCacheInternal ∅ ∅ 0 maxCountElements Heap_empty true.

Section internal.
Context {T : Type} `{Blocked T}.
Implicit Types (c : LocalCacheInternal T).

Definition with_cache (m : gmap bytes (LocalCacheElement T)) c : LocalCacheInternal T :=
  mkLocalCacheInternal m (lc_noSyncBlockchainThreadElements c) (lc_lastBlockNum c)
    (lc_maxCountElements c) (lc_heap c) (lc_isSaveFull c).
Definition with_heap (h : Heap) c : LocalCacheInternal T :=
  mkLocalCacheInternal (lc_cache c) (lc_noSyncBlockchainThreadElements c) (lc_lastBlockNum c)
    (lc_maxCountElements c) h (lc_isSaveFull c).
Definition with_lastBlockNum (n : Z) c : LocalCacheInternal T :=
  mkLocalCacheInternal (lc_cache c) (lc_noSyncBlockchainThreadElements c) n
    (lc_maxCountElements c) (lc_heap c) (lc_isSaveFull c).
Definition set_blockUnkles (n : Z) (e : LocalCacheElement T) : LocalCacheElement T :=
  mkLocalCacheElement (lce_value e) n (lce_isSyncBlockchainThreadUpdated e).
Definition set_value (v : LValue T) (e : LocalCacheElement T) : LocalCacheElement T :=
  mkLocalCacheElement v (lce_blockUnklesOrNewNum e) (lce_isSyncBlockchainThreadUpdated e).

(* src: Cache/LocalCache.cpp:21-36 makeNewElementValue *)
Definition makeNewElementValue (value : list T) (isSaveFull : bool) : LValue T :=
  if isSaveFull then LVector value else LNumber (getMaxBlockNumber value).

(* src: Cache/LocalCache.cpp:45-64 LocalCacheInternal::addElementInternal *)
Definition addElementInternal (address : bytes) (value : list T)
    (isSyncBlockchainThreadUpdated isNewElement : bool) c : LocalCacheInternal T :=
  let newElement := mkLocalCacheElement (makeNewElementValue value (lc_isSaveFull c))
    (if isNewElement then u64 (lc_lastBlockNum c + 1) else 0) isSyncBlockchainThreadUpdated in
  if negb isSyncBlockchainThreadUpdated then
    mkLocalCacheInternal (<[address := newElement]> (lc_cache c))
      ({[ address ]} ∪ lc_noSyncBlockchainThreadElements c)
      (lc_lastBlockNum c) (lc_maxCountElements c) (lc_heap c) (lc_isSaveFull c)
  else
    match lc_cache c !! address with
    | None => c
    | Some _ =>
        mkLocalCacheInternal (<[address := newElement]> (lc_cache c))
          (lc_noSyncBlockchainThreadElements c ∖ {[ address ]})
          (lc_lastBlockNum c) (lc_maxCountElements c) (lc_heap c) (lc_isSaveFull c)
    end.

(* src: Cache/LocalCache.cpp:249-253 LocalCacheInternal::removeElement *)
Definition removeElement (address : bytes) c : LocalCacheInternal T :=
  mkLocalCacheInternal (delete address (lc_cache c))
    (lc_noSyncBlockchainThreadElements c ∖ {[ address ]})
    (lc_lastBlockNum c) (lc_maxCountElements c) (lc_heap c) (lc_isSaveFull c).

(* src: Cache/LocalCache.cpp:66-82 LocalCacheInternal::addElement *)
Definition addElement (address : bytes) (value : list T) (isSyncBlockchainThreadUpdated : bool)
    : meth (LocalCacheInternal T) unit := fun c =>
  if lc_maxCountElements c =? DISABLED_CACHE then (c, Ok tt)
  else
    let c := addElementInternal address value isSyncBlockchainThreadUpdated false c in
    if negb (lc_maxCountElements c =? WITHOUT_LIMITATION) then
      let '(heap, r) := reduceToMax (lc_maxCountElements c) (lc_heap c) in
      let c := with_heap heap c in
      match r with
      | Ok addrs => (foldl (fun c addr => removeElement addr c) c addrs, Ok tt)
      | Throw e => (c, Throw e)
      | UB => (c, UB)
      | OutOfFuel => (c, OutOfFuel)
      end
    else (c, Ok tt).

(** [getter] runs between the lookup and the insertion, without the lock. *)
(* src: Cache/LocalCache.cpp:84-98 LocalCacheInternal::addIfNoExist *)
Definition addIfNoExist (address : bytes) (getter : bytes -> res (list T))
    (isSyncBlockchainThreadUpdated isInitialized : bool) : meth (LocalCacheInternal T) unit := fun c =>
  match lc_cache c !! address with
  | None =>
      match getter address with
      | Ok value => (addElementInternal address value isSyncBlockchainThreadUpdated true c, Ok tt)
      | Throw e => (c, Throw e)
      | UB => (c, UB)
      | OutOfFuel => (c, OutOfFuel)
      end
  | Some e =>
      if negb isInitialized
      then (with_cache (<[address := set_blockUnkles (u64 (lc_lastBlockNum c + 1)) e]> (lc_cache c)) c, Ok tt)
      else (c, Ok tt)
  end.

(* src: Cache/LocalCache.cpp:100-110 LocalCacheInternal::setLastBlockNum *)
Definition setLastBlockNum (newLastBlockNum : Z) c : LocalCacheInternal T :=
  with_lastBlockNum newLastBlockNum
    (if lc_lastBlockNum c =? 0
     then with_cache (set_blockUnkles (u64 (newLastBlockNum + 1)) <$> lc_cache c) c
     else c).

(* src: Cache/LocalCache.cpp:206-210 LocalCacheInternal::getNoSyncBlockchainThreadElements *)
Definition getNoSyncBlockchainThreadElements c : gset bytes := lc_noSyncBlockchainThreadElements c.

(* src: Cache/LocalCache.cpp:212-216 LocalCacheInternal::isExist *)
Definition isExist (address : bytes) c : bool := bool_decide (is_Some (lc_cache c !! address)).

(* src: Cache/LocalCache.cpp:218-226 LocalCacheInternal::isSyncBlockchainThreadUpdated *)
Definition isSyncBlockchainThreadUpdated (address : bytes) c : bool :=
  match lc_cache c !! address with
  | None => false
  | Some e => lce_isSyncBlockchainThreadUpdated e
  end.

(** A hit records the time [now] of the read. *)
(* src: Cache/LocalCache.cpp:228-247 LocalCacheInternal::getValueIfExist *)
Definition getValueIfExist (address : bytes) (now : Z)
    : meth (LocalCacheInternal T) (option (LValue T)) := fun c =>
  if lc_maxCountElements c =? DISABLED_CACHE then (c, Ok None)
  else
    let result := lce_value <$> lc_cache c !! address in
    match result with
    | Some _ =>
        if negb (lc_maxCountElements c =? WITHOUT_LIMITATION) then
          let '(heap, r) := Heap_addElement address now (lc_heap c) in
          (with_heap heap c, _ ← r; Ok result)
        else (c, Ok result)
    | None => (c, Ok None)
    end.

(* src: Cache/LocalCache.cpp:401-408 isGreater *)
Definition isGreater_value (infos : LValue T) (blockNumber : Z) : bool :=
  match infos with
  | LNumber n => blockNumber <? n
  | LVector v => isGreater v blockNumber
  end.

(** [addresses] is the set in its iteration order. *)
(* src: Cache/LocalCache.cpp:255-271 LocalCacheInternal::findGreaterElements *)
Definition findGreaterElements (addresses : list bytes) (blockNum : Z) c : BatchResults (LValue T) :=
  mkBatchResults
    (foldl (fun elements address =>
       match lc_cache c !! address with
       | None => elements
       | Some element =>
           if (blockNum <? lce_blockUnklesOrNewNum element)
              || isGreater_value (lce_value element) blockNum
           then elements ++ [(address, lce_value element)]
           else elements
       end) [] addresses)
    (lc_lastBlockNum c).

(** [addTransactions] and [addStatuses] are the same code on the two kinds. *)
(* src: Cache/LocalCache.cpp:122-134 LocalCacheTxs::addTransactions *)
Definition addTransactions (address : bytes) (transactions : list T) c : LocalCacheInternal T :=
  match lc_cache c !! address with
  | None => c
  | Some e =>
      let txs := match lce_value e with
        | LNumber _ => LNumber (getMaxBlockNumber transactions)
        | LVector v => LVector (transactions ++ v)
        end in
      with_cache (<[address := set_value txs e]> (lc_cache c)) c
  end.

(** The [while] loop over the newest block's elements; reading [begin()] of an
    empty vector is undefined. *)
(* src: Cache/LocalCache.cpp:146-148 LocalCacheTxs::removeLastTransactions, while *)
Fixpoint drop_block (block_num : Z) (v : list T) : list T :=
  match v with
  | [] => []
  | x :: v' => if elt_block x =? block_num then drop_block block_num v' else v
  end.

(* src: Cache/LocalCache.cpp:136-153 LocalCacheTxs::removeLastTransactions *)
Definition removeLastTransactions (address : bytes) : meth (LocalCacheInternal T) unit := fun c =>
  match lc_cache c !! address with
  | None => (c, Throw (ExcStd (str "out_of_range")))
  | Some e =>
      let finish e := (with_cache (<[address :=
        set_blockUnkles (u64 (lc_lastBlockNum c + 1)) e]> (lc_cache c)) c, Ok tt) in
      match lce_value e with
      | LNumber _ => finish e
      | LVector [] => (c, UB)
      | LVector (x :: v) => finish (set_value (LVector (drop_block (elt_block x) (x :: v))) e)
      end
  end.

(* src: Cache/LocalCache.cpp:155-162 LocalCacheTxs::getTransactions *)
Definition getTransactions (txs : LValue T) (from count : Z) : res (list T) :=
  match txs with
  | LNumber _ => throwErr (str "Incorrect txs")
  | LVector r =>
      if count =? 0 then Ok r
      else
        let b := Z.min from (blen r) in
        let e := Z.min (u64 (from + count)) (blen r) in
        if e <? b then UB
        else Ok (take (Z.to_nat (e - b)) (drop (Z.to_nat b) r))
  end.

(* src: Cache/LocalCache.cpp:201-204 LocalCacheTxsStatus::getStatuses *)
Definition getStatuses (txs : LValue T) : res (list T) :=
  match txs with LNumber _ => throwErr (str "Incorrect txs") | LVector r => Ok r end.

End internal.

(* src: Cache/LocalCache.cpp:112-120 LocalCacheTxs::setTransactions *)
Definition setTransactions (address : bytes) (transactions : list TransactionInfo)
    (isSync : bool) : meth (LocalCacheInternal TransactionInfo) unit :=
  match head transactions, last transactions with
  | Some f, Some b =>
      if ti_blockNumber b <=? ti_blockNumber f then addElement address transactions isSync
      else addElement address (reverse transactions) isSync
  | _, _ => addElement address (reverse transactions) isSync
  end.

(* src: Cache/LocalCache.cpp:164-166 LocalCacheTxsStatus::setStatuses *)
Definition setStatuses (address : bytes) (transactions : list TransactionStatus)
    (isSync : bool) : meth (LocalCacheInternal TransactionStatus) unit :=
  addElement address transactions isSync.

(* src: Cache/LocalCache.cpp:168-180 LocalCacheTxsStatus::addStatuses *)
Definition addStatuses (address : bytes) (transactions : list TransactionStatus) c :=
  addTransactions address transactions c.

(* src: Cache/LocalCache.cpp:182-199 LocalCacheTxsStatus::removeLastStatuses *)
Definition removeLastStatuses (address : bytes)
    : meth (LocalCacheInternal TransactionStatus) unit :=
  removeLastTransactions address.

(** ** The groups of addresses *)

(* src: Cache/LocalCache.h:137-192 LocalCache *)
Record LocalCache := mkLocalCache {
  l_txs : LocalCacheInternal TransactionInfo;
  l_txsStatus : LocalCacheInternal TransactionStatus;
  l_isSetFunctions : bool;
  l_addressesFile : bytes;
  l_isInitialized : bool;
  l_isSetAddressesPath : bool;
  l_addresses : gmap bytes (gset bytes);
}.

Definition with_l_txs (t : LocalCacheInternal TransactionInfo) (c : LocalCache) : LocalCache :=
  mkLocalCache t (l_txsStatus c) (l_isSetFunctions c) (l_addressesFile c) (l_isInitialized c)
    (l_isSetAddressesPath c) (l_addresses c).
Definition with_l_addresses (a : gmap bytes (gset bytes)) (c : LocalCache) : LocalCache :=
  mkLocalCache (l_txs c) (l_txsStatus c) (l_isSetFunctions c) (l_addressesFile c)
    (l_isInitialized c) (l_isSetAddressesPath c) a.

(* src: Cache/LocalCache.cpp:391-393 LocalCache::setLastBlockNum *)
Definition LocalCache_setLastBlockNum (blockNum : Z) (c : LocalCache) : LocalCache :=
  with_l_txs (setLastBlockNum blockNum (l_txs c)) c.

(** ** Lemmas *)

Section facts.
Context {T : Type} `{Blocked T}.
Implicit Types (c : LocalCacheInternal T).

Lemma remove_all_spec (addrs : list bytes) c :
  let c' := foldl (fun c addr => removeElement addr c) c addrs in
  lc_heap c' = lc_heap c /\ lc_maxCountElements c' = lc_maxCountElements c /\
  lc_lastBlockNum c' = lc_lastBlockNum c /\ lc_isSaveFull c' = lc_isSaveFull c /\
  forall k, lc_cache c' !! k = if decide (k ∈ addrs) then None else lc_cache c !! k.
Proof.
  revert c. induction addrs as [|a addrs IH]; intros c; cbn [foldl]; cbn zeta.
  { repeat split. }
  destruct (IH (removeElement a c)) as (Hh & Hm & Hl & Hf & Hc). repeat split; [done..|].
  intros k. rewrite Hc. cbn. destruct (decide (k = a)) as [->|Hne].
  - rewrite lookup_delete_eq. destruct (decide (a ∈ a :: addrs)) as [_|Hn];
      [by case_decide|by destruct Hn; apply list_elem_of_here].
  - rewrite lookup_delete_ne by done. apply decide_ext. rewrite elem_of_cons. tauto.
Qed.

(** The addresses an insertion evicts: those read longest ago, beyond the
    newest [lc_maxCountElements]. *)
Definition evicted c : list (Z * bytes) :=
  take (length (h_heap (lc_heap c)) - Z.to_nat (lc_maxCountElements c)) (h_heap (lc_heap c)).

Lemma addElement_spec address value s c :
  heap_ok (lc_heap c) -> 0 < lc_maxCountElements c < u64_max ->
  exists c', addElement address value s c = (c', Ok tt) /\
    heap_ok (lc_heap c') /\ h_heap (lc_heap c) = evicted c ++ h_heap (lc_heap c') /\
    lc_maxCountElements c' = lc_maxCountElements c /\
    forall k, lc_cache c' !! k =
      if decide (k ∈ (evicted c).*2) then None
      else lc_cache (addElementInternal address value s false c) !! k.
Proof.
  intros Hok Hm. unfold addElement, DISABLED_CACHE, WITHOUT_LIMITATION.
  rewrite (proj2 (Z.eqb_neq (lc_maxCountElements c) 0)) by lia.
  set (c1 := addElementInternal address value s false c).
  assert (lc_maxCountElements c1 = lc_maxCountElements c /\ lc_heap c1 = lc_heap c) as [Em Eh].
  { unfold c1, addElementInternal. destruct s; cbn; [|done]. by destruct (lc_cache c !! address). }
  cbn zeta. rewrite Em, Eh. rewrite (proj2 (Z.eqb_neq (lc_maxCountElements c) u64_max)) by lia.
  cbn [negb]. destruct (reduceToMax_spec (lc_maxCountElements c) (lc_heap c) Hok ltac:(lia))
    as (h' & -> & Hok' & Hh'). cbn iota beta.
  eexists. split; [reflexivity|].
  destruct (remove_all_spec (take (length (h_heap (lc_heap c)) - Z.to_nat (lc_maxCountElements c))
    (h_heap (lc_heap c))).*2 (with_heap h' c1)) as (Hh & Hmx & _ & _ & Hc).
  rewrite Hh, Hmx. cbn. unfold evicted. rewrite Hh', take_drop. split; [exact Hok'|]. split; [done|].
  split; [exact Em|]. intros k. by rewrite Hc.
Qed.

Lemma addElement_unread address value c :
  0 < lc_maxCountElements c < u64_max -> lc_heap c = Heap_empty ->
  addElement address value false c = (addElementInternal address value false false c, Ok tt).
Proof.
  intros Hm Hh. unfold addElement, DISABLED_CACHE, WITHOUT_LIMITATION.
  rewrite (proj2 (Z.eqb_neq (lc_maxCountElements c) 0)) by lia.
  cbn -[reduceToMax u64_max]. rewrite (proj2 (Z.eqb_neq (lc_maxCountElements c) u64_max)) by lia.
  cbn [negb]. rewrite Hh. unfold reduceToMax.
  rewrite (proj2 (Z.eqb_neq (lc_maxCountElements c) 0)) by lia. cbn.
  destruct c. cbn in *. subst. rewrite map_size_empty.
  cbn [reduce_loop h_keys Heap_empty]. rewrite map_size_empty.
  by rewrite (proj2 (Z.leb_le (Z.of_nat 0) lc_maxCountElements0)) by lia.
Qed.

Definition fill (max : Z) (l : list (bytes * list T)) : LocalCacheInternal T :=
  foldl (fun c kv => (addElement kv.1 kv.2 false c).1) (LocalCacheInternal_new max) l.

Lemma fill_inv max (l : list (bytes * list T)) :
  0 < max < u64_max ->
  lc_maxCountElements (fill max l) = max /\ lc_heap (fill max l) = Heap_empty /\
  dom (lc_cache (fill max l)) = list_to_set l.*1.
Proof.
  intros Hm. unfold fill. induction l as [|[k v] l IH] using rev_ind; [by cbn; rewrite dom_empty_L|].
  rewrite foldl_app. cbn [foldl fst snd]. destruct IH as (IHm & IHh & IHd).
  rewrite addElement_unread by (rewrite ?IHm; done). cbn. rewrite IHm, IHh.
  split; [done|]. split; [done|].
  rewrite dom_insert_L, IHd, fmap_app, list_to_set_app_L. cbn.
  rewrite union_empty_r_L. apply union_comm_L.
Qed.

(** Insertions alone never evict: the count grows past the limit. *)
Lemma fill_size max (l : list (bytes * list T)) :
  0 < max < u64_max -> NoDup l.*1 -> size (lc_cache (fill max l)) = length l.
Proof.
  intros Hm Hd. destruct (fill_inv max l Hm) as (_ & _ & Hdom).
  rewrite <- size_dom, Hdom, size_list_to_set by done. apply length_fmap.
Qed.

Lemma findGreater_spec (addresses : list bytes) blockNum c k v :
  (k, v) ∈ br_elements (findGreaterElements addresses blockNum c) <->
  k ∈ addresses /\ exists e, lc_cache c !! k = Some e /\ v = lce_value e /\
    (blockNum < lce_blockUnklesOrNewNum e \/ isGreater_value (lce_value e) blockNum = true).
Proof.
  unfold findGreaterElements. cbn [br_elements].
  induction addresses as [|a l IH] using rev_ind.
  { cbn. split; [by intros ?%not_elem_of_nil|intros [Hin _]; by apply not_elem_of_nil in Hin]. }
  rewrite foldl_app, elem_of_app, list_elem_of_singleton. cbn [foldl].
  destruct (lc_cache c !! a) as [e|] eqn:Ha; cycle 1.
  { rewrite IH. split; [naive_solver|]. intros [[?| ->] He]; [naive_solver|].
    destruct He as (e & He & _). congruence. }
  destruct (Z.ltb_spec blockNum (lce_blockUnklesOrNewNum e)) as [Hlt|Hge]; cbn.
  { rewrite elem_of_app, list_elem_of_singleton, IH. naive_solver. }
  destruct (isGreater_value (lce_value e) blockNum) eqn:Hg.
  { rewrite elem_of_app, list_elem_of_singleton, IH. naive_solver. }
  rewrite IH. split; [naive_solver|]. intros [[?| ->] He]; [naive_solver|].
  destruct He as (e' & He & _ & [?|?]); simplify_eq; [lia|congruence].
Qed.
End facts.
