(* ===== verification/AddressGroups.v ===== *)
(** * Cache/LocalCache.cpp: the groups of addresses on disk

    The addresses whose histories the cache keeps, in groups that a text file
    remembers: an address and its group on each line.  The functions given to
    [setFunctions] and [setAddressPathAndLoad] are parameters, and so are the
    orders in which the unordered containers are gone through.  A state is the
    object with the files of the disk; writing to a file succeeds. *)
From S2P Require Import Prelude Text External BlockInfo Heap LocalCache.
#[local] Open Scope Z_scope.

Abbreviation Groups := (gmap bytes (gset bytes)).
Abbreviation GroupState := (LocalCache * gmap bytes bytes)%type.

(** [addresses[group]]. *)
Definition group_of (addresses : Groups) (group : bytes) : gset bytes := default ∅ (addresses !! group).

(* src: Cache/LocalCache.cpp:348-359 LocalCache::getAddresses *)
Definition getAddresses (group : bytes) (c : LocalCache) : res (gset bytes) :=
  _ ← CHECK (l_isInitialized c) (str "not initialized");
  _ ← CHECK (l_isSetAddressesPath c) (str "not initialized for batch requests");
  Ok (group_of (l_addresses c) group).

(* src: Cache/LocalCache.cpp:299-303 addAddressesToFile, for *)
Definition address_line (group address : bytes) : bytes :=
  address ++ (if negb (is_empty group) then str " " ++ group else []) ++ [Byte.x0a].

(* src: Cache/LocalCache.cpp:297-305 addAddressesToFile *)
Definition addAddressesToFile (newAddresses : list bytes) (group : bytes) : bytes :=
  concat (address_line group <$> newAddresses).

Section groups.
Context `{Support}.
Variable processAddr : bytes -> res bytes.
Variable getterTxs2 : bytes -> res (list TransactionInfo).
Variable set_order : gset bytes -> list bytes.
Variable group_order : Groups -> list (bytes * gset bytes).

(* src: Cache/LocalCache.cpp:273-277 LocalCache::setFunctions *)
Definition setFunctions (c : LocalCache) : LocalCache :=
  mkLocalCache (l_txs c) (l_txsStatus c) true (l_addressesFile c) (l_isInitialized c)
    (l_isSetAddressesPath c) (l_addresses c).

(** What the file had and the groups, with a line more. *)
(* src: Cache/LocalCache.cpp:367-379 LocalCache::processFile, while *)
Definition process_line (s : gset bytes * Groups) (line : bytes) : res (gset bytes * Groups) :=
  let '(addressesInFile, addresses) := s in
  let line := trim line in
  if is_empty line then Ok s
  else
    let findSpace := string_find (str " ") line in
    '(line, group) ← (if negb (findSpace =? u64_max) then
                        group ← substr line (u64 (findSpace + 1)) u64_max;
                        line ← substr line 0 findSpace;
                        Ok (line, group)
                      else Ok (line, []));
    Ok ({[ line ]} ∪ addressesInFile, <[group := {[ line ]} ∪ group_of addresses group]> addresses).

Definition parse_addresses (content : bytes) (addresses : Groups) : res (gset bytes * Groups) :=
  foldM process_line (∅, addresses) (file_lines content).

(** [addIfNoExist] for each address; the first exception ends it. *)
(* src: Cache/LocalCache.cpp:316-318 LocalCache::addAddresses, for *)
Fixpoint load_addresses (addrs : list bytes) (isInitialized : bool) : meth LocalCache unit := fun c =>
  match addrs with
  | [] => (c, Ok tt)
  | address :: rest =>
      let '(txs, r) := addIfNoExist address getterTxs2 false isInitialized (l_txs c) in
      let c := with_l_txs txs c in
      match r with
      | Ok _ => load_addresses rest isInitialized c
      | _ => (c, r)
      end
  end.

Definition on_cache {A} (m : meth LocalCache A) : meth GroupState A := fun s =>
  let '(c, r) := m (fst s) in ((c, snd s), r).

Definition file_text (path : bytes) (files : gmap bytes bytes) : bytes := default [] (files !! path).

(** The loading runs in several threads, each address once, in any order. *)
(* src: Cache/LocalCache.cpp:361-389 LocalCache::processFile *)
Definition processFile : meth GroupState unit := fun s =>
  let '(c, files) := s in
  match parse_addresses (file_text (l_addressesFile c) files) (l_addresses c) with
  | Ok (addressesInFile, addresses) =>
      on_cache (load_addresses (set_order addressesInFile) true) (with_l_addresses addresses c, files)
  | Throw e => (s, Throw e)
  | UB => (s, UB)
  | OutOfFuel => (s, OutOfFuel)
  end.

Definition set_path (path : bytes) (c : LocalCache) : LocalCache :=
  mkLocalCache (l_txs c) (l_txsStatus c) (l_isSetFunctions c) path (l_isInitialized c)
    (l_isSetAddressesPath c) (l_addresses c).
Definition set_flags (isInitialized isSetAddressesPath : bool) (c : LocalCache) : LocalCache :=
  mkLocalCache (l_txs c) (l_txsStatus c) (l_isSetFunctions c) (l_addressesFile c) isInitialized
    isSetAddressesPath (l_addresses c).

Definition upd_cache (f : LocalCache -> LocalCache) : meth GroupState unit := fun s =>
  ((f (fst s), snd s), Ok tt).

(* src: Cache/LocalCache.cpp:279-295 LocalCache::setAddressPathAndLoad *)
Definition setAddressPathAndLoad (path : bytes) : meth GroupState unit :=
  (let* s := mget in
   do* mlift (CHECK (is_empty (l_addressesFile (fst s))) (str "Double run setAddressPathAndLoad")) in
   do* upd_cache (set_path path) in
   do* (if negb (is_empty path) then
          do* mlift (CHECK (l_isSetFunctions (fst s)) (str "Functions not set")) in
          do* processFile in
          upd_cache (fun c => set_flags (l_isInitialized c) true c)
        else mret' tt) in
   upd_cache (fun c => set_flags true (l_isSetAddressesPath c) c))%meth.

(** The processed addresses, as a set. *)
(* src: Cache/LocalCache.cpp:311-314 LocalCache::addAddresses, newAddresses *)
Definition processed_addresses (strs : list bytes) : res (gset bytes) :=
  foldM (fun s address => a ← processAddr address; Ok ({[ a ]} ∪ s)) ∅ strs.

Definition initialized : meth GroupState unit := fun s =>
  (s, _ ← CHECK (l_isInitialized (fst s)) (str "not initialized");
      CHECK (l_isSetAddressesPath (fst s)) (str "not initialized for batch requests")).

(** The strings are given in the order of their set. *)
(* src: Cache/LocalCache.cpp:307-325 LocalCache::addAddresses *)
Definition addAddresses (newAddressesStrs : list bytes) (group : bytes) : meth GroupState unit :=
  (do* initialized in
   let* newAddresses := mlift (processed_addresses newAddressesStrs) in
   do* on_cache (load_addresses (set_order newAddresses) false) in
   let* s := mget in
   let '(c, files) := s in
   mput (with_l_addresses (<[group := newAddresses ∪ group_of (l_addresses c) group]> (l_addresses c)) c,
         <[l_addressesFile c := file_text (l_addressesFile c) files
             ++ addAddressesToFile (set_order newAddresses) group]> files))%meth.

(** The file is written anew, group by group. *)
(* src: Cache/LocalCache.cpp:327-346 LocalCache::removeAddresses *)
Definition removeAddresses (removedAddressesStrs : list bytes) (group : bytes) : meth GroupState unit :=
  (do* initialized in
   let* removedAddresses := mlift (processed_addresses removedAddressesStrs) in
   let* s := mget in
   let '(c, files) := s in
   let* found := mlift (match l_addresses c !! group with
                        | Some found => Ok found
                        | None => throwErr (str "Group " ++ group ++ str " not found in addresses list")
                        end) in
   let addresses := <[group := found ∖ removedAddresses]> (l_addresses c) in
   mput (with_l_addresses addresses c,
         <[l_addressesFile c := concat ((fun '(group, addrs) => addAddressesToFile (set_order addrs) group)
             <$> group_order addresses)]> files))%meth.

End groups.
