(* ===== verification/AddressGroupsFacts.v ===== *)
(** * The groups of addresses on disk: facts

    The file always says what the groups in memory are. *)
From S2P Require Import Prelude Text External BlockInfo Heap LocalCache AddressGroups.
#[local] Open Scope Z_scope.

(** [trim] (stringUtils.h) leaves a text that begins and ends with graphic
    characters as it is. *)
Definition graphic (c : byte) : bool := (33 <=? b2z c) && (b2z c <=? 126).

Class TrimLaws `{Support} := {
  trim_graphic : forall s a b, head s = Some a -> last s = Some b ->
    graphic a = true -> graphic b = true -> trim s = s;
}.

(** An address of a file: one word. *)
Definition plain_address (a : bytes) : Prop := a <> [] /\ Forall (fun c => graphic c = true) a.

(** A group: one line, or nothing. *)
Definition plain_group (g : bytes) : Prop :=
  g = [] \/ ((Byte.x0a ∉ g) /\ exists a b, head g = Some a /\ last g = Some b /\ graphic a = true /\ graphic b = true).

Definition plain_entry (e : bytes * bytes) : Prop :=
  plain_group e.1 /\ plain_address e.2 /\ blen (address_line e.1 e.2) < u64_max.

(** The line of an address without its end. *)
Definition entry_line (e : bytes * bytes) : bytes :=
  e.2 ++ (if negb (is_empty e.1) then str " " ++ e.1 else []).

Lemma address_line_end group address : address_line group address = entry_line (group, address) ++ [Byte.x0a].
Proof. unfold address_line, entry_line. by rewrite <- app_assoc. Qed.

Lemma plain_last a : plain_address a -> exists x y, head a = Some x /\ last a = Some y /\ graphic x = true /\ graphic y = true.
Proof.
  intros [Hne Hf]. destruct a as [|x a]; [done|]. rewrite Forall_forall in Hf.
  destruct (last (x :: a)) as [y|] eqn:Hl; [|by apply last_None in Hl].
  exists x, y. split; [done|]. split; [done|]. split; [apply Hf; by left|].
  apply Hf. by apply last_Some_elem_of.
Qed.

Lemma plain_no_char c a : graphic c = false -> plain_address a -> c ∉ a.
Proof. intros Hc [_ Hf] Hin. rewrite Forall_forall in Hf. specialize (Hf _ Hin). congruence. Qed.

Lemma entry_line_no_end e : plain_entry e -> Byte.x0a ∉ entry_line e.
Proof.
  destruct e as [g a]. intros (Hg & Ha & _). unfold entry_line. cbn [fst snd] in *.
  rewrite elem_of_app. intros [Hin|Hin].
  - by apply (plain_no_char Byte.x0a a).
  - destruct Hg as [-> |[Hn _]]; [by apply elem_of_nil in Hin|]. destruct (negb _); [|by apply elem_of_nil in Hin].
    apply elem_of_cons in Hin as [|Hin]; done.
Qed.

Section parse.
Context `{TrimLaws}.

Lemma trim_entry e : plain_entry e -> trim (entry_line e) = entry_line e.
Proof.
  intros (Hg & Ha & _). destruct (plain_last _ Ha) as (x & y & Hx & Hy & Gx & Gy). unfold entry_line.
  destruct e as [g a]. cbn [fst snd] in *. destruct Hg as [-> |(_ & u & v & Hu & Hv & Gu & Gv)].
  - cbn. rewrite app_nil_r. by eapply trim_graphic.
  - destruct g as [|c g]; [done|]. cbn [is_empty negb]. eapply (trim_graphic _ x v); try done.
    + by destruct a.
    + rewrite app_assoc, last_app, Hv. done.
Qed.

Lemma process_entry e s :
  plain_entry e ->
  process_line s (entry_line e) = Ok ({[ e.2 ]} ∪ s.1, <[e.1 := {[ e.2 ]} ∪ group_of s.2 e.1]> s.2).
Proof.
  intros He. pose proof (trim_entry e He) as Ht. destruct He as (Hg & Ha & Hl), s as [inFile addresses].
  unfold process_line. rewrite Ht. rewrite is_empty_false.
  2: { unfold entry_line. destruct Ha as [Hne _]. by destruct e.2. }
  rewrite address_line_end in Hl. destruct e as [g a]. cbn [fst snd] in *.
  pose proof (plain_no_char Byte.x20 a eq_refl Ha) as Hsp. unfold entry_line in *. cbn [fst snd] in *.
  destruct g as [|c g].
  - cbn [is_empty negb app] in *. rewrite app_nil_r in *. unfold string_find.
    change (str " ") with [Byte.x20]. rewrite (find_char_None _ _ Hsp). rewrite Z.eqb_refl. done.
  - cbn [is_empty negb] in *. change (str " ") with [Byte.x20] in *. cbn [app] in *. unfold string_find.
    rewrite (find_char _ _ _ Hsp). rewrite !blen_app, !blen_cons in Hl. fold (blen a).
    pose proof (blen_nonneg a). pose proof (blen_nonneg g). change (blen []) with 0 in Hl.
    change (Z.of_nat (length a)) with (blen a). unfold u64_max in *.
    rewrite (proj2 (Z.eqb_neq (blen a) (2 ^ 64 - 1))) by lia. cbn [negb].
    rewrite (u64_small (blen a + 1)) by (unfold is_u64; lia). unfold substr. rewrite !blen_app, !blen_cons.
    rewrite (proj2 (Z.ltb_ge (blen a + (1 + (1 + blen g))) (blen a + 1))) by lia.
    rewrite (proj2 (Z.ltb_ge (blen a + (1 + (1 + blen g))) 0)) by lia. cbn [mbind res_bind].
    assert (drop (Z.to_nat (blen a + 1)) (a ++ Byte.x20 :: c :: g) = c :: g) as ->.
    { replace (Z.to_nat (blen a + 1)) with (length a + 1)%nat by (unfold blen; lia).
      by rewrite <- drop_drop, drop_app_length. }
    rewrite (take_ge (c :: g)) by (cbn [length]; unfold blen in *; lia).
    rewrite drop_0, take_app_le by (unfold blen; lia). rewrite (take_ge a) by (unfold blen in *; lia). done.
Qed.

(** Adding the entries one by one. *)
Definition add_entry (s : gset bytes * Groups) (e : bytes * bytes) : gset bytes * Groups :=
  ({[ e.2 ]} ∪ s.1, <[e.1 := {[ e.2 ]} ∪ group_of s.2 e.1]> s.2).

Definition entries_text (l : list (bytes * bytes)) : bytes := concat ((fun e => address_line e.1 e.2) <$> l).

Lemma parse_entries l s :
  Forall plain_entry l ->
  parse_addresses (entries_text l) s = Ok (foldl add_entry (∅, s) l).
Proof.
  intros Hf. unfold parse_addresses, entries_text.
  assert (file_lines (concat ((fun e => address_line e.1 e.2) <$> l)) = entry_line <$> l) as ->.
  { rewrite <- (file_lines_join (entry_line <$> l)).
    - f_equal. f_equal. rewrite <- list_fmap_compose. apply list_fmap_ext. intros i [g a] _.
      unfold compose. by rewrite address_line_end.
    - apply Forall_fmap. eapply Forall_impl; [exact Hf|]. intros e He. by apply entry_line_no_end. }
  generalize (∅ : gset bytes, s). induction Hf as [|e l He _ IH]; intros s0; [done|]. csimpl.
  rewrite (process_entry e s0 He). apply IH.
Qed.

Lemma group_of_insert addresses g k v : group_of (<[k := v]> addresses) g = if decide (g = k) then v else group_of addresses g.
Proof.
  unfold group_of. case_decide as Hg; [subst; by rewrite lookup_insert_eq|]. by rewrite lookup_insert_ne.
Qed.

Lemma add_entries_groups l s g :
  forall a, a ∈ group_of (foldl add_entry s l).2 g <-> a ∈ group_of s.2 g \/ (g, a) ∈ l.
Proof.
  revert s. induction l as [|[k b] l IH]; intros s a; cbn [foldl].
  { split; [by left|]. intros [|Hin]; [done|by apply elem_of_nil in Hin]. }
  rewrite IH. unfold add_entry. cbn [fst snd]. rewrite group_of_insert, elem_of_cons.
  destruct (decide (g = k)) as [->|Hne]; [rewrite elem_of_union, elem_of_singleton|]; naive_solver.
Qed.

End parse.

(** ** The file and the groups *)

(** The file has a line for every address of every group, and no other. *)
Definition file_holds (content : bytes) (addresses : Groups) : Prop :=
  exists l, content = entries_text l /\ Forall plain_entry l /\
    forall g a, a ∈ group_of addresses g <-> (g, a) ∈ l.

Lemma entries_text_app l k : entries_text (l ++ k) = entries_text l ++ entries_text k.
Proof. unfold entries_text. by rewrite fmap_app, concat_app. Qed.

Lemma add_text_entries addrs group :
  addAddressesToFile addrs group = entries_text ((fun a => (group, a)) <$> addrs).
Proof. unfold addAddressesToFile, entries_text. by rewrite <- list_fmap_compose. Qed.

Lemma file_holds_parse `{TrimLaws} content addresses :
  file_holds content addresses ->
  exists inFile parsed, parse_addresses content ∅ = Ok (inFile, parsed) /\
    forall g, group_of parsed g = group_of addresses g.
Proof.
  intros (l & -> & Hf & Hg). rewrite (parse_entries l ∅ Hf).
  destruct (foldl add_entry (∅, ∅) l) as [inFile parsed] eqn:E. exists inFile, parsed. split; [done|].
  intros g. apply set_eq. intros a. pose proof (add_entries_groups l (∅, ∅) g a) as Hx. rewrite E in Hx.
  cbn [snd] in Hx. rewrite Hx, Hg. unfold group_of at 1. rewrite lookup_empty. cbn. set_solver.
Qed.

Section ops.
Context `{TrimLaws}.
Variable processAddr : bytes -> res bytes.
Variable getterTxs2 : bytes -> res (list TransactionInfo).
Variable set_order : gset bytes -> list bytes.
Variable group_order : Groups -> list (bytes * gset bytes).
Hypothesis Hset : forall s, set_order s ≡ₚ elements s.
Hypothesis Hgroups : forall m, group_order m ≡ₚ map_to_list m.

(** The addresses are words that fit in a line with the group. *)
Definition plain_for (group : bytes) : Prop :=
  plain_group group /\ forall s a, processAddr s = Ok a -> plain_entry (group, a).

Lemma processed_plain strs group s :
  plain_for group -> processed_addresses processAddr strs = Ok s -> forall a, a ∈ s -> plain_entry (group, a).
Proof.
  intros [_ Hp]. unfold processed_addresses.
  enough (forall acc s, foldM (fun s address => a ← processAddr address; Ok ({[ a ]} ∪ s)) acc strs = Ok s ->
    (forall a, a ∈ acc -> plain_entry (group, a)) -> forall a, a ∈ s -> plain_entry (group, a)) as Hx
    by (intros Hs; apply (Hx _ _ Hs); intros a Ha; by apply elem_of_empty in Ha).
  clear s. induction strs as [|x strs IH]; intros acc s; cbn [foldM]; [by intros [= <-]|].
  intros Hf Hacc. apply bind_Ok_inv in Hf as (acc1 & Ha & Hf). apply bind_Ok_inv in Ha as (a & Ha & [= <-]).
  apply (IH _ _ Hf). intros b [->%elem_of_singleton|Hb]%elem_of_union; [by eapply Hp|by apply Hacc].
Qed.

Lemma set_order_elem s a : a ∈ set_order s <-> a ∈ s.
Proof. rewrite Hset. apply elem_of_elements. Qed.

(** What the state's file is, given where it is. *)
Definition groups_ok (s : GroupState) : Prop :=
  file_holds (file_text (l_addressesFile s.1) s.2) (l_addresses s.1).

Lemma file_text_insert path t files : file_text path (<[path := t]> files) = t.
Proof. unfold file_text. by rewrite lookup_insert_eq. Qed.

(** Loading histories touches neither. *)
Lemma load_addresses_groups addrs b c c' r :
  load_addresses getterTxs2 addrs b c = (c', r) ->
  l_addresses c' = l_addresses c /\ l_addressesFile c' = l_addressesFile c /\
  l_isInitialized c' = l_isInitialized c /\ l_isSetAddressesPath c' = l_isSetAddressesPath c.
Proof.
  revert c. induction addrs as [|a addrs IH]; intros c; cbn [load_addresses]; [by intros [= <- _]|].
  destruct (addIfNoExist a getterTxs2 false b (l_txs c)) as [txs [u| | |]]; [|by intros [= <- _]..].
  intros Hl. by apply IH in Hl.
Qed.

Lemma addAddresses_groups strs group s :
  plain_for group -> groups_ok s -> groups_ok (addAddresses processAddr getterTxs2 set_order strs group s).1.
Proof.
  intros Hp Hok. destruct s as [c files]. unfold addAddresses, initialized, on_cache, mget, mput, mlift, mbind'.
  destruct (_ ← CHECK _ _; CHECK _ _) as [u| | |]; [|done..]. cbn [fst snd].
  destruct (processed_addresses processAddr strs) as [new| | |] eqn:Hnew; [|done..].
  destruct (load_addresses getterTxs2 (set_order new) false c) as [c1 r] eqn:Hl.
  destruct (load_addresses_groups _ _ _ _ _ Hl) as (Ha & Hf & _).
  assert (groups_ok (c1, files)) as Hok1 by (unfold groups_ok in *; cbn [fst snd] in *; by rewrite Ha, Hf).
  destruct r as [u1| | |]; [|exact Hok1..]. cbn [fst snd]. unfold groups_ok. cbn [fst snd with_l_addresses l_addresses l_addressesFile].
  rewrite file_text_insert. destruct Hok1 as (l & Hc & Hfl & Hg). cbn [fst snd] in *.
  exists (l ++ ((fun a => (group, a)) <$> set_order new)). split; [|split].
  - by rewrite entries_text_app, <- add_text_entries, Hc.
  - apply Forall_app. split; [done|]. apply Forall_fmap, Forall_forall. intros a Hin.
    eapply processed_plain; [done|exact Hnew|]. by apply set_order_elem.
  - intros g a. rewrite group_of_insert, elem_of_app, list_elem_of_fmap, <- Hg.
    destruct (decide (g = group)) as [->|Hne].
    + rewrite elem_of_union. split.
      * intros [Hin|Hin]; [right; exists a; by rewrite set_order_elem|by left].
      * intros [Hin|(b & [= ->] & Hin)]; [by right|left; by apply set_order_elem].
    + split; [by left|]. intros [Hin|(b & [= -> ->] & _)]; done.
Qed.

(** What is in a group was written under it. *)
Lemma file_holds_plain content addresses g a :
  file_holds content addresses -> a ∈ group_of addresses g -> plain_entry (g, a).
Proof. intros (l & _ & Hf & Hg) Hin. rewrite Forall_forall in Hf. apply Hf. by apply Hg. Qed.

(** The text of all groups. *)
Lemma groups_text_entries (addresses : Groups) :
  exists l, concat ((fun '(group, addrs) => addAddressesToFile (set_order addrs) group) <$> group_order addresses)
      = entries_text l /\
    forall g a, (g, a) ∈ l <-> a ∈ group_of addresses g.
Proof.
  exists (group_order addresses ≫= fun '(group, addrs) => (fun a => (group, a)) <$> set_order addrs). split.
  - induction (group_order addresses) as [|[g addrs] l IH]; [done|]. csimpl.
    by rewrite entries_text_app, <- add_text_entries, <- IH.
  - intros g a. rewrite list_elem_of_bind. split.
    + intros ([k addrs] & Hin & Hk). apply list_elem_of_fmap in Hin as (b & [= <- <-] & Hb).
      rewrite Hgroups in Hk. apply elem_of_map_to_list in Hk. unfold group_of. rewrite Hk. by apply set_order_elem.
    + unfold group_of. destruct (addresses !! g) as [addrs|] eqn:E; [|by intros ?%elem_of_empty].
      cbn. intros Ha. exists (g, addrs). rewrite list_elem_of_fmap, Hgroups. split; [|by apply elem_of_map_to_list].
      exists a. by rewrite set_order_elem.
Qed.

Lemma removeAddresses_groups strs group s :
  groups_ok s -> groups_ok (removeAddresses processAddr set_order group_order strs group s).1.
Proof.
  intros Hok. destruct s as [c files]. unfold removeAddresses, initialized, mget, mput, mlift, mbind'.
  destruct (_ ← CHECK _ _; CHECK _ _) as [u| | |]; [|done..]. cbn [fst snd].
  destruct (processed_addresses processAddr strs) as [old| | |]; [|done..].
  destruct (l_addresses c !! group) as [found|] eqn:Hfound; [|done]. cbn [fst snd].
  unfold groups_ok. cbn [fst snd with_l_addresses l_addresses l_addressesFile]. rewrite file_text_insert.
  destruct (groups_text_entries (<[group := found ∖ old]> (l_addresses c))) as (l & -> & Hl).
  exists l. split; [done|]. split; [|intros g a; symmetry; apply Hl]. apply Forall_forall. intros [g a] Hin.
  apply Hl in Hin. rewrite group_of_insert in Hin. eapply file_holds_plain; [exact Hok|]. cbn [fst snd].
  case_decide as Hg; [|done]. subst g. apply elem_of_difference in Hin as [Hin _].
  unfold group_of. by rewrite Hfound.
Qed.

(** A new object that loads the file has the groups. *)
Lemma load_groups s c0 s' :
  groups_ok s -> l_addressesFile s.1 <> [] -> l_addressesFile c0 = [] -> l_addresses c0 = ∅ ->
  setAddressPathAndLoad getterTxs2 set_order (l_addressesFile s.1) (c0, s.2) = (s', Ok tt) ->
  s'.2 = s.2 /\ groups_ok s' /\ l_addressesFile s'.1 = l_addressesFile s.1 /\
  l_isInitialized s'.1 = true /\ l_isSetAddressesPath s'.1 = true /\
  forall g, group_of (l_addresses s'.1) g = group_of (l_addresses s.1) g.
Proof.
  intros Hok Hpath Hp0 Ha0. unfold setAddressPathAndLoad, mbind', mget, mlift, upd_cache, mret'. cbn [fst snd].
  rewrite Hp0. cbn [is_empty CHECK]. rewrite is_empty_false by done. cbn [negb].
  destruct (l_isSetFunctions c0); cbn [CHECK]; [|done]. unfold processFile. cbn [fst snd set_path l_addressesFile l_addresses].
  rewrite Ha0. destruct (file_holds_parse _ _ Hok) as (inFile & parsed & Hparse & Hgr). rewrite Hparse.
  unfold on_cache. cbn [fst snd].
  destruct (load_addresses _ _ _ _) as [c1 r] eqn:Hl. apply load_addresses_groups in Hl as (Ha & Hf & _).
  cbn in Ha, Hf. destruct r as [u| | |]; [|done..]. cbn [fst snd]. intros [= <-]. cbn. rewrite Ha, Hf.
  split; [done|]. split; [|by repeat split]. destruct Hok as (l & Hc & Hfl & Hg). exists l. cbn. rewrite Ha, Hf.
  split; [done|]. split; [done|]. intros g a. by rewrite Hgr.
Qed.

End ops.

(** ** Sequences of changes *)

Inductive GroupOp :=
  | GroupAdd (strs : list bytes) (group : bytes)
  | GroupRemove (strs : list bytes) (group : bytes).

Section runs.
Context `{TrimLaws}.
Variable processAddr : bytes -> res bytes.
Variable getterTxs2 : bytes -> res (list TransactionInfo).
Variable set_order : gset bytes -> list bytes.
Variable group_order : Groups -> list (bytes * gset bytes).
Hypothesis Hset : forall s, set_order s ≡ₚ elements s.
Hypothesis Hgroups : forall m, group_order m ≡ₚ map_to_list m.

(** The state a change leaves, whether it returns or throws. *)
Definition run_group_op (s : GroupState) (o : GroupOp) : GroupState :=
  match o with
  | GroupAdd strs group => (addAddresses processAddr getterTxs2 set_order strs group s).1
  | GroupRemove strs group => (removeAddresses processAddr set_order group_order strs group s).1
  end.

Definition plain_op (o : GroupOp) : Prop :=
  match o with GroupAdd _ group => plain_for processAddr group | GroupRemove _ _ => True end.

Lemma run_group_op_kept s o :
  l_addressesFile (run_group_op s o).1 = l_addressesFile s.1 /\
  l_isInitialized (run_group_op s o).1 = l_isInitialized s.1 /\
  l_isSetAddressesPath (run_group_op s o).1 = l_isSetAddressesPath s.1.
Proof.
  destruct s as [c files], o as [strs group|strs group]; cbn [run_group_op].
  - unfold addAddresses, initialized, on_cache, mget, mput, mlift, mbind'.
    destruct (_ ← CHECK _ _; CHECK _ _) as [u| | |]; [|done..]. cbn [fst snd].
    destruct (processed_addresses processAddr strs) as [new| | |]; [|done..].
    destruct (load_addresses getterTxs2 (set_order new) false c) as [c1 r] eqn:Hl.
    destruct (load_addresses_groups _ _ _ _ _ _ Hl) as (_ & Hk). by destruct r.
  - unfold removeAddresses, initialized, mget, mput, mlift, mbind'.
    destruct (_ ← CHECK _ _; CHECK _ _) as [u| | |]; [|done..]. cbn [fst snd].
    destruct (processed_addresses processAddr strs) as [old| | |]; [|done..].
    by destruct (l_addresses c !! group).
Qed.

Lemma run_group_ops_ok ops s :
  Forall plain_op ops -> groups_ok s ->
  let s' := foldl run_group_op s ops in
  groups_ok s' /\ l_addressesFile s'.1 = l_addressesFile s.1 /\
  l_isInitialized s'.1 = l_isInitialized s.1 /\ l_isSetAddressesPath s'.1 = l_isSetAddressesPath s.1.
Proof.
  cbn zeta. intros Hf. revert s. induction Hf as [|o ops Ho _ IH]; intros s Hok; cbn [foldl]; [done|].
  destruct (run_group_op_kept s o) as (<- & <- & <-). apply IH. destruct o as [strs group|strs group].
  - by apply addAddresses_groups.
  - by apply removeAddresses_groups.
Qed.

End runs.
