(* ===== verification/Modules.v ===== *)
(** * Modules.h, Modules.cpp: the optional parts of the node

    The global [modules] is a [std::bitset<8>]; it is passed to the definitions
    that read it. *)
From S2P Require Import Prelude.
#[local] Open Scope Z_scope.

Abbreviation Modules := (list bool).

Definition MODULE_BLOCK : nat := 0.
Definition MODULE_BLOCK_RAW : nat := 4.
Definition MODULE_USERS : nat := 6.
Definition MODULE_NODE_TEST : nat := 7.

(* src: Modules.cpp:14-17 MODULE_BLOCK_STR *)
Definition MODULE_BLOCK_STR : bytes := str "block".
Definition MODULE_BLOCK_RAW_STR : bytes := str "block_raw".
Definition MODULE_USERS_STR : bytes := str "users".
Definition MODULE_NODE_TEST_STR : bytes := str "node_tests".

(** [Modules()] and [modules[i]]. *)
Definition Modules_none : Modules := replicate 8 false.
Definition has_module (i : nat) (m : Modules) : bool := default false (m !! i).

(** [to_string()]: the highest bit first. *)
Definition modules_to_string (m : Modules) : bytes :=
  (fun b : bool => if b then Byte.x31 else Byte.x30) <$> reverse m.

(** [Modules(modulesStr)]: throws on a character other than 0 and 1; only the
    first eight characters count, and missing high bits are 0. *)
Definition modules_of_string (s : bytes) : res Modules :=
  if forallb (fun c => bool_decide (c = Byte.x30) || bool_decide (c = Byte.x31)) (take 8 s)
  then
    let bits := reverse ((fun c => bool_decide (c = Byte.x31)) <$> take 8 s) in
    Ok (bits ++ replicate (8 - length bits) false)
  else Throw (ExcStd (str "bitset::bitset")).

(** One round of the loop over the set of names. *)
(* src: Modules.cpp:23-35 parseModules, for *)
Definition parse_module (m : Modules) (s : bytes) : res Modules :=
  if bool_decide (s = MODULE_BLOCK_STR) then Ok (<[MODULE_BLOCK := true]> m)
  else if bool_decide (s = MODULE_BLOCK_RAW_STR) then Ok (<[MODULE_BLOCK_RAW := true]> m)
  else if bool_decide (s = MODULE_USERS_STR) then Ok (<[MODULE_USERS := true]> m)
  else if bool_decide (s = MODULE_NODE_TEST_STR) then Ok (<[MODULE_NODE_TEST := true]> m)
  else throwErr (str "Incorrect module " ++ s).

(* src: Modules.cpp:21-36 parseModules *)
Definition parseModules (modulesStrs : list bytes) : res Modules :=
  foldM parse_module Modules_none modulesStrs.

(** ** Lemmas *)

Lemma modules_roundtrip m : length m = 8%nat -> modules_of_string (modules_to_string m) = Ok m.
Proof.
  intros Hl. unfold modules_of_string, modules_to_string.
  rewrite take_ge by (rewrite length_fmap, length_reverse; lia).
  assert (forallb (fun c => bool_decide (c = Byte.x30) || bool_decide (c = Byte.x31))
    ((fun b : bool => if b then Byte.x31 else Byte.x30) <$> reverse m) = true) as ->.
  { apply forallb_forall. intros x Hx. apply list_elem_of_In in Hx.
    rewrite list_elem_of_fmap in Hx. by destruct Hx as ([] & -> & _). }
  rewrite <- list_fmap_compose, <- fmap_reverse, reverse_involutive, length_fmap, Hl.
  rewrite app_nil_r. f_equal. rewrite <- (list_fmap_id m) at 2.
  apply list_fmap_ext. by intros _ [] _.
Qed.

Lemma parse_module_length m s m' : parse_module m s = Ok m' -> length m' = length m.
Proof.
  unfold parse_module. repeat case_bool_decide; try (intros [= <-]; apply length_insert).
Qed.

Lemma parseModules_length l m : parseModules l = Ok m -> length m = 8%nat.
Proof.
  unfold parseModules. change 8%nat with (length Modules_none). generalize Modules_none as m0.
  induction l as [|s l IH]; intros m0; simpl; [by intros [= ->]|].
  intros H. res_inv. rewrite (IH _ H). by eapply parse_module_length.
Qed.
