(* ===== verification/Workers.v ===== *)
(** * Workers/: the threads that follow the chain

    Each worker pops blocks from its queue and handles one at a time; the body
    of its loop is a step on the worker's state.  An exception is caught and
    logged by the loop, so the step's state is kept and the next block follows.
    The stop signal, the queues and the timers are left out. *)
From S2P Require Import Prelude External Serialize Ordered Address BlockInfo NodeTestsBlockInfo.
From S2P Require Import LevelDb Cache Heap LocalCache Modules.
#[local] Open Scope Z_scope.

(** ** Counter.h *)

(* src: utils/Counter.h:13-15 Counter::store *)
Definition Counter_store (inc : bool) (value : Z) : Z := u64 (value + (if inc then 1 else -1)).

(** [get()]: the value handed out, and the counter after it. *)
(* src: utils/Counter.h:21-27 Counter::get *)
Definition Counter_get (inc : bool) (counter : Z) : Z * Z :=
  (counter, u64 (if inc then counter + 1 else counter - 1)).

(** ** The caches the workers share *)

(* src: Cache/Cache.h:43-60 AllCaches *)
Record AllCaches := mkAllCaches {
  ac_maxCountElementsBlockCache : Z;
  ac_maxCountElementsTxsCache : Z;
  ac_blockDumpCache : Cache bytes;
  ac_txsCache : Cache TransactionInfo;
  ac_txsStatusCache : Cache TransactionStatus;
  ac_localCache : LocalCache;
}.

Definition with_blockDumpCache (b : Cache bytes) (c : AllCaches) : AllCaches :=
  mkAllCaches (ac_maxCountElementsBlockCache c) (ac_maxCountElementsTxsCache c) b
    (ac_txsCache c) (ac_txsStatusCache c) (ac_localCache c).
Definition with_txsCache (t : Cache TransactionInfo) (c : AllCaches) : AllCaches :=
  mkAllCaches (ac_maxCountElementsBlockCache c) (ac_maxCountElementsTxsCache c)
    (ac_blockDumpCache c) t (ac_txsStatusCache c) (ac_localCache c).
Definition with_txsStatusCache (t : Cache TransactionStatus) (c : AllCaches) : AllCaches :=
  mkAllCaches (ac_maxCountElementsBlockCache c) (ac_maxCountElementsTxsCache c)
    (ac_blockDumpCache c) (ac_txsCache c) t (ac_localCache c).
Definition with_localCache (l : LocalCache) (c : AllCaches) : AllCaches :=
  mkAllCaches (ac_maxCountElementsBlockCache c) (ac_maxCountElementsTxsCache c)
    (ac_blockDumpCache c) (ac_txsCache c) (ac_txsStatusCache c) l.

(** ** WorkerCache *)

(* src: Workers/WorkerCache.cpp:42-50 WorkerCache::work, for *)
Definition cache_txs (attribute : bytes) (txs : list TransactionInfo) (c : Cache TransactionInfo)
    : Cache TransactionInfo :=
  foldl (fun c tx =>
    if isIntStatusNodeTest tx then c
    else if ti_isSaveToBd tx then addValue (ti_hash tx) attribute tx c
    else c) c txs.

(* src: Workers/WorkerCache.cpp:16-71 WorkerCache::work *)
Definition WorkerCache_step (bi : BlockInfo) (blockDump : bytes) : meth AllCaches unit := fun caches =>
  match bh_blockNumber (bi_header bi) with
  | None => (caches, opt_value None)
  | Some blockNumber =>
      let attribute := to_string blockNumber in
      let caches :=
        if negb (ac_maxCountElementsBlockCache caches =? 0) then
          with_blockDumpCache
            (cache_remove (to_string (u64 (blockNumber - ac_maxCountElementsBlockCache caches)))
              (addValue (bh_hash (bi_header bi)) attribute blockDump (ac_blockDumpCache caches)))
            caches
        else caches in
      let caches :=
        if negb (ac_maxCountElementsTxsCache caches =? 0) then
          with_txsCache
            (cache_remove (to_string (u64 (blockNumber - ac_maxCountElementsTxsCache caches)))
              (cache_txs attribute (bi_txs bi) (ac_txsCache caches)))
            caches
        else caches in
      (caches, Ok tt)
  end.

(** ** WorkerMain *)

(* src: Workers/WorkerMain.h:27-83 WorkerMain *)
Record WorkerMain (D : Type) := mkWorkerMain {
  wm_leveldb : D;
  wm_caches : AllCaches;
  wm_countVal : Z;
  wm_lastSavedBlock : Z;
}.
Arguments mkWorkerMain {D}.
Arguments wm_leveldb {D}.
Arguments wm_caches {D}.
Arguments wm_countVal {D}.
Arguments wm_lastSavedBlock {D}.

(** The guard both database workers apply to a block: it is skipped when its
    number is not above the last saved one, and refused when its parent is not
    the last saved block. *)
Inductive verdict := Skip | Refuse | Accept.

Section database_workers.
Context {D : Type} `{Kv D}.

(* src: Workers/WorkerMain.cpp:23-36 WorkerMain::WorkerMain *)
Definition WorkerMain_new (leveldb : D) (caches : AllCaches) : res (WorkerMain D) :=
  oldBlockMetadata ← findMainBlock leveldb;
  oldMetadata ← MainBlockInfo_deserialize oldBlockMetadata;
  Ok (mkWorkerMain leveldb caches (Counter_store false (mb_countVal oldMetadata))
        (mb_blockNumber oldMetadata)).

(* src: Workers/WorkerMain.cpp:40-51 WorkerMain::checkAddressToSave *)
Definition checkAddressToSave (m : Modules) (users : list Address) (tx : TransactionInfo)
    (addr : Address) : res bool :=
  if negb (ti_isSaveToBd tx) then Ok false
  else if has_module MODULE_USERS m then
    foldM (fun found u => eq ← Address_eq u addr; Ok (found || eq)) false users
  else Ok true.

(** One block: what [worker] does between popping it and asking for the stop
    signal. *)
(* src: Workers/WorkerMain.cpp:53-111 WorkerMain::worker *)
Definition WorkerMain_step (bi : BlockInfo) : meth (WorkerMain D) unit := fun w =>
  match bh_blockNumber (bi_header bi) with
  | None => (w, opt_value None)
  | Some blockNumber =>
      match (raw ← findMainBlock (wm_leveldb w); MainBlockInfo_deserialize raw) with
      | Ok oldMetadata =>
          let prevHash := mb_blockHash oldMetadata in
          if blockNumber <=? mb_blockNumber oldMetadata then (w, Ok tt)
          else if negb (is_empty prevHash || bool_decide (prevHash = bh_prevHash (bi_header bi)))
          then (w, throwErr (str "Incorrect prev hash. Expected " ++ prevHash ++ str ", received "
                 ++ bh_prevHash (bi_header bi)))
          else
            match MainBlockInfo_serialize
                    (mkMainBlockInfo blockNumber (bh_hash (bi_header bi)) (wm_countVal w)) with
            | Ok value =>
                let batch := addMainBlock value (Batch_new false) in
                let '(db, r) := addBatch batch (wm_leveldb w) in
                let w := mkWorkerMain db (wm_caches w) (wm_countVal w) (wm_lastSavedBlock w) in
                match r with
                | Ok _ =>
                    let caches := wm_caches w in
                    let caches := with_txsStatusCache
                      (cache_remove
                        (to_string (u64 (blockNumber - ac_maxCountElementsTxsCache caches)))
                        (ac_txsStatusCache caches)) caches in
                    let caches := with_localCache
                      (LocalCache_setLastBlockNum blockNumber (ac_localCache caches)) caches in
                    (mkWorkerMain db caches (wm_countVal w) (wm_lastSavedBlock w), Ok tt)
                | _ => (w, r)
                end
            | Throw e => (w, Throw e)
            | UB => (w, UB)
            | OutOfFuel => (w, OutOfFuel)
            end
      | Throw e => (w, Throw e)
      | UB => (w, UB)
      | OutOfFuel => (w, OutOfFuel)
      end
  end.

(** [process] pushes the block on the queue, or drops it. *)
(* src: Workers/WorkerMain.cpp:117-121 WorkerMain::process *)
Definition WorkerMain_process (bi : BlockInfo) (w : WorkerMain D) (queue : list BlockInfo)
    : res (list BlockInfo) :=
  n ← opt_value (bh_blockNumber (bi_header bi));
  Ok (if wm_lastSavedBlock w <? n then queue ++ [bi] else queue).

(* src: Workers/WorkerMain.cpp:123-125 WorkerMain::getInitBlockNumber *)
Definition WorkerMain_getInitBlockNumber (w : WorkerMain D) : option Z := Some (wm_lastSavedBlock w).

(** ** WorkerNodeTest *)

(* src: Workers/WorkerNodeTest.cpp:20-27 WorkerNodeTest::WorkerNodeTest *)
Definition WorkerNodeTest_init (leveldbNodeTest : D) : res Z :=
  lastScriptBlockStr ← findNodeStatBlock leveldbNodeTest;
  lastScriptBlock ← NodeStatBlockInfo_deserialize lastScriptBlockStr;
  Ok (ns_blockNumber lastScriptBlock).

Context `{Rapidjson}.

(** The registration a transaction's data holds, when it holds one. *)
(* src: Workers/WorkerNodeTest.cpp:58-79 WorkerNodeTest::work, if *)
Definition node_registration (data : bytes) : res (option (bytes * bytes)) :=
  match head data, last data with
  | Some first, Some final =>
      if bool_decide (first = Byte.x7b) && bool_decide (final = Byte.x7d) then
        match json_parse data with
        | None => Ok None
        | Some doc =>
            method ← json_string doc (str "method");
            match method with
            | Some method =>
                if bool_decide (method = str "mh-noderegistration") then
                  params ← json_member doc (str "params");
                  match params with
                  | Some (JObject p) =>
                      host ← json_string (JObject p) (str "host");
                      name ← json_string (JObject p) (str "name");
                      Ok (match host, name with
                          | Some host, Some name => Some (host, name)
                          | _, _ => None
                          end)
                  | _ => Ok None
                  end
                else Ok None
            | None => Ok None
            end
        end
      else Ok None
  | _, _ => Ok None
  end.

(* src: Workers/WorkerNodeTest.cpp:57-80 WorkerNodeTest::work, for *)
Definition register_nodes (nodes : list (bytes * bytes)) (txs : list TransactionInfo)
    : res (list (bytes * bytes)) :=
  foldM (fun nodes tx =>
    r ← node_registration (ti_data tx);
    Ok (match r with Some (host, name) => omap_set host name nodes | None => nodes end)) nodes txs.

(* src: Workers/WorkerNodeTest.cpp:29-104 WorkerNodeTest::work *)
Definition WorkerNodeTest_step (bi : BlockInfo) : meth D unit := fun db =>
  match
    (blockNumber ← opt_value (bh_blockNumber (bi_header bi));
     lastScriptBlockStr ← findNodeStatBlock db;
     lastScriptBlock ← NodeStatBlockInfo_deserialize lastScriptBlockStr;
     let prevHash := ns_blockHash lastScriptBlock in
     if blockNumber <=? ns_blockNumber lastScriptBlock then Ok None
     else
       _ ← CHECK (is_empty prevHash || bool_decide (prevHash = bh_prevHash (bi_header bi)))
             (str "Incorrect prev hash. Expected " ++ prevHash ++ str ", received "
               ++ bh_prevHash (bi_header bi));
       allNodesStr ← findAllNodes db;
       allNodes ← AllNodes_deserialize allNodesStr;
       nodes ← register_nodes (an_nodes allNodes) (bi_txs bi);
       value ← NodeStatBlockInfo_serialize
                 (mkNodeStatBlockInfo blockNumber (bh_hash (bi_header bi)) 0);
       let batchStates := addNodeStatBlock value (Batch_new false) in
       Ok (Some (addAllNodes (AllNodes_serialize (mkAllNodes nodes)) batchStates)))
  with
  | Ok None => (db, Ok tt)
  | Ok (Some batchStates) => addBatch batchStates db
  | Throw e => (db, Throw e)
  | UB => (db, UB)
  | OutOfFuel => (db, OutOfFuel)
  end.

(* src: Workers/WorkerNodeTest.cpp:118-122 WorkerNodeTest::getAllNodes *)
Definition getAllNodes (db : D) : res (list (bytes * bytes)) :=
  allNodesStr ← findAllNodes db;
  allNodes ← AllNodes_deserialize allNodesStr;
  Ok (an_nodes allNodes).

(** The loop over the blocks of a queue: a caught exception keeps the state. *)
Definition run_steps {S} (step : BlockInfo -> meth S unit) (s : S) (bis : list BlockInfo) : S :=
  foldl (fun s bi => (step bi s).1) s bis.

End database_workers.
