(* ===== verification/WorkersFacts.v ===== *)
(** * Correctness of the workers

    The two database workers follow the chain by the same contract, the class
    [Follower]; the theorems on runs, replays and gaps are proved once against
    it.  The cache worker keeps a window of the last blocks. *)
From S2P Require Import Prelude External Serialize Ordered BlockInfo BlockInfoCodec.
From S2P Require Import NodeTestsBlockInfo LevelDb Cache Heap LocalCache Modules Workers.
#[local] Open Scope Z_scope.

(** ** The contract of a worker that follows the chain *)

(** [f_saved] is the number and hash of the last block the worker made
    persistent; [f_fits] bounds the sizes of what a block makes it store. *)
Class Follower (W : Type) := {
  f_step : BlockInfo -> W -> W;
  f_ok : W -> Prop;
  f_saved : W -> Z * bytes;
  f_fits : BlockInfo -> W -> Prop;
}.

Definition f_verdict `{Follower W} (bi : BlockInfo) (s : W) : verdict :=
  match bh_blockNumber (bi_header bi) with
  | None => Skip
  | Some n =>
      if n <=? (f_saved s).1 then Skip
      else if is_empty (f_saved s).2 || bool_decide ((f_saved s).2 = bh_prevHash (bi_header bi))
      then Accept else Refuse
  end.

Class FollowerLaws (W : Type) `{Follower W} := {
  f_stay s bi : f_ok s -> f_verdict bi s <> Accept -> f_step bi s = s;
  f_move s bi n : f_ok s -> f_verdict bi s = Accept -> bh_blockNumber (bi_header bi) = Some n ->
    is_u64 n -> bh_hash (bi_header bi) <> [] -> f_fits bi s ->
    f_ok (f_step bi s) /\ f_saved (f_step bi s) = (n, bh_hash (bi_header bi));
}.

(** Consecutive blocks on top of the block [n] with hash [h]. *)
Fixpoint chain_from (n : Z) (h : bytes) (bis : list BlockInfo) : Prop :=
  match bis with
  | [] => True
  | bi :: bis' =>
      bh_blockNumber (bi_header bi) = Some (n + 1) /\ is_u64 (n + 1) /\
      (h = [] \/ bh_prevHash (bi_header bi) = h) /\ bh_hash (bi_header bi) <> [] /\
      chain_from (n + 1) (bh_hash (bi_header bi)) bis'
  end.

Definition chain_end (n : Z) (h : bytes) (bis : list BlockInfo) : Z * bytes :=
  foldl (fun p bi => (p.1 + 1, bh_hash (bi_header bi))) (n, h) bis.

Section follower.
Context `{FollowerLaws W}.

Definition f_run (s : W) (bis : list BlockInfo) : W := foldl (fun s bi => f_step bi s) s bis.

Fixpoint fits_run (s : W) (bis : list BlockInfo) : Prop :=
  match bis with
  | [] => True
  | bi :: bis' => f_fits bi s /\ fits_run (f_step bi s) bis'
  end.

Lemma f_run_chain s n h bis :
  f_ok s -> f_saved s = (n, h) -> chain_from n h bis -> fits_run s bis ->
  f_ok (f_run s bis) /\ f_saved (f_run s bis) = chain_end n h bis.
Proof.
  unfold f_run, chain_end. revert s n h. induction bis as [|bi bis IH]; intros s n h Hok Hs; [done|].
  intros (Hn & Hu & Hp & Hh & Hc) [Hf Hfs]. cbn [foldl].
  assert (f_verdict bi s = Accept) as Hv.
  { unfold f_verdict. rewrite Hn, Hs. cbn [fst snd]. destruct (Z.leb_spec (n + 1) n); [lia|].
    destruct Hp as [->|Hp]; [done|]. by rewrite (bool_decide_true (h = _)), orb_true_r. }
  destruct (f_move s bi _ Hok Hv Hn Hu Hh Hf) as [Hok' Hs']. by apply IH.
Qed.

(** Blocks at or below the saved one change nothing, in any order. *)
Lemma f_run_stale s bis :
  f_ok s ->
  Forall (fun bi => exists n, bh_blockNumber (bi_header bi) = Some n /\ n <= (f_saved s).1) bis ->
  f_run s bis = s.
Proof.
  intros Hok. unfold f_run. induction 1 as [|bi bis (n & Hn & Hle) Hb IH]; [done|]. cbn [foldl].
  rewrite f_stay; [done..|]. unfold f_verdict. rewrite Hn.
  destruct (Z.leb_spec n (f_saved s).1); [done|lia].
Qed.

Lemma chain_numbers n h bis :
  chain_from n h bis ->
  Forall (fun bi => exists m, bh_blockNumber (bi_header bi) = Some m /\
    n < m <= n + blen bis) bis /\ (chain_end n h bis).1 = n + blen bis.
Proof.
  unfold chain_end. revert n h. induction bis as [|bi bis IH]; intros n h; cbn [chain_from foldl].
  { intros _. split; [constructor|]. unfold blen. simpl. lia. }
  intros (Hn & _ & _ & _ & Hc). rewrite blen_cons. destruct (IH _ _ Hc) as [Hf He].
  cbn [fst]. rewrite He. split; [|lia]. pose proof (blen_nonneg bis).
  constructor; [exists (n + 1); split; [done|lia]|].
  eapply Forall_impl; [exact Hf|]. intros x (m & Hm & Hr). exists m. split; [done|lia].
Qed.

(** After a chain has been followed, delivering any of its blocks again changes
    nothing: what a restart replays is absorbed. *)
Lemma f_run_replay s n h bis again :
  f_ok s -> f_saved s = (n, h) -> chain_from n h bis -> fits_run s bis ->
  again ⊆ bis -> f_run s (bis ++ again) = f_run s bis.
Proof.
  intros Hok Hs Hc Hf Hsub. unfold f_run. rewrite foldl_app. fold (f_run s bis).
  destruct (f_run_chain s n h bis Hok Hs Hc Hf) as [Hok' Hs'].
  destruct (chain_numbers n h bis Hc) as [Hnum Hend].
  apply (f_run_stale _ again Hok'). rewrite Hs', Hend. apply Forall_forall.
  intros bi Hbi. apply Hsub in Hbi. rewrite Forall_forall in Hnum.
  destruct (Hnum bi Hbi) as (m & Hm & Hr). exists m. split; [done|lia].
Qed.

End follower.

(** ** WorkerMain keeps the contract *)

Section main_worker.
Context {D : Type} `{KvLaws D}.

Definition main_saved (db : D) : res MainBlockInfo :=
  raw ← findMainBlock db; MainBlockInfo_deserialize raw.

#[export] Instance WorkerMain_follower : Follower (WorkerMain D) := {|
  f_step bi w := (WorkerMain_step bi w).1;
  f_ok w := kv_ok (wm_leveldb w) /\ is_ok (main_saved (wm_leveldb w)) = true /\ is_u64 (wm_countVal w);
  f_saved w := match main_saved (wm_leveldb w) with
    | Ok m => (mb_blockNumber m, mb_blockHash m) | _ => (0, []) end;
  f_fits bi w := blen (bh_hash (bi_header bi)) < 2 ^ 63;
|}.

Lemma main_saved_after db value db' m :
  kv_ok db -> addBatch (addMainBlock value (Batch_new false)) db = (db', Ok tt) ->
  MainBlockInfo_serialize m = Ok value -> c_wf m -> blen value < 2 ^ 64 - 16 ->
  kv_ok db' /\ main_saved db' = Ok m /\
  kv_iter db' = omap_set MAIN_BLOCK_NUMBER_PREFIX value (kv_iter db).
Proof.
  intros Hok Hb Hs Hwf Hl.
  destruct (addBatch_eq (addMainBlock value (Batch_new false)) db Hok) as (d & Hd & Hok' & Hit).
  rewrite Hb in Hd. injection Hd as <-. cbn in Hit. split; [done|]. split; [|done].
  unfold main_saved, findMainBlock. rewrite findOneValueWithoutCheck_eq by done.
  rewrite Hit, omap_find_set, decide_True by done. cbn [mbind res_bind].
  exact (codec_read_back (A := MainBlockInfo) m value Hwf Hs Hl).
Qed.

Lemma blen_MainBlockInfo m value :
  MainBlockInfo_serialize m = Ok value -> mb_wf m -> blen value = 24 + blen (mb_blockHash m).
Proof.
  intros Hs (Hh & Hn & Hc). unfold MainBlockInfo_serialize in Hs. res_inv. subst value.
  unfold is_u64 in *. rewrite !blen_app, blen_serializeString, !blen_serializeInt by lia. lia.
Qed.

#[export] Instance WorkerMain_laws : FollowerLaws (WorkerMain D).
Proof.
  split.
  - intros w bi (Hok & Hd & _) Hv. unfold f_verdict in Hv. cbn in *. unfold WorkerMain_step.
    destruct (bh_blockNumber (bi_header bi)) as [n|]; [|done].
    fold (main_saved (wm_leveldb w)). destruct (main_saved (wm_leveldb w)) as [m| | |]; [|done..].
    cbn in Hv. destruct (n <=? mb_blockNumber m); [done|].
    destruct (is_empty (mb_blockHash m) || bool_decide (mb_blockHash m = bh_prevHash (bi_header bi)));
      [by destruct Hv|done].
  - intros w bi n (Hok & Hd & Hcv) Hv Hn Hu Hh Hf. unfold f_verdict in Hv. rewrite Hn in Hv.
    cbn in *. unfold WorkerMain_step. rewrite Hn. fold (main_saved (wm_leveldb w)).
    destruct (main_saved (wm_leveldb w)) as [m| | |]; [|done..]. cbn in Hv.
    destruct (n <=? mb_blockNumber m); [done|].
    destruct (is_empty (mb_blockHash m) || bool_decide (mb_blockHash m = bh_prevHash (bi_header bi)));
      [|done]. cbn [negb].
    set (m' := mkMainBlockInfo n (bh_hash (bi_header bi)) (wm_countVal w)).
    assert (mb_wf m') as Hwf by done.
    destruct (MainBlockInfo_laws m' Hwf) as (value & Hs & _ & _). cbn in Hs. rewrite Hs.
    destruct (addBatch_eq (addMainBlock value (Batch_new false)) (wm_leveldb w) Hok)
      as (db' & Hb & _ & _). rewrite Hb. cbn.
    pose proof (blen_MainBlockInfo m' value Hs Hwf) as Hl. cbn in Hl.
    destruct (main_saved_after (wm_leveldb w) value db' m' Hok Hb Hs Hwf ltac:(lia))
      as (Hok' & Hsv & _). rewrite Hsv. done.
Qed.

End main_worker.

(** ** WorkerNodeTest keeps the contract *)

Section node_worker.
Context {D : Type} `{KvLaws D} `{RapidjsonLaws}.

Lemma json_string_object m name : exists o, json_string (JObject m) name = Ok o.
Proof. unfold json_string. cbn. eauto. Qed.

Lemma node_registration_total data : exists r, node_registration data = Ok r.
Proof.
  unfold node_registration. destruct data as [|c data]; [eauto|]. cbn [head].
  destruct (last (c :: data)); [|eauto].
  case_bool_decide as Hc; cbn [andb]; [|eauto]. subst c.
  destruct (bool_decide _); [|eauto].
  destruct (json_parse (Byte.x7b :: data)) as [doc|] eqn:Hp; [|eauto].
  destruct (json_parse_object _ _ Hp) as [m ->].
  destruct (json_string_object m (str "method")) as [[method|] ->]; cbn [mbind res_bind]; [|eauto].
  destruct (bool_decide _); [|eauto]. cbn [json_member mbind res_bind].
  destruct (find_member m (str "params")) as [[| | | | | |p]|]; eauto.
Qed.

Lemma register_nodes_total nodes txs :
  osorted nodes.*1 -> exists nodes', register_nodes nodes txs = Ok nodes' /\ osorted nodes'.*1.
Proof.
  unfold register_nodes. revert nodes. induction txs as [|tx txs IH]; intros nodes Hs; cbn [foldM].
  { eauto. }
  destruct (node_registration_total (ti_data tx)) as [r ->]. cbn [mbind res_bind].
  apply IH. destruct r as [[host name]|]; [by apply omap_set_sorted|done].
Qed.

Definition node_saved (db : D) : res NodeStatBlockInfo :=
  raw ← findNodeStatBlock db; NodeStatBlockInfo_deserialize raw.

Definition node_table (db : D) : res (list (bytes * bytes)) := getAllNodes db.

#[export] Instance WorkerNodeTest_follower : Follower D := {|
  f_step bi db := (WorkerNodeTest_step bi db).1;
  f_ok db := kv_ok db /\ is_ok (node_saved db) = true /\
    exists nodes, node_table db = Ok nodes /\ osorted nodes.*1;
  f_saved db := match node_saved db with
    | Ok s => (ns_blockNumber s, ns_blockHash s) | _ => (0, []) end;
  f_fits bi db := blen (bh_hash (bi_header bi)) < 2 ^ 63 /\
    forall nodes nodes', node_table db = Ok nodes -> register_nodes nodes (bi_txs bi) = Ok nodes' ->
      blen nodes' < 2 ^ 64 /\ blen (AllNodes_serialize (mkAllNodes nodes')) < 2 ^ 64 - 16;
|}.

Lemma blen_NodeStatBlockInfo m value :
  NodeStatBlockInfo_serialize m = Ok value -> ns_wf m -> blen value = 24 + blen (ns_blockHash m).
Proof.
  intros Hs (Hh & Hn & Hc). unfold NodeStatBlockInfo_serialize in Hs. res_inv. subst value.
  unfold is_u64 in *. rewrite !blen_app, blen_serializeString, !blen_serializeInt by lia. lia.
Qed.

(** An accepted block: its number and hash become the saved ones, and its
    registrations are folded into the table. *)
Lemma node_accept db bi n nodes nodes' :
  f_ok db -> f_verdict bi db = Accept -> bh_blockNumber (bi_header bi) = Some n ->
  is_u64 n -> bh_hash (bi_header bi) <> [] -> f_fits bi db ->
  node_table db = Ok nodes -> register_nodes nodes (bi_txs bi) = Ok nodes' -> osorted nodes'.*1 ->
  exists db', WorkerNodeTest_step bi db = (db', Ok tt) /\ kv_ok db' /\
    node_saved db' = Ok (mkNodeStatBlockInfo n (bh_hash (bi_header bi)) 0) /\
    node_table db' = Ok nodes'.
Proof.
  intros (Hok & Hd & _) Hv Hn Hu Hh [Hf Hft] Ht Hr Hs'. unfold f_verdict in Hv. rewrite Hn in Hv.
  cbn in Hv. unfold WorkerNodeTest_step. rewrite Hn. cbn [opt_value mbind res_bind].
  unfold node_saved in Hv, Hd. destruct (findNodeStatBlock db) as [raw| | |]; [|done..].
  cbn [mbind res_bind] in *. destruct (NodeStatBlockInfo_deserialize raw) as [m| | |]; [|done..].
  cbn in Hv. cbn [mbind res_bind]. destruct (n <=? ns_blockNumber m); [done|].
  destruct (is_empty (ns_blockHash m) || bool_decide (ns_blockHash m = bh_prevHash (bi_header bi)));
    [|done]. cbn [CHECK mbind res_bind].
  destruct (Hft nodes nodes' Ht Hr) as [Hlen Hblen].
  unfold node_table, getAllNodes in Ht. destruct (findAllNodes db) as [araw| | |]; [|done..].
  cbn [mbind res_bind] in *. destruct (AllNodes_deserialize araw) as [an| | |]; [|done..].
  cbn [mbind res_bind] in *. injection Ht as ->. rewrite Hr. cbn [mbind res_bind].
  set (m' := mkNodeStatBlockInfo n (bh_hash (bi_header bi)) 0).
  assert (ns_wf m') as Hwf by (repeat split; [done|apply Hu|apply Hu|done..]).
  destruct (NodeStatBlockInfo_laws m' Hwf) as (value & Hs & _ & _). cbn in Hs. rewrite Hs.
  cbn [mbind res_bind].
  assert (AllNodes_deserialize (AllNodes_serialize (mkAllNodes nodes')) = Ok (mkAllNodes nodes')) as Hrt.
  { assert (an_wf (mkAllNodes nodes')) as Hanw.
    { split; [done|]. cbn. pose proof (blen_nonneg nodes'). split; lia. }
    exact (codec_read_back (A := AllNodes) (mkAllNodes nodes') _ Hanw eq_refl Hblen). }
  generalize dependent (AllNodes_serialize (mkAllNodes nodes')). intros anraw Hblen Hrt.
  destruct (addBatch_eq (addAllNodes anraw
    (addNodeStatBlock value (Batch_new false))) db Hok) as (db' & Hb & Hok' & Hit).
  cbn in Hit. exists db'. split; [done|]. split; [done|].
  pose proof (blen_NodeStatBlockInfo m' value Hs Hwf) as Hl. cbn in Hl.
  split.
  - unfold node_saved, findNodeStatBlock. rewrite findOneValueWithoutCheck_eq by done.
    rewrite Hit, !omap_find_set, decide_False by done. rewrite decide_True by done.
    exact (codec_read_back (A := NodeStatBlockInfo) m' value Hwf Hs ltac:(lia)).
  - unfold node_table, getAllNodes, findAllNodes. rewrite findOneValueWithoutCheck_eq by done.
    rewrite Hit, omap_find_set, decide_True by done. cbn [mbind res_bind].
    by rewrite Hrt.
Qed.

#[export] Instance WorkerNodeTest_laws : FollowerLaws D.
Proof.
  split.
  - intros db bi (Hok & Hd & _) Hv. unfold f_verdict in Hv. cbn in *. unfold WorkerNodeTest_step.
    destruct (bh_blockNumber (bi_header bi)) as [n|]; [|done]. cbn [opt_value mbind res_bind].
    unfold node_saved in *. destruct (findNodeStatBlock db) as [raw| | |]; [|done..].
    cbn [mbind res_bind] in *. destruct (NodeStatBlockInfo_deserialize raw) as [m| | |]; [|done..].
    cbn in Hv. cbn [mbind res_bind]. destruct (n <=? ns_blockNumber m); [done|].
    destruct (is_empty (ns_blockHash m) || bool_decide (ns_blockHash m = bh_prevHash (bi_header bi)));
      [by destruct Hv|done].
  - intros db bi n Hok Hv Hn Hu Hh Hf. pose proof Hok as (_ & _ & nodes & Ht & Hs).
    destruct (register_nodes_total nodes (bi_txs bi) Hs) as (nodes' & Hr & Hs').
    destruct (node_accept db bi n nodes nodes' Hok Hv Hn Hu Hh Hf Ht Hr Hs')
      as (db' & Hstep & Hok' & Hsv & Ht'). cbn. rewrite Hstep. cbn. rewrite Hsv. cbn.
    split; [|done]. split; [done|]. split; [done|]. eauto.
Qed.

(** The table after a chain is the fold of the registrations of its blocks. *)
Lemma node_table_run db n h bis nodes :
  f_ok db -> f_saved db = (n, h) -> chain_from n h bis -> fits_run db bis ->
  node_table db = Ok nodes ->
  node_table (f_run db bis) = register_nodes nodes (concat (bi_txs <$> bis)).
Proof.
  revert db n h nodes. induction bis as [|bi bis IH]; intros db n h nodes Hok Hs; [done|].
  intros (Hn & Hu & Hp & Hh & Hc) [Hf Hfs] Ht.
  assert (f_verdict bi db = Accept) as Hv.
  { unfold f_verdict. rewrite Hn, Hs. cbn [fst snd]. destruct (Z.leb_spec (n + 1) n); [lia|].
    destruct Hp as [->|Hp]; [done|]. by rewrite (bool_decide_true (h = _)), orb_true_r. }
  destruct (f_move db bi _ Hok Hv Hn Hu Hh Hf) as [Hok' Hs'].
  pose proof Hok as (_ & _ & nodes0 & Ht0 & Hso). rewrite Ht in Ht0. injection Ht0 as <-.
  destruct (register_nodes_total nodes (bi_txs bi) Hso) as (nodes' & Hr & Hso').
  destruct (node_accept db bi _ nodes nodes' Hok Hv Hn Hu Hh Hf Ht Hr Hso')
    as (db' & Hstep & _ & _ & Ht').
  unfold f_run in *. cbn [foldl]. assert (f_step bi db = db') as E by (cbn; by rewrite Hstep).
  rewrite E in *. rewrite (IH db' _ _ nodes' Hok' Hs' Hc Hfs Ht').
  unfold register_nodes. cbn [fmap list_fmap concat]. rewrite foldM_app.
  unfold register_nodes in Hr. by rewrite Hr.
Qed.

End node_worker.

(** ** WorkerCache keeps the dumps of the last blocks *)

(** After the blocks [n0 + 1, n0 + 2, ...] with the hashes and dumps [hs], the
    cache holds exactly the last [M] of them. *)
Record window_ok (M n0 : Z) (hs : list (bytes * bytes)) (c : Cache bytes) : Prop := {
  win_in i h d : hs !! i = Some (h, d) -> blen hs - M <= Z.of_nat i ->
    c_attributes c !! to_string (n0 + 1 + Z.of_nat i) = Some [h] /\ c_map c !! h = Some d;
  win_attr a ks : c_attributes c !! a = Some ks -> exists i h d, hs !! i = Some (h, d) /\
    blen hs - M <= Z.of_nat i /\ a = to_string (n0 + 1 + Z.of_nat i) /\ ks = [h];
  win_map h d : c_map c !! h = Some d -> exists i, hs !! i = Some (h, d) /\ blen hs - M <= Z.of_nat i;
}.

Lemma window_empty M n0 : window_ok M n0 [] Cache_empty.
Proof.
  split; [done|..].
  - intros a ks Ha. cbn in Ha. by rewrite lookup_empty in Ha.
  - intros h d Ha. cbn in Ha. by rewrite lookup_empty in Ha.
Qed.

Section window_step.
Variables (M n0 : Z) (hs : list (bytes * bytes)) (c : Cache bytes) (h d : bytes).
Hypothesis Hw : window_ok M n0 hs c.
Hypothesis HM : 0 < M < 2 ^ 64.
Hypothesis Hn0 : 0 <= n0.
Hypothesis Hbound : n0 + 1 + blen hs < 2 ^ 64.
Hypothesis Hnew : h ∉ hs.*1.
Hypothesis Hnd : NoDup hs.*1.

Let n := n0 + 1 + blen hs.
Let c1 := addValue h (to_string n) d c.

Lemma window_at i h' d' : hs !! i = Some (h', d') -> h' <> h /\ Z.of_nat i < blen hs.
Proof.
  intros Hi. pose proof (lookup_lt_Some _ _ _ Hi). split; [|unfold blen; lia].
  intros ->. apply Hnew. apply list_elem_of_fmap. exists (h, d').
  split; [done|]. by eapply list_elem_of_lookup_2.
Qed.

Lemma window_added : c1 = mkCache (<[h := d]> (c_map c)) (<[to_string n := [h]]> (c_attributes c)).
Proof.
  unfold c1, addValue. destruct (c_map c !! h) as [d'|] eqn:Hm.
  { destruct (win_map _ _ _ _ Hw h d' Hm) as (i & Hi & _). by apply window_at in Hi as [? _]. }
  destruct (c_attributes c !! to_string n) as [ks|] eqn:Ha; [|done].
  destruct (win_attr _ _ _ _ Hw _ _ Ha) as (i & h' & d' & Hi & _ & Hn & _).
  apply to_string_inj in Hn. apply window_at in Hi as [_ Hi]. unfold n in Hn. lia.
Qed.

Lemma window_split i x :
  (hs ++ [(h, d)]) !! i = Some x <->
  hs !! i = Some x \/ (Z.of_nat i = blen hs /\ x = (h, d)).
Proof.
  rewrite lookup_app_Some. split.
  - intros [Hi|[Hge Hi]]; [by left|]. apply list_lookup_singleton_Some in Hi as [Hi <-].
    right. unfold blen. split; [lia|done].
  - intros [Hi|[Hi ->]]; [by left|]. right. unfold blen in Hi. split; [lia|].
    by replace (i - length hs)%nat with 0%nat by lia.
Qed.

(** The number [work] drops, when it is one of the window. *)
Lemma window_dropped i :
  Z.of_nat i <= blen hs -> u64 (n - M) = n0 + 1 + Z.of_nat i -> Z.of_nat i = blen hs - M.
Proof.
  intros Hi Hu. unfold n in *. unfold u64 in Hu. pose proof (blen_nonneg hs).
  destruct (Z.le_gt_cases 0 (n0 + 1 + blen hs - M)).
  - rewrite Z.mod_small in Hu by lia. lia.
  - rewrite <- (Z_mod_plus_full _ 1), Z.mod_small in Hu by lia. lia.
Qed.

Lemma window_step : window_ok M n0 (hs ++ [(h, d)]) (cache_remove (to_string (u64 (n - M))) c1).
Proof.
  rewrite window_added. unfold cache_remove. cbn [c_attributes c_map].
  pose proof (blen_nonneg hs) as Hlen.
  assert (to_string (u64 (n - M)) <> to_string n) as Hne.
  { intros E%to_string_inj. unfold n in E at 2. apply (window_dropped (length hs)) in E;
      unfold blen in *; lia. }
  rewrite lookup_insert_ne by done.
  assert (blen (hs ++ [(h, d)]) = blen hs + 1) as Hl1 by (rewrite blen_app; done).
  destruct (c_attributes c !! to_string (u64 (n - M))) as [ks|] eqn:Ha.
  - destruct (win_attr _ _ _ _ Hw _ _ Ha) as (j & hj & dj & Hj & Hjw & Hjn & ->).
    apply to_string_inj in Hjn. destruct (window_at _ _ _ Hj) as [Hjh Hjl].
    pose proof (window_dropped j ltac:(lia) Hjn) as HjM. cbn [foldl].
    split; cbn [c_attributes c_map]; rewrite ?Hl1.
    + intros i h' d' Hi%window_split Hiw. destruct Hi as [Hi|[Hi [= -> ->]]].
      * destruct (win_in _ _ _ _ Hw i h' d' Hi ltac:(lia)) as [Hia Him].
        destruct (window_at _ _ _ Hi) as [Hih Hil].
        rewrite lookup_delete_ne by (intros E%to_string_inj; lia).
        rewrite lookup_insert_ne by (intros E%to_string_inj; unfold n in E; lia).
        rewrite lookup_delete_ne; [by rewrite lookup_insert_ne|]. intros ->.
        assert (i = j); [|lia]. eapply (NoDup_lookup hs.*1); [done|..];
          rewrite list_lookup_fmap; [by rewrite Hi|by rewrite Hj].
      * rewrite Hi. fold n. rewrite lookup_delete_ne, lookup_insert_eq by done.
        split; [done|]. by rewrite lookup_delete_ne, lookup_insert_eq by done.
    + intros a ks [Hda Hk]%lookup_delete_Some. apply lookup_insert_Some in Hk as [[<- <-]|[Hna Hk]].
      * exists (length hs), h, d. rewrite window_split. unfold n, blen in *.
        repeat split; [by right|lia].
      * destruct (win_attr _ _ _ _ Hw _ _ Hk) as (i & h' & d' & Hi & Hiw & -> & ->).
        exists i, h', d'. rewrite window_split. repeat split; [by left|].
        assert (Z.of_nat i <> Z.of_nat j) by (intros E; apply Hda; by rewrite Hjn, E). lia.
    + intros h' d' [Hdh Hk]%lookup_delete_Some. apply lookup_insert_Some in Hk as [[<- <-]|[Hna Hk]].
      * exists (length hs). rewrite window_split. unfold blen in *. split; [by right|lia].
      * destruct (win_map _ _ _ _ Hw _ _ Hk) as (i & Hi & Hiw). exists i. rewrite window_split.
        split; [by left|]. assert (i <> j) by (intros ->; congruence). lia.
  - split; cbn [c_attributes c_map]; rewrite ?Hl1.
    + intros i h' d' Hi%window_split Hiw. destruct Hi as [Hi|[Hi [= -> ->]]].
      * destruct (win_in _ _ _ _ Hw i h' d' Hi ltac:(lia)) as [Hia Him].
        destruct (window_at _ _ _ Hi) as [Hih Hil].
        rewrite lookup_insert_ne by (intros E%to_string_inj; unfold n in E; lia).
        by rewrite lookup_insert_ne.
      * rewrite Hi. fold n. by rewrite !lookup_insert_eq.
    + intros a ks Hk. apply lookup_insert_Some in Hk as [[<- <-]|[Hna Hk]].
      * exists (length hs), h, d. rewrite window_split. unfold n, blen in *.
        repeat split; [by right|lia].
      * destruct (win_attr _ _ _ _ Hw _ _ Hk) as (i & h' & d' & Hi & Hiw & -> & ->).
        exists i, h', d'. rewrite window_split. repeat split; [by left|].
        assert (Z.of_nat i <> blen hs - M); [|lia]. intros E.
        assert (u64 (n - M) = n0 + 1 + Z.of_nat i) as E2.
        { unfold n. rewrite u64_small by (unfold is_u64; lia). lia. }
        by rewrite E2, Hk in Ha.
    + intros h' d' Hk. apply lookup_insert_Some in Hk as [[<- <-]|[Hna Hk]].
      * exists (length hs). rewrite window_split. unfold blen in *. split; [by right|lia].
      * destruct (win_map _ _ _ _ Hw _ _ Hk) as (i & Hi & Hiw). exists i. rewrite window_split.
        split; [by left|]. assert (Z.of_nat i <> blen hs - M); [|lia]. intros E.
        assert (u64 (n - M) = n0 + 1 + Z.of_nat i) as E2.
        { unfold n. rewrite u64_small by (unfold is_u64; lia). lia. }
        rewrite E2 in Ha. destruct (win_in _ _ _ _ Hw i h' d' Hi ltac:(lia)) as [Hia _]. congruence.
Qed.

End window_step.

(** The block and its dump, as [WorkerCache::process] receives them. *)
Definition cache_run (caches : AllCaches) (bis : list (BlockInfo * bytes)) : AllCaches :=
  foldl (fun caches e => (WorkerCache_step e.1 e.2 caches).1) caches bis.

Definition hash_dump (e : BlockInfo * bytes) : bytes * bytes := (bh_hash (bi_header e.1), e.2).

Lemma cache_run_window M n0 bis caches :
  ac_maxCountElementsBlockCache caches = M -> ac_blockDumpCache caches = Cache_empty ->
  0 < M < 2 ^ 64 -> 0 <= n0 -> n0 + 1 + blen bis < 2 ^ 64 ->
  (forall i e, bis !! i = Some e -> bh_blockNumber (bi_header e.1) = Some (n0 + 1 + Z.of_nat i)) ->
  NoDup (hash_dump <$> bis).*1 ->
  ac_maxCountElementsBlockCache (cache_run caches bis) = M /\
  window_ok M n0 (hash_dump <$> bis) (ac_blockDumpCache (cache_run caches bis)).
Proof.
  intros HM Hc HMr Hn0. unfold cache_run.
  induction bis as [|e bis IH] using rev_ind; intros Hb Hnum Hd.
  { cbn. rewrite Hc. split; [done|]. apply window_empty. }
  rewrite blen_app in Hb. change (blen [e]) with 1 in Hb.
  rewrite !fmap_app in Hd. apply NoDup_app in Hd as (Hd & Hdis & _).
  destruct IH as [IHm IHw]; [lia| |done|].
  { intros i x Hi. apply Hnum. by apply lookup_app_l_Some. }
  rewrite foldl_app, fmap_app. cbn [foldl].
  set (c0 := foldl _ caches bis) in *. unfold WorkerCache_step.
  rewrite (Hnum (length bis) e) by (rewrite lookup_app_r, Nat.sub_diag by lia; done).
  rewrite IHm. rewrite (proj2 (Z.eqb_neq M 0)) by lia. cbn [negb fst].
  set (b := cache_remove _ (addValue _ _ _ _)).
  assert (window_ok M n0 ((hash_dump <$> bis) ++ [hash_dump e]) b) as Hwin.
  { assert (blen (hash_dump <$> bis) = Z.of_nat (length bis)) as El
      by (unfold blen; by rewrite length_fmap).
    subst b. rewrite <- El. apply window_step; [done..|rewrite El; unfold blen in Hb; lia| |done].
    intros Hin. apply (Hdis _ Hin). apply list_elem_of_here. }
  by destruct (negb (ac_maxCountElementsTxsCache _ =? 0)).
Qed.
