(* ===== verification/BlockchainUtils.v ===== *)
(** * BlockchainUtils.h, BlockchainUtils.cpp: hashes, addresses, signatures

    [isInitialized] is the file's flag that [initBlockchainUtils] sets; the
    functions that test it take it as an argument. *)
From S2P Require Import Prelude External.
#[local] Open Scope Z_scope.

(** ** Hexadecimal *)

(** [DecLookup]: characters that are not hexadecimal digits count as 0. *)
(* src: BlockchainUtils.cpp:43-54 hex2bin, DecLookup *)
Definition DecLookup (c : byte) : Z :=
  let z := b2z c in
  if (48 <=? z) && (z <=? 57) then z - 48
  else if (65 <=? z) && (z <=? 70) then z - 55
  else if (97 <=? z) && (z <=? 102) then z - 87
  else 0.

(** The [for] loop: the last character of an odd string is paired with the
    terminating NUL. *)
(* src: BlockchainUtils.cpp:63-67 hex2bin, for *)
Fixpoint hex2bin_loop (s : bytes) : bytes :=
  match s with
  | [] => []
  | [c] => [z2b (Z.lor (Z.shiftl (DecLookup c) 4 mod 256) (DecLookup Byte.x00))]
  | c :: c' :: s' =>
      z2b (Z.lor (Z.shiftl (DecLookup c) 4 mod 256) (DecLookup c')) :: hex2bin_loop s'
  end.

(* src: BlockchainUtils.cpp:42-70 hex2bin *)
Definition hex2bin (src : bytes) : bytes :=
  let i := if (2 <? blen src) && bool_decide (take 2 src = str "0x") then 2%nat else 0%nat in
  hex2bin_loop (drop i src).

(** The two characters of [HexLookup] at [2 * b]. *)
Definition hex_digit (z : Z) : byte := z2b (if z <? 10 then z + 48 else z + 87).
(* src: BlockchainUtils.cpp:182-199 get_address, HexLookup *)
Definition HexLookup (b : byte) : bytes := [hex_digit (b2z b / 16); hex_digit (b2z b mod 16)].

(** ** Digests and addresses *)

Section digests.
Context `{Crypto} (isInitialized : bool).

(* src: BlockchainUtils.cpp:79-92 get_double_sha256 *)
Definition get_double_sha256 (data : bytes) : res bytes :=
  _ ← CHECK isInitialized (str "Not initialized");
  let hash1 := SHA256 data in
  let hash2 := SHA256 hash1 in
  Ok hash2.

(** The outputs [wide_h] and [hash2], or [None] for [false]. *)
(* src: BlockchainUtils.cpp:137-165 get_address_comp *)
Definition get_address_comp (bpubk : bytes) : res (option (bytes * bytes)) :=
  _ ← CHECK isInitialized (str "Not initialized");
  let binary := bpubk in
  let datasize := length binary in
  if (65 <=? datasize)%nat then
    let binary := <[(datasize - 65)%nat := Byte.x04]> binary in
    let sha_1 := SHA256 (take 65 (drop (datasize - 65) binary)) in
    let r160 := RIPEMD160 sha_1 in
    let wide_h := Byte.x00 :: take 20 r160 in
    let hash1 := SHA256 wide_h in
    let hash2 := SHA256 hash1 in
    Ok (Some (wide_h, hash2))
  else Ok None.

(* src: BlockchainUtils.cpp:167-214 get_address(bpubk) *)
Definition get_address (bpubk : bytes) : res bytes :=
  r ← get_address_comp bpubk;
  match r with
  | None => Ok (str "Invalid")
  | Some (wide_h, hash2) =>
      let address := str "0x" in
      let address := address ++ concat (HexLookup <$> wide_h) in
      let address := address ++ concat (HexLookup <$> take 4 hash2) in
      Ok address
  end.

(* src: BlockchainUtils.cpp:122-125 get_address(pubk) *)
Definition get_address_of_hex (pubk : bytes) : res bytes :=
  let binary := hex2bin pubk in
  get_address binary.

(* src: BlockchainUtils.cpp:216-228 get_address_bin *)
Definition get_address_bin (bpubk : bytes) : res bytes :=
  r ← get_address_comp bpubk;
  match r with
  | None => Ok []
  | Some (wide_h, hash2) =>
      let result := wide_h in
      let result := result ++ take 4 hash2 in
      Ok result
  end.

(* src: BlockchainUtils.cpp:127-135 makeAddressFromSecpKey *)
Definition makeAddressFromSecpKey (pubkey : bytes) : res bytes :=
  match secp256k1_uncompress pubkey with
  | None => throwErr (str "Incorrect pubkey")
  | Some pubkeyData => get_address pubkeyData
  end.

(** ** Signatures *)

(* src: BlockchainUtils.cpp:302-325 CheckBufferSignature *)
Definition CheckBufferSignature (publicKey data signature : bytes) : bool :=
  let md_value := SHA256 data in
  ECDSA_do_verify md_value signature publicKey.

(* src: BlockchainUtils.cpp:351-375 check_sign *)
Definition check_sign (data sign pubk : bytes) : bool :=
  if negb (d2i_PUBKEY_ok pubk) then false
  else if negb (d2i_ECDSA_SIG_ok sign) then false
  else if CheckBufferSignature pubk data sign then true
  else false.

(* src: BlockchainUtils.cpp:377-384 crypto_check_sign_data *)
Definition crypto_check_sign_data (sign public_key data : bytes) : bool :=
  check_sign data sign public_key.

End digests.

(** ** Lemmas *)

Lemma HexLookup_hex2bin (l : bytes) : hex2bin_loop (concat (HexLookup <$> l)) = l.
Proof.
  induction l as [|b l IH]; [done|]. cbn [fmap list_fmap concat HexLookup app hex2bin_loop].
  rewrite IH. f_equal. destruct b; reflexivity.
Qed.

Lemma hex2bin_0x (l : bytes) :
  hex2bin (str "0x" ++ concat (HexLookup <$> l)) = hex2bin_loop (if is_empty l then str "0x" else concat (HexLookup <$> l)).
Proof.
  unfold hex2bin. destruct l as [|b l]; [done|].
  cbn [fmap list_fmap concat HexLookup app is_empty].
  change (str "0x") with [Byte.x30; Byte.x78]. cbn [app take].
  rewrite !blen_cons. pose proof (blen_nonneg (concat (HexLookup <$> l))).
  rewrite (proj2 (Z.ltb_lt _ _)) by lia. rewrite bool_decide_true by done. done.
Qed.

Section address_facts.
Context `{CryptoLaws}.

Lemma get_address_bin_length pubk a :
  get_address_bin true pubk = Ok a -> a <> [] -> length a = 25%nat.
Proof.
  unfold get_address_bin, get_address_comp. cbn [CHECK mbind res_bind].
  destruct (65 <=? length pubk)%nat; cbn; [|by intros [= <-]]. intros [= <-] _. cbn.
  rewrite length_app, !length_take, SHA256_length, RIPEMD160_length. done.
Qed.

(** The printed address is the binary one in hexadecimal. *)
Lemma get_address_hex pubk a :
  get_address_bin true pubk = Ok a -> a <> [] ->
  get_address true pubk = Ok (str "0x" ++ concat (HexLookup <$> a)).
Proof.
  unfold get_address_bin, get_address. destruct (get_address_comp true pubk) as [[[w h]|]| | |]; cbn; try done.
  - intros [= <-] _. by rewrite fmap_app, concat_app.
  - by intros [= <-].
Qed.

Lemma get_address_roundtrip pubk a :
  get_address_bin true pubk = Ok a -> a <> [] ->
  exists s, get_address true pubk = Ok s /\ hex2bin s = a /\ blen s = 52.
Proof.
  intros Ha Hne. rewrite (get_address_hex pubk a Ha Hne). eexists. split; [done|].
  pose proof (get_address_bin_length pubk a Ha Hne) as Hl. split.
  - rewrite hex2bin_0x. rewrite is_empty_false by done. apply HexLookup_hex2bin.
  - rewrite blen_app. change (blen (str "0x")) with 2.
    assert (blen (concat (HexLookup <$> a)) = 2 * blen a) as E.
    { clear. induction a as [|b a IH]; [done|]. cbn [fmap list_fmap concat HexLookup app].
      rewrite !blen_cons, IH. lia. }
    rewrite E. unfold blen. rewrite Hl. done.
Qed.

(** Only the last 64 bytes of a key count: any DER prefix gives the address of
    the raw key. *)
Lemma get_address_suffix pre pubk c :
  length pubk = 64%nat ->
  get_address_comp true (pre ++ c :: pubk) = get_address_comp true (Byte.x04 :: pubk).
Proof.
  intros Hl. unfold get_address_comp. cbn [CHECK mbind res_bind].
  rewrite length_app. cbn [length]. rewrite Hl.
  destruct (Nat.leb_spec 65 (length pre + 65)); [|lia]. cbn [Nat.leb].
  replace (length pre + 65 - 65)%nat with (length pre) by lia.
  rewrite insert_app_r_alt, Nat.sub_diag by lia. cbn [insert list_insert].
  rewrite drop_app_length. done.
Qed.

End address_facts.
