(* ===== verification/Dumps.v ===== *)
(** * Block dumps on the wire: utils/compress.cpp and generate_json.cpp

    A single block is sent as it is, a batch as length-prefixed strings; either
    may be compressed with LZ4. *)
From S2P Require Import Prelude External Serialize.
#[local] Open Scope Z_scope.

Section dumps.
Context `{Lz4}.

(** The destination string, empty at first, and the result.  When LZ4 fails
    after the resize, the destination holds NULs. *)
(* src: utils/compress.cpp:34-63 compress_uint32_block *)
Definition compress_uint32_block (src : bytes) : bytes * bool :=
  if is_empty src then ([], false)
  else
    let size := to_i32 (blen src) in
    let bound_size := LZ4_compressBound size in
    if bound_size =? 0 then ([], false)
    else
      match LZ4_compress_default (take (Z.to_nat size) src) bound_size with
      | None => (replicate (Z.to_nat (bound_size + 4)) Byte.x00, false)
      | Some out => (le_bytes 4 (blen src) ++ out, true)
      end.

(* src: utils/compress.cpp:80-104 decompress_uint32_block *)
Definition decompress_uint32_block (src : bytes) (max_size : Z) : bytes * bool :=
  if blen src <=? 4 then ([], false)
  else
    let orig_size := le_value (take 4 src) in
    if max_size <? orig_size then ([], false)
    else
      match LZ4_decompress_safe (take (Z.to_nat (to_i32 (blen src - 4))) (drop 4 src)) (to_i32 orig_size) with
      | None => (replicate (Z.to_nat orig_size) Byte.x00, false)
      | Some out => (out, true)
      end.

(* src: utils/compress.cpp:106-110 compress *)
Definition compress (value : bytes) : bytes := (compress_uint32_block value).1.

(** [std::numeric_limits<uint32_t>::max()]. *)
(* src: utils/compress.cpp:112-116 decompress *)
Definition decompress (value : bytes) : bytes := (decompress_uint32_block value (2 ^ 32 - 1)).1.

(* src: generate_json.cpp:233-239 genDumpBlockBinary *)
Definition genDumpBlockBinary (block : bytes) (isCompress : bool) : bytes :=
  if negb isCompress then block else compress block.

(* src: generate_json.cpp:241-254 genDumpBlocksBinary *)
Definition genDumpBlocksBinary (blocks : list bytes) (isCompress : bool) : bytes :=
  let res := foldl (fun res block => res ++ serializeStringBigEndian block) [] blocks in
  if negb isCompress then res else compress res.

(* src: generate_json.cpp:256-262 parseDumpBlockBinary *)
Definition parseDumpBlockBinary (response : bytes) (isCompress : bool) : bytes :=
  if negb isCompress then response else decompress response.

(** The [while] loop.  [from] wraps around, so no fuel is enough for every
    input ([parse_loop_diverges]); [blen r] rounds are enough for an input whose
    positions only grow. *)
(* src: generate_json.cpp:268-270 parseDumpBlocksBinary, while *)
Fixpoint parse_loop (fuel : nat) (r : bytes) (from : Z) (res : list bytes) : Prelude.res (list bytes) :=
  if from <? blen r then
    match fuel with
    | O => OutOfFuel
    | S fuel' =>
        '(s, from) ← deserializeStringBigEndian r from;
        parse_loop fuel' r from (res ++ [s])
    end
  else Ok res.

(* src: generate_json.cpp:264-272 parseDumpBlocksBinary *)
Definition parseDumpBlocksBinary (fuel : nat) (response : bytes) (isCompress : bool)
    : Prelude.res (list bytes) :=
  let r := if isCompress then decompress response else response in
  parse_loop fuel r 0 [].

End dumps.

(** ** Lemmas *)

(** LZ4's input limit, [LZ4_MAX_INPUT_SIZE]. *)
Definition LZ4_MAX_INPUT_SIZE : Z := 2113929216.

Lemma decompress_compress_eq `{Lz4Laws} value :
  blen value <= LZ4_MAX_INPUT_SIZE -> LZ4_compressBound (blen value) < 2 ^ 31 - 4 ->
  decompress (compress value) = value.
Proof.
  unfold LZ4_MAX_INPUT_SIZE. intros Hl Hbd. unfold compress, decompress, compress_uint32_block.
  destruct value as [|c v]; [done|]. remember (c :: v) as value eqn:E.
  assert (0 < blen value) as Hpos by (subst value; rewrite blen_cons; pose proof (blen_nonneg v); lia).
  rewrite is_empty_false by (by subst value). clear E. rewrite to_i32_id by lia.
  pose proof (LZ4_compressBound_pos (blen value) ltac:(lia)) as Hb.
  rewrite (proj2 (Z.eqb_neq (LZ4_compressBound (blen value)) 0)) by lia.
  rewrite take_ge by (unfold blen; lia).
  destruct (LZ4_compress_ok value ltac:(lia)) as (dst & Hc & Hd & Hdec). rewrite Hc. cbn [fst].
  unfold decompress_uint32_block. rewrite blen_app.
  assert (blen (le_bytes 4 (blen value)) = 4) as H4 by (unfold blen; by rewrite length_le_bytes).
  rewrite H4. destruct (Z.leb_spec (4 + blen dst) 4); [lia|].
  rewrite take_app_length', drop_app_length' by (by rewrite length_le_bytes).
  rewrite le_value_bytes by lia. destruct (Z.ltb_spec (2 ^ 32 - 1) (blen value)); [lia|].
  rewrite Z.add_simpl_l, !to_i32_id by lia.
  rewrite take_ge by (unfold blen; lia). by rewrite Hdec.
Qed.

Lemma gen_fold blocks acc :
  foldl (fun res block => res ++ serializeStringBigEndian block) acc blocks
  = acc ++ concat (serializeString <$> blocks).
Proof.
  revert acc. induction blocks as [|b blocks IH]; intros acc; csimpl; [by rewrite app_nil_r|].
  rewrite IH. by rewrite <- app_assoc.
Qed.

Lemma parse_loop_suffix blocks r from acc fuel :
  suffix_at r from (concat (serializeString <$> blocks)) -> (length blocks <= fuel)%nat ->
  parse_loop fuel r from acc = Ok (acc ++ blocks).
Proof.
  revert from acc fuel. induction blocks as [|b blocks IH]; intros from acc fuel Hs Hf.
  - pose proof (suffix_at_blen _ _ _ Hs) as Hl. csimpl in Hl. rewrite blen_nil in Hl.
    destruct fuel; cbn [parse_loop]; (destruct (Z.ltb_spec from (blen r)); [lia|]);
      by rewrite app_nil_r.
  - csimpl in Hs. destruct fuel as [|fuel]; [simpl in Hf; lia|]. cbn [parse_loop].
    pose proof (suffix_at_blen _ _ _ Hs) as Hl. rewrite blen_app, blen_serializeString in Hl.
    pose proof (blen_nonneg b). pose proof (blen_nonneg (concat (serializeString <$> blocks))).
    destruct (Z.ltb_spec from (blen r)); [|lia].
    pose proof (deserializeString_suffix _ _ _ _ Hs) as Hd. unfold deserializeString in Hd.
    rewrite Hd. cbn [mbind res_bind]. apply suffix_at_app in Hs.
    rewrite (IH _ _ _ Hs) by (simpl in Hf; lia). by rewrite <- app_assoc.
Qed.

Lemma dumps_roundtrip_plain `{Lz4} blocks fuel :
  blen (genDumpBlocksBinary blocks false) < 2 ^ 64 - 16 -> (length blocks <= fuel)%nat ->
  parseDumpBlocksBinary fuel (genDumpBlocksBinary blocks false) false = Ok blocks.
Proof.
  unfold genDumpBlocksBinary, parseDumpBlocksBinary. cbn [negb]. rewrite gen_fold. cbn [app].
  intros Hl Hf. apply (parse_loop_suffix blocks _ 0 []); [|done]. by apply suffix_at_start.
Qed.

Lemma dumps_roundtrip_lz4 `{Lz4Laws} blocks fuel :
  let plain := genDumpBlocksBinary blocks false in
  blen plain <= LZ4_MAX_INPUT_SIZE -> LZ4_compressBound (blen plain) < 2 ^ 31 - 4 ->
  (length blocks <= fuel)%nat ->
  parseDumpBlocksBinary fuel (genDumpBlocksBinary blocks true) true = Ok blocks.
Proof.
  cbn zeta. intros Hl Hb Hf. unfold parseDumpBlocksBinary, genDumpBlocksBinary. cbn [negb].
  fold (genDumpBlocksBinary blocks false).
  assert (genDumpBlocksBinary blocks false
    = foldl (fun res block => res ++ serializeStringBigEndian block) [] blocks) as E by done.
  rewrite <- E. rewrite decompress_compress_eq by done.
  apply (dumps_roundtrip_plain blocks fuel); [|done]. unfold LZ4_MAX_INPUT_SIZE in Hl. lia.
Qed.

(** A length of [2^64 - 24] at position 16 leads back to position 0. *)
Definition looping_dump : bytes :=
  serializeString (replicate 8 Byte.x00) ++ serializeInt 8 (2 ^ 64 - 24).

Lemma parse_loop_diverges fuel acc : parse_loop fuel looping_dump 0 acc = OutOfFuel.
Proof.
  assert (forall fuel acc, parse_loop fuel looping_dump 0 acc = OutOfFuel
    /\ parse_loop fuel looping_dump 16 acc = OutOfFuel) as Hall; [|apply Hall].
  clear. induction fuel as [|fuel IH]; intros acc; [by vm_compute|].
  cbn [parse_loop].
  assert (deserializeStringBigEndian looping_dump 0 = Ok (replicate 8 Byte.x00, 16)) as E0
    by (vm_compute; reflexivity).
  assert (deserializeStringBigEndian looping_dump 16 = Ok ([], 0)) as E16
    by (vm_compute; reflexivity).
  rewrite E0, E16. cbn [mbind res_bind]. split.
  - destruct (0 <? blen looping_dump) eqn:E; [apply IH|by vm_compute in E].
  - destruct (16 <? blen looping_dump) eqn:E; [apply IH|by vm_compute in E].
Qed.
