(* ===== verification/CryptoUtils.v ===== *)
(** * utils/crypto.h, utils/crypto.cpp: wallets over OpenSSL

    Loading and writing keys, signing, checking and deriving addresses, as the
    file composes them from OpenSSL's calls; those are the interface [Evp].  The
    clean-up on each failure path frees what was made and throws the same
    exception again, and is left out. *)
From S2P Require Import Prelude External BlockchainUtils.
#[local] Open Scope Z_scope.

(** ** OpenSSL

    The keys in memory and their DER forms ([None]: the call fails); signing and
    checking the SHA-256 of the data that was put in, [EVP_DigestVerify] with the
    value [EVP_DigestVerifyFinal] returns.  The key [EVP_PKEY_keygen] makes is
    the one the interface holds. *)
Class Evp := {
  Pkey : Type;
  EVP_PKEY_keygen : option Pkey;
  d2i_PrivateKey_bio : bytes -> option Pkey;
  d2i_PUBKEY_bio : bytes -> option Pkey;
  i2d_PrivateKey_bio : Pkey -> option bytes;
  i2d_PUBKEY_bio : Pkey -> option bytes;
  EVP_DigestSign : Pkey -> bytes -> option bytes;
  EVP_DigestVerify : Pkey -> bytes -> bytes -> Z;
}.

Definition runtime_error {A} (what : bytes) : res A := Throw (ExcStd what).

(** ** Hexadecimal *)

(* src: utils/crypto.cpp:13-46 bin2hex *)
Definition bin2hex (message : bytes) : bytes := concat (HexLookup <$> message).

(** The same table and loop as BlockchainUtils.cpp has, in another name space. *)
(* src: utils/crypto.cpp:50-80 hex2bin *)
Definition crypto_hex2bin (src : bytes) : bytes :=
  let i := if (2 <? blen src) && bool_decide (take 2 src = str "0x") then 2%nat else 0%nat in
  hex2bin_loop (drop i src).

Section evp.
Context `{Crypto} `{Evp}.

(** ** Keys *)

(* src: utils/crypto.cpp:84-111 crypto_generate_keypair *)
Definition crypto_generate_keypair : res Pkey :=
  match EVP_PKEY_keygen with
  | Some ppkey => Ok ppkey
  | None => runtime_error (str "Cannot generate keys")
  end.

(* src: utils/crypto.cpp:114-153 crypto_dump_key *)
Definition crypto_dump_key (pkey : Pkey) (pubkey : bool) : res bytes :=
  bio ← (if pubkey then
           match i2d_PUBKEY_bio pkey with
           | Some b => Ok b
           | None => runtime_error (str "Cannot write public key to BIO")
           end
         else
           match i2d_PrivateKey_bio pkey with
           | Some b => Ok b
           | None => runtime_error (str "Cannot private write key to BIO")
           end);
  if is_empty bio then runtime_error (str "Cannot read BIO") else Ok bio.

(* src: utils/crypto.cpp:156-161 crypto_dump_private_key *)
Definition crypto_dump_private_key (pkey : Pkey) : res bytes := crypto_dump_key pkey false.

(* src: utils/crypto.cpp:164-169 crypto_dump_public_key *)
Definition crypto_dump_public_key (pkey : Pkey) : res bytes := crypto_dump_key pkey true.

(* src: utils/crypto.cpp:172-204 crypto_load_key *)
Definition crypto_load_key (key_buf : bytes) (pubkey : bool) : res Pkey :=
  if pubkey then
    match d2i_PUBKEY_bio key_buf with
    | Some ppkey => Ok ppkey
    | None => runtime_error (str "Cannot load public key from BIO")
    end
  else
    match d2i_PrivateKey_bio key_buf with
    | Some ppkey => Ok ppkey
    | None => runtime_error (str "Cannot load private key from BIO")
    end.

(* src: utils/crypto.cpp:206-211 crypto_load_private_key *)
Definition crypto_load_private_key (private_key_buf : bytes) : res Pkey := crypto_load_key private_key_buf false.

(* src: utils/crypto.cpp:214-219 crypto_load_public_key *)
Definition crypto_load_public_key (public_key_buf : bytes) : res Pkey := crypto_load_key public_key_buf true.

(** ** Addresses *)

(** The digest is of a kind that does not fail. *)
(* src: utils/crypto.cpp:222-254 digest_message *)
Definition digest_message (type : bytes -> bytes) (data : bytes) : res bytes := Ok (type data).

(** The last [n] bytes: counting back past the beginning is undefined. *)
Definition last_bytes (n : nat) (l : bytes) : res bytes :=
  if (length l <? n)%nat then UB else Ok (drop (length l - n) l).

(* src: utils/crypto.cpp:257-283 crypto_generate_address *)
Definition crypto_generate_address (public_key_buf : bytes) : res bytes :=
  buf1 ← last_bytes 65 public_key_buf;
  buf2 ← digest_message SHA256 buf1;
  buf3 ← digest_message RIPEMD160 buf2;
  let buf3 := Byte.x00 :: buf3 in
  buf1 ← digest_message SHA256 buf3;
  buf2 ← digest_message SHA256 buf1;
  if (length buf2 <? 4)%nat then UB
  else
    let address_buf := buf3 in
    Ok (address_buf ++ take 4 buf2).

(** ** Signatures *)

(** The data [EVP_DigestSignUpdate] and [EVP_DigestVerifyUpdate] take: the size
    passes through an [int]; a range beyond the data is not there to read. *)
(* src: utils/crypto.cpp:286-291 crypto_sign_data, data_size *)
Definition update_data (data : bytes) : res bytes :=
  let data_size := to_i32 (blen data) in
  let n := u64 data_size in
  if blen data <? n then UB else Ok (take (Z.to_nat n) data).

(* src: utils/crypto.cpp:286-334 crypto_sign_data *)
Definition crypto_sign_data (private_key data : bytes) : res bytes :=
  let private_key_buf := crypto_hex2bin private_key in
  pkey ← crypto_load_private_key private_key_buf;
  data ← update_data data;
  match EVP_DigestSign pkey data with
  | Some sign => Ok sign
  | None => runtime_error (str "Cannot obtain signature")
  end.

(* src: utils/crypto.cpp:337-383 crypto_check_sign_data *)
Definition CRYPTO_check (sign public_key data : bytes) : res bool :=
  let public_key_buf := crypto_hex2bin public_key in
  pkey ← crypto_load_public_key public_key_buf;
  data ← update_data data;
  let rc := EVP_DigestVerify pkey sign data in
  if rc =? 0 then Ok false
  else if rc =? 1 then Ok true
  else runtime_error (str "Serious error of signature verification").

(** ** Wallets *)

(* src: utils/crypto.h:8-14 CRYPTO_wallet *)
Record CRYPTO_wallet := mkCRYPTO_wallet {
  private_key_buf : bytes;
  public_key_buf : bytes;
  mh_address_buf : bytes;
  nonce : Z;
}.

(** The password is not used. *)
(* src: utils/crypto.cpp:386-404 CRYPTO_generate_wallet *)
Definition CRYPTO_generate_wallet (wallet : CRYPTO_wallet) : res CRYPTO_wallet :=
  pkey ← crypto_generate_keypair;
  pub ← crypto_dump_public_key pkey;
  priv ← crypto_dump_private_key pkey;
  address ← crypto_generate_address pub;
  Ok (mkCRYPTO_wallet priv pub address (nonce wallet)).

(* src: utils/crypto.cpp:407-419 CRYPTO_generate_wallet(private_key) *)
Definition CRYPTO_generate_wallet_hex : res (bytes * bytes * bytes) :=
  wallet ← CRYPTO_generate_wallet (mkCRYPTO_wallet [] [] [] 0);
  Ok (bin2hex (private_key_buf wallet), bin2hex (public_key_buf wallet), bin2hex (mh_address_buf wallet)).

(* src: utils/crypto.cpp:422-431 CRYPTO_init_wallet *)
Definition CRYPTO_init_wallet (wallet : CRYPTO_wallet) (private_key public_key mh_address : bytes) : CRYPTO_wallet :=
  mkCRYPTO_wallet (crypto_hex2bin private_key) (crypto_hex2bin public_key) (crypto_hex2bin mh_address)
    (nonce wallet).

(* src: utils/crypto.cpp:434-441 CRYPTO_sign_text *)
Definition CRYPTO_sign_text (private_key text : bytes) : res bytes := crypto_sign_data private_key text.

(* src: utils/crypto.cpp:444-451 CRYPTO_sign_data *)
Definition CRYPTO_sign_data (private_key data : bytes) : res bytes := crypto_sign_data private_key data.

(* src: utils/crypto.cpp:454-460 CRYPTO_check_sign_text *)
Definition CRYPTO_check_sign_text (sign public_key text : bytes) : res bool := CRYPTO_check sign public_key text.

(* src: utils/crypto.cpp:463-469 CRYPTO_check_sign_data *)
Definition CRYPTO_check_sign_data (sign public_key data : bytes) : res bool := CRYPTO_check sign public_key data.

(* src: utils/crypto.cpp:472-494 CRYPTO_generate_public *)
Definition CRYPTO_generate_public (private_key : bytes) : res bytes :=
  let private_key_buf := crypto_hex2bin private_key in
  pkey ← crypto_load_private_key private_key_buf;
  public_key_buf ← crypto_dump_public_key pkey;
  Ok (bin2hex public_key_buf).

(* src: utils/crypto.cpp:497-507 CRYPTO_generate_address *)
Definition CRYPTO_generate_address (public_key : bytes) : res bytes :=
  let public_key_buf := crypto_hex2bin public_key in
  mh_address_buf ← crypto_generate_address public_key_buf;
  Ok (bin2hex mh_address_buf).

(** A digest shorter than four bytes would be padded with zeros. *)
(* src: utils/crypto.cpp:510-528 CRYPTO_check_address *)
Definition CRYPTO_check_address (mh_address : bytes) : res bool :=
  let mh_address_buf := crypto_hex2bin mh_address in
  tail ← last_bytes 4 mh_address_buf;
  let buf1 := take (length mh_address_buf - 4) mh_address_buf in
  buf2 ← digest_message SHA256 buf1;
  buf1 ← digest_message SHA256 buf2;
  let buf1 := take 4 (buf1 ++ replicate 4 Byte.x00) in
  Ok (bool_decide (buf1 = tail)).

End evp.

(** ** Facts *)

(** What OpenSSL documents of its keys: a signature verifies under the public
    half of its key, whatever way the two are checked; a key written and read
    again has the same public half. *)
Class EvpLaws `{Crypto} `{Evp} := {
  evp_sign_verifies : forall k data sign pub,
    EVP_DigestSign k data = Some sign -> i2d_PUBKEY_bio k = Some pub ->
    exists k', d2i_PUBKEY_bio pub = Some k' /\ EVP_DigestVerify k' sign data = 1;
  evp_sign_ecdsa : forall k data sign pub,
    EVP_DigestSign k data = Some sign -> i2d_PUBKEY_bio k = Some pub ->
    d2i_PUBKEY_ok pub = true /\ d2i_ECDSA_SIG_ok sign = true /\ ECDSA_do_verify (SHA256 data) sign pub = true;
  evp_private_again : forall k priv, i2d_PrivateKey_bio k = Some priv ->
    exists k', d2i_PrivateKey_bio priv = Some k' /\ i2d_PUBKEY_bio k' = i2d_PUBKEY_bio k;
}.

Lemma HexLookup_not_0x c : HexLookup c <> str "0x".
Proof. by destruct c. Qed.

Lemma crypto_hex_roundtrip b : crypto_hex2bin (bin2hex b) = b.
Proof.
  unfold crypto_hex2bin, bin2hex. destruct b as [|c b]; [done|].
  rewrite bool_decide_false; [rewrite andb_false_r; apply HexLookup_hex2bin|].
  cbn [fmap list_fmap concat]. intros E. by apply (HexLookup_not_0x c).
Qed.

Section facts.
Context `{CryptoLaws} `{Evp}.

(** An address is 25 bytes, of which the last four check the others. *)
Lemma crypto_generate_address_ok pub :
  (65 <= length pub)%nat -> exists a, crypto_generate_address pub = Ok a /\ length a = 25%nat /\
    drop 21 a = take 4 (SHA256 (SHA256 (take 21 a))) /\
    take 21 a = Byte.x00 :: RIPEMD160 (SHA256 (drop (length pub - 65) pub)).
Proof.
  intros Hl. unfold crypto_generate_address, last_bytes, digest_message.
  destruct (Nat.ltb_spec (length pub) 65); [lia|]. cbn [mbind res_bind]. rewrite SHA256_length. cbn [Nat.ltb Nat.leb].
  eexists. split; [reflexivity|]. set (r := RIPEMD160 _).
  assert (length (Byte.x00 :: r) = 21%nat) as Hr by (cbn [length]; unfold r; by rewrite RIPEMD160_length).
  rewrite !(take_app_length' (Byte.x00 :: r)), (drop_app_length' (Byte.x00 :: r)) by done.
  split; [|by split]. rewrite length_app, Hr, length_take, SHA256_length. lia.
Qed.

Lemma CRYPTO_check_generated pub a :
  crypto_generate_address pub = Ok a -> CRYPTO_check_address (bin2hex a) = Ok true.
Proof.
  intros Ha. destruct (Nat.ltb_spec (length pub) 65) as [Hlt|Hge].
  { unfold crypto_generate_address, last_bytes in Ha. rewrite (proj2 (Nat.ltb_lt _ _)) in Ha by done. done. }
  destruct (crypto_generate_address_ok pub Hge) as (a' & Ha' & Hl & Hd & Ht). rewrite Ha in Ha'. injection Ha' as <-.
  unfold CRYPTO_check_address, last_bytes, digest_message. rewrite crypto_hex_roundtrip, Hl.
  cbn [Nat.ltb Nat.leb Nat.sub mbind res_bind]. rewrite Hd. do 2 f_equal. apply bool_decide_true.
  rewrite take_app_le; [done|]. rewrite SHA256_length. lia.
Qed.

(** The two ways to derive an address agree on keys that end in an uncompressed
    point. *)
Lemma address_agrees pub pre xy :
  pub = pre ++ Byte.x04 :: xy -> length xy = 64%nat ->
  exists a, crypto_generate_address pub = Ok a /\ get_address true pub = Ok (str "0x" ++ bin2hex a).
Proof.
  intros -> Hl. assert (length (pre ++ Byte.x04 :: xy) = (length pre + 65)%nat) as Hlen
    by (rewrite length_app; cbn [length]; lia).
  unfold crypto_generate_address, last_bytes, digest_message. rewrite Hlen.
  destruct (Nat.ltb_spec (length pre + 65) 65); [lia|]. cbn [mbind res_bind]. rewrite SHA256_length. cbn [Nat.ltb Nat.leb].
  eexists. split; [reflexivity|]. unfold get_address. rewrite get_address_suffix by done.
  unfold get_address_comp. cbn [CHECK mbind res_bind]. cbn [length]. rewrite Hl. cbn [Nat.leb Nat.sub insert list_insert].
  rewrite drop_0. replace (length pre + 65 - 65)%nat with (length pre) by lia. rewrite drop_app_length.
  rewrite (take_ge (Byte.x04 :: xy)) by (cbn [length]; lia).
  rewrite (take_ge (RIPEMD160 _)) by (rewrite RIPEMD160_length; lia).
  unfold bin2hex. cbn [mbind res_bind]. by rewrite fmap_app, concat_app.
Qed.

Lemma update_data_small data : blen data < 2 ^ 31 -> update_data data = Ok data.
Proof.
  intros Hl. pose proof (blen_nonneg data). unfold update_data.
  assert (u64 (to_i32 (blen data)) = blen data) as ->.
  { unfold to_i32, u64. change (2 ^ 31) with 2147483648 in *. cbn zeta.
    rewrite !(Z.mod_small (blen data)) by lia.
    repeat match goal with |- context [if ?c then _ else _] => destruct c eqn:? end;
    rewrite ?Z.ltb_lt, ?Z.ltb_ge, ?Z.leb_le, ?Z.leb_gt in *; rewrite ?Z.mod_small; lia. }
  rewrite (proj2 (Z.ltb_ge _ _)) by lia. by rewrite take_ge by (unfold blen; lia).
Qed.

(** A signature made with a private key passes the check with its public key. *)
Lemma sign_then_check `{!EvpLaws} priv k pub data sign :
  d2i_PrivateKey_bio priv = Some k -> i2d_PUBKEY_bio k = Some pub -> blen data < 2 ^ 31 ->
  CRYPTO_sign_text (bin2hex priv) data = Ok sign -> CRYPTO_check_sign_text sign (bin2hex pub) data = Ok true.
Proof.
  intros Hk Hp Hd Hs. unfold CRYPTO_sign_text, crypto_sign_data in Hs. rewrite crypto_hex_roundtrip in Hs.
  unfold crypto_load_private_key, crypto_load_key in Hs. rewrite Hk in Hs. cbn [mbind res_bind] in Hs.
  rewrite update_data_small in Hs by done. cbn [mbind res_bind] in Hs.
  destruct (EVP_DigestSign k data) as [s|] eqn:Es; [|done]. injection Hs as <-.
  destruct (evp_sign_verifies _ _ _ _ Es Hp) as (k' & Hk' & Hv).
  unfold CRYPTO_check_sign_text, CRYPTO_check, crypto_load_public_key, crypto_load_key.
  rewrite crypto_hex_roundtrip, Hk'. cbn [mbind res_bind]. rewrite update_data_small by done.
  cbn [mbind res_bind]. by rewrite Hv.
Qed.

End facts.
