(* ===== verification/PrivateKey.v ===== *)
(** * PrivateKey.h, PrivateKey.cpp: signed block dumps

    What the node asks of its private key is the record [Signer]; a dump is sent
    between its length and three strings: signature, public key and address. *)
From S2P Require Import Prelude External Serialize BlockchainUtils.
#[local] Open Scope Z_scope.

(** The operations of the class [PrivateKey] that its users call. *)
(* src: PrivateKey.h:9-36 PrivateKey *)
Record Signer := mkSigner {
  pk_sign : bytes -> res bytes;
  pk_public_key : bytes;
  pk_get_address : bytes;
}.

(* src: PrivateKey.h:38-43 BlockSignatureCheckResult *)
Record BlockSignatureCheckResult := mkBlockSignatureCheckResult {
  sr_block : bytes;
  sr_sign : bytes;
  sr_pubkey : bytes;
  sr_address : bytes;
}.

(* src: PrivateKey.cpp:96-98 makeFirstPartBlockSign *)
Definition makeFirstPartBlockSign (blockSize : Z) : bytes := serializeIntBigEndian 8 blockSize.

(* src: PrivateKey.cpp:100-114 makeBlockSign *)
Definition makeBlockSign (blockDump : bytes) (privateKey : Signer) : res bytes :=
  sign ← pk_sign privateKey blockDump;
  let pubkey := pk_public_key privateKey in
  let address := pk_get_address privateKey in
  let res := [] in
  let res := res ++ serializeStringBigEndian sign in
  let res := res ++ serializeStringBigEndian pubkey in
  let res := res ++ serializeStringBigEndian address in
  Ok res.

Section check.
Context `{Crypto} (isInitialized : bool).

(* src: PrivateKey.cpp:116-135 checkSignatureBlock *)
Definition checkSignatureBlock (blockDump : bytes) : res BlockSignatureCheckResult :=
  let from := 0 in
  '(block, from) ← deserializeStringBigEndian blockDump from;
  '(sign, from) ← deserializeStringBigEndian blockDump from;
  '(pubkey, from) ← deserializeStringBigEndian blockDump from;
  '(address, from) ← deserializeStringBigEndian blockDump from;
  let result := mkBlockSignatureCheckResult block sign pubkey address in
  _ ← CHECK (crypto_check_sign_data sign pubkey block) (str "Not validate");
  try_catch
    (calculatedAddress ← makeAddressFromSecpKey isInitialized pubkey;
     _ ← CHECK (bool_decide (calculatedAddress = address)) (str "Not validate");
     Ok result)
    (fun _ =>
      calculatedAddress ← get_address isInitialized pubkey;
      _ ← CHECK (bool_decide (calculatedAddress = address)) (str "Not validate");
      Ok result).

(* src: PrivateKey.cpp:137-140 getAddress *)
Definition getAddress (pubkey : bytes) : res bytes := get_address isInitialized pubkey.

(* src: PrivateKey.cpp:142-145 makeTestResultSign *)
Definition makeTestResultSign `{Support} (s : bytes) (privateKey : Signer) : res bytes :=
  sign ← pk_sign privateKey s;
  Ok (toHex sign).

(* src: PrivateKey.cpp:147-156 checkSignatureTest *)
Definition checkSignatureTest (text s : bytes) : res unit :=
  let from := 0 in
  '(sign, from) ← deserializeStringBigEndian s from;
  '(pubkey, from) ← deserializeStringBigEndian s from;
  '(address, from) ← deserializeStringBigEndian s from;
  _ ← CHECK (crypto_check_sign_data sign pubkey text) (str "Not validate");
  calculatedAddress ← makeAddressFromSecpKey isInitialized pubkey;
  CHECK (bool_decide (calculatedAddress = address)) (str "Not validate").

(* src: PrivateKey.cpp:158-160 verifySignature *)
Definition verifySignature (text sign pubkey : bytes) : bool :=
  crypto_check_sign_data sign pubkey text.

End check.

(** ** Lemmas *)

(** What a key promises: its signatures verify under its public key, and its
    address is that key's. *)
Class SignerLaws `{Crypto} (k : Signer) := {
  signer_verifies : forall data sign, blen data < 2 ^ 31 -> pk_sign k data = Ok sign ->
    crypto_check_sign_data sign (pk_public_key k) data = true;
  signer_address : get_address true (pk_public_key k) = Ok (pk_get_address k);
}.

(** The formats the two libraries accept: a SubjectPublicKeyInfo is a DER
    SEQUENCE, a raw secp256k1 point begins with 2, 3, 4, 6 or 7. *)
Class KeyFormats `{Crypto} := {
  d2i_PUBKEY_head : forall k, d2i_PUBKEY_ok k = true -> head k = Some Byte.x30;
  secp256k1_head : forall k p, secp256k1_uncompress k = Some p ->
    exists c, head k = Some c /\ b2z c <= 7;
}.

Section sign_facts.
Context `{CryptoLaws} `{!KeyFormats}.

(** A key whose signature verifies is not a raw secp256k1 point. *)
Lemma verified_key_not_raw sign pubkey data :
  crypto_check_sign_data sign pubkey data = true -> secp256k1_uncompress pubkey = None.
Proof.
  unfold crypto_check_sign_data, check_sign. intros Hc.
  destruct (d2i_PUBKEY_ok pubkey) eqn:Hd; [|done]. apply d2i_PUBKEY_head in Hd.
  destruct (secp256k1_uncompress pubkey) as [p|] eqn:Hs; [|done].
  apply secp256k1_head in Hs as (c & Hh & Hle). rewrite Hd in Hh. injection Hh as <-.
  vm_compute in Hle. done.
Qed.

Lemma checkSignatureTest_never text s : is_ok (checkSignatureTest true text s) = false.
Proof.
  unfold checkSignatureTest.
  destruct (deserializeStringBigEndian s 0) as [[sign p1]| | |]; cbn; [|done..].
  destruct (deserializeStringBigEndian s p1) as [[pubkey p2]| | |]; cbn; [|done..].
  destruct (deserializeStringBigEndian s p2) as [[addr p3]| | |]; cbn; [|done..].
  destruct (crypto_check_sign_data sign pubkey text) eqn:Hc; cbn; [|done].
  unfold makeAddressFromSecpKey. by rewrite (verified_key_not_raw _ _ _ Hc).
Qed.

(** What the receiver of a signed dump reads, whoever signed it. *)
Lemma checkSignatureBlock_parts k block tail :
  makeBlockSign block k = Ok tail ->
  blen (makeFirstPartBlockSign (blen block) ++ block ++ tail) < 2 ^ 64 - 16 ->
  exists sign, pk_sign k block = Ok sign /\
    checkSignatureBlock true (makeFirstPartBlockSign (blen block) ++ block ++ tail) =
    let result := mkBlockSignatureCheckResult block sign (pk_public_key k) (pk_get_address k) in
    _ ← CHECK (crypto_check_sign_data sign (pk_public_key k) block) (str "Not validate");
    try_catch
      (calculatedAddress ← makeAddressFromSecpKey true (pk_public_key k);
       _ ← CHECK (bool_decide (calculatedAddress = pk_get_address k)) (str "Not validate");
       Ok result)
      (fun _ =>
        calculatedAddress ← get_address true (pk_public_key k);
        _ ← CHECK (bool_decide (calculatedAddress = pk_get_address k)) (str "Not validate");
        Ok result).
Proof.
  intros Ht Hl. unfold makeBlockSign in Ht. apply bind_Ok_inv in Ht as (sign & Hs & Ht). exists sign.
  split; [done|]. cbn [app] in Ht. injection Ht as <-. set (raw := _ ++ _) in *.
  assert (suffix_at raw 0 (serializeString block ++ serializeString sign
    ++ serializeString (pk_public_key k) ++ serializeString (pk_get_address k) ++ [])) as Hsfx.
  { pose proof (suffix_at_start raw Hl) as Hr. rewrite app_nil_r. unfold raw in Hr at 2.
    rewrite <- !app_assoc in Hr. unfold serializeString, serializeStringBigEndian in *.
    rewrite <- !app_assoc in *. exact Hr. }
  unfold checkSignatureBlock.
  change (deserializeStringBigEndian raw) with (deserializeString raw). do 4 read_string Hsfx. done.
Qed.

(** A dump signed by the node passes the check of the node that receives it. *)
Lemma sign_check_roundtrip k (Hk : SignerLaws k) block tail :
  makeBlockSign block k = Ok tail -> blen block < 2 ^ 31 ->
  blen (makeFirstPartBlockSign (blen block) ++ block ++ tail) < 2 ^ 64 - 16 ->
  exists sign, pk_sign k block = Ok sign /\
    checkSignatureBlock true (makeFirstPartBlockSign (blen block) ++ block ++ tail)
    = Ok (mkBlockSignatureCheckResult block sign (pk_public_key k) (pk_get_address k)).
Proof.
  intros Ht Hb Hl. destruct (checkSignatureBlock_parts k block tail Ht Hl) as (sign & Hs & ->).
  pose proof (signer_verifies block sign Hb Hs) as Hv. exists sign. split; [done|].
  rewrite Hv. cbn [CHECK mbind res_bind].
  unfold makeAddressFromSecpKey. rewrite (verified_key_not_raw _ _ _ Hv). cbn [throwErr mbind res_bind try_catch].
  rewrite signer_address. cbn [mbind res_bind]. by rewrite bool_decide_true.
Qed.

(** What an accepted dump guarantees: its parts were read in order, the
    signature verifies, and the address is the key's. *)
Lemma checkSignatureBlock_sound dump r :
  checkSignatureBlock true dump = Ok r ->
  crypto_check_sign_data (sr_sign r) (sr_pubkey r) (sr_block r) = true /\
  get_address true (sr_pubkey r) = Ok (sr_address r).
Proof.
  unfold checkSignatureBlock. intros Hr. res_inv.
  match goal with Hc : crypto_check_sign_data _ ?k _ = true |- _ =>
    rename Hc into Hv; pose proof (verified_key_not_raw _ _ _ Hv) as Hn end.
  unfold makeAddressFromSecpKey in Hr. rewrite Hn in Hr.
  cbn [throwErr mbind res_bind try_catch] in Hr. res_inv.
  apply bool_decide_eq_true in Hx4 as ->. subst r. done.
Qed.

End sign_facts.
