(* ===== verification/Keys.v ===== *)
(** * PrivateKey.h, PrivateKey.cpp: the node's key

    The constructor first takes the 32 bytes from the eighth on for a secret of
    secp256k1; when that fails, or does not give the address the key was named
    after, it reads the whole as an OpenSSL key.  A key made the second way signs
    what the receiver of a dump accepts; a key made the first way does not. *)
From S2P Require Import Prelude External Serialize BlockchainUtils CryptoUtils PrivateKey.
#[local] Open Scope Z_scope.

(** secp256k1: the point of a secret, its uncompressed form, the signature of a
    digest and its DER form ([None]: the call fails). *)
Class Secp := {
  secp256k1_ec_pubkey_create : bytes -> option bytes;
  secp256k1_ec_pubkey_serialize : bytes -> option bytes;
  secp256k1_ecdsa_sign : bytes -> bytes -> option bytes;
  secp256k1_ecdsa_signature_serialize_der : bytes -> option bytes;
}.

(* src: PrivateKey.h:27-36 PrivateKey *)
Record PrivateKey := mkPrivateKey {
  k_privateKey : bytes;
  k_pubk : bytes;
  k_address : bytes;
  k_isSecp : bool;
}.

Section keys.
Context `{Support} `{Crypto} `{Evp} `{Secp}.
Variable isInitialized : bool.

(** [privateKey.data() + 7], of which the callees read 32 bytes. *)
Definition secret (key : bytes) : res bytes :=
  if (length key <? 39)%nat then UB else Ok (take 32 (drop 7 key)).

Definition CHECK_some (o : option bytes) (msg : bytes) : res bytes :=
  match o with Some b => Ok b | None => throwErr msg end.

(* src: PrivateKey.cpp:30-53 PrivateKey::PrivateKey *)
Definition PrivateKey_new (key addr : bytes) : res PrivateKey :=
  try_catch
    (seckey ← secret key;
     pubkey ← CHECK_some (secp256k1_ec_pubkey_create seckey) (str "Incorrect private key");
     pubk ← CHECK_some (secp256k1_ec_pubkey_serialize pubkey) (str "Incorrect pubkey");
     calculatedAddress ← get_address isInitialized pubk;
     _ ← CHECK (bool_decide (calculatedAddress = toLower addr)) (str "Incorrect private key or address");
     Ok (mkPrivateKey key pubk addr true))
    (fun _ =>
     pubkey ← CRYPTO_generate_public (toHex key);
     pubk ← fromHex pubkey;
     calculatedAddress ← CRYPTO_generate_address pubkey;
     let calculatedAddress := str "0x" ++ calculatedAddress in
     _ ← CHECK (bool_decide (calculatedAddress = toLower addr)) (str "Incorrect private key or address");
     Ok (mkPrivateKey key pubk addr false)).

(* src: PrivateKey.cpp:55-57 PrivateKey::public_key *)
Definition public_key (k : PrivateKey) : bytes := k_pubk k.

(* src: PrivateKey.cpp:59-61 PrivateKey::get_address *)
Definition PrivateKey_get_address (k : PrivateKey) : bytes := k_address k.

(* src: PrivateKey.cpp:83-94 PrivateKey::sign(data, size) *)
Definition sign_secp (k : PrivateKey) (data : bytes) : res bytes :=
  let hash := SHA256 data in
  seckey ← secret (k_privateKey k);
  signature ← CHECK_some (secp256k1_ecdsa_sign hash seckey) (str "Dont create signature");
  CHECK_some (secp256k1_ecdsa_signature_serialize_der signature) (str "Dont create signature").

(* src: PrivateKey.cpp:63-71 PrivateKey::sign(string) *)
Definition sign_string (k : PrivateKey) (data : bytes) : res bytes :=
  if k_isSecp k then sign_secp k data else CRYPTO_sign_text (toHex (k_privateKey k)) data.

(* src: PrivateKey.cpp:73-81 PrivateKey::sign(vector) *)
Definition sign_vector (k : PrivateKey) (data : bytes) : res bytes :=
  if k_isSecp k then sign_secp k data else CRYPTO_sign_data (toHex (k_privateKey k)) data.

(** The key as its users see it. *)
Definition signer_of (k : PrivateKey) : Signer :=
  mkSigner (sign_string k) (public_key k) (PrivateKey_get_address k).

End keys.

(** ** Facts *)

(** [toHex] writes lower-case hexadecimal. *)
Class HexLaws `{SupportLaws} := {
  toHex_text : forall b, toHex b = bin2hex b;
}.

(** The uncompressed form is 65 bytes, the first of which is 4. *)
Class SecpLaws `{Secp} := {
  secp256k1_serialize_head : forall p b, secp256k1_ec_pubkey_serialize p = Some b -> head b = Some Byte.x04;
}.

Section key_facts.
Context `{HexLaws} `{CryptoLaws} `{Evp} `{!EvpLaws} `{Secp} `{!SecpLaws}.

Lemma new_key_secp key addr k :
  PrivateKey_new true key addr = Ok k -> k_isSecp k = true ->
  k_address k = addr /\ head (k_pubk k) = Some Byte.x04.
Proof.
  unfold PrivateKey_new. intros Hk Hs. match type of Hk with try_catch ?m _ = _ => destruct m as [k'|[msg|msg|msg|]| |] eqn:Hm end;
    cbn [try_catch] in Hk; try discriminate Hk.
  - injection Hk as ->. apply bind_Ok_inv in Hm as (sk & _ & Hm). apply bind_Ok_inv in Hm as (pt & _ & Hm).
    apply bind_Ok_inv in Hm as (pb & Hpb & Hm). apply bind_Ok_inv in Hm as (a & _ & Hm).
    apply bind_Ok_inv in Hm as (u & _ & Hm). injection Hm as <-. cbn. split; [done|].
    unfold CHECK_some in Hpb. destruct (secp256k1_ec_pubkey_serialize pt) eqn:E; [|done]. injection Hpb as <-.
    by apply secp256k1_serialize_head in E.
  - res_inv. by subst k.
Qed.

Lemma new_key_openssl key addr k :
  PrivateKey_new true key addr = Ok k -> k_isSecp k = false ->
  k_privateKey k = key /\ k_address k = addr /\ exists pkey a,
    d2i_PrivateKey_bio key = Some pkey /\ i2d_PUBKEY_bio pkey = Some (k_pubk k) /\
    crypto_generate_address (k_pubk k) = Ok a /\ toLower addr = str "0x" ++ bin2hex a.
Proof.
  unfold PrivateKey_new. intros Hk Hs. match type of Hk with try_catch ?m _ = _ => destruct m as [k'|[msg|msg|msg|]| |] eqn:Hm end;
    cbn [try_catch] in Hk; try discriminate Hk.
  - injection Hk as ->. res_inv. by subst k.
  - apply bind_Ok_inv in Hk as (pub & Hpub & Hk). apply bind_Ok_inv in Hk as (pb & Hpb & Hk).
    apply bind_Ok_inv in Hk as (a & Ha & Hk). apply bind_Ok_inv in Hk as (u & Hc & Hk). injection Hk as <-. cbn.
    split; [done|]. split; [done|]. unfold CRYPTO_generate_public in Hpub.
    rewrite toHex_text, crypto_hex_roundtrip in Hpub.
    apply bind_Ok_inv in Hpub as (pkey & Hpkey & Hpub). apply bind_Ok_inv in Hpub as (buf & Hbuf & Hpub).
    injection Hpub as <-. rewrite <- toHex_text, fromHex_toHex in Hpb. injection Hpb as <-.
    unfold CRYPTO_generate_address in Ha. rewrite crypto_hex_roundtrip in Ha.
    apply bind_Ok_inv in Ha as (ad & Had & Ha). injection Ha as <-.
    apply CHECK_Ok_inv, bool_decide_eq_true in Hc.
    unfold crypto_load_private_key, crypto_load_key in Hpkey.
    destruct (d2i_PrivateKey_bio key) as [pk|]; [|done]. injection Hpkey as <-.
    unfold crypto_dump_public_key, crypto_dump_key in Hbuf.
    destruct (i2d_PUBKEY_bio pk) as [b|] eqn:Eb; [|done]. cbn [mbind res_bind] in Hbuf.
    destruct (is_empty b); [done|]. injection Hbuf as <-. exists pk, ad. by rewrite Hc.
Qed.

(** A key read by OpenSSL keeps the promise to the receivers of its dumps, when
    it was named in lower case. *)
Lemma openssl_key_signs key addr k pre xy :
  PrivateKey_new true key addr = Ok k -> k_isSecp k = false -> toLower addr = addr ->
  k_pubk k = pre ++ Byte.x04 :: xy -> length xy = 64%nat -> SignerLaws (signer_of k).
Proof.
  intros Hk Hs Hlow Hpt Hxy. destruct (new_key_openssl key addr k Hk Hs) as (Hkey & Haddr & pkey & a & Hpk & Hpub & Ha & Htxt).
  split.
  - intros data sign Hd Hsg. cbn [pk_sign pk_public_key signer_of] in *. unfold sign_string in Hsg. rewrite Hs, toHex_text in Hsg.
    unfold CRYPTO_sign_text, crypto_sign_data in Hsg. rewrite crypto_hex_roundtrip, Hkey in Hsg.
    unfold crypto_load_private_key, crypto_load_key in Hsg. rewrite Hpk in Hsg. cbn [mbind res_bind] in Hsg.
    rewrite update_data_small in Hsg by done. cbn [mbind res_bind] in Hsg.
    destruct (EVP_DigestSign pkey data) as [sg|] eqn:E; [|done]. injection Hsg as <-.
    destruct (evp_sign_ecdsa _ _ _ _ E Hpub) as (H1' & H2' & H3').
    unfold crypto_check_sign_data, check_sign, CheckBufferSignature, public_key. by rewrite H1', H2', H3'.
  - cbn [pk_get_address pk_public_key signer_of]. unfold public_key, PrivateKey_get_address.
    destruct (address_agrees (k_pubk k) pre xy Hpt Hxy) as (a' & Ha' & ->). rewrite Ha in Ha'. injection Ha' as <-.
    by rewrite Haddr, <- Htxt, Hlow.
Qed.

(** A key taken for a raw secp256k1 secret does not: its public key is a raw
    point, which the check does not read. *)
Lemma secp_key_refused `{!KeyFormats} key addr k block tail :
  PrivateKey_new true key addr = Ok k -> k_isSecp k = true -> makeBlockSign block (signer_of k) = Ok tail ->
  blen (makeFirstPartBlockSign (blen block) ++ block ++ tail) < 2 ^ 64 - 16 ->
  checkSignatureBlock true (makeFirstPartBlockSign (blen block) ++ block ++ tail) = throwErr (str "Not validate").
Proof.
  intros Hk Hs Ht Hl. destruct (new_key_secp key addr k Hk Hs) as [Haddr Hhead].
  destruct (checkSignatureBlock_parts (signer_of k) block tail Ht Hl) as (sign & _ & ->).
  unfold crypto_check_sign_data, check_sign. cbn [pk_public_key signer_of]. unfold public_key.
  destruct (d2i_PUBKEY_ok (k_pubk k)) eqn:E; [|done]. apply d2i_PUBKEY_head in E. congruence.
Qed.

End key_facts.
