(* ===== verification/BlockchainRead.v ===== *)
(** * BlockchainRead.h, BlockchainRead.cpp: the block file format

    A block file is a sequence of records, the block's size and the block; a
    block is its header and its transactions, ended by an empty one.  The
    parser moves a pointer through a buffer: pointers are offsets into [raw],
    which lies at the address [base], so that the bounds tests are the source's
    pointer comparisons; a pointer beyond the address space, or a read beyond
    the buffer, is undefined.  A file is its contents. *)
From S2P Require Import Prelude External Address BlockInfo BlockchainUtils.
#[local] Open Scope Z_scope.

(* src: BlockchainRead.cpp:26-26 BLOCK_HEADER_SIZE *)
Definition BLOCK_HEADER_SIZE : Z := 3 * 8 + 64.

(** ** Files *)

(** [seekg(pos)]: fails beyond the largest file offset. *)
(* src: BlockchainRead.cpp:54-58 seekFile *)
Definition seekFile (pos : Z) : res Z :=
  _ ← CHECK (pos <? 2 ^ 63) (str "Incorrect seek operations");
  Ok pos.

(* src: BlockchainRead.cpp:60-64 fileSize *)
Definition fileSize (file : bytes) : Z := blen file.

(** [read] of [n] bytes into a zeroed buffer of that size. *)
Definition file_read (file : bytes) (pos n : Z) : bytes :=
  let got := take (Z.to_nat n) (drop (Z.to_nat pos) file) in
  got ++ replicate (Z.to_nat n - length got) Byte.x00.

(** The new contents of the file, and the old size. *)
(* src: BlockchainRead.cpp:72-80 saveBlockToFileBinary *)
Definition saveBlockToFileBinary (file data : bytes) : bytes * Z :=
  let oldSize := fileSize file in
  let blockSizeStr := le_bytes 8 (blen data) in
  (file ++ blockSizeStr ++ data, oldSize).

(* src: BlockchainRead.cpp:82-86 saveTransactionToFile *)
Definition saveTransactionToFile (file data : bytes) : bytes * Z :=
  (file ++ data, fileSize file).

(** ** Reading from a buffer *)

Section buffer.
Variables (base : Z) (raw : bytes).

(** [CHECK(cur_pos + n <= end_pos, "Out of the array")]. *)
Definition check_room (cur_pos n end_pos : Z) : res unit :=
  if 2 ^ 64 <=? base + cur_pos + n then UB
  else CHECK (cur_pos + n <=? end_pos) (str "Out of the array").

(** The bytes at [cur_pos]. *)
Definition load (cur_pos n : Z) : res bytes :=
  if (cur_pos <? 0) || (blen raw <? cur_pos + n) then UB
  else Ok (take (Z.to_nat n) (drop (Z.to_nat cur_pos) raw)).

(** [readInt<T>], [w = sizeof(T)]: the value and the new position. *)
(* src: BlockchainRead.cpp:138-144 readInt *)
Definition readInt (w : Z) (cur_pos end_pos : Z) : res (Z * Z) :=
  _ ← check_room cur_pos w end_pos;
  t ← load cur_pos w;
  Ok (le_value t, cur_pos + w).

(* src: BlockchainRead.cpp:146-161 readVarInt *)
Definition readVarInt (cur_pos end_pos : Z) : res (Z * Z) :=
  _ ← check_room cur_pos 1 end_pos;
  t ← load cur_pos 1;
  let len := le_value t in
  let cur_pos := cur_pos + 1 in
  if len <=? 249 then Ok (len, cur_pos)
  else if len =? 250 then readInt 2 cur_pos end_pos
  else if len =? 251 then readInt 4 cur_pos end_pos
  else if len =? 252 then readInt 8 cur_pos end_pos
  else throwErr (str "Not supported varint value").

Context `{Support}.

Definition set_bh_fields (block_type block_ts : Z) (prevHash txsHash : bytes) (b : BlockHeader) : BlockHeader :=
  mkBlockHeader block_ts (bh_blockSize b) block_type (bh_hash b) prevHash (bh_signature b) txsHash
    (bh_countTxs b) (bh_filePos b) (bh_endBlockPos b) (bh_blockNumber b) (bh_senderSign b)
    (bh_senderPubkey b) (bh_senderAddress b).

(* src: BlockchainRead.cpp:88-107 readBlockHeaderWithoutSize *)
Definition readBlockHeaderWithoutSize (begin_pos end_pos : Z) (bi : BlockHeader) : res BlockHeader :=
  let cur_pos := begin_pos in
  _ ← check_room cur_pos 8 end_pos;
  block_type ← load cur_pos 8;
  let cur_pos := cur_pos + 8 in
  _ ← check_room cur_pos 8 end_pos;
  block_ts ← load cur_pos 8;
  let cur_pos := cur_pos + 8 in
  _ ← check_room cur_pos 32 end_pos;
  prevHash ← load cur_pos 32;
  let cur_pos := cur_pos + 32 in
  _ ← check_room cur_pos 32 end_pos;
  txsHash ← load cur_pos 32;
  Ok (set_bh_fields (le_value block_type) (le_value block_ts) (toHex prevHash) (toHex txsHash) bi).

Definition set_bh_blockSize (n : Z) (b : BlockHeader) : BlockHeader :=
  mkBlockHeader (bh_timestamp b) n (bh_blockType b) (bh_hash b) (bh_prevHash b) (bh_signature b)
    (bh_txsHash b) (bh_countTxs b) (bh_filePos b) (bh_endBlockPos b) (bh_blockNumber b)
    (bh_senderSign b) (bh_senderPubkey b) (bh_senderAddress b).

(* src: BlockchainRead.cpp:109-118 readBlockHeader(begin_pos, end_pos) *)
Definition readBlockHeader (begin_pos end_pos : Z) (bi : BlockHeader) : res BlockHeader :=
  let cur_pos := begin_pos in
  _ ← check_room cur_pos 8 end_pos;
  block_size ← load cur_pos 8;
  readBlockHeaderWithoutSize (cur_pos + 8) end_pos (set_bh_blockSize (le_value block_size) bi).

(** ** Transactions *)

(* src: BlockchainRead.cpp:172-176 PrevTransactionSignHelper *)
Record PrevTransactionSignHelper := mkPrevTransactionSignHelper {
  ph_isFirst : bool;
  ph_isPrevSign : bool;
  ph_prevTxData : bytes;
}.
Definition PrevTransactionSignHelper_default : PrevTransactionSignHelper :=
  mkPrevTransactionSignHelper false false [].

(* src: BlockchainRead.cpp:178-183 isSignBlockTx *)
Definition isSignBlockTx (txInfo : TransactionInfo) (helper : PrevTransactionSignHelper) : res bool :=
  if negb (ph_isPrevSign helper) then Ok false
  else
    eq ← Address_eq (ti_fromAddress txInfo) (ti_toAddress txInfo);
    Ok (eq && (ti_value txInfo =? 0)
        && (ph_isFirst helper
            || (bool_decide (ti_data txInfo = ph_prevTxData helper) && negb (is_empty (ti_data txInfo))))).

Context `{Crypto} `{Rapidjson}.

(** [std::stoull]: leading white space, a sign, decimal digits; [None] when it
    throws. *)
Fixpoint stoull_digits (acc : Z) (s : bytes) : Z :=
  match s with
  | c :: s' => if (48 <=? b2z c) && (b2z c <=? 57) then stoull_digits (acc * 10 + (b2z c - 48)) s' else acc
  | [] => acc
  end.
Fixpoint stoull (s : bytes) : option Z :=
  match s with
  | [] => None
  | c :: s' =>
      let z := b2z c in
      let number neg t :=
        match t with
        | d :: _ =>
            if (48 <=? b2z d) && (b2z d <=? 57) then
              let v := stoull_digits 0 t in
              if u64_max <? v then None else Some (u64 (if neg : bool then - v else v))
            else None
        | [] => None
        end in
      if (z =? 32) || ((9 <=? z) && (z <=? 13)) then stoull s'
      else if z =? 45 then number true s'
      else if z =? 43 then number false s'
      else number false s
  end.

(** The document in braces a transaction's data holds. *)
Definition data_document (data : bytes) : option json :=
  match head data, last data with
  | Some first, Some final =>
      if bool_decide (first = Byte.x7b) && bool_decide (final = Byte.x7d) then json_parse data else None
  | _, _ => None
  end.

(** The value of an undelegation is not assigned in the source; it is 0 here
    and nothing reads it. *)
(* src: BlockchainRead.cpp:221-249 readTransactionInfo, delegate *)
Definition read_delegate (data : bytes) (old : option DelegateInfo) : res (option DelegateInfo) :=
  match data_document data with
  | None => Ok old
  | Some doc =>
      method ← json_string doc (str "method");
      match method with
      | None => Ok old
      | Some method =>
          if bool_decide (method = str "delegate") then
            params ← json_member doc (str "params");
            match params with
            | Some (JObject p) =>
                value ← json_string (JObject p) (str "value");
                Ok (match value ≫= stoull with
                    | Some v => Some (mkDelegateInfo (to_i64 v) true)
                    | None => old
                    end)
            | _ => Ok old
            end
          else if bool_decide (method = str "undelegate") then Ok (Some (mkDelegateInfo 0 false))
          else Ok old
      end
  end.

(* src: BlockchainRead.cpp:259-272 readTransactionInfo, scriptInfo *)
Definition read_isInitializeScript (data : bytes) : res bool :=
  match data_document data with
  | None => Ok false
  | Some doc =>
      method ← json_string doc (str "method");
      Ok (match method with Some method => bool_decide (method = str "compile") | None => false end)
  end.

(* src: BlockchainRead.cpp:218-220 readTransactionInfo, isBlockedFrom *)
Definition is_blocked_from (data : bytes) : bool :=
  (blen data =? 9) && match head data with Some c => b2z c =? 1 | None => false end.

Variable isInitialized : bool.

(** The size returned, the position returned, and the transaction. *)
(* src: BlockchainRead.cpp:185-333 readTransactionInfo *)
Definition readTransactionInfo (cur_pos end_pos : Z) (txInfo : TransactionInfo)
    (isParseTx isSaveAllTx : bool) (helper : PrevTransactionSignHelper) (isValidate : bool)
    : res (Z * Z * TransactionInfo) :=
  let allTxStart := cur_pos in
  '(tx_size, cur_pos) ← readVarInt cur_pos end_pos;
  if tx_size =? 0 then Ok (0, cur_pos, txInfo)
  else
    _ ← check_room cur_pos tx_size end_pos;
    let end_pos := cur_pos + tx_size in
    if negb isParseTx then Ok (tx_size, end_pos, txInfo)
    else
      let tx_start := cur_pos in
      _ ← check_room cur_pos 25 end_pos;
      toadr ← load cur_pos 25;
      let toAddress := Address_of_range toadr in
      let cur_pos := cur_pos + 25 in
      '(value, cur_pos) ← readVarInt cur_pos end_pos;
      '(fees, cur_pos) ← readVarInt cur_pos end_pos;
      '(nonce, cur_pos) ← readVarInt cur_pos end_pos;
      '(dataSize, cur_pos) ← readVarInt cur_pos end_pos;
      data ← load cur_pos dataSize;
      let cur_pos := cur_pos + dataSize in
      let isBlockedFrom := is_blocked_from data in
      delegate ← (if isBlockedFrom then Ok (ti_delegate txInfo) else read_delegate data (ti_delegate txInfo));
      isScript ← isScriptAddress toAddress;
      scriptInit ← (if isScript : bool then Some <$> read_isInitializeScript data else Ok None);
      let endClearTx := cur_pos in
      '(signSize, cur_pos) ← readVarInt cur_pos end_pos;
      _ ← check_room cur_pos signSize end_pos;
      sign ← load cur_pos signSize;
      let cur_pos := cur_pos + signSize in
      '(pubkeySize, cur_pos) ← readVarInt cur_pos end_pos;
      _ ← check_room cur_pos pubkeySize end_pos;
      pubKey ← (if negb (pubkeySize =? 0) then load cur_pos pubkeySize else Ok (ti_pubKey txInfo));
      let fromAddress :=
        if negb (pubkeySize =? 0) then ti_fromAddress txInfo else setEmpty (ti_fromAddress txInfo) in
      let cur_pos := cur_pos + pubkeySize in
      '(intStatus, tx_hash_size, cur_pos) ←
        (if cur_pos <? end_pos then
           '(s, p) ← readVarInt cur_pos end_pos;
           Ok (Some s, u64 (tx_size - (p - cur_pos)), p)
         else Ok (ti_intStatus txInfo, tx_size, cur_pos));
      let allTxEnd := cur_pos in
      fromAddress ←
        (if negb (is_empty pubKey) then
           binAddress ← get_address_bin isInitialized pubKey;
           _ ← CHECK (negb (is_empty binAddress)) (str "incorrect pubkey script");
           Address_of_vector binAddress isBlockedFrom
         else Ok fromAddress);
      hashed ← load tx_start tx_hash_size;
      tx_hash ← get_double_sha256 isInitialized hashed;
      clear ← load tx_start (endClearTx - tx_start);
      allRaw ← (if isSaveAllTx then load allTxStart (allTxEnd - allTxStart) else Ok (ti_allRawTx txInfo));
      let tx := mkTransactionInfo tx_hash fromAddress toAddress (to_i64 value) (to_i64 fees) nonce
        (ti_blockNumber txInfo) tx_size (ti_isSaveToBd txInfo) (ti_isSignBlockTx txInfo) intStatus
        sign pubKey data allRaw (ti_realFees txInfo) delegate
        (match scriptInit with
         | Some i => Some (mkScriptInfo clear i)
         | None => (fun si => mkScriptInfo clear (si_isInitializeScript si)) <$> ti_scriptInfo txInfo
         end)
        (ti_filePos txInfo) (ti_status txInfo) (isScript || ti_isModuleNotSet txInfo) (ti_isInitialized txInfo) in
      isSign ← isSignBlockTx tx helper;
      _ ← (if isValidate then
             initial ← isInitialWallet fromAddress;
             if negb (initial : bool)
             then CHECK (crypto_check_sign_data sign pubKey clear) (str "Not validate")
             else Ok tt
           else Ok tt);
      realFees ← calcRealFee tx_size;
      Ok (tx_size, cur_pos,
          mkTransactionInfo tx_hash fromAddress toAddress (to_i64 value) (to_i64 fees) nonce
            (ti_blockNumber txInfo) tx_size (ti_isSaveToBd txInfo) isSign intStatus sign pubKey data
            allRaw (Some realFees) delegate (ti_scriptInfo tx) (ti_filePos txInfo) (ti_status txInfo)
            (ti_isModuleNotSet tx) true).

(** ** Blocks *)

(** [TransactionInfo txInfo; txInfo.filePos.pos = ...]. *)
Definition fresh_tx (pos : Z) : TransactionInfo :=
  set_ti_filePos (mkFilePosition pos []) TransactionInfo_default.

(** The [do] loop: [txs] is [bi.txs].  Every round moves [cur_pos] forward
    within the buffer, so [S (length raw)] rounds are enough
    ([readBlockTxs_loop_terminates]). *)
(* src: BlockchainRead.cpp:369-390 readBlockTxs, do *)
Fixpoint readBlockTxs_loop (fuel : nat) (begin_pos end_pos posInFile : Z) (isSaveAllTx : bool)
    (beginTx countTx : Z) (isValidate : bool) (cur_pos txIndex : Z)
    (helper : PrevTransactionSignHelper) (txs : list TransactionInfo) : res (list TransactionInfo) :=
  match fuel with
  | O => OutOfFuel
  | S fuel' =>
      let txInfo := fresh_tx (u64 (cur_pos - begin_pos + posInFile + 8)) in
      let isReadTransaction := beginTx <=? txIndex in
      '(tx_size, cur_pos, txInfo) ←
        readTransactionInfo cur_pos end_pos txInfo isReadTransaction isSaveAllTx helper isValidate;
      let txs := if ti_isInitialized txInfo && isReadTransaction then txs ++ [txInfo] else txs in
      if negb (countTx =? 0) && (countTx <=? blen txs) then Ok txs
      else
        let helper := mkPrevTransactionSignHelper false (ti_isSignBlockTx txInfo) (ti_data txInfo) in
        let txIndex := u64 (txIndex + 1) in
        if 0 <? tx_size then
          readBlockTxs_loop fuel' begin_pos end_pos posInFile isSaveAllTx beginTx countTx isValidate
            cur_pos txIndex helper txs
        else Ok txs
  end.

Definition set_bh_hash (h : bytes) (b : BlockHeader) : BlockHeader :=
  mkBlockHeader (bh_timestamp b) (bh_blockSize b) (bh_blockType b) h (bh_prevHash b) (bh_signature b)
    (bh_txsHash b) (bh_countTxs b) (bh_filePos b) (bh_endBlockPos b) (bh_blockNumber b)
    (bh_senderSign b) (bh_senderPubkey b) (bh_senderAddress b).
Definition set_bh_countTxs (n : Z) (b : BlockHeader) : BlockHeader :=
  mkBlockHeader (bh_timestamp b) (bh_blockSize b) (bh_blockType b) (bh_hash b) (bh_prevHash b)
    (bh_signature b) (bh_txsHash b) (Some n) (bh_filePos b) (bh_endBlockPos b) (bh_blockNumber b)
    (bh_senderSign b) (bh_senderPubkey b) (bh_senderAddress b).
Definition set_bh_signature (s : bytes) (b : BlockHeader) : BlockHeader :=
  mkBlockHeader (bh_timestamp b) (bh_blockSize b) (bh_blockType b) (bh_hash b) (bh_prevHash b) s
    (bh_txsHash b) (bh_countTxs b) (bh_filePos b) (bh_endBlockPos b) (bh_blockNumber b)
    (bh_senderSign b) (bh_senderPubkey b) (bh_senderAddress b).
Definition set_bh_endBlockPos (p : Z) (b : BlockHeader) : BlockHeader :=
  mkBlockHeader (bh_timestamp b) (bh_blockSize b) (bh_blockType b) (bh_hash b) (bh_prevHash b)
    (bh_signature b) (bh_txsHash b) (bh_countTxs b) (bh_filePos b) p (bh_blockNumber b)
    (bh_senderSign b) (bh_senderPubkey b) (bh_senderAddress b).

(** [begin_pos] and [end_pos] are the ends of the buffer. *)
(* src: BlockchainRead.cpp:355-401 readBlockTxs *)
Definition readBlockTxs (posInFile : Z) (bi : BlockInfo) (isSaveAllTx : bool) (beginTx countTx : Z)
    (isValidate : bool) : res BlockInfo :=
  let end_pos := blen raw in
  let cur_pos := BLOCK_HEADER_SIZE - 8 in
  block_hash ← get_double_sha256 isInitialized raw;
  let header := set_bh_hash (toHex block_hash) (bi_header bi) in
  txs ← readBlockTxs_loop (S (length raw)) 0 end_pos posInFile isSaveAllTx beginTx countTx isValidate
          cur_pos 0 (mkPrevTransactionSignHelper true true []) (bi_txs bi);
  let header := if countTx =? 0 then set_bh_countTxs (blen txs) header else header in
  header ←
    match txs with
    | tx :: _ =>
        eq ← Address_eq (ti_fromAddress tx) (ti_toAddress tx);
        Ok (if eq && (ti_value tx =? 0) then set_bh_signature (ti_data tx) header else header)
    | [] => Ok header
    end;
  Ok (mkBlockInfo header txs).

(* src: BlockchainRead.cpp:430-436 readNextBlockInfo(begin_pos, end_pos) *)
Definition readNextBlockInfo (posInFile : Z) (bi : BlockInfo) (isValidate isSaveAllTx : bool)
    (beginTx countTx : Z) : res BlockInfo :=
  header ← readBlockHeaderWithoutSize 0 (blen raw) (bi_header bi);
  bi ← readBlockTxs posInFile (mkBlockInfo header (bi_txs bi)) isSaveAllTx beginTx countTx isValidate;
  let header := set_bh_blockSize (blen raw) (bi_header bi) in
  let header := set_bh_filePos (mkFilePosition posInFile (fp_fileName (bh_filePos header))) header in
  let header := set_bh_endBlockPos (u64 (posInFile + bh_blockSize header + 8)) header in
  Ok (mkBlockInfo header (bi_txs bi)).

End buffer.

(** ** Reading from a file *)

(** A [std::string] or [std::vector] of [n] bytes: beyond the largest size the
    constructor throws. *)
Definition alloc (n : Z) : res unit :=
  if 2 ^ 62 <=? n then Throw (ExcStd (str "length_error")) else Ok tt.

Section file.
Context `{Support} `{Crypto} `{Rapidjson}.
Variables (isInitialized : bool) (base : Z) (ifile : bytes).

(** [None] for [false]. *)
(* src: BlockchainRead.cpp:120-136 readBlockHeader(ifile) *)
Definition readBlockHeader_file (currPos f_size : Z) (bi : BlockHeader) : res (option BlockHeader) :=
  if f_size <=? currPos then Ok None
  else if BLOCK_HEADER_SIZE <=? f_size - currPos then
    let bi := set_bh_filePos (mkFilePosition currPos (fp_fileName (bh_filePos bi))) bi in
    pos ← seekFile currPos;
    let fh_buff := file_read ifile pos BLOCK_HEADER_SIZE in
    Some <$> readBlockHeader base fh_buff 0 (blen fh_buff) bi
  else Ok None.

(** The position returned, the block and its dump; an unchanged position means
    that the file does not hold a whole block there. *)
(* src: BlockchainRead.cpp:403-428 readNextBlockInfo(ifile) *)
Definition readNextBlockInfo_file (currPos : Z) (bi : BlockInfo) (blockDump : bytes)
    (isValidate isSaveAllTx : bool) (beginTx countTx : Z) : res (Z * BlockInfo * bytes) :=
  let f_size := fileSize ifile in
  r ← readBlockHeader_file currPos f_size (bi_header bi);
  match r with
  | None => Ok (currPos, bi, blockDump)
  | Some header =>
      let bi := mkBlockInfo header (bi_txs bi) in
      if f_size - currPos <? u64 (bh_blockSize header + 8) then Ok (currPos, bi, blockDump)
      else
        let b_size := bh_blockSize header in
        _ ← alloc b_size;
        pos ← seekFile (u64 (currPos + 8));
        let blockDump := file_read ifile pos b_size in
        bi ← readBlockTxs base blockDump isInitialized currPos bi isSaveAllTx beginTx countTx isValidate;
        let currPos := u64 (currPos + u64 (bh_blockSize (bi_header bi) + 8)) in
        Ok (currPos, mkBlockInfo (set_bh_endBlockPos currPos (bi_header bi)) (bi_txs bi), blockDump)
  end.

(* src: BlockchainRead.cpp:163-170 getSizeTransaction *)
Definition getSizeTransaction (pos : Z) : res Z :=
  let fh_buff := file_read ifile pos 9 in
  '(sizeTx, _) ← readVarInt base fh_buff 0 (blen fh_buff);
  Ok sizeTx.

(** [None] for [false]. *)
(* src: BlockchainRead.cpp:335-353 readOneTransactionInfo *)
Definition readOneTransactionInfo (currPos : Z) (txInfo : TransactionInfo) (isSaveAllTx : bool)
    : res (option TransactionInfo) :=
  let f_size := fileSize ifile in
  if f_size <=? currPos then Ok None
  else if 8 <=? f_size - currPos then
    pos ← seekFile currPos;
    sizeTx ← getSizeTransaction pos;
    _ ← alloc (u64 (sizeTx + 16));
    let fh_buff := file_read ifile pos (u64 (sizeTx + 16)) in
    '(_, _, txInfo) ← readTransactionInfo base fh_buff isInitialized 0 (blen fh_buff) txInfo true
      isSaveAllTx PrevTransactionSignHelper_default false;
    Ok (Some txInfo)
  else Ok None.

(* src: BlockchainRead.cpp:440-468 getBlockDump *)
Definition getBlockDump (currPos fromByte toByte : Z) : res (Z * bytes) :=
  let f_size := fileSize ifile in
  if f_size <=? currPos then Ok (0, [])
  else if BLOCK_HEADER_SIZE <=? f_size - currPos then
    pos ← seekFile currPos;
    let fh_buff := file_read ifile pos BLOCK_HEADER_SIZE in
    let block_size := le_value (take 8 fh_buff) in
    if block_size <=? fromByte then Ok (0, [])
    else
      let toByte := if block_size <? toByte then block_size else toByte in
      _ ← alloc (u64 (toByte - fromByte));
      pos ← seekFile (u64 (currPos + 8 + fromByte));
      let result := file_read ifile pos (u64 (toByte - fromByte)) in
      Ok (block_size, result)
  else Ok (0, []).

End file.
