(* ===== verification/BlockchainReadFacts.v ===== *)
(** * Correctness of BlockchainRead.cpp

    The parser stays within its bounds and terminates, a validated transaction
    is signed by its sender, and a block saved to a file is read back. *)
From S2P Require Import Prelude External Address BlockInfo BlockchainUtils BlockchainRead.
#[local] Open Scope Z_scope.

(** One successful step of a parse. *)
Tactic Notation "step" hyp(H) simple_intropattern(p) := apply bind_Ok_inv in H as p.

(** ** Positions *)

Section positions.
Variables (base : Z) (raw : bytes).
Hypothesis Hbase : 0 <= base.

Lemma check_room_ok cur n end_pos u :
  check_room base cur n end_pos = Ok u -> cur + n <= end_pos.
Proof.
  unfold check_room. case_match; [done|]. intros Hc. res_inv. lia.
Qed.

Lemma load_ok cur n l :
  load raw cur n = Ok l -> 0 <= cur /\ cur + n <= blen raw /\
    l = take (Z.to_nat n) (drop (Z.to_nat cur) raw).
Proof.
  unfold load. destruct (Z.ltb_spec cur 0); [done|].
  destruct (Z.ltb_spec (blen raw) (cur + n)); [done|]. cbn. by intros [= <-].
Qed.

Lemma load_blen cur n l : 0 <= n -> load raw cur n = Ok l -> blen l = n.
Proof.
  intros Hn (H0 & H1 & ->)%load_ok. unfold blen in *. rewrite length_take, length_drop. lia.
Qed.

Lemma le_value_nonneg l : 0 <= le_value l.
Proof. induction l as [|c l IH]; simpl; [lia|]. pose proof (b2z_range c). lia. Qed.

Lemma le_value_bound l : le_value l < 256 ^ blen l.
Proof.
  induction l as [|c l IH]; [done|]. rewrite blen_cons, Z.pow_add_r by (pose proof (blen_nonneg l); lia).
  simpl. pose proof (b2z_range c). lia.
Qed.

Lemma readInt_ok w cur end_pos v cur' :
  0 < w <= 8 -> readInt base raw w cur end_pos = Ok (v, cur') ->
  cur' = cur + w /\ cur' <= end_pos /\ 0 <= v < 2 ^ 64.
Proof.
  unfold readInt. intros Hw H. res_inv.
  match goal with Hc : check_room _ _ _ _ = _ |- _ => apply check_room_ok in Hc end.
  assert (blen x0 = w) as Hb by (eapply load_blen; [|eassumption]; lia).
  pose proof (le_value_bound x0) as Hv. rewrite Hb in Hv. clear Hb. subst v cur'.
  split; [done|]. split; [lia|]. split; [apply le_value_nonneg|].
  pose proof (Z.pow_le_mono_r 256 w 8 ltac:(lia) ltac:(lia)). change (256 ^ 8) with (2 ^ 64) in *. lia.
Qed.

Lemma readVarInt_ok cur end_pos v cur' :
  readVarInt base raw cur end_pos = Ok (v, cur') ->
  cur < cur' <= end_pos /\ 0 <= v < 2 ^ 64.
Proof.
  unfold readVarInt. intros H. res_inv.
  match goal with Hc : check_room _ _ _ _ = _ |- _ => apply check_room_ok in Hc end.
  pose proof (le_value_nonneg x0).
  destruct (Z.leb_spec (le_value x0) 249); [simplify_eq; lia|].
  repeat (case_match; [apply readInt_ok in H; lia|]). done.
Qed.

End positions.

(** ** Transactions *)

Section transactions.
Context `{Support} `{Crypto} `{Rapidjson}.
Variables (base : Z) (raw : bytes) (isInitialized : bool).

Lemma readTransactionInfo_skip cur end_pos tx0 sa helper v size pos tx :
  readTransactionInfo base raw isInitialized cur end_pos tx0 false sa helper v = Ok (size, pos, tx) ->
  tx = tx0 /\ exists start, readVarInt base raw cur end_pos = Ok (size, start) /\ pos = start + size /\
    (size <> 0 -> pos <= end_pos).
Proof.
  unfold readTransactionInfo. intros Hr. res_inv.
  destruct (Z.eqb_spec z 0) as [->|Hne].
  { simplify_eq. split; [done|]. eexists. split; [done|]. split; [lia|done]. }
  res_inv. apply check_room_ok in Hx0. cbn [negb] in Hr. simplify_eq.
  split; [done|]. eexists. split; [done|]. split; [lia|]. intros _. lia.
Qed.

(** What a parsed transaction guarantees. *)
Record tx_parsed (cur end_pos size pos : Z) (tx : TransactionInfo) : Prop := {
  tp_forward : cur < pos <= end_pos;
  tp_size : ti_sizeRawTx tx = size;
  tp_init : ti_isInitialized tx = true;
  tp_sets : isSet (ti_fromAddress tx) = true /\ isSet (ti_toAddress tx) = true;
  tp_sender : ti_pubKey tx <> [] -> exists bin, get_address_bin isInitialized (ti_pubKey tx) = Ok bin /\
    bin <> [] /\ Address_of_vector bin (is_blocked_from (ti_data tx)) = Ok (ti_fromAddress tx);
  tp_initial : ti_pubKey tx = [] -> isInitialW (ti_fromAddress tx) = true;
}.

(** Where the parts of a transaction are: the receiver, the amount, the fees, the
    nonce and the data lie from [start] to [stop], after the size and before the
    signature and the key. *)
Definition tx_layout (cur end_pos : Z) (tx : TransactionInfo) (start stop : Z) : Prop :=
  readVarInt base raw cur end_pos = Ok (ti_sizeRawTx tx, start) /\
  let last := start + ti_sizeRawTx tx in
  exists toAddress amount c2 fees c3 c4 dataSize c5,
    load raw start 25 = Ok toAddress /\ ti_toAddress tx = Address_of_range toAddress /\
    readVarInt base raw (start + 25) last = Ok (amount, c2) /\ ti_value tx = to_i64 amount /\
    readVarInt base raw c2 last = Ok (fees, c3) /\ ti_fees tx = to_i64 fees /\
    readVarInt base raw c3 last = Ok (ti_nonce tx, c4) /\
    readVarInt base raw c4 last = Ok (dataSize, c5) /\ load raw c5 dataSize = Ok (ti_data tx) /\
    stop = c5 + dataSize /\
    exists signSize c6 keySize c7,
      readVarInt base raw stop last = Ok (signSize, c6) /\ load raw c6 signSize = Ok (ti_sign tx) /\
      readVarInt base raw (c6 + signSize) last = Ok (keySize, c7) /\
      (keySize <> 0 -> load raw c7 keySize = Ok (ti_pubKey tx)).

Lemma Address_of_vector_isSet b l a : Address_of_vector l b = Ok a -> isSet a = true.
Proof. unfold Address_of_vector. destruct b; [destruct l; [done|]|]; by intros [= <-]. Qed.

(** The steps of a successful parse. *)
Lemma readTransactionInfo_parse cur end_pos tx0 sa helper v size pos tx :
  readTransactionInfo base raw isInitialized cur end_pos tx0 true sa helper v = Ok (size, pos, tx) ->
  size <> 0 ->
  tx_parsed cur end_pos size pos tx /\ exists start stop,
  tx_layout cur end_pos tx start stop /\ cur < start < stop /\ stop <= pos /\
  (v = true -> isInitialW (ti_fromAddress tx) = false -> exists signed,
    load raw start (stop - start) = Ok signed /\
    crypto_check_sign_data (ti_sign tx) (ti_pubKey tx) signed = true).
Proof.
  unfold readTransactionInfo. intros Hr Hsz.
  step Hr ([sz c1] & Hv1 & Hr). destruct (readVarInt_ok _ _ _ _ _ _ Hv1) as [Hc1 _].
  destruct (Z.eqb_spec sz 0) as [->|Hne]; [by simplify_eq|].
  step Hr (? & Hroom & Hr). apply check_room_ok in Hroom. cbn [negb] in Hr.
  step Hr (? & Hr25 & Hr). apply check_room_ok in Hr25.
  step Hr (toadr & Hto & Hr). step Hr ([vl c2] & Hv2 & Hr). step Hr ([fe c3] & Hv3 & Hr).
  step Hr ([no c4] & Hv4 & Hr). step Hr ([ds c5] & Hv5 & Hr).
  destruct (readVarInt_ok _ _ _ _ _ _ Hv2) as [Hc2 _], (readVarInt_ok _ _ _ _ _ _ Hv3) as [Hc3 _],
    (readVarInt_ok _ _ _ _ _ _ Hv4) as [Hc4 _], (readVarInt_ok _ _ _ _ _ _ Hv5) as [Hc5 Hds].
  step Hr (data & Hdata & Hr). step Hr (dele & _ & Hr). step Hr (isScript & _ & Hr).
  step Hr (scriptInit & _ & Hr). step Hr ([ss c6] & Hv6 & Hr).
  destruct (readVarInt_ok _ _ _ _ _ _ Hv6) as [Hc6 Hss].
  step Hr (? & Hr6 & Hr). apply check_room_ok in Hr6. step Hr (sign & Hsign & Hr).
  step Hr ([ps c7] & Hv7 & Hr). destruct (readVarInt_ok _ _ _ _ _ _ Hv7) as [Hc7 Hps].
  step Hr (? & Hr7 & Hr). apply check_room_ok in Hr7. step Hr (pubKey & Hpk & Hr).
  step Hr ([[st hsz] c8] & Hv8 & Hr).
  assert (c7 + ps <= c8 <= c1 + sz) as Hc8.
  { destruct (Z.ltb_spec (c7 + ps) (c1 + sz)); [|simplify_eq; lia].
    step Hv8 ([s p] & Hv9 & Hv8). apply readVarInt_ok in Hv9 as [? _]. simplify_eq. lia. }
  clear Hv8. step Hr (from & Hfrom & Hr). step Hr (hashed & _ & Hr). step Hr (txh & _ & Hr).
  step Hr (clr & Hclr & Hr). step Hr (allRaw & _ & Hr). step Hr (isSign & _ & Hr).
  step Hr (? & Hval & Hr). step Hr (fee & _ & Hr). simplify_eq. cbn.
  assert (isSet from = true /\ (pubKey <> [] -> exists bin, get_address_bin isInitialized pubKey = Ok bin /\
    bin <> [] /\ Address_of_vector bin (is_blocked_from data) = Ok from) /\
    (pubKey = [] -> isInitialW from = true)) as (Hset & Hsend & Hinit).
  { destruct pubKey as [|k pubKey]; cbn [is_empty negb] in Hfrom.
    - simplify_eq. destruct (negb (ps =? 0)) eqn:Eps; [|done]. exfalso.
      apply load_blen in Hpk; [|lia]. rewrite blen_nil in Hpk. subst ps. done.
    - step Hfrom (bin & Hb & Hfrom). step Hfrom (? & Hne2 & Hfrom). apply CHECK_Ok_inv in Hne2.
      split; [by eapply Address_of_vector_isSet|]. split; [|done]. intros _. exists bin.
      split; [done|]. split; [by destruct bin|done]. }
  split; [split; cbn; [lia|done..]|]. exists c1, (c5 + ds). split.
  { unfold tx_layout. cbn. split; [done|]. exists toadr, vl, c2, fe, c3, c4, ds, c5.
    do 10 (split; [done|]). exists ss, c6, ps, c7. do 3 (split; [done|]).
    intros Hps0. by rewrite (proj2 (Z.eqb_neq _ _)) in Hpk. }
  split; [lia|]. split; [lia|]. intros -> Hini. unfold isInitialWallet in Hval. rewrite Hset, Hini in Hval.
  cbn [CHECK mbind res_bind negb] in Hval. apply CHECK_Ok_inv in Hval.
  by exists clr.
Qed.

(** ** Termination *)

Lemma check_room_total cur n end_pos : total (check_room base cur n end_pos).
Proof. unfold check_room. solve_total. Qed.
Lemma load_total cur n : total (load raw cur n).
Proof. unfold load. solve_total. Qed.
#[local] Hint Resolve check_room_total load_total : total.
Lemma readInt_total w cur end_pos : total (readInt base raw w cur end_pos).
Proof. unfold readInt. solve_total. Qed.
#[local] Hint Resolve readInt_total : total.
Lemma readVarInt_total cur end_pos : total (readVarInt base raw cur end_pos).
Proof. unfold readVarInt. solve_total. Qed.
Lemma json_member_total v name : total (json_member v name).
Proof. unfold json_member. solve_total. Qed.
#[local] Hint Resolve readVarInt_total json_member_total : total.
Lemma json_string_total v name : total (json_string v name).
Proof. unfold json_string. solve_total. Qed.
#[local] Hint Resolve json_string_total : total.
Lemma read_delegate_total data o : total (read_delegate data o).
Proof. unfold read_delegate. solve_total. Qed.
Lemma read_isInitializeScript_total data : total (read_isInitializeScript data).
Proof. unfold read_isInitializeScript. solve_total. Qed.
Lemma Address_eq_total a b : total (Address_eq a b).
Proof. unfold Address_eq. solve_total. Qed.
Lemma isInitialWallet_total a : total (isInitialWallet a).
Proof. unfold isInitialWallet. solve_total. Qed.
Lemma isScriptAddress_total_fuel a : total (isScriptAddress a).
Proof.
  unfold isScriptAddress, char_at. apply total_bind; [solve_total|]. intros _ _.
  apply total_bind; [|solve_total]. repeat case_match; try done. by destruct (address a !! Z.to_nat 0).
Qed.
Lemma Address_of_vector_total l b : total (Address_of_vector l b).
Proof. unfold Address_of_vector. solve_total. Qed.
Lemma get_double_sha256_total data : total (get_double_sha256 isInitialized data).
Proof. unfold get_double_sha256. solve_total. Qed.
Lemma get_address_bin_total k : total (get_address_bin isInitialized k).
Proof. unfold get_address_bin, get_address_comp. solve_total. Qed.
Lemma calcRealFee_total n : total (calcRealFee n).
Proof. unfold calcRealFee. solve_total. Qed.
#[local] Hint Resolve read_delegate_total read_isInitializeScript_total Address_eq_total
  isInitialWallet_total isScriptAddress_total_fuel Address_of_vector_total get_double_sha256_total
  get_address_bin_total calcRealFee_total : total.
Lemma isSignBlockTx_total tx h : total (isSignBlockTx tx h).
Proof. unfold isSignBlockTx. solve_total. Qed.
#[local] Hint Resolve isSignBlockTx_total : total.
Lemma readTransactionInfo_total cur end_pos tx p sa h v :
  total (readTransactionInfo base raw isInitialized cur end_pos tx p sa h v).
Proof. unfold readTransactionInfo. solve_total. Qed.

(** The size returned is the one the transaction declares. *)
Lemma readTransactionInfo_size cur end_pos tx0 p sa h v size pos tx :
  readTransactionInfo base raw isInitialized cur end_pos tx0 p sa h v = Ok (size, pos, tx) ->
  exists start, readVarInt base raw cur end_pos = Ok (size, start).
Proof.
  unfold readTransactionInfo. intros Hr. step Hr ([sz c1] & Hv & Hr). rewrite Hv.
  destruct (Z.eqb_spec sz 0) as [->|Hne]; [by simplify_eq; eexists|]. step Hr (? & _ & Hr).
  destruct p; cbn [negb] in Hr; [|by simplify_eq; eexists]. clear Hv Hne.
  do 2 step Hr (? & _ & Hr). do 4 step Hr ([? ?] & _ & Hr). do 4 step Hr (? & _ & Hr).
  step Hr ([? ?] & _ & Hr). do 2 step Hr (? & _ & Hr). step Hr ([? ?] & _ & Hr).
  do 2 step Hr (? & _ & Hr). step Hr ([[? ?] ?] & _ & Hr). do 8 step Hr (? & _ & Hr).
  simplify_eq. by eexists.
Qed.

Lemma readTransactionInfo_forward cur end_pos tx0 p sa h v size pos tx :
  readTransactionInfo base raw isInitialized cur end_pos tx0 p sa h v = Ok (size, pos, tx) ->
  0 <= size /\ cur < pos <= end_pos.
Proof.
  intros Hr. destruct (readTransactionInfo_size _ _ _ _ _ _ _ _ _ _ Hr) as [start Hv].
  destruct (readVarInt_ok _ _ _ _ _ _ Hv) as [Hc Hs]. split; [lia|].
  destruct (Z.eq_dec size 0) as [->|Hne].
  { unfold readTransactionInfo in Hr. rewrite Hv in Hr. cbn in Hr. by simplify_eq. }
  destruct p.
  - by apply readTransactionInfo_parse in Hr as [[Hf _ _ _ _ _] _].
  - apply readTransactionInfo_skip in Hr as (_ & start' & Hv1 & -> & Hle).
    apply readVarInt_ok in Hv1 as [Hc1 _]. specialize (Hle Hne). lia.
Qed.

Lemma readBlockTxs_loop_terminates fuel b end_pos pf sa bt ct v cur i h txs :
  Z.of_nat fuel > Z.max 0 (end_pos - cur) ->
  total (readBlockTxs_loop base raw isInitialized fuel b end_pos pf sa bt ct v cur i h txs).
Proof.
  revert cur i h txs. induction fuel as [|fuel IH]; intros cur i h txs Hf; [lia|].
  cbn [readBlockTxs_loop]. apply total_bind; [apply readTransactionInfo_total|].
  intros [[size pos] tx] Hr. apply readTransactionInfo_forward in Hr as [_ Hp].
  case_match; [done|]. destruct (0 <? size); [|done]. apply IH. lia.
Qed.

Lemma readBlockTxs_total pf bi sa bt ct v :
  total (readBlockTxs base raw isInitialized pf bi sa bt ct v).
Proof.
  unfold readBlockTxs. apply total_bind; [apply get_double_sha256_total|]. intros hash _.
  apply total_bind.
  - apply readBlockTxs_loop_terminates. unfold BLOCK_HEADER_SIZE, blen. lia.
  - intros txs _. solve_total.
Qed.

(** ** What a parsed block's header says *)

(** Every transaction takes at least a byte. *)
Lemma readBlockTxs_loop_count fuel b end_pos pf sa bt ct v cur i h txs l :
  readBlockTxs_loop base raw isInitialized fuel b end_pos pf sa bt ct v cur i h txs = Ok l ->
  cur <= end_pos -> blen l <= blen txs + (end_pos - cur).
Proof.
  revert cur i h txs. induction fuel as [|fuel IH]; intros cur i h txs; [done|].
  cbn [readBlockTxs_loop]. intros Hl Hc. step Hl ([[size pos] tx] & Hr & Hl).
  apply readTransactionInfo_forward in Hr as [_ Hp].
  set (txs' := if _ && _ then _ else txs) in *.
  assert (blen txs' <= blen txs + 1).
  { unfold txs'. destruct (_ && _); [|lia]. rewrite blen_app, blen_cons, blen_nil. lia. }
  destruct (_ && _) in Hl; [simplify_eq; lia|]. destruct (0 <? size); [|simplify_eq; lia].
  apply IH in Hl; lia.
Qed.

(** The hash of a block with dump [d], and of the block before it. *)
Definition dump_hash (d : bytes) : bytes := toHex (SHA256 (SHA256 d)).
Definition dump_prevHash (d : bytes) : bytes := toHex (take 32 (drop 16 d)).

(** The header of a parsed block: its hash and its parent's are those of the
    dump, its file name and number those the block had before. *)
Record header_parsed (pos : Z) (old h : BlockHeader) : Prop := {
  hp_hash : bh_hash h = dump_hash raw;
  hp_prevHash : bh_prevHash h = dump_prevHash raw;
  hp_size : bh_blockSize h = blen raw;
  hp_filePos : bh_filePos h = mkFilePosition pos (fp_fileName (bh_filePos old));
  hp_number : bh_blockNumber h = bh_blockNumber old;
  hp_type : is_u64 (bh_blockType h);
  hp_timestamp : is_u64 (bh_timestamp h);
  hp_countTxs : exists n, bh_countTxs h = Some n /\ 0 <= n <= blen raw;
  hp_length : 80 <= blen raw;
}.

Lemma readBlockHeaderWithoutSize_ok bi h :
  readBlockHeaderWithoutSize base raw 0 (blen raw) bi = Ok h ->
  80 <= blen raw /\ exists t ts txsHash, is_u64 t /\ is_u64 ts /\
    h = set_bh_fields t ts (dump_prevHash raw) txsHash bi.
Proof.
  unfold readBlockHeaderWithoutSize. intros Hr.
  step Hr (? & _ & Hr). step Hr (ty & Hty & Hr). step Hr (? & _ & Hr). step Hr (ts & Hts & Hr).
  step Hr (? & _ & Hr). step Hr (prev & Hprev & Hr). step Hr (? & Hroom & Hr). step Hr (th & _ & Hr).
  apply check_room_ok in Hroom. injection Hr as <-. split; [lia|].
  assert (forall l, blen l = 8 -> is_u64 (le_value l)) as Hu64.
  { intros l Hl. pose proof (le_value_nonneg l). pose proof (le_value_bound l) as Hb. rewrite Hl in Hb.
    unfold is_u64. change (256 ^ 8) with (2 ^ 64) in Hb. lia. }
  exists (le_value ty), (le_value ts), (toHex th).
  apply load_blen in Hty, Hts; [|lia..]. apply load_ok in Hprev as (_ & _ & ->).
  split; [by apply Hu64|]. split; [by apply Hu64|]. done.
Qed.

Lemma readNextBlockInfo_header pos bi v sa bi' :
  readNextBlockInfo base raw isInitialized pos bi v sa 0 0 = Ok bi' -> bi_txs bi = [] ->
  header_parsed pos (bi_header bi) (bi_header bi').
Proof.
  intros Hr Htx. unfold readNextBlockInfo in Hr. step Hr (h0 & Hh & Hr).
  apply readBlockHeaderWithoutSize_ok in Hh as (Hlen & t & ts & th & Ht & Hts & ->).
  step Hr (bi1 & Hb & Hr). injection Hr as <-. unfold readBlockTxs in Hb.
  step Hb (hash & Hd & Hb). unfold get_double_sha256 in Hd. step Hd (? & _ & Hd). injection Hd as <-.
  step Hb (txs & Hl & Hb). cbn [bi_txs] in Hl. rewrite Htx in Hl.
  apply readBlockTxs_loop_count in Hl; [|unfold BLOCK_HEADER_SIZE; lia]. rewrite blen_nil in Hl.
  pose proof (blen_nonneg txs). cbn [Z.eqb] in Hb. step Hb (h & Hh & Hb). injection Hb as <-.
  assert (exists sig, h = set_bh_signature sig (set_bh_countTxs (blen txs)
    (set_bh_hash (dump_hash raw) (set_bh_fields t ts (dump_prevHash raw) th (bi_header bi))))) as [sig ->].
  { destruct txs as [|tx txs]; [by injection Hh as <-; exists (bh_signature (bi_header bi))|].
    step Hh (eq & _ & Hh). injection Hh as <-. destruct (eq && _); [by exists (ti_data tx)|].
    by exists (bh_signature (bi_header bi)). }
  split; cbn; try done. exists (blen txs). split; [done|]. unfold BLOCK_HEADER_SIZE in Hl. lia.
Qed.

End transactions.

(** ** Files *)

Section files.

Lemma file_read_within file pos n :
  0 <= pos -> 0 <= n -> pos + n <= blen file ->
  file_read file pos n = take (Z.to_nat n) (drop (Z.to_nat pos) file).
Proof.
  intros Hp Hn Hl. unfold file_read. rewrite length_take, length_drop. unfold blen in Hl.
  replace (Z.to_nat n - _)%nat with 0%nat by lia. by rewrite app_nil_r.
Qed.

(** A dump is the requested slice of the block that was saved, also after more
    blocks were appended. *)
Lemma getBlockDump_saved pre data post from to :
  80 <= blen data -> blen (pre ++ le_bytes 8 (blen data) ++ data ++ post) < 2 ^ 62 ->
  0 <= from < blen data -> from <= to ->
  getBlockDump (pre ++ le_bytes 8 (blen data) ++ data ++ post) (blen pre) from to
  = Ok (blen data, take (Z.to_nat (Z.min to (blen data) - from)) (drop (Z.to_nat from) data)).
Proof.
  intros Hd Hl Hf Ht. rewrite !blen_app in Hl.
  assert (blen (le_bytes 8 (blen data)) = 8) as H8 by (unfold blen; by rewrite length_le_bytes).
  pose proof (blen_nonneg pre). pose proof (blen_nonneg post).
  unfold getBlockDump, fileSize, BLOCK_HEADER_SIZE, seekFile, alloc. rewrite !blen_app, H8.
  destruct (Z.leb_spec (blen pre + (8 + (blen data + blen post))) (blen pre)); [lia|].
  destruct (Z.leb_spec (3 * 8 + 64) (blen pre + (8 + (blen data + blen post)) - blen pre)); [|lia].
  destruct (Z.ltb_spec (blen pre) (2 ^ 63)); [|lia]. cbn [CHECK mbind res_bind].
  rewrite (file_read_within _ (blen pre)) by (rewrite ?blen_app, ?H8; lia).
  assert (Z.to_nat (blen pre) = length pre) as -> by (unfold blen; lia).
  rewrite drop_app_length, take_take.
  replace (8 `min` Z.to_nat (3 * 8 + 64))%nat with 8%nat by lia.
  rewrite take_app_length' by (by rewrite length_le_bytes). rewrite le_value_bytes by (split; [lia|]; change (256 ^ Z.of_nat 8) with (2 ^ 64); lia).
  destruct (Z.leb_spec (blen data) from); [lia|].
  set (to' := if blen data <? to then blen data else to).
  assert (to' = Z.min to (blen data)) as ->
    by (unfold to'; destruct (Z.ltb_spec (blen data) to); lia).
  rewrite (u64_small (Z.min to (blen data) - from)) by (unfold is_u64; lia).
  rewrite (u64_small (blen pre + 8 + from)) by (unfold is_u64; lia).
  destruct (Z.leb_spec (2 ^ 62) (Z.min to (blen data) - from)); [lia|]. cbn [mbind res_bind].
  destruct (Z.ltb_spec (blen pre + 8 + from) (2 ^ 63)); [|lia]. cbn [CHECK mbind res_bind].
  rewrite file_read_within by (rewrite ?blen_app, ?H8; lia). do 2 f_equal.
  replace (Z.to_nat (blen pre + 8 + from)) with (length pre + (8 + Z.to_nat from))%nat
    by (unfold blen; lia).
  rewrite <- drop_drop, drop_app_length, <- drop_drop.
  rewrite drop_app_length' by (by rewrite length_le_bytes).
  rewrite drop_app_le, take_app_le; [done| |unfold blen in *; lia].
  rewrite length_drop. unfold blen in *. lia.
Qed.

End files.
