(* ===== verification/Sync.v ===== *)
(** * SyncImpl.h, SyncImpl.cpp: the synchronisation loop

    What [synchronize] does with the chain, the database and the block files:
    rebuilding the chain at start, and taking the blocks of a source one at a
    time.  Workers receive blocks through queues; what is handed to them is
    recorded in order.  Timers, logging and the stop signal are left out. *)
From S2P Require Import Prelude External Serialize Ordered Address BlockInfo BlockChainInterface.
From S2P Require Import BlockChain LevelDb Cache Modules Workers BlockchainUtils PrivateKey.
From S2P Require Import BlockchainRead.
#[local] Open Scope Z_scope.

(* src: SyncImpl.cpp:26-26 VERSION_DB *)
Definition VERSION_DB : bytes := str "v3.5".

(** [users.find(address) != users.end()]. *)
Definition users_contain (users : list Address) (a : Address) : res bool :=
  foldM (fun found u => eq ← Address_eq u a; Ok (found || eq)) false users.

(* src: SyncImpl.cpp:119-129 filterTransactionsToSave, for *)
Definition filter_tx (m : Modules) (users : list Address) (tx : TransactionInfo) : res TransactionInfo :=
  if negb (has_module MODULE_USERS m) then Ok (set_ti_isSaveToBd true tx)
  else
    fromFound ← users_contain users (ti_fromAddress tx);
    found ← (if fromFound : bool then Ok true else users_contain users (ti_toAddress tx));
    if (found : bool) then Ok (set_ti_isSaveToBd true tx)
    else if ti_isSignBlockTx tx then Ok (set_ti_isSaveToBd true tx)
    else Ok (set_ti_isSaveToBd false tx).

(* src: SyncImpl.cpp:115-130 SyncImpl::filterTransactionsToSave *)
Definition filterTransactionsToSave (m : Modules) (users : list Address) (bi : BlockInfo) : res BlockInfo :=
  txs ← foldM (fun txs tx => tx ← filter_tx m users tx; Ok (txs ++ [tx])) [] (bi_txs bi);
  Ok (mkBlockInfo (bi_header bi) txs).

(** ** Block files: name to contents *)

Abbreviation Files := (gmap bytes bytes).

Definition file_contents (fs : Files) (name : bytes) : bytes := default [] (fs !! name).

(* src: SyncImpl.cpp:102-111 SyncImpl::saveTransactions, for *)
Definition save_user_tx (fileName : bytes) (p : bytes * list TransactionInfo) (tx : TransactionInfo)
    : bytes * list TransactionInfo :=
  let '(file, txs) := p in
  if ti_isSaveToBd tx then
    let '(file, filePos) := saveTransactionToFile file (ti_allRawTx tx) in
    (file, txs ++ [set_ti_allRawTx [] (set_ti_filePos (mkFilePosition filePos fileName) tx)])
  else (file, txs ++ [set_ti_allRawTx [] tx]).

(* src: SyncImpl.cpp:83-113 SyncImpl::saveTransactions *)
Definition saveTransactions (m : Modules) (bi : BlockInfo) (binaryDump : bytes) (saveBlockToFile : bool)
    : meth Files BlockInfo := fun fs =>
  if negb saveBlockToFile then (fs, Ok bi)
  else
    let fileName := fp_fileName (bh_filePos (bi_header bi)) in
    if is_empty fileName then (fs, throwErr (str "File name not set"))
    else if negb (has_module MODULE_USERS m) then
      let '(file, currPos) := saveBlockToFileBinary (file_contents fs fileName) binaryDump in
      let header := set_bh_filePos (mkFilePosition currPos fileName) (bi_header bi) in
      let txs := (fun tx => set_ti_filePos
        (mkFilePosition (u64 (fp_pos (ti_filePos tx) + currPos)) fileName) tx) <$> bi_txs bi in
      (<[fileName := file]> fs, Ok (mkBlockInfo header txs))
    else
      let '(file, txs) := foldl (save_user_tx fileName) (file_contents fs fileName, []) (bi_txs bi) in
      (<[fileName := file]> fs, Ok (mkBlockInfo (bi_header bi) txs)).

(** ** The database *)

Section database.
Context {D : Type} `{Kv D} `{Fs}.

(** The batch [saveBlockToLeveldb] writes, given the stored metadata. *)
(* src: SyncImpl.cpp:140-150 SyncImpl::saveBlockToLeveldb, newMetadata *)
Definition newMetadata (metadata : BlocksMetadata) (header : BlockHeader) : BlocksMetadata :=
  mkBlocksMetadata
    (if bool_decide (bm_prevBlockHash metadata = bh_prevHash header)
     then if bytes_lt (bm_blockHash metadata) (bh_hash header)
          then bm_blockHash metadata else bh_hash header
     else bh_hash header)
    (bh_prevHash header) 0.

(* src: SyncImpl.cpp:132-159 SyncImpl::saveBlockToLeveldb *)
Definition saveBlockToLeveldb (m : Modules) (bi : BlockInfo) : meth D unit := fun leveldb =>
  match
    (batch ← (if has_module MODULE_BLOCK m then
                value ← BlockHeader_serialize (bi_header bi);
                addBlockHeader (bh_hash (bi_header bi)) value (Batch_new false)
              else Ok (Batch_new false));
     blockMetadata ← findBlockMetadata leveldb;
     metadata ← BlocksMetadata_deserialize blockMetadata;
     value ← BlocksMetadata_serialize (newMetadata metadata (bi_header bi));
     let batch := addBlockMetadata value batch in
     let fi := mkFileInfo (mkFilePosition (bh_endBlockPos (bi_header bi))
       (fp_fileName (bh_filePos (bi_header bi)))) in
     addFileMetadata (fs_filename (fp_fileName (fi_filePos fi))) (FileInfo_serialize fi) batch)
  with
  | Ok batch => addBatch batch leveldb
  | Throw e => (leveldb, Throw e)
  | UB => (leveldb, UB)
  | OutOfFuel => (leveldb, OutOfFuel)
  end.

(** The check of the module set and of the format version at start. *)
(* src: SyncImpl.cpp:176-189 SyncImpl::synchronize, modules and version *)
Definition check_settings (m : Modules) : meth D unit := fun db =>
  match findModules db with
  | Ok modulesStr =>
      let '(db, r) :=
        if negb (is_empty modulesStr) then
          (db, oldModules ← modules_of_string modulesStr;
               CHECK (bool_decide (m = oldModules)) (str "Modules changed in this database"))
        else saveModules (modules_to_string m) db in
      match r with
      | Ok _ =>
          match findVersionDb db with
          | Ok versionDb =>
              if negb (is_empty versionDb)
              then (db, CHECK (bool_decide (versionDb = VERSION_DB)) (str "Version database not matches"))
              else saveVersionDb VERSION_DB db
          | Throw e => (db, Throw e)
          | UB => (db, UB)
          | OutOfFuel => (db, OutOfFuel)
          end
      | _ => (db, r)
      end
  | Throw e => (db, Throw e)
  | UB => (db, UB)
  | OutOfFuel => (db, OutOfFuel)
  end.

(* src: SyncImpl.cpp:200-203 SyncImpl::synchronize, for blocksRaw *)
Fixpoint load_headers (blocksRaw : list bytes) : meth BlockChain unit := fun chain =>
  match blocksRaw with
  | [] => (chain, Ok tt)
  | blockRaw :: rest =>
      match BlockHeader_deserialize blockRaw with
      | Ok bh =>
          let '(chain, r) := addWithoutCalc bh chain in
          match r with
          | Ok _ => load_headers rest chain
          | Throw e => (chain, Throw e)
          | UB => (chain, UB)
          | OutOfFuel => (chain, OutOfFuel)
          end
      | Throw e => (chain, Throw e)
      | UB => (chain, UB)
      | OutOfFuel => (chain, OutOfFuel)
      end
  end.

(** Rebuilding the chain from the database. *)
(* src: SyncImpl.cpp:191-209 SyncImpl::synchronize, blocks *)
Definition load_chain (leveldb : D) : meth BlockChain unit := fun chain =>
  match (blockMetadata ← findBlockMetadata leveldb; BlocksMetadata_deserialize blockMetadata) with
  | Ok metadata =>
      let chain := clear chain in
      let '(chain, r) := load_headers (getAllBlocks leveldb) chain in
      match r with
      | Ok _ =>
          if negb (is_empty (bm_blockHash metadata)) then
            let '(chain, r) := calcBlockchain (bm_blockHash metadata) chain in
            (chain, _ ← r; Ok tt)
          else (chain, Ok tt)
      | _ => (chain, r)
      end
  | Throw e => (chain, Throw e)
  | UB => (chain, UB)
  | OutOfFuel => (chain, OutOfFuel)
  end.

(** ** One block of the loop *)

Record SyncState := mkSyncState {
  ss_leveldb : D;
  ss_blockchain : BlockChain;
  ss_files : Files;
  (** what was handed to the workers, in order *)
  ss_processed : list (BlockInfo * bytes);
}.

Definition with_number (n : Z) (bi : BlockInfo) : BlockInfo :=
  mkBlockInfo (set_bh_blockNumber (Some n) (bi_header bi)) (set_ti_blockNumber n <$> bi_txs bi).

(** The first half of a turn, up to the workers: an accepted block is in its
    file, in the chain and in the workers' hands before it is in the database. *)
(* src: SyncImpl.cpp:311-331 SyncImpl::synchronize, addBlock *)
Definition accept_block (m : Modules) (users : list Address) (isSaveBlockToFiles : bool)
    (bi : BlockInfo) (dump : bytes) : meth SyncState BlockInfo := fun s =>
  match filterTransactionsToSave m users bi with
  | Ok bi =>
      let '(fs, r) := saveTransactions m bi dump isSaveBlockToFiles (ss_files s) in
      let s := mkSyncState (ss_leveldb s) (ss_blockchain s) fs (ss_processed s) in
      match r with
      | Ok bi =>
          let '(chain, r) := addBlock (bi_header bi) (ss_blockchain s) in
          let s := mkSyncState (ss_leveldb s) chain (ss_files s) (ss_processed s) in
          match r with
          | Ok currentBlockNum =>
              if currentBlockNum =? 0 then (s, throwErr (str "Incorrect block number"))
              else
                let bi := with_number currentBlockNum bi in
                (mkSyncState (ss_leveldb s) (ss_blockchain s) (ss_files s) (ss_processed s ++ [(bi, dump)]), Ok bi)
          | Throw e => (s, Throw e)
          | UB => (s, UB)
          | OutOfFuel => (s, OutOfFuel)
          end
      | Throw e => (s, Throw e)
      | UB => (s, UB)
      | OutOfFuel => (s, OutOfFuel)
      end
  | Throw e => (s, Throw e)
  | UB => (s, UB)
  | OutOfFuel => (s, OutOfFuel)
  end.

(* src: SyncImpl.cpp:311-333 SyncImpl::synchronize, block *)
Definition handle_block (m : Modules) (users : list Address) (isSaveBlockToFiles : bool)
    (bi : BlockInfo) (dump : bytes) : meth SyncState unit := fun s =>
  match accept_block m users isSaveBlockToFiles bi dump s with
  | (s, Ok bi) =>
      let '(db, r) := saveBlockToLeveldb m bi (ss_leveldb s) in
      (mkSyncState db (ss_blockchain s) (ss_files s) (ss_processed s), r)
  | (s, Throw e) => (s, Throw e)
  | (s, UB) => (s, UB)
  | (s, OutOfFuel) => (s, OutOfFuel)
  end.

Context `{Support}.

(** Every signature transaction of the next block names the previous block. *)
(* src: SyncImpl.cpp:299-304 SyncImpl::synchronize, isValidate *)
Definition confirms (prevHeader : BlockHeader) (next : BlockInfo) : res unit :=
  thisHashFromHex ← fromHex (bh_hash prevHeader);
  foldM (fun _ tx =>
    if ti_isSignBlockTx tx
    then CHECK (bool_decide (thisHashFromHex = ti_data tx)) (str "Block signatures not confirmed")
    else Ok tt) tt (bi_txs next).

(** The inner loop on the blocks the source returns until it has no more; the
    first exception ends it.  With validation a block waits for the next one. *)
(* src: SyncImpl.cpp:273-341 SyncImpl::synchronize, while *)
Fixpoint sync_loop (m : Modules) (users : list Address) (isSaveBlockToFiles isValidate : bool)
    (prev : option (BlockInfo * bytes)) (blocks : list (BlockInfo * bytes)) : meth SyncState unit :=
  fun s =>
  match blocks with
  | [] => (s, Ok tt)
  | next :: rest =>
      match prev with
      | None =>
          if isValidate then sync_loop m users isSaveBlockToFiles isValidate (Some next) rest s
          else
            let '(s, r) := handle_block m users isSaveBlockToFiles next.1 next.2 s in
            match r with
            | Ok _ => sync_loop m users isSaveBlockToFiles isValidate (Some next) rest s
            | _ => (s, r)
            end
      | Some prevBi =>
          match (if isValidate then confirms (bi_header prevBi.1) next.1 else Ok tt) with
          | Ok _ =>
              let current := if isValidate then prevBi else next in
              let '(s, r) := handle_block m users isSaveBlockToFiles current.1 current.2 s in
              match r with
              | Ok _ => sync_loop m users isSaveBlockToFiles isValidate (Some next) rest s
              | _ => (s, r)
              end
          | r => (s, r)
          end
      end
  end.

End database.
Arguments SyncState : clear implicits.
Arguments mkSyncState {D}.

(** ** Requests *)

Section requests.
Context `{Support} `{Crypto} (isInitialized : bool).

(* src: SyncImpl.cpp:161-167 SyncImpl::verifyTechnicalAddressSign *)
Definition verifyTechnicalAddressSign (technicalAddress binary signature pubkey : bytes) : res bool :=
  if negb (verifySignature binary signature pubkey) then Ok false
  else
    a ← getAddress isInitialized pubkey;
    Ok (bool_decide (technicalAddress = a)).

(** [file] is the contents of the block's file; [None] when it cannot be
    opened. *)
(* src: SyncImpl.cpp:369-422 SyncImpl::getBlockDump *)
Definition SyncImpl_getBlockDump (m : Modules) (blockDumpCache : Cache bytes)
    (file : bytes -> option bytes) (privateKey : option Signer) (bh : BlockHeader)
    (fromByte toByte : Z) (isHex isSign : bool) : res bytes :=
  _ ← CHECK (has_module MODULE_BLOCK m && has_module MODULE_BLOCK_RAW m && negb (has_module MODULE_USERS m))
        (str "modules " ++ MODULE_BLOCK_STR ++ str " " ++ MODULE_BLOCK_RAW_STR ++ str " not set");
  '(r, realSizeBlock, fullBlockDump) ←
    match getValue (bh_hash bh) blockDumpCache with
    | None =>
        let fileName := fp_fileName (bh_filePos bh) in
        _ ← CHECK (negb (is_empty fileName)) (str "Empty file name in block header");
        contents ← match file fileName with
          | Some c => Ok c
          | None => throwErr (str "File " ++ fileName ++ str " not opened") end;
        '(size_block, dumpBlock) ← getBlockDump contents (fp_pos (bh_filePos bh)) fromByte toByte;
        full ← (if isSign && (size_block <=? toByte) then
                  if fromByte =? 0 then Ok dumpBlock
                  else
                    '(_, dumpBlock) ← getBlockDump contents (fp_pos (bh_filePos bh)) 0 toByte;
                    Ok dumpBlock
                else Ok []);
        Ok (dumpBlock, size_block, full)
    | Some element =>
        r ← substr element fromByte (u64 (toByte - fromByte));
        Ok (r, blen element, if isSign && (blen element <=? toByte) then element else [])
    end;
  r ← (if isSign : bool then
         match privateKey with
         | None => throwErr (str "Private key not set")
         | Some key =>
             let r := if fromByte =? 0 then makeFirstPartBlockSign realSizeBlock ++ r else r in
             if realSizeBlock <=? toByte then
               s ← makeBlockSign fullBlockDump key;
               Ok (r ++ s)
             else Ok r
         end
       else Ok r);
  Ok (if isHex : bool then toHex r else r).

End requests.
