(* ===== verification/SyncFacts.v ===== *)
(** * Correctness of the synchronisation loop

    What the database holds after every block is enough to rebuild the chain:
    [consistent] relates a state to its database, every block keeps it, and a
    restart from a consistent database gives the same chain.  With validation,
    a block is taken only when the next one confirms it. *)
From S2P Require Import Prelude External Serialize Ordered Address BlockInfo BlockInfoCodec.
From S2P Require Import BlockChainInterface BlockChain BlockChainFacts LevelDb Cache Modules.
From S2P Require Import Workers BlockchainUtils PrivateKey BlockchainRead Sync.
#[local] Open Scope Z_scope.

(** ** Chains of headers *)

(** Each header's parent is the one before it, the first one's is [prev]. *)
Fixpoint child_chain (prev : bytes) (hs : list BlockHeader) : Prop :=
  match hs with
  | [] => True
  | h :: hs' => bh_prevHash h = prev /\ child_chain (bh_hash h) hs'
  end.

Definition tip_of (prev : bytes) (hs : list BlockHeader) : bytes :=
  default prev (bh_hash <$> last hs).

Lemma tip_of_snoc prev hs h : tip_of prev (hs ++ [h]) = bh_hash h.
Proof. unfold tip_of. by rewrite last_snoc. Qed.

Lemma child_chain_app prev hs ks :
  child_chain prev (hs ++ ks) <-> child_chain prev hs /\ child_chain (tip_of prev hs) ks.
Proof.
  revert prev. induction hs as [|h hs IH]; intros prev; cbn [app child_chain].
  { unfold tip_of. cbn. tauto. }
  rewrite IH. assert (tip_of (bh_hash h) hs = tip_of prev (h :: hs)) as ->; [|tauto].
  unfold tip_of. destruct hs as [|h' hs]; [done|]. rewrite last_cons_cons.
  destruct (last (h' :: hs)) eqn:E; [done|]. by apply last_None in E.
Qed.

Lemma child_chain_lookup prev hs i h h' :
  child_chain prev hs -> hs !! i = Some h -> hs !! S i = Some h' -> bh_prevHash h' = bh_hash h.
Proof.
  revert prev i. induction hs as [|x hs IH]; intros prev i; [done|]. cbn [child_chain].
  intros [Hp Hc]. destruct i as [|i]; cbn; [|by eapply IH].
  intros [= ->]. destruct hs as [|y hs]; [done|]. cbn in *. intros [= ->]. by destruct Hc as [? _].
Qed.

(** Loaded headers form a path from the tip down to the genesis block. *)
Lemma child_chain_path bl hs g :
  child_chain g hs ->
  (forall h, h ∈ hs -> exists k, bl !! bh_hash h = Some k /\ bh_hash k = bh_hash h /\
    bh_blockNumber k = None /\ bh_prevHash k = bh_prevHash h /\ bh_prevHash k <> []) ->
  path bl (tip_of g hs) (reverse (bh_hash <$> hs)) g.
Proof.
  induction hs as [|h hs IH] using rev_ind; intros Hc Hbl; [done|].
  apply child_chain_app in Hc as [Hc [Hp _]]. rewrite tip_of_snoc, fmap_app, reverse_app.
  change (reverse (bh_hash <$> [h])) with [bh_hash h]. cbn [app path]. split; [done|].
  destruct (Hbl h) as (k & Hk & Hkh & Hkn & Hkp & Hkne).
  { apply elem_of_app. right. apply list_elem_of_here. }
  exists k. repeat split; try done. rewrite Hkp, Hp. apply IH; [done|].
  intros x Hx. apply Hbl. apply elem_of_app. by left.
Qed.

(** ** Loading headers *)

Definition header_raw (h : BlockHeader) (raw : bytes) : Prop :=
  bh_wf h /\ BlockHeader_serialize h = Ok raw /\ blen raw < 2 ^ 64 - 16.

(** The encoding of a header whose checks pass. *)
Definition header_bytes (h : BlockHeader) : bytes :=
  match BlockHeader_serialize h with Ok raw => raw | _ => [] end.

Lemma header_bytes_eq h : bh_wf h -> BlockHeader_serialize h = Ok (header_bytes h).
Proof.
  intros Hwf. unfold header_bytes.
  by destruct (BlockHeader_roundtrip_stored h Hwf) as (raw & -> & _).
Qed.

(** Its length does not depend on the block number or on the position in the
    file, and bounds the length of the metadata record. *)
Lemma header_bytes_length h :
  bh_wf h -> blen (header_bytes h) =
  blen (serializeString (fp_fileName (bh_filePos h))) + 8
  + blen (serializeString (bh_prevHash h)) + blen (serializeString (bh_hash h))
  + blen (serializeString (bh_txsHash h)) + blen (serializeString (bh_signature h)) + 32
  + blen (serializeString (bh_senderSign h)) + blen (serializeString (bh_senderPubkey h))
  + blen (serializeString (bh_senderAddress h)).
Proof.
  intros (Hh & Hp & Hf & Hs & Ht & Hts & n & Hn & Hnr).
  unfold header_bytes, BlockHeader_serialize. rewrite !is_empty_false by done. rewrite Hn.
  cbn [negb CHECK mbind res_bind opt_value].
  rewrite bool_decide_true by eauto. cbn [CHECK mbind res_bind].
  unfold FilePosition_serialize, fp_wf, is_u64 in *. cbn [app].
  rewrite !blen_app, !blen_serializeString, !blen_serializeInt by lia. lia.
Qed.

Lemma header_raw_read h raw :
  header_raw h raw -> BlockHeader_deserialize raw = Ok (bh_stored h).
Proof.
  intros (Hwf & Hs & Hl). destruct (BlockHeader_roundtrip_stored h Hwf) as (raw' & Hs' & _ & Hd).
  rewrite Hs in Hs'. injection Hs' as <-. auto.
Qed.

Lemma load_headers_spec hs raws st :
  Forall2 header_raw hs raws -> NoDup (bh_hash <$> hs) ->
  (forall h, h ∈ hs -> bc_blocks st !! bh_hash h = None) ->
  exists bl, load_headers raws st = (mkBlockChain bl (bc_hashes st), Ok tt) /\
    (forall h, h ∈ hs -> bl !! bh_hash h = Some (bh_stored h)) /\
    (forall k, k ∉ bh_hash <$> hs -> bl !! k = bc_blocks st !! k).
Proof.
  intros Hr. revert st. induction Hr as [|h raw hs raws Hh Hr IH]; intros [bl hsh] Hd Hf; cbn [load_headers].
  { exists bl. split; [done|]. split; [|done]. intros h Hh. by apply not_elem_of_nil in Hh. }
  csimpl in Hd. apply NoDup_cons in Hd as [Hn Hd].
  rewrite (header_raw_read _ _ Hh). unfold addWithoutCalc. cbn [bc_blocks bc_hashes] in *.
  change (bh_hash (bh_stored h)) with (bh_hash h).
  rewrite is_empty_false by apply Hh. rewrite (Hf h) by apply list_elem_of_here.
  rewrite bool_decide_false by (intros [? [=]]). cbn [negb].
  destruct (IH (mkBlockChain (<[bh_hash h := bh_stored h]> bl) hsh) Hd) as (bl' & Hl & Hin & Hout).
  { intros x Hx. cbn. rewrite lookup_insert_ne; [apply Hf; by apply list_elem_of_further|].
    intros E. apply Hn. rewrite E. by apply list_elem_of_fmap_2. }
  exists bl'. split; [exact Hl|]. split.
  - intros x [->|Hx]%elem_of_cons; [|auto]. rewrite Hout by done. cbn. apply lookup_insert_eq.
  - intros k Hk. csimpl in Hk. apply not_elem_of_cons in Hk as [Hne Hk]. rewrite Hout by done.
    cbn. by rewrite lookup_insert_ne.
Qed.

(** The chain has the headers [hs], but for the members that are not stored. *)
Definition remembers (st : BlockChain) (hs : list BlockHeader) : Prop :=
  forall h, h ∈ hs -> exists k, bc_blocks st !! bh_hash h = Some k /\ bh_stored k = bh_stored h.

(** Numbering the loaded path gives a settled, linked chain. *)
Lemma calc_loaded hs st :
  bc_hashes st = [GENESIS_BLOCK_HASH] -> child_chain GENESIS_BLOCK_HASH hs ->
  NoDup (bh_hash <$> hs) -> Forall bh_wf hs -> 1 + blen hs < 2 ^ 64 -> hs <> [] ->
  GENESIS_BLOCK_HASH ∉ bh_hash <$> hs ->
  bc_blocks st !! GENESIS_BLOCK_HASH = Some genesisBlock ->
  (forall h, h ∈ hs -> bc_blocks st !! bh_hash h = Some (bh_stored h)) ->
  (forall k, k <> GENESIS_BLOCK_HASH -> k ∉ bh_hash <$> hs -> bc_blocks st !! k = None) ->
  exists st', calcBlockchain (tip_of GENESIS_BLOCK_HASH hs) st = (st', Ok (blen hs)) /\
    bc_hashes st' = GENESIS_BLOCK_HASH :: (bh_hash <$> hs) /\ settled st' /\ linked st' /\ remembers st' hs.
Proof.
  intros Hhs Hc Hd Hwf Hb Hne Hgen Hg Hin Hout.
  set (p := reverse (bh_hash <$> hs)).
  assert (path (bc_blocks st) (tip_of GENESIS_BLOCK_HASH hs) p GENESIS_BLOCK_HASH) as Hpath.
  { apply child_chain_path; [done|]. intros h Hh. exists (bh_stored h).
    rewrite Hin by done. repeat split; try done.
    rewrite Forall_forall in Hwf. apply (Hwf h Hh). }
  assert (NoDup p) as Hdp by (unfold p; by rewrite reverse_Permutation).
  assert (blen p = blen hs) as Hlp by (unfold p, blen; by rewrite length_reverse, length_fmap).
  assert (tip_of GENESIS_BLOCK_HASH hs <> []) as Ht.
  { destruct hs as [|h hs _] using rev_ind; [done|]. rewrite tip_of_snoc.
    apply Forall_app in Hwf as [_ Hwf]. apply Forall_cons in Hwf as [Hwf _]. apply Hwf. }
  rewrite (calcBlockchain_path_eq st _ p GENESIS_BLOCK_HASH genesisBlock 0);
    [|done|done|done|done|done|by rewrite Hhs|lia|rewrite Hlp; lia].
  eexists. split; [by rewrite Hlp, Z.add_0_r|]. cbn [bc_hashes bc_blocks].
  rewrite Hhs. set (bl := mark (mark (bc_blocks st) 0 p) (0 + 1) (reverse p)).
  assert (reverse p = bh_hash <$> hs) as Hrp by (unfold p; apply reverse_involutive).
  rewrite Hrp. cbn [app].
  assert (bl !! GENESIS_BLOCK_HASH = Some genesisBlock) as Hblg.
  { unfold bl. rewrite !mark_notin; [done|..]; rewrite ?Hrp; [|done]. unfold p.
    by rewrite elem_of_reverse. }
  assert (forall i h, hs !! i = Some h ->
    bl !! bh_hash h = Some (set_bh_blockNumber (Some (1 + Z.of_nat i)) (bh_stored h))) as Hbl.
  { intros i h Hi. unfold bl. rewrite (mark_lookup _ _ _ i); [|by rewrite Hrp|
      by rewrite Hrp, list_lookup_fmap, Hi].
    pose proof (list_elem_of_lookup_2 _ _ _ Hi) as Hh.
    assert (bh_hash h ∈ p) as Hp by (unfold p; rewrite elem_of_reverse; by apply list_elem_of_fmap_2).
    apply list_elem_of_lookup in Hp as [j Hj].
    rewrite (mark_lookup _ _ _ j) by done. rewrite Hin by done. done. }
  assert (forall k, k <> GENESIS_BLOCK_HASH -> k ∉ bh_hash <$> hs -> bl !! k = None) as Hblo.
  { intros k Hk1 Hk2. unfold bl. rewrite !mark_notin; [by apply Hout|..]; rewrite ?Hrp; [|done].
    unfold p. by rewrite elem_of_reverse. }
  split; [done|]. split; [|split].
  - split; cbn [bc_hashes bc_blocks]; [done|..].
    + intros [|i] k; [intros [= <-]; exists genesisBlock; split; [exact Hblg|by split]|].
      rewrite lookup_cons, list_lookup_fmap.
      destruct (hs !! i) as [h|] eqn:Hi; [|done]. cbn. intros [= <-]. eexists.
      split; [by apply Hbl|]. split; [done|]. cbn. f_equal. lia.
    + intros k h Hk. destruct (decide (k = GENESIS_BLOCK_HASH)) as [->|Hkg].
      { rewrite Hblg in Hk. injection Hk as <-. by exists 0%nat. }
      destruct (decide (k ∈ bh_hash <$> hs)) as [Hkin|Hkin]; [|by rewrite Hblo in Hk].
      apply list_elem_of_fmap in Hkin as (x & -> & Hx). apply list_elem_of_lookup in Hx as [i Hi].
      rewrite (Hbl i x Hi) in Hk. injection Hk as <-. exists (S i).
      rewrite lookup_cons, list_lookup_fmap, Hi. split; [cbn; f_equal; lia|done].
    + rewrite blen_cons. unfold blen in *. rewrite length_fmap. lia.
  - intros i k h. cbn [bc_hashes bc_blocks]. rewrite !lookup_cons, !list_lookup_fmap.
    destruct (hs !! S i) as [x|] eqn:Hi; [|done]. cbn. intros [= <-] Hk.
    rewrite (Hbl (S i) x Hi) in Hk. injection Hk as <-. cbn.
    destruct (hs !! i) as [y|] eqn:Hy.
    + cbn. by rewrite (child_chain_lookup _ _ _ _ _ Hc Hy Hi).
    + apply lookup_ge_None in Hy. apply lookup_lt_Some in Hi. lia.
  - intros h Hh. apply list_elem_of_lookup in Hh as [i Hi]. eexists. split; [by eapply Hbl|done].
Qed.

(** ** The database that belongs to a chain *)

Section consistency.
Context {D : Type} `{KvLaws D} `{Fs}.

Definition block_entry (h : BlockHeader) (e : bytes * bytes) : Prop :=
  e.1 = BLOCK_PREFIX ++ bh_hash h /\ header_raw h e.2.

(** The database holds the headers [hs], and its metadata names the last. *)
Record db_holds (db : D) (hs : list BlockHeader) : Prop := {
  dh_ok : kv_ok db;
  dh_blocks : exists es, block_entries (kv_iter db) ≡ₚ es /\ Forall2 block_entry hs es;
  dh_meta : exists m, (raw ← findBlockMetadata db; BlocksMetadata_deserialize raw) = Ok m /\
    bm_blockHash m = default [] (bh_hash <$> last hs) /\
    bm_prevBlockHash m = default [] (bh_prevHash <$> last hs);
}.

(** The state of the loop: the chain is the genesis block and [hs]. *)
Record consistent (s : SyncState D) (hs : list BlockHeader) : Prop := {
  co_chain : bc_hashes (ss_blockchain s) = GENESIS_BLOCK_HASH :: (bh_hash <$> hs);
  co_settled : settled (ss_blockchain s);
  co_child : child_chain GENESIS_BLOCK_HASH hs;
  co_db : db_holds (ss_leveldb s) hs;
  co_headers : remembers (ss_blockchain s) hs;
}.

Lemma settled_NoDup st : settled st -> NoDup (bc_hashes st).
Proof.
  intros Hs. apply NoDup_alt. intros i j x Hi Hj. by eapply settled_hashes_inj.
Qed.

Lemma Forall2_header hs es : Forall2 block_entry hs es -> Forall2 header_raw hs es.*2.
Proof. induction 1 as [|h e hs es [_ He]]; csimpl; by constructor. Qed.

Lemma header_raws_NoDup hs raws :
  Forall2 header_raw hs raws -> NoDup (bh_hash <$> hs) -> NoDup raws.
Proof.
  induction 1 as [|h raw hs raws Hh Hr IH]; csimpl; [constructor|].
  intros [Hn Hd]%NoDup_cons. constructor; [|auto]. intros Hin. apply Hn.
  apply list_elem_of_lookup in Hin as [i Hi].
  destruct (Forall2_lookup_r _ _ _ _ _ Hr Hi) as (h' & Hh' & Hr').
  apply list_elem_of_fmap. exists h'. split; [|by eapply list_elem_of_lookup_2].
  pose proof (header_raw_read _ _ Hh) as E1. pose proof (header_raw_read _ _ Hr') as E2.
  rewrite E1 in E2. injection E2. done.
Qed.

(** A restart: the chain the database gives is the one that was running. *)
Lemma load_consistent s hs chain0 :
  consistent s hs -> exists chain', load_chain (ss_leveldb s) chain0 = (chain', Ok tt) /\
    bc_hashes chain' = bc_hashes (ss_blockchain s) /\ settled chain' /\ linked chain' /\ remembers chain' hs.
Proof.
  intros [Hch Hset Hcc [Hok (es & Hes & Hf2) (m & Hm & Hmh & _)] _].
  pose proof (settled_NoDup _ Hset) as Hnd. pose proof (set_size _ Hset) as Hsz.
  rewrite Hch in Hnd, Hsz. apply NoDup_cons in Hnd as [Hng Hnd]. rewrite blen_cons in Hsz.
  assert (blen (bh_hash <$> hs) = blen hs) as Hbl by (unfold blen; by rewrite length_fmap).
  unfold load_chain. rewrite Hm. rewrite getAllBlocks_eq by done.
  pose proof (Forall2_header _ _ Hf2) as Hraw.
  assert (oset_of_list (block_entries (kv_iter (ss_leveldb s))).*2 ≡ₚ es.*2) as Hperm.
  { rewrite oset_of_list_perm; [by rewrite Hes|]. rewrite Hes. by eapply header_raws_NoDup. }
  apply Forall2_flip in Hraw as Hflip.
  destruct (Permutation_Forall2 (symmetry Hperm) Hflip) as (hs' & Hp & Hraw').
  apply Forall2_flip in Hraw'.
  assert (NoDup (bh_hash <$> hs')) as Hnd' by (by rewrite <- Hp).
  assert (GENESIS_BLOCK_HASH ∉ bh_hash <$> hs') as Hng' by (by rewrite <- Hp).
  destruct (load_headers_spec hs' _ (clear chain0) Hraw' Hnd') as (bl & Hload & Hin & Hout).
  { intros h Hh. cbn. rewrite lookup_insert_ne; [by apply lookup_empty|]. intros E. apply Hng'.
    rewrite E. by apply list_elem_of_fmap_2. }
  rewrite Hload. cbn [bc_hashes clear initialize app]. rewrite Hmh.
  destruct (decide (hs = [])) as [->|Hne].
  - cbn [last fmap option_fmap option_map default is_empty negb]. eexists. split; [reflexivity|].
    cbn [bc_hashes]. rewrite Hch. split; [done|].
    apply Permutation_nil in Hp as ->. inversion Hraw' as [Hn|]. subst.
    assert (bl = bc_blocks BlockChain_new) as ->.
    { apply map_eq. intros k. apply Hout, not_elem_of_nil. }
    split; [apply settled_new|]. split; [apply linked_new|]. by intros h ?%elem_of_nil.
  - assert (exists h, last hs = Some h) as [hl Hl].
    { destruct (last hs) eqn:E; [eauto|]. by apply last_None in E. }
    assert (default [] (bh_hash <$> last hs) = tip_of GENESIS_BLOCK_HASH hs) as ->
      by (unfold tip_of; by rewrite Hl).
    assert (Forall bh_wf hs) as Hwf.
    { apply Forall_forall. intros h Hh. apply list_elem_of_lookup in Hh as [i Hi].
      destruct (Forall2_lookup_l _ _ _ _ _ Hraw Hi) as (raw & _ & Hr). apply Hr. }
    assert (tip_of GENESIS_BLOCK_HASH hs <> []) as Ht.
    { unfold tip_of. rewrite Hl. cbn. rewrite Forall_forall in Hwf.
      apply (Hwf hl). by apply last_Some_elem_of. }
    rewrite is_empty_false by done. cbn [negb].
    destruct (calc_loaded hs (mkBlockChain bl [GENESIS_BLOCK_HASH])) as (chain' & Hcalc & Hhs & Hs' & Hl' & Hrem);
      try done; try lia; cbn [bc_blocks bc_hashes].
    + rewrite Hout by done. cbn. apply lookup_insert_eq.
    + intros h Hh. apply Hin. by rewrite <- Hp.
    + intros k Hk Hkh. rewrite Hout by (by rewrite <- Hp). cbn.
      rewrite lookup_insert_ne by done. apply lookup_empty.
    + rewrite Hcalc. eexists. split; [reflexivity|]. by rewrite Hhs, Hch.
Qed.

Lemma restart_consistent s hs chain0 chain' r fs ps :
  consistent s hs -> load_chain (ss_leveldb s) chain0 = (chain', r) ->
  r = Ok tt /\ consistent (mkSyncState (ss_leveldb s) chain' fs ps) hs.
Proof.
  intros Hc Hl. destruct (load_consistent s hs chain0 Hc) as (c & Hlc & Hhs & Hset & _ & Hrem).
  rewrite Hl in Hlc. injection Hlc as -> ->. split; [done|]. destruct Hc as [Hch _ Hcc Hdb _].
  split; cbn; [by rewrite Hhs|done..].
Qed.

(** The headers of the chain, from the first after the genesis block. *)
Lemma consistent_header s hs i h :
  consistent s hs -> hs !! i = Some h -> exists k,
    bc_hashes (ss_blockchain s) !! S i = Some (bh_hash h) /\
    bc_blocks (ss_blockchain s) !! bh_hash h = Some k /\ bh_stored k = bh_stored h /\
    bh_blockNumber k = Some (1 + Z.of_nat i).
Proof.
  intros Hc Hi. assert (bc_hashes (ss_blockchain s) !! S i = Some (bh_hash h)) as Hh.
  { by rewrite (co_chain _ _ Hc), lookup_cons, list_lookup_fmap, Hi. }
  destruct (co_headers _ _ Hc h) as (k & Hk & Hs); [by eapply list_elem_of_lookup_2|].
  destruct (set_hash _ (co_settled _ _ Hc) _ _ Hh) as (k' & Hk' & _ & Hn). rewrite Hk in Hk'. injection Hk' as <-.
  exists k. split; [done|]. split; [done|]. split; [done|]. rewrite Hn. f_equal. lia.
Qed.

(** The first state: an empty database and the genesis block. *)
Lemma consistent_init db fs :
  kv_ok db -> block_entries (kv_iter db) = [] -> omap_find KEY_BLOCK_METADATA (kv_iter db) = None ->
  consistent (mkSyncState db BlockChain_new fs []) [].
Proof.
  intros Hok Hb Hm. split; [done|apply settled_new|done| |by intros h ?%elem_of_nil]. split; [done|..].
  - exists []. cbn. by rewrite Hb.
  - cbn [ss_leveldb]. unfold findBlockMetadata. rewrite findOneValueWithoutCheck_eq by done.
    rewrite Hm. eexists. done.
Qed.

(** ** One block *)

(** What one round of the loop needs of a block: its header can be stored and
    its parent is known. *)
Record block_good (s : SyncState D) (h : BlockHeader) : Prop := {
  bg_wf : bh_wf h;
  bg_number : bh_blockNumber h = None;
  bg_size : blen (header_bytes h) < 2 ^ 64 - 16;
  bg_file : fp_fileName (bh_filePos h) <> [];
  bg_filename : fs_filename (fp_fileName (bh_filePos h)) <> [];
  bg_pos : blen (file_contents (ss_files s) (fp_fileName (bh_filePos h))) < 2 ^ 64;
  bg_parent : is_Some (bc_blocks (ss_blockchain s) !! bh_prevHash h);
  bg_room : blen (bc_hashes (ss_blockchain s)) + 1 < 2 ^ 64;
}.

Lemma filterTransactionsToSave_header m users bi bi' :
  filterTransactionsToSave m users bi = Ok bi' -> bi_header bi' = bi_header bi.
Proof.
  unfold filterTransactionsToSave. intros Hf.
  apply bind_Ok_inv in Hf as (txs & _ & [= <-]). done.
Qed.

(** Where a block is saved: at the end of its file. *)
Definition saved_pos (m : Modules) (save : bool) (fs : Files) (h : BlockHeader) : FilePosition :=
  if save && negb (has_module MODULE_USERS m)
  then mkFilePosition (blen (file_contents fs (fp_fileName (bh_filePos h)))) (fp_fileName (bh_filePos h))
  else bh_filePos h.

(** Saving to the block file changes only the header's position in it. *)
Lemma saveTransactions_header m bi dump save fs fs' bi' :
  saveTransactions m bi dump save fs = (fs', Ok bi') ->
  bi_header bi' = set_bh_filePos (saved_pos m save fs (bi_header bi)) (bi_header bi).
Proof.
  assert (bi_header bi = set_bh_filePos (bh_filePos (bi_header bi)) (bi_header bi)) as Hsame
    by (by destruct (bi_header bi)).
  unfold saveTransactions, saveBlockToFileBinary, saved_pos.
  destruct save; cbn [negb andb]; [|intros [= _ <-]; exact Hsame].
  case_match; [done|]. destruct (negb (has_module MODULE_USERS m)).
  - by intros [= _ <-].
  - destruct (foldl _ _ _). intros [= _ <-]. exact Hsame.
Qed.

Lemma saveBlockToLeveldb_eq m bi db mt value mvalue :
  kv_ok db -> has_module MODULE_BLOCK m = true ->
  bh_hash (bi_header bi) <> [] -> fs_filename (fp_fileName (bh_filePos (bi_header bi))) <> [] ->
  BlockHeader_serialize (bi_header bi) = Ok value ->
  (raw ← findBlockMetadata db; BlocksMetadata_deserialize raw) = Ok mt ->
  BlocksMetadata_serialize (newMetadata mt (bi_header bi)) = Ok mvalue ->
  exists db' fv, saveBlockToLeveldb m bi db = (db', Ok tt) /\ kv_ok db' /\ kv_iter db' = omap_set (FILE_PREFIX ++ fs_filename (fp_fileName (bh_filePos (bi_header bi)))) fv
      (omap_set KEY_BLOCK_METADATA mvalue
        (omap_set (BLOCK_PREFIX ++ bh_hash (bi_header bi)) value (kv_iter db))).
Proof.
  intros Hok Hm Hh Hfn Hv Hmt Hmv.
  apply bind_Ok_inv in Hmt as (raw & Hraw & Hmt).
  unfold saveBlockToLeveldb. rewrite Hm, Hv. cbn [mbind res_bind].
  unfold addBlockHeader, addFileMetadata, makeBlockKey, makeFileKey.
  rewrite is_empty_false by done. cbn [CHECK negb mbind res_bind].
  rewrite Hraw. cbn [mbind res_bind]. rewrite Hmt. cbn [mbind res_bind].
  rewrite Hmv. cbn [mbind res_bind fi_filePos fp_fileName].
  rewrite is_empty_false by done. cbn [CHECK negb mbind res_bind].
  match goal with |- context [addBatch ?b db] =>
    destruct (addBatch_eq b db Hok) as (db' & Ha & Hok' & Hit) end.
  rewrite Ha. eexists db', _. split; [done|]. split; [done|]. exact Hit.
Qed.

(** A new entry of the block table, after the other two writes. *)
Lemma block_entries_batch it hash value mvalue fn fv :
  omap_find (BLOCK_PREFIX ++ hash) it = None ->
  block_entries (omap_set (FILE_PREFIX ++ fn) fv (omap_set KEY_BLOCK_METADATA mvalue
    (omap_set (BLOCK_PREFIX ++ hash) value it)))
  ≡ₚ (BLOCK_PREFIX ++ hash, value) :: block_entries it.
Proof.
  intros Hf. unfold block_entries. rewrite !(omap_set_filter (has_prefix BLOCK_PREFIX)) by done.
  rewrite (list_filter_perm _ _ _ (omap_set_fresh _ value _ Hf)). cbn [List.filter fst].
  assert (has_prefix BLOCK_PREFIX (BLOCK_PREFIX ++ hash) = true) as ->; [|done].
  apply has_prefix_iff. by eexists.
Qed.

Lemma db_holds_fresh db hs hash :
  db_holds db hs -> hash ∉ bh_hash <$> hs -> omap_find (BLOCK_PREFIX ++ hash) (kv_iter db) = None.
Proof.
  intros [Hok (es & Hes & Hf2) _] Hn. destruct (omap_find _ _) as [v|] eqn:E; [|done].
  apply omap_find_elem in E; [|by apply kv_iter_sorted]. destruct Hn.
  assert ((BLOCK_PREFIX ++ hash, v) ∈ es) as Hin.
  { rewrite <- Hes. apply list_elem_of_In, filter_In. split; [by apply list_elem_of_In|].
    apply has_prefix_iff. by eexists. }
  apply list_elem_of_lookup in Hin as [i Hi].
  destruct (Forall2_lookup_r _ _ _ _ _ Hf2 Hi) as (h & Hh & Hk & _). cbn in Hk.
  apply app_inv_head in Hk. apply list_elem_of_fmap. exists h. split; [done|].
  by eapply list_elem_of_lookup_2.
Qed.

Lemma newMetadata_tip hs mt h :
  child_chain GENESIS_BLOCK_HASH hs -> NoDup (GENESIS_BLOCK_HASH :: (bh_hash <$> hs)) ->
  bm_prevBlockHash mt = default [] (bh_prevHash <$> last hs) ->
  bh_prevHash h = tip_of GENESIS_BLOCK_HASH hs ->
  newMetadata mt h = mkBlocksMetadata (bh_hash h) (bh_prevHash h) 0.
Proof.
  intros Hc Hd Hm Hp. unfold newMetadata. rewrite bool_decide_false; [done|]. rewrite Hm, Hp.
  destruct hs as [|l hs _] using rev_ind; [done|]. rewrite tip_of_snoc, last_snoc. cbn.
  apply child_chain_app in Hc as [Hc [-> _]]. intros E.
  rewrite fmap_app, app_comm_cons in Hd. apply NoDup_app in Hd as (_ & Hd & _).
  apply (Hd (bh_hash l)); [|by apply list_elem_of_here]. rewrite <- E.
  destruct hs as [|k hs _] using rev_ind; [by apply list_elem_of_here|].
  rewrite tip_of_snoc, fmap_app. apply list_elem_of_further, elem_of_app. right.
  apply list_elem_of_here.
Qed.

Lemma metadata_codec h :
  bh_wf h -> blen (header_bytes h) < 2 ^ 64 - 16 ->
  exists raw, BlocksMetadata_serialize (mkBlocksMetadata (bh_hash h) (bh_prevHash h) 0) = Ok raw /\
    BlocksMetadata_deserialize raw = Ok (mkBlocksMetadata (bh_hash h) (bh_prevHash h) 0).
Proof.
  intros Hwf Hs. rewrite header_bytes_length in Hs by done.
  destruct Hwf as (Hh & Hp & _).
  assert (bm_wf (mkBlocksMetadata (bh_hash h) (bh_prevHash h) 0)) as Hbm.
  { split; [done|]. split; [done|]. unfold is_u64. cbn. lia. }
  destruct (BlocksMetadata_laws _ Hbm) as (raw & Hraw & _ & Hd).
  exists raw. split; [done|]. apply Hd. clear Hd. cbn in Hraw. unfold BlocksMetadata_serialize in Hraw.
  cbn [bm_blockHash bm_prevBlockHash bm_blockNumber] in Hraw.
  rewrite !is_empty_false in Hraw by done. injection Hraw as <-.
  rewrite !blen_app, blen_serializeInt by lia.
  pose proof (blen_nonneg (serializeString (fp_fileName (bh_filePos h)))).
  pose proof (blen_nonneg (serializeString (bh_txsHash h))).
  pose proof (blen_nonneg (serializeString (bh_signature h))).
  pose proof (blen_nonneg (serializeString (bh_senderSign h))).
  pose proof (blen_nonneg (serializeString (bh_senderPubkey h))).
  pose proof (blen_nonneg (serializeString (bh_senderAddress h))). lia.
Qed.

(** Storing the next block of the chain. *)
Lemma db_holds_snoc m bi db hs :
  db_holds db hs -> has_module MODULE_BLOCK m = true ->
  child_chain GENESIS_BLOCK_HASH hs -> NoDup (GENESIS_BLOCK_HASH :: (bh_hash <$> hs)) ->
  let h := bi_header bi in
  bh_wf h -> blen (header_bytes h) < 2 ^ 64 - 16 -> fs_filename (fp_fileName (bh_filePos h)) <> [] ->
  bh_prevHash h = tip_of GENESIS_BLOCK_HASH hs -> bh_hash h ∉ bh_hash <$> hs ->
  exists db', saveBlockToLeveldb m bi db = (db', Ok tt) /\ db_holds db' (hs ++ [h]).
Proof.
  intros Hdb Hm Hc Hd h Hwf Hsz Hfn Hp Hn. pose proof Hdb as [Hok (es & Hes & Hf2) (mt & Hmt & Hmh & Hmp)].
  pose proof (newMetadata_tip hs mt h Hc Hd Hmp Hp) as Hnew.
  destruct (metadata_codec h Hwf Hsz) as (mv & Hmv & Hmd). rewrite <- Hnew in Hmv.
  destruct (saveBlockToLeveldb_eq m bi db mt (header_bytes h) mv) as (db' & fv & Hs & Hok' & Hit);
    try done; [by apply Hwf|by apply header_bytes_eq|].
  exists db'. split; [done|]. split; [done|..].
  - exists (es ++ [(BLOCK_PREFIX ++ bh_hash h, header_bytes h)]). split.
    + rewrite Hit, block_entries_batch by (by eapply db_holds_fresh). fold h.
      rewrite Hes. by rewrite Permutation_cons_append.
    + apply Forall2_app; [done|]. constructor; [|constructor]. split; [done|].
      split; [done|]. split; [by apply header_bytes_eq|done].
  - exists (mkBlocksMetadata (bh_hash h) (bh_prevHash h) 0). rewrite last_snoc. split; [|done].
    unfold findBlockMetadata. rewrite findOneValueWithoutCheck_eq by done.
    rewrite Hit, !omap_find_set. rewrite decide_False by done. rewrite decide_True by done. exact Hmd.
Qed.

(** The header is the next of the chain: a child of the tip, not seen before. *)
Definition next_header (s : SyncState D) (hs : list BlockHeader) (h : BlockHeader) : Prop :=
  bh_prevHash h = tip_of GENESIS_BLOCK_HASH hs /\ bc_blocks (ss_blockchain s) !! bh_hash h = None.

(** What [addBlock] does to a block whose parent is known. *)
Lemma addBlock_known s hs h :
  consistent s hs -> bh_hash h <> [] -> bh_prevHash h <> [] -> bh_blockNumber h = None ->
  is_Some (bc_blocks (ss_blockchain s) !! bh_prevHash h) ->
  (~ next_header s hs h /\ exists e, addBlock h (ss_blockchain s) = (ss_blockchain s, Throw e)) \/
  (next_header s hs h /\ addBlock h (ss_blockchain s)
    = (append_block (ss_blockchain s) h, Ok (1 + blen hs))).
Proof.
  intros [Hch Hset Hcc _ _] Hh Hp Hnum Hpar.
  rewrite addBlock_eq_spec by done. unfold addBlock_spec, accepts. rewrite !is_empty_false by done.
  unfold next_header. case_bool_decide as Hex.
  { left. split; [|by eexists]. intros [_ E]. destruct Hex as [x Hx]. congruence. }
  apply eq_None_not_Some in Hex.
  rewrite (bool_decide_false (_ !! bh_prevHash h = None)) by (by rewrite <- not_eq_None_Some in Hpar).
  rewrite andb_false_r, orb_false_r.
  assert (tip (ss_blockchain s) = Some (tip_of GENESIS_BLOCK_HASH hs)) as Ht.
  { unfold tip, tip_of. rewrite Hch. destruct hs as [|l hs _] using rev_ind; [done|].
    rewrite fmap_app. change (bh_hash <$> [l]) with [bh_hash l].
    by rewrite app_comm_cons, !last_snoc. }
  rewrite Ht. case_bool_decide as Hp'.
  - right. injection Hp' as Hp'. split; [done|]. rewrite Hch, blen_cons. unfold blen.
    by rewrite length_fmap.
  - left. split; [|by eexists]. intros [E _]. by rewrite E in Hp'.
Qed.

Lemma header_stored_good h pos n :
  bh_wf h -> is_u64 (fp_pos pos) -> fp_fileName pos = fp_fileName (bh_filePos h) ->
  let h' := set_bh_blockNumber (Some n) (set_bh_filePos pos h) in
  bh_wf h' /\ blen (header_bytes h') = blen (header_bytes h).
Proof.
  intros Hwf Hp Hn h'. assert (bh_wf h') as Hwf'.
  { destruct Hwf as (? & ? & ? & ? & ? & ? & ?). subst h'. unfold bh_wf. cbn. auto 10. }
  split; [done|]. rewrite !header_bytes_length by done. cbn. by rewrite Hn.
Qed.

Lemma saveTransactions_ok m bi dump save fs :
  fp_fileName (bh_filePos (bi_header bi)) <> [] ->
  exists fs' bi', saveTransactions m bi dump save fs = (fs', Ok bi').
Proof.
  intros Hf. unfold saveTransactions, saveBlockToFileBinary. rewrite is_empty_false by done.
  destruct save; cbn [negb]; [|eauto]. case_match; [eauto|]. destruct (foldl _ _ _). eauto.
Qed.

(** The header that is stored: the block's, with its place in the file and its
    number. *)
Definition stored_as (hs : list BlockHeader) (pos : FilePosition) (h : BlockHeader) : BlockHeader :=
  set_bh_blockNumber (Some (1 + blen hs)) (set_bh_filePos pos h).

(** What a round leaves: the next header at the end of the chain and of the
    database, or both as they were. *)
Definition round_done (m : Modules) (save : bool) (s : SyncState D) (hs : list BlockHeader)
    (h : BlockHeader) (dump : bytes) (s' : SyncState D) (r : res unit) : Prop :=
  let stored := stored_as hs (saved_pos m save (ss_files s) h) h in
  next_header s hs h /\ r = Ok tt /\ consistent s' (hs ++ [stored]) /\
  exists bi', ss_processed s' = ss_processed s ++ [(bi', dump)] /\ bi_header bi' = stored.
Definition round_refused (s : SyncState D) (hs : list BlockHeader) (s' : SyncState D) : Prop :=
  consistent s' hs /\ ss_blockchain s' = ss_blockchain s /\ ss_leveldb s' = ss_leveldb s.

Lemma consistent_files s hs fs ps :
  consistent s hs -> consistent (mkSyncState (ss_leveldb s) (ss_blockchain s) fs ps) hs.
Proof. intros []. by split. Qed.

(** The accepted block is stored. *)
Lemma round_accepted m bi pos s hs fs ps :
  consistent s hs -> has_module MODULE_BLOCK m = true ->
  blen (bc_hashes (ss_blockchain s)) + 1 < 2 ^ 64 -> let h := bi_header bi in
  bh_wf h -> blen (header_bytes h) < 2 ^ 64 - 16 -> fs_filename (fp_fileName (bh_filePos h)) <> [] ->
  is_u64 (fp_pos pos) -> fp_fileName pos = fp_fileName (bh_filePos h) -> next_header s hs h ->
  let h' := set_bh_filePos pos h in
  exists db', saveBlockToLeveldb m (mkBlockInfo (stored_as hs pos h) (bi_txs bi)) (ss_leveldb s) = (db', Ok tt) /\
    consistent (mkSyncState db' (append_block (ss_blockchain s) h') fs ps) (hs ++ [stored_as hs pos h]).
Proof.
  intros Hcon Hm Hroom h Hwf Hsz Hfn Hp64 Hpn [Hprev Hfresh] h'.
  pose proof (header_stored_good h pos (1 + blen hs) Hwf Hp64 Hpn) as [Hwf' Hlen].
  pose proof (settled_NoDup _ (co_settled _ _ Hcon)) as Hnd. rewrite (co_chain _ _ Hcon) in Hnd.
  assert (bh_hash h ∉ bh_hash <$> hs) as Hnh.
  { intros Hin. assert (bh_hash h ∈ bc_hashes (ss_blockchain s)) as Hin'.
    { rewrite (co_chain _ _ Hcon). by apply list_elem_of_further. }
    apply list_elem_of_lookup in Hin' as [i Hi].
    destruct (set_hash _ (co_settled _ _ Hcon) _ _ Hi) as (x & Hx & _). congruence. }
  destruct (db_holds_snoc m (mkBlockInfo (stored_as hs pos h) (bi_txs bi)) (ss_leveldb s) hs)
    as (db' & Hdb & Hholds); cbn [bi_header]; try done; try apply Hcon.
  { unfold stored_as. by rewrite Hlen. }
  { cbn. by rewrite Hpn. }
  exists db'. split; [done|]. split; cbn [ss_blockchain ss_leveldb].
  - cbn. rewrite (co_chain _ _ Hcon), fmap_app. done.
  - apply settled_append; [apply Hcon|done|done].
  - apply child_chain_app. split; [apply Hcon|]. by split.
  - done.
  - intros x [Hx|Hx]%elem_of_app; cbn.
    + rewrite lookup_insert_ne; [by apply (co_headers _ _ Hcon)|].
      intros E. apply Hnh. rewrite E. by apply list_elem_of_fmap_2.
    + apply list_elem_of_singleton in Hx as ->. eexists. split; [apply lookup_insert_eq|done].
Qed.

Lemma handle_block_cases m users save bi bi1 dump s hs :
  consistent s hs -> has_module MODULE_BLOCK m = true -> block_good s (bi_header bi) ->
  filterTransactionsToSave m users bi = Ok bi1 ->
  let '(s', r) := handle_block m users save bi dump s in
  round_done m save s hs (bi_header bi) dump s' r \/
  (~ next_header s hs (bi_header bi) /\ (exists e, r = Throw e) /\ round_refused s hs s').
Proof.
  intros Hcon Hm Hg Hf. unfold handle_block, accept_block. rewrite Hf.
  apply filterTransactionsToSave_header in Hf.
  destruct (saveTransactions_ok m bi1 dump save (ss_files s)) as (fs & bi2 & Hsv).
  { rewrite Hf. apply Hg. }
  rewrite Hsv. cbn [ss_leveldb ss_blockchain ss_files ss_processed].
  apply saveTransactions_header in Hsv. rewrite Hf in Hsv.
  set (pos := saved_pos m save (ss_files s) (bi_header bi)) in *.
  assert (is_u64 (fp_pos pos) /\ fp_fileName pos = fp_fileName (bh_filePos (bi_header bi))) as [Hp64 Hpn].
  { unfold pos, saved_pos. destruct (save && _); [|split; [apply (bg_wf _ _ Hg)|done]]. cbn. split; [|done].
    pose proof (bg_pos _ _ Hg). unfold is_u64.
    match goal with |- context [blen ?x] => pose proof (blen_nonneg x) end. lia. }
  rename Hsv into Hpos.
  destruct (addBlock_known s hs (bi_header bi2)) as [[Hn [e ->]]|[Hn ->]];
    rewrite ?Hpos in *; try apply Hg; [done| |]; cbn [ss_leveldb ss_blockchain ss_files ss_processed].
  { right. split; [done|]. split; [by eexists|]. split; [by apply consistent_files|done]. }
  pose proof (blen_nonneg hs). destruct (Z.eqb_spec (1 + blen hs) 0); [lia|].
  destruct (round_accepted m (mkBlockInfo (bi_header bi) (set_ti_blockNumber (1 + blen hs) <$> bi_txs bi2)) pos s hs fs
    (ss_processed s ++ [(with_number (1 + blen hs) bi2, dump)]) Hcon Hm) as (db' & Hdb & Hcon');
    try apply Hg; try done.
  unfold with_number in *. cbn [ss_leveldb ss_blockchain ss_files ss_processed].
  rewrite Hpos. unfold stored_as in Hdb. cbn [bi_header bi_txs] in Hdb.
  rewrite Hdb. left. split; [done|]. split; [done|]. rewrite Hpos in Hcon'. split; [exact Hcon'|].
  eexists. split; [reflexivity|]. done.
Qed.

Lemma handle_block_step m users save bi dump s hs :
  consistent s hs -> has_module MODULE_BLOCK m = true -> block_good s (bi_header bi) ->
  let '(s', r) := handle_block m users save bi dump s in
  round_done m save s hs (bi_header bi) dump s' r \/ round_refused s hs s'.
Proof.
  intros Hcon Hm Hg. destruct (filterTransactionsToSave m users bi) as [bi1| | |] eqn:Hf.
  - pose proof (handle_block_cases m users save bi bi1 dump s hs Hcon Hm Hg Hf) as Hc.
    destruct (handle_block _ _ _ _ _ _). destruct Hc as [?|(_ & _ & ?)]; auto.
  - unfold handle_block, accept_block. rewrite Hf. by right.
  - unfold handle_block, accept_block. rewrite Hf. by right.
  - unfold handle_block, accept_block. rewrite Hf. by right.
Qed.

(** ** Every state the loop reaches *)

(** The node's life: start on an empty database, rounds with good blocks, and
    restarts, which rebuild the chain from the database and forget the rest. *)
Inductive reachable (m : Modules) (users : list Address) (save : bool) : SyncState D -> Prop :=
  | reach_start db fs :
      kv_ok db -> block_entries (kv_iter db) = [] ->
      omap_find KEY_BLOCK_METADATA (kv_iter db) = None ->
      reachable m users save (mkSyncState db BlockChain_new fs [])
  | reach_round s bi dump s' r :
      reachable m users save s -> block_good s (bi_header bi) ->
      handle_block m users save bi dump s = (s', r) -> reachable m users save s'
  | reach_restart s chain0 chain' r :
      reachable m users save s -> load_chain (ss_leveldb s) chain0 = (chain', r) ->
      reachable m users save (mkSyncState (ss_leveldb s) chain' (ss_files s) []).

Lemma reachable_consistent m users save s :
  has_module MODULE_BLOCK m = true -> reachable m users save s -> exists hs, consistent s hs.
Proof.
  intros Hm. induction 1 as [db fs Hok Hb Hmt|s bi dump s' r Hr [hs IH] Hg Hh|s chain0 chain' r Hr [hs IH] Hl].
  - exists []. by apply consistent_init.
  - pose proof (handle_block_step m users save bi dump s hs IH Hm Hg) as Hs. rewrite Hh in Hs.
    destruct Hs as [(_ & _ & Hs & _)|[Hs _]]; eauto.
  - exists hs. by eapply restart_consistent.
Qed.

(** ** Confirmation *)

(** What one round hands to the workers. *)
Lemma handle_block_processed m users save bi dump s s' r :
  handle_block m users save bi dump s = (s', r) ->
  exists l, ss_processed s' = ss_processed s ++ l /\
    (l = [] /\ r <> Ok tt \/
     exists bi', l = [(bi', dump)] /\ bh_hash (bi_header bi') = bh_hash (bi_header bi)).
Proof.
  unfold handle_block, accept_block. destruct (filterTransactionsToSave m users bi) as [bi1| | |] eqn:Hf;
    [|intros [= <- <-]; exists []; rewrite app_nil_r; by auto..].
  apply filterTransactionsToSave_header in Hf.
  destruct (saveTransactions m bi1 dump save (ss_files s)) as [fs [bi2| | |]] eqn:Hsv;
    cbn [ss_leveldb ss_blockchain ss_files ss_processed];
    [|intros [= <- <-]; exists []; rewrite app_nil_r; by auto..].
  destruct (addBlock _ _) as [chain [n| | |]]; cbn [ss_leveldb ss_blockchain ss_files ss_processed];
    [|intros [= <- <-]; exists []; rewrite app_nil_r; by auto..].
  destruct (n =? 0); [intros [= <- <-]; exists []; rewrite app_nil_r; by auto|].
  destruct (saveBlockToLeveldb _ _ _) as [db r']. intros [= <- <-].
  eexists. split; [done|]. right. eexists. split; [done|]. cbn.
  apply saveTransactions_header in Hsv. by rewrite Hsv, Hf.
Qed.

Context `{Support}.

(** What a confirmation says: the block's hash, in binary, is the data of every
    signature transaction of the next block. *)
Definition confirmed_by (h : BlockHeader) (next : BlockInfo) : Prop :=
  exists hash, fromHex (bh_hash h) = Ok hash /\
    Forall (fun tx => ti_isSignBlockTx tx = true -> ti_data tx = hash) (bi_txs next).

Lemma confirms_Ok h next : confirms h next = Ok tt -> confirmed_by h next.
Proof.
  unfold confirms. intros Hc. apply bind_Ok_inv in Hc as (hash & Hh & Hc). exists hash. split; [done|].
  revert Hc. induction (bi_txs next) as [|tx txs IH]; cbn [foldM]; [constructor|].
  destruct (ti_isSignBlockTx tx) eqn:Hs; cbn [mbind res_bind].
  - case_bool_decide as E; cbn [CHECK mbind res_bind]; [|done]. intros Hc. by constructor; [|apply IH].
  - intros Hc. constructor; [by rewrite Hs|by apply IH].
Qed.

Lemma sync_loop_confirmed m users save prev blocks s s' r :
  sync_loop m users save true prev blocks s = (s', r) ->
  exists l, ss_processed s' = ss_processed s ++ l /\
    forall j x, l !! j = Some x -> exists b next,
      (option_list prev ++ blocks) !! j = Some b /\
      (option_list prev ++ blocks) !! S j = Some next /\
      x.2 = b.2 /\ bh_hash (bi_header x.1) = bh_hash (bi_header b.1) /\
      confirmed_by (bi_header b.1) next.1.
Proof.
  revert prev s. induction blocks as [|next rest IH]; intros prev s; cbn [sync_loop].
  { intros [= <- <-]. exists []. by rewrite app_nil_r. }
  destruct prev as [prevBi|]; [|apply (IH (Some next))].
  destruct (confirms (bi_header prevBi.1) next.1) as [[]| | |] eqn:Hc;
    [|intros [= <- <-]; exists []; by rewrite app_nil_r..].
  destruct (handle_block _ _ _ _ _ _) as [s1 r1] eqn:Hh.
  apply handle_block_processed in Hh as (l1 & Hl1 & Hcase).
  assert (forall j x, l1 !! j = Some x -> exists b n,
    (option_list (Some prevBi) ++ next :: rest) !! j = Some b /\
    (option_list (Some prevBi) ++ next :: rest) !! S j = Some n /\
    x.2 = b.2 /\ bh_hash (bi_header x.1) = bh_hash (bi_header b.1) /\
    confirmed_by (bi_header b.1) n.1) as Hfirst.
  { intros j x Hj. destruct Hcase as [[-> _]|(bi' & -> & Hbh)]; [done|].
    apply list_lookup_singleton_Some in Hj as [-> <-]. exists prevBi, next.
    split; [done|]. split; [done|]. split; [done|]. split; [done|]. by apply confirms_Ok. }
  destruct r1 as [[]| | |]; try (intros [= <- <-]; by exists l1).
  intros Hr. apply IH in Hr as (l2 & Hl2 & Hj2). rewrite Hl1, <- app_assoc in Hl2.
  exists (l1 ++ l2). split; [done|]. intros j x Hj.
  destruct Hcase as [[_ []]|(bi' & -> & _)]; [done|].
  destruct j as [|j]; [by apply Hfirst|]. cbn in Hj. exact (Hj2 j x Hj).
Qed.

End consistency.
