(* ===== verification/Instances.v ===== *)
(** * Concrete instances of the external interfaces

    Small functions that satisfy the laws of External.v, PrivateKey.v and
    LevelDb.v, for evaluating the definitions on concrete inputs.  They stand
    for nothing in the repository: a digest here is a padded copy of its
    argument, a signature is the digest it signs. *)
From S2P Require Import Prelude External Serialize Ordered BlockchainUtils CryptoUtils PrivateKey Keys Dumps.
#[local] Open Scope Z_scope.

(** ** Hexadecimal *)

Definition hex_support : Support := {|
  toHex b := concat (HexLookup <$> b);
  fromHex s := Ok (hex2bin_loop s);
  trim s := s;
  toLower s := s;
|}.

Lemma hex_support_laws : @SupportLaws hex_support.
Proof.
  split; cbn.
  - intros b. by rewrite HexLookup_hex2bin.
  - intros [|c b]; done.
Qed.

(** ** Digests and keys *)

(** The first [n] bytes, padded with NULs. *)
Definition pad (n : nat) (b : bytes) : bytes := take n (b ++ replicate n Byte.x00).

Lemma pad_length n b : length (pad n b) = n.
Proof. unfold pad. rewrite length_take, length_app, length_replicate. lia. Qed.

Definition copy_crypto : Crypto := {|
  SHA256 := pad 32;
  RIPEMD160 := pad 20;
  d2i_PUBKEY_ok k := bool_decide (head k = Some Byte.x30);
  d2i_ECDSA_SIG_ok s := negb (is_empty s);
  ECDSA_do_verify digest sign _ := bool_decide (sign = digest);
  secp256k1_uncompress k :=
    if bool_decide (head k = Some Byte.x04) && (length k =? 65)%nat then Some k else None;
|}.

Lemma copy_crypto_laws : @CryptoLaws copy_crypto.
Proof.
  split; cbn; [apply pad_length|apply pad_length|].
  intros k p. destruct (bool_decide _); [|done]. cbn.
  destruct (Nat.eqb_spec (length k) 65); [|done]. by intros [= <-].
Qed.

Lemma copy_key_formats : @KeyFormats copy_crypto.
Proof.
  split; cbn; [by intros k ?%bool_decide_eq_true|].
  intros k p. case_bool_decide as Hh; [|done]. intros _. exists Byte.x04. split; [done|].
  vm_compute. done.
Qed.

(** A key of 65 bytes in the format [d2i_PUBKEY] takes. *)
Definition copy_pubkey : bytes := Byte.x30 :: replicate 64 Byte.x11.

(** OpenSSL with one key, whose public half ends in a point, and whose signature
    of a text is the digest. *)
Definition copy_spki : bytes := Byte.x30 :: Byte.x04 :: replicate 64 Byte.x11.

Definition copy_evp : Evp := {|
  Pkey := unit;
  EVP_PKEY_keygen := Some tt;
  d2i_PrivateKey_bio b := if bool_decide (head b = Some Byte.x30) then Some tt else None;
  d2i_PUBKEY_bio b := if bool_decide (b = copy_spki) then Some tt else None;
  i2d_PrivateKey_bio _ := Some copy_spki;
  i2d_PUBKEY_bio _ := Some copy_spki;
  EVP_DigestSign _ data := Some (pad 32 data);
  EVP_DigestVerify _ sign data := if bool_decide (sign = pad 32 data) then 1 else 0;
|}.

Lemma pad_nonempty b : is_empty (pad 32 b) = false.
Proof.
  destruct (pad 32 b) as [|c l] eqn:E; [|done]. apply (f_equal length) in E. by rewrite pad_length in E.
Qed.

Lemma copy_evp_laws : @EvpLaws copy_crypto copy_evp.
Proof.
  split; cbn.
  - intros k data sign pub [= <-] [= <-]. exists tt. split; by rewrite bool_decide_true.
  - intros k data sign pub [= <-] [= <-]. rewrite !bool_decide_true, pad_nonempty by done. done.
  - intros k priv [= <-]. by exists tt.
Qed.

(** secp256k1 that takes every secret, or none. *)
Definition copy_secp (works : bool) : Secp := {|
  secp256k1_ec_pubkey_create k := if works then Some k else None;
  secp256k1_ec_pubkey_serialize p := Some (Byte.x04 :: pad 64 p);
  secp256k1_ecdsa_sign h k := Some h;
  secp256k1_ecdsa_signature_serialize_der s := Some s;
|}.

Lemma copy_secp_laws works : @SecpLaws (copy_secp works).
Proof. split. cbn. by intros p b [= <-]. Qed.

Lemma hex_laws : @HexLaws hex_support hex_support_laws.
Proof. by split. Qed.

(** ** LZ4 that stores *)

Definition stored_lz4 : Lz4 := {|
  LZ4_compressBound n := n + 16;
  LZ4_compress_default src n := if blen src <=? n then Some src else None;
  LZ4_decompress_safe src n := if blen src <=? n then Some src else None;
|}.

Lemma stored_lz4_laws : @Lz4Laws stored_lz4.
Proof.
  split; cbn; [lia|]. intros src Hs. exists src.
  destruct (Z.leb_spec (blen src) (blen src + 16)); [|lia].
  destruct (Z.leb_spec (blen src) (blen src)); [|lia]. split; [done|]. split; [lia|done].
Qed.

(** ** A parser that knows one document *)

Definition registration_text : bytes := str "{registration}".
Definition registration_json : json :=
  JObject [(str "method", JString (str "mh-noderegistration"));
    (str "params", JObject [(str "host", JString (str "10.0.0.1")); (str "name", JString (str "node1"))])].

Definition one_document : Rapidjson := {|
  json_parse s := if bool_decide (s = registration_text) then Some registration_json else None;
  json_print _ _ := registration_text;
|}.

Lemma one_document_laws : @RapidjsonLaws one_document.
Proof. split. cbn. intros s v. case_bool_decide; [|done]. intros [= <-]. by eexists. Qed.

(** ** Paths without directories *)
Definition flat_fs : Fs := {| fs_filename p := p; fs_join a b := a ++ str "/" ++ b |}.
