(* ===== verification/ChainProps.v ===== *)
(** * What the chain promises

    The theorems about BlockChain.cpp and the synchronisation loop: rejection
    leaves the state alone, acceptance appends, every reachable state can be
    rebuilt from its database. *)
From S2P Require Import Prelude External Serialize Ordered Address BlockInfo BlockInfoCodec.
From S2P Require Import BlockChainInterface BlockChain BlockChainFacts LevelDb Modules Sync.
From S2P Require Import SyncFacts Instances.
#[local] Open Scope Z_scope.

(** ** Sample blocks *)

Definition sample_header (hash prev : bytes) : BlockHeader :=
  mkBlockHeader 1600000000 100 BLOCK_TYPE hash prev [] (str "txs") (Some 2)
    (mkFilePosition 0 (str "blocks/1.blk")) 108 None [] [] [].

Definition sample_block (hash prev : bytes) : BlockInfo :=
  mkBlockInfo (sample_header hash prev) [].

Definition sample_modules : Modules := [true; false; false; false; true; false; false; false].

Lemma sample_header_wf hash prev : hash <> [] -> prev <> [] -> bh_wf (sample_header hash prev).
Proof.
  intros Hh Hp. unfold bh_wf. cbn. unfold fp_wf, is_u64, BLOCK_TYPE. cbn.
  repeat split; try done; try lia. exists 2. split; [done|lia].
Qed.

Definition sample_store : list (bytes * bytes) := [].
Definition sample_start : SyncState (list (bytes * bytes)) :=
  mkSyncState sample_store BlockChain_new ∅ [].

Lemma sample_reachable users save :
  @reachable _ list_kv list_kv_laws flat_fs sample_modules users save sample_start.
Proof. by apply (@reach_start _ list_kv list_kv_laws flat_fs). Qed.

Lemma sample_good :
  @block_good _ flat_fs sample_start (sample_header (str "h1") GENESIS_BLOCK_HASH).
Proof.
  split; cbn [bh_blockNumber sample_header bh_filePos fp_fileName]; try done.
  by apply sample_header_wf.
Qed.

(** ** The synchronisation loop *)

Section sync.
Context {D : Type} `{KvLaws D} `{Fs}.

(** C7. Every state the node reaches - from an empty database, by rounds with
    well-formed blocks whose parent is known, and by restarts - is consistent:
    the chain is the genesis block followed by a sequence of headers each of
    which is the child of the one before, numbered by position, and the
    database holds exactly these headers with metadata naming the last. *)
Theorem reachable_states_consistent m users save (s : SyncState D) :
  has_module MODULE_BLOCK m = true -> reachable m users save s -> exists hs, consistent s hs.
Proof. apply reachable_consistent. Qed.

(** C8. A restart loses no block and invents none: rebuilding the chain from the
    database of any reachable state succeeds, whatever the memory held, and
    gives the hashes of the chain that was running, in the same order, each with
    the header the running chain had - number, parent, place in the block files,
    sender - but for the position of its end, which is not stored. *)
Theorem restart_restores_chain m users save (s : SyncState D) chain0 :
  has_module MODULE_BLOCK m = true -> reachable m users save s ->
  exists chain', load_chain (ss_leveldb s) chain0 = (chain', Ok tt) /\
    bc_hashes chain' = bc_hashes (ss_blockchain s) /\ settled chain' /\ linked chain' /\
    forall i hash, bc_hashes (ss_blockchain s) !! S i = Some hash -> exists h h',
      bc_blocks (ss_blockchain s) !! hash = Some h /\ bc_blocks chain' !! hash = Some h' /\
      bh_blockNumber h' = bh_blockNumber h /\ bh_stored h' = bh_stored h.
Proof.
  intros Hm Hr. destruct (reachable_consistent m users save s Hm Hr) as [hs Hc].
  destruct (load_consistent s hs chain0 Hc) as (c & Hl & Hh & Hset & Hlink & _).
  destruct (restart_consistent s hs chain0 c (Ok tt) (ss_files s) (ss_processed s) Hc Hl) as [_ Hc'].
  exists c. do 4 (split; [done|]). intros i hash Hi. rewrite (co_chain _ _ Hc) in Hi.
  rewrite lookup_cons, list_lookup_fmap in Hi. destruct (hs !! i) as [h|] eqn:Hhi; [|done].
  injection Hi as <-. destruct (consistent_header s hs i h Hc Hhi) as (k & _ & Hk & Hs & Hn).
  destruct (consistent_header _ hs i h Hc' Hhi) as (k' & _ & Hk' & Hs' & Hn'). exists k, k'.
  do 2 (split; [done|]). by rewrite Hn, Hn', Hs.
Qed.

(** C9. One round, exactly: a child of the tip that was not seen before is
    accepted: chain and database are extended by its header, numbered by its
    place and pointing at the end of the block file it was appended to, and the
    workers are handed the block with that header; any other block of known
    parent is refused with an exception, and
    chain and database are what they were. *)
Theorem handle_block_exact m users save bi bi1 dump (s : SyncState D) hs :
  consistent s hs -> has_module MODULE_BLOCK m = true -> block_good s (bi_header bi) ->
  filterTransactionsToSave m users bi = Ok bi1 ->
  let '(s', r) := handle_block m users save bi dump s in
  (bh_prevHash (bi_header bi) = tip_of GENESIS_BLOCK_HASH hs /\
   bc_blocks (ss_blockchain s) !! bh_hash (bi_header bi) = None /\
   r = Ok tt /\
   let stored := stored_as hs (saved_pos m save (ss_files s) (bi_header bi)) (bi_header bi) in
   consistent s' (hs ++ [stored]) /\
   exists bi', ss_processed s' = ss_processed s ++ [(bi', dump)] /\ bi_header bi' = stored) \/
  (~ (bh_prevHash (bi_header bi) = tip_of GENESIS_BLOCK_HASH hs /\
      bc_blocks (ss_blockchain s) !! bh_hash (bi_header bi) = None) /\
   (exists e, r = Throw e) /\
   consistent s' hs /\ ss_blockchain s' = ss_blockchain s /\ ss_leveldb s' = ss_leveldb s).
Proof.
  intros Hcon Hm Hg Hf. pose proof (handle_block_cases m users save bi bi1 dump s hs Hcon Hm Hg Hf) as Hc.
  destruct (handle_block _ _ _ _ _ _) as [s' r].
  destruct Hc as [([Hp Hn] & -> & Hc)|(Hn & He & Hc)]; [by left|by right].
Qed.

(** C11. With validation, whatever the loop hands to the workers was confirmed:
    the block that follows it in the source's order carries its hash in every
    one of its signature transactions, and the last block received is held
    back. *)
Theorem validated_blocks_confirmed `{Support} m users save prev blocks (s s' : SyncState D) r :
  sync_loop m users save true prev blocks s = (s', r) ->
  exists l, ss_processed s' = ss_processed s ++ l /\
    forall j x, l !! j = Some x -> exists b next,
      (option_list prev ++ blocks) !! j = Some b /\
      (option_list prev ++ blocks) !! S j = Some next /\
      x.2 = b.2 /\ bh_hash (bi_header x.1) = bh_hash (bi_header b.1) /\
      confirmed_by (bi_header b.1) next.1.
Proof. apply sync_loop_confirmed. Qed.

End sync.

Lemma reachable_states_consistent_witness :
  exists hs, @consistent _ list_kv list_kv_laws sample_start hs.
Proof.
  apply (@reachable_states_consistent _ list_kv list_kv_laws flat_fs sample_modules [] true sample_start);
    [reflexivity|apply sample_reachable].
Defined.

(** The state after one block. *)
Definition sample_grown : SyncState (list (bytes * bytes)) :=
  fst (@handle_block _ list_kv flat_fs sample_modules [] true (sample_block (str "h1") GENESIS_BLOCK_HASH)
    (str "dump") sample_start).

Lemma sample_grown_reachable : @reachable _ list_kv list_kv_laws flat_fs sample_modules [] true sample_grown.
Proof.
  eapply (@reach_round _ list_kv list_kv_laws flat_fs _ _ _ sample_start
    (sample_block (str "h1") GENESIS_BLOCK_HASH)); [apply sample_reachable|apply sample_good|].
  unfold sample_grown. apply surjective_pairing.
Qed.

Lemma restart_restores_chain_witness :
  bc_hashes (ss_blockchain sample_grown) = [GENESIS_BLOCK_HASH; str "h1"] /\
  exists chain', load_chain (ss_leveldb sample_grown) BlockChain_new = (chain', Ok tt) /\
    bc_hashes chain' = [GENESIS_BLOCK_HASH; str "h1"] /\
    exists h', bc_blocks chain' !! str "h1" = Some h' /\ bh_blockNumber h' = Some 1.
Proof.
  assert (bc_hashes (ss_blockchain sample_grown) = [GENESIS_BLOCK_HASH; str "h1"]) as E by (vm_compute; reflexivity).
  split; [exact E|].
  destruct (@restart_restores_chain _ list_kv list_kv_laws flat_fs sample_modules [] true sample_grown
    BlockChain_new eq_refl sample_grown_reachable) as (chain' & Hl & Hh & _ & _ & Hall).
  exists chain'. rewrite E in Hh. split; [exact Hl|]. split; [exact Hh|]. rewrite E in Hall.
  destruct (Hall 0%nat (str "h1") eq_refl) as (h & h' & Hk & Hk' & Hn & _). exists h'. split; [exact Hk'|].
  rewrite Hn. vm_compute in Hk. injection Hk as <-. reflexivity.
Defined.

Lemma handle_block_exact_witness :
  let bi := sample_block (str "h1") GENESIS_BLOCK_HASH in
  let round := @handle_block _ list_kv flat_fs sample_modules [] true bi (str "dump") sample_start in
  is_ok round.2 = true /\
  (let '(s', r) := round in
   (bh_prevHash (bi_header bi) = GENESIS_BLOCK_HASH /\
    bc_blocks (ss_blockchain sample_start) !! bh_hash (bi_header bi) = None /\
    r = Ok tt /\
    let stored := stored_as []
      (saved_pos sample_modules true (ss_files sample_start) (bi_header bi)) (bi_header bi) in
    @consistent _ list_kv list_kv_laws s' [stored] /\
    exists bi', ss_processed s' = ss_processed sample_start ++ [(bi', str "dump")] /\ bi_header bi' = stored) \/
   (~ (bh_prevHash (bi_header bi) = GENESIS_BLOCK_HASH /\
       bc_blocks (ss_blockchain sample_start) !! bh_hash (bi_header bi) = None) /\
    (exists e, r = Throw e) /\ @consistent _ list_kv list_kv_laws s' [] /\
    ss_blockchain s' = ss_blockchain sample_start /\ ss_leveldb s' = ss_leveldb sample_start)).
Proof.
  cbn zeta.
  pose proof (@handle_block_exact _ list_kv list_kv_laws flat_fs sample_modules [] true
    (sample_block (str "h1") GENESIS_BLOCK_HASH) (sample_block (str "h1") GENESIS_BLOCK_HASH)
    (str "dump") sample_start [] (@consistent_init _ list_kv list_kv_laws [] ∅ I eq_refl eq_refl)
    eq_refl sample_good eq_refl) as Hx.
  split; [vm_compute; reflexivity|exact Hx].
Defined.

Lemma validated_blocks_confirmed_witness :
  let run := @sync_loop _ list_kv flat_fs hex_support sample_modules [] false true None
    [(sample_block (str "h1") GENESIS_BLOCK_HASH, str "d1"); (sample_block (str "h2") (str "h1"), str "d2")]
    sample_start in
  length (ss_processed run.1) = 1%nat /\
  exists l, ss_processed run.1 = ss_processed sample_start ++ l /\
    forall j x, l !! j = Some x -> exists b next,
      [(sample_block (str "h1") GENESIS_BLOCK_HASH, str "d1"); (sample_block (str "h2") (str "h1"), str "d2")]
        !! j = Some b /\
      [(sample_block (str "h1") GENESIS_BLOCK_HASH, str "d1"); (sample_block (str "h2") (str "h1"), str "d2")]
        !! S j = Some next /\
      x.2 = b.2 /\ bh_hash (bi_header x.1) = bh_hash (bi_header b.1) /\
      @confirmed_by hex_support (bi_header b.1) next.1.
Proof.
  split; [vm_compute; reflexivity|].
  eapply (@validated_blocks_confirmed _ list_kv flat_fs hex_support sample_modules [] false None
    [(sample_block (str "h1") GENESIS_BLOCK_HASH, str "d1"); (sample_block (str "h2") (str "h1"), str "d2")]
    sample_start). apply surjective_pairing.
Defined.

(** ** The chain *)

(** C12. On a chain whose headers are numbered by position, [addBlock] - with its
    walk to the last numbered ancestor, its renumbering and its rollback - does
    exactly what the specification says: refuse an empty hash, a known block and
    an empty parent; append a child of the tip; on a chain of the genesis block
    alone append also a block whose parent is unknown; refuse any other block and
    leave the chain as it was. *)
Theorem addBlock_refines_spec block st :
  settled st -> bh_blockNumber block = None -> addBlock block st = addBlock_spec block st.
Proof. apply addBlock_eq_spec. Qed.

Lemma addBlock_refines_spec_witness :
  let block := sample_header (str "h1") GENESIS_BLOCK_HASH in
  is_ok (addBlock block BlockChain_new).2 = true /\
  addBlock block BlockChain_new = addBlock_spec block BlockChain_new.
Proof.
  cbn zeta. split; [vm_compute; reflexivity|].
  apply (addBlock_refines_spec _ BlockChain_new); [apply settled_new|reflexivity].
Defined.

(** C13. [addBlock] keeps the invariant of the chain: numbers are positions,
    every header is in the vector, and from the third on each block is the child
    of the one before. *)
Theorem addBlock_keeps_chain block st :
  settled st -> linked st -> bh_blockNumber block = None -> blen (bc_hashes st) + 1 < 2 ^ 64 ->
  settled (addBlock block st).1 /\ linked (addBlock block st).1.
Proof.
  intros Hs Hl Hn Hb. rewrite addBlock_eq_spec by done. unfold addBlock_spec.
  destruct (is_empty (bh_hash block)); [done|]. case_bool_decide as Hf; [done|].
  apply eq_None_not_Some in Hf. destruct (is_empty (bh_prevHash block)); [done|].
  destruct (accepts st block) eqn:Ha; [|done].
  split; [by apply settled_append|by apply linked_append].
Qed.

Lemma addBlock_keeps_chain_witness :
  let st := (addBlock (sample_header (str "h1") GENESIS_BLOCK_HASH) BlockChain_new).1 in
  settled st /\ linked st.
Proof.
  cbn zeta. apply (addBlock_keeps_chain (sample_header (str "h1") GENESIS_BLOCK_HASH) BlockChain_new);
    [apply settled_new|apply linked_new|reflexivity|reflexivity].
Defined.

(** C34. The walk over ancestors ends on every state, cycles of parents included:
    it never needs more rounds than there are headers, because it numbers every
    header it passes. *)
Theorem calcBlockchain_terminates k st : (calcBlockchain k st).2 <> OutOfFuel.
Proof. apply calcBlockchain_not_fuel. Qed.

(** On a chain that holds only the genesis block, a block whose parent nobody
    has seen is not refused: it becomes block 1, and [addBlock] never returns the
    0 its caller tests for. *)
Theorem orphan_becomes_first_block block st :
  settled st -> bh_blockNumber block = None -> bh_hash block <> [] -> bh_prevHash block <> [] ->
  bc_hashes st = [GENESIS_BLOCK_HASH] -> bc_blocks st !! bh_hash block = None ->
  bc_blocks st !! bh_prevHash block = None ->
  addBlock block st = (append_block st block, Ok 1).
Proof.
  intros Hs Hn Hh Hp Hg Hf Ho. rewrite addBlock_eq_spec by done. unfold addBlock_spec, accepts.
  rewrite !is_empty_false by done. rewrite Hf, bool_decide_false by (intros [x [=]]).
  rewrite Hg, (bool_decide_true (_ = None)) by done. by rewrite orb_true_r.
Qed.

Lemma orphan_becomes_first_block_witness :
  addBlock (sample_header (str "h7") (str "unknown")) BlockChain_new
  = (append_block BlockChain_new (sample_header (str "h7") (str "unknown")), Ok 1).
Proof.
  apply (orphan_becomes_first_block (sample_header (str "h7") (str "unknown")) BlockChain_new);
    try reflexivity; [apply settled_new|done|done].
Defined.

(** [addBlock] never returns 0 on a chain whose headers are numbered by
    position, so the synchronisation loop's test of the returned number never
    fires. *)
Theorem addBlock_never_zero block st :
  settled st -> bh_blockNumber block = None -> (addBlock block st).2 <> Ok 0.
Proof.
  intros Hs Hn. rewrite addBlock_eq_spec by done. unfold addBlock_spec.
  destruct (is_empty (bh_hash block)); [done|]. case_bool_decide as Hf; [done|].
  destruct (is_empty (bh_prevHash block)); [done|]. destruct (accepts st block); [|done].
  intros [= E]. pose proof (lookup_lt_Some _ _ _ (set_genesis st Hs)). unfold blen in E. lia.
Qed.

Lemma addBlock_never_zero_witness :
  (addBlock (sample_header (str "h7") (str "unknown")) BlockChain_new).2 <> Ok 0.
Proof.
  apply (addBlock_never_zero (sample_header (str "h7") (str "unknown")) BlockChain_new);
    [apply settled_new|reflexivity].
Defined.

(** Lookups agree: every number up to [countBlocks] finds the block of that
    number, the block's hash finds the same block, and a number beyond finds the
    empty header. *)
Theorem getBlock_agrees st n :
  settled st -> 0 <= n < 2 ^ 64 ->
  if n <=? countBlocks st then
    exists h, getBlock_number n st = Ok h /\ bh_blockNumber h = Some n /\
      bc_hashes st !! Z.to_nat n = Some (bh_hash h) /\
      (bh_hash h <> [] -> getBlock_hash (bh_hash h) st = Ok h)
  else getBlock_number n st = Ok BlockHeader_default.
Proof.
  intros Hs Hn. rewrite countBlocks_eq by done. unfold getBlock_number, getBlockImpl_number, getBlock_hash.
  destruct (Z.leb_spec n (blen (bc_hashes st) - 1)) as [Hle|Hgt].
  - destruct (Z.leb_spec (blen (bc_hashes st)) n); [lia|].
    destruct (lookup_lt_is_Some_2 (bc_hashes st) (Z.to_nat n)) as [k Hk]; [unfold blen in Hle; lia|].
    destruct (set_hash st Hs _ _ Hk) as (h & Hh & Hhk & Hnum). exists h.
    unfold getBlockImpl_hash. rewrite Hk. cbn [opt_ub mbind res_bind]. rewrite Hh, Hhk, Hh.
    split; [done|]. split; [rewrite Hnum; f_equal; lia|]. split; [done|].
    intros Hne. by rewrite is_empty_false.
  - destruct (Z.leb_spec (blen (bc_hashes st)) n); [done|lia].
Qed.

Lemma getBlock_agrees_witness :
  let st := (addBlock (sample_header (str "h1") GENESIS_BLOCK_HASH) BlockChain_new).1 in
  if 1 <=? countBlocks st then
    exists h, getBlock_number 1 st = Ok h /\ bh_blockNumber h = Some 1 /\
      bc_hashes st !! Z.to_nat 1 = Some (bh_hash h) /\
      (bh_hash h <> [] -> getBlock_hash (bh_hash h) st = Ok h)
  else getBlock_number 1 st = Ok BlockHeader_default.
Proof.
  cbn zeta. apply (getBlock_agrees (addBlock (sample_header (str "h1") GENESIS_BLOCK_HASH) BlockChain_new).1 1); [|lia].
  rewrite addBlock_eq_spec by (apply settled_new || reflexivity).
  apply (settled_append BlockChain_new (sample_header (str "h1") GENESIS_BLOCK_HASH)); try reflexivity.
  apply settled_new.
Defined.
