(* ===== verification/CodecProps.v ===== *)
(** * What the encodings promise

    The theorems about utils/serialize.h, BlockInfo.cpp and the records of
    NodeTestsBlockInfo.cpp: what is written is read back, at any place of a
    buffer, and what truncation does. *)
From S2P Require Import Prelude External Serialize Ordered Address BlockInfo BlockInfoCodec.
From S2P Require Import NodeTestsBlockInfo ChainProps.
#[local] Open Scope Z_scope.

(** A record's values are read back from what is stored of them. *)
Definition stores {A} (wf : A -> Prop) (ser : A -> res bytes) (des : bytes -> res A) : Prop :=
  forall a, wf a -> exists raw, ser a = Ok raw /\ raw <> [] /\ (blen raw < 2 ^ 64 - 16 -> des raw = Ok a).

(** A big-endian integer of any width up to eight bytes is read back at any
    position of a buffer, with the position after it. *)
Theorem integer_read_back w pre val post :
  (0 < w <= 8)%nat -> fits w val -> blen (pre ++ serializeInt w val ++ post) < 2 ^ 64 - 16 ->
  deserializeInt w (pre ++ serializeInt w val ++ post) (blen pre) = Ok (val, blen pre + Z.of_nat w).
Proof.
  intros Hw Hv Hl. apply deserializeInt_suffix with post; [done|done|].
  change (blen pre) with (0 + blen pre). apply suffix_at_app. by apply suffix_at_start.
Qed.

Lemma integer_read_back_witness :
  deserializeInt 8 (str "ab" ++ serializeInt 8 (2 ^ 63 + 258) ++ str "c") 2 = Ok (2 ^ 63 + 258, 10).
Proof. apply (integer_read_back 8 (str "ab") (2 ^ 63 + 258) (str "c")); [lia|unfold fits; lia|reflexivity]. Defined.

(** A string read from a buffer that ends too early is not refused: the
    bytes that are there are returned, with the position the length announces,
    beyond the end. *)
Theorem truncated_string_accepted s k :
  blen s < 2 ^ 63 -> (k <= length s)%nat ->
  deserializeString (serializeInt 8 (blen s) ++ take k s) 0 = Ok (take k s, 8 + blen s).
Proof.
  intros Hl Hk. pose proof (blen_nonneg s). set (raw := serializeInt 8 (blen s) ++ take k s).
  assert (suffix_at raw 0 raw) as Hs.
  { apply suffix_at_start. subst raw. rewrite blen_app, blen_serializeInt by lia.
    unfold blen in *. rewrite length_take. lia. }
  apply (deserializeInt_suffix 8 raw 0 (blen s) (take k s)) in Hs as Hd; [|unfold fits; lia|lia].
  apply deserializeInt_Ok_at in Hd as [Hd _]. unfold deserializeString, deserializeStringBigEndian,
    deserializeStringBigEndian_at. unfold deserializeInt_at in Hd. rewrite Hd. cbn [mbind res_bind].
  assert (blen (serializeInt 8 (blen s)) = 8) as H8 by (by rewrite blen_serializeInt by lia).
  change (0 =? 0 + Z.of_nat 8) with false. cbn iota. change (0 + Z.of_nat 8) with 8.
  unfold substr. rewrite (proj2 (Z.ltb_ge (blen raw) 8)) by (subst raw; rewrite blen_app; pose proof (blen_nonneg (take k s)); lia).
  cbn [mbind res_bind]. rewrite u64_small by (unfold is_u64; lia).
  rewrite (proj2 (Z.eqb_neq (8 + blen s) 0)) by lia. cbn [negb CHECK mbind res_bind].
  subst raw. rewrite drop_app_length' by (apply Nat2Z.inj; symmetry; exact H8).
  rewrite take_ge; [done|]. rewrite blen_app, H8. unfold blen. rewrite length_take. lia.
Qed.

Lemma truncated_string_accepted_witness :
  deserializeString (serializeInt 8 5 ++ str "ab") 0 = Ok (str "ab", 13).
Proof. apply (truncated_string_accepted (str "abcde") 2); [reflexivity|vm_compute; lia]. Defined.

(** A block header is stored and read back: every member but the two that
    are recomputed after loading, the end position and the block number. *)
Theorem BlockHeader_roundtrip b :
  bh_wf b -> exists raw, BlockHeader_serialize b = Ok raw /\
    (blen raw < 2 ^ 64 - 16 -> BlockHeader_deserialize raw = Ok (bh_stored b)).
Proof. intros Hb. destruct (BlockHeader_roundtrip_stored b Hb) as (raw & Hs & _ & Hd). eauto. Qed.

Lemma BlockHeader_roundtrip_witness :
  exists raw, BlockHeader_serialize (sample_header (str "h1") (str "h0")) = Ok raw /\
    (blen raw < 2 ^ 64 - 16 ->
     BlockHeader_deserialize raw = Ok (bh_stored (sample_header (str "h1") (str "h0")))).
Proof. apply (BlockHeader_roundtrip (sample_header (str "h1") (str "h0"))). by apply sample_header_wf. Defined.

(** A transaction status is stored and read back with the alternative of
    its variant - a delegation, an undelegation with its value and hash, or a
    contract's outcome with its address, the empty address included. *)
Theorem TransactionStatus_roundtrip t :
  ts_wf t -> exists raw, TransactionStatus_serialize t = Ok raw /\
    (blen raw < 2 ^ 64 - 16 -> TransactionStatus_deserialize raw = Ok t).
Proof.
  intros Ht. destruct (TransactionStatus_laws t Ht) as (raw & Hs & _ & Hd). eauto.
Qed.

Lemma TransactionStatus_roundtrip_witness :
  let t := mkTransactionStatus true (str "tx") 7 (SUnDelegate (mkUnDelegate (-5) (str "delegation"))) in
  exists raw, TransactionStatus_serialize t = Ok raw /\
    (blen raw < 2 ^ 64 - 16 -> TransactionStatus_deserialize raw = Ok t).
Proof.
  cbn zeta. apply (TransactionStatus_roundtrip
    (mkTransactionStatus true (str "tx") 7 (SUnDelegate (mkUnDelegate (-5) (str "delegation"))))).
  split; [unfold is_u64; cbn; lia|unfold status_wf, is_i64; cbn; lia].
Defined.

(** The counter of a node's tests is stored and read back with its set of
    testers, in the order of the set. *)
Theorem NodeTestCount_roundtrip c :
  ntc_wf c -> exists raw, NodeTestCount_serialize c = Ok raw /\
    (blen raw < 2 ^ 64 - 16 -> NodeTestCount_deserialize raw = Ok c).
Proof.
  intros Hc. destruct (NodeTestCount_laws c Hc) as (raw & Hs & _ & Hd). eauto.
Qed.

Lemma NodeTestCount_roundtrip_witness :
  let c := mkNodeTestCount 3 1 18000 [Address_of_range (str "a"); Address_of_range (str "b")] in
  exists raw, NodeTestCount_serialize c = Ok raw /\
    (blen raw < 2 ^ 64 - 16 -> NodeTestCount_deserialize raw = Ok c).
Proof.
  cbn zeta. apply (NodeTestCount_roundtrip
    (mkNodeTestCount 3 1 18000 [Address_of_range (str "a"); Address_of_range (str "b")])).
  unfold ntc_wf, is_u64. refine (conj _ (conj _ (conj _ (conj _ (conj _ _))))); try (unfold blen; cbn; lia).
  - by repeat constructor.
  - constructor; [by exists (str "a")|]. constructor; [by exists (str "b")|]. constructor.
Defined.

(** The table of registered nodes is stored and read back, names by host,
    in the order of the map. *)
Theorem AllNodes_roundtrip a :
  an_wf a -> blen (AllNodes_serialize a) < 2 ^ 64 - 16 ->
  AllNodes_deserialize (AllNodes_serialize a) = Ok a.
Proof.
  intros Ha Hl. exact (codec_read_back (A := AllNodes) a _ Ha eq_refl Hl).
Qed.

Lemma AllNodes_roundtrip_witness :
  AllNodes_deserialize (AllNodes_serialize (mkAllNodes [(str "h1", str "n1"); (str "h2", str "n2")]))
  = Ok (mkAllNodes [(str "h1", str "n1"); (str "h2", str "n2")]).
Proof.
  apply (AllNodes_roundtrip (mkAllNodes [(str "h1", str "n1"); (str "h2", str "n2")])).
  - unfold an_wf, is_u64. split; [|unfold blen; cbn; lia]. by repeat constructor.
  - reflexivity.
Defined.

(** C40. The records the node keeps in its database are read back.  Those under
    [b_<hash>], the headers, come back with every member but the end position and the
    number, which loading recomputes; the metadata of the chain, the places reached in
    the block files ([f_<name>]), the states of the main worker and of the node-test
    worker and the table of nodes come back as they were written.  So do the records
    that have an encoding here though this program stores none of them: positions,
    addresses' and transactions' outcomes, and the nodes' test results, trust,
    requests per second, tables and counters, with their strings, sets and variants,
    the optional and empty ones included. *)
Theorem stored_records_roundtrip :
  ((forall b, bh_wf b -> exists raw, BlockHeader_serialize b = Ok raw /\ raw <> [] /\
     (blen raw < 2 ^ 64 - 16 -> BlockHeader_deserialize raw = Ok (bh_stored b))) /\
   stores bm_wf BlocksMetadata_serialize BlocksMetadata_deserialize /\
   stores (fun f => fp_wf (fi_filePos f)) (fun f => Ok (FileInfo_serialize f)) FileInfo_deserialize /\
   stores mb_wf MainBlockInfo_serialize MainBlockInfo_deserialize /\
   stores ns_wf NodeStatBlockInfo_serialize NodeStatBlockInfo_deserialize /\
   stores an_wf (fun a => Ok (AllNodes_serialize a)) AllNodes_deserialize) /\
  stores fp_wf (fun p => Ok (FilePosition_serialize p)) FilePosition_deserialize /\
  stores ai_wf (fun a => Ok (AddressInfo_serialize a)) AddressInfo_deserialize /\
  stores ts_wf TransactionStatus_serialize TransactionStatus_deserialize /\
  stores ntr_wf NodeTestResult_serialize NodeTestResult_deserialize /\
  stores ntt_wf (fun t => Ok (NodeTestTrust_serialize t)) NodeTestTrust_deserialize /\
  stores nr_wf (fun a => Ok (NodeRps_serialize a)) NodeRps_deserialize /\
  stores atn_wf (fun a => Ok (AllTestedNodes_serialize a)) AllTestedNodes_deserialize /\
  stores ntc_wf NodeTestCount_serialize NodeTestCount_deserialize.
Proof.
  refine (conj (conj BlockHeader_roundtrip_stored _) _).
  - exact (conj (codec_roundtrip (A := BlocksMetadata)) (conj (codec_roundtrip (A := FileInfo))
      (conj (codec_roundtrip (A := MainBlockInfo)) (conj (codec_roundtrip (A := NodeStatBlockInfo))
      (codec_roundtrip (A := AllNodes)))))).
  - exact (conj (codec_roundtrip (A := FilePosition)) (conj (codec_roundtrip (A := AddressInfo))
      (conj (codec_roundtrip (A := TransactionStatus)) (conj (codec_roundtrip (A := NodeTestResult))
      (conj (codec_roundtrip (A := NodeTestTrust)) (conj (codec_roundtrip (A := NodeRps))
      (conj (codec_roundtrip (A := AllTestedNodes)) (codec_roundtrip (A := NodeTestCount))))))))).
Qed.

Lemma stored_records_roundtrip_witness :
  let b := sample_header (str "h1") (str "h0") in
  let c := mkNodeTestCount 3 1 18000 [Address_of_range (str "a"); Address_of_range (str "b")] in
  (exists raw, BlockHeader_serialize b = Ok raw /\ raw <> [] /\
     (blen raw < 2 ^ 64 - 16 -> BlockHeader_deserialize raw = Ok (bh_stored b))) /\
  exists raw, NodeTestCount_serialize c = Ok raw /\ raw <> [] /\
    (blen raw < 2 ^ 64 - 16 -> NodeTestCount_deserialize raw = Ok c).
Proof.
  cbn zeta. destruct stored_records_roundtrip as ((Hb & _) & _ & _ & _ & _ & _ & _ & _ & Hntc).
  split; [apply Hb|apply Hntc].
  - by apply sample_header_wf.
  - unfold ntc_wf, is_u64. refine (conj _ (conj _ (conj _ (conj _ (conj _ _))))); try (unfold blen; cbn; lia).
    + by repeat constructor.
    + constructor; [by exists (str "a")|]. constructor; [by exists (str "b")|]. constructor.
Defined.
