(* ===== verification/CacheProps.v ===== *)
(** * What the store and the caches promise

    The theorems about LevelDb.cpp - range reads are pages of the sorted
    contents, the block table is found whole, a batch is visible after it is
    written - and about utils/Heap.cpp, Cache/Cache.cpp and
    Cache/LocalCache.cpp: which entries stay, which go, and what a batch request
    reports. *)
From S2P Require Import Prelude External Ordered Instances Address BlockInfo LevelDb Cache Heap LocalCache.
From S2P Require Import AddressGroups AddressGroupsFacts.
#[local] Open Scope Z_scope.

(** ** The store *)

Section store.
Context {D : Type} `{KvLaws D}.

(** A range read with [from] and [count] is the page of that place and size
    of the entries between the two keys, in the store's order; a count of 0 is
    no limit. *)
Theorem range_read_pages keyFrom keyTo from count (db : D) :
  kv_ok db -> 0 <= from -> 0 <= count -> from + count < 2 ^ 64 -> blen (kv_iter db) < 2 ^ 64 ->
  findKey2 keyFrom keyTo from count db
  = page from count (List.filter (in_range keyFrom keyTo) (kv_iter db)).
Proof. apply findKeyInternal_eq. Qed.

(** Reading the block table gives exactly the values stored under a block
    key, each once, whatever else the store holds. *)
Theorem block_table_complete (db : D) value :
  kv_ok db ->
  NoDup (getAllBlocks db) /\
  (value ∈ getAllBlocks db <->
   exists hash, findOneValueWithoutCheck (BLOCK_PREFIX ++ hash) db = Ok value /\
     omap_find (BLOCK_PREFIX ++ hash) (kv_iter db) <> None).
Proof.
  intros Hok. rewrite getAllBlocks_eq by done.
  pose proof (kv_iter_sorted db Hok) as Hs.
  split; [apply osorted_NoDup, oset_of_list_spec|].
  rewrite (proj2 (oset_of_list_spec _)), list_elem_of_fmap. split.
  - intros ([k v] & -> & Hin). apply list_elem_of_In, filter_In in Hin as [Hin Hp].
    apply has_prefix_iff in Hp as [hash Hk]. cbn in Hk. subst k. exists hash.
    apply list_elem_of_In, omap_find_elem in Hin; [|done].
    rewrite findOneValueWithoutCheck_eq by done. by rewrite Hin.
  - intros (hash & Hv & Hn). rewrite findOneValueWithoutCheck_eq in Hv by done.
    destruct (omap_find (BLOCK_PREFIX ++ hash) (kv_iter db)) as [v|] eqn:E; [|done].
    injection Hv as ->. exists (BLOCK_PREFIX ++ hash, value). split; [done|].
    apply list_elem_of_In, filter_In. split; [by apply list_elem_of_In, omap_find_elem|].
    apply has_prefix_iff. by eexists.
Qed.

(** A batch is written as a whole and in order: the value put last under a
    key is the one found afterwards, and every other key has the value the rest
    of the batch gives it. *)
Theorem batch_visible key value b (db : D) :
  kv_ok db ->
  exists db', addBatch (addKey key value b) db = (db', Ok tt) /\ kv_ok db' /\
    findOneValue key db' = Ok value /\
    forall db0, addBatch b db = (db0, Ok tt) -> forall key', key' <> key ->
      findOneValue key' db' = findOneValue key' db0.
Proof.
  intros Hok. destruct (addBatch_eq (addKey key value b) db Hok) as (db' & Hb & Hok' & Hit).
  destruct (addBatch_eq b db Hok) as (d & Hd & Hokd & Hitd).
  exists db'. split; [done|]. split; [done|].
  cbn [addKey b_batch] in Hit. rewrite foldl_app in Hit. cbn [foldl kv_apply] in Hit.
  unfold findOneValue, findOneValueInternal. rewrite kv_get_iter by done. split.
  - by rewrite Hit, omap_find_set, decide_True.
  - intros db0 Hb0 key' Hne. rewrite Hd in Hb0. injection Hb0 as <-.
    rewrite !kv_get_iter by done. by rewrite Hit, omap_find_set, Hitd, decide_False by done.
Qed.

(** A key deleted in a batch is not found after it. *)
Theorem batch_delete key b (db : D) :
  kv_ok db ->
  exists db', addBatch (removeValue key b) db = (db', Ok tt) /\
    findOneValueWithoutCheck key db' = Ok [] /\ is_ok (findOneValue key db') = false.
Proof.
  intros Hok. destruct (addBatch_eq (removeValue key b) db Hok) as (db' & Hb & Hok' & Hit).
  destruct (addBatch_eq b db Hok) as (d & Hd & Hokd & Hitd).
  exists db'. split; [done|]. cbn [removeValue b_batch] in Hit. rewrite foldl_app in Hit.
  cbn [foldl kv_apply] in Hit. rewrite <- Hitd in Hit.
  unfold findOneValue. rewrite findOneValueWithoutCheck_eq by done. unfold findOneValueInternal.
  rewrite kv_get_iter by done. rewrite Hit, omap_find_delete, decide_True by (done || by apply kv_iter_sorted).
  done.
Qed.

End store.

Definition small_store : list (bytes * bytes) :=
  [(KEY_BLOCK_METADATA, str "m"); (str "b_h1", str "v1"); (str "b_h2", str "v2"); (str "f_1", str "x")].

Lemma small_store_ok : @kv_ok _ list_kv list_kv_laws small_store.
Proof. by repeat constructor. Qed.

Lemma range_read_pages_witness :
  @findKey2 _ list_kv (str "b_") (str "b`") 1 5 small_store = [(str "b_h2", str "v2")].
Proof.
  rewrite (@range_read_pages _ list_kv list_kv_laws (str "b_") (str "b`") 1 5 small_store small_store_ok);
    [reflexivity|lia..|reflexivity].
Defined.

Lemma block_table_complete_witness :
  NoDup (@getAllBlocks _ list_kv small_store) /\
  (str "v2" ∈ @getAllBlocks _ list_kv small_store <->
   exists hash, @findOneValueWithoutCheck _ list_kv (BLOCK_PREFIX ++ hash) small_store = Ok (str "v2") /\
     omap_find (BLOCK_PREFIX ++ hash) small_store <> None).
Proof. apply (@block_table_complete _ list_kv list_kv_laws small_store (str "v2") small_store_ok). Defined.

Lemma batch_visible_witness :
  let b := removeValue (str "b_h2") (Batch_new false) in
  exists db', @addBatch _ list_kv (addKey (str "b_h3") (str "v3") b) small_store = (db', Ok tt) /\
    @kv_ok _ list_kv list_kv_laws db' /\ @findOneValue _ list_kv (str "b_h3") db' = Ok (str "v3") /\
    forall db0, @addBatch _ list_kv b small_store = (db0, Ok tt) -> forall key', key' <> str "b_h3" ->
      @findOneValue _ list_kv key' db' = @findOneValue _ list_kv key' db0.
Proof.
  cbn zeta. apply (@batch_visible _ list_kv list_kv_laws (str "b_h3") (str "v3")
    (removeValue (str "b_h2") (Batch_new false)) small_store small_store_ok).
Defined.

Lemma batch_delete_witness :
  exists db', @addBatch _ list_kv (removeValue (str "b_h2") (Batch_new true)) small_store = (db', Ok tt) /\
    @findOneValueWithoutCheck _ list_kv (str "b_h2") db' = Ok [] /\
    is_ok (@findOneValue _ list_kv (str "b_h2") db') = false.
Proof.
  apply (@batch_delete _ list_kv list_kv_laws (str "b_h2") (Batch_new true) small_store small_store_ok).
Defined.

(** ** Heap *)

(** [reduceToMax] keeps the most recently used keys: it ends, returns the
    keys it drops oldest first, leaves exactly as many as asked for (or all, when
    there are fewer), and no key that was dropped had been used later than one
    that stayed. *)
Theorem reduceToMax_drops_oldest n h :
  heap_ok h -> 0 < n ->
  exists h' dropped, reduceToMax n h = (h', Ok dropped) /\ heap_ok h' /\
    Z.of_nat (size (h_keys h')) = Z.min n (Z.of_nat (size (h_keys h))) /\
    (forall k, k ∈ dropped <-> is_Some (h_keys h !! k) /\ h_keys h' !! k = None) /\
    (forall k k' t t', k ∈ dropped -> h_keys h !! k = Some t -> h_keys h' !! k' = Some t' ->
       h_keys h !! k' = Some t' /\ t <= t').
Proof.
  intros Hok Hn. destruct (reduceToMax_spec n h Hok Hn) as (h' & Hr & Hok' & Hh').
  set (d := (length (h_heap h) - Z.to_nat n)%nat) in *.
  assert (h_heap h = take d (h_heap h) ++ h_heap h') as Hsplit by (by rewrite Hh', take_drop).
  assert (NoDup (h_heap h).*2) as Hnd.
  { rewrite (heap_entries h Hok). rewrite <- list_fmap_compose. cbn.
    rewrite (list_fmap_ext _ fst); [apply NoDup_fst_map_to_list|done]. }
  rewrite Hsplit, fmap_app in Hnd. apply NoDup_app in Hnd as (_ & Hdisj & _).
  assert (forall k t, h_keys h' !! k = Some t -> h_keys h !! k = Some t) as Hsub.
  { intros k t Hk. apply (heap_entry h' (t, k)) in Hk; [|done].
    apply (heap_entry h (t, k)); [done|]. rewrite Hsplit. apply elem_of_app. by right. }
  exists h', (take d (h_heap h)).*2. split; [done|]. split; [done|]. split; [|split].
  - rewrite <- !heap_length by done. rewrite Hh', length_drop. subst d. lia.
  - intros k. rewrite list_elem_of_fmap. split.
    + intros ([t x] & -> & Hin). cbn. split.
      * exists t. apply (heap_entry h (t, x)); [done|]. rewrite Hsplit. apply elem_of_app. by left.
      * destruct (h_keys h' !! x) as [t'|] eqn:E; [|done]. apply (heap_entry h' (t', x)) in E; [|done].
        destruct (Hdisj x); [apply list_elem_of_fmap; by exists (t, x)|].
        apply list_elem_of_fmap. by exists (t', x).
    + intros [[t Ht] Hnone]. exists (t, k). split; [done|].
      apply (heap_entry h (t, k)) in Ht; [|done]. rewrite Hsplit in Ht.
      apply elem_of_app in Ht as [?|Ht]; [done|]. apply (heap_entry h' (t, k)) in Ht; [|done].
      cbn in Ht. congruence.
  - intros k k' t t' Hk Ht Ht'. split; [by apply Hsub|].
    apply list_elem_of_fmap in Hk as ([t0 x] & -> & Hin). cbn in Ht.
    assert (h_keys h !! x = Some t0) as E.
    { apply (heap_entry h (t0, x)); [done|]. rewrite Hsplit. apply elem_of_app. by left. }
    rewrite E in Ht. injection Ht as ->.
    apply (heap_entry h' (t', k')) in Ht'; [|done]. rewrite Hh' in Ht'.
    exact (mm_sorted_split _ d (t, x) (t', k') (heap_sorted h Hok) Hin Ht').
Qed.

Definition two_keys : Heap := (Heap_addElement (str "b") 20 (Heap_addElement (str "a") 10 Heap_empty).1).1.

Lemma two_keys_ok : heap_ok two_keys.
Proof.
  destruct (heap_add_ok (str "a") 10 Heap_empty heap_ok_empty) as (h1 & H1 & Hok1 & _); [by vm_compute|].
  destruct (heap_add_ok (str "b") 20 h1 Hok1) as (h2 & H2 & Hok2 & _); [by vm_compute|].
  unfold two_keys. rewrite H1. cbn [fst]. by rewrite H2.
Qed.

Lemma reduceToMax_drops_oldest_witness :
  exists h' dropped, reduceToMax 1 two_keys = (h', Ok dropped) /\ heap_ok h' /\
    Z.of_nat (size (h_keys h')) = Z.min 1 (Z.of_nat (size (h_keys two_keys))) /\
    (forall k, k ∈ dropped <-> is_Some (h_keys two_keys !! k) /\ h_keys h' !! k = None) /\
    (forall k k' t t', k ∈ dropped -> h_keys two_keys !! k = Some t -> h_keys h' !! k' = Some t' ->
       h_keys two_keys !! k' = Some t' /\ t <= t').
Proof. apply (reduceToMax_drops_oldest 1 two_keys); [apply two_keys_ok|lia]. Defined.

(** ** Cache *)

(** Removing an attribute removes the values added under it and no other,
    and keeps the cache free of values no attribute owns. *)
Theorem cache_remove_exact {V} attribute keys (c : Cache V) :
  cache_owned c -> c_attributes c !! attribute = Some keys ->
  cache_owned (cache_remove attribute c) /\
  c_attributes (cache_remove attribute c) !! attribute = None /\
  forall key, getValue key (cache_remove attribute c) = if decide (key ∈ keys) then None else getValue key c.
Proof.
  intros Hc Ha. split; [by apply cache_owned_remove|]. split.
  - unfold cache_remove. rewrite Ha. apply lookup_delete_eq.
  - intros key. case_decide as Hk; [by eapply getValue_removed|by eapply getValue_kept].
Qed.

Definition one_value : Cache bytes := addValue (str "k") (str "7") (str "v") Cache_empty.

Lemma cache_remove_exact_witness :
  cache_owned (cache_remove (str "7") one_value) /\
  c_attributes (cache_remove (str "7") one_value) !! str "7" = None /\
  forall key, getValue key (cache_remove (str "7") one_value)
    = if decide (key ∈ [str "k"]) then None else getValue key one_value.
Proof.
  apply (cache_remove_exact (str "7") [str "k"] one_value); [|by vm_compute].
  apply cache_owned_add, cache_owned_empty.
Defined.

(** ** LocalCache *)

Section local.
Context {T : Type} `{Blocked T}.

(** C39. An insertion into a bounded cache evicts exactly the addresses whose
    last read is oldest among the read ones, beyond the limit; every other
    address has what the insertion left. *)
Theorem addElement_evicts address value s (c : LocalCacheInternal T) :
  heap_ok (lc_heap c) -> 0 < lc_maxCountElements c < u64_max ->
  exists c', addElement address value s c = (c', Ok tt) /\ heap_ok (lc_heap c') /\
    h_heap (lc_heap c) = evicted c ++ h_heap (lc_heap c') /\
    forall k, lc_cache c' !! k =
      if decide (k ∈ (evicted c).*2) then None
      else lc_cache (addElementInternal address value s false c) !! k.
Proof.
  intros Hok Hm. destruct (addElement_spec address value s c Hok Hm) as (c' & Ha & Hok' & Hh & _ & Hk).
  eauto.
Qed.

(** The limit does not bound the cache: only reads enter the heap, so
    addresses that are added and never read stay, however many there are. *)
Theorem unread_never_evicted max (l : list (bytes * list T)) :
  0 < max < u64_max -> NoDup l.*1 -> size (lc_cache (fill max l)) = length l.
Proof. apply fill_size. Qed.

(** A batch request reports an address exactly when it is in the cache and
    was entered after the block asked for or has an element above it. *)
Theorem findGreater_exact (addresses : list bytes) blockNum (c : LocalCacheInternal T) k v :
  (k, v) ∈ br_elements (findGreaterElements addresses blockNum c) <->
  k ∈ addresses /\ exists e, lc_cache c !! k = Some e /\ v = lce_value e /\
    (blockNum < lce_blockUnklesOrNewNum e \/ isGreater_value (lce_value e) blockNum = true).
Proof. apply findGreater_spec. Qed.

End local.

Definition read_cache : LocalCacheInternal TransactionInfo :=
  let c := LocalCacheInternal_new 1 in
  let c := (addElement (str "a") [] false c).1 in
  let c := (addElement (str "b") [] false c).1 in
  let c := (getValueIfExist (str "a") 10 c).1 in
  (getValueIfExist (str "b") 20 c).1.

Lemma read_cache_heap : lc_heap read_cache = two_keys.
Proof. vm_compute. reflexivity. Qed.

Lemma addElement_evicts_witness :
  (evicted read_cache).*2 = [str "a"] /\
  exists c', addElement (str "c") [] false read_cache = (c', Ok tt) /\ heap_ok (lc_heap c') /\
    h_heap (lc_heap read_cache) = evicted read_cache ++ h_heap (lc_heap c') /\
    forall k, lc_cache c' !! k =
      if decide (k ∈ (evicted read_cache).*2) then None
      else lc_cache (addElementInternal (str "c") [] false false read_cache) !! k.
Proof.
  split; [vm_compute; reflexivity|].
  apply (addElement_evicts (str "c") [] false read_cache); [|vm_compute; done].
  rewrite read_cache_heap. apply two_keys_ok.
Defined.

Lemma unread_never_evicted_witness :
  size (lc_cache (fill (T := TransactionInfo) 1 [(str "a", []); (str "b", []); (str "c", [])])) = 3%nat.
Proof.
  apply (unread_never_evicted (T := TransactionInfo) 1 [(str "a", []); (str "b", []); (str "c", [])]);
    [vm_compute; done|].
  apply NoDup_ListNoDup. repeat constructor; cbn; intuition discriminate.
Defined.

(** ** Groups of addresses *)

(** C19. The groups of addresses survive a restart, when their names can be lines of
    a file: groups are added to under the empty name, or under names with no newline
    that begin and end with a printable character other than a space, and addresses
    come out of processAddress non-empty and printable without spaces.  Then, after
    any sequence of additions and removals, whether they returned or threw, a new
    object that loads the file has in every group exactly the addresses the old one
    had. *)
Theorem groups_survive_restart `{TrimLaws} processAddr getterTxs2 set_order group_order ops s c0 s' :
  (forall s, set_order s ≡ₚ elements s) -> (forall m, group_order m ≡ₚ map_to_list m) ->
  Forall (plain_op processAddr) ops -> groups_ok s ->
  l_addressesFile s.1 <> [] -> l_isInitialized s.1 = true -> l_isSetAddressesPath s.1 = true ->
  l_addressesFile c0 = [] -> l_addresses c0 = ∅ ->
  let before := foldl (run_group_op processAddr getterTxs2 set_order group_order) s ops in
  setAddressPathAndLoad getterTxs2 set_order (l_addressesFile before.1) (c0, before.2) = (s', Ok tt) ->
  forall g, getAddresses g s'.1 = getAddresses g before.1 /\ is_ok (getAddresses g s'.1) = true.
Proof.
  intros Hset Hgroups Hops Hok Hpath Hi Hp Hc0 Ha0 before Hload g.
  destruct (run_group_ops_ok processAddr getterTxs2 set_order group_order Hset Hgroups ops s Hops Hok)
    as (Hok' & Hf & Hi' & Hp'). fold before in Hok', Hf, Hi', Hp'.
  destruct (load_groups getterTxs2 set_order before c0 s' Hok' ltac:(by rewrite Hf) Hc0 Ha0 Hload)
    as (_ & _ & _ & Hi2 & Hp2 & Hg).
  unfold getAddresses. by rewrite Hi2, Hp2, Hi', Hp', Hi, Hp, Hg.
Qed.

Definition word_address (s : bytes) : res bytes :=
  _ ← CHECK (negb (is_empty s) && forallb graphic s && (blen s <? 100)) (str "address");
  Ok s.

Lemma word_address_plain s a g : plain_group g -> blen g < 100 -> word_address s = Ok a -> plain_entry (g, a).
Proof.
  intros Hg Hl Hw. unfold word_address in Hw. apply bind_Ok_inv in Hw as (u & Hc & [= <-]).
  apply CHECK_Ok_inv in Hc. apply andb_true_iff in Hc as [[Hne Hf]%andb_true_iff Hb%Z.ltb_lt].
  split; [done|]. split; [split|].
  - by destruct s.
  - apply Forall_forall. intros c Hin. rewrite forallb_forall in Hf. apply Hf. by apply list_elem_of_In.
  - cbn [fst snd]. unfold address_line. rewrite !blen_app. change (blen [Byte.x0a]) with 1. unfold u64_max.
    destruct (negb (is_empty g)); [rewrite blen_app; change (blen (str " ")) with 1|change (blen []) with 0]; lia.
Qed.

Definition empty_groups : GroupState :=
  (mkLocalCache (LocalCacheInternal_new 0) (LocalCacheInternal_new 0) true (str "addresses") true true ∅, ∅).

Lemma empty_groups_ok : groups_ok empty_groups.
Proof.
  exists []. split; [reflexivity|]. split; [by apply Forall_nil|]. intros g a. unfold group_of. cbn.
  rewrite lookup_empty. split; [by intros ?%elem_of_empty|by intros ?%elem_of_nil].
Qed.

Definition fresh_cache : LocalCache :=
  mkLocalCache (LocalCacheInternal_new 0) (LocalCacheInternal_new 0) true [] false false ∅.

Definition some_ops : list GroupOp :=
  [GroupAdd [str "0xa1"; str "0xa2"] (str "my group"); GroupAdd [str "0xa1"] [];
   GroupRemove [str "0xa2"] (str "my group"); GroupRemove [str "0xa1"] (str "no group")].

Lemma word_address_for g : plain_group g -> blen g < 100 -> plain_for word_address g.
Proof. intros Hg Hl. split; [done|]. intros s a. by apply word_address_plain. Qed.

Lemma my_group_plain : plain_group (str "my group").
Proof.
  right. split; [|by eexists _, _]. intros Hin%list_elem_of_In. vm_compute in Hin. naive_solver.
Qed.

Lemma some_ops_plain : Forall (plain_op word_address) some_ops.
Proof.
  unfold some_ops. repeat apply Forall_cons_2; try done.
  - by apply word_address_for; [apply my_group_plain|].
  - by apply word_address_for; [left|].
Qed.

Lemma groups_survive_restart_witness :
  exists s', @setAddressPathAndLoad hex_support (fun _ => Ok []) elements (str "addresses")
      (fresh_cache, (foldl (run_group_op word_address (fun _ => Ok []) elements map_to_list) empty_groups some_ops).2)
      = (s', Ok tt) /\
    elements <$> getAddresses (str "my group") s'.1 = Ok [str "0xa1"].
Proof.
  set (before := foldl (run_group_op word_address (fun _ => Ok []) elements map_to_list) empty_groups some_ops).
  destruct (@setAddressPathAndLoad hex_support (fun _ => Ok []) elements (str "addresses") (fresh_cache, before.2))
    as [s' r] eqn:E.
  assert (r = Ok tt) as -> by (apply (f_equal snd) in E; vm_compute in E; by symmetry).
  exists s'. split; [reflexivity|].
  assert (@TrimLaws hex_support) as Htrim by (split; reflexivity).
  destruct (@groups_survive_restart hex_support Htrim word_address (fun _ => Ok []) elements map_to_list some_ops
    empty_groups fresh_cache s' ltac:(reflexivity) ltac:(reflexivity) some_ops_plain
    empty_groups_ok ltac:(done) eq_refl eq_refl eq_refl eq_refl E (str "my group")) as [-> _].
  vm_compute. reflexivity.
Defined.
