(* ===== verification/WorkerProps.v ===== *)
(** * What the workers promise

    The theorems about Workers/: both database workers follow the chain block by
    block, absorb what a restart replays and are not moved by any other block;
    the cache worker keeps a window of block dumps. *)
From S2P Require Import Prelude External Serialize Ordered Address BlockInfo BlockInfoCodec.
From S2P Require Import NodeTestsBlockInfo LevelDb Cache Heap LocalCache Modules Workers.
From S2P Require Import WorkersFacts Instances ChainProps.
#[local] Open Scope Z_scope.

Section main_worker.
Context {D : Type} `{KvLaws D}.

Definition main_run (w : WorkerMain D) (bis : list BlockInfo) : WorkerMain D :=
  run_steps WorkerMain_step w bis.

Lemma main_fits_run (w : WorkerMain D) bis :
  Forall (fun bi => blen (bh_hash (bi_header bi)) < 2 ^ 63) bis -> fits_run w bis.
Proof. intros Hf. revert w. induction Hf; intros w; cbn [fits_run]; by auto. Qed.

(** C18. The main worker follows the chain: on consecutive blocks above the last
    saved one it saves each, so that the database names the last; delivering any
    of these blocks again, in any order, changes nothing. *)
Theorem WorkerMain_follows (w : WorkerMain D) m bis again :
  kv_ok (wm_leveldb w) -> main_saved (wm_leveldb w) = Ok m -> is_u64 (wm_countVal w) ->
  chain_from (mb_blockNumber m) (mb_blockHash m) bis ->
  Forall (fun bi => blen (bh_hash (bi_header bi)) < 2 ^ 63) bis -> again ⊆ bis ->
  (exists m', main_saved (wm_leveldb (main_run w bis)) = Ok m' /\
     (mb_blockNumber m', mb_blockHash m') = chain_end (mb_blockNumber m) (mb_blockHash m) bis) /\
  main_run w (bis ++ again) = main_run w bis.
Proof.
  intros Hok Hs Hc Hch Hf Hsub.
  assert (f_ok w) as Hw by (split; [done|split; [by rewrite Hs|done]]).
  assert (f_saved w = (mb_blockNumber m, mb_blockHash m)) as Hsv by (cbn; by rewrite Hs).
  pose proof (main_fits_run w bis Hf) as Hfit. split.
  - destruct (f_run_chain w _ _ bis Hw Hsv Hch Hfit) as [(Hok' & Hd & _) Hsv'].
    change (f_run w bis) with (main_run w bis) in *. cbn in Hsv', Hd.
    destruct (main_saved (wm_leveldb (main_run w bis))) as [m'| | |] eqn:E; [|done..]. eauto.
  - exact (f_run_replay w _ _ bis again Hw Hsv Hch Hfit Hsub).
Qed.

(** A block at or below the last saved one, one that does not continue it
    and one without a number leave the main worker as it was. *)
Theorem WorkerMain_unmoved (w : WorkerMain D) m bi :
  kv_ok (wm_leveldb w) -> main_saved (wm_leveldb w) = Ok m -> is_u64 (wm_countVal w) ->
  (bh_blockNumber (bi_header bi) = None \/
   (exists n, bh_blockNumber (bi_header bi) = Some n /\ n <= mb_blockNumber m) \/
   (mb_blockHash m <> [] /\ bh_prevHash (bi_header bi) <> mb_blockHash m)) ->
  (WorkerMain_step bi w).1 = w.
Proof.
  intros Hok Hs Hc Hcase.
  assert (f_ok w) as Hw by (split; [done|split; [by rewrite Hs|done]]).
  apply (f_stay w bi Hw). unfold f_verdict. cbn. rewrite Hs.
  destruct (bh_blockNumber (bi_header bi)) as [n|] eqn:Hn; [|done]. cbn [fst snd].
  destruct (Z.leb_spec n (mb_blockNumber m)); [done|].
  destruct Hcase as [?|[(k & [= <-] & ?)|[Hne Hp]]]; [done|lia|].
  rewrite is_empty_false by done. rewrite bool_decide_false by congruence. done.
Qed.

End main_worker.

Section node_worker.
Context {D : Type} `{KvLaws D} `{RapidjsonLaws}.

(** C37. The node-test worker follows the chain the same way, and its table is
    the stored one updated by the registrations of all blocks' transactions in
    order. *)
Theorem WorkerNodeTest_follows (db : D) s nodes bis again :
  kv_ok db -> node_saved db = Ok s -> node_table db = Ok nodes -> osorted nodes.*1 ->
  chain_from (ns_blockNumber s) (ns_blockHash s) bis -> fits_run db bis -> again ⊆ bis ->
  let db' := run_steps WorkerNodeTest_step db bis in
  (exists s', node_saved db' = Ok s' /\
     (ns_blockNumber s', ns_blockHash s') = chain_end (ns_blockNumber s) (ns_blockHash s) bis) /\
  getAllNodes db' = register_nodes nodes (concat (bi_txs <$> bis)) /\
  run_steps WorkerNodeTest_step db (bis ++ again) = db'.
Proof.
  intros Hok Hs Ht Hsort Hch Hfit Hsub db'.
  assert (f_ok db) as Hw by (split; [done|split; [by rewrite Hs|by eexists]]).
  assert (f_saved db = (ns_blockNumber s, ns_blockHash s)) as Hsv by (cbn; by rewrite Hs).
  split; [|split].
  - destruct (f_run_chain db _ _ bis Hw Hsv Hch Hfit) as [(Hok' & Hd & _) Hsv'].
    change (f_run db bis) with db' in *. cbn in Hsv', Hd.
    destruct (node_saved db') as [s'| | |] eqn:E; [|done..]. eauto.
  - exact (node_table_run db _ _ bis nodes Hw Hsv Hch Hfit Ht).
  - exact (f_run_replay db _ _ bis again Hw Hsv Hch Hfit Hsub).
Qed.

End node_worker.

(** C38. After consecutive blocks the dump cache holds the dumps of the last
    [M] of them, each under its hash, and nothing else. *)
Theorem block_dump_window M n0 bis caches h d :
  ac_maxCountElementsBlockCache caches = M -> ac_blockDumpCache caches = Cache_empty ->
  0 < M < 2 ^ 64 -> 0 <= n0 -> n0 + 1 + blen bis < 2 ^ 64 ->
  (forall i e, bis !! i = Some e -> bh_blockNumber (bi_header e.1) = Some (n0 + 1 + Z.of_nat i)) ->
  NoDup (hash_dump <$> bis).*1 ->
  getValue h (ac_blockDumpCache (cache_run caches bis)) = Some d <->
  exists i, (hash_dump <$> bis) !! i = Some (h, d) /\ blen bis - M <= Z.of_nat i.
Proof.
  intros HM He Hr Hn Hb Hnum Hd.
  destruct (cache_run_window M n0 bis caches HM He Hr Hn Hb Hnum Hd) as [_ Hw].
  assert (blen (hash_dump <$> bis) = blen bis) as Hlen by (unfold blen; by rewrite length_fmap).
  unfold getValue. split.
  - intros Hm. rewrite <- Hlen. exact (win_map _ _ _ _ Hw h d Hm).
  - intros (i & Hi & Hle). rewrite <- Hlen in Hle. apply (win_in _ _ _ _ Hw i h d Hi Hle).
Qed.

(** ** Concrete runs *)

Definition numbered_block (n : Z) (hash prev : bytes) (txs : list TransactionInfo) : BlockInfo :=
  mkBlockInfo (set_bh_blockNumber (Some n) (sample_header hash prev)) txs.

Definition caches_of (blocks : Z) : AllCaches :=
  mkAllCaches blocks 0 Cache_empty Cache_empty Cache_empty
    (mkLocalCache (LocalCacheInternal_new 0) (LocalCacheInternal_new 0) false [] false false ∅).

Definition fresh_worker : WorkerMain (list (bytes * bytes)) := mkWorkerMain [] (caches_of 0) 0 0.

Definition two_blocks : list BlockInfo :=
  [numbered_block 1 (str "h1") (str "h0") []; numbered_block 2 (str "h2") (str "h1") []].

Lemma WorkerMain_follows_witness :
  (exists m', @main_saved _ list_kv (wm_leveldb (@main_run _ list_kv fresh_worker two_blocks)) = Ok m' /\
     (mb_blockNumber m', mb_blockHash m') = chain_end 0 [] two_blocks) /\
  @main_run _ list_kv fresh_worker (two_blocks ++ two_blocks) = @main_run _ list_kv fresh_worker two_blocks.
Proof.
  apply (@WorkerMain_follows _ list_kv list_kv_laws fresh_worker MainBlockInfo_default two_blocks two_blocks);
    try reflexivity.
  - unfold is_u64. cbn. lia.
  - cbn. unfold is_u64. repeat split; try lia; try done; by auto.
  - repeat constructor.
Defined.

Lemma WorkerMain_unmoved_witness :
  let w := @main_run _ list_kv fresh_worker two_blocks in
  (@WorkerMain_step _ list_kv (numbered_block 4 (str "h4") (str "h3") []) w).1 = w.
Proof.
  cbn zeta. apply (@WorkerMain_unmoved _ list_kv list_kv_laws (@main_run _ list_kv fresh_worker two_blocks)
    (mkMainBlockInfo 2 (str "h2") 0)).
  - vm_compute. by repeat constructor.
  - vm_compute. reflexivity.
  - unfold is_u64. vm_compute. done.
  - right. right. split; [done|]. vm_compute. discriminate.
Defined.

Definition registration_tx : TransactionInfo :=
  mkTransactionInfo (str "tx") Address_default Address_default 0 0 0 0 300 true false None
    [] [] registration_text [] None None None FilePosition_default None false true.

Definition registration_block : BlockInfo := numbered_block 1 (str "h1") (str "h0") [registration_tx].

Lemma WorkerNodeTest_follows_witness :
  let db' := run_steps (@WorkerNodeTest_step _ list_kv one_document) [] [registration_block] in
  (exists s', @node_saved _ list_kv db' = Ok s' /\
     (ns_blockNumber s', ns_blockHash s') = chain_end 0 [] [registration_block]) /\
  @getAllNodes _ list_kv db'
    = @register_nodes one_document [] (concat (bi_txs <$> [registration_block])) /\
  run_steps (@WorkerNodeTest_step _ list_kv one_document) [] ([registration_block] ++ []) = db'.
Proof.
  apply (@WorkerNodeTest_follows _ list_kv list_kv_laws one_document one_document_laws []
    (mkNodeStatBlockInfo 0 [] 0) [] [registration_block] []); try reflexivity; try done.
  - cbn. unfold is_u64. repeat split; try lia; try done; by auto.
  - split; [|done]. split; [done|]. intros nodes nodes' Hn Hr.
    vm_compute in Hn. injection Hn as <-. vm_compute in Hr. injection Hr as <-. by vm_compute.
  - apply list_subseteq_nil.
Defined.

Definition dumped_blocks : list (BlockInfo * bytes) :=
  [(numbered_block 1 (str "h1") (str "h0") [], str "d1"); (numbered_block 2 (str "h2") (str "h1") [], str "d2");
   (numbered_block 3 (str "h3") (str "h2") [], str "d3")].

Lemma block_dump_window_witness :
  getValue (str "h3") (ac_blockDumpCache (cache_run (caches_of 2) dumped_blocks)) = Some (str "d3") <->
  exists i, (hash_dump <$> dumped_blocks) !! i = Some (str "h3", str "d3") /\ blen dumped_blocks - 2 <= Z.of_nat i.
Proof.
  apply (block_dump_window 2 0 dumped_blocks (caches_of 2)); try reflexivity; try lia.
  - intros [|[|[|i]]] e [= <-]; reflexivity.
  - apply NoDup_ListNoDup. repeat constructor; vm_compute; intuition discriminate.
Defined.
