(* ===== verification/WireProps.v ===== *)
(** * What the node reads, writes and signs

    The theorems about BlockchainUtils.cpp, PrivateKey.cpp, generate_json.cpp,
    utils/compress.cpp, BlockchainRead.cpp and Modules.cpp. *)
From S2P Require Import Prelude External Serialize Address BlockInfo Modules BlockchainUtils Dumps.
From S2P Require Import CryptoUtils PrivateKey Keys BlockchainRead BlockchainReadFacts Instances.
#[local] Open Scope Z_scope.

(** ** Addresses *)

(** The printed address of a key is the 25 bytes of the binary address in
    hexadecimal after 0x: reading it back gives the binary address, whatever the
    digests are. *)
Theorem address_roundtrip `{CryptoLaws} pubk a :
  get_address_bin true pubk = Ok a -> a <> [] ->
  length a = 25%nat /\ exists s, get_address true pubk = Ok s /\ blen s = 52 /\ hex2bin s = a.
Proof.
  intros Ha Hne. split; [by eapply get_address_bin_length|].
  destruct (get_address_roundtrip pubk a Ha Hne) as (s & Hs & Hh & Hl). eauto.
Qed.

Definition copy_address : bytes :=
  match @get_address_bin copy_crypto true copy_pubkey with Ok a => a | _ => [] end.

Lemma address_roundtrip_witness :
  length copy_address = 25%nat /\
  exists s, @get_address copy_crypto true copy_pubkey = Ok s /\ blen s = 52 /\ hex2bin s = copy_address.
Proof.
  apply (@address_roundtrip copy_crypto copy_crypto_laws copy_pubkey copy_address);
    [vm_compute; reflexivity|vm_compute; discriminate].
Defined.

(** ** Signed dumps *)

Section keys.
Context `{HexLaws} `{CryptoLaws} `{Evp} `{!EvpLaws} `{Secp} `{!SecpLaws}.

(** C20. A key the node reads with OpenSSL and that was named in lower case signs
    what every receiver accepts: a block dump sent in parts - its length, its
    bytes, then signature, public key and address - passes the receiver's check,
    which returns the block and the sender's key and address. *)
Theorem signed_dump_accepted `{!KeyFormats} key addr k pre xy block tail :
  PrivateKey_new true key addr = Ok k -> k_isSecp k = false -> toLower addr = addr ->
  k_pubk k = pre ++ Byte.x04 :: xy -> length xy = 64%nat ->
  makeBlockSign block (signer_of k) = Ok tail -> blen block < 2 ^ 31 ->
  blen (makeFirstPartBlockSign (blen block) ++ block ++ tail) < 2 ^ 64 - 16 ->
  exists sign, sign_string k block = Ok sign /\
    checkSignatureBlock true (makeFirstPartBlockSign (blen block) ++ block ++ tail)
    = Ok (mkBlockSignatureCheckResult block sign (k_pubk k) addr).
Proof.
  intros Hk Hs Hl Hp Hx Ht Hb Hlen. pose proof (openssl_key_signs key addr k pre xy Hk Hs Hl Hp Hx) as Hlaws.
  destruct (new_key_openssl key addr k Hk Hs) as (_ & Haddr & _).
  destruct (sign_check_roundtrip (signer_of k) Hlaws block tail Ht Hb Hlen) as (sign & Hsg & Hc).
  exists sign. split; [done|]. cbn in Hc. unfold PrivateKey_get_address, public_key in Hc. by rewrite Haddr in Hc.
Qed.

(** C21. A key whose 32 bytes from the eighth on are a secret of secp256k1 with
    the address it was named after - as they are in the usual encoding of such
    a key - signs nothing that is accepted: its public key is a raw point, and
    the receiver, who reads a public key in DER form only, refuses the dump. *)
Theorem secp_dump_refused `{!KeyFormats} key addr k block tail :
  PrivateKey_new true key addr = Ok k -> k_isSecp k = true -> makeBlockSign block (signer_of k) = Ok tail ->
  blen (makeFirstPartBlockSign (blen block) ++ block ++ tail) < 2 ^ 64 - 16 ->
  checkSignatureBlock true (makeFirstPartBlockSign (blen block) ++ block ++ tail) = throwErr (str "Not validate").
Proof. apply secp_key_refused. Qed.

End keys.

Section signatures.
Context `{Crypto}.

(** C23. Whatever the receiver accepts carries a signature that verifies for
    exactly the returned block under the returned key, and the returned address
    is that key's. *)
Theorem accepted_dump_verified `{!KeyFormats} dump r :
  checkSignatureBlock true dump = Ok r ->
  crypto_check_sign_data (sr_sign r) (sr_pubkey r) (sr_block r) = true /\
  get_address true (sr_pubkey r) = Ok (sr_address r).
Proof. apply checkSignatureBlock_sound. Qed.

(** The check of a signed test result accepts nothing: it verifies the
    signature with the key in DER form and then derives the address from the same
    bytes as a raw secp256k1 point, and no key has both forms. *)
Theorem signature_test_accepts_nothing `{!KeyFormats} text s :
  is_ok (checkSignatureTest true text s) = false.
Proof. apply checkSignatureTest_never. Qed.

End signatures.

(** A key of 40 bytes, its address, and what it signs, taken by OpenSSL or by
    secp256k1. *)
Definition copy_key : bytes := Byte.x30 :: replicate 39 Byte.x11.
Definition copy_key_address : bytes :=
  match @get_address copy_crypto true copy_spki with Ok a => a | _ => [] end.
Definition copy_raw_address : bytes :=
  match @get_address copy_crypto true (Byte.x04 :: pad 64 (replicate 32 Byte.x11)) with Ok a => a | _ => [] end.

Definition copy_made (works : bool) : PrivateKey :=
  match @PrivateKey_new hex_support copy_crypto copy_evp (copy_secp works) true copy_key
    (if works then copy_raw_address else copy_key_address) with
  | Ok k => k
  | _ => mkPrivateKey [] [] [] false
  end.
Definition copy_signer (works : bool) : Signer := @signer_of hex_support copy_crypto copy_evp (copy_secp works) (copy_made works).

Definition copy_tail (works : bool) : bytes :=
  match makeBlockSign (str "block") (copy_signer works) with Ok t => t | _ => [] end.

Lemma signed_dump_accepted_witness :
  @PrivateKey_new hex_support copy_crypto copy_evp (copy_secp false) true copy_key copy_key_address = Ok (copy_made false) /\
  exists sign,
    @checkSignatureBlock copy_crypto true (makeFirstPartBlockSign 5 ++ str "block" ++ copy_tail false)
    = Ok (mkBlockSignatureCheckResult (str "block") sign (k_pubk (copy_made false)) copy_key_address).
Proof.
  assert (@PrivateKey_new hex_support copy_crypto copy_evp (copy_secp false) true copy_key copy_key_address
    = Ok (copy_made false)) as Hk by (vm_compute; reflexivity).
  split; [exact Hk|].
  destruct (@signed_dump_accepted hex_support hex_support_laws hex_laws copy_crypto copy_crypto_laws copy_evp
    copy_evp_laws (copy_secp false) copy_key_formats copy_key copy_key_address
    (copy_made false) [Byte.x30] (replicate 64 Byte.x11) (str "block") (copy_tail false) Hk
    eq_refl eq_refl eq_refl eq_refl eq_refl eq_refl eq_refl) as (sign & _ & Hc).
  exists sign. exact Hc.
Defined.

Lemma secp_dump_refused_witness :
  @PrivateKey_new hex_support copy_crypto copy_evp (copy_secp true) true copy_key copy_raw_address = Ok (copy_made true) /\
  @checkSignatureBlock copy_crypto true (makeFirstPartBlockSign 5 ++ str "block" ++ copy_tail true)
    = throwErr (str "Not validate").
Proof.
  assert (@PrivateKey_new hex_support copy_crypto copy_evp (copy_secp true) true copy_key copy_raw_address
    = Ok (copy_made true)) as Hk by (vm_compute; reflexivity).
  split; [exact Hk|].
  apply (@secp_dump_refused hex_support copy_crypto copy_evp (copy_secp true)
    (copy_secp_laws true) copy_key_formats copy_key copy_raw_address (copy_made true) (str "block")
    (copy_tail true) Hk eq_refl eq_refl eq_refl).
Defined.

Lemma accepted_dump_verified_witness :
  let dump := makeFirstPartBlockSign 5 ++ str "block" ++ copy_tail false in
  exists r, @checkSignatureBlock copy_crypto true dump = Ok r /\
    @crypto_check_sign_data copy_crypto (sr_sign r) (sr_pubkey r) (sr_block r) = true /\
    @get_address copy_crypto true (sr_pubkey r) = Ok (sr_address r).
Proof.
  cbn zeta. eexists. split; [vm_compute; reflexivity|].
  apply (@accepted_dump_verified copy_crypto copy_key_formats
    (makeFirstPartBlockSign 5 ++ str "block" ++ copy_tail false)). vm_compute. reflexivity.
Defined.

Lemma signature_test_accepts_nothing_witness :
  is_ok (@checkSignatureTest copy_crypto true (str "block") (drop 13 (makeFirstPartBlockSign 5 ++ str "block" ++ copy_tail false)))
  = false.
Proof.
  apply (@signature_test_accepts_nothing copy_crypto copy_key_formats).
Defined.

(** ** Batches of dumps *)

(** C27. A batch of block dumps is read back as it was sent, compressed with LZ4
    or not; one round per dump is enough. *)
Theorem dumps_roundtrip `{Lz4Laws} blocks isCompress fuel :
  let plain := genDumpBlocksBinary blocks false in
  blen plain <= LZ4_MAX_INPUT_SIZE -> LZ4_compressBound (blen plain) < 2 ^ 31 - 4 ->
  (length blocks <= fuel)%nat ->
  parseDumpBlocksBinary fuel (genDumpBlocksBinary blocks isCompress) isCompress = Ok blocks.
Proof.
  cbn zeta. intros Hl Hb Hf. destruct isCompress; [by apply dumps_roundtrip_lz4|].
  apply dumps_roundtrip_plain; [|done]. unfold LZ4_MAX_INPUT_SIZE in Hl. lia.
Qed.

Lemma dumps_roundtrip_witness :
  @parseDumpBlocksBinary stored_lz4 2
    (@genDumpBlocksBinary stored_lz4 [str "one"; str "two"] true) true = Ok [str "one"; str "two"].
Proof.
  apply (@dumps_roundtrip stored_lz4 stored_lz4_laws [str "one"; str "two"] true 2);
    [vm_compute; discriminate|vm_compute; reflexivity|cbn; lia].
Defined.

(** On a crafted batch of 24 bytes the reading loop never ends: the length
    at position 16 wraps the position around to 0, for ever. *)
Theorem crafted_batch_loops `{Lz4} fuel :
  blen looping_dump = 24 /\ parseDumpBlocksBinary fuel looping_dump false = OutOfFuel.
Proof. split; [by vm_compute|]. apply parse_loop_diverges. Qed.

(** ** Transactions and blocks in binary *)

Section reading.
Context `{Support} `{Crypto} `{Rapidjson}.

(** C25. Of a transaction that was read for validation (isValidate set): it lies
    within the buffer and records its size; its receiver, amount, fees, nonce, data,
    signature and public key are those at their places in its bytes; receiver and
    sender are set; a public key that is not empty has the sender as its address, and
    without a key the sender is the initial wallet.  When the sender is not the
    initial wallet, the signature verifies under the key for exactly the bytes from
    the receiver to the end of the data. *)
Theorem transaction_validated base raw cur end_pos tx0 saveAll helper size pos tx :
  readTransactionInfo base raw true cur end_pos tx0 true saveAll helper true = Ok (size, pos, tx) ->
  size <> 0 ->
  cur < pos <= end_pos /\ ti_sizeRawTx tx = size /\
  isSet (ti_fromAddress tx) = true /\ isSet (ti_toAddress tx) = true /\
  (ti_pubKey tx <> [] -> exists bin, get_address_bin true (ti_pubKey tx) = Ok bin /\ bin <> [] /\
     Address_of_vector bin (is_blocked_from (ti_data tx)) = Ok (ti_fromAddress tx)) /\
  (ti_pubKey tx = [] -> isInitialW (ti_fromAddress tx) = true) /\
  exists start stop, tx_layout base raw cur end_pos tx start stop /\ cur < start < stop /\ stop <= pos /\
    (isInitialW (ti_fromAddress tx) = false -> exists signed,
       load raw start (stop - start) = Ok signed /\
       crypto_check_sign_data (ti_sign tx) (ti_pubKey tx) signed = true).
Proof.
  intros Hr Hne.
  destruct (readTransactionInfo_parse base raw true _ _ _ _ _ _ _ _ _ Hr Hne)
    as [[Hf Hs _ [Hfr Hto] Hsn Hini] (start & stop & Hl & Hb & Hp & Hv)].
  do 6 (split; [done|]). exists start, stop. auto.
Qed.

(** Reading the transactions of a block ends on every buffer, whatever it
    holds: each round moves the position forward within the buffer. *)
Theorem block_reading_terminates base raw posInFile bi saveAll beginTx countTx isValidate :
  readBlockTxs base raw true posInFile bi saveAll beginTx countTx isValidate <> OutOfFuel.
Proof. apply readBlockTxs_total. Qed.

Definition overlong_tx : bytes :=
  z2b 30 :: replicate 25 Byte.x00 ++ [Byte.x00; Byte.x00; Byte.x00; z2b 200; Byte.x00].

(** The length of a transaction's data is not checked against the buffer: a
    transaction of 30 bytes whose data claims 200 makes the reader go past the
    end. *)
Theorem overlong_data_read_past_end :
  readTransactionInfo 0 overlong_tx true 0 (blen overlong_tx) (fresh_tx 0) true false
    PrevTransactionSignHelper_default true = UB.
Proof. vm_compute. reflexivity. Qed.

End reading.

(** A transaction of the copying key to the zero address, with its signature. *)
Definition sample_clear : bytes :=
  replicate 25 Byte.x00 ++ [Byte.x01; Byte.x02; Byte.x03; Byte.x00].
Definition sample_tx : bytes :=
  let body := sample_clear ++ [z2b 32] ++ pad 32 sample_clear ++ [z2b 65] ++ copy_pubkey in
  z2b (blen body) :: body.

Definition sample_read : res (Z * Z * TransactionInfo) :=
  @readTransactionInfo 0 sample_tx copy_crypto one_document true 0 (blen sample_tx) (fresh_tx 0)
    true false PrevTransactionSignHelper_default true.

Lemma transaction_validated_witness :
  exists size pos tx, sample_read = Ok (size, pos, tx) /\
    0 < pos <= blen sample_tx /\ ti_sizeRawTx tx = size /\
    isSet (ti_fromAddress tx) = true /\ isSet (ti_toAddress tx) = true /\
    (ti_pubKey tx <> [] -> exists bin, @get_address_bin copy_crypto true (ti_pubKey tx) = Ok bin /\ bin <> [] /\
       Address_of_vector bin (is_blocked_from (ti_data tx)) = Ok (ti_fromAddress tx)) /\
    (ti_pubKey tx = [] -> isInitialW (ti_fromAddress tx) = true) /\
    exists start stop, tx_layout 0 sample_tx 0 (blen sample_tx) tx start stop /\ 0 < start < stop /\ stop <= pos /\
      (isInitialW (ti_fromAddress tx) = false -> exists signed,
         load sample_tx start (stop - start) = Ok signed /\
         @crypto_check_sign_data copy_crypto (ti_sign tx) (ti_pubKey tx) signed = true).
Proof.
  assert (exists size pos tx, sample_read = Ok (size, pos, tx) /\ size <> 0) as (size & pos & tx & E & Hne).
  { eexists _, _, _. split; [vm_compute; reflexivity|discriminate]. }
  exists size, pos, tx. split; [exact E|].
  apply (@transaction_validated copy_crypto one_document 0 sample_tx 0 (blen sample_tx) (fresh_tx 0)
    false PrevTransactionSignHelper_default size pos tx); [exact E|exact Hne].
Defined.

(** A block appended to a block file is found at the position that was
    returned: any range of its bytes is read back, cut at the block's end, with
    the block's size, whatever was written before and after it. *)
Theorem block_dump_read_back pre data post from to :
  80 <= blen data -> blen (pre ++ le_bytes 8 (blen data) ++ data ++ post) < 2 ^ 62 ->
  0 <= from < blen data -> from <= to ->
  let '(file, pos) := saveBlockToFileBinary pre data in
  getBlockDump (file ++ post) pos from to
  = Ok (blen data, take (Z.to_nat (Z.min to (blen data) - from)) (drop (Z.to_nat from) data)).
Proof.
  intros Hd Hl Hf Ht. unfold saveBlockToFileBinary, fileSize. rewrite <- !app_assoc.
  by apply getBlockDump_saved.
Qed.

Lemma block_dump_read_back_witness :
  let data := replicate 79 Byte.x07 ++ str "end" in
  let '(file, pos) := saveBlockToFileBinary (str "earlier") data in
  getBlockDump (file ++ str "later") pos 79 1000 = Ok (82, str "end").
Proof.
  apply (block_dump_read_back (str "earlier") (replicate 79 Byte.x07 ++ str "end") (str "later") 79 1000);
    vm_compute; try done; split; done.
Defined.

(** ** Modules *)

(** The set of modules is stored as text and read back. *)
Theorem modules_text_roundtrip strs m :
  parseModules strs = Ok m -> modules_of_string (modules_to_string m) = Ok m.
Proof. intros Hp. apply modules_roundtrip. by eapply parseModules_length. Qed.

Lemma modules_text_roundtrip_witness :
  modules_of_string (modules_to_string [true; false; false; false; true; false; false; false])
  = Ok [true; false; false; false; true; false; false; false].
Proof. apply (modules_text_roundtrip [str "block_raw"; str "block"]). reflexivity. Defined.
