(* ===== verification/P2P.v ===== *)
(** * P2P/: downloads in segments from several servers

    A download is cut into segments; one thread per connection takes a segment
    from a shared queue, asks its server for it and stores the answer.  A thread
    whose request fails puts its segment back and ends.  The threads interleave
    freely, so a download is a relation: the steps of the threads and of the
    thread that fills the queue.  curl is a parameter: what a server may reply
    to a request, a response or an exception.  The queue is a [BlockedQueue] of
    1000 places, a multiset here: a pop may take any element, and a push waits
    until there is a place. *)
From S2P Require Import Prelude.
#[local] Open Scope Z_scope.

(* src: P2P/P2P.h:33-36 ResponseParse *)
Record ResponseParse := mkResponseParse {
  rp_response : bytes;
  rp_error : option bytes;
}.

(* src: P2P/P2P.h:85-97 P2P::Segment *)
Record Segment := mkSegment {
  fromByte : Z;
  toByte : Z;
  posInArray : Z;
}.

#[global] Instance Segment_eq_dec : EqDecision Segment.
Proof. solve_decision. Defined.

(** The query string and the body of a request. *)
Abbreviation Query := (bytes * bytes)%type.

(** ** Segments *)

(** The [for] loop: [n] is the number of rounds left, [i] the index. *)
(* src: P2P/P2P.cpp:20-26 P2P::makeSegments, for *)
Fixpoint segments_loop (n : nat) (i prevByte step size : Z) : list Segment :=
  match n with
  | O => [mkSegment prevByte size i]
  | S n' =>
      let nextByte := Z.min (u64 (prevByte + step)) size in
      mkSegment prevByte nextByte i :: segments_loop n' (i + 1) nextByte step size
  end.

(** A division by zero is undefined. *)
(* src: P2P/P2P.cpp:14-29 P2P::makeSegments *)
Definition makeSegments (countSegments size minSize : Z) : res (list Segment) :=
  if countSegments =? 0 then UB
  else
    let step := Z.min size (Z.max (size / countSegments) minSize) in
    _ ← CHECK (negb (step =? 0)) (str "step == 0");
    Ok (segments_loop (Z.to_nat (countSegments - 1)) 0 0 step size).

(** ** The threads *)

(** A thread waits for a segment, has one and asks its server for it, puts one
    back, or is gone. *)
Inductive ThreadState :=
  | TIdle
  | TBusy (s : Segment) (q : Query)
  | TPutBack (s : Segment)
  | TExited.

(* src: P2P/P2P.cpp:37-37 P2P::process, blockedQueue *)
Definition QUEUE_SIZE : Z := 1000.

(** What the threads share; the main thread still has [p_toPush] to push. *)
Record PState := mkPState {
  p_toPush : list Segment;
  p_queue : list Segment;
  p_threads : list ThreadState;
  p_countSuccess : Z;
  p_answers : list bytes;
}.

Definition p_countExit (s : PState) : Z :=
  blen (List.filter (fun t => match t with TExited => true | _ => false end) (p_threads s)).

Section process.
Variable requestServers : list bytes.
Variable makeQsAndPost : Z -> Z -> res Query.
Variable responseParse : bytes -> res ResponseParse.
Variable isPrecisionSize : bool.

(** What a server may reply: curl's response, or the exception it raises. *)
Variable replies : bytes -> Query -> res bytes -> Prop.

(** What a thread does with a reply; [answers.at] throws out of range. *)
(* src: P2P/P2P_Graph.cpp:89-98 P2P_Graph::requestImpl, requestFunction *)
Definition requestFunction (segment : Segment) (reply : res bytes) (answers : list bytes)
    : res (list bytes) :=
  response ← reply;
  parsed ← responseParse response;
  _ ← CHECK (negb (bool_decide (is_Some (rp_error parsed)))) (default [] (rp_error parsed));
  _ ← (if isPrecisionSize
       then CHECK (blen (rp_response parsed) =? u64 (toByte segment - fromByte segment))
              (str "Incorrect response size")
       else Ok tt);
  if posInArray segment <? blen answers
  then Ok (<[Z.to_nat (posInArray segment) := rp_response parsed]> answers)
  else Throw (ExcStd (str "out_of_range")).

Definition with_thread (t : nat) (x : ThreadState) (s : PState) : PState :=
  mkPState (p_toPush s) (p_queue s) (<[t := x]> (p_threads s)) (p_countSuccess s) (p_answers s).

(** One step of one thread. *)
(* src: P2P/P2P.cpp:42-84 P2P::process, threads *)
Inductive pstep : PState -> PState -> Prop :=
  (** the main thread pushes a segment *)
  | step_push seg rest s :
      p_toPush s = seg :: rest -> blen (p_queue s) < QUEUE_SIZE ->
      pstep s (mkPState rest (p_queue s ++ [seg]) (p_threads s) (p_countSuccess s) (p_answers s))
  (** an idle thread takes a segment and makes its request *)
  | step_pop t seg q1 q2 q s :
      p_threads s !! t = Some TIdle -> p_queue s = q1 ++ seg :: q2 ->
      makeQsAndPost (fromByte seg) (toByte seg) = Ok q ->
      pstep s (with_thread t (TBusy seg q)
        (mkPState (p_toPush s) (q1 ++ q2) (p_threads s) (p_countSuccess s) (p_answers s)))
  (** making the request throws: the outer handler ends the thread *)
  | step_pop_throw t seg q1 q2 e s :
      p_threads s !! t = Some TIdle -> p_queue s = q1 ++ seg :: q2 ->
      makeQsAndPost (fromByte seg) (toByte seg) = Throw e ->
      pstep s (with_thread t TExited
        (mkPState (p_toPush s) (q1 ++ q2) (p_threads s) (p_countSuccess s) (p_answers s)))
  (** the answer is stored *)
  | step_success t seg q srv reply answers s :
      p_threads s !! t = Some (TBusy seg q) -> requestServers !! t = Some srv ->
      replies srv q reply -> requestFunction seg reply (p_answers s) = Ok answers ->
      pstep s (with_thread t TIdle
        (mkPState (p_toPush s) (p_queue s) (p_threads s) (p_countSuccess s + 1) answers))
  (** the request fails with the program's own exception *)
  | step_fail t seg q srv reply e s :
      p_threads s !! t = Some (TBusy seg q) -> requestServers !! t = Some srv ->
      replies srv q reply -> requestFunction seg reply (p_answers s) = Throw (ExcCommon e) ->
      pstep s (with_thread t (TPutBack seg) s)
  (** its segment goes back and the thread ends *)
  | step_put_back t seg s :
      p_threads s !! t = Some (TPutBack seg) -> blen (p_queue s) < QUEUE_SIZE ->
      pstep s (with_thread t TExited
        (mkPState (p_toPush s) (p_queue s ++ [seg]) (p_threads s) (p_countSuccess s) (p_answers s)))
  (** it fails with any other exception: the thread ends and the segment is lost *)
  | step_lose t seg q srv reply e s :
      p_threads s !! t = Some (TBusy seg q) -> requestServers !! t = Some srv ->
      replies srv q reply -> requestFunction seg reply (p_answers s) = Throw e ->
      (forall m, e <> ExcCommon m) ->
      pstep s (with_thread t TExited
        (mkPState (p_toPush s) (p_queue s) (p_threads s) (p_countSuccess s) (p_answers s))).

Definition process_start (segments : list Segment) (countAnswers : nat) : PState :=
  mkPState segments [] (replicate (length requestServers) TIdle) 0 (replicate countAnswers []).

(** The condition the main thread waits for, once it has pushed everything. *)
(* src: P2P/P2P.cpp:86-87 P2P::process, conditionWait *)
Definition process_done (segments : list Segment) (s : PState) : Prop :=
  p_toPush s = [] /\ (p_countSuccess s = blen segments \/ p_countExit s = blen (p_threads s)).

(* src: P2P/P2P.cpp:31-97 P2P::process *)
Inductive process (segments : list Segment) (countAnswers : nat) : list bytes -> bool -> Prop :=
  | process_run s :
      rtc pstep (process_start segments countAnswers) s -> process_done segments s ->
      process segments countAnswers (p_answers s) (bool_decide (p_countSuccess s = blen segments)).

(* src: P2P/P2P_Graph.cpp:84-85 P2P_Graph::requestImpl, countSegments *)
Definition count_segments (responseSize minResponseSize : Z) : Z :=
  if minResponseSize =? 1 then responseSize
  else Z.min (u64 (responseSize + minResponseSize - 1) / minResponseSize) (blen requestServers).

End process.

(** The servers of the threads and the segments; [getServersList] is the list
    the hint gives, or an exception. *)
(* src: P2P/P2P_Graph.cpp:78-100 P2P_Graph::requestImpl, segments *)
Definition prepare (getServersList : res (list bytes)) (responseSize minResponseSize : Z)
    : res (list bytes * list Segment) :=
  _ ← CHECK (negb (responseSize =? 0)) (str "response size 0");
  requestServers ← getServersList;
  segments ← makeSegments (count_segments requestServers responseSize minResponseSize)
               responseSize minResponseSize;
  Ok (requestServers, segments).

Section requestImpl.
Variable getServersList : res (list bytes).
Variable makeQsAndPost : Z -> Z -> res Query.
Variable responseParse : bytes -> res ResponseParse.
Variable isPrecisionSize : bool.
Variable replies : bytes -> Query -> res bytes -> Prop.

(* src: P2P/P2P_Graph.cpp:77-106 P2P_Graph::requestImpl *)
Inductive requestImpl (responseSize minResponseSize : Z) : res (list bytes) -> Prop :=
  | requestImpl_refused r :
      prepare getServersList responseSize minResponseSize = r -> is_ok r = false ->
      requestImpl responseSize minResponseSize (_ ← r; Ok [])
  | requestImpl_run requestServers segments answers isSuccess :
      prepare getServersList responseSize minResponseSize = Ok (requestServers, segments) ->
      process requestServers makeQsAndPost responseParse isPrecisionSize replies segments
        (Z.to_nat (count_segments requestServers responseSize minResponseSize)) answers isSuccess ->
      requestImpl responseSize minResponseSize
        (_ ← CHECK isSuccess (str "dont run request"); Ok answers).

End requestImpl.

(** [countConnections] threads, all on the one server of the hint. *)
(* src: P2P/P2P_Graph.cpp:72-82 P2P_Graph::getServersList *)
Definition Graph_getServersList (countConnections : nat) (hintsServers : list bytes) : res (list bytes) :=
  _ ← CHECK (blen hintsServers =? 1) (str "Incorrect hint servers");
  server ← opt_ub (head hintsServers);
  Ok (replicate countConnections server).

(** [countConnections] threads for each server. *)
(* src: P2P/P2P_Ips.cpp:59-65 P2P_Ips::getServersList *)
Definition Ips_getServersList (countConnections : nat) (hintsServers : list bytes) : res (list bytes) :=
  Ok (mjoin (replicate countConnections hintsServers)).

(* src: P2P/P2P_Graph.cpp:109-109 P2P_Graph::request, MIN_RESPONSE_SIZE *)
Definition MIN_RESPONSE_SIZE : Z := 1000.

(** What is made of the answers. *)
(* src: P2P/P2P_Graph.cpp:113-122 P2P_Graph::request, response *)
Definition join_answers (responseSize : Z) (isPrecisionSize : bool) (answers : list bytes) : res bytes :=
  let response := concat answers in
  _ ← (if isPrecisionSize
       then CHECK (blen response =? responseSize)
              (str "response size != getted response. Getted response size: " ++ to_string (blen response)
               ++ str ". Expected response size: " ++ to_string responseSize)
       else Ok tt);
  Ok response.

Section requests.
Variable getServersList : res (list bytes).
Variable responseParse : bytes -> res ResponseParse.
Variable replies : bytes -> Query -> res bytes -> Prop.

(* src: P2P/P2P_Graph.cpp:108-123 P2P_Graph::request *)
Inductive p2p_request (responseSize : Z) (isPrecisionSize : bool) (makeQsAndPost : Z -> Z -> res Query)
    : res bytes -> Prop :=
  | p2p_request_run r :
      requestImpl getServersList makeQsAndPost responseParse isPrecisionSize replies
        responseSize MIN_RESPONSE_SIZE r ->
      p2p_request responseSize isPrecisionSize makeQsAndPost
        (answers ← r; join_answers responseSize isPrecisionSize answers).

(* src: P2P/P2P_Graph.cpp:126-129 P2P_Graph::requests, makeQsAndPortImpl *)
Definition makeQsAndPortImpl (makeQsAndPost : Z -> res Query) (from to : Z) : res Query :=
  _ ← CHECK (to =? u64 (from + 1)) (str "Incorrect call makeQsAndPortFunc");
  makeQsAndPost from.

(* src: P2P/P2P_Graph.cpp:125-133 P2P_Graph::requests *)
Inductive p2p_requests (countRequests : Z) (makeQsAndPost : Z -> res Query) : res (list bytes) -> Prop :=
  | p2p_requests_run r :
      requestImpl getServersList (makeQsAndPortImpl makeQsAndPost) responseParse false replies
        countRequests 1 r ->
      p2p_requests countRequests makeQsAndPost
        (answers ← r;
         _ ← CHECK (blen answers =? countRequests) (str "Incorrect count answers");
         Ok answers).

End requests.

(** ** Without segments: P2P_Simple *)

(* src: P2P/P2P_Simple.cpp:26-35 P2P_Simple::request, url *)
Definition make_url (server qs : bytes) : res bytes :=
  _ ← CHECK (negb (is_empty server)) (str "server empty");
  let url := if bool_decide (last server = Some Byte.x2f) then server else server ++ str "/" in
  Ok (url ++ qs).

(* src: P2P/P2P_Simple.cpp:57-66 P2P_Simple::request *)
Definition Simple_request (send : bytes -> Query -> res bytes) (responseSize : Z)
    (makeQsAndPost : Z -> Z -> res Query) (responseParse : bytes -> res ResponseParse)
    (hintsServers : list bytes) : res bytes :=
  _ ← CHECK (0 <? blen hintsServers) (str "Incorrect hint servers");
  q ← makeQsAndPost 0 responseSize;
  server ← opt_ub (head hintsServers);
  response ← send server q;
  parsed ← responseParse response;
  _ ← CHECK (negb (bool_decide (is_Some (rp_error parsed)))) (default [] (rp_error parsed));
  Ok (rp_response parsed).
