(* ===== verification/P2PFacts.v ===== *)
(** * Correctness of downloads in segments

    Whatever the interleaving of the threads and the failures of the servers, a
    download that succeeds is the concatenation of answers that were accepted
    for exactly the segments asked for; and no interleaving goes on for ever or
    gets stuck. *)
From S2P Require Import Prelude P2P.
#[local] Open Scope Z_scope.

(** ** Segments *)

(** The segments lie one after the other from [from] to [size], none is empty,
    and their places are [i], [i + 1], ... *)
Fixpoint covers (i from size : Z) (l : list Segment) : Prop :=
  match l with
  | [] => from = size
  | s :: l' => fromByte s = from /\ posInArray s = i /\ from < toByte s <= size /\
      covers (i + 1) (toByte s) size l'
  end.

Lemma segments_loop_covers n i prev step size :
  0 <= prev -> 0 < step -> prev + Z.of_nat n * step < size -> size < 2 ^ 63 ->
  covers i prev size (segments_loop n i prev step size) /\
  length (segments_loop n i prev step size) = S n.
Proof.
  revert i prev. induction n as [|n IH]; intros i prev Hp Hs Hn Hsz.
  { cbn. repeat split; lia. }
  cbn [segments_loop]. rewrite Nat2Z.inj_succ in Hn.
  assert (0 <= Z.of_nat n * step) by nia.
  rewrite u64_small by (unfold is_u64; nia). rewrite Z.min_l by nia.
  destruct (IH (i + 1) (prev + step)) as [Hc Hl]; [lia|lia|nia|lia|].
  cbn [covers fromByte toByte posInArray length]. rewrite Hl. repeat split; try lia. done.
Qed.

Lemma makeSegments_covers count size minSize :
  0 < size < 2 ^ 63 -> 0 < minSize -> 0 < count <= (size + minSize - 1) / minSize ->
  exists l, makeSegments count size minSize = Ok l /\ covers 0 0 size l /\ blen l = count.
Proof.
  intros Hs Hm [Hc1 Hc2]. unfold makeSegments.
  rewrite (proj2 (Z.eqb_neq count 0)) by lia.
  pose proof (Z.mul_div_le size count Hc1) as Hq.
  pose proof (Z.mul_div_le (size + minSize - 1) minSize Hm) as Hd.
  assert (0 <= size / count) by (apply Z.div_pos; lia).
  set (step := Z.min size (Z.max (size / count) minSize)).
  assert (0 < step) by lia.
  assert ((count - 1) * minSize < size) by nia.
  assert ((count - 1) * (size / count) < size) by nia.
  assert ((count - 1) * step < size) by (unfold step; nia).
  rewrite (proj2 (Z.eqb_neq step 0)) by lia. cbn [negb CHECK mbind res_bind].
  destruct (segments_loop_covers (Z.to_nat (count - 1)) 0 0 step size) as [Hcov Hl];
    [lia|lia|rewrite Z2Nat.id by lia; lia|lia|].
  eexists. split; [done|]. split; [done|]. unfold blen. rewrite Hl. lia.
Qed.

(** A segment that is not the last has at least the least size. *)
Definition wide (minSize size : Z) (s : Segment) : Prop :=
  toByte s = size \/ minSize <= toByte s - fromByte s.

Lemma segments_loop_wide n i prev step size minSize :
  0 <= prev -> 0 < step -> prev + Z.of_nat n * step < size -> size < 2 ^ 63 ->
  (n <> O -> minSize <= step) -> Forall (wide minSize size) (segments_loop n i prev step size).
Proof.
  revert i prev. induction n as [|n IH]; intros i prev Hp Hs Hn Hsz Hw; cbn [segments_loop].
  { apply Forall_singleton. by left. }
  rewrite Nat2Z.inj_succ in Hn. assert (0 <= Z.of_nat n * step) by nia.
  rewrite u64_small by (unfold is_u64; nia). rewrite Z.min_l by nia.
  apply Forall_cons_2; [right; cbn [toByte fromByte]; specialize (Hw ltac:(done)); lia|].
  apply IH; [lia|lia|nia|lia|]. intros _. by apply Hw.
Qed.

Lemma makeSegments_wide count size minSize l :
  0 < size < 2 ^ 63 -> 0 < minSize -> 0 < count <= (size + minSize - 1) / minSize ->
  makeSegments count size minSize = Ok l -> Forall (wide minSize size) l.
Proof.
  intros Hs Hm [Hc1 Hc2]. unfold makeSegments. rewrite (proj2 (Z.eqb_neq count 0)) by lia.
  intros Hl. apply bind_Ok_inv in Hl as (u & _ & [= <-]).
  pose proof (Z.mul_div_le size count Hc1) as Hq.
  pose proof (Z.mul_div_le (size + minSize - 1) minSize Hm) as Hd.
  assert (0 <= size / count) by (apply Z.div_pos; lia).
  set (step := Z.min size (Z.max (size / count) minSize)).
  assert ((count - 1) * minSize < size) by nia.
  assert ((count - 1) * (size / count) < size) by nia.
  assert ((count - 1) * step < size) by (unfold step; nia).
  apply segments_loop_wide; [lia|lia|rewrite Z2Nat.id by lia; lia|lia|].
  intros Hn. assert (1 < count) by lia. assert (minSize < size) by nia. lia.
Qed.

Lemma covers_lookup i from size l j s :
  covers i from size l -> l !! j = Some s ->
  posInArray s = i + Z.of_nat j /\ from <= fromByte s < toByte s /\ toByte s <= size.
Proof.
  revert i from j. induction l as [|x l IH]; intros i from j; [done|].
  intros (Hf & Hp & Ht & Hc) Hj. destruct j as [|j]; cbn in Hj.
  - injection Hj as <-. lia.
  - destruct (IH _ _ _ Hc Hj) as (? & ? & ?). lia.
Qed.

Lemma covers_le i from size l : covers i from size l -> from <= size.
Proof. destruct l as [|s l]; cbn; [lia|]. intros (? & ? & ? & ?). lia. Qed.

(** A cover by as many segments as there are positions has one for each. *)
Lemma covers_length i from size l : covers i from size l -> blen l <= size - from.
Proof.
  revert i from. induction l as [|s l IH]; intros i from; cbn [covers]; [intros ->; rewrite blen_nil; lia|].
  intros (Hf & _ & Ht & Hc). rewrite blen_cons. pose proof (IH _ _ Hc). lia.
Qed.

Lemma covers_units i from size l j s :
  covers i from size l -> blen l = size - from -> l !! j = Some s -> fromByte s = from + Z.of_nat j.
Proof.
  revert i from j. induction l as [|x l IH]; intros i from j; [done|].
  intros (Hf & _ & Ht & Hc) Hl Hj. rewrite blen_cons in Hl. pose proof (covers_length _ _ _ _ Hc).
  destruct j as [|j]; cbn in Hj; [injection Hj as <-; lia|].
  rewrite (IH _ _ j Hc ltac:(lia) Hj). lia.
Qed.

Lemma covers_next i from size l j s s' :
  covers i from size l -> l !! j = Some s -> l !! S j = Some s' -> fromByte s' = toByte s.
Proof.
  revert i from j. induction l as [|x l IH]; intros i from j; [done|]. intros (_ & _ & _ & Hc) Hj Hj'.
  destruct j as [|j]; [|by eapply IH]. injection Hj as <-. destruct l as [|y l]; [done|].
  injection Hj' as ->. by destruct Hc.
Qed.

(** The places of a cover, as indices of the answers. *)
Definition place (s : Segment) : nat := Z.to_nat (posInArray s).

Lemma covers_places i from size l :
  0 <= i -> covers i from size l -> place <$> l = seq (Z.to_nat i) (length l).
Proof.
  revert i from. induction l as [|s l IH]; intros i from Hi; [done|].
  intros (_ & Hp & _ & Hc). cbn. f_equal; [unfold place; by rewrite Hp|].
  rewrite (IH (i + 1) _ ltac:(lia) Hc). f_equal. lia.
Qed.

(** Slices at the segments of a cover make the whole. *)
Definition slice (from to : Z) (data : bytes) : bytes :=
  take (Z.to_nat (to - from)) (drop (Z.to_nat from) data).

Lemma covers_concat i from size l data answers :
  0 <= from -> covers i from size l ->
  Forall2 (fun s a => a = slice (fromByte s) (toByte s) data) l answers ->
  concat answers = slice from size data.
Proof.
  intros Hf Hc H2. revert i from Hf Hc. induction H2 as [|s a l answers Ha H2 IH]; intros i from Hf Hc.
  - cbn in Hc. subst size. cbn. unfold slice. by rewrite Z.sub_diag.
  - destruct Hc as (Hs & _ & Ht & Hc). cbn [concat]. rewrite (IH (i + 1) (toByte s) ltac:(lia) Hc), Ha, Hs.
    pose proof (covers_le _ _ _ _ Hc). unfold slice.
    replace (Z.to_nat (size - from)) with (Z.to_nat (toByte s - from) + Z.to_nat (size - toByte s))%nat by lia.
    rewrite <- take_take_drop, drop_drop.
    by replace (Z.to_nat from + Z.to_nat (toByte s - from))%nat with (Z.to_nat (toByte s)) by lia.
Qed.

(** ** Every interleaving *)

Definition busy_of (t : ThreadState) : option Segment :=
  match t with TBusy s _ | TPutBack s => Some s | _ => None end.

(** Replacing a thread's state exchanges what it was busy with. *)
Lemma busy_insert (ts : list ThreadState) t x y :
  ts !! t = Some x ->
  exists r, omap busy_of ts ≡ₚ option_list (busy_of x) ++ r /\
    omap busy_of (<[t:=y]> ts) ≡ₚ option_list (busy_of y) ++ r.
Proof.
  intros Ht. exists (omap busy_of (take t ts ++ drop (S t) ts)).
  pose proof (lookup_lt_Some _ _ _ Ht) as Hlt.
  assert (forall z, omap busy_of (take t ts ++ z :: drop (S t) ts)
    ≡ₚ option_list (busy_of z) ++ omap busy_of (take t ts ++ drop (S t) ts)) as Hz.
  { intros z. rewrite !omap_app. cbn. destruct (busy_of z); cbn; [|done].
    by rewrite Permutation_middle. }
  split.
  - rewrite <- (take_drop_middle ts t x Ht) at 1. apply Hz.
  - rewrite insert_take_drop by done. apply Hz.
Qed.

Section runs.
Variable requestServers : list bytes.
Variable makeQsAndPost : Z -> Z -> res Query.
Variable responseParse : bytes -> res ResponseParse.
Variable isPrecisionSize : bool.
Variable replies : bytes -> Query -> res bytes -> Prop.
Variable segments : list Segment.
Variable countAnswers : nat.
Hypothesis Hplaces : NoDup (place <$> segments).
Hypothesis Hpos : Forall (fun s => 0 <= posInArray s < Z.of_nat countAnswers) segments.

Let step := pstep requestServers makeQsAndPost responseParse isPrecisionSize replies.
Let start := process_start requestServers segments countAnswers.

(** The answer of a server that passed every test of [requestFunction]. *)
Definition accepted (s : Segment) (a : bytes) : Prop :=
  exists srv q response parsed, srv ∈ requestServers /\
    makeQsAndPost (fromByte s) (toByte s) = Ok q /\ replies srv q (Ok response) /\
    responseParse response = Ok parsed /\ rp_error parsed = None /\ rp_response parsed = a /\
    (isPrecisionSize = true -> blen a = u64 (toByte s - fromByte s)).

Lemma requestFunction_Ok s reply answers answers' :
  requestFunction responseParse isPrecisionSize s reply answers = Ok answers' ->
  exists response parsed, reply = Ok response /\ responseParse response = Ok parsed /\
    rp_error parsed = None /\
    (isPrecisionSize = true -> blen (rp_response parsed) = u64 (toByte s - fromByte s)) /\
    answers' = <[place s := rp_response parsed]> answers /\ posInArray s < blen answers.
Proof.
  unfold requestFunction. intros Hr.
  apply bind_Ok_inv in Hr as (response & -> & Hr). apply bind_Ok_inv in Hr as (parsed & Hp & Hr).
  apply bind_Ok_inv in Hr as (u & Hc & Hr). apply CHECK_Ok_inv in Hc. rewrite negb_true_iff in Hc.
  apply bind_Ok_inv in Hr as (u' & Hz & Hr).
  destruct (Z.ltb_spec (posInArray s) (blen answers)); [|done]. injection Hr as <-.
  exists response, parsed. split; [done|]. split; [done|].
  split; [by destruct (rp_error parsed); [rewrite bool_decide_true in Hc by eauto|]|].
  split; [|done]. intros ->. apply CHECK_Ok_inv, Z.eqb_eq in Hz. done.
Qed.

(** Where every segment is: still to be pushed, in the queue, with a thread,
    lost, or answered; a stored answer is one that was accepted. *)
Record pinv (s : PState) : Prop := {
  pi_where : exists lost done,
    p_toPush s ++ p_queue s ++ omap busy_of (p_threads s) ++ lost ++ done ≡ₚ segments /\
    p_countSuccess s = blen done /\
    Forall (fun seg => exists a, p_answers s !! place seg = Some a /\ accepted seg a) done;
  pi_threads : length (p_threads s) = length requestServers;
  pi_answers : length (p_answers s) = countAnswers;
  pi_busy : forall t seg q, p_threads s !! t = Some (TBusy seg q) ->
    makeQsAndPost (fromByte seg) (toByte seg) = Ok q;
}.

Lemma pinv_start : pinv start.
Proof.
  split; cbn.
  - exists [], []. rewrite !app_nil_r. split; [|by split].
    assert (omap busy_of (replicate (length requestServers) TIdle) = []) as ->; [|by rewrite app_nil_r].
    by induction (length requestServers).
  - apply length_replicate.
  - apply length_replicate.
  - intros t seg q Ht. by apply lookup_replicate in Ht as [? _].
Qed.

Lemma busy_with_thread s t x seg q u :
  (forall t seg q, p_threads s !! t = Some (TBusy seg q) -> makeQsAndPost (fromByte seg) (toByte seg) = Ok q) ->
  (forall seg q, x = TBusy seg q -> makeQsAndPost (fromByte seg) (toByte seg) = Ok q) ->
  <[t:=x]> (p_threads s) !! u = Some (TBusy seg q) -> makeQsAndPost (fromByte seg) (toByte seg) = Ok q.
Proof.
  intros Hb Hx Hu. destruct (decide (t = u)) as [->|Hne].
    pose proof (lookup_lt_Some _ _ _ Hu) as Hlt. rewrite length_insert in Hlt.
    rewrite list_lookup_insert_eq in Hu by done. injection Hu as ->. by apply Hx.
  - rewrite list_lookup_insert_ne in Hu by done. by eapply Hb.
Qed.

(** The four steps that change a thread. *)
Lemma pinv_step s s' : pinv s -> step s s' -> pinv s'.
Proof.
  intros [(lost & done & Hw & Hs & Hd) Ht Ha Hb] Hstep. inversion Hstep; subst; clear Hstep.
  - split; cbn; try done. exists lost, done. split; [|done]. rewrite <- Hw, H. solve_Permutation.
  - destruct (busy_insert (p_threads s) t TIdle (TBusy seg q) H) as (r & Hr1 & Hr2).
    split; cbn; rewrite ?length_insert; try done.
    + exists lost, done. split; [|done]. rewrite <- Hw, Hr1, Hr2, H0. cbn. solve_Permutation.
    + intros u seg' q' Hu. eapply busy_with_thread; [exact Hb| |exact Hu]. by intros ? ? [= <- <-].
  - destruct (busy_insert (p_threads s) t TIdle TExited H) as (r & Hr1 & Hr2).
    split; cbn; rewrite ?length_insert; try done.
    + exists (seg :: lost), done. split; [|done]. rewrite <- Hw, Hr1, Hr2, H0. cbn. solve_Permutation.
    + intros u seg' q' Hu. by eapply busy_with_thread; [exact Hb| |exact Hu].
  - destruct (busy_insert (p_threads s) t (TBusy seg q) TIdle H) as (r & Hr1 & Hr2).
    apply requestFunction_Ok in H2 as (response & parsed & -> & Hpr & Her & Hsz & -> & Hplace).
    assert (p_toPush s ++ p_queue s ++ r ++ lost ++ seg :: done ≡ₚ segments) as Hw'.
    { rewrite <- Hw, Hr1. cbn. solve_Permutation. }
    split; cbn; rewrite ?length_insert; try done.
    + exists lost, (seg :: done). split; [by rewrite Hr2|]. split; [rewrite blen_cons; lia|].
      constructor.
      * exists (rp_response parsed). split.
        { apply list_lookup_insert_eq. unfold place, blen in *.
          rewrite Forall_forall in Hpos. assert (seg ∈ segments) as Hin.
          { rewrite <- Hw'. rewrite !elem_of_app, elem_of_cons. do 4 right. by left. }
          pose proof (Hpos seg Hin). lia. }
        exists srv, q, response, parsed. split; [by eapply list_elem_of_lookup_2|].
        split; [by eapply Hb|]. by repeat split.
      * apply Forall_forall. intros x Hx. rewrite Forall_forall in Hd.
        destruct (Hd x Hx) as (a & Hax & Hacc). exists a. split; [|done].
        rewrite list_lookup_insert_ne; [done|]. intros E. rewrite <- Hw' in Hplaces.
        rewrite !fmap_app, fmap_cons in Hplaces.
        do 4 apply NoDup_app in Hplaces as (_ & _ & Hplaces). apply NoDup_cons in Hplaces as [Hn _].
        apply Hn. rewrite E. by apply list_elem_of_fmap_2.
    + intros u seg' q' Hu. by eapply busy_with_thread; [exact Hb| |exact Hu].
  - destruct (busy_insert (p_threads s) t (TBusy seg q) (TPutBack seg) H) as (r & Hr1 & Hr2).
    split; cbn; rewrite ?length_insert; try done.
    + exists lost, done. split; [|done]. by rewrite <- Hw, Hr1, Hr2.
    + intros u seg' q' Hu. by eapply busy_with_thread; [exact Hb| |exact Hu].
  - destruct (busy_insert (p_threads s) t (TPutBack seg) TExited H) as (r & Hr1 & Hr2).
    split; cbn; rewrite ?length_insert; try done.
    + exists lost, done. split; [|done]. rewrite <- Hw, Hr1, Hr2. cbn. solve_Permutation.
    + intros u seg' q' Hu. by eapply busy_with_thread; [exact Hb| |exact Hu].
  - destruct (busy_insert (p_threads s) t (TBusy seg q) TExited H) as (r & Hr1 & Hr2).
    split; cbn; rewrite ?length_insert; try done.
    + exists (seg :: lost), done. split; [|done]. rewrite <- Hw, Hr1, Hr2. cbn. solve_Permutation.
    + intros u seg' q' Hu. by eapply busy_with_thread; [exact Hb| |exact Hu].
Qed.

Lemma pinv_reach s : rtc step start s -> pinv s.
Proof.
  intros Hr. assert (forall a, pinv a -> rtc step a s -> pinv s) as Hgen; [|exact (Hgen start pinv_start Hr)].
  clear Hr. intros a Ha Hra. induction Hra as [|a b c Hab Hbc IH]; [done|]. apply IH. by eapply pinv_step.
Qed.

(** When the count of successes is the number of segments, every segment has an
    accepted answer at its place. *)
Lemma pinv_complete s :
  pinv s -> p_countSuccess s = blen segments ->
  Forall (fun seg => exists a, p_answers s !! place seg = Some a /\ accepted seg a) segments.
Proof.
  intros [(lost & done & Hw & Hs & Hd) _ _ _] Hn.
  pose proof (Permutation_length Hw) as Hl. rewrite !length_app in Hl. unfold blen in *.
  assert (p_toPush s = [] /\ p_queue s = [] /\ omap busy_of (p_threads s) = [] /\ lost = []) as (E1 & E2 & E3 & E4).
  { repeat split; apply length_zero_iff_nil; lia. }
  rewrite E1, E2, E3, E4 in Hw. cbn in Hw. by rewrite <- Hw.
Qed.

(** ** No endless and no stuck run *)

(** What a thread can still do without taking another segment. *)
Definition thread_work (t : ThreadState) : nat :=
  match t with TBusy _ _ => 4 | TIdle | TPutBack _ => 3 | TExited => 0 end.

(** Every step makes this smaller. *)
Definition work_left (s : PState) : nat :=
  3 * length (p_toPush s) + 2 * length (p_queue s) + sum_list_with thread_work (p_threads s).

Lemma step_decreases s s' : step s s' -> (work_left s' < work_left s)%nat.
Proof.
  intros Hs. unfold work_left. inversion Hs; subst; clear Hs; cbn [p_toPush p_queue p_threads with_thread].
  1: rewrite H, length_app; cbn; lia.
  all: match goal with Ht : ?ts !! ?t = Some ?x |- context [<[?t := ?y]> ?ts] =>
    pose proof (sum_insert thread_work ts t x y Ht) as Hsum end; cbn [thread_work] in Hsum.
  1, 2: rewrite H0, !length_app; cbn [length]; lia.
  all: rewrite ?length_app; cbn [length]; lia.
Qed.

Lemma runs_bounded n s s' : nsteps step n s s' -> (n + work_left s' <= work_left s)%nat.
Proof.
  induction 1 as [s|n a b c Hab Hbc IH]; [lia|]. pose proof (step_decreases _ _ Hab). lia.
Qed.

Lemma work_left_start : work_left start = (3 * length segments + 3 * length requestServers)%nat.
Proof.
  unfold work_left. cbn. enough (forall n, sum_list_with thread_work (replicate n TIdle) = (3 * n)%nat) as -> by lia.
  induction n; cbn in *; lia.
Qed.

(** The request for a segment can be made, and every server ends up replying to
    it, with nothing but answers and the program's own exceptions. *)
Definition replied (s : Segment) : Prop :=
  exists q, makeQsAndPost (fromByte s) (toByte s) = Ok q /\ forall srv, srv ∈ requestServers ->
    (exists reply, replies srv q reply) /\
    forall reply, replies srv q reply -> (exists e, reply = Throw (ExcCommon e)) \/
      exists response parsed, reply = Ok response /\ responseParse response = Ok parsed.

(** The same, when every reply is an answer that will be accepted. *)
Definition answered (s : Segment) : Prop :=
  exists q, makeQsAndPost (fromByte s) (toByte s) = Ok q /\ forall srv, srv ∈ requestServers ->
    (exists reply, replies srv q reply) /\
    forall reply, replies srv q reply -> exists response parsed,
      reply = Ok response /\ responseParse response = Ok parsed /\ rp_error parsed = None /\
      (isPrecisionSize = true -> blen (rp_response parsed) = u64 (toByte s - fromByte s)).

Lemma answered_replied s : answered s -> replied s.
Proof.
  intros (q & Hq & Ha). exists q. split; [done|]. intros srv Hs. destruct (Ha srv Hs) as [Hex Hall].
  split; [done|]. intros reply Hr. destruct (Hall reply Hr) as (response & parsed & ? & ? & _). right. eauto.
Qed.

Section replied.
Hypothesis Hreplied : forall s, s ∈ segments -> replied s.

Lemma request_clean s srv q reply answers :
  s ∈ segments -> makeQsAndPost (fromByte s) (toByte s) = Ok q -> srv ∈ requestServers ->
  replies srv q reply -> 0 <= posInArray s < blen answers ->
  (exists a, requestFunction responseParse isPrecisionSize s reply answers = Ok a) \/
  (exists e, requestFunction responseParse isPrecisionSize s reply answers = Throw (ExcCommon e)).
Proof.
  intros Hs Hq Hsrv Hr Hp. destruct (Hreplied s Hs) as (q' & Hq' & Hall). rewrite Hq in Hq'. injection Hq' as <-.
  destruct (proj2 (Hall srv Hsrv) reply Hr) as [[e ->]|(response & parsed & -> & Hpr)]; [right; by eexists|].
  unfold requestFunction. cbn [mbind res_bind]. rewrite Hpr. cbn [mbind res_bind].
  destruct (negb _); cbn [CHECK mbind res_bind]; [|right; by eexists].
  destruct isPrecisionSize; [destruct (_ =? u64 _)|]; cbn [CHECK mbind res_bind];
    try (right; by eexists); (destruct (Z.ltb_spec (posInArray s) (blen answers)); [|lia]); left; by eexists.
Qed.

Lemma pinv_member s seg :
  pinv s -> seg ∈ p_toPush s ++ p_queue s ++ omap busy_of (p_threads s) ->
  seg ∈ segments /\ 0 <= posInArray seg < blen (p_answers s).
Proof.
  intros [(lost & done & Hw & _) _ Ha _] Hin.
  assert (seg ∈ segments) as Hs.
  { rewrite <- Hw, !elem_of_app. rewrite !elem_of_app in Hin. tauto. }
  split; [done|]. rewrite Forall_forall in Hpos. unfold blen. rewrite Ha. by apply Hpos.
Qed.

Lemma busy_elem (ts : list ThreadState) t seg q :
  ts !! t = Some (TBusy seg q) -> seg ∈ omap busy_of ts.
Proof.
  intros Ht. apply list_elem_of_omap. exists (TBusy seg q). split; [by eapply list_elem_of_lookup_2|done].
Qed.

(** No segment is lost. *)
Lemma conserved s :
  rtc step start s ->
  blen (p_toPush s) + blen (p_queue s) + blen (omap busy_of (p_threads s)) + p_countSuccess s
  = blen segments.
Proof.
  unfold blen. revert s. refine (rtc_ind_r _ start _ _); [|intros s s' Hr Hs IH].
  { cbn. assert (forall n, omap busy_of (replicate n TIdle) = []) as -> by (by induction n).
    cbn. lia. }
  pose proof (pinv_reach s Hr) as Hinv. inversion Hs; subst; clear Hs;
    cbn [p_toPush p_queue p_threads p_countSuccess with_thread].
  - rewrite <- IH, H, length_app. cbn. lia.
  - destruct (busy_insert (p_threads s) t TIdle (TBusy seg q) H) as (r & Hr1 & Hr2).
    rewrite <- IH, Hr1, Hr2, H0, !length_app. cbn. rewrite ?length_app. cbn. lia.
  - destruct (pinv_member s seg Hinv) as [Hin _].
    { rewrite H0, !elem_of_app. right. left. right. by left. }
    destruct (Hreplied seg Hin) as (q & Hq & _). congruence.
  - destruct (busy_insert (p_threads s) t (TBusy seg q) TIdle H) as (r & Hr1 & Hr2).
    rewrite <- IH, Hr1, Hr2. cbn. lia.
  - destruct (busy_insert (p_threads s) t (TBusy seg q) (TPutBack seg) H) as (r & Hr1 & Hr2).
    by rewrite <- IH, Hr1, Hr2.
  - destruct (busy_insert (p_threads s) t (TPutBack seg) TExited H) as (r & Hr1 & Hr2).
    rewrite <- IH, Hr1, Hr2, length_app. cbn. lia.
  - destruct (pinv_member s seg Hinv) as [Hin Hb].
    { rewrite !elem_of_app. right. right. by eapply busy_elem. }
    destruct (request_clean seg srv q reply (p_answers s) Hin) as [[x E]|[x E]];
      [by eapply pi_busy|by eapply list_elem_of_lookup_2|done|done|congruence|].
    rewrite E in H2. injection H2 as <-. by destruct (H3 x).
Qed.

(** A thread that is gone, or waits for a place to put its segment back. *)
Definition over (t : ThreadState) : bool :=
  match t with TExited | TPutBack _ => true | _ => false end.

(** The queue is full and no thread will take anything from it. *)
Definition jammed (s : PState) : Prop :=
  blen (p_queue s) = QUEUE_SIZE /\ Forall (fun t => over t = true) (p_threads s).

Lemma queue_bounded s : rtc step start s -> blen (p_queue s) <= QUEUE_SIZE.
Proof.
  revert s. refine (rtc_ind_r _ start _ _); [done|]. intros s s' _ Hs IH.
  inversion Hs; subst; clear Hs; cbn [p_queue with_thread]; try done;
    rewrite ?blen_app, ?blen_cons, ?blen_nil; try lia.
  all: rewrite H0, !blen_app, blen_cons in IH; lia.
Qed.

Lemma jammed_stuck s s' : jammed s -> ~ step s s'.
Proof.
  intros [Hq Ht] Hs. rewrite Forall_forall in Ht.
  inversion Hs; subst; clear Hs; try lia;
    (apply list_elem_of_lookup_2 in H; by specialize (Ht _ H)).
Qed.

(** A thread in a given state, or none. *)
Lemma find_thread (f : ThreadState -> bool) (ts : list ThreadState) :
  (exists t x, ts !! t = Some x /\ f x = true) \/ Forall (fun x => f x = false) ts.
Proof.
  induction ts as [|z ts IH]; [by right|]. destruct (f z) eqn:E; [left; by exists 0%nat, z|].
  destruct IH as [(t & x & Ht & Hx)|Hno]; [left; by exists (S t), x|right; by constructor].
Qed.

Lemma busy_moves s t seg q :
  rtc step start s -> p_threads s !! t = Some (TBusy seg q) -> exists s', step s s'.
Proof.
  intros Hr Ht. pose proof (pinv_reach s Hr) as Hinv. destruct (pinv_member s seg Hinv) as [Hins Hpb].
  { rewrite !elem_of_app. right. right. by eapply busy_elem. }
  destruct (lookup_lt_is_Some_2 requestServers t) as [srv Hsrv].
  { rewrite <- (pi_threads s Hinv). by eapply lookup_lt_Some. }
  assert (srv ∈ requestServers) as Hsv by (by eapply list_elem_of_lookup_2).
  pose proof (pi_busy s Hinv t seg q Ht) as Hq.
  destruct (Hreplied seg Hins) as (q' & Hq' & Hall). rewrite Hq in Hq'. injection Hq' as <-.
  destruct (proj1 (Hall srv Hsv)) as [reply Hrp].
  destruct (request_clean seg srv q reply (p_answers s) Hins Hq Hsv Hrp Hpb) as [[x E]|[x E]]; eexists;
    [by eapply step_success|by eapply step_fail].
Qed.

Lemma idle_moves s t seg queue :
  rtc step start s -> p_threads s !! t = Some TIdle -> p_queue s = seg :: queue -> exists s', step s s'.
Proof.
  intros Hr Ht Hq. destruct (pinv_member s seg (pinv_reach s Hr)) as [Hin _].
  { rewrite Hq, !elem_of_app. right. left. apply list_elem_of_here. }
  destruct (Hreplied seg Hin) as (q & Hmk & _). eexists. by eapply (step_pop _ _ _ _ _ t seg [] queue q).
Qed.

(** Until the download is decided, some thread can move, unless it is jammed. *)
Lemma process_progress s :
  rtc step start s -> process_done segments s \/ (exists s', step s s') \/ jammed s.
Proof.
  intros Hr. pose proof (queue_bounded s Hr) as Hle. pose proof (conserved s Hr) as Hc.
  destruct (find_thread (fun x => match x with TBusy _ _ => true | _ => false end) (p_threads s))
    as [(t & [| | |] & Ht & Hx)|Hbusy]; try done; [right; left; by eapply busy_moves|].
  destruct (find_thread (fun x => match x with TIdle => true | _ => false end) (p_threads s))
    as [(t & [| | |] & Ht & Hx)|Hidle]; try done.
  - destruct (p_queue s) as [|seg queue] eqn:Hq; [|right; left; by eapply idle_moves].
    destruct (p_toPush s) as [|seg rest] eqn:Hp; [|right; left; eexists; eapply step_push; [done|by rewrite Hq]].
    destruct (find_thread (fun x => match x with TPutBack _ => true | _ => false end) (p_threads s))
      as [(u & [| |seg|] & Hu & Hx')|Hput]; try done.
    { right. left. eexists. eapply step_put_back; [done|by rewrite Hq]. }
    left. split; [done|]. left. enough (omap busy_of (p_threads s) = []) as E by (rewrite E in Hc; by rewrite <- Hc).
    clear -Hbusy Hput. induction (p_threads s) as [|x ts IH]; [done|].
    apply Forall_cons in Hbusy as [Hb Hbusy], Hput as [Hp Hput]. cbn. destruct x; try done; by apply IH.
  - destruct (Z.ltb_spec (blen (p_queue s)) QUEUE_SIZE) as [Hlt|].
    2: { right. right. split; [lia|]. clear -Hbusy Hidle. induction Hbusy as [|[]]; try done;
      apply Forall_cons in Hidle as [? ?]; by constructor; auto. }
    destruct (p_toPush s) as [|seg rest] eqn:Hp; [|right; left; eexists; by eapply step_push].
    destruct (find_thread (fun x => match x with TPutBack _ => true | _ => false end) (p_threads s))
      as [(u & [| |seg|] & Hu & Hx')|Hput]; try done; [right; left; eexists; by eapply step_put_back|].
    left. split; [done|]. right. unfold p_countExit. clear -Hbusy Hidle Hput.
    induction (p_threads s) as [|x ts IH]; [done|].
    apply Forall_cons in Hbusy as [? Hbusy], Hput as [? Hput], Hidle as [? Hidle].
    destruct x; try done. cbn [List.filter]. by rewrite !blen_cons, IH.
Qed.

(** A download of no more segments than the queue holds is never jammed. *)
Lemma jammed_large s : rtc step start s -> jammed s -> process_done segments s \/ QUEUE_SIZE < blen segments.
Proof.
  intros Hr [Hq Hover]. pose proof (conserved s Hr) as Hc. pose proof (blen_nonneg (p_toPush s)).
  pose proof (blen_nonneg (omap busy_of (p_threads s))) as Hb.
  assert (0 <= p_countSuccess s).
  { destruct (pi_where s (pinv_reach s Hr)) as (lost & done_ & _ & -> & _). apply blen_nonneg. }
  destruct (Z.ltb_spec QUEUE_SIZE (blen segments)); [by right|]. left. split.
  { apply length_zero_iff_nil. unfold blen in *. lia. }
  assert (omap busy_of (p_threads s) = []) as E by (apply length_zero_iff_nil; unfold blen in *; lia).
  right. unfold p_countExit. clear -E Hover. induction (p_threads s) as [|x ts IH]; [done|].
  apply Forall_cons in Hover as [Ho Hover]. destruct x; try done. cbn [List.filter]. rewrite !blen_cons. by rewrite IH.
Qed.

End replied.

(** ** Runs that cannot fail *)

Section answered.
Hypothesis Hanswered : forall s, s ∈ segments -> answered s.

Lemma request_accepted s srv q reply answers e :
  s ∈ segments -> makeQsAndPost (fromByte s) (toByte s) = Ok q -> srv ∈ requestServers ->
  replies srv q reply -> posInArray s < blen answers ->
  requestFunction responseParse isPrecisionSize s reply answers <> Throw e.
Proof.
  intros Hs Hq Hsrv Hr Hp. destruct (Hanswered s Hs) as (q' & Hq' & Hall). rewrite Hq in Hq'. injection Hq' as <-.
  destruct (proj2 (Hall srv Hsrv) reply Hr) as (response & parsed & -> & Hpr & He & Hz).
  unfold requestFunction. cbn [mbind res_bind]. rewrite Hpr. cbn [mbind res_bind]. rewrite He.
  rewrite bool_decide_false by (by intros [? ?]). cbn [negb CHECK mbind res_bind].
  destruct isPrecisionSize; [rewrite Hz, Z.eqb_refl by done; cbn [CHECK]|];
    cbn [mbind res_bind]; by rewrite (proj2 (Z.ltb_lt _ _)).
Qed.

(** No thread ends. *)
Lemma nobody_over s : rtc step start s -> Forall (fun x => over x = false) (p_threads s).
Proof.
  revert s. refine (rtc_ind_r _ start _ _).
  { cbn. by apply Forall_replicate. }
  intros s s' Hr Hs IH. pose proof (pinv_reach s Hr) as Hinv.
  assert (forall t seg q, p_threads s !! t = Some (TBusy seg q) -> seg ∈ segments /\
    makeQsAndPost (fromByte seg) (toByte seg) = Ok q /\ posInArray seg < blen (p_answers s)) as Hbusy.
  { intros t seg q Ht. destruct (pinv_member s seg Hinv) as [Hin Hb].
    { rewrite !elem_of_app. right. right. by eapply busy_elem. }
    split; [done|]. split; [by eapply pi_busy|lia]. }
  inversion Hs; subst; clear Hs; cbn [p_threads with_thread]; try (by apply Forall_insert); [done|..].
  - destruct (pinv_member s seg Hinv) as [Hin _].
    { rewrite H0, !elem_of_app. right. left. right. by left. }
    destruct (Hanswered seg Hin) as (q & Hq & _). congruence.
  - destruct (Hbusy t seg q H) as (Hin & Hq & Hp). destruct (request_accepted seg srv q reply (p_answers s)
      (ExcCommon e) Hin Hq); [by eapply list_elem_of_lookup_2|done..].
  - rewrite Forall_forall in IH. apply list_elem_of_lookup_2 in H. by specialize (IH _ H).
  - destruct (Hbusy t seg q H) as (Hin & Hq & Hp). destruct (request_accepted seg srv q reply (p_answers s)
      e Hin Hq); [by eapply list_elem_of_lookup_2|done..].
Qed.

Hypothesis Hservers : requestServers <> [].

Lemma a_thread_works s : rtc step start s -> exists x ts, p_threads s = x :: ts /\ over x = false.
Proof.
  intros Hr. pose proof (pi_threads s (pinv_reach s Hr)) as Hl. pose proof (nobody_over s Hr) as Hno.
  destruct (p_threads s) as [|x ts]; [by destruct requestServers|]. apply Forall_cons in Hno as [Hx _]. by exists x, ts.
Qed.

(** The main thread's condition can only hold because everything was answered. *)
Lemma done_succeeds s : rtc step start s -> process_done segments s -> p_countSuccess s = blen segments.
Proof.
  intros Hr [_ [Hs|Hx]]; [done|]. exfalso. destruct (a_thread_works s Hr) as (x & ts & Hts & Hx0).
  unfold p_countExit in Hx. rewrite Hts in Hx. destruct x; try done; cbn [List.filter] in Hx;
    rewrite blen_cons in Hx; unfold blen in Hx;
    pose proof (filter_length_le (fun t => match t with TExited => true | _ => false end) ts); lia.
Qed.

Lemma answered_progress s : rtc step start s -> process_done segments s \/ exists s', step s s'.
Proof.
  intros Hr. destruct (process_progress (fun s Hs => answered_replied s (Hanswered s Hs)) s Hr)
    as [Hd|[Hs|[_ Hj]]]; [by left|by right|]. exfalso.
  destruct (a_thread_works s Hr) as (x & ts & Hts & Hx). rewrite Hts in Hj. apply Forall_cons in Hj as [Hj _]. congruence.
Qed.

(** So every run can be brought to its end. *)
Lemma process_finishes s : rtc step start s -> exists s', rtc step s s' /\ process_done segments s'.
Proof.
  remember (work_left s) as n eqn:Hn. revert s Hn. induction n as [n IH] using lt_wf_ind. intros s -> Hr.
  destruct (answered_progress s Hr) as [Hd|[s1 Hs]]; [by exists s|].
  destruct (IH _ (step_decreases _ _ Hs) s1 eq_refl) as (s' & Hr' & Hd); [by eapply rtc_r|].
  exists s'. split; [by eapply rtc_l|done].
Qed.

End answered.

End runs.

(** ** Whole downloads *)

Lemma prepare_Ok getServersList size minSize servers segs :
  prepare getServersList size minSize = Ok (servers, segs) ->
  0 <= size < 2 ^ 63 -> 0 < minSize < 2 ^ 63 ->
  getServersList = Ok servers /\ 0 < size /\ covers 0 0 size segs /\
  blen segs = count_segments servers size minSize /\ Forall (wide minSize size) segs.
Proof.
  unfold prepare. intros Hp Hs Hm. apply bind_Ok_inv in Hp as (u & Hc & Hp).
  apply CHECK_Ok_inv in Hc. apply negb_true_iff, Z.eqb_neq in Hc.
  apply bind_Ok_inv in Hp as (srv & Hsrv & Hp). apply bind_Ok_inv in Hp as (l & Hl & Hp).
  injection Hp as -> ->. split; [done|]. split; [lia|].
  set (count := count_segments servers size minSize) in *.
  assert (count <> 0) as Hc0 by (intros E; unfold makeSegments in Hl; by rewrite E in Hl).
  assert (0 < count <= (size + minSize - 1) / minSize) as Hcount.
  { unfold count, count_segments in *. destruct (Z.eqb_spec minSize 1) as [->|Hm1].
    - rewrite Z.div_1_r. lia.
    - rewrite u64_small in * by (unfold is_u64; lia). pose proof (blen_nonneg servers).
      assert (0 <= (size + minSize - 1) / minSize) by (apply Z.div_pos; lia). lia. }
  destruct (makeSegments_covers count size minSize) as (l' & Hl' & Hcov & Hlen); [lia|lia|done|].
  apply makeSegments_wide in Hl as Hw; [|lia..].
  rewrite Hl in Hl'. injection Hl' as <-. done.
Qed.

Lemma covers_hyps size segs count :
  covers 0 0 size segs -> blen segs = count ->
  NoDup (place <$> segs) /\ Forall (fun s => 0 <= posInArray s < Z.of_nat (Z.to_nat count)) segs.
Proof.
  intros Hc Hl. split.
  - rewrite (covers_places 0 0 size segs) by done. apply NoDup_seq.
  - apply Forall_forall. intros s Hs. apply list_elem_of_lookup in Hs as [j Hj].
    destruct (covers_lookup _ _ _ _ _ _ Hc Hj) as (Hp & _).
    apply lookup_lt_Some in Hj. unfold blen in Hl. lia.
Qed.

Lemma process_answers servers makeQs parse precise replies size segs count answers :
  covers 0 0 size segs -> blen segs = count ->
  process servers makeQs parse precise replies segs (Z.to_nat count) answers true ->
  Forall2 (accepted servers makeQs parse precise replies) segs answers.
Proof.
  intros Hc Hl Hpr. destruct (covers_hyps size segs count Hc Hl) as [Hnd Hpos].
  inversion Hpr as [s Hr Hd Ha Hb]. subst answers.
  apply bool_decide_eq_true in Hb.
  pose proof (pinv_reach _ _ _ _ _ _ _ Hnd Hpos s Hr) as Hinv.
  pose proof (pinv_complete _ _ _ _ _ _ _ s Hinv Hb) as Hall.
  pose proof (pi_answers _ _ _ _ _ _ _ s Hinv) as Hla.
  apply Forall2_same_length_lookup. split; [unfold blen in Hl; lia|].
  intros j seg a Hj Haj. rewrite Forall_forall in Hall.
  destruct (Hall seg) as (a' & Ha' & Hacc); [by eapply list_elem_of_lookup_2|].
  destruct (covers_lookup _ _ _ _ _ _ Hc Hj) as (Hp & _).
  unfold place in Ha'. rewrite Hp in Ha'. replace (Z.to_nat (0 + Z.of_nat j)) with j in Ha' by lia.
  rewrite Haj in Ha'. by injection Ha' as ->.
Qed.

Lemma requestImpl_accepted getServersList makeQs parse precise replies size minSize answers :
  requestImpl getServersList makeQs parse precise replies size minSize (Ok answers) ->
  0 <= size < 2 ^ 63 -> 0 < minSize < 2 ^ 63 ->
  exists servers segs, getServersList = Ok servers /\ 0 < size /\ covers 0 0 size segs /\
    blen segs = count_segments servers size minSize /\ Forall (wide minSize size) segs /\
    Forall2 (accepted servers makeQs parse precise replies) segs answers.
Proof.
  intros Hr Hs Hm. inversion Hr as [r Hp Hok Heq|servers segs as_ ok Hp Hproc Heq].
  - destruct r; done.
  - destruct ok; [|done]. injection Heq as ->.
    destruct (prepare_Ok _ _ _ _ _ Hp Hs Hm) as (Hsrv & Hpos & Hc & Hl & Hw).
    exists servers, segs. do 5 (split; [done|]).
    by eapply process_answers.
Qed.

(** A server that answers a request for a range of the first [size] bytes, not
    shorter than a segment can be, with that range of [data]. *)
Definition honest (makeQs : Z -> Z -> res Query) (parse : bytes -> res ResponseParse)
    (replies : bytes -> Query -> res bytes -> Prop) (size : Z) (data : bytes) : Prop :=
  forall srv from to q response parsed, 0 <= from < to -> to <= size ->
    wide MIN_RESPONSE_SIZE size (mkSegment from to 0) -> makeQs from to = Ok q -> replies srv q (Ok response) ->
    parse response = Ok parsed -> rp_error parsed = None -> rp_response parsed = slice from to data.

Lemma p2p_request_data getServersList makeQs parse precise replies size data r :
  p2p_request getServersList parse replies size precise makeQs (Ok r) ->
  0 <= size < 2 ^ 63 -> honest makeQs parse replies size data -> r = slice 0 size data.
Proof.
  intros Hr Hs Hh. inversion Hr as [r' Himpl Heq]. clear Hr.
  apply bind_Ok_inv in Heq as (answers & -> & Hj).
  unfold join_answers in Hj. apply bind_Ok_inv in Hj as (u & _ & [= <-]).
  destruct (requestImpl_accepted _ _ _ _ _ _ _ _ Himpl Hs) as (servers & segs & _ & _ & Hc & _ & Hw & H2).
  { unfold MIN_RESPONSE_SIZE. lia. }
  apply (covers_concat 0 0 size segs data); [lia|done|].
  apply Forall2_same_length_lookup. split; [by eapply Forall2_length|]. intros j s a Hs' Ha.
  destruct (covers_lookup _ _ _ _ _ _ Hc Hs') as (_ & Hf & Ht).
  destruct (Forall2_lookup_lr _ _ _ _ _ _ H2 Hs' Ha) as (srv & q & response & parsed & _ & Hq & Hrp & Hp & He & <- & _).
  rewrite Forall_forall in Hw. eapply Hh; [exact Hf|exact Ht| |done..].
  apply (Hw s). by eapply list_elem_of_lookup_2.
Qed.

Lemma p2p_requests_answers getServersList parse replies n makeQs answers :
  p2p_requests getServersList parse replies n makeQs (Ok answers) -> 0 <= n < 2 ^ 63 ->
  blen answers = n /\
  forall i a, answers !! i = Some a -> exists srv q response parsed,
    makeQs (Z.of_nat i) = Ok q /\ replies srv q (Ok response) /\ parse response = Ok parsed /\
    rp_error parsed = None /\ rp_response parsed = a.
Proof.
  intros Hr Hn. inversion Hr as [r Himpl Heq]. clear Hr.
  apply bind_Ok_inv in Heq as (answers' & -> & Hj).
  apply bind_Ok_inv in Hj as (u & Hc & [= <-]). apply CHECK_Ok_inv, Z.eqb_eq in Hc.
  split; [done|]. intros i a Hi.
  destruct (requestImpl_accepted _ _ _ _ _ _ _ _ Himpl Hn) as (servers & segs & _ & _ & Hcov & Hl & _ & H2); [lia|].
  destruct (Forall2_lookup_r _ _ _ _ _ H2 Hi) as (seg & Hs & srv & q & response & parsed & _ & Hq & Hrest).
  exists srv, q, response, parsed. unfold makeQsAndPortImpl in Hq.
  apply bind_Ok_inv in Hq as (u' & Hto & Hq). apply CHECK_Ok_inv, Z.eqb_eq in Hto.
  assert (fromByte seg = Z.of_nat i) as <-; [|tauto].
  unfold count_segments in Hl. rewrite Z.eqb_refl in Hl.
  rewrite (covers_units 0 0 n segs i seg Hcov ltac:(lia) Hs). lia.
Qed.
