(* ===== verification/P2PSeq.v ===== *)
(** * A download by one thread, one segment after the other

    The schedule in which the first thread takes every segment in order is one
    of the segment machine's: when its server answers every request, the
    download succeeds.  The schedule is executable, and gives a concrete
    peer-to-peer layer for a given server. *)
From S2P Require Import Prelude P2P P2PFacts.
#[local] Open Scope Z_scope.

Section sequential.
Variable serve : bytes -> Query -> res bytes.
Variable srv : bytes.
Variable servers : list bytes.
Variable makeQs : Z -> Z -> res Query.
Variable parse : bytes -> res ResponseParse.
Variable precise : bool.
Variable replies : bytes -> Query -> res bytes -> Prop.
Hypothesis Hsrv : head servers = Some srv.
Hypothesis Hserve : forall q, replies srv q (serve srv q).

(** The answer to one segment, as [requestFunction] takes it. *)
Definition ask_segment (s : Segment) : res bytes :=
  q ← makeQs (fromByte s) (toByte s);
  response ← serve srv q;
  parsed ← parse response;
  _ ← CHECK (negb (bool_decide (is_Some (rp_error parsed)))) (default [] (rp_error parsed));
  _ ← (if precise
       then CHECK (blen (rp_response parsed) =? u64 (toByte s - fromByte s)) (str "Incorrect response size")
       else Ok tt);
  Ok (rp_response parsed).

Fixpoint ask_segments (segs : list Segment) : res (list bytes) :=
  match segs with
  | [] => Ok []
  | s :: rest => a ← ask_segment s; l ← ask_segments rest; Ok (a :: l)
  end.

Lemma ask_segment_stored s a answers :
  ask_segment s = Ok a -> 0 <= posInArray s < blen answers ->
  exists q, makeQs (fromByte s) (toByte s) = Ok q /\
    requestFunction parse precise s (serve srv q) answers = Ok (<[Z.to_nat (posInArray s) := a]> answers).
Proof.
  unfold ask_segment, requestFunction. intros Ha Hp. apply bind_Ok_inv in Ha as (q & Hq & Ha).
  exists q. split; [done|]. destruct (serve srv q) as [response| | |]; try done. cbn [mbind res_bind] in *.
  destruct (parse response) as [parsed| | |]; try done. cbn [mbind res_bind] in *.
  destruct (CHECK (negb _) _); try done. cbn [mbind res_bind] in *.
  destruct (if precise then _ else _); try done. cbn [mbind res_bind] in *. injection Ha as <-.
  rewrite (proj2 (Z.ltb_lt _ _)) by lia. done.
Qed.

#[local] Abbreviation step := (pstep servers makeQs parse precise replies).

(** The machine between two segments: the queue is empty, every thread idle. *)
Definition between (rest : list Segment) (count : Z) (answers : list bytes) : PState :=
  mkPState rest [] (replicate (length servers) TIdle) count answers.

Lemma one_segment s rest count answers a :
  ask_segment s = Ok a -> 0 <= posInArray s < blen answers ->
  rtc step (between (s :: rest) count answers)
    (between rest (count + 1) (<[Z.to_nat (posInArray s) := a]> answers)).
Proof.
  intros Ha Hp. destruct (ask_segment_stored s a answers Ha Hp) as (q & Hq & Hr).
  unfold between in *. destruct servers as [|s0 ss]; [done|]. injection Hsrv as ->. cbn [length replicate].
  set (idle := replicate (length ss) TIdle) in *.
  eapply rtc_l; [by eapply step_push; [|vm_compute]|]. cbn [p_queue p_threads p_countSuccess p_answers app].
  eapply rtc_l; [eapply (step_pop _ _ _ _ _ 0%nat s [] [] q); done|].
  cbn [with_thread app p_toPush p_queue p_threads p_countSuccess p_answers].
  change (<[0%nat := TBusy s q]> (TIdle :: idle)) with (TBusy s q :: idle).
  eapply rtc_l; [by eapply (step_success _ _ _ _ _ 0%nat s q srv (serve srv q))|].
  cbn [with_thread p_toPush p_queue p_threads p_countSuccess p_answers].
  change (<[0%nat := TIdle]> (TBusy s q :: idle)) with (TIdle :: idle). done.
Qed.

Lemma all_segments i from size segs count done_ as_ :
  covers i from size segs -> ask_segments segs = Ok as_ -> blen done_ = i ->
  rtc step (between segs count (done_ ++ replicate (length segs) []))
    (between [] (count + blen segs) (done_ ++ as_)).
Proof.
  revert i from count done_ as_. induction segs as [|s segs IH]; intros i from count done_ as_ Hc Ha Hd.
  { injection Ha as <-. rewrite blen_nil, Z.add_0_r. done. }
  cbn [ask_segments] in Ha. apply bind_Ok_inv in Ha as (a & Ha & Hl).
  apply bind_Ok_inv in Hl as (l & Hl & [= <-]). destruct Hc as (_ & Hpos & _ & Hc).
  pose proof (blen_nonneg done_). cbn [length replicate].
  etrans.
  - apply (one_segment s segs count _ a); [done|]. rewrite blen_app, blen_cons.
    pose proof (blen_nonneg (replicate (length segs) (@nil byte))). lia.
  - replace (Z.to_nat (posInArray s)) with (length done_ + 0)%nat by (unfold blen in Hd; lia).
    rewrite insert_app_r. cbn [insert list_insert].
    specialize (IH (i + 1) (toByte s) (count + 1) (done_ ++ [a]) l Hc Hl).
    rewrite <- !app_assoc in IH. cbn [app] in IH. rewrite blen_cons, Z.add_assoc. apply IH.
    rewrite blen_app, blen_cons, blen_nil. lia.
Qed.

(** The segments are taken in order and all answered: the download succeeds. *)
Lemma sequential_process size segs answers :
  covers 0 0 size segs -> ask_segments segs = Ok answers ->
  process servers makeQs parse precise replies segs (length segs) answers true.
Proof.
  intros Hc Ha. pose proof (all_segments 0 0 size segs 0 [] answers Hc Ha eq_refl) as Hr.
  cbn [app] in Hr. rewrite Z.add_0_l in Hr.
  replace true with (bool_decide (p_countSuccess (between [] (blen segs) answers) = blen segs))
    by (by apply bool_decide_eq_true).
  change answers with (p_answers (between [] (blen segs) answers)). apply process_run; [exact Hr|].
  split; [done|]. by left.
Qed.

End sequential.

(** ** An executable download *)

Section download.
Variable serve : bytes -> Query -> res bytes.
Variable getServersList : res (list bytes).

Definition seq_requestImpl (makeQs : Z -> Z -> res Query) (parse : bytes -> res ResponseParse)
    (precise : bool) (responseSize minResponseSize : Z) : res (list bytes) :=
  _ ← CHECK ((0 <=? responseSize) && (responseSize <? 2 ^ 63)) (str "response size");
  '(servers, segments) ← prepare getServersList responseSize minResponseSize;
  srv ← opt_ub (head servers);
  ask_segments serve srv makeQs parse precise segments.

Definition seq_request (responseSize : Z) (precise : bool) (makeQs : Z -> Z -> res Query)
    (parse : bytes -> res ResponseParse) : res bytes :=
  answers ← seq_requestImpl makeQs parse precise responseSize MIN_RESPONSE_SIZE;
  join_answers responseSize precise answers.

Definition seq_requests (countRequests : Z) (makeQs : Z -> res Query)
    (parse : bytes -> res ResponseParse) : res (list bytes) :=
  answers ← seq_requestImpl (makeQsAndPortImpl makeQs) parse false countRequests 1;
  _ ← CHECK (blen answers =? countRequests) (str "Incorrect count answers");
  Ok answers.

(** What the server replies. *)
Definition serve_replies (srv : bytes) (q : Query) (r : res bytes) : Prop := r = serve srv q.

Lemma seq_requestImpl_run makeQs parse precise size minSize answers :
  seq_requestImpl makeQs parse precise size minSize = Ok answers -> 0 < minSize < 2 ^ 63 ->
  requestImpl getServersList makeQs parse precise serve_replies size minSize (Ok answers).
Proof.
  unfold seq_requestImpl. intros Hs Hm. apply bind_Ok_inv in Hs as (u & Hsize & Hs).
  apply CHECK_Ok_inv, andb_true_iff in Hsize as [H0 H1]. apply Z.leb_le in H0. apply Z.ltb_lt in H1.
  apply bind_Ok_inv in Hs as ([servers segs] & Hp & Hs).
  apply bind_Ok_inv in Hs as (srv & Hsrv & Ha).
  assert (head servers = Some srv) as Hhd by (destruct (head servers); [by injection Hsrv as ->|done]).
  destruct (prepare_Ok _ _ _ _ _ Hp) as (_ & _ & Hc & Hl & _); [lia|lia|].
  assert (Z.to_nat (count_segments servers size minSize) = length segs) as Hn by (unfold blen in Hl; lia).
  pose proof (requestImpl_run getServersList makeQs parse precise serve_replies size minSize servers segs
    answers true Hp) as Hrun. apply Hrun. rewrite Hn.
  by apply (sequential_process serve srv servers makeQs parse precise serve_replies Hhd (fun q => eq_refl) size).
Qed.

Lemma seq_request_run size precise makeQs parse r :
  seq_request size precise makeQs parse = Ok r ->
  p2p_request getServersList parse serve_replies size precise makeQs (Ok r).
Proof.
  unfold seq_request. intros Hs. apply bind_Ok_inv in Hs as (answers & Ha & Hj).
  apply seq_requestImpl_run in Ha; [|unfold MIN_RESPONSE_SIZE; lia].
  pose proof (p2p_request_run _ _ _ _ precise _ _ Ha) as Hr. cbn [mbind res_bind] in Hr. by rewrite Hj in Hr.
Qed.

Lemma seq_requests_run n makeQs parse answers :
  seq_requests n makeQs parse = Ok answers ->
  p2p_requests getServersList parse serve_replies n makeQs (Ok answers).
Proof.
  unfold seq_requests. intros Hs. apply bind_Ok_inv in Hs as (answers' & Ha & Hj).
  apply seq_requestImpl_run in Ha; [|lia].
  pose proof (p2p_requests_run _ _ _ _ _ _ Ha) as Hr. cbn [mbind res_bind] in Hr.
  destruct (blen answers' =? n); [|done]. cbn in *. by injection Hj as <-.
Qed.

End download.
