(* ===== verification/JsonApi.v ===== *)
(** * generate_json.h, generate_json.cpp: the answers in JSON

    A rapidjson document under construction is the value it holds; what is sent
    is [json_print] of it.  The readers of a peer's answer are here too: they
    take the text up to the first NUL, and testing a member of a value that is
    not an object is undefined. *)
From S2P Require Import Prelude External Address BlockInfo.
#[local] Open Scope Z_scope.

(* src: generate_json.h:14-17 RequestId *)
Record RequestId := mkRequestId {
  ri_id : bytes + Z;
  ri_isSet : bool;
}.

(* src: generate_json.h:19-21 JsonVersion *)
Inductive JsonVersion := V1 | V2.

(* src: generate_json.h:23-25 BlockTypeInfo *)
Inductive BlockTypeInfo := ForP2P | Small | Simple | Hashes | Full.

#[global] Instance BlockTypeInfo_eq_dec : EqDecision BlockTypeInfo.
Proof. solve_decision. Defined.

Abbreviation members := (list (bytes * json)).

(** [json.AddMember(name, value)] appends. *)
(* src: generate_json.cpp:22-30 addIdToResponse *)
Definition addIdToResponse (requestId : RequestId) (m : members) : members :=
  if ri_isSet requestId then
    match ri_id requestId with
    | inl id => m ++ [(str "id", JString id)]
    | inr id => m ++ [(str "id", JInt id)]
    end
  else m.

(* src: generate_json.cpp:32-41 intOrString *)
Definition intOrString (intValue : Z) (isString : bool) : json :=
  if isString then JString (to_string intValue) else JInt intValue.

Section answers.
Context `{Rapidjson}.

(* src: generate_json.cpp:43-53 genErrorResponse *)
Definition genErrorResponse (requestId : RequestId) (code : Z) (error : bytes) : bytes :=
  let m := addIdToResponse requestId [] in
  let errorJson := JObject [(str "code", JInt code); (str "message", JString error)] in
  json_print false (JObject (m ++ [(str "error", errorJson)])).

(* src: generate_json.cpp:55-64 genStatusResponse *)
Definition genStatusResponse (requestId : RequestId) (version gitHash : bytes) : bytes :=
  let m := addIdToResponse requestId [] in
  json_print false (JObject (m ++ [(str "result", JString (str "ok"));
    (str "version", JString version); (str "git_hash", JString gitHash)])).

(* src: generate_json.cpp:66-77 genInfoResponse *)
Definition genInfoResponse (requestId : RequestId) (version privkey : bytes) : bytes :=
  let m := addIdToResponse requestId [] in
  let resultJson := JObject [(str "version", JString version); (str "mh_addr", JString privkey)] in
  json_print false (JObject (m ++ [(str "result", resultJson)])).

(* src: generate_json.cpp:79-91 genStatisticResponse *)
Definition genStatisticResponse (requestId : RequestId) (statistic memory connections : Z) : bytes :=
  let m := addIdToResponse requestId [] in
  let resultJson := JObject [(str "request_stat", JInt statistic); (str "proc", JDouble);
    (str "memory", JString (to_string memory)); (str "connections", JInt connections)] in
  json_print false (JObject (m ++ [(str "result", resultJson)])).

(* src: generate_json.cpp:93-98 genStatisticResponse(statistic) *)
Definition genStatisticResponse_short (statistic : Z) : bytes :=
  json_print false (JObject [(str "result", JInt statistic)]).

Context `{Support}.

(* src: generate_json.cpp:100-126 blockHeaderToJson(bh) *)
Definition blockHeaderToJson_value (bh : BlockHeader) (type : BlockTypeInfo) (version : JsonVersion)
    : res json :=
  let isStringValue := match version with V2 => true | V1 => false end in
  let isSimple := bool_decide (type = Simple) in
  _ ← CHECK (bool_decide (is_Some (bh_blockNumber bh))) (str "Block header not set");
  m ← (if isSimple then t ← getBlockType bh; Ok [(str "type", JString t)] else Ok []);
  let m := m ++ [(str "hash", JString (bh_hash bh)); (str "prev_hash", JString (bh_prevHash bh))] in
  let m := if isSimple then m ++ [(str "tx_hash", JString (bh_txsHash bh))] else m in
  number ← opt_value (bh_blockNumber bh);
  let m := m ++ [(str "number", intOrString number isStringValue)] in
  m ← (if isSimple then
         let m := m ++ [(str "timestamp", intOrString (bh_timestamp bh) isStringValue)] in
         _ ← CHECK (bool_decide (is_Some (bh_countTxs bh))) (str "Count txs not set");
         countTxs ← opt_value (bh_countTxs bh);
         Ok (m ++ [(str "count_txs", intOrString countTxs isStringValue);
                   (str "sign", JString (toHex (bh_signature bh)))])
       else Ok m);
  let m := if bool_decide (type = Small) then m
           else m ++ [(str "size", JInt (bh_blockSize bh));
                      (str "fileName", JString (fp_fileName (bh_filePos bh)))] in
  Ok (JObject m).

Definition error_genesis : bytes := str "Incorrect block number: 0. Genesis block begin with number 1".

(* src: generate_json.cpp:128-137 blockHeaderToJson *)
Definition blockHeaderToJson (requestId : RequestId) (bh : BlockHeader) (isFormat : bool)
    (type : BlockTypeInfo) (version : JsonVersion) : res bytes :=
  if bool_decide (bh_blockNumber bh = Some 0) then Ok (genErrorResponse requestId (-32603) error_genesis)
  else
    let m := addIdToResponse requestId [] in
    v ← blockHeaderToJson_value bh type version;
    Ok (json_print isFormat (JObject (m ++ [(str "result", v)]))).

(* src: generate_json.cpp:139-148 genCountBlockJson *)
Definition genCountBlockJson (requestId : RequestId) (countBlocks : Z) (isFormat : bool)
    (version : JsonVersion) : bytes :=
  let isStringValue := match version with V2 => true | V1 => false end in
  let m := addIdToResponse requestId [] in
  let resultValue := JObject [(str "count_blocks", intOrString countBlocks isStringValue)] in
  json_print isFormat (JObject (m ++ [(str "result", resultValue)])).

(* src: generate_json.cpp:150-158 genBlockDumpJson *)
Definition genBlockDumpJson (requestId : RequestId) (blockDump : bytes) (isFormat : bool) : bytes :=
  let m := addIdToResponse requestId [] in
  json_print isFormat (JObject (m ++ [(str "result", JObject [(str "dump", JString blockDump)])])).

(* src: generate_json.cpp:160-168 genTestSignStringJson *)
Definition genTestSignStringJson (requestId : RequestId) (responseHex : bytes) : bytes :=
  let m := addIdToResponse requestId [] in
  json_print false (JObject (m ++ [(str "result", JObject [(str "data", JString responseHex)])])).

(** The loop over the headers: [None] when one is the genesis block. *)
(* src: generate_json.cpp:221-228 blockHeadersToJson, for *)
Fixpoint blockHeaders_values (bh : list BlockHeader) (type : BlockTypeInfo) (version : JsonVersion)
    : res (option (list json)) :=
  match bh with
  | [] => Ok (Some [])
  | b :: rest =>
      if bool_decide (bh_blockNumber b = Some 0) then Ok None
      else
        v ← blockHeaderToJson_value b type version;
        vs ← blockHeaders_values rest type version;
        Ok (option_map (cons v) vs)
  end.

(* src: generate_json.cpp:216-231 blockHeadersToJson *)
Definition blockHeadersToJson (requestId : RequestId) (bh : list BlockHeader) (type : BlockTypeInfo)
    (isFormat : bool) (version : JsonVersion) : res bytes :=
  let m := addIdToResponse requestId [] in
  vals ← blockHeaders_values bh type version;
  Ok (match vals with
      | None => genErrorResponse requestId (-32603) error_genesis
      | Some vals => json_print isFormat (JObject (m ++ [(str "result", JArray vals)]))
      end).

(** ** Reading a peer's answer *)

(** [CHECK(v.HasMember(name) && v[name].IsInt64(), ...)], then [GetInt64()]
    stored in a [size_t]; and the same for strings. *)
Definition get_int64 (v : json) (name msg : bytes) : res Z :=
  m ← json_member v name;
  match m with
  | Some (JInt z) => if is_int64 z then Ok (u64 z) else throwErr msg
  | _ => throwErr msg
  end.
Definition get_string (v : json) (name msg : bytes) : res bytes :=
  s ← json_string v name;
  match s with Some s => Ok s | None => throwErr msg end.

(* src: generate_json.cpp:170-184 parseBlockHeader(resultJson) *)
Definition parseBlockHeader_value (resultJson : json) : res MinimumBlockHeader :=
  number ← get_int64 resultJson (str "number") (str "number field not found");
  hash ← get_string resultJson (str "hash") (str "hash field not found");
  parentHash ← get_string resultJson (str "prev_hash") (str "prev_hash field not found");
  blockSize ← get_int64 resultJson (str "size") (str "size field not found");
  fileName ← get_string resultJson (str "fileName") (str "fileName field not found");
  Ok (mkMinimumBlockHeader number blockSize hash parentHash fileName).

(** The document's [result], after the tests every reader makes. *)
(* src: generate_json.cpp:187-193 parseBlockHeader, result *)
Definition parse_result (response : bytes) : res json :=
  match json_parse (c_str response) with
  | None => throwErr (str "rapidjson parse error. Data: " ++ response)
  | Some doc =>
      e ← json_member doc (str "error");
      _ ← match e with
          | None | Some JNull => Ok tt
          | Some e => throwErr (json_print false e)
          end;
      r ← json_member doc (str "result");
      match r with Some r => Ok r | None => throwErr (str "result field not found") end
  end.

(* src: generate_json.cpp:186-196 parseBlockHeader(response) *)
Definition parseBlockHeader (response : bytes) : res MinimumBlockHeader :=
  r ← parse_result response;
  match r with
  | JObject _ => parseBlockHeader_value r
  | _ => throwErr (str "result field not found")
  end.

(* src: generate_json.cpp:198-214 parseBlocksHeader *)
Definition parseBlocksHeader (response : bytes) : res (list MinimumBlockHeader) :=
  r ← parse_result response;
  match r with
  | JArray l =>
      foldM (fun result rJson =>
        match rJson with
        | JObject _ => h ← parseBlockHeader_value rJson; Ok (result ++ [h])
        | _ => throwErr (str "result field not found")
        end) [] l
  | _ => throwErr (str "result field not found")
  end.

End answers.

(** ** What a peer reads is what was sent *)

Definition min_header (bh : BlockHeader) (n : Z) : MinimumBlockHeader :=
  mkMinimumBlockHeader n (bh_blockSize bh) (bh_hash bh) (bh_prevHash bh) (fp_fileName (bh_filePos bh)).

(** A header whose members survive JSON: numbers that fit [int64_t], strings
    without NUL. *)
Definition sendable (bh : BlockHeader) (n : Z) : Prop :=
  bh_blockNumber bh = Some n /\ 0 < n < 2 ^ 63 /\ 0 <= bh_blockSize bh < 2 ^ 63 /\
  c_str (bh_hash bh) = bh_hash bh /\ c_str (bh_prevHash bh) = bh_prevHash bh /\
  c_str (fp_fileName (bh_filePos bh)) = fp_fileName (bh_filePos bh).

Section peer.
Context `{Rapidjson} `{Support}.

Lemma header_value_read bh n :
  sendable bh n -> exists m, blockHeaderToJson_value bh ForP2P V1 = Ok (JObject m) /\
    parseBlockHeader_value (JObject m) = Ok (min_header bh n).
Proof.
  intros (Hn & Hr & Hs & Hh & Hp & Hf). unfold blockHeaderToJson_value. rewrite Hn.
  cbv zeta.
  rewrite (bool_decide_true (is_Some (Some n))) by eauto.
  rewrite (bool_decide_false (ForP2P = Simple)), (bool_decide_false (ForP2P = Small)) by done.
  cbn [mbind res_bind]. unfold res_bind at 1. cbn [app]. eexists. split; [reflexivity|].
  unfold parseBlockHeader_value, get_int64, get_string, json_string, json_member.
  set (m := _ :: _).
  assert (find_member m (str "number") = Some (JInt n)) as -> by reflexivity.
  assert (find_member m (str "hash") = Some (JString (bh_hash bh))) as -> by reflexivity.
  assert (find_member m (str "prev_hash") = Some (JString (bh_prevHash bh))) as -> by reflexivity.
  assert (find_member m (str "size") = Some (JInt (bh_blockSize bh))) as -> by reflexivity.
  assert (find_member m (str "fileName") = Some (JString (fp_fileName (bh_filePos bh)))) as -> by reflexivity.
  cbn [mbind res_bind]. unfold is_int64.
  rewrite !(proj2 (Z.leb_le _ _)), !(proj2 (Z.ltb_lt _ _)) by lia. cbn [andb mbind res_bind].
  rewrite Hh, Hp, Hf, !u64_small by (unfold is_u64; lia). done.
Qed.

Lemma headers_values_read bhs ns acc :
  Forall2 sendable bhs ns -> exists vs, blockHeaders_values bhs ForP2P V1 = Ok (Some vs) /\
    foldM (fun result rJson =>
        match rJson with
        | JObject _ => h ← parseBlockHeader_value rJson; Ok (result ++ [h])
        | _ => throwErr (str "result field not found")
        end) acc vs = Ok (acc ++ zip_with min_header bhs ns).
Proof.
  intros H2. revert acc. induction H2 as [|bh n bhs ns Hs H2 IH]; intros acc.
  { exists []. split; [done|]. cbn. by rewrite app_nil_r. }
  destruct (header_value_read bh n Hs) as (m & Hv & Hr).
  destruct (IH (acc ++ [min_header bh n])) as (vs & Hvs & Hf).
  exists (JObject m :: vs). cbn [blockHeaders_values foldM zip_with].
  pose proof Hs as (Hn & Hrange & _). rewrite Hn, bool_decide_false by (intros [=]; lia).
  rewrite Hv. cbn [mbind res_bind]. rewrite Hvs. split; [done|].
  rewrite Hr. cbn [mbind res_bind]. rewrite Hf, <- app_assoc. done.
Qed.

(** rapidjson reads back what it wrote. *)
Definition reads_back (v : json) : Prop := json_parse (c_str (json_print false v)) = Some v.

Lemma parse_result_of id_ v :
  let m := addIdToResponse id_ [] ++ [(str "result", v)] in
  reads_back (JObject m) -> parse_result (json_print false (JObject m)) = Ok v.
Proof.
  cbn zeta. unfold reads_back, parse_result. intros ->.
  assert (forall w, find_member (addIdToResponse id_ [] ++ [(str "result", w)]) (str "error") = None) as He.
  { intros w. unfold addIdToResponse. destruct (ri_isSet id_); [destruct (ri_id id_)|]; reflexivity. }
  assert (forall w, find_member (addIdToResponse id_ [] ++ [(str "result", w)]) (str "result") = Some w) as Hr.
  { intros w. unfold addIdToResponse. destruct (ri_isSet id_); [destruct (ri_id id_)|]; reflexivity. }
  cbn [json_member mbind res_bind]. rewrite He. cbn [mbind res_bind]. by rewrite Hr.
Qed.

Lemma blockHeader_answer_read id_ bh n text :
  sendable bh n -> blockHeaderToJson id_ bh false ForP2P V1 = Ok text ->
  (forall v, blockHeaderToJson_value bh ForP2P V1 = Ok v ->
     reads_back (JObject (addIdToResponse id_ [] ++ [(str "result", v)]))) ->
  parseBlockHeader text = Ok (min_header bh n).
Proof.
  intros Hs Ht Hb. destruct (header_value_read bh n Hs) as (m & Hv & Hr).
  unfold blockHeaderToJson in Ht. pose proof Hs as (Hn & Hrange & _).
  rewrite Hn, bool_decide_false in Ht by (intros [=]; lia). rewrite Hv in Ht. cbn [mbind res_bind] in Ht.
  injection Ht as <-. unfold parseBlockHeader. rewrite (parse_result_of id_ (JObject m)) by auto.
  cbn [mbind res_bind]. done.
Qed.

Lemma blockHeaders_answer_read id_ bhs ns text :
  Forall2 sendable bhs ns -> blockHeadersToJson id_ bhs ForP2P false V1 = Ok text ->
  (forall vs, blockHeaders_values bhs ForP2P V1 = Ok (Some vs) ->
     reads_back (JObject (addIdToResponse id_ [] ++ [(str "result", JArray vs)]))) ->
  parseBlocksHeader text = Ok (zip_with min_header bhs ns).
Proof.
  intros Hs Ht Hb. destruct (headers_values_read bhs ns [] Hs) as (vs & Hv & Hr).
  unfold blockHeadersToJson in Ht. rewrite Hv in Ht. cbn [mbind res_bind] in Ht.
  injection Ht as <-. unfold parseBlocksHeader. rewrite (parse_result_of id_ (JArray vs)) by auto.
  exact Hr.
Qed.

End peer.
