(* ===== verification/SystemUtils.v ===== *)
(** * utils/SystemInfo.cpp and libeventWrapper.cpp: the machine and the HTTP client

    Module SystemInfo: what the operating system answers is a parameter - the
    output of a command, the numbers of /proc/self/statm, the size of a page.
    [Server] puts the results into the answer of [get-statistic2].

    Module LibEvent: an HTTP client that one thread uses at a time.  The wrapped
    client is a parameter: whether one can be made, and what the text of a
    response to a post is, or the exception it raises.  A request takes the
    instance's mutex with [try_lock], so it never waits: the states between its
    begin and its end are those other threads see. *)
From Stdlib Require Import DecimalString.
From S2P Require Import Prelude Text External.
#[local] Open Scope Z_scope.

Module SystemInfo.

Class Os := {
  (** [popen(cmd, "r")]: the output of the command, or no pipe *)
  os_popen : bytes -> option bytes;
  (** the numbers [fscanf] finds in /proc/self/statm, or no such file *)
  os_statm : option (list Z);
  (** [sysconf(_SC_PAGE_SIZE)] *)
  os_page_size : Z;
}.

(** [fgets(buffer, n + 1, pipe)]: a line, or its first [n] bytes; and what is left. *)
Fixpoint fgets (n : nat) (s : bytes) : bytes * bytes :=
  match n, s with
  | S n, c :: rest =>
      if decide (c = Byte.x0a) then ([c], rest) else let '(line, more) := fgets n rest in (c :: line, more)
  | _, _ => ([], s)
  end.

(** [result += buffer.data()] adds a C string; [fuel] bounds the rounds. *)
(* src: utils/SystemInfo.cpp:27-29 exec, while *)
Fixpoint exec_loop (fuel : nat) (pipe result : bytes) : res bytes :=
  match fuel with
  | O => OutOfFuel
  | S fuel =>
      match fgets 127 pipe with
      | ([], _) => Ok result
      | (buffer, pipe) => exec_loop fuel pipe (result ++ c_str buffer)
      end
  end.

Section system.
Context `{Os}.

(* src: utils/SystemInfo.cpp:20-31 exec *)
Definition exec (cmd : bytes) : res bytes :=
  match os_popen cmd with
  | None => Throw (ExcStd (str "popen() failed!"))
  | Some pipe => exec_loop (S (length pipe)) pipe []
  end.

(** The first number; [fclose] of a file that was not opened is undefined. *)
(* src: utils/SystemInfo.cpp:37-48 read_off_memory_status *)
Definition read_off_memory_status : res Z :=
  match os_statm with
  | None => UB
  | Some numbers => Ok (default 0 (head numbers))
  end.

(** A product of [long]s, which may not overflow. *)
(* src: utils/SystemInfo.cpp:50-55 getTotalSystemMemory *)
Definition getTotalSystemMemory : res Z :=
  size ← read_off_memory_status;
  let total := size * os_page_size in
  if (- 2 ^ 63 <=? total) && (total <? 2 ^ 63) then Ok (u64 total) else UB.

(* src: utils/SystemInfo.cpp:66-69 getOpenedConnections *)
Definition getOpenedConnections : res Z :=
  result ← exec (str "netstat -tnap | wc -l");
  stoi result.

End system.

(** ** Facts *)

Lemma fgets_split n s line more : fgets n s = (line, more) -> s = line ++ more.
Proof.
  revert s line more. induction n as [|n IH]; intros s line more; cbn [fgets]; [by intros [= <- <-]|].
  destruct s as [|c rest]; [by intros [= <- <-]|]. case_decide; [by intros [= <- <-]|].
  destruct (fgets n rest) as [line' more'] eqn:E. intros [= <- <-]. cbn. f_equal. by apply IH.
Qed.

Lemma fgets_nonempty n c s : fst (fgets (S n) (c :: s)) <> [].
Proof. cbn [fgets]. case_decide; [done|]. by destruct (fgets n s). Qed.

Lemma c_str_id s : Byte.x00 ∉ s -> c_str s = s.
Proof.
  induction s as [|c s IH]; intros Hs; [done|]. apply not_elem_of_cons in Hs as [Hc Hs]. cbn.
  rewrite decide_False by done. by rewrite IH.
Qed.

Lemma uint_bytes_no_nul d : Byte.x00 ∉ uint_bytes d.
Proof. induction d as [|d IH|d IH|d IH|d IH|d IH|d IH|d IH|d IH|d IH|d IH]; unfold uint_bytes, str in *; cbn; set_solver. Qed.

Lemma to_string_no_nul n : 0 <= n -> Byte.x00 ∉ to_string n.
Proof.
  intros Hn. destruct n as [|p|p]; [vm_compute; set_solver| |lia]. unfold to_string. cbn [Z.to_int NilZero.string_of_int].
  unfold NilZero.string_of_uint. destruct (Pos.to_uint p) eqn:E; try (rewrite <- E); try apply uint_bytes_no_nul.
  vm_compute. set_solver.
Qed.

(** The whole output is collected, whatever the lines are, if it has no NUL; and
    the loop ends. *)
Lemma exec_loop_whole fuel pipe result :
  Byte.x00 ∉ pipe -> (length pipe < fuel)%nat -> exec_loop fuel pipe result = Ok (result ++ pipe).
Proof.
  revert pipe result. induction fuel as [|fuel IH]; intros pipe result Hz Hf; [lia|]. cbn [exec_loop].
  destruct pipe as [|c pipe]; [cbn; by rewrite app_nil_r|].
  pose proof (fgets_nonempty 126 c pipe) as Hne. destruct (fgets 127 (c :: pipe)) as [line more] eqn:E.
  apply fgets_split in E as Hs. destruct line as [|x line]; [done|]. rewrite Hs in Hz, Hf |- *.
  rewrite c_str_id by set_solver. rewrite IH; [by rewrite <- app_assoc|set_solver|].
  rewrite length_app in Hf. cbn in Hf. lia.
Qed.

Lemma exec_loop_ends fuel pipe result : (length pipe < fuel)%nat -> exists r, exec_loop fuel pipe result = Ok r.
Proof.
  revert pipe result. induction fuel as [|fuel IH]; intros pipe result Hf; [lia|]. cbn [exec_loop].
  destruct (fgets 127 pipe) as [[|x line] more] eqn:E; [by eexists|]. apply fgets_split in E as ->. apply IH.
  rewrite length_app in Hf. cbn in Hf. lia.
Qed.

(** The count of connections is the number that [wc] printed; when the command
    cannot be started, or prints nothing, an exception says so. *)
Lemma getOpenedConnections_exact `{Os} :
  match os_popen (str "netstat -tnap | wc -l") with
  | None => getOpenedConnections = Throw (ExcStd (str "popen() failed!"))
  | Some [] => getOpenedConnections = Throw (ExcStd (str "stoi: invalid_argument"))
  | Some out => forall n, 0 <= n < 2 ^ 31 -> out = to_string n ++ [Byte.x0a] -> getOpenedConnections = Ok n
  end.
Proof.
  unfold getOpenedConnections, exec. destruct (os_popen _) as [[|c out]|]; [done| |done].
  intros n Hn ->. rewrite exec_loop_whole; [|apply not_elem_of_app; split; [by apply to_string_no_nul; lia|set_solver]|lia].
  cbn [mbind res_bind app]. by apply stoi_to_string.
Qed.

(** The memory reported is the size of the node's own address space. *)
Lemma getTotalSystemMemory_own `{Os} pages rest :
  os_statm = Some (pages :: rest) -> 0 <= pages * os_page_size < 2 ^ 63 ->
  getTotalSystemMemory = Ok (pages * os_page_size).
Proof.
  intros Hs Hp. unfold getTotalSystemMemory, read_off_memory_status. rewrite Hs. cbn [head default mbind res_bind id].
  rewrite (proj2 (Z.leb_le _ _)), (proj2 (Z.ltb_lt _ _)) by lia. cbn [andb]. by rewrite u64_small by (unfold is_u64; lia).
Qed.

End SystemInfo.

Module LibEvent.

Section libevent.
Context {Client : Type}.

(** A client, absent after a move, and the thread that holds the mutex. *)
(* src: libeventWrapper.h:18-36 LibEvent::LibEventInstance *)
Record LibEventInstance := mkLibEventInstance {
  li_libevent : option Client;
  li_mut : option nat;
}.

(* src: libeventWrapper.cpp:55-57 LibEventInstance::LibEventInstance *)
Definition LibEventInstance_empty : LibEventInstance := mkLibEventInstance None None.

(* src: libeventWrapper.cpp:59-61 LibEventInstance::LibEventInstance(libevent) *)
Definition LibEventInstance_of (libevent : option Client) : LibEventInstance := mkLibEventInstance libevent None.

(** The new instance and what is left of the other; the mutex is not moved. *)
(* src: libeventWrapper.cpp:63-65 LibEventInstance::LibEventInstance(second) *)
Definition LibEventInstance_move (second : LibEventInstance) : LibEventInstance * LibEventInstance :=
  (mkLibEventInstance (li_libevent second) None, mkLibEventInstance None (li_mut second)).

(* src: libeventWrapper.cpp:67-70 LibEventInstance::operator= *)
Definition LibEventInstance_assign (this second : LibEventInstance) : LibEventInstance * LibEventInstance :=
  (mkLibEventInstance (li_libevent second) (li_mut this), mkLibEventInstance None (li_mut second)).

(** [isInitialized] before and after. *)
(* src: libeventWrapper.cpp:18-25 LibEvent::initialize *)
Definition initialize (isInitialized : bool) : bool := if isInitialized then isInitialized else true.

(* src: libeventWrapper.cpp:27-30 LibEvent::destroy *)
Definition destroy (isInitialized : bool) : bool := isInitialized.

(** [std::make_unique<SyncClient>(10s)]. *)
Variable make_client : res Client.

(* src: libeventWrapper.cpp:32-39 LibEvent::getInstance *)
Definition getInstance (isInitialized : bool) : res LibEventInstance :=
  _ ← CHECK isInitialized (str "not initialized");
  libevent ← make_client;
  Ok (LibEventInstance_of (Some libevent)).

(** A request up to the post: the instance as the other threads see it from
    then on, and the client.  [try_lock] by the thread that holds the mutex is
    undefined; a throw gives the mutex back. *)
(* src: libeventWrapper.cpp:41-48 LibEvent::request, checks *)
Definition request_begin (isInitialized : bool) (t : nat) (instance : LibEventInstance)
    : res (LibEventInstance * Client) :=
  _ ← CHECK isInitialized (str "not initialized");
  _ ← (if decide (li_mut instance = Some t) then UB else Ok tt);
  _ ← CHECK (negb (bool_decide (is_Some (li_mut instance)))) (str "Curl instanse one of thread");
  match li_libevent instance with
  | None => throwErr (str "Incorrect curl instance")
  | Some libevent => Ok (mkLibEventInstance (Some libevent) (Some t), libevent)
  end.

(** The post is over, with an answer or an exception. *)
(* src: libeventWrapper.cpp:50-53 LibEvent::request, response *)
Definition request_end (instance : LibEventInstance) : LibEventInstance :=
  mkLibEventInstance (li_libevent instance) None.

(** The text of a response. *)
Variable post : Client -> bytes -> bytes -> res bytes.

(** A request that no other thread comes between. *)
(* src: libeventWrapper.cpp:41-53 LibEvent::request *)
Definition request (isInitialized : bool) (t : nat) (instance : LibEventInstance) (url postData : bytes)
    : LibEventInstance * res bytes :=
  match request_begin isInitialized t instance with
  | Ok (instance, libevent) => (request_end instance, post libevent url postData)
  | Throw e => (instance, Throw e)
  | UB => (instance, UB)
  | OutOfFuel => (instance, OutOfFuel)
  end.

(** ** Threads that share an instance *)

(** The threads that are in a post, by number, with what each has got so far. *)
Record Sharing := mkSharing {
  sh_instance : LibEventInstance;
  sh_posting : gmap nat (bytes * bytes);
  sh_results : list (nat * res bytes);
}.

Inductive share_step (isInitialized : bool) : Sharing -> Sharing -> Prop :=
  | share_begin t url postData s instance libevent :
      sh_posting s !! t = None ->
      request_begin isInitialized t (sh_instance s) = Ok (instance, libevent) ->
      share_step isInitialized s (mkSharing instance (<[t := (url, postData)]> (sh_posting s)) (sh_results s))
  | share_refused t s e :
      sh_posting s !! t = None ->
      request_begin isInitialized t (sh_instance s) = Throw e ->
      share_step isInitialized s (mkSharing (sh_instance s) (sh_posting s) (sh_results s ++ [(t, Throw e)]))
  | share_end t url postData libevent s :
      sh_posting s !! t = Some (url, postData) -> li_libevent (sh_instance s) = Some libevent ->
      share_step isInitialized s (mkSharing (request_end (sh_instance s)) (delete t (sh_posting s))
        (sh_results s ++ [(t, post libevent url postData)])).

(** The mutex is held by the one thread that posts. *)
Definition sharing_ok (s : Sharing) : Prop :=
  match li_mut (sh_instance s) with
  | None => sh_posting s = ∅
  | Some t => exists q, sh_posting s = {[t := q]} /\ is_Some (li_libevent (sh_instance s))
  end.

Lemma request_begin_Ok isInitialized t instance instance' libevent :
  request_begin isInitialized t instance = Ok (instance', libevent) ->
  isInitialized = true /\ li_mut instance = None /\ li_libevent instance = Some libevent /\
  instance' = mkLibEventInstance (Some libevent) (Some t).
Proof.
  unfold request_begin. intros Hr. apply bind_Ok_inv in Hr as (u & Hi & Hr). apply CHECK_Ok_inv in Hi.
  apply bind_Ok_inv in Hr as (u1 & _ & Hr). apply bind_Ok_inv in Hr as (u2 & Hm & Hr). apply CHECK_Ok_inv in Hm.
  rewrite negb_true_iff, bool_decide_eq_false in Hm. destruct (li_libevent instance); [|done].
  injection Hr as <- <-. split; [done|]. split; [|done]. destruct (li_mut instance); [destruct Hm; eauto|done].
Qed.

(** Nothing is undefined when no thread makes a request within its own. *)
Lemma request_begin_defined isInitialized s t :
  sharing_ok s -> sh_posting s !! t = None ->
  is_ok (request_begin isInitialized t (sh_instance s)) = true \/
  exists e, request_begin isInitialized t (sh_instance s) = throwErr e.
Proof.
  intros Hs Ht. unfold request_begin. destruct isInitialized; cbn [CHECK mbind res_bind]; [|right; by eexists].
  unfold sharing_ok in Hs. destruct (li_mut (sh_instance s)) as [u|] eqn:Hu.
  - rewrite decide_False; [right; by eexists|]. intros [= ->]. destruct Hs as (q & Hp & _).
    by rewrite Hp, lookup_singleton_eq in Ht.
  - cbn [mbind res_bind]. rewrite decide_False by done. rewrite bool_decide_false by (by intros [? ?]).
    cbn [negb CHECK mbind res_bind]. destruct (li_libevent (sh_instance s)); [by left|right; by eexists].
Qed.

Lemma share_step_ok isInitialized s s' : sharing_ok s -> share_step isInitialized s s' -> sharing_ok s'.
Proof.
  unfold sharing_ok. intros Hs Hstep. destruct Hstep as [t url d s i l Ht Hb|t s e Ht Hb|t url d l s Ht Hl]; cbn.
  - apply request_begin_Ok in Hb as (_ & Hm & _ & ->). rewrite Hm in Hs. cbn. rewrite Hs.
    exists (url, d). split; [by rewrite insert_empty|by eexists].
  - done.
  - destruct (li_mut (sh_instance s)) as [u|]; [|by rewrite Hs, lookup_empty in Ht].
    destruct Hs as (q & Hp & _). rewrite Hp in Ht |- *. apply lookup_singleton_Some in Ht as [-> _].
    by rewrite delete_singleton_eq.
Qed.

(** Two threads never post with the same instance at a time, whatever requests
    they make; a request that finds another one is refused, not kept waiting. *)
Theorem one_thread_posts isInitialized client s t1 t2 :
  rtc (share_step isInitialized) (mkSharing (LibEventInstance_of client) ∅ []) s ->
  is_Some (sh_posting s !! t1) -> is_Some (sh_posting s !! t2) -> t1 = t2.
Proof.
  intros Hr. assert (sharing_ok s) as Hs.
  { assert (sharing_ok (mkSharing (LibEventInstance_of client) ∅ [])) as H0 by done. revert H0.
    induction Hr as [|a b c Hab _ IH]; [done|]. intros Ha. by eapply IH, share_step_ok. }
  unfold sharing_ok in Hs. destruct (li_mut (sh_instance s)) as [u|].
  - destruct Hs as (q & -> & _). intros [x H1] [y H2]. apply lookup_singleton_Some in H1 as [<- _].
    by apply lookup_singleton_Some in H2 as [<- _].
  - rewrite Hs. intros [x Hx]. by rewrite lookup_empty in Hx.
Qed.

End libevent.

End LibEvent.
