(* ===== verification/Server.v ===== *)
(** * Server.cpp: the HTTP interface

    A request is a method, a URL and a body; the handler parses the body as
    JSON, finds the function to run and turns every exception into an answer.
    The chain is behind its read interface; what [Sync] does for dumps and
    signatures is a parameter, and so are the version, the clock and the load
    of the machine.  A document that was never parsed is the JSON null, whose
    members cannot be tested. *)
From S2P Require Import Prelude External BlockInfo BlockChainInterface Dumps JsonApi.
#[local] Open Scope Z_scope.

(** ** utils/SmallStatistic.h: requests per minute *)

(** A point in time is a number of milliseconds; 0 is [time_point()]. *)
(* src: utils/SmallStatistic.h:8-11 SmallStatisticElement *)
Record SmallStatisticElement := mkSmallStatisticElement {
  se_stat : Z;
  se_timer : Z;
}.

(* src: utils/SmallStatistic.h:13-17 SmallStatistic *)
Record SmallStatistic := mkSmallStatistic {
  sst_prev : SmallStatisticElement;
  sst_current : SmallStatisticElement;
}.

Definition SmallStatistic_new : SmallStatistic :=
  mkSmallStatistic (mkSmallStatisticElement 0 0) (mkSmallStatisticElement 0 0).

(* src: utils/SmallStatistic.h:19-29 SmallStatistic::addStatistic *)
Definition addStatistic (plus now updateTime : Z) (s : SmallStatistic) : SmallStatistic :=
  let '(prev, current) :=
    if se_timer (sst_current s) =? 0
    then (sst_prev s, mkSmallStatisticElement (se_stat (sst_current s)) now)
    else if updateTime <=? now - se_timer (sst_current s)
    then (sst_current s, mkSmallStatisticElement 0 now)
    else (sst_prev s, sst_current s) in
  mkSmallStatistic prev (mkSmallStatisticElement (u64 (se_stat current + plus)) (se_timer current)).

(* src: utils/SmallStatistic.h:31-34 SmallStatistic::getStatistic *)
Definition getStatistic (s : SmallStatistic) : SmallStatisticElement := sst_prev s.

(** ** Requests *)

(** The fields of libevent's request and answer that are used. *)
Record Request := mkRequest {
  rq_method : bytes;
  rq_url : bytes;
  rq_post : bytes;
}.

Record Response := mkResponse {
  rs_data : bytes;
  rs_code : Z;
}.

(* src: Server.cpp:38-38 HTTP_STATUS_OK *)
Definition HTTP_STATUS_OK : Z := 200.
(* src: Server.cpp:40-40 HTTP_STATUS_BAD_REQUEST *)
Definition HTTP_STATUS_BAD_REQUEST : Z := 400.
(* src: Server.cpp:42-42 HTTP_STATUS_INTERNAL_SERVER_ERROR *)
Definition HTTP_STATUS_INTERNAL_SERVER_ERROR : Z := 500.

(** The template parameter of the block requests: by hash or by number. *)
Inductive BlockKey :=
  | ByHash (hash : bytes)
  | ByNumber (number : Z).

Definition throwUserErr {A} (msg : bytes) : res A := Throw (ExcUser msg).

(** [doc.HasMember(name) && doc[name].IsObject()], then the object. *)
Definition user_object (v : json) (name msg : bytes) : res json :=
  m ← json_member v name;
  match m with Some (JObject o) => Ok (JObject o) | _ => throwUserErr msg end.

(** The optional members: a default when absent or of another type. *)
Definition opt_bool (v : json) (name : bytes) (d : bool) : res bool :=
  m ← json_member v name;
  Ok (match m with Some (JBool b) => b | _ => d end).
Definition opt_int64 (v : json) (name : bytes) (d : Z) : res Z :=
  m ← json_member v name;
  Ok (match m with Some (JInt z) => if is_int64 z then u64 z else d | _ => d end).
Definition opt_int (v : json) (name : bytes) (d : Z) : res Z :=
  m ← json_member v name;
  Ok (match m with Some (JInt z) => if is_int32 z then z else d | _ => d end).
Definition user_string (v : json) (name msg : bytes) : res bytes :=
  s ← json_string v name;
  match s with Some s => Ok s | None => throwUserErr msg end.

(* src: Server.cpp:71-80 getJsonField(json) *)
Definition getJsonValue (byHash : bool) (v : json) : res BlockKey :=
  if byHash then
    match v with JString s => Ok (ByHash (c_str s)) | _ => throwUserErr (str "field not found") end
  else
    match v with
    | JInt z => if is_int64 z then Ok (ByNumber (u64 z)) else throwUserErr (str "field not found")
    | _ => throwUserErr (str "field not found")
    end.

(* src: Server.cpp:60-69 getJsonField(json, name) *)
Definition getJsonField (byHash : bool) (v : json) (name : bytes) : res BlockKey :=
  m ← json_member v name;
  match m with
  | Some f =>
      match getJsonValue byHash f with
      | Ok k => Ok k
      | _ => throwUserErr (name ++ str " field not found")
      end
  | None => throwUserErr (name ++ str " field not found")
  end.

(* src: Server.cpp:82-89 to_string *)
Definition key_to_string (k : BlockKey) : bytes :=
  match k with ByHash h => h | ByNumber n => to_string n end.

(** [std::stoll]: the value or the exception. *)
Fixpoint digits_value (acc : Z) (s : bytes) : Z :=
  match s with
  | c :: s' => if (48 <=? b2z c) && (b2z c <=? 57) then digits_value (acc * 10 + (b2z c - 48)) s' else acc
  | [] => acc
  end.
Definition stoll_number (neg : bool) (t : bytes) : res Z :=
  match t with
  | d :: _ =>
      if (48 <=? b2z d) && (b2z d <=? 57) then
        let v := if neg then - digits_value 0 t else digits_value 0 t in
        if (- 2 ^ 63 <=? v) && (v <? 2 ^ 63) then Ok v else Throw (ExcStd (str "stoll"))
      else Throw (ExcStd (str "stoll"))
  | [] => Throw (ExcStd (str "stoll"))
  end.
Fixpoint stoll (s : bytes) : res Z :=
  match s with
  | [] => Throw (ExcStd (str "stoll"))
  | c :: s' =>
      let z := b2z c in
      if (z =? 32) || ((9 <=? z) && (z <=? 13)) then stoll s'
      else if z =? 45 then stoll_number true s'
      else if z =? 43 then stoll_number false s'
      else stoll_number false s
  end.

Section server.
Context `{Rapidjson} `{Support} `{Lz4} {C : Type} `{BlockChainRead C}.
Variable blockchain : C.
(** [Sync::getBlockDump] and [Sync::verifyTechnicalAddressSign]. *)
Variable sync_getBlockDump : BlockHeader -> Z -> Z -> bool -> bool -> res bytes.
Variable sync_verifyTechnicalAddressSign : bytes -> bytes -> bytes -> res bool.
Variables (VERSION g_GIT_SHA1 serverPrivKey : bytes).
(** The system clock in milliseconds, and the memory and the connections as SystemInfo finds them. *)
Variables (nowTimestamp : Z) (getTotalSystemMemory getOpenedConnections : res Z).

Definition getBlock_key (k : BlockKey) : res BlockHeader :=
  match k with
  | ByHash h => getBlock_by_hash h blockchain
  | ByNumber n => getBlock_by_number n blockchain
  end.

(* src: Server.cpp:97-124 getBlock, type *)
Definition block_type (jsonParams : json) : res BlockTypeInfo :=
  m ← json_member jsonParams (str "type");
  Ok (match m with
      | Some (JInt z) =>
          if is_int32 z then
            if z =? 0 then Simple else if z =? 4 then ForP2P else if z =? 1 then Hashes
            else if z =? 2 then Full else if z =? 3 then Small else Simple
          else Simple
      | Some (JString s) =>
          let typeString := c_str s in
          if bool_decide (typeString = str "simple") then Simple
          else if bool_decide (typeString = str "forP2P") then ForP2P
          else if bool_decide (typeString = str "hashes") then Hashes
          else if bool_decide (typeString = str "full") then Full
          else if bool_decide (typeString = str "small") then Small
          else Simple
      | _ => Simple
      end).

(* src: Server.cpp:91-143 getBlock *)
Definition Server_getBlock (byHash : bool) (requestId : RequestId) (doc : json) (nameParam : bytes)
    (isFormat : bool) (version : JsonVersion) : res bytes :=
  jsonParams ← user_object doc (str "params") (str "params field not found");
  hashOrNumber ← getJsonField byHash jsonParams nameParam;
  type ← block_type jsonParams;
  bh ← getBlock_key hashOrNumber;
  match bh_blockNumber bh with
  | None =>
      Ok (genErrorResponse requestId (-32603) (str "block " ++ key_to_string hashOrNumber ++ str " not found"))
  | Some n =>
      _ ← getBlock_by_number (u64 (n + 1)) blockchain;
      match type with
      | Simple | ForP2P | Small => blockHeaderToJson requestId bh isFormat type version
      | _ => Ok []
      end
  end.

(* src: Server.cpp:145-184 getBlockDump *)
Definition Server_getBlockDump (byHash : bool) (doc : json) (requestId : RequestId) (nameParam : bytes)
    (isFormat : bool) : res bytes :=
  jsonParams ← user_object doc (str "params") (str "params field not found");
  hashOrNumber ← getJsonField byHash jsonParams nameParam;
  fromByte ← opt_int64 jsonParams (str "fromByte") 0;
  toByte ← opt_int64 jsonParams (str "toByte") u64_max;
  isHex ← opt_bool jsonParams (str "isHex") false;
  isSign ← opt_bool jsonParams (str "isSign") false;
  isCompress ← opt_bool jsonParams (str "compress") false;
  bh ← getBlock_key hashOrNumber;
  _ ← CHECK (bool_decide (is_Some (bh_blockNumber bh)))
        (str "block " ++ key_to_string hashOrNumber ++ str " not found");
  dump ← sync_getBlockDump bh fromByte toByte isHex isSign;
  let r := genDumpBlockBinary dump isCompress in
  _ ← CHECK (negb (is_empty r)) (str "block " ++ key_to_string hashOrNumber ++ str " not found");
  Ok (if isHex : bool then genBlockDumpJson requestId r isFormat else r).

(** The loops of [getBlocks]; [n] is [countBlocks]. *)
(* src: Server.cpp:229-231 getBlocks, for *)
Fixpoint blocks_back (n : nat) (i : Z) : res (list BlockHeader) :=
  match n with
  | O => Ok []
  | S n =>
      if 0 <? i then
        bh ← getBlock_by_number (u64 i) blockchain;
        rest ← blocks_back n (i - 1);
        Ok (bh :: rest)
      else Ok []
  end.
(* src: Server.cpp:234-236 getBlocks, for *)
Fixpoint blocks_forward (n : nat) (i maxBlockNum : Z) : res (list BlockHeader) :=
  match n with
  | O => Ok []
  | S n =>
      if i <? maxBlockNum + 1 then
        bh ← getBlock_by_number (u64 i) blockchain;
        rest ← blocks_forward n (i + 1) maxBlockNum;
        Ok (bh :: rest)
      else Ok []
  end.

(* src: Server.cpp:201-213 getBlocks, type *)
Definition blocks_type (jsonParams : json) : res BlockTypeInfo :=
  typeString ← json_string jsonParams (str "type");
  match typeString with
  | None => Ok Simple
  | Some typeString =>
      if bool_decide (typeString = str "simple") then Ok Simple
      else if bool_decide (typeString = str "forP2P") then Ok ForP2P
      else if bool_decide (typeString = str "small") then Ok Small
      else throwUserErr (str "Incorrect block type: " ++ typeString)
  end.

(** [reserve] of a negative count, as a [size_t], throws [length_error]. *)
(* src: Server.cpp:186-240 getBlocks *)
Definition getBlocks (requestId : RequestId) (doc : json) (isFormat : bool) (version : JsonVersion) : res bytes :=
  jsonParams ← user_object doc (str "params") (str "params field not found");
  countBlocks ← opt_int jsonParams (str "countBlocks") 0;
  beginBlock ← opt_int jsonParams (str "beginBlock") 0;
  _ ← CHECK_USER (countBlocks <=? 1000) (str "Too many blocks");
  type ← blocks_type jsonParams;
  direction ← json_string jsonParams (str "direction");
  let isForward := bool_decide (direction = Some (str "forward")) in
  _ ← (if countBlocks <? 0 then Throw (ExcStd (str "vector::reserve")) else Ok tt);
  bhs ← (if negb isForward
         then blocks_back (Z.to_nat countBlocks) (to_i64 (countBlocks_ blockchain - beginBlock))
         else blocks_forward (Z.to_nat countBlocks) beginBlock (to_i64 (countBlocks_ blockchain)));
  blockHeadersToJson requestId bhs type isFormat version.

(* src: Server.cpp:258-270 getBlockDumps, for *)
Fixpoint dumps_loop (byHash isSign : bool) (jsonVals : list json) : res (list bytes) :=
  match jsonVals with
  | [] => Ok []
  | jsonVal :: rest =>
      hashOrNumber ← getJsonValue byHash jsonVal;
      bh ← getBlock_key hashOrNumber;
      _ ← CHECK (bool_decide (is_Some (bh_blockNumber bh)))
            (str "block " ++ key_to_string hashOrNumber ++ str " not found");
      r ← sync_getBlockDump bh 0 u64_max false isSign;
      _ ← CHECK (negb (is_empty r)) (str "block " ++ key_to_string hashOrNumber ++ str " not found");
      result ← dumps_loop byHash isSign rest;
      Ok (r :: result)
  end.

(* src: Server.cpp:242-272 getBlockDumps *)
Definition getBlockDumps (byHash : bool) (doc : json) (nameParam : bytes) : res bytes :=
  jsonParams ← user_object doc (str "params") (str "params field not found");
  isSign ← opt_bool jsonParams (str "isSign") false;
  isCompress ← opt_bool jsonParams (str "compress") false;
  m ← json_member jsonParams nameParam;
  match m with
  | Some (JArray jsonVals) =>
      _ ← CHECK_USER (blen jsonVals <=? 1000) (str "Too many blocks");
      result ← dumps_loop byHash isSign jsonVals;
      Ok (genDumpBlocksBinary result isCompress)
  | _ => throwUserErr (str "hashes field not found")
  end.

(* src: Server.cpp:363-382 Server::run, get-statistic2 *)
Definition get_statistic2 (requestId : RequestId) (doc : json) (stat : SmallStatistic) : res bytes :=
  jsonParams ← user_object doc (str "params") (str "params field not found");
  pubkey ← user_string jsonParams (str "pubkey") (str "pubkey field not found");
  sign ← user_string jsonParams (str "sign") (str "sign field not found");
  timestamp ← user_string jsonParams (str "timestamp") (str "timestamp field not found");
  timestampLong ← stoll timestamp;
  let diff := nowTimestamp - timestampLong in
  _ ← (if (- 2 ^ 63 <? diff) && (diff <? 2 ^ 63) then Ok tt else UB);
  _ ← CHECK_USER (Z.abs diff <=? 5000) (str "Timestamp is out");
  sign ← fromHex sign;
  pubkey ← fromHex pubkey;
  ok ← sync_verifyTechnicalAddressSign timestamp sign pubkey;
  _ ← CHECK_USER ok (str "Incorrect signature");
  memory ← getTotalSystemMemory;
  connections ← getOpenedConnections;
  Ok (genStatisticResponse requestId (se_stat (getStatistic stat)) memory connections).

(* src: Server.cpp:355-403 Server::run, func *)
Definition dispatch (func : bytes) (requestId : RequestId) (doc : json) (isFormatJson : bool)
    (jsonVersion : JsonVersion) (stat : SmallStatistic) : res bytes :=
  let named name := bool_decide (func = str name) in
  if named "status"%string then Ok (genStatusResponse requestId VERSION g_GIT_SHA1)
  else if named "getinfo"%string then Ok (genInfoResponse requestId VERSION serverPrivKey)
  else if named "get-statistic"%string then Ok (genStatisticResponse_short (se_stat (getStatistic stat)))
  else if named "get-statistic2"%string then get_statistic2 requestId doc stat
  else if named "get-block-by-hash"%string
  then Server_getBlock true requestId doc (str "hash") isFormatJson jsonVersion
  else if named "get-block-by-number"%string
  then Server_getBlock false requestId doc (str "number") isFormatJson jsonVersion
  else if named "get-blocks"%string then getBlocks requestId doc isFormatJson jsonVersion
  else if named "get-dump-block-by-hash"%string
  then Server_getBlockDump true doc requestId (str "hash") isFormatJson
  else if named "get-dump-block-by-number"%string
  then Server_getBlockDump false doc requestId (str "number") isFormatJson
  else if named "get-dumps-blocks-by-hash"%string then getBlockDumps true doc (str "hashes")
  else if named "get-dumps-blocks-by-number"%string then getBlockDumps false doc (str "numbers")
  else if named "get-count-blocks"%string
  then Ok (genCountBlockJson requestId (countBlocks_ blockchain) isFormatJson jsonVersion)
  else throwUserErr (str "Incorrect func " ++ func).

(** ** The handler *)

Definition no_id : RequestId := mkRequestId (inl []) false.

(** The document and the function, before the request's id is known. *)
(* src: Server.cpp:308-327 Server::run, doc *)
Definition request_head (req : Request) : res (json * bytes) :=
  let jsonRequest := if bool_decide (rq_method req = str "POST") then rq_post req else [] in
  doc ← (if is_empty jsonRequest then Ok JNull
         else match json_parse (c_str jsonRequest) with
              | Some doc => Ok doc
              | None => throwErr (str "rapidjson parse error. Data: " ++ jsonRequest)
              end);
  func ← (if 1 <? blen (rq_url req) then Ok (drop 1 (rq_url req))
          else user_string doc (str "method") (str "method field not found"));
  Ok (doc, func).

(* src: Server.cpp:329-336 Server::run, id *)
Definition request_id (doc : json) : res RequestId :=
  m ← json_member doc (str "id");
  Ok (match m with
      | Some (JString s) => mkRequestId (inl (c_str s)) true
      | Some (JInt z) => if is_int64 z then mkRequestId (inr (u64 z)) true else no_id
      | _ => no_id
      end).

(* src: Server.cpp:338-351 Server::run, jsonVersion *)
Definition request_options (doc : json) : res (JsonVersion * bool) :=
  v ← json_string doc (str "version");
  let jsonVersion :=
    match v with
    | Some s => if bool_decide (s = str "v2") || bool_decide (s = str "version2") then V2 else V1
    | None => V1
    end in
  isFormatJson ← opt_bool doc (str "pretty") false;
  Ok (jsonVersion, isFormatJson).

(** What the [catch] clauses make of an exception. *)
(* src: Server.cpp:407-423 Server::run, catch *)
Definition error_answer (requestId : RequestId) (url : bytes) (e : exc) : Response :=
  match e with
  | ExcCommon e => mkResponse (genErrorResponse requestId (-32603) e) HTTP_STATUS_INTERNAL_SERVER_ERROR
  | ExcUser e =>
      mkResponse (genErrorResponse requestId (-32602) (e ++ str ". Url: " ++ url)) HTTP_STATUS_BAD_REQUEST
  | ExcStd what => mkResponse (genErrorResponse requestId (-32603) what) HTTP_STATUS_INTERNAL_SERVER_ERROR
  | ExcStop => mkResponse (genErrorResponse requestId (-32603) (str "Unknown error")) HTTP_STATUS_INTERNAL_SERVER_ERROR
  end.

Definition answer (requestId : RequestId) (url : bytes) (r : res bytes) : res Response :=
  match r with
  | Ok data => Ok (mkResponse data HTTP_STATUS_OK)
  | Throw e => Ok (error_answer requestId url e)
  | UB => UB
  | OutOfFuel => OutOfFuel
  end.

(* src: Server.cpp:300-423 Server::run, try *)
Definition handle (req : Request) (stat : SmallStatistic) : res Response :=
  match request_head req with
  | Ok (doc, func) =>
      match request_id doc with
      | Ok requestId =>
          answer requestId (rq_url req)
            ('(jsonVersion, isFormatJson) ← request_options doc;
             dispatch func requestId doc isFormatJson jsonVersion stat)
      | Throw e => Ok (error_answer no_id (rq_url req) e)
      | UB => UB
      | OutOfFuel => OutOfFuel
      end
  | Throw e => Ok (error_answer no_id (rq_url req) e)
  | UB => UB
  | OutOfFuel => OutOfFuel
  end.

(* src: Server.h:38-44 Server *)
Record ServerState := mkServerState {
  sv_isStoped : bool;
  sv_smallRequestStatistics : SmallStatistic;
}.

(** [None] for [false]: the request is not answered.  [stop] tells that the
    program was asked to stop; [now] is the steady clock. *)
(* src: Server.cpp:283-426 Server::run *)
Definition Server_run (stop : bool) (now : Z) (req : Request) : meth ServerState (option Response) := fun s =>
  if sv_isStoped s then (s, Ok None)
  else if stop then (mkServerState true (sv_smallRequestStatistics s), Ok None)
  else
    let stat := addStatistic 1 now 60000 (sv_smallRequestStatistics s) in
    (mkServerState false stat, r ← handle req stat; Ok (Some r)).

End server.
