(* ===== verification/Shutdown.v ===== *)
(** * main.cpp, Server.cpp: how the program ends

    The main thread runs the synchronisation; the server's threads answer
    requests with the same [Sync] object, by reference.  They meet in two flags
    and a counter: the stop signal, [isStoped] of the server, and
    [countRunningServerThreads], which each request increments and decrements
    and which the main thread waits to see at 0 before it destroys [Sync].  The
    program is a step relation: any thread makes its next access to what is
    shared, in any order.  The server's base class, which calls [init], runs the
    threads and returns from [start] at some point, is not in the repository. *)
From S2P Require Import Prelude External BlockInfo BlockChainInterface Dumps JsonApi Server.
#[local] Open Scope Z_scope.

(** Where a server thread stands: between requests, past the test of [isStoped],
    counted, past the stop signal - from here on the request may use [Sync] -,
    and about to leave. *)
Inductive Phase := Idle | Entered | Counted | Serving | Leaving.

#[global] Instance Phase_eq_dec : EqDecision Phase.
Proof. solve_decision. Defined.

(** The thread of [serverThreadFunc]: before [Server::init], in [start], after it. *)
Inductive ServerPhase := Starting | Running | Ended.

#[global] Instance ServerPhase_eq_dec : EqDecision ServerPhase.
Proof. solve_decision. Defined.

(** The main thread: in [Sync::synchronize], in the loop that waits for the
    counter, and past the scope of [sync], which is destroyed. *)
Inductive MainPhase := Synchronizing | Waiting | Returned.

Record Program := mkProgram {
  pr_stop : bool;
  pr_isStoped : bool;
  pr_count : Z;
  pr_threads : list Phase;
  pr_server : ServerPhase;
  pr_main : MainPhase;
}.

(* src: main.cpp:41-41 countRunningServerThreads *)
Definition countRunningServerThreads : Z := -1.

(** [main] when it has made [sync] and the thread of the server. *)
Definition program_start : Program :=
  mkProgram false false countRunningServerThreads [] Starting Synchronizing.

(* src: Server.cpp:46-50 IncCountRunningThread::IncCountRunningThread *)
Definition IncCountRunningThread (countRunningThreads : Z) : Z := to_i32 (countRunningThreads + 1).
(* src: Server.cpp:52-54 IncCountRunningThread::~IncCountRunningThread *)
Definition IncCountRunningThread_end (countRunningThreads : Z) : Z := to_i32 (countRunningThreads - 1).

Definition COUNT_THREADS : nat := 8.

(** The counter is reset and the threads are made. *)
(* src: Server.cpp:428-439 Server::init *)
Definition Server_init (s : Program) : Program :=
  mkProgram (pr_stop s) (pr_isStoped s) 0 (replicate COUNT_THREADS Idle) Running (pr_main s).

(** The next access of a thread in [run] to what is shared: the thread's phase
    after it, the server's flag and the counter.  A request that finds the flag
    set is turned away. *)
(* src: Server.cpp:286-299 Server::run, stop *)
Definition run_next (stop isStoped : bool) (count : Z) (p : Phase) : Phase * bool * Z :=
  match p with
  | Idle => if isStoped then (Idle, isStoped, count) else (Entered, isStoped, count)
  | Entered => (Counted, isStoped, IncCountRunningThread count)
  | Counted => if stop then (Leaving, true, count) else (Serving, isStoped, count)
  | Serving => (Leaving, isStoped, count)
  | Leaving => (Idle, isStoped, IncCountRunningThread_end count)
  end.

(** Thread [i] makes its next access. *)
Definition thread_next (i : nat) (s : Program) : option Program :=
  p ← pr_threads s !! i;
  let '(p, isStoped, count) := run_next (pr_stop s) (pr_isStoped s) (pr_count s) p in
  Some (mkProgram (pr_stop s) isStoped count (<[i := p]> (pr_threads s)) (pr_server s) (pr_main s)).

(** The end of [serverThreadFunc], whether [start] returned or threw. *)
(* src: main.cpp:53-66 serverThreadFunc *)
Definition serverThreadFunc_end (s : Program) : Program :=
  mkProgram (pr_stop s) (pr_isStoped s) 0 (pr_threads s) Ended (pr_main s).

Definition set_stop (s : Program) : Program :=
  mkProgram true (pr_isStoped s) (pr_count s) (pr_threads s) (pr_server s) (pr_main s).
Definition set_main (p : MainPhase) (s : Program) : Program :=
  mkProgram (pr_stop s) (pr_isStoped s) (pr_count s) (pr_threads s) (pr_server s) p.

(** One turn of the wait. *)
(* src: main.cpp:267-267 main, while *)
Definition wait_turn (s : Program) : Program :=
  if negb (pr_count s =? 0) then s else set_main Returned s.

Section steps.
(** When the base class may return from [start]. *)
Variable start_returns : list Phase -> Prop.

(** [Sync::synchronize] returns on the stop signal or an exception it reports,
    and throws when it refuses to begin.  Turns of the main thread's wait that
    find requests counted, and requests turned away, are steps that change
    nothing. *)
(* src: main.cpp:260-282 main *)
Inductive step : Program -> Program -> Prop :=
  | step_signal s : pr_stop s = false -> step s (set_stop s)
  | step_init s : pr_server s = Starting -> step s (Server_init s)
  | step_start_throws s : pr_server s = Starting -> step s (serverThreadFunc_end s)
  | step_start_returns s :
      pr_server s = Running -> start_returns (pr_threads s) -> step s (serverThreadFunc_end s)
  | step_request s i s' : pr_server s = Running -> thread_next i s = Some s' -> step s s'
  | step_sync_stopped s : pr_main s = Synchronizing -> pr_stop s = true -> step s (set_main Waiting s)
  | step_sync_failed s : pr_main s = Synchronizing -> step s (set_main Waiting s)
  | step_sync_thrown s : pr_main s = Synchronizing -> step s (set_main Returned s)
  | step_wait s : pr_main s = Waiting -> step s (wait_turn s).

(** A run in which [n] accesses change something. *)
Inductive run : nat -> Program -> Program -> Prop :=
  | run_end s : run O s s
  | run_idle n s s' : step s s -> run n s s' -> run n s s'
  | run_move n s s1 s' : step s s1 -> s1 <> s -> run n s1 s' -> run (S n) s s'.

End steps.

Lemma wait_turn_idle s : pr_count s <> 0 -> wait_turn s = s.
Proof. intros Hc. unfold wait_turn. by rewrite (proj2 (Z.eqb_neq _ _) Hc). Qed.

Lemma wait_turn_ends s : pr_count s = 0 -> wait_turn s = set_main Returned s.
Proof. unfold wait_turn. by intros ->. Qed.

(** ** The counter counts *)

Definition counted (p : Phase) : nat :=
  match p with Counted | Serving | Leaving => 1 | Idle | Entered => 0 end%nat.

(** What every reachable state satisfies. *)
Record counting (s : Program) : Prop := {
  cn_starting : pr_server s = Starting -> pr_count s = -1 /\ pr_threads s = [];
  cn_count : pr_server s <> Starting -> pr_count s = Z.of_nat (sum_list_with counted (pr_threads s));
  cn_ended : pr_server s = Ended -> Forall (eq Idle) (pr_threads s);
  cn_threads : (length (pr_threads s) <= COUNT_THREADS)%nat;
}.

(** A step of a thread. *)
Lemma thread_next_inv i s s' :
  thread_next i s = Some s' -> exists p p', pr_threads s !! i = Some p /\
    pr_threads s' = <[i := p']> (pr_threads s) /\ pr_stop s' = pr_stop s /\
    pr_server s' = pr_server s /\ pr_main s' = pr_main s /\
    run_next (pr_stop s) (pr_isStoped s) (pr_count s) p = (p', pr_isStoped s', pr_count s').
Proof.
  unfold thread_next. destruct (pr_threads s !! i) as [p|]; [|done]. cbn [mbind option_bind].
  destruct (run_next _ _ _ p) as [[p' b] c] eqn:E. cbn. intros [= <-]. by exists p, p'.
Qed.

Lemma run_next_count stop b c p p' b' c' n :
  run_next stop b c p = (p', b', c') -> c = Z.of_nat n -> (counted p <= n)%nat -> Z.of_nat n < 2 ^ 30 ->
  c' = Z.of_nat n - Z.of_nat (counted p) + Z.of_nat (counted p').
Proof.
  intros Hr -> Hle Hz.
  destruct p; cbn [run_next counted] in *; repeat case_match; simplify_eq; cbn [counted];
    unfold IncCountRunningThread, IncCountRunningThread_end; rewrite ?to_i32_id by lia; lia.
Qed.

Lemma counting_request i s s' :
  counting s -> pr_server s = Running -> thread_next i s = Some s' -> counting s'.
Proof.
  intros [_ Hc _ Hl] Hrun Ht. destruct (thread_next_inv i s s' Ht) as (p & p' & Hp & Hts & _ & Hsv & _ & Hr).
  pose proof (sum_insert counted (pr_threads s) i p p' Hp) as Hsum.
  pose proof (sum_le counted 1 (pr_threads s) ltac:(intros []; cbn; lia)) as Hle.
  split; rewrite ?Hsv, ?Hrun; try done.
  - intros _. rewrite Hts.
    pose proof (sum_insert counted (pr_threads s) i p Idle Hp) as Hge. cbn [counted] in Hge.
    assert (Z.of_nat (sum_list_with counted (pr_threads s)) < 2 ^ 30) by (unfold COUNT_THREADS in Hl; lia).
    rewrite (run_next_count _ _ _ _ _ _ _ _ Hr (Hc ltac:(by rewrite Hrun))); lia.
  - by rewrite Hts, length_insert.
Qed.

Lemma counting_step ret s s' :
  (forall ts, ret ts -> Forall (eq Idle) ts) -> counting s -> step ret s s' -> counting s'.
Proof.
  intros Hret Hc Hs. destruct Hs as [s Hst|s Hst|s Hst|s Hst Hr|s i s' Hst Ht|s Hm Hst|s Hm|s Hm|s Hm].
  5: by eapply counting_request.
  8: destruct (decide (pr_count s = 0)); [rewrite wait_turn_ends by done|by rewrite wait_turn_idle].
  all: destruct Hc as [Ha Hb He Hl]; split; cbn in *; try done.
  - intros _. destruct (Ha Hst) as [_ ->]. done.
  - intros _. destruct (Ha Hst) as [_ ->]. constructor.
  - intros _. symmetry. apply (f_equal Z.of_nat (y := 0%nat)), sum_zero.
    eapply Forall_impl; [exact (Hret _ Hr)|]. by intros ? <-.
  - intros _. by apply Hret.
Qed.

Lemma counting_start : counting program_start.
Proof. split; cbn; try done. unfold COUNT_THREADS. lia. Qed.

Lemma counting_reachable ret s s' :
  (forall ts, ret ts -> Forall (eq Idle) ts) -> counting s -> rtc (step ret) s s' -> counting s'.
Proof. intros Hret Hc Hr. induction Hr; [done|]. eauto using counting_step. Qed.

(** ** After the signal *)

(** The main thread waits, or has gone when no request was under way. *)
Definition stopping (s : Program) : Prop :=
  counting s /\ pr_stop s = true /\
  (pr_main s = Waiting \/ (pr_main s = Returned /\ Serving ∉ pr_threads s)).

(** A thread that is not serving does not begin to. *)
Lemma no_new_serving i s s' :
  pr_stop s = true -> thread_next i s = Some s' -> Serving ∉ pr_threads s -> Serving ∉ pr_threads s'.
Proof.
  intros Hst Ht Hn Hin. destruct (thread_next_inv i s s' Ht) as (p & p' & Hp & Hts & _ & _ & _ & Hr).
  rewrite Hts in Hin. apply list_elem_of_lookup in Hin as [j Hj].
  apply list_lookup_insert_Some in Hj as [(-> & -> & _)|[_ Hj]];
    [|by apply Hn; eapply list_elem_of_lookup_2]. rewrite Hst in Hr.
  destruct p; cbn in Hr; repeat case_match; simplify_eq.
Qed.

Lemma counted_none ts : sum_list_with counted ts = 0%nat -> Serving ∉ ts.
Proof. intros Hz%sum_zero Hin. rewrite Forall_forall in Hz. by specialize (Hz _ Hin). Qed.

Lemma stopping_step ret s s' :
  (forall ts, ret ts -> Forall (eq Idle) ts) -> stopping s -> step ret s s' -> stopping s'.
Proof.
  intros Hret (Hc & Hst & Hm) Hs. split; [by eapply counting_step|].
  destruct Hs as [s Hb|s Hb|s Hb|s Hb Hr|s i s' Hb Ht|s Hb|s Hb|s Hb|s Hb]; cbn.
  9: destruct (decide (pr_count s = 0)); [|by rewrite wait_turn_idle].
  5: { destruct (thread_next_inv i s s' Ht) as (_ & _ & _ & _ & -> & _ & -> & _). split; [done|].
       destruct Hm as [Hm|[Hm Hn]]; [by left|right]. split; [done|]. by eapply no_new_serving. }
  all: try (split; [done|]); try (by destruct Hm as [Hm|[Hm _]]; congruence);
    try (destruct Hm as [Hm|[Hm Hn]]; [by left|right; split; [done|]]); try done.
  - change (Serving ∉ replicate COUNT_THREADS Idle). by intros [? _]%elem_of_replicate.
  - rewrite wait_turn_ends by done. split; [done|]. right. split; [done|].
    destruct (decide (pr_server s = Starting)) as [E|E].
    + destruct (cn_starting s Hc E) as [Hn _]. congruence.
    + apply counted_none. pose proof (cn_count s Hc E). cbn. lia.
Qed.

(** ** It ends *)

(** What is left to do: each thread turns a request away at most once more. *)
Definition phase_work (isStoped : bool) (p : Phase) : nat :=
  match p, isStoped with
  | Idle, false => 5 | Entered, false => 4 | Counted, false => 3 | Leaving, false => 6 | Serving, false => 7
  | Idle, true => 0 | Entered, true => 3 | Counted, true => 2 | Leaving, true => 1 | Serving, true => 2
  end%nat.

Definition server_work (p : ServerPhase) : nat :=
  match p with Starting => 5 * COUNT_THREADS + 2 | Running => 1 | Ended => 0 end%nat.

Definition main_work (p : MainPhase) : nat :=
  match p with Synchronizing => 2 | Waiting => 1 | Returned => 0 end%nat.

Definition work (s : Program) : nat :=
  (sum_list_with (phase_work (pr_isStoped s)) (pr_threads s) + server_work (pr_server s) + main_work (pr_main s))%nat.

(** A set flag only lowers what is left. *)
Lemma phase_work_flag ts : (sum_list_with (phase_work true) ts <= sum_list_with (phase_work false) ts)%nat.
Proof. induction ts as [|p ts IH]; cbn; [lia|]. destruct p; cbn; lia. Qed.

Lemma request_work i s s' :
  pr_stop s = true -> thread_next i s = Some s' -> s' <> s -> (work s' < work s)%nat.
Proof.
  intros Hst Ht Hne. destruct (thread_next_inv i s s' Ht) as (p & p' & Hp & Hts & _ & Hsv & Hm & Hr).
  unfold work. rewrite Hts, Hsv, Hm. rewrite Hst in Hr.
  pose proof (sum_insert (phase_work (pr_isStoped s')) (pr_threads s) i p p' Hp) as Hsum.
  pose proof (phase_work_flag (pr_threads s)) as Hflag.
  enough (sum_list_with (phase_work (pr_isStoped s')) (pr_threads s) + phase_work (pr_isStoped s') p' <
    sum_list_with (phase_work (pr_isStoped s)) (pr_threads s) + phase_work (pr_isStoped s') p)%nat by lia.
  assert (p = Idle -> pr_isStoped s = false) as Hidle.
  { intros ->. destruct (pr_isStoped s) eqn:Ef; [|done]. cbn in Hr. exfalso. apply Hne.
    unfold thread_next in Ht. rewrite Hp, Ef in Ht. cbn in Ht. injection Ht as <-.
    rewrite list_insert_id by done. by destruct s; cbn in *; subst. }
  clear Hsum Hts Hsv Hm Ht Hne.
  destruct p; cbn in Hr; repeat case_match; simplify_eq;
    destruct (pr_isStoped s), (pr_isStoped s'); simplify_eq; cbn; try lia; by specialize (Hidle eq_refl).
Qed.

Lemma step_work ret s s' : stopping s -> step ret s s' -> s' <> s -> (work s' < work s)%nat.
Proof.
  intros (Hc & Hst & Hm) Hs Hne.
  destruct Hs as [s Hb|s Hb|s Hb|s Hb Hr|s i s' Hb Ht|s Hb|s Hb|s Hb|s Hb]; try (by destruct Hm as [Hm|[Hm _]]; congruence).
  4: by eapply request_work.
  4: { destruct (decide (pr_count s = 0)); [|by rewrite wait_turn_idle in Hne].
       rewrite wait_turn_ends by done. unfold work. cbn. rewrite Hb. cbn. lia. }
  all: unfold work; cbn; rewrite Hb; cbn; try lia.
  destruct (cn_starting s Hc Hb) as [_ ->]. destruct (pr_isStoped s); cbn; lia.
Qed.

(** Before the end, some access changes something. *)
Lemma stopping_moves ret s :
  stopping s -> pr_main s <> Returned -> exists s', step ret s s' /\ s' <> s.
Proof.
  intros (Hc & Hst & [Hm|[Hm _]]) Hne; [|done].
  assert (forall ph, pr_main (set_main ph s) <> pr_main s -> set_main ph s <> s) as Hmain by congruence.
  destruct (pr_server s) eqn:Hsv.
  { exists (Server_init s). split; [by apply step_init|]. intros E. apply (f_equal pr_server) in E. cbn in E. congruence. }
  - destruct (decide (Forall (fun p => counted p = 0%nat) (pr_threads s))) as [Hz|Hz].
    + exists (wait_turn s). split; [by apply step_wait|]. rewrite wait_turn_ends; [apply Hmain; cbn; congruence|].
      rewrite (cn_count s Hc) by congruence. by rewrite (proj2 (sum_zero _ _) Hz).
    + apply not_Forall_Exists, Exists_exists in Hz as (p & Hin & Hp); [|intros p; apply _].
      apply list_elem_of_lookup in Hin as [i Hi].
      destruct (thread_next i s) as [s'|] eqn:E; [|unfold thread_next in E; rewrite Hi in E;
        cbn [mbind option_bind] in E; destruct (run_next _ _ _ p) as [[??]?]; discriminate E].
      exists s'. split; [by eapply step_request|]. intros ->.
      destruct (thread_next_inv i s s E) as (p1 & p' & Hp1 & Hts & _ & _ & _ & Hr). rewrite Hi in Hp1. injection Hp1 as <-.
      apply (f_equal (fun l => l !! i)) in Hts. rewrite Hi, list_lookup_insert_eq in Hts by (by eapply lookup_lt_Some).
      injection Hts as <-. rewrite Hst in Hr. destruct p; cbn in Hr; simplify_eq; by destruct Hp.
  - exists (wait_turn s). split; [by apply step_wait|]. rewrite wait_turn_ends; [apply Hmain; cbn; congruence|].
    rewrite (cn_count s Hc) by congruence.
    rewrite (proj2 (sum_zero _ _)); [done|]. eapply Forall_impl; [exact (cn_ended s Hc Hsv)|]. by intros ? <-.
Qed.

Lemma stopping_run ret n s s' :
  (forall ts, ret ts -> Forall (eq Idle) ts) -> stopping s -> run ret n s s' ->
  stopping s' /\ (n + work s' <= work s)%nat.
Proof.
  intros Hret Hs Hn. induction Hn as [s|n s s' H1 Hn IH|n s s1 s' H1 Hne Hn IH]; [by split; [|lia]|by apply IH|].
  pose proof (step_work _ _ _ Hs H1 Hne). destruct IH as [IH1 IH2]; [by eapply stopping_step|]. split; [done|lia].
Qed.

Lemma work_bound s : counting s -> pr_main s = Waiting -> (work s <= 7 * COUNT_THREADS + 2)%nat.
Proof.
  intros Hc Hm. unfold work. rewrite Hm. destruct (decide (pr_server s = Starting)) as [E|E].
  - destruct (cn_starting s Hc E) as [_ ->]. rewrite E. cbn. lia.
  - pose proof (sum_le (phase_work (pr_isStoped s)) 7 (pr_threads s) ltac:(intros []; destruct (pr_isStoped s); cbn; lia)).
    pose proof (cn_threads s Hc). assert (server_work (pr_server s) <= 1)%nat by (by destruct (pr_server s); cbn; [|lia..]).
    unfold COUNT_THREADS in *. cbn [main_work]. lia.
Qed.

(** ** A request on its own

    What [Server_run] does in one piece is what a thread does when no other
    thread comes in between. *)

Fixpoint run_alone (fuel : nat) (stop isStoped : bool) (count : Z) (p : Phase) : list Phase * bool * Z :=
  match fuel with
  | O => ([], isStoped, count)
  | S fuel =>
      let '(p, isStoped, count) := run_next stop isStoped count p in
      if bool_decide (p = Idle) then ([p], isStoped, count)
      else let '(ps, isStoped, count) := run_alone fuel stop isStoped count p in (p :: ps, isStoped, count)
  end.

Section alone.
Context `{Rapidjson} `{Support} `{Lz4} {C : Type} `{BlockChainRead C}.
Variables (blockchain : C) (dump : BlockHeader -> Z -> Z -> bool -> bool -> res bytes).
Variables (verify : bytes -> bytes -> bytes -> res bool) (VERSION g_GIT_SHA1 serverPrivKey : bytes).
Variables (nowTimestamp : Z) (memory connections : res Z).

Lemma run_alone_eq stop now req s count :
  -2 ^ 31 <= count < 2 ^ 31 - 1 ->
  let '(s', r) := Server_run blockchain dump verify VERSION g_GIT_SHA1 serverPrivKey nowTimestamp memory connections
    stop now req s in
  let '(ps, isStoped, count') := run_alone 5 stop (sv_isStoped s) count Idle in
  isStoped = sv_isStoped s' /\ count' = count /\ (r = Ok None <-> Serving ∉ ps).
Proof.
  intros Hc. assert (IncCountRunningThread_end (IncCountRunningThread count) = count) as Hid.
  { unfold IncCountRunningThread_end, IncCountRunningThread. rewrite !to_i32_id by (rewrite ?to_i32_id; lia). lia. }
  unfold Server_run. destruct (sv_isStoped s) eqn:Es; [|destruct stop]; cbn; rewrite ?Es, ?Hid.
  - split; [done|]. split; [done|]. split; [intros _; set_solver|done].
  - split; [done|]. split; [done|]. split; [intros _; set_solver|done].
  - split; [done|]. split; [done|]. destruct (handle _ _ _ _ _ _ _ _ _ _ _); cbn; (split; [done|]);
      intros Hn; exfalso; apply Hn; set_solver.
Qed.

End alone.
