(* ===== verification/Graph.v ===== *)
(** * utils/Graph.cpp and the broadcast of P2P/P2P_Graph.cpp

    A graph is a deque of elements, each with a pointer to its parent: a list
    of elements whose parents are positions in the list (a deque never moves
    its elements).  A broadcast asks this node's parent, then the parent's
    parent and so on, until a server answers. *)
From S2P Require Import Prelude P2P.
#[local] Open Scope Z_scope.

(* src: utils/Graph.h:10-28 Graph::Element *)
Record Element := mkElement {
  el_element : bytes;
  el_parent : option nat;
}.

Abbreviation Graph := (list Element).

(** [std::find_if(elements.begin(), elements.end(), ...)]. *)
Fixpoint find_element (g : Graph) (element : bytes) : option nat :=
  match g with
  | [] => None
  | el :: g' =>
      if bool_decide (el_element el = element) then Some O else S <$> find_element g' element
  end.

(* src: utils/Graph.cpp:10-17 Graph::findOrAdd *)
Definition findOrAdd (element : bytes) (g : Graph) : Graph * nat :=
  match find_element g element with
  | Some i => (g, i)
  | None => (g ++ [mkElement element None], length g)
  end.

(* src: utils/Graph.cpp:19-25 Graph::addEdge *)
Definition addEdge (parent child : bytes) : meth Graph unit := fun g =>
  let '(g, first) := findOrAdd parent g in
  let '(g, second) := findOrAdd child g in
  match g !! second with
  | None => (g, UB)
  | Some el =>
      if bool_decide (el_parent el = None)
      then (<[second := mkElement (el_element el) (Some first)]> g, Ok tt)
      else (g, throwErr (str "Child " ++ child ++ str " already has a parent"))
  end.

(* src: utils/Graph.cpp:27-32 Graph::findElement *)
Definition findElement (g : Graph) (element : bytes) : res nat :=
  match find_element g element with
  | Some i => Ok i
  | None => throwErr (str "Element " ++ element ++ str " not found in graph")
  end.

(* src: utils/Graph.cpp:34-43 Graph::Element::getParent *)
Definition getParent (el : Element) : res nat :=
  match el_parent el with
  | Some p => Ok p
  | None => throwErr (str "Not parent in element " ++ el_element el)
  end.

(* src: utils/Graph.cpp:50-56 Graph::getAllElements *)
Definition getAllElements (g : Graph) : list bytes := el_element <$> g.

(** The edges of the configuration, one after the other. *)
(* src: P2P/P2P_Graph.cpp:19-21 P2P_Graph::P2P_Graph, for *)
Fixpoint add_edges (graphVec : list (bytes * bytes)) : meth Graph unit := fun g =>
  match graphVec with
  | [] => (g, Ok tt)
  | (parent, child) :: rest => (do* addEdge parent child in add_edges rest)%meth g
  end.

(** The constructed object: the graph, and the position of this node's parent. *)
(* src: P2P/P2P_Graph.cpp:14-31 P2P_Graph::P2P_Graph *)
Definition P2P_Graph (graphVec : list (bytes * bytes)) (thisIp : bytes) (countConnections : Z)
    : res (Graph * nat) :=
  _ ← CHECK (negb (countConnections =? 0)) (str "Incorrect count connections: 0");
  let '(graph, r) := add_edges graphVec [] in
  _ ← r;
  this ← findElement graph thisIp;
  thisElement ← opt_ub (graph !! this);
  parent ← getParent thisElement;
  Ok (graph, parent).

Section broadcast.
Context {S : Type}.
Variable send : bytes -> Query -> meth S bytes.
Variable callback : bytes -> bytes -> option bytes -> meth S unit.
Variable checkStopSignal : meth S unit.

(** [url] and [Curl::request]. *)
(* src: P2P/P2P_Graph.cpp:33-42 P2P_Graph::request *)
Definition graph_send (server : bytes) (q : Query) : meth S bytes :=
  (let* url := mlift (make_url server (fst q)) in send url q)%meth.

(** One server: [true] when it answered and the callback took the answer. *)
(* src: P2P/P2P_Graph.cpp:48-54 P2P_Graph::broadcast, try *)
Definition ask (server : bytes) (q : Query) : meth S bool := fun s =>
  let '(s, r) := (let* response := graph_send server q in callback server response None)%meth s in
  match r with
  | Ok _ => (s, Ok true)
  | Throw (ExcCommon e) => (do* callback server [] (Some e) in mret' false)%meth s
  | Throw e => (s, Throw e)
  | UB => (s, UB)
  | OutOfFuel => (s, OutOfFuel)
  end.

(** [fuel] bounds the servers asked; in a graph without a cycle of parents the
    number of its elements is enough ([broadcast_total]). *)
(* src: P2P/P2P_Graph.cpp:47-64 P2P_Graph::broadcast, while *)
Fixpoint broadcast_loop (fuel : nat) (g : Graph) (curServ : nat) (q : Query) : meth S unit :=
  match fuel with
  | O => mlift OutOfFuel
  | Datatypes.S fuel =>
      (let* el := mlift (opt_ub (g !! curServ)) in
       let* answered := ask (el_element el) q in
       if answered : bool then checkStopSignal
       else
         do* checkStopSignal in
         do* mlift (CHECK (bool_decide (is_Some (el_parent el))) (str "Servers end")) in
         let* next := mlift (getParent el) in
         broadcast_loop fuel g next q)%meth
  end.

End broadcast.

(** ** The graph built from the edges *)

(** The graph's own condition: distinct names, parents inside. *)
Definition graph_wf (g : Graph) : Prop :=
  NoDup (el_element <$> g) /\
  forall i el p, g !! i = Some el -> el_parent el = Some p -> (p < length g)%nat.

(** The name of an element's parent. *)
Definition parent_name (g : Graph) (child : bytes) : option bytes :=
  i ← find_element g child; el ← g !! i; p ← el_parent el; e ← g !! p; Some (el_element e).

Lemma find_element_Some g e i :
  find_element g e = Some i -> exists el, g !! i = Some el /\ el_element el = e.
Proof.
  revert i. induction g as [|el g IH]; intros i; cbn [find_element]; [done|].
  case_bool_decide as Hd; [intros [= <-]; by exists el|].
  destruct (find_element g e) as [j|]; intros [= <-]. by apply IH.
Qed.

Lemma find_element_None g e : find_element g e = None <-> e ∉ (el_element <$> g).
Proof.
  induction g as [|el g IH]; cbn [find_element fmap list_fmap]; [split; [inversion 2|done]|].
  rewrite elem_of_cons. case_bool_decide as Hd.
  - split; [done|]. intros []; auto.
  - destruct (find_element g e) as [j|]; cbn; [|naive_solver].
    split; [done|]. intros Hn. destruct IH as [_ IH].
    discriminate IH. intros Hi. apply Hn. by right.
Qed.

Lemma find_element_lookup g i el :
  NoDup (el_element <$> g) -> g !! i = Some el -> find_element g (el_element el) = Some i.
Proof.
  intros Hnd Hi. destruct (find_element g (el_element el)) as [j|] eqn:Hf.
  - destruct (find_element_Some _ _ _ Hf) as (el' & Hj & He). f_equal.
    eapply NoDup_lookup; [done| |]; rewrite list_lookup_fmap; [rewrite Hj|rewrite Hi]; cbn; by rewrite ?He.
  - apply find_element_None in Hf. destruct Hf. apply list_elem_of_fmap. exists el.
    split; [done|by eapply list_elem_of_lookup_2].
Qed.

Lemma findOrAdd_spec e g g' i :
  graph_wf g -> findOrAdd e g = (g', i) ->
  graph_wf g' /\ (exists el, g' !! i = Some el /\ el_element el = e) /\
  (exists k, g' = g ++ k /\ Forall (fun el => el_parent el = None) k).
Proof.
  intros [Hnd Hp]. unfold findOrAdd. destruct (find_element g e) as [j|] eqn:Hf; intros [= <- <-].
  - split; [done|]. split; [by apply find_element_Some|]. exists []. by rewrite app_nil_r.
  - apply find_element_None in Hf. split; [|split].
    + split.
      * rewrite fmap_app. apply NoDup_app. split; [done|]. split; [|apply NoDup_singleton].
        intros x Hx Hs. apply list_elem_of_singleton in Hs. cbn in Hs. by subst.
      * intros i el p Hi Hpar. rewrite length_app. cbn [length].
        apply lookup_app_Some in Hi as [Hi|[_ Hi]]; [pose proof (Hp _ _ _ Hi Hpar); lia|].
        apply list_lookup_singleton_Some in Hi as [_ <-]. done.
    + exists (mkElement e None). split; [|done]. by rewrite lookup_app_r, Nat.sub_diag.
    + exists [mkElement e None]. split; [done|]. by repeat constructor.
Qed.

Lemma find_element_app g k e :
  find_element (g ++ k) e =
    match find_element g e with Some i => Some i | None => Nat.add (length g) <$> find_element k e end.
Proof.
  induction g as [|el g IH]; cbn [app find_element length].
  - by destruct (find_element k e).
  - case_bool_decide; [done|]. rewrite IH. destruct (find_element g e); [done|].
    by destruct (find_element k e).
Qed.

(** New elements without parents change nobody's parent. *)
Lemma parent_name_extend g k n :
  graph_wf g -> Forall (fun el => el_parent el = None) k -> parent_name (g ++ k) n = parent_name g n.
Proof.
  intros [Hnd Hp] Hk. unfold parent_name. rewrite find_element_app.
  destruct (find_element g n) as [i|] eqn:Hf; cbn.
  - destruct (find_element_Some _ _ _ Hf) as (el & Hi & _). rewrite (lookup_app_l_Some _ _ _ _ Hi), Hi. cbn.
    destruct (el_parent el) as [p|] eqn:He; [|done]. cbn.
    pose proof (Hp _ _ _ Hi He). by rewrite lookup_app_l.
  - destruct (find_element k n) as [i|] eqn:Hf'; [|done]. cbn.
    destruct (find_element_Some _ _ _ Hf') as (el & Hi & _).
    rewrite lookup_app_r by lia. replace (length g + i - length g)%nat with i by lia. rewrite Hi. cbn.
    rewrite Forall_forall in Hk. by rewrite (Hk el) by (by eapply list_elem_of_lookup_2).
Qed.

Lemma find_element_insert (g : Graph) (i : nat) el el' n :
  g !! i = Some el -> el_element el' = el_element el ->
  find_element (<[i := el']> g) n = find_element g n.
Proof.
  revert i. induction g as [|a g IH]; intros [|i] Hi He; try done.
  - injection Hi as ->. cbn [insert list_insert find_element]. by rewrite He.
  - change (<[S i := el']> (a :: g)) with (a :: <[i := el']> g). cbn [find_element].
    case_bool_decide; [done|]. by rewrite (IH i Hi He).
Qed.

Lemma names_insert (g : Graph) (i : nat) el el' :
  g !! i = Some el -> el_element el' = el_element el ->
  el_element <$> <[i := el']> g = el_element <$> g.
Proof.
  intros Hi He. rewrite list_fmap_insert, He. apply list_insert_id. by rewrite list_lookup_fmap, Hi.
Qed.

Lemma parent_name_insert (g : Graph) (i : nat) el p e n :
  graph_wf g -> g !! i = Some el -> g !! p = Some e ->
  parent_name (<[i := mkElement (el_element el) (Some p)]> g) n =
    if bool_decide (n = el_element el) then Some (el_element e) else parent_name g n.
Proof.
  intros [Hnd Hp] Hi He. set (el' := mkElement _ _).
  assert (forall j, el_element <$> <[i := el']> g !! j = el_element <$> g !! j) as Hnames.
  { intros j. destruct (decide (i = j)) as [<-|Hj].
    - by rewrite list_lookup_insert_eq, Hi by (by eapply lookup_lt_Some).
    - by rewrite list_lookup_insert_ne. }
  unfold parent_name. rewrite (find_element_insert _ _ _ _ _ Hi) by done.
  case_bool_decide as Hn.
  - subst n. rewrite (find_element_lookup _ _ _ Hnd Hi). cbn.
    rewrite list_lookup_insert_eq by (by eapply lookup_lt_Some). cbn.
    specialize (Hnames p). rewrite He in Hnames. cbn in Hnames.
    destruct (<[i:=el']> g !! p); [|done]. exact Hnames.
  - destruct (find_element g n) as [j|] eqn:Hf; [|done]. cbn.
    destruct (find_element_Some _ _ _ Hf) as (elj & Hj & Hnj).
    rewrite list_lookup_insert_ne by (intros ->; congruence). rewrite Hj. cbn.
    destruct (el_parent elj) as [pj|]; [|done]. cbn. specialize (Hnames pj).
    destruct (<[i:=el']> g !! pj), (g !! pj); cbn in *; congruence.
Qed.

Lemma find_parent g i el :
  graph_wf g -> g !! i = Some el ->
  parent_name g (el_element el) = (p ← el_parent el; e ← g !! p; Some (el_element e)).
Proof.
  intros [Hnd _] Hi. unfold parent_name. rewrite (find_element_lookup _ _ _ Hnd Hi). cbn. by rewrite Hi.
Qed.

Lemma no_parent g i el :
  graph_wf g -> g !! i = Some el -> (el_parent el = None <-> parent_name g (el_element el) = None).
Proof.
  intros Hwf Hi. rewrite (find_parent _ _ _ Hwf Hi). destruct Hwf as [_ Hp].
  destruct (el_parent el) as [p|] eqn:He; [|done]. cbn.
  destruct (g !! p) eqn:Hl; [done|]. apply lookup_ge_None in Hl. pose proof (Hp _ _ _ Hi He). lia.
Qed.

(** What an edge does to the parents. *)
Lemma addEdge_spec parent child g :
  graph_wf g ->
  exists g', graph_wf g' /\
    match parent_name g child with
    | None => addEdge parent child g = (g', Ok tt) /\
        forall n, parent_name g' n = if bool_decide (n = child) then Some parent else parent_name g n
    | Some _ =>
        addEdge parent child g = (g', throwErr (str "Child " ++ child ++ str " already has a parent")) /\
        forall n, parent_name g' n = parent_name g n
    end.
Proof.
  intros Hwf. unfold addEdge.
  destruct (findOrAdd parent g) as [g1 first] eqn:H1.
  destruct (findOrAdd_spec _ _ _ _ Hwf H1) as (Hwf1 & (el1 & Hl1 & He1) & (k1 & Hg1 & Hk1)).
  destruct (findOrAdd child g1) as [g2 second] eqn:H2.
  destruct (findOrAdd_spec _ _ _ _ Hwf1 H2) as (Hwf2 & (el2 & Hl2 & He2) & (k2 & Hg2 & Hk2)).
  assert (forall n, parent_name g2 n = parent_name g n) as Hsame.
  { intros n. by rewrite Hg2, parent_name_extend, Hg1, parent_name_extend. }
  rewrite Hl2. pose proof (no_parent _ _ _ Hwf2 Hl2) as Hno. rewrite He2, Hsame in Hno.
  destruct (parent_name g child) as [p|] eqn:Hpar.
  - rewrite bool_decide_false by (intros Hc; apply Hno in Hc; done). by exists g2.
  - rewrite bool_decide_true by (by apply Hno).
    assert (g2 !! first = Some el1) as Hl1' by (rewrite Hg2; by apply lookup_app_l_Some).
    eexists. split; [|split; [done|]].
    + split; [rewrite (names_insert _ _ _ _ Hl2) by done; apply Hwf2|].
      intros i el p Hi Hp. rewrite length_insert. apply list_lookup_insert_Some in Hi as [(-> & <- & _)|[_ Hi]].
      * injection Hp as <-. by eapply lookup_lt_Some.
      * by eapply Hwf2.
    + intros n. rewrite (parent_name_insert _ _ _ _ el1) by done. by rewrite He2, He1, Hsame.
Qed.

(** The first edge that names the child. *)
Fixpoint edge_parent (graphVec : list (bytes * bytes)) (child : bytes) : option bytes :=
  match graphVec with
  | [] => None
  | (p, c) :: rest => if bool_decide (c = child) then Some p else edge_parent rest child
  end.

Lemma edge_parent_None vec n : n ∉ vec.*2 -> edge_parent vec n = None.
Proof.
  induction vec as [|[p c] vec IH]; [done|]. cbn [edge_parent fmap list_fmap]. intros Hn.
  apply not_elem_of_cons in Hn as [Hne Hn]. rewrite bool_decide_false by (cbn in Hne; congruence). auto.
Qed.

Lemma add_edges_Ok vec g :
  graph_wf g -> NoDup vec.*2 -> (forall c, c ∈ vec.*2 -> parent_name g c = None) ->
  exists g', add_edges vec g = (g', Ok tt) /\ graph_wf g' /\
    forall n, parent_name g' n = match edge_parent vec n with Some p => Some p | None => parent_name g n end.
Proof.
  revert g. induction vec as [|[p c] vec IH]; intros g Hwf Hnd Hfresh; [by exists g|].
  cbn [fmap list_fmap] in *. apply NoDup_cons in Hnd as [Hc Hnd]. cbn in Hc, Hfresh.
  destruct (addEdge_spec p c g Hwf) as (g1 & Hwf1 & Hg1).
  rewrite (Hfresh c) in Hg1 by (by left). destruct Hg1 as [Ha Hp].
  destruct (IH g1 Hwf1 Hnd) as (g' & Ha' & Hwf' & Hp').
  { intros d Hd. rewrite Hp, bool_decide_false by (intros ->; done). apply Hfresh. by right. }
  exists g'. cbn [add_edges]. unfold mbind'. rewrite Ha. split; [done|]. split; [done|].
  intros n. rewrite Hp', Hp. cbn [edge_parent]. destruct (decide (n = c)) as [->|Hn].
  - rewrite !bool_decide_true by done. by rewrite edge_parent_None.
  - by rewrite !bool_decide_false by congruence.
Qed.

Lemma add_edges_Ok_inv vec g g' :
  graph_wf g -> add_edges vec g = (g', Ok tt) ->
  NoDup vec.*2 /\ (forall c, c ∈ vec.*2 -> parent_name g c = None).
Proof.
  revert g. induction vec as [|[p c] vec IH]; intros g Hwf; cbn [fmap list_fmap add_edges].
  { intros _. split; [constructor|inversion 1]. }
  unfold mbind'. destruct (addEdge_spec p c g Hwf) as (g1 & Hwf1 & Hg1).
  destruct (parent_name g c) eqn:Hc; destruct Hg1 as [-> Hp]; [done|]. intros Ha.
  destruct (IH g1 Hwf1 Ha) as [Hnd Hfresh]. cbn [snd]. split.
  - constructor; [|done]. intros Hin%Hfresh. rewrite Hp, bool_decide_true in Hin by done. done.
  - intros d [->|Hd]%elem_of_cons; [done|]. specialize (Hfresh d Hd). rewrite Hp in Hfresh.
    by case_bool_decide.
Qed.

(** Adding edges succeeds or throws. *)
Lemma add_edges_answer vec g :
  graph_wf g -> snd (add_edges vec g) = Ok tt \/ exists e, snd (add_edges vec g) = Throw e.
Proof.
  revert g. induction vec as [|[p c] vec IH]; intros g Hwf; [by left|]. cbn [add_edges]. unfold mbind'.
  destruct (addEdge_spec p c g Hwf) as (g1 & Hwf1 & Hg1).
  destruct (parent_name g c); destruct Hg1 as [-> _]; [right; by eexists|]. by apply IH.
Qed.

(** ** Whom a broadcast asks *)

(** This node's ancestors, the nearest first. *)
Fixpoint ancestors (fuel : nat) (g : Graph) (cur : nat) : list bytes :=
  match fuel with
  | O => []
  | S fuel =>
      match g !! cur with
      | None => []
      | Some el =>
          el_element el :: match el_parent el with Some p => ancestors fuel g p | None => [] end
      end
  end.

(** A call of the callback: the server, its answer, the exception. *)
Abbreviation Event := (bytes * bytes * option bytes)%type.

Definition event_server (e : Event) : bytes := e.1.1.
Definition event_failed (e : Event) : Prop := is_Some e.2.

Section events.
Context {W : Type}.
Variable send : bytes -> Query -> meth W bytes.
Variable checkStopSignal : meth W unit.

Definition on_world {A} (m : meth W A) : meth (W * list Event) A := fun s =>
  let '(w, r) := m s.1 in ((w, s.2), r).

(** A callback that records its calls. *)
Definition record_event (server response : bytes) (e : option bytes) : meth (W * list Event) unit :=
  fun s => ((s.1, s.2 ++ [(server, response, e)]), Ok tt).

(* src: P2P/P2P_Graph.cpp:44-65 P2P_Graph::broadcast *)
Definition Graph_broadcast (fuel : nat) (curls : bool) (g : Graph) (parent : nat) (q : Query)
    : meth (W * list Event) unit :=
  (do* mlift (CHECK curls (str "Curls empty")) in
   broadcast_loop (fun url q => on_world (send url q)) record_event (on_world checkStopSignal)
     fuel g parent q)%meth.

Hypothesis Hstop : forall w, snd (checkStopSignal w) = Ok tt \/ snd (checkStopSignal w) = Throw ExcStop.

#[local] Abbreviation ask' := (ask (fun url q => on_world (send url q)) record_event).
#[local] Abbreviation loop := (broadcast_loop (fun url q => on_world (send url q)) record_event (on_world checkStopSignal)).

(** One server leaves at most one event. *)
Lemma ask_events server q s s' r :
  ask' server q s = (s', r) ->
  match r with
  | Ok true => exists response, s'.2 = s.2 ++ [(server, response, None)]
  | Ok false => exists e, s'.2 = s.2 ++ [(server, [], Some e)]
  | Throw (ExcCommon _) => False
  | _ => s'.2 = s.2
  end.
Proof.
  unfold ask, graph_send, mbind', mlift, record_event, mret', on_world.
  destruct (make_url server q.1) as [url|[]| |]; cbn; try (intros [= <- <-]; cbn; eauto; done).
  destruct (send url q s.1) as [w [response|[]| |]]; cbn; intros [= <- <-]; cbn; eauto.
Qed.

Lemma stop_cases s :
  let '(s', r) := on_world checkStopSignal s in s'.2 = s.2 /\ (r = Ok tt \/ r = Throw ExcStop).
Proof.
  unfold on_world. pose proof (Hstop s.1) as Hr. destruct (checkStopSignal s.1) as [w r]. done.
Qed.

(** A broadcast that returns was answered by the first ancestor that could; one
    that throws the program's own exception asked them all. *)
Lemma broadcast_events fuel g cur q s s' r :
  loop fuel g cur q s = (s', r) ->
  exists new, s'.2 = s.2 ++ new /\ (event_server <$> new) `prefix_of` ancestors fuel g cur /\
    (r = Ok tt -> exists fails server response,
       new = fails ++ [(server, response, None)] /\ Forall event_failed fails) /\
    (forall e, r = Throw (ExcCommon e) ->
       e = str "Servers end" /\ (event_server <$> new) = ancestors fuel g cur /\ Forall event_failed new).
Proof.
  revert cur s. induction fuel as [|fuel IH]; intros cur s; cbn [broadcast_loop ancestors].
  { intros [= <- <-]. exists []. rewrite app_nil_r. done. }
  unfold mbind' at 1, mlift at 1. destruct (g !! cur) as [el|] eqn:Hcur; cbn [opt_ub].
  2: { intros [= <- <-]. exists []. rewrite app_nil_r. done. }
  unfold mbind' at 1. destruct (ask' (el_element el) q s) as [s1 r1] eqn:Ha. apply ask_events in Ha.
  destruct r1 as [[]|[]| |]; try done;
    try (intros [= <- <-]; exists []; rewrite Ha, app_nil_r; split; [done|];
         split; [apply prefix_nil|done]).
  - destruct Ha as [response Ha]. pose proof (stop_cases s1) as Hs.
    destruct (on_world checkStopSignal s1) as [s2 r2]. destruct Hs as [Hs Hr]. intros [= <- <-].
    exists [(el_element el, response, None)]. rewrite Hs, Ha. split; [done|].
    split; [by eexists|]. split; [|by destruct Hr as [-> | ->]].
    intros _. by exists [], (el_element el), response.
  - destruct Ha as [e Ha]. unfold mbind' at 1. pose proof (stop_cases s1) as Hs.
    destruct (on_world checkStopSignal s1) as [s2 r2]. destruct Hs as [Hs Hr].
    destruct Hr as [-> | ->].
    2: { intros [= <- <-]. exists [(el_element el, [], Some e)]. rewrite Hs, Ha.
         split; [done|]. split; [by eexists|]. done. }
    unfold mbind', mlift, getParent. destruct (el_parent el) as [p|]; cbn.
    + intros Hl. destruct (IH _ _ Hl) as (new & Hn & Hpre & Hok & Herr).
      exists ((el_element el, [], Some e) :: new). rewrite Hn, Hs, Ha, <- app_assoc. split; [done|].
      cbn. split; [by apply prefix_cons|]. split.
      * intros Hr. destruct (Hok Hr) as (fails & server & response & -> & Hf).
        exists ((el_element el, [], Some e) :: fails), server, response. split; [done|].
        constructor; [by eexists|done].
      * intros e' Hr. destruct (Herr e' Hr) as (He & Hall & Hf). split; [done|].
        split; [by f_equal|]. constructor; [by eexists|done].
    + intros [= <- <-]. exists [(el_element el, [], Some e)]. rewrite Hs, Ha. cbn.
      split; [done|]. split; [by eexists|]. split; [done|]. intros e' [= <-].
      split; [done|]. split; [done|]. by repeat econstructor.
Qed.

(** A parent of smaller rank: no cycles. *)
Definition ranked (g : Graph) (rank : nat -> nat) : Prop :=
  forall i el p, g !! i = Some el -> el_parent el = Some p -> (rank p < rank i)%nat.

Lemma broadcast_total fuel g rank cur q s :
  (forall url q w, total (snd (send url q w))) -> ranked g rank -> (rank cur < fuel)%nat ->
  total (snd (loop fuel g cur q s)).
Proof.
  intros Hsend Hrank. revert cur s. induction fuel as [|fuel IH]; intros cur s Hf; [lia|].
  cbn [broadcast_loop]. unfold mbind' at 1, mlift at 1. destruct (g !! cur) as [el|] eqn:Hcur; [|done].
  cbn [opt_ub]. unfold mbind' at 1. destruct (ask' (el_element el) q s) as [s1 r1] eqn:Ha.
  assert (total r1) as Hr1.
  { revert Ha. unfold ask, graph_send, mbind', mlift, record_event, mret', on_world.
    destruct (make_url (el_element el) q.1) as [url|[]| |] eqn:Hu; cbn; try (intros [= <- <-]; done).
    - specialize (Hsend url q s.1). cbn in Hsend.
      destruct (send url q s.1) as [w [response|[]| |]]; cbn in *; intros [= <- <-]; done.
    - revert Hu. unfold make_url, CHECK, throwErr. by destruct (negb _). }
  destruct r1 as [[]| | |]; try done.
  - pose proof (stop_cases s1) as Hs. destruct (on_world checkStopSignal s1) as [s2 r2].
    by destruct Hs as [_ [-> | ->]].
  - unfold mbind' at 1. pose proof (stop_cases s1) as Hs.
    destruct (on_world checkStopSignal s1) as [s2 r2]. destruct Hs as [_ [-> | ->]]; [|done].
    unfold mbind', mlift, getParent. destruct (el_parent el) as [p|] eqn:Hp; [|done]. cbn.
    apply IH. pose proof (Hrank _ _ _ Hcur Hp). lia.
Qed.

(** Positions whose parents stay among them. *)
Definition closed_cycle (g : Graph) (C : nat -> Prop) : Prop :=
  forall i, C i -> exists el p, g !! i = Some el /\ el_parent el = Some p /\ C p.

(** When no server of a cycle answers, the walk has no end of its own. *)
Lemma broadcast_endless fuel g C cur q s :
  closed_cycle g C -> C cur ->
  (forall url w, exists w' e, send url q w = (w', Throw (ExcCommon e))) ->
  (forall w, exists w', checkStopSignal w = (w', Ok tt)) ->
  snd (loop fuel g cur q s) = OutOfFuel.
Proof.
  intros HC Hcur Hsend Hno. revert cur s Hcur. induction fuel as [|fuel IH]; intros cur s Hcur; [done|].
  destruct (HC _ Hcur) as (el & p & Hel & Hp & HCp).
  cbn [broadcast_loop]. unfold mbind' at 1, mlift at 1. rewrite Hel. cbn [opt_ub].
  assert (exists s1, ask' (el_element el) q s = (s1, Ok false)) as [s1 Ha].
  { unfold ask, graph_send, mbind', mlift, record_event, mret', on_world, make_url.
    destruct (CHECK _ _) as [u|[]| |] eqn:Hc; cbn; try (by revert Hc; unfold CHECK; destruct (negb _)); eauto.
    destruct (Hsend ((if bool_decide (last (el_element el) = Some Byte.x2f) then el_element el
        else el_element el ++ str "/") ++ q.1) s.1) as (w' & e & ->). cbn. eauto. }
  unfold mbind'. rewrite Ha. unfold on_world at 1. destruct (Hno s1.1) as [w' ->].
  unfold mlift, getParent. rewrite Hp. cbn. by apply IH.
Qed.

End events.
