(* ===== verification/P2PLayers.v ===== *)
(** * P2P/: requests to many servers at once

    The requests without segments: [P2P::process] for one request to every
    server, [requestAll], the broadcasts of P2P_Simple.cpp and P2P_Ips.cpp, and
    the table that gives each thread of a download of P2P_Ips its own curl
    instance.  [parallelFor] runs its body once on each server, in several
    threads and in any order; the bodies share only what they change in one
    locked section at their end, so a run is a sequence of whole bodies, in any
    order.  Covered are the runs in which every body returns.  curl is a
    parameter: what a request to a URL may give, a response or an exception. *)
From S2P Require Import Prelude P2P Graph.
#[local] Open Scope Z_scope.

(* src: P2P/P2P.h:41-51 SendAllResult::SendOneResult *)
Record SendOneResult := mkSendOneResult {
  so_server : bytes;
  so_response : ResponseParse;
  so_time : Z;
}.

(* src: P2P/P2P.h:40-54 SendAllResult *)
Record SendAllResult := mkSendAllResult {
  sa_results : list SendOneResult;
}.

Section layers.

(** What a request to a URL may give. *)
Variable curl : bytes -> Query -> res bytes -> Prop.

(** The layer's private [request]: an empty server is refused. *)
(* src: P2P/P2P_Ips.cpp:28-37 P2P_Ips::request *)
Definition layer_reply (server : bytes) (q : Query) (reply : res bytes) : Prop :=
  match make_url server (fst q) with
  | Ok url => curl url q reply
  | Throw e => reply = Throw e
  | UB => reply = UB
  | OutOfFuel => reply = OutOfFuel
  end.

(** ** One request to every server *)

(** The body, up to the locked section. *)
(* src: P2P/P2P.cpp:105-116 P2P::process, parallelFor body *)
Definition one_result (server : bytes) (reply : res bytes) (time : Z) : res SendOneResult :=
  r ← try_catch (response ← reply; Ok (mkResponseParse response None))
        (fun e => Ok (mkResponseParse [] (Some e)));
  Ok (mkSendOneResult server r time).

(** One body, whole: the servers that wait, and the results so far. *)
(* src: P2P/P2P.cpp:103-117 P2P::process, parallelFor *)
Inductive all_step (q : Query) : list bytes * list SendOneResult -> list bytes * list SendOneResult -> Prop :=
  | all_step_one before server after reply time r results :
      layer_reply server q reply -> one_result server reply time = Ok r ->
      all_step q (before ++ server :: after, results) (before ++ after, results ++ [r]).

(* src: P2P/P2P.cpp:99-121 P2P::process *)
Inductive process_all (requestServers : list bytes) (q : Query) : SendAllResult -> Prop :=
  | process_all_run results :
      rtc (all_step q) (requestServers, []) ([], results) ->
      process_all requestServers q (mkSendAllResult results).

(** The layers ask the additional servers only, in the order of the set. *)
(* src: P2P/P2P_Ips.cpp:138-151 P2P_Ips::requestAll *)
Definition Ips_requestAll (q : Query) (additionalServers : list bytes) : SendAllResult -> Prop :=
  process_all additionalServers q.

(* src: P2P/P2P_Simple.cpp:68-81 P2P_Simple::requestAll *)
Definition Simple_requestAll (q : Query) (additionalServers : list bytes) : SendAllResult -> Prop :=
  process_all additionalServers q.

(* src: P2P/P2P_Graph.cpp:135-148 P2P_Graph::requestAll *)
Definition Graph_requestAll (q : Query) (additionalServers : list bytes) : SendAllResult -> Prop :=
  process_all additionalServers q.

(** ** Broadcasts of the layers without a graph *)

Section broadcast_all.
Context {S : Type}.
Variable callback : bytes -> bytes -> option bytes -> meth S unit.
Variable checkStopSignal : meth S unit.

(** A failed request ends the body after its callback. *)
(* src: P2P/P2P_Ips.cpp:41-49 P2P_Ips::broadcast, parallelFor body *)
Definition broadcast_body (server : bytes) (q : Query) (reply : res bytes) : meth S unit :=
  (let* answered := ask (fun _ _ => mlift reply) callback server q in
   if answered : bool then checkStopSignal else mret' tt)%meth.

(* src: P2P/P2P_Ips.cpp:40-50 P2P_Ips::broadcast, parallelFor *)
Inductive broadcast_step (q : Query) : list bytes * S -> list bytes * S -> Prop :=
  | broadcast_step_one before server after reply s s' :
      layer_reply server q reply -> broadcast_body server q reply s = (s', Ok tt) ->
      broadcast_step q (before ++ server :: after, s) (before ++ after, s').

(* src: P2P/P2P_Ips.cpp:39-53 P2P_Ips::broadcast *)
Inductive Ips_broadcast (servers : list bytes) (q : Query) (s : S) : S -> res unit -> Prop :=
  | Ips_broadcast_run s1 :
      rtc (broadcast_step q) (servers, s) ([], s1) ->
      Ips_broadcast servers q s (fst (checkStopSignal s1)) (snd (checkStopSignal s1)).

(** P2P_Simple's is the same, over the list its constructor refuses when empty. *)
(* src: P2P/P2P_Simple.cpp:37-51 P2P_Simple::broadcast *)
Definition Simple_broadcast (ips : list bytes) (q : Query) (s : S) : S -> res unit -> Prop :=
  Ips_broadcast ips q s.

End broadcast_all.

(* src: P2P/P2P_Ips.cpp:55-57 P2P_Ips::runOneRequest *)
Definition Ips_runOneRequest (server : bytes) (q : Query) : res bytes -> Prop := layer_reply server q.

(* src: P2P/P2P_Simple.cpp:53-55 P2P_Simple::runOneRequest *)
Definition Simple_runOneRequest (server : bytes) (q : Query) : res bytes -> Prop := layer_reply server q.

End layers.

(* src: P2P/P2P_Simple.cpp:16-24 P2P_Simple::P2P_Simple *)
Definition P2P_Simple (ips : list bytes) : res (list bytes) :=
  _ ← CHECK (negb (bool_decide (ips = []))) (str "ips empty");
  Ok ips.

(** ** The curl instances of P2P_Ips

    An instance is the number [Curl::getInstance()] made it under. *)

Abbreviation Curls := (gmap bytes (list nat)).

(* src: P2P/P2P_Ips.cpp:22-24 P2P_Ips::P2P_Ips, for over connections *)
Fixpoint add_instances (n : nat) (server : bytes) (made : nat) (curls : Curls) : nat * Curls :=
  match n with
  | O => (made, curls)
  | S n => add_instances n server (S made) (<[server := default [] (curls !! server) ++ [made]]> curls)
  end.

(* src: P2P/P2P_Ips.cpp:21-25 P2P_Ips::P2P_Ips, for over servers *)
Fixpoint add_servers (servers : list bytes) (countConnections : nat) (made : nat) (curls : Curls) : nat * Curls :=
  match servers with
  | [] => (made, curls)
  | server :: rest =>
      let '(made, curls) := add_instances countConnections server made curls in
      add_servers rest countConnections made curls
  end.

(* src: P2P/P2P_Ips.h:43-47 P2P_Ips *)
Record Ips := mkIps {
  ips_servers : list bytes;
  ips_countConnections : nat;
  ips_curls : Curls;
}.

(* src: P2P/P2P_Ips.cpp:14-26 P2P_Ips::P2P_Ips *)
Definition P2P_Ips (servers : list bytes) (countConnections : nat) : res Ips :=
  _ ← CHECK (negb (Nat.eqb countConnections 0)) (str "Incorrect count connections: 0");
  Ok (mkIps servers countConnections (snd (add_servers servers countConnections 0 ∅))).

(** [curlsDistribution]: of each server, the threads and their instances. *)
Abbreviation Distribution := (gmap bytes (gmap nat nat)).

(** [operator[]] makes an empty map for a new server; the right-hand side of
    the assignment is evaluated first, so a new thread gets the number of the
    threads before it. *)
(* src: P2P/P2P_Ips.cpp:85-91 P2P_Ips::requestImpl, curlDist *)
Definition curl_index (server : bytes) (threadNumber : nat) : meth Distribution nat := fun dist =>
  let curlDist := default ∅ (dist !! server) in
  let curlDist :=
    match curlDist !! threadNumber with
    | None => <[threadNumber := size curlDist]> curlDist
    | Some _ => curlDist
    end in
  (<[server := curlDist]> dist, opt_ub (curlDist !! threadNumber)).

(** The instance the request of a thread is made with. *)
(* src: P2P/P2P_Ips.cpp:82-94 P2P_Ips::requestImpl, requestFunction *)
Definition thread_curl (ips : Ips) (threadNumber : nat) (server : bytes) : meth Distribution nat :=
  (let* foundCurl := mlift (match ips_curls ips !! server with
                            | Some found => Ok found
                            | None => throwErr (str "curl instance not found")
                            end) in
   let* indexInCurls := curl_index server threadNumber in
   do* mlift (CHECK (Nat.ltb indexInCurls (length foundCurl)) (str "curl instance not found")) in
   mlift (opt_ub (foundCurl !! indexInCurls)))%meth.

(** ** Downloads of P2P_Ips

    The threads of [P2P.process], each with its instance: the steps that make no
    request are the machine's own. *)

Section download.
Variable ips : Ips.
Variable requestServers : list bytes.
Variable makeQsAndPost : Z -> Z -> res Query.
Variable responseParse : bytes -> res ResponseParse.
Variable isPrecisionSize : bool.
Variable replies : bytes -> Query -> res bytes -> Prop.

(* src: P2P/P2P_Ips.cpp:81-101 P2P_Ips::requestImpl, requestFunction *)
Definition Ips_requestFunction (threadNumber : nat) (server : bytes) (segment : Segment) (reply : res bytes)
    (answers : list bytes) : meth Distribution (list bytes) :=
  (let* _ := thread_curl ips threadNumber server in
   mlift (requestFunction responseParse isPrecisionSize segment reply answers))%meth.

Inductive Ips_step : PState * Distribution -> PState * Distribution -> Prop :=
  | Ips_step_other s s' dist :
      pstep requestServers makeQsAndPost responseParse isPrecisionSize (fun _ _ _ => False) s s' ->
      Ips_step (s, dist) (s', dist)
  | Ips_step_success t seg q srv reply answers s dist dist' :
      p_threads s !! t = Some (TBusy seg q) -> requestServers !! t = Some srv -> replies srv q reply ->
      Ips_requestFunction t srv seg reply (p_answers s) dist = (dist', Ok answers) ->
      Ips_step (s, dist) (with_thread t TIdle
        (mkPState (p_toPush s) (p_queue s) (p_threads s) (p_countSuccess s + 1) answers), dist')
  | Ips_step_fail t seg q srv reply e s dist dist' :
      p_threads s !! t = Some (TBusy seg q) -> requestServers !! t = Some srv -> replies srv q reply ->
      Ips_requestFunction t srv seg reply (p_answers s) dist = (dist', Throw (ExcCommon e)) ->
      Ips_step (s, dist) (with_thread t (TPutBack seg) s, dist')
  | Ips_step_lose t seg q srv reply e s dist dist' :
      p_threads s !! t = Some (TBusy seg q) -> requestServers !! t = Some srv -> replies srv q reply ->
      Ips_requestFunction t srv seg reply (p_answers s) dist = (dist', Throw e) ->
      (forall m, e <> ExcCommon m) ->
      Ips_step (s, dist) (with_thread t TExited
        (mkPState (p_toPush s) (p_queue s) (p_threads s) (p_countSuccess s) (p_answers s)), dist').

Inductive Ips_process (segments : list Segment) (countAnswers : nat) : list bytes -> bool -> Prop :=
  | Ips_process_run s dist :
      rtc Ips_step (process_start requestServers segments countAnswers, ∅) (s, dist) ->
      process_done segments s ->
      Ips_process segments countAnswers (p_answers s) (bool_decide (p_countSuccess s = blen segments)).

End download.

Section requests.
Variable ips : Ips.
Variable responseParse : bytes -> res ResponseParse.
Variable replies : bytes -> Query -> res bytes -> Prop.
Variable hintsServers : list bytes.

#[local] Abbreviation servers_list := (Ips_getServersList (ips_countConnections ips) hintsServers).

(* src: P2P/P2P_Ips.cpp:67-109 P2P_Ips::requestImpl *)
Inductive Ips_requestImpl (makeQsAndPost : Z -> Z -> res Query) (isPrecisionSize : bool)
    (responseSize minResponseSize : Z) : res (list bytes) -> Prop :=
  | Ips_requestImpl_refused r :
      prepare servers_list responseSize minResponseSize = r -> is_ok r = false ->
      Ips_requestImpl makeQsAndPost isPrecisionSize responseSize minResponseSize (_ ← r; Ok [])
  | Ips_requestImpl_run requestServers segments answers isSuccess :
      prepare servers_list responseSize minResponseSize = Ok (requestServers, segments) ->
      Ips_process ips requestServers makeQsAndPost responseParse isPrecisionSize replies segments
        (Z.to_nat (count_segments requestServers responseSize minResponseSize)) answers isSuccess ->
      Ips_requestImpl makeQsAndPost isPrecisionSize responseSize minResponseSize
        (_ ← CHECK isSuccess (str "dont run request"); Ok answers).

(* src: P2P/P2P_Ips.cpp:111-126 P2P_Ips::request *)
Inductive Ips_request (responseSize : Z) (isPrecisionSize : bool) (makeQsAndPost : Z -> Z -> res Query)
    : res bytes -> Prop :=
  | Ips_request_run r :
      Ips_requestImpl makeQsAndPost isPrecisionSize responseSize MIN_RESPONSE_SIZE r ->
      Ips_request responseSize isPrecisionSize makeQsAndPost
        (answers ← r; join_answers responseSize isPrecisionSize answers).

(* src: P2P/P2P_Ips.cpp:128-136 P2P_Ips::requests *)
Inductive Ips_requests (countRequests : Z) (makeQsAndPost : Z -> res Query) : res (list bytes) -> Prop :=
  | Ips_requests_run r :
      Ips_requestImpl (makeQsAndPortImpl makeQsAndPost) false countRequests 1 r ->
      Ips_requests countRequests makeQsAndPost
        (answers ← r;
         _ ← CHECK (blen answers =? countRequests) (str "Incorrect count answers");
         Ok answers).

End requests.
