(* ===== verification/P2PLayersFacts.v ===== *)
(** * Requests to many servers at once: facts

    Whatever the order of the bodies, every server is asked once; the threads of
    a download of P2P_Ips never share a curl instance and never lack one, so
    that these downloads are those of the segment machine. *)
From S2P Require Import Prelude P2P P2PFacts Graph P2PLayers.
#[local] Open Scope Z_scope.

(** ** One request to every server *)

Section all.
Variable curl : bytes -> Query -> res bytes -> Prop.

(** What a result says of the request it came from. *)
Definition result_of (q : Query) (r : SendOneResult) : Prop :=
  exists reply time, layer_reply curl (so_server r) q reply /\ one_result (so_server r) reply time = Ok r.

Lemma one_result_server server reply time r : one_result server reply time = Ok r -> so_server r = server.
Proof. unfold one_result. intros Hr. apply bind_Ok_inv in Hr as (x & _ & [= <-]). done. Qed.

Lemma all_step_results q s s' :
  rtc (all_step curl q) s s' -> exists new, s'.2 = s.2 ++ new /\
    (so_server <$> new) ++ s'.1 ≡ₚ s.1 /\ Forall (result_of q) new.
Proof.
  induction 1 as [s|s s1 s2 Hstep _ (new & Hn & Hp & Hf)]; [exists []; by rewrite app_nil_r|].
  destruct Hstep as [before server after reply time r results Hl Hr]. cbn [fst snd] in *.
  pose proof (one_result_server _ _ _ _ Hr) as Hs. exists (r :: new).
  split; [by rewrite Hn, <- app_assoc|]. split.
  - cbn [fmap list_fmap app]. rewrite Hp, Hs. by rewrite Permutation_middle.
  - constructor; [|done]. exists reply, time. by rewrite Hs.
Qed.

(** Every server that was asked has one result, the one its reply gives. *)
Lemma process_all_spec servers q result :
  process_all curl servers q result ->
  so_server <$> sa_results result ≡ₚ servers /\ Forall (result_of q) (sa_results result).
Proof.
  intros [results Hr]. apply all_step_results in Hr as (new & Hn & Hp & Hf). cbn [fst snd app] in *.
  subst results. by rewrite app_nil_r in Hp.
Qed.

(** And when every server answers, or fails with the program's own exception,
    there is such a run. *)
Lemma process_all_run_exists servers q :
  (forall server, server ∈ servers -> exists reply, layer_reply curl server q reply /\
     ((exists response, reply = Ok response) \/ exists e, reply = Throw (ExcCommon e))) ->
  exists result, process_all curl servers q result.
Proof.
  intros Hall. enough (forall rs, exists results, rtc (all_step curl q) (servers, rs) ([], results)) as Hr.
  { destruct (Hr []) as [results Hr']. by exists (mkSendAllResult results). }
  induction servers as [|server servers IH]; intros rs; [by exists rs|].
  destruct (Hall server ltac:(by left)) as (reply & Hl & Hreply).
  assert (exists r, one_result server reply 0 = Ok r) as [r Hr]
    by (destruct Hreply as [[? ->]|[? ->]]; by eexists).
  destruct (IH ltac:(intros s Hs; apply Hall; by right) (rs ++ [r])) as [results Hrun].
  exists results. eapply rtc_l; [|exact Hrun]. apply (all_step_one curl q [] server servers reply 0); done.
Qed.

End all.

(** ** Broadcasts *)

Section broadcast.
Variable curl : bytes -> Query -> res bytes -> Prop.
Context {W : Type}.
Variable checkStopSignal : meth W unit.

(** The call of the callback a reply leads to. *)
Definition event_of (server : bytes) (reply : res bytes) : option Event :=
  match reply with
  | Ok response => Some (server, response, None)
  | Throw (ExcCommon e) => Some (server, [], Some e)
  | _ => None
  end.

Definition event_from (q : Query) (e : Event) : Prop :=
  exists reply, layer_reply curl (event_server e) q reply /\ event_of (event_server e) reply = Some e.

Lemma broadcast_body_event server q reply s s' :
  layer_reply curl server q reply ->
  broadcast_body (S := W * list Event) record_event (on_world checkStopSignal) server q reply s = (s', Ok tt) ->
  exists e, s'.2 = s.2 ++ [e] /\ event_server e = server /\ event_from q e.
Proof.
  unfold layer_reply, broadcast_body, ask, graph_send, mbind', mlift, record_event, on_world, mret'.
  intros Hl. assert (forall e r, event_of server r = Some e -> layer_reply curl server q r ->
    event_server e = server /\ event_from q e) as Hev.
  { intros e r He Hr. assert (event_server e = server) as Hs; [|by split; [|exists r; rewrite Hs]].
    by destruct r as [|[]| |]; cbn in He; [injection He as <-..| | | | |]. }
  unfold layer_reply in Hev. destruct (make_url server q.1) as [url|x| |] eqn:Hu; cbn [mbind'].
  - destruct reply as [response|[m| | |]| |]; cbn; intros Hb; try done.
    + destruct (checkStopSignal s.1) as [w r]. injection Hb as <- ->. cbn. eexists. split; [done|].
      by apply (Hev _ (Ok response)).
    + injection Hb as <-. cbn. eexists. split; [done|]. by apply (Hev _ (Throw (ExcCommon m))).
  - destruct x; cbn; intros Hb; try done. injection Hb as <-. cbn. eexists. split; [done|].
    by eapply (Hev _ (Throw (ExcCommon _))).
  - done.
  - done.
Qed.

(** A broadcast calls its callback once for each server, in any order. *)
Lemma Ips_broadcast_events servers q s s' r :
  Ips_broadcast (S := W * list Event) curl record_event (on_world checkStopSignal) servers q s s' r ->
  exists events, s'.2 = s.2 ++ events /\ event_server <$> events ≡ₚ servers /\ Forall (event_from q) events.
Proof.
  intros [s1 Hr]. enough (exists events, s1.2 = s.2 ++ events /\ event_server <$> events ≡ₚ servers /\
    Forall (event_from q) events) as (events & He & Hp).
  { exists events. split; [|done]. unfold on_world. destruct (checkStopSignal s1.1). exact He. }
  enough (forall x y, rtc (broadcast_step curl record_event (on_world checkStopSignal) q) x y ->
    exists events, y.2.2 = x.2.2 ++ events /\ (event_server <$> events) ++ y.1 ≡ₚ x.1 /\
      Forall (event_from q) events) as Hx.
  { destruct (Hx _ _ Hr) as (events & He & Hp & Hf). exists events. cbn in *. by rewrite app_nil_r in Hp. }
  clear. induction 1 as [x|x y z Hstep _ (events & He & Hp & Hf)]; [exists []; by rewrite app_nil_r|].
  destruct Hstep as [before server after reply s1 s2 Hl Hb]. cbn [fst snd] in *.
  destruct (broadcast_body_event _ _ _ _ _ Hl Hb) as (e & Hs2 & Hsrv & Hfrom).
  exists (e :: events). split; [by rewrite He, Hs2, <- app_assoc|]. split; [|by constructor].
  cbn [fmap list_fmap app]. by rewrite Hp, Hsrv, Permutation_middle.
Qed.

End broadcast.

(** ** The curl instances of P2P_Ips *)

(** The instances made so far: of one server each its own, of two servers
    different ones. *)
Record curls_ok (made : nat) (curls : Curls) : Prop := {
  co_below : forall server l c, curls !! server = Some l -> c ∈ l -> (c < made)%nat;
  co_NoDup : forall server l, curls !! server = Some l -> NoDup l;
  co_own : forall s1 s2 l1 l2 c, curls !! s1 = Some l1 -> curls !! s2 = Some l2 -> c ∈ l1 -> c ∈ l2 -> s1 = s2;
}.

Definition instances (curls : Curls) (server : bytes) : list nat := default [] (curls !! server).

Lemma add_instance_ok made curls server :
  curls_ok made curls -> curls_ok (S made) (<[server := instances curls server ++ [made]]> curls).
Proof.
  intros [Hb Hn Ho]. assert (forall c, c ∈ instances curls server -> (c < made)%nat) as Hold.
  { unfold instances. intros c Hc. destruct (curls !! server) as [l|] eqn:E; [by eapply Hb|by apply elem_of_nil in Hc]. }
  assert (forall s l c, <[server:=instances curls server ++ [made]]> curls !! s = Some l -> c ∈ l ->
    (c = made /\ s = server) \/ exists l', curls !! s = Some l' /\ c ∈ l') as Hin.
  { intros s l c. destruct (decide (server = s)) as [<-|Hne].
    - rewrite lookup_insert_eq. intros [= <-] [Hc| ->%list_elem_of_singleton]%elem_of_app; [right|by left].
      unfold instances in Hc. destruct (curls !! server) as [l|]; [by exists l|by apply elem_of_nil in Hc].
    - rewrite lookup_insert_ne by done. intros Hl Hc. right. by exists l. }
  split.
  - intros s l c Hl Hc. destruct (Hin _ _ _ Hl Hc) as [[-> _]|(l' & Hl' & Hc')]; [lia|].
    specialize (Hb _ _ _ Hl' Hc'). lia.
  - intros s l. destruct (decide (server = s)) as [<-|Hne].
    + rewrite lookup_insert_eq. intros [= <-]. apply NoDup_app. split; [|split; [|apply NoDup_singleton]].
      * unfold instances. destruct (curls !! server) as [l|] eqn:E; [by eapply Hn|constructor].
      * intros c Hc ->%list_elem_of_singleton. specialize (Hold _ Hc). lia.
    + rewrite lookup_insert_ne by done. apply Hn.
  - intros s1 s2 l1 l2 c Hl1 Hl2 Hc1 Hc2.
    destruct (Hin _ _ _ Hl1 Hc1) as [[-> ->]|(l1' & Hl1' & Hc1')];
      destruct (Hin _ _ _ Hl2 Hc2) as [[E ->]|(l2' & Hl2' & Hc2')]; [done|..].
    + specialize (Hb _ _ _ Hl2' Hc2'). lia.
    + subst. specialize (Hb _ _ _ Hl1' Hc1'). lia.
    + by eapply Ho.
Qed.

Lemma add_instances_ok n server made curls made' curls' :
  curls_ok made curls -> add_instances n server made curls = (made', curls') ->
  curls_ok made' curls' /\ forall s,
    length (instances curls' s) = (length (instances curls s) + (if decide (s = server) then n else 0))%nat.
Proof.
  revert made curls. induction n as [|n IH]; intros made curls Hc; cbn [add_instances].
  { intros [= <- <-]. split; [done|]. intros s. case_decide; lia. }
  intros Ha. destruct (IH _ _ (add_instance_ok _ _ server Hc) Ha) as [Hok Hl]. split; [done|].
  intros s. rewrite Hl. unfold instances at 1. case_decide as Hs.
  - subst s. rewrite lookup_insert_eq. cbn. rewrite length_app. cbn. unfold instances. lia.
  - rewrite lookup_insert_ne by done. unfold instances. lia.
Qed.

(** How often a server is in a list. *)
Definition times (server : bytes) (l : list bytes) : nat := length (filter (fun s => s = server) l).

Lemma times_cons server s l : times server (s :: l) = ((if decide (server = s) then 1 else 0) + times server l)%nat.
Proof. unfold times. rewrite filter_cons. by repeat case_decide; subst. Qed.

Lemma times_app server l k : times server (l ++ k) = (times server l + times server k)%nat.
Proof. unfold times. by rewrite filter_app, length_app. Qed.

Lemma add_servers_ok servers n made curls made' curls' :
  curls_ok made curls -> add_servers servers n made curls = (made', curls') ->
  curls_ok made' curls' /\ forall s,
    length (instances curls' s) = (length (instances curls s) + n * times s servers)%nat.
Proof.
  revert made curls. induction servers as [|server servers IH]; intros made curls Hc; cbn [add_servers].
  { intros [= <- <-]. split; [done|]. intros s. cbn. lia. }
  destruct (add_instances n server made curls) as [made1 curls1] eqn:Hi.
  destruct (add_instances_ok _ _ _ _ _ _ Hc Hi) as [Hc1 Hl1]. intros Ha.
  destruct (IH _ _ Hc1 Ha) as [Hok Hl]. split; [done|]. intros s. rewrite Hl, Hl1, times_cons.
  case_decide; lia.
Qed.

(** What the constructor promises. *)
Lemma P2P_Ips_curls servers n ips :
  P2P_Ips servers n = Ok ips ->
  ips_servers ips = servers /\ ips_countConnections ips = n /\ n <> 0%nat /\
  (exists made, curls_ok made (ips_curls ips)) /\
  forall s, length (instances (ips_curls ips) s) = (n * times s servers)%nat.
Proof.
  unfold P2P_Ips. intros Hp. apply bind_Ok_inv in Hp as (u & Hc & [= <-]). cbn.
  apply CHECK_Ok_inv, negb_true_iff, Nat.eqb_neq in Hc.
  destruct (add_servers servers n 0 ∅) as [made curls] eqn:Ha.
  destruct (add_servers_ok _ _ _ _ _ _ (Build_curls_ok 0 ∅ ltac:(by intros ? ? ? ?%lookup_empty_Some)
    ltac:(by intros ? ? ?%lookup_empty_Some) ltac:(by intros ? ? ? ? ? ?%lookup_empty_Some)) Ha) as [Hok Hl].
  cbn. repeat split; [done|by exists made|done].
Qed.

(** The positions of one server in a list are no more than its occurrences. *)
Lemma positions_le (x : bytes) (l : list bytes) (X : gset nat) :
  (forall t, t ∈ X -> l !! t = Some x) -> (size X <= times x l)%nat.
Proof.
  revert X. induction l as [|y l IH] using rev_ind; intros X HX.
  { destruct (decide (X = ∅)) as [->|Hne]; [by rewrite size_empty|].
    apply set_choose_L in Hne as [t Ht]. by specialize (HX t Ht). }
  rewrite times_app. assert (size (X ∖ {[length l]}) <= times x l)%nat as Hle.
  { apply IH. intros t [Ht Hn]%elem_of_difference. specialize (HX t Ht).
    rewrite lookup_app_l in HX; [done|]. apply lookup_lt_Some in HX. rewrite length_app in HX. cbn in HX.
    apply not_elem_of_singleton in Hn. lia. }
  destruct (decide (length l ∈ X)) as [Hin|Hin].
  - pose proof (HX _ Hin) as Hy. rewrite lookup_app_r, Nat.sub_diag in Hy by lia. injection Hy as ->.
    rewrite times_cons. rewrite decide_True by done.
    assert (X = {[length l]} ∪ X ∖ {[length l]}) as -> by (apply union_difference_L; set_solver).
    rewrite size_union by set_solver. rewrite size_singleton. lia.
  - replace (X ∖ {[length l]}) with X in Hle by set_solver. lia.
Qed.

Section threads.
Variable ips : Ips.
Variable requestServers : list bytes.
Hypothesis Hcurls : exists made, curls_ok made (ips_curls ips).
Hypothesis Henough : forall s, (times s requestServers <= length (instances (ips_curls ips) s))%nat.

(** A server's threads have different indices below their number. *)
Definition dist_ok (dist : Distribution) : Prop :=
  forall server m, dist !! server = Some m ->
    (forall t i, m !! t = Some i -> requestServers !! t = Some server /\ (i < size m)%nat) /\
    (forall t1 t2 i, m !! t1 = Some i -> m !! t2 = Some i -> t1 = t2).

Definition index_of (dist : Distribution) (server : bytes) (t : nat) : option nat :=
  dist !! server ≫= fun m => m !! t.

Definition dist_le (d1 d2 : Distribution) : Prop :=
  forall s t i, index_of d1 s t = Some i -> index_of d2 s t = Some i.

#[export] Instance dist_le_preorder : PreOrder dist_le.
Proof. split; [by intros d s t i|]. intros d1 d2 d3 H12 H23 s t i Hi. by apply H23, H12. Qed.

Lemma dist_ok_size dist server m :
  dist_ok dist -> dist !! server = Some m -> (size m <= times server requestServers)%nat.
Proof.
  intros Hd Hm. rewrite <- size_dom. apply positions_le. intros t Ht.
  apply elem_of_dom in Ht as [i Hi]. by apply (proj1 (Hd _ _ Hm) t i).
Qed.

Lemma index_insert dist server m s t :
  index_of (<[server := m]> dist) s t = if decide (s = server) then m !! t else index_of dist s t.
Proof.
  unfold index_of. case_decide as Hs; [subst; by rewrite lookup_insert_eq|].
  by rewrite lookup_insert_ne.
Qed.

Lemma curl_index_ok dist server t :
  dist_ok dist -> requestServers !! t = Some server ->
  exists i dist', curl_index server t dist = (dist', Ok i) /\ dist_ok dist' /\ dist_le dist dist' /\
    index_of dist' server t = Some i /\ (i < times server requestServers)%nat.
Proof.
  intros Hd Ht. unfold curl_index. set (m := default ∅ (dist !! server)).
  assert (forall u i, m !! u = Some i -> requestServers !! u = Some server /\ (i < size m)%nat) as Hm1.
  { unfold m. intros u i. destruct (dist !! server) as [m0|] eqn:E; cbn; [apply (Hd _ _ E)|].
    by intros ?%lookup_empty_Some. }
  assert (forall t1 t2 i, m !! t1 = Some i -> m !! t2 = Some i -> t1 = t2) as Hm2.
  { unfold m. intros t1 t2 i. destruct (dist !! server) as [m0|] eqn:E; cbn; [apply (Hd _ _ E)|].
    by intros ?%lookup_empty_Some. }
  set (m' := match m !! t with None => <[t := size m]> m | Some _ => m end).
  assert (exists i, m' !! t = Some i) as [i Hi].
  { unfold m'. destruct (m !! t) as [i|] eqn:E; [by exists i|]. exists (size m). by rewrite lookup_insert_eq. }
  assert (forall u j, m !! u = Some j -> m' !! u = Some j) as Hle.
  { intros u j Hu. unfold m'. destruct (m !! t) as [k|] eqn:E; [done|].
    rewrite lookup_insert_ne; [done|]. intros <-. by rewrite E in Hu. }
  assert (dist_ok (<[server := m']> dist)) as Hok.
  { intros s m0. destruct (decide (server = s)) as [<-|Hne]; [|rewrite lookup_insert_ne by done; apply Hd].
    rewrite lookup_insert_eq. intros [= <-]. unfold m'. destruct (m !! t) as [k|] eqn:E; [by split|].
    rewrite map_size_insert_None by done. split.
    - intros u j. destruct (decide (t = u)) as [<-|Hu].
      + rewrite lookup_insert_eq. intros [= <-]. split; [done|lia].
      + rewrite lookup_insert_ne by done. intros Hj. destruct (Hm1 _ _ Hj). split; [done|lia].
    - intros t1 t2 j. destruct (decide (t = t1)) as [<-|H1]; destruct (decide (t = t2)) as [<-|H2]; [done|..].
      + rewrite lookup_insert_eq, lookup_insert_ne by done. intros [= <-] Hj.
        destruct (Hm1 _ _ Hj). lia.
      + rewrite lookup_insert_eq, lookup_insert_ne by done. intros Hj [= <-].
        destruct (Hm1 _ _ Hj). lia.
      + rewrite !lookup_insert_ne by done. apply Hm2. }
  exists i, (<[server := m']> dist). rewrite Hi. split; [done|]. split; [done|]. split; [|split].
  - intros s u j. rewrite index_insert. case_decide as Hs; [|done]. subst s. unfold index_of.
    intros Hu. apply Hle. unfold m. destruct (dist !! server); [done|discriminate Hu].
  - rewrite index_insert, decide_True by done. done.
  - pose proof (dist_ok_size _ server m' Hok ltac:(by rewrite lookup_insert_eq)) as Hsz.
    destruct (Hok server m' ltac:(by rewrite lookup_insert_eq)) as [H1 _].
    destruct (H1 _ _ Hi). lia.
Qed.

(** The instance a thread has, once it made a request. *)
Definition assigned (dist : Distribution) (t : nat) (c : nat) : Prop :=
  exists server i l, requestServers !! t = Some server /\ index_of dist server t = Some i /\
    ips_curls ips !! server = Some l /\ l !! i = Some c.

Lemma assigned_le d1 d2 t c : dist_le d1 d2 -> assigned d1 t c -> assigned d2 t c.
Proof. intros Hle (s & i & l & Hs & Hi & Hl). exists s, i, l. split; [done|]. split; [by apply Hle|done]. Qed.

Lemma assigned_own dist t1 t2 c : dist_ok dist -> assigned dist t1 c -> assigned dist t2 c -> t1 = t2.
Proof.
  intros Hd (s1 & i1 & l1 & _ & Hi1 & Hl1 & Hc1) (s2 & i2 & l2 & _ & Hi2 & Hl2 & Hc2).
  destruct Hcurls as [made Hok].
  assert (s1 = s2) as <-.
  { eapply (co_own _ _ Hok _ _ l1 l2 c); [done..|by eapply list_elem_of_lookup_2|by eapply list_elem_of_lookup_2]. }
  rewrite Hl1 in Hl2. injection Hl2 as <-.
  assert (i1 = i2) as <- by (eapply NoDup_lookup; [by eapply co_NoDup|done..]).
  unfold index_of in *. destruct (dist !! s1) as [m|] eqn:Hm; [|done]. by eapply (Hd _ _ Hm).
Qed.

Lemma assigned_fun dist t c1 c2 : assigned dist t c1 -> assigned dist t c2 -> c1 = c2.
Proof. intros (s1 & i1 & l1 & H1 & H2 & H3 & H4) (s2 & i2 & l2 & H5 & H6 & H7 & H8). congruence. Qed.

(** A thread always finds its instance. *)
Lemma thread_curl_ok dist server t :
  dist_ok dist -> requestServers !! t = Some server ->
  exists c dist', thread_curl ips t server dist = (dist', Ok c) /\ dist_ok dist' /\ dist_le dist dist' /\
    assigned dist' t c.
Proof.
  intros Hd Ht. destruct (curl_index_ok dist server t Hd Ht) as (i & dist' & Hi & Hok & Hle & Hidx & Hlt).
  unfold thread_curl, mbind', mlift. pose proof (Henough server) as He. unfold instances in He.
  destruct (ips_curls ips !! server) as [l|] eqn:Hl; cbn in He; [|lia]. rewrite Hi.
  rewrite (proj2 (Nat.ltb_lt i (length l))) by lia. cbn [CHECK].
  destruct (lookup_lt_is_Some_2 l i ltac:(lia)) as [c Hc]. rewrite Hc. cbn [opt_ub].
  exists c, dist'. split; [done|]. split; [done|]. split; [done|]. by exists server, i, l.
Qed.

End threads.

(** The requests of a download in the order in which they take the lock: the
    thread, and the instance it finds. *)
Fixpoint curls_taken (ips : Ips) (requestServers : list bytes) (threads : list nat)
    (dist : Distribution) : list (nat * res nat) :=
  match threads with
  | [] => []
  | t :: rest =>
      match requestServers !! t with
      | None => curls_taken ips requestServers rest dist
      | Some server =>
          let '(dist, r) := thread_curl ips t server dist in
          (t, r) :: curls_taken ips requestServers rest dist
      end
  end.

Lemma curls_taken_ok ips l threads dist :
  (forall s, (times s l <= length (instances (ips_curls ips) s))%nat) ->
  dist_ok l dist ->
  exists dist', dist_ok l dist' /\ dist_le dist dist' /\
    Forall (fun e => exists c, e.2 = Ok c /\ assigned ips l dist' e.1 c) (curls_taken ips l threads dist).
Proof.
  intros He. revert dist. induction threads as [|t threads IH]; intros dist Hd; cbn [curls_taken].
  { exists dist. split; [done|]. split; [done|constructor]. }
  destruct (l !! t) as [server|] eqn:Ht; [|by apply IH].
  destruct (thread_curl_ok ips l He dist server t Hd Ht) as (c & dist1 & Hc & Hd1 & Hle1 & Ha).
  rewrite Hc. destruct (IH dist1 Hd1) as (dist2 & Hd2 & Hle2 & Hf). exists dist2.
  split; [done|]. split; [by etrans|]. constructor; [|done]. exists c. split; [done|].
  by eapply assigned_le.
Qed.

Lemma dist_ok_empty l : dist_ok l ∅.
Proof. by intros s m ?%lookup_empty_Some. Qed.

(** As often as the hint names a server, for each connection. *)
Lemma times_servers_list n hints l s :
  Ips_getServersList n hints = Ok l -> times s l = (n * times s hints)%nat.
Proof.
  intros [= <-]. induction n as [|n IH]; [done|].
  change (mjoin (replicate (S n) hints)) with (hints ++ mjoin (replicate n hints)). rewrite times_app, IH. lia.
Qed.

Lemma times_submseteq s l k : l ⊆+ k -> (times s l <= times s k)%nat.
Proof.
  intros Hs. unfold times. apply submseteq_length.
  induction Hs as [|x l k _ IH|x y l|x l k _ IH|l k m _ IH1 _ IH2]; try done.
  - rewrite !filter_cons. case_decide; [by apply submseteq_skip|done].
  - rewrite !filter_cons. repeat case_decide; try done. apply submseteq_swap.
  - rewrite filter_cons. case_decide; [by apply submseteq_cons|done].
  - by etrans.
Qed.

(** What the constructor and a hint of known servers promise a download. *)
Lemma enough_curls servers n ips hints l :
  P2P_Ips servers n = Ok ips -> hints ⊆+ servers ->
  Ips_getServersList (ips_countConnections ips) hints = Ok l ->
  (exists made, curls_ok made (ips_curls ips)) /\
  forall s, (times s l <= length (instances (ips_curls ips) s))%nat.
Proof.
  intros Hp Hh Hl. destruct (P2P_Ips_curls _ _ _ Hp) as (_ & Hn & _ & Hok & Hi). split; [done|].
  intros s. rewrite Hi, (times_servers_list _ _ _ _ Hl), Hn. pose proof (times_submseteq s _ _ Hh). nia.
Qed.

(** ** The downloads are the segment machine's *)

Lemma pstep_replies servers mk parse precise (r1 r2 : bytes -> Query -> res bytes -> Prop) s s' :
  (forall srv q reply, r1 srv q reply -> r2 srv q reply) ->
  pstep servers mk parse precise r1 s s' -> pstep servers mk parse precise r2 s s'.
Proof.
  intros Hr [].
  - by econstructor.
  - by econstructor.
  - by eapply step_pop_throw.
  - eapply step_success; try done. by apply Hr.
  - eapply step_fail; try done. by apply Hr.
  - by apply step_put_back.
  - eapply step_lose; try done. by apply Hr.
Qed.

Section simulation.
Variable ips : Ips.
Variable l : list bytes.
Hypothesis He : forall s, (times s l <= length (instances (ips_curls ips) s))%nat.
Variable makeQs : Z -> Z -> res Query.
Variable parse : bytes -> res ResponseParse.
Variable precise : bool.
Variable replies : bytes -> Query -> res bytes -> Prop.

(** A thread has its instance, so what it makes of a reply is the machine's. *)
Lemma Ips_requestFunction_eq dist t srv seg reply answers :
  dist_ok l dist -> l !! t = Some srv ->
  exists dist', dist_ok l dist' /\
    Ips_requestFunction ips parse precise t srv seg reply answers dist =
      (dist', requestFunction parse precise seg reply answers).
Proof.
  intros Hd Ht. destruct (thread_curl_ok ips l He dist srv t Hd Ht) as (c & dist' & Hc & Hok & _).
  exists dist'. split; [done|]. unfold Ips_requestFunction, mbind', mlift. by rewrite Hc.
Qed.

Lemma Ips_step_sim s dist s' dist' :
  dist_ok l dist -> Ips_step ips l makeQs parse precise replies (s, dist) (s', dist') ->
  dist_ok l dist' /\ pstep l makeQs parse precise replies s s'.
Proof.
  intros Hd Hs. inversion Hs as [s0 s1 d Hstep|t seg q srv reply answers s0 d d' Ht Hl Hr Hf
    |t seg q srv reply e s0 d d' Ht Hl Hr Hf|t seg q srv reply e s0 d d' Ht Hl Hr Hf Hne]; subst.
  - split; [done|]. eapply pstep_replies; [|exact Hstep]. done.
  - destruct (Ips_requestFunction_eq dist t srv seg reply (p_answers s) Hd Hl) as (d1 & Hok & Heq).
    rewrite Heq in Hf. injection Hf as <- Hf. split; [done|]. by eapply step_success.
  - destruct (Ips_requestFunction_eq dist t srv seg reply (p_answers s) Hd Hl) as (d1 & Hok & Heq).
    rewrite Heq in Hf. injection Hf as <- Hf. split; [done|]. by eapply step_fail.
  - destruct (Ips_requestFunction_eq dist t srv seg reply (p_answers s) Hd Hl) as (d1 & Hok & Heq).
    rewrite Heq in Hf. injection Hf as <- Hf. split; [done|]. by eapply step_lose.
Qed.

Lemma pstep_Ips_step s dist s' :
  dist_ok l dist -> pstep l makeQs parse precise replies s s' ->
  exists dist', dist_ok l dist' /\ Ips_step ips l makeQs parse precise replies (s, dist) (s', dist').
Proof.
  intros Hd Hs. inversion Hs as [seg rest s0 Hp|t seg q1 q2 q s0 Ht Hq Hm|t seg q1 q2 e s0 Ht Hq Hm
    |t seg q srv reply answers s0 Ht Hl Hr Hf|t seg q srv reply e s0 Ht Hl Hr Hf|t seg s0 Ht Hq
    |t seg q srv reply e s0 Ht Hl Hr Hf Hne]; subst.
  - exists dist. split; [done|]. apply Ips_step_other. by apply step_push.
  - exists dist. split; [done|]. apply Ips_step_other. by apply step_pop.
  - exists dist. split; [done|]. apply Ips_step_other. by eapply step_pop_throw.
  - destruct (Ips_requestFunction_eq dist t srv seg reply (p_answers s) Hd Hl) as (d1 & Hok & Heq).
    exists d1. split; [done|]. eapply Ips_step_success; [done..|]. by rewrite Heq, Hf.
  - destruct (Ips_requestFunction_eq dist t srv seg reply (p_answers s) Hd Hl) as (d1 & Hok & Heq).
    exists d1. split; [done|]. eapply Ips_step_fail; [done..|]. by rewrite Heq, Hf.
  - exists dist. split; [done|]. apply Ips_step_other. by apply step_put_back.
  - destruct (Ips_requestFunction_eq dist t srv seg reply (p_answers s) Hd Hl) as (d1 & Hok & Heq).
    exists d1. split; [done|]. eapply Ips_step_lose; [done..|by rewrite Heq, Hf|done].
Qed.

Lemma Ips_process_eq segments count answers ok :
  Ips_process ips l makeQs parse precise replies segments count answers ok <->
  process l makeQs parse precise replies segments count answers ok.
Proof.
  split.
  - intros [s dist Hr Hd]. apply process_run; [|done].
    enough (forall x y, rtc (Ips_step ips l makeQs parse precise replies) x y -> dist_ok l x.2 ->
      rtc (pstep l makeQs parse precise replies) x.1 y.1) as Hx by (by apply (Hx _ _ Hr), dist_ok_empty).
    clear Hr Hd. induction 1 as [x|[s1 d1] [s2 d2] z Hstep _ IH]; [done|]. intros Hd. cbn [fst snd] in *.
    destruct (Ips_step_sim _ _ _ _ Hd Hstep) as [Hd2 Hs]. eapply rtc_l; [exact Hs|]. by apply IH.
  - intros [s Hr Hd].
    enough (forall x y, rtc (pstep l makeQs parse precise replies) x y -> forall d, dist_ok l d ->
      exists d', rtc (Ips_step ips l makeQs parse precise replies) (x, d) (y, d')) as Hx.
    { destruct (Hx _ _ Hr ∅ (dist_ok_empty l)) as [d' Hrun]. by eapply Ips_process_run. }
    clear Hr Hd. induction 1 as [x|x y z Hstep _ IH]; intros d Hd; [by exists d|].
    destruct (pstep_Ips_step _ _ _ Hd Hstep) as (d1 & Hd1 & Hs). destruct (IH d1 Hd1) as [d2 Hrun].
    exists d2. by eapply rtc_l.
Qed.

End simulation.

Section downloads.
Variables (servers : list bytes) (countConnections : nat) (ips : Ips) (hints : list bytes).
Hypothesis Hips : P2P_Ips servers countConnections = Ok ips.
Hypothesis Hhints : hints ⊆+ servers.

Lemma prepare_servers getServersList size minSize l segs :
  prepare getServersList size minSize = Ok (l, segs) -> getServersList = Ok l.
Proof.
  unfold prepare. intros Hp. apply bind_Ok_inv in Hp as (u & _ & Hp).
  apply bind_Ok_inv in Hp as (l' & Hl & Hp). by apply bind_Ok_inv in Hp as (s & _ & [= <- _]).
Qed.

Lemma Ips_requestImpl_eq parse replies makeQs precise size minSize r :
  Ips_requestImpl ips parse replies hints makeQs precise size minSize r <->
  requestImpl (Ips_getServersList countConnections hints) makeQs parse precise replies size minSize r.
Proof.
  destruct (P2P_Ips_curls _ _ _ Hips) as (_ & Hn & _).
  assert (forall l, Ips_getServersList countConnections hints = Ok l ->
    forall s, (times s l <= length (instances (ips_curls ips) s))%nat) as He.
  { intros l Hl. eapply (enough_curls _ _ _ _ l Hips Hhints). by rewrite Hn. }
  split; intros [r' Hp Hok|l segs answers ok Hp Hproc]; try rewrite Hn in *.
  - by apply requestImpl_refused.
  - eapply requestImpl_run; [exact Hp|]. apply Ips_process_eq in Hproc; [done|]. by eapply He, prepare_servers.
  - apply Ips_requestImpl_refused; [by rewrite Hn|done].
  - eapply Ips_requestImpl_run; [rewrite Hn; exact Hp|]. apply Ips_process_eq; [|done]. by eapply He, prepare_servers.
Qed.

Lemma Ips_request_eq parse replies size precise makeQs r :
  Ips_request ips parse replies hints size precise makeQs r <->
  p2p_request (Ips_getServersList countConnections hints) parse replies size precise makeQs r.
Proof. split; intros [r' Hr]; constructor; by apply Ips_requestImpl_eq. Qed.

Lemma Ips_requests_eq parse replies n makeQs r :
  Ips_requests ips parse replies hints n makeQs r <->
  p2p_requests (Ips_getServersList countConnections hints) parse replies n makeQs r.
Proof. split; intros [r' Hr]; constructor; by apply Ips_requestImpl_eq. Qed.

End downloads.

(** ** Every order is possible *)

Section order.
Variable serve : bytes -> Query -> res bytes.
Hypothesis Hserve : forall url q, (exists response, serve url q = Ok response) \/ exists e, serve url q = Throw (ExcCommon e).
Context {W : Type}.

#[local] Abbreviation stop := (mret' tt : meth W unit).
#[local] Abbreviation curl := (fun url q reply => reply = serve url q).

(** The calls of the callback when the servers are asked in this order. *)
Definition asked_in_order (q : Query) (order : list bytes) : list Event :=
  omap (fun s => event_of s (url ← make_url s q.1; serve url q)) order.

Lemma reply_event server q :
  exists reply e, layer_reply curl server q reply /\ event_of server (url ← make_url server q.1; serve url q) = Some e /\
    forall s : W * list Event,
      broadcast_body record_event (on_world stop) server q reply s = ((s.1, s.2 ++ [e]), Ok tt).
Proof.
  unfold layer_reply, broadcast_body, ask, graph_send, mbind', mlift, record_event, on_world, mret', make_url.
  destruct (negb (is_empty server)); cbn.
  2: { eexists _, _. split; [reflexivity|]. split; [reflexivity|]. reflexivity. }
  set (url := _ ++ q.1).
  destruct (Hserve url q) as [[response E]|[e E]]; eexists _, _; (split; [reflexivity|]); rewrite E;
    (split; [reflexivity|]); reflexivity.
Qed.

Lemma broadcast_in_order q order servers (s : W * list Event) :
  order ≡ₚ servers ->
  rtc (broadcast_step curl record_event (on_world stop) q) (servers, s)
    ([], (s.1, s.2 ++ asked_in_order q order)).
Proof.
  revert servers s. induction order as [|server order IH]; intros servers s Hp.
  { apply Permutation_nil_l in Hp as <-. change (asked_in_order q []) with (@nil Event).
    rewrite app_nil_r. by destruct s. }
  destruct (Permutation_cons_inv_l _ _ _ Hp) as (before & after & -> & Hp').
  destruct (reply_event server q) as (reply & e & Hl & He & Hb).
  eapply rtc_l; [apply (broadcast_step_one _ _ _ _ before server after reply s _ Hl (Hb s))|].
  unfold asked_in_order. csimpl. rewrite He. specialize (IH _ (s.1, s.2 ++ [e]) Hp').
  cbn [fst snd] in IH. by rewrite <- app_assoc in IH.
Qed.

Lemma Ips_broadcast_in_order q order servers (w : W) :
  order ≡ₚ servers ->
  Ips_broadcast curl record_event (on_world stop) servers q (w, []) (w, asked_in_order q order) (Ok tt).
Proof.
  intros Hp. pose proof (broadcast_in_order q order servers (w, []) Hp) as Hr.
  exact (Ips_broadcast_run _ _ _ _ _ _ _ Hr).
Qed.

End order.
