(* ===== verification/GetNewBlocks.v ===== *)
(** * BlockSource/GetNewBlocksFromServers.cpp: asking other nodes for blocks

    The last block the other nodes know, the headers of the next blocks (several
    at a time, in batches) and the dumps of blocks.  What the peer-to-peer layer
    does is behind the interface [P2PNet]; its laws are what P2PFacts proves of
    the downloads. *)
From S2P Require Import Prelude External BlockInfo P2P P2PFacts Graph Dumps JsonApi.
#[local] Open Scope Z_scope.

(** A literal of the source in which ['] stands for a double quote. *)
Definition js (s : string) : bytes :=
  (fun c => if decide (c = Byte.x27) then Byte.x22 else c) <$> str s.

(** ** The interface of the peer-to-peer layer

    [W] is the world a request changes.  A broadcast gives the calls of its
    callback, in order, and its outcome. *)
(* src: P2P/P2P.h:66-83 P2P *)
Class P2PNet (W : Type) := {
  net_broadcast : Query -> W -> W * list Event * res unit;
  net_runOneRequest : bytes -> Query -> meth W bytes;
  net_request : Z -> bool -> (Z -> Z -> res Query) -> (bytes -> res ResponseParse) -> list bytes -> meth W bytes;
  net_requests : Z -> (Z -> res Query) -> (bytes -> res ResponseParse) -> list bytes -> meth W (list bytes);
}.

(** A download that returns is one of the segment machine's, for some behaviour
    [net_replies] of the servers. *)
Class P2PNetLaws (W : Type) `{P2PNet W} := {
  net_replies : bytes -> Query -> res bytes -> Prop;
  net_servers : list bytes -> res (list bytes);
  net_request_run : forall n precise mk parse hints w w' r,
    net_request n precise mk parse hints w = (w', Ok r) ->
    p2p_request (net_servers hints) parse net_replies n precise mk (Ok r);
  net_requests_run : forall n mk parse hints w w' r,
    net_requests n mk parse hints w = (w', Ok r) ->
    p2p_requests (net_servers hints) parse net_replies n mk (Ok r);
}.

(* src: BlockSource/GetNewBlocksFromServers.cpp:20-20 ESTIMATE_SIZE_SIGNATURE *)
Definition ESTIMATE_SIZE_SIGNATURE : Z := 250.
(* src: BlockSource/GetNewBlocksFromServers.cpp:22-22 MAX_BLOCK_SIZE_WITHOUT_ADVANCE *)
Definition MAX_BLOCK_SIZE_WITHOUT_ADVANCE : Z := 100 * 1000.

(** ** The last block *)

(** [lr_lastBlock] is not set when there is an error. *)
(* src: BlockSource/GetNewBlocksFromServers.h:13-17 GetNewBlocksFromServer::LastBlockResponse *)
Record LastBlockResponse := mkLastBlockResponse {
  lr_servers : list bytes;
  lr_lastBlock : option Z;
  lr_error : option bytes;
}.

(** What the callback's calls share. *)
(* src: BlockSource/GetNewBlocksFromServers.cpp:25-28 GetNewBlocksFromServer::getLastBlock, locals *)
Record LastBlockAcc := mkLastBlockAcc {
  la_lastBlock : option Z;
  la_error : bytes;
  la_serversSave : list bytes;
}.

Section getter.
Context `{Rapidjson} `{Lz4}.

(** [GetInt()] stored in a [size_t]. *)
(* src: BlockSource/GetNewBlocksFromServers.cpp:37-45 GetNewBlocksFromServer::getLastBlock, countBlocks *)
Definition parse_count_blocks (result : bytes) : res Z :=
  resultJson ← parse_result result;
  match resultJson with
  | JObject _ =>
      c ← json_member resultJson (str "count_blocks");
      match c with
      | Some (JInt z) => if is_int32 z then Ok (u64 z) else throwErr (str "count_blocks field not found")
      | _ => throwErr (str "count_blocks field not found")
      end
  | _ => throwErr (str "result field not found")
  end.

(* src: BlockSource/GetNewBlocksFromServers.cpp:48-57 GetNewBlocksFromServer::getLastBlock, serversSave *)
Definition save_count (acc : LastBlockAcc) (server : bytes) (countBlocks : Z) : LastBlockAcc :=
  let lastBlock := default 0 (la_lastBlock acc) in
  if lastBlock <? countBlocks then mkLastBlockAcc (Some countBlocks) (la_error acc) [server]
  else if lastBlock =? countBlocks
  then mkLastBlockAcc (Some lastBlock) (la_error acc) (la_serversSave acc ++ [server])
  else mkLastBlockAcc (Some lastBlock) (la_error acc) (la_serversSave acc).

(* src: BlockSource/GetNewBlocksFromServers.cpp:29-62 GetNewBlocksFromServer::getLastBlock, function *)
Definition last_block_callback (acc : LastBlockAcc) (event : Event) : res LastBlockAcc :=
  let '(server, result, curlException) := event in
  match curlException with
  | Some message => Ok (mkLastBlockAcc (la_lastBlock acc) message (la_serversSave acc))
  | None =>
      try_catch (countBlocks ← parse_count_blocks result; Ok (save_count acc server countBlocks))
        (fun e => Ok (mkLastBlockAcc (la_lastBlock acc) e (la_serversSave acc)))
  end.

(* src: BlockSource/GetNewBlocksFromServers.cpp:66-73 GetNewBlocksFromServer::getLastBlock, response *)
Definition last_block_response (acc : LastBlockAcc) : LastBlockResponse :=
  match la_lastBlock acc with
  | Some n => mkLastBlockResponse (la_serversSave acc) (Some n) None
  | None => mkLastBlockResponse [] None (Some (la_error acc))
  end.

Context {W : Type} `{P2PNet W}.

(* src: BlockSource/GetNewBlocksFromServers.cpp:24-74 GetNewBlocksFromServer::getLastBlock *)
Definition getLastBlock : meth W LastBlockResponse := fun w =>
  let '(w, events, r) := net_broadcast (str "get-count-blocks", js "{'id': 1}") w in
  (w, acc ← foldM last_block_callback (mkLastBlockAcc None [] []) events;
      _ ← r;
      Ok (last_block_response acc)).

(** ** Headers *)

(* src: BlockSource/GetNewBlocksFromServers.h:50-60 GetNewBlocksFromServer *)
Record Getter := mkGetter {
  g_headers : list (Z * MinimumBlockHeader);
  g_dumps : gmap bytes bytes;
}.

(* src: BlockSource/GetNewBlocksFromServers.cpp:76-79 GetNewBlocksFromServer::clearAdvanced *)
Definition clearAdvanced (_ : Getter) : Getter := mkGetter [] ∅.

Variables (maxAdvancedLoadBlocks countBlocksInBatch : Z) (isCompress : bool).
Variable fuel : nat.

(** [std::find_if(...)] on the block number. *)
Definition find_header (blockNum : Z) (l : list (Z * MinimumBlockHeader)) : option MinimumBlockHeader :=
  snd <$> find (fun p => p.1 =? blockNum) l.

(* src: BlockSource/GetNewBlocksFromServers.cpp:100-100 GetNewBlocksFromServer::getBlockHeader, get-block-by-number *)
Definition qs_block_by_number (number : Z) : Query :=
  (str "get-block-by-number",
   js "{'id':1,'params':{'number': " ++ to_string number ++ js ", 'type': 'forP2P'}}").

(* src: BlockSource/GetNewBlocksFromServers.cpp:98-98 GetNewBlocksFromServer::getBlockHeader, get-blocks *)
Definition qs_blocks (beginBlock countBlocks : Z) : Query :=
  (str "get-blocks",
   js "{'id':1,'params':{'beginBlock': " ++ to_string beginBlock ++ js ", 'countBlocks': "
     ++ to_string countBlocks ++ js ", 'type': 'forP2P', 'direction': 'forward'}}").

(** The number of elements of a part. *)
Definition in_part (count i : Z) : Z := Z.min countBlocksInBatch (u64 (count - i * countBlocksInBatch)).

(* src: BlockSource/GetNewBlocksFromServers.cpp:94-102 GetNewBlocksFromServer::getBlockHeader, makeQsAndPost *)
Definition header_query (blockNum maxCountBlocks number : Z) : res Query :=
  let beginBlock := u64 (blockNum + number * countBlocksInBatch) in
  let countBlocks := in_part maxCountBlocks number in
  if negb (countBlocks =? 1) then Ok (qs_blocks beginBlock countBlocks)
  else Ok (qs_block_by_number (u64 (blockNum + number))).

(** The inner [for] of the answers. *)
(* src: BlockSource/GetNewBlocksFromServers.cpp:118-121 GetNewBlocksFromServer::getBlockHeader, for j *)
Fixpoint push_blocks (currBlockNum j : Z) (blocks : list MinimumBlockHeader)
    : meth (list (Z * MinimumBlockHeader)) unit := fun hs =>
  match blocks with
  | [] => (hs, Ok tt)
  | b :: rest =>
      if mh_number b =? u64 (currBlockNum + j)
      then push_blocks currBlockNum (j + 1) rest (hs ++ [(u64 (currBlockNum + j), b)])
      else (hs, throwErr (str "Incorrect block number in answer: " ++ to_string (mh_number b) ++ str " "
                  ++ to_string (u64 (currBlockNum + j))))
  end.

(* src: BlockSource/GetNewBlocksFromServers.cpp:113-124 GetNewBlocksFromServer::getBlockHeader, answer *)
Definition push_part (blockNum countBlocks i : Z) (answer : bytes)
    : meth (list (Z * MinimumBlockHeader)) unit := fun hs =>
  let currBlockNum := u64 (blockNum + i * countBlocksInBatch) in
  let blocksInPart := in_part countBlocks i in
  if negb (blocksInPart =? 1) then
    match (blocks ← parseBlocksHeader answer;
           _ ← CHECK (blen blocks =? blocksInPart) (str "Incorrect answers");
           Ok blocks) with
    | Ok blocks => push_blocks currBlockNum 0 blocks hs
    | Throw e => (hs, Throw e)
    | UB => (hs, UB)
    | OutOfFuel => (hs, OutOfFuel)
    end
  else
    match parseBlockHeader answer with
    | Ok h => (hs ++ [(currBlockNum, h)], Ok tt)
    | Throw e => (hs, Throw e)
    | UB => (hs, UB)
    | OutOfFuel => (hs, OutOfFuel)
    end.

(* src: BlockSource/GetNewBlocksFromServers.cpp:112-125 GetNewBlocksFromServer::getBlockHeader, for *)
Fixpoint push_parts (blockNum countBlocks i : Z) (answers : list bytes)
    : meth (list (Z * MinimumBlockHeader)) unit :=
  match answers with
  | [] => mret' tt
  | a :: rest =>
      (do* push_part blockNum countBlocks i a in push_parts blockNum countBlocks (i + 1) rest)%meth
  end.

(* src: BlockSource/GetNewBlocksFromServers.cpp:104-108 GetNewBlocksFromServer::getBlockHeader, responseParse *)
Definition whole_response (result : bytes) : res ResponseParse := Ok (mkResponseParse result None).

Definition on_net {A} (m : meth W A) : meth (Getter * W) A := fun s =>
  let '(w, r) := m s.2 in ((s.1, w), r).
Definition on_headers {A} (m : meth (list (Z * MinimumBlockHeader)) A) : meth (Getter * W) A := fun s =>
  let '(hs, r) := m (g_headers s.1) in ((mkGetter hs (g_dumps s.1), s.2), r).
Definition on_dumps {A} (m : meth (gmap bytes bytes) A) : meth (Getter * W) A := fun s =>
  let '(ds, r) := m (g_dumps s.1) in ((mkGetter (g_headers s.1) ds, s.2), r).

(** A division by zero is undefined. *)
(* src: BlockSource/GetNewBlocksFromServers.cpp:91-92 GetNewBlocksFromServer::getBlockHeader, countParts *)
Definition count_parts (count : Z) : res Z :=
  if countBlocksInBatch =? 0 then UB else Ok (u64 (count + countBlocksInBatch - 1) / countBlocksInBatch).

(* src: BlockSource/GetNewBlocksFromServers.cpp:89-127 GetNewBlocksFromServer::getBlockHeader, load *)
Definition load_block_headers (blockNum maxBlockNum : Z) (server : bytes) : meth (Getter * W) MinimumBlockHeader :=
  (do* on_headers (mput []) in
   let countBlocks := Z.min (u64 (maxBlockNum - blockNum + 1)) maxAdvancedLoadBlocks in
   let* countParts := mlift (count_parts countBlocks) in
   do* mlift (CHECK (negb (countBlocks =? 0) && negb (countParts =? 0)) (str "Incorrect count blocks")) in
   let* answer := on_net (net_requests countParts (header_query blockNum countBlocks) whole_response [server]) in
   do* mlift (CHECK (blen answer =? countParts) (str "Incorrect answer")) in
   do* on_headers (push_parts blockNum countBlocks 0 answer) in
   let* s := mget in
   mlift (snd <$> opt_ub (head (g_headers s.1))))%meth.

(* src: BlockSource/GetNewBlocksFromServers.cpp:81-128 GetNewBlocksFromServer::getBlockHeader *)
Definition getBlockHeader (blockNum maxBlockNum : Z) (server : bytes) : meth (Getter * W) MinimumBlockHeader :=
  fun s =>
  match find_header blockNum (g_headers s.1) with
  | Some h => (s, Ok h)
  | None => load_block_headers blockNum maxBlockNum server s
  end.

(* src: BlockSource/GetNewBlocksFromServers.cpp:130-134 GetNewBlocksFromServer::getBlockHeaderWithoutAdvanceLoad *)
Definition getBlockHeaderWithoutAdvanceLoad (blockNum : Z) (server : bytes) : meth W MinimumBlockHeader :=
  (let* response := net_runOneRequest server (qs_block_by_number blockNum) in
   mlift (parseBlockHeader response))%meth.

(** ** Dumps *)

Definition bool_text (b : bool) : bytes := if b then str "true" else str "false".

(* src: BlockSource/GetNewBlocksFromServers.cpp:136-140 GetNewBlocksFromServer::makeRequestForDumpBlock *)
Definition makeRequestForDumpBlock (blockHash : bytes) (fromByte toByte : Z) : res Query :=
  Ok (str "get-dump-block-by-hash",
      js "{'id':1,'params':{'hash': '" ++ blockHash ++ js "' , 'fromByte': " ++ to_string fromByte
        ++ js ", 'toByte': " ++ to_string toByte ++ js ", 'isHex': false}}").

(** The double quote after [toByte] is the source's. *)
(* src: BlockSource/GetNewBlocksFromServers.cpp:142-148 GetNewBlocksFromServer::makeRequestForDumpBlockSign *)
Definition makeRequestForDumpBlockSign (blockHash : bytes) (fromByte toByte : Z) : res Query :=
  Ok (str "get-dump-block-by-hash",
      js "{'id':1,'params':{'hash': '" ++ blockHash ++ js "' , 'fromByte': " ++ to_string fromByte
        ++ js ", 'toByte': " ++ to_string toByte ++ js "', 'isHex': false, 'isSign': true, "
        ++ js "'compress': " ++ str "false" ++ js "}}").

(* src: BlockSource/GetNewBlocksFromServers.cpp:150-173 GetNewBlocksFromServer::parseDumpBlockResponse *)
Definition parseDumpBlockResponse (result : bytes) : res ResponseParse :=
  if is_empty result then Ok (mkResponseParse [] None)
  else if (blen result <=? 512) && bool_decide (head result = Some Byte.x7b)
          && bool_decide (last result = Some Byte.x7d) then
    try_catch
      (resultJson ← parse_result result;
       match resultJson with
       | JObject _ =>
           dump ← get_string resultJson (str "dump") (str "dump field not found");
           Ok (mkResponseParse dump None)
       | _ => throwErr (str "result field not found")
       end)
      (fun e => Ok (mkResponseParse [] (Some e)))
  else Ok (mkResponseParse result None).

(* src: BlockSource/GetNewBlocksFromServers.cpp:175-182 GetNewBlocksFromServer::getBlockDumpWithoutAdvancedLoad *)
Definition getBlockDumpWithoutAdvancedLoad (blockHash : bytes) (blockSize : Z)
    (hintsServers : list bytes) (isSign : bool) : meth W bytes :=
  if negb isSign
  then net_request blockSize true (makeRequestForDumpBlock blockHash) parseDumpBlockResponse hintsServers
  else net_request (u64 (blockSize + ESTIMATE_SIZE_SIGNATURE)) false
         (makeRequestForDumpBlockSign blockHash) parseDumpBlockResponse hintsServers.

(** The headers from the one of the block on, while the blocks are small. *)
(* src: BlockSource/GetNewBlocksFromServers.cpp:196-203 GetNewBlocksFromServer::getBlockDump, blocksHashs *)
Fixpoint blocks_hashs (blockHash : bytes) (found : bool) (l : list (Z * MinimumBlockHeader)) : list bytes :=
  match l with
  | [] => []
  | (_, h) :: l' =>
      if found || bool_decide (mh_hash h = blockHash) then
        if mh_blockSize h <=? MAX_BLOCK_SIZE_WITHOUT_ADVANCE
        then mh_hash h :: blocks_hashs blockHash true l' else []
      else blocks_hashs blockHash false l'
  end.

(** The [for] loop that joins the hashes; [blocksHashs[i]] out of range is undefined. *)
(* src: BlockSource/GetNewBlocksFromServers.cpp:221-230 GetNewBlocksFromServer::getBlockDump, for *)
Fixpoint hashes_text (blocksHashs : list bytes) (i : nat) (n : nat) (isFirst : bool) : res bytes :=
  match n with
  | O => Ok []
  | S n =>
      h ← opt_ub (blocksHashs !! i);
      rest ← hashes_text blocksHashs (S i) n false;
      Ok ((if isFirst then [] else str ", ") ++ js "'" ++ h ++ js "'" ++ rest)
  end.

(* src: BlockSource/GetNewBlocksFromServers.cpp:209-237 GetNewBlocksFromServer::getBlockDump, makeQsAndPost *)
Definition dump_query (blocksHashs : list bytes) (isSign : bool) (number : Z) : res Query :=
  _ ← CHECK (u64 (number * countBlocksInBatch) <? blen blocksHashs) (str "Incorrect number");
  let beginBlock := u64 (number * countBlocksInBatch) in
  let countBlocks := in_part (blen blocksHashs) number in
  let tail := js ", 'compress': " ++ bool_text isCompress ++ js "}}" in
  if countBlocks =? 1 then
    h ← opt_ub (blocksHashs !! Z.to_nat number);
    Ok (str "get-dump-block-by-hash",
        js "{'id':1,'params':{'hash': '" ++ h ++ js "' , 'isHex': false, "
          ++ js "'isSign': " ++ bool_text isSign ++ tail)
  else
    r ← hashes_text blocksHashs (Z.to_nat beginBlock) (Z.to_nat countBlocks) true;
    Ok (str "get-dumps-blocks-by-hash",
        js "{'id':1,'params':{'hashes': [" ++ r ++ js "], 'isSign': " ++ bool_text isSign ++ tail).

(** The dumps of a batch, stored one after the other. *)
(* src: BlockSource/GetNewBlocksFromServers.cpp:252-254 GetNewBlocksFromServer::getBlockDump, for j *)
Fixpoint push_dumps (blocksHashs : list bytes) (i : nat) (blocks : list bytes) : meth (gmap bytes bytes) unit :=
  fun ds =>
  match blocks with
  | [] => (ds, Ok tt)
  | b :: rest =>
      match blocksHashs !! i with
      | None => (ds, UB)
      | Some h => push_dumps blocksHashs (S i) rest (<[h := b]> ds)
      end
  end.

(** [fuel] bounds the blocks of one answer. *)
(* src: BlockSource/GetNewBlocksFromServers.cpp:243-255 GetNewBlocksFromServer::getBlockDump, response *)
Definition push_dump_part (blocksHashs : list bytes) (i : Z) (response : bytes) : meth (gmap bytes bytes) unit :=
  fun ds =>
  let beginBlock := u64 (i * countBlocksInBatch) in
  let blocksInPart := in_part (blen blocksHashs) i in
  if blocksInPart =? 1 then
    match blocksHashs !! Z.to_nat i with
    | None => (ds, UB)
    | Some h => (<[h := parseDumpBlockBinary response isCompress]> ds, Ok tt)
    end
  else
    match (blocks ← parseDumpBlocksBinary fuel response isCompress;
           _ ← CHECK (blen blocks =? blocksInPart) (str "Incorrect answer");
           _ ← CHECK (u64 (beginBlock + blen blocks) <=? blen blocksHashs) (str "Incorrect answer");
           Ok blocks) with
    | Ok blocks => push_dumps blocksHashs (Z.to_nat beginBlock) blocks ds
    | Throw e => (ds, Throw e)
    | UB => (ds, UB)
    | OutOfFuel => (ds, OutOfFuel)
    end.

(* src: BlockSource/GetNewBlocksFromServers.cpp:242-256 GetNewBlocksFromServer::getBlockDump, for *)
Fixpoint push_dump_parts (blocksHashs : list bytes) (i : Z) (responses : list bytes)
    : meth (gmap bytes bytes) unit :=
  match responses with
  | [] => mret' tt
  | a :: rest =>
      (do* push_dump_part blocksHashs i a in push_dump_parts blocksHashs (i + 1) rest)%meth
  end.

(** [advancedLoadsBlocksDumps[blockHash]]: an absent key is inserted. *)
Definition dump_at (blockHash : bytes) : meth (gmap bytes bytes) bytes := fun ds =>
  match ds !! blockHash with
  | Some d => (ds, Ok d)
  | None => (<[blockHash := []]> ds, Ok [])
  end.

(* src: BlockSource/GetNewBlocksFromServers.cpp:194-258 GetNewBlocksFromServer::getBlockDump, load *)
Definition load_dumps (blockHash : bytes) (hintsServers : list bytes) (isSign : bool)
    : meth (Getter * W) bytes :=
  (do* on_dumps (mput ∅) in
   let* s := mget in
   let blocksHashs := blocks_hashs blockHash false (g_headers s.1) in
   do* mlift (CHECK (negb (is_empty blocksHashs)) (str "advanced blocks not loaded")) in
   let* countParts := mlift (count_parts (blen blocksHashs)) in
   let* responses := on_net (net_requests countParts (dump_query blocksHashs isSign)
     parseDumpBlockResponse hintsServers) in
   do* mlift (CHECK (blen responses =? countParts) (str "Incorrect responses")) in
   do* on_dumps (push_dump_parts blocksHashs 0 responses) in
   on_dumps (dump_at blockHash))%meth.

(* src: BlockSource/GetNewBlocksFromServers.cpp:184-259 GetNewBlocksFromServer::getBlockDump *)
Definition Getter_getBlockDump (blockHash : bytes) (blockSize : Z) (hintsServers : list bytes) (isSign : bool)
    : meth (Getter * W) bytes := fun s =>
  match g_dumps s.1 !! blockHash with
  | Some d => (s, Ok d)
  | None =>
      if MAX_BLOCK_SIZE_WITHOUT_ADVANCE <? blockSize
      then on_net (getBlockDumpWithoutAdvancedLoad blockHash blockSize hintsServers isSign) s
      else load_dumps blockHash hintsServers isSign s
  end.

End getter.
