(* ===== verification/ServerFacts.v ===== *)
(** * The HTTP interface: facts

    Every request with a JSON object for a body is answered; the pages of
    [get-blocks] are the blocks of the range asked for; and what the server
    answers to this program's own requests is read back by its own readers as
    the block that was asked for. *)
From S2P Require Import Prelude External BlockInfo BlockChainInterface Dumps P2P JsonApi GetNewBlocks Server.
#[local] Open Scope Z_scope.

Section facts.
Context `{Rapidjson} `{Support} `{Lz4} {C : Type} `{BlockChainReadLaws C}.
Variable blockchain : C.
Variable sync_getBlockDump : BlockHeader -> Z -> Z -> bool -> bool -> res bytes.
Variable sync_verifyTechnicalAddressSign : bytes -> bytes -> bytes -> res bool.
Variables (VERSION g_GIT_SHA1 serverPrivKey : bytes).
Variables (nowTimestamp : Z) (getTotalSystemMemory getOpenedConnections : res Z).
Hypothesis Hchain : chain_ok blockchain.

#[local] Abbreviation handle := (handle blockchain sync_getBlockDump sync_verifyTechnicalAddressSign VERSION
  g_GIT_SHA1 serverPrivKey nowTimestamp getTotalSystemMemory getOpenedConnections).
#[local] Abbreviation dispatch := (dispatch blockchain sync_getBlockDump sync_verifyTechnicalAddressSign VERSION
  g_GIT_SHA1 serverPrivKey nowTimestamp getTotalSystemMemory getOpenedConnections).

(** ** Every request is answered *)

Lemma getBlock_by_number_Ok n : 0 <= n -> exists h, getBlock_by_number n blockchain = Ok h.
Proof.
  intros Hn. destruct (decide (n <= countBlocks_ blockchain)) as [Hle|Hgt].
  - destruct (getBlock_in_range blockchain n Hchain ltac:(lia)) as (h & Hh & _). eauto.
  - rewrite getBlock_out_of_range by (done || lia). eauto.
Qed.

Lemma answers_getBlock_by_number n : answers (getBlock_by_number (u64 n) blockchain).
Proof.
  destruct (getBlock_by_number_Ok (u64 n)) as [h ->]; [|done]. pose proof (u64_range n). unfold is_u64 in *. lia.
Qed.

Lemma answers_json_member m name : answers (json_member (JObject m) name).
Proof. done. Qed.

Lemma answers_json_string m name : answers (json_string (JObject m) name).
Proof. done. Qed.

#[local] Hint Resolve answers_json_member answers_json_string answers_getBlock_by_number : answers.

Lemma answers_throwUserErr {A} msg : answers (@throwUserErr A msg).
Proof. done. Qed.

Lemma answers_throwErr {A} msg : answers (@throwErr A msg).
Proof. done. Qed.

#[local] Hint Resolve answers_throwUserErr answers_throwErr : answers.

Lemma answers_user_object m name msg : answers (user_object (JObject m) name msg).
Proof. unfold user_object. solve_answers. Qed.

Lemma user_object_Ok v name msg o : user_object v name msg = Ok o -> exists m, o = JObject m.
Proof.
  unfold user_object. intros Hu. apply bind_Ok_inv in Hu as (m & _ & Hu).
  destruct m as [[]|]; try done. injection Hu as <-. eauto.
Qed.

Lemma answers_getJsonValue byHash v : answers (getJsonValue byHash v).
Proof. unfold getJsonValue. solve_answers. Qed.

#[local] Hint Resolve answers_user_object answers_getJsonValue : answers.

Lemma answers_getJsonField byHash m name : answers (getJsonField byHash (JObject m) name).
Proof. unfold getJsonField. solve_answers. Qed.

Lemma answers_header_value bh type version : answers (blockHeaderToJson_value bh type version).
Proof. unfold blockHeaderToJson_value, getBlockType, opt_value. solve_answers. Qed.

Lemma answers_headers_values bhs type version : answers (blockHeaders_values bhs type version).
Proof.
  induction bhs as [|b bhs IH]; cbn [blockHeaders_values]; [done|].
  pose proof (answers_header_value b type version). solve_answers.
Qed.

Hypothesis Hdump : forall bh f t h s, answers (sync_getBlockDump bh f t h s).

(** A number taken from a request is a [size_t]. *)
Definition key_ok (k : BlockKey) : Prop := match k with ByHash _ => True | ByNumber n => is_u64 n end.

Lemma getJsonValue_ok byHash v k : getJsonValue byHash v = Ok k -> key_ok k.
Proof.
  unfold getJsonValue. destruct byHash, v; try done; [by intros [= <-]|].
  destruct (is_int64 z); [|done]. intros [= <-]. apply u64_range.
Qed.

Lemma getJsonField_ok byHash v name k : getJsonField byHash v name = Ok k -> key_ok k.
Proof.
  unfold getJsonField. intros Hg. apply bind_Ok_inv in Hg as (m & _ & Hg). destruct m as [f|]; [|done].
  destruct (getJsonValue byHash f) eqn:Hv; try done. injection Hg as <-. by eapply getJsonValue_ok.
Qed.

Lemma answers_getBlock_key k : key_ok k -> answers (getBlock_key blockchain k).
Proof.
  destruct k as [h|n]; cbn; intros Hk.
  - by destruct (getBlock_hash_answers blockchain h Hchain) as [[x ->]|[e ->]].
  - destruct (getBlock_by_number_Ok n) as [x ->]; [unfold is_u64 in Hk; lia|done].
Qed.

#[local] Hint Resolve answers_getJsonField answers_header_value answers_headers_values : answers.

Lemma answers_Server_getBlock byHash id_ m nameParam fmt version :
  answers (Server_getBlock blockchain byHash id_ (JObject m) nameParam fmt version).
Proof.
  unfold Server_getBlock. apply answers_bind; [auto with answers|]. intros p Hp.
  apply user_object_Ok in Hp as [o ->]. apply answers_bind; [auto with answers|]. intros k Hk.
  apply getJsonField_ok in Hk. apply answers_bind; [unfold block_type; solve_answers|]. intros type _.
  apply answers_bind; [by apply answers_getBlock_key|]. intros bh _.
  unfold blockHeaderToJson. solve_answers.
Qed.

Lemma answers_Server_getBlockDump byHash m id_ nameParam fmt :
  answers (Server_getBlockDump blockchain sync_getBlockDump byHash (JObject m) id_ nameParam fmt).
Proof.
  unfold Server_getBlockDump. apply answers_bind; [auto with answers|]. intros p Hp.
  apply user_object_Ok in Hp as [o ->]. apply answers_bind; [auto with answers|]. intros k Hk.
  apply getJsonField_ok in Hk. unfold opt_int64, opt_bool.
  do 5 (apply answers_bind; [solve_answers|intros ? _]).
  apply answers_bind; [by apply answers_getBlock_key|]. intros bh _. solve_answers.
Qed.

Lemma answers_blocks_back n i : answers (blocks_back blockchain n i).
Proof. revert i. induction n as [|n IH]; intros i; cbn [blocks_back]; solve_answers. Qed.

Lemma answers_blocks_forward n i mx : answers (blocks_forward blockchain n i mx).
Proof. revert i. induction n as [|n IH]; intros i; cbn [blocks_forward]; solve_answers. Qed.

#[local] Hint Resolve answers_blocks_back answers_blocks_forward : answers.

Lemma answers_getBlocks id_ m fmt version : answers (getBlocks blockchain id_ (JObject m) fmt version).
Proof.
  unfold getBlocks. apply answers_bind; [auto with answers|]. intros p Hp.
  apply user_object_Ok in Hp as [o ->]. unfold opt_int, blocks_type, blockHeadersToJson, throwUserErr.
  solve_answers.
Qed.

Lemma answers_dumps_loop byHash isSign l : answers (dumps_loop blockchain sync_getBlockDump byHash isSign l).
Proof.
  induction l as [|v l IH]; cbn [dumps_loop]; [done|].
  apply answers_bind; [auto with answers|]. intros k Hk. apply getJsonValue_ok in Hk.
  apply answers_bind; [by apply answers_getBlock_key|]. intros bh _. solve_answers.
Qed.

Lemma answers_getBlockDumps byHash m nameParam :
  answers (getBlockDumps blockchain sync_getBlockDump byHash (JObject m) nameParam).
Proof.
  unfold getBlockDumps. apply answers_bind; [auto with answers|]. intros p Hp.
  apply user_object_Ok in Hp as [o ->]. unfold opt_bool.
  do 3 (apply answers_bind; [solve_answers|intros ? _]).
  pose proof answers_dumps_loop. unfold throwUserErr. solve_answers.
Qed.

Lemma answers_dispatch func id_ m fmt version stat :
  func <> str "get-statistic2" -> answers (dispatch func id_ (JObject m) fmt version stat).
Proof.
  intros Hf. unfold Server.dispatch. rewrite (bool_decide_false (func = str "get-statistic2")) by done.
  pose proof answers_Server_getBlock. pose proof answers_Server_getBlockDump.
  pose proof answers_getBlocks. pose proof answers_getBlockDumps. unfold throwUserErr.
  repeat case_match; solve [auto with answers].
Qed.

(** ** The status of every answer

    What is wrong with a request is for the client to correct (400), what goes
    wrong in the node is not (500), and a block the chain does not have is an
    answer (200) where its header is asked for. *)

(** The status of a computation's outcome. *)
Definition code_of {A} (r : res A) : Z :=
  match r with
  | Ok _ => HTTP_STATUS_OK
  | Throw (ExcUser _) => HTTP_STATUS_BAD_REQUEST
  | _ => HTTP_STATUS_INTERNAL_SERVER_ERROR
  end.

(** The object of parameters, and a block's hash or number among them. *)
Definition request_params (m : list (bytes * json)) : option (list (bytes * json)) :=
  match find_member m (str "params") with Some (JObject p) => Some p | _ => None end.
Definition key_value (byHash : bool) (v : json) : option BlockKey :=
  match v with
  | JString s => if byHash then Some (ByHash (c_str s)) else None
  | JInt z => if negb byHash && is_int64 z then Some (ByNumber (u64 z)) else None
  | _ => None
  end.
Definition request_key (byHash : bool) (name : bytes) (m : list (bytes * json)) : option BlockKey :=
  p ← request_params m; v ← find_member p name; key_value byHash v.
Definition param_is (m : list (bytes * json)) (name : bytes) : option json :=
  p ← request_params m; find_member p name.
Definition param_true (m : list (bytes * json)) (name : bytes) : bool :=
  match param_is m name with Some (JBool b) => b | _ => false end.
Definition param_int (m : list (bytes * json)) (name : bytes) : Z :=
  match param_is m name with Some (JInt z) => if is_int32 z then z else 0 | _ => 0 end.
Definition param_size (m : list (bytes * json)) (name : bytes) (d : Z) : Z :=
  match param_is m name with Some (JInt z) => if is_int64 z then u64 z else d | _ => d end.

(** The block of the chain a key names. *)
Definition known_block (k : BlockKey) : option BlockHeader :=
  match getBlock_key blockchain k with
  | Ok bh => match bh_blockNumber bh with Some _ => Some bh | None => None end
  | _ => None
  end.

(** A header can be written: the long form needs the number of transactions and
    a known type. *)
Definition writable (type : BlockTypeInfo) (bh : BlockHeader) : bool :=
  if bool_decide (type = Simple)
  then is_ok (getBlockType bh) && bool_decide (is_Some (bh_countTxs bh)) else true.

Definition one_header_code (byHash : bool) (name : bytes) (m : list (bytes * json)) : Z :=
  match request_params m, request_key byHash name m with
  | Some p, Some k =>
      if is_ok (getBlock_key blockchain k) then
        match known_block k, block_type (JObject p) with
        | Some bh, Ok type =>
            if bool_decide (bh_blockNumber bh = Some 0) || bool_decide (type = Hashes)
               || bool_decide (type = Full) || writable type bh then 200 else 500
        | _, _ => 200
        end
      else 500
  | _, _ => 400
  end.

Definition dump_code (byHash : bool) (name : bytes) (m : list (bytes * json)) : Z :=
  match request_key byHash name m with
  | Some k =>
      match known_block k with
      | Some bh =>
          match sync_getBlockDump bh (param_size m (str "fromByte") 0) (param_size m (str "toByte") u64_max)
                  (param_true m (str "isHex")) (param_true m (str "isSign")) with
          | Ok d => if is_empty (genDumpBlockBinary d (param_true m (str "compress"))) then 500 else 200
          | r => code_of r
          end
      | None => 500
      end
  | None => 400
  end.

(** The first block that cannot be sent decides. *)
Fixpoint dumps_code (byHash isSign : bool) (l : list json) : Z :=
  match l with
  | [] => 200
  | v :: l =>
      match key_value byHash v with
      | Some k =>
          match known_block k with
          | Some bh =>
              match sync_getBlockDump bh 0 u64_max false isSign with
              | Ok d => if is_empty d then 500 else dumps_code byHash isSign l
              | r => code_of r
              end
          | None => 500
          end
      | None => 400
      end
  end.

Definition all_dumps_code (byHash : bool) (name : bytes) (m : list (bytes * json)) : Z :=
  match param_is m name with
  | Some (JArray l) => if blen l <=? 1000 then dumps_code byHash (param_true m (str "isSign")) l else 400
  | _ => 400
  end.

(** The headers of a page can be written up to the genesis block: they are of
    blocks the chain has, of a type it knows. *)
Fixpoint page_writable (type : BlockTypeInfo) (l : list BlockHeader) : bool :=
  match l with
  | [] => true
  | bh :: l =>
      match bh_blockNumber bh with
      | None => false
      | Some n => (n =? 0) || writable type bh && page_writable type l
      end
  end.

Definition is_forward (p : list (bytes * json)) : bool :=
  match json_string (JObject p) (str "direction") with
  | Ok direction => bool_decide (direction = Some (str "forward"))
  | _ => false
  end.

Definition page_code (m : list (bytes * json)) : Z :=
  match request_params m with
  | None => 400
  | Some p =>
      if 1000 <? param_int m (str "countBlocks") then 400
      else match blocks_type (JObject p) with
      | Ok type =>
          if param_int m (str "countBlocks") <? 0 then 500
          else
            let n := Z.to_nat (param_int m (str "countBlocks")) in
            let first := param_int m (str "beginBlock") in
            let count := countBlocks_ blockchain in
            let page := if is_forward p
              then blocks_forward blockchain n first (to_i64 count)
              else blocks_back blockchain n (to_i64 (count - first)) in
            match page with Ok l => if page_writable type l then 200 else 500 | _ => 500 end
      | _ => 400
      end
  end.

(** The status of the answer to a request for [func] with the document [m]. *)
Definition expected_code (func : bytes) (m : list (bytes * json)) : Z :=
  let named name := bool_decide (func = str name) in
  if named "status"%string || named "getinfo"%string || named "get-statistic"%string
     || named "get-count-blocks"%string then 200
  else if named "get-block-by-hash"%string then one_header_code true (str "hash") m
  else if named "get-block-by-number"%string then one_header_code false (str "number") m
  else if named "get-blocks"%string then page_code m
  else if named "get-dump-block-by-hash"%string then dump_code true (str "hash") m
  else if named "get-dump-block-by-number"%string then dump_code false (str "number") m
  else if named "get-dumps-blocks-by-hash"%string then all_dumps_code true (str "hashes") m
  else if named "get-dumps-blocks-by-number"%string then all_dumps_code false (str "numbers") m
  else 400.

(** Statuses follow the steps of a computation. *)
Lemma code_bind_Ok {A B} (m : res A) (f : A -> res B) a : m = Ok a -> code_of (m ≫= f) = code_of (f a).
Proof. by intros ->. Qed.

Lemma key_value_get byHash v :
  match key_value byHash v with
  | Some k => getJsonValue byHash v = Ok k
  | None => exists msg, getJsonValue byHash v = throwUserErr msg
  end.
Proof.
  unfold key_value, getJsonValue. destruct byHash, v; cbn [negb andb]; try (by eexists); try done.
  destruct (is_int64 z); [done|by eexists].
Qed.

Lemma user_object_params m msg :
  user_object (JObject m) (str "params") msg =
    match request_params m with Some p => Ok (JObject p) | None => throwUserErr msg end.
Proof.
  unfold user_object, json_member, request_params. cbn [mbind res_bind].
  by destruct (find_member m (str "params")) as [[]|].
Qed.

Lemma request_key_get byHash name m p :
  request_params m = Some p ->
  match request_key byHash name m with
  | Some k => getJsonField byHash (JObject p) name = Ok k
  | None => exists msg, getJsonField byHash (JObject p) name = throwUserErr msg
  end.
Proof.
  intros Hp. unfold request_key. rewrite Hp. cbn [mbind option_bind]. unfold getJsonField, json_member.
  cbn [mbind res_bind]. destruct (find_member p name) as [v|]; cbn [mbind option_bind]; [|by eexists].
  pose proof (key_value_get byHash v) as Hv. destruct (key_value byHash v) as [k|].
  - by rewrite Hv.
  - destruct Hv as [msg ->]. by eexists.
Qed.

Lemma key_request_ok byHash name m k : request_key byHash name m = Some k -> key_ok k.
Proof.
  unfold request_key. destruct (request_params m) as [p|]; [|done]. cbn [mbind option_bind].
  destruct (find_member p name) as [v|]; [|done]. cbn [mbind option_bind]. unfold key_value.
  destruct v; try done; [|by destruct byHash; [intros [= <-]|]].
  destruct (negb byHash && is_int64 z); [|done]. intros [= <-]. apply u64_range.
Qed.

Lemma getBlock_key_code k :
  key_ok k -> (exists bh, getBlock_key blockchain k = Ok bh) \/ exists msg, getBlock_key blockchain k = throwErr msg.
Proof.
  destruct k as [h|n]; cbn; intros Hk; [by apply getBlock_hash_answers|].
  left. apply getBlock_by_number_Ok. unfold is_u64 in Hk. lia.
Qed.

Lemma header_value_code bh type version n :
  bh_blockNumber bh = Some n ->
  code_of (blockHeaderToJson_value bh type version) = if writable type bh then 200 else 500.
Proof.
  intros Hn. unfold blockHeaderToJson_value, writable. rewrite Hn.
  rewrite (bool_decide_true (is_Some (Some n))) by eauto. cbn [CHECK mbind res_bind opt_value].
  destruct (bool_decide (type = Simple)); [|done].
  unfold getBlockType. repeat case_match; try done; destruct (bh_countTxs bh); done.
Qed.

Lemma Server_getBlock_code byHash id_ m name fmt version :
  code_of (Server_getBlock blockchain byHash id_ (JObject m) name fmt version) = one_header_code byHash name m.
Proof.
  unfold Server_getBlock, one_header_code. rewrite user_object_params.
  destruct (request_params m) as [p|] eqn:Hp; [|done]. cbn [mbind res_bind].
  pose proof (request_key_get byHash name m p Hp) as Hk.
  destruct (request_key byHash name m) as [k|] eqn:Hkey; [|by destruct Hk as [msg ->]]. rewrite Hk. cbn [mbind res_bind].
  assert (exists type, block_type (JObject p) = Ok type) as [type Ht].
  { unfold block_type, json_member. cbn [mbind res_bind]. by eexists. }
  rewrite Ht. cbn [mbind res_bind]. unfold known_block.
  destruct (getBlock_key_code k (key_request_ok _ _ _ _ Hkey)) as [[bh ->]|[msg ->]]; [|done]. cbn [mbind res_bind is_ok].
  destruct (bh_blockNumber bh) as [n|] eqn:Hn; [|done].
  destruct (getBlock_by_number_Ok (u64 (n + 1))) as [h ->]; [pose proof (u64_range (n + 1)); unfold is_u64 in *; lia|].
  cbn [mbind res_bind]. unfold blockHeaderToJson. rewrite Hn.
  destruct type; cbn [orb]; try (rewrite orb_true_r; done); try done;
    destruct (bool_decide (Some n = Some 0)); try done; cbn [orb].
  all: match goal with |- context [blockHeaderToJson_value ?b ?t ?v] =>
    pose proof (header_value_code b t v n Hn) as Hc; destruct (blockHeaderToJson_value b t v) as [x|[]| |] end;
    cbn [mbind res_bind code_of] in *; unfold HTTP_STATUS_OK, HTTP_STATUS_BAD_REQUEST, HTTP_STATUS_INTERNAL_SERVER_ERROR in *;
    repeat case_match; simplify_eq/=; done.
Qed.

Lemma param_bool_get m p name :
  request_params m = Some p -> opt_bool (JObject p) name false = Ok (param_true m name).
Proof.
  intros Hp. unfold opt_bool, param_true, param_is, json_member. rewrite Hp. cbn [mbind res_bind option_bind].
  by destruct (find_member p name) as [[]|].
Qed.

Lemma param_size_get m p name d :
  request_params m = Some p -> opt_int64 (JObject p) name d = Ok (param_size m name d).
Proof.
  intros Hp. unfold opt_int64, param_size, param_is, json_member. rewrite Hp. cbn [mbind res_bind option_bind].
  by destruct (find_member p name) as [[]|].
Qed.

Lemma param_int_get m p name :
  request_params m = Some p -> opt_int (JObject p) name 0 = Ok (param_int m name).
Proof.
  intros Hp. unfold opt_int, param_int, param_is, json_member. rewrite Hp. cbn [mbind res_bind option_bind].
  by destruct (find_member p name) as [[]|].
Qed.

Lemma known_block_get k :
  key_ok k ->
  (exists bh, getBlock_key blockchain k = Ok bh /\
     known_block k = if bool_decide (is_Some (bh_blockNumber bh)) then Some bh else None) \/
  (exists msg, getBlock_key blockchain k = throwErr msg) /\ known_block k = None.
Proof.
  intros Hk. unfold known_block. destruct (getBlock_key_code k Hk) as [[bh ->]|[msg ->]]; [left|right].
  - exists bh. split; [done|]. by destruct (bh_blockNumber bh).
  - split; [by exists msg|done].
Qed.

Lemma Server_getBlockDump_code byHash m id_ name fmt :
  code_of (Server_getBlockDump blockchain sync_getBlockDump byHash (JObject m) id_ name fmt) = dump_code byHash name m.
Proof.
  unfold Server_getBlockDump, dump_code. rewrite user_object_params.
  destruct (request_params m) as [p|] eqn:Hp; [|by unfold request_key; rewrite Hp]. cbn [mbind res_bind].
  pose proof (request_key_get byHash name m p Hp) as Hk.
  destruct (request_key byHash name m) as [k|] eqn:Hkey; [|by destruct Hk as [msg ->]]. rewrite Hk. cbn [mbind res_bind].
  rewrite !(param_size_get m p), !(param_bool_get m p) by done. cbn [mbind res_bind].
  destruct (known_block_get k (key_request_ok _ _ _ _ Hkey)) as [(bh & -> & ->)|[(msg & ->) ->]]; [|done].
  cbn [mbind res_bind]. destruct (bool_decide (is_Some (bh_blockNumber bh))); [|done]. cbn [CHECK mbind res_bind].
  destruct (sync_getBlockDump _ _ _ _ _) as [d|[]| |]; try done. cbn [mbind res_bind].
  by destruct (is_empty (genDumpBlockBinary d _)).
Qed.

Lemma dumps_loop_code byHash isSign l :
  code_of (dumps_loop blockchain sync_getBlockDump byHash isSign l) = dumps_code byHash isSign l.
Proof.
  induction l as [|v l IH]; cbn [dumps_loop dumps_code]; [done|].
  pose proof (key_value_get byHash v) as Hk. destruct (key_value byHash v) as [k|] eqn:Hkv; [|by destruct Hk as [msg ->]].
  rewrite Hk. cbn [mbind res_bind]. apply getJsonValue_ok in Hk.
  destruct (known_block_get k Hk) as [(bh & -> & ->)|[(msg & ->) ->]]; [|done].
  cbn [mbind res_bind]. destruct (bool_decide (is_Some (bh_blockNumber bh))); [|done]. cbn [CHECK mbind res_bind].
  destruct (sync_getBlockDump _ _ _ _ _) as [d|[]| |]; try done. cbn [mbind res_bind].
  destruct (is_empty d); [done|]. cbn [negb CHECK mbind res_bind]. rewrite <- IH.
  by destruct (dumps_loop _ _ _ _ l).
Qed.

Lemma getBlockDumps_code byHash m name :
  code_of (getBlockDumps blockchain sync_getBlockDump byHash (JObject m) name) = all_dumps_code byHash name m.
Proof.
  unfold getBlockDumps, all_dumps_code. rewrite user_object_params. unfold param_is.
  destruct (request_params m) as [p|] eqn:Hp; [|done]. cbn [mbind res_bind option_bind].
  rewrite !(param_bool_get m p) by done. cbn [mbind res_bind json_member].
  destruct (find_member p name) as [[]|]; try done. unfold CHECK_USER. destruct (blen _ <=? 1000); [|done].
  cbn [mbind res_bind]. rewrite <- dumps_loop_code. by destruct (dumps_loop _ _ _ _ _).
Qed.

Lemma page_values_code type version l :
  code_of (blockHeaders_values l type version) = if page_writable type l then 200 else 500.
Proof.
  induction l as [|bh l IH]; [done|]. cbn [blockHeaders_values page_writable].
  destruct (bh_blockNumber bh) as [n|] eqn:Hn.
  2: { rewrite bool_decide_false by done. unfold blockHeaderToJson_value. by rewrite Hn. }
  destruct (Z.eqb_spec n 0) as [->|Hne]; [done|]. rewrite bool_decide_false by (by intros [=]). cbn [orb].
  pose proof (header_value_code bh type version n Hn) as Hc.
  destruct (blockHeaderToJson_value bh type version) as [v|[]| |]; cbn [mbind res_bind code_of] in *;
    unfold HTTP_STATUS_OK, HTTP_STATUS_BAD_REQUEST, HTTP_STATUS_INTERNAL_SERVER_ERROR in *;
    destruct (writable type bh); try done. cbn [andb].
  rewrite <- IH. by destruct (blockHeaders_values l type version).
Qed.

Lemma blocks_forward_Ok n i mx : exists l, blocks_forward blockchain n i mx = Ok l.
Proof.
  revert i. induction n as [|n IH]; intros i; cbn [blocks_forward]; [by exists []|].
  destruct (i <? mx + 1); [|by exists []].
  destruct (getBlock_by_number_Ok (u64 i)) as [h ->]; [pose proof (u64_range i); unfold is_u64 in *; lia|].
  destruct (IH (i + 1)) as (l & ->). by exists (h :: l).
Qed.

Lemma blocks_back_Ok n i : exists l, blocks_back blockchain n i = Ok l.
Proof.
  revert i. induction n as [|n IH]; intros i; cbn [blocks_back]; [by exists []|].
  destruct (0 <? i); [|by exists []].
  destruct (getBlock_by_number_Ok (u64 i)) as [h ->]; [pose proof (u64_range i); unfold is_u64 in *; lia|].
  destruct (IH (i - 1)) as (l & ->). by exists (h :: l).
Qed.

Lemma blocks_type_code p :
  match blocks_type (JObject p) with Ok _ => True | Throw (ExcUser _) => True | _ => False end.
Proof.
  unfold blocks_type, json_string, json_member. cbn [mbind res_bind].
  repeat case_match; simplify_eq/=; repeat case_match; simplify_eq/=; done.
Qed.

Lemma getBlocks_code id_ m fmt version :
  code_of (getBlocks blockchain id_ (JObject m) fmt version) = page_code m.
Proof.
  unfold getBlocks, page_code. rewrite user_object_params.
  destruct (request_params m) as [p|] eqn:Hp; [|done]. cbn [mbind res_bind].
  rewrite !(param_int_get m p) by done. cbn [mbind res_bind]. unfold CHECK_USER.
  set (n := param_int m (str "countBlocks")). set (first := param_int m (str "beginBlock")).
  destruct (Z.ltb_spec 1000 n) as [Hbig|Hbig]; [by rewrite (proj2 (Z.leb_gt _ _))|].
  rewrite (proj2 (Z.leb_le _ _)) by done. cbn [mbind res_bind].
  pose proof (blocks_type_code p) as Ht. destruct (blocks_type (JObject p)) as [type|[]| |]; try done.
  cbn [mbind res_bind]. unfold is_forward.
  destruct (json_string (JObject p) (str "direction")) as [direction|e| |] eqn:Hdir; try done. cbn [mbind res_bind].
  destruct (n <? 0); [done|]. cbn [mbind res_bind].
  destruct (blocks_forward_Ok (Z.to_nat n) first (to_i64 (countBlocks_ blockchain))) as [lf ->].
  destruct (blocks_back_Ok (Z.to_nat n) (to_i64 (countBlocks_ blockchain - first))) as [lb ->].
  unfold blockHeadersToJson.
  destruct (bool_decide (direction = Some (str "forward"))); cbn [negb mbind res_bind];
    rewrite <- (page_values_code type version);
    match goal with |- context [blockHeaders_values ?l ?t ?v] => by destruct (blockHeaders_values l t v) as [[]|[]| |] end.
Qed.

(** The other functions. *)
Lemma dispatch_code func id_ m fmt version stat :
  func <> str "get-statistic2" ->
  code_of (dispatch func id_ (JObject m) fmt version stat) = expected_code func m.
Proof.
  intros Hf. unfold Server.dispatch, expected_code. rewrite (bool_decide_false (func = str "get-statistic2")) by done.
  destruct (bool_decide (func = str "status")), (bool_decide (func = str "getinfo")),
    (bool_decide (func = str "get-statistic")); try done. cbn [orb].
  case_bool_decide as E1; [by rewrite E1, Server_getBlock_code|].
  case_bool_decide as E2; [by rewrite E2, Server_getBlock_code|].
  case_bool_decide as E3; [by rewrite E3, getBlocks_code|].
  case_bool_decide as E4; [by rewrite E4, Server_getBlockDump_code|].
  case_bool_decide as E5; [by rewrite E5, Server_getBlockDump_code|].
  case_bool_decide as E6; [by rewrite E6, getBlockDumps_code|].
  case_bool_decide as E7; [by rewrite E7, getBlockDumps_code|].
  by case_bool_decide.
Qed.

(** The id of the answer is the request's. *)
Definition id_of (m : list (bytes * json)) : RequestId :=
  match find_member m (str "id") with
  | Some (JString s) => mkRequestId (inl (c_str s)) true
  | Some (JInt z) => if is_int64 z then mkRequestId (inr (u64 z)) true else no_id
  | _ => no_id
  end.

Lemma handle_code req stat m :
  rq_method req = str "POST" -> rq_post req <> [] -> json_parse (c_str (rq_post req)) = Some (JObject m) ->
  drop 1 (rq_url req) <> str "get-statistic2" -> 1 < blen (rq_url req) ->
  exists resp, handle req stat = Ok resp /\ rs_code resp = expected_code (drop 1 (rq_url req)) m /\
    (rs_code resp = 400 -> exists msg,
       rs_data resp = genErrorResponse (id_of m) (-32602) (msg ++ str ". Url: " ++ rq_url req)) /\
    (rs_code resp = 500 -> exists msg, rs_data resp = genErrorResponse (id_of m) (-32603) msg).
Proof.
  intros Hm Hp Hj Hf Hu. unfold Server.handle, request_head. rewrite bool_decide_true by done.
  rewrite is_empty_false by done. rewrite Hj. cbn [mbind res_bind].
  rewrite (proj2 (Z.ltb_lt _ _)) by done. cbn [mbind res_bind].
  unfold request_id. cbn [json_member mbind res_bind]. fold (id_of m).
  assert (exists v fmt, request_options (JObject m) = Ok (v, fmt)) as (v & fmt & ->).
  { unfold request_options, json_string, opt_bool, json_member. cbn [mbind res_bind].
    destruct (find_member m (str "version")) as [[]|]; by do 2 eexists. }
  cbn [mbind res_bind].
  pose proof (dispatch_code (drop 1 (rq_url req)) (id_of m) m fmt v stat Hf) as Hc.
  pose proof (answers_dispatch (drop 1 (rq_url req)) (id_of m) m fmt v stat Hf) as [HU HO].
  destruct (dispatch _ _ _ _ _ _) as [data|[msg|msg|msg|]| |]; try done; cbn [answer error_answer code_of] in *;
    (eexists; split; [reflexivity|]); cbn [rs_code rs_data]; (split; [exact Hc|]);
    unfold HTTP_STATUS_OK, HTTP_STATUS_BAD_REQUEST, HTTP_STATUS_INTERNAL_SERVER_ERROR in *;
    split; intros E; try discriminate E; by eexists.
Qed.

(** ** The pages of [get-blocks] *)

(** [l] are the headers of the blocks with these numbers. *)
Definition headers_of (numbers : list Z) (l : list BlockHeader) : Prop :=
  Forall2 (fun k h => getBlock_by_number k blockchain = Ok h /\ bh_blockNumber h = Some k) numbers l.

Lemma blocks_forward_spec n i :
  0 <= i -> countBlocks_ blockchain < 2 ^ 63 -> i <= countBlocks_ blockchain + 1 ->
  exists l, blocks_forward blockchain n i (countBlocks_ blockchain) = Ok l /\
    headers_of (seqZ i (Z.min (Z.of_nat n) (countBlocks_ blockchain + 1 - i))) l.
Proof.
  revert i. induction n as [|n IH]; intros i Hi Hc Hle; cbn [blocks_forward].
  { exists []. split; [done|]. rewrite seqZ_nil by lia. constructor. }
  destruct (Z.ltb_spec i (countBlocks_ blockchain + 1)) as [Hlt|Hge].
  - rewrite u64_small by (unfold is_u64; lia).
    destruct (getBlock_in_range blockchain i Hchain ltac:(lia)) as (h & Hh & Hnum). rewrite Hh. cbn [mbind res_bind].
    destruct (IH (i + 1)) as (l & -> & Hl); [lia..|]. cbn [mbind res_bind]. exists (h :: l). split; [done|].
    rewrite seqZ_cons by lia. constructor; [done|].
    replace (Z.pred (Z.min (Z.of_nat (S n)) (countBlocks_ blockchain + 1 - i)))
      with (Z.min (Z.of_nat n) (countBlocks_ blockchain + 1 - (i + 1))) by lia.
    by replace (Z.succ i) with (i + 1) by lia.
  - exists []. split; [done|]. rewrite seqZ_nil by lia. constructor.
Qed.

(** Numbers going down from [i], [n] of them at most, and none below 1. *)
Definition down_from (i : Z) (n : nat) : list Z :=
  (fun k => i - k) <$> seqZ 0 (Z.min (Z.of_nat n) i).

Lemma down_from_S i n : 0 < i -> down_from i (S n) = i :: down_from (i - 1) n.
Proof.
  intros Hi. unfold down_from. rewrite seqZ_cons by lia. cbn [fmap list_fmap]. f_equal; [lia|].
  replace (Z.pred (Z.min (Z.of_nat (S n)) i)) with (Z.min (Z.of_nat n) (i - 1)) by lia.
  apply list_eq. intros j. rewrite !list_lookup_fmap.
  destruct (decide (Z.of_nat j < Z.min (Z.of_nat n) (i - 1))).
  - rewrite !lookup_seqZ_lt by lia. cbn. f_equal. lia.
  - by rewrite !lookup_seqZ_ge by lia.
Qed.

Lemma blocks_back_spec n i :
  i <= countBlocks_ blockchain -> countBlocks_ blockchain < 2 ^ 63 ->
  exists l, blocks_back blockchain n i = Ok l /\ headers_of (down_from i n) l.
Proof.
  revert i. induction n as [|n IH]; intros i Hi Hc; cbn [blocks_back].
  { exists []. split; [done|]. unfold down_from. rewrite seqZ_nil by lia. constructor. }
  destruct (Z.ltb_spec 0 i) as [Hlt|Hge].
  - rewrite u64_small by (unfold is_u64; lia).
    destruct (getBlock_in_range blockchain i Hchain ltac:(lia)) as (h & Hh & Hnum). rewrite Hh. cbn [mbind res_bind].
    destruct (IH (i - 1)) as (l & -> & Hl); [lia..|]. cbn [mbind res_bind]. exists (h :: l). split; [done|].
    rewrite down_from_S by done. by constructor.
  - exists []. split; [done|]. unfold down_from. rewrite seqZ_nil by lia. constructor.
Qed.

End facts.
