(* ===== verification/ClientServer.v ===== *)
(** * A node asking a node

    The requests of GetNewBlocks, given to the handler of Server, answered, and
    read back by the readers of generate_json: for each request the reader gets
    the block, the blocks or the count the server's chain has.  That rapidjson
    reads the request's text as the object it spells, and its own output back,
    are hypotheses. *)
From S2P Require Import Prelude External BlockInfo BlockChainInterface Dumps P2P JsonApi GetNewBlocks Server.
From S2P Require Import ServerFacts.
#[local] Open Scope Z_scope.

(** The objects the requests spell. *)
Definition block_request (n : Z) : json :=
  JObject [(str "id", JInt 1); (str "params", JObject [(str "number", JInt n); (str "type", JString (str "forP2P"))])].
Definition blocks_request (beginBlock countBlocks : Z) : json :=
  JObject [(str "id", JInt 1); (str "params", JObject [(str "beginBlock", JInt beginBlock);
    (str "countBlocks", JInt countBlocks); (str "type", JString (str "forP2P"));
    (str "direction", JString (str "forward"))])].

(** A query as the HTTP request that reaches the server. *)
Definition http_request (q : Query) : Request := mkRequest (str "POST") (str "/" ++ fst q) (snd q).

Section composition.
Context `{Rapidjson} `{Support} `{Lz4} {C : Type} `{BlockChainReadLaws C}.
Variable blockchain : C.
Variable sync_getBlockDump : BlockHeader -> Z -> Z -> bool -> bool -> res bytes.
Variable sync_verifyTechnicalAddressSign : bytes -> bytes -> bytes -> res bool.
Variables (VERSION g_GIT_SHA1 serverPrivKey : bytes).
Variables (nowTimestamp : Z) (getTotalSystemMemory getOpenedConnections : res Z).
Hypothesis Hchain : chain_ok blockchain.

#[local] Abbreviation handle := (handle blockchain sync_getBlockDump sync_verifyTechnicalAddressSign VERSION
  g_GIT_SHA1 serverPrivKey nowTimestamp getTotalSystemMemory getOpenedConnections).

Definition id_one : RequestId := mkRequestId (inr 1) true.

(** What a request with a known document leads to. *)
Lemma handle_known q m stat :
  json_parse (c_str (snd q)) = Some (JObject m) -> snd q <> [] -> fst q <> [] ->
  find_member m (str "id") = Some (JInt 1) -> find_member m (str "version") = None ->
  find_member m (str "pretty") = None ->
  handle (http_request q) stat =
    answer id_one (str "/" ++ fst q)
      (dispatch blockchain sync_getBlockDump sync_verifyTechnicalAddressSign VERSION g_GIT_SHA1
         serverPrivKey nowTimestamp getTotalSystemMemory getOpenedConnections
         (fst q) id_one (JObject m) false V1 stat).
Proof.
  intros Hp Hne Hq Hid Hv Hpr. unfold Server.handle, request_head, http_request. cbn [rq_method rq_post rq_url].
  rewrite bool_decide_true by done. rewrite is_empty_false by done. rewrite Hp. cbn [mbind res_bind].
  assert ((1 <? blen (str "/" ++ fst q)) = true) as ->.
  { apply Z.ltb_lt. rewrite blen_app. destruct (fst q); [done|]. rewrite blen_cons.
    change (blen (str "/")) with 1. pose proof (blen_nonneg l). lia. }
  cbn [mbind res_bind]. change (drop 1 (str "/" ++ fst q)) with (fst q).
  unfold request_id, request_options, json_string, opt_bool, json_member. rewrite Hid, Hv, Hpr. done.
Qed.

Lemma dispatch_by_number id_ doc fmt v stat :
  dispatch blockchain sync_getBlockDump sync_verifyTechnicalAddressSign VERSION g_GIT_SHA1
    serverPrivKey nowTimestamp getTotalSystemMemory getOpenedConnections
    (str "get-block-by-number") id_ doc fmt v stat
  = Server_getBlock blockchain false id_ doc (str "number") fmt v.
Proof. reflexivity. Qed.

Lemma dispatch_blocks id_ doc fmt v stat :
  dispatch blockchain sync_getBlockDump sync_verifyTechnicalAddressSign VERSION g_GIT_SHA1
    serverPrivKey nowTimestamp getTotalSystemMemory getOpenedConnections
    (str "get-blocks") id_ doc fmt v stat
  = getBlocks blockchain id_ doc fmt v.
Proof. reflexivity. Qed.

(** ** One block *)

Lemma block_params n :
  - 2 ^ 63 <= n < 2 ^ 63 ->
  getJsonField false (JObject [(str "number", JInt n); (str "type", JString (str "forP2P"))]) (str "number")
  = Ok (ByNumber (u64 n)).
Proof.
  intros Hn. unfold getJsonField, json_member. cbn [mbind res_bind].
  change (find_member _ (str "number")) with (Some (JInt n)). cbn [getJsonValue].
  unfold is_int64. rewrite (proj2 (Z.leb_le _ _)), (proj2 (Z.ltb_lt _ _)) by lia. done.
Qed.

Lemma dispatch_block n m :
  0 <= n < 2 ^ 63 -> find_member m (str "params") =
    Some (JObject [(str "number", JInt n); (str "type", JString (str "forP2P"))]) ->
  Server_getBlock blockchain false id_one (JObject m) (str "number") false V1 =
    (bh ← getBlock_by_number n blockchain;
     match bh_blockNumber bh with
     | None => Ok (genErrorResponse id_one (-32603) (str "block " ++ to_string n ++ str " not found"))
     | Some k => _ ← getBlock_by_number (u64 (k + 1)) blockchain; blockHeaderToJson id_one bh false ForP2P V1
     end).
Proof.
  intros Hn Hp. unfold Server_getBlock, user_object, json_member. rewrite Hp. cbn [mbind res_bind].
  rewrite block_params by lia. cbn [mbind res_bind].
  assert (block_type (JObject [(str "number", JInt n); (str "type", JString (str "forP2P"))]) = Ok ForP2P) as ->
    by reflexivity.
  cbn [mbind res_bind getBlock_key key_to_string]. rewrite u64_small by (unfold is_u64; lia). done.
Qed.

(** rapidjson reads a request for one block, and what it wrote. *)
Definition reads_block_request (n : Z) : Prop :=
  json_parse (c_str (snd (qs_block_by_number n))) = Some (block_request n).

Lemma server_block_answer n bh stat :
  0 < n <= countBlocks_ blockchain -> n < 2 ^ 63 -> reads_block_request n ->
  getBlock_by_number n blockchain = Ok bh -> sendable bh n ->
  exists text, handle (http_request (qs_block_by_number n)) stat = Ok (mkResponse text HTTP_STATUS_OK) /\
    blockHeaderToJson id_one bh false ForP2P V1 = Ok text.
Proof.
  intros Hn H63 Hq Hb Hs. unfold reads_block_request, block_request in Hq.
  rewrite (handle_known _ _ _ Hq) by done. cbn [fst qs_block_by_number]. rewrite dispatch_by_number.
  rewrite (dispatch_block n) by (done || lia). rewrite Hb. cbn [mbind res_bind].
  destruct (header_value_read bh n Hs) as (m & Hv & _). destruct Hs as (Hnum & _). rewrite Hnum.
  destruct (getBlock_by_number_Ok blockchain Hchain (u64 (n + 1))) as [nb ->].
  { pose proof (u64_range (n + 1)) as Hu. unfold is_u64 in Hu. lia. }
  cbn [mbind res_bind]. unfold blockHeaderToJson. rewrite Hnum, bool_decide_false by (intros [=]; lia).
  rewrite Hv. cbn [mbind res_bind answer]. eexists. split; reflexivity.
Qed.

(** A block the chain does not have: the answer is an error, which the reader
    throws. *)
Lemma server_block_unknown n stat :
  countBlocks_ blockchain < n -> 0 <= n < 2 ^ 63 -> reads_block_request n ->
  handle (http_request (qs_block_by_number n)) stat =
    Ok (mkResponse (genErrorResponse id_one (-32603) (str "block " ++ to_string n ++ str " not found")) HTTP_STATUS_OK).
Proof.
  intros Hn Hr Hq. unfold reads_block_request, block_request in Hq.
  rewrite (handle_known _ _ _ Hq) by done. cbn [fst qs_block_by_number]. rewrite dispatch_by_number.
  rewrite (dispatch_block n) by (done || lia). by rewrite getBlock_out_of_range.
Qed.

Lemma error_answer_refused id_ code msg :
  reads_back (JObject (addIdToResponse id_ [] ++
    [(str "error", JObject [(str "code", JInt code); (str "message", JString msg)])])) ->
  exists e, parseBlockHeader (genErrorResponse id_ code msg) = throwErr e.
Proof.
  unfold reads_back, parseBlockHeader, parse_result, genErrorResponse. intros ->.
  assert (find_member (addIdToResponse id_ [] ++ [(str "error", JObject [(str "code", JInt code);
      (str "message", JString msg)])]) (str "error") =
    Some (JObject [(str "code", JInt code); (str "message", JString msg)])) as He.
  { unfold addIdToResponse. destruct (ri_isSet id_); [destruct (ri_id id_)|]; reflexivity. }
  cbn [json_member mbind res_bind]. rewrite He. by eexists.
Qed.

(** ** A range of blocks *)

Definition reads_blocks_request (beginBlock countBlocks : Z) : Prop :=
  json_parse (c_str (snd (qs_blocks beginBlock countBlocks))) = Some (blocks_request beginBlock countBlocks).

Lemma is_int32_true z : - 2 ^ 31 <= z < 2 ^ 31 -> is_int32 z = true.
Proof. intros Hz. unfold is_int32. rewrite (proj2 (Z.leb_le _ _)), (proj2 (Z.ltb_lt _ _)) by lia. done. Qed.

Lemma dispatch_range b n m :
  0 <= b < 2 ^ 31 -> 0 <= n <= 1000 -> find_member m (str "params") =
    Some (JObject [(str "beginBlock", JInt b); (str "countBlocks", JInt n);
      (str "type", JString (str "forP2P")); (str "direction", JString (str "forward"))]) ->
  getBlocks blockchain id_one (JObject m) false V1 =
    (bhs ← blocks_forward blockchain (Z.to_nat n) b (to_i64 (countBlocks_ blockchain));
     blockHeadersToJson id_one bhs ForP2P false V1).
Proof.
  intros Hb Hn Hp. unfold getBlocks, user_object, json_member. rewrite Hp. cbn [mbind res_bind].
  set (params := JObject _).
  assert (opt_int params (str "countBlocks") 0 = Ok n) as ->.
  { unfold opt_int, params, json_member. cbn [mbind res_bind].
    change (find_member _ (str "countBlocks")) with (Some (JInt n)). cbn iota. by rewrite is_int32_true by lia. }
  assert (opt_int params (str "beginBlock") 0 = Ok b) as ->.
  { unfold opt_int, params, json_member. cbn [mbind res_bind].
    change (find_member _ (str "beginBlock")) with (Some (JInt b)). cbn iota. by rewrite is_int32_true by lia. }
  assert (blocks_type params = Ok ForP2P) as -> by reflexivity.
  assert (json_string params (str "direction") = Ok (Some (str "forward"))) as -> by reflexivity.
  cbn [mbind res_bind]. unfold CHECK_USER. rewrite (proj2 (Z.leb_le n 1000)) by lia. cbn [mbind res_bind].
  rewrite (proj2 (Z.ltb_ge n 0)) by lia. cbn [mbind res_bind]. by rewrite bool_decide_true.
Qed.

Lemma headers_of_unique ns l l' : headers_of blockchain ns l -> headers_of blockchain ns l' -> l = l'.
Proof.
  intros Hl. revert l'. induction Hl as [|n h ns l [Hg _] Hl IH]; intros l' Hl'; inversion Hl' as [|? h' ? l2 [Hg' _] Hl2];
    subst; [done|]. f_equal; [congruence|]. by apply IH.
Qed.

Lemma server_blocks_answer b n hs stat :
  0 < b -> 0 < n <= 1000 -> b + n - 1 <= countBlocks_ blockchain -> b < 2 ^ 31 -> countBlocks_ blockchain < 2 ^ 63 ->
  reads_blocks_request b n -> headers_of blockchain (seqZ b n) hs -> Forall2 sendable hs (seqZ b n) ->
  exists text, handle (http_request (qs_blocks b n)) stat = Ok (mkResponse text HTTP_STATUS_OK) /\
    blockHeadersToJson id_one hs ForP2P false V1 = Ok text.
Proof.
  intros Hb Hn Hle H31 H63 Hq Hh Hs. unfold reads_blocks_request, blocks_request in Hq.
  rewrite (handle_known _ _ _ Hq) by done. cbn [fst qs_blocks]. rewrite dispatch_blocks.
  rewrite (dispatch_range b n) by (done || lia).
  replace (to_i64 (countBlocks_ blockchain)) with (countBlocks_ blockchain).
  2: { unfold to_i64. rewrite u64_small by (unfold is_u64; lia). by rewrite (proj2 (Z.ltb_lt _ _)). }
  destruct (blocks_forward_spec blockchain Hchain (Z.to_nat n) b) as (l & -> & Hl); [lia..|].
  rewrite Z2Nat.id, Z.min_l in Hl by lia. rewrite (headers_of_unique _ _ _ Hl Hh). cbn [mbind res_bind].
  destruct (headers_values_read hs (seqZ b n) [] Hs) as (vs & Hv & _).
  unfold blockHeadersToJson. rewrite Hv. cbn [mbind res_bind]. eexists. split; reflexivity.
Qed.

(** ** The number of blocks *)

Definition reads_count_request : Prop :=
  json_parse (c_str (js "{'id': 1}")) = Some (JObject [(str "id", JInt 1)]).

Lemma server_count_answer stat :
  reads_count_request ->
  handle (http_request (str "get-count-blocks", js "{'id': 1}")) stat =
    Ok (mkResponse (genCountBlockJson id_one (countBlocks_ blockchain) false V1) HTTP_STATUS_OK).
Proof.
  intros Hq. rewrite (handle_known (str "get-count-blocks", js "{'id': 1}") [(str "id", JInt 1)] stat Hq) by done.
  reflexivity.
Qed.

Lemma count_answer_read id_ n :
  0 <= n < 2 ^ 31 ->
  reads_back (JObject (addIdToResponse id_ [] ++ [(str "result", JObject [(str "count_blocks", JInt n)])])) ->
  parse_count_blocks (genCountBlockJson id_ n false V1) = Ok n.
Proof.
  intros Hn Hr. unfold parse_count_blocks, genCountBlockJson. cbn [intOrString].
  rewrite (parse_result_of id_) by done. cbn [mbind res_bind json_member].
  change (find_member _ _) with (Some (JInt n)). cbn [mbind res_bind].
  rewrite is_int32_true by lia. by rewrite u64_small by (unfold is_u64; lia).
Qed.

End composition.
