(* ===== verification/GetNewBlocksFacts.v ===== *)
(** * Asking other nodes for blocks: facts

    The last block is the largest count any server gave, with exactly the
    servers that gave it; the cache of headers has one entry per block asked
    for, in order; the cache of dumps holds what was asked for each hash. *)
From S2P Require Import Prelude External BlockInfo P2P P2PFacts Graph P2PLayers P2PLayersFacts.
From S2P Require Import Dumps JsonApi GetNewBlocks.
#[local] Open Scope Z_scope.

(** ** The last block *)

Section last_block.
Context `{Rapidjson}.

(** The server and the count of a reply that has one. *)
Definition event_count (event : Event) : option (bytes * Z) :=
  match event with
  | (server, result, None) =>
      match parse_count_blocks result with Ok n => Some (server, n) | _ => None end
  | _ => None
  end.

Definition max_count (counts : list (bytes * Z)) : Z := foldr Z.max 0 counts.*2.

(** The servers that gave the largest count. *)
Definition best_servers (counts : list (bytes * Z)) : list bytes :=
  (List.filter (fun c => c.2 =? max_count counts) counts).*1.

Lemma foldr_max_snoc l x : foldr Z.max 0 (l ++ [x]) = Z.max (foldr Z.max 0 l) (Z.max x 0).
Proof. induction l as [|y l IH]; cbn [app foldr]; [lia|]. rewrite IH. lia. Qed.

Lemma max_count_ge counts c : c ∈ counts -> c.2 <= max_count counts.
Proof.
  unfold max_count. induction counts as [|d l IH]; [by intros ?%elem_of_nil|].
  intros [->|Hc]%elem_of_cons; cbn; [lia|]. specialize (IH Hc). lia.
Qed.

Lemma max_count_nonneg counts : 0 <= max_count counts.
Proof. unfold max_count. induction counts as [|d l IH]; cbn in *; lia. Qed.

Lemma max_count_reached counts :
  counts <> [] -> (forall c, c ∈ counts -> 0 <= c.2) -> exists c, c ∈ counts /\ c.2 = max_count counts.
Proof.
  induction counts as [|d l IH]; [done|]. intros _ Hp. unfold max_count in *. cbn [fmap list_fmap foldr].
  assert (0 <= d.2) by (apply Hp; by left). destruct l as [|e l].
  { exists d. split; [by left|]. cbn. lia. }
  destruct IH as (c & Hc & He); [done|intros c Hc; apply Hp; by right|].
  destruct (Z.max_spec d.2 (foldr Z.max 0 (e :: l).*2)) as [[_ ->]|[_ ->]]; [exists c|exists d];
    (split; [|done]); [by right|by left].
Qed.

Lemma filter_none {A} (f : A -> bool) l : (forall x, x ∈ l -> f x = false) -> List.filter f l = [].
Proof.
  induction l as [|x l IH]; intros Hf; [done|]. cbn. rewrite Hf by (by left). apply IH.
  intros y Hy. apply Hf. by right.
Qed.

Lemma filter_same {A} (f g : A -> bool) l : (forall x, x ∈ l -> f x = g x) -> List.filter f l = List.filter g l.
Proof.
  induction l as [|x l IH]; intros Hf; [done|]. cbn. rewrite (Hf x) by (by left).
  rewrite IH by (intros y Hy; apply Hf; by right). done.
Qed.

Lemma best_servers_snoc counts c :
  0 <= c.2 ->
  best_servers (counts ++ [c]) =
    if max_count counts <? c.2 then [c.1]
    else if max_count counts =? c.2 then best_servers counts ++ [c.1] else best_servers counts.
Proof.
  intros Hc. unfold best_servers.
  assert (max_count (counts ++ [c]) = Z.max (max_count counts) (Z.max c.2 0)) as ->.
  { unfold max_count. rewrite fmap_app. apply foldr_max_snoc. }
  rewrite List.filter_app, fmap_app. cbn [List.filter].
  pose proof (max_count_ge counts) as Hge.
  destruct (Z.ltb_spec (max_count counts) c.2) as [Hlt|Hle].
  - rewrite (Z.max_l c.2), Z.max_r, Z.eqb_refl by lia. rewrite filter_none; [done|].
    intros d Hd. apply Z.eqb_neq. specialize (Hge d Hd). lia.
  - rewrite (Z.max_l c.2), (Z.max_l (max_count counts)) by lia.
    destruct (Z.eqb_spec (max_count counts) c.2) as [Heq|Hne].
    + by rewrite (proj2 (Z.eqb_eq c.2 _)).
    + rewrite (proj2 (Z.eqb_neq c.2 _)) by done. by rewrite app_nil_r.
Qed.

Lemma parse_count_nonneg result n : parse_count_blocks result = Ok n -> 0 <= n.
Proof.
  unfold parse_count_blocks. intros Hp. apply bind_Ok_inv in Hp as (v & _ & Hp).
  destruct v; try done. apply bind_Ok_inv in Hp as (c & _ & Hp).
  destruct c as [[]|]; try done. destruct (is_int32 z); [|done]. injection Hp as <-. apply u64_range.
Qed.

(** What the callback's variables hold after the replies with these counts. *)
Definition acc_of (counts : list (bytes * Z)) (acc : LastBlockAcc) : Prop :=
  la_lastBlock acc = (if bool_decide (counts = []) then None else Some (max_count counts)) /\
  la_serversSave acc = best_servers counts.

Lemma save_count_spec counts acc server n :
  0 <= n -> acc_of counts acc -> acc_of (counts ++ [(server, n)]) (save_count acc server n).
Proof.
  intros Hn [Hl Hs]. unfold acc_of. rewrite best_servers_snoc by done. cbn [fst snd].
  rewrite bool_decide_false by (by destruct counts).
  assert (default 0 (la_lastBlock acc) = max_count counts) as Hd.
  { rewrite Hl. case_bool_decide as Hc; [|done]. by rewrite Hc. }
  assert (max_count (counts ++ [(server, n)]) = Z.max (max_count counts) (Z.max n 0)) as ->.
  { unfold max_count. rewrite fmap_app. apply foldr_max_snoc. }
  unfold save_count. rewrite Hd.
  destruct (Z.ltb_spec (max_count counts) n); [cbn; split; [f_equal; lia|done]|].
  destruct (Z.eqb_spec (max_count counts) n); cbn; rewrite Hs; split; try done; f_equal; lia.
Qed.

Lemma callbacks_spec events counts acc acc' :
  acc_of counts acc -> foldM last_block_callback acc events = Ok acc' ->
  acc_of (counts ++ omap event_count events) acc'.
Proof.
  revert counts acc. induction events as [|ev events IH]; intros counts acc Ha; cbn [foldM omap list_omap].
  { intros [= <-]. by rewrite app_nil_r. }
  intros Hf. apply bind_Ok_inv in Hf as (acc1 & Hc & Hf).
  destruct ev as [[server result] [message|]]; cbn [event_count last_block_callback] in *.
  { injection Hc as <-. by apply (IH counts) in Hf. }
  destruct (parse_count_blocks result) as [n|[]| |] eqn:Hp; cbn in Hc; try done; injection Hc as <-.
  - apply (IH (counts ++ [(server, n)])) in Hf; [by rewrite <- app_assoc in Hf|].
    apply save_count_spec; [by eapply parse_count_nonneg|done].
  - by apply (IH counts) in Hf.
Qed.

Context {W : Type} `{P2PNet W}.

(** The counts of a broadcast's replies. *)
Definition reply_counts (w : W) : list (bytes * Z) :=
  omap event_count (net_broadcast (str "get-count-blocks", js "{'id': 1}") w).1.2.

Lemma reply_counts_nonneg w c : c ∈ reply_counts w -> 0 <= c.2.
Proof.
  unfold reply_counts. intros ([[server result] e] & _ & Hc)%list_elem_of_omap.
  destruct e as [|]; [done|]. cbn in Hc. destruct (parse_count_blocks result) eqn:Hp; try done.
  injection Hc as <-. by eapply parse_count_nonneg.
Qed.

Lemma getLastBlock_spec w w' r :
  getLastBlock w = (w', Ok r) ->
  let counts := reply_counts w in
  (counts = [] -> lr_lastBlock r = None /\ is_Some (lr_error r)) /\
  (counts <> [] -> lr_lastBlock r = Some (max_count counts) /\ lr_error r = None /\
     lr_servers r = best_servers counts).
Proof.
  unfold getLastBlock. cbn zeta. unfold reply_counts.
  destruct (net_broadcast _ w) as [[w1 events] out]. intros [= _ Hr]. cbn [fst snd].
  apply bind_Ok_inv in Hr as (acc & Hf & Hr). apply bind_Ok_inv in Hr as (u & _ & [= <-]).
  apply (callbacks_spec events []) in Hf as [Hl Hs]; [|done]. cbn [app] in *.
  unfold last_block_response. rewrite Hl. case_bool_decide as Hc; [|rewrite Hs; by split].
  split; [|done]. intros _. cbn. by split; [|eexists].
Qed.

Lemma best_servers_nonempty counts :
  counts <> [] -> (forall c, c ∈ counts -> 0 <= c.2) -> best_servers counts <> [].
Proof.
  intros Hne Hp. destruct (max_count_reached counts Hne Hp) as (c & Hc & Heq). intros Hb.
  assert (c.1 ∈ best_servers counts) as Hin; [|rewrite Hb in Hin; by apply elem_of_nil in Hin].
  unfold best_servers. apply list_elem_of_fmap. exists c. split; [done|].
  apply list_elem_of_In, List.filter_In. split; [by apply list_elem_of_In|]. by apply Z.eqb_eq.
Qed.

Lemma best_servers_elem counts server :
  server ∈ best_servers counts <-> (server, max_count counts) ∈ counts.
Proof.
  unfold best_servers. rewrite list_elem_of_fmap. split.
  - intros ([s n] & -> & Hc). apply list_elem_of_In, List.filter_In in Hc as [Hc He].
    apply Z.eqb_eq in He. cbn in *. rewrite <- He. by apply list_elem_of_In.
  - intros Hc. exists (server, max_count counts). split; [done|].
    apply list_elem_of_In, List.filter_In. split; [by apply list_elem_of_In|]. cbn. apply Z.eqb_refl.
Qed.

(** The order of the replies does not matter. *)
Lemma max_count_perm (c1 c2 : list (bytes * Z)) : c1 ≡ₚ c2 -> max_count c1 = max_count c2.
Proof. unfold max_count. induction 1; csimpl; lia. Qed.

Lemma best_servers_perm (c1 c2 : list (bytes * Z)) : c1 ≡ₚ c2 -> best_servers c1 ≡ₚ best_servers c2.
Proof.
  intros Hp. unfold best_servers. rewrite (max_count_perm _ _ Hp). apply Permutation_map.
  generalize (max_count c2). intros m. induction Hp as [|x l k _ IH|x y l|l k j _ IH1 _ IH2]; cbn.
  - done.
  - destruct (x.2 =? m); [by constructor|done].
  - destruct (x.2 =? m), (y.2 =? m); try done. by constructor.
  - by etrans.
Qed.

(** ** Over P2P_Ips

    The broadcast of a node that knows its servers by a list. *)
Class IpsNet (servers : list bytes) (curl : bytes -> Query -> res bytes -> Prop)
    (checkStopSignal : meth W unit) := {
  ips_broadcast_run : forall q w w' events r, net_broadcast q w = (w', events, r) ->
    Ips_broadcast (S := W * list Event) curl record_event (on_world checkStopSignal) servers q (w, []) (w', events) r;
}.

(** What a server has to say, if it can be reached and understood. *)
Definition server_count (serve : bytes -> Query -> res bytes) (q : Query) (server : bytes) : option (bytes * Z) :=
  match (url ← make_url server q.1; serve url q) ≫= parse_count_blocks with
  | Ok n => Some (server, n)
  | _ => None
  end.

Lemma event_server_count serve q e :
  event_from (fun url q r => r = serve url q) q e -> event_count e = server_count serve q (event_server e).
Proof.
  intros (reply & Hl & He). unfold server_count, layer_reply in *.
  assert (reply = (url ← make_url (event_server e) q.1; serve url q)) as <-
    by (destruct (make_url _ _); exact Hl).
  destruct reply as [response|[]| |]; try done; injection He as <-; cbn; [|done].
  by destruct (parse_count_blocks response).
Qed.

Lemma reply_counts_servers serve servers stop w :
  IpsNet servers (fun url q r => r = serve url q) stop ->
  reply_counts w ≡ₚ omap (server_count serve (str "get-count-blocks", js "{'id': 1}")) servers.
Proof.
  intros [Hrun]. unfold reply_counts. set (q := (str "get-count-blocks", js "{'id': 1}")).
  destruct (net_broadcast q w) as [[w' events] r] eqn:Hb. apply Hrun, Ips_broadcast_events in Hb
    as (new & Hn & Hp & Hf). cbn [fst snd app] in *. subst new. rewrite <- Hp. clear Hp.
  induction Hf as [|e events He _ IH]; [done|]. csimpl. rewrite (event_server_count serve q e He).
  destruct (server_count serve q (event_server e)); [by constructor|done].
Qed.

Lemma getLastBlock_servers serve servers stop w w' r :
  IpsNet servers (fun url q r => r = serve url q) stop -> getLastBlock w = (w', Ok r) ->
  let counts := omap (server_count serve (str "get-count-blocks", js "{'id': 1}")) servers in
  lr_lastBlock r = (if bool_decide (counts = []) then None else Some (max_count counts)) /\
  (counts <> [] -> lr_servers r ≡ₚ best_servers counts).
Proof.
  intros Hnet Hl counts. pose proof (reply_counts_servers serve servers stop w Hnet) as Hp.
  destruct (getLastBlock_spec w w' r Hl) as [Hnone Hsome]. cbn zeta in *. fold counts in Hp.
  destruct (decide (counts = [])) as [Hc|Hc].
  - rewrite bool_decide_true by done. rewrite Hc in Hp. apply Permutation_nil_r in Hp. by split; [apply Hnone|].
  - rewrite bool_decide_false by done. assert (reply_counts w <> []) as Hne.
    { intros E. rewrite E in Hp. by apply Permutation_nil_l in Hp. }
    destruct (Hsome Hne) as (-> & _ & ->). split; [by rewrite (max_count_perm _ _ Hp)|].
    intros _. by apply best_servers_perm.
Qed.

End last_block.

(** ** The cache of headers *)

Lemma push_blocks_spec cur j blocks hs hs' :
  push_blocks cur j blocks hs = (hs', Ok tt) -> 0 <= cur + j -> cur + j + blen blocks < 2 ^ 64 ->
  exists new, hs' = hs ++ new /\ new.*1 = seqZ (cur + j) (blen blocks) /\
    Forall (fun e => mh_number e.2 = e.1) new.
Proof.
  revert j hs. induction blocks as [|b blocks IH]; intros j hs; cbn [push_blocks].
  { intros [= <-] _ _. exists []. by rewrite app_nil_r. }
  rewrite blen_cons. pose proof (blen_nonneg blocks). intros Hp H0 Hb. revert Hp.
  rewrite u64_small by (unfold is_u64; lia). destruct (Z.eqb_spec (mh_number b) (cur + j)) as [He|]; [|done].
  intros Hp. destruct (IH (j + 1) _ Hp) as (new & -> & Hk & Hf); [lia..|].
  exists ((cur + j, b) :: new). rewrite <- app_assoc. split; [done|]. split; [|by constructor].
  cbn [fmap list_fmap fst]. rewrite Hk, (seqZ_cons (cur + j)) by lia. f_equal. f_equal; lia.
Qed.

(** Whatever the outcome, each new entry is one of the blocks, under its number. *)
Lemma push_blocks_entries cur j blocks hs :
  0 <= cur + j -> cur + j + blen blocks < 2 ^ 64 ->
  let hs' := fst (push_blocks cur j blocks hs) in
  blen hs' <= blen hs + blen blocks /\
  forall k h, (k, h) ∈ hs' -> (k, h) ∈ hs \/
    exists i : nat, blocks !! i = Some h /\ k = cur + j + Z.of_nat i /\ mh_number h = k.
Proof.
  revert j hs. induction blocks as [|b blocks IH]; intros j hs Hj0 Hb; cbn zeta; cbn [push_blocks].
  { rewrite blen_nil. cbn. split; [lia|]. by left. }
  rewrite blen_cons in *. pose proof (blen_nonneg blocks). rewrite u64_small by (unfold is_u64; lia).
  destruct (Z.eqb_spec (mh_number b) (cur + j)) as [Hnum|]; [|cbn; split; [lia|by left]].
  destruct (IH (j + 1) (hs ++ [(cur + j, b)])) as [Hl Hin]; [lia..|].
  split; [rewrite blen_app, blen_cons, blen_nil in Hl; lia|]. intros k h Hk.
  destruct (Hin k h Hk) as [Hk'|(i & Hi & -> & Hh)]; [|right; exists (S i); split; [done|lia]].
  apply elem_of_app in Hk' as [?|Hk']; [by left|]. apply list_elem_of_singleton in Hk' as [= -> ->].
  right. exists O. split; [done|]. split; [lia|done].
Qed.

Section headers.
Context `{Rapidjson} {W : Type} `{P2PNetLaws W}.
Variables (maxAdvancedLoadBlocks countBlocksInBatch : Z).
Hypothesis Hbatch : 0 < countBlocksInBatch < 2 ^ 62.

#[local] Abbreviation part := (in_part countBlocksInBatch).

(** A reply to a request for block [n] is read as [b]. *)
Definition asked (n : Z) (b : MinimumBlockHeader) : Prop :=
  exists srv response, net_replies srv (qs_block_by_number n) (Ok response) /\
    parseBlockHeader response = Ok b.

(** An entry of the cache that was filled from [blockNum] on: in a part of
    several blocks it has its own number; in a part of one block it answers a
    request for block [blockNum] plus the index of the part. *)
Definition header_entry (blockNum count : Z) (e : Z * MinimumBlockHeader) : Prop :=
  let i := (e.1 - blockNum) / countBlocksInBatch in
  if part count i =? 1 then asked (blockNum + i) e.2 else mh_number e.2 = e.1.

Lemma in_part_eq count i :
  i * countBlocksInBatch <= count < 2 ^ 63 -> 0 <= i ->
  part count i = Z.min countBlocksInBatch (count - i * countBlocksInBatch).
Proof. intros Hc Hi. unfold in_part. rewrite u64_small by (unfold is_u64; nia). done. Qed.

Lemma part_index blockNum i k :
  blockNum + i * countBlocksInBatch <= k < blockNum + (i + 1) * countBlocksInBatch ->
  (k - blockNum) / countBlocksInBatch = i.
Proof. intros Hk. symmetry. apply (Z.div_unique_pos _ _ i (k - blockNum - i * countBlocksInBatch)); lia. Qed.

Lemma push_part_spec blockNum count i answer hs hs' :
  push_part countBlocksInBatch blockNum count i answer hs = (hs', Ok tt) ->
  0 <= blockNum -> blockNum + count < 2 ^ 63 -> 0 <= i -> i * countBlocksInBatch < count ->
  (forall b, part count i = 1 -> parseBlockHeader answer = Ok b -> asked (blockNum + i) b) ->
  exists new, hs' = hs ++ new /\
    new.*1 = seqZ (blockNum + i * countBlocksInBatch) (Z.min countBlocksInBatch (count - i * countBlocksInBatch)) /\
    Forall (header_entry blockNum count) new.
Proof.
  intros Hp Hb Hc Hi Hic Hask. unfold push_part in Hp.
  rewrite u64_small in Hp by (unfold is_u64; nia).
  rewrite (in_part_eq count i) in * by lia. set (n := Z.min _ _) in *.
  set (base := blockNum + i * countBlocksInBatch) in *.
  assert (forall k, base <= k < base + n -> (k - blockNum) / countBlocksInBatch = i) as Hidx.
  { intros k Hk. apply part_index. lia. }
  destruct (Z.eqb_spec n 1) as [Hn|Hn]; cbn [negb] in Hp.
  - destruct (parseBlockHeader answer) as [b| | |] eqn:Hpa; try done. injection Hp as <-.
    exists [(base, b)]. rewrite Hn. split; [done|]. split; [done|]. constructor; [|done].
    unfold header_entry. cbn [fst snd]. rewrite Hidx, in_part_eq by lia.
    fold n. rewrite Hn. cbn. by apply Hask.
  - destruct (parseBlocksHeader answer) as [blocks| | |]; try done. cbn [mbind res_bind] in Hp.
    destruct (Z.eqb_spec (blen blocks) n) as [Hl|]; cbn in Hp; [|done].
    apply push_blocks_spec in Hp as (new & -> & Hk & Hf); [|lia..].
    exists new. split; [done|]. rewrite Z.add_0_r, Hl in Hk. split; [done|].
    apply Forall_forall. intros e He. rewrite Forall_forall in Hf.
    assert (e.1 ∈ seqZ base n) as Hin by (rewrite <- Hk; apply list_elem_of_fmap; eauto).
    apply elem_of_seqZ in Hin. unfold header_entry. rewrite Hidx, in_part_eq by lia. fold n.
    rewrite (proj2 (Z.eqb_neq n 1)) by done. by apply Hf.
Qed.

Lemma push_parts_spec blockNum count i answers hs hs' :
  push_parts countBlocksInBatch blockNum count i answers hs = (hs', Ok tt) ->
  0 <= blockNum -> blockNum + count < 2 ^ 63 -> 0 <= i ->
  (i + blen answers - 1) * countBlocksInBatch < count <= (i + blen answers) * countBlocksInBatch ->
  i * countBlocksInBatch <= count ->
  (forall j a b, answers !! j = Some a -> part count (i + Z.of_nat j) = 1 -> parseBlockHeader a = Ok b ->
     asked (blockNum + (i + Z.of_nat j)) b) ->
  exists new, hs' = hs ++ new /\
    new.*1 = seqZ (blockNum + i * countBlocksInBatch) (count - i * countBlocksInBatch) /\
    Forall (header_entry blockNum count) new.
Proof.
  revert i hs. induction answers as [|a answers IH]; intros i hs; cbn [push_parts].
  { intros [= <-] ? ? ? Hc Hi ?. rewrite blen_nil, Z.add_0_r in Hc.
    exists []. rewrite app_nil_r. split; [done|]. rewrite seqZ_nil by lia. done. }
  rewrite blen_cons. unfold mbind'. intros Hp Hb Hcb Hi Hc _ Hask.
  pose proof (blen_nonneg answers). assert (i * countBlocksInBatch < count) by nia.
  destruct (push_part _ _ _ _ _ hs) as [hs1 [[]| | |]] eqn:Hpart; try done.
  apply push_part_spec in Hpart as (new1 & -> & Hk1 & Hf1); [|lia..|].
  2: { intros b. specialize (Hask O a b eq_refl). by rewrite Z.add_0_r in Hask. }
  destruct (decide (count <= (i + 1) * countBlocksInBatch)) as [Hlast|Hmore].
  - assert (answers = []) as ->.
    { destruct answers; [done|]. rewrite blen_cons in Hc. pose proof (blen_nonneg answers). nia. }
    injection Hp as <-. exists new1. split; [done|]. split; [|done]. rewrite Hk1. f_equal; lia.
  - apply IH in Hp as (new2 & -> & Hk2 & Hf2); [|lia..|].
    2: { intros j a' b Hj. specialize (Hask (S j) a' b Hj).
         by replace (i + 1 + Z.of_nat j) with (i + Z.of_nat (S j)) by lia. }
    exists (new1 ++ new2). rewrite app_assoc. split; [done|]. split; [|by apply Forall_app].
    rewrite fmap_app, Hk1, Hk2, Z.min_l by lia.
    replace (count - i * countBlocksInBatch) with (countBlocksInBatch + (count - (i + 1) * countBlocksInBatch)) by lia.
    rewrite seqZ_app by lia. f_equal. f_equal. lia.
Qed.

Lemma count_parts_spec count n :
  count_parts countBlocksInBatch count = Ok n -> 0 < count < 2 ^ 63 ->
  0 < n < 2 ^ 63 /\ (n - 1) * countBlocksInBatch < count <= n * countBlocksInBatch.
Proof.
  unfold count_parts. destruct (Z.eqb_spec countBlocksInBatch 0); [done|]. intros [= <-] Hc.
  rewrite u64_small by (unfold is_u64; lia).
  set (x := count + countBlocksInBatch - 1).
  pose proof (Z.div_mod x countBlocksInBatch ltac:(lia)) as Hx.
  pose proof (Z.mod_pos_bound x countBlocksInBatch ltac:(lia)) as Hm.
  set (d := x / countBlocksInBatch) in *. set (m := x mod countBlocksInBatch) in *. nia.
Qed.

Lemma on_net_inv {A} (m : meth W A) s s' r :
  on_net m s = (s', r) -> s'.1 = s.1 /\ m s.2 = (s'.2, r).
Proof. unfold on_net. destruct (m s.2) as [w r']. by intros [= <- <-]. Qed.

(** What a load of headers leaves in the cache. *)
Lemma load_block_headers_spec blockNum maxBlockNum server s s' h :
  load_block_headers maxAdvancedLoadBlocks countBlocksInBatch blockNum maxBlockNum server s = (s', Ok h) ->
  0 <= blockNum <= maxBlockNum -> maxBlockNum < 2 ^ 62 -> 0 <= maxAdvancedLoadBlocks ->
  let count := Z.min (maxBlockNum - blockNum + 1) maxAdvancedLoadBlocks in
  (g_headers s'.1).*1 = seqZ blockNum count /\ head (g_headers s'.1) = Some (blockNum, h) /\
  Forall (header_entry blockNum count) (g_headers s'.1).
Proof.
  intros Hl Hb Hm Ha. cbn zeta. unfold load_block_headers, mbind', mlift, mput in Hl.
  cbn [on_headers] in Hl. unfold on_headers at 1 in Hl. cbn [fst snd] in Hl.
  rewrite (u64_small (maxBlockNum - blockNum + 1)) in Hl by (unfold is_u64; lia).
  set (count := Z.min _ _) in *. assert (0 <= count < 2 ^ 63) by lia.
  destruct (count_parts countBlocksInBatch count) as [n| | |] eqn:Hn; try done.
  destruct (Z.eqb_spec count 0) as [|Hc0]; [done|]. destruct (Z.eqb_spec n 0) as [|Hn0]; [done|].
  cbn [negb andb CHECK] in Hl.
  destruct (count_parts_spec _ _ Hn) as [Hnr Hnc]; [lia|].
  destruct (on_net _ _) as [s1 [answers| | |]] eqn:Hr; try done. apply on_net_inv in Hr as [Hs1 Hr].
  destruct (Z.eqb_spec (blen answers) n) as [Hlen|]; cbn [CHECK] in Hl; [|done].
  unfold on_headers in Hl. rewrite Hs1 in Hl. cbn [g_headers g_dumps fst] in Hl.
  destruct (push_parts _ _ _ _ _ []) as [hs [[]| | |]] eqn:Hp; try done.
  assert (forall j a b, answers !! j = Some a -> part count (0 + Z.of_nat j) = 1 ->
    parseBlockHeader a = Ok b -> asked (blockNum + (0 + Z.of_nat j)) b) as Hask.
  { intros j a b Hj Hone Hpa.
    cbn [snd] in Hr. pose proof (net_requests_run _ _ _ _ _ _ _ Hr) as Hrun.
    destruct (p2p_requests_answers _ _ _ _ _ _ Hrun) as [_ Hall]; [lia|].
    destruct (Hall j a Hj) as (srv & q & response & parsed & Hq & Hrep & Hparse & _ & Hpr).
    unfold header_query in Hq. rewrite Z.add_0_l in *. rewrite Hone in Hq. cbn in Hq. injection Hq as <-.
    injection Hparse as <-. cbn in Hpr. subst a. exists srv, response. split; [|done].
    apply lookup_lt_Some in Hj. unfold blen in Hlen. rewrite u64_small in Hrep by (unfold is_u64; nia). done. }
  apply push_parts_spec in Hp as (new & -> & Hk & Hf); [|nia..|done].
  cbn in Hl. injection Hl as <- Hl. cbn [g_headers fst app]. rewrite Z.mul_0_l, Z.add_0_r, Z.sub_0_r in Hk.
  split; [done|]. split; [|done]. rewrite seqZ_cons in Hk by lia.
  destruct new as [|[k b] new]; [done|]. cbn in Hk, Hl. injection Hk as -> _. by injection Hl as ->.
Qed.

(** ** Where a cached header comes from, whatever the servers answer *)

(** A reply to a request for several blocks has [b] for the number [k]. *)
Definition in_batch (k : Z) (b : MinimumBlockHeader) : Prop :=
  exists srv response n c bs (j : nat), net_replies srv (qs_blocks n c) (Ok response) /\
    parseBlocksHeader response = Ok bs /\ blen bs = c /\ bs !! j = Some b /\
    k = n + Z.of_nat j /\ mh_number b = k.

(** [b] is what a node answered for the block [k], alone or in a batch; or, when
    a last part of one block follows full ones, for the number that is asked for
    in its place. *)
Definition announced (k : Z) (b : MinimumBlockHeader) : Prop :=
  asked k b \/ in_batch k b \/
  (1 < countBlocksInBatch < maxAdvancedLoadBlocks /\
   exists n i, 0 < i /\ k = n + i * countBlocksInBatch /\ asked (n + i) b).

(** What the answer [a] to the request for part [i] says of block [k]. *)
Definition part_says (blockNum count i : Z) (a : bytes) (k : Z) (h : MinimumBlockHeader) : Prop :=
  (part count i = 1 /\ k = blockNum + i * countBlocksInBatch /\ parseBlockHeader a = Ok h) \/
  (part count i <> 1 /\ exists bs (j : nat), parseBlocksHeader a = Ok bs /\ blen bs = part count i /\
     bs !! j = Some h /\ k = blockNum + i * countBlocksInBatch + Z.of_nat j /\ mh_number h = k).

Lemma push_part_entries blockNum count i a hs k h :
  0 <= blockNum -> blockNum + count < 2 ^ 62 -> 0 <= i -> i * countBlocksInBatch <= count ->
  (k, h) ∈ fst (push_part countBlocksInBatch blockNum count i a hs) ->
  (k, h) ∈ hs \/ part_says blockNum count i a k h.
Proof.
  intros Hb Hc Hi Hic. unfold push_part, part_says.
  rewrite u64_small by (unfold is_u64; nia). pose proof (in_part_eq count i ltac:(lia) Hi) as Hpart.
  destruct (Z.eqb_spec (part count i) 1) as [Hone|Hone]; cbn [negb].
  - destruct (parseBlockHeader a) as [b| | |]; cbn [fst]; try by left.
    intros [?|Hk]%elem_of_app; [by left|]. apply list_elem_of_singleton in Hk as [= -> ->]. right. by left.
  - destruct (parseBlocksHeader a) as [bs| | |]; cbn [mbind res_bind fst]; try by left.
    destruct (Z.eqb_spec (blen bs) (part count i)) as [Hl|]; cbn [CHECK mbind res_bind fst]; [|by left].
    destruct (push_blocks_entries (blockNum + i * countBlocksInBatch) 0 bs hs) as [_ Hin]; [nia..|].
    destruct (push_blocks _ 0 bs hs) as [hs' r]. cbn [fst] in *. intros Hk.
    assert (fst (match r with Ok _ => (hs', Ok tt) | Throw e => (hs', Throw e) | UB => (hs', UB)
      | OutOfFuel => (hs', OutOfFuel) end) = hs') as E by (by destruct r).
    destruct (Hin k h) as [?|(j & Hj & Ek & Hh)]; [by destruct r|by left|].
    right. right. split; [done|]. exists bs, j. split; [done|]. split; [done|]. split; [done|]. split; [lia|done].
Qed.

Lemma push_parts_entries blockNum count i answers hs k h :
  0 <= blockNum -> blockNum + count < 2 ^ 62 -> 0 <= i ->
  (i + blen answers - 1) * countBlocksInBatch < count ->
  (k, h) ∈ fst (push_parts countBlocksInBatch blockNum count i answers hs) ->
  (k, h) ∈ hs \/ exists (j : nat) a, answers !! j = Some a /\ part_says blockNum count (i + Z.of_nat j) a k h.
Proof.
  intros Hb Hc. revert i hs. induction answers as [|a answers IH]; intros i hs Hi Hic; cbn [push_parts].
  { by left. }
  rewrite blen_cons in Hic. pose proof (blen_nonneg answers). unfold mbind'. intros Hk.
  pose proof (push_part_entries blockNum count i a hs k h Hb Hc Hi ltac:(nia)) as Hp.
  assert ((k, h) ∈ hs \/ part_says blockNum count i a k h -> (k, h) ∈ hs \/ exists (j : nat) a',
    (a :: answers) !! j = Some a' /\ part_says blockNum count (i + Z.of_nat j) a' k h) as Hfirst.
  { intros [?|Hs]; [by left|]. right. exists O, a. rewrite Z.add_0_r. done. }
  destruct (push_part _ _ _ _ _ hs) as [hs1 [[]| | |]]; cbn [fst] in *; try by apply Hfirst, Hp.
  destruct (IH (i + 1) hs1 ltac:(lia) ltac:(lia) Hk) as [?|(j & a' & Hj & Hs)]; [by apply Hfirst, Hp|].
  right. exists (S j), a'. split; [done|]. by replace (i + Z.of_nat (S j)) with (i + 1 + Z.of_nat j) by lia.
Qed.

(** The answer to the request for a part announces what it says. *)
Lemma part_announced blockNum count i a k h srv q :
  0 <= blockNum -> blockNum + count < 2 ^ 62 -> 0 <= i -> i * countBlocksInBatch < count ->
  count <= maxAdvancedLoadBlocks -> part_says blockNum count i a k h ->
  header_query countBlocksInBatch blockNum count i = Ok q -> net_replies srv q (Ok a) -> announced k h.
Proof.
  intros Hb Hc Hi Hic Hm Hs Hq Hr. pose proof (in_part_eq count i ltac:(lia) Hi) as Hpart.
  unfold header_query in Hq. rewrite !u64_small in Hq by (unfold is_u64; nia).
  destruct Hs as [(Hone & -> & Ha)|(Hone & bs & j & Ha & Hl & Hj & -> & Hh)].
  - rewrite Hone in Hq. injection Hq as <-. assert (asked (blockNum + i) h) as Hask by (by exists srv, a).
    destruct (decide (countBlocksInBatch = 1 \/ i = 0)) as [Hcase|Hcase].
    + left. by replace (blockNum + i * countBlocksInBatch) with (blockNum + i) by nia.
    + right. right. split; [nia|]. exists blockNum, i. split; [lia|done].
  - rewrite (proj2 (Z.eqb_neq _ _)) in Hq by done. injection Hq as <-. right. left.
    by exists srv, a, (blockNum + i * countBlocksInBatch), (part count i), bs, j.
Qed.

Lemma load_headers_announced blockNum maxBlockNum server s s' r :
  0 <= blockNum <= maxBlockNum -> maxBlockNum < 2 ^ 61 -> 0 <= maxAdvancedLoadBlocks ->
  load_block_headers maxAdvancedLoadBlocks countBlocksInBatch blockNum maxBlockNum server s = (s', r) ->
  forall k h, (k, h) ∈ g_headers s'.1 -> announced k h.
Proof.
  intros Hb Hm Ha Hl k h. revert Hl. unfold load_block_headers, mbind', mlift, mput.
  unfold on_headers at 1. cbn [fst snd].
  rewrite (u64_small (maxBlockNum - blockNum + 1)) by (unfold is_u64; lia).
  set (count := Z.min _ _). assert (0 <= count /\ blockNum + count < 2 ^ 62 /\ count <= maxAdvancedLoadBlocks)
    as (Hc0 & Hcb & Hcm) by lia.
  assert ((k, h) ∈ @nil (Z * MinimumBlockHeader) -> announced k h) as Hnil by (by intros ?%elem_of_nil).
  destruct (count_parts countBlocksInBatch count) as [n| | |] eqn:Hn; try (intros [= <- <-]; exact Hnil).
  destruct (Z.eqb_spec count 0) as [|Hcne]; [intros [= <- <-]; exact Hnil|].
  destruct (Z.eqb_spec n 0) as [|Hn0]; [intros [= <- <-]; exact Hnil|]. cbn [negb andb CHECK].
  destruct (count_parts_spec _ _ Hn) as [Hnr Hnc]; [lia|].
  destruct (on_net _ _) as [s1 [answers| | |]] eqn:Hr; apply on_net_inv in Hr as [Hs1 Hr]; cbn [fst snd] in *;
    try (intros [= <- <-]; rewrite Hs1; exact Hnil).
  destruct (Z.eqb_spec (blen answers) n) as [Hlen|]; cbn [CHECK]; [|intros [= <- <-]; rewrite Hs1; exact Hnil].
  unfold on_headers. rewrite Hs1. cbn [g_headers g_dumps fst].
  pose proof (net_requests_run _ _ _ _ _ _ _ Hr) as Hrun.
  destruct (p2p_requests_answers _ _ _ _ _ _ Hrun) as [_ Hall]; [lia|].
  pose proof (push_parts_entries blockNum count 0 answers [] k h ltac:(lia) Hcb ltac:(lia) ltac:(nia)) as Hp.
  assert ((k, h) ∈ fst (push_parts countBlocksInBatch blockNum count 0 answers []) -> announced k h) as Hdone.
  { intros Hk. destruct (Hp Hk) as [?|(j & a & Hj & Hs)]; [by apply Hnil|].
    destruct (Hall j a Hj) as (srv & q & response & parsed & Hq & Hrep & [= <-] & _ & Hpr). cbn in Hpr. subst a.
    apply lookup_lt_Some in Hj. unfold blen in Hlen.
    eapply (part_announced blockNum count (Z.of_nat j)); [lia|done|lia|nia|done|exact Hs|exact Hq|exact Hrep]. }
  destruct (push_parts countBlocksInBatch blockNum count 0 answers []) as [hs [[]| | |]]; cbn [fst] in Hdone;
    try (by intros [= <- <-]).
Qed.

(** The cache of headers holds what was announced, and so is what it returns. *)
Lemma getBlockHeader_announced blockNum maxBlockNum server s s' r :
  0 <= blockNum <= maxBlockNum -> maxBlockNum < 2 ^ 61 -> 0 <= maxAdvancedLoadBlocks ->
  (forall k h, (k, h) ∈ g_headers s.1 -> announced k h) ->
  getBlockHeader maxAdvancedLoadBlocks countBlocksInBatch blockNum maxBlockNum server s = (s', r) ->
  (forall k h, (k, h) ∈ g_headers s'.1 -> announced k h) /\ forall h, r = Ok h -> announced blockNum h.
Proof.
  intros Hb Hm Ha Hg. unfold getBlockHeader. destruct (find_header blockNum (g_headers s.1)) as [h0|] eqn:Hf.
  - intros [= <- <-]. split; [done|]. intros h [= <-]. unfold find_header in Hf.
    destruct (find _ (g_headers s.1)) as [[k h]|] eqn:Hfind; [|done]. injection Hf as ->.
    apply find_some in Hfind as [Hin Hk]. apply Z.eqb_eq in Hk. cbn in Hk. subst k.
    apply Hg. by apply list_elem_of_In.
  - intros Hl. pose proof (load_headers_announced _ _ _ _ _ _ Hb Hm Ha Hl) as Hall. split; [done|].
    intros h ->. destruct (load_block_headers_spec _ _ _ _ _ _ Hl) as (_ & Hh & _); [lia..|].
    apply Hall. destruct (g_headers s'.1); [done|]. injection Hh as ->. by left.
Qed.

(** Servers that answer with the block they are asked for. *)
Definition honest_headers : Prop := forall n b, asked n b -> mh_number b = n.

(** The number of a cached block. *)
Lemma entry_number blockNum count e :
  honest_headers -> header_entry blockNum count e ->
  let i := (e.1 - blockNum) / countBlocksInBatch in
  mh_number e.2 = if part count i =? 1 then blockNum + i else e.1.
Proof.
  intros Hh. unfold header_entry. cbn zeta. destruct (_ =? 1); [|done]. apply Hh.
Qed.

End headers.

(** ** The cache of dumps *)

Lemma blocks_hashs_head blockHash l : head (blocks_hashs blockHash false l) = Some blockHash \/
  blocks_hashs blockHash false l = [].
Proof.
  induction l as [|[n h] l IH]; [by right|]. cbn [blocks_hashs orb]. case_bool_decide as Hh; [|done].
  destruct (_ <=? _); [left|by right]. cbn. by f_equal.
Qed.

Section dumps.
Context `{Rapidjson} `{Lz4} {W : Type} `{P2PNetLaws W}.
Variables (countBlocksInBatch : Z) (isCompress : bool) (fuel : nat).
Hypothesis Hbatch : 0 < countBlocksInBatch < 2 ^ 62.

(** The dump of the block of each hash. *)
Variable dump_of : bytes -> bytes.

#[local] Abbreviation part := (in_part countBlocksInBatch).

(** Servers that answer a request for the blocks [hashs] with their dumps. *)
Definition honest_dumps (hashs : list bytes) (isSign : bool) : Prop :=
  forall i srv q response parsed, 0 <= i -> i * countBlocksInBatch < 2 ^ 63 ->
    dump_query countBlocksInBatch isCompress hashs isSign i = Ok q ->
    net_replies srv q (Ok response) -> parseDumpBlockResponse response = Ok parsed ->
    rp_error parsed = None ->
    if part (blen hashs) i =? 1
    then forall h, hashs !! Z.to_nat i = Some h -> parseDumpBlockBinary (rp_response parsed) isCompress = dump_of h
    else parseDumpBlocksBinary fuel (rp_response parsed) isCompress =
           Ok (dump_of <$> take (Z.to_nat (part (blen hashs) i)) (drop (Z.to_nat (i * countBlocksInBatch)) hashs)).

(** Every dump of the cache is its block's, and the blocks of [ks] are there. *)
Definition dumps_good (ks : list bytes) (ds : gmap bytes bytes) : Prop :=
  (forall h d, ds !! h = Some d -> d = dump_of h) /\ (forall h, h ∈ ks -> is_Some (ds !! h)).

Lemma dumps_good_insert ks ds h :
  dumps_good ks ds -> dumps_good (h :: ks) (<[h := dump_of h]> ds).
Proof.
  intros [Hg Hk]. split.
  - intros k d. rewrite lookup_insert_Some. intros [[<- <-]|[_ Hl]]; [done|by apply Hg].
  - intros k Hin. destruct (decide (h = k)) as [<-|Hne]; [by rewrite lookup_insert_eq|].
    rewrite lookup_insert_ne by done. apply elem_of_cons in Hin as [->|Hin]; [done|by apply Hk].
Qed.

Lemma dumps_good_weaken ks ks' ds : ks' ⊆ ks -> dumps_good ks ds -> dumps_good ks' ds.
Proof. intros Hs [Hg Hk]. split; [done|]. intros h Hh. apply Hk, Hs, Hh. Qed.

Lemma push_dumps_spec hashs i n ks ds ds' :
  push_dumps hashs i (dump_of <$> take n (drop i hashs)) ds = (ds', Ok tt) ->
  dumps_good ks ds -> dumps_good (take n (drop i hashs) ++ ks) ds'.
Proof.
  revert i ks ds. induction n as [|n IH]; intros i ks ds; [by intros [= <-]|].
  destruct (hashs !! i) as [h|] eqn:Hi.
  - rewrite (drop_S _ _ _ Hi). cbn [take fmap list_fmap push_dumps]. rewrite Hi. intros Hp Hg.
    apply (IH _ (h :: ks)) in Hp; [|by apply dumps_good_insert].
    eapply dumps_good_weaken; [|exact Hp]. intros k. cbn. rewrite !elem_of_cons, !elem_of_app, elem_of_cons. tauto.
  - apply lookup_ge_None in Hi. rewrite drop_ge by done. cbn. by intros [= <-].
Qed.

(** The hashes of a part, as the code stores its answer. *)
Definition stored_hashes (hashs : list bytes) (i : Z) : list bytes :=
  if part (blen hashs) i =? 1 then option_list (hashs !! Z.to_nat i)
  else take (Z.to_nat (part (blen hashs) i)) (drop (Z.to_nat (i * countBlocksInBatch)) hashs).

Lemma push_dump_part_spec hashs isSign i srv q response parsed ks ds ds' :
  honest_dumps hashs isSign -> 0 <= i -> i * countBlocksInBatch < 2 ^ 63 ->
  dump_query countBlocksInBatch isCompress hashs isSign i = Ok q ->
  net_replies srv q (Ok response) -> parseDumpBlockResponse response = Ok parsed ->
  rp_error parsed = None ->
  push_dump_part countBlocksInBatch isCompress fuel hashs i (rp_response parsed) ds = (ds', Ok tt) ->
  dumps_good ks ds -> dumps_good (stored_hashes hashs i ++ ks) ds'.
Proof.
  intros Hh Hi Hib Hq Hr Hp He Hpush Hg. specialize (Hh i srv q response parsed Hi Hib Hq Hr Hp He).
  unfold push_dump_part in Hpush. unfold stored_hashes.
  destruct (part (blen hashs) i =? 1).
  - destruct (hashs !! Z.to_nat i) as [h|]; [|done]. injection Hpush as <-.
    rewrite (Hh h) by done. cbn. by apply dumps_good_insert.
  - rewrite Hh in Hpush. cbn [mbind res_bind] in Hpush.
    destruct (blen _ =? _); [|done]. destruct (_ <=? _); [|done]. cbn in Hpush.
    rewrite u64_small in Hpush by (unfold is_u64; nia). by eapply push_dumps_spec.
Qed.

Lemma push_dump_parts_spec hashs isSign i0 responses ks ds ds' :
  honest_dumps hashs isSign -> 0 <= i0 -> (i0 + blen responses) * countBlocksInBatch < 2 ^ 63 ->
  (forall j a, responses !! j = Some a -> exists srv q response parsed,
     dump_query countBlocksInBatch isCompress hashs isSign (i0 + Z.of_nat j) = Ok q /\
     net_replies srv q (Ok response) /\ parseDumpBlockResponse response = Ok parsed /\
     rp_error parsed = None /\ rp_response parsed = a) ->
  push_dump_parts countBlocksInBatch isCompress fuel hashs i0 responses ds = (ds', Ok tt) ->
  dumps_good ks ds ->
  dumps_good (mjoin (stored_hashes hashs <$> seqZ i0 (blen responses)) ++ ks) ds'.
Proof.
  intros Hh. revert i0 ks ds. induction responses as [|a responses IH]; intros i0 ks ds Hi Hb Hall Hp Hg.
  { cbn in Hp. by injection Hp as <-. }
  rewrite blen_cons in *. pose proof (blen_nonneg responses). cbn [push_dump_parts] in Hp. unfold mbind' in Hp.
  destruct (push_dump_part _ _ _ _ _ _ ds) as [ds1 [[]| | |]] eqn:Hpart; try done.
  destruct (Hall O a eq_refl) as (srv & q & response & parsed & Hq & Hr & Hpa & He & <-).
  rewrite Z.add_0_r in Hq.
  apply (push_dump_part_spec hashs isSign i0 srv q response parsed ks) in Hpart; [|done|lia|nia|done..].
  eapply (IH (i0 + 1) (stored_hashes hashs i0 ++ ks)) in Hp; [|lia|lia| |done].
  - rewrite seqZ_cons by lia. cbn [fmap list_fmap mjoin list_join].
    replace (Z.succ i0) with (i0 + 1) by lia. replace (Z.pred (1 + blen responses)) with (blen responses) by lia.
    eapply dumps_good_weaken; [|exact Hp]. intros k. rewrite !elem_of_app. tauto.
  - intros j a Hj. replace (i0 + 1 + Z.of_nat j) with (i0 + Z.of_nat (S j)) by lia. by apply Hall.
Qed.

(** The first block of a load is always among those stored. *)
Lemma stored_first hashs h : head hashs = Some h -> blen hashs < 2 ^ 63 -> h ∈ stored_hashes hashs 0.
Proof.
  destruct hashs as [|k hashs]; intros [= ->] Hb. unfold stored_hashes.
  rewrite in_part_eq by (try done; unfold blen in *; lia). rewrite Z.mul_0_l, Z.sub_0_r.
  destruct (Z.eqb_spec (Z.min countBlocksInBatch (blen (h :: hashs))) 1) as [Hm|Hm]; [cbn; by left|].
  cbn [drop Z.to_nat]. rewrite blen_cons in *. pose proof (blen_nonneg hashs).
  destruct (Z.to_nat _) as [|n] eqn:Hn; [lia|]. cbn. by left.
Qed.

Lemma load_dumps_spec blockHash hints isSign s s' d :
  let hashs := blocks_hashs blockHash false (g_headers s.1) in
  load_dumps countBlocksInBatch isCompress fuel blockHash hints isSign s = (s', Ok d) ->
  honest_dumps hashs isSign -> blen hashs < 2 ^ 62 ->
  d = dump_of blockHash /\ g_headers s'.1 = g_headers s.1 /\
  forall h d', g_dumps s'.1 !! h = Some d' -> d' = dump_of h.
Proof.
  cbn zeta. unfold load_dumps, mbind', mlift, mput, mget. unfold on_dumps at 1. cbn [fst snd].
  cbn [g_headers]. intros Hl Hh Hb. pose proof (blocks_hashs_head blockHash (g_headers s.1)) as Hhead.
  generalize dependent (blocks_hashs blockHash false (g_headers s.1)). intros hashs Hl Hh Hb Hhead.
  destruct Hhead as [Hhead| ->]; [|done].
  assert (is_empty hashs = false /\ 0 < blen hashs) as [He Hpos].
  { destruct hashs as [|h0 hs]; [done|]. split; [done|]. rewrite blen_cons. pose proof (blen_nonneg hs). lia. }
  rewrite He in Hl. cbn [negb CHECK] in Hl.
  destruct (count_parts countBlocksInBatch (blen hashs)) as [n| | |] eqn:Hn; try done.
  destruct (count_parts_spec _ Hbatch _ _ Hn) as [Hnr Hnc]; [lia|].
  destruct (on_net _ _) as [s1 [responses| | |]] eqn:Hr; try done.
  apply on_net_inv in Hr as [Hs1 Hr]. cbn [snd] in Hr.
  destruct (Z.eqb_spec (blen responses) n) as [Hlen|]; cbn [CHECK] in Hl; [|done].
  unfold on_dumps in Hl. rewrite Hs1 in Hl. cbn [g_headers g_dumps fst snd] in Hl.
  destruct (push_dump_parts _ _ _ _ _ _ ∅) as [ds [[]| | |]] eqn:Hp; try done.
  pose proof (net_requests_run _ _ _ _ _ _ _ Hr) as Hrun.
  destruct (p2p_requests_answers _ _ _ _ _ _ Hrun) as [_ Hall]; [lia|].
  apply (push_dump_parts_spec hashs isSign 0 responses []) in Hp; [|done|lia|nia| |].
  3: { split; [intros k e; by rewrite lookup_empty|by intros k ?%elem_of_nil]. }
  2: { intros j a Hj. rewrite Z.add_0_l. by apply Hall. }
  destruct Hp as [Hg Hk]. unfold dump_at in Hl.
  assert (is_Some (ds !! blockHash)) as [d0 Hd0].
  { apply Hk. rewrite app_nil_r, Hlen, seqZ_cons by lia. cbn [fmap list_fmap mjoin list_join].
    apply elem_of_app. left. apply stored_first; [done|lia]. }
  cbn [g_headers g_dumps fst snd] in Hl. rewrite Hd0 in Hl. injection Hl as <- <-. cbn.
  split; [by eapply Hg|]. done.
Qed.

End dumps.

(** Asking for a dump leaves the cache of headers as it is. *)
Lemma getBlockDump_headers `{Rapidjson} `{Lz4} {W : Type} `{P2PNet W} batch isCompress fuel blockHash blockSize hints isSign s :
  g_headers (fst (Getter_getBlockDump batch isCompress fuel blockHash blockSize hints isSign s)).1 = g_headers s.1.
Proof.
  unfold Getter_getBlockDump. destruct (g_dumps s.1 !! blockHash); [done|].
  assert (forall A (m : meth W A) s0, (fst (on_net m s0)).1 = s0.1) as Hnet.
  { intros A m s0. unfold on_net. by destruct (m s0.2). }
  destruct (_ <? _); [by rewrite Hnet|].
  unfold load_dumps, mbind', mlift, mput, mget. unfold on_dumps at 1. cbn [fst snd g_headers].
  destruct (CHECK _ _) as [u| | |]; try done. destruct (count_parts _ _) as [n| | |]; try done.
  match goal with |- context [on_net ?m ?s] => pose proof (Hnet _ m s) as Hs; destruct (on_net m s) as [s1 [rs| | |]] end;
    cbn [fst] in *; try (by rewrite Hs).
  destruct (CHECK _ _) as [u'| | |]; cbn [fst]; try (by rewrite Hs).
  unfold on_dumps at 1. destruct (push_dump_parts _ _ _ _ _ _ _) as [ds [[]| | |]]; cbn [fst g_headers]; try (by rewrite Hs).
  unfold on_dumps. destruct (dump_at _ _) as [ds' r]. cbn. by rewrite Hs.
Qed.
