(* ===== verification/NetworkSource.v ===== *)
(** * BlockSource/NetworkBlockSource.cpp: blocks from other nodes

    The source the synchronisation loop reads from: it asks the other nodes for
    their last block, loads up to eight blocks ahead, checks and parses each,
    and hands them out one after the other. *)
From S2P Require Import Prelude External BlockInfo BlockchainUtils PrivateKey BlockchainRead.
From S2P Require Import P2P Graph Dumps JsonApi GetNewBlocks.
#[local] Open Scope Z_scope.

(* src: BlockSource/NetworkBlockSource.cpp:16-16 COUNT_ADVANCED_BLOCKS *)
Definition COUNT_ADVANCED_BLOCKS : Z := 8.

(* src: BlockSource/NetworkBlockSource.h:39-44 NetworkBlockSource::AdvancedBlock *)
Record AdvancedBlock := mkAdvancedBlock {
  ab_header : MinimumBlockHeader;
  ab_bi : BlockInfo;
  ab_dump : bytes;
  ab_exception : option exc;
}.

(* src: BlockSource/NetworkBlockSource.h:48-64 NetworkBlockSource *)
Record NetSource := mkNetSource {
  ns_getterBlocks : Getter;
  ns_nextBlockToRead : Z;
  ns_servers : list bytes;
  ns_lastBlockInBlockchain : Z;
  ns_advancedBlocks : gmap Z AdvancedBlock;
}.

(* src: BlockSource/NetworkBlockSource.cpp:18-24 NetworkBlockSource::NetworkBlockSource *)
Definition NetworkBlockSource : NetSource := mkNetSource (mkGetter [] ∅) 0 [] 0 ∅.

(** A header that has not been assigned. *)
Definition MinimumBlockHeader_default : MinimumBlockHeader := mkMinimumBlockHeader 0 0 [] [] [].

(* src: BlockSource/NetworkBlockSource.cpp:95-97 NetworkBlockSource::process, senderSign *)
Definition set_bh_sender (sb : BlockSignatureCheckResult) (b : BlockHeader) : BlockHeader :=
  mkBlockHeader (bh_timestamp b) (bh_blockSize b) (bh_blockType b) (bh_hash b) (bh_prevHash b)
    (bh_signature b) (bh_txsHash b) (bh_countTxs b) (bh_filePos b) (bh_endBlockPos b) (bh_blockNumber b)
    (sr_sign sb) (sr_pubkey sb) (sr_address sb).

Definition set_bh_fileName (name : bytes) (b : BlockHeader) : BlockHeader :=
  set_bh_filePos (mkFilePosition (fp_pos (bh_filePos b)) name) b.

Section source.
Context `{Support} `{Crypto} `{Rapidjson} `{Lz4} `{Fs} {W : Type} `{P2PNet W}.
Variables (isInitialized : bool) (maxAdvancedLoadBlocks countBlocksInBatch : Z) (isCompress : bool).
Variables (folderPath : bytes) (saveAllTx isValidate isVerifySign : bool).
(** The bound on the blocks of one answer, and where a dump lies in memory. *)
Variables (fuel : nat) (base : Z).

(* src: BlockSource/NetworkBlockSource.cpp:31-42 NetworkBlockSource::doProcess *)
Definition Network_doProcess (countBlocks : Z) : meth (NetSource * W) (bool * Z) := fun s =>
  let '(ns, w) := s in
  let next := u64 (countBlocks + 1) in
  let ns := mkNetSource (ns_getterBlocks ns) next (ns_servers ns) (ns_lastBlockInBlockchain ns)
    (ns_advancedBlocks ns) in
  let '(w, r) := getLastBlock w in
  match (lastBlock ← r;
         _ ← CHECK (negb (bool_decide (is_Some (lr_error lastBlock)))) (default [] (lr_error lastBlock));
         n ← opt_ub (lr_lastBlock lastBlock);
         Ok (n, lr_servers lastBlock)) with
  | Ok (n, servers) =>
      (mkNetSource (clearAdvanced (ns_getterBlocks ns)) next servers n ∅, w, Ok (next <=? n, n))
  | Throw e => (ns, w, Throw e)
  | UB => (ns, w, UB)
  | OutOfFuel => (ns, w, OutOfFuel)
  end.

(* src: BlockSource/NetworkBlockSource.cpp:44-46 NetworkBlockSource::knownBlock *)
Definition knownBlock (ns : NetSource) : Z := ns_lastBlockInBlockchain ns.

(* src: BlockSource/NetworkBlockSource.cpp:54-62 NetworkBlockSource::process, processAdvanced *)
Definition processAdvanced (advanced : AdvancedBlock) : meth (NetSource * W) (BlockInfo * bytes) := fun s =>
  match ab_exception advanced with
  | Some e => (s, Throw e)
  | None =>
      let '(ns, w) := s in
      ((mkNetSource (ns_getterBlocks ns) (u64 (ns_nextBlockToRead ns + 1)) (ns_servers ns)
          (ns_lastBlockInBlockchain ns) (ns_advancedBlocks ns), w),
       Ok (ab_bi advanced, ab_dump advanced))
  end.

(** One block of the loop: any exception is kept for later. *)
(* src: BlockSource/NetworkBlockSource.cpp:78-84 NetworkBlockSource::process, try *)
Definition load_one (currBlock last : Z) (servers : list bytes) : meth (Getter * W) AdvancedBlock := fun s =>
  match head servers with
  | None => (s, UB)
  | Some server0 =>
      let '(s, r) := getBlockHeader maxAdvancedLoadBlocks countBlocksInBatch currBlock last server0 s in
      match r with
      | Ok header =>
          let '(s, r) := Getter_getBlockDump countBlocksInBatch isCompress fuel (mh_hash header)
            (mh_blockSize header) servers isVerifySign s in
          match r with
          | Ok dump => (s, Ok (mkAdvancedBlock header BlockInfo_default dump None))
          | Throw e => (s, Ok (mkAdvancedBlock header BlockInfo_default [] (Some e)))
          | UB => (s, UB)
          | OutOfFuel => (s, OutOfFuel)
          end
      | Throw e => (s, Ok (mkAdvancedBlock MinimumBlockHeader_default BlockInfo_default [] (Some e)))
      | UB => (s, UB)
      | OutOfFuel => (s, OutOfFuel)
      end
  end.

(* src: BlockSource/NetworkBlockSource.cpp:76-86 NetworkBlockSource::process, for *)
Fixpoint load_advanced (n : nat) (currBlock last : Z) (servers : list bytes) (acc : gmap Z AdvancedBlock)
    : meth (Getter * W) (gmap Z AdvancedBlock) :=
  match n with
  | O => mret' acc
  | S n =>
      (let* advanced := load_one currBlock last servers in
       load_advanced n (u64 (currBlock + 1)) last servers (<[currBlock := advanced]> acc))%meth
  end.

(* src: BlockSource/NetworkBlockSource.cpp:92-101 NetworkBlockSource::process, checkSignatureBlock *)
Definition check_advanced (advanced : AdvancedBlock) : res (BlockInfo * bytes) :=
  '(bi, dump) ← (if isVerifySign then
                   signBlock ← checkSignatureBlock isInitialized (ab_dump advanced);
                   let bi := ab_bi advanced in
                   Ok (mkBlockInfo (set_bh_sender signBlock (bi_header bi)) (bi_txs bi), sr_block signBlock)
                 else Ok (ab_bi advanced, ab_dump advanced));
  _ ← CHECK (blen dump =? mh_blockSize (ab_header advanced))
        (str "binaryDump.size() == nextBlockHeader.blockSize");
  let fileName := fs_join folderPath (fs_filename (mh_fileName (ab_header advanced))) in
  let bi := mkBlockInfo (set_bh_fileName fileName (bi_header bi)) (bi_txs bi) in
  bi ← readNextBlockInfo base dump isInitialized 0 bi isValidate saveAllTx 0 0;
  Ok (bi, dump).

(** The body of [parallelFor], on one entry: what an exception leaves of the
    other fields is never read. *)
(* src: BlockSource/NetworkBlockSource.cpp:87-105 NetworkBlockSource::process, parallelFor *)
Definition finish_advanced (advanced : AdvancedBlock) : res AdvancedBlock :=
  match ab_exception advanced with
  | Some _ => Ok advanced
  | None =>
      match check_advanced advanced with
      | Ok (bi, dump) => Ok (mkAdvancedBlock (ab_header advanced) bi dump None)
      | Throw e => Ok (mkAdvancedBlock (ab_header advanced) (ab_bi advanced) (ab_dump advanced) (Some e))
      | UB => UB
      | OutOfFuel => OutOfFuel
      end
  end.

(** Every entry of the map, in the order of the block numbers. *)
Fixpoint finish_all (l : list (Z * AdvancedBlock)) : res (list (Z * AdvancedBlock)) :=
  match l with
  | [] => Ok []
  | (k, a) :: l => a ← finish_advanced a; l ← finish_all l; Ok ((k, a) :: l)
  end.

Definition on_getter {A} (m : meth (Getter * W) A) : meth (NetSource * W) A := fun s =>
  let '(ns, w) := s in
  let '(g, w, r) := m (ns_getterBlocks ns, w) in
  ((mkNetSource g (ns_nextBlockToRead ns) (ns_servers ns) (ns_lastBlockInBlockchain ns)
      (ns_advancedBlocks ns), w), r).

Definition set_advanced (m : gmap Z AdvancedBlock) : meth (NetSource * W) unit := fun s =>
  let '(ns, w) := s in
  ((mkNetSource (ns_getterBlocks ns) (ns_nextBlockToRead ns) (ns_servers ns)
      (ns_lastBlockInBlockchain ns) m, w), Ok tt).

(** Loading the next blocks into an empty map. *)
(* src: BlockSource/NetworkBlockSource.cpp:70-105 NetworkBlockSource::process, load *)
Definition load_ahead : meth (NetSource * W) unit := fun s =>
  let next := ns_nextBlockToRead s.1 in
  let last := ns_lastBlockInBlockchain s.1 in
  let servers := ns_servers s.1 in
  (do* set_advanced ∅ in
   let countAdvanced := Z.min COUNT_ADVANCED_BLOCKS (u64 (last - next + 1)) in
   do* mlift (CHECK (negb (is_empty servers)) (str "Servers empty")) in
   let* m := on_getter (load_advanced (Z.to_nat countAdvanced) next last servers ∅) in
   do* set_advanced m in
   let* l := mlift (finish_all (map_to_list m)) in
   set_advanced (list_to_map l))%meth s.

(** [None] for [false]. *)
(* src: BlockSource/NetworkBlockSource.cpp:48-110 NetworkBlockSource::process *)
Definition Network_process : meth (NetSource * W) (option (BlockInfo * bytes)) := fun s =>
  if negb (ns_nextBlockToRead s.1 <=? ns_lastBlockInBlockchain s.1) then (s, Ok None)
  else
    match ns_advancedBlocks s.1 !! ns_nextBlockToRead s.1 with
    | Some advanced => (let* r := processAdvanced advanced in mret' (Some r))%meth s
    | None =>
        (do* load_ahead in
         let* s' := mget in
         match ns_advancedBlocks s'.1 !! ns_nextBlockToRead s'.1 with
         | Some advanced => let* r := processAdvanced advanced in mret' (Some r)
         | None => mlift (throwErr (str "Incorrect results"))
         end)%meth s
    end.

(** A block the chain already has, loaded again. *)
(* src: BlockSource/NetworkBlockSource.cpp:112-133 NetworkBlockSource::getExistingBlock *)
Definition Network_getExistingBlock (bh : BlockHeader) (bi : BlockInfo) : meth W (BlockInfo * bytes) :=
  (do* mlift (CHECK (bool_decide (is_Some (bh_blockNumber bh))) (str "Block number not set")) in
   let* lastBlock := getLastBlock in
   do* mlift (CHECK (negb (bool_decide (is_Some (lr_error lastBlock)))) (default [] (lr_error lastBlock))) in
   let* number := mlift (opt_value (bh_blockNumber bh)) in
   let* server0 := mlift (opt_ub (head (lr_servers lastBlock))) in
   let* header := getBlockHeaderWithoutAdvanceLoad number server0 in
   let* blockDump := getBlockDumpWithoutAdvancedLoad (mh_hash header) (mh_blockSize header)
     (lr_servers lastBlock) isVerifySign in
   mlift (
     '(bi, blockDump) ← (if isVerifySign then
                           signBlock ← checkSignatureBlock isInitialized blockDump;
                           Ok (mkBlockInfo (set_bh_sender signBlock (bi_header bi)) (bi_txs bi), sr_block signBlock)
                         else Ok (bi, blockDump));
     _ ← CHECK (blen blockDump =? mh_blockSize header) (str "binaryDump.size() == nextBlockHeader.blockSize");
     bi ← readNextBlockInfo base blockDump isInitialized (fp_pos (bh_filePos bh)) bi isValidate saveAllTx 0 0;
     let fileName := fp_fileName (bh_filePos bh) in
     let set_tx tx := set_ti_blockNumber number
       (set_ti_filePos (mkFilePosition (fp_pos (ti_filePos tx)) fileName) tx) in
     Ok (mkBlockInfo (set_bh_blockNumber (bh_blockNumber bh) (set_bh_fileName fileName (bi_header bi)))
           (set_tx <$> bi_txs bi), blockDump)))%meth.

End source.
