(* ===== verification/NetworkSourceFacts.v ===== *)
(** * Blocks from other nodes: facts

    What the source hands out was loaded for exactly the next number, has the
    size its header announces, passed the signature check when one is asked
    for, and is the block's parse.  What a load promises is a parameter here,
    so that the facts serve any behaviour of the servers. *)
From S2P Require Import Prelude External BlockInfo BlockchainUtils PrivateKey BlockchainRead.
From S2P Require Import P2P Graph Dumps JsonApi GetNewBlocks GetNewBlocksFacts NetworkSource.
#[local] Open Scope Z_scope.

Section source.
Context `{Support} `{Crypto} `{Rapidjson} `{Lz4} `{Fs} {W : Type} `{P2PNet W}.
Variables (isInitialized : bool) (maxAdvancedLoadBlocks countBlocksInBatch : Z) (isCompress : bool).
Variables (folderPath : bytes) (saveAllTx isValidate isVerifySign : bool).
Variables (fuel : nat) (base : Z).

#[local] Abbreviation process := (Network_process isInitialized maxAdvancedLoadBlocks countBlocksInBatch
  isCompress folderPath saveAllTx isValidate isVerifySign fuel base).
#[local] Abbreviation load_one := (load_one maxAdvancedLoadBlocks countBlocksInBatch isCompress isVerifySign fuel).
#[local] Abbreviation check_advanced := (check_advanced isInitialized folderPath saveAllTx isValidate isVerifySign base).

(** The block [bi] with dump [dump] is the checked form of what was loaded: of a
    new block with the file's name and, when signatures are used, its sender. *)
Definition block_checked (header : MinimumBlockHeader) (raw : bytes) (bi : BlockInfo) (dump : bytes) : Prop :=
  exists bh0,
    (if isVerifySign then
       exists sb, checkSignatureBlock isInitialized raw = Ok sb /\ dump = sr_block sb /\
         bh0 = set_bh_sender sb (bi_header BlockInfo_default)
     else dump = raw /\ bh0 = bi_header BlockInfo_default) /\
    blen dump = mh_blockSize header /\
    let fileName := fs_join folderPath (fs_filename (mh_fileName header)) in
    readNextBlockInfo base dump isInitialized 0 (mkBlockInfo (set_bh_fileName fileName bh0) []) isValidate
      saveAllTx 0 0 = Ok bi.

Lemma check_advanced_Ok header raw bi dump :
  check_advanced (mkAdvancedBlock header BlockInfo_default raw None) = Ok (bi, dump) ->
  block_checked header raw bi dump.
Proof.
  unfold NetworkSource.check_advanced, block_checked. intros Hc. cbn [ab_dump ab_bi ab_header] in Hc.
  apply bind_Ok_inv in Hc as ([bi1 dump1] & Hs & Hc). apply bind_Ok_inv in Hc as (u & Hl & Hc).
  apply CHECK_Ok_inv, Z.eqb_eq in Hl. apply bind_Ok_inv in Hc as (bi2 & Hr & [= -> ->]).
  destruct isVerifySign.
  - apply bind_Ok_inv in Hs as (sb & Hsb & [= <- <-]). cbn [bi_header bi_txs] in Hr.
    eexists. split; [by exists sb|]. split; [done|exact Hr].
  - injection Hs as <- <-. eexists. by split; [split; [done|reflexivity]|].
Qed.

(** What a load promises: a property [G] of the getter that loads keep, and a
    property [P] of what is loaded for a number. *)
Variable G : Getter -> Prop.
Variable P : Z -> MinimumBlockHeader -> bytes -> Prop.
Variable last : Z.
Variable servers : list bytes.
Hypothesis Hlast : 0 <= last < 2 ^ 63.
Hypothesis Hload : forall cur g w s' a,
  0 < cur <= last -> G g -> load_one cur last servers (g, w) = (s', Ok a) ->
  G s'.1 /\ (ab_exception a = None -> P cur (ab_header a) (ab_dump a)).
Hypothesis Hload_fails : forall cur g w, 0 < cur <= last -> G g -> G (fst (load_one cur last servers (g, w))).1.

Definition entry_good (k : Z) (a : AdvancedBlock) : Prop :=
  ab_exception a = None -> exists raw, P k (ab_header a) raw /\
    block_checked (ab_header a) raw (ab_bi a) (ab_dump a).

(** The invariant of the source between calls. *)
Record net_inv (ns : NetSource) : Prop := {
  ni_getter : G (ns_getterBlocks ns);
  ni_next : 0 < ns_nextBlockToRead ns < 2 ^ 64;
  ni_last : ns_lastBlockInBlockchain ns = last;
  ni_servers : ns_servers ns = servers;
  ni_entries : forall k a, ns_advancedBlocks ns !! k = Some a -> entry_good k a;
}.

(** An entry between its load and its check. *)
Definition entry_loaded (k : Z) (a : AdvancedBlock) : Prop :=
  ab_exception a = None -> ab_bi a = BlockInfo_default /\ P k (ab_header a) (ab_dump a).

Lemma load_one_default cur s s' a :
  load_one cur last servers s = (s', Ok a) -> ab_bi a = BlockInfo_default.
Proof.
  unfold NetworkSource.load_one. destruct (head servers); [|done].
  destruct (getBlockHeader _ _ _ _ _ s) as [s1 [h|e| |]]; try done; [|by intros [= <- <-]].
  destruct (Getter_getBlockDump _ _ _ _ _ _ _ s1) as [s2 [d|e| |]]; try done; by intros [= <- <-].
Qed.

Lemma load_advanced_spec n cur acc g w :
  (n <> O -> 0 < cur /\ cur + Z.of_nat n <= last + 1) -> G g -> (forall k a, acc !! k = Some a -> entry_loaded k a) ->
  let '(s', r) := load_advanced maxAdvancedLoadBlocks countBlocksInBatch isCompress isVerifySign fuel
    n cur last servers acc (g, w) in
  G s'.1 /\ forall m, r = Ok m -> forall k a, m !! k = Some a -> entry_loaded k a.
Proof.
  revert cur acc g w. induction n as [|n IH]; intros cur acc g w Hc Hg Hacc; cbn [load_advanced].
  { cbn. split; [done|]. by intros m [= <-]. }
  destruct Hc as [Hc0 Hc]; [done|]. assert (0 < cur <= last) as Hcur by lia.
  unfold mbind'. destruct (load_one cur last servers (g, w)) as [[g1 w1] r] eqn:Hl.
  destruct r as [a| | |].
  - destruct (Hload _ _ _ _ _ Hcur Hg Hl) as [Hg1 Ha]. apply load_one_default in Hl.
    apply IH; [intros Hn; rewrite u64_small by (unfold is_u64; lia); lia|done|].
    intros k b. rewrite lookup_insert_Some. intros [[<- <-]|[_ Hb]]; [|by apply Hacc].
    intros He. split; [done|by apply Ha].
  - split; [|done]. pose proof (Hload_fails cur g w Hcur Hg) as Hf. by rewrite Hl in Hf.
  - split; [|done]. pose proof (Hload_fails cur g w Hcur Hg) as Hf. by rewrite Hl in Hf.
  - split; [|done]. pose proof (Hload_fails cur g w Hcur Hg) as Hf. by rewrite Hl in Hf.
Qed.

Lemma finish_advanced_good k a a' :
  entry_loaded k a ->
  finish_advanced isInitialized folderPath saveAllTx isValidate isVerifySign base a = Ok a' -> entry_good k a'.
Proof.
  intros Ha. unfold finish_advanced. destruct (ab_exception a) as [e|] eqn:He.
  { intros [= <-] Hn. congruence. }
  destruct (Ha He) as [Hbi HP]. destruct (check_advanced a) as [[bi dump]| | |] eqn:Hc; try done.
  - intros [= <-] _. cbn. exists (ab_dump a). split; [done|]. apply check_advanced_Ok.
    destruct a as [h b d x]. cbn in *. by subst.
  - by intros [= <-].
Qed.

Lemma finish_all_good l l' :
  (forall k a, (k, a) ∈ l -> entry_loaded k a) ->
  finish_all isInitialized folderPath saveAllTx isValidate isVerifySign base l = Ok l' ->
  forall k a, (k, a) ∈ l' -> entry_good k a.
Proof.
  revert l'. induction l as [|[k a] l IH]; intros l' Hl; cbn [finish_all].
  { intros [= <-] k a ?%elem_of_nil. done. }
  intros Hf. apply bind_Ok_inv in Hf as (a1 & Ha & Hf). apply bind_Ok_inv in Hf as (l1 & Hl1 & [= <-]).
  intros k' a' [[= -> ->]|Hin]%elem_of_cons.
  - eapply finish_advanced_good; [|exact Ha]. apply Hl. by left.
  - eapply IH; [|done..]. intros k2 a2 Hk2. apply Hl. by right.
Qed.

(** Loading ahead keeps the invariant and the number to read. *)
Lemma load_ahead_spec ns w :
  net_inv ns -> ns_nextBlockToRead ns <= last ->
  let '(s', r) := load_ahead isInitialized maxAdvancedLoadBlocks countBlocksInBatch isCompress folderPath
    saveAllTx isValidate isVerifySign fuel base (ns, w) in
  ns_nextBlockToRead s'.1 = ns_nextBlockToRead ns /\ (r = Ok tt -> net_inv s'.1) /\
  G (ns_getterBlocks s'.1) /\ ns_lastBlockInBlockchain s'.1 = last /\ ns_servers s'.1 = servers.
Proof.
  intros [Hg Hnext Hl0 Hsrv Hent] Hle. unfold load_ahead, mbind', mlift, set_advanced. cbn [fst snd].
  rewrite Hl0, Hsrv. cbn [ns_nextBlockToRead ns_getterBlocks ns_servers ns_lastBlockInBlockchain].
  destruct (negb (is_empty servers)); [|done]. cbn [CHECK]. unfold on_getter.
  cbn [ns_nextBlockToRead ns_getterBlocks ns_servers ns_lastBlockInBlockchain ns_advancedBlocks].
  set (n := Z.to_nat _).
  pose proof (load_advanced_spec n (ns_nextBlockToRead ns) ∅ (ns_getterBlocks ns) w) as Hl.
  destruct (load_advanced _ _ _ _ _ n _ _ _ ∅ _) as [[g1 w1] r]. destruct Hl as [Hg1 Hm]; [|done|done|].
  { unfold n, is_u64 in *. pose proof (u64_range (last - ns_nextBlockToRead ns + 1)) as Hu. unfold is_u64 in Hu.
    assert (u64 (last - ns_nextBlockToRead ns + 1) <= last - ns_nextBlockToRead ns + 1).
    { unfold u64. apply Z.mod_le; lia. }
    lia. }
  destruct r as [m| | |]; try done. cbn. 
  destruct (finish_all _ _ _ _ _ _ (map_to_list m)) as [l| | |] eqn:Hf; try done.
  cbn. split; [done|]. split; [|done]. intros _. split; cbn; [done..|].
  intros k a Ha. apply elem_of_list_to_map_2 in Ha. eapply finish_all_good; [|done..].
  intros k' a' Hin%elem_of_map_to_list. by eapply (Hm m).
Qed.

(** What a call hands out. *)
Lemma process_delivers ns w s' bi dump :
  net_inv ns -> process (ns, w) = (s', Ok (Some (bi, dump))) ->
  ns_nextBlockToRead ns <= last /\
  ns_nextBlockToRead s'.1 = u64 (ns_nextBlockToRead ns + 1) /\ net_inv s'.1 /\
  exists header raw, P (ns_nextBlockToRead ns) header raw /\ block_checked header raw bi dump.
Proof.
  intros Hinv. unfold Network_process. cbn [fst snd]. rewrite (ni_last _ Hinv).
  destruct (Z.leb_spec (ns_nextBlockToRead ns) last) as [Hle|]; cbn [negb]; [|done].
  assert (forall ns1 w1 a, net_inv ns1 -> ns_nextBlockToRead ns1 = ns_nextBlockToRead ns ->
    ns_advancedBlocks ns1 !! ns_nextBlockToRead ns1 = Some a ->
    (let* r := processAdvanced a in mret' (Some r))%meth (ns1, w1) = (s', Ok (Some (bi, dump))) ->
    ns_nextBlockToRead s'.1 = u64 (ns_nextBlockToRead ns + 1) /\ net_inv s'.1 /\
    exists header raw, P (ns_nextBlockToRead ns) header raw /\ block_checked header raw bi dump) as Hgive.
  { intros ns1 w1 a Hi Hn Ha. unfold mbind', processAdvanced. destruct (ab_exception a) eqn:He; [done|].
    cbn. intros [= <- <- <-]. cbn. rewrite Hn. split; [done|].
    split; [destruct Hi; split; cbn; try done; rewrite u64_small by (unfold is_u64; lia); lia|].
    destruct (ni_entries _ Hi _ _ Ha He) as (raw & HP & Hc). exists (ab_header a), raw.
    rewrite Hn in HP. done. }
  destruct (ns_advancedBlocks ns !! ns_nextBlockToRead ns) as [a|] eqn:Ha.
  - intros Hp. split; [done|]. by eapply Hgive.
  - unfold mbind' at 1. pose proof (load_ahead_spec ns w Hinv Hle) as Hl.
    destruct (load_ahead _ _ _ _ _ _ _ _ _ _ (ns, w)) as [[ns1 w1] [[]| | |]]; try done.
    destruct Hl as (Hn & Hi & _). cbn [fst] in *. unfold mbind' at 1, mget. cbn [fst].
    destruct (ns_advancedBlocks ns1 !! ns_nextBlockToRead ns1) as [a|] eqn:Ha1; [|done].
    intros Hp. split; [done|]. apply (Hgive ns1 w1 a); auto.
Qed.

(** Any other outcome leaves the number to read as it was; [false] means that
    there is no further block. *)
Lemma process_other ns w s' r :
  net_inv ns -> process (ns, w) = (s', r) ->
  (forall x, r <> Ok (Some x)) -> ns_nextBlockToRead s'.1 = ns_nextBlockToRead ns /\
  (r = Ok None -> last < ns_nextBlockToRead ns).
Proof.
  intros Hinv. unfold Network_process. cbn [fst snd]. rewrite (ni_last _ Hinv).
  destruct (Z.leb_spec (ns_nextBlockToRead ns) last) as [Hle|]; cbn [negb]; [|by intros [= <- <-]].
  assert (forall ns1 w1 a, ns_nextBlockToRead ns1 = ns_nextBlockToRead ns ->
    (let* r := processAdvanced a in mret' (Some r))%meth (ns1, w1) = (s', r) ->
    (forall x, r <> Ok (Some x)) -> ns_nextBlockToRead s'.1 = ns_nextBlockToRead ns /\
    (r = Ok None -> last < ns_nextBlockToRead ns)) as Hgive.
  { intros ns1 w1 a Hn. unfold mbind', processAdvanced. destruct (ab_exception a) eqn:He; cbn.
    - intros [= <- <-] _. done.
    - intros [= <- <-] Hx. by destruct (Hx (ab_bi a, ab_dump a)). }
  destruct (ns_advancedBlocks ns !! ns_nextBlockToRead ns) as [a|] eqn:Ha; [by apply Hgive|].
  unfold mbind' at 1. pose proof (load_ahead_spec ns w Hinv Hle) as Hl.
  destruct (load_ahead _ _ _ _ _ _ _ _ _ _ (ns, w)) as [[ns1 w1] [[]| | |]];
    destruct Hl as (Hn & _); cbn [fst] in *; try (by intros [= <- <-]).
  unfold mbind' at 1, mget. cbn [fst].
  destruct (ns_advancedBlocks ns1 !! ns_nextBlockToRead ns1) as [a|]; [by apply Hgive|].
  unfold mlift. by intros [= <- <-].
Qed.

(** The blocks of successive calls, until one gives no block. *)
Fixpoint take_blocks (n : nat) (s : NetSource * W) : (NetSource * W) * list (BlockInfo * bytes) :=
  match n with
  | O => (s, [])
  | S n =>
      match process s with
      | (s1, Ok (Some b)) => let '(s2, l) := take_blocks n s1 in (s2, b :: l)
      | (s1, _) => (s1, [])
      end
  end.

Lemma take_blocks_spec n ns w :
  net_inv ns ->
  let '(s', l) := take_blocks n (ns, w) in
  ns_nextBlockToRead s'.1 = ns_nextBlockToRead ns + blen l /\
  (l <> [] -> ns_nextBlockToRead ns + blen l <= last + 1) /\
  forall i b, l !! i = Some b -> exists header raw,
    P (ns_nextBlockToRead ns + Z.of_nat i) header raw /\ block_checked header raw b.1 b.2.
Proof.
  intros Hinv. revert ns w Hinv. induction n as [|n IH]; intros ns w Hinv; cbn [take_blocks].
  { rewrite blen_nil, Z.add_0_r. done. }
  assert (forall s1 r, process (ns, w) = (s1, r) -> (forall x, r <> Ok (Some x)) ->
    ns_nextBlockToRead s1.1 = ns_nextBlockToRead ns + blen (@nil (BlockInfo * bytes))) as Hstop.
  { intros s1 r Hp Hr. destruct (process_other ns w s1 r Hinv Hp Hr) as [-> _]. rewrite blen_nil. lia. }
  destruct (process (ns, w)) as [[ns1 w1] [[[bi dump]|]| | |]] eqn:Hp.
  2-5: split; [by eapply Hstop|done].
  destruct (process_delivers ns w _ bi dump Hinv Hp) as (Hle & Hn & Hi1 & Hb). cbn [fst] in *.
  pose proof (ni_next _ Hinv) as Hu. rewrite u64_small in Hn by (unfold is_u64; lia).
  specialize (IH ns1 w1 Hi1). destruct (take_blocks n (ns1, w1)) as [s2 l]. destruct IH as (Hn2 & Hlen & Hall).
  rewrite blen_cons. split; [lia|]. split.
  { intros _. destruct l as [|b l]; [rewrite blen_nil; lia|]. specialize (Hlen ltac:(done)). lia. }
  intros [|i] b; cbn; [intros [= <-]; by rewrite Z.add_0_r|]. intros Hb'.
  destruct (Hall i b Hb') as (header & raw & HP & Hc). exists header, raw. split; [|done].
  by replace (ns_nextBlockToRead ns + Z.of_nat (S i)) with (ns_nextBlockToRead ns1 + Z.of_nat i) by lia.
Qed.

End source.

(** What a successful [doProcess] sets up. *)
Lemma doProcess_spec `{Rapidjson} {W : Type} `{P2PNet W} count s s' more n :
  Network_doProcess count s = (s', Ok (more, n)) ->
  n = max_count (reply_counts s.2) /\ more = (u64 (count + 1) <=? n) /\
  ns_nextBlockToRead s'.1 = u64 (count + 1) /\ ns_lastBlockInBlockchain s'.1 = n /\
  ns_servers s'.1 = best_servers (reply_counts s.2) /\ ns_advancedBlocks s'.1 = ∅ /\
  ns_getterBlocks s'.1 = mkGetter [] ∅.
Proof.
  unfold Network_doProcess. destruct s as [ns w]. destruct (getLastBlock w) as [w1 r] eqn:Hl. cbn [fst snd].
  destruct r as [lb| | |]; try done. cbn [mbind res_bind].
  destruct (getLastBlock_spec _ _ _ Hl) as [Hnone Hsome]. cbn zeta in *.
  destruct (decide (reply_counts w = [])) as [Hc|Hc].
  { destruct (Hnone Hc) as [_ He]. by rewrite bool_decide_true. }
  destruct (Hsome Hc) as (Hlb & He & Hsrv). rewrite He, bool_decide_false by (by intros [? ?]).
  cbn [negb CHECK mbind res_bind]. rewrite Hlb. cbn. intros [= <- <- <-]. cbn. by rewrite Hsrv.
Qed.

(** ** Blocks and the headers the nodes announced *)

Section announced.
Context `{Support} `{Crypto} `{Rapidjson} `{Lz4} `{Fs} {W : Type} `{P2PNetLaws W}.
Variables (isInitialized : bool) (maxAdvancedLoadBlocks countBlocksInBatch : Z) (isCompress : bool).
Variables (folderPath : bytes) (saveAllTx isValidate isVerifySign : bool).
Variables (fuel : nat) (base : Z).
Hypothesis Hmax : 0 <= maxAdvancedLoadBlocks.
Hypothesis Hbatch : 0 < countBlocksInBatch < 2 ^ 62.

#[local] Abbreviation said := (announced maxAdvancedLoadBlocks countBlocksInBatch).

(** Every cached header was announced for its number. *)
Definition headers_announced (g : Getter) : Prop := forall k h, (k, h) ∈ g_headers g -> said k h.

Lemma load_one_announced cur last servers g w :
  0 < cur <= last -> last < 2 ^ 61 -> headers_announced g ->
  let '(s', r) := load_one maxAdvancedLoadBlocks countBlocksInBatch isCompress isVerifySign fuel cur last servers (g, w) in
  headers_announced s'.1 /\ forall a, r = Ok a -> ab_exception a = None -> said cur (ab_header a).
Proof.
  intros Hc Hl Hg. unfold load_one. destruct (head servers) as [server0|]; [|done].
  destruct (getBlockHeader _ _ cur last server0 (g, w)) as [s1 r1] eqn:Hh.
  apply (getBlockHeader_announced _ _ Hbatch) in Hh as [Hg1 Hr1]; [|lia..|done].
  destruct r1 as [h|e| |]; try (split; [done|]; by intros a [= <-]).
  pose proof (getBlockDump_headers countBlocksInBatch isCompress fuel (mh_hash h) (mh_blockSize h) servers isVerifySign s1) as Hd.
  destruct (Getter_getBlockDump _ _ _ _ _ _ _ s1) as [s2 r2]. cbn [fst] in Hd.
  assert (headers_announced s2.1) as Hg2 by (intros k b; rewrite Hd; apply Hg1).
  destruct r2 as [d|e| |]; (split; [exact Hg2|]); intros a [= <-]; [|done]. intros _. by apply Hr1.
Qed.

Lemma take_announced n servers k ns w :
  n < 2 ^ 61 -> 0 <= n ->
  net_inv isInitialized folderPath saveAllTx isValidate isVerifySign base headers_announced
    (fun k h _ => said k h) n servers ns ->
  let '(s', l) := take_blocks isInitialized maxAdvancedLoadBlocks countBlocksInBatch isCompress folderPath saveAllTx
    isValidate isVerifySign fuel base k (ns, w) in
  ns_nextBlockToRead s'.1 = ns_nextBlockToRead ns + blen l /\
  (l <> [] -> ns_nextBlockToRead ns + blen l <= n + 1) /\
  forall i b, l !! i = Some b -> exists header raw, said (ns_nextBlockToRead ns + Z.of_nat i) header /\
    block_checked isInitialized folderPath saveAllTx isValidate isVerifySign base header raw b.1 b.2.
Proof.
  intros Hn Hn0 Hi. apply (take_blocks_spec isInitialized maxAdvancedLoadBlocks countBlocksInBatch isCompress
    folderPath saveAllTx isValidate isVerifySign fuel base headers_announced (fun k h _ => said k h) n servers);
    [lia|..|exact Hi].
  - intros cur g w0 s' a Hc Hg He. pose proof (load_one_announced cur n servers g w0 Hc Hn Hg) as Hl.
    rewrite He in Hl. destruct Hl as [? Ha]. split; [done|]. by apply Ha.
  - intros cur g w0 Hc Hg. pose proof (load_one_announced cur n servers g w0 Hc Hn Hg) as Hl.
    destruct (load_one _ _ _ _ _ _ _ _ _). by destruct Hl.
Qed.

End announced.
