(* ===== verification/HonestNet.v ===== *)
(** * Blocks from honest nodes

    With one block in a request (the default of the configuration), or with room
    in one request for all that is loaded ahead (the configuration shipped with
    the program), and nodes that answer with the blocks they are asked for, the
    network source hands out the blocks of their chain, in order.  In between, a
    last part of one block is asked for by a wrong number
    ([NetProps.short_part_wrong_number]). *)
From S2P Require Import Prelude External BlockInfo BlockchainUtils PrivateKey BlockchainRead.
From S2P Require Import P2P P2PFacts Graph Dumps JsonApi GetNewBlocks GetNewBlocksFacts.
From S2P Require Import NetworkSource NetworkSourceFacts.
#[local] Open Scope Z_scope.

Section honest.
Context `{Rapidjson} `{Lz4} {W : Type} `{P2PNetLaws W}.
Variables (maxAdvancedLoadBlocks countBlocksInBatch : Z) (isCompress isVerifySign : bool) (fuel : nat).

(** The sizes for which every part of a load is asked for by its number. *)
Definition batch_fits : Prop :=
  0 <= maxAdvancedLoadBlocks < 2 ^ 62 /\ 0 < countBlocksInBatch < 2 ^ 62 /\
  (countBlocksInBatch = 1 \/ maxAdvancedLoadBlocks <= countBlocksInBatch).
Hypothesis Hfits : batch_fits.

(** The chain of the other nodes, up to number [top]: the header of each number
    and the dump of each hash (signed, when signatures are checked). *)
Variable top : Z.
Variable hdr : Z -> MinimumBlockHeader.
Variable dump_of : bytes -> bytes.

(** What a node answers.  A block too large for a whole answer is asked for by
    ranges, which works for blocks without signature only. *)
Definition served_hash (h : bytes) : Prop := exists n, 0 < n <= top /\ h = mh_hash (hdr n).

Record honest_net : Prop := {
  hn_headers : forall n b, 0 < n <= top -> asked n b -> b = hdr n;
  hn_batches : forall srv n count response bs, 0 < n -> 1 < count <= countBlocksInBatch -> n + count <= top + 1 ->
    net_replies srv (qs_blocks n count) (Ok response) -> parseBlocksHeader response = Ok bs -> blen bs = count ->
    forall j b, bs !! j = Some b -> b = hdr (n + Z.of_nat j);
  hn_dumps : forall hashs, Forall served_hash hashs -> blen hashs < 2 ^ 62 ->
    honest_dumps countBlocksInBatch isCompress fuel dump_of hashs isVerifySign;
  hn_large : forall n, 0 < n <= top -> mh_blockSize (hdr n) <= MAX_BLOCK_SIZE_WITHOUT_ADVANCE \/
    (isVerifySign = false /\ 0 <= mh_blockSize (hdr n) < 2 ^ 63 /\
     blen (dump_of (mh_hash (hdr n))) = mh_blockSize (hdr n) /\
     honest (makeRequestForDumpBlock (mh_hash (hdr n))) parseDumpBlockResponse net_replies
       (mh_blockSize (hdr n)) (dump_of (mh_hash (hdr n))));
}.
Hypothesis Hhonest : honest_net.

(** The caches hold the chain's headers and dumps. *)
Record getter_right (g : Getter) : Prop := {
  gr_headers : forall k h, (k, h) ∈ g_headers g -> 0 < k <= top /\ h = hdr k;
  gr_length : blen (g_headers g) < 2 ^ 62;
  gr_dumps : forall h d, g_dumps g !! h = Some d -> d = dump_of h;
}.

Lemma getter_right_clear g : getter_right (clearAdvanced g).
Proof.
  split; cbn; [by intros k h ?%elem_of_nil|done|]. intros h d. by rewrite lookup_empty.
Qed.

Lemma part_one count i : i < count < 2 ^ 63 -> 0 <= i -> in_part 1 count i = 1.
Proof. intros Hc Hi. unfold in_part. rewrite u64_small by (unfold is_u64; lia). lia. Qed.

(** Whatever the outcome, what the answers add to the cache was read from them. *)
Lemma push_parts_any bn count i answers hs :
  0 <= bn -> bn + count < 2 ^ 63 -> 0 <= i -> i + blen answers <= count ->
  let hs' := fst (push_parts 1 bn count i answers hs) in
  blen hs' <= blen hs + blen answers /\
  forall k h, (k, h) ∈ hs' -> (k, h) ∈ hs \/
    exists j a, answers !! j = Some a /\ k = bn + (i + Z.of_nat j) /\ parseBlockHeader a = Ok h.
Proof.
  revert i hs. induction answers as [|a answers IH]; intros i hs Hb Hc Hi Hl; cbn zeta; cbn [push_parts].
  { cbn. rewrite blen_nil. split; [lia|]. by left. }
  rewrite blen_cons in *. pose proof (blen_nonneg answers). unfold mbind', push_part.
  rewrite part_one by lia. cbn [negb Z.eqb Pos.eqb]. rewrite Z.mul_1_r, u64_small by (unfold is_u64; lia).
  destruct (parseBlockHeader a) as [b| | |] eqn:Ha; try (cbn; split; [lia|by left]).
  destruct (IH (i + 1) (hs ++ [(bn + i, b)])) as [Hlen Hin]; [lia..|].
  split; [rewrite blen_app, blen_cons, blen_nil in Hlen; lia|].
  intros k h Hk. destruct (Hin k h Hk) as [Hk'|(j & a' & Hj & -> & Hp)].
  - apply elem_of_app in Hk' as [Hk'|Hk']; [by left|]. apply list_elem_of_singleton in Hk' as [= -> ->].
    right. exists O, a. split; [done|]. split; [lia|done].
  - right. exists (S j), a'. split; [done|]. split; [lia|done].
Qed.

(** One answer with all blocks. *)
Lemma in_part_all count : 0 < count <= countBlocksInBatch -> in_part countBlocksInBatch count 0 = count.
Proof. destruct Hfits as (_ & ? & _). intros Hc. unfold in_part. rewrite u64_small by (unfold is_u64; lia). lia. Qed.

Lemma push_whole_any bn count a :
  0 <= bn -> bn + count < 2 ^ 63 -> 0 < count <= countBlocksInBatch ->
  let hs' := fst (push_parts countBlocksInBatch bn count 0 [a] []) in
  blen hs' <= count /\
  forall k h, (k, h) ∈ hs' -> exists j : nat, Z.of_nat j < count /\ k = bn + Z.of_nat j /\
    ((count = 1 /\ parseBlockHeader a = Ok h) \/
     (count <> 1 /\ exists bs, parseBlocksHeader a = Ok bs /\ blen bs = count /\ bs !! j = Some h)).
Proof.
  intros Hb Hc Hcount. cbn zeta. cbn [push_parts]. unfold mbind', push_part, mret'.
  rewrite in_part_all, Z.mul_0_l, Z.add_0_r, u64_small by (done || unfold is_u64; lia).
  destruct (Z.eqb_spec count 1) as [->|Hne]; cbn [negb].
  - destruct (parseBlockHeader a) as [b| | |]; cbn;
      try (rewrite blen_nil; split; [lia|]; by intros k h ?%elem_of_nil).
    rewrite blen_cons, blen_nil. split; [lia|]. intros k h [= -> ->]%list_elem_of_singleton.
    exists O. split; [lia|]. split; [lia|]. by left.
  - destruct (parseBlocksHeader a) as [bs| | |]; cbn [mbind res_bind];
      try (cbn; rewrite blen_nil; split; [lia|]; by intros k h ?%elem_of_nil).
    destruct (Z.eqb_spec (blen bs) count) as [Hl|]; cbn [CHECK mbind res_bind];
      [|cbn; rewrite blen_nil; split; [lia|]; by intros k h ?%elem_of_nil].
    destruct (push_blocks_entries bn 0 bs []) as [Hlen Hin]; [lia..|].
    destruct (push_blocks bn 0 bs []) as [hs r]. cbn [fst] in *. rewrite (@blen_nil (Z * MinimumBlockHeader)) in Hlen.
    assert (fst (match r with Ok _ => (hs, Ok tt) | Throw e => (hs, Throw e) | UB => (hs, UB)
      | OutOfFuel => (hs, OutOfFuel) end) = hs) as -> by (by destruct r).
    split; [lia|]. intros k h Hk. destruct (Hin k h Hk) as [?%elem_of_nil|(i & Hi & -> & _)]; [done|].
    exists i. pose proof (lookup_lt_Some _ _ _ Hi). split; [unfold blen in Hl; lia|]. split; [lia|]. right.
    split; [done|]. by exists bs.
Qed.

Lemma load_headers_right bn last server s s' r :
  0 < bn <= last -> last <= top -> last < 2 ^ 62 -> getter_right s.1 ->
  load_block_headers maxAdvancedLoadBlocks countBlocksInBatch bn last server s = (s', r) ->
  getter_right s'.1 /\ (forall h, r = Ok h -> h = hdr bn).
Proof.
  intros Hb Htop Hl [_ _ Hd] Hld. destruct Hfits as (Hmax & Hbatch & Hone).
  enough (getter_right s'.1) as Hr.
  { split; [done|]. intros h ->. destruct (load_block_headers_spec _ _ Hbatch _ _ _ _ _ _ Hld) as (_ & Hh & _);
      [lia|done|lia|]. apply (gr_headers _ Hr). destruct (g_headers s'.1); [done|]. injection Hh as ->. by left. }
  revert Hld. unfold load_block_headers, mbind', mlift, mput. unfold on_headers at 1. cbn [fst snd].
  rewrite (u64_small (last - bn + 1)) by (unfold is_u64; lia).
  set (count := Z.min _ _). assert (0 <= count < 2 ^ 62 /\ count <= last - bn + 1 /\ count <= maxAdvancedLoadBlocks)
    as (Hcount & Hcl & Hcm) by lia.
  assert (getter_right (mkGetter [] (g_dumps s.1))) as Hempty.
  { split; cbn; [by intros k h ?%elem_of_nil|done|done]. }
  destruct (count_parts countBlocksInBatch count) as [n| | |] eqn:Hn; try (by intros [= <- <-]).
  destruct (Z.eqb_spec count 0) as [|Hc0]; [by intros [= <- <-]|].
  destruct (Z.eqb_spec n 0) as [|Hn0]; [by intros [= <- <-]|]. cbn [negb andb CHECK].
  destruct (count_parts_spec countBlocksInBatch Hbatch _ _ Hn) as [Hnr Hnc]; [lia|].
  destruct (on_net _ _) as [s1 [answers| | |]] eqn:Hr; apply on_net_inv in Hr as [Hs1 Hr]; cbn [fst snd] in *;
    try (intros [= <- <-]; by rewrite Hs1).
  destruct (Z.eqb_spec (blen answers) n) as [Hlen|]; cbn [CHECK]; [|intros [= <- <-]; by rewrite Hs1].
  unfold on_headers. rewrite Hs1. cbn [g_headers g_dumps fst].
  pose proof (net_requests_run _ _ _ _ _ _ _ Hr) as Hrun.
  destruct (p2p_requests_answers _ _ _ _ _ _ Hrun) as [_ Hall]; [lia|].
  assert (getter_right (mkGetter (fst (push_parts countBlocksInBatch bn count 0 answers [])) (g_dumps s.1))) as Hdone.
  { destruct Hone as [Heq1|Hfit].
    - clear Hn. rewrite Heq1 in *. pose proof (push_parts_any bn count 0 answers []) as Hp.
      destruct Hp as [Hpl Hpe]; [lia..|]. rewrite (@blen_nil (Z * MinimumBlockHeader)) in Hpl.
      split; cbn; [|lia|done]. intros k h Hin. destruct (Hpe k h Hin) as [?%elem_of_nil|(j & a & Hj & -> & Ha)]; [done|].
      assert (0 < bn + (0 + Z.of_nat j) <= top) as Hk by (apply lookup_lt_Some in Hj; unfold blen in *; lia).
      split; [done|]. apply (hn_headers Hhonest); [done|].
      destruct (Hall j a Hj) as (srv & q & response & parsed & Hq & Hrep & [= <-] & _ & Hpr). cbn in Hpr. subst a.
      exists srv, response. split; [|done]. apply lookup_lt_Some in Hj. unfold blen in *.
      unfold header_query in Hq. rewrite part_one in Hq by lia. cbn in Hq.
      rewrite u64_small in Hq by (unfold is_u64; lia). injection Hq as <-. by rewrite Z.add_0_l.
    - assert (n = 1) as -> by nia. destruct answers as [|a [|a' answers]]; [done| |].
      2: { rewrite !blen_cons in Hlen. pose proof (blen_nonneg answers). lia. }
      destruct (push_whole_any bn count a) as [Hpl Hpe]; [lia..|].
      split; cbn [g_headers g_dumps]; [|lia|done].
      destruct (Hall O a eq_refl) as (srv & q & response & parsed & Hq & Hrep & [= <-] & _ & Hpr). cbn in Hpr. subst a.
      unfold header_query in Hq. change (Z.of_nat 0) with 0 in Hq. rewrite in_part_all in Hq by lia.
      rewrite Z.mul_0_l, Z.add_0_r, !u64_small in Hq by (unfold is_u64; lia).
      intros k h Hin. destruct (Hpe k h Hin) as (j & Hj & -> & Hcase). split; [lia|].
      destruct Hcase as [[Heq1 Ha]|(Hne & bs & Ha & Hbl & Hbj)].
      + rewrite Heq1 in Hq, Hj. cbn in Hq. injection Hq as <-. replace (bn + Z.of_nat j) with bn by lia.
        apply (hn_headers Hhonest); [lia|]. by exists srv, response.
      + rewrite (proj2 (Z.eqb_neq _ _)) in Hq by done. cbn in Hq. injection Hq as <-.
        by eapply (hn_batches Hhonest srv bn count response bs); [lia..|done|done|done|]. }
  destruct (push_parts countBlocksInBatch bn count 0 answers []) as [hs [[]| | |]]; cbn [fst] in Hdone;
    try (by intros [= <- <-]).
Qed.

Lemma getBlockHeader_right bn last server s s' r :
  0 < bn <= last -> last <= top -> last < 2 ^ 62 -> getter_right s.1 ->
  getBlockHeader maxAdvancedLoadBlocks countBlocksInBatch bn last server s = (s', r) ->
  getter_right s'.1 /\ (forall h, r = Ok h -> h = hdr bn).
Proof.
  intros Hb Htop Hl Hg. unfold getBlockHeader. destruct (find_header bn (g_headers s.1)) as [h0|] eqn:Hf.
  - intros [= <- <-]. split; [done|]. intros h [= <-]. unfold find_header in Hf.
    destruct (find _ (g_headers s.1)) as [[k h]|] eqn:Hfind; [|done]. injection Hf as ->.
    apply find_some in Hfind as [Hin Hk]. apply Z.eqb_eq in Hk. cbn in Hk. subst k.
    apply (gr_headers _ Hg). by apply list_elem_of_In.
  - by apply load_headers_right.
Qed.

(** ** Dumps *)

Definition values_right (ds : gmap bytes bytes) : Prop := forall h d, ds !! h = Some d -> d = dump_of h.

Lemma values_right_insert ds h : values_right ds -> values_right (<[h := dump_of h]> ds).
Proof. intros Hv k d. rewrite lookup_insert_Some. intros [[<- <-]|[_ Hk]]; [done|by apply Hv]. Qed.

(** Whatever the outcome, a batch of dumps is stored under its own hashes. *)
Lemma push_dumps_any hashs i n ds :
  values_right ds -> values_right (fst (push_dumps hashs i (dump_of <$> take n (drop i hashs)) ds)).
Proof.
  revert i ds. induction n as [|n IH]; intros i ds Hv; [done|].
  destruct (hashs !! i) as [h|] eqn:Hi.
  - rewrite (drop_S _ _ _ Hi). cbn [take fmap list_fmap push_dumps]. rewrite Hi.
    apply IH. by apply values_right_insert.
  - apply lookup_ge_None in Hi. by rewrite drop_ge.
Qed.

Lemma push_dump_parts_any hashs i0 responses ds :
  Forall served_hash hashs -> blen hashs < 2 ^ 62 -> 0 <= i0 ->
  (i0 + blen responses) * countBlocksInBatch < 2 ^ 63 ->
  (forall j a, responses !! j = Some a -> exists srv q response parsed,
     dump_query countBlocksInBatch isCompress hashs isVerifySign (i0 + Z.of_nat j) = Ok q /\
     net_replies srv q (Ok response) /\ parseDumpBlockResponse response = Ok parsed /\
     rp_error parsed = None /\ rp_response parsed = a) ->
  values_right ds -> values_right (fst (push_dump_parts countBlocksInBatch isCompress fuel hashs i0 responses ds)).
Proof.
  intros Hsv Hlen. destruct Hfits as (_ & Hbatch & _). revert i0 ds. induction responses as [|a responses IH]; intros i0 ds Hi Hb Hall Hv; [done|].
  rewrite blen_cons in Hb. pose proof (blen_nonneg responses). cbn [push_dump_parts]. unfold mbind'.
  destruct (Hall O a eq_refl) as (srv & q & response & parsed & Hq & Hr & Hpa & He & <-).
  rewrite Z.add_0_r in Hq.
  pose proof (hn_dumps Hhonest hashs Hsv Hlen i0 srv q response parsed Hi ltac:(nia) Hq Hr Hpa He) as Hh.
  assert (values_right (fst (push_dump_part countBlocksInBatch isCompress fuel hashs i0 (rp_response parsed) ds))) as Hv1.
  { unfold push_dump_part. destruct (in_part countBlocksInBatch (blen hashs) i0 =? 1).
    - destruct (hashs !! Z.to_nat i0) as [h|]; [|done]. cbn [fst]. rewrite (Hh h) by done.
      by apply values_right_insert.
    - rewrite Hh. cbn [mbind res_bind]. destruct (CHECK (_ =? _) _) as [| | |]; [|done..]. cbn [mbind res_bind].
      destruct (CHECK (_ <=? _) _) as [| | |]; [|done..]. cbn [mbind res_bind].
      rewrite u64_small by (unfold is_u64; nia). by apply push_dumps_any. }
  destruct (push_dump_part _ _ _ _ _ _ ds) as [ds1 [[]| | |]]; try done.
  apply IH; [lia|nia| |done]. intros j a Hj.
  replace (i0 + 1 + Z.of_nat j) with (i0 + Z.of_nat (S j)) by lia. by apply Hall.
Qed.

Lemma blocks_hashs_length blockHash found l : blen (blocks_hashs blockHash found l) <= blen l.
Proof.
  revert found. induction l as [|[k h] l IH]; intros found; cbn [blocks_hashs]; [done|].
  rewrite !blen_cons. specialize (IH true) as IHt. specialize (IH false).
  destruct (found || _); [destruct (_ <=? _)|]; rewrite ?blen_cons, ?blen_nil; pose proof (blen_nonneg l); lia.
Qed.

Lemma blocks_hashs_served blockHash found l :
  (forall k h, (k, h) ∈ l -> 0 < k <= top /\ h = hdr k) -> Forall served_hash (blocks_hashs blockHash found l).
Proof.
  revert found. induction l as [|[k h] l IH]; intros found Hl; cbn [blocks_hashs]; [by apply Forall_nil|].
  assert (forall found, Forall served_hash (blocks_hashs blockHash found l)) as Hrest.
  { intros f. apply IH. intros k' h' Hin. apply Hl. by right. }
  destruct (found || _); [|done]. destruct (_ <=? _); [|by apply Forall_nil].
  apply Forall_cons_2; [|done]. destruct (Hl k h) as [Hk ->]; [by left|]. by exists k.
Qed.

Lemma load_dumps_right blockHash hints s s' r :
  getter_right s.1 -> load_dumps countBlocksInBatch isCompress fuel blockHash hints isVerifySign s = (s', r) ->
  getter_right s'.1 /\ (forall d, r = Ok d -> d = dump_of blockHash).
Proof.
  intros [Hh Hlen Hd] Hl.
  pose proof (blocks_hashs_length blockHash false (g_headers s.1)) as Hbl.
  assert (Forall served_hash (blocks_hashs blockHash false (g_headers s.1))) as Hsv.
  { apply blocks_hashs_served. intros k h Hin. by apply Hh. }
  destruct (is_ok r) eqn:Hok.
  { destruct r as [d| | |]; try done.
    destruct (load_dumps_spec countBlocksInBatch isCompress fuel (proj1 (proj2 Hfits)) dump_of _ _ _ _ _ _ Hl) as (-> & Hhs & Hds);
      [apply (hn_dumps Hhonest); [done|lia]|lia|]. split; [|by intros d [= <-]]. split; rewrite ?Hhs; done. }
  split; [|by intros d ->]. revert Hl Hok. unfold load_dumps, mbind', mlift, mput, mget. unfold on_dumps at 1. cbn [fst snd].
  cbn [g_headers]. generalize dependent (blocks_hashs blockHash false (g_headers s.1)). intros hashs Hbl Hsv.
  assert (forall ds, values_right ds -> getter_right (mkGetter (g_headers s.1) ds)) as Hmk by (intros ds Hv; by split).
  assert (values_right ∅) as Hv0 by (intros h d; by rewrite lookup_empty).
  destruct (CHECK (negb (is_empty hashs)) _) as [u| | |]; try (intros [= <- <-] _; by apply Hmk).
  destruct (count_parts countBlocksInBatch (blen hashs)) as [n| | |] eqn:Hn; try (intros [= <- <-] _; by apply Hmk).
  destruct (on_net _ _) as [s1 [responses| | |]] eqn:Hr; apply on_net_inv in Hr as [Hs1 Hr]; cbn [fst snd] in *;
    try (intros [= <- <-] _; rewrite Hs1; by apply Hmk).
  destruct (Z.eqb_spec (blen responses) n) as [Hln|]; cbn [CHECK]; [|intros [= <- <-] _; rewrite Hs1; by apply Hmk].
  unfold on_dumps. rewrite Hs1. cbn [g_headers g_dumps fst snd].
  pose proof (proj1 (proj2 Hfits)) as Hbatch.
  assert (0 <= n < 2 ^ 63 /\ n * countBlocksInBatch < 2 ^ 63) as [Hnb Hnn].
  { destruct (decide (hashs = [])) as [->|Hne].
    - unfold count_parts in Hn. rewrite (proj2 (Z.eqb_neq countBlocksInBatch 0)), blen_nil in Hn by lia.
      rewrite u64_small, Z.div_small in Hn by (unfold is_u64; lia). injection Hn as <-. lia.
    - destruct hashs as [|h hashs]; [done|]. pose proof (blen_nonneg hashs). rewrite blen_cons in *.
      destruct (count_parts_spec countBlocksInBatch Hbatch _ _ Hn); [lia|]. nia. }
  pose proof (net_requests_run _ _ _ _ _ _ _ Hr) as Hrun.
  destruct (p2p_requests_answers _ _ _ _ _ _ Hrun) as [_ Hall]; [lia|].
  pose proof (push_dump_parts_any hashs 0 responses ∅) as Hp.
  assert (values_right (fst (push_dump_parts countBlocksInBatch isCompress fuel hashs 0 responses ∅))) as Hv.
  { apply Hp; [done|lia|lia|nia| |done]. intros j a Hj. rewrite Z.add_0_l. by apply Hall. }
  clear Hp.
  destruct (push_dump_parts _ _ _ _ _ _ ∅) as [ds [[]| | |]] eqn:Hpp; cbn [fst] in Hv;
    try (intros [= <- <-] _; by apply Hmk).
  unfold dump_at. cbn [fst snd g_dumps g_headers]. destruct (ds !! blockHash); by intros [= <- <-].
Qed.

Lemma getBlockDump_right n hints s s' r :
  0 < n <= top -> getter_right s.1 ->
  Getter_getBlockDump countBlocksInBatch isCompress fuel (mh_hash (hdr n)) (mh_blockSize (hdr n)) hints isVerifySign s = (s', r) ->
  getter_right s'.1 /\ (forall d, r = Ok d -> d = dump_of (mh_hash (hdr n))).
Proof.
  intros Hnt Hg. unfold Getter_getBlockDump. destruct (g_dumps s.1 !! mh_hash (hdr n)) as [d0|] eqn:Hd.
  { intros [= <- <-]. split; [done|]. intros d [= <-]. by apply (gr_dumps _ Hg). }
  destruct (Z.ltb_spec MAX_BLOCK_SIZE_WITHOUT_ADVANCE (mh_blockSize (hdr n))); [|by apply load_dumps_right].
  intros Hn. apply on_net_inv in Hn as [Hs1 Hn]. rewrite Hs1. split; [done|]. intros d ->.
  destruct (hn_large Hhonest n Hnt) as [|(Hsig & Hsz & Hlen & Hh)]; [lia|].
  unfold getBlockDumpWithoutAdvancedLoad in Hn. rewrite Hsig in Hn. cbn [negb] in Hn.
  apply net_request_run in Hn. rewrite (p2p_request_data _ _ _ _ _ _ _ _ Hn Hsz Hh).
  unfold slice. rewrite Z.sub_0_r, drop_0. apply take_ge. unfold blen in Hlen. lia.
Qed.

(** ** The source *)

(** What is loaded for a number is the chain's block. *)
Definition loaded_right (k : Z) (header : MinimumBlockHeader) (raw : bytes) : Prop :=
  header = hdr k /\ raw = dump_of (mh_hash (hdr k)).

Lemma load_one_right cur last servers g w :
  0 < cur <= last -> last <= top -> last < 2 ^ 62 -> getter_right g ->
  let '(s', r) := load_one maxAdvancedLoadBlocks countBlocksInBatch isCompress isVerifySign fuel cur last servers (g, w) in
  getter_right s'.1 /\
  forall a, r = Ok a -> ab_exception a = None -> loaded_right cur (ab_header a) (ab_dump a).
Proof.
  intros Hc Htop Hl Hg. unfold load_one. destruct (head servers) as [server0|]; [|done].
  destruct (getBlockHeader _ _ cur last server0 (g, w)) as [s1 r1] eqn:Hh.
  apply getBlockHeader_right in Hh as [Hg1 Hr1]; [|done..].
  destruct r1 as [h|e| |]; try (split; [done|]; by intros a [= <-]).
  rewrite (Hr1 h) by done.
  destruct (Getter_getBlockDump _ _ _ _ _ _ _ s1) as [s2 r2] eqn:Hd.
  apply getBlockDump_right in Hd as [Hg2 Hr2]; [|lia|done].
  destruct r2 as [d|e| |]; (split; [done|]); intros a [= <-]; [|done].
  intros _. split; [done|]. by apply Hr2.
Qed.

(** ** Successive blocks *)

Section blocks.
Context `{Support} `{Crypto} `{Fs}.
Variables (isInitialized : bool) (folderPath : bytes) (saveAllTx isValidate : bool) (base : Z).

#[local] Abbreviation take_blocks := (take_blocks isInitialized maxAdvancedLoadBlocks countBlocksInBatch isCompress folderPath
  saveAllTx isValidate isVerifySign fuel base).
#[local] Abbreviation block_of header := (block_checked isInitialized folderPath saveAllTx isValidate isVerifySign
  base header (dump_of (mh_hash header))).

(** The invariant of the source, when the last block is [n]. *)
Definition honest_inv (n : Z) (servers : list bytes) (ns : NetSource) : Prop :=
  net_inv isInitialized folderPath saveAllTx isValidate isVerifySign base getter_right loaded_right n servers ns.

(** It holds after the source was asked for what follows [count]. *)
Lemma honest_doProcess count s s1 more n :
  0 <= count < 2 ^ 62 -> Network_doProcess count s = (s1, Ok (more, n)) ->
  n = max_count (reply_counts s.2) /\ more = (count + 1 <=? n) /\ ns_nextBlockToRead s1.1 = count + 1 /\
  honest_inv n (best_servers (reply_counts s.2)) s1.1.
Proof.
  intros Hc Hd. apply doProcess_spec in Hd as (-> & -> & Hnx & Hl & Hsv & Hadv & Hg).
  rewrite u64_small in Hnx |- * by (unfold is_u64; lia). do 3 (split; [done|]).
  split; [rewrite Hg; by apply (getter_right_clear (mkGetter [] ∅))|rewrite Hnx; lia|done|done|].
  intros j a. by rewrite Hadv, lookup_empty.
Qed.

Lemma load_one_ok n servers cur g w s' a :
  n <= top -> n < 2 ^ 62 -> 0 < cur <= n -> getter_right g ->
  load_one maxAdvancedLoadBlocks countBlocksInBatch isCompress isVerifySign fuel cur n servers (g, w) = (s', Ok a) ->
  getter_right s'.1 /\ (ab_exception a = None -> loaded_right cur (ab_header a) (ab_dump a)).
Proof.
  intros Htop Hn Hcur Hgr He. pose proof (load_one_right cur n servers g w Hcur Htop Hn Hgr) as Hl. rewrite He in Hl.
  destruct Hl as [? Ha]. split; [done|]. by apply Ha.
Qed.

Lemma load_one_keeps n servers cur g w :
  n <= top -> n < 2 ^ 62 -> 0 < cur <= n -> getter_right g ->
  getter_right (fst (load_one maxAdvancedLoadBlocks countBlocksInBatch isCompress isVerifySign fuel cur n servers (g, w))).1.
Proof.
  intros Htop Hn Hcur Hgr. pose proof (load_one_right cur n servers g w Hcur Htop Hn Hgr) as Hl.
  destruct (load_one _ _ _ _ _ _ _ _ _). by destruct Hl.
Qed.

(** One call: the next block of the chain, or none when there is no further. *)
Lemma honest_process n servers ns w s' bi dump :
  0 <= n <= top -> n < 2 ^ 62 -> honest_inv n servers ns ->
  Network_process isInitialized maxAdvancedLoadBlocks countBlocksInBatch isCompress folderPath saveAllTx isValidate isVerifySign
    fuel base (ns, w) = (s', Ok (Some (bi, dump))) ->
  ns_nextBlockToRead ns <= n /\ ns_nextBlockToRead s'.1 = ns_nextBlockToRead ns + 1 /\
  honest_inv n servers s'.1 /\ block_of (hdr (ns_nextBlockToRead ns)) bi dump.
Proof.
  intros Htop Hn Hi Hp.
  apply (process_delivers _ _ _ _ _ _ _ _ _ _ getter_right loaded_right n servers) in Hp
    as (Hle & Hnx & Hi' & header & raw & [-> ->] & Hb); [|lia|..|exact Hi].
  - pose proof (ni_next _ _ _ _ _ _ _ _ _ _ _ Hi) as Hu.
    rewrite u64_small in Hnx by (unfold is_u64; lia). done.
  - intros cur g w0 s0 a Hcur. apply load_one_ok; [lia..|done].
  - intros cur g w0 Hcur. apply load_one_keeps; [lia..|done].
Qed.

(** A call that gives no block says so exactly when there is none left. *)
Lemma honest_end n servers ns w s' r :
  0 <= n <= top -> n < 2 ^ 62 -> honest_inv n servers ns ->
  Network_process isInitialized maxAdvancedLoadBlocks countBlocksInBatch isCompress folderPath saveAllTx isValidate isVerifySign
    fuel base (ns, w) = (s', r) -> (forall x, r <> Ok (Some x)) ->
  (r = Ok None <-> n < ns_nextBlockToRead ns).
Proof.
  intros Htop Hn Hi Hp Hr. split.
  - pose proof (process_other isInitialized maxAdvancedLoadBlocks countBlocksInBatch isCompress folderPath saveAllTx isValidate
      isVerifySign fuel base getter_right loaded_right n servers ltac:(lia)
      ltac:(intros cur g w0 s0 a Hcur; apply load_one_ok; [lia..|done])
      ltac:(intros cur g w0 Hcur; apply load_one_keeps; [lia..|done]) ns w s' r Hi Hp Hr) as [_ Ho]. exact Ho.
  - intros Hlt. unfold Network_process in Hp. cbn [fst] in Hp. rewrite (ni_last _ _ _ _ _ _ _ _ _ _ _ Hi) in Hp.
    destruct (Z.leb_spec (ns_nextBlockToRead ns) n); [lia|]. by injection Hp as _ <-.
Qed.

Lemma honest_take n servers ns w k :
  0 <= n <= top -> n < 2 ^ 62 -> honest_inv n servers ns ->
  let next := ns_nextBlockToRead ns in
  let '(s2, l) := take_blocks k (ns, w) in
  ns_nextBlockToRead s2.1 = next + blen l /\ (l <> [] -> next + blen l <= n + 1) /\
  forall i b, l !! i = Some b -> block_of (hdr (next + Z.of_nat i)) b.1 b.2.
Proof.
  intros Htop Hn Hi. cbn zeta.
  pose proof (take_blocks_spec isInitialized maxAdvancedLoadBlocks countBlocksInBatch isCompress folderPath saveAllTx isValidate
    isVerifySign fuel base getter_right loaded_right n servers ltac:(lia)
    ltac:(intros cur g w0 s0 a Hcur; apply load_one_ok; [lia..|done])
    ltac:(intros cur g w0 Hcur; apply load_one_keeps; [lia..|done]) k ns w Hi) as Ht.
  destruct (take_blocks k (ns, w)) as [s2 l]. destruct Ht as (Hnext & Hlen & Hall).
  split; [done|]. split; [done|]. intros i b Hb. by destruct (Hall i b Hb) as (header & raw & [-> ->] & ?).
Qed.

End blocks.

End honest.

(** One block in a request, the default. *)
Lemma fits_one maxAdvancedLoadBlocks : 0 <= maxAdvancedLoadBlocks < 2 ^ 62 -> batch_fits maxAdvancedLoadBlocks 1.
Proof. intros Hm. unfold batch_fits. lia. Qed.
