(* ===== verification/SampleNet.v ===== *)
(** * A concrete peer-to-peer layer

    One node that answers from a table, asked by one thread: an instance of the
    interface of GetNewBlocks with its laws, on which the theorems about blocks
    from the network are evaluated.  The chain it serves has one block. *)
From S2P Require Import Prelude External MiniJson Instances BlockInfo BlockchainRead P2P P2PFacts P2PSeq.
From S2P Require Import Graph Dumps JsonApi GetNewBlocks GetNewBlocksFacts HonestNet.
#[local] Open Scope Z_scope.

Definition table_serve (t : list (Query * bytes)) (srv : bytes) (q : Query) : res bytes :=
  match find (fun e => bool_decide (e.1 = q)) t with
  | Some e => Ok e.2
  | None => throwErr (str "404")
  end.

(** The servers of the threads, one connection each. *)
Definition table_servers (hints : list bytes) : res (list bytes) := Ips_getServersList 1 hints.

(** One server, [serve], asked by one thread. *)
Definition serve_net (serve : bytes -> Query -> res bytes) : P2PNet unit := {|
  net_broadcast q w :=
    (w, [match serve (str "s1") q with
         | Ok r => (str "s1", r, None)
         | _ => (str "s1", [], Some (str "404"))
         end], Ok tt);
  net_runOneRequest srv q := mlift (serve srv q);
  net_request n precise mk parse hints :=
    mlift (seq_request serve (table_servers hints) n precise mk parse);
  net_requests n mk parse hints := mlift (seq_requests serve (table_servers hints) n mk parse);
|}.

Definition serve_net_laws (serve : bytes -> Query -> res bytes) : @P2PNetLaws unit (serve_net serve).
Proof.
  refine {| net_replies := serve_replies serve; net_servers := table_servers |}.
  - intros n precise mk parse hints w w' r Hr. cbn in Hr. apply mlift_Ok_inv in Hr as [_ Hr].
    by apply seq_request_run.
  - intros n mk parse hints w w' r Hr. cbn in Hr. apply mlift_Ok_inv in Hr as [_ Hr].
    by apply seq_requests_run.
Defined.

Definition table_net (t : list (Query * bytes)) : P2PNet unit := serve_net (table_serve t).
Definition table_net_laws (t : list (Query * bytes)) : @P2PNetLaws unit (table_net t) :=
  serve_net_laws (table_serve t).

(** ** A chain of one block *)

(** A header with type 1 and zeros, whose parent is the genesis block, and no
    transaction; its digest, as [copy_crypto] has it, is the first 32 bytes. *)
Definition one_dump : bytes := Byte.x01 :: replicate 80 Byte.x00.
Definition one_hash : bytes := str "01" ++ replicate 62 Byte.x30.
Definition one_header : MinimumBlockHeader := mkMinimumBlockHeader 1 81 one_hash (str "h0") (str "d/1.blk").

Definition one_header_text : bytes :=
  mini_print (JObject [(str "result", JObject [(str "hash", JString one_hash);
    (str "prev_hash", JString (str "h0")); (str "number", JInt 1); (str "size", JInt 81);
    (str "fileName", JString (str "d/1.blk"))])]).

Definition one_dump_query : Query :=
  (str "get-dump-block-by-hash",
   js "{'id':1,'params':{'hash': '" ++ one_hash ++ js "' , 'isHex': false, 'isSign': false, 'compress': false}}").

Definition one_table : list (Query * bytes) :=
  [((str "get-count-blocks", js "{'id': 1}"), js "{'result':{'count_blocks':1}}");
   (qs_block_by_number 1, one_header_text);
   (one_dump_query, one_dump)].

Definition one_hdr (n : Z) : MinimumBlockHeader := one_header.
Definition one_dump_of (h : bytes) : bytes := one_dump.

Lemma qs_block_inj a b : qs_block_by_number a = qs_block_by_number b -> a = b.
Proof.
  unfold qs_block_by_number. intros Hq. apply to_string_inj.
  apply (f_equal snd) in Hq. cbn [snd] in Hq. apply app_inv_head in Hq. by apply app_inv_tail in Hq.
Qed.

Lemma one_reply srv q response :
  serve_replies (table_serve one_table) srv q (Ok response) -> exists e, e ∈ one_table /\ e.1 = q /\ e.2 = response.
Proof.
  unfold serve_replies, table_serve. destruct (find _ one_table) as [e|] eqn:Hf; [|done].
  intros [= ->]. apply find_some in Hf as [Hin Hq]. apply bool_decide_eq_true in Hq. exists e.
  split; [by apply list_elem_of_In|done].
Qed.

(** The node of the table is honest. *)
Lemma one_net_honest :
  @honest_net mini_json stored_lz4 unit (table_net one_table) (table_net_laws one_table)
    1 false false 1 1 one_hdr one_dump_of.
Proof.
  split.
  - intros n b _ (srv & response & Hr & Hp). apply one_reply in Hr as (e & He & Hq & <-).
    apply elem_of_cons in He as [->|He]; [discriminate Hq|].
    apply elem_of_cons in He as [->|He].
    + cbn [snd] in Hp. assert (@parseBlockHeader mini_json one_header_text = Ok one_header) as Hone by (by vm_compute).
      rewrite Hone in Hp. by injection Hp as <-.
    + apply list_elem_of_singleton in He as ->. discriminate Hq.
  - intros. lia.
  - intros hashs _ _ i srv q response parsed Hi _ Hq Hr Hp He.
    apply one_reply in Hr as (e & Hin & Heq & <-). unfold dump_query in Hq.
    apply bind_Ok_inv in Hq as (u & _ & Hq).
    destruct (in_part 1 (blen hashs) i =? 1).
    + apply bind_Ok_inv in Hq as (h & _ & [= <-]).
      apply elem_of_cons in Hin as [->|Hin]; [discriminate Heq|].
      apply elem_of_cons in Hin as [->|Hin]; [discriminate Heq|].
      apply list_elem_of_singleton in Hin as ->. cbn [snd] in Hp.
      assert (@parseDumpBlockResponse mini_json one_dump = Ok (mkResponseParse one_dump None)) as Hone by (by vm_compute).
      rewrite Hone in Hp. injection Hp as <-. done.
    + apply bind_Ok_inv in Hq as (r & _ & [= <-]).
      apply elem_of_cons in Hin as [->|Hin]; [discriminate Heq|].
      apply elem_of_cons in Hin as [->|Hin]; [discriminate Heq|].
      apply list_elem_of_singleton in Hin as ->. discriminate Heq.
  - intros n _. left. done.
Qed.
