(* ===== verification/Responsive.v ===== *)
(** * Servers that answer

    When every server answers every request of a download, no interleaving of
    its threads fails, and every one of them can be brought to its end.  A layer
    whose downloads then return is [P2PNetLive]; the concrete layer of SampleNet
    is one. *)
From S2P Require Import Prelude External BlockInfo P2P P2PFacts P2PSeq Graph Dumps JsonApi GetNewBlocks SampleNet.
#[local] Open Scope Z_scope.

(** ** Downloads of servers that answer *)

(** There are servers to ask, and each answers the request for each segment
    with something that will be accepted. *)
Definition responds (getServersList : res (list bytes)) (makeQs : Z -> Z -> res Query)
    (parse : bytes -> res ResponseParse) (precise : bool) (replies : bytes -> Query -> res bytes -> Prop)
    (size minSize : Z) : Prop :=
  exists servers segs, prepare getServersList size minSize = Ok (servers, segs) /\ servers <> [] /\
    forall s, s ∈ segs -> answered servers makeQs parse precise replies s.

Section responds.
Variables (getServersList : res (list bytes)) (makeQs : Z -> Z -> res Query) (parse : bytes -> res ResponseParse).
Variables (precise : bool) (replies : bytes -> Query -> res bytes -> Prop) (size minSize : Z).
Hypothesis Hsize : 0 <= size < 2 ^ 63.
Hypothesis Hmin : 0 < minSize < 2 ^ 63.
Hypothesis Hresponds : responds getServersList makeQs parse precise replies size minSize.

Lemma requestImpl_succeeds r :
  requestImpl getServersList makeQs parse precise replies size minSize r -> exists answers, r = Ok answers.
Proof.
  destruct Hresponds as (servers & segs & Hp & Hne & Ha).
  destruct (prepare_Ok _ _ _ _ _ Hp Hsize Hmin) as (_ & _ & Hc & Hl & _).
  intros Hr. inversion Hr as [r' Hp' Hno|servers' segs' answers ok Hp' Hrun].
  - rewrite Hp in Hp'. by subst r'.
  - rewrite Hp in Hp'. injection Hp' as <- <-. inversion Hrun as [s Hs Hd Has Hok].
    destruct (covers_hyps _ _ _ Hc Hl) as [Hnd Hpos].
    rewrite (done_succeeds _ _ _ _ _ _ _ Hnd Hpos Ha Hne s Hs Hd), bool_decide_true by done. by eexists.
Qed.

(** And there is one that does. *)
Lemma requestImpl_ends : exists answers, requestImpl getServersList makeQs parse precise replies size minSize (Ok answers).
Proof.
  destruct Hresponds as (servers & segs & Hp & Hne & Ha).
  destruct (prepare_Ok _ _ _ _ _ Hp Hsize Hmin) as (_ & _ & Hc & Hl & _).
  destruct (covers_hyps _ _ _ Hc Hl) as [Hnd Hpos].
  destruct (process_finishes servers makeQs parse precise replies segs _ Hnd Hpos Ha Hne _ (rtc_refl _ _))
    as (s & Hs & Hd).
  pose proof (requestImpl_run getServersList makeQs parse precise replies size minSize servers segs _ _ Hp
    (process_run _ _ _ _ _ _ _ s Hs Hd)) as Hrun.
  rewrite (done_succeeds _ _ _ _ _ _ _ Hnd Hpos Ha Hne s Hs Hd), bool_decide_true in Hrun by done.
  eexists. exact Hrun.
Qed.

End responds.

(** The answers of a precise download are as long as what was asked for. *)
Lemma covers_length_sum servers makeQs parse replies i from size segs answers :
  0 <= from -> size < 2 ^ 63 -> covers i from size segs ->
  Forall2 (accepted servers makeQs parse true replies) segs answers -> blen (concat answers) = size - from.
Proof.
  intros Hf Hs Hc H2. revert i from Hf Hc.
  induction H2 as [|s a segs answers (srv & q & response & parsed & _ & _ & _ & _ & _ & _ & Ha) H2 IH]; intros i from Hf Hc.
  { cbn in Hc. cbn [concat]. rewrite blen_nil. lia. }
  destruct Hc as (Hs' & _ & Ht & Hc). pose proof (covers_le _ _ _ _ Hc). cbn [concat]. rewrite blen_app, Ha by done.
  rewrite (IH (i + 1) (toByte s) ltac:(lia) Hc), u64_small by (unfold is_u64; lia). lia.
Qed.

Lemma p2p_request_succeeds getServersList makeQs parse precise replies size r :
  0 <= size < 2 ^ 63 -> responds getServersList makeQs parse precise replies size MIN_RESPONSE_SIZE ->
  p2p_request getServersList parse replies size precise makeQs r -> exists d, r = Ok d.
Proof.
  assert (0 < MIN_RESPONSE_SIZE < 2 ^ 63) as Hm by (unfold MIN_RESPONSE_SIZE; lia).
  intros Hs Hr Hrun. inversion Hrun as [r' Himpl].
  destruct (requestImpl_succeeds _ _ _ _ _ _ _ Hs Hm Hr r' Himpl) as [answers ->]. cbn [mbind res_bind].
  unfold join_answers. destruct precise; [|by eexists].
  destruct (requestImpl_accepted _ _ _ _ _ _ _ _ Himpl Hs Hm) as (servers & segs & _ & _ & Hc & _ & _ & H2).
  rewrite (covers_length_sum _ _ _ _ _ 0 size segs answers) by (done || lia).
  rewrite Z.sub_0_r, Z.eqb_refl. by eexists.
Qed.

Lemma p2p_requests_succeeds getServersList makeQs parse replies n r :
  0 <= n < 2 ^ 63 -> responds getServersList (makeQsAndPortImpl makeQs) parse false replies n 1 ->
  p2p_requests getServersList parse replies n makeQs r -> exists answers, r = Ok answers.
Proof.
  assert (0 < 1 < 2 ^ 63) as Hm by lia.
  intros Hs Hr Hrun. inversion Hrun as [r' Himpl].
  destruct (requestImpl_succeeds _ _ _ _ _ _ _ Hs Hm Hr r' Himpl) as [answers ->]. cbn [mbind res_bind].
  destruct (requestImpl_accepted _ _ _ _ _ _ _ _ Himpl Hs Hm) as (servers & segs & _ & _ & Hc & Hl & _ & H2).
  apply Forall2_length in H2. unfold count_segments in Hl. rewrite Z.eqb_refl in Hl.
  rewrite (proj2 (Z.eqb_eq (blen answers) n)) by (unfold blen in *; lia). by eexists.
Qed.

(** For [requests] a segment is one request. *)
Lemma responds_units getServersList servers makeQs parse replies n :
  0 < n < 2 ^ 63 -> getServersList = Ok servers -> servers <> [] ->
  (forall i, 0 <= i < n -> exists q, makeQs i = Ok q /\ forall srv, srv ∈ servers ->
     (exists reply, replies srv q reply) /\ forall reply, replies srv q reply -> exists response parsed,
       reply = Ok response /\ parse response = Ok parsed /\ rp_error parsed = None) ->
  responds getServersList (makeQsAndPortImpl makeQs) parse false replies n 1.
Proof.
  intros Hn -> Hne Ha. unfold responds, prepare. rewrite (proj2 (Z.eqb_neq n 0)) by lia. cbn [negb CHECK mbind res_bind].
  destruct (makeSegments_covers (count_segments servers n 1) n 1) as (segs & Hsegs & Hc & Hl); [lia|lia| |].
  { unfold count_segments. cbn [Z.eqb Pos.eqb]. rewrite Z.div_1_r. lia. }
  rewrite Hsegs. exists servers, segs. split; [done|]. split; [done|]. intros s Hin.
  assert (blen segs = n) as Hn' by (rewrite Hl; reflexivity). clear Hl.
  apply list_elem_of_lookup in Hin as [j Hj].
  assert (fromByte s = Z.of_nat j /\ toByte s = Z.of_nat j + 1 /\ Z.of_nat j < n) as (Hf & Ht & Hjn).
  { pose proof (covers_units 0 0 n segs j s Hc ltac:(lia) Hj) as Hf. apply lookup_lt_Some in Hj as Hlt.
    split; [lia|]. split; [|unfold blen in Hn'; lia].
    destruct (covers_lookup _ _ _ _ _ _ Hc Hj) as (_ & Hft & Hts).
    destruct (segs !! S j) as [s'|] eqn:Hs'.
    - pose proof (covers_units 0 0 n segs (S j) s' Hc ltac:(lia) Hs').
      rewrite <- (covers_next _ _ _ _ _ _ _ Hc Hj Hs'). lia.
    - apply lookup_ge_None in Hs'. assert (toByte s <= n) by lia. unfold blen in Hn'. lia. }
  destruct (Ha (Z.of_nat j)) as (q & Hq & Hall); [lia|]. exists q. split.
  { unfold makeQsAndPortImpl. rewrite Hf, Ht, u64_small by (unfold is_u64; lia). rewrite Z.eqb_refl. exact Hq. }
  intros srv Hsrv. destruct (Hall srv Hsrv) as [Hex Hr]. split; [done|]. intros reply Hrep.
  destruct (Hr reply Hrep) as (response & parsed & ? & ? & ?). by exists response, parsed.
Qed.

(** A range of more than one request is asked for in segments of one size. *)
Lemma responds_ranges getServersList servers makeQs parse precise replies size :
  0 < size < 2 ^ 63 -> getServersList = Ok servers -> servers <> [] ->
  (forall from to, 0 <= from < to -> to <= size -> wide MIN_RESPONSE_SIZE size (mkSegment from to 0) ->
     exists q, makeQs from to = Ok q /\ forall srv, srv ∈ servers ->
       (exists reply, replies srv q reply) /\ forall reply, replies srv q reply -> exists response parsed,
         reply = Ok response /\ parse response = Ok parsed /\ rp_error parsed = None /\
         (precise = true -> blen (rp_response parsed) = to - from)) ->
  responds getServersList makeQs parse precise replies size MIN_RESPONSE_SIZE.
Proof.
  intros Hn -> Hne Ha. assert (0 < MIN_RESPONSE_SIZE < 2 ^ 63) as Hm by (unfold MIN_RESPONSE_SIZE; lia).
  assert (0 < MIN_RESPONSE_SIZE) as Hm0 by lia.
  assert (0 < count_segments servers size MIN_RESPONSE_SIZE <= (size + MIN_RESPONSE_SIZE - 1) / MIN_RESPONSE_SIZE) as Hc.
  { unfold count_segments. cbn [Z.eqb]. rewrite (proj2 (Z.eqb_neq MIN_RESPONSE_SIZE 1)) by done.
    rewrite u64_small by (unfold is_u64, MIN_RESPONSE_SIZE; lia).
    assert (0 < blen servers) by (destruct servers; [done|rewrite blen_cons; pose proof (blen_nonneg servers); lia]).
    assert (1 <= (size + MIN_RESPONSE_SIZE - 1) / MIN_RESPONSE_SIZE); [|lia].
    apply Z.div_le_lower_bound; unfold MIN_RESPONSE_SIZE; lia. }
  destruct (makeSegments_covers (count_segments servers size MIN_RESPONSE_SIZE) size MIN_RESPONSE_SIZE)
    as (segs & Hsegs & Hcov & _); [lia|lia|done|].
  exists servers, segs. unfold prepare. rewrite (proj2 (Z.eqb_neq size 0)) by lia. cbn [negb CHECK mbind res_bind].
  rewrite Hsegs. split; [done|]. split; [done|]. intros s Hin.
  pose proof (makeSegments_wide _ size MIN_RESPONSE_SIZE segs Hn Hm0 Hc Hsegs) as Hw. rewrite Forall_forall in Hw.
  pose proof (Hw s Hin) as Hws. apply list_elem_of_lookup in Hin as [j Hj].
  destruct (covers_lookup _ _ _ _ _ _ Hcov Hj) as (_ & Hft & Hts).
  destruct (Ha (fromByte s) (toByte s) Hft Hts Hws) as (q & Hq & Hall). exists q. split; [done|].
  intros srv Hsrv. destruct (Hall srv Hsrv) as [Hex Hr]. split; [done|]. intros reply Hrep.
  destruct (Hr reply Hrep) as (response & parsed & ? & ? & ? & Hz). exists response, parsed.
  do 3 (split; [done|]). intros Hp. by rewrite Hz, u64_small by (done || unfold is_u64; lia).
Qed.

(** ** Layers whose downloads return *)

(** A download whose servers answer every request returns an answer: that no
    run of the segment machine fails or stays unfinished then is proved above. *)
Class P2PNetLive (W : Type) `{P2PNetLaws W} := {
  net_request_live : forall n precise mk parse hints w,
    0 <= n < 2 ^ 63 -> responds (net_servers hints) mk parse precise net_replies n MIN_RESPONSE_SIZE ->
    is_ok (snd (net_request n precise mk parse hints w)) = true;
  net_requests_live : forall n mk parse hints w,
    0 <= n < 2 ^ 63 -> responds (net_servers hints) (makeQsAndPortImpl mk) parse false net_replies n 1 ->
    is_ok (snd (net_requests n mk parse hints w)) = true;
}.

Lemma ask_segments_answered serve srv servers makeQs parse precise segs :
  srv ∈ servers -> (forall s, s ∈ segs -> answered servers makeQs parse precise (serve_replies serve) s) ->
  exists answers, ask_segments serve srv makeQs parse precise segs = Ok answers.
Proof.
  intros Hsrv. induction segs as [|s segs IH]; intros Ha; [by eexists|].
  destruct (Ha s ltac:(by left)) as (q & Hq & Hall).
  destruct (proj2 (Hall srv Hsrv) _ eq_refl) as (response & parsed & Hr & Hp & He & Hz).
  destruct IH as [answers IH]; [intros s' Hs'; apply Ha; by right|].
  cbn [ask_segments]. unfold ask_segment. rewrite Hq. cbn [mbind res_bind]. rewrite Hr. cbn [mbind res_bind].
  rewrite Hp. cbn [mbind res_bind]. rewrite He, bool_decide_false by (by intros [? ?]). cbn [negb CHECK mbind res_bind].
  destruct precise; [rewrite Hz, Z.eqb_refl by done; cbn [CHECK]|]; cbn [mbind res_bind]; rewrite IH; by eexists.
Qed.

Lemma seq_requestImpl_live serve getServersList makeQs parse precise size minSize :
  0 <= size < 2 ^ 63 -> responds getServersList makeQs parse precise (serve_replies serve) size minSize ->
  exists answers, seq_requestImpl serve getServersList makeQs parse precise size minSize = Ok answers.
Proof.
  intros [H0 H1] (servers & segs & Hp & Hne & Ha). unfold seq_requestImpl.
  rewrite (proj2 (Z.leb_le 0 size)), (proj2 (Z.ltb_lt size (2 ^ 63))) by done. cbn [andb CHECK mbind res_bind].
  rewrite Hp. cbn [mbind res_bind]. destruct servers as [|srv servers]; [done|]. cbn [head opt_ub mbind res_bind].
  apply (ask_segments_answered serve srv (srv :: servers)); [by left|done].
Qed.

#[global] Instance serve_net_live serve : @P2PNetLive unit (serve_net serve) (serve_net_laws serve).
Proof.
  split; intros *; intros Hn Hr; cbn [serve_net net_request net_requests snd mlift].
  - destruct (seq_requestImpl_live serve (table_servers hints) _ _ _ _ _ Hn Hr) as [answers Ha].
    unfold seq_request. rewrite Ha.
    apply seq_requestImpl_run in Ha; [|unfold MIN_RESPONSE_SIZE; lia].
    destruct (p2p_request_succeeds _ _ _ _ _ _ _ Hn Hr (p2p_request_run _ _ _ _ _ _ _ Ha)) as [d Hd]. by rewrite Hd.
  - destruct (seq_requestImpl_live serve (table_servers hints) _ _ _ _ _ Hn Hr) as [answers Ha].
    unfold seq_requests. rewrite Ha.
    apply seq_requestImpl_run in Ha; [|lia].
    destruct (p2p_requests_succeeds _ _ _ _ _ _ Hn Hr (p2p_requests_run _ _ _ _ _ _ Ha)) as [d Hd]. by rewrite Hd.
Qed.
