(* ===== verification/HonestLive.v ===== *)
(** * Blocks from honest nodes that answer

    When the nodes of HonestNet answer every request for their blocks, and the
    blocks can be read, the network source hands out all of them: no load fails,
    none is kept as an exception, and the last block is reached. *)
From S2P Require Import Prelude External BlockInfo BlockchainUtils PrivateKey BlockchainRead.
From S2P Require Import P2P P2PFacts Graph Dumps JsonApi GetNewBlocks GetNewBlocksFacts.
From S2P Require Import NetworkSource NetworkSourceFacts HonestNet Responsive.
#[local] Open Scope Z_scope.

Section live.
Context `{Rapidjson} `{Lz4} {W : Type} `{P2PNetLive W}.
Variables (maxAdvancedLoadBlocks countBlocksInBatch : Z) (isCompress isVerifySign : bool) (fuel : nat).
Hypothesis Hfits : batch_fits maxAdvancedLoadBlocks countBlocksInBatch.
Hypothesis Hmax : 0 < maxAdvancedLoadBlocks.
Variable top : Z.
Variable hdr : Z -> MinimumBlockHeader.
Variable dump_of : bytes -> bytes.
Hypothesis Hhonest : honest_net countBlocksInBatch isCompress isVerifySign fuel top hdr dump_of.

#[local] Abbreviation B := countBlocksInBatch.
#[local] Abbreviation part := (in_part countBlocksInBatch).

Lemma Hbatch : 0 < B < 2 ^ 62.
Proof using Hfits. apply Hfits. Qed.

(** A server that replies to a request, with something [read] accepts. *)
Definition replies_read (read : bytes -> Prop) (srv : bytes) (q : Query) : Prop :=
  (exists reply, net_replies srv q reply) /\
  forall reply, net_replies srv q reply -> exists response, reply = Ok response /\ read response.

Definition header_read (response : bytes) : Prop := exists b, parseBlockHeader response = Ok b.
Definition batch_read (n count : Z) (response : bytes) : Prop :=
  exists bs, parseBlocksHeader response = Ok bs /\ mh_number <$> bs = seqZ n count.

(** What is asked for [count] dumps is accepted and, when these are several, can be taken apart. *)
Definition dumps_split (count : Z) (a : bytes) : Prop :=
  count <> 1 -> exists ds, parseDumpBlocksBinary fuel a isCompress = Ok ds /\ blen ds = count.
Definition dump_read (count : Z) (response : bytes) : Prop :=
  exists parsed, parseDumpBlockResponse response = Ok parsed /\ rp_error parsed = None /\
    dumps_split count (rp_response parsed).

(** Every request a node makes for the blocks up to [top] is answered. *)
Record responsive_net : Prop := {
  rn_headers : forall n srv, 0 < n <= top -> replies_read header_read srv (qs_block_by_number n);
  rn_batches : forall n count srv, 0 < n -> 1 < count <= B -> n + count <= top + 1 ->
    replies_read (batch_read n count) srv (qs_blocks n count);
  rn_dumps : forall hashs i q srv, Forall (served_hash top hdr) hashs -> blen hashs < 2 ^ 62 -> 0 <= i ->
    i * B < blen hashs -> dump_query B isCompress hashs isVerifySign i = Ok q ->
    replies_read (dump_read (part (blen hashs) i)) srv q;
  rn_large : forall n from to q srv, 0 < n <= top -> MAX_BLOCK_SIZE_WITHOUT_ADVANCE < mh_blockSize (hdr n) ->
    0 <= from < to -> to <= mh_blockSize (hdr n) -> wide MIN_RESPONSE_SIZE (mh_blockSize (hdr n)) (mkSegment from to 0) ->
    makeRequestForDumpBlock (mh_hash (hdr n)) from to = Ok q -> replies_read (dump_read 1) srv q;
}.
Hypothesis Hresponsive : responsive_net.

(** Hints from which the layer makes a list of servers. *)
Definition askable (hints : list bytes) : Prop := exists servers, net_servers hints = Ok servers /\ servers <> [].

#[local] Abbreviation getter_right := (getter_right top hdr dump_of).

(** ** Headers *)

Lemma push_blocks_live cur j blocks hs :
  mh_number <$> blocks = seqZ (cur + j) (blen blocks) -> 0 <= cur + j -> cur + j + blen blocks < 2 ^ 64 ->
  exists new, push_blocks cur j blocks hs = (hs ++ new, Ok tt) /\ length new = length blocks.
Proof.
  revert j hs. induction blocks as [|b blocks IH]; intros j hs Hn Hj Hb; cbn [push_blocks].
  { exists []. by rewrite app_nil_r. }
  rewrite blen_cons in *. pose proof (blen_nonneg blocks).
  rewrite seqZ_cons in Hn by lia. injection Hn as Hn1 Hn2.
  rewrite u64_small, Hn1, Z.eqb_refl by (unfold is_u64; lia).
  destruct (IH (j + 1) (hs ++ [(cur + j, b)])) as (new & -> & Hl); [|lia..|].
  - replace (cur + (j + 1)) with (Z.succ (cur + j)) by lia.
    replace (blen blocks) with (Z.pred (1 + blen blocks)) by lia. exact Hn2.
  - exists ((cur + j, b) :: new). rewrite <- app_assoc. split; [done|]. cbn. by rewrite Hl.
Qed.

(** An answer for the part [i] of a load that can be read. *)
Definition part_read (bn count i : Z) (a : bytes) : Prop :=
  i * B < count /\ if part count i =? 1 then header_read a else batch_read (bn + i * B) (part count i) a.

Lemma push_part_live bn count i a hs :
  0 <= bn -> bn + count < 2 ^ 63 -> 0 <= i -> part_read bn count i a ->
  exists hs', push_part B bn count i a hs = (hs', Ok tt) /\ (length hs < length hs')%nat.
Proof.
  intros Hb Hc Hi [Hic Ha]. pose proof Hbatch. unfold push_part.
  rewrite u64_small by (unfold is_u64; nia). rewrite in_part_eq in * by lia.
  set (n := Z.min B _) in *. destruct (Z.eqb_spec n 1) as [Hn|Hn]; cbn [negb].
  - destruct Ha as [b ->]. eexists. split; [done|]. rewrite length_app. cbn. lia.
  - destruct Ha as (bs & -> & Hbs). cbn [mbind res_bind].
    assert (blen bs = n) as Hl.
    { apply (f_equal length) in Hbs. rewrite length_fmap, length_seqZ in Hbs. unfold blen. lia. }
    rewrite Hl, Z.eqb_refl. cbn [CHECK mbind res_bind].
    destruct (push_blocks_live (bn + i * B) 0 bs hs) as (new & -> & Hnew); [|nia..|].
    + by rewrite Z.add_0_r, Hl.
    + eexists. split; [done|]. rewrite length_app. unfold blen in Hl. lia.
Qed.

Lemma push_parts_live bn count i answers hs :
  0 <= bn -> bn + count < 2 ^ 63 -> 0 <= i ->
  (forall j a, answers !! j = Some a -> part_read bn count (i + Z.of_nat j) a) ->
  exists hs', push_parts B bn count i answers hs = (hs', Ok tt) /\ (length hs + length answers <= length hs')%nat.
Proof.
  intros Hb Hc. revert i hs. induction answers as [|a answers IH]; intros i hs Hi Hall; cbn [push_parts].
  { exists hs. split; [done|]. cbn. lia. }
  unfold mbind'. destruct (push_part_live bn count i a hs) as (hs1 & -> & Hl1); [done..| |].
  { replace i with (i + Z.of_nat 0) by lia. by apply Hall. }
  destruct (IH (i + 1) hs1) as (hs' & -> & Hl); [lia| |].
  - intros j a' Hj. replace (i + 1 + Z.of_nat j) with (i + Z.of_nat (S j)) by lia. by apply Hall.
  - exists hs'. split; [done|]. cbn. lia.
Qed.

Lemma count_parts_ok n :
  0 < n < 2 ^ 62 -> exists c, count_parts B n = Ok c /\ 0 < c < 2 ^ 63 /\ forall i, 0 <= i < c -> i * B < n.
Proof.
  intros Hn. pose proof Hbatch. destruct (count_parts B n) as [c| | |] eqn:Hc;
    try (unfold count_parts in Hc; destruct (Z.eqb_spec B 0); [lia|done]).
  destruct (count_parts_spec B Hbatch _ _ Hc ltac:(lia)) as [Hc1 Hc2].
  exists c. split; [done|]. split; [done|]. intros i Hi. nia.
Qed.

(** The request for a part, and what is read in the answer. *)
Lemma header_query_read bn count i :
  0 < bn -> bn + count <= top + 1 -> bn + count < 2 ^ 63 -> 0 <= i -> i * B < count ->
  exists q, header_query B bn count i = Ok q /\ forall srv, replies_read (part_read bn count i) srv q.
Proof.
  intros Hb Hc Ht Hi Hic. pose proof Hbatch. unfold header_query, part_read.
  rewrite !u64_small by (unfold is_u64; nia). rewrite in_part_eq by lia. set (n := Z.min B _).
  assert (forall (P : bytes -> Prop) srv q, replies_read P srv q -> replies_read (fun a => i * B < count /\ P a) srv q) as Hand.
  { intros P srv q [Hex Hall]. split; [done|]. intros reply Hr. destruct (Hall reply Hr) as (a & -> & Ha). by exists a. }
  destruct (Z.eqb_spec n 1) as [Hn|Hn]; cbn [negb]; eexists; (split; [done|]); intros srv; apply Hand.
  - apply (rn_headers Hresponsive). nia.
  - apply (rn_batches Hresponsive); nia.
Qed.

Lemma load_headers_live bn last server s :
  0 < bn <= last -> last <= top -> last < 2 ^ 62 -> askable [server] ->
  is_ok (snd (load_block_headers maxAdvancedLoadBlocks B bn last server s)) = true.
Proof.
  intros Hb Htop Hl (servers & Hsrv & Hne). unfold load_block_headers, mbind', mlift, mput.
  unfold on_headers at 1. cbn [fst snd].
  rewrite (u64_small (last - bn + 1)) by (unfold is_u64; lia).
  set (count := Z.min _ _). assert (0 < count < 2 ^ 62) as Hcount by lia.
  assert (bn + count <= top + 1) as Hct by lia.
  destruct (count_parts_ok count Hcount) as (n & -> & Hn & Hin).
  rewrite (proj2 (Z.eqb_neq count 0)), (proj2 (Z.eqb_neq n 0)) by lia. cbn [negb andb CHECK].
  assert (forall i, 0 <= i < n -> exists q, header_query B bn count i = Ok q /\
    forall srv, replies_read (part_read bn count i) srv q) as Hq.
  { intros i Hi. apply header_query_read; try lia. by apply Hin. }
  destruct (on_net _ _) as [s1 r] eqn:Hr. apply on_net_inv in Hr as [Hs1 Hr]. cbn [fst snd] in Hs1, Hr.
  assert (is_ok r = true) as Hok.
  { pose proof (net_requests_live n (header_query B bn count) whole_response [server] s.2) as Hlive.
    rewrite Hr in Hlive. apply Hlive; [lia|].
    apply (responds_units _ servers); [lia|done..|]. intros i Hi. destruct (Hq i Hi) as (q & Hqi & Hrd).
    exists q. split; [done|]. intros srv _. destruct (Hrd srv) as [Hex Hall]. split; [done|].
    intros reply Hrep. destruct (Hall reply Hrep) as (response & -> & _). by exists response, (mkResponseParse response None). }
  destruct r as [answers| | |]; try done. clear Hok.
  pose proof (net_requests_run _ _ _ _ _ _ _ Hr) as Hrun.
  destruct (p2p_requests_answers _ _ _ _ _ _ Hrun) as [Hlen Hall]; [lia|].
  rewrite Hlen, Z.eqb_refl. cbn [CHECK]. unfold on_headers. rewrite Hs1. cbn [g_headers g_dumps fst].
  destruct (push_parts_live bn count 0 answers []) as (hs & -> & Hhs); [lia..| |].
  { intros j a Hj. destruct (Hall j a Hj) as (srv & q & response & parsed & Hqj & Hrep & [= <-] & _ & Hpr). cbn in Hpr. subst a.
    apply lookup_lt_Some in Hj. rewrite Z.add_0_l.
    destruct (Hq (Z.of_nat j)) as (q' & Hq' & Hrd); [unfold blen in Hlen; lia|].
    rewrite Hq' in Hqj. injection Hqj as <-. destruct (Hrd srv) as [_ Hrd']. by destruct (Hrd' _ Hrep) as (? & [= <-] & ?). }
  unfold mget. cbn [fst snd g_headers]. destruct hs as [|e hs]; [|done].
  exfalso. cbn in Hhs. unfold blen in Hlen. lia.
Qed.

(** The header, which is then in the cache. *)
Lemma getBlockHeader_live bn last server s :
  0 < bn <= last -> last <= top -> last < 2 ^ 62 -> askable [server] -> getter_right s.1 ->
  exists s', getBlockHeader maxAdvancedLoadBlocks B bn last server s = (s', Ok (hdr bn)) /\ getter_right s'.1 /\
    exists k, (k, hdr bn) ∈ g_headers s'.1.
Proof.
  intros Hb Htop Hl Hask Hg. destruct (getBlockHeader _ _ _ _ _ s) as [s' r] eqn:Hh.
  pose proof (getBlockHeader_right maxAdvancedLoadBlocks B isCompress isVerifySign fuel Hfits top hdr dump_of Hhonest
    bn last server s s' r Hb Htop Hl Hg Hh) as [Hg' Hr].
  exists s'. unfold getBlockHeader in Hh. destruct (find_header bn (g_headers s.1)) as [h0|] eqn:Hf.
  - injection Hh as <- <-. rewrite (Hr h0 eq_refl). split; [done|]. split; [done|].
    unfold find_header in Hf. destruct (find _ (g_headers s.1)) as [[k h]|] eqn:Hfind; [|done]. injection Hf as ->.
    apply find_some in Hfind as [Hin _]. exists k. rewrite <- (Hr h0 eq_refl). by apply list_elem_of_In.
  - pose proof (load_headers_live bn last server s Hb Htop Hl Hask) as Hlive. rewrite Hh in Hlive.
    destruct r as [h| | |]; try done. pose proof (Hr h eq_refl) as ->. split; [done|]. split; [done|].
    destruct (load_block_headers_spec _ B Hbatch _ _ _ _ _ _ Hh) as (_ & Hhd & _); [lia..|].
    exists bn. destruct (g_headers s'.1) as [|e l]; [done|]. injection Hhd as ->. by left.
Qed.

(** ** Dumps *)

(** A hash is the hash of one block. *)
Hypothesis Honce : forall j k, 0 < j <= top -> 0 < k <= top -> mh_hash (hdr j) = mh_hash (hdr k) -> j = k.

Lemma blocks_hashs_found h found l :
  mh_blockSize h <= MAX_BLOCK_SIZE_WITHOUT_ADVANCE -> (exists k, (k, h) ∈ l) ->
  (forall k h', (k, h') ∈ l -> mh_hash h' = mh_hash h -> h' = h) ->
  found = false -> blocks_hashs (mh_hash h) found l <> [].
Proof.
  intros Hsz [k Hk] Hsame ->. induction l as [|[k' h'] l IH]; [by apply elem_of_nil in Hk|]. cbn [blocks_hashs orb].
  case_bool_decide as Heq.
  - rewrite (Hsame k' h') by (done || by left). by rewrite (proj2 (Z.leb_le _ _)).
  - apply elem_of_cons in Hk as [[= -> ->]|Hk]; [done|]. apply IH; [done|]. intros k2 h2 Hin. apply (Hsame k2). by right.
Qed.

Lemma push_dumps_live hashs i blocks ds :
  (i + length blocks <= length hashs)%nat -> exists ds', push_dumps hashs i blocks ds = (ds', Ok tt).
Proof.
  revert i ds. induction blocks as [|b blocks IH]; intros i ds Hl; cbn [push_dumps]; [by eexists|]. cbn in Hl.
  destruct (lookup_lt_is_Some_2 hashs i) as [h ->]; [lia|]. apply IH. lia.
Qed.

Lemma push_dump_part_live hashs i a ds :
  0 <= i -> i * B < blen hashs -> blen hashs < 2 ^ 62 -> dumps_split (part (blen hashs) i) a ->
  exists ds', push_dump_part B isCompress fuel hashs i a ds = (ds', Ok tt).
Proof.
  intros Hi Hib Hl Ha. pose proof Hbatch. unfold push_dump_part. unfold dumps_split in Ha.
  rewrite in_part_eq in * by lia. set (n := Z.min B _) in *.
  rewrite (u64_small (i * B)) by (unfold is_u64; nia). destruct (Z.eqb_spec n 1) as [Hn|Hn].
  - destruct (lookup_lt_is_Some_2 hashs (Z.to_nat i)) as [h ->]; [unfold blen in *; nia|]. by eexists.
  - destruct (Ha Hn) as (bs & -> & Hbs). cbn [mbind res_bind]. rewrite Hbs, Z.eqb_refl. cbn [CHECK mbind res_bind].
    rewrite u64_small by (unfold is_u64; nia). rewrite (proj2 (Z.leb_le _ _)) by lia. cbn [CHECK mbind res_bind].
    apply push_dumps_live. unfold blen in *. nia.
Qed.

Lemma push_dump_parts_live hashs i0 responses ds :
  0 <= i0 -> blen hashs < 2 ^ 62 ->
  (forall j a, responses !! j = Some a -> (i0 + Z.of_nat j) * B < blen hashs /\
     dumps_split (part (blen hashs) (i0 + Z.of_nat j)) a) ->
  exists ds', push_dump_parts B isCompress fuel hashs i0 responses ds = (ds', Ok tt).
Proof.
  intros Hi Hl. revert i0 ds Hi. induction responses as [|a responses IH]; intros i0 ds Hi Hall; cbn [push_dump_parts]; [by eexists|].
  unfold mbind'. destruct (Hall O a eq_refl) as [Hb Ha]. rewrite Z.add_0_r in Hb, Ha.
  destruct (push_dump_part_live hashs i0 a ds Hi Hb Hl Ha) as [ds1 ->]. apply IH; [lia|].
  intros j a' Hj. replace (i0 + 1 + Z.of_nat j) with (i0 + Z.of_nat (S j)) by lia. by apply Hall.
Qed.

(** The request for the dumps of a part, and what is read in the answer. *)
Lemma dump_query_read hashs i :
  Forall (served_hash top hdr) hashs -> blen hashs < 2 ^ 62 -> 0 <= i -> i * B < blen hashs ->
  exists q, dump_query B isCompress hashs isVerifySign i = Ok q /\
    forall srv, replies_read (dump_read (part (blen hashs) i)) srv q.
Proof.
  intros Hsv Hl Hi Hib. pose proof Hbatch.
  assert (exists q, dump_query B isCompress hashs isVerifySign i = Ok q) as [q Hq].
  { unfold dump_query. rewrite u64_small by (unfold is_u64; nia).
    rewrite (proj2 (Z.ltb_lt _ _)) by lia. cbn [CHECK mbind res_bind]. rewrite in_part_eq by lia.
    destruct (Z.eqb_spec (Z.min B (blen hashs - i * B)) 1) as [Hn|Hn].
    - destruct (lookup_lt_is_Some_2 hashs (Z.to_nat i)) as [h ->]; [unfold blen in *; nia|]. by eexists.
    - set (n := Z.min B _). assert (forall m j f, (j + m <= length hashs)%nat -> exists r, hashes_text hashs j m f = Ok r) as Ht.
      { induction m as [|m IH]; intros j f Hm; cbn [hashes_text]; [by eexists|].
        destruct (lookup_lt_is_Some_2 hashs j) as [h ->]; [lia|]. cbn [opt_ub mbind res_bind].
        destruct (IH (S j) false) as [r ->]; [lia|]. by eexists. }
      destruct (Ht (Z.to_nat n) (Z.to_nat (i * B)) true) as [r ->]; [unfold blen in *; nia|]. by eexists. }
  exists q. split; [done|]. intros srv. by apply (rn_dumps Hresponsive hashs i q srv).
Qed.

Lemma load_dumps_live n hints s :
  0 < n <= top -> mh_blockSize (hdr n) <= MAX_BLOCK_SIZE_WITHOUT_ADVANCE -> askable hints ->
  getter_right s.1 -> (exists k, (k, hdr n) ∈ g_headers s.1) ->
  is_ok (snd (load_dumps B isCompress fuel (mh_hash (hdr n)) hints isVerifySign s)) = true.
Proof.
  intros Hn Hsz (servers & Hsrv & Hne) Hg Hin.
  pose proof (blocks_hashs_length (mh_hash (hdr n)) false (g_headers s.1)) as Hbl. pose proof (gr_length _ _ _ _ Hg) as Hlen.
  assert (Forall (served_hash top hdr) (blocks_hashs (mh_hash (hdr n)) false (g_headers s.1))) as Hsv.
  { apply blocks_hashs_served. intros k h Hk. by apply (gr_headers _ _ _ _ Hg). }
  assert (blocks_hashs (mh_hash (hdr n)) false (g_headers s.1) <> []) as Hne'.
  { apply blocks_hashs_found; [done|done| |done]. intros k h Hk Heq.
    destruct (gr_headers _ _ _ _ Hg k h Hk) as [Hkt ->]. by rewrite (Honce k n Hkt Hn Heq). }
  unfold load_dumps, mbind', mlift, mput, mget. unfold on_dumps at 1. cbn [fst snd g_headers].
  generalize dependent (blocks_hashs (mh_hash (hdr n)) false (g_headers s.1)). intros hashs Hbl Hsv Hne'.
  rewrite is_empty_false by done. cbn [negb CHECK].
  assert (0 < blen hashs < 2 ^ 62) as Hpos
    by (destruct hashs; [done|rewrite blen_cons in *; pose proof (blen_nonneg hashs); lia]).
  destruct (count_parts_ok (blen hashs) Hpos) as (c & -> & Hc & Hci).
  assert (forall i, 0 <= i < c -> exists q, dump_query B isCompress hashs isVerifySign i = Ok q /\
    forall srv, replies_read (dump_read (part (blen hashs) i)) srv q) as Hq.
  { intros i Hi. apply dump_query_read; [done|lia..|by apply Hci]. }
  destruct (on_net _ _) as [s1 r] eqn:Hr. apply on_net_inv in Hr as [Hs1 Hr]. cbn [fst snd] in Hs1, Hr.
  assert (is_ok r = true) as Hok.
  { pose proof (net_requests_live c (dump_query B isCompress hashs isVerifySign) parseDumpBlockResponse hints
      s.2) as Hlive. rewrite Hr in Hlive. apply Hlive; [lia|].
    apply (responds_units _ servers); [lia|done..|]. intros i Hi. destruct (Hq i Hi) as (q & Hqi & Hrd).
    exists q. split; [done|]. intros srv _. destruct (Hrd srv) as [Hex Hall]. split; [done|].
    intros reply Hrep. destruct (Hall reply Hrep) as (response & -> & parsed & Hp & He & _). by exists response, parsed. }
  destruct r as [responses| | |]; try done. clear Hok.
  pose proof (net_requests_run _ _ _ _ _ _ _ Hr) as Hrun.
  destruct (p2p_requests_answers _ _ _ _ _ _ Hrun) as [Hrl Hall]; [lia|].
  rewrite Hrl, Z.eqb_refl. cbn [CHECK]. unfold on_dumps. rewrite Hs1. cbn [g_headers g_dumps fst snd].
  destruct (push_dump_parts_live hashs 0 responses ∅) as [ds ->]; [lia..| |].
  { intros j a Hj. destruct (Hall j a Hj) as (srv & q & response & parsed & Hqj & Hrep & Hp & _ & <-).
    apply lookup_lt_Some in Hj. assert (0 <= Z.of_nat j < c) as Hjc by (unfold blen in Hrl; lia).
    rewrite Z.add_0_l. split; [by apply Hci|]. destruct (Hq _ Hjc) as (q' & Hq' & Hrd).
    rewrite Hq' in Hqj. injection Hqj as <-. destruct (Hrd srv) as [_ Hrd'].
    destruct (Hrd' _ Hrep) as (? & [= <-] & parsed' & Hp' & _ & Hs). rewrite Hp in Hp'. by injection Hp' as <-. }
  unfold dump_at. cbn [fst snd g_dumps]. by destruct (ds !! _).
Qed.

Lemma getBlockDump_live n hints s :
  0 < n <= top -> askable hints -> getter_right s.1 -> (exists k, (k, hdr n) ∈ g_headers s.1) ->
  exists s', Getter_getBlockDump B isCompress fuel (mh_hash (hdr n)) (mh_blockSize (hdr n)) hints isVerifySign s =
    (s', Ok (dump_of (mh_hash (hdr n)))) /\ getter_right s'.1.
Proof.
  intros Hn Hask Hg Hin. destruct (Getter_getBlockDump _ _ _ _ _ _ _ s) as [s' r] eqn:Hd.
  pose proof (getBlockDump_right maxAdvancedLoadBlocks B isCompress isVerifySign fuel Hfits top hdr dump_of Hhonest
    n hints s s' r Hn Hg Hd) as [Hg' Hr]. exists s'.
  assert (is_ok r = true) as Hok; [|destruct r as [d| | |]; try done; by rewrite (Hr d eq_refl)].
  unfold Getter_getBlockDump in Hd. destruct (g_dumps s.1 !! mh_hash (hdr n)) as [d|]; [by injection Hd as <- <-|].
  destruct (Z.ltb_spec MAX_BLOCK_SIZE_WITHOUT_ADVANCE (mh_blockSize (hdr n))) as [Hbig|Hsmall].
  2: { pose proof (load_dumps_live n hints s Hn Hsmall Hask Hg Hin) as Hlive. by rewrite Hd in Hlive. }
  apply on_net_inv in Hd as [_ Hd]. destruct (hn_large _ _ _ _ _ _ _ Hhonest n Hn) as [|(Hsig & Hsz & Hlen & Hh)]; [lia|].
  unfold getBlockDumpWithoutAdvancedLoad in Hd. rewrite Hsig in Hd. cbn [negb] in Hd.
  pose proof (net_request_live (mh_blockSize (hdr n)) true (makeRequestForDumpBlock (mh_hash (hdr n)))
    parseDumpBlockResponse hints s.2) as Hlive. rewrite Hd in Hlive. apply Hlive; [lia|].
  destruct Hask as (servers & Hsrv & Hne).
  assert (0 < mh_blockSize (hdr n) < 2 ^ 63) as Hpos by (unfold MAX_BLOCK_SIZE_WITHOUT_ADVANCE in Hbig; lia).
  apply (responds_ranges _ servers); [done..|]. intros from to Hf Ht Hw. eexists. split; [reflexivity|]. intros srv _.
  destruct (rn_large Hresponsive n from to _ srv Hn Hbig Hf Ht Hw eq_refl) as [Hex Hall]. split; [done|].
  intros reply Hrep. destruct (Hall reply Hrep) as (response & -> & parsed & Hp & He & _).
  exists response, parsed. do 3 (split; [done|]). intros _.
  rewrite (Hh srv from to _ response parsed Hf Ht Hw eq_refl Hrep Hp He). unfold slice, blen in *.
  rewrite length_take, length_drop. lia.
Qed.

(** ** The source *)

Lemma load_one_live cur last servers server0 g w :
  0 < cur <= last -> last <= top -> last < 2 ^ 62 -> head servers = Some server0 -> askable [server0] ->
  askable servers -> getter_right g ->
  exists s', load_one maxAdvancedLoadBlocks B isCompress isVerifySign fuel cur last servers (g, w) =
    (s', Ok (mkAdvancedBlock (hdr cur) BlockInfo_default (dump_of (mh_hash (hdr cur))) None)) /\ getter_right s'.1.
Proof.
  intros Hc Htop Hl Hhd Ha0 Ha Hg. unfold load_one. rewrite Hhd.
  destruct (getBlockHeader_live cur last server0 (g, w) Hc Htop Hl Ha0 Hg) as (s1 & -> & Hg1 & Hin).
  destruct (getBlockDump_live cur servers s1) as (s2 & -> & Hg2); [lia|done..|]. by exists s2.
Qed.

Section blocks.
Context `{Support} `{Crypto} `{Fs}.
Variables (isInitialized : bool) (folderPath : bytes) (saveAllTx isValidate : bool) (base : Z).

#[local] Abbreviation process := (Network_process isInitialized maxAdvancedLoadBlocks B isCompress folderPath
  saveAllTx isValidate isVerifySign fuel base).

(** What was loaded for a block of the chain. *)
Definition loaded (k : Z) : AdvancedBlock := mkAdvancedBlock (hdr k) BlockInfo_default (dump_of (mh_hash (hdr k))) None.

(** The blocks can be read: they have the announced size, they parse, and their
    signatures are good when these are checked. *)
Definition readable : Prop := forall k, 0 < k <= top -> exists bi d,
  block_checked isInitialized folderPath saveAllTx isValidate isVerifySign base (hdr k) (dump_of (mh_hash (hdr k))) bi d.
Hypothesis Hreadable : readable.

Lemma finish_loaded k :
  0 < k <= top -> exists bi d,
  finish_advanced isInitialized folderPath saveAllTx isValidate isVerifySign base (loaded k) =
    Ok (mkAdvancedBlock (hdr k) bi d None).
Proof.
  intros Hk. destruct (Hreadable k Hk) as (bi & d & bh0 & Hs & Hlen & Hr). cbv zeta in Hr. exists bi, d.
  unfold finish_advanced, check_advanced, loaded. cbn [ab_exception ab_dump ab_bi ab_header].
  destruct isVerifySign.
  - destruct Hs as (sb & -> & -> & ->). cbn [mbind res_bind]. rewrite Hlen, Z.eqb_refl. cbn [CHECK mbind res_bind bi_header bi_txs].
    change (bi_txs BlockInfo_default) with (@nil TransactionInfo). by rewrite Hr.
  - destruct Hs as [-> ->]. cbn [mbind res_bind]. rewrite Hlen, Z.eqb_refl. cbn [CHECK mbind res_bind bi_header bi_txs].
    change (bi_txs BlockInfo_default) with (@nil TransactionInfo). by rewrite Hr.
Qed.

(** A map of loads of blocks of the chain, none of which failed. *)
Definition all_loaded (m : gmap Z AdvancedBlock) : Prop :=
  forall k a, m !! k = Some a -> exists j, 0 < j <= top /\ a = loaded j.

Section load.
Variables (last : Z) (servers : list bytes) (server0 : bytes).
Hypothesis Hlast : 0 <= last <= top.
Hypothesis Hlast62 : last < 2 ^ 62.
Hypothesis Hhead : head servers = Some server0.
Hypothesis Hask0 : askable [server0].
Hypothesis Hask : askable servers.

Lemma load_advanced_live n cur acc g w :
  (n <> O -> 0 < cur /\ cur + Z.of_nat n <= last + 1) -> getter_right g -> all_loaded acc ->
  exists s' m, load_advanced maxAdvancedLoadBlocks B isCompress isVerifySign fuel n cur last servers acc (g, w) = (s', Ok m) /\
    getter_right s'.1 /\ all_loaded m /\
    forall k, is_Some (acc !! k) \/ cur <= k < cur + Z.of_nat n -> is_Some (m !! k).
Proof.
  revert cur acc g w. induction n as [|n IH]; intros cur acc g w Hc Hg Hacc; cbn [load_advanced].
  { exists (g, w), acc. do 3 (split; [done|]). intros k [?|?]; [done|lia]. }
  destruct Hc as [Hc0 Hc]; [done|]. unfold mbind'.
  destruct (load_one_live cur last servers server0 g w) as ([g1 w1] & -> & Hg1); [lia..|done|done|done|done|].
  destruct (IH (u64 (cur + 1)) (<[cur := loaded cur]> acc) g1 w1) as (s' & m & Hl & Hg' & Hm & Hk); [|done| |].
  - intros Hn. rewrite u64_small by (unfold is_u64; lia). lia.
  - intros k a. rewrite lookup_insert_Some. intros [[<- <-]|[_ Ha]]; [|by apply (Hacc k)].
    exists cur. split; [lia|done].
  - exists s', m. split; [exact Hl|]. split; [done|]. split; [done|]. rewrite u64_small in Hk by (unfold is_u64; lia).
    intros k Hor. apply Hk. destruct (decide (cur = k)) as [->|Hne]; [left; rewrite lookup_insert_eq; by eexists|].
    rewrite lookup_insert_ne by done. destruct Hor as [?|?]; [by left|right; lia].
Qed.

Lemma finish_all_live l :
  (forall k a, (k, a) ∈ l -> exists j, 0 < j <= top /\ a = loaded j) ->
  exists l', finish_all isInitialized folderPath saveAllTx isValidate isVerifySign base l = Ok l' /\ l'.*1 = l.*1 /\
    forall k a, (k, a) ∈ l' -> ab_exception a = None.
Proof.
  induction l as [|[k a] l IH]; intros Hl; cbn [finish_all].
  { exists []. split; [done|]. split; [done|]. by intros k a ?%elem_of_nil. }
  destruct (Hl k a ltac:(by left)) as (j & Hj & ->). destruct (finish_loaded j Hj) as (bi & d & ->). cbn [mbind res_bind].
  destruct IH as (l' & -> & Hk & Hx); [intros k' a' Hin; apply (Hl k'); by right|]. cbn [mbind res_bind].
  eexists. split; [reflexivity|]. split; [cbn; by rewrite Hk|].
  intros k' a' [[= -> ->]|Hin]%elem_of_cons; [done|by eapply Hx].
Qed.

(** No entry of the source is a failure. *)
Definition no_failure (ns : NetSource) : Prop :=
  forall k a, ns_advancedBlocks ns !! k = Some a -> ab_exception a = None.

Lemma load_ahead_live ns w :
  honest_inv isVerifySign top hdr dump_of isInitialized folderPath saveAllTx isValidate base last servers ns ->
  ns_nextBlockToRead ns <= last ->
  exists s', load_ahead isInitialized maxAdvancedLoadBlocks B isCompress folderPath saveAllTx isValidate isVerifySign
      fuel base (ns, w) = (s', Ok tt) /\ no_failure s'.1 /\ ns_nextBlockToRead s'.1 = ns_nextBlockToRead ns /\
    is_Some (ns_advancedBlocks s'.1 !! ns_nextBlockToRead ns).
Proof.
  intros [Hg Hnext Hl0 Hsrv _] Hle. unfold load_ahead, mbind', mlift, set_advanced. cbn [fst snd].
  rewrite Hl0, Hsrv. cbn [ns_nextBlockToRead ns_getterBlocks ns_servers ns_lastBlockInBlockchain].
  rewrite is_empty_false by (by intros ->). cbn [negb CHECK]. unfold on_getter.
  cbn [ns_nextBlockToRead ns_getterBlocks ns_servers ns_lastBlockInBlockchain ns_advancedBlocks].
  rewrite u64_small by (unfold is_u64; lia). set (n := Z.to_nat _).
  assert ((0 < n)%nat /\ ns_nextBlockToRead ns + Z.of_nat n <= last + 1) as [Hn Hnl]
    by (unfold n, COUNT_ADVANCED_BLOCKS; lia).
  destruct (load_advanced_live n (ns_nextBlockToRead ns) ∅ (ns_getterBlocks ns) w) as ([g1 w1] & m & -> & _ & Hm & Hk);
    [lia|done|by intros k a|].
  cbn [fst snd]. destruct (finish_all_live (map_to_list m)) as (l & -> & Hlk & Hx).
  { intros k a Hin%elem_of_map_to_list. by apply (Hm k). }
  eexists. split; [reflexivity|]. cbn [fst ns_advancedBlocks ns_nextBlockToRead]. split; [|split; [done|]].
  - intros k a Ha. apply elem_of_list_to_map_2 in Ha. by eapply Hx.
  - destruct (Hk (ns_nextBlockToRead ns)) as [a Ha]; [right; lia|]. apply elem_of_map_to_list in Ha.
    apply (list_elem_of_fmap_2 fst) in Ha. rewrite <- Hlk in Ha. cbn [fst] in Ha.
    apply not_eq_None_Some. intros Hno. apply not_elem_of_list_to_map_2 in Hno. done.
Qed.

(** A call below the last block gives a block. *)
Lemma process_live ns w :
  honest_inv isVerifySign top hdr dump_of isInitialized folderPath saveAllTx isValidate base last servers ns ->
  no_failure ns -> ns_nextBlockToRead ns <= last ->
  exists s' b, process (ns, w) = (s', Ok (Some b)) /\ no_failure s'.1.
Proof.
  intros Hi Hx Hle.
  assert (forall ns1 w1 a, no_failure ns1 -> ab_exception a = None ->
    exists (s' : NetSource * W) b, (let* r := processAdvanced a in mret' (Some r))%meth (ns1, w1) = (s', Ok (Some b)) /\ no_failure s'.1)
    as Hgive.
  { intros ns1 w1 a Hx1 Ha. unfold mbind', processAdvanced. rewrite Ha. by eexists _, _. }
  unfold Network_process. cbn [fst snd]. rewrite (ni_last _ _ _ _ _ _ _ _ _ _ _ Hi).
  rewrite (proj2 (Z.leb_le _ _)) by done. cbn [negb].
  destruct (ns_advancedBlocks ns !! ns_nextBlockToRead ns) as [a|] eqn:Ha; [by apply Hgive; [|eapply Hx]|].
  unfold mbind' at 1. destruct (load_ahead_live ns w Hi Hle) as ([ns1 w1] & -> & Hx1 & Hnx & [a Ha1]).
  cbn [fst] in *. unfold mbind' at 1, mget. cbn [fst]. rewrite Hnx, Ha1. apply Hgive; [done|by eapply Hx1].
Qed.

End load.

End blocks.

End live.
