(* ===== verification/FileSource.v ===== *)
(** * BlockSource/FileBlockSource.cpp and utils/FileSystem.cpp: blocks from files

    The source that reads block files: it goes through the [.blk] files of a
    folder in the order of their names, remembers how far each was read, and
    hands out one block at a time.  The disk is a map from paths to contents;
    what the directory lists is given with it. *)
From S2P Require Import Prelude Text External Ordered BlockInfo BlockchainUtils BlockchainRead LevelDb.
#[local] Open Scope Z_scope.

(** ** utils/FileSystem.cpp *)

Section filesystem.
Context `{Fs}.

(** What the disk holds, and the paths a folder lists, in any order. *)
Record Disk := mkDisk {
  d_files : gmap bytes bytes;
  d_listing : bytes -> list bytes;
}.

(* src: utils/FileSystem.cpp:20-22 CroppedFileName::CroppedFileName *)
Definition CroppedFileName (name : bytes) : bytes := fs_filename name.

(* src: utils/FileSystem.cpp:40-43 getBasename *)
Definition getBasename (path : bytes) : bytes := fs_filename path.

(* src: utils/FileSystem.cpp:45-47 getFullPath *)
Definition getFullPath (fileName folder : bytes) : bytes := fs_join folder fileName.

(** [fs::file_size]: throws for a missing file. *)
Definition file_size (disk : Disk) (p : bytes) : res Z :=
  match d_files disk !! p with
  | Some c => Ok (blen c)
  | None => Throw (ExcStd (str "filesystem error"))
  end.

(** The names, in the order of [std::set]. *)
(* src: utils/FileSystem.cpp:50-56 getNextFile, files *)
Definition block_files (disk : Disk) (folder : bytes) : list bytes :=
  oset_of_list (List.filter (contains (str ".blk"))
    ((fun p => CroppedFileName (fs_filename p)) <$> d_listing disk folder)).

(* src: utils/FileSystem.cpp:58-75 getNextFile, for *)
Fixpoint next_file (disk : Disk) (processedFiles : gmap bytes FileInfo) (folder : bytes)
    (files : list bytes) : res FileInfo :=
  match files with
  | [] => Ok FileInfo_default
  | file :: files =>
      let p := fs_join folder file in
      match processedFiles !! file with
      | None => Ok (mkFileInfo (mkFilePosition 0 p))
      | Some fileInfo =>
          fsize ← file_size disk p;
          if fp_pos (fi_filePos fileInfo) <? fsize then Ok fileInfo
          else next_file disk processedFiles folder files
      end
  end.

(* src: utils/FileSystem.cpp:49-76 getNextFile *)
Definition getNextFile (disk : Disk) (processedFiles : gmap bytes FileInfo) (folder : bytes) : res FileInfo :=
  next_file disk processedFiles folder (block_files disk folder).

(* src: utils/FileSystem.cpp:102-110 saveToFile *)
Definition saveToFile (folder fileName data : bytes) (disk : Disk) : Disk :=
  mkDisk (<[getFullPath fileName folder := data]> (d_files disk)) (d_listing disk).

(* src: utils/FileSystem.cpp:112-118 removeFile *)
Definition removeFile (folder fileName : bytes) (disk : Disk) : Disk :=
  mkDisk (delete (getFullPath fileName folder) (d_files disk)) (d_listing disk).

(** A file that cannot be opened reads as empty. *)
(* src: utils/FileSystem.cpp:120-126 loadFile *)
Definition loadFile (folder fileName : bytes) (disk : Disk) : bytes :=
  default [] (d_files disk !! getFullPath fileName folder).

(** The files of a folder, without the folder's path: folders in it are not
    entered.  [fs_absolute] is [fs::absolute], [is_directory] the folders. *)
(* src: utils/FileSystem.cpp:78-100 getAllFilesRelativeInDir *)
Definition getAllFilesRelativeInDir (fs_absolute : bytes -> bytes) (is_directory : bytes -> bool) (disk : Disk)
    (dirPath : bytes) : res (list bytes) :=
  if is_directory dirPath then
    foldM (fun listOfFiles p =>
      if is_directory p then Ok listOfFiles
      else
        r ← substr (fs_absolute p) (blen (fs_absolute dirPath)) u64_max;
        Ok (listOfFiles ++ [r])) [] (d_listing disk dirPath)
  else Ok [].

(* src: utils/FileSystem.cpp:128-130 isFileExist *)
Definition isFileExist (file : bytes) (disk : Disk) : bool := bool_decide (is_Some (d_files disk !! file)).

End filesystem.

(** ** The source *)

(** [fb_file] is the path the stream is open on. *)
(* src: BlockSource/FileBlockSource.h:40-50 FileBlockSource *)
Record FileSource := mkFileSource {
  fb_allFiles : gmap bytes FileInfo;
  fb_currPos : Z;
  fb_file : option bytes;
  fb_fileName : bytes;
}.

(* src: BlockSource/FileBlockSource.cpp:13-17 FileBlockSource::FileBlockSource *)
Definition FileBlockSource : FileSource := mkFileSource ∅ 0 None [].

(* src: BlockchainRead.cpp:30-34 openFile *)
Definition openFile (disk : Disk) (fileName : bytes) : res bytes :=
  _ ← CHECK (negb (is_empty fileName)) (str "Empty file name");
  _ ← CHECK (bool_decide (is_Some (d_files disk !! fileName))) (str "File " ++ fileName ++ str " not opened");
  Ok fileName.

Section source.
Context `{Support} `{Crypto} `{Rapidjson} `{Fs}.
Variables (isInitialized : bool) (base : Z) (folderPath : bytes) (isValidate : bool).

(* src: BlockSource/FileBlockSource.cpp:19-21 FileBlockSource::initialize *)
Definition File_initialize {D} `{Kv D} (leveldb : D) (s : FileSource) : res FileSource :=
  allFiles ← getAllFiles leveldb;
  Ok (mkFileSource allFiles (fb_currPos s) (fb_file s) (fb_fileName s)).

(* src: BlockSource/FileBlockSource.cpp:23-25 FileBlockSource::doProcess *)
Definition File_doProcess (countBlocks : Z) : bool * Z := (true, 0).

(* src: BlockSource/FileBlockSource.cpp:27-29 FileBlockSource::knownBlock *)
Definition File_knownBlock : Z := 0.

(** Reading from a stream: one that is not open has position -1, which is also
    its size, and no position can be sought in it. *)
Definition read_stream (disk : Disk) (file : option bytes) (currPos : Z) (bi : BlockInfo) (dump : bytes)
    (isValidate : bool) : res (Z * BlockInfo * bytes) :=
  match file with
  | Some name =>
      readNextBlockInfo_file isInitialized base (default [] (d_files disk !! name)) currPos bi dump
        isValidate false 0 0
  | None =>
      if u64_max - currPos <? BLOCK_HEADER_SIZE then Ok (currPos, bi, dump)
      else throwErr (str "Incorrect seek operations")
  end.

(** Every transaction gets the block's file. *)
Definition in_file (fileName : bytes) (bi : BlockInfo) : BlockInfo :=
  mkBlockInfo (set_bh_filePos (mkFilePosition (fp_pos (bh_filePos (bi_header bi))) fileName) (bi_header bi))
    ((fun tx => set_ti_filePos (mkFilePosition (fp_pos (ti_filePos tx)) fileName) tx) <$> bi_txs bi).

(** Opening the next file: [false] when there is none.  The name is set before
    the file is opened. *)
(* src: BlockSource/FileBlockSource.cpp:32-41 FileBlockSource::process, getNextFile *)
Definition open_next (disk : Disk) : meth FileSource bool := fun s =>
  if negb (is_empty (fb_fileName s)) then (s, Ok true)
  else
    match getNextFile disk (fb_allFiles s) folderPath with
    | Ok fi =>
        let s := mkFileSource (fb_allFiles s) (fb_currPos s) (fb_file s) (fp_fileName (fi_filePos fi)) in
        if is_empty (fb_fileName s) then (s, Ok false)
        else
          match openFile disk (fb_fileName s) with
          | Ok f => (mkFileSource (fb_allFiles s) (fp_pos (fi_filePos fi)) (Some f) (fb_fileName s), Ok true)
          | Throw e => (s, Throw e)
          | UB => (s, UB)
          | OutOfFuel => (s, OutOfFuel)
          end
    | Throw e => (s, Throw e)
    | UB => (s, UB)
    | OutOfFuel => (s, OutOfFuel)
    end.

(** [None] for [false]. *)
(* src: BlockSource/FileBlockSource.cpp:42-58 FileBlockSource::process, readNextBlockInfo *)
Definition read_block (disk : Disk) (bi : BlockInfo) (dump : bytes) : meth FileSource (option (BlockInfo * bytes)) :=
  fun s =>
  match read_stream disk (fb_file s) (fb_currPos s) bi dump isValidate with
  | Ok (nextCurrPos, bi, dump) =>
      if fb_currPos s =? nextCurrPos
      then (mkFileSource (fb_allFiles s) (fb_currPos s) None [], Ok None)
      else
        let fileName := fb_fileName s in
        (mkFileSource (<[CroppedFileName fileName := mkFileInfo (mkFilePosition nextCurrPos fileName)]>
                         (fb_allFiles s)) nextCurrPos (fb_file s) fileName,
         Ok (Some (in_file fileName bi, dump)))
  | Throw e => (s, Throw e)
  | UB => (s, UB)
  | OutOfFuel => (s, OutOfFuel)
  end.

(* src: BlockSource/FileBlockSource.cpp:31-59 FileBlockSource::process *)
Definition File_process (disk : Disk) (bi : BlockInfo) (dump : bytes)
    : meth FileSource (option (BlockInfo * bytes)) :=
  (let* opened := open_next disk in
   if opened : bool then read_block disk bi dump else mret' None)%meth.

(* src: BlockSource/FileBlockSource.cpp:61-73 FileBlockSource::getExistingBlockS *)
Definition File_getExistingBlockS (disk : Disk) (bh : BlockHeader) (bi : BlockInfo) (dump : bytes)
    : res (BlockInfo * bytes) :=
  let fileName := fp_fileName (bh_filePos bh) in
  _ ← CHECK (negb (is_empty fileName)) (str "Incorrect file name");
  file ← openFile disk fileName;
  '(nextCurrPos, bi, dump) ← read_stream disk (Some file) (fp_pos (bh_filePos bh)) bi dump isValidate;
  _ ← CHECK (negb (nextCurrPos =? fp_pos (bh_filePos bh))) (str "File incorrect");
  let bi := in_file fileName bi in
  txs ← (match bi_txs bi with [] => Ok [] | _ =>
           number ← opt_value (bh_blockNumber bh); Ok (set_ti_blockNumber number <$> bi_txs bi) end);
  Ok (mkBlockInfo (set_bh_blockNumber (bh_blockNumber bh) (bi_header bi)) txs, dump).

End source.
