(* ===== verification/FileSourceFacts.v ===== *)
(** * Blocks from files: facts

    A block read from its place in a file is the block the same bytes parse to
    in memory; a source reads back the blocks that were appended to its file,
    in order, and leaves the file marked as read. *)
From S2P Require Import Prelude Text External Ordered Address BlockInfo BlockchainUtils BlockchainRead.
From S2P Require Import BlockchainReadFacts LevelDb FileSource.
#[local] Open Scope Z_scope.

(** A block as [saveBlockToFileBinary] appends it. *)
Definition frame (d : bytes) : bytes := le_bytes 8 (blen d) ++ d.

Lemma saveBlockToFileBinary_frame file d : saveBlockToFileBinary file d = (file ++ frame d, blen file).
Proof. done. Qed.

Lemma blen_frame d : blen (frame d) = 8 + blen d.
Proof. unfold frame. rewrite blen_app. unfold blen at 1. by rewrite length_le_bytes. Qed.

Lemma file_read_app pre mid post n :
  blen mid = n -> file_read (pre ++ mid ++ post) (blen pre) n = mid.
Proof.
  intros <-. pose proof (blen_nonneg pre). pose proof (blen_nonneg mid). pose proof (blen_nonneg post).
  rewrite file_read_within by (rewrite ?blen_app; lia).
  assert (forall (l : bytes), Z.to_nat (blen l) = length l) as Hn by (intros l; unfold blen; lia).
  rewrite !Hn, drop_app_length. by rewrite take_app_length.
Qed.

Lemma take_frame d post : 80 <= blen d -> take 88 (frame d ++ post) = le_bytes 8 (blen d) ++ take 80 d.
Proof.
  intros Hd. unfold frame. rewrite <- app_assoc, take_app.
  rewrite (take_ge (le_bytes 8 _)) by (rewrite length_le_bytes; lia). f_equal.
  rewrite length_le_bytes, take_app_le by (unfold blen in Hd; lia). done.
Qed.

Section equivalence.
Context `{Support} `{Crypto} `{Rapidjson}.
Variables (isInitialized : bool).

(** Reading the fields does not depend on where they lie: in the header of a
    file record they are eight bytes further. *)
Lemma check_room_small base cur n e :
  0 <= base -> base + e < 2 ^ 64 -> cur + n <= e -> check_room base cur n e = Ok tt.
Proof.
  intros Hb He Hc. unfold check_room. destruct (Z.leb_spec (2 ^ 64) (base + cur + n)); [lia|].
  by rewrite (proj2 (Z.leb_le _ _)).
Qed.

Lemma load_prefix pre d k cur n :
  0 <= cur -> 0 <= n -> cur + n <= Z.of_nat k -> Z.of_nat k <= blen d ->
  load (pre ++ take k d) (blen pre + cur) n = load d cur n.
Proof.
  intros Hc Hn Hk Hd. unfold load. rewrite blen_app. pose proof (blen_nonneg pre).
  assert (blen (take k d) = Z.of_nat k) as Hl by (unfold blen in *; rewrite length_take; lia).
  rewrite Hl, !(proj2 (Z.ltb_ge _ _)) by lia. cbn [orb]. f_equal.
  replace (Z.to_nat (blen pre + cur)) with (length pre + Z.to_nat cur)%nat by (unfold blen; lia).
  rewrite <- drop_drop, drop_app_length. rewrite <- (take_drop k d) at 2.
  rewrite drop_app_le by (unfold blen in *; rewrite length_take; lia).
  rewrite take_app_le; [done|]. rewrite length_drop, length_take. unfold blen in *. lia.
Qed.

Lemma header_fields_file base d bi :
  0 <= base -> base + blen d + 8 < 2 ^ 64 -> 80 <= blen d ->
  readBlockHeaderWithoutSize base (le_bytes 8 (blen d) ++ take 80 d) 8 88 bi
  = readBlockHeaderWithoutSize base d 0 (blen d) bi.
Proof.
  intros Hb Hbd Hd. unfold readBlockHeaderWithoutSize.
  assert (blen (le_bytes 8 (blen d)) = 8) as H8 by (unfold blen; by rewrite length_le_bytes).
  pose proof (fun cur n Hc Hn Hk => load_prefix (le_bytes 8 (blen d)) d 80 cur n Hc Hn Hk ltac:(lia)) as Hl.
  rewrite H8 in Hl.
  repeat (rewrite !check_room_small by lia; cbn [mbind res_bind]).
  set (l := _ ++ _) in *.
  assert (load l 8 8 = load d 0 8) as -> by (apply (Hl 0); lia).
  assert (load l (8 + 8) 8 = load d (0 + 8) 8) as -> by (apply (Hl 8); lia).
  assert (load l (8 + 8 + 8) 32 = load d (0 + 8 + 8) 32) as -> by (apply (Hl 16); lia).
  assert (load l (8 + 8 + 8 + 32) 32 = load d (0 + 8 + 8 + 32) 32) as -> by (apply (Hl 48); lia). done.
Qed.

(** The header's size, place and end do not matter to the transactions. *)
Definition set_place (size pos : Z) (b : BlockHeader) : BlockHeader :=
  set_bh_filePos (mkFilePosition pos (fp_fileName (bh_filePos b))) (set_bh_blockSize size b).

Lemma readBlockTxs_place base d pos size p bi sa bt ct v :
  readBlockTxs base d isInitialized pos (mkBlockInfo (set_place size p (bi_header bi)) (bi_txs bi)) sa bt ct v
  = (b ← readBlockTxs base d isInitialized pos bi sa bt ct v;
     Ok (mkBlockInfo (set_place size p (bi_header b)) (bi_txs b))).
Proof.
  unfold readBlockTxs. cbn [bi_header bi_txs].
  destruct (get_double_sha256 isInitialized d) as [h| | |]; [|done..]. cbn [mbind res_bind].
  destruct (readBlockTxs_loop _ _ _ _ _ _ _ _ _ _ _ _ _ _ _) as [txs| | |]; [|done..]. cbn [mbind res_bind].
  destruct (ct =? 0); (destruct txs as [|tx txs]; [done|]);
    (destruct (Address_eq _ _) as [eq| | |]; [|done..]); cbn [mbind res_bind];
    by destruct (eq && _).
Qed.

Lemma header_place base d b e size p bh :
  readBlockHeaderWithoutSize base d b e (set_place size p bh)
  = (h ← readBlockHeaderWithoutSize base d b e bh; Ok (set_place size p h)).
Proof.
  unfold readBlockHeaderWithoutSize.
  repeat match goal with
  | |- (check_room ?a ?b ?c ?e ≫= _) = _ => destruct (check_room a b c e) as [[]| | |]; [|done..]; cbn [mbind res_bind]
  | |- (load ?a ?b ?c ≫= _) = _ => destruct (load a b c) as [?| | |]; [|done..]; cbn [mbind res_bind]
  end; done.
Qed.

(** A block in a file is the block its bytes are in memory. *)
Lemma readNextBlockInfo_file_at base pre d post bi dump0 v sa bt ct :
  0 <= base -> base + blen d + 8 < 2 ^ 64 -> 80 <= blen d ->
  blen (pre ++ frame d ++ post) < 2 ^ 62 ->
  readNextBlockInfo_file isInitialized base (pre ++ frame d ++ post) (blen pre) bi dump0 v sa bt ct
  = (b ← readNextBlockInfo base d isInitialized (blen pre) bi v sa bt ct;
     Ok (blen pre + blen (frame d), b, d)).
Proof.
  intros Hb Hbd Hd Hl. rewrite !blen_app in Hl.
  pose proof (blen_nonneg pre). pose proof (blen_nonneg post). rewrite blen_frame in Hl.
  unfold readNextBlockInfo_file, readBlockHeader_file, readNextBlockInfo, fileSize.
  rewrite !blen_app, blen_frame. unfold BLOCK_HEADER_SIZE, seekFile.
  rewrite (proj2 (Z.leb_gt _ _)) by lia. rewrite (proj2 (Z.leb_le (3 * 8 + 64) _)) by lia.
  rewrite (proj2 (Z.ltb_lt (blen pre) (2 ^ 63))) by lia. cbn [CHECK mbind res_bind].
  assert (file_read (pre ++ frame d ++ post) (blen pre) (3 * 8 + 64) = le_bytes 8 (blen d) ++ take 80 d) as ->.
  { rewrite <- (take_drop 88 (frame d ++ post)). rewrite file_read_app; [by apply take_frame|].
    rewrite take_frame by done. rewrite blen_app. unfold blen. rewrite length_le_bytes, length_take.
    unfold blen in Hd. lia. }
  assert (blen (le_bytes 8 (blen d) ++ take 80 d) = 88) as ->.
  { rewrite blen_app. unfold blen at 1 3. rewrite length_le_bytes, length_take. unfold blen in Hd. lia. }
  unfold readBlockHeader. rewrite check_room_small by lia. cbn [mbind res_bind].
  assert (load (le_bytes 8 (blen d) ++ take 80 d) 0 8 = Ok (le_bytes 8 (blen d))) as ->.
  { unfold load. change (0 <? 0) with false. cbn [orb].
    rewrite (proj2 (Z.ltb_ge _ _)); [|unfold blen; rewrite length_app, length_le_bytes; lia]. done. }
  cbn [mbind res_bind]. rewrite le_value_bytes by (change (256 ^ Z.of_nat 8) with (2 ^ 64); lia).
  change (0 + 8) with 8. rewrite header_fields_file by done.
  change (set_bh_blockSize (blen d) (set_bh_filePos (mkFilePosition (blen pre) (fp_fileName (bh_filePos (bi_header bi))))
    (bi_header bi))) with (set_place (blen d) (blen pre) (bi_header bi)).
  rewrite header_place.
  destruct (readBlockHeaderWithoutSize base d 0 (blen d) (bi_header bi)) as [h| | |]; [|done..].
  cbn [mbind res_bind res_fmap fmap]. change (bh_blockSize (set_place (blen d) (blen pre) h)) with (blen d).
  rewrite (u64_small (blen d + 8)) by (unfold is_u64; lia). rewrite (proj2 (Z.ltb_ge _ _)) by lia.
  unfold alloc. rewrite (proj2 (Z.leb_gt _ _)) by lia. cbn [mbind res_bind].
  rewrite (u64_small (blen pre + 8)) by (unfold is_u64; lia).
  rewrite (proj2 (Z.ltb_lt _ _)) by lia. cbn [CHECK mbind res_bind].
  assert (file_read (pre ++ frame d ++ post) (blen pre + 8) (blen d) = d) as ->.
  { unfold frame. rewrite <- app_assoc, app_assoc.
    replace (blen pre + 8) with (blen (pre ++ le_bytes 8 (blen d)))
      by (rewrite blen_app; unfold blen at 2; rewrite length_le_bytes; lia). by apply file_read_app. }
  pose proof (readBlockTxs_place base d (blen pre) (blen d) (blen pre) (mkBlockInfo h (bi_txs bi)) sa bt ct v) as Hp.
  cbn [bi_header bi_txs] in Hp. rewrite Hp. clear Hp.
  destruct (readBlockTxs _ _ _ _ _ _ _ _ _) as [b| | |]; [|done..]. cbn [mbind res_bind bi_header bi_txs].
  change (bh_blockSize (set_place (blen d) (blen pre) (bi_header b))) with (blen d).
  rewrite (u64_small (blen d + 8)) by (unfold is_u64; lia). cbn [bh_blockSize set_bh_filePos set_bh_blockSize].
  rewrite !u64_small by (unfold is_u64; lia). unfold set_place.
  do 3 f_equal; [f_equal; lia|]. do 2 f_equal; lia.
Qed.

End equivalence.

(** ** Reading a file to its end *)

(** The file after the blocks were appended one by one. *)
Definition appended (ds : list bytes) : bytes :=
  foldl (fun file d => fst (saveBlockToFileBinary file d)) [] ds.

Lemma appended_frames ds : appended ds = concat (frame <$> ds).
Proof.
  unfold appended. rewrite <- (app_nil_l (concat _)). generalize (@nil byte). induction ds as [|d ds IH]; intros l.
  - cbn. by rewrite app_nil_r.
  - cbn [foldl fmap list_fmap concat]. rewrite IH. cbn [saveBlockToFileBinary fst]. by rewrite <- app_assoc.
Qed.

Lemma appended_app ds es : appended (ds ++ es) = appended ds ++ appended es.
Proof. rewrite !appended_frames, fmap_app. apply concat_app. Qed.

Section reading.
Context `{Support} `{Crypto} `{Rapidjson} `{Fs}.
Variables (isInitialized : bool) (base : Z) (folderPath : bytes) (isValidate : bool).
Hypothesis Hbase : 0 <= base < 2 ^ 63.

#[local] Abbreviation process := (File_process isInitialized base folderPath isValidate).

(** The block at a position of a file, parsed from its bytes alone. *)
Definition parsed (pos : Z) (d : bytes) : res BlockInfo :=
  readNextBlockInfo base d isInitialized pos BlockInfo_default isValidate false 0 0.

(** The calls of the synchronisation loop, each with a fresh block. *)
Fixpoint File_take (n : nat) (disk : Disk) (s : FileSource) : FileSource * list (BlockInfo * bytes) :=
  match n with
  | O => (s, [])
  | S n =>
      match process disk BlockInfo_default [] s with
      | (s1, Ok (Some b)) => let '(s2, l) := File_take n disk s1 in (s2, b :: l)
      | (s1, _) => (s1, [])
      end
  end.

(** The source is reading file [p], up to the end of the blocks [done_]. *)
Definition reading (p : bytes) (done_ : list bytes) (s : FileSource) : Prop :=
  fb_fileName s = p /\ fb_file s = Some p /\ fb_currPos s = blen (appended done_).

(** The position remembered for a file. *)
Definition remembered (p : bytes) (done_ : list bytes) (s : FileSource) : Prop :=
  fb_allFiles s !! CroppedFileName p = Some (mkFileInfo (mkFilePosition (blen (appended done_)) p)).

Lemma open_reading disk p s :
  p <> [] -> reading p (@nil bytes) s \/ (exists l, reading p l s) -> open_next folderPath disk s = (s, Ok true).
Proof.
  intros Hp [(Hn & _)|(l & Hn & _)]; unfold open_next; rewrite Hn; by destruct p.
Qed.

Lemma process_reading disk p done_ d rest s bi :
  p <> [] -> d_files disk !! p = Some (appended (done_ ++ d :: rest)) ->
  blen (appended (done_ ++ d :: rest)) < 2 ^ 62 -> 80 <= blen d ->
  reading p done_ s -> parsed (blen (appended done_)) d = Ok bi ->
  exists s', process disk BlockInfo_default [] s = (s', Ok (Some (in_file p bi, d))) /\
    reading p (done_ ++ [d]) s' /\ remembered p (done_ ++ [d]) s'.
Proof.
  intros Hp Hf Hl Hd Hr Hbi. pose proof Hr as (Hn & Ho & Hc).
  unfold File_process, mbind'. rewrite (open_reading disk p) by eauto.
  unfold read_block, read_stream. rewrite Ho, Hf. cbn [default id].
  rewrite appended_app in *. pose proof (blen_nonneg (appended done_)).
  assert (appended (d :: rest) = frame d ++ appended rest) as Hcons by (rewrite !appended_frames; done).
  rewrite Hcons in *. rewrite !blen_app, blen_frame in Hl. pose proof (blen_nonneg (appended rest)).
  rewrite Hc, readNextBlockInfo_file_at; [|lia|lia|done|rewrite !blen_app, blen_frame; lia].
  unfold parsed in Hbi. rewrite Hbi. cbn [mbind res_bind].
  rewrite (proj2 (Z.eqb_neq _ _)) by (rewrite blen_frame; lia). rewrite Hn.
  assert (blen (appended done_) + blen (frame d) = blen (appended (done_ ++ [d]))) as Hpos.
  { rewrite appended_app, blen_app. done. }
  eexists. split; [reflexivity|]. unfold reading, remembered. cbn. rewrite <- Hpos.
  split; [done|]. by rewrite lookup_insert_eq.
Qed.

(** At the end of the file the source closes it. *)
Lemma process_at_end disk p all s :
  p <> [] -> d_files disk !! p = Some (appended all) -> reading p all s ->
  process disk BlockInfo_default [] s = (mkFileSource (fb_allFiles s) (fb_currPos s) None [], Ok None).
Proof.
  intros Hp Hf Hr. pose proof Hr as (Hn & Ho & Hc).
  unfold File_process, mbind'. rewrite (open_reading disk p) by eauto.
  unfold read_block, read_stream. rewrite Ho, Hf. cbn [default id].
  unfold readNextBlockInfo_file, readBlockHeader_file, fileSize. rewrite Hc.
  rewrite (proj2 (Z.leb_le _ _)) by lia. cbn [mbind res_bind]. by rewrite Z.eqb_refl.
Qed.

Lemma take_reading disk p done_ rest s :
  p <> [] -> d_files disk !! p = Some (appended (done_ ++ rest)) ->
  blen (appended (done_ ++ rest)) < 2 ^ 62 -> Forall (fun d => 80 <= blen d) rest ->
  reading p done_ s -> remembered p done_ s ->
  (forall i d, rest !! i = Some d -> is_ok (parsed (blen (appended (done_ ++ take i rest))) d) = true) ->
  let '(s', l) := File_take (length rest) disk s in
  reading p (done_ ++ rest) s' /\ remembered p (done_ ++ rest) s' /\ l.*2 = rest /\
  forall i b, l !! i = Some b -> exists bi,
    parsed (blen (appended (done_ ++ take i rest))) b.2 = Ok bi /\ b.1 = in_file p bi.
Proof.
  intros Hp. revert done_ s. induction rest as [|d rest IH]; intros done_ s Hf Hl Hd Hr Hm Hok; cbn [length File_take].
  { rewrite app_nil_r. done. }
  inversion_clear Hd as [|? ? Hd1 Hds].
  assert (exists bi, parsed (blen (appended done_)) d = Ok bi) as [bi Hbi].
  { specialize (Hok O d eq_refl). cbn [take] in Hok. rewrite app_nil_r in Hok.
    destruct (parsed _ _); try done. eauto. }
  destruct (process_reading disk p done_ d rest s bi) as (s1 & Hpr & Hr1 & Hm1); [done..|].
  rewrite Hpr. assert (done_ ++ d :: rest = (done_ ++ [d]) ++ rest) as Heq by (by rewrite <- app_assoc).
  specialize (IH (done_ ++ [d]) s1). rewrite <- Heq in IH.
  destruct (File_take (length rest) disk s1) as [s' l].
  destruct IH as (Hr' & Hm' & Hl2 & Hall); [done..| |].
  { intros i e Hi. specialize (Hok (S i) e Hi). cbn [take] in Hok. by rewrite <- app_assoc. }
  split; [done|]. split; [done|]. split; [cbn; by rewrite Hl2|].
  intros [|i] b; cbn; [intros [= <-]; exists bi; by rewrite app_nil_r|].
  intros Hb. specialize (Hall i b Hb). by rewrite <- app_assoc in Hall.
Qed.

End reading.

(** ** The choice of the next file *)

Section choice.
Context `{Fs}.
Variables (disk : Disk) (processedFiles : gmap bytes FileInfo) (folder : bytes).

(** A file that was read to its end. *)
Definition finished (file : bytes) : Prop :=
  exists fi c, processedFiles !! file = Some fi /\ d_files disk !! fs_join folder file = Some c /\
    blen c <= fp_pos (fi_filePos fi).

(** Where the reading of a file goes on. *)
Definition resumes (file : bytes) (fi : FileInfo) : Prop :=
  match processedFiles !! file with
  | None => fi = mkFileInfo (mkFilePosition 0 (fs_join folder file))
  | Some fi0 => fi = fi0 /\ exists c, d_files disk !! fs_join folder file = Some c /\ fp_pos (fi_filePos fi) < blen c
  end.

Lemma next_file_spec files fi :
  next_file disk processedFiles folder files = Ok fi ->
  (fi = FileInfo_default /\ Forall finished files) \/
  exists before file after, files = before ++ file :: after /\ Forall finished before /\ resumes file fi.
Proof.
  induction files as [|file files IH]; cbn [next_file]; [intros [= <-]; by left|].
  destruct (processedFiles !! file) as [fi0|] eqn:Hp.
  2: { intros [= <-]. right. exists [], file, files. split; [done|]. split; [done|].
       unfold resumes. by rewrite Hp. }
  unfold file_size. destruct (d_files disk !! fs_join folder file) as [c|] eqn:Hc; [|done].
  cbn [mbind res_bind]. destruct (Z.ltb_spec (fp_pos (fi_filePos fi0)) (blen c)).
  - intros [= <-]. right. exists [], file, files. split; [done|]. split; [done|].
    unfold resumes. rewrite Hp. eauto.
  - intros Hn. assert (finished file) as Hfin by (exists fi0, c; done).
    destruct (IH Hn) as [[-> Hf]|(before & f & after & -> & Hf & Hr)]; [left; by auto|].
    right. exists (file :: before), f, after. split; [done|]. split; [by constructor|done].
Qed.

Lemma block_files_spec file :
  file ∈ block_files disk folder <->
  contains (str ".blk") file = true /\ exists p, p ∈ d_listing disk folder /\ file = CroppedFileName (fs_filename p).
Proof.
  unfold block_files. destruct (oset_of_list_spec (List.filter (contains (str ".blk"))
    ((fun p => CroppedFileName (fs_filename p)) <$> d_listing disk folder))) as [_ Hin].
  rewrite Hin, list_elem_of_In, List.filter_In, <- list_elem_of_In, list_elem_of_fmap. naive_solver.
Qed.

End choice.

(** A source whose file could not be opened: the name is set, the stream is
    not open. *)
Definition stuck (s : FileSource) : Prop := fb_fileName s <> [] /\ fb_file s = None.

Section failures.
Context `{Support} `{Crypto} `{Rapidjson} `{Fs}.
Variables (isInitialized : bool) (base : Z) (folderPath : bytes) (isValidate : bool).

Lemma stuck_forever disk bi d s :
  stuck s -> 0 <= fb_currPos s < 2 ^ 63 ->
  File_process isInitialized base folderPath isValidate disk bi d s =
    (s, throwErr (str "Incorrect seek operations")).
Proof.
  intros [Hn Ho] Hc. unfold File_process, mbind', open_next.
  rewrite is_empty_false by done. cbn [negb]. unfold read_block, read_stream. rewrite Ho.
  rewrite (proj2 (Z.ltb_ge _ _)) by (unfold u64_max, BLOCK_HEADER_SIZE; lia). done.
Qed.

Lemma failed_open_sticks disk bi d s p pos :
  fb_fileName s = [] -> fb_file s = None -> p <> [] -> d_files disk !! p = None ->
  getNextFile disk (fb_allFiles s) folderPath = Ok (mkFileInfo (mkFilePosition pos p)) ->
  exists s', File_process isInitialized base folderPath isValidate disk bi d s =
    (s', throwErr (str "File " ++ p ++ str " not opened")) /\ stuck s' /\ fb_currPos s' = fb_currPos s.
Proof.
  intros Hn Ho Hp Hd Hg. unfold File_process, mbind', open_next. rewrite Hn. cbn [is_empty negb]. rewrite Hg.
  cbn [fi_filePos fp_fileName fb_fileName]. rewrite is_empty_false by done. unfold openFile.
  rewrite is_empty_false by done. cbn [negb CHECK mbind res_bind]. rewrite Hd, bool_decide_false by (by intros []).
  cbn. eexists. split; [reflexivity|]. done.
Qed.

End failures.
