(* ===== verification/SyncRun.v ===== *)
(** * SyncImpl.cpp: the synchronisation thread

    The thread from its start to its rounds: the settings and the chain from
    the database, the workers and the blocks they missed, then rounds that ask
    the source of blocks for what follows the chain and hand each block to the
    loop of Sync.  The source is behind its interface, which the two sources of
    the program implement.  Starting threads and sleeping are left out. *)
From S2P Require Import Prelude External Serialize Address BlockInfo BlockChainInterface BlockChain LevelDb.
From S2P Require Import Cache Modules Workers BlockchainUtils PrivateKey BlockchainRead Sync.
From S2P Require Import P2P Graph Dumps JsonApi GetNewBlocks NetworkSource FileSource.
#[local] Open Scope Z_scope.

(** ** Where blocks come from *)

(** [None] from [bs_process] is the source's [false]. *)
(* src: BlockSource/BlockSource.h:11-26 BlockSource *)
Class BlockSource (D S : Type) := {
  bs_initialize : D -> meth S unit;
  bs_doProcess : Z -> meth S (bool * Z);
  bs_knownBlock : S -> Z;
  bs_process : meth S (option (BlockInfo * bytes));
  bs_getExistingBlock : Files -> BlockHeader -> BlockInfo -> meth S (BlockInfo * bytes);
}.

Section sources.
Context `{Support} `{Crypto} `{Rapidjson} `{Lz4} `{Fs} {D : Type} `{Kv D}.
Variable isInitialized : bool.

(** The source over the other nodes: the members that do not change are its
    parameters. *)
Section network.
Context {W : Type} `{P2PNet W}.
Variables (maxAdvancedLoadBlocks countBlocksInBatch : Z) (isCompress : bool).
Variables (folderPath : bytes) (saveAllTx isValidate isVerifySign : bool) (fuel : nat) (base : Z).

(** [initialize] only creates the folder of the block files, and folders are no
    part of the state: a file is written under any name. *)
(* src: BlockSource/NetworkBlockSource.h:16-37 NetworkBlockSource *)
Definition network_source : BlockSource D (NetSource * W) := {|
  bs_initialize _ := mret' tt;
  bs_doProcess := Network_doProcess;
  bs_knownBlock s := knownBlock s.1;
  bs_process := Network_process isInitialized maxAdvancedLoadBlocks countBlocksInBatch isCompress
    folderPath saveAllTx isValidate isVerifySign fuel base;
  bs_getExistingBlock _ bh bi := fun s =>
    let '(w, r) := Network_getExistingBlock isInitialized saveAllTx isValidate isVerifySign base bh bi s.2 in
    ((s.1, w), r);
|}.
End network.

(** The source over block files, on a disk that does not change. *)
Section files.
Variables (base : Z) (folderPath : bytes) (isValidate : bool) (disk : Disk).

(* src: BlockSource/FileBlockSource.h:19-36 FileBlockSource *)
Definition file_source : BlockSource D FileSource := {|
  bs_initialize leveldb := fun s =>
    match File_initialize leveldb s with
    | Ok s => (s, Ok tt)
    | Throw e => (s, Throw e)
    | UB => (s, UB)
    | OutOfFuel => (s, OutOfFuel)
    end;
  bs_doProcess countBlocks := mret' (File_doProcess countBlocks);
  bs_knownBlock _ := File_knownBlock;
  bs_process := File_process isInitialized base folderPath isValidate disk BlockInfo_default [];
  bs_getExistingBlock _ bh bi := mlift (File_getExistingBlockS isInitialized base isValidate disk bh bi []);
|}.
End files.
End sources.

(** ** Construction *)

(** The options the constructor looks at. *)
(* src: ConfigOptions.h:44-62 GetterBlockOptions *)
Record GetterBlockOptions := mkGetterBlockOptions {
  go_maxAdvancedLoadBlocks : Z;
  go_countBlocksInBatch : Z;
  go_p2p : bool;
  go_getBlocksFromFile : bool;
  go_isValidate : bool;
  go_isValidateSign : bool;
  go_isCompress : bool;
}.

Inductive SourceKind :=
  | FromFiles (isValidate : bool)
  | FromNetwork (maxAdvancedLoadBlocks countBlocksInBatch : Z) (isCompress saveAllTx isValidate isVerifySign : bool).

(** The source, and whether blocks are saved to files. *)
(* src: SyncImpl.cpp:31-43 SyncImpl::initialize *)
Definition SyncImpl_initialize (m : Modules) (o : GetterBlockOptions) (isValidate : bool)
    : res (bool * SourceKind) :=
  _ ← CHECK (negb (has_module MODULE_USERS m) || negb (go_getBlocksFromFile o))
        (str "Options saveOnlyUsers and getBlocksFromFile not compatible");
  if go_getBlocksFromFile o then Ok (false, FromFiles isValidate)
  else
    _ ← CHECK (go_p2p o) (str "p2p nullptr");
    Ok (has_module MODULE_BLOCK_RAW m,
        FromNetwork (go_maxAdvancedLoadBlocks o) (go_countBlocksInBatch o) (go_isCompress o)
          (has_module MODULE_USERS m) (go_isValidate o) (go_isValidateSign o)).

(** Without the private key and the database, which are opened here too. *)
(* src: SyncImpl.cpp:45-65 SyncImpl::SyncImpl *)
Definition SyncImpl_new (m : Modules) (o : GetterBlockOptions) : res (bool * SourceKind) :=
  _ ← (if go_isValidate o
       then CHECK (negb (go_getBlocksFromFile o)) (str "validate and get_blocks_from_file options not compatible")
       else Ok tt);
  SyncImpl_initialize m o (go_isValidate o).

(** [std::set::insert]: in order, once; the comparison throws on an address that
    is not set. *)
Fixpoint set_insert (a : Address) (users : list Address) : res (list Address) :=
  match users with
  | [] => Ok [a]
  | u :: users' =>
      before ← Address_lt a u;
      if before : bool then Ok (a :: users)
      else after ← Address_lt u a; if after : bool then cons u <$> set_insert a users' else Ok users
  end.

(** The addresses inserted before an exception stay. *)
(* src: SyncImpl.cpp:77-81 SyncImpl::addUsers *)
Definition addUsers (m : Modules) (addresses users : list Address) : list Address * res unit :=
  match CHECK (has_module MODULE_USERS m) (str "saveOnlyUsers not set") with
  | Ok _ =>
      foldl (fun '(users, r) a =>
        match (_ ← r; set_insert a users) with Ok users => (users, Ok tt) | e => (users, _ ← e; Ok tt) end)
        (users, Ok tt) addresses
  | e => (users, e)
  end.

(** Who is found afterwards. *)
Lemma set_insert_contains a users b :
  isSet a = true -> Forall (fun u => isSet u = true) users -> exists users', set_insert a users = Ok users' /\
    Forall (fun u => isSet u = true) users' /\ (b ∈ users' -> b = a \/ b ∈ users) /\
    (b ∈ users -> b ∈ users') /\ exists u, u ∈ users' /\ address u = address a.
Proof.
  intros Ha. induction users as [|u users IH]; intros Hs; cbn [set_insert].
  { exists [a]. rewrite list_elem_of_singleton. split; [done|]. split; [by constructor|]. split; [by left|].
    split; [by intros ?%elem_of_nil|]. exists a. by rewrite list_elem_of_singleton. }
  apply Forall_cons in Hs as [Hu Hs]. destruct (IH Hs) as (users' & E & Hs' & H1 & H2 & v & Hv & Hva).
  unfold Address_lt. rewrite Ha, Hu. cbn [CHECK mbind res_bind].
  destruct (bytes_lt (address a) (address u)) eqn:E1.
  { exists (a :: u :: users). rewrite !elem_of_cons. split; [done|]. split; [by repeat constructor|].
    split; [tauto|]. split; [tauto|]. exists a. by rewrite elem_of_cons; split; [left|]. }
  destruct (bytes_lt (address u) (address a)) eqn:E2.
  - rewrite E. exists (u :: users'). rewrite !elem_of_cons. split; [done|]. split; [by constructor|].
    split; [tauto|]. split; [tauto|]. exists v. by rewrite elem_of_cons; split; [right|].
  - exists (u :: users). split; [done|]. split; [by constructor|]. split; [by right|]. split; [done|].
    exists u. split; [by left|]. by apply bytes_lt_total.
Qed.

(** ** Workers and the blocks they missed *)

(** The workers of a running node, each with the number of the last block it
    had at its start. *)
(* src: Workers/Worker.h:13-24 Worker *)
Inductive Worker :=
  | CacheWorker
  | MainWorker (lastSavedBlock : Z)
  | NodeTestWorker (initializeScriptBlockNumber : Z).

(* src: Workers/WorkerCache.cpp:81-83 WorkerCache::getInitBlockNumber *)
Definition getInitBlockNumber (w : Worker) : option Z :=
  match w with
  | CacheWorker => None
  | MainWorker n | NodeTestWorker n => Some n
  end.

(** A worker's queue holds the blocks pushed and not yet popped; the pops are
    the worker's own. *)
Definition Queue := list (BlockInfo * bytes).

(* src: Workers/WorkerNodeTest.cpp:110-112 WorkerNodeTest::process *)
Definition Worker_process (bi : BlockInfo) (dump : bytes) (w : Worker) (queue : Queue) : res Queue :=
  match w with
  | MainWorker lastSavedBlock =>
      n ← opt_value (bh_blockNumber (bi_header bi));
      Ok (if lastSavedBlock <? n then queue ++ [(bi, dump)] else queue)
  | _ => Ok (queue ++ [(bi, dump)])
  end.

(** The comparison that puts the workers without a number last. *)
(* src: SyncImpl.cpp:229-237 SyncImpl::synchronize, min_element *)
Definition worker_before (first second : Worker) : bool :=
  match getInitBlockNumber first, getInitBlockNumber second with
  | None, _ => false
  | Some _, None => true
  | Some a, Some b => a <? b
  end.

(** [std::min_element]: the first of the smallest. *)
Fixpoint min_element (smallest : Worker) (l : list Worker) : Worker :=
  match l with
  | [] => smallest
  | w :: l => min_element (if worker_before w smallest then w else smallest) l
  end.

(** The number of the first block some worker lacks. *)
(* src: SyncImpl.cpp:238-239 SyncImpl::synchronize, fromBlockNumber *)
Definition fromBlockNumber (workers : list Worker) : option Z :=
  match workers with
  | [] => None
  | w :: l => (fun n => u64 (n + 1)) <$> getInitBlockNumber (min_element w l)
  end.

(** A block given again to the workers that had not reached it. *)
(* src: SyncImpl.cpp:258-262 SyncImpl::synchronize, for worker *)
Fixpoint retry_workers (blockNumber : Z) (bi : BlockInfo) (dump : bytes) (ws : list (Worker * Queue))
    : res (list (Worker * Queue)) :=
  match ws with
  | [] => Ok []
  | (w, q) :: ws =>
      q ← (match getInitBlockNumber w with
           | Some n => if n <? blockNumber then Worker_process bi dump w q else Ok q
           | None => Ok q
           end);
      ws ← retry_workers blockNumber bi dump ws;
      Ok ((w, q) :: ws)
  end.

Section existing.
Context `{Support} `{Crypto} `{Rapidjson} `{Fs}.
Variables (isInitialized : bool) (base : Z) (isValidate : bool).

(** The transactions a read that throws leaves in its block: those read before. *)
(* src: BlockchainRead.cpp:369-390 readBlockTxs, do *)
Fixpoint readBlockTxs_left (raw : bytes) (fuel : nat) (end_pos posInFile : Z) (cur_pos : Z)
    (helper : PrevTransactionSignHelper) (txs : list TransactionInfo) : list TransactionInfo :=
  match fuel with
  | O => txs
  | S fuel =>
      let txInfo := fresh_tx (u64 (cur_pos + posInFile + 8)) in
      match readTransactionInfo base raw isInitialized cur_pos end_pos txInfo true false helper isValidate with
      | Ok (tx_size, cur_pos, txInfo) =>
          let txs := if ti_isInitialized txInfo then txs ++ [txInfo] else txs in
          if 0 <? tx_size
          then readBlockTxs_left raw fuel end_pos posInFile cur_pos
                 (mkPrevTransactionSignHelper false (ti_isSignBlockTx txInfo) (ti_data txInfo)) txs
          else txs
      | _ => txs
      end
  end.

(** The block as an attempt to read it from its file that threw leaves it. *)
(* src: BlockSource/FileBlockSource.cpp:61-66 FileBlockSource::getExistingBlockS *)
Definition existing_left (files : Files) (bh : BlockHeader) : BlockInfo :=
  let fileName := fp_fileName (bh_filePos bh) in
  let pos := fp_pos (bh_filePos bh) in
  match files !! fileName with
  | Some contents =>
      if is_empty fileName then BlockInfo_default
      else
        match readBlockHeader_file base contents pos (blen contents) (bi_header BlockInfo_default) with
        | Ok (Some header) =>
            if blen contents - pos <? u64 (bh_blockSize header + 8) then mkBlockInfo header []
            else
              let dump := file_read contents (u64 (pos + 8)) (bh_blockSize header) in
              let header := match get_double_sha256 isInitialized dump with
                | Ok block_hash => set_bh_hash (toHex block_hash) header
                | _ => header
                end in
              mkBlockInfo header
                (readBlockTxs_left dump (S (length dump)) (blen dump) pos (BLOCK_HEADER_SIZE - 8)
                   (mkPrevTransactionSignHelper true true []) [])
        | _ => BlockInfo_default
        end
  | None => BlockInfo_default
  end.

End existing.

(** ** The thread *)

Section synchronize.
Context `{Support} `{Crypto} `{Rapidjson} `{Fs} {D : Type} `{Kv D} {S : Type} `{BlockSource D S}.
Variables (isInitialized : bool) (base : Z) (isValidate : bool).
Variables (m : Modules) (users : list Address) (isSaveBlockToFiles : bool).

(** The source and the synchronised state. *)
Abbreviation State := (S * SyncState D)%type.

Definition on_source {A} (f : meth S A) : meth State A := fun s =>
  let '(src, r) := f s.1 in ((src, s.2), r).
Definition on_sync {A} (f : meth (SyncState D) A) : meth State A := fun s =>
  let '(st, r) := f s.2 in ((s.1, st), r).

(** A block the chain already has, from its file, or from the source when that
    throws; the source goes on with the block the attempt left. *)
(* src: SyncImpl.cpp:242-256 SyncImpl::synchronize, existing block *)
Definition existing_block (bh : BlockHeader) : meth State (BlockInfo * bytes) := fun s =>
  let files := ss_files s.2 in
  match File_getExistingBlockS isInitialized base isValidate (mkDisk files (fun _ => [])) bh BlockInfo_default [] with
  | Throw _ =>
      on_source (bs_getExistingBlock files bh (existing_left isInitialized base isValidate files bh)) s
  | r => (s, r)
  end.

(** [n] blocks from [blockNumber] on. *)
(* src: SyncImpl.cpp:241-263 SyncImpl::synchronize, for blockNumber *)
Fixpoint retry_blocks (n : nat) (blockNumber : Z) (ws : list (Worker * Queue)) : meth State (list (Worker * Queue)) :=
  match n with
  | O => mret' ws
  | Datatypes.S n =>
      (let* s := mget in
       let* bh := mlift (getBlock_number blockNumber (ss_blockchain s.2)) in
       let* (bi, blockDump) := existing_block bh in
       let* bi := mlift (filterTransactionsToSave m users bi) in
       let* ws := mlift (retry_workers blockNumber bi blockDump ws) in
       retry_blocks n (blockNumber + 1) ws)%meth
  end.

(* src: SyncImpl.cpp:238-264 SyncImpl::synchronize, retry *)
Definition retry (ws : list (Worker * Queue)) : meth State (list (Worker * Queue)) := fun s =>
  match fromBlockNumber ws.*1 with
  | Some from => retry_blocks (Z.to_nat (countBlocks (ss_blockchain s.2) - from + 1)) from ws s
  | None => (s, Ok ws)
  end.

(** What the thread does before its first round: the workers start with empty
    queues.  [nodeTestInit] is the node-test worker's last block, when its
    database was opened. *)
(* src: SyncImpl.cpp:211-221 SyncImpl::synchronize, workers *)
Definition make_workers (lastSavedBlock : Z) (nodeTestInit : option Z) : res (list Worker) :=
  if has_module MODULE_NODE_TEST m then
    _ ← CHECK (bool_decide (is_Some nodeTestInit)) (str "Leveldb node test options not setted");
    n ← opt_value nodeTestInit;
    Ok [CacheWorker; MainWorker lastSavedBlock; NodeTestWorker n]
  else Ok [CacheWorker; MainWorker lastSavedBlock].

Definition on_db {A} (f : meth D A) : meth State A := fun s =>
  let '(db, r) := f (ss_leveldb s.2) in
  ((s.1, mkSyncState db (ss_blockchain s.2) (ss_files s.2) (ss_processed s.2)), r).
Definition on_chain {A} (f : meth BlockChain A) : meth State A := fun s =>
  let '(chain, r) := f (ss_blockchain s.2) in
  ((s.1, mkSyncState (ss_leveldb s.2) chain (ss_files s.2) (ss_processed s.2)), r).

(* src: SyncImpl.cpp:169-264 SyncImpl::synchronize, start *)
Definition synchronize_start (nodeTestInit : option Z) : meth State (list (Worker * Queue)) :=
  (do* mlift (CHECK isInitialized (str "Not initialized")) in
   do* mlift (CHECK (has_module MODULE_BLOCK m) (str "module " ++ MODULE_BLOCK_STR ++ str " not set")) in
   do* on_db (check_settings m) in
   let* s := mget in
   do* mlift (raw ← findBlockMetadata (ss_leveldb s.2); BlocksMetadata_deserialize raw) in
   do* on_source (bs_initialize (ss_leveldb s.2)) in
   do* on_chain (load_chain (ss_leveldb s.2)) in
   let* oldMetadata := mlift (raw ← findMainBlock (ss_leveldb s.2); MainBlockInfo_deserialize raw) in
   let* workers := mlift (make_workers (mb_blockNumber oldMetadata) nodeTestInit) in
   retry ((fun w => (w, [])) <$> workers))%meth.

(** One turn of the inner loop: the block received may wait for the next. *)
(* src: SyncImpl.cpp:289-338 SyncImpl::synchronize, prevBi *)
Definition sync_block (prev : option (BlockInfo * bytes)) (next : BlockInfo * bytes) : meth (SyncState D) unit :=
  fun s =>
  match prev with
  | None => if isValidate then (s, Ok tt) else handle_block m users isSaveBlockToFiles next.1 next.2 s
  | Some prevBi =>
      if isValidate then
        (do* mlift (confirms (bi_header prevBi.1) next.1) in
         handle_block m users isSaveBlockToFiles prevBi.1 prevBi.2)%meth s
      else handle_block m users isSaveBlockToFiles next.1 next.2 s
  end.

(** [fuel] bounds the blocks of a round; one more than the blocks the source has
    is enough. *)
(* src: SyncImpl.cpp:273-341 SyncImpl::synchronize, while isContinue *)
Fixpoint sync_while (fuel : nat) (prev : option (BlockInfo * bytes)) : meth State unit :=
  match fuel with
  | O => mlift OutOfFuel
  | Datatypes.S fuel =>
      (let* next := on_source bs_process in
       match next with
       | None => mret' tt
       | Some next => do* on_sync (sync_block prev next) in sync_while fuel (Some next)
       end)%meth
  end.

(* src: SyncImpl.cpp:268-341 SyncImpl::synchronize, try *)
Definition sync_round (fuel : nat) : meth State unit :=
  (let* s := mget in
   do* mlift (BlockChain.getLastBlock (ss_blockchain s.2)) in
   let* (isContinue, knownLstBlk) := on_source (bs_doProcess (countBlocks (ss_blockchain s.2))) in
   if isContinue : bool then sync_while fuel None else mret' tt)%meth.

(** The exceptions a round survives. *)
(* src: SyncImpl.cpp:342-346 SyncImpl::synchronize, catch *)
Definition caught (r : res unit) : res unit :=
  match r with
  | Throw (ExcCommon _) | Throw (ExcStd _) => Ok tt
  | _ => r
  end.

(** [rounds] turns of the outer loop. *)
(* src: SyncImpl.cpp:266-357 SyncImpl::synchronize, while true *)
Fixpoint sync_rounds (rounds : nat) (fuel : nat) : meth State unit := fun s =>
  match rounds with
  | O => (s, Ok tt)
  | Datatypes.S rounds =>
      let '(s, r) := sync_round fuel s in
      match caught r with
      | Ok _ => sync_rounds rounds fuel s
      | r => (s, r)
      end
  end.

End synchronize.
