(* ===== verification/SyncRunFacts.v ===== *)
(** * The synchronisation thread: facts

    A round hands the loop the blocks its source gives; blocks that follow the
    chain one after the other are all accepted, in the chain, the database, the
    files and the workers' hands alike; and at a restart every worker gets from
    the files exactly the blocks it had not seen. *)
From S2P Require Import Prelude External Serialize Address BlockInfo BlockInfoCodec BlockChainInterface.
From S2P Require Import BlockChain BlockChainFacts LevelDb Cache Modules Workers BlockchainUtils PrivateKey.
From S2P Require Import BlockchainRead BlockchainReadFacts Sync SyncFacts.
From S2P Require Import P2P Graph Dumps JsonApi GetNewBlocks NetworkSource FileSource FileSourceFacts SyncRun.
#[local] Open Scope Z_scope.

(** ** A round is the loop on what its source gives *)

Section while_loop.
Context `{Support} `{Crypto} `{Rapidjson} `{Fs} {D : Type} `{Kv D} {S : Type} `{BlockSource D S}.
Variables (isValidate : bool) (m : Modules) (users : list Address) (save : bool).

(** The blocks of successive calls, and how they end. *)
Fixpoint source_blocks (n : nat) (src : S) : list (BlockInfo * bytes) * res unit :=
  match n with
  | O => ([], OutOfFuel)
  | Datatypes.S n =>
      match bs_process src with
      | (src, Ok (Some b)) => let '(l, r) := source_blocks n src in (b :: l, r)
      | (_, Ok None) => ([], Ok tt)
      | (_, Throw e) => ([], Throw e)
      | (_, UB) => ([], UB)
      | (_, OutOfFuel) => ([], OutOfFuel)
      end
  end.

Lemma sync_loop_cons prev next rest (st : SyncState D) :
  sync_loop m users save isValidate prev (next :: rest) st =
    match sync_block isValidate m users save prev next st with
    | (st, Ok _) => sync_loop m users save isValidate (Some next) rest st
    | (st, Throw e) => (st, Throw e)
    | (st, UB) => (st, UB)
    | (st, OutOfFuel) => (st, OutOfFuel)
    end.
Proof.
  cbn [sync_loop]. unfold sync_block, mbind', mlift. destruct prev as [prevBi|].
  - destruct isValidate.
    + destruct (confirms _ _) as [[]| | |]; [|done..]. by destruct (handle_block _ _ _ _ _ _) as [? [| | |]].
    + by destruct (handle_block _ _ _ _ _ _) as [? [| | |]].
  - destruct isValidate; [done|]. by destruct (handle_block _ _ _ _ _ _) as [? [| | |]].
Qed.

(** The state a round leaves is the loop's; the round ends like the loop, or
    like the source when the loop has taken all its blocks. *)
Lemma sync_while_loop fuel prev src st :
  let '(s', r) := sync_while isValidate m users save fuel prev (src, st) in
  let '(st', r') := sync_loop m users save isValidate prev (fst (source_blocks fuel src)) st in
  s'.2 = st' /\ r = match r' with Ok _ => snd (source_blocks fuel src) | _ => r' end.
Proof.
  revert prev src st. induction fuel as [|fuel IH]; intros prev src st; cbn [sync_while source_blocks]; [done|].
  unfold mbind' at 1, on_source. cbn [fst snd].
  destruct (bs_process src) as [src1 [[next|]| | |]]; try done.
  unfold mbind', on_sync. cbn [fst snd].
  destruct (source_blocks fuel src1) as [l rs] eqn:Hsb. cbn [fst snd]. rewrite sync_loop_cons.
  destruct (sync_block _ _ _ _ _ _ st) as [st1 [[]| | |]]; try done.
  specialize (IH (Some next) src1 st1). rewrite Hsb in IH. exact IH.
Qed.

End while_loop.

(** ** Blocks that follow the chain *)

Section growth.
Context {D : Type} `{KvLaws D} `{Fs}.

(** The headers of a source's blocks. *)
Definition headers (l : list (BlockInfo * bytes)) : list BlockHeader := (fun b => bi_header b.1) <$> l.

(** A header that can be stored. *)
Record header_storable (h : BlockHeader) : Prop := {
  hs_wf : bh_wf h;
  hs_number : bh_blockNumber h = None;
  hs_size : blen (header_bytes h) < 2 ^ 64 - 16;
  hs_file : fp_fileName (bh_filePos h) <> [];
  hs_filename : fs_filename (fp_fileName (bh_filePos h)) <> [];
}.

(** What the blocks [l] may add to a block file. *)
Definition room_needed (l : list (BlockInfo * bytes)) : Z := foldr (fun b n => 8 + blen b.2 + n) 0 l.

Lemma room_needed_nonneg l : 0 <= room_needed l.
Proof. unfold room_needed. induction l as [|b l IH]; cbn [foldr]; [lia|]. pose proof (blen_nonneg b.2). lia. Qed.

Lemma tip_in_chain s hs :
  consistent s hs -> exists i, bc_hashes (ss_blockchain s) !! i = Some (tip_of GENESIS_BLOCK_HASH hs).
Proof.
  intros Hc. rewrite (co_chain _ _ Hc). destruct hs as [|h hs _] using rev_ind; [by exists O|].
  rewrite tip_of_snoc. exists (Datatypes.S (length hs)). rewrite fmap_app, app_comm_cons.
  rewrite lookup_app_r by (cbn [length]; rewrite length_fmap; lia).
  cbn [length]. by rewrite length_fmap, Nat.sub_diag.
Qed.

Lemma tip_known s hs :
  consistent s hs -> is_Some (bc_blocks (ss_blockchain s) !! tip_of GENESIS_BLOCK_HASH hs).
Proof.
  intros Hc. destruct (tip_in_chain s hs Hc) as [i Hi].
  destruct (set_hash _ (co_settled _ _ Hc) _ _ Hi) as (h & Hh & _). eauto.
Qed.

Lemma fresh_in_blocks s hs k :
  consistent s hs -> k ∉ GENESIS_BLOCK_HASH :: (bh_hash <$> hs) -> bc_blocks (ss_blockchain s) !! k = None.
Proof.
  intros Hc Hk. destruct (bc_blocks (ss_blockchain s) !! k) as [h|] eqn:Hh; [|done].
  destruct (set_num _ (co_settled _ _ Hc) k h Hh) as (i & _ & Hi). destruct Hk.
  rewrite <- (co_chain _ _ Hc). by eapply list_elem_of_lookup_2.
Qed.

(** Without the users module every transaction is kept. *)
Lemma filter_all m users bi :
  has_module MODULE_USERS m = false ->
  filterTransactionsToSave m users bi = Ok (mkBlockInfo (bi_header bi) (set_ti_isSaveToBd true <$> bi_txs bi)).
Proof.
  intros Hm. unfold filterTransactionsToSave.
  assert (forall tx, filter_tx m users tx = Ok (set_ti_isSaveToBd true tx)) as Hone
    by (intros tx; unfold filter_tx; by rewrite Hm).
  assert (forall acc l, foldM (fun txs tx => tx ← filter_tx m users tx; Ok (txs ++ [tx])) acc l =
    Ok (acc ++ (set_ti_isSaveToBd true <$> l))) as Hf.
  { intros acc l. revert acc. induction l as [|tx l IH]; intros acc; cbn [foldM].
    - cbn. by rewrite app_nil_r.
    - rewrite Hone. cbn [mbind res_bind]. rewrite IH, <- app_assoc. done. }
  by rewrite Hf.
Qed.

(** What a round does to the files. *)
Lemma handle_block_files m users save bi dump s name :
  has_module MODULE_USERS m = false ->
  exists add, file_contents (ss_files (fst (handle_block m users save bi dump s))) name =
    file_contents (ss_files s) name ++ add /\ (add = [] \/ add = frame dump).
Proof.
  intros Hm. unfold handle_block, accept_block. rewrite filter_all by done. unfold saveTransactions.
  assert (exists add, file_contents (ss_files s) name = file_contents (ss_files s) name ++ add /\
    (add = [] \/ add = frame dump)) as Hsame by (exists []; rewrite app_nil_r; by split; [|left]).
  destruct save; cbn [negb]; cbn [bi_header].
  2: { cbn. destruct (addBlock _ _) as [c [n| | |]]; cbn [ss_files fst]; try done.
       destruct (n =? 0); [done|]. by destruct (saveBlockToLeveldb _ _ _). }
  destruct (is_empty _); [done|]. rewrite Hm. cbn [negb]. unfold saveBlockToFileBinary.
  cbn [ss_leveldb ss_blockchain ss_files ss_processed].
  set (fn := fp_fileName _). set (fs' := <[fn := _]> (ss_files s)).
  assert (exists add, file_contents fs' name = file_contents (ss_files s) name ++ add /\
    (add = [] \/ add = frame dump)) as Hadd.
  { unfold fs', file_contents. destruct (decide (fn = name)) as [->|Hne].
    - rewrite lookup_insert_eq. cbn [default id]. exists (frame dump). by split; [|right].
    - rewrite lookup_insert_ne by done. exact Hsame. }
  destruct (addBlock _ _) as [c [n| | |]]; cbn [ss_files fst]; try exact Hadd.
  destruct (n =? 0); [exact Hadd|]. by destruct (saveBlockToLeveldb _ _ _).
Qed.

(** Saving a block appends its frame to its file and changes no other. *)
Lemma handle_block_save m users bi dump s :
  has_module MODULE_USERS m = false -> fp_fileName (bh_filePos (bi_header bi)) <> [] ->
  let fn := fp_fileName (bh_filePos (bi_header bi)) in
  ss_files (fst (handle_block m users true bi dump s)) =
    <[fn := file_contents (ss_files s) fn ++ frame dump]> (ss_files s).
Proof.
  intros Hm Hfn fn. unfold handle_block, accept_block. rewrite filter_all by done. unfold saveTransactions.
  cbn [negb bi_header]. fold fn. rewrite is_empty_false by done. rewrite Hm. cbn [negb].
  unfold saveBlockToFileBinary. cbn [ss_leveldb ss_blockchain ss_files ss_processed].
  destruct (addBlock _ _) as [c [n| | |]]; try done. destruct (n =? 0); [done|].
  by destruct (saveBlockToLeveldb _ _ _) as [? [| | |]].
Qed.

(** ** Blocks in their files *)

(** The file the header [h] names holds the block [d] at the place it names. *)
Definition held_in_file (fs : Files) (h : BlockHeader) (d : bytes) : Prop :=
  exists pre post, file_contents fs (fp_fileName (bh_filePos h)) = pre ++ frame d ++ post /\
    fp_pos (bh_filePos h) = blen pre.

(** Files only grow. *)
Definition files_grow (fs fs' : Files) : Prop :=
  forall name, exists add, file_contents fs' name = file_contents fs name ++ add.

#[global] Instance files_grow_preorder : PreOrder files_grow.
Proof.
  split.
  - intros fs name. exists []. by rewrite app_nil_r.
  - intros fs1 fs2 fs3 Ha Hb name. destruct (Ha name) as [a Ea], (Hb name) as [b Eb].
    exists (a ++ b). by rewrite Eb, Ea, app_assoc.
Qed.

Lemma held_grows fs fs' h d : files_grow fs fs' -> held_in_file fs h d -> held_in_file fs' h d.
Proof.
  intros Hg (pre & post & E & Hp). destruct (Hg (fp_fileName (bh_filePos h))) as [add Ea].
  exists pre, (post ++ add). by rewrite Ea, E, <- !app_assoc.
Qed.

Lemma handle_block_grows m users save bi dump s :
  has_module MODULE_USERS m = false -> files_grow (ss_files s) (ss_files (fst (handle_block m users save bi dump s))).
Proof. intros Hm name. destruct (handle_block_files m users save bi dump s name Hm) as (add & E & _). eauto. Qed.

(** ** A run of blocks that follow the chain *)

(** The state [s'] the blocks [pr] lead to from [s]: they are the chain's and
    the database's new headers, what the workers were handed, and, when blocks
    are saved, in the files. *)
Record run_done (save : bool) (s s' : SyncState D) (hs : list BlockHeader) (pr : list (BlockInfo * bytes)) : Prop := {
  rd_consistent : consistent s' (hs ++ headers pr);
  rd_processed : ss_processed s' = ss_processed s ++ pr;
  rd_grow : files_grow (ss_files s) (ss_files s');
  rd_files : save = true -> forall b, b ∈ pr -> held_in_file (ss_files s') (bi_header b.1) b.2;
}.

Lemma run_done_nil save s hs : consistent s hs -> run_done save s s hs [].
Proof.
  intros Hc. split; [by rewrite app_nil_r|by rewrite app_nil_r|done|]. by intros _ b ?%elem_of_nil.
Qed.

Lemma run_done_app save s1 s2 s3 hs pr pr' :
  run_done save s1 s2 hs pr -> run_done save s2 s3 (hs ++ headers pr) pr' -> run_done save s1 s3 hs (pr ++ pr').
Proof.
  intros [Ha Hb Hc Hd] [Ha' Hb' Hc' Hd']. split.
  - unfold headers in *. by rewrite fmap_app, app_assoc.
  - by rewrite Hb', Hb, app_assoc.
  - by etrans.
  - intros Hs b [Hin|Hin]%elem_of_app; [|by apply Hd']. by eapply held_grows; [exact Hc'|apply Hd].
Qed.

(** What the blocks need to be accepted one after the other. *)
Record follows (s : SyncState D) (hs : list BlockHeader) (blocks : list (BlockInfo * bytes)) : Prop := {
  fo_storable : forall h, h ∈ headers blocks -> header_storable h;
  fo_chain : child_chain (tip_of GENESIS_BLOCK_HASH hs) (headers blocks);
  fo_fresh : NoDup (GENESIS_BLOCK_HASH :: (bh_hash <$> hs ++ headers blocks));
  fo_room : forall name, blen (file_contents (ss_files s) name) + room_needed blocks < 2 ^ 64;
  fo_count : blen hs + blen blocks + 2 < 2 ^ 64;
}.

Lemma follows_next s hs b blocks : follows s hs (b :: blocks) -> consistent s hs ->
  block_good s (bi_header b.1) /\ next_header s hs (bi_header b.1).
Proof.
  intros [Hst Hch Hnd Hroom Hcnt] Hc. cbn [headers fmap list_fmap child_chain] in *. destruct Hch as [Hp _].
  destruct (Hst (bi_header b.1)) as [Hwf Hn Hsz Hf Hfn]; [by left|].
  pose proof (tip_known s hs Hc) as Hk. rewrite blen_cons in Hcnt. pose proof (blen_nonneg blocks).
  split; [split; try done|split; [done|]].
  - specialize (Hroom (fp_fileName (bh_filePos (bi_header b.1)))).
    pose proof (room_needed_nonneg (b :: blocks)). lia.
  - by rewrite Hp.
  - rewrite (co_chain _ _ Hc), blen_cons. unfold blen in *. rewrite length_fmap. lia.
  - eapply fresh_in_blocks; [done|]. intros Hin. rewrite fmap_app, app_comm_cons in Hnd.
    apply NoDup_app in Hnd as (_ & Hnd & _). apply (Hnd _ Hin). cbn. by left.
Qed.

(** What the loop leaves of a header when it gives it a number and a place. *)
Definition kept (h : BlockHeader) : bytes * bytes * Z * bytes :=
  (bh_hash h, bh_prevHash h, bh_blockSize h, fp_fileName (bh_filePos h)).

(** One block. *)
Lemma run_one m users save b s hs blocks :
  consistent s hs -> has_module MODULE_BLOCK m = true -> has_module MODULE_USERS m = false ->
  follows s hs (b :: blocks) ->
  exists s' pr, handle_block m users save b.1 b.2 s = (s', Ok tt) /\ run_done save s s' hs pr /\
    kept <$> headers pr = [kept (bi_header b.1)] /\ pr.*2 = [b.2] /\ follows s' (hs ++ headers pr) blocks.
Proof.
  intros Hc Hb Hu Hf. destruct (follows_next s hs b blocks Hf Hc) as [Hg Hn].
  pose proof (handle_block_cases m users save b.1 _ b.2 s hs Hc Hb Hg (filter_all m users b.1 Hu)) as Hcs.
  pose proof (fun name => handle_block_files m users save b.1 b.2 s name Hu) as Hfs.
  pose proof (handle_block_grows m users save b.1 b.2 s Hu) as Hgrow.
  pose proof (handle_block_save m users b.1 b.2 s Hu (bg_file _ _ Hg)) as Hsave.
  destruct (handle_block m users save b.1 b.2 s) as [s' r] eqn:Hh. cbn [fst] in *.
  destruct Hcs as [Hd|(Hno & _)]; [|done]. destruct Hd as (_ & -> & Hc' & bi' & Hpr & Hhd).
  exists s', [(bi', b.2)]. split; [done|]. cbn [headers fmap list_fmap fst snd]. rewrite Hhd.
  split; [|split; [by unfold kept, saved_pos; cbn; destruct (_ && _)|split; [done|]]].
  - split; [cbn; by rewrite Hhd|done|done|]. intros -> b' ->%list_elem_of_singleton. cbn [fst snd]. rewrite Hhd.
    rewrite Hh in Hsave. cbn [fst] in Hsave.
    exists (file_contents (ss_files s) (fp_fileName (bh_filePos (bi_header b.1)))), [].
    cbn. unfold saved_pos. rewrite Hu. cbn. split; [|done]. unfold file_contents at 1.
    by rewrite Hsave, lookup_insert_eq, app_nil_r.
  - destruct Hf as [Hst Hch Hnd Hroom Hcnt]. cbn [headers fmap list_fmap child_chain] in *.
    destruct Hch as [_ Hch]. split.
    + intros h Hin. apply Hst. by right.
    + by rewrite tip_of_snoc.
    + rewrite !fmap_app in *. cbn in *. by rewrite <- app_assoc.
    + intros name. destruct (Hfs name) as (add & Ea & Hadd). specialize (Hroom name). rewrite Ea, blen_app.
      unfold room_needed in *. cbn [foldr] in Hroom. pose proof (blen_nonneg b.2).
      destruct Hadd as [->| ->]; rewrite ?blen_nil, ?blen_frame; lia.
    + rewrite blen_app, blen_cons, blen_nil. rewrite blen_cons in Hcnt. lia.
Qed.

(** Without validation every block is accepted. *)
Lemma sync_loop_accepts `{Support} m users save prev blocks s hs :
  consistent s hs -> has_module MODULE_BLOCK m = true -> has_module MODULE_USERS m = false ->
  follows s hs blocks ->
  exists s' pr, sync_loop m users save false prev blocks s = (s', Ok tt) /\ run_done save s s' hs pr /\
    kept <$> headers pr = kept <$> headers blocks /\ pr.*2 = blocks.*2.
Proof.
  intros Hc Hb Hu. revert prev s hs Hc. induction blocks as [|b blocks IH]; intros prev s hs Hc Hf.
  { exists s, []. by split; [|split; [apply run_done_nil|]]. }
  destruct (run_one m users save b s hs blocks Hc Hb Hu Hf) as (s1 & pr1 & Hh & Hd1 & Hh1 & Hs1 & Hf1).
  destruct (IH (Some b) s1 (hs ++ headers pr1) (rd_consistent _ _ _ _ _ Hd1) Hf1) as (s2 & pr2 & Hl & Hd2 & Hh2 & Hs2).
  exists s2, (pr1 ++ pr2). rewrite sync_loop_cons. unfold sync_block.
  assert (match prev with Some _ => handle_block m users save b.1 b.2 s | None => handle_block m users save b.1 b.2 s end
    = (s1, Ok tt)) as Hone by by destruct prev.
  rewrite Hone. split; [done|]. split; [by eapply run_done_app|]. unfold headers in *.
  rewrite !fmap_app, Hh1, Hh2, Hs1, Hs2. done.
Qed.

Lemma tip_number s hs :
  consistent s hs -> bc_hashes (ss_blockchain s) !! Z.to_nat (blen hs) = Some (tip_of GENESIS_BLOCK_HASH hs).
Proof.
  intros Hc. rewrite (co_chain _ _ Hc). unfold blen. rewrite Nat2Z.id.
  destruct hs as [|h hs _] using rev_ind; [done|]. rewrite tip_of_snoc, fmap_app, app_comm_cons, length_app.
  rewrite lookup_app_r by (cbn [length]; rewrite length_fmap; lia). cbn [length]. rewrite length_fmap.
  by replace (length hs + 1 - S (length hs))%nat with 0%nat by lia.
Qed.

Lemma countBlocks_consistent s hs :
  consistent s hs -> blen hs < 2 ^ 62 -> countBlocks (ss_blockchain s) = blen hs.
Proof.
  intros Hc Hl. pose proof (blen_nonneg hs). unfold countBlocks. rewrite (co_chain _ _ Hc), blen_cons.
  unfold blen in *. rewrite length_fmap, u64_small by (unfold is_u64; lia). lia.
Qed.

(** The number the chain counts is its last block's. *)
Lemma getLastBlock_consistent s hs :
  consistent s hs -> blen hs < 2 ^ 62 -> exists h, BlockChain.getLastBlock (ss_blockchain s) = Ok h.
Proof.
  intros Hc Hl. unfold BlockChain.getLastBlock, getBlockImpl_number. fold (countBlocks (ss_blockchain s)).
  rewrite (countBlocks_consistent s hs) by done. destruct (_ <=? _); [by eexists|].
  rewrite (tip_number s hs Hc). by eexists.
Qed.

End growth.
