(* ===== verification/RetryFacts.v ===== *)
(** * The blocks a worker missed: facts

    At its start the thread gives every worker the blocks after the last it had
    when the node stopped.  Read from their places in the block files, they are
    exactly the blocks of the chain after that number, in order. *)
From S2P Require Import Prelude External Serialize Address BlockInfo BlockInfoCodec BlockChainInterface.
From S2P Require Import BlockChain BlockChainFacts LevelDb Cache Modules Workers BlockchainUtils PrivateKey.
From S2P Require Import BlockchainRead BlockchainReadFacts Sync SyncFacts FileSource FileSourceFacts.
From S2P Require Import SyncRun SyncRunFacts.
#[local] Open Scope Z_scope.

(** ** The worker that is furthest behind *)

Lemma min_element_le w l n :
  getInitBlockNumber w = Some n \/ (exists w', w' ∈ l /\ getInitBlockNumber w' = Some n) ->
  exists k, getInitBlockNumber (min_element w l) = Some k /\ k <= n.
Proof.
  revert w n. induction l as [|w' l IH]; intros w n Hn; cbn [min_element].
  { destruct Hn as [Hn|(w' & ?%elem_of_nil & _)]; [|done]. exists n. split; [done|lia]. }
  unfold worker_before. destruct Hn as [Hn|(w2 & [->|Hin]%elem_of_cons & Hn)].
  - rewrite Hn. destruct (getInitBlockNumber w') as [a|] eqn:Ha; [|by apply IH; left].
    destruct (Z.ltb_spec a n); [|by apply IH; left].
    destruct (IH w' a) as (k & Hk & Hle); [by left|]. exists k. split; [done|lia].
  - rewrite Hn. destruct (getInitBlockNumber w) as [a|] eqn:Ha; [|by apply IH; left].
    destruct (Z.ltb_spec n a); [by apply IH; left|].
    destruct (IH w a) as (k & Hk & Hle); [by left|]. exists k. split; [done|lia].
  - apply IH. right. eauto.
Qed.

Lemma min_element_in w l : min_element w l = w \/ min_element w l ∈ l.
Proof.
  revert w. induction l as [|w' l IH]; intros w; cbn [min_element]; [by left|].
  destruct (IH (if worker_before w' w then w' else w)) as [->|Hin]; [|by right; right].
  destruct (worker_before w' w); [right; left|by left].
Qed.

(** ** What each worker is given *)

(** The blocks after the worker's number: [bs] are the chain's, from 1 on. *)
Definition missed (bs : list (BlockInfo * bytes)) (w : Worker) : list (BlockInfo * bytes) :=
  match getInitBlockNumber w with Some n => drop (Z.to_nat n) bs | None => [] end.

Definition missed_from (i : nat) (bs : list (BlockInfo * bytes)) (w : Worker) : list (BlockInfo * bytes) :=
  match getInitBlockNumber w with Some n => drop (Nat.max i (Z.to_nat n)) bs | None => [] end.

Definition give (f : Worker -> list (BlockInfo * bytes)) (wq : Worker * Queue) : Worker * Queue :=
  (wq.1, wq.2 ++ f wq.1).

Lemma missed_from_step bs i w b :
  bs !! i = Some b -> (forall n, getInitBlockNumber w = Some n -> 0 <= n) ->
  missed_from i bs w =
    (match getInitBlockNumber w with
     | Some n => if n <? 1 + Z.of_nat i then [b] else []
     | None => []
     end) ++ missed_from (S i) bs w.
Proof.
  intros Hb Hn. unfold missed_from. destruct (getInitBlockNumber w) as [n|]; [|done]. specialize (Hn n eq_refl).
  destruct (Z.ltb_spec n (1 + Z.of_nat i)).
  - rewrite !Nat.max_l by lia. by rewrite (drop_S bs b i).
  - by rewrite !Nat.max_r by lia.
Qed.

Lemma retry_workers_eq number bi d ws :
  bh_blockNumber (bi_header bi) = Some number ->
  retry_workers number bi d ws =
    Ok (give (fun w => match getInitBlockNumber w with
      | Some n => if n <? number then [(bi, d)] else []
      | None => []
      end) <$> ws).
Proof.
  intros Hn. induction ws as [|[w q] ws IH]; [done|]. cbn [retry_workers]. rewrite IH.
  cbn [fmap list_fmap]. unfold give at 2. cbn [fst snd].
  destruct w as [|n|n]; cbn [getInitBlockNumber]; cbn [mbind res_bind].
  - by rewrite app_nil_r.
  - destruct (n <? number) eqn:Hlt; cbn [Worker_process]; [|by rewrite app_nil_r].
    rewrite Hn. cbn [opt_value mbind res_bind]. by rewrite Hlt.
  - destruct (n <? number); cbn [Worker_process mbind res_bind]; [done|by rewrite app_nil_r].
Qed.

Section retry.
Context `{Support} `{Crypto} `{Rapidjson} `{Fs} {D : Type} `{KvLaws D} {S : Type} `{BlockSource D S}.
Variables (isInitialized : bool) (base : Z) (isValidate : bool) (m : Modules) (users : list Address).
Hypothesis Hbase : 0 <= base < 2 ^ 63.
Hypothesis Husers : has_module MODULE_USERS m = false.

#[local] Abbreviation parsed := (parsed isInitialized base isValidate).

(** The block [bi], read again as number [number] with header [h] in the chain. *)
Definition read_again (number : Z) (h : BlockHeader) (bi : BlockInfo) : BlockInfo :=
  let place p := mkFilePosition (fp_pos p) (fp_fileName (bh_filePos h)) in
  mkBlockInfo
    (set_bh_blockNumber (Some number) (set_bh_filePos (place (bh_filePos (bi_header bi))) (bi_header bi)))
    ((fun tx => set_ti_isSaveToBd true (set_ti_blockNumber number (set_ti_filePos (place (ti_filePos tx)) tx)))
       <$> bi_txs bi).

(** The block files hold the chain: every header's place has the block's bytes,
    which parse. *)
Record chain_in_files (fs : Files) (hs : list BlockHeader) (ds : list bytes) (bs : list (BlockInfo * bytes)) : Prop := {
  cf_dumps : length ds = length hs;
  cf_blocks : length bs = length hs;
  cf_held : forall i h d, hs !! i = Some h -> ds !! i = Some d -> held_in_file fs h d;
  cf_names : forall h, h ∈ hs -> fp_fileName (bh_filePos h) <> [] /\
    blen (file_contents fs (fp_fileName (bh_filePos h))) < 2 ^ 62;
  cf_sizes : forall d, d ∈ ds -> 80 <= blen d;
  cf_parsed : forall i h d b, hs !! i = Some h -> ds !! i = Some d -> bs !! i = Some b ->
    exists bi, parsed (fp_pos (bh_filePos h)) d = Ok bi /\ b = (read_again (1 + Z.of_nat i) h bi, d);
}.

Lemma existing_block_again fs hs ds bs i h d b (st : SyncState D) (src : S) :
  ss_files st = fs -> consistent st hs -> chain_in_files fs hs ds bs ->
  hs !! i = Some h -> ds !! i = Some d -> bs !! i = Some b ->
  exists bh bi, getBlock_number (1 + Z.of_nat i) (ss_blockchain st) = Ok bh /\
    existing_block isInitialized base isValidate bh (src, st) = ((src, st), Ok (bi, d)) /\
    filterTransactionsToSave m users bi = Ok b.1 /\ b.2 = d /\
    bh_blockNumber (bi_header b.1) = Some (1 + Z.of_nat i).
Proof.
  intros <- Hc Hf Hh Hd Hb. destruct (consistent_header st hs i h Hc Hh) as (k & Hhash & Hk & Hs & Hn).
  destruct (cf_parsed _ _ _ _ Hf i h d b Hh Hd Hb) as (bi & Hp & ->).
  destruct (cf_names _ _ _ _ Hf h) as [Hfn Hsz]; [by eapply list_elem_of_lookup_2|].
  pose proof (cf_sizes _ _ _ _ Hf d ltac:(by eapply list_elem_of_lookup_2)) as H80.
  destruct (cf_held _ _ _ _ Hf i h d Hh Hd) as (pre & post & Hc1 & Hpos).
  assert (bh_filePos k = bh_filePos h) as Hkf by (by injection Hs).
  exists k. eexists. split.
  { unfold getBlock_number, getBlockImpl_number. apply lookup_lt_Some in Hhash as Hlt.
    rewrite (proj2 (Z.leb_gt _ _)) by (unfold blen; lia).
    replace (Z.to_nat (1 + Z.of_nat i)) with (Datatypes.S i) by lia. rewrite Hhash. cbn [opt_ub mbind res_bind].
    unfold getBlockImpl_hash. by rewrite Hk. }
  split.
  { unfold existing_block, File_getExistingBlockS. cbn [snd]. rewrite Hkf.
    rewrite is_empty_false by done. cbn [negb CHECK mbind res_bind]. unfold openFile.
    rewrite is_empty_false by done. cbn [negb CHECK mbind res_bind d_files].
    destruct (ss_files st !! fp_fileName (bh_filePos h)) as [c|] eqn:Hfile.
    2: { unfold file_contents in Hc1. rewrite Hfile in Hc1. cbn [default] in Hc1.
         apply (f_equal blen) in Hc1. rewrite !blen_app, blen_frame, blen_nil in Hc1.
         pose proof (blen_nonneg pre). pose proof (blen_nonneg post). pose proof (blen_nonneg d). lia. }
    rewrite bool_decide_true by eauto. cbn [CHECK mbind res_bind read_stream d_files]. rewrite Hfile.
    unfold file_contents in *. rewrite Hfile in *. cbn [default id] in *. subst c. rewrite Hpos in *.
    rewrite !blen_app, blen_frame in Hsz.
    pose proof (blen_nonneg pre). pose proof (blen_nonneg post).
    rewrite readNextBlockInfo_file_at by (rewrite ?blen_app, ?blen_frame; lia).
    unfold FileSourceFacts.parsed in Hp. rewrite Hp. cbn [mbind res_bind].
    rewrite (proj2 (Z.eqb_neq _ _)) by (rewrite blen_frame; lia). cbn [negb CHECK mbind res_bind in_file bi_txs].
    rewrite Hn. set (txs := _ <$> bi_txs bi).
    assert ((match txs with [] => Ok [] | _ :: _ =>
      number ← opt_value (Some (1 + Z.of_nat i)); Ok (set_ti_blockNumber number <$> txs) end) =
      Ok (set_ti_blockNumber (1 + Z.of_nat i) <$> txs)) as -> by by destruct txs.
    cbn [mbind res_bind]. reflexivity. }
  rewrite filter_all by done. cbn [bi_header bi_txs]. split; [|done]. unfold read_again.
  by rewrite <- !list_fmap_compose.
Qed.

(** [k] blocks from number [1 + i] on. *)
Lemma retry_blocks_eq hs ds bs (st : SyncState D) (src : S) k i ws :
  consistent st hs -> chain_in_files (ss_files st) hs ds bs -> (i + k = length bs)%nat ->
  (forall w n, w ∈ ws.*1 -> getInitBlockNumber w = Some n -> 0 <= n) ->
  retry_blocks isInitialized base isValidate m users k (1 + Z.of_nat i) ws (src, st) =
    ((src, st), Ok (give (missed_from i bs) <$> ws)).
Proof.
  intros Hc Hf. revert i ws. induction k as [|k IH]; intros i ws Hk Hws; cbn [retry_blocks].
  { unfold mret'. do 2 f_equal. rewrite <- (list_fmap_id ws) at 1. apply list_fmap_ext. intros _ [w q] _.
    unfold give, missed_from. cbn [fst snd]. destruct (getInitBlockNumber w); [|by rewrite app_nil_r].
    rewrite drop_ge by lia. by rewrite app_nil_r. }
  destruct (lookup_lt_is_Some_2 bs i) as [b Hb]; [lia|].
  destruct (lookup_lt_is_Some_2 hs i) as [h Hh]; [rewrite <- (cf_blocks _ _ _ _ Hf); lia|].
  destruct (lookup_lt_is_Some_2 ds i) as [d Hd]; [rewrite (cf_dumps _ _ _ _ Hf), <- (cf_blocks _ _ _ _ Hf); lia|].
  destruct (existing_block_again _ hs ds bs i h d b st src eq_refl Hc Hf Hh Hd Hb)
    as (bh & bi & Hbh & Hex & Hfl & Hdump & Hnum).
  unfold mbind', mget, mlift. cbn [snd]. rewrite Hbh, Hex, Hfl, (retry_workers_eq _ _ _ _ Hnum).
  replace (1 + Z.of_nat i + 1) with (1 + Z.of_nat (Datatypes.S i)) by lia. rewrite IH; [|lia|].
  - do 2 f_equal. rewrite <- list_fmap_compose. apply list_fmap_ext. intros j [w q] Hj. unfold give, compose.
    cbn [fst snd]. rewrite (missed_from_step bs i w b Hb), app_assoc.
    + destruct b as [b1 b2]. cbn [fst snd] in *. by rewrite Hdump.
    + intros n. apply Hws, list_elem_of_fmap. exists (w, q). split; [done|by eapply list_elem_of_lookup_2].
  - intros w n. rewrite <- list_fmap_compose. apply Hws.
Qed.

(** Every worker gets the blocks after its own. *)
Lemma retry_eq hs ds bs (st : SyncState D) (src : S) ws :
  consistent st hs -> chain_in_files (ss_files st) hs ds bs -> blen hs < 2 ^ 62 ->
  (forall w n, w ∈ ws.*1 -> getInitBlockNumber w = Some n -> 0 <= n < 2 ^ 62) ->
  retry isInitialized base isValidate m users ws (src, st) = ((src, st), Ok (give (missed bs) <$> ws)).
Proof.
  intros Hc Hf Hlen Hws. unfold retry. cbn [snd]. rewrite (countBlocks_consistent st hs) by done.
  assert (blen bs = blen hs) as Hbs by (unfold blen; by rewrite (cf_blocks _ _ _ _ Hf)).
  unfold fromBlockNumber. destruct ws.*1 as [|w l] eqn:Ew.
  { by destruct ws. }
  destruct (getInitBlockNumber (min_element w l)) as [n|] eqn:Hmin; cbn [fmap option_fmap option_map].
  - assert (0 <= n < 2 ^ 62) as Hn.
    { eapply Hws; [|exact Hmin]. destruct (min_element_in w l) as [->|Hin]; [by left|by right]. }
    rewrite u64_small by (unfold is_u64; lia).
    assert (forall w' n', w' ∈ w :: l -> getInitBlockNumber w' = Some n' -> n <= n') as Hle.
    { intros w' n' Hin Hn'. destruct (min_element_le w l n') as (k & Hk & Hkn).
      - apply elem_of_cons in Hin as [->|Hin]; [by left|right; eauto].
      - rewrite Hmin in Hk. injection Hk as <-. done. }
    destruct (Z.leb_spec n (blen hs)) as [Hnh|Hnh].
    + replace (n + 1) with (1 + Z.of_nat (Z.to_nat n)) by lia.
      rewrite (retry_blocks_eq hs ds bs st src _ (Z.to_nat n)); [|done|done|unfold blen in *; lia|].
      * do 2 f_equal. apply list_fmap_ext. intros j [w' q] Hj. unfold give, missed_from, missed. cbn [fst snd].
        destruct (getInitBlockNumber w') as [n'|] eqn:Hn'; [|done]. rewrite Nat.max_r; [done|].
        assert (n <= n'); [|lia]. eapply Hle; [|exact Hn']. rewrite <- Ew. apply list_elem_of_fmap.
        exists (w', q). split; [done|by eapply list_elem_of_lookup_2].
      * intros w' n' Hin Hn'. rewrite Ew in Hin. by apply (Hws w' n' Hin).
    + replace (Z.to_nat (blen hs - (n + 1) + 1)) with O by lia. cbn [retry_blocks]. unfold mret'. do 2 f_equal.
      rewrite <- (list_fmap_id ws) at 1. apply list_fmap_ext. intros j [w' q] Hj.
      unfold give, missed. cbn [fst snd]. destruct (getInitBlockNumber w') as [n'|] eqn:Hn'; [|by rewrite app_nil_r].
      assert (n <= n').
      { eapply Hle; [|exact Hn']. rewrite <- Ew. apply list_elem_of_fmap.
        exists (w', q). split; [done|by eapply list_elem_of_lookup_2]. }
      rewrite drop_ge by (unfold blen in *; lia). by rewrite app_nil_r.
  - do 2 f_equal. rewrite <- (list_fmap_id ws) at 1. apply list_fmap_ext. intros j [w' q] Hj.
    unfold give, missed. cbn [fst snd]. destruct (getInitBlockNumber w') as [n'|] eqn:Hn'; [|by rewrite app_nil_r].
    exfalso. destruct (min_element_le w l n') as (k & Hk & _); [|congruence].
    assert (w' ∈ w :: l) as Hin.
    { rewrite <- Ew. apply list_elem_of_fmap. exists (w', q). split; [done|by eapply list_elem_of_lookup_2]. }
    apply elem_of_cons in Hin as [->|Hin]; [by left|right; eauto].
Qed.

(** What the thread does before its first round, on a database it has used
    before and block files that hold the chain. *)
Lemma start_eq hs ds bs (st : SyncState D) (src src' : S) mbi nodeTestInit workers :
  isInitialized = true -> has_module MODULE_BLOCK m = true ->
  check_settings m (ss_leveldb st) = (ss_leveldb st, Ok tt) ->
  (raw ← findMainBlock (ss_leveldb st); MainBlockInfo_deserialize raw) = Ok mbi ->
  make_workers m (mb_blockNumber mbi) nodeTestInit = Ok workers ->
  (forall w n, w ∈ workers -> getInitBlockNumber w = Some n -> 0 <= n < 2 ^ 62) ->
  bs_initialize (ss_leveldb st) src = (src', Ok tt) ->
  consistent st hs -> chain_in_files (ss_files st) hs ds bs -> blen hs < 2 ^ 62 ->
  forall chain0, exists chain',
    let started := mkSyncState (ss_leveldb st) chain' (ss_files st) (ss_processed st) in
    synchronize_start isInitialized base isValidate m users nodeTestInit
      (src, mkSyncState (ss_leveldb st) chain0 (ss_files st) (ss_processed st)) =
      ((src', started), Ok ((fun w => (w, missed bs w)) <$> workers)) /\
    consistent started hs.
Proof.
  intros Hini Hm Hset Hmain Hw Hn Hinit Hc Hf Hlen chain0.
  destruct (load_consistent st hs chain0 Hc) as (chain' & Hload & _).
  destruct (restart_consistent st hs chain0 chain' (Ok tt) (ss_files st) (ss_processed st) Hc Hload) as [_ Hc'].
  exists chain'. split; [|exact Hc'].
  destruct (dh_meta _ _ (co_db _ _ Hc)) as (bm & Hbm & _).
  unfold synchronize_start, mbind', mlift, mget, on_db, on_source, on_chain. rewrite Hm.
  assert (CHECK isInitialized (str "Not initialized") = Ok tt) as -> by (by rewrite Hini).
  cbn [CHECK fst snd ss_leveldb].
  rewrite Hset. cbn [fst snd ss_leveldb ss_blockchain ss_files ss_processed]. rewrite Hbm, Hinit.
  cbn [fst snd ss_leveldb ss_blockchain ss_files ss_processed]. rewrite Hload.
  cbn [fst snd ss_leveldb ss_blockchain ss_files ss_processed]. rewrite Hmain, Hw.
  rewrite (retry_eq hs ds bs); [|exact Hc'|exact Hf|done|].
  - do 2 f_equal. rewrite <- list_fmap_compose. by apply list_fmap_ext.
  - intros w n Hin. apply Hn. by rewrite <- list_fmap_compose, list_fmap_id in Hin.
Qed.

End retry.
