(* ===== verification/WorkerThread.v ===== *)
(** * The synchronisation thread and the main worker's thread

    The two threads run over one database: the first takes a block up in the
    chain, pushes it into the worker's queue - which has one place, so that it
    may have to wait - and stores its header after that; the second takes blocks
    out and stores the number and the hash of the last.  They come in any order;
    the program can be stopped between any two of their accesses, which loses the
    queue and a header not stored yet, and started again, and then the first
    thread begins with the blocks the worker missed.  What the worker stored is
    never behind what it is still to be given, and never ahead of the chain by
    more than the block whose header was lost. *)
From S2P Require Import Prelude External Serialize Ordered Address BlockInfo BlockInfoCodec BlockChainInterface.
From S2P Require Import BlockChain BlockChainFacts LevelDb Cache Modules Workers WorkersFacts BlockchainUtils.
From S2P Require Import PrivateKey BlockchainRead BlockchainReadFacts Sync SyncFacts FileSource FileSourceFacts.
From S2P Require Import SyncRun SyncRunFacts RetryFacts.
#[local] Open Scope Z_scope.

(** ** What the writers of the database leave of each other's *)

Section writers.
Context {D : Type} `{KvLaws D} `{Fs}.

(** The keys with one value, other than the metadata of the headers. *)
Definition own_keys : list bytes := [MAIN_BLOCK_NUMBER_PREFIX; MODULES_KEY; VERSION_DB_KEY].

Definition same_keys (db db' : D) : Prop :=
  kv_ok db' /\ forall key, key ∈ own_keys -> omap_find key (kv_iter db') = omap_find key (kv_iter db).

Lemma same_keys_find db db' key :
  kv_ok db -> same_keys db db' -> key ∈ own_keys ->
  findOneValueWithoutCheck key db' = findOneValueWithoutCheck key db.
Proof. intros Hok [Hok' Hk] Hin. rewrite !findOneValueWithoutCheck_eq by done. by rewrite Hk. Qed.

Lemma saveBlock_same_keys m bi db db' :
  kv_ok db -> saveBlockToLeveldb m bi db = (db', Ok tt) -> same_keys db db'.
Proof.
  intros Hok Hs. unfold saveBlockToLeveldb in Hs.
  destruct (_ ≫= _) as [batch| | |] eqn:Hb in Hs; [|discriminate Hs..].
  destruct (addBatch_eq batch db Hok) as (db1 & Ha & Hok1 & Hit). rewrite Ha in Hs. injection Hs as <-.
  split; [done|]. intros key Hkey. rewrite Hit. apply bind_Ok_inv in Hb as (b1 & Hb1 & Hb).
  apply bind_Ok_inv in Hb as (raw & _ & Hb). apply bind_Ok_inv in Hb as (mt & _ & Hb).
  apply bind_Ok_inv in Hb as (value & _ & Hb). unfold addFileMetadata in Hb.
  apply bind_Ok_inv in Hb as (fkey & Hf & [= <-]). unfold makeFileKey in Hf.
  apply bind_Ok_inv in Hf as (_ & _ & [= <-]).
  assert (exists l, b_batch b1 = l /\ (l = [] \/ exists hash v, l = [KvPut (BLOCK_PREFIX ++ hash) v])) as (l & Hl & Hcase).
  { eexists. split; [done|]. destruct (has_module MODULE_BLOCK m); [right|left; by injection Hb1 as <-].
    apply bind_Ok_inv in Hb1 as (v & _ & Hb1). unfold addBlockHeader in Hb1.
    apply bind_Ok_inv in Hb1 as (bkey & Hk & [= <-]). unfold makeBlockKey in Hk.
    apply bind_Ok_inv in Hk as (_ & _ & [= <-]). by eexists _, _. }
  cbn [addKey addBlockMetadata b_batch]. rewrite Hl.
  unfold own_keys in Hkey. rewrite !elem_of_cons, elem_of_nil in Hkey.
  destruct Hcase as [->|(hash & v & ->)]; cbn [app foldl kv_apply]; rewrite !omap_find_set;
    destruct Hkey as [->|[->|[->|[]]]]; by repeat rewrite decide_False by done.
Qed.

(** The worker writes its own record only. *)
Lemma WorkerMain_step_db bi (w : WorkerMain D) :
  kv_ok (wm_leveldb w) -> let w' := (WorkerMain_step bi w).1 in
  wm_lastSavedBlock w' = wm_lastSavedBlock w /\
  (wm_leveldb w' = wm_leveldb w \/ kv_ok (wm_leveldb w') /\
    exists v, kv_iter (wm_leveldb w') = omap_set MAIN_BLOCK_NUMBER_PREFIX v (kv_iter (wm_leveldb w))).
Proof.
  intros Hok. unfold WorkerMain_step.
  destruct (bh_blockNumber _) as [n|]; [|by split; [|left]].
  destruct (_ ≫= _) as [old| | |]; [|by split; [|left]..]. cbn zeta.
  destruct (n <=? _); [by split; [|left]|]. destruct (negb _); [by split; [|left]|].
  destruct (MainBlockInfo_serialize _) as [v| | |]; [|by split; [|left]..].
  destruct (addBatch_eq (addMainBlock v (Batch_new false)) (wm_leveldb w) Hok) as (db' & -> & Hok' & Hit).
  cbn. split; [done|]. right. split; [done|]. by exists v.
Qed.

Lemma db_holds_main (db db' : D) hs v :
  db_holds db hs -> kv_ok db' -> kv_iter db' = omap_set MAIN_BLOCK_NUMBER_PREFIX v (kv_iter db) ->
  db_holds db' hs.
Proof.
  intros [Hok Hb (mt & Hm & Hmh & Hmp)] Hok' Hit. split; [done|..].
  - unfold block_entries. rewrite Hit, (omap_set_filter (has_prefix BLOCK_PREFIX)) by done. exact Hb.
  - exists mt. split; [|done]. rewrite <- Hm. unfold findBlockMetadata.
    rewrite !findOneValueWithoutCheck_eq by done. by rewrite Hit, omap_find_set, decide_False by done.
Qed.

(** The settings of a database that was used before. *)
Lemma settings_kept m (db db' : D) :
  check_settings m db = (db, Ok tt) -> findModules db' = findModules db -> findVersionDb db' = findVersionDb db ->
  (exists s, findModules db = Ok s /\ s <> []) -> (exists s, findVersionDb db = Ok s /\ s <> []) ->
  check_settings m db' = (db', Ok tt).
Proof.
  intros Hc Hm Hv (s & Hs & Hsn) (v & Hv' & Hvn). unfold check_settings in *. rewrite Hm, Hs in *.
  rewrite is_empty_false in * by done. cbn [negb] in *.
  destruct (_ ≫= _) as [u| | |]; try discriminate Hc. rewrite Hv, Hv' in *. rewrite is_empty_false in * by done.
  cbn [negb] in *. by injection Hc as ->.
Qed.

End writers.

(** ** The two threads *)

(** [nt_pending] is the block the first thread has in the chain and has not
    stored; [nt_pushing] are the blocks it still has to push into the main
    worker's queue; the rest is the main worker's: its queue and its memory. *)
Record NodeThreads (D : Type) := mkNodeThreads {
  nt_sync : SyncState D;
  nt_pending : option BlockInfo;
  nt_pushing : Queue;
  nt_queue : Queue;
  nt_caches : AllCaches;
  nt_countVal : Z;
  nt_lastSavedBlock : Z;
}.
Arguments mkNodeThreads {D}.
Arguments nt_sync {D}.
Arguments nt_pending {D}.
Arguments nt_pushing {D}.
Arguments nt_queue {D}.
Arguments nt_caches {D}.
Arguments nt_countVal {D}.
Arguments nt_lastSavedBlock {D}.

Section threads.
Context {D : Type} `{Kv D} `{Fs}.

Definition nt_leveldb (n : NodeThreads D) : D := ss_leveldb (nt_sync n).

Definition set_leveldb (db : D) (s : SyncState D) : SyncState D :=
  mkSyncState db (ss_blockchain s) (ss_files s) (ss_processed s).

(** The worker's object, with the database it shares. *)
Definition main_worker (n : NodeThreads D) : WorkerMain D :=
  mkWorkerMain (nt_leveldb n) (nt_caches n) (nt_countVal n) (nt_lastSavedBlock n).

(** The first thread takes a block up in its file and in the chain, and goes on
    to the workers: the main worker's [process] pushes it when it is new. *)
(* src: SyncImpl.cpp:311-331 SyncImpl::synchronize, worker->process *)
Definition hand_over (m : Modules) (users : list Address) (save : bool) (b : BlockInfo * bytes)
    (n : NodeThreads D) : NodeThreads D :=
  let with_state st pending pushing :=
    mkNodeThreads st pending pushing (nt_queue n) (nt_caches n) (nt_countVal n) (nt_lastSavedBlock n) in
  match accept_block m users save b.1 b.2 (nt_sync n) with
  | (st, Ok bi) =>
      match Worker_process bi b.2 (MainWorker (nt_lastSavedBlock n)) [] with
      | Ok pushing => with_state st (Some bi) pushing
      | _ => with_state st None []
      end
  | (st, _) => with_state st None []
  end.

(* src: Workers/WorkerMain.h:76-76 WorkerMain, queue *)
Definition MAIN_QUEUE_SIZE : nat := 1.

(** It pushes a block, if there is a place. *)
(* src: Workers/WorkerMain.cpp:117-121 WorkerMain::process, push *)
Definition push_next (n : NodeThreads D) : NodeThreads D :=
  match nt_pushing n with
  | e :: pushing =>
      if (length (nt_queue n) <? MAIN_QUEUE_SIZE)%nat then
        mkNodeThreads (nt_sync n) (nt_pending n) pushing (nt_queue n ++ [e])
          (nt_caches n) (nt_countVal n) (nt_lastSavedBlock n)
      else n
  | [] => n
  end.

(** It stores the block's header. *)
(* src: SyncImpl.cpp:333-333 SyncImpl::synchronize, saveBlockToLeveldb *)
Definition store_pending (m : Modules) (n : NodeThreads D) : NodeThreads D :=
  match nt_pending n with
  | Some bi =>
      let '(db, _) := saveBlockToLeveldb m bi (nt_leveldb n) in
      mkNodeThreads (set_leveldb db (nt_sync n)) None (nt_pushing n) (nt_queue n) (nt_caches n) (nt_countVal n) (nt_lastSavedBlock n)
  | None => n
  end.

(** The worker takes a block out of its queue and handles it. *)
(* src: Workers/WorkerMain.cpp:55-110 WorkerMain::worker, while *)
Definition worker_turn (n : NodeThreads D) : NodeThreads D :=
  match nt_queue n with
  | [] => n
  | (bi, _) :: queue =>
      let '(w, _) := WorkerMain_step bi (main_worker n) in
      mkNodeThreads (set_leveldb (wm_leveldb w) (nt_sync n)) (nt_pending n) (nt_pushing n) queue
        (wm_caches w) (wm_countVal w) (wm_lastSavedBlock w)
  end.

Context `{Support} `{Crypto} `{Rapidjson} {S : Type} `{BlockSource D S}.
Variables (base : Z) (isValidate : bool) (m : Modules) (users : list Address).

(** The blocks of the network's chain. *)
Variable blocks : list (BlockInfo * bytes).

Definition room_for (n : NodeThreads D) (d : bytes) : Prop :=
  forall name, blen (file_contents (ss_files (nt_sync n)) name) + 8 + blen d < 2 ^ 62.

(** The steps: the first thread is given the block of the network that follows
    its chain when it is done with the one before; a restart can find anything in
    memory and the source in any state, and leaves the first thread with the
    blocks the worker missed - which it reads from the files one by one, between
    its pushes; nothing else writes there meanwhile.  A start that ends with an
    exception is not a step. *)
Inductive node_step (n : NodeThreads D) : NodeThreads D -> Prop :=
  | nstep_hand b :
      nt_pending n = None -> nt_pushing n = [] -> blocks !! (length (bc_hashes (ss_blockchain (nt_sync n))) - 1)%nat = Some b ->
      room_for n b.2 -> node_step n (hand_over m users true b n)
  | nstep_push : node_step n (push_next n)
  | nstep_store : nt_pushing n = [] -> node_step n (store_pending m n)
  | nstep_work : node_step n (worker_turn n)
  | nstep_restart chain0 (src src' : S) st nodeTestInit ws k queue w caches :
      (forall t, nodeTestInit = Some t -> 0 <= t < 2 ^ 62) ->
      synchronize_start true base isValidate m users nodeTestInit
        (src, mkSyncState (nt_leveldb n) chain0 (ss_files (nt_sync n)) []) = ((src', st), Ok ws) ->
      (MainWorker k, queue) ∈ ws -> WorkerMain_new (ss_leveldb st) caches = Ok w ->
      node_step n (mkNodeThreads st None queue [] caches (wm_countVal w) (wm_lastSavedBlock w)).

(** What empties the queue: the worker takes a block out of it, or the first
    thread pushes one it holds. *)
Inductive drain_step (n : NodeThreads D) : NodeThreads D -> Prop :=
  | drain_work : nt_queue n <> [] -> drain_step n (worker_turn n)
  | drain_push : nt_pushing n <> [] -> (length (nt_queue n) < MAIN_QUEUE_SIZE)%nat -> drain_step n (push_next n).

(** What the worker is still to be given. *)
Definition nt_waiting (n : NodeThreads D) : Queue := nt_queue n ++ nt_pushing n.

End threads.

(** ** Between the threads *)

Section invariant.
Context {D : Type} `{KvLaws D} `{Fs} `{Support} `{Crypto} `{Rapidjson} {S : Type} `{BlockSource D S}.
Variables (base : Z) (isValidate : bool) (m : Modules) (users : list Address).
Hypothesis Hbase : 0 <= base < 2 ^ 63.
Hypothesis Hblock : has_module MODULE_BLOCK m = true.
Hypothesis Husers : has_module MODULE_USERS m = false.

#[local] Abbreviation parsed := (parsed true base isValidate).

Variable blocks : list (BlockInfo * bytes).

(** The network's chain: blocks that follow each other, each the bytes of its
    dump. *)
Record good_chain : Prop := {
  gc_storable : forall h, h ∈ headers blocks -> header_storable h;
  gc_child : child_chain GENESIS_BLOCK_HASH (headers blocks);
  gc_once : NoDup (GENESIS_BLOCK_HASH :: (bh_hash <$> headers blocks));
  gc_count : blen blocks + 2 < 2 ^ 62;
  gc_dump : forall b, b ∈ blocks -> bh_hash (bi_header b.1) = dump_hash b.2 /\
    bh_prevHash (bi_header b.1) = dump_prevHash b.2 /\ blen (bh_hash (bi_header b.1)) < 2 ^ 63;
  gc_parsed : forall b pos, b ∈ blocks -> 0 <= pos < 2 ^ 62 -> 80 <= blen b.2 /\ is_ok (parsed pos b.2) = true;
}.
Hypothesis Hchain : good_chain.

(** The hash the worker stores with the number [j]. *)
Definition hash_at (j : nat) : bytes :=
  match j with O => [] | Datatypes.S j => default [] ((fun b => bh_hash (bi_header b.1)) <$> blocks !! j) end.

(** The block in the queue is the chain's with the number [j + 1]. *)
Definition queued (j : nat) (e : BlockInfo * bytes) : Prop :=
  exists b, blocks !! j = Some b /\ bh_blockNumber (bi_header e.1) = Some (1 + Z.of_nat j) /\
    bh_hash (bi_header e.1) = bh_hash (bi_header b.1) /\ bh_prevHash (bi_header e.1) = bh_prevHash (bi_header b.1).

(** The chain in memory is the genesis block and [hs]. *)
Record chain_holds (chain : BlockChain) (hs : list BlockHeader) : Prop := {
  ch_hashes : bc_hashes chain = GENESIS_BLOCK_HASH :: (bh_hash <$> hs);
  ch_settled : settled chain;
  ch_child : child_chain GENESIS_BLOCK_HASH hs;
  ch_headers : remembers chain hs;
}.

Lemma consistent_split (s : SyncState D) hs :
  consistent s hs <-> chain_holds (ss_blockchain s) hs /\ db_holds (ss_leveldb s) hs.
Proof. split; [intros []; by split; [split|]|by intros [[] ?]; split]. Qed.

(** A block that waits to be stored can be. *)
Definition storable_next (bi : BlockInfo) : Prop :=
  let h := bi_header bi in
  bh_wf h /\ blen (header_bytes h) < 2 ^ 64 - 16 /\ fs_filename (fp_fileName (bh_filePos h)) <> [].

Definition known_settings (db : D) : Prop :=
  check_settings m db = (db, Ok tt) /\
  (exists s, findModules db = Ok s /\ s <> []) /\ (exists s, findVersionDb db = Ok s /\ s <> []).

(** The node between any two accesses: [hs] are the headers stored, [w] is the
    number of the worker's last block. *)
Record in_step (n : NodeThreads D) (hs : list BlockHeader) (w : nat) : Prop := {
  is_db : db_holds (nt_leveldb n) hs;
  is_settings : known_settings (nt_leveldb n);
  is_old : exists c, chain_holds c hs;
  is_chain : chain_holds (ss_blockchain (nt_sync n)) (hs ++ option_list (bi_header <$> nt_pending n));
  is_pending : forall bi, nt_pending n = Some bi -> storable_next bi;
  is_blocks : forall i h, (hs ++ option_list (bi_header <$> nt_pending n)) !! i = Some h -> exists b,
    blocks !! i = Some b /\ kept h = kept (bi_header b.1) /\ held_in_file (ss_files (nt_sync n)) h b.2;
  is_room : forall name, blen (file_contents (ss_files (nt_sync n)) name) < 2 ^ 62;
  is_worker : f_ok (main_worker n) /\ f_saved (main_worker n) = (Z.of_nat w, hash_at w);
  is_saved : (w <= length hs + 1)%nat /\ 0 <= nt_lastSavedBlock n <= Z.of_nat w /\
    ((length hs + length (option_list (nt_pending n)) < w)%nat -> nt_lastSavedBlock n = Z.of_nat w);
  is_queue : (forall i e, nt_waiting n !! i = Some e -> queued (w + i) e) /\
    length (nt_waiting n) = (length hs + length (option_list (nt_pending n)) - w)%nat;
  is_places : (length (nt_queue n) <= MAIN_QUEUE_SIZE)%nat;
}.

(** The chain's length, pending block included. *)
Lemma chain_length n hs w :
  in_step n hs w -> length (bc_hashes (ss_blockchain (nt_sync n))) =
    (1 + (length hs + length (option_list (nt_pending n))))%nat.
Proof.
  intros Hi. rewrite (ch_hashes _ _ (is_chain _ _ _ Hi)). cbn [length]. rewrite length_fmap, length_app.
  by destruct (nt_pending n).
Qed.

Lemma same_keys_worker (db db' : D) (n : NodeThreads D) w :
  kv_ok db -> same_keys db db' -> nt_leveldb n = db ->
  f_ok (main_worker n) -> f_saved (main_worker n) = w ->
  forall st p ps q, let n' := mkNodeThreads (set_leveldb db' st) p ps q (nt_caches n) (nt_countVal n) (nt_lastSavedBlock n) in
  f_ok (main_worker n') /\ f_saved (main_worker n') = w.
Proof.
  intros Hok Hk <- (_ & Hd & Hc) Hs st p ps q n'. cbn in *.
  assert (main_saved db' = main_saved (nt_leveldb n)) as E.
  { unfold main_saved, findMainBlock. rewrite (same_keys_find (nt_leveldb n) db'); [done..|by left]. }
  change (nt_leveldb n') with db'. rewrite E. split; [|done]. split; [apply Hk|by split].
Qed.

Lemma same_keys_settings (db db' : D) :
  kv_ok db -> same_keys db db' -> known_settings db -> known_settings db'.
Proof.
  intros Hok Hk (Hc & Hm & Hv).
  assert (findModules db' = findModules db) as Em
    by (apply same_keys_find; [done..|right; by left]).
  assert (findVersionDb db' = findVersionDb db) as Ev
    by (apply same_keys_find; [done..|do 2 right; by left]).
  split; [by eapply settings_kept|by rewrite Em, Ev].
Qed.

(** What the record of the worker says: it handled the chain's blocks up to
    the number [w]. *)
Definition worker_at (w : nat) (n : NodeThreads D) : Prop :=
  exists mbi, main_saved (nt_leveldb n) = Ok mbi /\
    mb_blockNumber mbi = Z.of_nat w /\ mb_blockHash mbi = hash_at w.

Lemma in_step_saved n hs w : in_step n hs w -> worker_at w n.
Proof.
  intros Hi. destruct (is_worker _ _ _ Hi) as [(_ & Hd & _) Hs]. cbn in Hd, Hs.
  change (wm_leveldb (main_worker n)) with (nt_leveldb n) in *.
  unfold worker_at.
  destruct (main_saved (nt_leveldb n)) as [mbi| | |]; try done. exists mbi. by injection Hs as -> ->.
Qed.

(** ** Each access *)

Lemma store_in_step n hs w :
  in_step n hs w -> exists hs', in_step (store_pending m n) hs' w.
Proof.
  intros Hi. unfold store_pending. destruct (nt_pending n) as [bi|] eqn:Hp; [|by exists hs].
  pose proof Hi as [Hdb Hset Hold Hch Hpd Hbl Hroom [Hok Hsv] Hsaved Hq Hpl]. rewrite Hp in *. cbn [option_list fmap option_fmap option_map] in *.
  destruct (Hpd bi eq_refl) as (Hwf & Hsz & Hfn). pose proof Hch as [Hh Hst Hcc Hrem].
  apply child_chain_app in Hcc as [Hcc [Hprev _]].
  pose proof (settled_NoDup _ Hst) as Hnd. rewrite Hh, fmap_app, app_comm_cons in Hnd.
  apply NoDup_app in Hnd as (Hnd & Hdis & _).
  destruct (db_holds_snoc m bi (nt_leveldb n) hs Hdb Hblock Hcc Hnd Hwf Hsz Hfn Hprev) as (db' & Hs & Hdb').
  { intros Hin. apply (Hdis (bh_hash (bi_header bi))); [by apply list_elem_of_further|by apply list_elem_of_here]. }
  rewrite Hs. exists (hs ++ [bi_header bi]).
  pose proof (saveBlock_same_keys m bi _ _ (dh_ok _ _ Hdb) Hs) as Hk.
  destruct (same_keys_worker _ _ n _ (dh_ok _ _ Hdb) Hk eq_refl Hok Hsv (nt_sync n) None (nt_pushing n) (nt_queue n)) as [Hok' Hsv'].
  cbn [option_list length] in *.
  split; cbn [nt_pending nt_sync nt_queue nt_lastSavedBlock option_list fmap option_fmap option_map set_leveldb ss_blockchain ss_files];
    rewrite ?app_nil_r, ?length_app; cbn [length]; rewrite ?Nat.add_0_r; try done.
  - exact (same_keys_settings _ _ (dh_ok _ _ Hdb) Hk Hset).
  - by eexists.
  - split; [lia|apply Hsaved].
Qed.

Lemma queued_accept (n : NodeThreads D) w bi d :
  f_saved (main_worker n) = (Z.of_nat w, hash_at w) -> queued w (bi, d) ->
  f_verdict bi (main_worker n) = Accept.
Proof.
  intros Hs (b & Hb & Hn & Hh & Hp). unfold f_verdict. cbn [fst] in *. rewrite Hn, Hs. cbn [fst snd].
  destruct (Z.leb_spec (1 + Z.of_nat w) (Z.of_nat w)); [lia|]. destruct w as [|w]; [done|].
  rewrite (bool_decide_true (hash_at _ = _)); [by rewrite orb_true_r|]. cbn [hash_at].
  destruct (lookup_lt_is_Some_2 blocks w) as [b0 Hb0]; [apply lookup_lt_Some in Hb; lia|].
  rewrite Hb0. cbn. rewrite Hp. symmetry.
  apply (child_chain_lookup GENESIS_BLOCK_HASH (headers blocks) w); [apply Hchain|..]; unfold headers;
    rewrite list_lookup_fmap; [by rewrite Hb0|by rewrite Hb].
Qed.

Lemma work_in_step n hs w e queue :
  in_step n hs w -> nt_queue n = e :: queue -> in_step (worker_turn n) hs (Datatypes.S w).
Proof.
  intros Hi Hqn. unfold worker_turn. rewrite Hqn. destruct e as [bi d].
  pose proof Hi as [Hdb Hset Hold Hch Hpd Hbl Hroom [Hok Hsv] [Hw [Hl Hlw]] [Hq Hql] Hpl].
  unfold nt_waiting in Hq, Hql. rewrite Hqn in *. cbn [app] in *.
  pose proof (Hq 0%nat _ eq_refl) as Hq0. rewrite Nat.add_0_r in Hq0.
  pose proof (queued_accept n w bi d Hsv Hq0) as Hv.
  destruct Hq0 as (b & Hb & Hn & Hh & Hp). cbn [fst] in *.
  pose proof (list_elem_of_lookup_2 _ _ _ Hb) as Hin.
  destruct (gc_storable Hchain (bi_header b.1)) as [Hwf _ _ _ _]; [by apply (list_elem_of_fmap_2 (fun b => bi_header b.1))|].
  assert (is_u64 (1 + Z.of_nat w)) as Hu.
  { apply lookup_lt_Some in Hb. pose proof (gc_count Hchain). unfold blen, is_u64 in *. lia. }
  destruct (f_move (main_worker n) bi _ Hok Hv Hn Hu) as [Hok' Hsv'].
  { rewrite Hh. apply Hwf. }
  { cbn. rewrite Hh. by apply (gc_dump Hchain). }
  pose proof (WorkerMain_step_db bi (main_worker n) (dh_ok _ _ Hdb)) as (Hls & Hcase). cbn [f_step WorkerMain_follower] in *.
  destruct (WorkerMain_step bi (main_worker n)) as [w1 r]. cbn [fst] in *.
  assert (db_holds (wm_leveldb w1) hs /\ known_settings (wm_leveldb w1)) as [Hdb' Hset'].
  { destruct Hcase as [->|[Hk (v & Hit)]]; [done|]. split; [by eapply db_holds_main|].
    destruct Hset as (Hc & Hm & Hvs). assert (forall key, key <> MAIN_BLOCK_NUMBER_PREFIX ->
      findOneValueWithoutCheck key (wm_leveldb w1) = findOneValueWithoutCheck key (nt_leveldb n)) as Hf.
    { intros key Hne. rewrite !findOneValueWithoutCheck_eq by first [done|apply Hdb].
      change (wm_leveldb (main_worker n)) with (nt_leveldb n) in Hit. by rewrite Hit, omap_find_set, decide_False by congruence. }
    unfold known_settings, findModules, findVersionDb in *. rewrite !Hf by done.
    split; [|done]. eapply settings_kept; [exact Hc|by apply Hf|by apply Hf|done|done]. }
  cbn [length] in Hql.
  split; unfold nt_waiting; cbn [nt_pushing nt_pending nt_sync nt_queue nt_lastSavedBlock nt_leveldb set_leveldb ss_blockchain ss_files ss_leveldb]; try done.
  - unfold main_worker, nt_leveldb in *. cbn [nt_sync set_leveldb ss_leveldb nt_caches nt_countVal nt_lastSavedBlock].
    destruct w1 as [db c cv l]. cbn [wm_leveldb wm_caches wm_countVal wm_lastSavedBlock]. split; [done|].
    rewrite Hsv', Hh. cbn [hash_at]. rewrite Hb. f_equal. lia.
  - rewrite Hls. cbn [main_worker wm_lastSavedBlock].
    assert (length (option_list (nt_pending n)) <= 1)%nat by (by destruct (nt_pending n); cbn; lia).
    split; [lia|]. split; [lia|]. intros. lia.
  - split; [|lia]. intros i e He. specialize (Hq (Datatypes.S i) e He). by rewrite Nat.add_succ_r in Hq.
  - cbn [length] in Hpl. lia.
Qed.

Lemma push_waiting (n : NodeThreads D) : nt_waiting (push_next n) = nt_waiting n.
Proof.
  unfold push_next. destruct (nt_pushing n) as [|e pushing] eqn:Hp; [done|].
  destruct (_ <? _)%nat; [|done]. unfold nt_waiting. cbn. by rewrite Hp, <- app_assoc.
Qed.

Lemma push_in_step n hs w : in_step n hs w -> in_step (push_next n) hs w.
Proof.
  intros Hi. pose proof (push_waiting n) as Hw. revert Hw. unfold push_next.
  destruct (nt_pushing n) as [|e pushing]; [done|]. destruct (Nat.ltb_spec (length (nt_queue n)) MAIN_QUEUE_SIZE); [|done].
  intros Hw. destruct Hi as [Hdb Hset Hold Hch Hpd Hbl Hroom Hwk Hsaved Hq Hpl].
  split; try done; rewrite ?Hw; [done|]. cbn [nt_queue]. rewrite length_app. cbn [length]. lia.
Qed.

Lemma accept_of_handle save bi dump (s s' : SyncState D) :
  handle_block m users save bi dump s = (s', Ok tt) -> exists bi',
    accept_block m users save bi dump s =
      (mkSyncState (ss_leveldb s) (ss_blockchain s') (ss_files s') (ss_processed s'), Ok bi') /\
    ss_processed s' = ss_processed s ++ [(bi', dump)].
Proof.
  unfold handle_block, accept_block. destruct (filterTransactionsToSave m users bi) as [bi1| | |]; try done.
  destruct (saveTransactions m bi1 dump save (ss_files s)) as [fs [bi2| | |]]; try done. cbn [ss_blockchain].
  destruct (addBlock _ _) as [chain [k| | |]]; try done. destruct (k =? 0); [done|].
  cbn [ss_leveldb ss_blockchain ss_files ss_processed].
  destruct (saveBlockToLeveldb _ _ _) as [db r]. intros [= <- ->]. by eexists.
Qed.

(** The headers are those of the first blocks of the network. *)
Lemma hashes_prefix n hs w :
  in_step n hs w -> let k := (length hs + length (option_list (nt_pending n)))%nat in
  bh_hash <$> hs ++ option_list (bi_header <$> nt_pending n) = take k (bh_hash <$> headers blocks) /\
  (k <= length blocks)%nat.
Proof.
  intros Hi k. assert (length (hs ++ option_list (bi_header <$> nt_pending n)) = k) as Hlen
    by (rewrite length_app; unfold k; by destruct (nt_pending n)).
  assert (forall i h, (hs ++ option_list (bi_header <$> nt_pending n)) !! i = Some h ->
    (bh_hash <$> headers blocks) !! i = Some (bh_hash h)) as Hl.
  { intros i h Hh. destruct (is_blocks _ _ _ Hi i h Hh) as (b & Hb & Hk & _). unfold headers.
    rewrite !list_lookup_fmap, Hb. cbn. by injection Hk as ->. }
  split.
  - apply list_eq. intros i. rewrite list_lookup_fmap. destruct (decide (i < k)%nat).
    + rewrite lookup_take, decide_True by done.
      destruct (lookup_lt_is_Some_2 (hs ++ option_list (bi_header <$> nt_pending n)) i) as [h Hh]; [lia|].
      rewrite Hh. cbn. by rewrite (Hl i h Hh).
    + rewrite !lookup_ge_None_2; [done|rewrite length_take; lia|lia].
  - destruct (decide (k = 0%nat)) as [->|Hk0]; [lia|].
    destruct (lookup_lt_is_Some_2 (hs ++ option_list (bi_header <$> nt_pending n)) (k - 1)%nat) as [h Hh]; [lia|].
    destruct (is_blocks _ _ _ Hi _ h Hh) as (b & Hb & _). apply lookup_lt_Some in Hb. lia.
Qed.

(** The network's next block is one the loop accepts. *)
Lemma next_follows n hs w b :
  in_step n hs w -> nt_pending n = None -> blocks !! length hs = Some b -> room_for n b.2 ->
  consistent (nt_sync n) hs /\ follows (nt_sync n) hs [b].
Proof.
  intros Hi Hp Hb Hroom. destruct (hashes_prefix n hs w Hi) as [Hh Hle]. rewrite Hp in Hh, Hle. cbn [option_list fmap option_fmap option_map length] in *.
  rewrite app_nil_r, Nat.add_0_r in *.
  pose proof (is_chain _ _ _ Hi) as Hch. rewrite Hp in Hch. cbn [option_list fmap option_fmap option_map] in Hch. rewrite app_nil_r in Hch.
  assert (consistent (nt_sync n) hs) as Hc by (apply consistent_split; split; [done|apply Hi]). split; [done|].
  pose proof (gc_child Hchain) as Hcc. pose proof (lookup_lt_Some _ _ _ Hb) as Hlt. pose proof (gc_count Hchain) as Hcnt.
  pose proof (list_elem_of_lookup_2 _ _ _ Hb) as Hin. unfold blen in Hcnt.
  assert (headers blocks !! length hs = Some (bi_header b.1)) as Hhb by (unfold headers; by rewrite list_lookup_fmap, Hb).
  split.
  - intros h ->%list_elem_of_singleton. apply (gc_storable Hchain). by eapply list_elem_of_lookup_2.
  - cbn [headers fmap list_fmap child_chain]. split; [|done].
    destruct hs as [|h hs _] using rev_ind.
    + destruct blocks as [|b0 l]; [done|]. cbn in Hb. injection Hb as ->. apply Hcc.
    + rewrite tip_of_snoc, length_app, Nat.add_1_r in *.
      assert (headers blocks !! length hs = Some (default (bi_header b.1) (headers blocks !! length hs))) as Hh0.
      { destruct (lookup_lt_is_Some_2 (headers blocks) (length hs)) as [x ->]; [|done].
        unfold headers. rewrite length_fmap. lia. }
      rewrite (child_chain_lookup _ _ _ _ _ Hcc Hh0 Hhb).
      apply (f_equal (.!! length hs)) in Hh. rewrite fmap_app in Hh.
      rewrite lookup_app_r, length_fmap, Nat.sub_diag in Hh by (by rewrite length_fmap).
      rewrite lookup_take, decide_True, !list_lookup_fmap, Hh0 in Hh by lia. by injection Hh.
  - assert (bh_hash <$> hs ++ headers [b] = take (Datatypes.S (length hs)) (bh_hash <$> headers blocks)) as ->.
    { rewrite fmap_app, Hh. cbn [headers fmap list_fmap].
      rewrite (take_S_r _ _ (bh_hash (bi_header b.1))); [done|]. by rewrite list_lookup_fmap, Hhb. }
    eapply sublist_NoDup; [exact (gc_once Hchain)|]. apply sublist_skip, sublist_take.
  - intros name. unfold room_needed. cbn [foldr]. specialize (Hroom name). lia.
  - unfold blen. cbn [length]. lia.
Qed.

Lemma hand_in_step n hs w b :
  in_step n hs w -> nt_pending n = None -> nt_pushing n = [] -> blocks !! length hs = Some b -> room_for n b.2 ->
  in_step (hand_over m users true b n) hs w.
Proof.
  intros Hi Hp Hps Hb Hroom. destruct (next_follows n hs w b Hi Hp Hb Hroom) as [Hc Hf].
  destruct (follows_next _ _ _ _ Hf Hc) as [Hg Hnext].
  destruct (run_one m users true b (nt_sync n) hs [] Hc Hblock Husers Hf) as (s' & pr & Hh & [Hc' Hpr Hgrow Hfiles] & Hkept & _ & _).
  pose proof (handle_block_cases m users true b.1 _ b.2 _ hs Hc Hblock Hg (filter_all m users b.1 Husers)) as Hcs.
  pose proof (fun name => handle_block_files m users true b.1 b.2 (nt_sync n) name Husers) as Hadd.
  rewrite Hh in Hcs, Hadd. cbn [fst] in Hadd. destruct Hcs as [Hd|(Hno & _)]; [|done].
  destruct Hd as (_ & _ & _ & bi2 & Hpr2 & Hstored).
  destruct (accept_of_handle _ _ _ _ _ Hh) as (bi' & Hacc & Hpr3).
  rewrite Hpr in Hpr2, Hpr3. apply app_inv_head in Hpr2, Hpr3. rewrite Hpr2 in Hpr3. injection Hpr3 as ->. subst pr.
  cbn [headers fmap list_fmap fst] in *.
  assert (kept (bi_header bi') = kept (bi_header b.1)) as Hk1 by exact (inj Some _ _ (f_equal head Hkept)).
  assert (bh_blockNumber (bi_header bi') = Some (1 + blen hs)) as Hnum by (by rewrite Hstored).
  unfold hand_over. rewrite Hacc. cbn [Worker_process]. rewrite Hnum. cbn [opt_value mbind res_bind].
  pose proof Hi as [Hdb Hset Hold Hch Hpd Hbl Hrm Hw [Hs1 [Hs2 Hs3]] [Hq Hql] Hpl].
  unfold nt_waiting in Hq, Hql. rewrite Hps, app_nil_r in Hq, Hql. rewrite Hp in *.
  cbn [option_list fmap option_fmap option_map length] in *. rewrite ?Nat.add_0_r in *.
  assert (blen hs = Z.of_nat (length hs)) as Hbl' by done.
  split; unfold nt_waiting; cbn [nt_pushing nt_pending nt_sync nt_queue nt_lastSavedBlock nt_leveldb ss_leveldb ss_blockchain ss_files option_list fmap option_fmap option_map length];
    try done.
  - by apply consistent_split in Hc' as [Hx _].
  - intros x [= <-]. unfold storable_next. rewrite Hstored.
    destruct (header_stored_good (bi_header b.1) (saved_pos m true (ss_files (nt_sync n)) (bi_header b.1)) (1 + blen hs))
      as [Hwf Hlen]; [apply Hg| |by unfold saved_pos; destruct (_ && _)|].
    { unfold saved_pos. rewrite Husers. cbn. pose proof (bg_pos _ _ Hg). unfold is_u64.
      match goal with |- context [blen ?x] => pose proof (blen_nonneg x) end. lia. }
    split; [done|]. unfold stored_as. rewrite Hlen. split; [apply Hg|]. cbn. unfold saved_pos. rewrite Husers. apply Hg.
  - intros i h Hl. apply lookup_app_Some in Hl as [Hl|[Hge Hl]].
    + destruct (Hbl i h) as (b0 & Hb0 & Hk0 & Hheld); [by rewrite app_nil_r|]. exists b0.
      do 2 (split; [done|]). by eapply held_grows.
    + apply list_lookup_singleton_Some in Hl as [Hi0 <-]. replace i with (length hs) by lia.
      exists b. split; [done|]. split; [done|].
      by apply (Hfiles eq_refl (bi', b.2)), list_elem_of_here.
  - intros name. destruct (Hadd name) as (add & -> & Hadd'). specialize (Hroom name). rewrite blen_app.
    pose proof (blen_nonneg b.2). destruct Hadd' as [->| ->]; rewrite ?blen_nil, ?blen_frame; lia.
  - split; [lia|]. split; [done|]. intros. lia.
  - rewrite Nat.add_1_r. cbn [app]. destruct (Z.ltb_spec (nt_lastSavedBlock n) (1 + blen hs)) as [Hlt|Hge].
    + assert (w <= length hs)%nat by (destruct (decide (length hs < w)%nat) as [Hx|]; [specialize (Hs3 Hx); lia|lia]).
      split; [|rewrite length_app; cbn [length]; lia]. intros i e He. apply lookup_app_Some in He as [He|[Hge He]]; [by apply Hq|].
      apply list_lookup_singleton_Some in He as [Hi0 <-]. replace (w + i)%nat with (length hs) by lia.
      exists b. split; [done|]. cbn [fst]. rewrite Hnum, Hbl'. split; [done|].
      by injection Hk1.
    + rewrite app_nil_r. split; [done|]. lia.
Qed.

(** ** A restart *)

(** The chain's blocks as they are read from the files. *)
Definition blocks_again (hs : list BlockHeader) : list (BlockInfo * bytes) :=
  imap (fun i '(h, b) =>
    (read_again (1 + Z.of_nat i) h
      (match parsed (fp_pos (bh_filePos h)) b.2 with Ok bi => bi | _ => BlockInfo_default end), b.2)) (zip hs blocks).

Lemma blocks_again_lookup n hs w i e :
  in_step n hs w -> blocks_again hs !! i = Some e -> exists h b bi,
    hs !! i = Some h /\ blocks !! i = Some b /\ held_in_file (ss_files (nt_sync n)) h b.2 /\
    parsed (fp_pos (bh_filePos h)) b.2 = Ok bi /\ e = (read_again (1 + Z.of_nat i) h bi, b.2).
Proof.
  intros Hi He. unfold blocks_again in He. rewrite list_lookup_imap in He.
  destruct (zip hs blocks !! i) as [[h b]|] eqn:Hz; [|done]. cbn in He. injection He as <-.
  apply lookup_zip_with_Some in Hz as (h' & b' & [= -> ->] & Hh & Hb).
  destruct (is_blocks _ _ _ Hi i h' (lookup_app_l_Some _ _ _ _ Hh)) as (b0 & Hb0 & _ & Hheld).
  rewrite Hb in Hb0. injection Hb0 as <-. exists h', b'.
  destruct Hheld as (pre & post & Hf & Hpos).
  destruct (gc_parsed Hchain b' (fp_pos (bh_filePos h'))) as [_ Hp]; [by eapply list_elem_of_lookup_2| |].
  { pose proof (is_room _ _ _ Hi (fp_fileName (bh_filePos h'))) as Hr. rewrite Hf, !blen_app in Hr. rewrite Hpos.
    pose proof (blen_nonneg pre). pose proof (blen_nonneg (frame b'.2)). pose proof (blen_nonneg post). lia. }
  destruct (parsed _ _) as [bi| | |]; try done. exists bi. do 2 (split; [done|]). split; [by exists pre, post|done].
Qed.

Lemma blocks_again_queued n hs w i e :
  in_step n hs w -> blocks_again hs !! i = Some e -> queued i e.
Proof.
  intros Hi He. destruct (blocks_again_lookup n hs w i e Hi He) as (h & b & bi & _ & Hb & _ & Hp & ->).
  exists b. split; [done|]. split; [done|]. cbn [fst bi_header read_again].
  unfold FileSourceFacts.parsed in Hp. apply readNextBlockInfo_header in Hp as [Hh Hpr _ _ _ _ _ _ _]; [|done].
  destruct (gc_dump Hchain b) as (-> & -> & _); [by eapply list_elem_of_lookup_2|]. by rewrite <- Hh, <- Hpr.
Qed.

Lemma blocks_again_length n hs w : in_step n hs w -> length (blocks_again hs) = length hs.
Proof.
  intros Hi. unfold blocks_again. rewrite length_imap, length_zip.
  destruct (hashes_prefix n hs w Hi) as [_ Hle]. lia.
Qed.

Lemma chain_in_files_again n hs w :
  in_step n hs w ->
  chain_in_files true base isValidate (ss_files (nt_sync n)) hs (take (length hs) blocks).*2 (blocks_again hs).
Proof.
  intros Hi. pose proof (blocks_again_length n hs w Hi) as Hlen.
  destruct (hashes_prefix n hs w Hi) as [_ Hle].
  assert (forall i d, (take (length hs) blocks).*2 !! i = Some d -> exists b, blocks !! i = Some b /\ d = b.2) as Hds.
  { intros i d Hd. rewrite list_lookup_fmap in Hd. destruct (take _ _ !! i) as [b|] eqn:E; [|done].
    apply lookup_take_Some in E as [E _]. injection Hd as <-. by exists b. }
  assert (forall i h, hs !! i = Some h -> exists b, blocks !! i = Some b /\ kept h = kept (bi_header b.1) /\
    held_in_file (ss_files (nt_sync n)) h b.2) as Hbl.
  { intros i h Hh. apply (is_blocks _ _ _ Hi). by apply lookup_app_l_Some. }
  split.
  - rewrite length_fmap, length_take. lia.
  - done.
  - intros i h d Hh Hd. destruct (Hds i d Hd) as (b & Hb & ->). destruct (Hbl i h Hh) as (b' & Hb' & _ & Hheld). by simplify_eq.
  - intros h Hin. split; [|apply (is_room _ _ _ Hi)]. apply list_elem_of_lookup in Hin as [i Hh].
    destruct (Hbl i h Hh) as (b & Hb & Hk & _). injection Hk as _ _ _ ->.
    apply (hs_file _ (gc_storable Hchain (bi_header b.1) ltac:(apply (list_elem_of_fmap_2 (fun b => bi_header b.1)); by eapply list_elem_of_lookup_2))).
  - intros d Hin. apply list_elem_of_lookup in Hin as [i Hd]. destruct (Hds i d Hd) as (b & Hb & ->).
    by apply (gc_parsed Hchain b 0); [eapply list_elem_of_lookup_2|].
  - intros i h d e Hh Hd He. destruct (blocks_again_lookup n hs w i e Hi He) as (h' & b & bi & Hh' & Hb & _ & Hp & ->).
    destruct (Hds i d Hd) as (b' & Hb' & ->). simplify_eq. by exists bi.
Qed.

(** What a start that succeeded found. *)
Lemma start_inv nodeTestInit (src src' : S) (st0 st : SyncState D) hs mbi ws :
  known_settings (ss_leveldb st0) -> (exists c, chain_holds c hs) -> db_holds (ss_leveldb st0) hs ->
  main_saved (ss_leveldb st0) = Ok mbi ->
  synchronize_start true base isValidate m users nodeTestInit (src, st0) = ((src', st), Ok ws) ->
  exists src1 workers, bs_initialize (ss_leveldb st0) src = (src1, Ok tt) /\
    make_workers m (mb_blockNumber mbi) nodeTestInit = Ok workers.
Proof.
  intros (Hset & _) [c Hc] Hdb Hmain Hs.
  destruct (load_consistent (mkSyncState (ss_leveldb st0) c ∅ []) hs (ss_blockchain st0)) as (chain' & Hload & _).
  { by apply consistent_split. }
  destruct (dh_meta _ _ Hdb) as (bm & Hbm & _). cbn [ss_leveldb] in Hload. destruct st0 as [db chain0 fs ps]. cbn [ss_leveldb ss_blockchain] in *.
  unfold synchronize_start, mbind', mlift, mget, on_db, on_source, on_chain in Hs. rewrite Hblock in Hs.
  cbn [CHECK fst snd ss_leveldb] in Hs. rewrite Hset in Hs. cbn [fst snd ss_leveldb ss_blockchain ss_files ss_processed] in Hs.
  rewrite Hbm in Hs. destruct (bs_initialize db src) as [src1 [[]| | |]]; [|discriminate Hs..].
  exists src1. cbn [fst snd ss_leveldb ss_blockchain ss_files ss_processed] in Hs. rewrite Hload in Hs.
  cbn [fst snd ss_leveldb ss_blockchain ss_files ss_processed] in Hs. unfold main_saved in Hmain. rewrite Hmain in Hs.
  destruct (make_workers m (mb_blockNumber mbi) nodeTestInit) as [workers| | |]; [|discriminate Hs..]. by exists workers.
Qed.

Lemma make_workers_main number nodeTestInit workers :
  make_workers m number nodeTestInit = Ok workers ->
  forall w, w ∈ workers -> w = CacheWorker \/ w = MainWorker number \/ exists t, nodeTestInit = Some t /\ w = NodeTestWorker t.
Proof.
  unfold make_workers. destruct (has_module MODULE_NODE_TEST m).
  - intros Hw. apply bind_Ok_inv in Hw as (_ & _ & Hw). apply bind_Ok_inv in Hw as (t & Ht & [= <-]).
    destruct nodeTestInit as [t'|]; [|done]. injection Ht as ->. intros w.
    rewrite !elem_of_cons, elem_of_nil. naive_solver.
  - intros [= <-] w. rewrite !elem_of_cons, elem_of_nil. naive_solver.
Qed.

Lemma restart_in_step n hs w chain0 (src src' : S) st nodeTestInit ws k queue wm caches :
  in_step n hs w -> (forall t, nodeTestInit = Some t -> 0 <= t < 2 ^ 62) ->
  synchronize_start true base isValidate m users nodeTestInit
    (src, mkSyncState (nt_leveldb n) chain0 (ss_files (nt_sync n)) []) = ((src', st), Ok ws) ->
  (MainWorker k, queue) ∈ ws -> WorkerMain_new (ss_leveldb st) caches = Ok wm ->
  in_step (mkNodeThreads st None queue [] caches (wm_countVal wm) (wm_lastSavedBlock wm)) hs w.
Proof.
  intros Hi Ht Hs Hin Hnew. pose proof Hi as [Hdb Hset [c Hc] _ _ _ Hroom [(_ & Hd & _) Hsv] [Hsw _] _ _].
  pose proof (chain_in_files_again n hs w Hi) as Hcf. destruct (hashes_prefix n hs w Hi) as [_ Hle].
  pose proof (gc_count Hchain) as Hcnt. unfold blen in Hcnt.
  destruct (in_step_saved n hs w Hi) as (mbi & Hmain & Hnum & Hhash).
  destruct (start_inv nodeTestInit src src' (mkSyncState (nt_leveldb n) chain0 (ss_files (nt_sync n)) []) st hs mbi ws
    Hset (ex_intro _ c Hc) Hdb Hmain Hs) as (src1 & workers & Hinit & Hmw).
  set (st1 := mkSyncState (nt_leveldb n) c (ss_files (nt_sync n)) []).
  assert (consistent st1 hs) as Hcons by (by apply consistent_split).
  destruct (start_eq true base isValidate m users Hbase Husers hs (take (length hs) blocks).*2 (blocks_again hs) st1
    src src1 mbi nodeTestInit workers eq_refl Hblock (proj1 Hset) Hmain Hmw) with (chain0 := chain0) as (chain' & Heq & Hc').
  { intros x t Hx Hg. rewrite Hnum in Hmw.
    destruct (make_workers_main _ _ _ Hmw x Hx) as [->|[->|(t' & Ht' & ->)]]; cbn in Hg; [done| |];
      injection Hg as <-; [lia|by apply Ht]. }
  { exact Hinit. } { exact Hcons. } { exact Hcf. } { unfold blen. lia. }
  cbn [st1 ss_leveldb ss_files ss_processed] in Heq. rewrite Heq in Hs. injection Hs as _ <- <-.
  apply list_elem_of_fmap in Hin as (x & [= Hk ->] & Hx). cbn zeta in Hc'.
  assert (k = Z.of_nat w) as ->.
  { rewrite Hnum in Hmw. destruct (make_workers_main _ _ _ Hmw x Hx) as [->|[->|(t' & _ & ->)]]; [done| |done]. by injection Hk. }
  subst x. unfold missed. cbn [getInitBlockNumber]. rewrite Nat2Z.id.
  unfold WorkerMain_new in Hnew. cbn [ss_leveldb] in Hnew. unfold main_saved in Hmain.
  apply bind_Ok_inv in Hmain as (raw & Hraw & Hdes). rewrite Hraw in Hnew. cbn [mbind res_bind] in Hnew.
  rewrite Hdes in Hnew. cbn [mbind res_bind] in Hnew. injection Hnew as <-.
  apply consistent_split in Hc' as [Hch _]. cbn [ss_blockchain] in Hch.
  assert (main_saved (nt_leveldb n) = Ok mbi) as Hmain by (unfold main_saved; by rewrite Hraw).
  split; unfold nt_waiting; cbn [nt_pushing nt_pending nt_sync nt_queue nt_lastSavedBlock nt_leveldb ss_leveldb ss_blockchain ss_files
    option_list fmap option_fmap option_map length wm_lastSavedBlock]; rewrite ?app_nil_r; try done.
  - by exists c.
  - intros i h Hh. apply (is_blocks _ _ _ Hi). by apply lookup_app_l_Some.
  - unfold main_worker, nt_leveldb. cbn. change (ss_leveldb (nt_sync n)) with (nt_leveldb n). rewrite Hmain, Hnum, Hhash.
    split; [|done]. split; [apply Hdb|]. split; [done|]. apply u64_range.
  - rewrite Hnum. split; [done|]. split; [lia|done].
  - split; [|cbn [app]; rewrite length_drop, (blocks_again_length n hs w Hi); cbn; lia].
    intros i e He. apply (blocks_again_queued n hs w _ e Hi). rewrite <- lookup_drop. exact He.
  - unfold MAIN_QUEUE_SIZE. lia.
Qed.

(** ** Every state *)

Lemma node_step_in_step n n' hs w :
  in_step n hs w -> node_step base isValidate m users blocks n n' -> exists hs' w', in_step n' hs' w'.
Proof.
  intros Hi Hs. destruct Hs as [b Hp Hps Hb Hroom| | | |chain0 src src' st t ws k q wm caches Ht Hst Hin Hnew].
  - exists hs, w. apply hand_in_step; try done. rewrite <- Hb, (chain_length n hs w Hi), Hp. f_equal. cbn. lia.
  - exists hs, w. by apply push_in_step.
  - destruct (store_in_step n hs w Hi) as [hs' Hi']. by exists hs', w.
  - destruct (nt_queue n) as [|e q] eqn:Hq; [|by exists hs, (Datatypes.S w); eapply work_in_step].
    exists hs, w. unfold worker_turn. by rewrite Hq.
  - exists hs, w. by eapply restart_in_step.
Qed.

Lemma reachable_in_step n n' hs w :
  in_step n hs w -> rtc (node_step base isValidate m users blocks) n n' -> exists hs' w', in_step n' hs' w'.
Proof.
  intros Hi Hr. revert hs w Hi. induction Hr as [n|n n1 n' Hone _ IH]; intros hs w Hi; [by exists hs, w|].
  destruct (node_step_in_step _ _ _ _ Hi Hone) as (hs1 & w1 & Hi1). by eapply IH.
Qed.

(** What is left: each block waiting to be pushed has two steps to go. *)
Definition drain_left (n : NodeThreads D) : nat := 2 * length (nt_pushing n) + length (nt_queue n).

(** Every step of the two threads until the worker has everything brings it
    nearer, and none of them changes anything else. *)
Lemma drain_step_nearer n n' hs w :
  in_step n hs w -> drain_step n n' -> exists w', in_step n' hs w' /\
    (w' + length (nt_waiting n') = w + length (nt_waiting n))%nat /\ (drain_left n' < drain_left n)%nat.
Proof.
  intros Hi [Hq|Hp Hroom].
  - destruct (nt_queue n) as [|e queue] eqn:Hqn; [done|]. exists (Datatypes.S w).
    split; [by eapply work_in_step|]. unfold worker_turn. rewrite Hqn. destruct e as [bi d].
    destruct (WorkerMain_step bi (main_worker n)). unfold nt_waiting, drain_left. cbn. rewrite Hqn. cbn. lia.
  - exists w. split; [by apply push_in_step|]. rewrite push_waiting. split; [done|].
    unfold push_next, drain_left. destruct (nt_pushing n) as [|e pushing]; [done|].
    rewrite (proj2 (Nat.ltb_lt _ _) Hroom). cbn. rewrite length_app. cbn. lia.
Qed.

Lemma drain_run k n n' hs w :
  in_step n hs w -> nsteps drain_step k n n' -> exists w', in_step n' hs w' /\
    (w' + length (nt_waiting n') = w + length (nt_waiting n))%nat /\ (k + drain_left n' <= drain_left n)%nat.
Proof.
  intros Hi Hk. revert w Hi. induction Hk as [n|k n n1 n' Hone _ IH]; intros w Hi; [by exists w|].
  destruct (drain_step_nearer n n1 hs w Hi Hone) as (w1 & Hi1 & Hw1 & Hl1).
  destruct (IH w1 Hi1) as (w' & Hi' & Hw' & Hl'). exists w'. split; [done|]. lia.
Qed.

(** They stop when nothing waits. *)
Lemma drain_stuck (n : NodeThreads D) : (exists n', drain_step n n') \/ nt_waiting n = [].
Proof.
  unfold nt_waiting. destruct (nt_queue n) as [|e queue] eqn:Hq; [|left; eexists; apply drain_work; by rewrite Hq].
  destruct (nt_pushing n) as [|e pushing] eqn:Hp; [by right|]. left. eexists. apply drain_push; [by rewrite Hp|].
  rewrite Hq. cbn. unfold MAIN_QUEUE_SIZE. lia.
Qed.

(** A node that has just started, on a database without blocks. *)
Record fresh_node (n : NodeThreads D) : Prop := {
  fr_ok : kv_ok (nt_leveldb n);
  fr_blocks : block_entries (kv_iter (nt_leveldb n)) = [];
  fr_meta : omap_find KEY_BLOCK_METADATA (kv_iter (nt_leveldb n)) = None;
  fr_main : omap_find MAIN_BLOCK_NUMBER_PREFIX (kv_iter (nt_leveldb n)) = None;
  fr_settings : known_settings (nt_leveldb n);
  fr_chain : ss_blockchain (nt_sync n) = BlockChain_new;
  fr_files : forall name, blen (file_contents (ss_files (nt_sync n)) name) < 2 ^ 62;
  fr_threads : nt_pending n = None /\ nt_pushing n = [] /\ nt_queue n = [] /\ nt_lastSavedBlock n = 0 /\ is_u64 (nt_countVal n);
}.

Lemma fresh_in_step n : fresh_node n -> in_step n [] 0.
Proof.
  intros [Hok Hb Hm Hmain Hset Hch Hf (Hp & Hps & Hq & Hl & Hc)].
  pose proof (consistent_init (nt_leveldb n) ∅ Hok Hb Hm) as [Hch0 Hdb0]%consistent_split. cbn [ss_blockchain ss_leveldb] in *.
  split; unfold nt_waiting; rewrite ?Hp, ?Hps, ?Hq, ?Hl; cbn [option_list fmap option_fmap option_map app length]; try done.
  - by eexists.
  - by rewrite Hch.
  - cbn. change (wm_leveldb (main_worker n)) with (nt_leveldb n). unfold main_saved, findMainBlock.
    rewrite findOneValueWithoutCheck_eq, Hmain by done. cbn. split; [|done]. split; [exact Hok|by split].
  - split; [lia|]. split; [lia|]. intros. lia.
  - unfold MAIN_QUEUE_SIZE. lia.
Qed.

(** Every state of a node that started afresh. *)
Lemma reachable_worker n0 n :
  fresh_node n0 -> rtc (node_step base isValidate m users blocks) n0 n ->
  let last := (length (bc_hashes (ss_blockchain (nt_sync n))) - 1)%nat in
  exists w, worker_at w n /\ (w <= last + 1)%nat /\
    (length (nt_queue n) <= MAIN_QUEUE_SIZE)%nat /\ length (nt_waiting n) = (last - w)%nat /\
    (forall i e, nt_waiting n !! i = Some e -> queued (w + i) e) /\
    forall k n', nsteps drain_step k n n' ->
      (k <= 2 * (last - w))%nat /\
      ((exists n'', drain_step n' n'') \/ (nt_waiting n' = [] /\ worker_at (Nat.max w last) n')).
Proof.
  intros Hf Hr last. destruct (reachable_in_step n0 n [] 0%nat (fresh_in_step n0 Hf) Hr) as (hs & w & Hi).
  pose proof (is_saved _ _ _ Hi) as [Hw _]. pose proof (is_queue _ _ _ Hi) as [Hql Hqn].
  assert (last = length hs + length (option_list (nt_pending n)))%nat as El
    by (unfold last; rewrite (chain_length n hs w Hi); lia).
  exists w. rewrite <- El in Hqn. split; [by eapply in_step_saved|]. split; [lia|].
  split; [exact (is_places _ _ _ Hi)|]. split; [done|]. split; [done|]. intros k n' Hk.
  destruct (drain_run k n n' hs w Hi Hk) as (w' & Hi' & Hw' & Hl). split.
  - unfold drain_left, nt_waiting in *. rewrite length_app in Hqn. lia.
  - destruct (drain_stuck n') as [|Hd]; [by left|]. right. split; [done|]. rewrite Hd, Hqn in Hw'. cbn in Hw'.
    replace (Nat.max w last) with w' by lia. by eapply in_step_saved.
Qed.

End invariant.
