(* ===== verification/FullBlock.v ===== *)
(** * WorkerMain::getFullBlock: a block of the chain with its transactions

    The reader of a block, from the dump in memory or from its file.  The two
    readings agree wherever the first succeeds; the first also checks the
    signatures, the second does not. *)
From S2P Require Import Prelude External Serialize Address BlockInfo BlockInfoCodec BlockChainInterface.
From S2P Require Import BlockChain BlockChainFacts LevelDb Cache Modules Workers BlockchainUtils PrivateKey.
From S2P Require Import BlockchainRead BlockchainReadFacts Sync SyncFacts FileSource FileSourceFacts.
From S2P Require Import SyncRun SyncRunFacts.
#[local] Open Scope Z_scope.

Section full_block.
Context `{Support} `{Crypto} `{Rapidjson}.
Variables (isInitialized : bool).

(** [base_cache] and [base_file] are the addresses of the cached dump and of the
    buffer the file is read into. *)
(* src: Workers/WorkerMain.cpp:127-154 WorkerMain::getFullBlock *)
Definition getFullBlock (base_cache base_file : Z) (m : Modules) (caches : AllCaches) (disk : Disk)
    (bh : BlockHeader) (beginTx countTx : Z) : res BlockInfo :=
  _ ← CHECK (has_module MODULE_BLOCK_RAW m && negb (has_module MODULE_USERS m))
        (str "module " ++ MODULE_BLOCK_RAW_STR ++ str " not set");
  let bi := mkBlockInfo bh [] in
  if bool_decide (bh_blockNumber bh = Some 0) then Ok bi
  else
    bi ← match getValue (bh_hash bh) (ac_blockDumpCache caches) with
         | None =>
             _ ← CHECK (negb (is_empty (fp_fileName (bh_filePos bh)))) (str "Empty file name in block header");
             p ← openFile disk (fp_fileName (bh_filePos bh));
             '(nextPos, bi, _) ← readNextBlockInfo_file isInitialized base_file (default [] (d_files disk !! p))
               (fp_pos (bh_filePos bh)) bi [] false false beginTx countTx;
             _ ← CHECK (negb (nextPos =? fp_pos (bh_filePos bh))) (str "Ups");
             Ok bi
         | Some element =>
             readNextBlockInfo base_cache element isInitialized (fp_pos (bh_filePos bh)) bi true false beginTx countTx
         end;
    txs ← foldM (fun txs tx =>
        number ← opt_value (bh_blockNumber (bi_header bi)); Ok (txs ++ [set_ti_blockNumber number tx]))
      [] (bi_txs bi);
    Ok (mkBlockInfo (bi_header bi) txs).

(** ** What one reading shares with another at other addresses *)

Section addresses.
Variables (base1 base2 : Z) (raw : bytes).
Hypothesis Hbase : base2 + blen raw < 2 ^ 64.

Lemma check_room_le cur n end_pos :
  end_pos <= blen raw -> ok_le (check_room base1 cur n end_pos) (check_room base2 cur n end_pos).
Proof.
  intros He []. intros Hc. apply check_room_ok in Hc as Hr. unfold check_room.
  rewrite (proj2 (Z.leb_gt _ _)) by lia. by rewrite (proj2 (Z.leb_le _ _)).
Qed.
#[local] Hint Resolve check_room_le : okle.

Lemma readInt_le w cur end_pos :
  end_pos <= blen raw -> ok_le (readInt base1 raw w cur end_pos) (readInt base2 raw w cur end_pos).
Proof. intros He. unfold readInt. solve_ok_le. Qed.
#[local] Hint Resolve readInt_le : okle.

Lemma readVarInt_le cur end_pos :
  end_pos <= blen raw -> ok_le (readVarInt base1 raw cur end_pos) (readVarInt base2 raw cur end_pos).
Proof. intros He. unfold readVarInt. solve_ok_le. Qed.
#[local] Hint Resolve readVarInt_le : okle.

(** Validation only refuses. *)
Lemma validation_le {A} (v1 v2 : bool) (m : res A) (c : A -> res unit) :
  (v2 = true -> v1 = true) ->
  ok_le (if v1 then a ← m; c a else Ok tt) (if v2 then a ← m; c a else Ok tt).
Proof. intros Hv []. destruct v1, v2; try done. by specialize (Hv eq_refl). Qed.
#[local] Hint Resolve validation_le : okle.

Lemma readTransactionInfo_le cur end_pos tx p sa h (v1 v2 : bool) :
  end_pos <= blen raw -> (v2 = true -> v1 = true) ->
  ok_le (readTransactionInfo base1 raw isInitialized cur end_pos tx p sa h v1)
        (readTransactionInfo base2 raw isInitialized cur end_pos tx p sa h v2).
Proof.
  intros He Hv. unfold readTransactionInfo. apply ok_le_bind; [auto with okle|]. intros [size c1] _.
  destruct (size =? 0); [auto with okle|]. apply ok_le_bind; [auto with okle|]. intros u Hroom.
  apply check_room_ok in Hroom. assert (c1 + size <= blen raw) as Hend by lia. clear He Hroom.
  destruct p; cbn [negb]; [|auto with okle].
  solve_ok_le.
Qed.
#[local] Hint Resolve readTransactionInfo_le : okle.

Lemma readBlockTxs_loop_le fuel b end_pos pf sa bt ct v1 v2 cur i h txs :
  end_pos <= blen raw -> (v2 = true -> v1 = true) ->
  ok_le (readBlockTxs_loop base1 raw isInitialized fuel b end_pos pf sa bt ct v1 cur i h txs)
        (readBlockTxs_loop base2 raw isInitialized fuel b end_pos pf sa bt ct v2 cur i h txs).
Proof.
  intros He Hv. revert cur i h txs. induction fuel as [|fuel IH]; intros cur i h txs; [done|].
  cbn [readBlockTxs_loop]. apply ok_le_bind; [auto with okle|]. intros [[size pos] tx] _.
  repeat case_match; auto with okle.
Qed.
#[local] Hint Resolve readBlockTxs_loop_le : okle.

Lemma readNextBlockInfo_le pos bi sa bt ct (v1 v2 : bool) :
  (v2 = true -> v1 = true) ->
  ok_le (readNextBlockInfo base1 raw isInitialized pos bi v1 sa bt ct)
        (readNextBlockInfo base2 raw isInitialized pos bi v2 sa bt ct).
Proof.
  intros Hv. pose proof (Z.le_refl (blen raw)). unfold readNextBlockInfo, readBlockHeaderWithoutSize, readBlockTxs.
  solve_ok_le.
Qed.

End addresses.

(** ** The block from memory and from the file *)

Variables (base_cache base_file : Z) (m : Modules) (disk : Disk).

(** The file of the header has the block at its place. *)
Definition held_on_disk (bh : BlockHeader) (d : bytes) : Prop :=
  fp_fileName (bh_filePos bh) <> [] /\ exists pre post,
    d_files disk !! fp_fileName (bh_filePos bh) = Some (pre ++ frame d ++ post) /\
    fp_pos (bh_filePos bh) = blen pre /\ blen (pre ++ frame d ++ post) < 2 ^ 62.

(** A dump in memory that is the file's block. *)
Lemma full_block_le caches1 caches2 bh d beginTx countTx :
  0 <= base_file -> base_file + blen d + 8 < 2 ^ 64 -> 80 <= blen d -> held_on_disk bh d ->
  getValue (bh_hash bh) (ac_blockDumpCache caches1) = Some d ->
  getValue (bh_hash bh) (ac_blockDumpCache caches2) = None ->
  ok_le (getFullBlock base_cache base_file m caches1 disk bh beginTx countTx)
        (getFullBlock base_cache base_file m caches2 disk bh beginTx countTx).
Proof.
  intros Hb Hbd Hd (Hn & pre & post & Hf & Hp & Hl) Hc1 Hc2. unfold getFullBlock. rewrite Hc1, Hc2.
  apply ok_le_bind; [done|]. intros u _. destruct (bool_decide _); [done|]. apply ok_le_bind; [|done].
  rewrite is_empty_false by done. cbn [negb CHECK mbind res_bind]. unfold openFile.
  rewrite is_empty_false by done. cbn [negb CHECK mbind res_bind].
  rewrite bool_decide_true by (rewrite Hf; by eexists). cbn [CHECK mbind res_bind]. rewrite Hf.
  change (default [] (Some (pre ++ frame d ++ post))) with (pre ++ frame d ++ post). rewrite Hp.
  rewrite readNextBlockInfo_file_at by done. intros bi Hbi.
  rewrite (readNextBlockInfo_le base_cache base_file d ltac:(lia) _ _ _ _ _ true false ltac:(done) bi Hbi).
  cbn [mbind res_bind]. rewrite blen_frame. pose proof (blen_nonneg d).
  by rewrite (proj2 (Z.eqb_neq _ _)) by lia.
Qed.

(** What is read of a dump in memory. *)
Lemma readBlockTxs_loop_window raw base fuel b end_pos pf sa bt ct v cur i h txs l :
  blen txs < ct ->
  readBlockTxs_loop base raw isInitialized fuel b end_pos pf sa bt ct v cur i h txs = Ok l -> blen l <= ct.
Proof.
  revert cur i h txs. induction fuel as [|fuel IH]; intros cur i h txs Hct Hl; [done|].
  cbn [readBlockTxs_loop] in Hl. apply bind_Ok_inv in Hl as ([[size pos] tx] & _ & Hl). pose proof (blen_nonneg txs).
  rewrite (proj2 (Z.eqb_neq ct 0)) in Hl by lia. cbn [negb andb] in Hl.
  set (txs' := if ti_isInitialized tx && (bt <=? i) then txs ++ [tx] else txs) in Hl.
  assert (blen txs' <= blen txs + 1).
  { unfold txs'. destruct (_ && _); rewrite ?blen_app, ?blen_cons, ?blen_nil; lia. }
  destruct (Z.leb_spec ct (blen txs')); [injection Hl as <-; lia|].
  destruct (0 <? size); [|injection Hl as <-; lia]. by eapply IH.
Qed.

Lemma readNextBlockInfo_window raw base pos bh v sa bt ct bi :
  readNextBlockInfo base raw isInitialized pos (mkBlockInfo bh []) v sa bt ct = Ok bi ->
  bh_hash (bi_header bi) = dump_hash raw /\ bh_blockNumber (bi_header bi) = bh_blockNumber bh /\
  bh_prevHash (bi_header bi) = dump_prevHash raw /\ bh_blockSize (bi_header bi) = blen raw /\
  (0 < ct -> blen (bi_txs bi) <= ct).
Proof.
  unfold readNextBlockInfo. intros Hr. apply bind_Ok_inv in Hr as (h0 & Hh & Hr).
  apply readBlockHeaderWithoutSize_ok in Hh as (_ & t & ts & th & _ & _ & ->).
  apply bind_Ok_inv in Hr as (bi1 & Hb & [= <-]). unfold readBlockTxs in Hb.
  apply bind_Ok_inv in Hb as (hash & Hd & Hb). unfold get_double_sha256 in Hd.
  apply bind_Ok_inv in Hd as (u & _ & [= <-]). apply bind_Ok_inv in Hb as (txs & Hl & Hb).
  apply bind_Ok_inv in Hb as (h & Hh & [= <-]). cbn [bi_txs bi_header] in *.
  assert (bh_hash h = dump_hash raw /\ bh_blockNumber h = bh_blockNumber bh /\ bh_prevHash h = dump_prevHash raw)
    as (Hh1 & Hn1 & Hp1).
  { destruct (ct =? 0); (destruct txs as [|tx txs]; [|apply bind_Ok_inv in Hh as (eq & _ & Hh); destruct (eq && _)]);
      injection Hh as <-; split_and!; reflexivity. }
  split; [exact Hh1|]. split; [exact Hn1|]. split; [exact Hp1|]. split; [reflexivity|].
  intros Hct. eapply readBlockTxs_loop_window; [|exact Hl]. rewrite blen_nil. lia.
Qed.

(** The block in memory, or not. *)
Definition cached_or_not (caches : AllCaches) (bh : BlockHeader) (d : bytes) : Prop :=
  forall d', getValue (bh_hash bh) (ac_blockDumpCache caches) = Some d' -> d' = d.

Lemma number_all n txs acc :
  foldM (fun txs tx => number ← opt_value (Some n); Ok (txs ++ [set_ti_blockNumber number tx])) acc txs
  = Ok (acc ++ (set_ti_blockNumber n <$> txs)).
Proof.
  revert acc. induction txs as [|tx txs IH]; intros acc; cbn [foldM]; [by rewrite app_nil_r|].
  cbn [opt_value mbind res_bind]. rewrite IH. by rewrite <- app_assoc.
Qed.

(** The first [c] transactions of a reading are the reading of [c]. *)
Lemma readBlockTxs_loop_prefix raw base fuel b end_pos pf sa v cur i h txs all c :
  0 <= i -> blen txs < c ->
  readBlockTxs_loop base raw isInitialized fuel b end_pos pf sa 0 0 v cur i h txs = Ok all ->
  (exists more, all = txs ++ more) /\
  readBlockTxs_loop base raw isInitialized fuel b end_pos pf sa 0 c v cur i h txs = Ok (take (Z.to_nat c) all).
Proof.
  revert cur i h txs c. induction fuel as [|fuel IH]; intros cur i h txs c Hi Hc Hl; [done|].
  cbn [readBlockTxs_loop] in *. apply bind_Ok_inv in Hl as ([[size pos] tx] & Hr & Hl).
  rewrite (proj2 (Z.leb_le 0 i) Hi) in *. rewrite Hr. cbn [mbind res_bind Z.eqb negb andb] in *.
  pose proof (blen_nonneg txs) as Hn. rewrite (proj2 (Z.eqb_neq c 0)) by lia. cbn [negb andb].
  rewrite andb_true_r in *. set (txs' := if ti_isInitialized tx then txs ++ [tx] else txs) in *.
  assert (exists more, txs' = txs ++ more) as [m1 E1]
    by (unfold txs'; destruct (ti_isInitialized tx); [by eexists|exists []; by rewrite app_nil_r]).
  assert (blen txs' <= c) as Hle
    by (unfold txs'; destruct (ti_isInitialized tx); rewrite ?blen_app, ?blen_cons, ?blen_nil; lia).
  destruct (Z.leb_spec c (blen txs')) as [Hge|Hlt].
  - assert (exists more, all = txs' ++ more) as [m2 ->].
    { destruct (0 <? size); [|injection Hl as <-; exists []; by rewrite app_nil_r].
      by destruct (IH _ _ _ txs' (c + 1) (proj1 (u64_range _)) ltac:(lia) Hl). }
    split; [rewrite E1, <- app_assoc; by eexists|].
    replace (Z.to_nat c) with (length txs') by (unfold blen in *; lia). by rewrite take_app_length.
  - destruct (0 <? size).
    + destruct (IH _ _ _ txs' c (proj1 (u64_range _)) Hlt Hl) as [[m2 ->] He]. split; [|exact He].
      rewrite E1, <- app_assoc. by eexists.
    + injection Hl as <-. split; [by eexists|]. rewrite take_ge; [done|]. unfold blen in *. lia.
Qed.

(** Nothing but the number of transactions depends on how many are read. *)
Lemma readNextBlockInfo_prefix raw base pos bh v sa bi c :
  0 < c -> readNextBlockInfo base raw isInitialized pos (mkBlockInfo bh []) v sa 0 0 = Ok bi ->
  exists header, readNextBlockInfo base raw isInitialized pos (mkBlockInfo bh []) v sa 0 c =
      Ok (mkBlockInfo header (take (Z.to_nat c) (bi_txs bi))) /\
    set_bh_countTxs 0 header = set_bh_countTxs 0 (bi_header bi).
Proof.
  intros Hc. unfold readNextBlockInfo, readBlockTxs. intros Hr. apply bind_Ok_inv in Hr as (h0 & Hh & Hr).
  rewrite Hh. cbn [mbind res_bind] in *. apply bind_Ok_inv in Hr as (bi1 & Hb & [= <-]).
  apply bind_Ok_inv in Hb as (hash & Hd & Hb). rewrite Hd. cbn [mbind res_bind bi_txs bi_header] in *.
  apply bind_Ok_inv in Hb as (txs & Hl & Hb). destruct (readBlockTxs_loop_prefix _ _ _ _ _ _ _ _ _ _ _ _ _ c
    (Z.le_refl 0) ltac:(rewrite blen_nil; lia) Hl) as [_ ->]. cbn [mbind res_bind Z.eqb].
  rewrite (proj2 (Z.eqb_neq c 0)) by lia. apply bind_Ok_inv in Hb as (h & Hh1 & [= <-]). cbn [bi_txs bi_header Z.eqb] in *.
  destruct (Z.to_nat c) as [|k] eqn:Ek; [lia|]. destruct txs as [|tx txs]; cbn [take].
  - cbn [mbind res_bind]. eexists. split; [reflexivity|]. by injection Hh1 as <-.
  - apply bind_Ok_inv in Hh1 as (eq & -> & [= <-]). cbn [mbind res_bind bi_header bi_txs].
    eexists. split; [reflexivity|]. by destruct (eq && _).
Qed.

(** Wherever it is read, a full block is the block [d]. *)
Lemma full_block_eq caches bh d n :
  0 <= base_file -> base_file + blen d + 8 < 2 ^ 64 -> 80 <= blen d -> held_on_disk bh d ->
  cached_or_not caches bh d -> bh_blockNumber bh = Some n -> n <> 0 ->
  exists base v, forall beginTx countTx,
    getFullBlock base_cache base_file m caches disk bh beginTx countTx =
      (_ ← CHECK (has_module MODULE_BLOCK_RAW m && negb (has_module MODULE_USERS m))
             (str "module " ++ MODULE_BLOCK_RAW_STR ++ str " not set");
       bi ← readNextBlockInfo base d isInitialized (fp_pos (bh_filePos bh)) (mkBlockInfo bh []) v false beginTx countTx;
       Ok (mkBlockInfo (bi_header bi) (set_ti_blockNumber n <$> bi_txs bi))).
Proof.
  intros Hb Hbd Hd (Hne & pre & post & Hf & Hp & Hl) Hc Hn Hn0.
  destruct (getValue (bh_hash bh) (ac_blockDumpCache caches)) as [d'|] eqn:Hg;
    [exists base_cache, true|exists base_file, false]; intros bt ct; unfold getFullBlock;
    (destruct (has_module MODULE_BLOCK_RAW m && negb (has_module MODULE_USERS m)); [|reflexivity]);
    cbn [CHECK mbind res_bind]; rewrite Hn, bool_decide_false, Hg by congruence.
  - rewrite (Hc d' Hg). destruct (readNextBlockInfo _ _ _ _ _ _ _ _ _) as [bi| | |] eqn:Hr; [|reflexivity..].
    destruct (readNextBlockInfo_window _ _ _ _ _ _ _ _ _ Hr) as (_ & Hnum & _).
    cbn [mbind res_bind]. by rewrite Hnum, Hn, number_all.
  - rewrite is_empty_false by done. cbn [negb CHECK mbind res_bind].
    unfold openFile. rewrite is_empty_false by done. cbn [negb CHECK mbind res_bind].
    rewrite bool_decide_true by (rewrite Hf; by eexists). cbn [CHECK mbind res_bind]. rewrite Hf.
    change (default [] (Some (pre ++ frame d ++ post))) with (pre ++ frame d ++ post). rewrite Hp.
    rewrite readNextBlockInfo_file_at by done.
    destruct (readNextBlockInfo _ _ _ _ _ _ _ _ _) as [bi| | |] eqn:Hr; [|reflexivity..].
    destruct (readNextBlockInfo_window _ _ _ _ _ _ _ _ _ Hr) as (_ & Hnum & _).
    cbn [mbind res_bind]. rewrite blen_frame. pose proof (blen_nonneg d).
    rewrite (proj2 (Z.eqb_neq _ _)) by lia. cbn [negb CHECK mbind res_bind]. by rewrite Hnum, Hn, number_all.
Qed.

End full_block.
