(* ===== verification/NodeFacts.v ===== *)
(** * The node and the network: facts

    The synchronisation thread over the source of blocks from other nodes: what
    honest nodes serve follows the chain, so that the rounds accept it. *)
From S2P Require Import Prelude External Serialize Address BlockInfo BlockInfoCodec BlockChainInterface.
From S2P Require Import BlockChain BlockChainFacts LevelDb Cache Modules Workers BlockchainUtils PrivateKey.
From S2P Require Import BlockchainRead BlockchainReadFacts Sync SyncFacts.
From S2P Require Import P2P P2PFacts Graph Dumps JsonApi GetNewBlocks GetNewBlocksFacts NetworkSource.
From S2P Require Import NetworkSourceFacts HonestNet FileSource FileSourceFacts SyncRun SyncRunFacts.
#[local] Open Scope Z_scope.

(** ** Lists of headers *)

Lemma child_chain_of_lookup prev l :
  (forall h, head l = Some h -> bh_prevHash h = prev) ->
  (forall i h h', l !! i = Some h -> l !! S i = Some h' -> bh_prevHash h' = bh_hash h) ->
  child_chain prev l.
Proof.
  revert prev. induction l as [|h l IH]; intros prev Hh Hl; cbn [child_chain]; [done|].
  split; [by apply Hh|]. apply IH.
  - intros h' Hh'. apply (Hl 0%nat h h'); [done|]. by destruct l.
  - intros i h1 h2 E1 E2. by apply (Hl (S i)).
Qed.

Lemma room_needed_bound (blocks : list (BlockInfo * bytes)) size :
  (forall b, b ∈ blocks -> blen b.2 <= size) -> room_needed blocks <= blen blocks * (8 + size).
Proof.
  intros Hs. induction blocks as [|b blocks IH]; unfold room_needed in *; cbn [foldr]; [done|].
  rewrite blen_cons. pose proof (Hs b ltac:(by left)).
  assert (foldr (fun b n => 8 + blen b.2 + n) 0 blocks <= blen blocks * (8 + size)).
  { apply IH. intros b' Hb. apply Hs. by right. }
  lia.
Qed.

(** ** What the nodes serve *)

Section node.
Context `{SupportLaws} `{CryptoLaws} `{Rapidjson} `{Lz4} `{Fs} {D : Type} `{KvLaws D} {W : Type} `{P2PNetLaws W}.
Variables (isInitialized : bool) (maxAdvanced countBlocksInBatch : Z) (isCompress : bool).
Variables (folderPath : bytes) (saveAllTx isValidate isVerifySign : bool) (fuel : nat) (base : Z).
Hypothesis Hfits : batch_fits maxAdvanced countBlocksInBatch.
Variables (top : Z) (hdr : Z -> MinimumBlockHeader) (dump_of : bytes -> bytes).
Hypothesis Hhonest : honest_net countBlocksInBatch isCompress isVerifySign fuel top hdr dump_of.

#[local] Abbreviation block_of k :=
  (block_checked isInitialized folderPath saveAllTx isValidate isVerifySign base (hdr k) (dump_of (mh_hash (hdr k)))).

(** The block in an answer: what its sender signed, when signatures are used. *)
Definition payload (raw d : bytes) : Prop :=
  if isVerifySign then exists sb, checkSignatureBlock isInitialized raw = Ok sb /\ d = sr_block sb else d = raw.

(** The blocks after [hs], up to number [n], are a chain that continues [hs]:
    each has the hash its header announces, names the one before it, and is not
    known; they are not too large. *)
Record chain_served (hs : list BlockHeader) (n size : Z) : Prop := {
  cs_hash : forall k d, blen hs < k <= n -> payload (dump_of (mh_hash (hdr k))) d ->
    dump_hash d = mh_hash (hdr k) /\
    dump_prevHash d = (if k =? blen hs + 1 then tip_of GENESIS_BLOCK_HASH hs else mh_hash (hdr (k - 1)));
  cs_fresh : forall k, blen hs < k <= n -> mh_hash (hdr k) ∉ GENESIS_BLOCK_HASH :: (bh_hash <$> hs);
  cs_once : forall j k, blen hs < j <= n -> blen hs < k <= n -> mh_hash (hdr j) = mh_hash (hdr k) -> j = k;
  cs_file : forall k, blen hs < k <= n -> let fn := fs_join folderPath (fs_filename (mh_fileName (hdr k))) in
    fn <> [] /\ fs_filename fn <> [];
  cs_size : forall k, blen hs < k <= n -> mh_blockSize (hdr k) <= size;
  cs_header : forall k bi d, blen hs < k <= n -> block_of k bi d -> blen (header_bytes (bi_header bi)) < 2 ^ 64 - 16;
}.

Lemma toHex_slice (b : bytes) k n : (k + n <= length b)%nat -> n <> O -> toHex (take n (drop k b)) <> [].
Proof.
  intros Hl Hn. apply toHex_nonempty. intros E. apply (f_equal length) in E.
  rewrite length_take, length_drop in E. cbn in E. lia.
Qed.

Lemma block_of_parsed k bi d :
  block_of k bi d -> payload (dump_of (mh_hash (hdr k))) d /\ blen d = mh_blockSize (hdr k) /\
  bh_hash (bi_header bi) = dump_hash d /\ bh_prevHash (bi_header bi) = dump_prevHash d /\
  bh_blockNumber (bi_header bi) = None /\
  fp_fileName (bh_filePos (bi_header bi)) = fs_join folderPath (fs_filename (mh_fileName (hdr k))) /\
  (blen d < 2 ^ 64 -> bh_wf (bi_header bi)).
Proof.
  intros (bh0 & Hs & Hlen & Hr). cbn zeta in Hr.
  assert (bh_blockNumber bh0 = None) as Hnum
    by (destruct isVerifySign; [by destruct Hs as (sb & _ & _ & ->)|by destruct Hs as [_ ->]]).
  apply readNextBlockInfo_header in Hr as [Eh Ep Es Ef En Ht Hts (n & Hn & Hn') Hl]; [|done].
  cbn [bi_header] in *. rewrite Ef, En. split; [|do 5 (split; [done|])].
  - unfold payload. destruct isVerifySign; [|by destruct Hs]. destruct Hs as (sb & Hsb & -> & _). by exists sb.
  - intros Hd. pose proof (blen_nonneg d). unfold bh_wf, fp_wf, is_u64 in *. rewrite Eh, Ep, Es, Ef, Hn. cbn.
    split; [apply toHex_nonempty; intros E; pose proof (SHA256_length (SHA256 d)) as Hx; by rewrite E in Hx|].
    split; [apply toHex_slice; unfold blen in Hl; lia|].
    repeat (split; [lia|]). exists n. split; [done|lia].
Qed.

Lemma block_of_size k bi d : block_of k bi d -> bh_blockSize (bi_header bi) = blen d.
Proof.
  intros (bh0 & _ & _ & Hr). cbn zeta in Hr. by apply readNextBlockInfo_header in Hr as [_ _ ? _ _ _ _ _ _].
Qed.

(** Consecutive blocks of these follow the chain. *)
Lemma served_follows (s : SyncState D) hs n size l :
  consistent s hs -> chain_served hs n size -> 0 <= n < 2 ^ 62 -> blen hs < 2 ^ 62 -> 0 <= size < 2 ^ 62 ->
  blen l <= Z.max 0 (n - blen hs) ->
  (forall name, blen (file_contents (ss_files s) name) + blen l * (8 + size) < 2 ^ 64) ->
  (forall i b, l !! i = Some b -> block_of (blen hs + 1 + Z.of_nat i) b.1 b.2) ->
  follows s hs l /\ forall i b, l !! i = Some b ->
    bh_hash (bi_header b.1) = mh_hash (hdr (blen hs + 1 + Z.of_nat i)).
Proof.
  intros Hc Hs Hn Hhs Hsz Hlen Hroom Hl. pose proof (blen_nonneg hs) as Hhs0.
  assert (forall i b, l !! i = Some b -> blen hs < blen hs + 1 + Z.of_nat i <= n) as Hrange.
  { intros i b Hi. apply lookup_lt_Some in Hi. unfold blen in *. lia. }
  assert (forall i b, l !! i = Some b ->
    bh_hash (bi_header b.1) = mh_hash (hdr (blen hs + 1 + Z.of_nat i)) /\
    bh_prevHash (bi_header b.1) =
      (if (i =? 0)%nat then tip_of GENESIS_BLOCK_HASH hs else mh_hash (hdr (blen hs + Z.of_nat i)))) as Hlink.
  { intros i b Hi. destruct (block_of_parsed _ _ _ (Hl i b Hi)) as (Hp & _ & -> & -> & _).
    destruct (cs_hash _ _ _ Hs _ _ (Hrange i b Hi) Hp) as [-> ->]. split; [done|].
    destruct (Nat.eqb_spec i 0), (Z.eqb_spec (blen hs + 1 + Z.of_nat i) (blen hs + 1)); try lia; [done|].
    by replace (blen hs + 1 + Z.of_nat i - 1) with (blen hs + Z.of_nat i) by lia. }
  split; [|intros i b Hi; by apply Hlink].
  assert (forall i h, headers l !! i = Some h -> exists b, l !! i = Some b /\ h = bi_header b.1) as Hhd.
  { intros i h. unfold headers. rewrite list_lookup_fmap. destruct (l !! i) eqn:E; [|done].
    intros [= <-]. eauto. }
  split.
  - intros h Hin. apply list_elem_of_lookup in Hin as [i Hi]. destruct (Hhd i h Hi) as (b & Hb & ->).
    pose proof (Hrange i b Hb) as Hk.
    destruct (block_of_parsed _ _ _ (Hl i b Hb)) as (_ & Hd & _ & _ & Hnum & Hfn & Hwf).
    pose proof (cs_size _ _ _ Hs _ Hk). destruct (cs_file _ _ _ Hs _ Hk) as [Hf1 Hf2].
    split; [apply Hwf; lia|done| |by rewrite Hfn..]. eapply cs_header; [exact Hs|exact Hk|by apply Hl].
  - apply child_chain_of_lookup.
    + intros h Hh. rewrite head_lookup in Hh. destruct (Hhd 0%nat h Hh) as (b & Hb & ->).
      by apply Hlink in Hb as [_ ->].
    + intros i h h' Hi Hi'. destruct (Hhd _ _ Hi) as (b & Hb & ->), (Hhd _ _ Hi') as (b' & Hb' & ->).
      apply Hlink in Hb as [-> _], Hb' as [_ ->]. cbn [Nat.eqb]. do 2 f_equal. lia.
  - rewrite fmap_app, app_comm_cons. apply NoDup_app.
    split; [rewrite <- (co_chain _ _ Hc); apply settled_NoDup, Hc|]. split.
    + intros x Hx Hin. apply list_elem_of_fmap in Hin as (h & -> & Hin).
      apply list_elem_of_lookup in Hin as [i Hi]. destruct (Hhd i h Hi) as (b & Hb & ->).
      pose proof (Hrange i b Hb) as Hk. apply Hlink in Hb as [E _]. rewrite E in Hx.
      by eapply cs_fresh.
    + apply NoDup_alt. intros i j x Hi Hj. rewrite list_lookup_fmap in Hi, Hj.
      destruct (headers l !! i) as [h|] eqn:Ei; [|done]. destruct (headers l !! j) as [h'|] eqn:Ej; [|done].
      destruct (Hhd _ _ Ei) as (b & Hb & ->), (Hhd _ _ Ej) as (b' & Hb' & ->).
      pose proof (Hrange i b Hb). pose proof (Hrange j b' Hb').
      apply Hlink in Hb as [E _], Hb' as [E' _]. cbn in Hi, Hj. rewrite <- Hj in Hi. injection Hi as Hi.
      rewrite E, E' in Hi. apply (cs_once _ _ _ Hs) in Hi; [lia|done..].
  - intros name. eapply Z.le_lt_trans; [|apply (Hroom name)]. apply Z.add_le_mono_l, room_needed_bound.
    intros b Hin. apply list_elem_of_lookup in Hin as [i Hi].
    destruct (block_of_parsed _ _ _ (Hl i b Hi)) as (_ & -> & _). eapply cs_size; [exact Hs|by eapply Hrange].
  - lia.
Qed.

(** ** A round over the network *)

#[local] Abbreviation take_blocks := (take_blocks isInitialized maxAdvanced countBlocksInBatch isCompress folderPath
  saveAllTx isValidate isVerifySign fuel base).
#[local] Abbreviation source := (network_source (D := D) isInitialized maxAdvanced countBlocksInBatch isCompress folderPath
  saveAllTx isValidate isVerifySign fuel base).
#[local] Abbreviation blocks_of k s := (@source_blocks D _ source k s).
#[local] Abbreviation inv :=
  (honest_inv isVerifySign top hdr dump_of isInitialized folderPath saveAllTx isValidate base).

Lemma source_blocks_network k s : fst (blocks_of k s) = (take_blocks k s).2.
Proof.
  revert s. induction k as [|k IH]; intros s; [done|]. cbn [source_blocks NetworkSourceFacts.take_blocks].
  cbn [bs_process network_source]. destruct (Network_process _ _ _ _ _ _ _ _ _ _ s) as [s1 [[b|]| | |]]; try done.
  specialize (IH s1). destruct (blocks_of k s1), (take_blocks k s1). cbn in *. by rewrite IH.
Qed.

(** The source ends without an error exactly when it gave the last block. *)
Lemma source_blocks_end n servers k ns w :
  0 <= n <= top -> n < 2 ^ 62 -> inv n servers ns ->
  ns_nextBlockToRead ns <= n + 1 -> n + 1 - ns_nextBlockToRead ns < Z.of_nat k ->
  snd (blocks_of k (ns, w)) = Ok tt <-> ns_nextBlockToRead ns + blen (take_blocks k (ns, w)).2 = n + 1.
Proof.
  intros Htop Hn. revert ns w. induction k as [|k IH]; intros ns w Hi Hle Hk; [lia|].
  cbn [source_blocks NetworkSourceFacts.take_blocks bs_process network_source].
  destruct (Network_process _ _ _ _ _ _ _ _ _ _ (ns, w)) as [[ns1 w1] r] eqn:Hp.
  pose proof (honest_end maxAdvanced countBlocksInBatch isCompress isVerifySign fuel Hfits top hdr dump_of Hhonest isInitialized
    folderPath saveAllTx isValidate base n servers ns w _ r Htop Hn Hi Hp) as He.
  destruct r as [[[bi dump]|]|e| |]; cbn [fst snd].
  2: { apply proj1 in He; [|done]. rewrite blen_nil. specialize (He eq_refl). split; [lia|done]. }
  2-4: rewrite blen_nil; apply proj2 in He; [|done]; split; [done|]; intros Hx; discriminate He; lia.
  pose proof (honest_process maxAdvanced countBlocksInBatch isCompress isVerifySign fuel Hfits top hdr dump_of Hhonest isInitialized
    folderPath saveAllTx isValidate base n servers ns w _ bi dump Htop Hn Hi Hp) as (Hle' & Hnx & Hi1 & _).
  cbn [fst] in *. specialize (IH ns1 w1 Hi1 ltac:(lia) ltac:(lia)).
  destruct (blocks_of k (ns1, w1)), (take_blocks k (ns1, w1)). cbn [fst snd] in *. rewrite blen_cons.
  rewrite IH. lia.
Qed.

(** After the source has been asked for what follows the chain, the round hands
    the loop its blocks, and the loop accepts them all. *)
Lemma round_follows m users save k (ns : NetSource) (w : W) (st : SyncState D) hs s1 more n size :
  consistent st hs -> has_module MODULE_BLOCK m = true -> has_module MODULE_USERS m = false ->
  blen hs < 2 ^ 62 -> 0 <= n <= top -> n < 2 ^ 62 -> 0 <= size < 2 ^ 62 -> n - blen hs < Z.of_nat k ->
  chain_served hs n size ->
  (forall name, blen (file_contents (ss_files st) name) + Z.max 0 (n - blen hs) * (8 + size) < 2 ^ 64) ->
  Network_doProcess (blen hs) (ns, w) = (s1, Ok (more, n)) ->
  let '(s', r) := @sync_round _ _ D _ _ source false m users save k ((ns, w), st) in
  exists pr, run_done save st s'.2 hs pr /\ pr.*2 = (take_blocks k s1).2.*2 /\
    blen pr <= Z.max 0 (n - blen hs) /\
    (forall i b, pr !! i = Some b ->
      let header := hdr (blen hs + 1 + Z.of_nat i) in
      bh_hash (bi_header b.1) = mh_hash header /\ payload (dump_of (mh_hash header)) b.2 /\
      bh_blockSize (bi_header b.1) = blen b.2 /\
      fp_fileName (bh_filePos (bi_header b.1)) = fs_join folderPath (fs_filename (mh_fileName header))) /\
    (r = Ok tt <-> blen pr = Z.max 0 (n - blen hs)).
Proof.
  intros Hc Hb Hu Hhs Htop Hn Hsz Hk Hs Hroom Hd. pose proof (blen_nonneg hs) as Hhs0.
  pose proof (countBlocks_consistent st hs Hc Hhs) as Hcount.
  destruct (getLastBlock_consistent st hs Hc Hhs) as [hl Hlast].
  unfold sync_round. unfold mbind' at 1, mget. unfold mbind' at 1, mlift at 1. cbn [snd].
  rewrite Hlast. unfold mbind' at 1, on_source at 1. cbn [fst snd bs_doProcess network_source].
  rewrite Hcount, Hd. cbn [fst snd]. destruct s1 as [ns1 w1].
  apply (honest_doProcess isVerifySign top hdr dump_of isInitialized folderPath saveAllTx isValidate base) in Hd
    as (_ & -> & Hnx & Hi); [|lia]. cbn [fst] in *.
  pose proof (honest_take maxAdvanced countBlocksInBatch isCompress isVerifySign fuel Hfits top hdr dump_of Hhonest isInitialized
    folderPath saveAllTx isValidate base n _ ns1 w1 k ltac:(lia) ltac:(lia) Hi) as Ht.
  pose proof (source_blocks_network k (ns1, w1)) as Hsb.
  pose proof (source_blocks_end n _ k ns1 w1 ltac:(lia) ltac:(lia) Hi) as He. rewrite Hnx in Ht, He.
  pose proof (@sync_while_loop _ _ D _ _ source false m users save k None (ns1, w1) st) as Hw.
  destruct (blocks_of k (ns1, w1)) as [l rs]. destruct (take_blocks k (ns1, w1)) as [s2 l'].
  cbn [fst snd] in *. subst l'. destruct Ht as (_ & Hlen & Hall).
  assert (blen l <= Z.max 0 (n - blen hs)) as Hlen'.
  { destruct l; [rewrite blen_nil; lia|]. specialize (Hlen ltac:(done)). lia. }
  destruct (served_follows st hs n size l Hc Hs ltac:(lia) Hhs Hsz Hlen') as [Hf Hhash]; [|exact Hall|].
  { intros name. specialize (Hroom name). nia. }
  destruct (sync_loop_accepts m users save None l st hs Hc Hb Hu Hf) as (st' & pr & Hl & Hrun & Hh & Hds).
  rewrite Hl in Hw.
  assert (exists s' r, (if blen hs + 1 <=? n
    then @sync_while _ _ D _ _ source false m users save k None
    else mret' tt) (ns1, w1, st) = (s', r) /\ s'.2 = st' /\
    (r = Ok tt <-> blen l = Z.max 0 (n - blen hs))) as (s' & r & -> & <- & Hr).
  { destruct (Z.leb_spec (blen hs + 1) n).
    - destruct (sync_while _ _ _ _ _ _ _) as [s' r]. destruct Hw as [<- ->]. exists s', rs.
      split; [done|]. split; [done|]. rewrite He by lia. lia.
    - exists (ns1, w1, st), (Ok tt). destruct l as [|b l]; [|pose proof (blen_nonneg l); rewrite blen_cons in *; lia].
      cbn in Hl. injection Hl as <-. split; [done|]. split; [done|]. rewrite blen_nil. split; [lia|done]. }
  exists pr. assert (blen pr = blen l) as Hpl.
  { unfold blen. f_equal. by rewrite <- (length_fmap snd pr), Hds, length_fmap. }
  split; [done|]. split; [done|]. rewrite Hpl. split; [done|]. split; [|done].
  intros i b Hpr. destruct (l !! i) as [x|] eqn:Hx.
  2: { apply lookup_ge_None in Hx. apply lookup_lt_Some in Hpr. unfold blen in Hpl. lia. }
  assert (kept (bi_header b.1) = kept (bi_header x.1) /\ b.2 = x.2) as [Hkept ->].
  { pose proof (f_equal (lookup i) Hh) as Hhi. pose proof (f_equal (lookup i) Hds) as Hdi.
    unfold headers in Hhi. rewrite !list_lookup_fmap, Hpr, Hx in Hhi.
    rewrite !list_lookup_fmap, Hpr, Hx in Hdi. cbn in Hhi, Hdi. split; congruence. }
  unfold kept in Hkept. injection Hkept as -> _ -> ->. split; [by apply Hhash|].
  destruct (block_of_parsed _ _ _ (Hall i x Hx)) as (? & _ & _ & _ & _ & ? & _).
  destruct (block_of_size _ _ _ (Hall i x Hx)). done.
Qed.

End node.
