(* ===== verification/NodeToNode.v ===== *)
(** * A node asking a node that runs the same program

    What a node that holds a chain answers to the requests of GetNewBlocks,
    through the handler of Server and the block dumps of SyncImpl: exactly what
    [honest_net] asks of the nodes a node follows, one block at a time or several
    in a request.  So a round over such a node copies its chain, byte for byte. *)
From S2P Require Import Prelude External Serialize Address BlockInfo BlockInfoCodec BlockChainInterface.
From S2P Require Import BlockChain BlockChainFacts LevelDb Cache Modules Workers BlockchainUtils PrivateKey.
From S2P Require Import BlockchainRead BlockchainReadFacts Sync SyncFacts.
From S2P Require Import P2P P2PFacts Graph Dumps JsonApi Server ServerFacts ClientServer.
From S2P Require Import GetNewBlocks GetNewBlocksFacts NetworkSource.
From S2P Require Import NetworkSourceFacts HonestNet FileSource FileSourceFacts SyncRun SyncRunFacts NodeFacts.
#[local] Open Scope Z_scope.

(** ** A node *)

Section holding.
Context `{Support} `{Crypto} `{Fs} {D : Type} `{KvLaws D}.

(** The block [d] is the one the header [h] describes, and [fs] has it at the
    place [h] names. *)
Record block_held (fs : Files) (h : BlockHeader) (d : bytes) : Prop := {
  bl_file : held_in_file fs h d;
  bl_hash : bh_hash h = dump_hash d;
  bl_prevHash : bh_prevHash h = dump_prevHash d;
  bl_size : bh_blockSize h = blen d;
  bl_length : 80 <= blen d;
  bl_name : fp_fileName (bh_filePos h) <> [];
}.

(** Chain and database hold the headers [hs], and the block files their blocks [ds]. *)
Record holds_chain (st : SyncState D) (hs : list BlockHeader) (ds : list bytes) : Prop := {
  hc_consistent : consistent st hs;
  hc_blocks : Forall2 (block_held (ss_files st)) hs ds;
}.

Lemma block_held_grows fs fs' h d : files_grow fs fs' -> block_held fs h d -> block_held fs' h d.
Proof. intros Hg [? ? ? ? ? ?]. split; try done. by eapply held_grows. Qed.

Lemma holds_chain_length st hs ds : holds_chain st hs ds -> length ds = length hs.
Proof. intros [_ Hf]. symmetry. by eapply Forall2_length. Qed.

(** A node as its server sees it. *)
Record ServerNode := mkServerNode {
  sn_state : SyncState D;
  sn_modules : Modules;
  sn_blockDumpCache : Cache bytes;
  sn_privateKey : option Signer;
  sn_technicalAddress : bytes;
  sn_version : bytes * bytes;
  sn_serverPrivKey : bytes;
  sn_statistic : SmallStatistic;
  sn_machine : Z * res Z * res Z;
}.

Definition node_file (n : ServerNode) (name : bytes) : option bytes := ss_files (sn_state n) !! name.

Definition node_getBlockDump (n : ServerNode) : BlockHeader -> Z -> Z -> bool -> bool -> res bytes :=
  SyncImpl_getBlockDump (sn_modules n) (sn_blockDumpCache n) (node_file n) (sn_privateKey n).

Context `{Rapidjson} `{Lz4}.

(** The answer of the node to a query. *)
Definition node_answer (n : ServerNode) (q : Query) : res Response :=
  let '(now, memory, connections) := sn_machine n in
  handle (ss_blockchain (sn_state n)) (node_getBlockDump n)
    (verifyTechnicalAddressSign true (sn_technicalAddress n)) (sn_version n).1 (sn_version n).2
    (sn_serverPrivKey n) now memory connections (http_request q) (sn_statistic n).

(** What the node sends of the block [d]: with its signature when asked to. *)
Definition sent (n : ServerNode) (isSign : bool) (d raw : bytes) : Prop :=
  if isSign then exists key s, sn_privateKey n = Some key /\ makeBlockSign d key = Ok s /\
    raw = makeFirstPartBlockSign (blen d) ++ d ++ s
  else raw = d.

(** The node has the chain [hs], or one that goes on from it, with the blocks
    [ds], which it sends as [raws]; what it keeps of them in memory is right. *)
Record serves (isSign : bool) (n : ServerNode) (hs : list BlockHeader) (ds raws : list bytes) : Prop := {
  sv_holds : exists hs' ds', holds_chain (sn_state n) (hs ++ hs') (ds ++ ds') /\ length ds = length hs;
  sv_modules : has_module MODULE_BLOCK (sn_modules n) = true /\
    has_module MODULE_BLOCK_RAW (sn_modules n) = true /\ has_module MODULE_USERS (sn_modules n) = false;
  sv_files : forall name, blen (file_contents (ss_files (sn_state n)) name) < 2 ^ 62;
  sv_cache : forall i h d d', hs !! i = Some h -> ds !! i = Some d ->
    getValue (bh_hash h) (sn_blockDumpCache n) = Some d' -> d' = d;
  sv_sent : Forall2 (sent n isSign) ds raws;
  sv_count : countBlocks_ (ss_blockchain (sn_state n)) < 2 ^ 63;
  sv_plain : forall h, h ∈ hs -> c_str (bh_hash h) = bh_hash h /\ c_str (bh_prevHash h) = bh_prevHash h /\
    c_str (fp_fileName (bh_filePos h)) = fp_fileName (bh_filePos h);
}.

Lemma consistent_wf st hs : consistent st hs -> Forall bh_wf hs.
Proof.
  intros Hc. destruct (dh_blocks _ _ (co_db _ _ Hc)) as (es & _ & He).
  apply Forall_forall. intros h Hh. apply list_elem_of_lookup in Hh as [i Hi].
  destruct (Forall2_lookup_l _ _ _ _ _ He Hi) as (e & _ & _ & Hwf & _). exact Hwf.
Qed.

(** The header a node has for a number of its chain. *)
Lemma chain_header n isSign hs ds raws i h :
  serves isSign n hs ds raws -> hs !! i = Some h -> exists k,
    getBlock_by_number (1 + Z.of_nat i) (ss_blockchain (sn_state n)) = Ok k /\
    getBlock_by_hash (bh_hash h) (ss_blockchain (sn_state n)) = Ok k /\
    bh_stored k = bh_stored h /\ bh_blockNumber k = Some (1 + Z.of_nat i) /\
    0 < 1 + Z.of_nat i <= countBlocks_ (ss_blockchain (sn_state n)).
Proof.
  intros Hs Hi. destruct (sv_holds _ _ _ _ _ Hs) as (hs' & ds' & [Hc _] & _).
  assert ((hs ++ hs') !! i = Some h) as Hi' by (by apply lookup_app_l_Some).
  destruct (consistent_header _ _ i h Hc Hi') as (k & Hk & Hb & Hst & Hn).
  exists k. apply lookup_lt_Some in Hk as Hlt. cbn [getBlock_by_number getBlock_by_hash countBlocks_ BlockChain_read].
  pose proof (set_size _ (co_settled _ _ Hc)) as Hsize.
  split; [|split; [|split; [done|split; [done|]]]].
  - unfold getBlock_number, getBlockImpl_number. rewrite (proj2 (Z.leb_gt _ _)) by (unfold blen; lia).
    replace (Z.to_nat (1 + Z.of_nat i)) with (S i) by lia. rewrite Hk. cbn [opt_ub mbind res_bind].
    unfold getBlockImpl_hash. by rewrite Hb.
  - unfold getBlock_hash, getBlockImpl_hash. rewrite Hb, is_empty_false; [done|].
    pose proof (consistent_wf _ _ Hc) as Hwf. rewrite Forall_forall in Hwf.
    apply (Hwf h). by eapply list_elem_of_lookup_2.
  - unfold countBlocks. rewrite u64_small; unfold is_u64, blen in *; lia.
Qed.

(** Its block, in memory or in its file. *)
Lemma node_block n isSign hs ds raws i h d :
  serves isSign n hs ds raws -> hs !! i = Some h -> ds !! i = Some d ->
  block_held (ss_files (sn_state n)) h d /\ 80 <= blen d < 2 ^ 62 /\
  (getValue (bh_hash h) (sn_blockDumpCache n) = Some d \/
   getValue (bh_hash h) (sn_blockDumpCache n) = None /\ exists contents,
     node_file n (fp_fileName (bh_filePos h)) = Some contents /\
     forall from to, 0 <= from < blen d -> from <= to ->
       getBlockDump contents (fp_pos (bh_filePos h)) from to = Ok (blen d, slice from (Z.min to (blen d)) d)).
Proof.
  intros Hs Hh Hd. destruct (sv_holds _ _ _ _ _ Hs) as (hs' & ds' & [_ Hb] & Hlen).
  apply (Forall2_lookup_lr _ _ _ i h d) in Hb as Hbl; [|by apply lookup_app_l_Some..].
  destruct (bl_file _ _ _ Hbl) as (pre & post & Hc & Hp).
  pose proof (sv_files _ _ _ _ _ Hs (fp_fileName (bh_filePos h))) as Hsz. pose proof (bl_length _ _ _ Hbl).
  assert (blen (pre ++ le_bytes 8 (blen d) ++ d ++ post) < 2 ^ 62) as Hroom.
  { unfold frame in Hc. rewrite Hc, <- ?app_assoc in Hsz. exact Hsz. }
  split; [done|]. split.
  { rewrite !blen_app in Hroom. pose proof (blen_nonneg pre). pose proof (blen_nonneg post).
    pose proof (blen_nonneg (le_bytes 8 (blen d))). lia. }
  destruct (getValue (bh_hash h) (sn_blockDumpCache n)) as [d'|] eqn:Hv.
  { left. by rewrite (sv_cache _ _ _ _ _ Hs i h d d' Hh Hd Hv). }
  right. split; [done|]. exists (pre ++ le_bytes 8 (blen d) ++ d ++ post). split.
  - unfold node_file, file_contents in *. destruct (ss_files (sn_state n) !! _) as [c|].
    + assert (c = pre ++ frame d ++ post) as -> by exact Hc. unfold frame. by rewrite <- app_assoc.
    + cbn [default] in Hc. apply (f_equal blen) in Hc. rewrite !blen_app, blen_frame, blen_nil in Hc.
      pose proof (blen_nonneg pre). pose proof (blen_nonneg post). lia.
  - intros from to Hf Ht. rewrite Hp. by apply getBlockDump_saved.
Qed.

(** The whole block, as it is sent. *)
Lemma node_dump_whole n isSign hs ds raws i h d raw k :
  serves isSign n hs ds raws -> hs !! i = Some h -> ds !! i = Some d -> raws !! i = Some raw ->
  bh_stored k = bh_stored h -> node_getBlockDump n k 0 u64_max false isSign = Ok raw.
Proof.
  intros Hs Hh Hd Hr Hk. destruct (node_block n isSign hs ds raws i h d Hs Hh Hd) as (Hbl & Hlen & Hfile).
  destruct (sv_modules _ _ _ _ _ Hs) as (Hm1 & Hm2 & Hm3).
  pose proof (Forall2_lookup_lr _ _ _ i d raw (sv_sent _ _ _ _ _ Hs) Hd Hr) as Hsent.
  assert (bh_hash k = bh_hash h /\ bh_filePos k = bh_filePos h) as [Eh Ef] by (injection Hk; done).
  unfold node_getBlockDump, SyncImpl_getBlockDump. rewrite Hm1, Hm2, Hm3, Eh, Ef. cbn [negb andb CHECK mbind res_bind].
  assert ((blen d <=? u64_max) = true) as Hle by (apply Z.leb_le; unfold u64_max; lia).
  assert (slice 0 (Z.min u64_max (blen d)) d = d) as Hsl.
  { rewrite Z.min_r by (unfold u64_max; lia). unfold slice. rewrite Z.sub_0_r, drop_0. apply take_ge. unfold blen. lia. }
  destruct Hfile as [->|(-> & contents & -> & Hdump)].
  - unfold substr. rewrite (proj2 (Z.ltb_ge _ _)) by lia. cbn [mbind res_bind]. rewrite Hle.
    rewrite u64_small by (unfold is_u64, u64_max; lia). rewrite !Z.sub_0_r, drop_0.
    rewrite take_ge by (unfold blen, u64_max in *; lia). unfold sent in Hsent. destruct isSign.
    + destruct Hsent as (key & s & -> & Hsg & ->). cbn [andb]. cbn [Z.eqb mbind res_bind]. rewrite ?Hle, Hsg. cbn. by rewrite <- app_assoc.
    + by rewrite Hsent.
  - rewrite is_empty_false by apply Hbl. cbn [negb CHECK mbind res_bind].
    rewrite Hdump by (unfold u64_max; lia). rewrite Hsl. cbn [mbind res_bind]. rewrite Hle.
    unfold sent in Hsent. destruct isSign.
    + destruct Hsent as (key & s & -> & Hsg & ->). cbn [andb Z.eqb mbind res_bind]. rewrite ?Hle, Hsg. cbn. by rewrite <- app_assoc.
    + by rewrite Hsent.
Qed.

(** A range of it, without signature. *)
Lemma node_dump_range n isSign hs ds raws i h d k from to :
  serves isSign n hs ds raws -> hs !! i = Some h -> ds !! i = Some d ->
  bh_stored k = bh_stored h -> 0 <= from < to -> to <= blen d ->
  node_getBlockDump n k from to false false = Ok (slice from to d).
Proof.
  intros Hs Hh Hd Hk Hf Ht. destruct (node_block n isSign hs ds raws i h d Hs Hh Hd) as (Hbl & Hlen & Hfile).
  destruct (sv_modules _ _ _ _ _ Hs) as (Hm1 & Hm2 & Hm3).
  assert (bh_hash k = bh_hash h /\ bh_filePos k = bh_filePos h) as [Eh Ef] by (injection Hk; done).
  unfold node_getBlockDump, SyncImpl_getBlockDump. rewrite Hm1, Hm2, Hm3, Eh, Ef. cbn [negb andb CHECK mbind res_bind].
  destruct Hfile as [->|(-> & contents & -> & Hdump)].
  - unfold substr. rewrite (proj2 (Z.ltb_ge _ _)) by lia. cbn [mbind res_bind].
    rewrite u64_small by (unfold is_u64; lia). by rewrite Z.min_l by lia.
  - rewrite is_empty_false by apply Hbl. cbn [negb CHECK mbind res_bind].
    rewrite Hdump by lia. rewrite Z.min_l by lia. done.
Qed.

(** ** The requests for blocks *)

(** The request for a whole dump, as [dump_query] writes it. *)
Definition qs_dump (blockHash : bytes) (isSign isCompress : bool) : Query :=
  (str "get-dump-block-by-hash",
   js "{'id':1,'params':{'hash': '" ++ blockHash ++ js "' , 'isHex': false, "
     ++ js "'isSign': " ++ bool_text isSign ++ js ", 'compress': " ++ bool_text isCompress ++ js "}}").

Lemma dump_query_single B isCompress hashs isSign i q :
  in_part B (blen hashs) i = 1 -> dump_query B isCompress hashs isSign i = Ok q ->
  exists h, hashs !! Z.to_nat i = Some h /\ q = qs_dump h isSign isCompress.
Proof.
  intros Hp Hq. unfold dump_query in Hq. apply bind_Ok_inv in Hq as (u & _ & Hq).
  rewrite Hp in Hq. cbn [Z.eqb Pos.eqb] in Hq. apply bind_Ok_inv in Hq as (h & Hh & [= <-]).
  exists h. split; [|done]. by destruct (hashs !! Z.to_nat i); [injection Hh as ->|].
Qed.

(** The objects the requests spell. *)
Definition dump_request (blockHash : bytes) (isSign isCompress : bool) : json :=
  JObject [(str "id", JInt 1); (str "params", JObject [(str "hash", JString blockHash);
    (str "isHex", JBool false); (str "isSign", JBool isSign); (str "compress", JBool isCompress)])].
Definition range_request (blockHash : bytes) (fromByte toByte : Z) : json :=
  JObject [(str "id", JInt 1); (str "params", JObject [(str "hash", JString blockHash);
    (str "fromByte", JInt fromByte); (str "toByte", JInt toByte); (str "isHex", JBool false)])].

(** The parameters the handler of dumps finds in an object. *)
Definition dump_params (m : list (bytes * json)) (blockHash : bytes) (from to : Z) (isSign isCompress : bool) : Prop :=
  find_member m (str "hash") = Some (JString blockHash) /\
  opt_int64 (JObject m) (str "fromByte") 0 = Ok from /\ opt_int64 (JObject m) (str "toByte") u64_max = Ok to /\
  opt_bool (JObject m) (str "isHex") false = Ok false /\ opt_bool (JObject m) (str "isSign") false = Ok isSign /\
  opt_bool (JObject m) (str "compress") false = Ok isCompress.

Lemma node_answer_dump n q p blockHash from to isSign isCompress k d :
  json_parse (c_str (snd q)) = Some (JObject [(str "id", JInt 1); (str "params", JObject p)]) ->
  snd q <> [] -> fst q = str "get-dump-block-by-hash" ->
  dump_params p blockHash from to isSign isCompress -> c_str blockHash = blockHash ->
  getBlock_by_hash blockHash (ss_blockchain (sn_state n)) = Ok k -> is_Some (bh_blockNumber k) ->
  node_getBlockDump n k from to false isSign = Ok d -> genDumpBlockBinary d isCompress <> [] ->
  node_answer n q = Ok (mkResponse (genDumpBlockBinary d isCompress) HTTP_STATUS_OK).
Proof.
  intros Hq Hne Hf (Hh & Hfrom & Hto & Hhex & Hsig & Hcomp) Hstr Hk Hnum Hd Hr.
  unfold node_answer. destruct (sn_machine n) as [[now memory] connections].
  rewrite (handle_known _ _ _ _ _ _ _ _ _ _ _ _ Hq Hne) by (by rewrite ?Hf). rewrite Hf.
  unfold dispatch. repeat rewrite (bool_decide_false (str _ = str _)) by done.
  rewrite bool_decide_true by done. unfold Server_getBlockDump, user_object, json_member.
  change (find_member _ (str "params")) with (Some (JObject p)). cbn [mbind res_bind].
  unfold getJsonField, json_member. rewrite Hh. cbn [mbind res_bind getJsonValue]. rewrite Hstr. cbn [mbind res_bind].
  rewrite Hfrom, Hto, Hhex, Hsig, Hcomp. cbn [mbind res_bind getBlock_key]. rewrite Hk. cbn [mbind res_bind].
  rewrite bool_decide_true by done. cbn [CHECK mbind res_bind]. rewrite Hd. cbn [mbind res_bind].
  rewrite is_empty_false by done. done.
Qed.

(** The result the node writes for block [k]. *)
Definition header_document (h : BlockHeader) (k : Z) : json :=
  JObject [(str "hash", JString (bh_hash h)); (str "prev_hash", JString (bh_prevHash h)); (str "number", JInt k);
    (str "size", JInt (bh_blockSize h)); (str "fileName", JString (fp_fileName (bh_filePos h)))].

Lemma header_document_value bh h k :
  bh_stored bh = bh_stored h -> bh_blockNumber bh = Some k ->
  blockHeaderToJson_value bh ForP2P V1 = Ok (header_document h k).
Proof.
  intros Hs Hn. assert (bh_hash bh = bh_hash h /\ bh_prevHash bh = bh_prevHash h /\
    bh_blockSize bh = bh_blockSize h /\ bh_filePos bh = bh_filePos h) as (Eh & Ep & Es & Ef) by (injection Hs; done).
  unfold blockHeaderToJson_value. cbv zeta. rewrite Hn, Eh, Ep, Es, Ef.
  rewrite (bool_decide_true (is_Some (Some k))) by eauto.
  rewrite (bool_decide_false (ForP2P = Simple)), (bool_decide_false (ForP2P = Small)) by done. done.
Qed.

Lemma node_answer_header n isSign hs ds raws i h :
  serves isSign n hs ds raws -> hs !! i = Some h -> blen hs < 2 ^ 62 ->
  let k := 1 + Z.of_nat i in
  reads_block_request k ->
  reads_back (JObject (addIdToResponse id_one [] ++ [(str "result", header_document h k)])) ->
  exists text, node_answer n (qs_block_by_number k) = Ok (mkResponse text HTTP_STATUS_OK) /\
    parseBlockHeader text = Ok (min_header h k).
Proof.
  intros Hs Hh Hl k Hq Hr. destruct (chain_header n isSign hs ds raws i h Hs Hh) as (bh & Hn & _ & Hst & Hnum & Hk).
  fold k in Hn, Hnum, Hk. destruct (sv_holds _ _ _ _ _ Hs) as (hs' & ds' & [Hc _] & Hlen).
  apply lookup_lt_Some in Hh as Hlt.
  destruct (lookup_lt_is_Some_2 ds i) as [d Hd]; [lia|].
  destruct (node_block n isSign hs ds raws i h d Hs Hh Hd) as (Hbl & Hdl & _).
  destruct (sv_plain _ _ _ _ _ Hs h) as (P1 & P2 & P3); [by eapply list_elem_of_lookup_2|].
  assert (sendable bh k) as Hsend.
  { assert (bh_hash bh = bh_hash h /\ bh_prevHash bh = bh_prevHash h /\
      bh_blockSize bh = bh_blockSize h /\ bh_filePos bh = bh_filePos h) as (Eh & Ep & Es & Ef) by (injection Hst; done).
    unfold sendable. rewrite Eh, Ep, Es, Ef, (bl_size _ _ _ Hbl). unfold blen in *.
    repeat (split; [done || lia|]). done. }
  unfold node_answer. destruct (sn_machine n) as [[now memory] connections].
  edestruct (server_block_answer (ss_blockchain (sn_state n))) as (text & Ha & Ht);
    [apply Hc|exact Hk|unfold blen in *; lia|exact Hq|exact Hn|exact Hsend|].
  exists text. split; [exact Ha|].
  assert (min_header h k = min_header bh k) as ->.
  { unfold min_header. by injection Hst as _ -> _ -> -> _ _ _ -> _ _ _. }
  eapply blockHeader_answer_read; [exact Hsend|exact Ht|]. intros v Hv.
  rewrite (header_document_value bh h k Hst Hnum) in Hv. by injection Hv as <-.
Qed.

(** ** Honest answers *)

(** A dump that the reader does not take for a JSON answer. *)
Definition plain_dump (d : bytes) : Prop :=
  (blen d <=? 512) && bool_decide (head d = Some Byte.x7b) && bool_decide (last d = Some Byte.x7d) = false.

Lemma plain_dump_read d : plain_dump d -> parseDumpBlockResponse d = Ok (mkResponseParse d None).
Proof.
  unfold plain_dump, parseDumpBlockResponse. intros ->.
  destruct (is_empty d) eqn:E; [|done]. destruct d; [done|]. done.
Qed.

(** What is relied on of rapidjson and of the blocks for [hs] to go over the
    wire: the requests for its blocks are read as the objects they spell, the
    answers are read back, no dump looks like JSON, and LZ4 takes them. *)
Record wire_ok (isSign isCompress : bool) (hs : list BlockHeader) (ds raws : list bytes) : Prop := {
  wr_block : forall i h, hs !! i = Some h -> reads_block_request (1 + Z.of_nat i) /\
    reads_back (JObject (addIdToResponse id_one [] ++ [(str "result", header_document h (1 + Z.of_nat i))]));
  wr_dump : forall h, h ∈ hs -> json_parse (c_str (snd (qs_dump (bh_hash h) isSign isCompress))) =
    Some (dump_request (bh_hash h) isSign isCompress);
  wr_range : forall h from to q, h ∈ hs -> MAX_BLOCK_SIZE_WITHOUT_ADVANCE < bh_blockSize h ->
    0 <= from < to -> to <= bh_blockSize h -> makeRequestForDumpBlock (bh_hash h) from to = Ok q ->
    json_parse (c_str (snd q)) = Some (range_request (bh_hash h) from to);
  wr_plain : forall raw, raw ∈ raws -> plain_dump (genDumpBlockBinary raw isCompress);
  wr_tails : forall d n, d ∈ ds -> MAX_BLOCK_SIZE_WITHOUT_ADVANCE < blen d -> plain_dump (drop n d);
  wr_large : isSign = true -> forall d, d ∈ ds -> blen d <= MAX_BLOCK_SIZE_WITHOUT_ADVANCE;
  wr_room : forall raw, raw ∈ raws -> blen raw < 2 ^ 64 - 16;
  wr_compress : isCompress = true -> forall raw, raw ∈ raws ->
    blen raw <= LZ4_MAX_INPUT_SIZE /\ LZ4_compressBound (blen raw) < 2 ^ 31 - 4;
}.

(** The chain, as a node that asks sees it. *)
Definition chain_hdr (hs : list BlockHeader) (k : Z) : MinimumBlockHeader :=
  match hs !! Z.to_nat (k - 1) with
  | Some h => min_header h k
  | None => mkMinimumBlockHeader 0 0 [] [] []
  end.
Definition chain_dump (hs : list BlockHeader) (raws : list bytes) (hash : bytes) : bytes :=
  default [] ((list_to_map (zip (bh_hash <$> hs) raws) : gmap bytes bytes) !! hash).

Lemma chain_hdr_at hs k : 0 < k <= blen hs -> exists i h, hs !! i = Some h /\ k = 1 + Z.of_nat i /\
  chain_hdr hs k = min_header h k.
Proof.
  intros Hk. destruct (lookup_lt_is_Some_2 hs (Z.to_nat (k - 1))) as [h Hh]; [unfold blen in Hk; lia|].
  exists (Z.to_nat (k - 1)), h. split; [done|]. split; [lia|]. unfold chain_hdr. by rewrite Hh.
Qed.

Lemma chain_dump_at hs raws i h raw :
  NoDup (bh_hash <$> hs) -> hs !! i = Some h -> raws !! i = Some raw -> chain_dump hs raws (bh_hash h) = raw.
Proof.
  intros Hnd Hh Hr. unfold chain_dump.
  assert ((list_to_map (zip (bh_hash <$> hs) raws) : gmap bytes bytes) !! bh_hash h = Some raw) as ->; [|done].
  assert ((bh_hash h, raw) ∈ zip (bh_hash <$> hs) raws) as Hin.
  { apply list_elem_of_lookup. exists i. apply lookup_zip_Some. cbn. by rewrite list_lookup_fmap, Hh, Hr. }
  apply elem_of_list_to_map_1'; [|done]. intros d Hd.
  apply list_elem_of_lookup in Hd as [j Hj]. apply lookup_zip_Some in Hj as [Hj Hj']. cbn in *.
  assert (j = i) as ->; [|congruence]. eapply NoDup_lookup; [exact Hnd|exact Hj|]. by rewrite list_lookup_fmap, Hh.
Qed.

Lemma serves_NoDup n isSign hs ds raws : serves isSign n hs ds raws -> NoDup (bh_hash <$> hs).
Proof.
  intros Hs. destruct (sv_holds _ _ _ _ _ Hs) as (hs' & ds' & [Hc _] & _).
  pose proof (settled_NoDup _ (co_settled _ _ Hc)) as Hnd. rewrite (co_chain _ _ Hc), fmap_app in Hnd.
  apply NoDup_cons in Hnd as [_ Hnd]. by apply NoDup_app in Hnd as [? _].
Qed.

Lemma serves_at n isSign hs ds raws i h :
  serves isSign n hs ds raws -> hs !! i = Some h -> exists d raw, ds !! i = Some d /\ raws !! i = Some raw /\
    sent n isSign d raw.
Proof.
  intros Hs Hh. destruct (sv_holds _ _ _ _ _ Hs) as (hs' & ds' & _ & Hlen). apply lookup_lt_Some in Hh.
  destruct (lookup_lt_is_Some_2 ds i) as [d Hd]; [lia|].
  destruct (Forall2_lookup_l _ _ _ _ _ (sv_sent _ _ _ _ _ Hs) Hd) as (raw & Hr & Hsent). by exists d, raw.
Qed.

Lemma sent_nonempty n isSign d raw : 80 <= blen d -> sent n isSign d raw -> raw <> [].
Proof.
  intros Hd Hs E. assert (blen d <= blen raw).
  { unfold sent in Hs. destruct isSign; [|by rewrite Hs].
    destruct Hs as (key & s & _ & _ & ->). rewrite !blen_app.
    pose proof (blen_nonneg (makeFirstPartBlockSign (blen d))). pose proof (blen_nonneg s). lia. }
  rewrite E, blen_nil in *. lia.
Qed.

(** ** Requests for several blocks *)

(** The request for the dumps of several blocks, as [dump_query] writes it. *)
Fixpoint hashes_list (isFirst : bool) (l : list bytes) : bytes :=
  match l with
  | [] => []
  | h :: l => (if isFirst then [] else str ", ") ++ js "'" ++ h ++ js "'" ++ hashes_list false l
  end.
Definition qs_dumps (l : list bytes) (isSign isCompress : bool) : Query :=
  (str "get-dumps-blocks-by-hash",
   js "{'id':1,'params':{'hashes': [" ++ hashes_list true l ++ js "], 'isSign': " ++ bool_text isSign
     ++ js ", 'compress': " ++ bool_text isCompress ++ js "}}").
Definition dumps_request (l : list bytes) (isSign isCompress : bool) : json :=
  JObject [(str "id", JInt 1); (str "params", JObject [(str "hashes", JArray (JString <$> l));
    (str "isSign", JBool isSign); (str "compress", JBool isCompress)])].

Lemma hashes_text_list l i n isFirst :
  (i + n <= length l)%nat -> hashes_text l i n isFirst = Ok (hashes_list isFirst (take n (drop i l))).
Proof.
  revert i isFirst. induction n as [|n IH]; intros i isFirst Hl; [done|].
  destruct (lookup_lt_is_Some_2 l i) as [h Hh]; [lia|]. cbn [hashes_text]. rewrite Hh. cbn [opt_ub mbind res_bind].
  rewrite IH by lia. cbn [mbind res_bind]. by rewrite (drop_S _ _ _ Hh).
Qed.

Lemma dump_query_many B isCompress hashs isSign i q :
  0 < B -> blen hashs < 2 ^ 62 -> 0 <= i -> i * B < 2 ^ 63 -> dump_query B isCompress hashs isSign i = Ok q ->
  in_part B (blen hashs) i <> 1 ->
  let l := take (Z.to_nat (in_part B (blen hashs) i)) (drop (Z.to_nat (i * B)) hashs) in
  1 < blen l <= B /\ q = qs_dumps l isSign isCompress.
Proof.
  intros HB Hl Hi Hib Hq Hp. unfold dump_query in Hq. apply bind_Ok_inv in Hq as (u & Hc & Hq).
  rewrite u64_small in Hc, Hq by (unfold is_u64; nia).
  apply CHECK_Ok_inv, Z.ltb_lt in Hc. rewrite (proj2 (Z.eqb_neq _ _)) in Hq by done.
  assert (in_part B (blen hashs) i = Z.min B (blen hashs - i * B)) as E.
  { unfold in_part. rewrite u64_small by (unfold is_u64; nia). done. }
  rewrite E in *. set (n := Z.min B _) in *. assert (0 <= i * B) by nia.
  split.
  - unfold blen. rewrite length_take, length_drop. unfold blen in *. lia.
  - rewrite hashes_text_list in Hq by (unfold blen in *; lia). cbn [mbind res_bind] in Hq. by injection Hq as <-.
Qed.

(** The headers the node writes for the blocks from [n] on. *)
Definition batch_documents (hs : list BlockHeader) (n count : Z) : list json :=
  (fun k => match hs !! Z.to_nat (k - 1) with Some h => header_document h k | None => JNull end) <$> seqZ n count.

(** What going over the wire in batches takes besides: the server's limit, the
    reader's fuel, numbers that fit the parameter, and what is relied on of
    rapidjson and LZ4 for the requests and answers of several blocks. *)
Record batches_ok (B : Z) (isSign isCompress : bool) (fuel : nat) (hs : list BlockHeader) (raws : list bytes) : Prop := {
  ba_size : B = 1 \/ (0 < B <= 1000 /\ B <= Z.of_nat fuel /\ blen hs < 2 ^ 31);
  ba_blocks : forall n count, 0 < n -> 1 < count <= B -> n + count <= blen hs + 1 ->
    reads_blocks_request n count /\
    reads_back (JObject (addIdToResponse id_one [] ++ [(str "result", JArray (batch_documents hs n count))]));
  ba_dumps : forall l, 1 < blen l <= B -> Forall (fun hash => hash ∈ bh_hash <$> hs) l ->
    json_parse (c_str (snd (qs_dumps l isSign isCompress))) = Some (dumps_request l isSign isCompress) /\
    let plain := genDumpBlocksBinary (chain_dump hs raws <$> l) false in
    plain_dump (genDumpBlocksBinary (chain_dump hs raws <$> l) isCompress) /\ blen plain < 2 ^ 64 - 16 /\
    (isCompress = true -> blen plain <= LZ4_MAX_INPUT_SIZE /\ LZ4_compressBound (blen plain) < 2 ^ 31 - 4);
}.

(** Nothing, when blocks are asked for one at a time. *)
Lemma batches_one isSign isCompress fuel hs raws : batches_ok 1 isSign isCompress fuel hs raws.
Proof. split; [by left|intros; lia|intros; lia]. Qed.

Section honest.
Context {HLz4 : Lz4Laws} {W : Type} `{P2PNetLaws W}.
Variables (isSign isCompress : bool) (fuel : nat) (hs : list BlockHeader) (ds raws : list bytes).
Hypothesis Hlen : blen hs < 2 ^ 62.
Hypothesis Hwire : wire_ok isSign isCompress hs ds raws.

(** Every answer comes from a node with the chain. *)
Definition served_by_nodes : Prop := (exists n, serves isSign n hs ds raws) /\ forall srv q response, net_replies srv q (Ok response) ->
  exists n resp, serves isSign n hs ds raws /\ node_answer n q = Ok resp /\ response = rs_data resp.
Hypothesis Hnodes : served_by_nodes.

Lemma dump_sent raw :
  raw ∈ raws -> raw <> [] -> genDumpBlockBinary raw isCompress <> [] /\
  parseDumpBlockBinary (genDumpBlockBinary raw isCompress) isCompress = raw.
Proof.
  intros Hr Hne. unfold genDumpBlockBinary, parseDumpBlockBinary.
  pose proof (wr_compress _ _ _ _ _ Hwire) as Hc. destruct isCompress; cbn [negb]; [|done].
  destruct (Hc eq_refl raw Hr) as [H1' H2'].
  pose proof (decompress_compress_eq raw H1' H2') as E. split; [|done].
  intros E0. rewrite E0 in E. by rewrite <- E in Hne.
Qed.

(** The answer to a request for a whole dump. *)
Lemma whole_answer n i h raw :
  serves isSign n hs ds raws -> hs !! i = Some h -> raws !! i = Some raw ->
  node_answer n (qs_dump (bh_hash h) isSign isCompress) =
    Ok (mkResponse (genDumpBlockBinary raw isCompress) HTTP_STATUS_OK) /\
  parseDumpBlockBinary (genDumpBlockBinary raw isCompress) isCompress = raw.
Proof.
  intros Hs Hh Hr. destruct (serves_at n isSign hs ds raws i h Hs Hh) as (d & raw' & Hd & Hr' & Hsent).
  rewrite Hr in Hr'. injection Hr' as <-.
  destruct (node_block n isSign hs ds raws i h d Hs Hh Hd) as (_ & Hdl & _).
  destruct (dump_sent raw) as [Hne Hback]; [by eapply list_elem_of_lookup_2|eapply sent_nonempty; [|exact Hsent]; lia|].
  split; [|done].
  destruct (chain_header n isSign hs ds raws i h Hs Hh) as (k & _ & Hk & Hst & Hnum & _).
  eapply node_answer_dump; [apply (wr_dump _ _ _ _ _ Hwire h); by eapply list_elem_of_lookup_2|done|done| | | exact Hk| | |done].
  - by repeat split.
  - apply (sv_plain _ _ _ _ _ Hs h). by eapply list_elem_of_lookup_2.
  - by rewrite Hnum.
  - by eapply node_dump_whole.
Qed.

(** The answer to a request for a range of a large block. *)
Lemma range_answer n i h d from to q :
  isSign = false -> serves isSign n hs ds raws -> hs !! i = Some h -> ds !! i = Some d ->
  MAX_BLOCK_SIZE_WITHOUT_ADVANCE < blen d ->
  0 <= from < to -> to <= blen d -> makeRequestForDumpBlock (bh_hash h) from to = Ok q ->
  node_answer n q = Ok (mkResponse (slice from to d) HTTP_STATUS_OK).
Proof.
  intros Hsg Hs Hh Hd Hbig Hf Ht Hq.
  destruct (node_block n isSign hs ds raws i h d Hs Hh Hd) as (Hbl & Hdl & _).
  destruct (chain_header n isSign hs ds raws i h Hs Hh) as (k & _ & Hk & Hst & Hnum & _).
  assert (h ∈ hs) as Hin by (by eapply list_elem_of_lookup_2).
  pose proof (wr_range _ _ _ _ _ Hwire h from to q Hin) as Hj. rewrite (bl_size _ _ _ Hbl) in Hj.
  specialize (Hj Hbig Hf Ht Hq). unfold makeRequestForDumpBlock in Hq. injection Hq as <-.
  change (slice from to d) with (genDumpBlockBinary (slice from to d) false).
  eapply node_answer_dump with (isSign := false); [exact Hj|done|done| | |exact Hk| | |].
  - assert (is_int64 from = true /\ is_int64 to = true) as [Ef Et] by (unfold is_int64; lia).
    split; [done|]. unfold opt_int64, opt_bool, json_member. cbn [mbind res_bind].
    change (find_member _ (str "fromByte")) with (Some (JInt from)). change (find_member _ (str "toByte")) with (Some (JInt to)).
    cbn iota. rewrite Ef, Et, !u64_small by (unfold is_u64; lia). done.
  - by apply (sv_plain _ _ _ _ _ Hs h).
  - by rewrite Hnum.
  - by eapply node_dump_range.
  - cbn. intros E. apply (f_equal length) in E. unfold slice in E. rewrite length_take, length_drop in E.
    cbn in E. unfold blen in *. lia.
Qed.

(** A range that is asked for does not look like a JSON answer. *)
Lemma range_plain d from to :
  d ∈ ds -> MAX_BLOCK_SIZE_WITHOUT_ADVANCE < blen d -> 0 <= from < to -> to <= blen d ->
  wide MIN_RESPONSE_SIZE (blen d) (mkSegment from to 0) -> plain_dump (slice from to d).
Proof.
  intros Hd Hbig Hf Ht [Hw|Hw]; cbn [fromByte toByte] in Hw.
  - subst to. replace (slice from (blen d) d) with (drop (Z.to_nat from) d); [by apply (wr_tails _ _ _ _ _ Hwire)|].
    unfold slice. symmetry. apply take_ge. rewrite length_drop. unfold blen. lia.
  - unfold plain_dump. rewrite (proj2 (Z.leb_gt _ _)); [done|]. unfold slice, blen, MIN_RESPONSE_SIZE in *.
    rewrite length_take, length_drop. lia.
Qed.

Variable B : Z.
Hypothesis Hbatches : batches_ok B isSign isCompress fuel hs raws.

(** The headers of a batch, as the node has them. *)
Lemma choose_all {X Y} (P : X -> Y -> Prop) ks : Forall (fun k => exists x, P k x) ks -> exists xs, Forall2 P ks xs.
Proof.
  induction 1 as [|k ks [x Hx] _ [xs Hxs]]; [by exists []|]. exists (x :: xs). by constructor.
Qed.

Definition batch_header (n : ServerNode) (k : Z) (bh : BlockHeader) : Prop :=
  getBlock_by_number k (ss_blockchain (sn_state n)) = Ok bh /\ sendable bh k /\
  exists h, hs !! Z.to_nat (k - 1) = Some h /\ bh_stored bh = bh_stored h.

Lemma node_batch n from count :
  serves isSign n hs ds raws -> 0 < from -> from + count <= blen hs + 1 ->
  exists bhs, Forall2 (batch_header n) (seqZ from count) bhs.
Proof.
  intros Hs Hf Hc. apply choose_all, Forall_forall. intros k [Hk1 Hk2]%elem_of_seqZ.
  destruct (lookup_lt_is_Some_2 hs (Z.to_nat (k - 1))) as [h Hh]; [unfold blen in *; lia|].
  destruct (chain_header n isSign hs ds raws _ h Hs Hh) as (bh & Hn & _ & Hst & Hnum & Hk).
  replace (1 + Z.of_nat (Z.to_nat (k - 1))) with k in * by lia.
  destruct (serves_at n isSign hs ds raws _ h Hs Hh) as (d & raw & Hd & _ & _).
  destruct (node_block n isSign hs ds raws _ h d Hs Hh Hd) as (Hbl & Hdl & _).
  destruct (sv_plain _ _ _ _ _ Hs h) as (P1 & P2 & P3); [by eapply list_elem_of_lookup_2|].
  exists bh. split; [done|]. split; [|by exists h].
  assert (bh_hash bh = bh_hash h /\ bh_prevHash bh = bh_prevHash h /\
    bh_blockSize bh = bh_blockSize h /\ bh_filePos bh = bh_filePos h) as (Eh & Ep & Es & Ef) by (injection Hst; done).
  unfold sendable. rewrite Eh, Ep, Es, Ef, (bl_size _ _ _ Hbl). repeat (split; [done || lia|]). done.
Qed.

Lemma batch_values n ks bhs :
  Forall2 (batch_header n) ks bhs ->
  headers_of (ss_blockchain (sn_state n)) ks bhs /\ Forall2 sendable bhs ks /\
  blockHeaders_values bhs ForP2P V1 = Ok (Some ((fun k => match hs !! Z.to_nat (k - 1) with
    Some h => header_document h k | None => JNull end) <$> ks)) /\
  zip_with min_header bhs ks = chain_hdr hs <$> ks.
Proof.
  induction 1 as [|k bh ks bhs (Hg & Hsend & h & Hh & Hst) _ (IH1 & IH2 & IH3 & IH4)]; [by repeat constructor|].
  pose proof Hsend as (Hnum & Hk & _).
  split; [by constructor|]. split; [by constructor|]. split.
  - cbn [blockHeaders_values]. rewrite bool_decide_false by (rewrite Hnum; intros [=]; lia).
    rewrite (header_document_value bh h k Hst Hnum). cbn [mbind res_bind]. rewrite IH3. cbn [mbind res_bind].
    csimpl. by rewrite Hh.
  - csimpl. rewrite IH4. f_equal. unfold chain_hdr. rewrite Hh. unfold min_header. by injection Hst as _ -> _ -> -> _ _ _ -> _ _ _.
Qed.

(** The answer to a request for several headers. *)
Lemma batch_answer n from count :
  serves isSign n hs ds raws -> 0 < from -> 1 < count <= B -> from + count <= blen hs + 1 ->
  exists text, node_answer n (qs_blocks from count) = Ok (mkResponse text HTTP_STATUS_OK) /\
    parseBlocksHeader text = Ok (chain_hdr hs <$> seqZ from count).
Proof.
  intros Hs Hf Hcount Hle. destruct (ba_size _ _ _ _ _ _ Hbatches) as [|(HB & _ & H31)]; [lia|].
  destruct (ba_blocks _ _ _ _ _ _ Hbatches from count Hf Hcount Hle) as [Hq Hr].
  destruct (node_batch n from count Hs Hf Hle) as (bhs & Hb).
  destruct (batch_values n _ _ Hb) as (H1' & H2' & H3' & H4').
  destruct (sv_holds _ _ _ _ _ Hs) as (hs' & ds' & [Hc _] & _).
  destruct (lookup_lt_is_Some_2 hs (Z.to_nat (from + count - 1 - 1))) as [h Hh]; [unfold blen in *; lia|].
  destruct (chain_header n isSign hs ds raws _ h Hs Hh) as (_ & _ & _ & _ & _ & Hk).
  unfold node_answer. destruct (sn_machine n) as [[now memory] connections].
  edestruct (server_blocks_answer (ss_blockchain (sn_state n))) as (text & Ha & Ht);
    [apply Hc|exact Hf|split; [|etrans; [apply Hcount|apply HB]]; lia|lia|unfold blen in *; lia|
     apply (sv_count _ _ _ _ _ Hs)|exact Hq|exact H1'|exact H2'|].
  exists text. split; [exact Ha|]. rewrite <- H4'. eapply blockHeaders_answer_read; [exact H2'|exact Ht|].
  intros vs Hvs. rewrite H3' in Hvs. by injection Hvs as <-.
Qed.

(** The answer to a request for several dumps. *)
Lemma dumps_loop_sent n l :
  serves isSign n hs ds raws -> Forall (fun hash => hash ∈ bh_hash <$> hs) l ->
  dumps_loop (ss_blockchain (sn_state n)) (node_getBlockDump n) true isSign (JString <$> l) =
    Ok (chain_dump hs raws <$> l).
Proof.
  intros Hs. induction 1 as [|hash l Hin _ IH]; [done|]. rewrite !fmap_cons. cbn [dumps_loop getJsonValue].
  apply list_elem_of_fmap in Hin as (h & -> & Hin). apply list_elem_of_lookup in Hin as [i Hh].
  destruct (chain_header n isSign hs ds raws i h Hs Hh) as (k & _ & Hk & Hst & Hnum & _).
  destruct (serves_at n isSign hs ds raws i h Hs Hh) as (d & raw & Hd & Hr & Hsent).
  destruct (node_block n isSign hs ds raws i h d Hs Hh Hd) as (_ & Hdl & _).
  destruct (sv_plain _ _ _ _ _ Hs h) as (-> & _); [by eapply list_elem_of_lookup_2|].
  cbn [mbind res_bind getBlock_key]. rewrite Hk. cbn [mbind res_bind].
  rewrite bool_decide_true by (by rewrite Hnum). cbn [CHECK mbind res_bind].
  rewrite (node_dump_whole n isSign hs ds raws i h d raw k Hs Hh Hd Hr Hst). cbn [mbind res_bind].
  rewrite is_empty_false by (eapply sent_nonempty; [|exact Hsent]; lia). cbn [negb CHECK mbind res_bind].
  rewrite IH. cbn [mbind res_bind]. by rewrite (chain_dump_at hs raws i h raw) by (done || by eapply serves_NoDup).
Qed.

Lemma batch_dumps_answer n l :
  serves isSign n hs ds raws -> 1 < blen l <= B -> Forall (fun hash => hash ∈ bh_hash <$> hs) l ->
  node_answer n (qs_dumps l isSign isCompress) =
    Ok (mkResponse (genDumpBlocksBinary (chain_dump hs raws <$> l) isCompress) HTTP_STATUS_OK) /\
  parseDumpBlocksBinary fuel (genDumpBlocksBinary (chain_dump hs raws <$> l) isCompress) isCompress =
    Ok (chain_dump hs raws <$> l).
Proof.
  intros Hs Hl Hin. destruct (ba_size _ _ _ _ _ _ Hbatches) as [|(HB & Hfuel & _)]; [lia|].
  destruct (ba_dumps _ _ _ _ _ _ Hbatches l Hl Hin) as (Hq & _ & Hroom & Hlz). split.
  - unfold node_answer. destruct (sn_machine n) as [[now memory] connections].
    rewrite (handle_known _ _ _ _ _ _ _ _ _ _ _ _ Hq) by done. cbn [fst qs_dumps].
    unfold dispatch. repeat rewrite (bool_decide_false (str _ = str _)) by done.
    rewrite bool_decide_true by done. unfold getBlockDumps, user_object, json_member.
    change (find_member _ (str "params")) with (Some (JObject [(str "hashes", JArray (JString <$> l));
      (str "isSign", JBool isSign); (str "compress", JBool isCompress)])). cbn [mbind res_bind].
    unfold opt_bool, json_member. cbn [mbind res_bind].
    change (find_member _ (str "isSign")) with (Some (JBool isSign)).
    change (find_member _ (str "compress")) with (Some (JBool isCompress)).
    change (find_member _ (str "hashes")) with (Some (JArray (JString <$> l))). cbn [mbind res_bind].
    unfold CHECK_USER. rewrite (proj2 (Z.leb_le _ _)) by (unfold blen in *; rewrite length_fmap; lia). cbn [mbind res_bind].
    by rewrite (dumps_loop_sent n l Hs Hin).
  - assert (length (chain_dump hs raws <$> l) <= fuel)%nat as Hf by (rewrite length_fmap; unfold blen in *; lia).
    destruct isCompress.
    + destruct (Hlz eq_refl) as [Hz1 Hz2]. by apply dumps_roundtrip_lz4.
    + by apply dumps_roundtrip_plain.
Qed.

Lemma served_in l :
  Forall (served_hash (blen hs) (chain_hdr hs)) l -> Forall (fun hash => hash ∈ bh_hash <$> hs) l.
Proof.
  intros Hl. eapply Forall_impl; [exact Hl|]. intros hash (k & Hk & ->).
  destruct (chain_hdr_at hs k Hk) as (j & hd & Hhd & _ & ->). cbn [mh_hash min_header]. apply list_elem_of_fmap.
  exists hd. split; [done|by eapply list_elem_of_lookup_2].
Qed.

(** So the nodes are honest. *)
Lemma nodes_honest : honest_net B isCompress isSign fuel (blen hs) (chain_hdr hs) (chain_dump hs raws).
Proof.
  assert (forall k, 0 < k <= blen hs -> exists i h, hs !! i = Some h /\ k = 1 + Z.of_nat i /\
    chain_hdr hs k = min_header h k) as Hat by apply chain_hdr_at.
  split.
  - intros k b Hk (srv & response & Hr & Hp). destruct (Hat k Hk) as (i & h & Hh & -> & ->).
    destruct (proj2 Hnodes _ _ _ Hr) as (n & resp & Hs & Ha & ->).
    destruct (wr_block _ _ _ _ _ Hwire i h Hh) as [Hq Hb].
    destruct (node_answer_header n isSign hs ds raws i h Hs Hh Hlen Hq Hb) as (text & Ht & Hread).
    rewrite Ht in Ha. injection Ha as <-. cbn [rs_data] in Hp. congruence.
  - intros srv from count response bs Hf Hcount Hle Hr Hp _ j b Hj.
    destruct (proj2 Hnodes _ _ _ Hr) as (n & resp & Hs & Ha & ->).
    destruct (batch_answer n from count Hs Hf Hcount ltac:(lia)) as (text & Ht & Hread).
    rewrite Ht in Ha. injection Ha as <-. cbn [rs_data] in Hp. rewrite Hread in Hp. injection Hp as <-.
    apply list_lookup_fmap_Some in Hj as (k & -> & [-> _]%lookup_seqZ). done.
  - intros hashs Hsv Hl i srv q response parsed Hi Hib Hq Hr Hp He.
    assert (0 < B) as HB by (destruct (ba_size _ _ _ _ _ _ Hbatches) as [->|[? _]]; lia).
    destruct (Z.eqb_spec (in_part B (blen hashs) i) 1) as [Hone|Hmany].
    2: { destruct (dump_query_many B isCompress hashs isSign i q HB Hl Hi Hib Hq Hmany) as [Hn ->].
      destruct (proj2 Hnodes _ _ _ Hr) as (n & resp & Hs & Ha & ->).
      destruct (batch_dumps_answer n _ Hs Hn) as [Hw Hback].
      { by apply Forall_take, Forall_drop, served_in. }
      rewrite Hw in Ha. injection Ha as <-. cbn [rs_data] in Hp. rewrite plain_dump_read in Hp.
      2: { apply (ba_dumps _ _ _ _ _ _ Hbatches); [done|]. by apply Forall_take, Forall_drop, served_in. }
      injection Hp as <-. cbn [rp_response]. exact Hback. }
    destruct (dump_query_single _ _ _ _ _ _ Hone Hq) as (h & Hh & ->).
    intros h' Hh'. rewrite Hh in Hh'. injection Hh' as <-.
    rewrite Forall_forall in Hsv. destruct (Hsv h) as (k & Hk & ->); [by eapply list_elem_of_lookup_2|].
    destruct (Hat k Hk) as (j & hd & Hhd & Hkj & Hc). rewrite Hc in Hr |- *. cbn [mh_hash min_header] in *.
    destruct (proj2 Hnodes _ _ _ Hr) as (n & resp & Hs & Ha & ->).
    destruct (serves_at n isSign hs ds raws j hd Hs Hhd) as (d & raw & Hd & Hraw & _).
    destruct (whole_answer n j hd raw Hs Hhd Hraw) as [Hw Hback]. rewrite Hw in Ha. injection Ha as <-.
    cbn [rs_data] in Hp. rewrite plain_dump_read in Hp by (apply (wr_plain _ _ _ _ _ Hwire); by eapply list_elem_of_lookup_2).
    injection Hp as <-. cbn [rp_response]. rewrite Hback. symmetry.
    apply chain_dump_at with j; [by eapply serves_NoDup|done..].
  - intros k Hk. destruct (Hat k Hk) as (i & h & Hh & -> & ->). cbn [mh_blockSize mh_hash min_header].
    destruct (decide (bh_blockSize h <= MAX_BLOCK_SIZE_WITHOUT_ADVANCE)) as [|Hbig]; [by left|right].
    destruct (proj1 Hnodes) as [n0 Hn0]. destruct (serves_at n0 isSign hs ds raws i h Hn0 Hh) as (d & raw & Hd & Hraw & Hsent).
    destruct (node_block n0 isSign hs ds raws i h d Hn0 Hh Hd) as (Hbl & Hdl & _). rewrite (bl_size _ _ _ Hbl) in *.
    assert (d ∈ ds) as Hin by (by eapply list_elem_of_lookup_2).
    assert (isSign = false) as Hsg.
    { pose proof (wr_large _ _ _ _ _ Hwire) as Hl. destruct isSign; [|done]. by specialize (Hl eq_refl d Hin). }
    assert (raw = d) as -> by (unfold sent in Hsent; rewrite Hsg in Hsent; exact Hsent).
    rewrite (chain_dump_at hs raws i h d) by (done || by eapply serves_NoDup).
    split; [done|]. split; [lia|]. split; [done|].
    intros srv from to q response parsed Hf Ht Hw Hq Hr Hp He.
    destruct (proj2 Hnodes _ _ _ Hr) as (n & resp & Hs & Ha & ->).
    rewrite (range_answer n i h d from to q Hsg Hs Hh Hd ltac:(lia) Hf Ht Hq) in Ha. injection Ha as <-.
    cbn [rs_data] in Hp. rewrite plain_dump_read in Hp by (by apply range_plain; [|lia|..]). by injection Hp as <-.
Qed.

End honest.

(** ** Copying a chain *)

Lemma child_chain_prevs p l1 l2 :
  child_chain p l1 -> child_chain p l2 -> bh_hash <$> l1 = bh_hash <$> l2 -> bh_prevHash <$> l1 = bh_prevHash <$> l2.
Proof.
  revert p l2. induction l1 as [|h1 l1 IH]; intros p [|h2 l2]; csimpl; try done.
  intros [E1 C1] [E2 C2] [= Eh El]. rewrite E1, E2. f_equal. rewrite Eh in C1. by apply (IH (bh_hash h2)).
Qed.

Lemma child_chain_take p l n : child_chain p l -> child_chain p (take n l).
Proof.
  revert p n. induction l as [|h l IH]; intros p [|n]; cbn; try done. intros [Hp Hc]. split; [done|by apply IH].
Qed.

Lemma prefix_take_fmap {A B} (f : A -> B) l1 l2 :
  f <$> l1 `prefix_of` f <$> l2 -> f <$> l1 = f <$> take (length l1) l2.
Proof.
  intros [k Hk]. rewrite fmap_take, Hk. by rewrite take_app_length', ?length_fmap by (by rewrite length_fmap).
Qed.

Lemma try_catch_Ok {A} (m : res A) h a : try_catch m h = Ok a -> m = Ok a \/ exists e, h e = Ok a.
Proof. unfold try_catch. destruct m as [x|[e|e|e|]| |]; try done; [by left|right; by exists e]. Qed.

(** What the receiver of a signed block takes out of it. *)
Lemma sent_payload n isSign d raw d' :
  sent n isSign d raw -> blen raw < 2 ^ 64 - 16 -> payload true isSign raw d' -> d' = d.
Proof.
  unfold sent, payload. destruct isSign; [|by intros -> _ ->].
  intros (key & s & _ & Hsg & ->) Hl (sb & Hsb & ->).
  destruct (checkSignatureBlock_parts key d s Hsg Hl) as (sign & _ & E). cbv zeta in E. rewrite E in Hsb.
  apply bind_Ok_inv in Hsb as (u & _ & Hsb). apply try_catch_Ok in Hsb as [Hsb|[e Hsb]]; res_inv; by subst sb.
Qed.

Section copying.
Context `{!SupportLaws} `{!CryptoLaws} {HLz4 : Lz4Laws} {W : Type} `{P2PNetLaws W}.
Variables (maxAdvanced batch : Z) (isCompress : bool).
Variables (folderPath : bytes) (saveAllTx isValidate isSign : bool) (fuel : nat) (base : Z).
Hypothesis Hfits : batch_fits maxAdvanced batch.
Variables (hs : list BlockHeader) (ds raws : list bytes) (size : Z).
Hypothesis Hlen : blen hs < 2 ^ 62.
Hypothesis Hwire : wire_ok isSign isCompress hs ds raws.
Hypothesis Hbatches : batches_ok batch isSign isCompress fuel hs raws.
Hypothesis Hnodes : served_by_nodes isSign hs ds raws.

(** What the receiver needs of the blocks: names for its files, and sizes that
    leave room. *)
Record receivable (n : Z) : Prop := {
  re_size : forall d, d ∈ ds -> blen d <= size;
  re_file : forall h, h ∈ hs -> let fn := fs_join folderPath (fs_filename (fp_fileName (bh_filePos h))) in
    fn <> [] /\ fs_filename fn <> [];
  re_header : forall k bi d, 0 < k <= n ->
    block_checked true folderPath saveAllTx isValidate isSign base (chain_hdr hs k)
      (chain_dump hs raws (mh_hash (chain_hdr hs k))) bi d -> blen (header_bytes (bi_header bi)) < 2 ^ 64 - 16;
}.

(** The chain the nodes have, from any node's point of view. *)
Lemma nodes_chain : exists fs, child_chain GENESIS_BLOCK_HASH hs /\ NoDup (GENESIS_BLOCK_HASH :: (bh_hash <$> hs)) /\
  Forall2 (block_held fs) hs ds /\ length raws = length hs /\
  forall i h d raw, hs !! i = Some h -> ds !! i = Some d -> raws !! i = Some raw ->
    exists n, sent n isSign d raw.
Proof.
  destruct (proj1 Hnodes) as [n Hn]. destruct (sv_holds _ _ _ _ _ Hn) as (hs' & ds' & [Hc Hb] & Hl).
  exists (ss_files (sn_state n)).
  pose proof (settled_NoDup _ (co_settled _ _ Hc)) as Hnd. rewrite (co_chain _ _ Hc), fmap_app, app_comm_cons in Hnd.
  apply NoDup_app in Hnd as [Hnd _].
  split; [|split; [done|split; [|split]]].
  - pose proof (child_chain_take _ _ (length hs) (co_child _ _ Hc)) as Ht. by rewrite take_app_length in Ht.
  - apply Forall2_app_inv in Hb as [Hb _]; [done|by rewrite Hl].
  - rewrite <- Hl. symmetry. by eapply Forall2_length, (sv_sent _ _ _ _ _ Hn).
  - intros i h d raw _ Hd Hr. exists n. by eapply Forall2_lookup_lr; [apply (sv_sent _ _ _ _ _ Hn)|..].
Qed.

Lemma nodes_chain_served hsA n :
  bh_hash <$> hsA `prefix_of` bh_hash <$> hs -> n <= blen hs -> receivable n ->
  chain_served true folderPath saveAllTx isValidate isSign base (chain_hdr hs) (chain_dump hs raws) hsA n size.
Proof.
  intros Hpre Hn Hre. destruct nodes_chain as (fs & Hchild & Hnd & Hheld & Hlr & Hsent).
  pose proof (prefix_take_fmap _ _ _ Hpre) as Htake. pose proof (blen_nonneg hsA) as HlA.
  assert (length hsA <= length hs)%nat as Hle by (apply prefix_length in Hpre; by rewrite !length_fmap in Hpre).
  assert (forall k, blen hsA < k <= n -> exists i h d raw, hs !! i = Some h /\ k = 1 + Z.of_nat i /\
    (length hsA <= i)%nat /\ chain_hdr hs k = min_header h k /\ block_held fs h d /\ d ∈ ds /\
    chain_dump hs raws (bh_hash h) = raw /\ blen raw < 2 ^ 64 - 16 /\ exists nd, sent nd isSign d raw) as Hat.
  { intros k Hk. destruct (chain_hdr_at hs k ltac:(lia)) as (i & h & Hh & -> & Hc).
    destruct (Forall2_lookup_l _ _ _ _ _ Hheld Hh) as (d & Hd & Hbl).
    destruct (lookup_lt_is_Some_2 raws i) as [raw Hr]; [rewrite Hlr; by eapply lookup_lt_Some|].
    exists i, h, d, raw. split; [done|]. split; [done|]. split; [unfold blen in Hk; lia|]. split; [done|].
    split; [done|]. split; [by eapply list_elem_of_lookup_2|]. split; [|split].
    - apply chain_dump_at with i; [by apply NoDup_cons in Hnd as [_ ?]|done..].
    - apply (wr_room _ _ _ _ _ Hwire). by eapply list_elem_of_lookup_2.
    - by eapply Hsent. }
  split.
  - intros k d' Hk Hp. destruct (Hat k Hk) as (i & h & d & raw & Hh & Hki & Hi & Hc & Hbl & Hd & Hraw & Hroom & nd & Hs).
    rewrite Hc in Hp |- *. cbn [mh_hash min_header] in *. rewrite Hraw in Hp.
    rewrite (sent_payload nd isSign d raw d' Hs Hroom Hp), <- (bl_hash _ _ _ Hbl), <- (bl_prevHash _ _ _ Hbl).
    split; [done|]. destruct (Z.eqb_spec k (blen hsA + 1)) as [Hk1|Hk1].
    + assert (i = length hsA) as -> by (unfold blen in Hk1; lia).
      rewrite <- (take_drop_middle hs (length hsA) h Hh) in Hchild. apply child_chain_app in Hchild as [_ [-> _]].
      unfold tip_of. rewrite <- !fmap_last. by rewrite Htake.
    + destruct i as [|i]; [unfold blen in *; lia|].
      destruct (lookup_lt_is_Some_2 hs i) as [h' Hh']; [apply lookup_lt_Some in Hh; lia|].
      rewrite (child_chain_lookup _ _ _ _ _ Hchild Hh' Hh). unfold chain_hdr.
      replace (Z.to_nat (k - 1 - 1)) with i by lia. by rewrite Hh'.
  - intros k Hk. destruct (Hat k Hk) as (i & h & d & raw & Hh & -> & Hi & -> & _). cbn [mh_hash min_header].
    intros Hin. apply elem_of_cons in Hin as [Hg|Hin].
    + apply NoDup_cons in Hnd as [Hnd _]. apply Hnd. rewrite <- Hg. apply list_elem_of_fmap.
      exists h. split; [done|by eapply list_elem_of_lookup_2].
    + rewrite Htake, fmap_take in Hin. apply NoDup_cons in Hnd as [_ Hnd].
      apply list_elem_of_lookup in Hin as [j Hj]. apply lookup_take_Some in Hj as [Hj Hlt].
      assert (j = i); [|lia]. eapply NoDup_lookup; [exact Hnd|exact Hj|]. by rewrite list_lookup_fmap, Hh.
  - intros j k Hj Hk. destruct (Hat j Hj) as (i1 & h1 & d1 & r1 & Hh1 & -> & _ & -> & _).
    destruct (Hat k Hk) as (i2 & h2 & d2 & r2 & Hh2 & -> & _ & -> & _). cbn [mh_hash min_header]. intros E.
    apply NoDup_cons in Hnd as [_ Hnd]. assert (i1 = i2) as ->; [|done].
    eapply NoDup_lookup; [exact Hnd|..]; rewrite list_lookup_fmap; [by rewrite Hh1|by rewrite Hh2, E].
  - intros k Hk. destruct (Hat k Hk) as (i & h & d & raw & Hh & _ & _ & -> & _). cbn [mh_fileName min_header].
    apply (re_file _ Hre h). by eapply list_elem_of_lookup_2.
  - intros k Hk. destruct (Hat k Hk) as (i & h & d & raw & Hh & _ & _ & -> & Hbl & Hd & _). cbn [mh_blockSize min_header].
    rewrite (bl_size _ _ _ Hbl). by apply (re_size _ Hre).
  - intros k bi d Hk. apply (re_header _ Hre). lia.
Qed.

(** A block of the chain, at index [j], as a round handed it to the workers. *)
Definition new_block (j : nat) (b : BlockInfo * bytes) : Prop :=
  exists h, hs !! j = Some h /\ ds !! j = Some b.2 /\ bh_hash (bi_header b.1) = bh_hash h /\
    bh_blockSize (bi_header b.1) = blen b.2 /\ fp_fileName (bh_filePos (bi_header b.1)) <> [] /\
    bh_hash h = dump_hash b.2 /\ bh_prevHash h = dump_prevHash b.2 /\ 80 <= blen b.2.

(** A run of them extends the copy. *)
Lemma copied_chain (st st' : SyncState D) hsA pr :
  holds_chain st hsA (take (length hsA) ds) -> bh_hash <$> hsA `prefix_of` bh_hash <$> hs ->
  run_done true st st' hsA pr -> (forall i b, pr !! i = Some b -> new_block (length hsA + i) b) ->
  let hsA' := hsA ++ headers pr in
  holds_chain st' hsA' (take (length hsA') ds) /\ bh_hash <$> hsA' `prefix_of` bh_hash <$> hs.
Proof.
  intros [Hc Hold] Hpre Hrun Hnew hsA'. destruct nodes_chain as (fs & Hchild & _ & Hheld & _).
  pose proof (prefix_take_fmap _ _ _ Hpre) as Htake.
  assert (length (headers pr) = length pr) as Hlp by apply length_fmap.
  assert (forall i x, hsA' !! i = Some x -> (length hsA <= i)%nat -> exists b, pr !! (i - length hsA)%nat = Some b /\
    x = bi_header b.1 /\ new_block i b) as Hlate.
  { intros i x Hi Hle. unfold hsA' in Hi. rewrite lookup_app_r in Hi by done. unfold headers in Hi.
    rewrite list_lookup_fmap in Hi. destruct (pr !! (i - length hsA)%nat) as [b|] eqn:Hb; [|done].
    injection Hi as <-. exists b. split; [done|]. split; [done|].
    replace i with (length hsA + (i - length hsA))%nat by lia. by apply Hnew. }
  assert (bh_hash <$> hsA' = bh_hash <$> take (length hsA') hs) as Hhash.
  { apply list_eq. intros i. rewrite !list_lookup_fmap. destruct (hsA' !! i) as [x|] eqn:Hx.
    2: { apply lookup_ge_None in Hx. rewrite (proj2 (lookup_ge_None _ _)); [done|]. rewrite length_take. lia. }
    apply lookup_lt_Some in Hx as Hlt. rewrite lookup_take_lt by done.
    destruct (decide (i < length hsA)%nat) as [Hi|Hi].
    - apply (f_equal (lookup i)) in Htake. rewrite !list_lookup_fmap, lookup_take_lt in Htake by done.
      unfold hsA' in Hx. rewrite lookup_app_l in Hx by done. by rewrite Hx in Htake.
    - destruct (Hlate i x Hx ltac:(lia)) as (b & _ & -> & h & -> & _ & E & _). cbn. by rewrite E. }
  assert (bh_hash <$> hsA' `prefix_of` bh_hash <$> hs) as Hpre'.
  { rewrite Hhash, fmap_take. apply prefix_take. }
  split; [|done]. split; [apply Hrun|].
  pose proof (child_chain_prevs _ _ _ (co_child _ _ (rd_consistent _ _ _ _ _ Hrun))
    (child_chain_take _ _ (length hsA') Hchild) Hhash) as Hprev.
  apply Forall2_same_length_lookup. split.
  { rewrite length_take. apply prefix_length in Hpre' as Hle. rewrite !length_fmap in Hle.
    apply Forall2_length in Hheld. lia. }
  intros i h d Hi Hd. apply lookup_take_Some in Hd as [Hd Hlt].
  destruct (decide (i < length hsA)%nat) as [Hlo|Hhi].
  - unfold hsA' in Hi. rewrite lookup_app_l in Hi by done. apply (block_held_grows _ _ _ _ (rd_grow _ _ _ _ _ Hrun)).
    eapply Forall2_lookup_lr; [exact Hold|exact Hi|]. by rewrite lookup_take_lt.
  - destruct (Hlate i h Hi ltac:(lia)) as (b & Hb & -> & h' & Hh' & Hd' & E1 & E2 & E3 & E4 & E5 & E6).
    rewrite Hd in Hd'. injection Hd' as ->. split; [|by rewrite E1|..|done|done|done].
    + apply (rd_files _ _ _ _ _ Hrun eq_refl b). by eapply list_elem_of_lookup_2.
    + fold hsA' in Hprev. apply (f_equal (lookup i)) in Hprev. rewrite !list_lookup_fmap, lookup_take_lt in Hprev by done.
      rewrite Hi, Hh' in Hprev. cbn in Hprev. injection Hprev as ->. done.
Qed.

(** A round of a node that has the first blocks of the chain. *)
Lemma round_copies m users k (ns : NetSource) (w : W) (st : SyncState D) hsA s1 more n :
  holds_chain st hsA (take (length hsA) ds) -> bh_hash <$> hsA `prefix_of` bh_hash <$> hs ->
  has_module MODULE_BLOCK m = true -> has_module MODULE_USERS m = false ->
  0 <= n <= blen hs -> 0 <= size < 2 ^ 62 -> n - blen hsA < Z.of_nat k -> receivable n ->
  (forall name, blen (file_contents (ss_files st) name) + Z.max 0 (n - blen hsA) * (8 + size) < 2 ^ 64) ->
  Network_doProcess (blen hsA) (ns, w) = (s1, Ok (more, n)) ->
  let source := network_source (D := D) true maxAdvanced batch isCompress folderPath saveAllTx isValidate
    isSign fuel base in
  let '(s', r) := @sync_round _ _ D _ _ source false m users true k ((ns, w), st) in
  exists hsA', holds_chain s'.2 hsA' (take (length hsA') ds) /\ bh_hash <$> hsA' `prefix_of` bh_hash <$> hs /\
    blen hsA <= blen hsA' <= Z.max n (blen hsA) /\ (r = Ok tt <-> blen hsA' = Z.max n (blen hsA)).
Proof.
  intros Hh Hpre Hb Hu Hn Hsz Hk Hre Hroom Hd source.
  pose proof (nodes_chain_served hsA n Hpre ltac:(lia) Hre) as Hserved.
  pose proof (nodes_honest isSign isCompress fuel hs ds raws Hlen Hwire Hnodes batch Hbatches) as Hhonest.
  destruct nodes_chain as (fs & Hchild & Hnd & Hheld & Hlr & Hsent).
  assert (length hsA <= length hs)%nat as Hle by (apply prefix_length in Hpre; by rewrite !length_fmap in Hpre).
  pose proof (round_follows true maxAdvanced batch isCompress folderPath saveAllTx isValidate isSign fuel base Hfits
    (blen hs) (chain_hdr hs) (chain_dump hs raws) Hhonest m users true k ns w st hsA s1 more n size
    (hc_consistent _ _ _ Hh) Hb Hu ltac:(unfold blen in *; lia) ltac:(lia) ltac:(lia) Hsz Hk Hserved Hroom Hd) as Hr.
  change (network_source (D := D) true maxAdvanced batch isCompress folderPath saveAllTx isValidate isSign fuel base)
    with source in Hr.
  destruct (sync_round _ _ _ _ _ _) as [s' r]. destruct Hr as (pr & Hrun & _ & Hpl & Hall & Hok).
  assert (forall i b, pr !! i = Some b -> new_block (length hsA + i) b) as Hnew.
  { intros i b Hi. apply lookup_lt_Some in Hi as Hlt.
    destruct (Hall i b Hi) as (E1 & E2 & E3 & E4). cbv zeta in E1, E2, E4.
    destruct (chain_hdr_at hs (blen hsA + 1 + Z.of_nat i)) as (j & h & Hj & Hjk & Hc); [unfold blen in *; lia|].
    assert (j = (length hsA + i)%nat) as -> by (unfold blen in Hjk; lia).
    rewrite Hc in E1, E2, E4. cbn [mh_hash mh_fileName min_header] in *.
    destruct (Forall2_lookup_l _ _ _ _ _ Hheld Hj) as (d & Hdj & Hbl).
    destruct (lookup_lt_is_Some_2 raws (length hsA + i)) as [raw Hraw]; [rewrite Hlr; by eapply lookup_lt_Some|].
    destruct (Hsent (length hsA + i)%nat h d raw Hj Hdj Hraw) as [nd Hs].
    rewrite (chain_dump_at hs raws (length hsA + i)%nat h raw) in E2; [|by apply NoDup_cons in Hnd as [_ ?]|done..].
    unfold new_block. apply (sent_payload nd isSign d raw) in E2; cycle 1; [done|apply (wr_room _ _ _ _ _ Hwire); by eapply list_elem_of_lookup_2|]. rewrite E2 in E3 |- *. 
    exists h. split; [done|]. split; [done|]. split; [done|]. split; [done|]. rewrite E4.
    split; [by apply (re_file _ Hre h); eapply list_elem_of_lookup_2|].
    rewrite (bl_hash _ _ _ Hbl), (bl_prevHash _ _ _ Hbl). split; [done|]. split; [done|]. apply Hbl. }
  destruct (copied_chain st s'.2 hsA pr Hh Hpre Hrun Hnew) as [Hh' Hpre'].
  exists (hsA ++ headers pr). split; [done|]. split; [done|].
  assert (blen (hsA ++ headers pr) = blen hsA + blen pr) as ->.
  { rewrite blen_app. unfold headers, blen. by rewrite length_fmap. }
  pose proof (blen_nonneg pr). split; [lia|]. rewrite Hok. lia.
Qed.

End copying.

End holding.
