(* ===== verification/NodeLive.v ===== *)
(** * Rounds over nodes that answer

    When the nodes answer the requests they can answer, a round ends well: the
    source hands out every announced block and the loop accepts it.  So a node
    copies the whole announced chain in one round. *)
From S2P Require Import Prelude External Serialize Address BlockInfo BlockInfoCodec BlockChainInterface.
From S2P Require Import BlockChain BlockChainFacts LevelDb Cache Modules Workers BlockchainUtils PrivateKey.
From S2P Require Import BlockchainRead BlockchainReadFacts Sync SyncFacts.
From S2P Require Import P2P P2PFacts Graph Dumps JsonApi Server ServerFacts ClientServer.
From S2P Require Import GetNewBlocks GetNewBlocksFacts NetworkSource NetworkSourceFacts.
From S2P Require Import HonestNet Responsive HonestLive FileSource FileSourceFacts.
From S2P Require Import SyncRun SyncRunFacts NodeFacts NodeToNode.
#[local] Open Scope Z_scope.

(** The servers a source has chosen can be asked, all for dumps and the first for headers. *)
Definition servers_askable {W : Type} `{P2PNetLaws W} (ns : NetSource) : Prop :=
  askable (ns_servers ns) /\ exists server, head (ns_servers ns) = Some server /\ askable [server].

(** ** A round ends well *)

Section node.
Context `{SupportLaws} `{CryptoLaws} `{Rapidjson} `{Lz4} `{Fs} {D : Type} `{KvLaws D} {W : Type} `{P2PNetLive W}.
Variables (isInitialized : bool) (maxAdvanced batch : Z) (isCompress : bool).
Variables (folderPath : bytes) (saveAllTx isValidate isVerifySign : bool) (fuel : nat) (base : Z).
Hypothesis Hfits : batch_fits maxAdvanced batch.
Hypothesis Hmax : 0 < maxAdvanced.
Variables (top : Z) (hdr : Z -> MinimumBlockHeader) (dump_of : bytes -> bytes).
Hypothesis Hhonest : honest_net batch isCompress isVerifySign fuel top hdr dump_of.
Hypothesis Hresponsive : responsive_net batch isCompress isVerifySign fuel top hdr.
Hypothesis Honce : forall j k, 0 < j <= top -> 0 < k <= top -> mh_hash (hdr j) = mh_hash (hdr k) -> j = k.
Hypothesis Hreadable : readable isVerifySign top hdr dump_of isInitialized folderPath saveAllTx isValidate base.

#[local] Abbreviation source := (network_source (D := D) isInitialized maxAdvanced batch isCompress folderPath
  saveAllTx isValidate isVerifySign fuel base).
#[local] Abbreviation blocks_of k s := (@source_blocks D _ source k s).
#[local] Abbreviation inv :=
  (honest_inv isVerifySign top hdr dump_of isInitialized folderPath saveAllTx isValidate base).

Lemma source_blocks_live n servers server0 k ns w :
  0 <= n <= top -> n < 2 ^ 62 -> head servers = Some server0 -> askable [server0] -> askable servers ->
  inv n servers ns -> no_failure ns -> ns_nextBlockToRead ns <= n + 1 -> n + 1 - ns_nextBlockToRead ns < Z.of_nat k ->
  snd (blocks_of k (ns, w)) = Ok tt.
Proof.
  intros Htop Hn Hhd Ha0 Ha. revert ns w. induction k as [|k IH]; intros ns w Hi Hx Hle Hk; [lia|].
  cbn [source_blocks bs_process network_source].
  destruct (Network_process _ _ _ _ _ _ _ _ _ _ (ns, w)) as [[ns1 w1] r] eqn:Hp.
  destruct (Z.leb_spec (ns_nextBlockToRead ns) n) as [Hmore|Hend].
  - destruct (process_live maxAdvanced batch isCompress isVerifySign fuel Hfits Hmax top hdr dump_of Hhonest Hresponsive Honce
      isInitialized folderPath saveAllTx isValidate base Hreadable n servers server0 Htop Hn Hhd Ha0 Ha ns w Hi Hx Hmore)
      as (s' & [bi dump] & Hp' & Hx'). rewrite Hp in Hp'. injection Hp' as <- ->.
    destruct (honest_process maxAdvanced batch isCompress isVerifySign fuel Hfits top hdr dump_of Hhonest isInitialized
      folderPath saveAllTx isValidate base n servers ns w _ bi dump Htop Hn Hi Hp) as (_ & Hnx & Hi1 & _).
    cbn [fst] in *. specialize (IH ns1 w1 Hi1 Hx' ltac:(lia) ltac:(lia)). by destruct (blocks_of k (ns1, w1)).
  - unfold Network_process in Hp. cbn [fst] in Hp. rewrite (ni_last _ _ _ _ _ _ _ _ _ _ _ Hi) in Hp.
    rewrite (proj2 (Z.leb_gt _ _)) in Hp by done. by injection Hp as _ _ <-.
Qed.

(** The round reports no error, so that [round_follows] gives every block. *)
Lemma round_succeeds m users save k (ns : NetSource) (w : W) (st : SyncState D) hs s1 more n size :
  consistent st hs -> has_module MODULE_BLOCK m = true -> has_module MODULE_USERS m = false ->
  blen hs < 2 ^ 62 -> 0 <= n <= top -> n < 2 ^ 62 -> 0 <= size < 2 ^ 62 -> n - blen hs < Z.of_nat k ->
  chain_served isInitialized folderPath saveAllTx isValidate isVerifySign base hdr dump_of hs n size ->
  (forall name, blen (file_contents (ss_files st) name) + Z.max 0 (n - blen hs) * (8 + size) < 2 ^ 64) ->
  Network_doProcess (blen hs) (ns, w) = (s1, Ok (more, n)) -> servers_askable s1.1 ->
  snd (@sync_round _ _ D _ _ source false m users save k ((ns, w), st)) = Ok tt.
Proof.
  intros Hc Hb Hu Hhs Htop Hn Hsz Hk Hs Hroom Hd Hask. pose proof (blen_nonneg hs) as Hhs0.
  pose proof (round_follows isInitialized maxAdvanced batch isCompress folderPath saveAllTx isValidate isVerifySign fuel base
    Hfits top hdr dump_of Hhonest m users save k ns w st hs s1 more n size Hc Hb Hu Hhs Htop Hn Hsz Hk Hs Hroom Hd) as Hr.
  destruct (sync_round _ _ _ _ _ _) as [s' r]. destruct Hr as (pr & _ & Hpr & Hpl & _ & Hok). cbn [snd].
  apply Hok. clear Hok. destruct s1 as [ns1 w1].
  assert (servers_askable ns1) as (Ha & server0 & Hhd & Ha0) by exact Hask.
  pose proof Hd as Hd'. apply doProcess_spec in Hd' as (_ & _ & _ & _ & _ & Hadv & _).
  apply (honest_doProcess isVerifySign top hdr dump_of isInitialized folderPath saveAllTx isValidate base) in Hd
    as (_ & _ & Hnx & Hi); [|lia]. cbn [fst] in *.
  assert (blen pr = blen (NetworkSourceFacts.take_blocks isInitialized maxAdvanced batch isCompress folderPath saveAllTx
    isValidate isVerifySign fuel base k (ns1, w1)).2) as Hlen.
  { apply (f_equal length) in Hpr. rewrite !length_fmap in Hpr. unfold blen. by rewrite Hpr. }
  destruct (Z.leb_spec (blen hs + 1) n) as [Hmore|]; [|pose proof (blen_nonneg pr); lia].
  rewrite <- (ni_servers _ _ _ _ _ _ _ _ _ _ _ Hi) in Hi.
  pose proof (source_blocks_live n _ server0 k ns1 w1 Htop Hn Hhd Ha0 Ha Hi) as Hl.
  pose proof (source_blocks_end (D := D) isInitialized maxAdvanced batch isCompress folderPath saveAllTx isValidate isVerifySign fuel base
    Hfits top hdr dump_of Hhonest n _ k ns1 w1 Htop Hn Hi) as He.
  rewrite Hnx in Hl, He. specialize (He ltac:(lia) ltac:(lia)). apply proj1 in He. rewrite Hlen.
  rewrite (Z.max_r 0) by lia. enough (blen hs + 1 + blen (NetworkSourceFacts.take_blocks isInitialized maxAdvanced batch
    isCompress folderPath saveAllTx isValidate isVerifySign fuel base k (ns1, w1)).2 = n + 1) by lia.
  apply He, Hl; [|lia..]. intros j a. by rewrite Hadv, lookup_empty.
Qed.

End node.

(** ** Nodes that answer *)

Section copying.
Context `{SupportLaws} `{CryptoLaws} `{Rapidjson} `{Lz4Laws} `{Fs} {D : Type} `{KvLaws D} {W : Type} `{P2PNetLive W}.
Variables (maxAdvanced batch : Z) (isCompress : bool).
Variables (folderPath : bytes) (saveAllTx isValidate isSign : bool) (fuel : nat) (base : Z).
Hypothesis Hfits : batch_fits maxAdvanced batch.
Hypothesis Hmax : 0 < maxAdvanced.
Variables (hs : list BlockHeader) (ds raws : list bytes) (size : Z).
Hypothesis Hlen : blen hs < 2 ^ 62.
Hypothesis Hwire : wire_ok isSign isCompress hs ds raws.
Hypothesis Hbatches : batches_ok batch isSign isCompress fuel hs raws.
Hypothesis Hnodes : served_by_nodes (D := D) isSign hs ds raws.

(** A request that every node of the network can answer is answered. *)
Definition nodes_answer : Prop := forall srv q,
  (forall n : ServerNode (D := D), serves isSign n hs ds raws -> is_ok (node_answer n q) = true) ->
  (exists reply, net_replies srv q reply) /\ forall reply, net_replies srv q reply -> is_ok reply = true.
Hypothesis Hanswer : nodes_answer.

(** What is read in the answer to a request, when every node gives one. *)
Lemma nodes_answer_read (read : bytes -> Prop) srv q :
  (forall n, serves isSign n hs ds raws -> exists resp, node_answer n q = Ok resp /\ read (rs_data resp)) ->
  replies_read read srv q.
Proof.
  intros Hall. destruct (Hanswer srv q) as [Hex Hok].
  { intros n Hn. by destruct (Hall n Hn) as (resp & -> & _). }
  split; [done|]. intros reply Hr. specialize (Hok reply Hr). destruct reply as [response| | |]; try done.
  exists response. split; [done|]. destruct (proj2 Hnodes _ _ _ Hr) as (n & resp & Hn & Ha & ->).
  destruct (Hall n Hn) as (resp' & Ha' & Hread). rewrite Ha in Ha'. by injection Ha' as ->.
Qed.

Lemma plain_dump_accepted count d :
  plain_dump d -> dumps_split isCompress fuel count d -> dump_read isCompress fuel count d.
Proof. intros Hd Hs. exists (mkResponseParse d None). split; [by apply plain_dump_read|]. by split. Qed.

Lemma batch_numbers n count :
  0 < n -> n + count <= blen hs + 1 -> mh_number <$> (chain_hdr hs <$> seqZ n count) = seqZ n count.
Proof.
  intros Hn Hc. rewrite <- list_fmap_compose. rewrite <- (list_fmap_id (seqZ n count)) at 2.
  apply list_fmap_ext. intros i k Hk. apply lookup_seqZ in Hk as [-> Hlt]. cbn.
  destruct (chain_hdr_at hs (n + Z.of_nat i)) as (j & h & _ & _ & ->); [lia|]. done.
Qed.

Lemma nodes_dumps hashs i q srv :
  Forall (served_hash (blen hs) (chain_hdr hs)) hashs -> blen hashs < 2 ^ 62 -> 0 <= i -> i * batch < blen hashs ->
  dump_query batch isCompress hashs isSign i = Ok q ->
  replies_read (dump_read isCompress fuel (in_part batch (blen hashs) i)) srv q.
Proof.
  intros Hsv Hl Hi Hib Hq. apply nodes_answer_read. intros n Hn.
  pose proof (served_in hs hashs Hsv) as Hin. assert (0 < batch) as HB by apply Hfits.
  destruct (Z.eqb_spec (in_part batch (blen hashs) i) 1) as [Hone|Hmany].
  - destruct (dump_query_single _ _ _ _ _ _ Hone Hq) as (h & Hh & ->). rewrite Hone.
    rewrite Forall_forall in Hin. apply list_elem_of_lookup_2 in Hh. apply Hin in Hh.
    apply list_elem_of_fmap in Hh as (hd & -> & Hhd). apply list_elem_of_lookup in Hhd as [j Hhd].
    destruct (serves_at n isSign hs ds raws j hd Hn Hhd) as (d & raw & _ & Hraw & _).
    destruct (whole_answer isSign isCompress hs ds raws Hwire n j hd raw Hn Hhd Hraw) as [Hw _].
    exists (mkResponse (genDumpBlockBinary raw isCompress) HTTP_STATUS_OK). split; [exact Hw|].
    apply plain_dump_accepted; [|by intros []]. apply (wr_plain _ _ _ _ _ Hwire). by eapply list_elem_of_lookup_2.
  - destruct (dump_query_many batch isCompress hashs isSign i q HB Hl Hi ltac:(lia) Hq Hmany) as [Hn1 ->].
    set (l := take _ _) in *. assert (Forall (fun hash => hash ∈ bh_hash <$> hs) l) as Hl' by (by apply Forall_take, Forall_drop).
    destruct (batch_dumps_answer isSign isCompress fuel hs ds raws Hwire batch Hbatches n l Hn Hn1 Hl') as [Hw Hback].
    eexists (mkResponse _ HTTP_STATUS_OK). split; [exact Hw|]. apply plain_dump_accepted.
    + by apply (ba_dumps _ _ _ _ _ _ Hbatches).
    + intros _. eexists. split; [exact Hback|]. unfold blen. rewrite length_fmap.
      assert (0 <= i * batch) as Hib0 by nia.
      assert (in_part batch (blen hashs) i = Z.min batch (blen hashs - i * batch)) as E
        by (unfold in_part; by rewrite u64_small by (unfold is_u64; lia)).
      unfold l. rewrite length_take, length_drop, E. unfold blen in *. lia.
Qed.

Lemma nodes_responsive : responsive_net batch isCompress isSign fuel (blen hs) (chain_hdr hs).
Proof.
  split; [| |apply nodes_dumps|].
  - intros k srv Hk. destruct (chain_hdr_at hs k Hk) as (i & h & Hh & -> & _). apply nodes_answer_read. intros n Hn.
    destruct (wr_block _ _ _ _ _ Hwire i h Hh) as [Hq Hb].
    destruct (node_answer_header n isSign hs ds raws i h Hn Hh Hlen Hq Hb) as (text & Ht & Hread).
    exists (mkResponse text HTTP_STATUS_OK). split; [exact Ht|]. by exists (min_header h (1 + Z.of_nat i)).
  - intros n count srv Hn Hcount Hle. apply nodes_answer_read. intros nd Hnd.
    destruct (batch_answer isSign isCompress fuel hs ds raws Hlen batch Hbatches nd n count Hnd Hn Hcount Hle)
      as (text & Ht & Hread).
    exists (mkResponse text HTTP_STATUS_OK). split; [exact Ht|]. eexists. split; [exact Hread|]. by apply batch_numbers.
  - intros k from to q srv Hk Hbig Hf Ht Hw Hq. apply nodes_answer_read. intros n Hn.
    destruct (chain_hdr_at hs k Hk) as (i & h & Hh & _ & Hc). rewrite Hc in Hbig, Ht, Hw, Hq.
    cbn [mh_blockSize mh_hash min_header] in *.
    destruct (serves_at n isSign hs ds raws i h Hn Hh) as (d & raw & Hd & Hraw & _).
    destruct (node_block n isSign hs ds raws i h d Hn Hh Hd) as (Hbl & _). rewrite (bl_size _ _ _ Hbl) in *.
    assert (d ∈ ds) as Hin by (by eapply list_elem_of_lookup_2).
    assert (isSign = false) as Hsg.
    { pose proof (wr_large _ _ _ _ _ Hwire) as Hl. destruct isSign; [|done]. specialize (Hl eq_refl d Hin). lia. }
    exists (mkResponse (slice from to d) HTTP_STATUS_OK).
    split; [by apply (range_answer isSign isCompress hs ds raws Hwire n i h d from to q Hsg Hn Hh Hd)|].
    apply plain_dump_accepted; [|by intros []]. by apply (range_plain isSign isCompress hs ds raws Hwire).
Qed.

Lemma chain_hdr_once j k :
  0 < j <= blen hs -> 0 < k <= blen hs -> mh_hash (chain_hdr hs j) = mh_hash (chain_hdr hs k) -> j = k.
Proof.
  intros Hj Hk. destruct (chain_hdr_at hs j Hj) as (i1 & h1 & Hh1 & -> & ->).
  destruct (chain_hdr_at hs k Hk) as (i2 & h2 & Hh2 & -> & ->). cbn [mh_hash min_header]. intros E.
  destruct (proj1 Hnodes) as [n Hn]. pose proof (serves_NoDup n isSign hs ds raws Hn) as Hnd.
  assert (i1 = i2) as ->; [|done].
  eapply NoDup_lookup; [exact Hnd|..]; rewrite list_lookup_fmap; [by rewrite Hh1|by rewrite Hh2, E].
Qed.

(** The blocks can be read by the node that asks. *)
Definition chain_readable : Prop :=
  readable isSign (blen hs) (chain_hdr hs) (chain_dump hs raws) true folderPath saveAllTx isValidate base.

(** A round of a node that has the first blocks ends with all that were announced. *)
Lemma round_completes m users k (ns : NetSource) (w : W) (st : SyncState D) hsA s1 more n :
  holds_chain st hsA (take (length hsA) ds) -> bh_hash <$> hsA `prefix_of` bh_hash <$> hs ->
  has_module MODULE_BLOCK m = true -> has_module MODULE_USERS m = false ->
  0 <= n <= blen hs -> 0 <= size < 2 ^ 62 -> n - blen hsA < Z.of_nat k ->
  receivable folderPath saveAllTx isValidate isSign base hs ds raws size n -> chain_readable ->
  (forall name, blen (file_contents (ss_files st) name) + Z.max 0 (n - blen hsA) * (8 + size) < 2 ^ 64) ->
  Network_doProcess (blen hsA) (ns, w) = (s1, Ok (more, n)) -> servers_askable s1.1 ->
  let source := network_source (D := D) true maxAdvanced batch isCompress folderPath saveAllTx isValidate
    isSign fuel base in
  let '(s', r) := @sync_round _ _ D _ _ source false m users true k ((ns, w), st) in
  r = Ok tt /\ exists hsA', holds_chain s'.2 hsA' (take (length hsA') ds) /\
    bh_hash <$> hsA' `prefix_of` bh_hash <$> hs /\ blen hsA' = Z.max n (blen hsA).
Proof.
  intros Hh Hpre Hb Hu Hn Hsz Hk Hre Hread Hroom Hd Hask source.
  assert (length hsA <= length hs)%nat as Hle by (apply prefix_length in Hpre; by rewrite !length_fmap in Hpre).
  pose proof (nodes_chain_served isCompress folderPath saveAllTx isValidate isSign base hs ds raws size Hwire Hnodes
    hsA n Hpre ltac:(lia) Hre) as Hserved.
  pose proof (nodes_honest isSign isCompress fuel hs ds raws Hlen Hwire Hnodes batch Hbatches) as Hhonest.
  pose proof (round_copies maxAdvanced batch isCompress folderPath saveAllTx isValidate isSign fuel base Hfits hs ds raws
    size Hlen Hwire Hbatches Hnodes m users k ns w st hsA s1 more n Hh Hpre Hb Hu Hn Hsz Hk Hre Hroom Hd) as Hr.
  pose proof (round_succeeds true maxAdvanced batch isCompress folderPath saveAllTx isValidate isSign fuel base Hfits Hmax (blen hs)
    (chain_hdr hs) (chain_dump hs raws) Hhonest nodes_responsive chain_hdr_once Hread m users true k ns w st hsA s1 more n
    size (hc_consistent _ _ _ Hh) Hb Hu ltac:(unfold blen in *; lia) ltac:(lia) ltac:(lia) Hsz Hk Hserved Hroom Hd Hask) as Hok.
  cbv zeta in Hr. change (network_source (D := D) true maxAdvanced batch isCompress folderPath saveAllTx isValidate isSign
    fuel base) with source in Hr, Hok.
  destruct (sync_round _ _ _ _ _ _) as [s' r]. cbn [snd] in Hok. destruct Hr as (hsA' & Hh' & Hp' & _ & Hiff).
  split; [done|]. exists hsA'. do 2 (split; [done|]). by apply Hiff.
Qed.

End copying.
