(* ===== verification/Replicas.v ===== *)
(** * Nodes that copy each other

    A network of nodes that run the program: each holds the first blocks of one
    chain; a step is a round of one of them over the server of another, or a
    restart.  What every node holds stays the beginning of that chain, so any
    two nodes agree on the blocks both have. *)
From S2P Require Import Prelude External Serialize Address BlockInfo BlockInfoCodec BlockChainInterface.
From S2P Require Import BlockChain BlockChainFacts LevelDb Cache Modules Workers BlockchainUtils PrivateKey.
From S2P Require Import BlockchainRead BlockchainReadFacts Sync SyncFacts.
From S2P Require Import P2P P2PFacts Graph Dumps JsonApi Server ClientServer GetNewBlocks GetNewBlocksFacts.
From S2P Require Import NetworkSource NetworkSourceFacts HonestNet FileSource FileSourceFacts.
From S2P Require Import SyncRun SyncRunFacts NodeFacts NodeToNode.
#[local] Open Scope Z_scope.

Section network.
Context `{SupportLaws} `{CryptoLaws} `{Rapidjson} `{Lz4Laws} `{Fs} {D : Type} `{KvLaws D}.

(** The chain of the network: its hashes and its blocks. *)
Variable hashes : list bytes.
Variable dumps : list bytes.

(** The node holds the headers [hs] of the first blocks of the chain, and those blocks. *)
Definition copy_of (st : SyncState D) (hs : list BlockHeader) : Prop :=
  holds_chain st hs (take (length hs) dumps) /\ bh_hash <$> hs `prefix_of` hashes.

(** A round of a node over the server of [peer], which holds [hs]: blocks asked for
    one at a time or in batches that take a whole load, no block held back for
    validation; any network layer, other options, files and reader of the program,
    as long as every answer is [peer]'s, the blocks go over the wire and there is
    room for them. *)
Inductive copies (peer : SyncState D) (hs : list BlockHeader) (st : SyncState D) : SyncState D -> Prop :=
  | copies_round (W : Type) (net : P2PNet W) (laws : P2PNetLaws W) maxAdvanced batch isCompress folderPath saveAllTx
      isValidate isSign fuel base raws size m users k ns w mine s1 more n s' r :
    batch_fits maxAdvanced batch -> blen hs < 2 ^ 62 -> wire_ok isSign isCompress hs (take (length hs) dumps) raws ->
    batches_ok batch isSign isCompress fuel hs raws ->
    (exists nd, serves isSign nd hs (take (length hs) dumps) raws /\ sn_state nd = peer) ->
    (forall srv q response, net_replies srv q (Ok response) -> exists nd resp,
       serves isSign nd hs (take (length hs) dumps) raws /\ sn_state nd = peer /\
       node_answer nd q = Ok resp /\ response = rs_data resp) ->
    copy_of st mine -> (length mine <= length hs)%nat ->
    has_module MODULE_BLOCK m = true -> has_module MODULE_USERS m = false ->
    0 <= n <= blen hs -> 0 <= size < 2 ^ 62 -> n - blen mine < Z.of_nat k ->
    receivable folderPath saveAllTx isValidate isSign base hs (take (length hs) dumps) raws size n ->
    (forall name, blen (file_contents (ss_files st) name) + Z.max 0 (n - blen mine) * (8 + size) < 2 ^ 64) ->
    Network_doProcess (blen mine) (ns, w) = (s1, Ok (more, n)) ->
    @sync_round _ _ D _ _ (network_source (D := D) true maxAdvanced batch isCompress folderPath saveAllTx isValidate
      isSign fuel base) false m users true k ((ns, w), st) = (s', r) ->
    copies peer hs st s'.2.

(** The steps of the network. *)
Inductive net_step (nodes : list (SyncState D)) : list (SyncState D) -> Prop :=
  | step_copy i j st peer hs st' :
    nodes !! i = Some st -> nodes !! j = Some peer -> copy_of peer hs -> copies peer hs st st' ->
    net_step nodes (<[i := st']> nodes)
  | step_restart i st chain0 chain' r :
    nodes !! i = Some st -> load_chain (ss_leveldb st) chain0 = (chain', r) ->
    net_step nodes (<[i := mkSyncState (ss_leveldb st) chain' (ss_files st) []]> nodes).

(** Every node holds the beginning of the chain. *)
Definition replicas (nodes : list (SyncState D)) : Prop := Forall (fun st => exists hs, copy_of st hs) nodes.

Lemma copies_copy_of peer hs st st' :
  copy_of peer hs -> copies peer hs st st' -> exists hs', copy_of st' hs'.
Proof.
  intros [Hpeer Hph] Hc. destruct Hc as [W net laws maxA batch isC folder saveAll isVal isSign fuel base raws size m users
    k ns w mine s1 more n s' r Hfits Hlen Hwire Hbatches Hsv Hnet [Hmine Hmh] Hle Hb Hu Hn Hsz Hk Hre Hroom Hd Hrun].
  pose proof (round_copies maxA batch isC folder saveAll isVal isSign fuel base Hfits hs (take (length hs) dumps) raws
    size Hlen Hwire Hbatches) as Hx.
  assert (served_by_nodes (D := D) isSign hs (take (length hs) dumps) raws) as Hnodes.
  { split; [destruct Hsv as (nd & ? & _); by exists nd|]. intros srv q response Hr.
    destruct (Hnet srv q response Hr) as (nd & resp & ? & _ & ? & ?). by exists nd, resp. }
  assert (bh_hash <$> mine `prefix_of` bh_hash <$> hs) as Hpre.
  { destruct (prefix_weak_total _ _ _ Hmh Hph) as [|Hr]; [done|].
    rewrite (prefix_length_eq _ _ Hr); [done|]. by rewrite !length_fmap. }
  specialize (Hx Hnodes m users k ns w st mine s1 more n).
  rewrite take_take, Nat.min_l in Hx by done.
  specialize (Hx Hmine Hpre Hb Hu Hn Hsz Hk Hre Hroom Hd). cbv zeta in Hx. rewrite Hrun in Hx.
  destruct Hx as (mine' & Hm' & Hp' & _). exists mine'. split; [|by etrans].
  rewrite take_take, Nat.min_l in Hm'; [done|]. apply prefix_length in Hp'. by rewrite !length_fmap in Hp'.
Qed.

Lemma net_step_replicas nodes nodes' : replicas nodes -> net_step nodes nodes' -> replicas nodes'.
Proof.
  unfold replicas. intros Hr Hs. pose proof (proj1 (Forall_lookup _ _) Hr) as Hl.
  destruct Hs as [i j st peer hs st' Hi Hj Hp Hc|i st chain0 chain' r Hi Hload]; apply Forall_insert; try done.
  - by eapply copies_copy_of.
  - destruct (Hl i st Hi) as (hs & [Hc Hb] & Hp). exists hs. split; [|done].
    destruct (restart_consistent st hs chain0 chain' r (ss_files st) [] Hc Hload) as [_ Hc']. by split.
Qed.

(** What two copies have in common: one chain is the beginning of the other,
    and the same bytes are in both nodes' files. *)
Definition agree (st1 st2 : SyncState D) : Prop :=
  let hashes st := bc_hashes (ss_blockchain st) in
  (hashes st1 `prefix_of` hashes st2 \/ hashes st2 `prefix_of` hashes st1) /\
  forall i k1 k2, getBlock_by_number (1 + Z.of_nat i) (ss_blockchain st1) = Ok k1 ->
    getBlock_by_number (1 + Z.of_nat i) (ss_blockchain st2) = Ok k2 ->
    is_Some (bh_blockNumber k1) -> is_Some (bh_blockNumber k2) ->
    bh_hash k1 = bh_hash k2 /\
    exists d, held_in_file (ss_files st1) k1 d /\ held_in_file (ss_files st2) k2 d /\ bh_hash k1 = dump_hash d.

(** The header the chain has for a number, and its block. *)
Lemma copy_of_block st hs i k :
  copy_of st hs -> getBlock_by_number (1 + Z.of_nat i) (ss_blockchain st) = Ok k -> is_Some (bh_blockNumber k) ->
  hashes !! i = Some (bh_hash k) /\ exists d, dumps !! i = Some d /\ held_in_file (ss_files st) k d /\ bh_hash k = dump_hash d.
Proof.
  intros [[Hc Hb] [rest Hp]] Hk Hn. cbn [getBlock_by_number BlockChain_read] in Hk.
  unfold getBlock_number, getBlockImpl_number in Hk.
  destruct (Z.leb_spec (blen (bc_hashes (ss_blockchain st))) (1 + Z.of_nat i)) as [|Hlt].
  { injection Hk as <-. by destruct Hn. }
  rewrite (co_chain _ _ Hc), blen_cons in Hlt. unfold blen in Hlt. rewrite length_fmap in Hlt.
  destruct (lookup_lt_is_Some_2 hs i) as [h Hh]; [lia|].
  destruct (consistent_header _ _ i h Hc Hh) as (k' & Hhash & Hbl & Hst & _).
  replace (Z.to_nat (1 + Z.of_nat i)) with (S i) in Hk by lia. rewrite Hhash in Hk. cbn [opt_ub mbind res_bind] in Hk.
  unfold getBlockImpl_hash in Hk. rewrite Hbl in Hk. injection Hk as <-.
  assert (bh_hash k' = bh_hash h /\ bh_filePos k' = bh_filePos h) as [-> Ef] by (injection Hst; done).
  split; [rewrite Hp, lookup_app_l by (rewrite length_fmap; lia); by rewrite list_lookup_fmap, Hh|].
  destruct (Forall2_lookup_l _ _ _ _ _ Hb Hh) as (d & Hd & Hheld). apply lookup_take_Some in Hd as [Hd _].
  exists d. split; [done|]. split; [|apply Hheld]. unfold held_in_file. rewrite Ef. apply Hheld.
Qed.

Lemma copies_agree st1 st2 hs1 hs2 : copy_of st1 hs1 -> copy_of st2 hs2 -> agree st1 st2.
Proof.
  intros C1 C2. split.
  - destruct C1 as [[Hc1 _] P1], C2 as [[Hc2 _] P2]. rewrite (co_chain _ _ Hc1), (co_chain _ _ Hc2).
    destruct (prefix_weak_total _ _ _ P1 P2) as [Hp|Hp]; [left|right]; by apply prefix_cons.
  - intros i k1 k2 E1 E2 N1 N2.
    destruct (copy_of_block st1 hs1 i k1 C1 E1 N1) as (Hi1 & d & Hd & Hf1 & Hh).
    destruct (copy_of_block st2 hs2 i k2 C2 E2 N2) as (Hi2 & d2 & Hd2 & Hf2 & _).
    rewrite Hi1 in Hi2. injection Hi2 as E. split; [done|]. rewrite Hd in Hd2. injection Hd2 as <-. by exists d.
Qed.

(** Rule induction over the steps of the network. *)
Lemma reachable_replicas nodes nodes' : replicas nodes -> rtc net_step nodes nodes' -> replicas nodes'.
Proof. intros Hr Hs. induction Hs as [|x y z Hxy _ IH]; [done|]. by eapply IH, net_step_replicas. Qed.

Lemma replicas_agree nodes i j st1 st2 :
  replicas nodes -> nodes !! i = Some st1 -> nodes !! j = Some st2 -> agree st1 st2.
Proof.
  intros Hr Hi Hj. pose proof (proj1 (Forall_lookup _ _) Hr) as Hl.
  destruct (Hl i st1 Hi) as [hs1 C1], (Hl j st2 Hj) as [hs2 C2]. by eapply copies_agree.
Qed.

End network.
