(* ===== verification/Config.v ===== *)
(** * main.cpp, ConfigOptions.h: from the configuration to the node

    [main] reads the settings of the file, with libconfig, and hands them to
    the node as machine integers: an [int] of the file becomes a [size_t].
    libconfig, the resolver, the address the network knows the host by and the
    opening of a database are arguments. *)
From S2P Require Import Prelude Text Nslookup External Ordered LevelDb Cache LocalCache Modules Workers.
From S2P Require Import P2P P2PLayers SyncRun FileSource.
#[local] Open Scope Z_scope.

(** ** libconfig

    [exists], [operator[]] (an absent setting throws), the conversions (a
    setting of another type throws) and the elements of an array or list. *)
Class Libconfig (Setting : Type) := {
  cfg_exists : Setting -> bytes -> bool;
  cfg_lookup : Setting -> bytes -> res Setting;
  cfg_int : Setting -> res Z;
  cfg_bool : Setting -> res bool;
  cfg_string : Setting -> res bytes;
  cfg_isArray : Setting -> bool;
  cfg_elements : Setting -> list Setting;
}.

Class LibconfigLaws (Setting : Type) `{Libconfig Setting} := {
  cfg_lookup_exists : forall s name, cfg_exists s name = is_ok (cfg_lookup s name);
  cfg_int_range : forall s z, cfg_int s = Ok z -> - 2 ^ 31 <= z < 2 ^ 31;
  cfg_lookup_answers : forall s name, answers (cfg_lookup s name);
  cfg_int_answers : forall s, answers (cfg_int s);
  cfg_bool_answers : forall s, answers (cfg_bool s);
  cfg_string_answers : forall s, answers (cfg_string s);
}.

(** ** ConfigOptions.h *)

(* src: ConfigOptions.h:11-30 LevelDbOptions *)
Record LevelDbOptions := mkLevelDbOptions {
  lo_writeBufSizeMb : Z;
  lo_isBloomFilter : bool;
  lo_isChecks : bool;
  lo_folderName : bytes;
  lo_lruCacheMb : Z;
}.

(* src: ConfigOptions.h:32-42 CachesOptions *)
Record CachesOptions := mkCachesOptions {
  co_maxCountElementsBlockCache : Z;
  co_maxCountElementsTxsCache : Z;
  co_macLocalCacheElements : Z;
}.

(* src: ConfigOptions.h:64-74 TestNodesOptions *)
Record TestNodesOptions := mkTestNodesOptions {
  to_defaultPortTorrent : Z;
  to_myIp : bytes;
  to_testNodesServer : bytes;
}.

(** ** What is made of the options *)

(** The [leveldb::Options] that differ from the defaults. *)
Record DbOptions := mkDbOptions {
  db_block_cache : Z;
  db_paranoid_checks : bool;
  db_bloom_filter : option Z;
  db_write_buffer_size : Z;
}.

(* src: LevelDb.cpp:36-45 LevelDb::LevelDb, options *)
Definition LevelDb_options (o : LevelDbOptions) : DbOptions :=
  mkDbOptions (u64 (u64 (lo_lruCacheMb o * 1024) * 1024)) (lo_isChecks o)
    (if lo_isBloomFilter o then Some 10 else None) (u64 (u64 (lo_writeBufSizeMb o * 1024) * 1024)).

(** [inr] is the text of a status that is not ok. *)
(* src: LevelDb.cpp:34-48 LevelDb::LevelDb *)
Definition LevelDb_open {D} (DB_Open : DbOptions -> bytes -> D + bytes) (o : LevelDbOptions) : res D :=
  match DB_Open (LevelDb_options o) (lo_folderName o) with
  | inl db => Ok db
  | inr status => throwErr (str "Dont open leveldb " ++ status)
  end.

(* src: Cache/LocalCache.h:144-147 LocalCache::LocalCache *)
Definition LocalCache_new (maxCountElements : Z) : LocalCache :=
  mkLocalCache (LocalCacheInternal_new maxCountElements) (LocalCacheInternal_new maxCountElements)
    false [] false false ∅.

(* src: Cache/Cache.h:54-59 AllCaches::AllCaches *)
Definition AllCaches_new (o : CachesOptions) : AllCaches :=
  mkAllCaches (co_maxCountElementsBlockCache o) (co_maxCountElementsTxsCache o) Cache_empty Cache_empty Cache_empty
    (LocalCache_new (co_macLocalCacheElements o)).

(** ** main.cpp *)

(** The pairs of a graph file; a file that is not there has no lines. *)
(* src: main.cpp:68-87 readServers *)
Definition readServers `{Support} (file : bytes) (port : Z) : res (list (bytes * bytes)) :=
  foldM (fun result line =>
    let line := trim line in
    if is_empty line then Ok result
    else
      let findSpace := string_find (str ",") line in
      _ ← CHECK (negb (findSpace =? u64_max)) (str "Incorrect graph file");
      srv1 ← substr line 0 findSpace;
      let srv1 := addDefaultPort (trim srv1) port in
      srv2 ← substr line (u64 (findSpace + 1)) u64_max;
      let srv2 := addDefaultPort (trim srv2) port in
      Ok (result ++ [(srv1, srv2)])) [] (file_lines file).

Section main.
Context {Setting : Type} `{Libconfig Setting}.

(** [static_cast<int>(settings[name])] as a [size_t], and the conversions of the
    other types. *)
Definition size_setting (s : Setting) (name : bytes) : res Z :=
  v ← cfg_lookup s name; z ← cfg_int v; Ok (u64 z).
Definition bool_setting (s : Setting) (name : bytes) : res bool := v ← cfg_lookup s name; cfg_bool v.
Definition string_setting (s : Setting) (name : bytes) : res bytes := v ← cfg_lookup s name; cfg_string v.

(** [if (settings.exists(name)) x = settings[name];] *)
Definition or_default {A} (s : Setting) (name : bytes) (get : Setting -> bytes -> res A) (x : A) : res A :=
  if cfg_exists s name then get s name else Ok x.

(* src: main.cpp:89-96 SettingsDb *)
Record SettingsDb := mkSettingsDb {
  sd_writeBufSizeMb : Z;
  sd_isBloomFilter : bool;
  sd_isChecks : bool;
  sd_lruCacheMb : Z;
}.

(** [None] when it is not set: the other fields are indeterminate then. *)
(* src: main.cpp:98-109 parseSettingsDb *)
Definition parseSettingsDb (allSettings : Setting) (prefix : bytes) : res (option SettingsDb) :=
  if cfg_exists allSettings (prefix ++ str "write_buffer_size_mb") then
    writeBufSizeMb ← size_setting allSettings (prefix ++ str "write_buffer_size_mb");
    lruCacheMb ← size_setting allSettings (prefix ++ str "lru_cache_mb");
    isBloomFilter ← bool_setting allSettings (prefix ++ str "is_bloom_filter");
    isChecks ← bool_setting allSettings (prefix ++ str "is_checks");
    Ok (Some (mkSettingsDb writeBufSizeMb isBloomFilter isChecks lruCacheMb))
  else Ok None.

(** What [main] gives to the node, its server thread and its network layer. *)
Record NodeArguments := mkNodeArguments {
  na_pathToFolder : bytes;
  na_technicalAddress : bytes;
  na_leveldbOpt : LevelDbOptions;
  na_cachesOpt : CachesOptions;
  na_getterBlocksOpt : GetterBlockOptions;
  na_signKey : bytes;
  na_testNodesOpt : TestNodesOptions;
  na_leveldbOptScript : option LevelDbOptions;
  na_leveldbOptNodeTest : option LevelDbOptions;
  na_modules : Modules;
  na_p2p : Ips;
  na_port : Z;
  na_countWorkers : Z;
}.

(** [for (const std::string &s: setting)]. *)
Definition string_elements (s : Setting) : res (list bytes) :=
  foldM (fun l v => x ← cfg_string v; Ok (l ++ [x])) [] (cfg_elements s).

Definition db_options `{Fs} (settings : SettingsDb) (name pathToBd : bytes) : LevelDbOptions :=
  mkLevelDbOptions (sd_writeBufSizeMb settings) (sd_isBloomFilter settings) (sd_isChecks settings)
    (getFullPath name pathToBd) (sd_lruCacheMb settings).

(** The settings that may be left out, with their defaults. *)
Record OptionalSettings := mkOptionalSettings {
  os_caches : CachesOptions;
  os_signKey : bytes;
  os_isValidate : bool;
  os_isValidateSign : bool;
  os_testNodesServer : bytes;
  os_maxAdvancedLoadBlocks : Z;
  os_countBlocksInBatch : Z;
  os_isCompress : bool;
  os_technicalAddress : bytes;
}.

(* src: main.cpp:157-209 main, optional settings *)
Definition optional_settings (s : Setting) : res OptionalSettings :=
  maxCountElementsBlockCache ← or_default s (str "max_count_elements_block_cache") size_setting 0;
  maxCountElementsTxsCache ← or_default s (str "max_count_blocks_txs_cache") size_setting 0;
  maxLocalCacheElements ← or_default s (str "mac_local_cache_elements") size_setting 0;
  maxLocalCacheElements ← or_default s (str "max_local_cache_elements") size_setting maxLocalCacheElements;
  signKey ← or_default s (str "sign_key") string_setting [];
  isValidate ← or_default s (str "validate") bool_setting false;
  isValidateSign ← or_default s (str "validateSign") bool_setting false;
  testNodesServer ← or_default s (str "test_nodes_result_server") string_setting [];
  maxAdvancedLoadBlocks ← or_default s (str "advanced_load_blocks") size_setting 10;
  countBlocksInBatch ← or_default s (str "count_blocks_in_batch") size_setting 1;
  isCompress ← or_default s (str "compress_blocks") bool_setting false;
  technicalAddress ← or_default s (str "technical_address") string_setting [];
  Ok (mkOptionalSettings
    (mkCachesOptions maxCountElementsBlockCache maxCountElementsTxsCache maxLocalCacheElements)
    signKey isValidate isValidateSign testNodesServer maxAdvancedLoadBlocks countBlocksInBatch isCompress
    technicalAddress).

Context `{Support} `{Fs}.
Variable getHostName : res bytes.
Variable getMyIp2 : bytes -> res bytes.
Variables (inet_pton : bytes -> bool) (res_query : bytes -> DnsReply + bytes) (probe : nat -> bytes -> res Z).
Variable sort_results : list NsResult -> list NsResult.

(** An array is the servers themselves; a string is a name to look up. *)
(* src: main.cpp:228-240 main, servers *)
Definition read_servers (s : Setting) (countConnections : Z) : res Ips :=
  servers ← cfg_lookup s (str "servers");
  if cfg_isArray servers then
    serversStr ← string_elements servers;
    P2P_Ips serversStr (Z.to_nat countConnections)
  else
    serverName ← cfg_string servers;
    bestIp ← getBestIp inet_pton res_query probe sort_results serverName;
    P2P_Ips [ns_server bestIp] (Z.to_nat countConnections).

(* src: main.cpp:144-256 main, try *)
Definition main_arguments (allSettings : Setting) : res NodeArguments :=
  pathToBd ← string_setting allSettings (str "path_to_bd");
  pathToFolder ← string_setting allSettings (str "path_to_folder");
  countWorkers ← size_setting allSettings (str "count_threads");
  settingsDb ← parseSettingsDb allSettings [];
  settingsDb ← match settingsDb with Some d => Ok d | None => throwErr (str "settings db not found") end;
  settingsStateDb ← parseSettingsDb allSettings (str "st_");
  port ← size_setting allSettings (str "port");
  getBlocksFromFile ← bool_setting allSettings (str "get_blocks_from_file");
  countConnections ← size_setting allSettings (str "count_connections");
  thisServer ← getHostName;
  latencyFile ← string_setting allSettings (str "latency_file");
  o ← optional_settings allSettings;
  modulesSetting ← cfg_lookup allSettings (str "modules");
  modulesStr ← string_elements modulesSetting;
  m ← parseModules (oset_of_list modulesStr);
  otherPortTorrent ← or_default allSettings (str "other_torrent_port") size_setting port;
  ip ← getMyIp2 (str "172.104.236.166:5797");
  let myIp := trim ip ++ str ":" ++ to_string port in
  p2p ← read_servers allSettings countConnections;
  let stateOpt name := (fun d => db_options d name pathToBd) <$> settingsStateDb in
  Ok (mkNodeArguments pathToFolder (os_technicalAddress o) (db_options settingsDb (str "simple") pathToBd)
    (os_caches o)
    (mkGetterBlockOptions (os_maxAdvancedLoadBlocks o) (os_countBlocksInBatch o) true getBlocksFromFile
      (os_isValidate o) (os_isValidateSign o) (os_isCompress o))
    (os_signKey o) (mkTestNodesOptions otherPortTorrent myIp (os_testNodesServer o))
    (stateOpt (str "states")) (stateOpt (str "nodeTest")) m p2p port countWorkers).

(** The parameters of the threads are [int]s. *)
(* src: main.cpp:260-260 main, serverThread *)
Definition server_port (a : NodeArguments) : Z := to_i32 (na_port a).
(* src: synchronize_blockchain.cpp:48-50 Sync::synchronize *)
Definition synchronize_threads (a : NodeArguments) : Z := to_i32 (na_countWorkers a).

(** The configuration file: unreadable, not parsed, or its root. *)
Inductive ConfigFile :=
  | FileIOException
  | ParseException
  | ConfigRoot (root : Setting).

(** The exit code. [run] is the node at work: its construction, its threads,
    and the wait for the server thread. *)
(* src: main.cpp:111-283 main *)
Definition main (argc : Z) (config : ConfigFile) (run : NodeArguments -> res unit) : res Z :=
  if negb (argc =? 2) then Ok (-1)
  else
    match config with
    | FileIOException | ParseException => Ok (-1)
    | ConfigRoot root =>
        match (allSettings ← cfg_lookup root (str "Base"); a ← main_arguments allSettings; run a) with
        | Ok _ | Throw _ => Ok 0
        | UB => UB
        | OutOfFuel => OutOfFuel
        end
    end.

End main.

(** ** checkVirtual.cpp

    Whether the machine has a thermal sensor; [None] until it was looked for. *)
(* src: utils/checkVirtual.cpp:14-25 initializeIsVirtualMachine *)
Definition initializeIsVirtualMachine (disk : Disk) : option bool :=
  Some (negb (existsb (fun i =>
    isFileExist (str "/sys/class/thermal/thermal_zone" ++ to_string (Z.of_nat i) ++ str "/temp") disk) (seq 0 10))).

(* src: utils/checkVirtual.cpp:27-30 isVirtualMachine *)
Definition isVirtualMachine (isVirtual : option bool) : res bool :=
  _ ← CHECK (bool_decide (is_Some isVirtual)) (str "Not initialized");
  Ok (default false isVirtual).
