(* ===== verification/NetProps.v ===== *)
(** * What downloading from other nodes promises

    The theorems about P2P/P2P.cpp, P2P/P2P_Graph.cpp, utils/Graph.cpp,
    BlockSource/GetNewBlocksFromServers.cpp and
    BlockSource/NetworkBlockSource.cpp. *)
From S2P Require Import Prelude External MiniJson Instances BlockInfo BlockchainUtils PrivateKey BlockchainRead.
From S2P Require Import P2P P2PFacts P2PSeq Graph Dumps JsonApi GetNewBlocks GetNewBlocksFacts.
From S2P Require Import NetworkSource NetworkSourceFacts HonestNet SampleNet.
#[local] Open Scope Z_scope.

(** ** The source of the synchronisation loop *)

(** C10. Asked for the blocks after [count], of nodes that answer with the blocks
    they are asked for, the network source hands out blocks count+1, count+2, and
    so on up to the last block of the best node: each is the checked parse of the
    dump the nodes have for that very number, in order and without a gap or a
    repetition.  This is for one block in a request (count_blocks_in_batch 1, the
    default), however many are loaded ahead, and for batches at least as large as
    what is loaded ahead (advanced_load_blocks <= count_blocks_in_batch, as in the
    configuration shipped with the program); for the sizes in between it fails
    ([short_part_wrong_number]). *)
Theorem network_blocks_in_order `{Support} `{Crypto} `{Rapidjson} `{Lz4} `{Fs} {W : Type} `{P2PNetLaws W}
    isInitialized maxAdvanced batch isCompress folderPath saveAllTx isValidate isVerifySign fuel base
    hdr dump_of count k s s1 more n :
  batch_fits maxAdvanced batch -> honest_net batch isCompress isVerifySign fuel n hdr dump_of ->
  0 <= count < 2 ^ 62 -> 0 <= n < 2 ^ 62 -> Network_doProcess count s = (s1, Ok (more, n)) ->
  let '(s2, l) := take_blocks isInitialized maxAdvanced batch isCompress folderPath saveAllTx isValidate
    isVerifySign fuel base k s1 in
  more = (count + 1 <=? n) /\ ns_nextBlockToRead s2.1 = count + 1 + blen l /\
  blen l <= Z.max 0 (n - count) /\
  forall i bi dump, l !! i = Some (bi, dump) ->
    let header := hdr (count + 1 + Z.of_nat i) in
    block_checked isInitialized folderPath saveAllTx isValidate isVerifySign base
      header (dump_of (mh_hash header)) bi dump.
Proof.
  intros Hfits Hh Hc Hn Hd. destruct s1 as [ns w].
  apply (honest_doProcess isVerifySign n hdr dump_of isInitialized folderPath saveAllTx isValidate base
    count s (ns, w) more n Hc) in Hd as (_ & -> & Hnx & Hi).
  pose proof (honest_take maxAdvanced batch isCompress isVerifySign fuel Hfits n hdr dump_of Hh isInitialized folderPath
    saveAllTx isValidate base n _ ns w k ltac:(lia) ltac:(lia) Hi) as Ht. cbn [fst] in *. rewrite Hnx in Ht.
  destruct (take_blocks _ _ _ _ _ _ _ _ _ _ k (ns, w)) as [s2 l]. destruct Ht as (Hnext & Hlen & Hall).
  split; [done|]. split; [done|]. split; [|intros i bi dump Hb; exact (Hall i _ Hb)].
  destruct l as [|b l]; [rewrite blen_nil; lia|]. specialize (Hlen ltac:(done)). lia.
Qed.

(** The source, asking the one node of the table for what follows block 0. *)
Definition one_doProcess : (NetSource * unit) * res (bool * Z) :=
  @Network_doProcess mini_json unit (table_net one_table) 0 (NetworkBlockSource, tt).

Definition one_take (k : nat) : (NetSource * unit) * list (BlockInfo * bytes) :=
  @take_blocks hex_support copy_crypto mini_json stored_lz4 flat_fs unit (table_net one_table)
    true 5 1 false (str "d") false false false 1 1000 k (fst one_doProcess).

Lemma one_take_result : exists bi dump, (one_take 3).2 = [(bi, dump)].
Proof. eexists _, _. vm_compute. reflexivity. Qed.

Lemma network_blocks_in_order_witness :
  exists bi dump, (one_take 3).2 = [(bi, dump)] /\
    @block_checked hex_support copy_crypto mini_json flat_fs true (str "d") false false false 1000
      one_header one_dump bi dump.
Proof.
  destruct one_take_result as (bi & dump & E). exists bi, dump. split; [exact E|].
  pose proof (@network_blocks_in_order hex_support copy_crypto mini_json stored_lz4 flat_fs unit
    (table_net one_table) (table_net_laws one_table) true 5 1 false (str "d") false false false 1 1000
    one_hdr one_dump_of 0 3 (NetworkBlockSource, tt) (fst one_doProcess) true 1 (fits_one 5 ltac:(lia)) one_net_honest
    ltac:(lia) ltac:(lia) ltac:(vm_compute; reflexivity)) as H.
  change (take_blocks _ _ _ _ _ _ _ _ _ _ 3 (fst one_doProcess)) with (one_take 3) in H.
  destruct (one_take 3) as [s2 l]. cbn [snd] in E. subst l. destruct H as (_ & _ & _ & Hb).
  exact (Hb 0%nat bi dump eq_refl).
Defined.

(** C24. Whatever the nodes answer, every block the network source hands out was
    checked against a header a node gave for its number: one node answered the
    request for that number, alone or in a batch, with a header whose size is that of
    the bytes handed out and whose file name the block gets - or, when batches of more
    than one block are smaller than what is loaded ahead, the request for the number a
    last part of one block asks for in its place.  The block is what those bytes parse to, and when signatures are verified
    they are what a sender signed: the signature, key and address stored in the block
    are the ones that passed.  The numbers are handed out one after the other and not
    past the last block the nodes announced. *)
Theorem network_blocks_checked `{Support} `{Crypto} `{Rapidjson} `{Lz4} `{Fs} {W : Type} `{P2PNetLaws W}
    isInitialized maxAdvanced batch isCompress folderPath saveAllTx isValidate isVerifySign fuel base
    count k s s1 more n :
  0 <= maxAdvanced -> 0 < batch < 2 ^ 62 ->
  0 <= count < 2 ^ 62 -> 0 <= n < 2 ^ 61 -> Network_doProcess count s = (s1, Ok (more, n)) ->
  let '(s2, l) := take_blocks isInitialized maxAdvanced batch isCompress folderPath saveAllTx isValidate
    isVerifySign fuel base k s1 in
  ns_nextBlockToRead s2.1 = count + 1 + blen l /\ blen l <= Z.max 0 (n - count) /\
  forall i bi dump, l !! i = Some (bi, dump) -> exists header raw,
    announced maxAdvanced batch (count + 1 + Z.of_nat i) header /\
    block_checked isInitialized folderPath saveAllTx isValidate isVerifySign base header raw bi dump.
Proof.
  intros Hmax Hbatch Hc Hn Hd. apply doProcess_spec in Hd as (-> & -> & Hnx & Hl & Hsv & Hadv & Hg).
  destruct s1 as [ns w]. cbn [fst snd] in *. rewrite u64_small in Hnx by (unfold is_u64; lia).
  set (n := max_count _) in *. set (servers := best_servers _) in *.
  pose proof (take_announced isInitialized maxAdvanced batch isCompress folderPath saveAllTx isValidate
    isVerifySign fuel base Hmax Hbatch n servers k ns w ltac:(lia) ltac:(lia)) as Ht.
  destruct (take_blocks _ _ _ _ _ _ _ _ _ _ k (ns, w)) as [s2 l].
  destruct Ht as (Hnext & Hlen & Hall).
  { split; [rewrite Hg; by intros ? ? ?%elem_of_nil|rewrite Hnx; lia|done|done|].
    intros j a. by rewrite Hadv, lookup_empty. }
  rewrite Hnx in *. split; [done|]. split.
  - destruct l as [|b l]; [rewrite blen_nil; lia|]. specialize (Hlen ltac:(done)). lia.
  - intros i bi dump Hi. exact (Hall i _ Hi).
Qed.

Lemma network_blocks_checked_witness :
  exists bi dump header raw, (one_take 3).2 = [(bi, dump)] /\
    @announced mini_json unit (table_net one_table) (table_net_laws one_table) 5 1 1 header /\
    @block_checked hex_support copy_crypto mini_json flat_fs true (str "d") false false false 1000
      header raw bi dump.
Proof.
  destruct one_take_result as (bi & dump & E). exists bi, dump.
  pose proof (@network_blocks_checked hex_support copy_crypto mini_json stored_lz4 flat_fs unit
    (table_net one_table) (table_net_laws one_table) true 5 1 false (str "d") false false false 1 1000
    0 3 (NetworkBlockSource, tt) (fst one_doProcess) true 1
    ltac:(lia) ltac:(lia) ltac:(lia) ltac:(lia) ltac:(vm_compute; reflexivity)) as H.
  change (take_blocks _ _ _ _ _ _ _ _ _ _ 3 (fst one_doProcess)) with (one_take 3) in H.
  destruct (one_take 3) as [s2 l]. cbn [snd] in E. subst l. destruct H as (_ & _ & Hb).
  destruct (Hb 0%nat bi dump eq_refl) as (header & raw & Hc). by exists header, raw.
Defined.

(** ** What the other nodes have *)

(** The last block of the other nodes is the greatest number any of them
    reported, and the servers to load from are exactly those that reported it, at
    least one; when no reply could be read there is an error and no number. *)
Theorem last_block_exact `{Rapidjson} {W : Type} `{P2PNet W} w w' r :
  getLastBlock w = (w', Ok r) ->
  let counts := reply_counts w in
  (counts = [] -> lr_lastBlock r = None /\ is_Some (lr_error r)) /\
  (counts <> [] ->
     lr_error r = None /\ lr_servers r <> [] /\
     exists best, lr_lastBlock r = Some best /\ (forall c, c ∈ counts -> c.2 <= best) /\
       forall server, server ∈ lr_servers r <-> (server, best) ∈ counts).
Proof.
  intros Hl. destruct (getLastBlock_spec _ _ _ Hl) as [Hn Hs]. cbn zeta in *. split; [exact Hn|].
  intros Hc. destruct (Hs Hc) as (Hlast & He & Hsv). split; [done|]. rewrite Hsv.
  split; [apply best_servers_nonempty; [done|]; intros c; apply reply_counts_nonneg|].
  exists (max_count (reply_counts w)). split; [done|]. split; [apply max_count_ge|]. apply best_servers_elem.
Qed.

Lemma last_block_exact_witness :
  exists w' r best, @getLastBlock mini_json unit (table_net one_table) tt = (w', Ok r) /\
    lr_lastBlock r = Some best.
Proof.
  exists tt, (mkLastBlockResponse [str "s1"] (Some 1) None), 1.
  assert (@getLastBlock mini_json unit (table_net one_table) tt =
    (tt, Ok (mkLastBlockResponse [str "s1"] (Some 1) None))) as E by (vm_compute; reflexivity).
  split; [exact E|]. destruct (@last_block_exact mini_json unit (table_net one_table) tt _ _ E) as [_ Hs].
  destruct Hs as (_ & _ & best & Hb & _); [vm_compute; discriminate|]. reflexivity.
Defined.

(** A load of headers from [blockNum] on fills the cache with consecutive
    numbers, as many as were asked for: a header from a part of several blocks has
    its own number; a header from a part of one block answers a request for
    block [blockNum] plus the index of the part. *)
Theorem headers_cache_exact `{Rapidjson} {W : Type} `{P2PNetLaws W} maxAdvanced batch
    blockNum maxBlockNum server s s' h :
  0 < batch < 2 ^ 62 -> 0 <= blockNum <= maxBlockNum -> maxBlockNum < 2 ^ 62 -> 0 <= maxAdvanced ->
  load_block_headers maxAdvanced batch blockNum maxBlockNum server s = (s', Ok h) ->
  let count := Z.min (maxBlockNum - blockNum + 1) maxAdvanced in
  (g_headers s'.1).*1 = seqZ blockNum count /\ head (g_headers s'.1) = Some (blockNum, h) /\
  forall number header, (number, header) ∈ g_headers s'.1 ->
    let part := (number - blockNum) / batch in
    if in_part batch count part =? 1 then asked (blockNum + part) header else mh_number header = number.
Proof.
  intros Hb Hn Hm Ha Hl. destruct (load_block_headers_spec _ _ Hb _ _ _ _ _ _ Hl Hn Hm Ha) as (Hk & Hh & Hf).
  split; [done|]. split; [done|]. intros number header Hin. rewrite Forall_forall in Hf. by apply (Hf _ Hin).
Qed.

(** A node with three blocks, asked for two at a time: the answer to the first
    part, and the answer to a request for block 2. *)
Definition three_header (n : Z) : json :=
  JObject [(str "hash", JString (str "h" ++ to_string n)); (str "prev_hash", JString (str "h"));
    (str "number", JInt n); (str "size", JInt 81); (str "fileName", JString (str "d/1.blk"))].

Definition three_table : list (Query * bytes) :=
  [(qs_blocks 1 2, mini_print (JObject [(str "result", JArray [three_header 1; three_header 2])]));
   (qs_block_by_number 2, mini_print (JObject [(str "result", three_header 2)]));
   (qs_block_by_number 3, mini_print (JObject [(str "result", three_header 3)]))].

Definition three_load : (Getter * unit) * res MinimumBlockHeader :=
  @load_block_headers mini_json unit (table_net three_table) 5 2 1 3 (str "s1") (mkGetter [] ∅, tt).

Lemma headers_cache_exact_witness :
  exists h, snd three_load = Ok h /\ (g_headers (fst three_load).1).*1 = [1; 2; 3] /\
    head (g_headers (fst three_load).1) = Some (1, h).
Proof.
  exists (mkMinimumBlockHeader 1 81 (str "h1") (str "h") (str "d/1.blk")).
  assert (three_load = (fst three_load, Ok (mkMinimumBlockHeader 1 81 (str "h1") (str "h") (str "d/1.blk")))) as E
    by (vm_compute; reflexivity).
  destruct (@headers_cache_exact mini_json unit (table_net three_table) (table_net_laws three_table) 5 2 1 3 (str "s1")
    (mkGetter [] ∅, tt) _ _ ltac:(lia) ltac:(lia) ltac:(lia) ltac:(lia) E) as (Hk & Hh & _).
  split; [by rewrite E|]. split; [exact Hk|exact Hh].
Defined.

(** In a part of one block that is not the first, the header kept for a number is
    that of another block: the request adds the index of the part to the first
    number where the cache adds the parts before it. *)
Lemma short_part_wrong_number `{Rapidjson} {W : Type} `{P2PNetLaws W} maxAdvanced batch
    blockNum maxBlockNum server s s' h number header :
  1 < batch < 2 ^ 62 -> 0 <= blockNum <= maxBlockNum -> maxBlockNum < 2 ^ 62 -> 0 <= maxAdvanced ->
  load_block_headers maxAdvanced batch blockNum maxBlockNum server s = (s', Ok h) ->
  honest_headers -> (number, header) ∈ g_headers s'.1 ->
  let count := Z.min (maxBlockNum - blockNum + 1) maxAdvanced in
  number = blockNum + count - 1 -> 1 < count -> count mod batch = 1 ->
  mh_number header = blockNum + count / batch /\ mh_number header < number.
Proof.
  cbn zeta. intros Hb Hn Hm Ha Hl Hh Hin Hnum Hc Hmod.
  destruct (load_block_headers_spec maxAdvanced batch ltac:(lia) _ _ _ _ _ _ Hl Hn Hm Ha) as (_ & _ & Hf).
  rewrite Forall_forall in Hf. specialize (Hf _ Hin).
  apply (entry_number batch) in Hf; [|done]. cbn [fst snd] in Hf.
  set (count := Z.min _ _) in *. assert (count < 2 ^ 63) by lia. clearbody count.
  pose proof (Z.div_mod count batch ltac:(lia)) as Hd. rewrite Hmod in Hd. set (q := count / batch) in *.
  assert (0 < q) by nia.
  replace ((number - blockNum) / batch) with q in Hf by (apply Z.div_unique_pos with 0; lia).
  rewrite in_part_eq in Hf by nia.
  replace (count - q * batch) with 1 in Hf by lia. rewrite Z.min_r in Hf by lia. cbn in Hf.
  rewrite Hf. split; [done|]. nia.
Qed.

Example three_load_wrong : mh_number <$> (g_headers (fst three_load).1 !! 2%nat ≫= fun e => Some e.2) = Some 2.
Proof. vm_compute. reflexivity. Qed.

(** ** Downloads in segments *)

(** C15. A download cut into segments, answered out of order by servers that give
    the byte ranges they are asked for, some of them failing and their segments
    taken over by others, is the data from its first byte to the size asked for. *)
Theorem download_data getServersList makeQs parse precise replies size data r :
  0 <= size < 2 ^ 63 -> honest makeQs parse replies size data ->
  p2p_request getServersList parse replies size precise makeQs (Ok r) -> r = slice 0 size data.
Proof. intros Hs Hh Hr. by eapply p2p_request_data. Qed.

(** Two servers of 1500 bytes of data; a request spells its range in unary. *)
Definition range_data : bytes := replicate 1000 Byte.x61 ++ replicate 500 Byte.x62.

Definition range_query (from to : Z) : res Query :=
  _ ← CHECK ((0 <=? from) && (0 <=? to)) [];
  Ok (replicate (Z.to_nat from) Byte.x31, replicate (Z.to_nat to) Byte.x31).

Definition range_serve (srv : bytes) (q : Query) : res bytes :=
  Ok (slice (blen (fst q)) (blen (snd q)) range_data).

Definition range_download : res bytes :=
  seq_request range_serve (Ok [str "s1"; str "s2"]) 1500 true range_query whole_response.

Lemma range_honest : honest range_query whole_response (serve_replies range_serve) (blen range_data) range_data.
Proof.
  intros srv from to q response parsed _ _ _ Hq Hr [= <-] _. unfold range_query in Hq.
  apply bind_Ok_inv in Hq as (u & Hc & [= <-]). apply CHECK_Ok_inv, andb_true_iff in Hc as [Hf Ht].
  apply Z.leb_le in Hf, Ht. unfold serve_replies, range_serve in Hr. cbn [fst snd] in Hr.
  injection Hr as ->. cbn [rp_response]. unfold blen. by rewrite !length_replicate, !Z2Nat.id.
Qed.

Lemma download_data_witness :
  exists r, range_download = Ok r /\ r = slice 0 1500 range_data.
Proof.
  exists range_data. assert (range_download = Ok range_data) as E by (vm_compute; reflexivity).
  split; [exact E|].
  apply (download_data (Ok [str "s1"; str "s2"]) range_query whole_response true (serve_replies range_serve)
    1500 range_data); [lia|exact range_honest|]. apply seq_request_run. exact E.
Defined.

(** C35. A download ends, unless the queue of 1000 segments gets in its way.  Every
    step of its threads and of the thread that fills the queue uses up work, of
    which there is a bounded amount at the start, whatever the servers answer.
    Until the main thread's condition holds some thread can make a step, with one
    exception: with more than 1000 segments all places of the queue can be taken
    when every thread is gone or waits to put its segment back, and then no thread
    ever moves again.  When each reply to the request for a segment is an answer
    that passes the tests, this does not happen, and a run that has ended, in
    whatever order the threads took the segments, has an answer for every one. *)
Theorem download_ends servers makeQs parse precise replies size segments count :
  covers 0 0 size segments -> blen segments = count ->
  (forall s, s ∈ segments -> replied servers makeQs parse replies s) ->
  let step := pstep servers makeQs parse precise replies in
  let start := process_start servers segments (Z.to_nat count) in
  (forall n s, nsteps step n start s -> (n <= 3 * (length segments + length servers))%nat) /\
  (forall s, rtc step start s -> process_done segments s \/ (exists s', step s s') \/
     (QUEUE_SIZE < count /\ jammed s)) /\
  (forall s s', jammed s -> ~ step s s') /\
  (servers <> [] -> (forall s, s ∈ segments -> answered servers makeQs parse precise replies s) ->
   forall s, rtc step start s ->
     (process_done segments s \/ exists s', step s s') /\ (process_done segments s -> p_countSuccess s = count)).
Proof.
  intros Hc Hl Hr. destruct (covers_hyps _ _ _ Hc Hl) as [Hnd Hpos]. cbn zeta. split; [|split; [|split]].
  - intros n s Hn. apply runs_bounded in Hn. rewrite work_left_start in Hn. lia.
  - intros s Hs. destruct (process_progress _ _ _ _ _ _ _ Hnd Hpos Hr s Hs) as [|[|Hj]]; [by left|right; by left|].
    rewrite <- Hl. destruct (jammed_large _ _ _ _ _ _ _ Hnd Hpos Hr s Hs Hj); [by left|by right; right].
  - intros s s'. apply jammed_stuck.
  - intros Hne Ha s Hs. rewrite <- Hl. split; [by eapply answered_progress|]. intros Hd. by eapply done_succeeds.
Qed.

Lemma range_answered s :
  s ∈ [mkSegment 0 1000 0; mkSegment 1000 1500 1] ->
  answered [str "s1"; str "s2"] range_query whole_response true (serve_replies range_serve) s.
Proof.
  intros Hs. apply elem_of_cons in Hs as [->|Hs]; [|apply list_elem_of_singleton in Hs as ->].
  all: eexists; split; [reflexivity|]; intros srv _; split; [by eexists|]; intros reply ->; eexists _, _;
    split; [reflexivity|]; split; [reflexivity|]; split; [reflexivity|]; intros _; vm_compute; reflexivity.
Qed.

Lemma download_ends_witness :
  exists segments, makeSegments 2 1500 1000 = Ok segments /\
    let step := pstep [str "s1"; str "s2"] range_query whole_response true (serve_replies range_serve) in
    let start := process_start [str "s1"; str "s2"] segments (Z.to_nat 2) in
    (forall n s, nsteps step n start s -> (n <= 12)%nat) /\
    (forall s, rtc step start s -> process_done segments s -> p_countSuccess s = 2).
Proof.
  exists [mkSegment 0 1000 0; mkSegment 1000 1500 1]. split; [vm_compute; reflexivity|].
  destruct (download_ends [str "s1"; str "s2"] range_query whole_response true (serve_replies range_serve)
    1500 [mkSegment 0 1000 0; mkSegment 1000 1500 1] 2 ltac:(cbn; lia) ltac:(reflexivity)
    (fun s Hs => answered_replied _ _ _ _ _ s (range_answered s Hs))) as (Hb & _ & _ & Hd).
  split; [exact Hb|]. intros s Hs. exact (proj2 (Hd ltac:(discriminate) range_answered s Hs)).
Defined.

(** One server that refuses, and more requests than the queue has places: the
    thread waits to put its segment back, the queue is full and stays so. *)
Lemma fill_queue servers mk parse precise replies rest queue threads n answers :
  blen queue + blen rest <= QUEUE_SIZE ->
  rtc (pstep servers mk parse precise replies) (mkPState rest queue threads n answers)
    (mkPState [] (queue ++ rest) threads n answers).
Proof.
  revert queue. induction rest as [|seg rest IH]; intros queue Hl; [by rewrite app_nil_r|].
  rewrite blen_cons in Hl. pose proof (blen_nonneg rest).
  eapply rtc_l; [eapply step_push; [reflexivity|cbn [p_queue]; lia]|]. cbn [p_queue p_threads p_countSuccess p_answers].
  specialize (IH (queue ++ [seg]) ltac:(rewrite blen_app, blen_cons, blen_nil; lia)). by rewrite <- app_assoc in IH.
Qed.

Definition unit_query (from to : Z) : res Query := Ok (str "get", to_string from).
Definition refusing (srv : bytes) (q : Query) (reply : res bytes) : Prop := reply = throwErr (str "refused").

Lemma large_download_jams :
  exists segments s, makeSegments 1001 1001 1 = Ok segments /\
    rtc (pstep [str "s1"] unit_query whole_response false refusing) (process_start [str "s1"] segments 1001) s /\
    jammed s /\ ~ process_done segments s.
Proof.
  assert (blen <$> makeSegments 1001 1001 1 = Ok 1001) as Hl by (vm_compute; reflexivity).
  destruct (makeSegments 1001 1001 1) as [[|seg rest]| | |] eqn:E; try discriminate Hl.
  change (Ok (blen (seg :: rest)) = Ok 1001) in Hl. assert (blen (seg :: rest) = 1001) as Hl' by congruence.
  rewrite blen_cons in Hl'. assert (blen rest = QUEUE_SIZE) as Hr by (unfold QUEUE_SIZE; lia).
  exists (seg :: rest), (mkPState [] rest [TPutBack seg] 0 (replicate 1001 [])).
  split; [done|]. split; [|split].
  - eapply rtc_l; [by eapply step_push; [|vm_compute]|]. eapply rtc_l; [by eapply (step_pop _ _ _ _ _ 0%nat seg [] [])|].
    eapply rtc_l; [eapply (step_fail _ _ _ _ _ 0%nat seg); reflexivity|].
    apply (fill_queue _ _ _ _ _ rest []). rewrite blen_nil. lia.
  - split; [exact Hr|by repeat constructor].
  - intros [_ [Hd|Hd]]; [|discriminate Hd]. cbn [p_countSuccess] in Hd. rewrite blen_cons in Hd.
    pose proof (blen_nonneg rest). lia.
Qed.

(** The schedule in which one thread takes every segment in turn is one of the
    machine's: what it downloads, the machine can download. *)
Theorem sequential_download serve getServersList size precise makeQs parse r :
  seq_request serve getServersList size precise makeQs parse = Ok r ->
  p2p_request getServersList parse (serve_replies serve) size precise makeQs (Ok r).
Proof. apply seq_request_run. Qed.

Lemma sequential_download_witness :
  p2p_request (Ok [str "s1"; str "s2"]) whole_response (serve_replies range_serve) 1500 true range_query
    (Ok range_data).
Proof. apply sequential_download. vm_compute. reflexivity. Defined.

(** ** The graph of nodes *)

(** The configuration's edges make a graph exactly when no node has two
    parents and the count of connections is not zero; then every node's parent is
    the one its edge gives, and a node that has no parent itself is refused. *)
Theorem graph_of_edges graphVec thisIp countConnections :
  match P2P_Graph graphVec thisIp countConnections with
  | Ok (g, parent) => countConnections <> 0 /\ NoDup graphVec.*2 /\ graph_wf g /\
      (forall n, parent_name g n = edge_parent graphVec n) /\
      el_element <$> g !! parent = edge_parent graphVec thisIp
  | Throw _ => countConnections = 0 \/ ~ NoDup graphVec.*2 \/ edge_parent graphVec thisIp = None
  | _ => False
  end.
Proof.
  assert (graph_wf []) as Hwf by (split; [apply NoDup_nil_2|done]).
  unfold P2P_Graph. destruct (Z.eqb_spec countConnections 0) as [|Hc]; [by left|].
  cbn [negb CHECK mbind res_bind]. destruct (decide (NoDup graphVec.*2)) as [Hnd|Hnd].
  - destruct (add_edges_Ok graphVec [] Hwf Hnd) as (g & -> & Hg & Hp); [done|]. cbn [mbind res_bind].
    assert (forall n, parent_name g n = edge_parent graphVec n) as Hpar.
    { intros n. rewrite Hp. by destruct (edge_parent graphVec n). }
    unfold findElement. destruct (find_element g thisIp) as [i|] eqn:Hf.
    + destruct (find_element_Some _ _ _ Hf) as (el & Hi & He). cbn [mbind res_bind]. rewrite Hi. cbn [opt_ub mbind res_bind].
      unfold getParent. pose proof (find_parent _ _ _ Hg Hi) as Hpn. rewrite He, Hpar in Hpn.
      destruct (el_parent el) as [p|]; cbn [mbind res_bind]; [|by right; right].
      do 4 (split; [done|]). rewrite Hpn. cbn. by destruct (g !! p).
    + cbn. right; right. rewrite <- Hpar. unfold parent_name. by rewrite Hf.
  - destruct (add_edges graphVec []) as [g r] eqn:Ha.
    pose proof (add_edges_answer graphVec [] Hwf) as Hr. rewrite Ha in Hr. cbn [snd] in Hr.
    destruct Hr as [-> | [e ->]]; [|by right; left].
    destruct Hnd. by apply (add_edges_Ok_inv _ [] g Hwf).
Qed.

(** A broadcast asks this node's parent, the parent's parent and so on, each
    once, and stops at the first that answers; it gives up only when every
    ancestor has failed.  In a graph without a cycle of parents it always ends. *)
Theorem broadcast_asks_ancestors {W : Type} (send : bytes -> Query -> meth W bytes)
    (checkStopSignal : meth W unit) fuel g rank parent q w s' r :
  (forall w, snd (checkStopSignal w) = Ok tt \/ snd (checkStopSignal w) = Throw ExcStop) ->
  (forall url q w, total (snd (send url q w))) -> ranked g rank -> (rank parent < fuel)%nat ->
  Graph_broadcast send checkStopSignal fuel true g parent q (w, []) = (s', r) ->
  total r /\ (event_server <$> s'.2) `prefix_of` ancestors fuel g parent /\
  (r = Ok tt -> exists fails server response,
     s'.2 = fails ++ [(server, response, None)] /\ Forall event_failed fails) /\
  (forall e, r = Throw (ExcCommon e) ->
     (event_server <$> s'.2) = ancestors fuel g parent /\ Forall event_failed s'.2).
Proof.
  intros Hstop Hsend Hrank Hf Hb. unfold Graph_broadcast, mbind', mlift in Hb. cbn [CHECK] in Hb.
  pose proof (broadcast_total send checkStopSignal Hstop fuel g rank parent q (w, []) Hsend Hrank Hf) as Ht.
  destruct (broadcast_events send checkStopSignal Hstop fuel g parent q (w, []) s' r Hb)
    as (new & Hn & Hpre & Hok & Herr).
  rewrite Hb in Ht. cbn [snd app] in *. subst new. split; [done|]. split; [done|]. split; [done|].
  intros e He. by destruct (Herr e He) as (_ & ? & ?).
Qed.

(** Node c is b's parent and b is a's; b does not answer. *)
Definition chain_graph : res (Graph * nat) :=
  P2P_Graph [(str "b", str "a"); (str "c", str "b")] (str "a") 1.

Definition chain_send (url : bytes) (q : Query) : meth unit bytes :=
  mlift (if bool_decide (url = str "c/q") then Ok (str "answer") else throwErr (str "no route")).

Lemma broadcast_asks_ancestors_witness :
  exists g w', chain_graph = Ok (g, 0%nat) /\
    Graph_broadcast chain_send (mret' tt) 3 true g 0 (str "q", []) (tt, []) = (w', Ok tt) /\
    w'.2 = [(str "b", [], Some (str "no route")); (str "c", str "answer", None)] /\
    (event_server <$> w'.2) `prefix_of` ancestors 3 g 0.
Proof.
  set (g := [mkElement (str "b") (Some 2%nat); mkElement (str "a") (Some 0%nat); mkElement (str "c") None]).
  set (ev := [(str "b", [], Some (str "no route")); (str "c", str "answer", None)] : list Event).
  exists g, (tt, ev). split; [vm_compute; reflexivity|].
  assert (Graph_broadcast chain_send (mret' tt) 3 true g 0 (str "q", []) (tt, []) = ((tt, ev), Ok tt)) as E
    by (vm_compute; reflexivity).
  split; [exact E|]. split; [reflexivity|].
  refine (proj1 (proj2 (broadcast_asks_ancestors chain_send (mret' tt) 3 g
    (fun i => match i with O => 1%nat | S O => 2%nat | _ => O end) 0 (str "q", []) tt _ _ _ _ _ _ E))).
  - intros w. by left.
  - intros url q w. unfold chain_send, mlift. by destruct (bool_decide _).
  - intros [|[|[|i]]] el p; cbn; intros [= <-] [= <-]; lia.
  - lia.
Defined.

(** A graph in which two nodes are each other's parent passes the constructor,
    and a broadcast that nobody answers goes round it for ever. *)
Lemma cyclic_graph_accepted :
  P2P_Graph [(str "b", str "a"); (str "a", str "b")] (str "a") 1 =
    Ok ([mkElement (str "b") (Some 1%nat); mkElement (str "a") (Some 0%nat)], 0%nat).
Proof. vm_compute. reflexivity. Qed.

Lemma cyclic_broadcast_endless fuel q :
  snd (Graph_broadcast (W := unit) (fun _ _ => mlift (throwErr (str "no route"))) (mret' tt) fuel true
    [mkElement (str "b") (Some 1%nat); mkElement (str "a") (Some 0%nat)] 0 q (tt, [])) = OutOfFuel.
Proof.
  unfold Graph_broadcast, mbind', mlift at 1. cbn [CHECK].
  apply (broadcast_endless _ _ fuel _ (fun i => (i < 2)%nat)); [|lia| |].
  - intros [|[|i]] Hi; [| |lia]; (eexists _, _; split; [reflexivity|]; split; [reflexivity|lia]).
  - intros url w. by eexists _, _.
  - intros w. by eexists.
Qed.
