(* ===== verification/LayerProps.v ===== *)
(** * What the layers without a graph promise

    The theorems about P2P_Ips.cpp: its downloads, its curl instances, and the
    last block it finds. *)
From S2P Require Import Prelude External MiniJson Instances P2P P2PFacts P2PSeq Graph P2PLayers P2PLayersFacts.
From S2P Require Import Dumps JsonApi GetNewBlocks GetNewBlocksFacts SampleNet.
#[local] Open Scope Z_scope.

(** C16. The downloads of P2P_Ips are exactly those of the segment machine over
    [countConnections] threads per server of the hint: the table of curl
    instances, filled in whatever order the threads come, adds no failure. *)
Theorem ips_downloads_exact servers countConnections ips hints parse replies :
  P2P_Ips servers countConnections = Ok ips -> hints ⊆+ servers ->
  (forall size precise makeQs r,
     Ips_request ips parse replies hints size precise makeQs r <->
     p2p_request (Ips_getServersList countConnections hints) parse replies size precise makeQs r) /\
  (forall n makeQs r,
     Ips_requests ips parse replies hints n makeQs r <->
     p2p_requests (Ips_getServersList countConnections hints) parse replies n makeQs r).
Proof.
  intros Hi Hh. split; intros; [by eapply Ips_request_eq|by eapply Ips_requests_eq].
Qed.

(** C17. A curl instance is never used by two threads of a download, nor by
    threads of two servers, and a thread uses one only: whatever threads make
    requests, in whatever order and how often, each finds an instance, the same
    each time, and no other thread's. *)
Theorem ips_threads_own_curls servers countConnections ips hints requestServers threads :
  P2P_Ips servers countConnections = Ok ips -> hints ⊆+ servers ->
  Ips_getServersList countConnections hints = Ok requestServers ->
  let taken := curls_taken ips requestServers threads ∅ in
  (forall t r, (t, r) ∈ taken -> exists c, r = Ok c) /\
  (forall t1 t2 c, (t1, Ok c) ∈ taken -> (t2, Ok c) ∈ taken -> t1 = t2) /\
  (forall t c1 c2, (t, Ok c1) ∈ taken -> (t, Ok c2) ∈ taken -> c1 = c2).
Proof.
  intros Hi Hh Hl taken. destruct (P2P_Ips_curls _ _ _ Hi) as (_ & Hn & _).
  destruct (enough_curls servers countConnections ips hints requestServers Hi Hh ltac:(by rewrite Hn))
    as [Hok He].
  destruct (curls_taken_ok ips requestServers threads ∅ He (dist_ok_empty _)) as (dist & Hd & _ & Hf).
  rewrite Forall_forall in Hf. split; [|split].
  - intros t r Hin. destruct (Hf _ Hin) as (c & Hc & _). by exists c.
  - intros t1 t2 c H1 H2. destruct (Hf _ H1) as (? & [= <-] & Ha1). destruct (Hf _ H2) as (? & [= <-] & Ha2).
    by eapply assigned_own.
  - intros t c1 c2 H1 H2. destruct (Hf _ H1) as (? & [= <-] & Ha1). destruct (Hf _ H2) as (? & [= <-] & Ha2).
    by eapply assigned_fun.
Qed.

(** C36. The last block over a list of servers does not depend on the order in
    which their threads run: it is the greatest number a reply gives, and the
    servers to load from are those that gave it. *)
Theorem last_block_any_order `{Rapidjson} {W : Type} `{P2PNet W} serve servers stop w w' r
    `{!IpsNet servers (fun url q reply => reply = serve url q) stop} :
  getLastBlock w = (w', Ok r) ->
  let counts := omap (server_count serve (str "get-count-blocks", js "{'id': 1}")) servers in
  lr_lastBlock r = (if bool_decide (counts = []) then None else Some (max_count counts)) /\
  (counts <> [] -> lr_servers r ≡ₚ best_servers counts).
Proof. intros Hl. by eapply getLastBlock_servers. Qed.

(** ** Concrete layers *)

(** Two connections to each of two servers. *)
Definition two_ips : res Ips := P2P_Ips [str "s1"; str "s2"] 2.

Lemma two_ips_ok : exists ips, two_ips = Ok ips.
Proof. vm_compute. by eexists. Qed.

Definition two_data : bytes := replicate 1000 Byte.x61 ++ replicate 500 Byte.x62.

Definition two_query (from to : Z) : res Query :=
  Ok (replicate (Z.to_nat from) Byte.x31, replicate (Z.to_nat to) Byte.x31).

Definition two_serve (srv : bytes) (q : Query) : res bytes :=
  Ok (slice (blen (fst q)) (blen (snd q)) two_data).

Definition two_parse (r : bytes) : res ResponseParse := Ok (mkResponseParse r None).

Lemma ips_downloads_exact_witness :
  exists ips, two_ips = Ok ips /\
    Ips_request ips two_parse (serve_replies two_serve) [str "s2"; str "s1"] 1500 true two_query (Ok two_data).
Proof.
  destruct two_ips_ok as [ips Hi]. exists ips. split; [exact Hi|].
  apply (ips_downloads_exact [str "s1"; str "s2"] 2 ips [str "s2"; str "s1"] two_parse (serve_replies two_serve) Hi).
  - apply submseteq_swap.
  - apply seq_request_run. vm_compute. reflexivity.
Defined.

(** The threads of a download of two servers, as they come. *)
Lemma ips_threads_own_curls_witness :
  exists ips requestServers, two_ips = Ok ips /\
    Ips_getServersList 2 [str "s1"; str "s2"] = Ok requestServers /\
    curls_taken ips requestServers [3; 0; 1; 3; 2]%nat ∅ = [(3, Ok 2); (0, Ok 0); (1, Ok 3); (3, Ok 2); (2, Ok 1)]%nat /\
    forall t1 t2 c, (t1, Ok c) ∈ curls_taken ips requestServers [3; 0; 1; 3; 2]%nat ∅ ->
      (t2, Ok c) ∈ curls_taken ips requestServers [3; 0; 1; 3; 2]%nat ∅ -> t1 = t2.
Proof.
  eexists _, _. split; [reflexivity|]. split; [reflexivity|]. split; [vm_compute; reflexivity|].
  apply (ips_threads_own_curls [str "s1"; str "s2"] 2 _ [str "s1"; str "s2"] _ [3; 0; 1; 3; 2]%nat eq_refl);
    reflexivity.
Defined.

(** Three servers, two of them with blocks; they are asked in the other order. *)
Definition count_serve (url : bytes) (q : Query) : res bytes :=
  if bool_decide (take 2 url = str "s1") then Ok (js "{'result':{'count_blocks':7}}")
  else if bool_decide (take 2 url = str "s2") then Ok (js "{'result':{'count_blocks':9}}")
  else throwErr (str "timeout").

Lemma count_serve_replies url q :
  (exists response, count_serve url q = Ok response) \/ exists e, count_serve url q = Throw (ExcCommon e).
Proof. unfold count_serve. repeat case_bool_decide; [left; by eexists..|right; by eexists]. Qed.

Definition count_net : P2PNet unit := {|
  net_broadcast q w := (w, asked_in_order count_serve q [str "s3"; str "s2"; str "s1"], Ok tt);
  net_runOneRequest _ _ := mlift (throwErr []);
  net_request _ _ _ _ _ := mlift (throwErr []);
  net_requests _ _ _ _ := mlift (throwErr []);
|}.

Lemma count_net_ips :
  @IpsNet unit count_net [str "s1"; str "s2"; str "s3"] (fun url q reply => reply = count_serve url q) (mret' tt).
Proof.
  split. intros q [] [] events r E.
  change ((tt, asked_in_order count_serve q [str "s3"; str "s2"; str "s1"], Ok tt) = (tt, events, r)) in E.
  apply pair_eq in E as [[_ <-]%pair_eq <-].
  apply (Ips_broadcast_in_order count_serve count_serve_replies).
  apply (Permutation_rev [str "s3"; str "s2"; str "s1"]).
Qed.

Lemma last_block_any_order_witness :
  exists w' r, @getLastBlock mini_json unit count_net tt = (w', Ok r) /\ lr_lastBlock r = Some 9.
Proof.
  exists tt, (mkLastBlockResponse [str "s2"] (Some 9) None).
  assert (@getLastBlock mini_json unit count_net tt = (tt, Ok (mkLastBlockResponse [str "s2"] (Some 9) None))) as E
    by (vm_compute; reflexivity).
  split; [exact E|].
  destruct (@last_block_any_order mini_json unit count_net count_serve _ _ tt tt _ count_net_ips E) as [Hl _].
  rewrite Hl. vm_compute. reflexivity.
Defined.
