(* ===== verification/TestNodes.v ===== *)
(** * TestP2PNodes.h, TestP2PNodes.cpp: testing other nodes

    The thread that sends strings of five sizes to the nodes of a file, checks
    the signatures of the answers, and reports each size to a server.  Random
    strings, the requests to the nodes, the report's delivery and the stop
    signal are parameters that change a world [W]; so is the value a
    default-initialised [milliseconds] (duration.h) has: none, undefined, when
    it is the standard library's. *)
From S2P Require Import Prelude Text External Ordered BlockchainUtils PrivateKey P2P P2PLayers.
#[local] Open Scope Z_scope.

Abbreviation NodesMap := (list (bytes * bytes)).

Section readers.
Context `{Support}.

(** [substr] to the end: a missing delimiter makes [foundDelim + 1] zero. *)
(* src: TestP2PNodes.cpp:30-35 readFileTestedNodes, while *)
Definition add_tested_node (nodes : NodesMap) (line : bytes) : res NodesMap :=
  let line := trim line in
  if is_empty line then Ok nodes
  else
    let foundDelim := string_find (str " ") line in
    key ← substr line 0 foundDelim;
    value ← substr line (u64 (foundDelim + 1)) u64_max;
    Ok (omap_emplace key value nodes).

(** A file that cannot be opened gives no line. *)
(* src: TestP2PNodes.cpp:25-39 readFileTestedNodes *)
Definition readFileTestedNodes (file : option bytes) : res NodesMap :=
  foldM add_tested_node [] (file_lines (default [] file)).

(* src: TestP2PNodes.cpp:48-54 TestP2PNodes::TestP2PNodes, for *)
Fixpoint erase_own (myIp : bytes) (nodes : NodesMap) : NodesMap :=
  match nodes with
  | [] => []
  | (key, value) :: rest =>
      if contains myIp key then erase_own myIp rest else (key, value) :: erase_own myIp rest
  end.

(* src: TestP2PNodes.h:33-50 TestP2PNodes *)
Record TestP2PNodes := mkTestP2PNodes {
  tn_privateKey : option Signer;
  tn_myIp : bytes;
  tn_resultServer : bytes;
  tn_defaultPortTorrent : Z;
  tn_workerTest : bool;
  tn_testedNodes : NodesMap;
}.

(* src: TestP2PNodes.cpp:41-57 TestP2PNodes::TestP2PNodes *)
Definition TestP2PNodes_new (file : option bytes) (myIp resultServer : bytes) (defaultPortTorrent : Z)
    : res TestP2PNodes :=
  testedNodes ← readFileTestedNodes file;
  Ok (mkTestP2PNodes None myIp resultServer defaultPortTorrent false (erase_own myIp testedNodes)).

(* src: TestP2PNodes.h:24-26 TestP2PNodes::setPrivateKey *)
Definition setPrivateKey (privKey : Signer) (t : TestP2PNodes) : TestP2PNodes :=
  mkTestP2PNodes (Some privKey) (tn_myIp t) (tn_resultServer t) (tn_defaultPortTorrent t)
    (tn_workerTest t) (tn_testedNodes t).

(* src: TestP2PNodes.cpp:269-272 TestP2PNodes::addWorkerTest *)
Definition addWorkerTest (t : TestP2PNodes) : TestP2PNodes :=
  mkTestP2PNodes (tn_privateKey t) (tn_myIp t) (tn_resultServer t) (tn_defaultPortTorrent t)
    true (tn_testedNodes t).

(** [map.emplace] over the nodes in order of their keys. *)
(* src: TestP2PNodes.cpp:132-134 transformMap, for *)
Fixpoint transformMap_loop (map : NodesMap) (defaultPortTorrent : Z) (result : NodesMap) : NodesMap :=
  match map with
  | [] => result
  | (key, value) :: rest =>
      transformMap_loop rest defaultPortTorrent (omap_emplace (addDefaultPort key defaultPortTorrent) value result)
  end.

(* src: TestP2PNodes.cpp:130-136 transformMap *)
Definition transformMap (map : NodesMap) (defaultPortTorrent : Z) : NodesMap :=
  transformMap_loop map defaultPortTorrent [].

End readers.

(** ** Results and reports *)

(* src: TestP2PNodes.cpp:72-84 TestResult *)
Record TestResult := mkTestResult {
  tr_time : option Z;
  tr_size : Z;
}.

(** [tf_time] is [UB] when it was never given a value. *)
(* src: TestP2PNodes.cpp:86-96 TestForSend *)
Record TestForSend := mkTestForSend {
  tf_fromAddress : bytes;
  tf_fromName : bytes;
  tf_toAddress : bytes;
  tf_toName : bytes;
  tf_sizeData : Z;
  tf_time : res Z;
  tf_isSuccess : bool;
  tf_sign : bytes;
  tf_pubkey : bytes;
}.

(* src: TestP2PNodes.cpp:98-100 TestForSend::messageFromSign *)
Definition messageFromSign (r : TestForSend) : res bytes :=
  time ← tf_time r;
  Ok (tf_fromAddress r ++ str ";" ++ tf_fromName r ++ str ";" ++ tf_toAddress r ++ str ";" ++ tf_toName r
      ++ str ";" ++ to_string (tf_sizeData r) ++ str ";" ++ to_string time ++ str ";"
      ++ to_string (if tf_isSuccess r then 1 else 0)).

(* src: TestP2PNodes.cpp:112-122 genTestsResultResponse, for *)
Definition result_text (r : TestForSend) : res bytes :=
  let q := quoted Byte.x27 in
  let plain s := str "'" ++ s ++ str "'" in
  time ← tf_time r;
  Ok (str "{" ++ str "'fromAddress': " ++ q (tf_fromAddress r) ++ str ","
      ++ str "'fromName': " ++ q (tf_fromName r) ++ str ","
      ++ str "'toAddress': " ++ q (tf_toAddress r) ++ str ","
      ++ str "'toName': " ++ q (tf_toName r) ++ str ","
      ++ str "'sizeData': " ++ plain (to_string (tf_sizeData r)) ++ str ","
      ++ str "'time': " ++ plain (to_string time) ++ str ","
      ++ str "'isSuccess': " ++ plain (to_string (if tf_isSuccess r then 1 else 0)) ++ str ","
      ++ str "'sign': " ++ plain (tf_sign r) ++ str ","
      ++ str "'pubkey': " ++ plain (tf_pubkey r) ++ str "}").

(* src: TestP2PNodes.cpp:106-125 genTestsResultResponse, loop *)
Fixpoint results_text (isFirst : bool) (testsResults : list TestForSend) : res bytes :=
  match testsResults with
  | [] => Ok []
  | r :: rest =>
      t ← result_text r;
      ts ← results_text false rest;
      Ok ((if isFirst then [] else str ",") ++ t ++ ts)
  end.

(* src: TestP2PNodes.cpp:103-128 genTestsResultResponse *)
Definition genTestsResultResponse (testsResults : list TestForSend) : res bytes :=
  ts ← results_text true testsResults;
  Ok (str "{'result': [" ++ ts ++ str "]}").

Abbreviation TestsResults := (list (bytes * list TestResult)).

(** [results[server].emplace_back(result)]. *)
Definition push_result (server : bytes) (r : TestResult) (results : TestsResults) : TestsResults :=
  omap_set server (default [] (omap_find server results) ++ [r]) results.

Section tests.
Context `{Support} `{Crypto} (isInitialized : bool) (milliseconds0 : res Z).

(* src: TestP2PNodes.cpp:145-161 sendTests, body *)
Definition result_for_send (privateKey : Signer) (myIp : bytes) (nodesForTest : NodesMap) (key : bytes)
    (r : TestResult) : res TestForSend :=
  let unsigned := mkTestForSend myIp (pk_get_address privateKey) key (default [] (omap_find key nodesForTest))
    (tr_size r) (match tr_time r with Some t => Ok t | None => milliseconds0 end)
    (bool_decide (is_Some (tr_time r))) [] (toHex (pk_public_key privateKey)) in
  toSign ← messageFromSign unsigned;
  sign ← makeTestResultSign toSign privateKey;
  Ok (mkTestForSend (tf_fromAddress unsigned) (tf_fromName unsigned) (tf_toAddress unsigned)
        (tf_toName unsigned) (tf_sizeData unsigned) (tf_time unsigned) (tf_isSuccess unsigned) sign
        (tf_pubkey unsigned)).

(* src: TestP2PNodes.cpp:141-164 sendTests, inner for *)
Fixpoint server_results (privateKey : Signer) (myIp : bytes) (nodesForTest : NodesMap) (size : Z) (key : bytes)
    (value : list TestResult) : res (list TestForSend) :=
  match value with
  | [] => Ok []
  | r :: rest =>
      if negb (tr_size r =? size) then server_results privateKey myIp nodesForTest size key rest
      else
        x ← result_for_send privateKey myIp nodesForTest key r;
        xs ← server_results privateKey myIp nodesForTest size key rest;
        Ok (x :: xs)
  end.

(* src: TestP2PNodes.cpp:139-165 sendTests, for *)
Fixpoint results_for_send (privateKey : Signer) (myIp : bytes) (nodesForTest : NodesMap) (size : Z)
    (results : TestsResults) : res (list TestForSend) :=
  match results with
  | [] => Ok []
  | (key, value) :: rest =>
      xs ← server_results privateKey myIp nodesForTest size key value;
      ys ← results_for_send privateKey myIp nodesForTest size rest;
      Ok (xs ++ ys)
  end.

(** The catch is for the program's own exception only. *)
(* src: TestP2PNodes.cpp:204-220 TestP2PNodes::work, for over results *)
Definition add_test (body : bytes) (sizeStr : Z) (testsResults : TestsResults) (res : SendOneResult)
    : Prelude.res TestsResults :=
  match rp_error (so_response res) with
  | None =>
      isSuccess ← try_catch (_ ← checkSignatureTest isInitialized body (rp_response (so_response res)); Ok true)
                    (fun _ => Ok false);
      Ok (push_result (so_server res)
            (mkTestResult (if isSuccess : bool then Some (so_time res) else None) sizeStr) testsResults)
  | Some _ => Ok (push_result (so_server res) (mkTestResult None sizeStr) testsResults)
  end.

(* src: TestP2PNodes.cpp:198-198 TestP2PNodes::work, tests *)
Definition tests : list Z := [1 * 1024; 2 * 1024; 4 * 1024; 8 * 1024; 16 * 1024].

(** The inner accumulation; the sums are kept in an [int]. *)
(* src: TestP2PNodes.cpp:231-233 TestP2PNodes::work, countAnswers *)
Definition count_answers (results : list TestResult) : Z :=
  u64 (foldl (fun prev r => to_i32 (u64 (prev + (if bool_decide (is_Some (tr_time r)) then 1 else 0)))) 0 results).

(* src: TestP2PNodes.cpp:230-241 TestP2PNodes::work, lifeServers, completeServers *)
Definition count_servers (P : Z -> bool) (testsResults : TestsResults) : Z :=
  u64 (foldl (fun prev p => to_i32 (u64 (prev + (if P (count_answers (snd p)) then 1 else 0)))) 0 testsResults).

Context {W : Type}.
Variable requestAll : Query -> list bytes -> meth W SendAllResult.
Variable makeRandomString : Z -> meth W bytes.
Variable libevent_request : bytes -> bytes -> meth W bytes.
Variable checkStopSignal : meth W unit.

(* src: TestP2PNodes.cpp:138-171 sendTests *)
Definition sendTests (results : TestsResults) (privateKey : Signer) (myIp : bytes) (nodesForTest : NodesMap)
    (resultServer : bytes) (size : Z) : meth W unit :=
  (let* resultsForSend := mlift (results_for_send privateKey myIp nodesForTest size results) in
   let* toSend := mlift (genTestsResultResponse resultsForSend) in
   let* _ := libevent_request resultServer toSend in
   mret' tt)%meth.

(* src: TestP2PNodes.cpp:199-226 TestP2PNodes::work, for over tests *)
Fixpoint tests_loop (t : TestP2PNodes) (nodesForTest : NodesMap) (nodesForTestSet : list bytes)
    (tests : list Z) (testsResults : TestsResults) : meth W TestsResults :=
  match tests with
  | [] => mret' testsResults
  | sizeStr :: rest =>
      (let* body := makeRandomString sizeStr in
       let* testResult := requestAll (str "sign-test-string", body) nodesForTestSet in
       let* testsResults := mlift (foldM (add_test body sizeStr) testsResults (sa_results testResult)) in
       let* privateKey := mlift (match tn_privateKey t with
                                 | Some k => Ok k
                                 | None => throwErr (str "Private key not setted")
                                 end) in
       do* sendTests testsResults privateKey (tn_myIp t) nodesForTest (tn_resultServer t) sizeStr in
       do* checkStopSignal in
       tests_loop t nodesForTest nodesForTestSet rest testsResults)%meth
  end.

(** One round of the thread, up to its sleep: the results, and the numbers of
    all servers, of those with an answer and of those with all. *)
(* src: TestP2PNodes.cpp:177-243 TestP2PNodes::work *)
Definition test_round (p2p : bool) (t : TestP2PNodes) : meth W (TestsResults * (Z * Z * Z)) :=
  (do* mlift (CHECK p2p (str "P2P not set")) in
   do* mlift (CHECK (tn_workerTest t) (str "Worker test not setted")) in
   let nodesForTest := transformMap (tn_testedNodes t) (tn_defaultPortTorrent t) in
   let nodesForTestSet := oset_of_list nodesForTest.*1 in
   let* testsResults := tests_loop t nodesForTest nodesForTestSet tests [] in
   let allServers := blen testsResults in
   let lifeServers := count_servers (fun n => 0 <? n) testsResults in
   let completeServers := count_servers (fun n => n =? blen tests) testsResults in
   mret' (testsResults, (allServers, lifeServers, completeServers)))%meth.

(** [common::sleep] of so many seconds: it ends early with a [StopException]. *)
Variable sleep : Z -> meth W unit.

(** A turn of the thread: a round and its hour of rest.  Any exception but the
    stop signal is logged and followed by a rest of its own, outside the [try];
    [false] is the end of the thread. *)
(* src: TestP2PNodes.cpp:173-261 TestP2PNodes::work *)
Definition test_turn (p2p : bool) (t : TestP2PNodes) : meth W bool := fun w =>
  match (let* _ := test_round p2p t in sleep 3600)%meth w with
  | (w, Ok _) => (w, Ok true)
  | (w, Throw ExcStop) => (w, Ok false)
  | (w, Throw _) => (do* sleep 3 in mret' true)%meth w
  | (w, UB) => (w, UB)
  | (w, OutOfFuel) => (w, OutOfFuel)
  end.

(* src: TestP2PNodes.cpp:173-261 TestP2PNodes::work, while *)
Fixpoint test_turns (turns : nat) (p2p : bool) (t : TestP2PNodes) : meth W bool :=
  match turns with
  | O => mret' true
  | S turns =>
      (let* isContinue := test_turn p2p t in
       if isContinue : bool then test_turns turns p2p t else mret' false)%meth
  end.

(** The thread runs only when there is a server to report to. *)
(* src: TestP2PNodes.cpp:263-267 TestP2PNodes::start *)
Definition tests_started (t : TestP2PNodes) : bool := negb (is_empty (tn_resultServer t)).

End tests.
