(* ===== verification/TestNodesFacts.v ===== *)
(** * Testing other nodes: facts

    What a round of tests records: for every node one result per size, in the
    order of the sizes; and what it reports. *)
From S2P Require Import Prelude Text External Ordered BlockchainUtils PrivateKey P2P P2PLayers P2PLayersFacts TestNodes.
#[local] Open Scope Z_scope.

(** ** The nodes *)

Lemma omap_emplace_keys {V} k (v : V) l : (omap_emplace k v l).*1 = oset_insert k l.*1.
Proof.
  induction l as [|[k1 v1] l IH]; csimpl; [done|].
  destruct (bytes_lt k k1) eqn:E1; [done|].
  destruct (bytes_lt k1 k) eqn:E2; csimpl; [by rewrite IH|done].
Qed.

Lemma transformMap_loop_keys map port result :
  osorted result.*1 ->
  osorted (transformMap_loop map port result).*1 /\
  forall k, k ∈ (transformMap_loop map port result).*1 <->
    k ∈ result.*1 \/ exists h, h ∈ map.*1 /\ k = addDefaultPort h port.
Proof.
  revert result. induction map as [|[key value] map IH]; intros result Hs; cbn [transformMap_loop].
  { split; [done|]. intros k. split; [by left|]. intros [Hk|(h & Hh & _)]; [done|]. by apply elem_of_nil in Hh. }
  destruct (IH (omap_emplace (addDefaultPort key port) value result)) as [Hs' Hk].
  { rewrite omap_emplace_keys. by apply oset_insert_sorted. }
  split; [done|]. intros k. rewrite Hk, omap_emplace_keys, oset_insert_elem. csimpl.
  setoid_rewrite elem_of_cons. naive_solver.
Qed.

Lemma oset_of_list_id l : osorted l -> oset_of_list l = l.
Proof.
  unfold oset_of_list. induction l as [|x l IH] using rev_ind; [done|]. intros Hs.
  rewrite foldl_app. cbn. rewrite IH; [by apply oset_insert_last, (osorted_app_inv l x [])|].
  clear IH. induction l as [|y l IH]; [done|]. destruct Hs as [Hf Hs]. split; [|by apply IH].
  by apply Forall_app in Hf as [Hf _].
Qed.

(** The nodes asked are the keys, already in the set's order. *)
Lemma transformMap_keys map port :
  let nodes := transformMap map port in
  osorted nodes.*1 /\ oset_of_list nodes.*1 = nodes.*1 /\ (nodes = [] <-> map = []).
Proof.
  cbn zeta. unfold transformMap. destruct (transformMap_loop_keys map port [] I) as [Hs Hk].
  split; [done|]. split; [by apply oset_of_list_id|]. split; [|by intros ->].
  intros Hn. rewrite Hn in Hk. destruct map as [|[h v] map]; [done|].
  specialize (Hk (addDefaultPort h port)). cbn in Hk.
  assert (addDefaultPort h port ∈ @nil bytes) as []%elem_of_nil.
  apply Hk. right. exists h. split; [by left|done].
Qed.

(** ** Results *)

Definition results_of (k : bytes) (results : TestsResults) : list TestResult :=
  default [] (omap_find k results).

Lemma push_results_of k server r results :
  results_of k (push_result server r results) =
    results_of k results ++ if decide (server = k) then [r] else [].
Proof.
  unfold results_of, push_result. rewrite omap_find_set. case_decide as Hk; [by subst|]. by rewrite app_nil_r.
Qed.

Section results.
Context `{Support} `{Crypto} `{!KeyFormats}.

(** What becomes of one answer: without a key that is both kinds at once, a
    failed test. *)
Lemma add_test_ok body size results res results' :
  add_test true body size results res = Ok results' ->
  results' = push_result (so_server res) (mkTestResult None size) results.
Proof.
  unfold add_test. destruct (rp_error (so_response res)) as [e|]; [by intros [= <-]|].
  pose proof (checkSignatureTest_never body (rp_response (so_response res))) as Hn.
  destruct (checkSignatureTest true body _) as [|[]| |]; try done. cbn. by intros [= <-].
Qed.

(** After the answers of all servers: one more failed test for each of them. *)
Lemma add_tests_ok body size l results results' :
  foldM (add_test true body size) results l = Ok results' ->
  osorted results.*1 -> NoDup (so_server <$> l) ->
  osorted results'.*1 /\
  (forall k, k ∈ results'.*1 <-> k ∈ results.*1 \/ k ∈ so_server <$> l) /\
  forall k, results_of k results' =
    results_of k results ++ if decide (k ∈ so_server <$> l) then [mkTestResult None size] else [].
Proof.
  revert results. induction l as [|res l IH]; intros results; cbn [foldM].
  { intros [= <-] Hs _. split; [done|]. split; [intros k; split; [by left|intros [Hk|Hk]; [done|by apply elem_of_nil in Hk]]|].
    intros k. case_decide as Hx; [by apply elem_of_nil in Hx|by rewrite app_nil_r]. }
  intros Hf Hs Hnd. apply bind_Ok_inv in Hf as (results1 & Ha & Hf). apply add_test_ok in Ha as ->.
  csimpl. apply NoDup_cons in Hnd as [Hn Hnd]. destruct (IH _ Hf) as (Hs' & Hk & Hr); [|done|].
  { unfold push_result. by apply omap_set_sorted. }
  split; [done|]. split.
  - intros k. rewrite Hk. unfold push_result. rewrite omap_set_keys, oset_insert_elem, elem_of_cons. tauto.
  - intros k. rewrite Hr, push_results_of, <- app_assoc. f_equal. destruct (decide (so_server res = k)) as [<-|Hne].
    + rewrite decide_False by done. rewrite decide_True by (by left). done.
    + cbn [app]. destruct (decide (k ∈ so_server <$> l)).
      * by rewrite decide_True by (by right).
      * rewrite decide_False; [done|]. by intros [->|]%elem_of_cons.
Qed.

(** A node that failed the test of every size. *)
Definition failed (sizes : list Z) : list TestResult := mkTestResult None <$> sizes.

(** The table after the tests of [sizes], none of them passed. *)
Definition failed_all (servers : list bytes) (sizes : list Z) : TestsResults :=
  if bool_decide (sizes = []) then [] else (fun k => (k, failed sizes)) <$> servers.

Lemma results_of_failed servers sizes k :
  results_of k (failed_all servers sizes) = if decide (k ∈ servers) then failed sizes else [].
Proof.
  unfold failed_all, results_of. case_bool_decide as Hs; [subst; by case_decide|].
  induction servers as [|s servers IH]; [done|].
  change (default [] (omap_find k ((s, failed sizes) :: ((fun k => (k, failed sizes)) <$> servers))) =
    if decide (k ∈ s :: servers) then failed sizes else []). cbn [omap_find].
  destruct (decide (s = k)) as [->|Hne].
  - rewrite decide_True by (by left). done.
  - rewrite IH. destruct (decide (k ∈ servers)); [rewrite decide_True by (by right); done|].
    rewrite decide_False; [done|]. by intros [->|]%elem_of_cons.
Qed.

(** Two tables with the same nodes and the same results are one. *)
Lemma results_ext (r1 r2 : TestsResults) :
  osorted r1.*1 -> osorted r2.*1 -> (forall k, k ∈ r1.*1 <-> k ∈ r2.*1) ->
  (forall k, results_of k r1 = results_of k r2) -> r1 = r2.
Proof.
  revert r2. induction r1 as [|[k1 v1] r1 IH]; intros [|[k2 v2] r2]; csimpl; intros Hs1 Hs2 Hk Hr.
  - done.
  - destruct (Hk k2) as [_ Hx]. by specialize (Hx ltac:(by left)); apply elem_of_nil in Hx.
  - destruct (Hk k1) as [Hx _]. by specialize (Hx ltac:(by left)); apply elem_of_nil in Hx.
  - destruct Hs1 as [Hf1 Hs1], Hs2 as [Hf2 Hs2]. rewrite Forall_forall in Hf1, Hf2.
    assert (k1 = k2) as <-.
    { pose proof (proj1 (Hk k1) ltac:(by left)) as [Heq|Hin]%elem_of_cons; [done|].
      pose proof (proj2 (Hk k2) ltac:(by left)) as [Heq|Hin']%elem_of_cons; [done|].
      specialize (Hf2 _ Hin). specialize (Hf1 _ Hin'). by rewrite (bytes_lt_asym _ _ Hf1) in Hf2. }
    assert (forall r : TestsResults, (forall y, y ∈ r.*1 -> bytes_lt k1 y = true) -> omap_find k1 r = None) as Hout.
    { intros r Hr'. apply omap_find_None. intros Hin. apply Hr' in Hin. by rewrite bytes_lt_irrefl in Hin. }
    f_equal.
    + specialize (Hr k1). unfold results_of in Hr. cbn in Hr. rewrite !decide_True in Hr by done. cbn in Hr. by rewrite Hr.
    + apply IH; [done|done|..].
      * intros k. specialize (Hk k). rewrite !elem_of_cons in Hk. destruct (decide (k = k1)) as [->|Hne]; [|tauto].
        split; intros Hin; exfalso; [specialize (Hf1 _ Hin)|specialize (Hf2 _ Hin)];
          by rewrite bytes_lt_irrefl in *.
      * intros k. specialize (Hr k). unfold results_of in *. cbn in Hr. case_decide as Hne; [|done].
        subst k. by rewrite !Hout.
Qed.

Lemma failed_all_keys servers sizes k :
  k ∈ (failed_all servers sizes).*1 <-> sizes <> [] /\ k ∈ servers.
Proof.
  unfold failed_all. case_bool_decide as Hs; [cbn; rewrite elem_of_nil; tauto|].
  rewrite <- list_fmap_compose. cbn. rewrite list_fmap_id. tauto.
Qed.

Lemma failed_all_sorted servers sizes : osorted servers -> osorted (failed_all servers sizes).*1.
Proof.
  unfold failed_all. case_bool_decide; [done|]. rewrite <- list_fmap_compose. cbn. by rewrite list_fmap_id.
Qed.

(** The tests of one size, whatever was answered. *)
Lemma one_size_ok body size l sizes servers results' :
  osorted servers -> so_server <$> l ≡ₚ servers ->
  foldM (add_test true body size) (failed_all servers sizes) l = Ok results' ->
  results' = failed_all servers (sizes ++ [size]).
Proof.
  intros Hs Hp Hf. pose proof (osorted_NoDup _ Hs) as Hnd.
  destruct (add_tests_ok _ _ _ _ _ Hf) as (Hs' & Hk & Hr).
  { by apply failed_all_sorted. } { by rewrite Hp. }
  apply results_ext; [done|by apply failed_all_sorted|..].
  - intros k. rewrite Hk, !failed_all_keys, Hp. split; [intros [[]|]|intros []]; try tauto;
      (split; [by destruct sizes|done]).
  - intros k. rewrite Hr, !results_of_failed. assert (k ∈ so_server <$> l <-> k ∈ servers) as Hin by (by rewrite Hp).
    unfold failed. rewrite fmap_app. cbn [fmap list_fmap]. repeat case_decide; tauto || done.
Qed.

End results.

(** ** A round *)

Lemma count_answers_failed sizes : count_answers (failed sizes) = 0.
Proof.
  unfold count_answers, failed. enough (foldl (fun prev r => to_i32 (u64 (prev +
    (if bool_decide (is_Some (tr_time r)) then 1 else 0)))) 0 (mkTestResult None <$> sizes) = 0) as -> by done.
  induction sizes as [|size sizes IH]; [done|]. cbn [fmap list_fmap foldl tr_time]. exact IH.
Qed.

Lemma count_servers_failed P servers sizes : P 0 = false -> count_servers P (failed_all servers sizes) = 0.
Proof.
  intros HP. unfold count_servers, failed_all. case_bool_decide; [done|].
  enough (forall l, foldl (fun prev p => to_i32 (u64 (prev + (if P (count_answers p.2) then 1 else 0)))) 0
    ((fun k : bytes => (k, failed sizes)) <$> l) = 0) as Hl by (by rewrite Hl).
  induction l as [|k l IH]; [done|]. cbn [fmap list_fmap foldl snd]. rewrite count_answers_failed, HP. exact IH.
Qed.

Section round.
Context `{Support} `{Crypto} `{!KeyFormats} (milliseconds0 : res Z).
Context {W : Type}.
Variable requestAll : Query -> list bytes -> meth W SendAllResult.
Variable makeRandomString : Z -> meth W bytes.
Variable libevent_request : bytes -> bytes -> meth W bytes.
Variable checkStopSignal : meth W unit.

(** What the layers promise: every server has one result. *)
Hypothesis HrequestAll : forall q servers w w' r,
  requestAll q servers w = (w', Ok r) -> so_server <$> sa_results r ≡ₚ servers.

(** A report on failed tests reads their times. *)
Lemma server_results_failed key myIp nodes size k sizes xs :
  size ∈ sizes -> server_results milliseconds0 key myIp nodes size k (failed sizes) = Ok xs -> is_ok milliseconds0 = true.
Proof.
  induction sizes as [|s sizes IH]; [by intros ?%elem_of_nil|]. intros Hin. cbn [failed fmap list_fmap server_results tr_size].
  destruct (Z.eqb_spec s size) as [->|Hne]; cbn [negb].
  - intros Hs. apply bind_Ok_inv in Hs as (x & Hx & _). unfold result_for_send in Hx.
    apply bind_Ok_inv in Hx as (m & Hm & _). unfold messageFromSign in Hm. cbn [tf_time tr_time] in Hm.
    by apply bind_Ok_inv in Hm as (z & -> & _).
  - apply elem_of_cons in Hin as [->|Hin]; [done|]. by apply IH.
Qed.

Lemma results_for_send_failed key myIp nodes size servers sizes xs :
  size ∈ sizes -> results_for_send milliseconds0 key myIp nodes size (failed_all servers sizes) = Ok xs ->
  servers = [] \/ is_ok milliseconds0 = true.
Proof.
  intros Hin. unfold failed_all. rewrite bool_decide_false by (intros ->; by apply elem_of_nil in Hin).
  destruct servers as [|k servers]; [by left|]. cbn [fmap list_fmap results_for_send]. intros Hr. right.
  apply bind_Ok_inv in Hr as (x & Hx & _). by eapply server_results_failed.
Qed.

Lemma tests_loop_ok t nodes servers sizes done_ w w' results :
  osorted servers ->
  tests_loop true milliseconds0 requestAll makeRandomString libevent_request checkStopSignal t nodes servers
    sizes (failed_all servers done_) w = (w', Ok results) ->
  results = failed_all servers (done_ ++ sizes) /\ (sizes <> [] -> servers = [] \/ is_ok milliseconds0 = true).
Proof.
  intros Hs. revert done_ w. induction sizes as [|size sizes IH]; intros done_ w; cbn [tests_loop].
  { intros [= _ <-]. by rewrite app_nil_r. }
  intros Hl. apply mbind_Ok_inv in Hl as (w1 & body & _ & Hl). apply mbind_Ok_inv in Hl as (w2 & result & Hreq & Hl).
  apply mbind_Ok_inv in Hl as (w3 & results1 & Hf & Hl). apply mlift_Ok_inv in Hf as [-> Hf].
  apply (one_size_ok _ _ _ _ servers) in Hf as ->; [|done|by eapply HrequestAll].
  apply mbind_Ok_inv in Hl as (w4 & key & _ & Hl). apply mbind_Ok_inv in Hl as (w5 & u & Hsend & Hl).
  apply mbind_Ok_inv in Hl as (w6 & u' & _ & Hl). apply IH in Hl as [-> _].
  split; [by rewrite <- app_assoc|]. intros _. unfold sendTests in Hsend.
  apply mbind_Ok_inv in Hsend as (w7 & xs & Hx & _). apply mlift_Ok_inv in Hx as [_ Hx].
  eapply results_for_send_failed; [|exact Hx]. apply elem_of_app. right. by left.
Qed.

Lemma test_round_ok p2p t w w' results all life complete :
  test_round true milliseconds0 requestAll makeRandomString libevent_request checkStopSignal p2p t w =
    (w', Ok (results, (all, life, complete))) ->
  let nodes := (transformMap (tn_testedNodes t) (tn_defaultPortTorrent t)).*1 in
  results = failed_all nodes tests /\ all = blen nodes /\ life = 0 /\ complete = 0 /\
  (tn_testedNodes t = [] \/ is_ok milliseconds0 = true).
Proof.
  intros Hr nodes. unfold test_round in Hr. apply mbind_Ok_inv in Hr as (w1 & u1 & _ & Hr).
  apply mbind_Ok_inv in Hr as (w2 & u2 & _ & Hr). cbn zeta in Hr.
  destruct (transformMap_keys (tn_testedNodes t) (tn_defaultPortTorrent t)) as (Hs & Hset & Hnil).
  apply mbind_Ok_inv in Hr as (w3 & rs & Hl & Hr). rewrite Hset in Hl. fold nodes in Hl, Hs.
  change (@nil (bytes * list TestResult)) with (failed_all nodes []) in Hl.
  apply tests_loop_ok in Hl as [-> Hub]; [|done]. cbn [app] in Hr. injection Hr as _ <- <- <- <-.
  split; [done|]. rewrite !count_servers_failed by done. split; [|split; [done|split; [done|]]].
  - unfold failed_all. rewrite bool_decide_false by done. unfold blen. by rewrite length_fmap.
  - destruct (Hub ltac:(done)) as [Hn|Hm]; [left|by right]. apply Hnil.
    by destruct (transformMap _ _).
Qed.

End round.
