(* ===== verification/TestProps.v ===== *)
(** * What the tests of other nodes record

    The theorem about TestP2PNodes.cpp, and a round evaluated. *)
From S2P Require Import Prelude Text External Instances Ordered BlockchainUtils PrivateKey P2P P2PLayers P2PLayersFacts.
From S2P Require Import TestNodes TestNodesFacts.
#[local] Open Scope Z_scope.

(** C22. A round of tests that ends recorded a failure of every size for every
    node, whatever the nodes answered: the check of an answer asks for a public
    key in the two formats at once.  No server counts as alive or complete; and
    when a new [milliseconds] has no value, as the standard library's has not,
    such a round had no node to test, for the report of a failed test reads it. *)
Theorem test_round_exact `{Support} `{Crypto} `{!KeyFormats} milliseconds0 {W : Type}
    (curl : bytes -> Query -> res bytes -> Prop) requestAll makeRandomString libevent_request checkStopSignal
    p2p t (w w' : W) results all life complete :
  (forall q servers w w' r, requestAll q servers w = (w', Ok r) -> Ips_requestAll curl q servers r) ->
  test_round true milliseconds0 requestAll makeRandomString libevent_request checkStopSignal p2p t w =
    (w', Ok (results, (all, life, complete))) ->
  let nodes := (transformMap (tn_testedNodes t) (tn_defaultPortTorrent t)).*1 in
  results = (fun k => (k, mkTestResult None <$> tests)) <$> nodes /\
  all = blen nodes /\ life = 0 /\ complete = 0 /\
  (milliseconds0 = UB -> tn_testedNodes t = []).
Proof.
  intros Hall Hr nodes.
  destruct (test_round_ok milliseconds0 requestAll makeRandomString libevent_request checkStopSignal
    ltac:(intros q servers w1 w2 r Hq; by apply Hall, process_all_spec in Hq as [Hp _])
    p2p t w w' results all life complete Hr) as (-> & -> & -> & -> & Hn).
  split; [done|]. split; [done|]. split; [done|]. split; [done|]. intros ->. by destruct Hn.
Qed.

(** ** A concrete round

    Two nodes of a file, the third line being this node; one answers, one does
    not; a new [milliseconds] is zero. *)
Definition two_nodes_file : bytes :=
  str "10.0.0.2 two" ++ [Byte.x0a] ++ str "10.0.0.1:5797 one" ++ [Byte.x0a] ++ str "10.0.0.9 me".

Definition plain_signer : Signer := mkSigner (fun _ => Ok (str "sign")) (str "key") (str "0xaddr").

Definition two_nodes : TestP2PNodes :=
  match @TestP2PNodes_new hex_support (Some two_nodes_file) (str "10.0.0.9") (str "result") 5795 with
  | Ok t => addWorkerTest (setPrivateKey plain_signer t)
  | _ => mkTestP2PNodes None [] [] 0 false []
  end.

Example two_nodes_read :
  transformMap (tn_testedNodes two_nodes) 5795 =
    [(str "10.0.0.1:5797", str "one"); (str "10.0.0.2:5795", str "two")].
Proof. vm_compute. reflexivity. Qed.

Definition half_serve (url : bytes) (q : Query) : res bytes :=
  if contains (str "10.0.0.1") url then Ok (str "answer") else throwErr (str "timeout").

(** Each server once, the last first. *)
Definition half_all (q : Query) (servers : list bytes) : meth unit SendAllResult :=
  mlift (mret mkSendAllResult ≫= fun f => f <$> foldM (fun l server =>
    r ← one_result server (url ← make_url server q.1; half_serve url q) 7; Ok (l ++ [r])) [] (rev servers)).

Definition half_round : unit * res (TestsResults * (Z * Z * Z)) :=
  @test_round hex_support copy_crypto true (Ok 0) unit half_all (fun n => mret' (replicate (Z.to_nat n) Byte.x61))
    (fun _ _ => mret' []) (mret' tt) true two_nodes tt.

Lemma half_all_runs q servers r :
  half_all q servers tt = (tt, Ok r) -> Ips_requestAll (fun url q reply => reply = half_serve url q) q servers r.
Proof.
  unfold half_all, mlift. cbn [mret res_ret mbind res_bind]. intros [= Hr].
  destruct (foldM _ [] (rev servers)) as [l| | |] eqn:Hf; try done. injection Hr as <-. constructor.
  assert (forall order acc l, foldM (fun l server => r ← one_result server
    (url ← make_url server q.1; half_serve url q) 7; Ok (l ++ [r])) acc order = Ok l ->
    forall s, order ≡ₚ s -> rtc (all_step (fun url q reply => reply = half_serve url q) q) (s, acc) ([], l)) as Hx.
  { clear. induction order as [|server order IH]; intros acc l; cbn [foldM].
    { intros [= <-] s Hs. by apply Permutation_nil_l in Hs as <-. }
    intros Hf s Hs. apply bind_Ok_inv in Hf as (acc1 & H1 & Hf). apply bind_Ok_inv in H1 as (r & Hr & [= <-]).
    destruct (Permutation_cons_inv_l _ _ _ Hs) as (before & after & -> & Hp).
    eapply rtc_l; [|by apply (IH _ _ Hf)]. eapply all_step_one; [|exact Hr].
    unfold layer_reply. by destruct (make_url server q.1). }
  apply (Hx _ _ _ Hf). symmetry. apply Permutation_rev.
Qed.

Lemma test_round_exact_witness :
  exists results, half_round = (tt, Ok (results, (2, 0, 0))) /\
    results.*1 = [str "10.0.0.1:5797"; str "10.0.0.2:5795"].
Proof.
  assert (exists results, half_round = (tt, Ok (results, (2, 0, 0)))) as [results E]
    by (eexists; vm_compute; reflexivity).
  exists results. split; [exact E|].
  destruct (@test_round_exact hex_support copy_crypto copy_key_formats (Ok 0) unit
    (fun url q reply => reply = half_serve url q) half_all (fun n => mret' (replicate (Z.to_nat n) Byte.x61))
    (fun _ _ => mret' []) (mret' tt) true two_nodes tt tt results 2 0 0
    ltac:(intros q servers [] [] r Hr; exact (half_all_runs q servers r Hr)) E) as (-> & _).
  reflexivity.
Defined.
