(* ===== verification/ServerProps.v ===== *)
(** * What the HTTP interface and the block files promise

    The theorems about Server.cpp with generate_json.cpp, and about
    BlockSource/FileBlockSource.cpp with utils/FileSystem.cpp. *)
From S2P Require Import Prelude External MiniJson Instances BlockInfo BlockChainInterface BlockChain BlockChainFacts.
From S2P Require Import ChainProps BlockchainRead Dumps P2P JsonApi GetNewBlocks Server ServerFacts ClientServer.
From S2P Require Import FileSource FileSourceFacts.
#[local] Open Scope Z_scope.

(** ** A sample server: a chain of one block *)

Definition served_header : BlockHeader := sample_header (str "h1") GENESIS_BLOCK_HASH.
Definition served_chain : BlockChain := append_block BlockChain_new served_header.

Lemma served_chain_ok : settled served_chain.
Proof. apply settled_append; [apply settled_new|by vm_compute|by vm_compute]. Qed.

Definition served_block : BlockHeader := set_bh_blockNumber (Some 1) served_header.

Lemma served_block_1 : getBlock_by_number 1 served_chain = Ok served_block.
Proof. by vm_compute. Qed.

Lemma served_sendable : sendable served_block 1.
Proof. unfold sendable. repeat split; try done; cbn; lia. Qed.

(** ** A node asking a node *)

Section server.
Context `{Rapidjson} `{Support} `{Lz4} {C : Type} `{BlockChainReadLaws C}.
Variable blockchain : C.
Variable sync_getBlockDump : BlockHeader -> Z -> Z -> bool -> bool -> res bytes.
Variable sync_verifyTechnicalAddressSign : bytes -> bytes -> bytes -> res bool.
Variables (VERSION g_GIT_SHA1 serverPrivKey : bytes).
Variables (nowTimestamp : Z) (getTotalSystemMemory getOpenedConnections : res Z).

#[local] Abbreviation handle := (handle blockchain sync_getBlockDump sync_verifyTechnicalAddressSign VERSION
  g_GIT_SHA1 serverPrivKey nowTimestamp getTotalSystemMemory getOpenedConnections).

(** rapidjson reads the answer that carries [v] back. *)
Definition answer_reads_back (v : json) : Prop :=
  reads_back (JObject (addIdToResponse id_one [] ++ [(str "result", v)])).

(** The document of an error answer. *)
Definition error_document (message : bytes) : json :=
  JObject (addIdToResponse id_one [] ++
    [(str "error", JObject [(str "code", JInt (-32603)); (str "message", JString message)])]).

(** C14. A node that asks another for the header of block [n] gets, through the
    request it writes, the other's handler and its own reader, the number, size,
    hash, parent and file of block [n] of the other's chain; for a block the chain
    does not have it gets an error, never another block. *)
Theorem client_reads_server_block n stat :
  chain_ok blockchain -> 0 < n < 2 ^ 63 -> reads_block_request n ->
  (forall bh, n <= countBlocks_ blockchain -> getBlock_by_number n blockchain = Ok bh -> sendable bh n ->
     (forall v, blockHeaderToJson_value bh ForP2P V1 = Ok v -> answer_reads_back v) ->
     exists text, handle (http_request (qs_block_by_number n)) stat = Ok (mkResponse text HTTP_STATUS_OK) /\
       parseBlockHeader text = Ok (min_header bh n)) /\
  (countBlocks_ blockchain < n -> reads_back (error_document (str "block " ++ to_string n ++ str " not found")) ->
     exists text e, handle (http_request (qs_block_by_number n)) stat = Ok (mkResponse text HTTP_STATUS_OK) /\
       parseBlockHeader text = throwErr e).
Proof.
  intros Hc Hn Hq. split.
  - intros bh Hle Hb Hs Hr.
    edestruct (server_block_answer blockchain) as (text & Hh & Ht); [done| | |exact Hq|exact Hb|exact Hs|]; [lia|lia|].
    exists text. split; [exact Hh|]. by eapply blockHeader_answer_read.
  - intros Hgt Hr. rewrite server_block_unknown by (done || lia).
    destruct (error_answer_refused id_one (-32603) (str "block " ++ to_string n ++ str " not found") Hr) as [e He].
    by eexists _, e.
Qed.

(** The same for a range: the answer to a request for [n] blocks from [b] on,
    all of which the chain has, is read back as exactly those blocks, in order. *)
Theorem client_reads_server_range b n hs stat :
  chain_ok blockchain -> 0 < b < 2 ^ 31 -> 0 < n <= 1000 -> b + n - 1 <= countBlocks_ blockchain ->
  countBlocks_ blockchain < 2 ^ 63 -> reads_blocks_request b n ->
  headers_of blockchain (seqZ b n) hs -> Forall2 sendable hs (seqZ b n) ->
  (forall vs, blockHeaders_values hs ForP2P V1 = Ok (Some vs) -> answer_reads_back (JArray vs)) ->
  exists text, handle (http_request (qs_blocks b n)) stat = Ok (mkResponse text HTTP_STATUS_OK) /\
    parseBlocksHeader text = Ok (zip_with min_header hs (seqZ b n)).
Proof.
  intros Hc Hb Hn Hle H63 Hq Hh Hs Hr.
  edestruct (server_blocks_answer blockchain) as (text & Ha & Ht); [done| |exact Hn|exact Hle| |exact H63|exact Hq|exact Hh|exact Hs|];
    [lia|lia|].
  exists text. split; [exact Ha|]. by eapply blockHeaders_answer_read.
Qed.

(** C28. Every POST request whose body is a JSON object and whose URL names a
    function is answered, with the status that [expected_code] reads off the request
    and the chain: 400 for an unknown function, missing or wrong parameters, and pages
    or lists of more than 1000 blocks; 500 for a negative page, an empty hash, a header that
    cannot be written, a dump of a block the chain does not have or that comes out
    empty, and errors while a dump is read (400 for a UserException); 200 otherwise, also with the error answer
    for a header the chain does not have - in a list of dumps, the first that cannot
    be sent decides.  The answers 400 and 500 are error documents with the request's
    id, the codes -32602 and -32603 and, for 400, the URL.  Nothing undefined happens,
    as long as dumps can be read without undefined behaviour.  (A GET, or a body that
    is no object, leaves a document whose members cannot be tested; get-statistic2 is
    left out, its clock difference can overflow.) *)
Theorem server_answers req stat m :
  chain_ok blockchain -> (forall bh f t h s, answers (sync_getBlockDump bh f t h s)) ->
  rq_method req = str "POST" -> rq_post req <> [] -> json_parse (c_str (rq_post req)) = Some (JObject m) ->
  drop 1 (rq_url req) <> str "get-statistic2" -> 1 < blen (rq_url req) ->
  exists resp, handle req stat = Ok resp /\
    rs_code resp = expected_code blockchain sync_getBlockDump (drop 1 (rq_url req)) m /\
    (rs_code resp = 400 -> exists msg,
       rs_data resp = genErrorResponse (id_of m) (-32602) (msg ++ str ". Url: " ++ rq_url req)) /\
    (rs_code resp = 500 -> exists msg, rs_data resp = genErrorResponse (id_of m) (-32603) msg).
Proof. intros Hc Hd Hm Hp Hj Hf Hu. by apply (handle_code blockchain). Qed.

(** The pages of [get-blocks]: forward from [i], the blocks i, i+1, ... of the
    chain, [n] of them or up to the last; backward from [i], the blocks i, i-1, ...
    down to block 1 at the latest. *)
Theorem server_pages n i :
  chain_ok blockchain -> countBlocks_ blockchain < 2 ^ 63 ->
  (0 <= i <= countBlocks_ blockchain + 1 ->
     exists l, blocks_forward blockchain n i (countBlocks_ blockchain) = Ok l /\
       headers_of blockchain (seqZ i (Z.min (Z.of_nat n) (countBlocks_ blockchain + 1 - i))) l) /\
  (i <= countBlocks_ blockchain ->
     exists l, blocks_back blockchain n i = Ok l /\ headers_of blockchain (down_from i n) l).
Proof.
  intros Hc H63. split; intros Hi; [by apply blocks_forward_spec; try lia|by apply blocks_back_spec].
Qed.

End server.

(** ** The sample server at work *)

Definition served_dump (bh : BlockHeader) (from to : Z) (isHex isSign : bool) : res bytes := Ok (str "dump").
Definition served_verify (text sign pubkey : bytes) : res bool := Ok true.

Definition served_handle (q : Query) : res Response :=
  @handle mini_json hex_support stored_lz4 BlockChain BlockChain_read served_chain served_dump served_verify
    (str "1") (str "sha") [] 0 (Ok 0) (Ok 0) (http_request q) SmallStatistic_new.

Lemma client_reads_server_block_witness :
  (exists text, served_handle (qs_block_by_number 1) = Ok (mkResponse text HTTP_STATUS_OK) /\
     @parseBlockHeader mini_json text =
       Ok (mkMinimumBlockHeader 1 100 (str "h1") GENESIS_BLOCK_HASH (str "blocks/1.blk"))) /\
  exists text e, served_handle (qs_block_by_number 2) = Ok (mkResponse text HTTP_STATUS_OK) /\
    @parseBlockHeader mini_json text = throwErr e.
Proof.
  split.
  - refine (proj1 (@client_reads_server_block mini_json hex_support stored_lz4 BlockChain BlockChain_read
      BlockChain_read_laws served_chain served_dump served_verify (str "1") (str "sha") [] 0 (Ok 0) (Ok 0) 1 SmallStatistic_new
      served_chain_ok ltac:(lia) _) served_block _ served_block_1 served_sendable _).
    + vm_compute. reflexivity.
    + vm_compute. discriminate.
    + intros v Hv. injection Hv as <-. vm_compute. reflexivity.
  - refine (proj2 (@client_reads_server_block mini_json hex_support stored_lz4 BlockChain BlockChain_read
      BlockChain_read_laws served_chain served_dump served_verify (str "1") (str "sha") [] 0 (Ok 0) (Ok 0) 2 SmallStatistic_new
      served_chain_ok ltac:(lia) _) _ _); vm_compute; reflexivity.
Defined.

Lemma client_reads_server_range_witness :
  exists text, served_handle (qs_blocks 1 1) = Ok (mkResponse text HTTP_STATUS_OK) /\
    @parseBlocksHeader mini_json text =
      Ok [mkMinimumBlockHeader 1 100 (str "h1") GENESIS_BLOCK_HASH (str "blocks/1.blk")].
Proof.
  refine (@client_reads_server_range mini_json hex_support stored_lz4 BlockChain BlockChain_read
    BlockChain_read_laws served_chain served_dump served_verify (str "1") (str "sha") [] 0 (Ok 0) (Ok 0) 1 1 [served_block]
    SmallStatistic_new served_chain_ok _ _ _ _ _ _ _ _).
  - lia.
  - lia.
  - vm_compute. discriminate.
  - vm_compute. reflexivity.
  - vm_compute. reflexivity.
  - constructor; [|constructor]. by split; [apply served_block_1|].
  - constructor; [apply served_sendable|constructor].
  - intros vs Hv. injection Hv as <-. vm_compute. reflexivity.
Defined.

Lemma server_answers_witness :
  (exists resp, served_handle (str "get-block-by-hash", js "{'params': {'hash': 7}}") = Ok resp /\ rs_code resp = 400) /\
  exists resp, served_handle (str "get-dump-block-by-number", js "{'params': {'number': 7}}") = Ok resp /\
    rs_code resp = 500.
Proof.
  split.
  - destruct (@server_answers mini_json hex_support stored_lz4 BlockChain BlockChain_read
      BlockChain_read_laws served_chain served_dump served_verify (str "1") (str "sha") [] 0 (Ok 0) (Ok 0)
      (http_request (str "get-block-by-hash", js "{'params': {'hash': 7}}"))
      SmallStatistic_new [(str "params", JObject [(str "hash", JInt 7)])] served_chain_ok)
      as (resp & Hr & Hcode & _); [done|reflexivity|discriminate|vm_compute; reflexivity|discriminate|reflexivity|].
    exists resp. split; [exact Hr|]. rewrite Hcode. vm_compute. reflexivity.
  - destruct (@server_answers mini_json hex_support stored_lz4 BlockChain BlockChain_read
      BlockChain_read_laws served_chain served_dump served_verify (str "1") (str "sha") [] 0 (Ok 0) (Ok 0)
      (http_request (str "get-dump-block-by-number", js "{'params': {'number': 7}}"))
      SmallStatistic_new [(str "params", JObject [(str "number", JInt 7)])] served_chain_ok)
      as (resp & Hr & Hcode & _); [done|reflexivity|discriminate|vm_compute; reflexivity|discriminate|reflexivity|].
    exists resp. split; [exact Hr|]. rewrite Hcode. vm_compute. reflexivity.
Defined.

Lemma server_pages_witness :
  exists l, @blocks_forward BlockChain BlockChain_read served_chain 10 0 1 = Ok l /\
    headers_of served_chain [0; 1] l.
Proof.
  refine (proj1 (@server_pages BlockChain BlockChain_read BlockChain_read_laws
    served_chain 10 0 served_chain_ok _) _); vm_compute; [reflexivity|split; discriminate].
Defined.

(** ** Blocks in files *)

(** C26. Blocks appended to a file with [saveBlockToFileBinary] are read back by
    the file source, in order, each with the bytes that were written and parsed
    at the place it was written to; then the source stands at the end of the file
    and remembers it as the place to go on from. *)
Theorem file_blocks_read_back `{Support} `{Crypto} `{Rapidjson} `{Fs} isInitialized base folderPath isValidate
    disk p done_ rest s :
  0 <= base < 2 ^ 63 -> p <> [] -> d_files disk !! p = Some (appended (done_ ++ rest)) ->
  blen (appended (done_ ++ rest)) < 2 ^ 62 -> Forall (fun d => 80 <= blen d) rest ->
  reading p done_ s -> remembered p done_ s ->
  (forall i d, rest !! i = Some d ->
     is_ok (parsed isInitialized base isValidate (blen (appended (done_ ++ take i rest))) d) = true) ->
  let '(s', l) := File_take isInitialized base folderPath isValidate (length rest) disk s in
  reading p (done_ ++ rest) s' /\ remembered p (done_ ++ rest) s' /\ l.*2 = rest /\
  forall i b, l !! i = Some b -> exists bi,
    parsed isInitialized base isValidate (blen (appended (done_ ++ take i rest))) b.2 = Ok bi /\ b.1 = in_file p bi.
Proof. intros Hb. by apply take_reading. Qed.

(** Reading a block from its place in a file and parsing the same bytes in
    memory are the same function, errors included: the same header, transactions
    and positions, and the bytes themselves. *)
Theorem file_and_memory_agree `{Support} `{Crypto} `{Rapidjson} isInitialized base pre d post bi dump0 v sa bt ct :
  0 <= base -> base + blen d + 8 < 2 ^ 64 -> 80 <= blen d ->
  blen (pre ++ frame d ++ post) < 2 ^ 62 ->
  readNextBlockInfo_file isInitialized base (pre ++ frame d ++ post) (blen pre) bi dump0 v sa bt ct
  = (b ← readNextBlockInfo base d isInitialized (blen pre) bi v sa bt ct;
     Ok (blen pre + blen (frame d), b, d)).
Proof. apply readNextBlockInfo_file_at. Qed.

(** A file with two blocks: a header of zeros and no transaction. *)
Definition zero_block : bytes := replicate 81 Byte.x00.
Definition two_file : bytes := str "d/1.blk".
Definition two_disk : Disk := mkDisk {[two_file := appended [zero_block; zero_block]]} (fun _ => [two_file]).
Definition two_source : FileSource :=
  mkFileSource {[@CroppedFileName flat_fs two_file := mkFileInfo (mkFilePosition 0 two_file)]} 0 (Some two_file) two_file.

Definition two_take (n : nat) : FileSource * list (BlockInfo * bytes) :=
  @File_take hex_support copy_crypto mini_json flat_fs true 1000 (str "d") true n two_disk two_source.

Lemma file_blocks_read_back_witness :
  (two_take 2).2.*2 = [zero_block; zero_block] /\ @remembered flat_fs two_file [zero_block; zero_block] (two_take 2).1.
Proof.
  pose proof (@file_blocks_read_back hex_support copy_crypto mini_json flat_fs true 1000 (str "d") true two_disk
    two_file [] [zero_block; zero_block] two_source) as H.
  change (File_take _ _ _ _ (length [zero_block; zero_block]) two_disk two_source) with (two_take 2) in H.
  destruct (two_take 2) as [s' l]. destruct H as (_ & Hm & Hl & _).
  - lia.
  - discriminate.
  - vm_compute. reflexivity.
  - vm_compute. reflexivity.
  - repeat constructor; vm_compute; discriminate.
  - split; [reflexivity|]. split; reflexivity.
  - unfold remembered, two_source. cbn [fb_allFiles]. apply lookup_singleton_eq.
  - intros [|[|i]] d; cbn [lookup list_lookup]; intros Hd; [| |discriminate Hd]; injection Hd as <-; vm_compute; reflexivity.
  - split; [exact Hl|exact Hm].
Defined.

Lemma file_and_memory_agree_witness :
  exists b, @readNextBlockInfo_file hex_support copy_crypto mini_json true 1000
    (str "xy" ++ frame zero_block ++ str "z") 2 BlockInfo_default [] true false 0 0 =
      Ok (91, b, zero_block) /\
    @readNextBlockInfo 1000 zero_block hex_support copy_crypto mini_json true 2 BlockInfo_default true false 0 0 = Ok b.
Proof.
  pose proof (@file_and_memory_agree hex_support copy_crypto mini_json true 1000 (str "xy") zero_block (str "z")
    BlockInfo_default [] true false 0 0 ltac:(lia) ltac:(vm_compute; reflexivity)
    ltac:(vm_compute; discriminate) ltac:(vm_compute; reflexivity)) as H.
  change (blen (str "xy")) with 2 in H. change (2 + blen (frame zero_block)) with 91 in H.
  assert (exists b, @readNextBlockInfo 1000 zero_block hex_support copy_crypto mini_json true 2
    BlockInfo_default true false 0 0 = Ok b) as [b Hb] by (eexists; vm_compute; reflexivity).
  exists b. split; [|exact Hb]. rewrite H, Hb. reflexivity.
Defined.
