(* ===== verification/NodeProps.v ===== *)
(** * What a running node promises

    The theorems about SyncImpl.cpp's thread over its sources of blocks: the
    round with the loop, the chain, the database, the files and the other nodes
    put together. *)
From S2P Require Import Prelude External MiniJson Instances Serialize Address BlockInfo BlockInfoCodec.
From S2P Require Import BlockChainInterface BlockChain BlockChainFacts LevelDb Cache Modules Workers BlockchainUtils.
From S2P Require Import PrivateKey BlockchainRead BlockchainReadFacts Sync SyncFacts.
From S2P Require Import P2P P2PFacts Graph Dumps JsonApi GetNewBlocks GetNewBlocksFacts NetworkSource.
From S2P Require Import NetworkSourceFacts HonestNet SampleNet FileSource FileSourceFacts SyncRun SyncRunFacts.
From S2P Require Import RetryFacts WorkersFacts WorkerThread LocalCache NodeFacts.
#[local] Open Scope Z_scope.

(** C4. One round over the network, end to end, of a node that does not hold blocks
    back for validation (validate off; module block on, users off): when the other nodes answer with the blocks they
    are asked for and these continue this node's chain - and the blocks are asked for one
    in a request, or in requests at least as large as the number of headers loaded
    ahead, as with the shipped 100 and 100 -, the loop refuses none of the blocks the
    source hands it.  Chain and database grow by the headers with the hashes the nodes
    announced for the next numbers, in order, with the size of the block and the name
    the nodes gave its file, under this node's folder, and stay consistent; the workers
    are handed these blocks with the nodes' bytes; every one is found in its block file
    at the place its header names; and the round ends without an exception exactly when
    the node has caught up with the last block announced. *)
Theorem node_follows_network `{SupportLaws} `{CryptoLaws} `{Rapidjson} `{Lz4} `{Fs} {D W : Type} `{KvLaws D}
    `{P2PNetLaws W} isInitialized maxAdvanced batch isCompress folderPath saveAllTx isValidate isVerifySign fuel
    base hdr dump_of m users save k (ns : NetSource) (w : W) (st : SyncState D) hs s1 more n size :
  batch_fits maxAdvanced batch -> honest_net batch isCompress isVerifySign fuel n hdr dump_of ->
  chain_served isInitialized folderPath saveAllTx isValidate isVerifySign base hdr dump_of hs n size ->
  consistent st hs -> has_module MODULE_BLOCK m = true -> has_module MODULE_USERS m = false ->
  blen hs < 2 ^ 62 -> 0 <= n < 2 ^ 62 -> 0 <= size < 2 ^ 62 -> n - blen hs < Z.of_nat k ->
  (forall name, blen (file_contents (ss_files st) name) + Z.max 0 (n - blen hs) * (8 + size) < 2 ^ 64) ->
  Network_doProcess (blen hs) (ns, w) = (s1, Ok (more, n)) ->
  let source := network_source (D := D) isInitialized maxAdvanced batch isCompress folderPath saveAllTx isValidate
    isVerifySign fuel base in
  let '(s', r) := @sync_round _ _ D _ _ source false m users save k ((ns, w), st) in
  let received := (take_blocks isInitialized maxAdvanced batch isCompress folderPath saveAllTx isValidate
    isVerifySign fuel base k s1).2 in
  exists pr, run_done save st s'.2 hs pr /\ pr.*2 = received.*2 /\
    blen pr <= Z.max 0 (n - blen hs) /\
    (forall i b, pr !! i = Some b ->
      let header := hdr (blen hs + 1 + Z.of_nat i) in
      bh_hash (bi_header b.1) = mh_hash header /\
      payload isInitialized isVerifySign (dump_of (mh_hash header)) b.2 /\
      bh_blockSize (bi_header b.1) = blen b.2 /\
      fp_fileName (bh_filePos (bi_header b.1)) = fs_join folderPath (fs_filename (mh_fileName header))) /\
    (r = Ok tt <-> blen pr = Z.max 0 (n - blen hs)).
Proof.
  intros Hfits Hh Hs Hc Hb Hu Hhs Hn Hsz Hk Hroom Hd.
  exact (round_follows isInitialized maxAdvanced batch isCompress folderPath saveAllTx isValidate isVerifySign fuel
    base Hfits n hdr dump_of Hh m users save k ns w st hs s1 more n size Hc Hb Hu Hhs ltac:(lia) ltac:(lia) Hsz Hk Hs Hroom Hd).
Qed.

(** The node of the table serves a chain that continues the empty one. *)
Lemma one_chain_served :
  @chain_served hex_support copy_crypto mini_json flat_fs true (str "d") false false false 1000
    one_hdr one_dump_of [] 1 81.
Proof.
  split; cbn zeta.
  - intros k d Hk ->. assert (k = 1) as -> by (unfold blen in Hk; cbn in Hk; lia). split; vm_compute; reflexivity.
  - intros k Hk. unfold one_hdr, one_header. cbn [mh_hash]. rewrite list_elem_of_singleton. by vm_compute.
  - intros j k Hj Hk _. unfold blen in *. cbn in *. lia.
  - intros k Hk. by split.
  - intros k Hk. done.
  - intros k bi d _ (bh0 & [-> ->] & _ & Hr). cbn zeta in Hr. vm_compute in Hr. injection Hr as <-. by vm_compute.
Qed.

Definition one_modules : Modules := [true; false; false; false; true; false; false; false].

(** A new database, with the settings the first start writes. *)
Definition one_db : list (bytes * bytes) := fst (@check_settings _ list_kv one_modules []).

Lemma one_db_ok : @kv_ok _ list_kv list_kv_laws one_db.
Proof. vm_compute. by repeat constructor. Qed.

Definition one_start : (NetSource * unit) * SyncState (list (bytes * bytes)) :=
  ((NetworkBlockSource, tt), mkSyncState one_db BlockChain_new ∅ []).

Definition one_round : ((NetSource * unit) * SyncState (list (bytes * bytes))) * res unit :=
  @sync_round hex_support flat_fs (list (bytes * bytes)) list_kv _
    (@network_source hex_support copy_crypto mini_json stored_lz4 flat_fs _ true unit (table_net one_table)
       5 1 false (str "d") false false false 1 1000)
    false one_modules [] true 3 one_start.

Lemma node_follows_network_witness :
  is_ok one_round.2 = true /\
  exists b, @run_done _ list_kv list_kv_laws true one_start.2 one_round.1.2 [] [b] /\
    bh_hash (bi_header b.1) = one_hash /\ b.2 = one_dump.
Proof.
  assert (is_ok one_round.2 = true) as E by (vm_compute; reflexivity). split; [exact E|].
  pose proof (@node_follows_network hex_support hex_support_laws copy_crypto copy_crypto_laws mini_json stored_lz4
    flat_fs (list (bytes * bytes)) unit list_kv list_kv_laws (table_net one_table) (table_net_laws one_table)
    true 5 1 false (str "d") false false false 1 1000 one_hdr one_dump_of
    one_modules [] true 3 NetworkBlockSource tt one_start.2 []
    (fst (@Network_doProcess mini_json unit (table_net one_table) 0 (NetworkBlockSource, tt))) true 1 81
    (fits_one 5 ltac:(lia)) one_net_honest one_chain_served
    (@consistent_init _ list_kv list_kv_laws one_db ∅ one_db_ok eq_refl eq_refl) eq_refl eq_refl
    ltac:(done) ltac:(lia) ltac:(lia) ltac:(done)
    ltac:(intros name; unfold file_contents; cbn [ss_files snd one_start]; rewrite lookup_empty; done)
    ltac:(vm_compute; reflexivity)) as Hx.
  cbn zeta in Hx. change (sync_round _ _ _ _ _ _) with one_round in Hx.
  destruct one_round as [s' r]. cbn [fst snd] in *. destruct Hx as (pr & Hrun & _ & _ & Hall & Hr).
  assert (r = Ok tt) as -> by (destruct r as [[]| | |]; [done|discriminate E..]).
  apply proj1 in Hr. specialize (Hr eq_refl). change (Z.max 0 (1 - blen [])) with 1 in Hr.
  destruct pr as [|b [|b' pr]]; [discriminate Hr| |].
  - exists b. split; [exact Hrun|]. by destruct (Hall 0%nat b eq_refl) as (? & ? & _).
  - exfalso. rewrite !blen_cons in Hr. pose proof (blen_nonneg pr). lia.
Defined.

(** ** A restart *)

(** C5. What the thread does before its first round, on a database it has used
    before: whatever the memory holds, the chain is rebuilt, consistent with
    the database; and each worker that remembers a block number is given, read
    from the block files, exactly the chain's blocks after that number, each
    once and in order - however far apart the workers were when the node
    stopped.  Each block has the transactions its bytes parse to, the number of
    its place in the chain and its place in the files; the source of new blocks
    is not asked for any. *)
Theorem start_resumes_workers `{Support} `{Crypto} `{Rapidjson} {D S : Type} `{KvLaws D} `{BlockSource D S}
    base isValidate m users hs ds bs (st : SyncState D) (src src' : S) mbi nodeTestInit workers chain0 :
  0 <= base < 2 ^ 63 -> has_module MODULE_BLOCK m = true -> has_module MODULE_USERS m = false ->
  check_settings m (ss_leveldb st) = (ss_leveldb st, Ok tt) ->
  (raw ← findMainBlock (ss_leveldb st); MainBlockInfo_deserialize raw) = Ok mbi ->
  make_workers m (mb_blockNumber mbi) nodeTestInit = Ok workers ->
  (forall w n, w ∈ workers -> getInitBlockNumber w = Some n -> 0 <= n < 2 ^ 62) ->
  bs_initialize (ss_leveldb st) src = (src', Ok tt) ->
  consistent st hs -> chain_in_files true base isValidate (ss_files st) hs ds bs -> blen hs < 2 ^ 62 ->
  exists chain',
    let started := mkSyncState (ss_leveldb st) chain' (ss_files st) (ss_processed st) in
    synchronize_start true base isValidate m users nodeTestInit
      (src, mkSyncState (ss_leveldb st) chain0 (ss_files st) (ss_processed st)) =
      ((src', started), Ok ((fun w => (w, missed bs w)) <$> workers)) /\
    consistent started hs.
Proof.
  intros Hbase Hm Hu Hset Hmain Hw Hn Hinit Hc Hf Hlen.
  by apply (start_eq true base isValidate m users Hbase Hu hs ds bs st src src' mbi nodeTestInit workers).
Qed.

(** The state the round left has the chain in its files. *)
Lemma one_round_done :
  exists h, @consistent _ list_kv list_kv_laws one_round.1.2 [h] /\
    held_in_file (ss_files one_round.1.2) h one_dump.
Proof.
  pose proof (@round_follows hex_support hex_support_laws copy_crypto copy_crypto_laws mini_json stored_lz4
    flat_fs (list (bytes * bytes)) list_kv list_kv_laws unit (table_net one_table) (table_net_laws one_table)
    true 5 1 false (str "d") false false false 1 1000 (fits_one 5 ltac:(lia)) 1 one_hdr one_dump_of one_net_honest
    one_modules [] true 3 NetworkBlockSource tt one_start.2 []
    (fst (@Network_doProcess mini_json unit (table_net one_table) 0 (NetworkBlockSource, tt))) true 1 81
    (@consistent_init _ list_kv list_kv_laws one_db ∅ one_db_ok eq_refl eq_refl) eq_refl eq_refl
    ltac:(done) ltac:(lia) ltac:(lia) ltac:(lia) ltac:(done) one_chain_served
    ltac:(intros name; unfold file_contents; cbn [ss_files snd one_start]; rewrite lookup_empty; done)
    ltac:(vm_compute; reflexivity)) as Hx.
  assert (is_ok one_round.2 = true) as E by (vm_compute; reflexivity).
  change (sync_round _ _ _ _ _ _) with one_round in Hx.
  destruct one_round as [s' r]. cbn [fst snd] in *. destruct Hx as (pr & Hrun & _ & _ & Hall & Hr).
  assert (r = Ok tt) as -> by (destruct r as [[]| | |]; [done|discriminate E..]).
  apply proj1 in Hr. specialize (Hr eq_refl). change (Z.max 0 (1 - blen [])) with 1 in Hr.
  destruct pr as [|b [|b' pr]]; [discriminate Hr| |].
  - exists (bi_header b.1). split; [exact (rd_consistent _ _ _ _ _ Hrun)|].
    destruct (Hall 0%nat b eq_refl) as (_ & Hd & _). unfold payload in Hd.
    pose proof (rd_files _ _ _ _ _ Hrun eq_refl b ltac:(by left)) as Hf.
    by rewrite Hd in Hf.
  - exfalso. rewrite !blen_cons in Hr. pose proof (blen_nonneg pr). lia.
Qed.

(** The block as it is read again. *)
Definition one_again (h : BlockHeader) : list (BlockInfo * bytes) :=
  match @FileSourceFacts.parsed hex_support copy_crypto mini_json true 1000 false 0 one_dump with
  | Ok bi => [(read_again 1 h bi, one_dump)]
  | _ => []
  end.

Lemma one_in_files h :
  @consistent _ list_kv list_kv_laws one_round.1.2 [h] ->
  held_in_file (ss_files one_round.1.2) h one_dump ->
  @chain_in_files hex_support copy_crypto mini_json true 1000 false (ss_files one_round.1.2) [h] [one_dump] (one_again h).
Proof.
  intros Hc Hf. assert (bh_filePos h = mkFilePosition 0 (str "d/d/1.blk")) as Hp.
  { destruct (consistent_header _ _ 0 h Hc eq_refl) as (k & Hk & Hb & Hs & _).
    assert (bc_hashes (ss_blockchain one_round.1.2) !! 1%nat = Some one_hash) as E by (vm_compute; reflexivity).
    rewrite E in Hk. injection Hk as Hh. symmetry in Hh.
    assert (bh_filePos k = bh_filePos h) as <- by (by injection Hs).
    rewrite Hh in Hb. vm_compute in Hb. by injection Hb as <-. }
  assert (exists bi, @FileSourceFacts.parsed hex_support copy_crypto mini_json true 1000 false 0 one_dump = Ok bi) as [bi Hbi]
    by (eexists; vm_compute; reflexivity).
  unfold one_again. rewrite Hbi. split; [done|done|..].
  - by intros [|i] h' d [= <-] [= <-].
  - intros h' ->%list_elem_of_singleton. rewrite Hp. split; [done|]. by vm_compute.
  - by intros d ->%list_elem_of_singleton.
  - intros [|i] h' d b [= <-] [= <-] [= <-]. exists bi. by rewrite Hp.
Qed.

Lemma one_settings :
  @check_settings _ list_kv one_modules (ss_leveldb one_round.1.2) = (ss_leveldb one_round.1.2, Ok tt).
Proof. vm_compute. reflexivity. Qed.

Lemma one_main_block :
  (raw ← @findMainBlock _ list_kv (ss_leveldb one_round.1.2); MainBlockInfo_deserialize raw) =
    Ok (mkMainBlockInfo 0 [] 0).
Proof. vm_compute. reflexivity. Qed.

Lemma one_again_length h : length (one_again h) = 1%nat.
Proof. vm_compute. reflexivity. Qed.

(** The source over the one node. *)
Definition one_source : BlockSource (list (bytes * bytes)) (NetSource * unit) :=
  @network_source hex_support copy_crypto mini_json stored_lz4 flat_fs _ true unit (table_net one_table)
    5 1 false (str "d") false false false 1 1000.

Lemma start_resumes_workers_witness :
  exists h chain', length (one_again h) = 1%nat /\
    @synchronize_start hex_support copy_crypto mini_json _ list_kv _ one_source true 1000 false one_modules [] None
      (NetworkBlockSource, tt, mkSyncState (ss_leveldb one_round.1.2) BlockChain_new (ss_files one_round.1.2) []) =
    (NetworkBlockSource, tt, mkSyncState (ss_leveldb one_round.1.2) chain' (ss_files one_round.1.2) [],
     Ok [(CacheWorker, []); (MainWorker 0, one_again h)]).
Proof.
  destruct one_round_done as (h & Hc & Hf). exists h.
  pose proof (one_in_files h Hc Hf) as Hin. pose proof one_settings as Hset.
  pose proof one_main_block as Hmain. pose proof (one_again_length h) as Hlen.
  revert Hin Hset Hmain Hlen Hc. generalize (one_again h). generalize one_round.1.2.
  intros st bs Hin Hset Hmain Hlen Hc.
  destruct (@start_resumes_workers hex_support copy_crypto mini_json _ _ list_kv list_kv_laws one_source
    1000 false one_modules [] [h] [one_dump] bs
    (mkSyncState (ss_leveldb st) (ss_blockchain st) (ss_files st) [])
    (NetworkBlockSource, tt) (NetworkBlockSource, tt)
    (mkMainBlockInfo 0 [] 0) None [CacheWorker; MainWorker 0] BlockChain_new
    ltac:(lia) eq_refl eq_refl Hset Hmain eq_refl) as (chain' & Hs & _).
  - intros w n [->|[->|[]%elem_of_nil]%elem_of_cons]%elem_of_cons; [discriminate|]. intros [= <-]. lia.
  - reflexivity.
  - exact (consistent_files _ _ _ _ Hc).
  - exact Hin.
  - done.
  - exists chain'. split; [exact Hlen|exact Hs].
Defined.

(** ** The main worker *)

(** C6. The synchronisation thread and the main worker's thread share one database
    and a queue of one place, and the node is stopped and started at any point.
    Whatever they did in whatever order - blocks of the network's chain taken up,
    pushed, their headers stored, blocks worked on, restarts that find the memory
    lost -, the number and the hash the worker stored are those of a block of the
    chain, at most one ahead of the chain in memory; what is in its queue and what
    the first thread still has to push are exactly the chain's next blocks, in
    order, none twice.  From there the pushes of these blocks and the worker's own
    turns alone, in any order, end, and end with the worker at the end of the
    chain. *)
Theorem worker_catches_up `{Support} `{Crypto} `{Rapidjson} `{Fs} {D S : Type} `{KvLaws D} `{BlockSource D S}
    base isValidate m users blocks (n0 n : NodeThreads D) :
  0 <= base < 2 ^ 63 -> has_module MODULE_BLOCK m = true -> has_module MODULE_USERS m = false ->
  good_chain base isValidate blocks -> fresh_node m n0 ->
  rtc (node_step base isValidate m users blocks) n0 n ->
  let last := (length (bc_hashes (ss_blockchain (nt_sync n))) - 1)%nat in
  exists w, worker_at blocks w n /\ (w <= last + 1)%nat /\
    (length (nt_queue n) <= MAIN_QUEUE_SIZE)%nat /\ length (nt_waiting n) = (last - w)%nat /\
    (forall i e, nt_waiting n !! i = Some e -> queued blocks (w + i) e) /\
    forall k n', nsteps drain_step k n n' ->
      (k <= 2 * (last - w))%nat /\
      ((exists n'', drain_step n' n'') \/ (nt_waiting n' = [] /\ worker_at blocks (Nat.max w last) n')).
Proof.
  intros. eapply reachable_worker; [..|eassumption|eassumption]; eassumption.
Qed.

(** The block of the node of the table, as the source hands it over. *)
Definition one_block : BlockInfo * bytes :=
  match @FileSourceFacts.parsed hex_support copy_crypto mini_json true 1000 false 0 one_dump with
  | Ok bi => (mkBlockInfo (set_bh_filePos (mkFilePosition 0 (str "d/d/1.blk")) (bi_header bi)) (bi_txs bi), one_dump)
  | _ => (BlockInfo_default, [])
  end.

Lemma one_good_chain :
  @good_chain flat_fs hex_support copy_crypto mini_json 1000 false [one_block].
Proof.
  split; unfold headers; cbn [fmap list_fmap].
  - intros h ->%list_elem_of_singleton. split.
    { do 6 (split; [by vm_compute|]). exists 0. by split; vm_compute. }
    all: by vm_compute.
  - by vm_compute.
  - apply NoDup_ListNoDup. vm_compute. repeat constructor; cbn; intuition discriminate.
  - done.
  - intros b ->%list_elem_of_singleton. by vm_compute.
  - intros b pos ->%list_elem_of_singleton _. split; by vm_compute.
Qed.

Definition one_node : NodeThreads (list (bytes * bytes)) :=
  mkNodeThreads (mkSyncState one_db BlockChain_new ∅ []) None [] []
    (mkAllCaches 10 10 Cache_empty Cache_empty Cache_empty
      (mkLocalCache (LocalCacheInternal_new 0) (LocalCacheInternal_new 0) true [] false false ∅)) 0 0.

Lemma one_node_fresh : @fresh_node _ list_kv list_kv_laws one_modules one_node.
Proof.
  split; try (vm_compute; reflexivity).
  - exact one_db_ok.
  - split; [by vm_compute|]. split; eexists; (split; [by vm_compute|done]).
  - by vm_compute.
Qed.

(** The node after it was handed the block. *)
Definition one_handed : NodeThreads (list (bytes * bytes)) :=
  hand_over one_modules [] true one_block one_node.

(** It pushes the block and the worker handles it. *)
Definition one_worked : NodeThreads (list (bytes * bytes)) := worker_turn (push_next one_handed).

Lemma push_then_work {D} `{Kv D} (n : NodeThreads D) :
  nt_queue n = [] -> length (nt_pushing n) = 1%nat -> nsteps drain_step 2 n (worker_turn (push_next n)).
Proof.
  intros Hq Hp. eapply nsteps_l; [apply drain_push; [by destruct (nt_pushing n)|rewrite Hq; cbn; unfold MAIN_QUEUE_SIZE; lia]|].
  apply nsteps_once, drain_work. unfold push_next. destruct (nt_pushing n) as [|e l]; [done|]. by rewrite Hq.
Qed.

Lemma drained_stuck {D} `{Kv D} (n n' : NodeThreads D) : nt_waiting n = [] -> ~ drain_step n n'.
Proof. intros [Hq Hp]%app_eq_nil [Hx|Hx _]; congruence. Qed.

Lemma worker_catches_up_witness :
  @worker_at _ list_kv [one_block] 0 one_handed /\ length (nt_pushing one_handed) = 1%nat /\
  @worker_at _ list_kv [one_block] 1 one_worked.
Proof.
  destruct (@worker_catches_up hex_support copy_crypto mini_json flat_fs (list (bytes * bytes)) (NetSource * unit)
    list_kv list_kv_laws one_source 1000 false one_modules [] [one_block] one_node one_handed
    ltac:(lia) eq_refl eq_refl one_good_chain one_node_fresh) as (w & Hw & _ & _ & Hlen & _ & Hrun).
  - apply rtc_once. eapply nstep_hand; [done|done|by vm_compute|].
    intros name. unfold file_contents. cbn [nt_sync one_node ss_files]. rewrite lookup_empty. by vm_compute.
  - assert (length (nt_waiting one_handed) = 1%nat) as E by (vm_compute; reflexivity).
    assert (length (nt_pushing one_handed) = 1%nat) as Ep by (vm_compute; reflexivity).
    assert (nt_queue one_handed = []) as Eq by (vm_compute; reflexivity).
    assert (nt_waiting one_worked = []) as Ew by (vm_compute; reflexivity).
    assert (length (bc_hashes (ss_blockchain (nt_sync one_handed))) = 2%nat) as E2 by (vm_compute; reflexivity).
    rewrite E, E2 in Hlen. destruct w as [|w]; [|cbn in Hlen; lia]. rewrite E2 in Hrun.
    split; [exact Hw|]. split; [exact Ep|].
    destruct (Hrun 2%nat one_worked (push_then_work one_handed Eq Ep)) as [_ [[n'' Hs]|[_ Hd]]]; [|exact Hd].
    by destruct (drained_stuck one_worked n'' Ew).
Defined.
