(* ===== verification/FullBlockProps.v ===== *)
(** * What a full block is

    The theorem about [WorkerMain::getFullBlock], from memory and from the
    block files. *)
From S2P Require Import Prelude External MiniJson Instances Serialize Address BlockInfo BlockInfoCodec.
From S2P Require Import BlockChainInterface BlockChain LevelDb Cache LocalCache Modules Workers BlockchainUtils.
From S2P Require Import BlockchainRead BlockchainReadFacts Sync SyncFacts FileSource FileSourceFacts.
From S2P Require Import WireProps SyncRun SyncRunFacts FullBlock.
#[local] Open Scope Z_scope.

(** C32. A block of the chain read with its transactions is that block, wherever it
    is read.  Its hash is the digest of the bytes in the block file, its parent and
    its size are theirs, it and its transactions carry the number of the header,
    and no more transactions are returned than were asked for.  Where the whole
    block is read, its first [c] transactions are what is read when [c] are asked
    for, and of the header only their number differs.  What is read from
    the dump in memory is read from the file as well, once the dump is gone. *)
Theorem full_block_exact `{Support} `{Crypto} `{Rapidjson} (isInitialized : bool) base_cache base_file m disk
    caches bh d n beginTx countTx bi :
  0 <= base_file -> base_file + blen d + 8 < 2 ^ 64 -> 80 <= blen d -> held_on_disk disk bh d ->
  cached_or_not caches bh d -> bh_blockNumber bh = Some n -> n <> 0 ->
  getFullBlock isInitialized base_cache base_file m caches disk bh beginTx countTx = Ok bi ->
  (bh_hash (bi_header bi) = dump_hash d /\ bh_prevHash (bi_header bi) = dump_prevHash d /\
   bh_blockSize (bi_header bi) = blen d /\ bh_blockNumber (bi_header bi) = Some n /\
   Forall (fun tx => ti_blockNumber tx = n) (bi_txs bi) /\ (0 < countTx -> blen (bi_txs bi) <= countTx)) /\
  (beginTx = 0 -> countTx = 0 -> forall c, 0 < c -> exists header,
    getFullBlock isInitialized base_cache base_file m caches disk bh 0 c =
      Ok (mkBlockInfo header (take (Z.to_nat c) (bi_txs bi))) /\
    set_bh_countTxs 0 header = set_bh_countTxs 0 (bi_header bi)) /\
  forall caches', getValue (bh_hash bh) (ac_blockDumpCache caches') = None ->
    getFullBlock isInitialized base_cache base_file m caches' disk bh beginTx countTx = Ok bi.
Proof.
  intros Hb Hbd Hd Hheld Hc Hn Hn0 Hr.
  destruct (full_block_eq isInitialized base_cache base_file m disk caches bh d n Hb Hbd Hd Hheld Hc Hn Hn0)
    as (base & v & Heq).
  pose proof Hr as Hread. rewrite Heq in Hread. apply bind_Ok_inv in Hread as (u & Hm & Hread).
  apply bind_Ok_inv in Hread as (bi0 & Hbi & [= <-]). split; [|split].
  - destruct (readNextBlockInfo_window _ _ _ _ _ _ _ _ _ _ Hbi) as (E1 & E2 & E3 & E4 & E5).
    cbn [bi_header bi_txs]. rewrite E2. do 4 (split; [done|]). split; [by apply Forall_fmap, Forall_true|].
    unfold blen. by rewrite length_fmap.
  - intros -> -> c Hc0. destruct (readNextBlockInfo_prefix _ _ _ _ _ _ _ _ _ Hc0 Hbi) as (h & Hw & Hh).
    exists h. rewrite Heq, Hm. cbn [mbind res_bind]. rewrite Hw. cbn [mbind res_bind bi_header bi_txs].
    split; [by rewrite <- fmap_take|exact Hh].
  - intros caches' Hc'. destruct (getValue (bh_hash bh) (ac_blockDumpCache caches)) as [d'|] eqn:Hg.
    + pose proof (Hc d' Hg) as ->. exact (full_block_le _ _ _ _ _ _ _ _ _ _ _ Hb Hbd Hd Hheld Hg Hc' _ Hr).
    + unfold getFullBlock in *. by rewrite Hg in Hr; rewrite Hc'.
Qed.

(** ** A block of one transaction *)

Definition full_dump (signature : bytes) : bytes :=
  replicate 80 Byte.x00 ++
  (let body := sample_clear ++ [z2b 32] ++ signature ++ [z2b 65] ++ copy_pubkey in z2b (blen body) :: body) ++
  [Byte.x00].

Definition full_header : BlockHeader :=
  set_bh_blockNumber (Some 7) (set_bh_hash (str "hash")
    (set_bh_filePos (mkFilePosition 3 (str "7.blk")) (bi_header BlockInfo_default))).

Definition full_disk (d : bytes) : Disk :=
  mkDisk {[ str "7.blk" := str "abc" ++ frame d ++ str "later" ]} (fun _ => []).

Definition full_caches (dump : option bytes) : AllCaches :=
  mkAllCaches 10 10 (mkCache (match dump with Some d => {[ str "hash" := d ]} | None => ∅ end) ∅)
    (mkCache ∅ ∅) (mkCache ∅ ∅)
    (mkLocalCache (LocalCacheInternal_new 0) (LocalCacheInternal_new 0) true [] false false ∅).

Definition full_modules : Modules := [true; false; false; false; true; false; false; false].

Definition full_read (cached on_disk : bytes) (keep : bool) : res BlockInfo :=
  @getFullBlock hex_support copy_crypto mini_json true 1000 2000 full_modules
    (full_caches (if keep then Some cached else None)) (full_disk on_disk) full_header 0 20.

Lemma full_disk_held d : blen d < 2 ^ 61 -> held_on_disk (full_disk d) full_header d.
Proof.
  intros Hl. split; [done|]. exists (str "abc"), (str "later"). split; [|split; [done|]].
  - unfold full_disk. cbn [d_files]. apply lookup_singleton_eq.
  - rewrite !blen_app, blen_frame. change (blen (str "abc")) with 3. change (blen (str "later")) with 5. lia.
Qed.

Lemma full_block_exact_witness :
  let d := full_dump (pad 32 sample_clear) in
  exists bi, full_read d d true = Ok bi /\ full_read d d false = Ok bi /\ bh_hash (bi_header bi) = dump_hash (H := hex_support) (H0 := copy_crypto) d /\
    length (bi_txs bi) = 1%nat.
Proof.
  cbn zeta. set (d := full_dump (pad 32 sample_clear)).
  assert (length <$> (bi_txs <$> full_read d d true) = Ok 1%nat) as Hlen by (vm_compute; reflexivity).
  destruct (full_read d d true) as [bi| | |] eqn:E; try discriminate Hlen.
  assert (blen d = 210) as Hd by (vm_compute; reflexivity).
  destruct (@full_block_exact hex_support copy_crypto mini_json true 1000 2000 full_modules (full_disk d)
    (full_caches (Some d)) full_header d 7 0 20 bi) as [(Hh & _) [_ Hfile]].
  - lia.
  - rewrite Hd. lia.
  - rewrite Hd. lia.
  - apply full_disk_held. rewrite Hd. lia.
  - intros d' Hg. cbn in Hg. rewrite lookup_singleton_eq in Hg. by injection Hg as <-.
  - reflexivity.
  - done.
  - exact E.
  - exists bi. split; [reflexivity|]. split; [exact (Hfile (full_caches None) eq_refl)|]. split; [exact Hh|].
    by injection Hlen.
Defined.

(** A transaction with another signature: refused in memory, returned from the file. *)
Lemma full_block_unchecked :
  let d := full_dump (replicate 32 Byte.x07) in
  full_read d d true = throwErr (str "Not validate") /\ is_ok (full_read d d false) = true.
Proof. split; vm_compute; reflexivity. Qed.

(** ** A window that does not begin at the first transaction *)

(** A transaction with [value] and [data] of the owner of the key to itself. *)
Definition self_clear (value : byte) (data : bytes) : bytes :=
  copy_address ++ [value; Byte.x02; Byte.x03; z2b (blen data)] ++ data.

Definition self_tx (value : byte) (data : bytes) : bytes :=
  let clear := self_clear value data in
  let body := clear ++ [z2b 32] ++ pad 32 clear ++ [z2b 65] ++ copy_pubkey in z2b (blen body) :: body.

(** A payment, then a transaction of nothing to its own sender. *)
Definition window_dump : bytes :=
  replicate 80 Byte.x00 ++ self_tx Byte.x05 (str "pay") ++ self_tx Byte.x00 (str "note") ++ [Byte.x00].

Definition window_read (beginTx : Z) : res BlockInfo :=
  @getFullBlock hex_support copy_crypto mini_json true 1000 2000 full_modules
    (full_caches (Some window_dump)) (full_disk window_dump) full_header beginTx 20.

(** The whole block has no signature transaction; the window from the second
    transaction on takes that one for it. *)
Lemma window_signature :
  (fun bi => (bh_signature (bi_header bi), length (bi_txs bi))) <$> window_read 0 = Ok ([], 2%nat) /\
  (fun bi => (bh_signature (bi_header bi), length (bi_txs bi))) <$> window_read 1 = Ok (str "note", 1%nat).
Proof. split; vm_compute; reflexivity. Qed.
