(* ===== verification/ConfigProps.v ===== *)
(** * What the configuration makes of the node

    The theorems about main.cpp and nslookup.cpp: the values the options arrive
    with, the settings a node does not start without, the server a name stands
    for, and how the program ends. *)
From S2P Require Import Prelude Text Nslookup External Ordered LevelDb Cache LocalCache Modules Workers.
From S2P Require Import P2P P2PLayers SyncRun FileSource Shutdown Config.
#[local] Open Scope Z_scope.

(** ** Widths *)

Definition is_int (z : Z) : Prop := - 2 ^ 31 <= z < 2 ^ 31.

(** An [int] survives its time as a [size_t]. *)
Lemma int_through_size z : is_int z -> to_i32 (u64 z) = z.
Proof.
  intros Hz. rewrite <- (to_i32_id z Hz) at 2. unfold to_i32, u64.
  by rewrite Z.mod_mod_divide by (exists (2 ^ 32); done).
Qed.

(** Megabytes in bytes: exact for a size, the wrapped number for a negative one. *)
Definition megabytes (z : Z) : Z := (if 0 <=? z then 0 else 2 ^ 64) + z * 2 ^ 20.

Lemma megabytes_u64 z : is_int z -> u64 (u64 (u64 z * 1024) * 1024) = megabytes z.
Proof.
  intros Hz. unfold is_int in Hz. unfold u64, megabytes.
  rewrite Z.mul_mod_idemp_l by lia. rewrite <- Z.mul_assoc. change (1024 * 1024) with (2 ^ 20).
  rewrite Z.mul_mod_idemp_l by lia. destruct (Z.leb_spec 0 z).
  - rewrite Z.mod_small by lia. lia.
  - rewrite <- (Z_mod_plus_full _ 1), Z.mod_small by lia. lia.
Qed.

Section config.
Context {Setting : Type} `{LibconfigLaws Setting} `{Support} `{Fs}.
Variable getHostName : res bytes.
Variable getMyIp2 : bytes -> res bytes.
Variables (inet_pton : bytes -> bool) (res_query : bytes -> DnsReply + bytes) (probe : nat -> bytes -> res Z).
Variable sort_results : list NsResult -> list NsResult.

#[local] Abbreviation arguments :=
  (main_arguments getHostName getMyIp2 inet_pton res_query probe sort_results).
#[local] Abbreviation run_main := (main getHostName getMyIp2 inet_pton res_query probe sort_results).

(** The setting [name] holds the integer [z]. *)
Definition int_setting (s : Setting) (name : bytes) (z : Z) : Prop :=
  exists v, cfg_lookup s name = Ok v /\ cfg_int v = Ok z.

(** [x] is the size the setting gives, or the default. *)
Definition sized (s : Setting) (name : bytes) (d x : Z) : Prop :=
  if cfg_exists s name then exists z, int_setting s name z /\ x = u64 z else x = d.

Lemma size_setting_ok s name x :
  size_setting s name = Ok x -> exists z, int_setting s name z /\ is_int z /\ x = u64 z.
Proof.
  unfold size_setting. intros Hs. apply bind_Ok_inv in Hs as (v & Hv & Hs). apply bind_Ok_inv in Hs as (z & Hz & [= <-]).
  exists z. split; [by exists v|]. split; [by apply (cfg_int_range v)|done].
Qed.

Lemma or_default_sized s name d x : or_default s name size_setting d = Ok x -> sized s name d x.
Proof.
  unfold or_default, sized. destruct (cfg_exists s name); [|by intros [= <-]].
  intros (z & Hz & _ & ->)%size_setting_ok. by exists z.
Qed.

(** ** What the arguments are made of *)

Record from_settings (s : Setting) (a : NodeArguments) : Prop := {
  fs_port : exists z, int_setting s (str "port") z /\ is_int z /\ na_port a = u64 z;
  fs_threads : exists z, int_setting s (str "count_threads") z /\ is_int z /\ na_countWorkers a = u64 z;
  fs_buffer : exists z, int_setting s (str "write_buffer_size_mb") z /\ is_int z /\
    lo_writeBufSizeMb (na_leveldbOpt a) = u64 z;
  fs_lru : exists z, int_setting s (str "lru_cache_mb") z /\ is_int z /\ lo_lruCacheMb (na_leveldbOpt a) = u64 z;
  fs_connections : exists z, int_setting s (str "count_connections") z /\ is_int z /\ z <> 0 /\
    ips_countConnections (na_p2p a) = Z.to_nat (u64 z);
  fs_advanced : sized s (str "advanced_load_blocks") 10 (go_maxAdvancedLoadBlocks (na_getterBlocksOpt a));
  fs_batch : sized s (str "count_blocks_in_batch") 1 (go_countBlocksInBatch (na_getterBlocksOpt a));
  fs_blocks : sized s (str "max_count_elements_block_cache") 0 (co_maxCountElementsBlockCache (na_cachesOpt a));
  fs_txs : sized s (str "max_count_blocks_txs_cache") 0 (co_maxCountElementsTxsCache (na_cachesOpt a));
}.

Lemma parseSettingsDb_ok s prefix d :
  parseSettingsDb s prefix = Ok (Some d) ->
  exists w l, size_setting s (prefix ++ str "write_buffer_size_mb") = Ok w /\
    size_setting s (prefix ++ str "lru_cache_mb") = Ok l /\ sd_writeBufSizeMb d = w /\ sd_lruCacheMb d = l.
Proof.
  unfold parseSettingsDb. destruct (cfg_exists _ _); [|done]. intros Hp.
  apply bind_Ok_inv in Hp as (w & Hw & Hp). apply bind_Ok_inv in Hp as (l & Hl & Hp).
  apply bind_Ok_inv in Hp as (f & _ & Hp). apply bind_Ok_inv in Hp as (c & _ & [= <-]). by exists w, l.
Qed.

Lemma optional_settings_ok s o :
  optional_settings s = Ok o ->
  sized s (str "advanced_load_blocks") 10 (os_maxAdvancedLoadBlocks o) /\
  sized s (str "count_blocks_in_batch") 1 (os_countBlocksInBatch o) /\
  sized s (str "max_count_elements_block_cache") 0 (co_maxCountElementsBlockCache (os_caches o)) /\
  sized s (str "max_count_blocks_txs_cache") 0 (co_maxCountElementsTxsCache (os_caches o)).
Proof.
  unfold optional_settings. intros Ho. res_inv. subst o. cbn. split_and!; by apply or_default_sized.
Qed.

Lemma read_servers_ok s n ips :
  read_servers inet_pton res_query probe sort_results s n = Ok ips ->
  ips_countConnections ips = Z.to_nat n /\ Z.to_nat n <> 0%nat.
Proof.
  unfold read_servers, P2P_Ips. intros Hs. apply bind_Ok_inv in Hs as (v & _ & Hs).
  destruct (cfg_isArray v); res_inv; subst ips; split; try done;
    by match goal with Hc : negb (_ =? 0)%nat = true |- _ => apply negb_true_iff, Nat.eqb_neq in Hc end.
Qed.

Lemma arguments_from_settings s a : arguments s = Ok a -> from_settings s a.
Proof.
  unfold main_arguments. intros Ha.
  apply bind_Ok_inv in Ha as (bd & _ & Ha). apply bind_Ok_inv in Ha as (folder & _ & Ha).
  apply bind_Ok_inv in Ha as (threads & Ht & Ha). apply bind_Ok_inv in Ha as (db & Hdb & Ha).
  apply bind_Ok_inv in Ha as (d & Hd & Ha). destruct db as [d'|]; [|done]. injection Hd as ->.
  apply bind_Ok_inv in Ha as (st & _ & Ha). apply bind_Ok_inv in Ha as (port & Hport & Ha).
  apply bind_Ok_inv in Ha as (from & _ & Ha). apply bind_Ok_inv in Ha as (conns & Hconns & Ha).
  do 2 apply bind_Ok_inv in Ha as (? & _ & Ha). apply bind_Ok_inv in Ha as (o & Ho & Ha).
  do 5 apply bind_Ok_inv in Ha as (? & _ & Ha). apply bind_Ok_inv in Ha as (ips & Hips & [= <-]).
  destruct (parseSettingsDb_ok _ _ _ Hdb) as (w & l & Hw & Hl & Ew & El).
  destruct (optional_settings_ok _ _ Ho) as (? & ? & ? & ?).
  destruct (read_servers_ok _ _ _ Hips) as [En Hn0].
  destruct (size_setting_ok _ _ _ Hconns) as (z & Hz & Hi & ->).
  split; cbn; rewrite ?Ew, ?El; try (by apply size_setting_ok); try done.
  exists z. split; [done|]. split; [done|]. split; [|done]. intros ->. by apply Hn0.
Qed.

(** C29. The integers of the configuration arrive where they are used.  The server
    listens on the port the file gives and the threads are as many as it says,
    though both pass through [size_t].  The buffers of the database are exactly
    the megabytes asked for, without overflow, when these are not negative; a
    negative number is not refused and becomes one close to 2^64.  The number of
    connections is never 0, and the window and the batches of the downloads are
    the numbers given, 10 and 1 when none is. *)
Theorem options_exact s a :
  arguments s = Ok a ->
  int_setting s (str "port") (server_port a) /\ int_setting s (str "count_threads") (synchronize_threads a) /\
  (exists buffer lru, int_setting s (str "write_buffer_size_mb") buffer /\ int_setting s (str "lru_cache_mb") lru /\
     db_write_buffer_size (LevelDb_options (na_leveldbOpt a)) = megabytes buffer /\
     db_block_cache (LevelDb_options (na_leveldbOpt a)) = megabytes lru /\
     (0 <= buffer -> 0 <= megabytes buffer < 2 ^ 51) /\ (buffer < 0 -> 2 ^ 64 - 2 ^ 51 <= megabytes buffer < 2 ^ 64)) /\
  ips_countConnections (na_p2p a) <> 0%nat /\
  sized s (str "advanced_load_blocks") 10 (go_maxAdvancedLoadBlocks (na_getterBlocksOpt a)) /\
  sized s (str "count_blocks_in_batch") 1 (go_countBlocksInBatch (na_getterBlocksOpt a)).
Proof.
  intros Ha. destruct (arguments_from_settings _ _ Ha) as [Hp Ht Hb Hl (z & _ & Hi & Hz & ->) Hadv Hbatch _ _].
  unfold server_port, synchronize_threads, LevelDb_options. cbn [db_write_buffer_size db_block_cache].
  destruct Hp as (p & Hp & Hpi & ->), Ht as (t & Ht & Hti & ->). rewrite !int_through_size by done.
  split; [done|]. split; [done|]. split; [|split; [|done]].
  - destruct Hb as (b & Hb & Hbi & ->), Hl as (l & Hl & Hli & ->). exists b, l. rewrite !megabytes_u64 by done.
    unfold megabytes, is_int in *. do 4 (split; [done|]). split; intros Hs.
    + rewrite (proj2 (Z.leb_le 0 b)) by lia. lia.
    + rewrite (proj2 (Z.leb_gt 0 b)) by lia. lia.
  - unfold is_int, u64 in *. intros E. pose proof (Z.mod_pos_bound z (2 ^ 64) ltac:(lia)).
    assert (z mod 2 ^ 64 = 0) as Hm by lia. apply Z.mod_divide in Hm as [q Hq]; [|lia]. lia.
Qed.

(** ** The settings a node needs *)

Create HintDb settings.

Definition required : list bytes :=
  [str "path_to_bd"; str "path_to_folder"; str "count_threads"; str "write_buffer_size_mb"; str "lru_cache_mb";
   str "is_bloom_filter"; str "is_checks"; str "port"; str "get_blocks_from_file"; str "count_connections";
   str "latency_file"; str "modules"; str "servers"].

Lemma lookup_exists s name v : cfg_lookup s name = Ok v -> cfg_exists s name = true.
Proof. intros Hv. by rewrite cfg_lookup_exists, Hv. Qed.
Lemma size_setting_exists s name z : size_setting s name = Ok z -> cfg_exists s name = true.
Proof. intros Hs. apply bind_Ok_inv in Hs as (v & Hv & _). by eapply lookup_exists. Qed.
Lemma bool_setting_exists s name b : bool_setting s name = Ok b -> cfg_exists s name = true.
Proof. intros Hs. apply bind_Ok_inv in Hs as (v & Hv & _). by eapply lookup_exists. Qed.
Lemma string_setting_exists s name t : string_setting s name = Ok t -> cfg_exists s name = true.
Proof. intros Hs. apply bind_Ok_inv in Hs as (v & Hv & _). by eapply lookup_exists. Qed.
#[local] Hint Resolve lookup_exists size_setting_exists bool_setting_exists string_setting_exists : settings.

Lemma parseSettingsDb_exists s prefix d :
  parseSettingsDb s prefix = Ok (Some d) ->
  Forall (fun name => cfg_exists s (prefix ++ name) = true)
    [str "write_buffer_size_mb"; str "lru_cache_mb"; str "is_bloom_filter"; str "is_checks"].
Proof.
  unfold parseSettingsDb. destruct (cfg_exists _ _) eqn:E; [|done]. intros Hp. res_inv.
  repeat (apply Forall_cons; split); eauto with settings.
Qed.

Lemma read_servers_exists s n ips :
  read_servers inet_pton res_query probe sort_results s n = Ok ips -> cfg_exists s (str "servers") = true.
Proof. intros Hs. apply bind_Ok_inv in Hs as (v & Hv & _). by eapply lookup_exists. Qed.
#[local] Hint Resolve read_servers_exists : settings.

Lemma arguments_exist s a : arguments s = Ok a -> Forall (fun name => cfg_exists s name = true) required.
Proof.
  unfold main_arguments, required. intros Ha.
  apply bind_Ok_inv in Ha as (bd & ? & Ha). apply bind_Ok_inv in Ha as (folder & ? & Ha).
  apply bind_Ok_inv in Ha as (threads & ? & Ha). apply bind_Ok_inv in Ha as (db & Hdb & Ha).
  apply bind_Ok_inv in Ha as (d & Hd & Ha). destruct db as [d'|]; [|done].
  apply parseSettingsDb_exists in Hdb. cbn [app] in Hdb.
  apply Forall_cons in Hdb as [? Hdb]. apply Forall_cons in Hdb as [? Hdb].
  apply Forall_cons in Hdb as [? Hdb]. apply Forall_cons in Hdb as [? _].
  apply bind_Ok_inv in Ha as (st & _ & Ha). apply bind_Ok_inv in Ha as (port & ? & Ha).
  apply bind_Ok_inv in Ha as (from & ? & Ha). apply bind_Ok_inv in Ha as (conns & ? & Ha).
  apply bind_Ok_inv in Ha as (host & _ & Ha). apply bind_Ok_inv in Ha as (latency & ? & Ha).
  apply bind_Ok_inv in Ha as (o & _ & Ha). apply bind_Ok_inv in Ha as (ms & ? & Ha).
  do 4 apply bind_Ok_inv in Ha as (? & _ & Ha). apply bind_Ok_inv in Ha as (ips & ? & _).
  repeat (apply Forall_cons; split); eauto with settings.
Qed.

(** ** Nothing undefined happens while the options are read *)

Hypothesis Hhost : answers getHostName.
Hypothesis Hip : forall url, answers (getMyIp2 url).
Hypothesis Hprobe : forall i serv, answers (probe i serv).

Lemma size_setting_answers s name : answers (size_setting s name).
Proof. unfold size_setting. auto using answers_bind, cfg_lookup_answers, cfg_int_answers, answers_Ok. Qed.
Lemma bool_setting_answers s name : answers (bool_setting s name).
Proof. unfold bool_setting. auto using answers_bind, cfg_lookup_answers, cfg_bool_answers. Qed.
Lemma string_setting_answers s name : answers (string_setting s name).
Proof. unfold string_setting. auto using answers_bind, cfg_lookup_answers, cfg_string_answers. Qed.
#[local] Hint Resolve size_setting_answers bool_setting_answers string_setting_answers cfg_lookup_answers
  cfg_string_answers : answers.

Lemma or_default_answers {A} s name (get : Setting -> bytes -> res A) x :
  (forall s name, answers (get s name)) -> answers (or_default s name get x).
Proof. intros Hg. unfold or_default. by case_match. Qed.
#[local] Hint Resolve or_default_answers : answers.

Lemma foldM_answers {A B} (f : B -> A -> res B) b l : (forall b x, answers (f b x)) -> answers (foldM f b l).
Proof. intros Hf. revert b. induction l as [|x l IH]; intros b; [done|]. cbn. by apply answers_bind. Qed.

Lemma parseSettingsDb_answers s prefix : answers (parseSettingsDb s prefix).
Proof. unfold parseSettingsDb. solve_answers. Qed.
Lemma optional_settings_answers s : answers (optional_settings s).
Proof. unfold optional_settings. solve_answers. Qed.
Lemma string_elements_answers s : answers (string_elements s).
Proof. apply foldM_answers. intros l v. solve_answers. Qed.
Lemma parseModules_answers l : answers (parseModules l).
Proof. apply foldM_answers. intros m x. unfold parse_module, throwErr. solve_answers. Qed.
Lemma substr_answers s from n : answers (substr s from n).
Proof. unfold substr. solve_answers. Qed.
Lemma stoi_answers s : answers (stoi s).
Proof. unfold stoi. solve_answers. Qed.
#[local] Hint Resolve parseSettingsDb_answers optional_settings_answers string_elements_answers parseModules_answers
  substr_answers stoi_answers : answers.

Lemma nsLookup_answers server : answers (nsLookup res_query server).
Proof.
  unfold nsLookup, throwErr. destruct (res_query server) as [reply|]; [|done].
  do 3 (apply answers_bind; [auto with answers|intros]). apply foldM_answers. intros l [[]|]; by cbn.
Qed.
Lemma probe_all_answers scheme port i l : answers (probe_all probe scheme port i l).
Proof.
  revert i. induction l as [|a l IH]; intros i; [done|]. cbn [probe_all]. apply answers_bind.
  - unfold probe_one. pose proof (Hprobe i (scheme ++ a ++ port_text port)) as [Hu Hf].
    destruct (probe i _) as [?|[]| |]; done.
  - intros pr _. apply answers_bind; [done|]. by intros.
Qed.
#[local] Hint Resolve nsLookup_answers probe_all_answers : answers.

Lemma getBestIp_answers address : answers (getBestIp inet_pton res_query probe sort_results address).
Proof. unfold getBestIp, url_parts, throwErr. solve_answers. Qed.
Lemma P2P_Ips_answers servers n : answers (P2P_Ips servers n).
Proof. unfold P2P_Ips. solve_answers. Qed.
#[local] Hint Resolve getBestIp_answers P2P_Ips_answers : answers.
Lemma read_servers_answers s n : answers (read_servers inet_pton res_query probe sort_results s n).
Proof. unfold read_servers. solve_answers. Qed.
#[local] Hint Resolve read_servers_answers : answers.
Lemma main_arguments_answers s : answers (arguments s).
Proof. unfold main_arguments, throwErr. solve_answers. Qed.

(** C31. A node is not started without its settings: when one of them is absent
    the program ends, with code 0, whatever the node would have done, and nothing
    undefined happens on the way, whatever the rest of the file holds; a file that
    cannot be read or parsed, or another number of arguments, ends it with -1. *)
Theorem settings_required root s name argc run :
  cfg_lookup root (str "Base") = Ok s -> name ∈ required -> cfg_exists s name = false ->
  run_main 2 (ConfigRoot root) run = Ok 0 /\ run_main 2 ParseException run = Ok (-1) /\
  run_main 2 FileIOException run = Ok (-1) /\ (argc <> 2 -> run_main argc (ConfigRoot root) run = Ok (-1)).
Proof.
  intros Hs Hin Hn. split; [|split; [done|split; [done|]]].
  - unfold main. cbn [Z.eqb Pos.eqb negb]. rewrite Hs. cbn [mbind res_bind].
    pose proof (main_arguments_answers s) as [Hu Hf]. destruct (arguments s) as [a| | |] eqn:E; try done.
    apply arguments_exist in E. rewrite Forall_forall in E. specialize (E name Hin). congruence.
  - intros Ha. unfold main. by rewrite (proj2 (Z.eqb_neq _ _)).
Qed.

End config.

(** ** The server a name stands for *)

(** C33. The node asks the server that answers first.  Of an address that is a host,
    with or without a scheme in front and a port behind: when the host is an IP
    address it is used as it is, whatever the resolver says; otherwise the server is
    one of the resolver's answers, with the scheme and the port of the address,
    and no other answer's request took less time, a request that failed counting
    as 999 seconds; without answers there is no server. *)
Theorem best_ip_chosen inet_pton res_query probe sort_results scheme host port :
  sorts sort_results -> colon_free scheme -> Byte.x3a ∉ host -> 0 <= port < 2 ^ 31 ->
  blen (url scheme host port) < 2 ^ 62 ->
  let best := getBestIp inet_pton res_query probe sort_results (url scheme host port) in
  (inet_pton host = true -> best = Ok (mkNsResult (url scheme host port) 0)) /\
  (inet_pton host = false -> nsLookup res_query host = Ok [] -> best = throwErr (str "Servers empty")) /\
  forall r, inet_pton host = false -> best = Ok r ->
    exists answers i a, nsLookup res_query host = Ok answers /\ answers !! i = Some a /\
      ns_server r = url scheme a port /\ time_of probe i (ns_server r) (ns_timeout r) /\
      forall j b, answers !! j = Some b -> exists ms, time_of probe j (url scheme b port) ms /\ ns_timeout r <= ms.
Proof.
  intros Hs Hsc Hh Hp Hl. pose proof (url_parts_url scheme host port Hsc Hh Hp Hl) as Hu.
  split; [|split].
  - intros Hip. unfold getBestIp. rewrite Hu. cbn [mbind res_bind]. by rewrite Hip.
  - intros Hip Hn. unfold getBestIp. rewrite Hu. cbn [mbind res_bind]. rewrite Hip, Hn. cbn [mbind res_bind probe_all].
    destruct (Hs []) as [He _]. apply Permutation_nil_r in He. by rewrite He.
  - intros r Hip Hr. by eapply getBestIp_chosen.
Qed.

(** ** A sample configuration *)

Inductive MiniSetting :=
  | MiniInt (z : Z)
  | MiniBool (b : bool)
  | MiniString (s : bytes)
  | MiniArray (l : list MiniSetting)
  | MiniGroup (l : list (bytes * MiniSetting)).

Definition mini_lookup (s : MiniSetting) (name : bytes) : res MiniSetting :=
  match s with
  | MiniGroup l =>
      match List.find (fun e => bool_decide (e.1 = name)) l with
      | Some e => Ok e.2
      | None => Throw (ExcStd (str "SettingNotFoundException"))
      end
  | _ => Throw (ExcStd (str "SettingTypeException"))
  end.

Definition wrong_type {A} : res A := Throw (ExcStd (str "SettingTypeException")).

#[local] Instance mini_config : Libconfig MiniSetting := {
  cfg_exists s name := is_ok (mini_lookup s name);
  cfg_lookup := mini_lookup;
  cfg_int s := match s with MiniInt z => if is_int32 z then Ok z else wrong_type | _ => wrong_type end;
  cfg_bool s := match s with MiniBool b => Ok b | _ => wrong_type end;
  cfg_string s := match s with MiniString t => Ok t | _ => wrong_type end;
  cfg_isArray s := match s with MiniArray _ => true | _ => false end;
  cfg_elements s := match s with MiniArray l => l | _ => [] end;
}.

#[local] Instance mini_config_laws : LibconfigLaws MiniSetting.
Proof.
  split; cbn; try done.
  - intros [y| | | |] z; try done. unfold is_int32. destruct (_ && _) eqn:E; [|done]. intros [= <-]. lia.
  - intros [| | | |l] name; cbn; try done. by case_match.
  - intros []; cbn; try done. by case_match.
  - by intros [].
  - by intros [].
Qed.

Definition mini_base : list (bytes * MiniSetting) :=
  [(str "path_to_bd", MiniString (str "db")); (str "path_to_folder", MiniString (str "blocks"));
   (str "count_threads", MiniInt 4); (str "write_buffer_size_mb", MiniInt 64); (str "lru_cache_mb", MiniInt (-1));
   (str "is_bloom_filter", MiniBool true); (str "is_checks", MiniBool false); (str "port", MiniInt 5795);
   (str "get_blocks_from_file", MiniBool false); (str "count_connections", MiniInt 2);
   (str "latency_file", MiniString []); (str "modules", MiniArray [MiniString (str "block"); MiniString (str "block_raw")]);
   (str "servers", MiniArray [MiniString (str "s1:5795"); MiniString (str "s2:5795")])].

#[local] Instance mini_support : Support :=
  {| toHex := id; fromHex := Ok; trim := id; toLower := id |}.
#[local] Instance mini_fs : Fs := {| fs_filename := id; fs_join f n := f ++ str "/" ++ n |}.

Definition faster (a b : NsResult) : Prop := ns_timeout a <= ns_timeout b.

#[local] Instance faster_dec : RelDecision faster.
Proof. intros a b. unfold faster. apply _. Defined.
#[local] Instance faster_trans : Transitive faster.
Proof. intros a b c. unfold faster. lia. Qed.
#[local] Instance faster_total : Total faster.
Proof. intros a b. unfold faster. lia. Qed.

Definition mini_sort : list NsResult -> list NsResult := merge_sort faster.

Lemma mini_sorts : sorts mini_sort.
Proof.
  intros l. split; [apply merge_sort_Permutation|]. apply (StronglySorted_merge_sort faster l).
Qed.

(** Two addresses for the name, the second of which answers first. *)
Definition mini_query (server : bytes) : DnsReply + bytes :=
  inl (mkDnsReply 100 0 true [Some (RR_A 16909060); Some (RR_A 84281096); Some RR_other] []).
Definition mini_probe (i : nat) (serv : bytes) : res Z :=
  match i with O => Ok 40 | 1%nat => Ok 15 | _ => throwErr (str "failed") end.

Definition mini_arguments : MiniSetting -> res NodeArguments :=
  main_arguments (Ok (str "host")) (fun _ => Ok (str "10.0.0.1")) (fun _ => false) mini_query mini_probe mini_sort.

Definition mini_values (a : NodeArguments) : Z * Z * Z :=
  (server_port a, db_write_buffer_size (LevelDb_options (na_leveldbOpt a)),
   db_block_cache (LevelDb_options (na_leveldbOpt a))).

Lemma mini_arguments_values : mini_values <$> mini_arguments (MiniGroup mini_base) = Ok (5795, 67108864, 18446744073708503040).
Proof. vm_compute. reflexivity. Qed.

Lemma options_exact_witness :
  exists a, mini_arguments (MiniGroup mini_base) = Ok a /\ mini_values a = (5795, 67108864, 18446744073708503040) /\
    int_setting (MiniGroup mini_base) (str "port") (server_port a).
Proof.
  pose proof mini_arguments_values as Hv. destruct (mini_arguments (MiniGroup mini_base)) as [a| | |] eqn:E; try discriminate Hv.
  exists a. split; [reflexivity|]. split; [change (Ok (mini_values a) = Ok (5795, 67108864, 18446744073708503040)) in Hv; congruence|].
  exact (proj1 (options_exact _ _ _ _ _ _ _ _ E)).
Defined.

Lemma settings_required_witness :
  main (Ok (str "host")) (fun _ => Ok (str "10.0.0.1")) (fun _ => false) mini_query mini_probe mini_sort
    2 (ConfigRoot (MiniGroup [(str "Base", MiniGroup (tail mini_base))])) (fun _ => UB) = Ok 0.
Proof.
  refine (proj1 (settings_required (Ok (str "host")) (fun _ => Ok (str "10.0.0.1")) (fun _ => false) mini_query
    mini_probe mini_sort _ _ _ _ (MiniGroup (tail mini_base)) (str "path_to_bd") 2 (fun _ => UB) _ _ _)).
  - done.
  - done.
  - by intros [|[|i]] serv.
  - reflexivity.
  - apply list_elem_of_here.
  - reflexivity.
Defined.

Lemma best_ip_chosen_witness :
  exists r, getBestIp (fun _ => false) mini_query mini_probe mini_sort (url None (str "name") 5795) = Ok r /\
    ns_server r = str "5.6.7.8:5795" /\ ns_timeout r = 15 /\
    exists ms, time_of mini_probe 0 (url None (str "1.2.3.4") 5795) ms /\ ns_timeout r <= ms.
Proof.
  eexists. split; [vm_compute; reflexivity|]. split; [reflexivity|]. split; [reflexivity|].
  destruct (proj2 (proj2 (best_ip_chosen (fun _ => false) mini_query mini_probe mini_sort None (str "name") 5795
    mini_sorts I ltac:(vm_compute; set_solver) ltac:(lia) ltac:(vm_compute; reflexivity)))
    (mkNsResult (str "5.6.7.8:5795") 15) eq_refl ltac:(vm_compute; reflexivity))
    as (answers & i & a & Hn & _ & _ & _ & Hm).
  apply (Hm 0%nat). injection Hn as <-. vm_compute. reflexivity.
Defined.

(** ** The end of the program *)

(** C30. After the stop signal the program ends, and ends safely, provided the
    HTTP library returns from [start] only when none of its threads is in a
    request.  Once the main thread has left the synchronisation and the signal was
    given, at most 58 accesses of the main thread and those of the server, in
    whatever order they come, change anything they share; the others are turns of
    the main thread's wait and requests turned away, of which there can be any
    number.  Until the main thread has gone, the next access of some thread, or
    the start of the server, changes something; and when it has gone, with the
    object all requests use, no request is past the test of the signal, nor will
    one ever be. *)
Theorem stopped_program_ends (start_returns : list Phase -> Prop) s n s' :
  (forall ts, start_returns ts -> Forall (eq Idle) ts) ->
  rtc (step start_returns) program_start s -> pr_main s = Waiting -> pr_stop s = true ->
  run start_returns n s s' ->
  (n <= 58)%nat /\ (pr_main s' = Returned \/ exists s'', step start_returns s' s'' /\ s'' <> s') /\
  (pr_main s' = Returned -> Serving ∉ pr_threads s').
Proof.
  intros Hret Hr Hm Hst Hn. pose proof (counting_reachable _ _ _ Hret counting_start Hr) as Hc.
  assert (stopping s) as Hs by (split; [done|split; [done|by left]]).
  destruct (stopping_run _ _ _ _ Hret Hs Hn) as [Hs' Hw]. pose proof (work_bound s Hc Hm).
  split; [unfold COUNT_THREADS in *; lia|]. split.
  - destruct (pr_main s') eqn:E; [right|right|by left]; apply stopping_moves; [done|congruence|done|congruence].
  - destruct Hs' as (_ & _ & [Hw'|[_ Hno]]); [congruence|done].
Qed.

(** A thread is answering a request when the signal comes. *)
Definition one_serving (main : MainPhase) (stop : bool) (p : Phase) (count : Z) : Program :=
  mkProgram stop false count (p :: replicate 7 Idle) Running main.

(** When [start] returns in these runs. *)
Definition all_idle (ts : list Phase) : Prop := Forall (eq Idle) ts.

Lemma one_serving_reached : rtc (step all_idle) program_start (one_serving Waiting true Serving 1).
Proof.
  eapply rtc_l; [by apply step_init|]. eapply rtc_l; [by apply (step_request _ _ 0)|].
  eapply rtc_l; [by apply (step_request _ _ 0)|]. eapply rtc_l; [by apply (step_request _ _ 0)|].
  eapply rtc_l; [by apply step_signal|]. apply rtc_once. exact (step_sync_stopped _ (one_serving Synchronizing true Serving 1) eq_refl eq_refl).
Qed.

(** The main thread looks in vain once, then the request ends. *)
Lemma one_serving_ends : run all_idle 3 (one_serving Waiting true Serving 1) (one_serving Returned true Idle 0).
Proof.
  eapply run_idle; [exact (step_wait _ (one_serving Waiting true Serving 1) eq_refl)|].
  eapply run_move; [by apply (step_request _ _ 0)|done|]. eapply run_move; [by apply (step_request _ _ 0)|done|].
  eapply run_move; [exact (step_wait _ (one_serving Waiting true Idle 0) eq_refl)|done|]. apply run_end.
Qed.

Lemma stopped_program_ends_witness :
  rtc (step all_idle) program_start (one_serving Waiting true Serving 1) /\
  Serving ∉ pr_threads (one_serving Returned true Idle 0).
Proof.
  split; [exact one_serving_reached|].
  exact (proj2 (proj2 (stopped_program_ends all_idle (one_serving Waiting true Serving 1) 3 (one_serving Returned true Idle 0)
    (fun _ H => H) one_serving_reached eq_refl eq_refl one_serving_ends)) eq_refl).
Defined.

(** Without the signal the wait protects nothing: when the synchronisation ends
    with an exception it reports - another set of modules in the database, say -,
    the main thread leaves as soon as it sees no request, and a request that
    comes then uses what the main thread has destroyed. *)
Lemma failed_program_unsafe : rtc (step all_idle) program_start (one_serving Returned false Serving 1).
Proof.
  eapply rtc_l; [by apply step_init|]. eapply rtc_l; [by apply step_sync_failed|].
  eapply rtc_l; [by apply step_wait|]. eapply rtc_l; [by apply (step_request _ _ 0)|].
  eapply rtc_l; [by apply (step_request _ _ 0)|]. apply rtc_once. by apply (step_request _ _ 0).
Qed.
