(* ===== verification/ReplicaProps.v ===== *)
(** * What nodes that run this program promise each other

    The synchronisation thread of a node over the servers of nodes that run the
    same program: both ends of the protocol, the chain, the database and the
    block files of each. *)
From S2P Require Import Prelude External MiniJson Instances Serialize Address BlockInfo BlockInfoCodec.
From S2P Require Import BlockChainInterface BlockChain BlockChainFacts LevelDb Cache Modules Workers BlockchainUtils.
From S2P Require Import PrivateKey BlockchainRead BlockchainReadFacts Sync SyncFacts.
From S2P Require Import P2P P2PFacts Graph Dumps JsonApi Server ClientServer GetNewBlocks GetNewBlocksFacts.
From S2P Require Import NetworkSource NetworkSourceFacts HonestNet SampleNet Responsive HonestLive.
From S2P Require Import FileSource FileSourceFacts.
From S2P Require Import SyncRun SyncRunFacts RetryFacts NodeFacts NodeToNode NodeLive Replicas NodeProps.
#[local] Open Scope Z_scope.

(** C1. A node copies the chain of nodes that run the same program.  It asks for
    one block in a request (count_blocks_in_batch 1, the value a configuration
    without that line gets) or for batches at least as large as the number of
    headers loaded ahead, as with the shipped 100 and 100, and holds no block back
    for validation (validate off; module block on, users off).  When every answer it
    gets was made by a node whose chain begins with the headers [hs] and whose files
    hold the blocks [ds] - through the handler of its HTTP server, from its memory or
    its files, signed or compressed as asked, one by one or several in an answer -,
    when the requests, headers and blocks go over the wire and leave room in its
    files, and the node itself holds the first of these blocks, then after a round it
    holds at least as many of them: the same hashes in the same order, the same bytes
    in its own block files at the places its headers name, chain and database
    consistent.  It holds all that was announced exactly when the round ended without
    an exception.  What it holds is what was asked of the nodes it copied from, so it
    can be copied from in turn. *)
Theorem chain_copied `{SupportLaws} `{CryptoLaws} `{Rapidjson} `{Lz4Laws} `{Fs} {D W : Type} `{KvLaws D}
    `{P2PNetLaws W} maxAdvanced batch isCompress folderPath saveAllTx isValidate isSign fuel base
    hs ds raws size m users k (ns : NetSource) (w : W) (st : SyncState D) mine s1 more n :
  batch_fits maxAdvanced batch -> blen hs < 2 ^ 62 -> wire_ok isSign isCompress hs ds raws ->
  batches_ok batch isSign isCompress fuel hs raws ->
  served_by_nodes (D := D) isSign hs ds raws ->
  holds_chain st mine (take (length mine) ds) -> bh_hash <$> mine `prefix_of` bh_hash <$> hs ->
  has_module MODULE_BLOCK m = true -> has_module MODULE_USERS m = false ->
  0 <= n <= blen hs -> 0 <= size < 2 ^ 62 -> n - blen mine < Z.of_nat k ->
  receivable folderPath saveAllTx isValidate isSign base hs ds raws size n ->
  (forall name, blen (file_contents (ss_files st) name) + Z.max 0 (n - blen mine) * (8 + size) < 2 ^ 64) ->
  Network_doProcess (blen mine) (ns, w) = (s1, Ok (more, n)) ->
  let source := network_source (D := D) true maxAdvanced batch isCompress folderPath saveAllTx isValidate
    isSign fuel base in
  let '(s', r) := @sync_round _ _ D _ _ source false m users true k ((ns, w), st) in
  exists mine', holds_chain s'.2 mine' (take (length mine') ds) /\
    bh_hash <$> mine' `prefix_of` bh_hash <$> hs /\
    blen mine <= blen mine' <= Z.max n (blen mine) /\
    (r = Ok tt <-> blen mine' = Z.max n (blen mine)).
Proof.
  intros Hfits Hlen Hwire Hbatches Hnodes Hh Hpre Hb Hu Hn Hsz Hk Hre Hroom Hd.
  exact (round_copies maxAdvanced batch isCompress folderPath saveAllTx isValidate isSign fuel base Hfits hs ds raws
    size Hlen Hwire Hbatches Hnodes m users k ns w st mine s1 more n Hh Hpre Hb Hu Hn Hsz Hk Hre Hroom Hd).
Qed.

(** C2. Under the conditions of chain_copied - blocks asked for one at a time or a
    whole load at once, validate off; module block on, users off - nodes that answer
    are copied to the end: when, besides, every request that the nodes can answer is
    answered - whatever threads of a download take it, in whatever order, from
    whichever of the servers -, the layer has servers to ask and the blocks can be
    read, the round ends without an exception and the node holds every block that was
    announced, up to the last. *)
Theorem chain_copied_whole `{SupportLaws} `{CryptoLaws} `{Rapidjson} `{Lz4Laws} `{Fs} {D W : Type} `{KvLaws D}
    `{P2PNetLive W} maxAdvanced batch isCompress folderPath saveAllTx isValidate isSign fuel base
    hs ds raws size m users k (ns : NetSource) (w : W) (st : SyncState D) mine s1 more n :
  batch_fits maxAdvanced batch -> 0 < maxAdvanced -> blen hs < 2 ^ 62 -> wire_ok isSign isCompress hs ds raws ->
  batches_ok batch isSign isCompress fuel hs raws ->
  served_by_nodes (D := D) isSign hs ds raws -> nodes_answer (D := D) isSign hs ds raws ->
  chain_readable folderPath saveAllTx isValidate isSign base hs raws ->
  holds_chain st mine (take (length mine) ds) -> bh_hash <$> mine `prefix_of` bh_hash <$> hs ->
  has_module MODULE_BLOCK m = true -> has_module MODULE_USERS m = false ->
  0 <= n <= blen hs -> 0 <= size < 2 ^ 62 -> n - blen mine < Z.of_nat k ->
  receivable folderPath saveAllTx isValidate isSign base hs ds raws size n ->
  (forall name, blen (file_contents (ss_files st) name) + Z.max 0 (n - blen mine) * (8 + size) < 2 ^ 64) ->
  Network_doProcess (blen mine) (ns, w) = (s1, Ok (more, n)) -> servers_askable s1.1 ->
  let source := network_source (D := D) true maxAdvanced batch isCompress folderPath saveAllTx isValidate
    isSign fuel base in
  let '(s', r) := @sync_round _ _ D _ _ source false m users true k ((ns, w), st) in
  r = Ok tt /\ exists mine', holds_chain s'.2 mine' (take (length mine') ds) /\
    bh_hash <$> mine' `prefix_of` bh_hash <$> hs /\ blen mine' = Z.max n (blen mine).
Proof.
  intros Hfits Hmax Hlen Hwire Hbatches Hnodes Hanswer Hread Hh Hpre Hb Hu Hn Hsz Hk Hre Hroom Hd Hask.
  exact (round_completes maxAdvanced batch isCompress folderPath saveAllTx isValidate isSign fuel base Hfits Hmax hs ds raws
    size Hlen Hwire Hbatches Hnodes Hanswer m users k ns w st mine s1 more n Hh Hpre Hb Hu Hn Hsz Hk Hre Hread Hroom Hd Hask).
Qed.

(** C3. Nodes that copy each other never disagree.  In a network where every node
    holds the first blocks of one chain, a step is a round of one node over another's
    server, or a restart.  A round asks for blocks one at a time or in batches at least
    as large as the number of headers loaded ahead, with validate off, module block on
    and users off; every answer is one the other node makes from what it holds; the
    requests, headers and blocks go over the wire and leave room in the files; apart from that its network layer,
    options, files and outcome - it may end with an exception after any block - are any.
    After any sequence of such steps, the hashes of one of any two nodes are the
    beginning of the other's, and for a block both hold, both files have the same bytes
    at the places their headers name, with that hash as the digest of the block. *)
Theorem nodes_agree `{SupportLaws} `{CryptoLaws} `{Rapidjson} `{Lz4Laws} `{Fs} {D : Type} `{KvLaws D}
    hashes dumps (nodes nodes' : list (SyncState D)) i j st1 st2 :
  replicas hashes dumps nodes -> rtc (net_step hashes dumps) nodes nodes' ->
  nodes' !! i = Some st1 -> nodes' !! j = Some st2 ->
  agree st1 st2.
Proof.
  intros Hr Hs. exact (replicas_agree hashes dumps nodes' i j st1 st2 (reachable_replicas hashes dumps _ _ Hr Hs)).
Qed.

(** ** A node that copies the node of one block *)

(** The node after its round, as a server, and its answers. *)
Definition one_node : @ServerNode (list (bytes * bytes)) :=
  mkServerNode one_round.1.2 one_modules (mkCache ∅ ∅) None (str "address") (str "1", str "sha") []
    SmallStatistic_new (0, Ok 0, Ok 0).

Definition node_serve (srv : bytes) (q : Query) : res bytes :=
  rs_data <$> @node_answer hex_support copy_crypto _ mini_json stored_lz4 one_node q.

Definition copy_round : ((NetSource * unit) * SyncState (list (bytes * bytes))) * res unit :=
  @sync_round hex_support flat_fs (list (bytes * bytes)) list_kv _
    (@network_source hex_support copy_crypto mini_json stored_lz4 flat_fs _ true unit (serve_net node_serve)
       2 2 false (str "e") false false false 2 1000)
    false one_modules [] true 3 ((NetworkBlockSource, tt), one_start.2).

(** The round is unfolded before it is run. *)
#[local] Strategy expand [copy_round].

(** The header of its block. *)
Definition one_fields (h : BlockHeader) : Prop :=
  bh_hash h = one_hash /\ bh_prevHash h = GENESIS_BLOCK_HASH /\ bh_blockSize h = 81 /\
  bh_filePos h = mkFilePosition 0 (str "d/d/1.blk").

Lemma one_node_header h :
  @consistent _ list_kv list_kv_laws one_round.1.2 [h] ->
  one_fields h.
Proof.
  intros Hc. destruct (consistent_header _ _ 0 h Hc eq_refl) as (k & Hk & Hb & Hs & _).
  assert (bc_hashes (ss_blockchain one_round.1.2) !! 1%nat = Some one_hash) as E by (vm_compute; reflexivity).
  rewrite E in Hk. injection Hk as Hh. symmetry in Hh. rewrite Hh in Hb. split; [done|].
  assert (bh_prevHash k = bh_prevHash h /\ bh_blockSize k = bh_blockSize h /\ bh_filePos k = bh_filePos h)
    as (<- & <- & <-) by (clear -Hs; by injection Hs).
  vm_compute in Hb. injection Hb as <-. split; [|split]; reflexivity.
Qed.

Lemma one_block_held fs h :
  one_fields h ->
  held_in_file fs h one_dump -> @block_held hex_support copy_crypto fs h one_dump.
Proof.
  intros (E1 & E2 & E3 & E4) Hf. split; [exact Hf|rewrite E1|rewrite E2|rewrite E3| |rewrite E4].
  - vm_compute. reflexivity.
  - vm_compute. reflexivity.
  - reflexivity.
  - vm_compute. discriminate.
  - discriminate.
Qed.

Lemma one_node_holds h :
  @consistent _ list_kv list_kv_laws one_round.1.2 [h] -> held_in_file (ss_files one_round.1.2) h one_dump ->
  @holds_chain hex_support copy_crypto _ list_kv list_kv_laws one_round.1.2 [h] [one_dump].
Proof.
  intros Hc Hf. pose proof (one_block_held _ h (one_node_header h Hc) Hf) as Hb.
  revert Hc Hb. generalize one_round.1.2. intros st Hc Hb. split; [exact Hc|].
  apply Forall2_cons_2; [exact Hb|apply Forall2_nil_2].
Qed.

(** The facts about its block that the wire needs. *)
Definition one_min : MinimumBlockHeader := mkMinimumBlockHeader 1 81 one_hash GENESIS_BLOCK_HASH (str "d/d/1.blk").

Lemma one_min_header h :
  one_fields h ->
  (forall k, 0 < k <= 1 -> chain_hdr [h] k = one_min) /\ chain_dump [h] [one_dump] one_hash = one_dump.
Proof.
  intros (E1 & E2 & E3 & E4). split.
  - intros k Hk. assert (k = 1) as -> by lia. change (chain_hdr [h] 1) with (min_header h 1).
    unfold min_header. by rewrite E1, E2, E3, E4.
  - rewrite <- E1. apply chain_dump_at with 0%nat; [apply NoDup_singleton|done..].
Qed.

Lemma one_document h :
  one_fields h ->
  header_document h 1 = JObject [(str "hash", JString one_hash); (str "prev_hash", JString GENESIS_BLOCK_HASH);
    (str "number", JInt 1); (str "size", JInt 81); (str "fileName", JString (str "d/d/1.blk"))].
Proof. intros (E1 & E2 & E3 & E4). unfold header_document. by rewrite E1, E2, E3, E4. Qed.

Lemma one_wire h :
  one_fields h ->
  @wire_ok mini_json stored_lz4 false false [h] [one_dump] [one_dump].
Proof.
  intros Hh. pose proof Hh as (E1 & E2 & E3 & E4). split.
  - intros [|i] h' [= <-]. change (1 + Z.of_nat 0) with 1. rewrite (one_document h Hh).
    split; vm_compute; reflexivity.
  - intros h' ->%list_elem_of_singleton. rewrite E1. vm_compute. reflexivity.
  - intros h' from to q ->%list_elem_of_singleton. rewrite E3. intros Hl. vm_compute in Hl. discriminate.
  - intros raw ->%list_elem_of_singleton. vm_compute. reflexivity.
  - intros d n ->%list_elem_of_singleton Hl. vm_compute in Hl. discriminate.
  - discriminate.
  - intros raw ->%list_elem_of_singleton. vm_compute. reflexivity.
  - discriminate.
Qed.

(** Loads of two blocks, asked for at once. *)
Lemma two_fits : batch_fits 2 2.
Proof. unfold batch_fits. lia. Qed.

Lemma one_batches h :
  one_fields h -> @batches_ok mini_json stored_lz4 2 false false 2 [h] [one_dump].
Proof.
  intros Hh. pose proof Hh as (E1 & _). split.
  - right. split; [lia|]. split; [lia|reflexivity].
  - intros n count Hn Hc Hle. rewrite blen_cons, blen_nil in Hle. lia.
  - intros l Hl Hin. cbn [fmap list_fmap] in Hin. rewrite E1 in Hin.
    assert (l = [one_hash; one_hash]) as ->.
    { destruct l as [|a [|b [|c l]]]; rewrite ?blen_cons, ?blen_nil in Hl; [lia|lia| |pose proof (blen_nonneg l); lia].
      apply Forall_cons in Hin as [->%list_elem_of_singleton Hin].
      by apply Forall_cons in Hin as [->%list_elem_of_singleton _]. }
    destruct (one_min_header h Hh) as [_ Hd]. split; [vm_compute; reflexivity|].
    cbn [fmap list_fmap]. rewrite Hd. split; [vm_compute; reflexivity|]. split; [vm_compute; reflexivity|]. discriminate.
Qed.

Lemma one_receivable h :
  one_fields h ->
  @receivable hex_support copy_crypto flat_fs mini_json (str "e") false false false 1000
    [h] [one_dump] [one_dump] 81 1.
Proof.
  intros Hh. destruct (one_min_header h Hh) as [Hk Hd]. split.
  - intros d ->%list_elem_of_singleton. vm_compute. discriminate.
  - intros h' ->%list_elem_of_singleton. destruct Hh as (_ & _ & _ & ->). split; vm_compute; discriminate.
  - intros k bi d Hkn. rewrite (Hk k Hkn). cbn [mh_hash one_min]. rewrite Hd.
    intros (bh0 & [-> ->] & _ & Hr). cbn zeta in Hr. vm_compute in Hr. injection Hr as <-. by vm_compute.
Qed.

Lemma one_node_files name : blen (file_contents (ss_files one_round.1.2) name) < 2 ^ 62.
Proof.
  assert (forall fs : Files, bool_decide (map_Forall (fun _ c => blen c < 2 ^ 62) fs) = true ->
    blen (file_contents fs name) < 2 ^ 62) as Hall.
  { intros fs Hf. apply bool_decide_eq_true in Hf. unfold file_contents.
    destruct (fs !! name) as [c|] eqn:Hc; [exact (Hf name c Hc)|reflexivity]. }
  apply Hall. vm_compute. reflexivity.
Qed.

Lemma one_node_serves h :
  @consistent _ list_kv list_kv_laws one_round.1.2 [h] -> held_in_file (ss_files one_round.1.2) h one_dump ->
  @serves hex_support copy_crypto _ list_kv list_kv_laws false one_node [h] [one_dump] [one_dump].
Proof.
  intros Hc Hf. destruct (one_node_header h Hc) as (E1 & E2 & E3 & E4).
  pose proof (one_node_holds h Hc Hf) as Hh. clear Hc Hf. split.
  - exists [], []. split; [exact Hh|reflexivity].
  - split; [|split]; reflexivity.
  - exact one_node_files.
  - intros i h' d d' _ _. cbn [sn_blockDumpCache one_node]. unfold getValue. cbn [c_map].
    rewrite lookup_empty. discriminate.
  - apply Forall2_cons_2; [reflexivity|apply Forall2_nil_2].
  - vm_compute. reflexivity.
  - intros h' ->%list_elem_of_singleton. rewrite E1, E2, E4. vm_compute. split; [|split]; reflexivity.
Qed.

Lemma one_node_net h :
  @consistent _ list_kv list_kv_laws one_round.1.2 [h] -> held_in_file (ss_files one_round.1.2) h one_dump ->
  @served_by_nodes hex_support copy_crypto _ list_kv list_kv_laws mini_json stored_lz4 unit (serve_net node_serve)
    (serve_net_laws node_serve) false [h] [one_dump] [one_dump].
Proof.
  intros Hc Hf. pose proof (one_node_serves h Hc Hf) as Hs. split; [exists one_node; exact Hs|].
  intros srv q response Hr. change (Ok response = node_serve srv q) in Hr. unfold node_serve in Hr.
  exists one_node. destruct (node_answer one_node q) as [resp| | |]; try discriminate Hr.
  exists resp. split; [exact Hs|]. split; [reflexivity|]. by injection Hr.
Qed.

Definition copy_doProcess : (NetSource * unit) * res (bool * Z) :=
  @Network_doProcess mini_json unit (serve_net node_serve) 0 (NetworkBlockSource, tt).

Lemma copy_round_ok : is_ok copy_round.2 = true.
Proof. vm_compute. reflexivity. Qed.

Lemma copy_doProcess_ok :
  @Network_doProcess mini_json unit (serve_net node_serve) (blen (@nil BlockHeader)) (NetworkBlockSource, tt) =
    (fst copy_doProcess, Ok (true, 1)).
Proof. vm_compute. reflexivity. Qed.

Lemma copy_start_holds :
  @holds_chain hex_support copy_crypto _ list_kv list_kv_laws one_start.2 [] (take (length (@nil BlockHeader)) [one_dump]).
Proof.
  split; [|apply Forall2_nil_2].
  exact (@consistent_init _ list_kv list_kv_laws one_db ∅ one_db_ok eq_refl eq_refl).
Qed.

Lemma copy_start_room name :
  blen (file_contents (ss_files one_start.2) name) + Z.max 0 (1 - blen (@nil BlockHeader)) * (8 + 81) < 2 ^ 64.
Proof. unfold file_contents. cbn [ss_files snd one_start]. rewrite lookup_empty. reflexivity. Qed.

(** What the theorem says of a round that ended well. *)
Lemma copied_one (x : ((NetSource * unit) * SyncState (list (bytes * bytes))) * res unit) h :
  is_ok x.2 = true -> one_fields h ->
  (let '(s', r) := x in
   exists mine', @holds_chain hex_support copy_crypto _ list_kv list_kv_laws s'.2 mine' (take (length mine') [one_dump]) /\
     bh_hash <$> mine' `prefix_of` bh_hash <$> [h] /\
     blen (@nil BlockHeader) <= blen mine' <= Z.max 1 (blen (@nil BlockHeader)) /\
     (r = Ok tt <-> blen mine' = Z.max 1 (blen (@nil BlockHeader)))) ->
  exists h', @holds_chain hex_support copy_crypto _ list_kv list_kv_laws x.1.2 [h'] [one_dump] /\ bh_hash h' = one_hash.
Proof.
  destruct x as [s' r]. cbn [fst snd]. intros Hok Hh (mine & Hm & Hp & _ & Hr).
  assert (r = Ok tt) as -> by (destruct r as [[]| | |]; [reflexivity|discriminate Hok..]).
  apply proj1 in Hr. specialize (Hr eq_refl). change (Z.max 1 (blen [])) with 1 in Hr.
  destruct mine as [|h' [|h2 mine]]; [discriminate Hr| |].
  - exists h'. split; [exact Hm|]. apply prefix_cons_inv_1 in Hp. rewrite Hp. apply Hh.
  - exfalso. rewrite !blen_cons in Hr. pose proof (blen_nonneg mine). lia.
Qed.

Lemma whole_copied (x : ((NetSource * unit) * SyncState (list (bytes * bytes))) * res unit) h :
  (let '(s', r) := x in
   r = Ok tt /\ exists mine', @holds_chain hex_support copy_crypto _ list_kv list_kv_laws s'.2 mine' (take (length mine') [one_dump]) /\
     bh_hash <$> mine' `prefix_of` bh_hash <$> [h] /\ blen mine' = Z.max 1 (blen (@nil BlockHeader))) ->
  x.2 = Ok tt /\ exists h mine', @holds_chain hex_support copy_crypto _ list_kv list_kv_laws x.1.2 mine' (take (length mine') [one_dump]) /\
    bh_hash <$> mine' `prefix_of` bh_hash <$> [h] /\ blen mine' = Z.max 1 (blen (@nil BlockHeader)).
Proof. destruct x as [s' r]. intros [Hr Hm]. split; [exact Hr|]. by exists h. Qed.

Lemma chain_copied_witness :
  is_ok copy_round.2 = true /\
  exists h', @holds_chain hex_support copy_crypto _ list_kv list_kv_laws copy_round.1.2 [h'] [one_dump] /\
    bh_hash h' = one_hash.
Proof.
  split; [exact copy_round_ok|]. destruct one_round_done as (h & Hc & Hf).
  pose proof (one_node_header h Hc) as Hh. apply (copied_one copy_round h copy_round_ok Hh).
  exact (@chain_copied hex_support hex_support_laws copy_crypto copy_crypto_laws mini_json stored_lz4
    stored_lz4_laws flat_fs (list (bytes * bytes)) unit list_kv list_kv_laws (serve_net node_serve)
    (serve_net_laws node_serve) 2 2 false (str "e") false false false 2 1000 [h] [one_dump] [one_dump] 81
    one_modules [] 3 NetworkBlockSource tt one_start.2 [] (fst copy_doProcess) true 1
    two_fits ltac:(reflexivity) (one_wire h Hh) (one_batches h Hh) (one_node_net h Hc Hf) copy_start_holds (prefix_nil _) eq_refl eq_refl
    ltac:(vm_compute; split; discriminate) ltac:(lia) ltac:(vm_compute; reflexivity) (one_receivable h Hh)
    copy_start_room copy_doProcess_ok).
Defined.

(** The node answers what it can. *)
Lemma one_node_answers h :
  @consistent _ list_kv list_kv_laws one_round.1.2 [h] -> held_in_file (ss_files one_round.1.2) h one_dump ->
  @nodes_answer hex_support copy_crypto mini_json stored_lz4 _ list_kv list_kv_laws unit (serve_net node_serve)
    (serve_net_laws node_serve) false [h] [one_dump] [one_dump].
Proof.
  intros Hc Hf srv q Hall. specialize (Hall one_node (one_node_serves h Hc Hf)).
  split; [by eexists|]. intros reply ->. unfold node_serve. by destruct (node_answer one_node q).
Qed.

Lemma one_readable h :
  one_fields h ->
  @chain_readable hex_support copy_crypto mini_json flat_fs (str "e") false false false 1000 [h] [one_dump].
Proof.
  intros Hh k Hk. destruct (one_min_header h Hh) as [Hm Hd]. rewrite (Hm k Hk). cbn [mh_hash one_min]. rewrite Hd.
  eexists _, one_dump, (bi_header BlockInfo_default). split; [by split|]. split; [reflexivity|].
  cbv zeta. vm_compute. reflexivity.
Qed.

Lemma copy_doProcess_servers : ns_servers (fst copy_doProcess).1 = [str "s1"].
Proof. vm_compute. reflexivity. Qed.

Lemma copy_servers_askable :
  @servers_askable unit (serve_net node_serve) (serve_net_laws node_serve) (fst copy_doProcess).1.
Proof.
  unfold servers_askable. rewrite copy_doProcess_servers.
  split; [|exists (str "s1"); split; [reflexivity|]]; exists [str "s1"]; split; [reflexivity|done|reflexivity|done].
Qed.

Lemma chain_copied_whole_witness :
  copy_round.2 = Ok tt /\
  exists h mine', @holds_chain hex_support copy_crypto _ list_kv list_kv_laws copy_round.1.2 mine' (take (length mine') [one_dump]) /\
    bh_hash <$> mine' `prefix_of` bh_hash <$> [h] /\ blen mine' = Z.max 1 (blen (@nil BlockHeader)).
Proof.
  destruct one_round_done as (h & Hc & Hf). pose proof (one_node_header h Hc) as Hh.
  apply (whole_copied copy_round h).
  exact (@chain_copied_whole hex_support hex_support_laws copy_crypto copy_crypto_laws mini_json stored_lz4
    stored_lz4_laws flat_fs (list (bytes * bytes)) unit list_kv list_kv_laws (serve_net node_serve)
    (serve_net_laws node_serve) (serve_net_live node_serve) 2 2 false (str "e") false false false 2 1000 [h] [one_dump]
    [one_dump] 81 one_modules [] 3 NetworkBlockSource tt one_start.2 [] (fst copy_doProcess) true 1
    two_fits eq_refl ltac:(reflexivity) (one_wire h Hh) (one_batches h Hh) (one_node_net h Hc Hf) (one_node_answers h Hc Hf) (one_readable h Hh)
    copy_start_holds (prefix_nil _) eq_refl eq_refl
    ltac:(vm_compute; split; discriminate) ltac:(lia) ltac:(vm_compute; reflexivity) (one_receivable h Hh)
    copy_start_room copy_doProcess_ok copy_servers_askable).
Defined.

(** ** The two nodes as a network *)

Definition replica_nodes : list (SyncState (list (bytes * bytes))) := [one_round.1.2; one_start.2].

Definition replica_nodes' : list (SyncState (list (bytes * bytes))) := [one_round.1.2; copy_round.1.2].

Lemma one_copy_of h :
  @consistent _ list_kv list_kv_laws one_round.1.2 [h] -> held_in_file (ss_files one_round.1.2) h one_dump ->
  @copy_of hex_support copy_crypto _ list_kv list_kv_laws [one_hash] [one_dump] one_round.1.2 [h].
Proof.
  intros Hc Hf. split; [exact (one_node_holds h Hc Hf)|].
  destruct (one_node_header h Hc) as (E & _). cbn [fmap list_fmap]. rewrite E. reflexivity.
Qed.

Lemma start_copy_of :
  @copy_of hex_support copy_crypto _ list_kv list_kv_laws [one_hash] [one_dump] one_start.2 [].
Proof. split; [exact copy_start_holds|apply prefix_nil]. Qed.

(** Its answers are all its own. *)
Definition answers_of (st : SyncState (list (bytes * bytes))) (h : BlockHeader) (srv : bytes) (q : Query)
    (response : bytes) : Prop :=
  exists nd resp, @serves hex_support copy_crypto _ list_kv list_kv_laws false nd [h] [one_dump] [one_dump] /\
    sn_state nd = st /\ @node_answer hex_support copy_crypto _ mini_json stored_lz4 nd q = Ok resp /\
    response = rs_data resp.

Lemma node_answers nd st h srv q response :
  sn_state nd = st -> @serves hex_support copy_crypto _ list_kv list_kv_laws false nd [h] [one_dump] [one_dump] ->
  Ok response = rs_data <$> @node_answer hex_support copy_crypto _ mini_json stored_lz4 nd q ->
  answers_of st h srv q response.
Proof.
  intros E Hs Hr. exists nd. destruct (node_answer nd q) as [resp| | |]; try discriminate Hr.
  exists resp. split; [exact Hs|]. split; [exact E|]. split; [reflexivity|]. by injection Hr.
Qed.

Lemma one_node_state : sn_state one_node = one_round.1.2.
Proof. unfold one_node. exact (eq_refl one_round.1.2). Qed.

Lemma one_answers h srv q response :
  @consistent _ list_kv list_kv_laws one_round.1.2 [h] -> held_in_file (ss_files one_round.1.2) h one_dump ->
  Ok response = node_serve srv q -> answers_of one_round.1.2 h srv q response.
Proof. intros Hc Hf. exact (node_answers one_node _ h srv q response one_node_state (one_node_serves h Hc Hf)). Qed.

Lemma one_copies h s' r :
  @consistent _ list_kv list_kv_laws one_round.1.2 [h] -> held_in_file (ss_files one_round.1.2) h one_dump ->
  copy_round = (s', r) ->
  @copies hex_support copy_crypto mini_json stored_lz4 flat_fs _ list_kv list_kv_laws
    [one_hash] [one_dump] one_round.1.2 [h] one_start.2 s'.2.
Proof.
  intros Hc Hf Hrun. unfold copy_round in Hrun.
  pose proof (one_node_header h Hc) as Hh. pose proof (one_node_serves h Hc Hf) as Hs.
  refine (copies_round [one_hash] [one_dump] one_round.1.2 [h] one_start.2 unit
    (serve_net node_serve) (serve_net_laws node_serve) 2 2 false (str "e")
    false false false 2 1000 [one_dump] 81 one_modules [] 3 NetworkBlockSource tt [] (fst copy_doProcess) true 1 s' r
    two_fits _ (one_wire h Hh) (one_batches h Hh) _ _ start_copy_of _ eq_refl eq_refl _ _ _ (one_receivable h Hh) copy_start_room
    copy_doProcess_ok Hrun).
  - reflexivity.
  - exists one_node. split; [exact Hs|exact one_node_state].
  - intros srv q response. exact (one_answers h srv q response Hc Hf).
  - cbn [length]. lia.
  - vm_compute. split; discriminate.
  - lia.
  - vm_compute. reflexivity.
Qed.

Lemma replica_nodes_replicas :
  @replicas hex_support copy_crypto _ list_kv list_kv_laws [one_hash] [one_dump] replica_nodes.
Proof.
  destruct one_round_done as (h & Hc & Hf). apply Forall_cons; split; [|apply Forall_cons; split; [|apply Forall_nil_2]].
  - exists [h]. exact (one_copy_of h Hc Hf).
  - exists []. exact start_copy_of.
Qed.

Lemma replica_nodes_step :
  @net_step hex_support copy_crypto mini_json stored_lz4 flat_fs _ list_kv list_kv_laws
    [one_hash] [one_dump] replica_nodes replica_nodes'.
Proof.
  destruct one_round_done as (h & Hc & Hf).
  refine (step_copy [one_hash] [one_dump] replica_nodes 1 0 one_start.2 one_round.1.2 [h] copy_round.1.2 eq_refl eq_refl
    (one_copy_of h Hc Hf) _).
  exact (one_copies h copy_round.1 copy_round.2 Hc Hf (surjective_pairing copy_round)).
Qed.

Lemma nodes_agree_witness :
  @agree hex_support copy_crypto _ one_round.1.2 copy_round.1.2.
Proof.
  exact (@nodes_agree hex_support hex_support_laws copy_crypto copy_crypto_laws mini_json stored_lz4 stored_lz4_laws
    flat_fs _ list_kv list_kv_laws [one_hash] [one_dump] replica_nodes replica_nodes' 0 1 one_round.1.2 copy_round.1.2
    replica_nodes_replicas (rtc_once _ _ replica_nodes_step) eq_refl eq_refl).
Defined.
